(* ===== verification/_CoqProject ===== *)
-Q . S2P
Prelude.v
DatabaseTime.v
JobStatus.v
Json.v
NetworkAddress.v
Schema.v
PrinterModel.v
Authority.v
Availability.v
Payload.v
PrinterVirtual.v
Capability.v
Entitlements.v
Inventory.v
Samples.v
DesiredState.v
JobProtocol.v
JobDelivery.v
JobMaintenance.v
AgentJobs.v
JobService.v
Lifecycle.v
Operator.v
Sessions.v
Cookies.v
RateLimit.v
CircuitBreaker.v
Pairing.v
Billing.v
BillingOperation.v
StripeClient.v
BillingCheckout.v
CheckoutRuns.v
Sockets.v
SocketFence.v
SocketMessages.v
Pipeline.v
Push.v
Heartbeat.v
HeartbeatRuns.v
Printers.v
Passwords.v
Accounts.v
Workspace.v
Login.v
Team.v
AccountRuns.v
AccountSafety.v
Discovery.v
Provision.v
DiscoveryRuns.v
RequestGuard.v
FrontDoor.v
OdooKeys.v
OdooJobs.v
