(* ===== verification/Prelude.v ===== *)
(** * Yaseir Gateway: verification library

    The gateway (directory [src/] of the repository) accepts print jobs from
    Odoo and from operators, keeps them in PostgreSQL, hands them to desktop
    agents over a WebSocket push or an HTTP poll, records what the agents report,
    and reconciles everything that got lost on the way. Around that pipeline it
    keeps accounts, teams, tenants, agents, sessions, rate limits and Stripe
    subscriptions. This library models those parts as pure functions on explicit
    database states and proves what makes them correct.

    ** How the code is modelled

    - A table is a [gmap] from its key to a record of its columns ([Schema],
      [Authority], [RateLimit], [Billing]); a nullable column is an [option]; a
      JSON column is a [json] value ([Json]).
    - A transaction is a function from the state it starts in to its result and
      the state it commits; a thrown error is [Err] and commits nothing
      ([result], [let*] and [do*] below). Row and advisory locks serialize
      transactions, so a concurrent history is a sequence of such calls in any
      order; reads that happen before the transaction take a state of their own
      ([d_read], [ae_prior], [ae_known]), which may be older.
    - Time is in milliseconds of [Z]. A [clock] has [now()] (fixed when the
      transaction starts) and [clock_timestamp()]; the application's [Date.now()]
      is an argument of its own, and theorems that mix the two state the skew
      they need.
    - [SKIP LOCKED] is a set of row ids the statement does not see; a [LIMIT] is
      a [nat] and the statement takes the first rows of the source's order.
    - Hashes, HMACs, random values, [Date.parse], the [URL] parser, base64, UTF-8
      length and the Stripe API are arguments. Theorems that need something of them say
      so as a hypothesis (for example injectivity of the digest), and their
      witnesses instantiate it.

    ** Files, and the sources they model (under [src/])

    - [Prelude]: notation, [result], tactics, JavaScript strings, SQL [LIKE],
      bulk updates and ordered selections over tables.
    - [DatabaseTime]: [lib/database-timestamp.ts], [lib/stale-threshold.ts].
    - [JobStatus]: [lib/job-status.ts], the status machine and late success.
    - [Json]: JSON values and [lib/canonicalize.ts].
    - [NetworkAddress]: [lib/network-address.ts].
    - [Schema]: the tables of [db/schema.ts] the pipeline uses, with the checks.
    - [PrinterModel]: [lib/printer-model.ts].
    - [Authority]: [lib/authorization.ts], [lib/manager-mutation-authorization.ts].
    - [Availability]: [lib/agent-availability.ts], [shared/job-vocabulary.ts].
    - [Payload]: validation in [lib/payload.ts].
    - [PrinterVirtual]: [lib/printer-virtual.ts], [lib/printer-virtual-sql.ts].
    - [Capability]: [lib/printer-capability.ts], [lib/routing.ts].
    - [Entitlements]: [lib/entitlements.ts].
    - [Inventory]: what a heartbeat says and when it is refused, in
      [app/api/agent/heartbeat/route.ts], with [lib/inventory-snapshot.ts] and
      [lib/printer-identity.ts].
    - [Samples]: one concrete gateway the witnesses run on.
    - [DesiredState]: [lib/desired-state-page.ts], [lib/fleet-cursor.ts],
      [app/api/agent/desired-state/route.ts].
    - [JobProtocol]: the abstract life of one job and the bound on its history.
    - [JobDelivery]: [lib/job-delivery.ts], [lib/job-fencing.ts].
    - [JobMaintenance]: [lib/job-maintenance.ts], [shared/job-retention.ts].
    - [AgentJobs]: [app/api/agent/jobs/route.ts].
    - [JobService]: [lib/print-job-service.ts].
    - [Lifecycle]: [lib/tenant-lifecycle.ts], [lib/agent-lifecycle.ts],
      [lib/tenant-guard.ts], [lib/lifecycle.ts].
    - [Operator]: [DELETE] of [app/api/jobs/route.ts], [deleteAgent] of
      [app/actions.ts].
    - [Sessions] and [Cookies]: [lib/session-tokens.ts].
    - [RateLimit]: [lib/auth-rate-limit.ts], [lib/ws-rate-limit.ts].
    - [CircuitBreaker]: [lib/circuit-breaker.ts].
    - [Pairing]: [app/api/agent/register/route.ts], [lib/agent-auth.ts].
    - [Billing]: [app/api/billing/webhook/route.ts].
    - [BillingOperation]: [lib/billing-operation.ts].
    - [StripeClient]: the request helpers of [lib/stripe.ts].
    - [BillingCheckout]: [app/api/billing/checkout/route.ts] and
      [app/api/billing/portal/route.ts]; [CheckoutRuns]: overlapping requests.
    - [Sockets], [SocketFence], [SocketMessages], [Push]: [server/ws.ts], in that
      order the registry of agent sockets, lifecycle notices, inbound messages
      and the delivery of jobs.
    - [Pipeline]: the step relation over all operations that touch jobs.
    - [Heartbeat]: the transaction and reply of [app/api/agent/heartbeat/route.ts];
      [HeartbeatRuns]: its pages in sequence.
    - [Printers]: [POST] of [app/api/printers/route.ts], [PATCH] of
      [app/api/printers/[id]/route.ts], [setPrinterLifecycle] of [app/actions.ts],
      and everything that writes the printer table together.
    - [Passwords]: [lib/password.ts], [lib/request-limits.ts], the legacy hash of
      [lib/manager-auth.ts].
    - [Accounts]: the routes [register], [verify-email], [resend-verification],
      [forgot-password] and [reset-password] of [app/api/auth].
    - [Workspace]: the checks at the door, [lib/manager-auth.ts] and
      [validateCustomer] of [lib/customer-auth.ts].
    - [Login]: sign-in and the choice of a workspace, [lib/customer-auth.ts] and
      the routes [login] and [select-tenant].
    - [Team]: [lib/team-authorization.ts] and the routes of [app/api/team].
    - [AccountRuns]: the runs of all of these; [AccountSafety]: what holds of them.
    - [Discovery]: [lib/discovery.ts], [lib/discovery-observation.ts],
      [lib/discovery-session-expiry.ts], [app/api/agent/discovery/route.ts] and
      the routes under [app/api/agents/[id]] that start, cancel and show a scan
      and approve a device; [Provision]: the route that makes it a printer;
      [DiscoveryRuns]: their runs.
    - [RequestGuard]: [server/request-guard.ts]; [FrontDoor]: [server.ts],
      [server/trusted-proxy.ts], [server/cors.ts], [lib/runtime-secret.ts] and
      [lib/trust-proxy-config.ts].

    ** What the theorems show

    - [Pipeline]: every operation of the gateway is a step; each step refines the
      abstract protocol of [JobProtocol] on each job. From that, by induction on
      reachable states: row well-formedness and key uniqueness, the budget of
      hand-outs and prints, finality of outcomes and receipts, that a success
      comes from a report of the claim holder, and that a request repeated under
      its idempotency key yields one job.
    - [JobDelivery], [AgentJobs], [JobMaintenance], [JobService], [Operator]: the
      exact effect of each operation and its fences, errors included.
    - [Authority], [Lifecycle], [Sessions], [Pairing]: who may act, and that
      suspension, revocation and replay end it.
    - [Passwords], [Workspace], [Login]: a password verifies against its own hash;
      the door admits whom the commit fence admits; a selection token opens one
      session.
    - [AccountRuns], [AccountSafety]: over any run of account, team, session and
      lifecycle requests, each with reads as old as the run, a workspace has one
      owner, a membership comes from a first workspace or an open invitation, a
      password from its mailbox, a link works once, and a sign-in overtaken by a
      new password is refused.
    - [Discovery], [Provision], [DiscoveryRuns]: a scan stays in the private
      networks; over any run an agent has one scan at a time, its pages are taken
      in order and once, and a printer is made as a manager approved it. Two
      theorems record behaviour the code does not intend.
    - [RequestGuard], [FrontDoor]: every cookie a route reads a session from is
      one the guard sees, so a mutation by cookie comes from the gateway's own
      origin; the bytes of requests in flight are accounted exactly; a rejected
      request is answered once; a secret is at most 30 s old; and what a started
      gateway lets through. One theorem records that TRACE requests are not
      answered behind a proxy.
    - [RateLimit], [CircuitBreaker]: bounds over arbitrary interleavings of
      reservations, successes, cleanups and overlapping calls.
    - [Sockets], [SocketFence], [SocketMessages], [Push]: each definition is one
      turn of the event loop, turns interleave freely with each other and with
      the database. The registry's counters are exact, a lifecycle change ends
      the sessions it invalidates and no others, the message budget holds across
      reconnects, and a claim is handed to one socket once.
    - [Heartbeat], [HeartbeatRuns], [Printers], [DesiredState]: a heartbeat is a
      sequence of pipeline steps; it never takes a tenant past its plan, shares a
      printer only on newer explicit permission, and declares absence only on a
      complete snapshot, which the agent's row remembers faithfully over any
      history. Over all writers of the printer table every row stays a printer
      with a private endpoint ([PrinterModel], [NetworkAddress]). The desired
      state reaches the agent page by page, whole. One theorem records a way
      around the plan's limit the code does not intend.
    - [Entitlements], [Payload], [PrinterVirtual], [Capability], [Availability]:
      admission decisions, the SQL mirrors of application predicates, and what
      is shown to operators.
    - [Billing], [BillingOperation]: each event is applied at most once, what one
      delivery may write, and that overlapping cancel and resume requests share
      one claim. Two theorems record behaviour the code does not intend.
    - [BillingCheckout], [CheckoutRuns]: the transactions of a checkout by what
      they write, and over all interleavings of requests, Stripe's answers,
      payments and other writers that a workspace never has two sessions that
      can be paid. The rules of the step relation are what is relied on of
      Stripe; three results show where reality can break them.

    ** Bounds and fuel

    Recursion is structural except where a loop runs until a table has no more
    candidate rows. [archive_owned] (agent deletion) has fuel one more than the
    number of jobs and [Operator] proves that it always ends with none left;
    batch loops run on the list of selected ids with its length as fuel, which
    is enough because each batch removes at least one; an agent following the
    desired-state cursor needs one request more than there are printers, and
    [DesiredState] proves that to be enough. The webhook's
    retry is its three attempts; a checkout calls itself once more at most; the
    batches of a discovery report have the number of its rows as fuel
    ([write_batches_fuel]). The limiter's theorem allows the application clock
    and the database clock to differ by 30 s, against a lock timeout of 5 s; the
    checkout's lets the skew of the clocks and the time from a decision to its
    Stripe call be an hour together, which is the margin the route keeps.

    ** Not modelled

    User interface ([app/dashboard], [components], [desktop]), translations,
    e-mail, audit rows, timeline events, logs and metrics: they do not feed back
    into the modelled state. Of the WebSocket server ([server/ws.ts]) the
    reconnect loop of the LISTEN connection, the ping interval and the discovery
    push; the token bucket is exact where the source rounds in floating point.
    Of the server entry the cache-control and content-security headers, the
    shutdown sequence and the timers. The printer, scan and team listings, the plan catalog, the sign-in of
    the environment manager and of platform owners, the refresh and logout routes
    and the Odoo add-on are separate components that call the modelled ones. *)

From stdpp Require Export base tactics option list sorting numbers strings gmap.
From stdpp Require Import fin_maps.

#[export] Set Warnings "-clear-no-such-hyp,-register-all".
#[global] Open Scope Z_scope.

(** ** Notation *)

Declare Scope gateway_scope.
Delimit Scope gateway_scope with gw.

(** [x == y] is the decidable equality test of the source's [===] (and of
    SQL's [=] / [IS NOT DISTINCT FROM] on columns modelled as options). *)
Notation "x == y" := (bool_decide (x = y))
  (at level 70, no associativity) : gateway_scope.
Notation "x != y" := (negb (bool_decide (x = y)))
  (at level 70, no associativity) : gateway_scope.

(** [row |> set_a v |> set_b w] is an [UPDATE ... SET a = v, b = w] row. *)
Notation "x |> f" := (f x) (at level 68, left associativity, only parsing) : gateway_scope.

#[global] Open Scope gateway_scope.

(** ** Results: a thrown error is a value *)

Inductive result (A E : Type) : Type :=
| Ok (a : A)
| Err (e : E).
Arguments Ok {_ _} _.
Arguments Err {_ _} _.

Definition rbind {A B E} (m : result A E) (k : A → result B E) : result B E :=
  match m with Ok a => k a | Err e => Err e end.

(** [throw_if b e] is [if (b) throw e;]. *)
Definition throw_if {E} (b : bool) (e : E) : result unit E :=
  if b then Err e else Ok tt.

Notation "'let*' x ':=' m 'in' k" := (rbind m (λ x, k))
  (at level 10, x pattern, m at level 100, k at level 200) : gateway_scope.
Notation "'do*' m 'in' k" := (rbind m (λ _ : unit, k))
  (at level 10, m at level 100, k at level 200) : gateway_scope.

Lemma rbind_Ok {A B E} (m : result A E) (k : A → result B E) b :
  rbind m k = Ok b → ∃ a, m = Ok a ∧ k a = Ok b.
Proof. destruct m; naive_solver. Qed.

Lemma rbind_Err {A B E} (m : result A E) (k : A → result B E) e :
  rbind m k = Err e → m = Err e ∨ ∃ a, m = Ok a ∧ k a = Err e.
Proof. destruct m; naive_solver. Qed.

Lemma throw_if_Ok {E} (b : bool) (e : E) u : throw_if b e = Ok u → b = false.
Proof. by destruct b. Qed.

Lemma throw_if_Err {E} (b : bool) (e e' : E) : throw_if b e = Err e' → b = true ∧ e = e'.
Proof. destruct b; naive_solver. Qed.

Lemma guard_last {E} (b : bool) (e : E) : throw_if b e = Ok tt ↔ b = false.
Proof. by destruct b. Qed.

Lemma guard_passes {A E} (b : bool) (e : E) (k : result A E) r :
  rbind (throw_if b e) (λ _, k) = Ok r ↔ b = false ∧ k = Ok r.
Proof. destruct b; simpl; naive_solver. Qed.

(** ** Proof automation *)

Create HintDb gateway discriminated.
Create Rewrite HintDb gateway.

(** [bools] turns boolean facts in the context into propositions. *)
Ltac bools :=
  repeat match goal with
  | H : _ && _ = true |- _ => apply andb_true_iff in H as [? ?]
  | H : _ || _ = false |- _ => apply orb_false_iff in H as [? ?]
  | H : negb _ = true |- _ => apply negb_true_iff in H
  | H : negb _ = false |- _ => apply negb_false_iff in H
  | H : bool_decide _ = true |- _ => apply bool_decide_eq_true in H
  | H : bool_decide _ = false |- _ => apply bool_decide_eq_false in H
  | H : (_ <=? _) = true |- _ => apply Z.leb_le in H
  | H : (_ <? _) = true |- _ => apply Z.ltb_lt in H
  | H : (_ <=? _) = false |- _ => apply Z.leb_gt in H
  | H : (_ <? _) = false |- _ => apply Z.ltb_ge in H
  end.

(** Split a goal that is a conjunction of boolean tests. *)
Ltac bsplit :=
  repeat match goal with
  | |- _ && _ = true => apply andb_true_iff; split
  | |- negb _ = true => apply negb_true_iff
  | |- bool_decide _ = true => apply bool_decide_eq_true
  | |- bool_decide _ = false => apply bool_decide_eq_false
  | |- (_ <=? _) = true => apply Z.leb_le
  | |- (_ <? _) = true => apply Z.ltb_lt
  end.

(** Decide the comparisons of two string literals in the goal. *)
Ltac eval_strings :=
  repeat match goal with
  | |- context [bool_decide (String ?a ?b = String ?c ?d)] =>
      let v := eval vm_compute in (bool_decide (String a b = String c d)) in
      change (bool_decide (String a b = String c d)) with v
  end; cbn [andb orb negb].

(** Case analysis on the first [if]/[match] scrutinee of the goal or of a
    hypothesis, recording the equation. *)
Ltac case_if :=
  match goal with
  | |- context [if ?b then _ else _] => destruct b eqn:?
  | H : context [if ?b then _ else _] |- _ => destruct b eqn:?
  end.

(** Invert a chain of [let*] / [do*] that ended in [Ok]. *)
Ltac rinv :=
  repeat match goal with
  | H : rbind _ _ = Ok _ |- _ =>
      let a := fresh "r" in let E := fresh "Hr" in
      apply rbind_Ok in H as (a & E & H)
  | H : throw_if _ _ = Ok _ |- _ => apply throw_if_Ok in H
  | H : Ok _ = Ok _ |- _ => injection H as H
  | H : Err _ = Ok _ |- _ => discriminate H
  | H : Ok _ = Err _ |- _ => discriminate H
  | H : Err _ = Err _ |- _ => injection H as H
  end.

(** ** JavaScript strings

    A string is a sequence of code units; case mapping and trimming are the
    ASCII part of [toLowerCase], [toUpperCase] and [trim], which is what
    every comparison of the modelled code is made against. *)

Definition startsWith (s p : string) : bool := String.prefix p s.

Fixpoint includes (s sub : string) : bool :=
  String.prefix sub s ||
  match s with
  | EmptyString => false
  | String _ s' => includes s' sub
  end.

Definition ascii_lower (c : Ascii.ascii) : Ascii.ascii :=
  let n := Ascii.nat_of_ascii c in
  if (bool_decide (65 ≤ n ∧ n ≤ 90)%nat) then Ascii.ascii_of_nat (n + 32) else c.

Definition ascii_upper (c : Ascii.ascii) : Ascii.ascii :=
  let n := Ascii.nat_of_ascii c in
  if (bool_decide (97 ≤ n ∧ n ≤ 122)%nat) then Ascii.ascii_of_nat (n - 32) else c.

Fixpoint string_map (f : Ascii.ascii → Ascii.ascii) (s : string) : string :=
  match s with
  | EmptyString => EmptyString
  | String c s' => String (f c) (string_map f s')
  end.

Definition toLowerCase : string → string := string_map ascii_lower.
Definition toUpperCase : string → string := string_map ascii_upper.

(** WhiteSpace and LineTerminator code units below U+0100. *)
Definition is_js_space (c : Ascii.ascii) : bool :=
  let n := Ascii.nat_of_ascii c in
  bool_decide ((9 ≤ n ∧ n ≤ 13) ∨ n = 32 ∨ n = 160)%nat.

Fixpoint trim_start (s : string) : string :=
  match s with
  | String c s' => if is_js_space c then trim_start s' else s
  | EmptyString => EmptyString
  end.

Fixpoint trim_end (s : string) : string :=
  match s with
  | EmptyString => EmptyString
  | String c s' =>
      match trim_end s' with
      | EmptyString => if is_js_space c then EmptyString else String c EmptyString
      | t => String c t
      end
  end.

Definition trim (s : string) : string := trim_end (trim_start s).

(** [s.split(sep)] at a character. *)
Fixpoint split_on (sep : Ascii.ascii) (s : string) : list string :=
  match s with
  | EmptyString => [EmptyString]
  | String c s =>
      if bool_decide (c = sep) then EmptyString :: split_on sep s
      else match split_on sep s with
           | [] => [String c EmptyString]
           | w :: ws => String c w :: ws
           end
  end.

(** [s.slice(0, n)]. *)
Definition slice0 (n : nat) (s : string) : string := String.substring 0 n s.

Definition strlen (s : string) : Z := Z.of_nat (String.length s).

Lemma strlen_pos s : s ≠ "" → 1 ≤ strlen s.
Proof. unfold strlen. destruct s; [done|]. cbn [String.length]. lia. Qed.

Fixpoint all_chars (p : Ascii.ascii → bool) (s : string) : bool :=
  match s with EmptyString => true | String c s => p c && all_chars p s end.

(** [/^[0-9a-f]{n}$/]. *)
Definition is_hex (c : Ascii.ascii) : bool :=
  let n := Ascii.nat_of_ascii c in
  ((48 <=? n) && (n <=? 57) || (97 <=? n) && (n <=? 102))%nat.

Definition hex_string (n : Z) (s : string) : bool := (strlen s =? n) && all_chars is_hex s.

(** Truthiness of a nullable string: [null], [undefined] and [""] are falsy. *)
Definition truthy (o : option string) : bool :=
  match o with Some s => s != "" | None => false end.

Definition is_some {A} (o : option A) : bool :=
  match o with Some _ => true | None => false end.

Definition is_none {A} (o : option A) : bool := negb (is_some o).

Definition coalesce {A} (o : option A) (d : A) : A := default d o.

(** [["a", "b"].includes(x)]. *)
Definition one_of (l : list string) (x : string) : bool := bool_decide (x ∈ l).

Lemma one_of_true l x : one_of l x = true ↔ x ∈ l.
Proof. apply bool_decide_eq_true. Qed.

Lemma is_some_true {A} (o : option A) : is_some o = true ↔ is_Some o.
Proof. destruct o; split; intros; naive_solver. Qed.

Lemma is_none_true {A} (o : option A) : is_none o = true ↔ o = None.
Proof. destruct o; split; intros; naive_solver. Qed.

Lemma Some_eqb (x y : string) : bool_decide (Some x = Some y) = bool_decide (x = y).
Proof. apply bool_decide_ext. naive_solver. Qed.

Lemma string_app_cons c (x y : string) : String c x +:+ y = String c (x +:+ y).
Proof. done. Qed.

Lemma string_app_nil_r (x : string) : x +:+ EmptyString = x.
Proof. induction x as [|c x IH]; [done|]. by rewrite string_app_cons, IH. Qed.

Lemma string_app_assoc (x y z : string) : (x +:+ y) +:+ z = x +:+ (y +:+ z).
Proof. induction x as [|c x IH]; [done|]. by rewrite !string_app_cons, IH. Qed.

Lemma prefix_app_self (p s : string) : String.prefix p (p +:+ s) = true.
Proof.
  induction p as [|c p IH]; simpl; [by destruct s|].
  by destruct (Ascii.ascii_dec c c).
Qed.

Lemma prefix_spec (p s : string) : String.prefix p s = true ↔ ∃ t, s = p +:+ t.
Proof.
  split.
  - revert s. induction p as [|c p IH]; intros s H; [by exists s|].
    destruct s as [|c' s]; [done|]. simpl in H.
    destruct (Ascii.ascii_dec c c') as [->|]; [|done].
    destruct (IH _ H) as [t ->]. by exists t.
  - intros [t ->]. apply prefix_app_self.
Qed.

(** ** SQL [LIKE]

    Patterns as PostgreSQL reads them: [%] is any run of characters, [_] any
    one character, and a backslash takes the next character literally. *)

Inductive like_token : Type := LAny | LOne | LChar (c : Ascii.ascii).

Fixpoint like_tokens (p : string) : list like_token :=
  match p with
  | EmptyString => []
  | String c p' =>
      if c == Ascii.ascii_of_nat 37 then LAny :: like_tokens p'
      else if c == Ascii.ascii_of_nat 95 then LOne :: like_tokens p'
      else if c == Ascii.ascii_of_nat 92 then
        match p' with
        | EmptyString => [LChar c]
        | String c' p'' => LChar c' :: like_tokens p''
        end
      else LChar c :: like_tokens p'
  end.

Fixpoint like_match (ts : list like_token) (s : string) : bool :=
  match ts with
  | [] => s == EmptyString
  | LChar c :: ts' =>
      match s with
      | EmptyString => false
      | String c' s' => (c == c') && like_match ts' s'
      end
  | LOne :: ts' =>
      match s with EmptyString => false | String _ s' => like_match ts' s' end
  | LAny :: ts' =>
      (fix any (s : string) : bool :=
         like_match ts' s || match s with EmptyString => false | String _ s' => any s' end) s
  end.

Definition sql_like (s pattern : string) : bool := like_match (like_tokens pattern) s.

(** [s.endsWith(p)]. *)
Fixpoint endsWith (s p : string) : bool :=
  (s == p) || match s with EmptyString => false | String _ s' => endsWith s' p end.

(** [s.replace(/[\\%_]/g, "\\$&")]: every wildcard and escape character gets
    a backslash in front. *)
Definition backslash : Ascii.ascii := Ascii.ascii_of_nat 92.

Definition is_wildcard (c : Ascii.ascii) : bool :=
  (c == Ascii.ascii_of_nat 37) || (c == Ascii.ascii_of_nat 95) || (c == backslash).

Fixpoint escape_like (s : string) : string :=
  match s with
  | EmptyString => EmptyString
  | String c s' =>
      if is_wildcard c then String backslash (String c (escape_like s')) else String c (escape_like s')
  end.

Definition literal (p : string) : list like_token := map LChar (String.list_ascii_of_string p).

Lemma like_tokens_escape p rest :
  like_tokens (escape_like p +:+ rest) = literal p ++ like_tokens rest.
Proof.
  induction p as [|c p IH]; [done|]. cbn [escape_like literal String.list_ascii_of_string map].
  unfold is_wildcard, backslash.
  destruct (decide (c = Ascii.ascii_of_nat 37)) as [->|H1];
    [|destruct (decide (c = Ascii.ascii_of_nat 95)) as [->|H2];
      [|destruct (decide (c = Ascii.ascii_of_nat 92)) as [->|H3]]].
  1-3: change (String.append ?x ?y) with (x +:+ y); simpl; f_equal; exact IH.
  repeat rewrite (bool_decide_false (c = _)) by done. simpl.
  repeat rewrite (bool_decide_false (c = _)) by done. f_equal. exact IH.
Qed.

Lemma like_match_any ts s :
  like_match (LAny :: ts) s =
  like_match ts s || match s with EmptyString => false | String _ s' => like_match (LAny :: ts) s' end.
Proof. by destruct s. Qed.

Lemma like_match_all s : like_match [LAny] s = true.
Proof. induction s as [|c s IH]; [done|]. rewrite like_match_any. by rewrite IH, orb_true_r. Qed.

Lemma like_match_prefix p s : like_match (literal p ++ [LAny]) s = startsWith s p.
Proof.
  unfold startsWith. revert s. induction p as [|c p IH]; intros s.
  - rewrite like_match_all. by destruct s.
  - destruct s as [|c' s]; [done|]. simpl. rewrite IH.
    destruct (Ascii.ascii_dec c c') as [->|Hne]; [by rewrite bool_decide_true|].
    by rewrite bool_decide_false.
Qed.

Lemma like_match_literal p s : like_match (literal p) s = (s == p).
Proof.
  revert s. induction p as [|c p IH]; intros s; [done|].
  destruct s as [|c' s]; [done|]. simpl. rewrite IH.
  repeat case_bool_decide; simplify_eq; done.
Qed.

Lemma like_match_includes p s : like_match (LAny :: literal p ++ [LAny]) s = includes s p.
Proof.
  induction s as [|c s IH]; rewrite like_match_any, like_match_prefix; [done|].
  rewrite IH. done.
Qed.

Lemma like_match_suffix p s : like_match (LAny :: literal p) s = endsWith s p.
Proof.
  induction s as [|c s IH]; rewrite like_match_any, like_match_literal; [done|]. by rewrite IH.
Qed.

(** Patterns built around an escaped literal. *)
Lemma sql_like_includes p s : sql_like s ("%" +:+ escape_like p +:+ "%") = includes s p.
Proof.
  unfold sql_like. change (like_tokens ("%" +:+ ?q)) with (LAny :: like_tokens q).
  rewrite like_tokens_escape. apply like_match_includes.
Qed.

Lemma sql_like_prefix p s : sql_like s (escape_like p +:+ "%") = startsWith s p.
Proof. unfold sql_like. rewrite like_tokens_escape. apply like_match_prefix. Qed.

Lemma sql_like_suffix p s : sql_like s ("%" +:+ escape_like p +:+ EmptyString) = endsWith s p.
Proof.
  unfold sql_like. change (like_tokens ("%" +:+ ?q)) with (LAny :: like_tokens q).
  rewrite like_tokens_escape. simpl. rewrite app_nil_r. apply like_match_suffix.
Qed.

Lemma includes_empty p : p ≠ EmptyString → includes EmptyString p = false.
Proof. by destruct p. Qed.

(** ** Splitting at a character *)

Definition free_of (sep : Ascii.ascii) (s : string) : bool := all_chars (λ c, negb (bool_decide (c = sep))) s.

Lemma split_on_free sep s : free_of sep s = true → split_on sep s = [s].
Proof.
  unfold free_of. induction s as [|c s IH]; [done|]. cbn [all_chars split_on].
  intros [Hc Hs]%andb_true_iff. apply negb_true_iff in Hc. by rewrite Hc, (IH Hs).
Qed.

Lemma split_on_app sep s rest :
  free_of sep s = true → split_on sep (s +:+ String sep EmptyString +:+ rest) = s :: split_on sep rest.
Proof.
  unfold free_of. induction s as [|c s IH].
  - intros _. change (EmptyString +:+ String sep EmptyString +:+ rest) with (String sep rest).
    cbn [split_on]. by rewrite bool_decide_true.
  - cbn [all_chars]. intros [Hc Hs]%andb_true_iff. apply negb_true_iff in Hc.
    change (String c s +:+ String sep EmptyString +:+ rest)
      with (String c (s +:+ String sep EmptyString +:+ rest)).
    cbn [split_on]. by rewrite Hc, (IH Hs).
Qed.

(** Joining what was split gives the text back. *)
Lemma split_on_concat sep s :
  String.concat (String sep EmptyString) (split_on sep s) = s ∧ split_on sep s ≠ [].
Proof.
  induction s as [|c s [IH Hne]]; [done|]. cbn [split_on]. destruct (bool_decide (c = sep)) eqn:Hc.
  - apply bool_decide_eq_true in Hc as ->. split; [|done].
    destruct (split_on sep s) as [|w ws]; [done|]. cbn [String.concat] in IH |- *. by rewrite IH.
  - destruct (split_on sep s) as [|w ws]; [done|]. split; [|done].
    destruct ws; cbn [String.concat] in *; by rewrite <-IH.
Qed.

Lemma all_chars_app p s t : all_chars p (s +:+ t) = all_chars p s && all_chars p t.
Proof.
  induction s as [|c s IH]; [done|]. change (String c s +:+ t) with (String c (s +:+ t)). cbn [all_chars].
  by rewrite IH, andb_assoc.
Qed.

Lemma all_chars_impl (p q : Ascii.ascii → bool) s :
  (∀ c, p c = true → q c = true) → all_chars p s = true → all_chars q s = true.
Proof.
  intros Hpq. induction s as [|c s IH]; [done|]. cbn [all_chars]. rewrite !andb_true_iff. intros [? ?]. auto.
Qed.

(** Text without spaces is its own trimming. *)
Lemma trim_spaceless s : all_chars (λ c, negb (is_js_space c)) s = true → trim s = s.
Proof.
  intros Hs. unfold trim.
  assert (trim_start s = s) as ->.
  { destruct s as [|c s]; [done|]. cbn [all_chars] in Hs. apply andb_true_iff in Hs as [Hc _].
    apply negb_true_iff in Hc. cbn [trim_start]. by rewrite Hc. }
  induction s as [|c s IH]; [done|]. cbn [all_chars] in Hs. apply andb_true_iff in Hs as [Hc Hs].
  apply negb_true_iff in Hc. cbn [trim_end]. rewrite (IH Hs), Hc. by destruct s.
Qed.

(** ** [trim] and [toLowerCase] are stable *)

Lemma ascii_lower_idem c : ascii_lower (ascii_lower c) = ascii_lower c.
Proof. destruct c as [[] [] [] [] [] [] [] []]; vm_compute; reflexivity. Qed.

Lemma ascii_lower_space c : is_js_space (ascii_lower c) = is_js_space c.
Proof. destruct c as [[] [] [] [] [] [] [] []]; vm_compute; reflexivity. Qed.

Lemma toLowerCase_idem s : toLowerCase (toLowerCase s) = toLowerCase s.
Proof. induction s as [|c s IH]; [done|]. unfold toLowerCase in *. simpl. by rewrite ascii_lower_idem, IH. Qed.

Lemma trim_start_lower s : trim_start (toLowerCase s) = toLowerCase (trim_start s).
Proof.
  induction s as [|c s IH]; [done|]. unfold toLowerCase in *. simpl. rewrite ascii_lower_space.
  by destruct (is_js_space c).
Qed.

Lemma trim_end_lower s : trim_end (toLowerCase s) = toLowerCase (trim_end s).
Proof.
  induction s as [|c s IH]; [done|]. unfold toLowerCase in *. simpl. rewrite IH, ascii_lower_space.
  destruct (trim_end s); simpl; [by destruct (is_js_space c)|done].
Qed.

Lemma trim_lower s : trim (toLowerCase s) = toLowerCase (trim s).
Proof. unfold trim. by rewrite trim_start_lower, trim_end_lower. Qed.

Lemma trim_end_idem s : trim_end (trim_end s) = trim_end s.
Proof.
  induction s as [|c s IH]; [done|]. simpl. destruct (trim_end s) as [|c' s'] eqn:E.
  - destruct (is_js_space c) eqn:Hc; [done|]. simpl. by rewrite Hc.
  - change (trim_end (String c (String c' s'))) with
      (match trim_end (String c' s') with
       | EmptyString => if is_js_space c then EmptyString else String c EmptyString
       | t => String c t end). by rewrite IH.
Qed.

Lemma trim_start_trim_end s : trim_start s = s → trim_start (trim_end s) = trim_end s.
Proof.
  destruct s as [|c s]; [done|]. simpl. destruct (is_js_space c) eqn:Hc.
  - intros H. exfalso. assert (∀ u, (String.length (trim_start u) ≤ String.length u)%nat) as Hlen.
    { induction u as [|d u IH]; simpl; [lia|]. destruct (is_js_space d); simpl; lia. }
    specialize (Hlen s). rewrite H in Hlen. simpl in Hlen. lia.
  - intros _. destruct (trim_end s); simpl; by rewrite Hc.
Qed.

Lemma trim_start_idem s : trim_start (trim_start s) = trim_start s.
Proof. induction s as [|c s IH]; [done|]. simpl. destruct (is_js_space c) eqn:Hc; [done|]. simpl. by rewrite Hc. Qed.

Lemma trim_idem s : trim (trim s) = trim s.
Proof.
  unfold trim. rewrite (trim_start_trim_end (trim_start s)) by apply trim_start_idem.
  apply trim_end_idem.
Qed.

(** [LIKE] on a nullable column: [NULL] never matches. *)
Definition like_null (o : option string) (pattern : string) : bool :=
  match o with Some s => sql_like s pattern | None => false end.

(** ** JavaScript numbers: [Number(x)] of an environment variable *)

Inductive jsnum : Type :=
| JNaN
| JInf (negative : bool)
| JFin (num : Z) (den : positive).

(** [Number.isFinite]. *)
(** [Math.ceil(ms / 1000)]. *)
Definition ceil_seconds (ms : Z) : Z := - (- ms / 1000).

Definition isFinite (n : jsnum) : bool := match n with JFin _ _ => true | _ => false end.

(** ** Bulk [UPDATE] on a table, as a map over its rows *)

Section update_ids.
Context {A : Type}.

Definition update_ids (ids : list string) (f : A → A) (m : gmap string A) : gmap string A :=
  map_imap (λ k x, Some (if bool_decide (k ∈ ids) then f x else x)) m.

Lemma lookup_update_ids ids f (m : gmap string A) k :
  update_ids ids f m !! k = (λ x, if bool_decide (k ∈ ids) then f x else x) <$> m !! k.
Proof. unfold update_ids. rewrite map_lookup_imap. by destruct (m !! k). Qed.

Lemma update_ids_nil f (m : gmap string A) : update_ids [] f m = m.
Proof.
  apply map_eq. intros k. rewrite lookup_update_ids.
  by destruct (m !! k).
Qed.

Lemma update_ids_dom ids f (m : gmap string A) : dom (update_ids ids f m) = dom m.
Proof.
  apply set_eq. intros k. rewrite !elem_of_dom, lookup_update_ids.
  destruct (m !! k); simpl; naive_solver.
Qed.
End update_ids.

(** ** [SELECT id ... WHERE p ORDER BY o LIMIT n FOR UPDATE SKIP LOCKED]

    [skip] holds the ids of the rows another transaction has locked. Rows
    with equal sort keys come out in the map's own order. *)

Section select_ids.
Context {A : Type}.

Definition row_le (order : A → Z) (a b : string * A) : Prop := order a.2 ≤ order b.2.

#[export] Instance row_le_dec order : RelDecision (row_le order).
Proof. unfold row_le. solve_decision. Defined.

Definition select_rows (p : A → bool) (order : A → Z) (skip : gset string)
    (m : gmap string A) : list (string * A) :=
  merge_sort (row_le order)
    (filter (λ kv, p kv.2 = true ∧ kv.1 ∉ skip) (map_to_list m)).

Definition select_ids (p : A → bool) (order : A → Z) (limit : nat) (skip : gset string)
    (m : gmap string A) : list string :=
  take limit (select_rows p order skip m).*1.

Lemma elem_of_select_rows p order skip (m : gmap string A) k x :
  (k, x) ∈ select_rows p order skip m ↔ m !! k = Some x ∧ p x = true ∧ k ∉ skip.
Proof.
  unfold select_rows. rewrite merge_sort_Permutation, list_elem_of_filter, elem_of_map_to_list.
  simpl. naive_solver.
Qed.

Lemma select_ids_sound p order limit skip (m : gmap string A) k :
  k ∈ select_ids p order limit skip m → ∃ x, m !! k = Some x ∧ p x = true ∧ k ∉ skip.
Proof.
  intros Hk. unfold select_ids in Hk.
  apply (sublist_subseteq _ _ (sublist_take _ _)) in Hk.
  apply list_elem_of_fmap in Hk as ((k', x) & -> & Hx).
  apply elem_of_select_rows in Hx. naive_solver.
Qed.

Lemma select_ids_row p order limit skip (m : gmap string A) k x :
  k ∈ select_ids p order limit skip m → m !! k = Some x → p x = true.
Proof. intros (y & Hy & ? & _)%select_ids_sound Hx. congruence. Qed.

Lemma select_ids_NoDup p order limit skip (m : gmap string A) :
  NoDup (select_ids p order limit skip m).
Proof.
  unfold select_ids, select_rows.
  apply (sublist_NoDup _ (merge_sort (row_le order) (filter (λ kv, p kv.2 = true ∧ kv.1 ∉ skip)
    (map_to_list m))).*1); [|apply sublist_take].
  rewrite merge_sort_Permutation.
  apply (sublist_NoDup _ (map_to_list m).*1); [apply NoDup_fst_map_to_list|].
  apply fmap_sublist, sublist_filter.
Qed.

Lemma length_select_ids p order limit skip (m : gmap string A) :
  (length (select_ids p order limit skip m) ≤ limit)%nat.
Proof. unfold select_ids. rewrite length_take. lia. Qed.

(** The statement reaches every matching row when the backlog fits the
    batch and no row is locked elsewhere. *)
Lemma select_ids_complete p order limit (m : gmap string A) k x :
  (length (select_rows p order ∅ m) ≤ limit)%nat →
  m !! k = Some x → p x = true → k ∈ select_ids p order limit ∅ m.
Proof.
  intros Hlen Hm Hp. unfold select_ids. rewrite take_ge by (rewrite length_fmap; lia).
  apply list_elem_of_fmap. exists (k, x). split; [done|].
  apply elem_of_select_rows. set_solver.
Qed.
End select_ids.

(** ** [SELECT COUNT( * ) ... WHERE p] *)

Section count_rows.
Context {A : Type}.

Definition count_rows (p : A → bool) (m : gmap string A) : Z :=
  Z.of_nat (size (filter (λ kv : string * A, p kv.2 = true) m)).

Lemma count_rows_nonneg p m : 0 ≤ count_rows p m.
Proof. unfold count_rows. lia. Qed.

Lemma size_list_to_set_le `{Countable K} (ids : list K) :
  (size (list_to_set ids : gset K) ≤ length ids)%nat.
Proof.
  induction ids as [|x ids IH]; [done|]. cbn [list_to_set length].
  rewrite size_union_alt, size_singleton.
  pose proof (subseteq_size ((list_to_set ids : gset K) ∖ {[x]}) (list_to_set ids)
    ltac:(set_solver)). lia.
Qed.

(** Rows counted afterwards were counted before, but for those in [ids]. *)
Lemma count_rows_le (p q : A → bool) (m m' : gmap string A) (ids : list string) :
  (∀ k x', m' !! k = Some x' → q x' = true → k ∉ ids → ∃ x, m !! k = Some x ∧ p x = true) →
  count_rows q m' ≤ count_rows p m + Z.of_nat (length ids).
Proof.
  intros H. unfold count_rows. rewrite <-!size_dom.
  assert (dom (filter (λ kv : string * A, q kv.2 = true) m') ⊆
          dom (filter (λ kv : string * A, p kv.2 = true) m) ∪ (list_to_set ids : gset string)) as Hsub.
  { intros k [x' Hx']%elem_of_dom. apply map_lookup_filter_Some in Hx' as [Hm' Hq].
    apply elem_of_union. destruct (decide (k ∈ ids)) as [Hin|Hni]; [right; by apply elem_of_list_to_set|].
    left. destruct (H _ _ Hm' Hq Hni) as (x & Hx & Hp). apply elem_of_dom. exists x.
    by apply map_lookup_filter_Some. }
  apply subseteq_size in Hsub. rewrite size_union_alt in Hsub.
  pose proof (subseteq_size ((list_to_set ids : gset string) ∖
    dom (filter (λ kv : string * A, p kv.2 = true) m)) (list_to_set ids) ltac:(set_solver)) as H1.
  pose proof (size_list_to_set_le ids) as H2.
  lia.
Qed.

(** A candidate query returns no more rows than any weaker count. *)
Lemma length_select_rows (p q : A → bool) order skip (m : gmap string A) :
  (∀ x, p x = true → q x = true) →
  Z.of_nat (length (select_rows p order skip m)) ≤ count_rows q m.
Proof.
  intros Hpq. unfold select_rows, count_rows.
  rewrite (Permutation_length (merge_sort_Permutation _ _)).
  assert (Z.of_nat (length (filter (λ kv : string * A, p kv.2 = true ∧ kv.1 ∉ skip) (map_to_list m)))
          ≤ Z.of_nat (length (filter (λ kv : string * A, q kv.2 = true) (map_to_list m)))) as Hle.
  { generalize (map_to_list m) as l. induction l as [|[k x] l IH]; [done|].
    rewrite !filter_cons. repeat case_decide; simpl in *; try lia. naive_solver. }
  etrans; [exact Hle|]. rewrite map_filter_alt, map_size_list_to_map; [done|].
  eapply sublist_NoDup; [apply (NoDup_fst_map_to_list m)|]. apply fmap_sublist, sublist_filter.
Qed.

(** A row that starts to count is one more. *)
Lemma count_rows_insert (p : A → bool) (m : gmap string A) k x x' :
  m !! k = Some x → p x = false → p x' = true →
  count_rows p (<[k := x']> m) = count_rows p m + 1.
Proof.
  intros Hm Hp Hp'. unfold count_rows.
  rewrite map_filter_insert_True by done. rewrite map_size_insert_None; [lia|].
  apply map_lookup_filter_None. right. intros y Hy. simpl. simplify_eq. congruence.
Qed.
(** A new row, or one that changes. *)
Lemma count_rows_new (p : A → bool) (m : gmap string A) k x :
  m !! k = None → count_rows p (<[k := x]> m) = count_rows p m + Z.b2z (p x).
Proof.
  intros Hm. unfold count_rows.
  assert (filter (λ kv : string * A, p kv.2 = true) m !! k = None) as Hn
    by (apply map_lookup_filter_None; by left).
  destruct (p x) eqn:E; simpl.
  - rewrite map_filter_insert_True, map_size_insert_None by done. lia.
  - rewrite map_filter_insert_not'; [lia|simpl; congruence|]. intros y Hy. congruence.
Qed.

Lemma count_rows_change (p : A → bool) (m : gmap string A) k x x' :
  m !! k = Some x → count_rows p (<[k := x']> m) = count_rows p m + Z.b2z (p x') - Z.b2z (p x).
Proof.
  intros Hm. assert (delete k m !! k = None) as Hn by apply lookup_delete_eq.
  pose proof (count_rows_new p _ k x Hn) as H1. pose proof (count_rows_new p _ k x' Hn) as H2.
  rewrite insert_delete_eq in H2. rewrite insert_delete_id in H1 by done. lia.
Qed.

Lemma count_rows_alter (p : A → bool) (m : gmap string A) k (f : A → A) :
  (∀ x, m !! k = Some x → p (f x) = p x) → count_rows p (alter f k m) = count_rows p m.
Proof.
  intros H. destruct (m !! k) as [x|] eqn:Hm.
  - replace (alter f k m) with (<[k := f x]> m)
      by (apply map_eq; intros i; destruct (decide (i = k)) as [->|]; by simplify_map_eq).
    rewrite (count_rows_change p m k x (f x) Hm), (H x eq_refl). lia.
  - replace (alter f k m) with m; [done|]. apply map_eq. intros i.
    destruct (decide (i = k)) as [->|]; by simplify_map_eq.
Qed.

End count_rows.

(** ** [SELECT ... WHERE p LIMIT 1] *)

Section find_row.
Context {A : Type}.

Definition find_row (p : A → bool) (m : gmap string A) : option (string * A) :=
  head (filter (λ kv : string * A, p kv.2 = true) (map_to_list m)).

Lemma find_row_Some p (m : gmap string A) k x :
  find_row p m = Some (k, x) → m !! k = Some x ∧ p x = true.
Proof.
  unfold find_row. intros H. destruct (filter _ _) as [|kv l] eqn:E; [done|]. simpl in H. simplify_eq.
  assert ((k, x) ∈ filter (λ kv : string * A, p kv.2 = true) (map_to_list m)) as Hin
    by (rewrite E; set_solver).
  apply list_elem_of_filter in Hin as [Hp Hm]. by rewrite elem_of_map_to_list in Hm.
Qed.

Lemma find_row_None p (m : gmap string A) k x :
  find_row p m = None → m !! k = Some x → p x = false.
Proof.
  unfold find_row. intros H Hm. destruct (filter _ _) as [|kv l] eqn:E; [|done].
  apply not_true_iff_false. intros Hp.
  assert ((k, x) ∈ filter (λ kv : string * A, p kv.2 = true) (map_to_list m)) as Hin
    by (apply list_elem_of_filter; by rewrite elem_of_map_to_list).
  rewrite E in Hin. set_solver.
Qed.

(** The one matching row is the one found. *)
Lemma find_row_unique p (m : gmap string A) k x :
  m !! k = Some x → p x = true →
  (∀ k' x', m !! k' = Some x' → p x' = true → k' = k) → find_row p m = Some (k, x).
Proof.
  intros Hm Hp Hu. destruct (find_row p m) as [[k' x']|] eqn:E.
  - apply find_row_Some in E as [Hm' Hp']. pose proof (Hu _ _ Hm' Hp') as ->. by simplify_eq.
  - pose proof (find_row_None _ _ _ _ E Hm). congruence.
Qed.

Lemma find_row_absent p (m : gmap string A) :
  (∀ k x, m !! k = Some x → p x = false) → find_row p m = None.
Proof.
  intros H. destruct (find_row p m) as [[k x]|] eqn:E; [|done].
  apply find_row_Some in E as [Hm Hp]. by rewrite (H _ _ Hm) in Hp.
Qed.
End find_row.

(** The first row of an ordered query. *)
Lemma select_head_Some {A} p order skip (m : gmap string A) k x :
  head (select_rows p order skip m) = Some (k, x) → m !! k = Some x ∧ p x = true.
Proof.
  intros H. destruct (select_rows p order skip m) as [|kv l] eqn:E; [done|]. simpl in H. simplify_eq.
  assert ((k, x) ∈ select_rows p order skip m) as Hin by (rewrite E; set_solver).
  apply elem_of_select_rows in Hin. naive_solver.
Qed.

Lemma select_head_None {A} p order (m : gmap string A) k x :
  head (select_rows p order ∅ m) = None → m !! k = Some x → p x = false.
Proof.
  intros H Hm. destruct (select_rows p order ∅ m) as [|kv l] eqn:E; [|done].
  apply not_true_iff_false. intros Hp.
  assert ((k, x) ∈ select_rows p order ∅ m) as Hin by (apply elem_of_select_rows; set_solver).
  rewrite E in Hin. set_solver.
Qed.

#[export] Hint Resolve select_ids_sound select_ids_NoDup length_select_ids : gateway.
#[export] Hint Rewrite @lookup_update_ids : gateway.
