(* ===== verification/DatabaseTime.v ===== *)
(** * Database timestamps and staleness thresholds

    [src/lib/database-timestamp.ts] ([parseDbTimeMs]), its client mirror
    [parseSharedTimeMs] of [src/shared/job-vocabulary.ts], and the dependency
    free thresholds of [src/lib/stale-threshold.ts].

    Instants are integers: milliseconds since the epoch, both for PostgreSQL's
    [now()] / [clock_timestamp()] and for JavaScript's [getTime()].
    [Date.parse] is the host's parser of ISO strings and is a parameter. *)

From Stdlib Require Import Ascii.
From S2P Require Import Prelude.

(** [make_interval(secs => n)]. *)
Definition secs (n : Z) : Z := n * 1000.
Definition mins (n : Z) : Z := secs (60 * n).
Definition hours (n : Z) : Z := mins (60 * n).

(** The two database clocks one statement reads: the transaction's start and
    the wall clock. PostgreSQL's wall clock never precedes the start. *)
Record clock := { now : Z; clock_timestamp : Z }.

Definition clock_ok (ck : clock) : Prop := now ck ≤ clock_timestamp ck.

(** ** [parseDbTimeMs] *)

(** A column value as the two drivers deliver it: a [Date], a naive string
    (raw rows), or nothing. *)
Inductive dbtime : Type :=
| DDate (ms : Z)
| DText (s : string)
| DNull.

Definition is_digit (c : Ascii.ascii) : bool :=
  let n := Ascii.nat_of_ascii c in bool_decide (48 ≤ n ∧ n ≤ 57)%nat.

Definition is_sign (c : Ascii.ascii) : bool := (c == "+"%char) || (c == "-"%char).

(** The code units from the end of the string. *)
Definition rev_chars (s : string) : list Ascii.ascii := reverse (String.list_ascii_of_string s).

(** [/[zZ]$|[+-]\d{2}:?\d{2}$/]. *)
Definition has_zone_suffix (s : string) : bool :=
  match rev_chars s with
  | c :: r =>
      (c == "z"%char) || (c == "Z"%char) ||
      match c :: r with
      | d1 :: d2 :: k :: d3 :: d4 :: sg :: _ =>
          (is_digit d1 && is_digit d2 && (k == ":"%char) && is_digit d3 && is_digit d4 && is_sign sg)
          || (is_digit d1 && is_digit d2 && is_digit k && is_digit d3 && is_sign d4)
      | [d1; d2; d3; d4; sg] =>
          is_digit d1 && is_digit d2 && is_digit d3 && is_digit d4 && is_sign sg
      | _ => false
      end
  | [] => false
  end.

(** [/[+-]\d{2}$/]. *)
Definition has_short_offset (s : string) : bool :=
  match rev_chars s with
  | d1 :: d2 :: sg :: _ => is_digit d1 && is_digit d2 && is_sign sg
  | _ => false
  end.

(** [text.replace(" ", "T")]: the first space only. *)
Fixpoint replace_space (s : string) : string :=
  match s with
  | EmptyString => EmptyString
  | String c s' => if c == " "%char then String "T" s' else String c (replace_space s')
  end.

Definition iso_of_db_text (text : string) : string :=
  let iso := replace_space text in
  if negb (has_zone_suffix iso)
  then iso +:+ (if has_short_offset iso then ":00" else "Z")
  else iso.

Section parse.
Context (Date_parse : string → option Z).

Definition parseDbTimeMs (value : dbtime) : option Z :=
  match value with
  | DNull => None
  | DDate ms => Some ms
  | DText value =>
      let text := trim value in
      if text == "" then None else Date_parse (iso_of_db_text text)
  end.

(** The browser-safe copy in [src/shared/job-vocabulary.ts]. *)
Definition parseSharedTimeMs (value : dbtime) : option Z :=
  match value with
  | DNull => None
  | DDate ms => Some ms
  | DText value =>
      let text := trim value in
      if text == "" then None
      else
        let iso := replace_space text in
        let iso := if negb (has_zone_suffix iso)
                   then (if has_short_offset iso then iso +:+ ":00" else iso +:+ "Z")
                   else iso in
        Date_parse iso
  end.

Lemma parseShared_parseDb v : parseSharedTimeMs v = parseDbTimeMs v.
Proof.
  destruct v; simpl; [done| |done]. unfold iso_of_db_text. by repeat case_if.
Qed.
End parse.

(** ** Staleness thresholds *)

Definition DEFAULT_AGENT_STALE_THRESHOLD_SECONDS : Z := 90.
Definition DEFAULT_PRINTER_STALE_THRESHOLD_SECONDS : Z := 90.
Definition MIN_AGENT_STALE_THRESHOLD_SECONDS : Z := 90.
Definition MAX_AGENT_STALE_THRESHOLD_SECONDS : Z := 3600.

(** [raw = Number(value ?? DEFAULT)]; [None] is an absent value. *)
Definition resolveAgentStaleThresholdSeconds (value : option jsnum) : Z :=
  match default (JFin DEFAULT_AGENT_STALE_THRESHOLD_SECONDS 1) value with
  | JFin n d =>
      if (n <? MIN_AGENT_STALE_THRESHOLD_SECONDS * Z.pos d)
         || (MAX_AGENT_STALE_THRESHOLD_SECONDS * Z.pos d <? n)
      then DEFAULT_AGENT_STALE_THRESHOLD_SECONDS
      else n / Z.pos d
  | _ => DEFAULT_AGENT_STALE_THRESHOLD_SECONDS
  end.

(** [process.env.STALE_AGENT_THRESHOLD_SECONDS], already read as a number. *)
Definition agentStaleThresholdSeconds (env : option jsnum) : Z :=
  resolveAgentStaleThresholdSeconds env.

Definition printerStaleThresholdSeconds : Z := DEFAULT_PRINTER_STALE_THRESHOLD_SECONDS.

Lemma resolveAgentStale_bounds v :
  MIN_AGENT_STALE_THRESHOLD_SECONDS ≤ resolveAgentStaleThresholdSeconds v
  ≤ MAX_AGENT_STALE_THRESHOLD_SECONDS.
Proof.
  unfold resolveAgentStaleThresholdSeconds, DEFAULT_AGENT_STALE_THRESHOLD_SECONDS,
    MIN_AGENT_STALE_THRESHOLD_SECONDS, MAX_AGENT_STALE_THRESHOLD_SECONDS.
  destruct (default _ v) as [| |n d]; [lia|lia|]. case_if; [lia|]. bools. split.
  - apply Z.div_le_lower_bound; lia.
  - apply Z.div_le_upper_bound; lia.
Qed.

Lemma agentStale_pos env : 0 < agentStaleThresholdSeconds env.
Proof.
  unfold agentStaleThresholdSeconds.
  pose proof (resolveAgentStale_bounds env). unfold MIN_AGENT_STALE_THRESHOLD_SECONDS in *. lia.
Qed.
#[export] Hint Resolve agentStale_pos : gateway.
