(* ===== verification/JobStatus.v ===== *)
(** * The print-job status vocabulary

    [src/lib/job-status.ts]: the closed status and outcome enumerations, the
    agent transition table and the late-success windows. *)

From S2P Require Import Prelude DatabaseTime.

(** ** Statuses *)

Inductive JobStatus : Type := queued | claimed | printing | success | failed | expired.

#[export] Instance JobStatus_eq_dec : EqDecision JobStatus.
Proof. solve_decision. Defined.

Definition JOB_STATUSES : list JobStatus := [queued; claimed; printing; success; failed; expired].

(** The text stored in [print_jobs.status] and sent on the wire. *)
Definition status_text (s : JobStatus) : string :=
  match s with
  | queued => "queued" | claimed => "claimed" | printing => "printing"
  | success => "success" | failed => "failed" | expired => "expired"
  end.

Definition isJobStatus (value : string) : bool :=
  one_of (status_text <$> JOB_STATUSES) value.

(** The narrowing [value is JobStatus] performed by [isJobStatus]. *)
Definition as_JobStatus (value : string) : option JobStatus :=
  List.find (λ s, status_text s == value) JOB_STATUSES.

Inductive PhysicalOutcome : Type := not_printed | printed | unknown.

#[export] Instance PhysicalOutcome_eq_dec : EqDecision PhysicalOutcome.
Proof. solve_decision. Defined.

(** ** Physical outcome *)

Definition PHYSICAL_OUTCOME_UNKNOWN_MARKERS : list string :=
  ["AGENT_EXECUTION_TIMEOUT"; "AGENT_RESTART_DURING_PRINT"; "JOB_EXPIRED_DURING_PRINT";
   "UNKNOWN_PARTIAL_DELIVERY"; "UNKNOWN_SUBMISSION_OUTCOME"].

Definition hasUnknownPhysicalOutcomeMarker (error : option string) : bool :=
  existsb (λ marker, startsWith (coalesce error "") marker) PHYSICAL_OUTCOME_UNKNOWN_MARKERS.

Definition derivePhysicalOutcome (status : string) (error : option string) : PhysicalOutcome :=
  if status == "success" then unknown
  else if hasUnknownPhysicalOutcomeMarker error then unknown
  else not_printed.

Definition JOB_FILTER_STATUSES : list string :=
  ["all"; "active"; "in_flight"; "queued"; "claimed"; "printing"; "success"; "printed";
   "failed"; "expired"; "unknown"; "attention"; "unassigned"].

Definition isJobFilterStatus (value : string) : bool :=
  one_of JOB_FILTER_STATUSES (toLowerCase value).

(** ** Transitions *)

Definition isTerminal (status : JobStatus) : bool :=
  (status == success) || (status == failed) || (status == expired).

Definition ALLOWED_TRANSITIONS (from : JobStatus) : list JobStatus :=
  match from with
  | queued => []
  | claimed => [printing; success; failed; queued]
  | printing => [success; failed]
  | success => []
  | failed => []
  | expired => []
  end.

Definition canTransition (from to : JobStatus) (allowLateSuccess : bool) : bool :=
  if isTerminal from then
    if allowLateSuccess && (to == success) then from == failed else false
  else bool_decide (to ∈ ALLOWED_TRANSITIONS from).

(** ** Late success *)

Definition LATE_SUCCESS_ERROR_MARKERS : list string :=
  ["AGENT_EXECUTION_TIMEOUT"; "AGENT_RESTART_DURING_PRINT"].

Definition LATE_SUCCESS_MAX_AGE_MS : Z := 24 * 60 * 60 * 1000.
Definition EXPIRED_LATE_SUCCESS_GRACE_MS : Z := 5 * 60 * 1000.
Definition LATE_SUCCESS_POST_EXPIRATION_MARKER : string := "LATE_SUCCESS_POST_EXPIRATION".

Record LateSuccessCandidate := {
  lsc_status : JobStatus;
  lsc_error : option string;
  lsc_updatedAt : dbtime;
}.

Record ExpiredLateSuccessCandidate := {
  elc_status : JobStatus;
  elc_expiresAt : dbtime;
  elc_updatedAt : dbtime;
}.

Section late_success.
Context (Date_parse : string → option Z).

Definition isLateSuccessAllowed (job : LateSuccessCandidate) (nowMs : Z) : bool :=
  if lsc_status job != failed then false
  else
    let error := coalesce (lsc_error job) "" in
    if negb (existsb (λ marker, startsWith error marker) LATE_SUCCESS_ERROR_MARKERS) then false
    else
      match parseDbTimeMs Date_parse (lsc_updatedAt job) with
      | None => false
      | Some updatedAtMs =>
          let age := nowMs - updatedAtMs in
          (0 <=? age) && (age <=? LATE_SUCCESS_MAX_AGE_MS)
      end.

Definition isExpiredLateSuccessAllowed (job : ExpiredLateSuccessCandidate) (nowMs : Z) : bool :=
  if elc_status job != expired then false
  else
    match parseDbTimeMs Date_parse (elc_expiresAt job) with
    | None => false
    | Some expiresMs =>
        let age := nowMs - expiresMs in
        (0 <=? age) && (age <=? EXPIRED_LATE_SUCCESS_GRACE_MS)
    end.
End late_success.

(** ** Hand-back reasons *)

Definition AGENT_REQUEUE_REASONS : list string :=
  ["pending_full"; "printer_pending_full"; "printer_not_at_desired_state"; "printer_not_shared";
   "agent_shutting_down"; "ledger_unavailable"].

Definition PRINTER_NOT_SHARED_PAUSE : string :=
  "Agent returned job before execution (printer_not_shared)".

Definition AGENT_REPRINT_AFTER_CRASH_REASON : string := "agent_reprint_after_crash".

(** ** Lemmas *)

Lemma status_text_inj s t : status_text s = status_text t → s = t.
Proof. by destruct s, t. Qed.

Lemma as_JobStatus_text s : as_JobStatus (status_text s) = Some s.
Proof. by destruct s. Qed.

Lemma as_JobStatus_Some v s : as_JobStatus v = Some s ↔ v = status_text s.
Proof.
  split; [|intros ->; apply as_JobStatus_text].
  intros H. apply List.find_some in H as [_ H]. by bools.
Qed.

Lemma isTerminal_spec s : isTerminal s = true ↔ s = success ∨ s = failed ∨ s = expired.
Proof. destruct s; vm_compute; naive_solver. Qed.

Lemma isTerminal_false s : isTerminal s = false ↔ s = queued ∨ s = claimed ∨ s = printing.
Proof. destruct s; vm_compute; naive_solver. Qed.

(** Every transition the table admits starts at a live claim, except the one
    authorised terminal override. *)
Lemma canTransition_inv from to late :
  canTransition from to late = true →
  (from = claimed ∧ (to = printing ∨ to = success ∨ to = failed ∨ to = queued)) ∨
  (from = printing ∧ (to = success ∨ to = failed)) ∨
  (from = failed ∧ to = success ∧ late = true).
Proof. destruct from, to, late; vm_compute; naive_solver. Qed.

Lemma derivePhysicalOutcome_never_printed status error :
  derivePhysicalOutcome status error ≠ printed.
Proof. unfold derivePhysicalOutcome. by repeat case_if. Qed.

Lemma marker_outcome_unknown status error marker :
  marker ∈ PHYSICAL_OUTCOME_UNKNOWN_MARKERS →
  startsWith error marker = true →
  derivePhysicalOutcome status (Some error) = unknown.
Proof.
  intros Hin Hpre. unfold derivePhysicalOutcome. case_if; [done|].
  replace (hasUnknownPhysicalOutcomeMarker (Some error)) with true; [done|].
  symmetry. apply existsb_exists. exists marker. by rewrite <-list_elem_of_In.
Qed.
#[export] Hint Resolve as_JobStatus_text status_text_inj marker_outcome_unknown : gateway.

(** ** Properties *)

(** The wire vocabulary is closed: a string passes [isJobStatus] exactly when
    it is the text of one status, and reading that text gives the status back. *)
Theorem job_status_wire_closed v :
  (isJobStatus v = true ↔ ∃ s, v = status_text s) ∧
  (∀ s, as_JobStatus v = Some s ↔ v = status_text s).
Proof.
  split; [|intros s; apply as_JobStatus_Some].
  unfold isJobStatus, one_of. rewrite bool_decide_eq_true, list_elem_of_fmap. split.
  - intros (s & -> & _). by exists s.
  - intros [s ->]. exists s. split; [done|]. destruct s; set_solver.
Qed.

(** A late success never reopens a job the gateway knows the outcome of: the
    override applies only to a failure whose recorded outcome is [unknown],
    and no older than the window. *)
Theorem late_success_only_for_unknown Date_parse job nowMs
  (Hallowed : isLateSuccessAllowed Date_parse job nowMs = true) :
  lsc_status job = failed ∧
  derivePhysicalOutcome (status_text (lsc_status job)) (lsc_error job) = unknown ∧
  (∃ t, parseDbTimeMs Date_parse (lsc_updatedAt job) = Some t ∧
        t ≤ nowMs ≤ t + LATE_SUCCESS_MAX_AGE_MS) ∧
  canTransition (lsc_status job) success true = true.
Proof.
  unfold isLateSuccessAllowed in Hallowed.
  case_if; [done|]. bools. case_if; [done|]. bools.
  destruct (parseDbTimeMs _ _) as [t|] eqn:Ht; [|done]. bools.
  split; [done|]. split; [|split; [exists t; split; [done|lia]|]].
  - destruct (lsc_error job) as [e|]; [|done].
    apply existsb_exists in Heqb0 as (m & Hm & Hp).
    eapply marker_outcome_unknown; [|exact Hp]. apply list_elem_of_In in Hm. set_solver.
  - by rewrite Heqb.
Qed.
