(* ===== verification/Json.v ===== *)
(** * JSON documents, canonical form and the idempotency fingerprint

    [src/lib/canonicalize.ts] and [idempotencyFingerprint] /
    [idempotencyDigest] of [src/lib/print-job-service.ts].

    A JavaScript object is its list of own properties in enumeration order;
    a document read back from a [jsonb] column has the same properties in
    another order, which is what [json_eqv] states. *)

From Stdlib Require Import Ascii DecimalString.
From S2P Require Import Prelude.

Inductive json : Type :=
| JNull
| JBool (b : bool)
| JNumber (n : Z)
| JString (s : string)
| JArray (l : list json)
| JObject (l : list (string * json)).

Section json_induction.
Context (P : json → Prop).
Context (Hnull : P JNull) (Hbool : ∀ b, P (JBool b)) (Hnum : ∀ n, P (JNumber n))
  (Hstr : ∀ s, P (JString s))
  (Harr : ∀ l, Forall P l → P (JArray l))
  (Hobj : ∀ l, Forall (λ kv, P kv.2) l → P (JObject l)).

Fixpoint json_nested_ind (v : json) : P v :=
  match v with
  | JNull => Hnull
  | JBool b => Hbool b
  | JNumber n => Hnum n
  | JString s => Hstr s
  | JArray l =>
      Harr l ((fix go (l : list json) : Forall P l :=
        match l with
        | [] => Forall_nil_2 _
        | x :: l => Forall_cons_2 _ _ _ (json_nested_ind x) (go l)
        end) l)
  | JObject l =>
      Hobj l ((fix go (l : list (string * json)) : Forall (λ kv, P kv.2) l :=
        match l with
        | [] => Forall_nil_2 _
        | x :: l => Forall_cons_2 _ _ _ (json_nested_ind x.2) (go l)
        end) l)
  end.
End json_induction.

(** ** Property order *)

(** A property key that is a canonical array index: it is enumerated before
    the other keys, in numeric order. *)
Definition digit_value (c : ascii) : option Z :=
  let n := nat_of_ascii c in
  if bool_decide (48 ≤ n ∧ n ≤ 57)%nat then Some (Z.of_nat n - 48) else None.

Fixpoint decimal_value (acc : Z) (s : string) : option Z :=
  match s with
  | EmptyString => Some acc
  | String c s' =>
      match digit_value c with
      | Some d => decimal_value (10 * acc + d) s'
      | None => None
      end
  end.

Definition array_index (key : string) : option Z :=
  match key with
  | EmptyString => None
  | String "0" EmptyString => Some 0
  | String "0" _ => None
  | _ =>
      match decimal_value 0 key with
      | Some n => if n <? 2 ^ 32 - 1 then Some n else None
      | None => None
      end
  end.

Definition index_le (a b : string * json) : Prop :=
  default 0 (array_index a.1) ≤ default 0 (array_index b.1).
#[export] Instance index_le_dec : RelDecision index_le.
Proof. unfold index_le. solve_decision. Defined.

(** [Object.fromEntries] on entries with distinct keys. *)
Definition fromEntries (l : list (string * json)) : list (string * json) :=
  merge_sort index_le (filter (λ kv, is_some (array_index kv.1) = true) l) ++
  filter (λ kv, is_some (array_index kv.1) = false) l.

Definition key_le (a b : string * json) : Prop := String.le a.1 b.1.
#[export] Instance key_le_dec : RelDecision key_le.
Proof. unfold key_le. intros a b. apply _. Defined.
#[export] Instance key_le_trans : Transitive key_le.
Proof. unfold key_le. intros a b c ? ?. by etrans. Qed.
#[export] Instance key_le_total : Total key_le.
Proof. unfold key_le. intros a b. apply String.le_total. Qed.

(** [src/lib/canonicalize.ts]. The comparison looks at the keys only, so the
    children are canonicalised before the entries are sorted. *)
Fixpoint canonicalize (value : json) : json :=
  match value with
  | JArray l => JArray (map canonicalize l)
  | JObject l =>
      JObject (fromEntries (merge_sort key_le (map (λ kv, (kv.1, canonicalize kv.2)) l)))
  | v => v
  end.

(** ** [JSON.stringify] *)

Definition hex_digit (n : nat) : ascii :=
  ascii_of_nat (if (n <? 10)%nat then 48 + n else 87 + n)%nat.

Definition escape_char (c : ascii) : string :=
  let n := nat_of_ascii c in
  if (n =? 34)%nat then String "092" (String c "")
  else if (n =? 92)%nat then String "092" (String c "")
  else if (n =? 8)%nat then String "092" "b"
  else if (n =? 9)%nat then String "092" "t"
  else if (n =? 10)%nat then String "092" "n"
  else if (n =? 12)%nat then String "092" "f"
  else if (n =? 13)%nat then String "092" "r"
  else if (n <? 32)%nat
  then String "092" ("u00" +:+ String (hex_digit (n / 16)) (String (hex_digit (n mod 16)) ""))
  else String c "".

Fixpoint escape (s : string) : string :=
  match s with
  | EmptyString => EmptyString
  | String c s' => escape_char c +:+ escape s'
  end.

Definition dquote : string := String "034" "".
Definition quote (s : string) : string := dquote +:+ escape s +:+ dquote.

Definition number_text (n : Z) : string := NilZero.string_of_int (Z.to_int n).

Fixpoint stringify (v : json) : string :=
  match v with
  | JNull => "null"
  | JBool b => if b then "true" else "false"
  | JNumber n => number_text n
  | JString s => quote s
  | JArray l => "[" +:+ String.concat "," (map stringify l) +:+ "]"
  | JObject l =>
      "{" +:+ String.concat "," (map (λ kv, quote kv.1 +:+ ":" +:+ stringify kv.2) l) +:+ "}"
  end.

(** ** The fingerprint of a print request *)

Record FingerprintInput := {
  fi_printerId : string;
  fi_documentType : option string;
  fi_destination : option string;
  fi_payload : json;
}.

(** [x || null] on a nullable string. *)
Definition or_null (o : option string) : json :=
  match o with
  | Some s => if s == "" then JNull else JString s
  | None => JNull
  end.

Definition idempotencyFingerprint (input : FingerprintInput) : string :=
  stringify (JObject [
    ("printerId", JString (fi_printerId input));
    ("documentType", or_null (toLowerCase <$> (trim <$> fi_documentType input)));
    ("destination", or_null (trim <$> fi_destination input));
    ("payload", canonicalize (fi_payload input))]).

#[global] Arguments idempotencyFingerprint _ : simpl never.

(** [sha256] (Node's crypto) is a parameter. *)
Definition idempotencyDigest (sha256 : string → string) (input : FingerprintInput) : string :=
  sha256 (idempotencyFingerprint input).

(** ** Documents equal up to property order *)

Inductive wf_json : json → Prop :=
| wf_null : wf_json JNull
| wf_bool b : wf_json (JBool b)
| wf_number n : wf_json (JNumber n)
| wf_string s : wf_json (JString s)
| wf_array l : Forall wf_json l → wf_json (JArray l)
| wf_object l : NoDup l.*1 → Forall (λ kv, wf_json kv.2) l → wf_json (JObject l).

Inductive json_eqv : json → json → Prop :=
| eqv_refl v : json_eqv v v
| eqv_array l l' : Forall2 json_eqv l l' → json_eqv (JArray l) (JArray l')
| eqv_object l l' l'' :
    Forall2 (λ a b : string * json, a.1 = b.1 ∧ json_eqv a.2 b.2) l l' → l' ≡ₚ l'' →
    json_eqv (JObject l) (JObject l'').

(** Sorting distinct keys gives one list whatever order they came in. *)
Lemma sorted_keys_unique (l l' : list (string * json)) :
  NoDup l.*1 → l ≡ₚ l' → merge_sort key_le l = merge_sort key_le l'.
Proof.
  intros Hnd Hp.
  assert (merge_sort key_le l ≡ₚ merge_sort key_le l') as Hpm
    by (rewrite !merge_sort_Permutation; done).
  assert (NoDup (merge_sort key_le l).*1) as Hnd' by (by rewrite merge_sort_Permutation).
  pose proof (StronglySorted_merge_sort key_le l) as Hs.
  pose proof (StronglySorted_merge_sort key_le l') as Hs'.
  revert Hpm Hnd' Hs Hs'.
  generalize (merge_sort key_le l) (merge_sort key_le l'). clear.
  induction l as [|x l IH]; intros l' Hp Hnd Hs Hs'.
  { by apply Permutation_nil in Hp as ->. }
  destruct l' as [|y l']; [by symmetry in Hp; apply Permutation_nil in Hp|].
  assert (x = y) as ->.
  { assert (x ∈ y :: l') as Hx by (rewrite <-Hp; set_solver).
    assert (y ∈ x :: l) as Hy by (rewrite Hp; set_solver).
    apply elem_of_cons in Hx as [->|Hx]; [done|].
    apply elem_of_cons in Hy as [->|Hy]; [done|].
    inversion_clear Hs as [|? ? _ Hall]. inversion_clear Hs' as [|? ? _ Hall'].
    rewrite Forall_forall in Hall, Hall'.
    pose proof (Hall _ Hy) as H1. pose proof (Hall' _ Hx) as H2.
    assert (x.1 = y.1) as Hk by (by apply (anti_symm String.le)).
    exfalso. inversion_clear Hnd as [|? ? Hnot _]. apply Hnot.
    rewrite Hk. apply list_elem_of_fmap. by exists y. }
  f_equal. inversion Hs; inversion Hs'; inversion Hnd; subst.
  apply IH; [by eapply Permutation_cons_inv|done..].
Qed.

Lemma canonical_children_eqv (l l' : list (string * json)) :
  Forall2 (λ a b : string * json, a.1 = b.1 ∧ json_eqv a.2 b.2) l l' →
  Forall (λ kv, ∀ w, json_eqv kv.2 w → wf_json kv.2 → canonicalize kv.2 = canonicalize w) l →
  Forall (λ kv, wf_json kv.2) l →
  map (λ kv, (kv.1, canonicalize kv.2)) l = map (λ kv, (kv.1, canonicalize kv.2)) l'.
Proof.
  induction 1 as [|a b l l' [Hk Hv] _ IH]; intros HP Hwf; [done|].
  inversion HP; inversion Hwf; subst. simpl. rewrite Hk. f_equal; [f_equal|]; auto.
Qed.

Lemma canonicalize_eqv v w : json_eqv v w → wf_json v → canonicalize v = canonicalize w.
Proof.
  revert w. induction v as [| | | |l HP|l HP] using json_nested_ind; intros w Heq Hwf;
    inversion Heq as [|? l' H2|? l' l'' H2 Hp]; subst; try done; inversion Hwf as [| | | |? Hall|? Hnd Hall];
    subst; simpl; f_equal.
  - revert HP Hall. clear -H2. induction H2; intros HP Hall; [done|].
    inversion HP; inversion Hall; subst. simpl. f_equal; auto.
  - rewrite (canonical_children_eqv l l') by done. f_equal.
    apply sorted_keys_unique; [|by apply Permutation_map].
    assert ((map (λ kv, (kv.1, canonicalize kv.2)) l').*1 = l.*1) as ->; [|done].
    clear -H2. induction H2 as [|a b l l' [Hk _] _ IH]; [done|]. simpl. f_equal; [done|exact IH].
Qed.

(** Requests whose text fields agree after normalisation and whose payloads
    agree up to property order. *)
Lemma fingerprint_eqv a b :
  fi_printerId a = fi_printerId b →
  toLowerCase <$> (trim <$> fi_documentType a) = toLowerCase <$> (trim <$> fi_documentType b) →
  trim <$> fi_destination a = trim <$> fi_destination b →
  wf_json (fi_payload a) → json_eqv (fi_payload a) (fi_payload b) →
  idempotencyFingerprint a = idempotencyFingerprint b.
Proof.
  intros Hp Ht Hd Hwf Heq. unfold idempotencyFingerprint.
  by rewrite Hp, Ht, Hd, (canonicalize_eqv _ _ Heq Hwf).
Qed.

(** ** Properties *)

(** Two requests whose payloads differ only in the order of object properties
    (the request as sent, and the row as [jsonb] gives it back) and whose
    document type and destination differ only in surrounding space and, for
    the former, letter case, have one fingerprint. *)
Theorem fingerprint_stable a b
  (Hprinter : fi_printerId a = fi_printerId b)
  (Htype : toLowerCase <$> (trim <$> fi_documentType a) = toLowerCase <$> (trim <$> fi_documentType b))
  (Hdest : trim <$> fi_destination a = trim <$> fi_destination b)
  (Hwf : wf_json (fi_payload a))
  (Hpay : json_eqv (fi_payload a) (fi_payload b)) :
  idempotencyFingerprint a = idempotencyFingerprint b.
Proof. by apply fingerprint_eqv. Qed.

Definition sample_request : FingerprintInput := {|
  fi_printerId := "p1"; fi_documentType := Some " Invoice "; fi_destination := None;
  fi_payload := JObject [("type", JString "raw"); ("data", JString "QQ==")] |}.
Definition sample_stored : FingerprintInput := {|
  fi_printerId := "p1"; fi_documentType := Some "invoice"; fi_destination := None;
  fi_payload := JObject [("data", JString "QQ=="); ("type", JString "raw")] |}.

Lemma fingerprint_stable_witness :
  idempotencyFingerprint sample_request = idempotencyFingerprint sample_stored.
Proof.
  apply (fingerprint_stable sample_request sample_stored); try reflexivity.
  - constructor; [|repeat constructor].
    apply (bool_decide_unpack _). vm_compute. exact I.
  - eapply eqv_object.
    + repeat constructor.
    + apply perm_swap.
Defined.
