(* ===== verification/NetworkAddress.v ===== *)
(** * NetworkAddress: which addresses a printer may have

    [src/lib/network-address.ts], with [net.isIP] of Node. An address is text;
    the check works on the number an IPv6 text denotes, so that no spelling of
    the cloud metadata endpoints gets through. *)

From Stdlib Require Import Ascii.
From S2P Require Import Prelude DatabaseTime JobStatus Json.

(** ** Texts *)

Definition colon : ascii := ":"%char.

(** [s.split("::")]. *)
Fixpoint split_cc (s : string) : list string :=
  match s with
  | "" => [""]
  | String c r =>
      match r with
      | String c' r' =>
          if (c == colon) && (c' == colon) then "" :: split_cc r'
          else match split_cc r with x :: l => String c x :: l | [] => [String c ""] end
      | "" => [String c ""]
      end
  end.

Definition hex_value (c : ascii) : option Z :=
  let n := Z.of_nat (nat_of_ascii c) in
  if (48 <=? n) && (n <=? 57) then Some (n - 48)
  else if (97 <=? n) && (n <=? 102) then Some (n - 87)
  else if (65 <=? n) && (n <=? 70) then Some (n - 55)
  else None.

Fixpoint hex_number (acc : Z) (s : string) : option Z :=
  match s with
  | "" => Some acc
  | String c s => match hex_value c with Some d => hex_number (16 * acc + d) s | None => None end
  end.

(** [/^[0-9a-fA-F]{1,4}$/] and [parseInt(part, 16)]. *)
Definition group (part : string) : option Z :=
  if (1 <=? strlen part) && (strlen part <=? 4) then hex_number 0 part else None.

(** One to three digits without a leading zero, at most 255. *)
Definition octet (part : string) : option Z :=
  if (strlen part =? 0) || (3 <? strlen part) || ((1 <? strlen part) && startsWith part "0") then None
  else n ← decimal_value 0 part; if n <=? 255 then Some n else None.

(** ** [net.isIP] *)

Definition isIPv4 (s : string) : bool :=
  (Z.of_nat (length (split_on "."%char s)) =? 4) && forallb (λ p, is_some (octet p)) (split_on "."%char s).

(** [%] and a zone of letters, digits, [-], [.] and [:]. *)
Definition zone_char (c : ascii) : bool :=
  let n := Z.of_nat (nat_of_ascii (ascii_lower c)) in
  is_digit c || ((97 <=? n) && (n <=? 122)) || (c == "-"%char) || (c == "."%char) || (c == colon).

(** The address without its zone; [None] when the zone is not one. *)
Fixpoint cut_zone (s : string) : option string :=
  match s with
  | "" => Some ""
  | String c r =>
      if c == "%"%char then (if (1 <=? strlen r) && all_chars zone_char r then Some "" else None)
      else String c <$> cut_zone r
  end.

Definition parts (s : string) : list string := if s == "" then [] else split_on colon s.

(** The 16-bit groups a list of parts stands for; only the last may be dotted. *)
Fixpoint weight (dotted : bool) (l : list string) : option Z :=
  match l with
  | [] => Some 0
  | p :: l =>
      if is_some (group p) then Z.add 1 <$> weight dotted l
      else if dotted && isIPv4 p && bool_decide (l = []) then Some 2
      else None
  end.

Definition isIPv6 (s : string) : bool :=
  match cut_zone s with
  | None => false
  | Some s =>
      match split_cc s with
      | [all] => weight true (parts all) == Some 8
      | [before; after] =>
          match weight false (parts before), weight true (parts after) with
          | Some n, Some m => n + m <=? 7
          | _, _ => false
          end
      | _ => false
      end
  end.

Definition isIP (s : string) : Z := if isIPv4 s then 4 else if isIPv6 s then 6 else 0.

(** ** The checks *)

(** [Number(part)]; [isIP] has let only decimal octets through. *)
Definition isPrivateIPv4 (ip : string) : bool :=
  match mapM octet (split_on "."%char ip) with
  | Some [a; b; _; _] =>
      (a =? 10) || ((a =? 172) && (16 <=? b) && (b <=? 31)) || ((a =? 192) && (b =? 168)) || ((a =? 169) && (b =? 254))
  | _ => false
  end.

(** [value = (value << 16n) | BigInt(parseInt(part, 16))] over the groups. *)
Definition group_value (gs : list Z) : Z := foldl (λ value g, Z.lor (Z.shiftl value 16) g) 0 gs.

Definition parseIPv6 (ip : string) : option Z :=
  if includes ip "%" then None
  else
    match split_cc ip with
    | [all] => gs ← mapM group (parts all); if negb (length gs =? 8)%nat then None else Some (group_value gs)
    | [before; after] =>
        lg ← mapM group (parts before); rg ← mapM group (parts after);
        let total := (length lg + length rg)%nat in
        if (8 <=? total)%nat then None else Some (group_value (lg ++ replicate (8 - total) 0 ++ rg))
    | _ => None
    end.

Definition isPrivateIPv6Value (value : Z) : bool :=
  if (value =? 0) || (value =? 1) then false
  else (Z.shiftr value 121 =? 126) || (Z.shiftr value 118 =? 1018).

Definition METADATA_HOSTS : list string := ["169.254.169.254"; "169.254.170.2"].
Definition METADATA_IPV6 : string := "fd00:ec2::254".

Definition isPrivateNetworkAddress (ip : string) : bool :=
  let family := isIP ip in
  if family =? 4 then if one_of METADATA_HOSTS ip then false else isPrivateIPv4 ip
  else if family =? 6 then
    match parseIPv6 ip with
    | None => false
    | Some numeric => if Some numeric == parseIPv6 METADATA_IPV6 then false else isPrivateIPv6Value numeric
    end
  else false.

Example spellings :
  isPrivateNetworkAddress "192.168.1.20" = true ∧ isPrivateNetworkAddress "192.168.01.20" = false ∧
  isPrivateNetworkAddress "169.254.169.254" = false ∧ isPrivateNetworkAddress "8.8.8.8" = false ∧
  isPrivateNetworkAddress "fd00::1" = true ∧ isPrivateNetworkAddress "FE80:0:0:0:0:0:0:1" = true ∧
  isPrivateNetworkAddress "fd00:0ec2:0:0:0:0:0:0254" = false ∧ isPrivateNetworkAddress "fe80::1%eth0" = false ∧
  isPrivateNetworkAddress "::ffff:10.0.0.1" = false ∧ isPrivateNetworkAddress "2001:db8::1" = false.
Proof. vm_compute. tauto. Qed.

(** ** What they accept *)

Definition dotted (l : list Z) : string := String.concat "." (map number_text l).

(** A text of eight groups, or one with [::] for at least one zero group. *)
Inductive spells : string → list Z → Prop :=
| spells_full ts gs :
    Forall2 (λ t g, group t = Some g) ts gs → length gs = 8%nat → spells (String.concat ":" ts) gs
| spells_short ls lg rs rg :
    Forall2 (λ t g, group t = Some g) ls lg → Forall2 (λ t g, group t = Some g) rs rg →
    (length lg + length rg ≤ 7)%nat →
    spells (String.concat ":" ls +:+ "::" +:+ String.concat ":" rs)
      (lg ++ replicate (8 - (length lg + length rg)) 0 ++ rg).

Definition private_v4 (ip : string) : Prop := ∃ a b c d,
  Forall (λ n, 0 ≤ n ≤ 255) [a; b; c; d] ∧ ip = dotted [a; b; c; d] ∧
  (a = 10 ∨ (a = 172 ∧ 16 ≤ b ≤ 31) ∨ (a = 192 ∧ b = 168) ∨ (a = 169 ∧ b = 254)) ∧
  [a; b; c; d] ≠ [169; 254; 169; 254] ∧ [a; b; c; d] ≠ [169; 254; 170; 2].

(** [fc00::/7] or [fe80::/10], but not [fd00:ec2::254]. *)
Definition private_v6 (ip : string) : Prop := ∃ g gs,
  spells ip (g :: gs) ∧ (64512 ≤ g ≤ 65023 ∨ 65152 ≤ g ≤ 65215) ∧
  g :: gs ≠ [64768; 3778; 0; 0; 0; 0; 0; 596].

(** ** Splitting *)

Lemma split_cc_cons c c' r :
  split_cc (String c (String c' r)) =
  if (c == colon) && (c' == colon) then "" :: split_cc r
  else match split_cc (String c' r) with x :: l => String c x :: l | [] => [String c ""] end.
Proof. done. Qed.

(** Induction on the text, two characters at a time. *)
Lemma split_cc_ind (P : string → Prop) :
  P "" → (∀ c, P (String c "")) → (∀ c c' r, P r → P (String c' r) → P (String c (String c' r))) → ∀ s, P s.
Proof.
  intros H0 H1 H2 s. enough (P s ∧ ∀ c, P (String c s)) by tauto.
  induction s as [|c s [IH1 IH2]]; split; auto.
Qed.

Lemma split_cc_concat s : String.concat "::" (split_cc s) = s ∧ split_cc s ≠ [].
Proof.
  induction s as [|c|c c' r [IH1 N1] [IH2 N2]] using split_cc_ind; [done|done|]. rewrite split_cc_cons.
  destruct ((c == colon) && (c' == colon)) eqn:E.
  - apply andb_true_iff in E as [->%bool_decide_eq_true ->%bool_decide_eq_true].
    destruct (split_cc r) as [|x l]; [done|]. split; [|done]. change (String colon (String colon (String.concat "::" (x :: l))) = String colon (String colon r)). by rewrite IH1.
  - destruct (split_cc (String c' r)) as [|x l]; [done|]. split; [|done].
    destruct l; cbn [String.concat] in *; by rewrite <-IH2.
Qed.

(** No two colons in a row, and none at the end. *)
Fixpoint tidy (s : string) : bool :=
  match s with
  | "" => true
  | String c r => tidy r && (if c == colon then match r with "" => false | String c' _ => c' != colon end else true)
  end.

Lemma split_cc_tidy s rest : tidy s = true → split_cc (s +:+ "::" +:+ rest) = s :: split_cc rest ∧ split_cc s = [s].
Proof.
  induction s as [|c s IH]; intros H; [done|]. cbn [tidy] in H. apply andb_true_iff in H as [Ht Hc].
  destruct (IH Ht) as [IH1 IH2]. destruct s as [|c' s].
  - destruct (c == colon) eqn:E; [done|]. change (String c "" +:+ "::" +:+ rest) with (String c (String colon (String colon rest))).
    by rewrite split_cc_cons, E.
  - change (String c (String c' s) +:+ "::" +:+ rest) with (String c (String c' (s +:+ "::" +:+ rest))).
    rewrite !split_cc_cons. change (String c' (s +:+ "::" +:+ rest)) with (String c' s +:+ "::" +:+ rest).
    rewrite IH1, IH2. replace ((c == colon) && (c' == colon)) with false; [done|].
    destruct (c == colon); [|done]. by apply negb_true_iff in Hc as ->.
Qed.

(** Parts that are groups have no colon, no percent sign, and are not empty. *)
Definition group_char (c : ascii) : bool := is_some (hex_value c).

Lemma hex_number_chars acc s n : hex_number acc s = Some n → all_chars group_char s = true.
Proof.
  revert acc. induction s as [|c s IH]; intros acc; [done|]. cbn [hex_number all_chars]. unfold group_char at 1.
  destruct (hex_value c); [apply IH|done].
Qed.

Lemma group_chars t g : group t = Some g → t ≠ "" ∧ all_chars group_char t = true.
Proof.
  unfold group. destruct (_ && _) eqn:E; [|done]. intros H%hex_number_chars. split; [|done]. by intros ->.
Qed.

Lemma group_char_not c d : group_char c = true → group_char d = false → (c == d) = false.
Proof. intros Hc Hd. apply bool_decide_eq_false. intros ->. congruence. Qed.

Lemma group_free t g d : group t = Some g → group_char d = false → free_of d t = true.
Proof.
  intros [_ H]%group_chars Hd. eapply all_chars_impl, H. intros c Hc. simpl.
  by rewrite (group_char_not c d).
Qed.

Lemma tidy_group t s : all_chars group_char t = true → tidy (t +:+ s) = tidy s.
Proof.
  induction t as [|c t IH]; [done|]. cbn [all_chars]. intros [Hc Ht]%andb_true_iff.
  change (tidy (String c (t +:+ s)) = tidy s). cbn [tidy]. rewrite IH by done.
  by rewrite (group_char_not c colon), andb_true_r.
Qed.

Abbreviation groups := (Forall2 (λ t g, group t = Some g)).

Lemma concat_colon t ts : ts ≠ [] → String.concat ":" (t :: ts) = t +:+ ":" +:+ String.concat ":" ts.
Proof. by destruct ts. Qed.

Lemma groups_tidy ts gs : groups ts gs → tidy (String.concat ":" ts) = true.
Proof.
  induction 1 as [|t g ts gs Hg Hgs IH]; [done|]. apply group_chars in Hg as [Hne Hg]. destruct ts as [|t' ts'] eqn:E.
  - simpl. rewrite <-(string_app_nil_r t). by rewrite tidy_group.
  - rewrite concat_colon, tidy_group by done. change (tidy (String colon (String.concat ":" (t' :: ts'))) = true).
    cbn [tidy]. rewrite IH. simpl. inversion Hgs as [|? g' ? gs' Hg' _]; subst. apply group_chars in Hg' as [Hne' Hg'].
    destruct t' as [|c t']; [done|]. destruct ts'; simpl;
      cbn [all_chars] in Hg'; apply andb_true_iff in Hg' as [Hc _]; by rewrite (group_char_not c colon).
Qed.

Lemma groups_split ts gs : groups ts gs → parts (String.concat ":" ts) = ts.
Proof.
  unfold parts. intros H. destruct (decide (ts = [])) as [->|Hne]; [done|].
  replace (String.concat ":" ts == "") with false.
  - induction H as [|t g ts gs Hg Hgs IH]; [done|]. pose proof (group_free _ _ colon Hg eq_refl) as Hf.
    destruct ts as [|t2 ts2]; [by apply split_on_free|]. rewrite concat_colon by done.
    rewrite (split_on_app colon) by done. by rewrite IH.
  - symmetry. apply bool_decide_eq_false. destruct H as [|t g ts gs Hg _]; [done|]. apply group_chars in Hg as [Ht _].
    destruct t as [|c t]; [done|]. by destruct ts.
Qed.

Lemma groups_chars p ts gs : (∀ c, group_char c = true → p c = true) → p colon = true → groups ts gs →
  all_chars p (String.concat ":" ts) = true.
Proof.
  intros Hp Hc. induction 1 as [|t g ts gs Hg Hgs IH]; [done|]. apply group_chars in Hg as [_ Hg].
  apply (all_chars_impl _ p) in Hg; [|done]. destruct ts as [|t' ts']; [done|].
  rewrite concat_colon by done. unfold colon in Hc. rewrite !all_chars_app, Hg, IH. simpl. by rewrite Hc.
Qed.

(** ** The parser *)

Lemma includes_percent s : includes s "%" = negb (all_chars (λ c, c != "%"%char) s).
Proof.
  induction s as [|c s IH]; [done|]. cbn [includes all_chars String.prefix]. rewrite IH, negb_andb, negb_involutive.
  destruct (ascii_dec "%" c) as [<-|Hc]; [by rewrite bool_decide_true by done; destruct s|].
  by rewrite (bool_decide_eq_false_2 (c = "%"%char)) by congruence.
Qed.

Lemma mapM_groups ts gs : mapM group ts = Some gs ↔ groups ts gs.
Proof. apply mapM_Some. Qed.

Lemma parts_concat s ts : parts s = ts → s = String.concat ":" ts.
Proof.
  unfold parts. destruct (s == "") eqn:E; intros <-; [by apply bool_decide_eq_true in E|].
  symmetry. apply split_on_concat.
Qed.

Lemma parse_spells ip v : parseIPv6 ip = Some v → ∃ gs, spells ip gs ∧ length gs = 8%nat ∧ v = group_value gs.
Proof.
  unfold parseIPv6. destruct (includes ip "%"); [done|]. destruct (split_cc_concat ip) as [Hip _].
  destruct (split_cc ip) as [|x [|y [|z l]]]; [done| | |done].
  - destruct (mapM group (parts x)) as [gs|] eqn:Hl; [|done]. cbn [mbind option_bind]. simpl in Hip.
    destruct (length gs =? 8)%nat eqn:E; [|done]. intros [= <-]. apply Nat.eqb_eq in E. exists gs. split_and!; [|done|done].
    rewrite <-Hip, (parts_concat x _ eq_refl). apply spells_full; [by apply mapM_groups|done].
  - destruct (mapM group (parts x)) as [ls|] eqn:Hl; [|done]. destruct (mapM group (parts y)) as [rs|] eqn:Hr; [|by intros].
    cbn [mbind option_bind]. destruct (8 <=? length ls + length rs)%nat eqn:E; [done|]. intros [= <-]. apply Nat.leb_gt in E.
    exists (ls ++ replicate (8 - (length ls + length rs)) 0 ++ rs). split_and!; [| |done].
    + rewrite <-Hip. cbn [String.concat]. rewrite (parts_concat x _ eq_refl), (parts_concat y _ eq_refl).
      apply spells_short; [by apply mapM_groups..|lia].
    + rewrite !length_app, length_replicate. lia.
Qed.

Lemma spelled_chars p ip gs : (∀ c, group_char c = true → p c = true) → p colon = true → spells ip gs → all_chars p ip = true.
Proof.
  intros Hp Hc [ts gs' H _|ls lg rs rg Hl Hr _]; [by eapply groups_chars|].
  rewrite !all_chars_app, (groups_chars p ls lg), (groups_chars p rs rg) by done. unfold colon in Hc. simpl. by rewrite Hc.
Qed.

Lemma spelled_parse ip gs : spells ip gs → parseIPv6 ip = Some (group_value gs).
Proof.
  intros H. unfold parseIPv6. rewrite includes_percent, (spelled_chars _ ip gs); [|by intros c Hc; rewrite (group_char_not c)|done|done].
  cbn [negb]. destruct H as [ts gs H Hn|ls lg rs rg Hl Hr Hn].
  - destruct (split_cc_tidy (String.concat ":" ts) "" (groups_tidy _ _ H)) as [_ ->].
    rewrite (groups_split _ _ H), (proj2 (mapM_groups ts gs) H). cbn [mbind option_bind]. by rewrite Hn.
  - destruct (split_cc_tidy _ (String.concat ":" rs) (groups_tidy _ _ Hl)) as [-> _].
    destruct (split_cc_tidy _ "" (groups_tidy _ _ Hr)) as [_ ->].
    rewrite (groups_split _ _ Hl), (groups_split _ _ Hr), (proj2 (mapM_groups ls lg) Hl), (proj2 (mapM_groups rs rg) Hr).
    cbn [mbind option_bind]. replace (8 <=? length lg + length rg)%nat with false; [done|]. symmetry. apply Nat.leb_gt. lia.
Qed.

(** ** Groups as numbers *)

Lemma hex_value_range c d : hex_value c = Some d → 0 ≤ d < 16.
Proof.
  unfold hex_value. destruct (_ && _) eqn:E1; [intros [= <-]; lia|]. destruct (_ && _) eqn:E2 in |- *; [intros [= <-]; lia|].
  destruct (_ && _) eqn:E3 in |- *; [intros [= <-]; lia|done].
Qed.

Lemma hex_number_range acc s n : 0 ≤ acc → hex_number acc s = Some n → 0 ≤ n < (acc + 1) * 16 ^ strlen s.
Proof.
  revert acc. induction s as [|c s IH]; intros acc Hacc; [intros [= <-]; unfold strlen; simpl; lia|].
  cbn [hex_number]. destruct (hex_value c) as [d|] eqn:Hd; [|done]. apply hex_value_range in Hd. intros H%IH; [|lia].
  assert (strlen (String c s) = strlen s + 1) as -> by (unfold strlen; simpl String.length; lia).
  rewrite Z.pow_add_r by (unfold strlen; lia). assert (0 < 16 ^ strlen s) by (apply Z.pow_pos_nonneg; unfold strlen; lia). nia.
Qed.

Lemma group_range t g : group t = Some g → 0 ≤ g < 65536.
Proof.
  unfold group. destruct (_ && _) eqn:E; [|done]. intros H%hex_number_range; [|done].
  assert (16 ^ strlen t ≤ 16 ^ 4) by (apply Z.pow_le_mono_r; lia). lia.
Qed.

Lemma lor_group v g : 0 ≤ g < 65536 → Z.lor (Z.shiftl v 16) g = v * 65536 + g.
Proof.
  intros Hg. pose proof (Z.add_lor_land (Z.shiftl v 16) g) as H. rewrite Z.shiftl_mul_pow2 in * by lia.
  assert (Z.land (v * 2 ^ 16) g = 0) as E; [|change (2 ^ 16) with 65536 in *; lia].
  assert (g = Z.land (Z.ones 16) g) as ->.
  { rewrite Z.land_comm, Z.land_ones by lia. change (2 ^ 16) with 65536. by rewrite Z.mod_small. }
  rewrite Z.land_assoc, Z.land_ones, Z.mod_mul by lia. apply Z.land_0_l.
Qed.

Lemma group_value_from acc gs : 0 ≤ acc → Forall (λ g, 0 ≤ g < 65536) gs →
  foldl (λ value g, Z.lor (Z.shiftl value 16) g) acc gs = acc * 65536 ^ Z.of_nat (length gs) + group_value gs ∧
  0 ≤ group_value gs < 65536 ^ Z.of_nat (length gs).
Proof.
  unfold group_value. intros Hacc Hgs. revert acc Hacc. induction Hgs as [|g gs Hg Hgs IH]; intros acc Hacc; [simpl; lia|].
  cbn [foldl]. rewrite !lor_group by done. destruct (IH (acc * 65536 + g)) as [-> _]; [lia|].
  destruct (IH (0 * 65536 + g)) as [-> ?]; [lia|]. cbn [length].
  rewrite Nat2Z.inj_succ, Z.pow_succ_r by lia. split; [ring|]. nia.
Qed.

Lemma group_value_cons g gs : 0 ≤ g < 65536 → Forall (λ g, 0 ≤ g < 65536) gs →
  group_value (g :: gs) = g * 65536 ^ Z.of_nat (length gs) + group_value gs ∧
  0 ≤ group_value gs < 65536 ^ Z.of_nat (length gs).
Proof.
  intros Hg Hgs. unfold group_value at 1. cbn [foldl]. rewrite lor_group by done.
  apply (group_value_from (0 * 65536 + g)); [lia|done].
Qed.

Lemma group_value_inj gs gs' : Forall (λ g, 0 ≤ g < 65536) gs → Forall (λ g, 0 ≤ g < 65536) gs' →
  length gs = length gs' → group_value gs = group_value gs' → gs = gs'.
Proof.
  intros H. revert gs'. induction H as [|g gs Hg Hgs IH]; intros [|g' gs'] H'; [done..|]. intros [= Hlen] Hv.
  inversion H'; subst. destruct (group_value_cons g gs) as [E1 ?]; [done..|]. destruct (group_value_cons g' gs') as [E2 ?]; [done..|].
  rewrite E1, E2, Hlen in Hv. rewrite Hlen in *.
  assert (g = g') as -> by nia. f_equal. apply IH; [done|done|lia].
Qed.

Lemma spelled_groups ip gs : spells ip gs → Forall (λ g, 0 ≤ g < 65536) gs ∧ length gs = 8%nat.
Proof.
  assert (∀ ts gs, groups ts gs → Forall (λ g, 0 ≤ g < 65536) gs) as Hr.
  { induction 1; constructor; [by eapply group_range|done]. }
  intros [ts gs' H Hn|ls lg rs rg Hl Hrs Hn]; [by eauto|]. split.
  - rewrite !Forall_app. split_and!; [by eauto| |by eauto]. apply Forall_replicate. lia.
  - rewrite !length_app, length_replicate. lia.
Qed.

Lemma private_value g gs : 0 ≤ g < 65536 → Forall (λ g, 0 ≤ g < 65536) gs → length gs = 7%nat →
  isPrivateIPv6Value (group_value (g :: gs)) = true ↔ 64512 ≤ g ≤ 65023 ∨ 65152 ≤ g ≤ 65215.
Proof.
  intros Hg Hgs Hn. destruct (group_value_cons g gs) as [-> Hv]; [done..|]. rewrite Hn in *.
  change (65536 ^ Z.of_nat 7) with (2 ^ 112) in *. unfold isPrivateIPv6Value. rewrite !Z.shiftr_div_pow2 by lia.
  assert (∀ k, 0 ≤ k ≤ 16 → (g * 2 ^ 112 + group_value gs) / 2 ^ (112 + k) = g / 2 ^ k) as Hd.
  { intros k Hk. assert (0 < 2 ^ k) by (apply Z.pow_pos_nonneg; lia). rewrite Z.pow_add_r, <-Z.div_div by lia. rewrite Z.div_add_l, (Z.div_small (group_value gs)) by lia. by rewrite Z.add_0_r. }
  change 121 with (112 + 9). change 118 with (112 + 6). rewrite (Hd 9), (Hd 6) by lia. change (2 ^ 9) with 512. change (2 ^ 6) with 64.
  pose proof (Z.div_mod g 512). pose proof (Z.mod_pos_bound g 512). pose proof (Z.div_mod g 64). pose proof (Z.mod_pos_bound g 64).
  destruct ((_ =? 0) || _) eqn:E; [assert (g = 0) by lia; lia|]. rewrite orb_true_iff, !Z.eqb_eq. lia.
Qed.

(** ** [isIP] *)

Lemma cut_zone_plain s : all_chars (λ c, c != "%"%char) s = true → cut_zone s = Some s.
Proof.
  induction s as [|c s IH]; [done|]. cbn [all_chars cut_zone]. intros [Hc Hs]%andb_true_iff.
  apply negb_true_iff in Hc as ->. by rewrite IH.
Qed.

Lemma weight_groups dot ts gs : groups ts gs → weight dot ts = Some (Z.of_nat (length gs)).
Proof.
  induction 1 as [|t g ts gs Hg _ IH]; [done|]. cbn [weight]. rewrite Hg, IH. simpl. f_equal. lia.
Qed.

Lemma octet_chars p n : octet p = Some n → all_chars is_digit p = true.
Proof.
  unfold octet. destruct (_ || _); [done|].
  enough (∀ acc m, decimal_value acc p = Some m → all_chars is_digit p = true).
  { destruct (decimal_value 0 p) eqn:E; [eauto|done]. }
  induction p as [|c p IH]; intros acc m; [done|]. cbn [decimal_value all_chars]. destruct (digit_value c) eqn:E; [|done].
  intros H%IH. rewrite H, andb_true_r. unfold digit_value in E. unfold is_digit. by case_bool_decide.
Qed.

Lemma v4_chars s : isIPv4 s = true → all_chars (λ c, is_digit c || (c == "."%char)) s = true.
Proof.
  unfold isIPv4. intros [_ H]%andb_true_iff. rewrite <-(proj1 (split_on_concat "."%char s)).
  induction (split_on "."%char s) as [|p l IH]; [done|]. cbn [forallb] in H. apply andb_true_iff in H as [Hp Hl].
  destruct (octet p) as [n|] eqn:E; [|done]. apply octet_chars in E.
  apply (all_chars_impl _ (λ c, is_digit c || (c == "."%char))) in E; [|by intros c ->].
  destruct l as [|q l]; [done|]. change (String.concat (String "." "") (p :: q :: l)) with (p +:+ String "." "" +:+ String.concat (String "." "") (q :: l)).
  rewrite !all_chars_app, E. simpl. apply IH, Hl.
Qed.

Lemma spelled_isIP ip gs : spells ip gs → isIP ip = 6.
Proof.
  intros H. unfold isIP. replace (isIPv4 ip) with false.
  - replace (isIPv6 ip) with true; [done|]. symmetry. unfold isIPv6.
    rewrite cut_zone_plain by (eapply spelled_chars, H; [by intros c Hc; rewrite (group_char_not c)|done]).
    destruct H as [ts gs H Hn|ls lg rs rg Hl Hr Hn].
    + destruct (split_cc_tidy (String.concat ":" ts) "" (groups_tidy _ _ H)) as [_ ->].
      rewrite (groups_split _ _ H), (weight_groups _ _ _ H), Hn. done.
    + destruct (split_cc_tidy _ (String.concat ":" rs) (groups_tidy _ _ Hl)) as [-> _].
      destruct (split_cc_tidy _ "" (groups_tidy _ _ Hr)) as [_ ->].
      rewrite (groups_split _ _ Hl), (groups_split _ _ Hr), (weight_groups _ _ _ Hl), (weight_groups _ _ _ Hr). lia.
  - symmetry. apply not_true_iff_false. intros Hc%v4_chars. destruct H as [ts gs H Hn|ls lg rs rg Hl Hr Hn].
    + destruct H as [|t g [|t' ts] gs Hg Hgs]; [done|by inversion Hgs; subst|]. rewrite concat_colon, !all_chars_app in Hc by done.
      simpl in Hc. by rewrite andb_false_r in Hc.
    + rewrite !all_chars_app in Hc. simpl in Hc. by rewrite andb_false_r in Hc.
Qed.

(** ** Dotted addresses *)

Lemma octets_text : Forall (λ n, octet (number_text n) = Some n ∧ free_of "."%char (number_text n) = true) (seqZ 0 256).
Proof. apply (bool_decide_unpack _). vm_compute. exact I. Qed.

Lemma octet_text n : 0 ≤ n ≤ 255 → octet (number_text n) = Some n ∧ free_of "."%char (number_text n) = true.
Proof. intros Hn. apply (proj1 (Forall_forall _ _) octets_text), elem_of_seqZ. lia. Qed.

Lemma octet_number n : 0 ≤ n ≤ 255 → octet (number_text n) = Some n.
Proof. intros Hn. by apply octet_text. Qed.

(** A digit and its value. *)
Lemma digit_char c d : digit_value c = Some d → 0 ≤ d ≤ 9 ∧ c = ascii_of_nat (48 + Z.to_nat d).
Proof.
  unfold digit_value. case_bool_decide; [|done]. intros [= <-]. split; [lia|].
  rewrite <-(ascii_nat_embedding c) at 1. f_equal. lia.
Qed.

Lemma digits_text :
  Forall (λ n, number_text n = String (ascii_of_nat (48 + Z.to_nat n)) "") (seqZ 0 10) ∧
  Forall (λ n, number_text n = String (ascii_of_nat (48 + Z.to_nat (n / 10))) (String (ascii_of_nat (48 + Z.to_nat (n mod 10))) ""))
    (seqZ 10 90) ∧
  Forall (λ n, number_text n = String (ascii_of_nat (48 + Z.to_nat (n / 100)))
                 (String (ascii_of_nat (48 + Z.to_nat (n / 10 mod 10))) (String (ascii_of_nat (48 + Z.to_nat (n mod 10))) "")))
    (seqZ 100 900).
Proof. split_and!; apply (bool_decide_unpack _); vm_compute; exact I. Qed.

(** An octet is the decimal text of its value. *)
Lemma octet_is_text p n : octet p = Some n → 0 ≤ n ≤ 255 ∧ p = number_text n.
Proof.
  unfold octet. destruct (_ || _) eqn:E; [done|]. apply orb_false_iff in E as [[E1 E2]%orb_false_iff E3].
  destruct digits_text as (D1 & D2 & D3). rewrite Forall_forall in D1, D2, D3.
  destruct p as [|c1 [|c2 [|c3 [|c4 p]]]]; [done| | | |exfalso; unfold strlen in E2; cbn [String.length] in E2; apply Z.ltb_ge in E2; lia]; cbn [decimal_value];
    repeat match goal with |- context [digit_value ?c] =>
      let d := fresh "d" in let H := fresh "H" in
      destruct (digit_value c) as [d|] eqn:H; [apply digit_char in H as [H ->]|done] end;
    cbn [mbind option_bind]; destruct (_ <=? 255) eqn:E; try done; intros [= <-].
  - split; [lia|]. by rewrite D1 by (apply elem_of_seqZ; lia).
  - assert (d ≠ 0) as Hd by (intros ->; simpl in E3; done). split; [lia|]. rewrite D2 by (apply elem_of_seqZ; lia).
    rewrite <-(Z.div_unique (10 * (10 * 0 + d) + d0) 10 d d0), <-(Z.mod_unique (10 * (10 * 0 + d) + d0) 10 d d0) by lia. done.
  - assert (d ≠ 0) as Hd by (intros ->; simpl in E3; done). split; [lia|]. rewrite D3 by (apply elem_of_seqZ; lia).
    rewrite <-(Z.div_unique _ 100 d (10 * d0 + d1)), <-(Z.div_unique _ 10 (10 * d + d0) d1), <-(Z.mod_unique (10 * d + d0) 10 d d0),
      <-(Z.mod_unique _ 10 (10 * d + d0) d1) by lia. done.
Qed.

Lemma dotted_split a b c d : Forall (λ n, 0 ≤ n ≤ 255) [a; b; c; d] →
  split_on "."%char (dotted [a; b; c; d]) = map number_text [a; b; c; d].
Proof.
  rewrite !Forall_cons. intros (Ha & Hb & Hc & Hd & _). unfold dotted. cbn [map String.concat].
  rewrite !(split_on_app "."%char) by (by apply octet_text). rewrite split_on_free by (by apply octet_text). done.
Qed.

Lemma dotted_isIP a b c d : Forall (λ n, 0 ≤ n ≤ 255) [a; b; c; d] → isIPv4 (dotted [a; b; c; d]) = true.
Proof.
  intros H. unfold isIPv4. rewrite dotted_split by done. rewrite !Forall_cons in H. destruct H as (Ha & Hb & Hc & Hd & _).
  cbn [map forallb]. by rewrite !octet_number.
Qed.

Lemma v4_dotted ip : isIPv4 ip = true → ∃ a b c d, Forall (λ n, 0 ≤ n ≤ 255) [a; b; c; d] ∧ ip = dotted [a; b; c; d].
Proof.
  unfold isIPv4. destruct (split_on_concat "."%char ip) as [Hip _].
  destruct (split_on "."%char ip) as [|p [|q [|r [|t [|u l]]]]]; intros [Hn H]%andb_true_iff; try done.
  - cbn [forallb] in H. destruct (octet p) as [a|] eqn:Ha; [|done]. destruct (octet q) as [b|] eqn:Hb; [|done].
    destruct (octet r) as [c|] eqn:Hc; [|done]. destruct (octet t) as [d|] eqn:Hd; [|done].
    apply octet_is_text in Ha as [? ->], Hb as [? ->], Hc as [? ->], Hd as [? ->]. exists a, b, c, d. by rewrite !Forall_cons.
  - apply Z.eqb_eq in Hn. cbn [length] in Hn. lia.
Qed.

Lemma dotted_inj l l' : Forall (λ n, 0 ≤ n ≤ 255) l → Forall (λ n, 0 ≤ n ≤ 255) l' → length l = 4%nat → length l' = 4%nat →
  dotted l = dotted l' → l = l'.
Proof.
  destruct l as [|a [|b [|c [|d [|]]]]], l' as [|a' [|b' [|c' [|d' [|]]]]]; try done. intros H H' _ _ E.
  apply (f_equal (split_on "."%char)) in E. rewrite !dotted_split in E by done. simpl in E. injection E as E1 E2 E3 E4.
  rewrite !Forall_cons in H, H'. destruct H as (Ha & Hb & Hc & Hd & _), H' as (Ha' & Hb' & Hc' & Hd' & _).
  apply octet_text in Ha as [Ha _], Hb as [Hb _], Hc as [Hc _], Hd as [Hd _], Ha' as [Ha' _], Hb' as [Hb' _], Hc' as [Hc' _], Hd' as [Hd' _].
  congruence.
Qed.

Lemma dotted_private a b c d : Forall (λ n, 0 ≤ n ≤ 255) [a; b; c; d] →
  isPrivateIPv4 (dotted [a; b; c; d]) = true ↔
  a = 10 ∨ (a = 172 ∧ 16 ≤ b ≤ 31) ∨ (a = 192 ∧ b = 168) ∨ (a = 169 ∧ b = 254).
Proof.
  intros H. unfold isPrivateIPv4. rewrite dotted_split by done. rewrite !Forall_cons in H. destruct H as (Ha & Hb & Hc & Hd & _).
  cbn [map mapM]. rewrite !octet_number by done. simpl. rewrite !orb_true_iff, !andb_true_iff. lia.
Qed.

Lemma metadata_v4 a b c d : Forall (λ n, 0 ≤ n ≤ 255) [a; b; c; d] →
  one_of METADATA_HOSTS (dotted [a; b; c; d]) = false ↔
  [a; b; c; d] ≠ [169; 254; 169; 254] ∧ [a; b; c; d] ≠ [169; 254; 170; 2].
Proof.
  intros H. unfold one_of. rewrite bool_decide_eq_false. unfold METADATA_HOSTS. rewrite !not_elem_of_cons.
  change "169.254.169.254" with (dotted [169; 254; 169; 254]). change "169.254.170.2" with (dotted [169; 254; 170; 2]).
  assert (∀ l, Forall (λ n, 0 ≤ n ≤ 255) l → length l = 4%nat →
    dotted [a; b; c; d] ≠ dotted l ↔ [a; b; c; d] ≠ l) as Hl.
  { intros l Hl Hn. split; intros Hx; [congruence|]. intros E. by apply Hx, (dotted_inj _ _ H Hl). }
  rewrite !Hl by (done || (repeat constructor; lia)). pose proof (not_elem_of_nil (dotted [a; b; c; d])). tauto.
Qed.

Lemma metadata_v6 gs : Forall (λ g, 0 ≤ g < 65536) gs → length gs = 8%nat →
  (Some (group_value gs) == parseIPv6 METADATA_IPV6) = false ↔ gs ≠ [64768; 3778; 0; 0; 0; 0; 0; 596].
Proof.
  intros Hg Hn. replace (parseIPv6 METADATA_IPV6) with (Some (group_value [64768; 3778; 0; 0; 0; 0; 0; 596])) by (by vm_compute).
  rewrite bool_decide_eq_false. split; intros H; [congruence|]. intros [= E]. apply H.
  apply group_value_inj; [done| |done|done]. repeat constructor; lia.
Qed.

Lemma private_address_sound ip : isPrivateNetworkAddress ip = true → private_v4 ip ∨ private_v6 ip.
Proof.
  unfold isPrivateNetworkAddress, isIP. destruct (isIPv4 ip) eqn:E4.
  - intros H. left. apply v4_dotted in E4 as (a & b & c & d & Hr & ->). exists a, b, c, d. simpl in H.
    destruct (one_of METADATA_HOSTS (dotted [a; b; c; d])) eqn:Hm; [done|].
    by rewrite <-metadata_v4, <-dotted_private.
  - destruct (isIPv6 ip); [|done]. simpl. destruct (parseIPv6 ip) as [v|] eqn:Hv; [|done]. intros H. right.
    apply parse_spells in Hv as (gs & Hs & Hn & ->). destruct (spelled_groups _ _ Hs) as [Hr _].
    destruct (Some _ == _) eqn:Hm; [done|]. apply metadata_v6 in Hm; [|done..].
    destruct gs as [|g gs]; [done|]. apply Forall_cons in Hr as [Hg Hr]. apply private_value in H; [|done|done|simpl in Hn; lia].
    by exists g, gs.
Qed.

Lemma private_address_complete ip : private_v4 ip ∨ private_v6 ip → isPrivateNetworkAddress ip = true.
Proof.
  intros [(a & b & c & d & Hr & -> & Hp & Hm)|(g & gs & Hs & Hp & Hm)]; unfold isPrivateNetworkAddress.
  - unfold isIP. rewrite dotted_isIP by done. simpl. rewrite (proj2 (metadata_v4 a b c d Hr) Hm). by apply dotted_private.
  - rewrite (spelled_isIP _ _ Hs), (spelled_parse _ _ Hs). simpl. destruct (spelled_groups _ _ Hs) as [Hr Hn].
    rewrite (proj2 (metadata_v6 _ Hr Hn) Hm). apply Forall_cons in Hr as [Hg Hr]. apply private_value; [done|done| |done].
    simpl in Hn. lia.
Qed.

(** The address check accepts exactly the private and link-local addresses:
    dotted decimal texts in 10/8, 172.16/12, 192.168/16 or 169.254/16 other than
    the two metadata hosts, and every spelling (any case, leading zeros, [::]) of
    an address in fc00::/7 or fe80::/10 other than fd00:ec2::254. *)
Theorem private_address_exact ip : isPrivateNetworkAddress ip = true ↔ private_v4 ip ∨ private_v6 ip.
Proof. split; [apply private_address_sound|apply private_address_complete]. Qed.
