(* ===== verification/Schema.v ===== *)
(** * The gateway's tables

    [src/db/schema.ts]: the rows the print pipeline reads and writes, as
    records, the database as a record of finite maps keyed by primary key,
    and the [CHECK] constraints as boolean predicates.

    Enumerated text columns that the code compares as strings stay strings;
    [print_jobs.status] is the closed [JobStatus]. Columns that no modelled
    operation reads (display names of tenants, audit columns) are left out. *)

From S2P Require Import Prelude DatabaseTime JobStatus Json.

(** ** Rows *)

Record tenant := {
  tn_lifecycle : string;
  tn_suspendedAt : option Z;
  tn_deletedAt : option Z;
  tn_lifecycleReason : option string;
  tn_updatedAt : Z;
}.

(** The [inventory_snapshot_*] columns of an agent: the snapshot it is in the
    middle of sending, and the version it may not go back behind. *)
Record snapshot_progress := {
  sp_id : option string;
  sp_version : string;
  sp_pageCount : Z;
  sp_nextPage : Z;
  sp_complete : bool;
  sp_hadErrors : bool;
}.

Definition no_snapshot : snapshot_progress := {|
  sp_id := None; sp_version := "0"; sp_pageCount := 0; sp_nextPage := 1; sp_complete := false; sp_hadErrors := false |}.

Record agent := {
  ag_tenantId : string;
  ag_name : string;
  ag_pairingCodeHash : option string;
  ag_pairingCodeExpiresAt : option Z;
  ag_secret : option string;
  ag_status : string;
  ag_lifecycle : string;
  ag_lifecycleRevision : Z;
  ag_snapshot : snapshot_progress;
  ag_metadata : option json;
  ag_lastSeenAt : option Z;
  ag_updatedAt : Z;
}.

Record printer := {
  pr_agentId : string;
  pr_name : string;
  pr_printerType : string;
  pr_deviceClass : string;
  pr_connectionType : string;
  pr_protocol : string;
  pr_status : string;
  pr_lifecycle : string;
  pr_managementSource : string;
  pr_sharedWithGateway : bool;
  pr_sharedWithGatewayVersion : option string;
  pr_desiredRevision : Z;
  pr_appliedDesiredRevision : Z;
  pr_observedDesiredRevision : Z;
  pr_observedDeviceClass : option string;
  pr_config : option json;
  pr_capabilities : option json;
  pr_inventoryPresent : bool;
  pr_inventorySnapshotId : option string;
  pr_lastSeenAt : option Z;
  pr_updatedAt : Z;
}.

Record api_key := {
  ak_tenantId : string;
  ak_odooEnabled : bool;
  ak_revokedAt : option Z;
  ak_readOnlyUntil : option Z;
}.

Record print_job := {
  pj_tenantId : string;
  pj_apiKeyId : option string;
  pj_destination : option string;
  pj_documentType : option string;
  pj_agentId : string;
  pj_printerId : string;
  pj_status : JobStatus;
  pj_payload : json;
  pj_error : option string;
  pj_requestedBy : option string;
  pj_requestId : option string;
  pj_idempotencyKey : option string;
  pj_retries : Z;
  pj_claimedAt : option Z;
  pj_claimToken : option string;
  pj_closedClaimTokenHash : option string;
  pj_deliveryAttempts : Z;
  pj_deliveredAt : option Z;
  pj_ackedAt : option Z;
  pj_expiresAt : Z;
  pj_createdAt : Z;
  pj_updatedAt : Z;
  pj_spoolerJobId : option string;
  pj_attemptId : option string;
}.

Record receipt := {
  rc_tenantId : string;
  rc_idempotencyKey : option string;
  rc_fingerprint : string;
  rc_printerId : string;
  rc_agentId : string;
  rc_apiKeyId : option string;
  rc_destination : option string;
  rc_documentType : option string;
  rc_requestedBy : option string;
  rc_status : JobStatus;
  rc_error : option string;
  rc_closedClaimTokenHash : option string;
  rc_deliveredAt : option Z;
  rc_ackedAt : option Z;
  rc_createdAt : Z;
  rc_updatedAt : Z;
}.

Record plan := { pl_entitlements : json }.

Record subscription := {
  ts_planId : string;
  ts_status : string;
  ts_currentPeriodStart : Z;
  ts_currentPeriodEnd : option Z;
  ts_entitlementBlocked : bool;
}.

Record usage_period := {
  up_periodEnd : option Z;
  up_usedPrints : Z;
}.

(** A [pg_notify('print_gateway_agent_jobs', ...)] message. *)
Record job_notice := {
  jn_jobId : string;
  jn_agentId : string;
  jn_tenantId : string;
  jn_requestId : option string;
}.

(** ** The database *)

Record db := {
  tenants : gmap string tenant;
  agents : gmap string agent;
  printers : gmap (string * string) printer;
  api_keys : gmap string api_key;
  print_jobs : gmap string print_job;
  receipts : gmap string receipt;
  plans : gmap string plan;
  subscriptions : gmap string subscription;
  usage_periods : gmap (string * Z) usage_period;
  job_notices : list job_notice;
}.

Definition with_jobs (jobs : gmap string print_job) (d : db) : db := {|
  tenants := tenants d; agents := agents d; printers := printers d; api_keys := api_keys d;
  print_jobs := jobs; receipts := receipts d; plans := plans d;
  subscriptions := subscriptions d; usage_periods := usage_periods d;
  job_notices := job_notices d |}.

Definition with_receipts (rs : gmap string receipt) (d : db) : db := {|
  tenants := tenants d; agents := agents d; printers := printers d; api_keys := api_keys d;
  print_jobs := print_jobs d; receipts := rs; plans := plans d;
  subscriptions := subscriptions d; usage_periods := usage_periods d;
  job_notices := job_notices d |}.

Definition with_usage (us : gmap (string * Z) usage_period) (d : db) : db := {|
  tenants := tenants d; agents := agents d; printers := printers d; api_keys := api_keys d;
  print_jobs := print_jobs d; receipts := receipts d; plans := plans d;
  subscriptions := subscriptions d; usage_periods := us;
  job_notices := job_notices d |}.

Definition with_notices (ns : list job_notice) (d : db) : db := {|
  tenants := tenants d; agents := agents d; printers := printers d; api_keys := api_keys d;
  print_jobs := print_jobs d; receipts := receipts d; plans := plans d;
  subscriptions := subscriptions d; usage_periods := usage_periods d;
  job_notices := ns |}.

Definition with_tenants (v : gmap string tenant) (d : db) : db := {|
  tenants := v; agents := agents d; printers := printers d; api_keys := api_keys d; print_jobs
  := print_jobs d; receipts := receipts d; plans := plans d; subscriptions := subscriptions d;
  usage_periods := usage_periods d; job_notices := job_notices d |}.

Definition with_agents (v : gmap string agent) (d : db) : db := {|
  tenants := tenants d; agents := v; printers := printers d; api_keys := api_keys d; print_jobs
  := print_jobs d; receipts := receipts d; plans := plans d; subscriptions := subscriptions d;
  usage_periods := usage_periods d; job_notices := job_notices d |}.

Definition with_printers (v : gmap (string * string) printer) (d : db) : db := {|
  tenants := tenants d; agents := agents d; printers := v; api_keys := api_keys d; print_jobs :=
  print_jobs d; receipts := receipts d; plans := plans d; subscriptions := subscriptions d;
  usage_periods := usage_periods d; job_notices := job_notices d |}.

(** ** Column assignments of an [UPDATE print_jobs SET ...] *)

Definition set_status (v : JobStatus) (j : print_job) : print_job := {|
  pj_tenantId := pj_tenantId j; pj_apiKeyId := pj_apiKeyId j; pj_destination := pj_destination j;
  pj_documentType := pj_documentType j; pj_agentId := pj_agentId j;
  pj_printerId := pj_printerId j; pj_status := v; pj_payload := pj_payload j;
  pj_error := pj_error j; pj_requestedBy := pj_requestedBy j; pj_requestId := pj_requestId j;
  pj_idempotencyKey := pj_idempotencyKey j; pj_retries := pj_retries j;
  pj_claimedAt := pj_claimedAt j; pj_claimToken := pj_claimToken j;
  pj_closedClaimTokenHash := pj_closedClaimTokenHash j;
  pj_deliveryAttempts := pj_deliveryAttempts j; pj_deliveredAt := pj_deliveredAt j;
  pj_ackedAt := pj_ackedAt j; pj_expiresAt := pj_expiresAt j; pj_createdAt := pj_createdAt j;
  pj_updatedAt := pj_updatedAt j; pj_spoolerJobId := pj_spoolerJobId j;
  pj_attemptId := pj_attemptId j |}.

Definition set_error (v : option string) (j : print_job) : print_job := {|
  pj_tenantId := pj_tenantId j; pj_apiKeyId := pj_apiKeyId j; pj_destination := pj_destination j;
  pj_documentType := pj_documentType j; pj_agentId := pj_agentId j;
  pj_printerId := pj_printerId j; pj_status := pj_status j; pj_payload := pj_payload j;
  pj_error := v; pj_requestedBy := pj_requestedBy j; pj_requestId := pj_requestId j;
  pj_idempotencyKey := pj_idempotencyKey j; pj_retries := pj_retries j;
  pj_claimedAt := pj_claimedAt j; pj_claimToken := pj_claimToken j;
  pj_closedClaimTokenHash := pj_closedClaimTokenHash j;
  pj_deliveryAttempts := pj_deliveryAttempts j; pj_deliveredAt := pj_deliveredAt j;
  pj_ackedAt := pj_ackedAt j; pj_expiresAt := pj_expiresAt j; pj_createdAt := pj_createdAt j;
  pj_updatedAt := pj_updatedAt j; pj_spoolerJobId := pj_spoolerJobId j;
  pj_attemptId := pj_attemptId j |}.

Definition set_retries (v : Z) (j : print_job) : print_job := {|
  pj_tenantId := pj_tenantId j; pj_apiKeyId := pj_apiKeyId j; pj_destination := pj_destination j;
  pj_documentType := pj_documentType j; pj_agentId := pj_agentId j;
  pj_printerId := pj_printerId j; pj_status := pj_status j; pj_payload := pj_payload j;
  pj_error := pj_error j; pj_requestedBy := pj_requestedBy j; pj_requestId := pj_requestId j;
  pj_idempotencyKey := pj_idempotencyKey j; pj_retries := v; pj_claimedAt := pj_claimedAt j;
  pj_claimToken := pj_claimToken j; pj_closedClaimTokenHash := pj_closedClaimTokenHash j;
  pj_deliveryAttempts := pj_deliveryAttempts j; pj_deliveredAt := pj_deliveredAt j;
  pj_ackedAt := pj_ackedAt j; pj_expiresAt := pj_expiresAt j; pj_createdAt := pj_createdAt j;
  pj_updatedAt := pj_updatedAt j; pj_spoolerJobId := pj_spoolerJobId j;
  pj_attemptId := pj_attemptId j |}.

Definition set_claimedAt (v : option Z) (j : print_job) : print_job := {|
  pj_tenantId := pj_tenantId j; pj_apiKeyId := pj_apiKeyId j; pj_destination := pj_destination j;
  pj_documentType := pj_documentType j; pj_agentId := pj_agentId j;
  pj_printerId := pj_printerId j; pj_status := pj_status j; pj_payload := pj_payload j;
  pj_error := pj_error j; pj_requestedBy := pj_requestedBy j; pj_requestId := pj_requestId j;
  pj_idempotencyKey := pj_idempotencyKey j; pj_retries := pj_retries j; pj_claimedAt := v;
  pj_claimToken := pj_claimToken j; pj_closedClaimTokenHash := pj_closedClaimTokenHash j;
  pj_deliveryAttempts := pj_deliveryAttempts j; pj_deliveredAt := pj_deliveredAt j;
  pj_ackedAt := pj_ackedAt j; pj_expiresAt := pj_expiresAt j; pj_createdAt := pj_createdAt j;
  pj_updatedAt := pj_updatedAt j; pj_spoolerJobId := pj_spoolerJobId j;
  pj_attemptId := pj_attemptId j |}.

Definition set_claimToken (v : option string) (j : print_job) : print_job := {|
  pj_tenantId := pj_tenantId j; pj_apiKeyId := pj_apiKeyId j; pj_destination := pj_destination j;
  pj_documentType := pj_documentType j; pj_agentId := pj_agentId j;
  pj_printerId := pj_printerId j; pj_status := pj_status j; pj_payload := pj_payload j;
  pj_error := pj_error j; pj_requestedBy := pj_requestedBy j; pj_requestId := pj_requestId j;
  pj_idempotencyKey := pj_idempotencyKey j; pj_retries := pj_retries j;
  pj_claimedAt := pj_claimedAt j; pj_claimToken := v;
  pj_closedClaimTokenHash := pj_closedClaimTokenHash j;
  pj_deliveryAttempts := pj_deliveryAttempts j; pj_deliveredAt := pj_deliveredAt j;
  pj_ackedAt := pj_ackedAt j; pj_expiresAt := pj_expiresAt j; pj_createdAt := pj_createdAt j;
  pj_updatedAt := pj_updatedAt j; pj_spoolerJobId := pj_spoolerJobId j;
  pj_attemptId := pj_attemptId j |}.

Definition set_closedClaimTokenHash (v : option string) (j : print_job) : print_job := {|
  pj_tenantId := pj_tenantId j; pj_apiKeyId := pj_apiKeyId j; pj_destination := pj_destination j;
  pj_documentType := pj_documentType j; pj_agentId := pj_agentId j;
  pj_printerId := pj_printerId j; pj_status := pj_status j; pj_payload := pj_payload j;
  pj_error := pj_error j; pj_requestedBy := pj_requestedBy j; pj_requestId := pj_requestId j;
  pj_idempotencyKey := pj_idempotencyKey j; pj_retries := pj_retries j;
  pj_claimedAt := pj_claimedAt j; pj_claimToken := pj_claimToken j; pj_closedClaimTokenHash := v;
  pj_deliveryAttempts := pj_deliveryAttempts j; pj_deliveredAt := pj_deliveredAt j;
  pj_ackedAt := pj_ackedAt j; pj_expiresAt := pj_expiresAt j; pj_createdAt := pj_createdAt j;
  pj_updatedAt := pj_updatedAt j; pj_spoolerJobId := pj_spoolerJobId j;
  pj_attemptId := pj_attemptId j |}.

Definition set_deliveryAttempts (v : Z) (j : print_job) : print_job := {|
  pj_tenantId := pj_tenantId j; pj_apiKeyId := pj_apiKeyId j; pj_destination := pj_destination j;
  pj_documentType := pj_documentType j; pj_agentId := pj_agentId j;
  pj_printerId := pj_printerId j; pj_status := pj_status j; pj_payload := pj_payload j;
  pj_error := pj_error j; pj_requestedBy := pj_requestedBy j; pj_requestId := pj_requestId j;
  pj_idempotencyKey := pj_idempotencyKey j; pj_retries := pj_retries j;
  pj_claimedAt := pj_claimedAt j; pj_claimToken := pj_claimToken j;
  pj_closedClaimTokenHash := pj_closedClaimTokenHash j; pj_deliveryAttempts := v;
  pj_deliveredAt := pj_deliveredAt j; pj_ackedAt := pj_ackedAt j; pj_expiresAt := pj_expiresAt j;
  pj_createdAt := pj_createdAt j; pj_updatedAt := pj_updatedAt j;
  pj_spoolerJobId := pj_spoolerJobId j; pj_attemptId := pj_attemptId j |}.

Definition set_deliveredAt (v : option Z) (j : print_job) : print_job := {|
  pj_tenantId := pj_tenantId j; pj_apiKeyId := pj_apiKeyId j; pj_destination := pj_destination j;
  pj_documentType := pj_documentType j; pj_agentId := pj_agentId j;
  pj_printerId := pj_printerId j; pj_status := pj_status j; pj_payload := pj_payload j;
  pj_error := pj_error j; pj_requestedBy := pj_requestedBy j; pj_requestId := pj_requestId j;
  pj_idempotencyKey := pj_idempotencyKey j; pj_retries := pj_retries j;
  pj_claimedAt := pj_claimedAt j; pj_claimToken := pj_claimToken j;
  pj_closedClaimTokenHash := pj_closedClaimTokenHash j;
  pj_deliveryAttempts := pj_deliveryAttempts j; pj_deliveredAt := v; pj_ackedAt := pj_ackedAt j;
  pj_expiresAt := pj_expiresAt j; pj_createdAt := pj_createdAt j; pj_updatedAt := pj_updatedAt j;
  pj_spoolerJobId := pj_spoolerJobId j; pj_attemptId := pj_attemptId j |}.

Definition set_ackedAt (v : option Z) (j : print_job) : print_job := {|
  pj_tenantId := pj_tenantId j; pj_apiKeyId := pj_apiKeyId j; pj_destination := pj_destination j;
  pj_documentType := pj_documentType j; pj_agentId := pj_agentId j;
  pj_printerId := pj_printerId j; pj_status := pj_status j; pj_payload := pj_payload j;
  pj_error := pj_error j; pj_requestedBy := pj_requestedBy j; pj_requestId := pj_requestId j;
  pj_idempotencyKey := pj_idempotencyKey j; pj_retries := pj_retries j;
  pj_claimedAt := pj_claimedAt j; pj_claimToken := pj_claimToken j;
  pj_closedClaimTokenHash := pj_closedClaimTokenHash j;
  pj_deliveryAttempts := pj_deliveryAttempts j; pj_deliveredAt := pj_deliveredAt j;
  pj_ackedAt := v; pj_expiresAt := pj_expiresAt j; pj_createdAt := pj_createdAt j;
  pj_updatedAt := pj_updatedAt j; pj_spoolerJobId := pj_spoolerJobId j;
  pj_attemptId := pj_attemptId j |}.

Definition set_updatedAt (v : Z) (j : print_job) : print_job := {|
  pj_tenantId := pj_tenantId j; pj_apiKeyId := pj_apiKeyId j; pj_destination := pj_destination j;
  pj_documentType := pj_documentType j; pj_agentId := pj_agentId j;
  pj_printerId := pj_printerId j; pj_status := pj_status j; pj_payload := pj_payload j;
  pj_error := pj_error j; pj_requestedBy := pj_requestedBy j; pj_requestId := pj_requestId j;
  pj_idempotencyKey := pj_idempotencyKey j; pj_retries := pj_retries j;
  pj_claimedAt := pj_claimedAt j; pj_claimToken := pj_claimToken j;
  pj_closedClaimTokenHash := pj_closedClaimTokenHash j;
  pj_deliveryAttempts := pj_deliveryAttempts j; pj_deliveredAt := pj_deliveredAt j;
  pj_ackedAt := pj_ackedAt j; pj_expiresAt := pj_expiresAt j; pj_createdAt := pj_createdAt j;
  pj_updatedAt := v; pj_spoolerJobId := pj_spoolerJobId j; pj_attemptId := pj_attemptId j |}.

Definition set_spoolerJobId (v : option string) (j : print_job) : print_job := {|
  pj_tenantId := pj_tenantId j; pj_apiKeyId := pj_apiKeyId j; pj_destination := pj_destination j;
  pj_documentType := pj_documentType j; pj_agentId := pj_agentId j;
  pj_printerId := pj_printerId j; pj_status := pj_status j; pj_payload := pj_payload j;
  pj_error := pj_error j; pj_requestedBy := pj_requestedBy j; pj_requestId := pj_requestId j;
  pj_idempotencyKey := pj_idempotencyKey j; pj_retries := pj_retries j;
  pj_claimedAt := pj_claimedAt j; pj_claimToken := pj_claimToken j;
  pj_closedClaimTokenHash := pj_closedClaimTokenHash j;
  pj_deliveryAttempts := pj_deliveryAttempts j; pj_deliveredAt := pj_deliveredAt j;
  pj_ackedAt := pj_ackedAt j; pj_expiresAt := pj_expiresAt j; pj_createdAt := pj_createdAt j;
  pj_updatedAt := pj_updatedAt j; pj_spoolerJobId := v; pj_attemptId := pj_attemptId j |}.

(** ** Column assignments of an [UPDATE printers SET ...] *)

Definition set_revisions (applied : Z) (observed : Z) (p : printer) : printer := {|
  pr_agentId := pr_agentId p; pr_name := pr_name p; pr_printerType := pr_printerType p; pr_deviceClass :=
  pr_deviceClass p; pr_connectionType := pr_connectionType p; pr_protocol := pr_protocol p; pr_status :=
  pr_status p; pr_lifecycle := pr_lifecycle p; pr_managementSource := pr_managementSource p;
  pr_sharedWithGateway := pr_sharedWithGateway p; pr_sharedWithGatewayVersion := pr_sharedWithGatewayVersion p;
  pr_desiredRevision := pr_desiredRevision p; pr_appliedDesiredRevision := applied; pr_observedDesiredRevision
  := observed; pr_observedDeviceClass := pr_observedDeviceClass p; pr_config := pr_config p; pr_capabilities :=
  pr_capabilities p; pr_inventoryPresent := pr_inventoryPresent p; pr_inventorySnapshotId :=
  pr_inventorySnapshotId p; pr_lastSeenAt := pr_lastSeenAt p; pr_updatedAt := pr_updatedAt p |}.

Definition set_sharing (shared : bool) (version : option string) (p : printer) : printer := {|
  pr_agentId := pr_agentId p; pr_name := pr_name p; pr_printerType := pr_printerType p; pr_deviceClass :=
  pr_deviceClass p; pr_connectionType := pr_connectionType p; pr_protocol := pr_protocol p; pr_status :=
  pr_status p; pr_lifecycle := pr_lifecycle p; pr_managementSource := pr_managementSource p;
  pr_sharedWithGateway := shared; pr_sharedWithGatewayVersion := version; pr_desiredRevision :=
  pr_desiredRevision p; pr_appliedDesiredRevision := pr_appliedDesiredRevision p; pr_observedDesiredRevision :=
  pr_observedDesiredRevision p; pr_observedDeviceClass := pr_observedDeviceClass p; pr_config := pr_config p;
  pr_capabilities := pr_capabilities p; pr_inventoryPresent := pr_inventoryPresent p; pr_inventorySnapshotId :=
  pr_inventorySnapshotId p; pr_lastSeenAt := pr_lastSeenAt p; pr_updatedAt := pr_updatedAt p |}.

Definition set_observation (status : string) (deviceClass : option string) (capabilities : option json) (seen : option Z) (present : bool) (p : printer) : printer := {|
  pr_agentId := pr_agentId p; pr_name := pr_name p; pr_printerType := pr_printerType p; pr_deviceClass :=
  pr_deviceClass p; pr_connectionType := pr_connectionType p; pr_protocol := pr_protocol p; pr_status := status;
  pr_lifecycle := pr_lifecycle p; pr_managementSource := pr_managementSource p; pr_sharedWithGateway :=
  pr_sharedWithGateway p; pr_sharedWithGatewayVersion := pr_sharedWithGatewayVersion p; pr_desiredRevision :=
  pr_desiredRevision p; pr_appliedDesiredRevision := pr_appliedDesiredRevision p; pr_observedDesiredRevision :=
  pr_observedDesiredRevision p; pr_observedDeviceClass := deviceClass; pr_config := pr_config p; pr_capabilities
  := capabilities; pr_inventoryPresent := present; pr_inventorySnapshotId := pr_inventorySnapshotId p;
  pr_lastSeenAt := seen; pr_updatedAt := pr_updatedAt p |}.

Definition set_snapshot (snapshot : option string) (p : printer) : printer := {|
  pr_agentId := pr_agentId p; pr_name := pr_name p; pr_printerType := pr_printerType p; pr_deviceClass :=
  pr_deviceClass p; pr_connectionType := pr_connectionType p; pr_protocol := pr_protocol p; pr_status :=
  pr_status p; pr_lifecycle := pr_lifecycle p; pr_managementSource := pr_managementSource p;
  pr_sharedWithGateway := pr_sharedWithGateway p; pr_sharedWithGatewayVersion := pr_sharedWithGatewayVersion p;
  pr_desiredRevision := pr_desiredRevision p; pr_appliedDesiredRevision := pr_appliedDesiredRevision p;
  pr_observedDesiredRevision := pr_observedDesiredRevision p; pr_observedDeviceClass := pr_observedDeviceClass
  p; pr_config := pr_config p; pr_capabilities := pr_capabilities p; pr_inventoryPresent := pr_inventoryPresent
  p; pr_inventorySnapshotId := snapshot; pr_lastSeenAt := pr_lastSeenAt p; pr_updatedAt := pr_updatedAt p |}.

Definition set_definition (name : string) (printerType : string) (deviceClass : string) (connectionType : string) (protocol : string) (config : option json) (p : printer) : printer := {|
  pr_agentId := pr_agentId p; pr_name := name; pr_printerType := printerType; pr_deviceClass := deviceClass;
  pr_connectionType := connectionType; pr_protocol := protocol; pr_status := pr_status p; pr_lifecycle :=
  pr_lifecycle p; pr_managementSource := pr_managementSource p; pr_sharedWithGateway := pr_sharedWithGateway p;
  pr_sharedWithGatewayVersion := pr_sharedWithGatewayVersion p; pr_desiredRevision := pr_desiredRevision p;
  pr_appliedDesiredRevision := pr_appliedDesiredRevision p; pr_observedDesiredRevision :=
  pr_observedDesiredRevision p; pr_observedDeviceClass := pr_observedDeviceClass p; pr_config := config;
  pr_capabilities := pr_capabilities p; pr_inventoryPresent := pr_inventoryPresent p; pr_inventorySnapshotId :=
  pr_inventorySnapshotId p; pr_lastSeenAt := pr_lastSeenAt p; pr_updatedAt := pr_updatedAt p |}.

Definition set_presence (present : bool) (status : string) (p : printer) : printer := {|
  pr_agentId := pr_agentId p; pr_name := pr_name p; pr_printerType := pr_printerType p; pr_deviceClass :=
  pr_deviceClass p; pr_connectionType := pr_connectionType p; pr_protocol := pr_protocol p; pr_status := status;
  pr_lifecycle := pr_lifecycle p; pr_managementSource := pr_managementSource p; pr_sharedWithGateway :=
  pr_sharedWithGateway p; pr_sharedWithGatewayVersion := pr_sharedWithGatewayVersion p; pr_desiredRevision :=
  pr_desiredRevision p; pr_appliedDesiredRevision := pr_appliedDesiredRevision p; pr_observedDesiredRevision :=
  pr_observedDesiredRevision p; pr_observedDeviceClass := pr_observedDeviceClass p; pr_config := pr_config p;
  pr_capabilities := pr_capabilities p; pr_inventoryPresent := present; pr_inventorySnapshotId :=
  pr_inventorySnapshotId p; pr_lastSeenAt := pr_lastSeenAt p; pr_updatedAt := pr_updatedAt p |}.

Definition set_printer_updated (at_ : Z) (p : printer) : printer := {|
  pr_agentId := pr_agentId p; pr_name := pr_name p; pr_printerType := pr_printerType p; pr_deviceClass :=
  pr_deviceClass p; pr_connectionType := pr_connectionType p; pr_protocol := pr_protocol p; pr_status :=
  pr_status p; pr_lifecycle := pr_lifecycle p; pr_managementSource := pr_managementSource p;
  pr_sharedWithGateway := pr_sharedWithGateway p; pr_sharedWithGatewayVersion := pr_sharedWithGatewayVersion p;
  pr_desiredRevision := pr_desiredRevision p; pr_appliedDesiredRevision := pr_appliedDesiredRevision p;
  pr_observedDesiredRevision := pr_observedDesiredRevision p; pr_observedDeviceClass := pr_observedDeviceClass
  p; pr_config := pr_config p; pr_capabilities := pr_capabilities p; pr_inventoryPresent := pr_inventoryPresent
  p; pr_inventorySnapshotId := pr_inventorySnapshotId p; pr_lastSeenAt := pr_lastSeenAt p; pr_updatedAt := at_ |}.

(** [status IN (...)]. *)
Definition status_in (l : list JobStatus) (j : print_job) : bool := bool_decide (pj_status j ∈ l).

(** ** [CHECK] constraints *)

Definition agent_check (a : agent) : bool :=
  one_of ["active"; "disabled"; "retired"] (ag_lifecycle a) &&
  (0 <=? ag_lifecycleRevision a) &&
  one_of ["online"; "offline"] (ag_status a).

Definition tenant_check (t : tenant) : bool :=
  one_of ["active"; "suspended"; "deleted"] (tn_lifecycle t).

Definition CONNECTION_TYPES : list string := ["network"; "usb"; "spooler"; "ipp"; "ipps"].
Definition PRINTER_PROTOCOLS : list string :=
  ["raw"; "escpos"; "zpl"; "tspl"; "ipp"; "ipps"; "spooler"; "windows_spooler"; "unknown"].
Definition PRINTER_STATUSES : list string := ["online"; "offline"; "busy"; "error"; "unknown"].

Definition printer_check (p : printer) : bool :=
  one_of ["agent"; "manager"] (pr_managementSource p) &&
  ((0 <=? pr_desiredRevision p) && (0 <=? pr_appliedDesiredRevision p) &&
   (0 <=? pr_observedDesiredRevision p) &&
   (pr_appliedDesiredRevision p <=? pr_desiredRevision p) &&
   (pr_observedDesiredRevision p <=? pr_appliedDesiredRevision p)) &&
  one_of ["active"; "disabled"; "retired"] (pr_lifecycle p) &&
  one_of CONNECTION_TYPES (pr_connectionType p) &&
  one_of PRINTER_PROTOCOLS (pr_protocol p) &&
  one_of PRINTER_STATUSES (pr_status p).

(** [payload->>'key'] on an object; SQL [NULL] is [None]. *)
Definition json_field (v : json) (key : string) : option json :=
  match v with
  | JObject l => snd <$> List.find (λ kv, kv.1 == key) l
  | _ => None
  end.

Definition json_text (v : json) (key : string) : option string :=
  match json_field v key with
  | Some (JString s) => Some s
  | Some JNull | None => None
  | Some w => Some (stringify w)
  end.

Definition payload_contract_check (p : json) : bool :=
  let type := coalesce (json_text p "type") "" in
  let protocol := coalesce (json_text p "protocol") "" in
  match p with
  | JObject _ =>
      ((type == "raw") && one_of ["raw"; "escpos"; "zpl"; "tspl"] protocol)
      || ((type == "escpos") && (protocol == "escpos"))
      || ((type == "pdf") && (protocol == ""))
      || ((type == "image") && (protocol == ""))
  | _ => false
  end.

Definition print_job_check (j : print_job) : bool :=
  (0 <=? pj_retries j) && (0 <=? pj_deliveryAttempts j) && payload_contract_check (pj_payload j).

(** ** Single-row updates

    [update_job d id p f] is [UPDATE print_jobs SET f WHERE id = id AND p]
    with [RETURNING]: the new row, or nothing when no row matched. *)

Definition update_job (id : string) (p : print_job → bool) (f : print_job → print_job) (d : db)
    : option print_job * db :=
  match print_jobs d !! id with
  | Some j => if p j then (Some (f j), with_jobs (<[id := f j]> (print_jobs d)) d) else (None, d)
  | None => (None, d)
  end.

Lemma update_job_inv id p f d r d' :
  update_job id p f d = (r, d') →
  (r = None ∧ d' = d ∧ ∀ j, print_jobs d !! id = Some j → p j = false) ∨
  (∃ j, print_jobs d !! id = Some j ∧ p j = true ∧ r = Some (f j) ∧
        d' = with_jobs (<[id := f j]> (print_jobs d)) d).
Proof.
  unfold update_job. intros H. destruct (print_jobs d !! id) as [j|] eqn:Hj.
  - destruct (p j) eqn:Hp; simplify_eq; [right; by exists j|left; naive_solver].
  - simplify_eq. left. naive_solver.
Qed.

(** A bulk statement over selected ids. *)
Definition update_jobs (ids : list string) (f : print_job → print_job) (d : db) : db :=
  with_jobs (update_ids ids f (print_jobs d)) d.

Lemma lookup_update_jobs ids f d k :
  print_jobs (update_jobs ids f d) !! k =
  (λ j, if bool_decide (k ∈ ids) then f j else j) <$> print_jobs d !! k.
Proof. apply lookup_update_ids. Qed.
#[export] Hint Rewrite lookup_update_jobs : gateway.
