(* ===== verification/PrinterModel.v ===== *)
(** * PrinterModel: what a printer may be configured as

    [src/lib/printer-model.ts]: the transports and languages, where a printer may
    point, and the schema of a manager's printer form. The WHATWG [URL] parser is
    an argument, [None] when the constructor throws. Messages are the source's. *)

From Stdlib Require Import Ascii.
From S2P Require Import Prelude DatabaseTime JobStatus Json NetworkAddress Schema.

Definition PRINTER_TYPES : list string := ["physical"].
Definition DEVICE_CLASSES : list string := ["thermal"; "laser"; "inkjet"; "label"; "other"; "unknown"].
Definition PRINTER_CONFIG_MAX_BYTES : Z := 16 * 1024.
Definition PRINTER_CAPABILITIES_MAX_BYTES : Z := 32 * 1024.

Record url := {
  u_protocol : string;
  u_hostname : string;
  u_port : string;
  u_username : string;
  u_password : string;
  u_search : string;
  u_hash : string;
}.

(** ** Texts *)

Definition open_bracket : ascii := "["%char.
Definition close_bracket : ascii := "]"%char.

(** [/^\[([^\]]+)\]$/]: the text between the brackets. *)
Definition bracketed (s : string) : option string :=
  match s with
  | String c rest =>
      let inner := slice0 (String.length rest - 1) rest in
      if (c == open_bracket) && (2 <=? strlen rest) && endsWith rest "]" && free_of close_bracket inner
      then Some inner else None
  | "" => None
  end.

(** [.replace(/^\[([^\]]+)\]$/, "$1")]. *)
Definition strip_brackets (s : string) : string := coalesce (bracketed s) s.

(** The last colon: what is before it and what is after. *)
Fixpoint cut_last_colon (s : string) : option (string * string) :=
  match s with
  | "" => None
  | String c r =>
      match cut_last_colon r with
      | Some (a, b) => Some (String c a, b)
      | None => if c == colon then Some ("", r) else None
      end
  end.

Definition digits (s : string) : bool := (s != "") && all_chars is_digit s.

(** [[^:/?#@\s]+]. *)
Definition host_chars (s : string) : bool :=
  (s != "") && all_chars (λ c, negb (one_of [":"; "/"; "?"; "#"; "@"] (String c "")) && negb (is_js_space c)) s.

(** [/^(?:\[[^\]]+\]|[^:/?#@\s]+):[0-9]+$/]. *)
Definition host_with_port (s : string) : bool :=
  match cut_last_colon s with
  | Some (h, p) => digits p && (is_some (bracketed h) || host_chars h)
  | None => false
  end.

(** [.replace(/^\[|\]$/g, "")]. *)
Definition drop_brackets (s : string) : string :=
  let s1 := match s with String c r => if c == open_bracket then r else s | "" => "" end in
  if endsWith s1 "]" then slice0 (String.length s1 - 1) s1 else s1.

(** [.replace(/^\[([^\]]+)\]:(\d+)$/, "$1:$2")]. *)
Definition plain_endpoint (s : string) : string :=
  match cut_last_colon s with
  | Some (h, p) =>
      match bracketed h with Some inner => if digits p then inner +:+ ":" +:+ p else s | None => s end
  | None => s
  end.

Section printer_model.
Context (URL : string → option url) (utf8_length : string → Z).

(** ** Destinations *)

(** The host the check is made on; [None] when it is not an address at all. *)
Definition destination_host (ip : string) : option string :=
  let host := strip_brackets (trim ip) in
  if includes host ":" then u ← URL ("http://[" +:+ host +:+ "]/"); Some (strip_brackets (u_hostname u)) else Some host.

Definition isAllowedPrinterDestination (ip : string) : bool :=
  match destination_host ip with
  | None => false
  | Some host =>
      if one_of ["169.254.169.254"; "169.254.170.2"] host || (toLowerCase host == "fd00:ec2::254") then false
      else isPrivateNetworkAddress host
  end.

Definition validatePrivatePrinterHost (value : string) : option string :=
  let host := trim value in
  if (host == "") || negb (isAllowedPrinterDestination host)
  then Some "printer network destination must be a private or link-local IP address" else None.

(** [new URL(raw.includes("://") ? raw : `http://${raw}`)]. *)
Definition address_url (raw : string) : option url := URL (if includes raw "://" then raw else "http://" +:+ raw).

Definition validateIPPPrinterAddress (value : string) : option string :=
  let raw := trim value in
  if raw == "" then Some "IPP printer requires config.address"
  else if negb (includes raw "://") && negb (host_with_port raw)
  then Some "IPP printer requires an absolute URL or an IP address with an explicit port"
  else match address_url raw with
  | None => Some "invalid IPP printer URL"
  | Some parsed =>
      if negb (one_of ["http:"; "https:"; "ipp:"; "ipps:"] (toLowerCase (u_protocol parsed)))
      then Some "IPP printer URL must use http, https, ipp, or ipps"
      else if (u_search parsed != "") || (u_hash parsed != "")
      then Some "IPP printer URL cannot contain query strings or fragments"
      else if (u_username parsed != "") || (u_password parsed != "")
      then Some "IPP printer URL cannot contain embedded credentials"
      else if negb (isAllowedPrinterDestination (u_hostname parsed))
      then Some "printer network destination must be a private or link-local IP address"
      else None
  end.

Definition allowed_ports (connectionType protocol : string) : list Z :=
  if (connectionType == "network") && (protocol == "ipp") then [80; 443; 631]
  else if connectionType == "network" then [9100]
  else [80; 443; 631].

Definition validatePrinterPort (connectionType : string) (port : Z) (protocol : string) : option string :=
  if bool_decide (port ∈ allowed_ports connectionType protocol) then None
  else if (connectionType == "network") && (protocol == "ipp") then Some "network IPP printer port must be 80, 443, or 631"
  else if connectionType == "network" then Some "network printer port must be 9100"
  else Some "IPP printer port must be 80, 443, or 631".

(** [a ?? b] on messages: the first complaint. *)
Definition first_error (a b : option string) : option string := match a with Some e => Some e | None => b end.

(** A property that is a string with something in it. *)
Definition text_field (cfg : json) (key : string) : option string :=
  match json_field cfg key with Some (JString s) => if trim s == "" then None else Some s | _ => None end.

Definition word (v : option json) : option Z :=
  match v with Some (JNumber n) => if (0 <=? n) && (n <=? 65535) then Some n else None | _ => None end.

(** *** The four transports *)

Definition passthrough_error (connectionType : string) (cfg : json) : option string :=
  match json_field cfg "passthrough_protocols" with
  | None => None
  | Some v =>
      if connectionType != "spooler" then Some "passthrough_protocols is only valid for Windows spooler printers"
      else match v with
           | JArray l =>
               if forallb (λ x, match x with JString t => one_of ["raw"; "escpos"] t | _ => false end) l then None
               else Some "spooler passthrough_protocols may contain only raw and escpos"
           | _ => Some "spooler passthrough_protocols may contain only raw and escpos"
           end
  end.

Definition network_error (cfg : json) (protocol : string) : option string :=
  match json_field cfg "ip" with
  | Some (JString ip) =>
      if ip == "" then Some "network printer requires config.ip"
      else match json_field cfg "port" with
      | Some (JNumber port) =>
          if port =? 0 then Some "network printer requires config.port"
          else if includes ip " " then Some "invalid network address"
          else first_error (validatePrivatePrinterHost ip) (first_error (validatePrinterPort "network" port protocol)
            match json_field cfg "address" with
            | None => None
            | Some (JString address) =>
                let canonicalAddress := drop_brackets (trim ip) +:+ ":" +:+ number_text port in
                let suppliedAddress := plain_endpoint (trim address) in
                if (suppliedAddress != "") && (suppliedAddress != canonicalAddress)
                then Some "network printer config.address conflicts with config.ip/config.port" else None
            | Some _ => Some "network printer config.address must be a string"
            end)
      | _ => Some "network printer requires config.port"
      end
  | _ => Some "network printer requires config.ip"
  end.

(** The port of a URL is empty or decimal. *)
Definition ipp_error (connectionType protocol : string) (cfg : json) : option string :=
  match text_field cfg "address" with
  | None => Some "IPP printer requires config.address"
  | Some address =>
      first_error (validateIPPPrinterAddress address)
        match address_url (trim address) with
        | None => Some "invalid IPP printer URL"
        | Some parsed =>
            if (connectionType == "ipps") && negb (one_of ["https:"; "ipps:"] (toLowerCase (u_protocol parsed)))
            then Some "IPPS printer requires an HTTPS/IPPS address"
            else if u_port parsed == "" then None
            else validatePrinterPort connectionType (coalesce (decimal_value 0 (u_port parsed)) 0) protocol
        end
  end.

(** Two backslashes, a character, a backslash. *)
Definition device_prefix (c : string) : string := String backslash (String backslash (c +:+ String backslash "")).

Definition usb_error (cfg : json) : option string :=
  if is_some (text_field cfg "spooler_name") then None
  else if is_none (word (json_field cfg "vid")) then Some "direct USB printer requires config.vid"
  else if is_none (word (json_field cfg "pid")) then Some "direct USB printer requires config.pid"
  else match text_field cfg "address" with
  | None => Some "direct USB printer requires config.address (device path)"
  | Some address =>
      let usbAddress := trim address in
      if startsWith usbAddress (device_prefix "?") || startsWith usbAddress (device_prefix ".") then None
      else Some "direct USB printer config.address must be a Windows device path (\\?\... or \\.\...)"
  end.

Definition validateConnectionConfig (connectionType : string) (cfg : json) (protocol : string) : option string :=
  first_error (passthrough_error connectionType cfg)
  (if connectionType == "network" then network_error cfg protocol
   else if (connectionType == "ipp") || (connectionType == "ipps") then ipp_error connectionType protocol cfg
   else if connectionType == "usb" then usb_error cfg
   else if (connectionType == "spooler") && is_none (text_field cfg "spooler_name") && is_none (text_field cfg "address")
   then Some "spooler printer requires config.spooler_name or config.address"
   else None).

Definition validatePrinterTransportProtocol (connectionType protocol : string) : option string :=
  let connection := toLowerCase (trim connectionType) in
  let declared := toLowerCase (trim protocol) in
  if declared == "" then Some "printer protocol is required"
  else if declared == "unknown" then None
  else if (connection == "network") && (declared == "ipps")
  then Some "network printers do not support IPPS protocol without a URL; use connection type ipps"
  else if (connection == "ipp") && (declared != "ipp") then Some "ipp connection type requires ipp protocol"
  else if (connection == "ipps") && (declared != "ipps") then Some "ipps connection type requires ipps protocol"
  else if (connection == "spooler") && (declared != "spooler") then Some "spooler connection type requires spooler protocol"
  else if (connection == "usb") && (declared == "spooler")
  then Some "USB spooler printers must use connection type spooler with config.spooler_name"
  else if (connection == "usb") && negb (one_of ["raw"; "escpos"; "zpl"; "tspl"; "unknown"] declared)
  then Some ("usb connection type does not support protocol " +:+ declared)
  else if (connection == "network") && negb (one_of ["raw"; "escpos"; "zpl"; "tspl"; "ipp"] declared)
  then Some ("network connection type does not support protocol " +:+ declared)
  else None.

(** ** A discovered IPP candidate *)

Definition discoveryIppUriMatchesEndpoint (uri observedIp : string) (observedPort : Z) (protocol : string) : bool :=
  if (observedPort <? 1) || (65535 <? observedPort) then false
  else
    let host := if includes observedIp ":" then "[" +:+ drop_brackets observedIp +:+ "]" else observedIp in
    match URL uri, URL ("ipp://" +:+ host +:+ ":" +:+ number_text observedPort +:+ "/ipp/print") with
    | Some target, Some observed =>
        let scheme := toLowerCase (u_protocol target) in
        if negb (one_of (if protocol == "ipps" then ["ipps:"; "https:"] else ["ipp:"; "http:"]) scheme) then false
        else if (u_username target != "") || (u_password target != "") || (u_search target != "") || (u_hash target != "")
        then false
        else
          let effectivePort := if u_port target != "" then coalesce (decimal_value 0 (u_port target)) 0
                               else if scheme == "http:" then 80 else if scheme == "https:" then 443 else 631 in
          (toLowerCase (u_hostname target) == toLowerCase (u_hostname observed)) && (effectivePort =? observedPort)
    | _, _ => false
    end.

(** ** The manager's form *)

Record CanonicalPrinterInput := {
  ci_id : option string;
  ci_agentId : string;
  ci_name : string;
  ci_printerType : string;
  ci_deviceClass : string;
  ci_connectionType : string;
  ci_protocol : string;
  ci_config : list (string * json);
  ci_capabilities : option (list (string * json));
}.

Definition id_char (c : ascii) : bool :=
  let n := Z.of_nat (nat_of_ascii c) in is_digit c || ((97 <=? n) && (n <=? 122)) || (c == "_"%char).

(** [/^[a-z0-9_][a-z0-9_-]*$/], at most 120. *)
Definition printer_id (s : string) : bool :=
  match s with
  | "" => false
  | String c r => id_char c && all_chars (λ c, id_char c || (c == "-"%char)) r && (strlen s <=? 120)
  end.

Definition bounded_text (max : Z) (v : json) : option json :=
  match v with JString s => if strlen s <=? max then Some (JString s) else None | _ => None end.
Definition bounded_number (lo hi : Z) (v : json) : option json :=
  match v with JNumber n => if (lo <=? n) && (n <=? hi) then Some (JNumber n) else None | _ => None end.
Definition flag (v : json) : option json := match v with JBool b => Some (JBool b) | _ => None end.
Definition bounded_list (max : Z) (p : json → option json) (v : json) : option json :=
  match v with JArray l => if Z.of_nat (length l) <=? max then JArray <$> mapM p l else None | _ => None end.

(** The properties of [config] and what each must be; [trim] transforms. *)
Definition CONFIG_SCHEMA : list (string * (json → option json)) := [
  ("ip", λ v, match v with JString s => bounded_text 255 (JString (trim s)) | _ => None end);
  ("port", bounded_number 1 65535);
  ("vid", bounded_number 0 65535);
  ("pid", bounded_number 0 65535);
  ("serial", bounded_text 255);
  ("address", bounded_text 512);
  ("spooler_name", bounded_text 255);
  ("paper_widths", bounded_list 32 (bounded_number 1 1000));
  ("color_capable", flag);
  ("duplex_capable", flag);
  ("passthrough_protocols",
     bounded_list 2 (λ v, match v with JString s => if one_of ["raw"; "escpos"] s then Some v else None | _ => None end))].

Fixpoint parse_fields (schema : list (string * (json → option json))) (cfg : json) : option (list (string * json)) :=
  match schema with
  | [] => Some []
  | (key, p) :: schema =>
      rest ← parse_fields schema cfg;
      match json_field cfg key with
      | None => Some rest
      | Some v => v' ← p v; Some ((key, v') :: rest)
      end
  end.

Definition parse_config (v : option json) : option (list (string * json)) :=
  match v with
  | None => Some []
  | Some (JObject l) =>
      if forallb (λ kv, one_of CONFIG_SCHEMA.*1 kv.1) l then parse_fields CONFIG_SCHEMA (JObject l) else None
  | Some _ => None
  end.

Definition enum_default (l : list string) (d : string) (v : option json) : option string :=
  match v with None => Some d | Some (JString s) => if one_of l s then Some s else None | Some _ => None end.

Definition INPUT_KEYS : list string :=
  ["id"; "agentId"; "name"; "printerType"; "deviceClass"; "connectionType"; "protocol"; "config"; "capabilities"].

Definition printerInputSchema (value : json) : option CanonicalPrinterInput :=
  match value with
  | JObject l =>
      if negb (forallb (λ kv, one_of INPUT_KEYS kv.1) l) then None
      else
        let f := json_field value in
        id ← match f "id" with
             | None => Some None
             | Some (JString s) => if printer_id s then Some (Some s) else None
             | Some _ => None
             end;
        agentId ← match f "agentId" with
                  | Some (JString s) => if (1 <=? strlen s) && (strlen s <=? 120) then Some s else None
                  | _ => None
                  end;
        name ← match f "name" with
               | Some (JString s) => if (1 <=? strlen (trim s)) && (strlen (trim s) <=? 100) then Some (trim s) else None
               | _ => None
               end;
        printerType ← enum_default PRINTER_TYPES "physical" (f "printerType");
        deviceClass ← enum_default DEVICE_CLASSES "unknown" (f "deviceClass");
        connectionType ← enum_default CONNECTION_TYPES "network" (f "connectionType");
        protocol ← match f "protocol" with
                   | Some (JString s) => if one_of PRINTER_PROTOCOLS s then Some s else None
                   | _ => None
                   end;
        config ← parse_config (f "config");
        capabilities ← match f "capabilities" with
                       | None => Some None
                       | Some (JObject c) => Some (Some c)
                       | Some _ => None
                       end;
        Some {| ci_id := id; ci_agentId := agentId; ci_name := name; ci_printerType := printerType;
                ci_deviceClass := deviceClass; ci_connectionType := connectionType; ci_protocol := protocol;
                ci_config := config; ci_capabilities := capabilities |}
  | _ => None
  end.

Definition assertPrinterMetadataLimits (config : json) (capabilities : option json) : result unit string :=
  do* throw_if (PRINTER_CONFIG_MAX_BYTES <? utf8_length (stringify config)) "printer config exceeds 16KB" in
  match capabilities with
  | Some c => throw_if (PRINTER_CAPABILITIES_MAX_BYTES <? utf8_length (stringify c)) "printer capabilities exceed 32KB"
  | None => Ok tt
  end.

(** [{ ...parsed, connectionType, protocol }]. *)
Definition with_transport (connectionType protocol : string) (p : CanonicalPrinterInput) : CanonicalPrinterInput := {|
  ci_id := ci_id p; ci_agentId := ci_agentId p; ci_name := ci_name p; ci_printerType := ci_printerType p;
  ci_deviceClass := ci_deviceClass p; ci_connectionType := connectionType; ci_protocol := protocol;
  ci_config := ci_config p; ci_capabilities := ci_capabilities p |}.

Definition normalize_input (parsed : CanonicalPrinterInput) : CanonicalPrinterInput :=
  let p := if ci_protocol parsed == "windows_spooler" then with_transport (ci_connectionType parsed) "spooler" parsed else parsed in
  if (ci_connectionType p == "usb") && is_some (text_field (JObject (ci_config p)) "spooler_name")
  then with_transport "spooler" "spooler" p else p.

Definition throw_error (e : option string) : result unit string := match e with Some e => Err e | None => Ok tt end.

Definition parsePrinterInput (value : json) : result CanonicalPrinterInput string :=
  match printerInputSchema value with
  | None => Err "schema"
  | Some parsed =>
      let p := normalize_input parsed in
      do* assertPrinterMetadataLimits (JObject (ci_config p)) (JObject <$> ci_capabilities p) in
      do* throw_error (validatePrinterTransportProtocol (ci_connectionType p) (ci_protocol p)) in
      do* throw_error (validateConnectionConfig (ci_connectionType p) (JObject (ci_config p)) (ci_protocol p)) in
      Ok p
  end.

(** ** What the checks let through *)

Definition private_destination (ip : string) : Prop :=
  ∃ host, destination_host ip = Some host ∧ (private_v4 host ∨ private_v6 host).

Lemma allowed_destination ip : isAllowedPrinterDestination ip = true → private_destination ip.
Proof.
  unfold isAllowedPrinterDestination. destruct (destination_host ip) as [host|] eqn:E; [|done]. destruct (_ || _); [done|].
  intros H%private_address_sound. by exists host.
Qed.

(** A network printer is one private endpoint on an allowed port, and whatever
    [address] says is that endpoint. *)
Definition network_spec (cfg : json) (protocol : string) : Prop := ∃ ip port,
  json_field cfg "ip" = Some (JString ip) ∧ json_field cfg "port" = Some (JNumber port) ∧ private_destination ip ∧
  (port = 9100 ∨ protocol = "ipp" ∧ port ∈ [80; 443; 631]) ∧
  match json_field cfg "address" with
  | None => True
  | Some (JString a) => plain_endpoint (trim a) = "" ∨ plain_endpoint (trim a) = drop_brackets (trim ip) +:+ ":" +:+ number_text port
  | Some _ => False
  end.

(** An IPP printer is a URL to a private host without credentials or a query. *)
Definition ipp_spec (connectionType : string) (cfg : json) : Prop := ∃ address u,
  json_field cfg "address" = Some (JString address) ∧ address_url (trim address) = Some u ∧
  private_destination (u_hostname u) ∧
  toLowerCase (u_protocol u) ∈ (if connectionType == "ipps" then ["https:"; "ipps:"] else ["http:"; "https:"; "ipp:"; "ipps:"]) ∧
  u_username u = "" ∧ u_password u = "" ∧ u_search u = "" ∧ u_hash u = "" ∧
  (u_port u = "" ∨ ∃ n, decimal_value 0 (u_port u) = Some n ∧ n ∈ [80; 443; 631]).

Definition usb_spec (cfg : json) : Prop :=
  is_some (text_field cfg "spooler_name") = true ∨
  ∃ vid pid address, word (json_field cfg "vid") = Some vid ∧ word (json_field cfg "pid") = Some pid ∧
    json_field cfg "address" = Some (JString address) ∧
    (startsWith (trim address) (device_prefix "?") = true ∨ startsWith (trim address) (device_prefix ".") = true).

Definition spooler_spec (cfg : json) : Prop :=
  is_some (text_field cfg "spooler_name") = true ∨ is_some (text_field cfg "address") = true.

(** Bytes are passed through only where the operator asked for it. *)
Definition passthrough_spec (connectionType : string) (cfg : json) : Prop :=
  json_field cfg "passthrough_protocols" = None ∨
  connectionType = "spooler" ∧ ∃ l, json_field cfg "passthrough_protocols" = Some (JArray l) ∧
    ∀ x, x ∈ l → x = JString "raw" ∨ x = JString "escpos".

Definition endpoint_spec (connectionType : string) (cfg : json) (protocol : string) : Prop :=
  passthrough_spec connectionType cfg ∧
  (connectionType = "network" → network_spec cfg protocol) ∧
  (connectionType = "ipp" ∨ connectionType = "ipps" → ipp_spec connectionType cfg) ∧
  (connectionType = "usb" → usb_spec cfg) ∧ (connectionType = "spooler" → spooler_spec cfg).

Lemma first_error_None a b : first_error a b = None → a = None ∧ b = None.
Proof. by destruct a. Qed.

Lemma if_None (b : bool) (e : string) (k : option string) : (if b then Some e else k) = None → b = false ∧ k = None.
Proof. by destruct b. Qed.

Lemma text_field_Some cfg key s : text_field cfg key = Some s → json_field cfg key = Some (JString s) ∧ trim s ≠ "".
Proof.
  unfold text_field. destruct (json_field cfg key) as [[]|]; try done. destruct (trim _ == "") eqn:E; [done|].
  intros [= <-]. by apply bool_decide_eq_false in E.
Qed.

Lemma passthrough_sound connectionType cfg : passthrough_error connectionType cfg = None → passthrough_spec connectionType cfg.
Proof.
  unfold passthrough_error, passthrough_spec. destruct (json_field cfg _) as [v|]; [|by left]. intros [Hc H]%if_None. right.
  apply negb_false_iff, bool_decide_eq_true in Hc. split; [done|]. destruct v as [| | | |l|]; try done. exists l. split; [done|].
  destruct (forallb _ l) eqn:E; [|done]. intros x Hx. rewrite forallb_forall in E. apply list_elem_of_In, E in Hx.
  destruct x; try done. apply one_of_true in Hx. set_solver.
Qed.

Lemma port_sound connectionType port protocol :
  validatePrinterPort connectionType port protocol = None → port ∈ allowed_ports connectionType protocol.
Proof. unfold validatePrinterPort. case_bool_decide; [done|]. by repeat case_match. Qed.

Lemma network_sound cfg protocol : network_error cfg protocol = None → network_spec cfg protocol.
Proof.
  unfold network_error, network_spec. destruct (json_field cfg "ip") as [[| | |ip| |]|]; try done. intros [_ H]%if_None.
  destruct (json_field cfg "port") as [[| |port| | |]|]; try done. apply if_None in H as [_ [_ H]%if_None].
  apply first_error_None in H as [Hh [Hp Ha]%first_error_None]. exists ip, port. split_and!; [done|done| | |].
  - unfold validatePrivatePrinterHost in Hh. apply if_None in Hh as [[_ Hh%negb_false_iff]%orb_false_iff _].
    apply allowed_destination in Hh. unfold private_destination, destination_host in *. by rewrite trim_idem in Hh.
  - apply port_sound in Hp. unfold allowed_ports in Hp. simpl in Hp. destruct (protocol == "ipp") eqn:E; [|set_solver].
    apply bool_decide_eq_true in E. by right.
  - destruct (json_field cfg "address") as [[| | |a| |]|]; try done. apply if_None in Ha as [Ha _].
    apply andb_false_iff in Ha as [Ha|Ha]; apply negb_false_iff, bool_decide_eq_true in Ha; auto.
Qed.

Lemma ipp_address_sound address : validateIPPPrinterAddress address = None →
  ∃ u, address_url (trim address) = Some u ∧ private_destination (u_hostname u) ∧
    toLowerCase (u_protocol u) ∈ ["http:"; "https:"; "ipp:"; "ipps:"] ∧
    u_username u = "" ∧ u_password u = "" ∧ u_search u = "" ∧ u_hash u = "".
Proof.
  unfold validateIPPPrinterAddress. intros [_ [_ H]%if_None]%if_None. destruct (address_url (trim address)) as [u|]; [|done].
  apply if_None in H as [Hs [Hq [Hc [Hd _]%if_None]%if_None]%if_None]. exists u. apply negb_false_iff in Hs, Hd. apply one_of_true in Hs.
  apply orb_false_iff in Hq as [Hq1%negb_false_iff Hq2%negb_false_iff], Hc as [Hc1%negb_false_iff Hc2%negb_false_iff].
  rewrite bool_decide_eq_true in Hq1, Hq2, Hc1, Hc2. apply allowed_destination in Hd. by split_and!.
Qed.

Lemma ipp_sound connectionType protocol cfg : connectionType = "ipp" ∨ connectionType = "ipps" →
  ipp_error connectionType protocol cfg = None → ipp_spec connectionType cfg.
Proof.
  intros Hct. unfold ipp_error, ipp_spec. destruct (text_field cfg "address") as [address|] eqn:Ht; [|done].
  apply text_field_Some in Ht as [Hf _]. intros [Ha H]%first_error_None.
  apply ipp_address_sound in Ha as (u & Hu & Hd & Hs & Hc). rewrite Hu in H. apply if_None in H as [Hss H].
  exists address, u. split_and!; [done|done|done| |apply Hc..|].
  - destruct (connectionType == "ipps"); [|done]. simpl in Hss. apply negb_false_iff in Hss. by apply one_of_true in Hss.
  - destruct (u_port u == "") eqn:E; [left; by apply bool_decide_eq_true in E|]. right. apply port_sound in H.
    assert (allowed_ports connectionType protocol = [80; 443; 631]) as Hp by (by destruct Hct as [->| ->]).
    rewrite Hp in H. destruct (decimal_value 0 (u_port u)) as [n|]; [by exists n|]. simpl in H. set_solver.
Qed.

Lemma usb_sound cfg : usb_error cfg = None → usb_spec cfg.
Proof.
  unfold usb_error, usb_spec. destruct (is_some (text_field cfg "spooler_name")); [by left|].
  intros [Hv [Hp H]%if_None]%if_None. right.
  destruct (word (json_field cfg "vid")) as [vid|]; [|done]. destruct (word (json_field cfg "pid")) as [pid|]; [|done].
  destruct (text_field cfg "address") as [address|] eqn:E; [|done]. apply text_field_Some in E as [E _].
  exists vid, pid, address. split_and!; [done..|]. destruct (_ || _) eqn:Ho; [|done]. by apply orb_true_iff in Ho.
Qed.

Lemma config_sound connectionType cfg protocol :
  validateConnectionConfig connectionType cfg protocol = None → endpoint_spec connectionType cfg protocol.
Proof.
  unfold validateConnectionConfig. intros [Hp H]%first_error_None. split; [by apply passthrough_sound|]. clear Hp.
  split_and!.
  - intros ->. by apply network_sound.
  - intros [->| ->]; apply (ipp_sound _ protocol); eauto.
  - intros ->. by apply usb_sound.
  - intros ->. unfold spooler_spec, is_none in *. simpl in H. destruct (is_some (text_field cfg "spooler_name")); [by left|].
    destruct (is_some (text_field cfg "address")); [by right|done].
Qed.

(** The languages of each transport. *)
Definition transport_languages (connectionType : string) : list string :=
  if connectionType == "network" then ["raw"; "escpos"; "zpl"; "tspl"; "ipp"; "unknown"]
  else if connectionType == "usb" then ["raw"; "escpos"; "zpl"; "tspl"; "unknown"]
  else if connectionType == "spooler" then ["spooler"; "unknown"]
  else if connectionType == "ipp" then ["ipp"; "unknown"] else ["ipps"; "unknown"].

Lemma transport_table :
  Forall (λ c, Forall (λ p, is_none (validatePrinterTransportProtocol c p) = one_of (transport_languages c) p) PRINTER_PROTOCOLS)
    CONNECTION_TYPES.
Proof. apply (bool_decide_unpack _). vm_compute. exact I. Qed.

Lemma transport_sound connectionType protocol : connectionType ∈ CONNECTION_TYPES → protocol ∈ PRINTER_PROTOCOLS →
  validatePrinterTransportProtocol connectionType protocol = None → protocol ∈ transport_languages connectionType.
Proof.
  intros Hc Hp H. pose proof transport_table as T. rewrite Forall_forall in T. specialize (T _ Hc). rewrite Forall_forall in T.
  specialize (T _ Hp). rewrite H in T. symmetry in T. by apply one_of_true in T.
Qed.

(** What a stored printer must be, whichever way it came in. *)
Record well_configured (name printerType deviceClass connectionType protocol : string) (cfg : json) (caps : option json)
    : Prop := {
  wc_name : 1 ≤ strlen name ≤ 100;
  wc_type : printerType ∈ PRINTER_TYPES;
  wc_class : deviceClass ∈ DEVICE_CLASSES;
  wc_connection : connectionType ∈ CONNECTION_TYPES;
  wc_language : protocol ∈ transport_languages connectionType;
  wc_endpoint : endpoint_spec connectionType cfg protocol;
  wc_config_size : utf8_length (stringify cfg) ≤ PRINTER_CONFIG_MAX_BYTES;
  wc_caps_size : ∀ c, caps = Some c → utf8_length (stringify c) ≤ PRINTER_CAPABILITIES_MAX_BYTES;
}.

Lemma enum_default_in l d v s : d ∈ l → enum_default l d v = Some s → s ∈ l.
Proof.
  unfold enum_default. intros Hd. destruct v as [[| | |t| |]|]; try done; [|by intros [= <-]].
  destruct (one_of l t) eqn:E; [|done]. intros [= <-]. by apply one_of_true in E.
Qed.

Lemma schema_sound value p : printerInputSchema value = Some p →
  1 ≤ strlen (ci_name p) ≤ 100 ∧ ci_printerType p ∈ PRINTER_TYPES ∧ ci_deviceClass p ∈ DEVICE_CLASSES ∧
  ci_connectionType p ∈ CONNECTION_TYPES ∧ ci_protocol p ∈ PRINTER_PROTOCOLS.
Proof.
  unfold printerInputSchema. destruct value as [| | | | |l]; try done. destruct (negb _); [done|].
  generalize (JObject l) as v. intros v H.
  repeat (apply bind_Some in H as (? & ? & H)). injection H as <-. simpl. split; [|split_and!].
  - destruct (json_field v "name") as [[| | |t| |]|]; try done. destruct (_ && _) eqn:E in *; [|done]. simplify_eq. lia.
  - by eapply enum_default_in; [|done]; apply (bool_decide_unpack _).
  - by eapply enum_default_in; [|done]; apply (bool_decide_unpack _).
  - by eapply enum_default_in; [|done]; apply (bool_decide_unpack _).
  - destruct (json_field v "protocol") as [[| | |t| |]|]; try done. destruct (one_of PRINTER_PROTOCOLS t) eqn:E; [|done].
    simplify_eq. by apply one_of_true in E.
Qed.

(** A direct USB printer is one without a Windows queue. *)
Lemma normalized_usb parsed : (ci_connectionType (normalize_input parsed) == "usb")
  && is_some (text_field (JObject (ci_config (normalize_input parsed))) "spooler_name") = false.
Proof.
  unfold normalize_input. set (p := if ci_protocol parsed == "windows_spooler" then _ else parsed).
  destruct ((ci_connectionType p == "usb") && is_some (text_field (JObject (ci_config p)) "spooler_name")) eqn:E; [done|exact E].
Qed.

Lemma input_sound value p : parsePrinterInput value = Ok p →
  well_configured (ci_name p) (ci_printerType p) (ci_deviceClass p) (ci_connectionType p) (ci_protocol p)
    (JObject (ci_config p)) (JObject <$> ci_capabilities p) ∧
  (ci_connectionType p == "usb") && is_some (text_field (JObject (ci_config p)) "spooler_name") = false.
Proof.
  intros H. unfold parsePrinterInput in H. destruct (printerInputSchema value) as [parsed|] eqn:Hs; [|done].
  apply schema_sound in Hs as (Hn & Ht & Hd & Hc & Hl).
  assert (∀ q, normalize_input parsed = q → ci_name q = ci_name parsed ∧ ci_printerType q = ci_printerType parsed ∧
    ci_deviceClass q = ci_deviceClass parsed ∧ ci_connectionType q ∈ CONNECTION_TYPES ∧ ci_protocol q ∈ PRINTER_PROTOCOLS) as Hq.
  { intros q <-. unfold normalize_input. repeat case_match; split_and!; try done; by apply (bool_decide_unpack _). }
  destruct (Hq _ eq_refl) as (E1 & E2 & E3 & Hc' & Hl'). pose proof (normalized_usb parsed) as Hn'.
  revert H E1 E2 E3 Hc' Hl' Hn'. generalize (normalize_input parsed) as q. intros q H E1 E2 E3 Hc' Hl' Hn'. apply rbind_Ok in H as ([] & Hm & ([] & Hx & ([] & Hy & [= <-])%rbind_Ok)%rbind_Ok).
  unfold assertPrinterMetadataLimits in Hm. apply rbind_Ok in Hm as ([] & Hm1%throw_if_Ok & Hm2).
  destruct (validatePrinterTransportProtocol _ _) eqn:Ex; [done|]. destruct (validateConnectionConfig _ _ _) eqn:Ey; [done|].
  split; [|done]. split; rewrite ?E1, ?E2, ?E3; try done; [by apply transport_sound|by apply config_sound|lia|].
  intros c Hcap. rewrite Hcap in Hm2. apply throw_if_Ok in Hm2. lia.
Qed.

(** What the manager's printer form lets through is a well configured
    printer: a known transport with a language it speaks, and for a network or
    IPP printer a private address in every spelling, on a printing port, with no
    second endpoint, credentials or query hidden in it; and the metadata is
    bounded. *)
Theorem form_well_configured value p (H : parsePrinterInput value = Ok p) :
  well_configured (ci_name p) (ci_printerType p) (ci_deviceClass p) (ci_connectionType p) (ci_protocol p)
    (JObject (ci_config p)) (JObject <$> ci_capabilities p).
Proof. apply (input_sound value p H). Qed.
End printer_model.

(** A parser that knows one URL. *)
Definition sample_URL (s : string) : option url :=
  if s == "ipps://10.0.0.7:631/ipp/print" then Some {|
    u_protocol := "ipps:"; u_hostname := "10.0.0.7"; u_port := "631"; u_username := ""; u_password := "";
    u_search := ""; u_hash := "" |} else None.

Definition sample_form : json := JObject [
  ("agentId", JString "a1"); ("name", JString " Back office "); ("connectionType", JString "ipps");
  ("protocol", JString "ipps"); ("config", JObject [("address", JString "ipps://10.0.0.7:631/ipp/print")])].

Definition sample_input : CanonicalPrinterInput := {|
  ci_id := None; ci_agentId := "a1"; ci_name := "Back office"; ci_printerType := "physical"; ci_deviceClass := "unknown";
  ci_connectionType := "ipps"; ci_protocol := "ipps";
  ci_config := [("address", JString "ipps://10.0.0.7:631/ipp/print")]; ci_capabilities := None |}.

Lemma form_well_configured_witness :
  parsePrinterInput sample_URL strlen sample_form = Ok sample_input ∧
  well_configured sample_URL strlen "Back office" "physical" "unknown" "ipps" "ipps" (JObject (ci_config sample_input)) None.
Proof. split; [reflexivity|]. apply (form_well_configured sample_URL strlen sample_form sample_input). reflexivity. Defined.

Example form_refusals :
  validateConnectionConfig sample_URL "network" (JObject [("ip", JString "8.8.8.8"); ("port", JNumber 9100)]) "raw"
    = Some "printer network destination must be a private or link-local IP address" ∧
  validateConnectionConfig sample_URL "network" (JObject [("ip", JString "10.0.0.1"); ("port", JNumber 22)]) "raw"
    = Some "network printer port must be 9100" ∧
  validateConnectionConfig sample_URL "network"
    (JObject [("ip", JString "10.0.0.1"); ("port", JNumber 9100); ("address", JString "10.0.0.2:9100")]) "raw"
    = Some "network printer config.address conflicts with config.ip/config.port".
Proof. vm_compute. tauto. Qed.
