(* ===== verification/Authority.v ===== *)
(** * Workspace permissions and the commit-point authority fence

    [src/lib/authorization.ts] (the role table) and
    [src/lib/manager-mutation-authorization.ts]
    ([requireManagerActorInTransaction]). The session tables the guard reads
    are a record of their own, [auth_db]; row and advisory locks order
    transactions and have no effect on one transaction's own reads. *)

From S2P Require Import Prelude DatabaseTime.

Inductive ManagerRole : Type :=
| owner | admin | operator | viewer | integration_admin | billing_admin.

Inductive ManagerPermission : Type :=
| tenant_read | tenant_update
| users_read | users_manage
| agents_read | agents_pair | agents_disable | agents_retire
| printers_read | printers_manage | printers_test
| jobs_read | jobs_payload_read | jobs_create | jobs_retry | jobs_cancel
| bindings_read | bindings_manage
| integrations_read | integrations_manage
| billing_read | billing_manage.

#[export] Instance ManagerRole_eq_dec : EqDecision ManagerRole.
Proof. solve_decision. Defined.
#[export] Instance ManagerPermission_eq_dec : EqDecision ManagerPermission.
Proof. solve_decision. Defined.

Definition permissionsByRole (role : ManagerRole) : list ManagerPermission :=
  match role with
  | owner =>
      [tenant_read; tenant_update; users_read; users_manage;
       agents_read; agents_pair; agents_disable; agents_retire;
       printers_read; printers_manage; printers_test;
       jobs_read; jobs_payload_read; jobs_create; jobs_retry; jobs_cancel;
       bindings_read; bindings_manage; integrations_read; integrations_manage;
       billing_read; billing_manage]
  | admin =>
      [tenant_read; users_read; users_manage;
       agents_read; agents_pair; agents_disable; agents_retire;
       printers_read; printers_manage; printers_test;
       jobs_read; jobs_payload_read; jobs_create; jobs_retry; jobs_cancel;
       bindings_read; bindings_manage; integrations_read; integrations_manage;
       billing_read; billing_manage]
  | operator =>
      [tenant_read; agents_read; printers_read; printers_test;
       jobs_read; jobs_payload_read; jobs_create; jobs_retry; jobs_cancel; bindings_read]
  | viewer => [tenant_read; agents_read; printers_read; jobs_read; bindings_read]
  | integration_admin =>
      [tenant_read; agents_read; printers_read; jobs_read;
       bindings_read; bindings_manage; integrations_read; integrations_manage]
  | billing_admin => [tenant_read; billing_read; billing_manage]
  end.

(** The verified claims of a workspace session; [iat], [sub], [ver] and [sid]
    are not read after verification. [exp] is in seconds. *)
Record ManagerClaims := {
  mc_jti : string;
  mc_exp : Z;
  mc_tenantId : string;
  mc_userId : option string;
  mc_role : ManagerRole;
  mc_kind : option string;
  mc_familyId : option string;
}.

Definition hasManagerPermission (claims : ManagerClaims) (permission : ManagerPermission) : bool :=
  bool_decide (permission ∈ permissionsByRole (mc_role claims)).

(** ** Session tables *)

(** [refresh_tokens]; the address and user agent of the issuing request are
    never read back. *)
Record refresh_token := {
  rt_familyId : string;
  rt_kind : string;
  rt_tenantId : option string;
  rt_userId : option string;
  rt_role : option ManagerRole;
  rt_email : option string;
  rt_tokenHash : string;
  rt_issuedAt : Z;
  rt_familyCreatedAt : Z;
  rt_expiresAt : Z;
  rt_revokedAt : option Z;
  rt_revokedReason : option string;
  rt_replacedBy : option string;
  rt_replacedAt : option Z;
}.

Record manager_session := {
  ms_tenantId : string;
  ms_userId : option string;
  ms_role : ManagerRole;
  ms_expiresAt : Z;
  ms_revokedAt : option Z;
}.

Record user := {
  us_email : string;
  us_passwordHash : string;
  us_emailVerifiedAt : option Z;
  us_isPlatformOwner : bool;
}.

(** [tenant_users] is keyed by (user, tenant), [refresh_tokens] by id and
    [manager_sessions] by jti. *)
Record auth_db := {
  users : gmap string user;
  tenant_users : gmap (string * string) ManagerRole;
  refresh_tokens : gmap string refresh_token;
  manager_sessions : gmap string manager_session;
}.

Definition with_refresh_tokens (m : gmap string refresh_token) (a : auth_db) : auth_db := {|
  users := users a; tenant_users := tenant_users a; refresh_tokens := m;
  manager_sessions := manager_sessions a |}.

(** [SET revoked_at = clock_timestamp(), revoked_reason = ...]. *)
Definition revoked_token (at_ : Z) (reason : string) (rt : refresh_token) : refresh_token := {|
  rt_familyId := rt_familyId rt; rt_kind := rt_kind rt; rt_tenantId := rt_tenantId rt;
  rt_userId := rt_userId rt; rt_role := rt_role rt; rt_email := rt_email rt;
  rt_tokenHash := rt_tokenHash rt; rt_issuedAt := rt_issuedAt rt;
  rt_familyCreatedAt := rt_familyCreatedAt rt; rt_expiresAt := rt_expiresAt rt;
  rt_revokedAt := Some at_; rt_revokedReason := Some reason;
  rt_replacedBy := rt_replacedBy rt; rt_replacedAt := rt_replacedAt rt |}.

(** [UPDATE refresh_tokens SET ... WHERE p AND revoked_at IS NULL]. *)
Definition revoke_where (p : refresh_token → bool) (at_ : Z) (reason : string) (a : auth_db) : auth_db :=
  with_refresh_tokens
    ((λ rt, if p rt && is_none (rt_revokedAt rt) then revoked_token at_ reason rt else rt)
       <$> refresh_tokens a) a.

(** [claims.exp > EXTRACT(EPOCH FROM clock_timestamp())]. *)
Definition unexpired_claims (ck : clock) (claims : ManagerClaims) : bool :=
  clock_timestamp ck <? secs (mc_exp claims).

(** [user_id = x], or [user_id IS NULL] when the claims carry no user. *)
Definition userPredicate (claims : ManagerClaims) (user_id : option string) : bool :=
  if truthy (mc_userId claims) then user_id == mc_userId claims else is_none user_id.

Definition family_row_live (ck : clock) (claims : ManagerClaims) (rt : refresh_token) : bool :=
  (Some (rt_familyId rt) == mc_familyId claims) &&
  (rt_tenantId rt == Some (mc_tenantId claims)) &&
  (rt_kind rt == (if mc_kind claims == Some "customer" then "customer" else "manager")) &&
  userPredicate claims (rt_userId rt) &&
  (rt_role rt == Some (mc_role claims)) &&
  is_none (rt_revokedAt rt) &&
  (clock_timestamp ck <? rt_expiresAt rt) &&
  unexpired_claims ck claims.

Definition legacy_row_live (ck : clock) (claims : ManagerClaims) (s : manager_session) : bool :=
  (ms_tenantId s == mc_tenantId claims) &&
  userPredicate claims (ms_userId s) &&
  (ms_role s == mc_role claims) &&
  is_none (ms_revokedAt s) &&
  (clock_timestamp ck <? ms_expiresAt s) &&
  (ms_expiresAt s / 1000 == mc_exp claims) &&
  unexpired_claims ck claims.

Definition session_active (a : auth_db) (ck : clock) (claims : ManagerClaims) : bool :=
  if truthy (mc_familyId claims)
  then bool_decide (map_Exists (λ _ rt, family_row_live ck claims rt = true) (refresh_tokens a))
  else match manager_sessions a !! mc_jti claims with
       | Some s => legacy_row_live ck claims s
       | None => false
       end.

Inductive authority_error : Type := ManagerMutationAuthorityChangedError.

Definition membership_current (a : auth_db) (claims : ManagerClaims) : bool :=
  match mc_userId claims with
  | Some u => (u == "") || (tenant_users a !! (u, mc_tenantId claims) == Some (mc_role claims))
  | None => true
  end.

(** The guard reads only; [relatedUserIds] adds row locks and no test. *)
Definition requireManagerActorInTransaction (a : auth_db) (ck : clock) (claims : ManagerClaims)
    (permission : ManagerPermission) : result unit authority_error :=
  do* throw_if (negb (hasManagerPermission claims permission)) ManagerMutationAuthorityChangedError in
  do* throw_if (negb (membership_current a claims)) ManagerMutationAuthorityChangedError in
  throw_if (negb (session_active a ck claims)) ManagerMutationAuthorityChangedError.

(** ** Properties *)

(** Signing a family out. *)
Definition revoke_family (family : string) (at_ : Z) (reason : string) (a : auth_db) : auth_db :=
  revoke_where (λ rt, rt_familyId rt == family) at_ reason a.

Lemma lookup_revoke_where p at_ reason a id rt' :
  refresh_tokens (revoke_where p at_ reason a) !! id = Some rt' →
  ∃ rt, refresh_tokens a !! id = Some rt ∧
    (rt' = revoked_token at_ reason rt ∧ p rt = true ∨
     rt' = rt ∧ (p rt = false ∨ is_Some (rt_revokedAt rt))).
Proof.
  simpl. intros (rt & <- & Hrt)%lookup_fmap_Some. exists rt. split; [done|].
  destruct (p rt) eqn:Hp; simpl; [|by right; auto].
  destruct (rt_revokedAt rt) as [t|] eqn:Ht; simpl; [|by left].
  right. eauto.
Qed.

(** The rows a revocation names are closed to every claim. *)
Lemma revoke_where_fenced p at_ reason a ck claims perm :
  truthy (mc_familyId claims) = true →
  (∀ rt, family_row_live ck claims rt = true → p rt = true) →
  requireManagerActorInTransaction (revoke_where p at_ reason a) ck claims perm
  = Err ManagerMutationAuthorityChangedError.
Proof.
  intros Hfam Hp. unfold requireManagerActorInTransaction, throw_if.
  assert (session_active (revoke_where p at_ reason a) ck claims = false) as ->; [|by repeat case_match].
  unfold session_active. rewrite Hfam. apply bool_decide_eq_false. intros (id & rt & Hid & Hlive).
  apply lookup_revoke_where in Hid as (rt0 & _ & [[-> _]|[-> H]]).
  - unfold family_row_live in Hlive. bools. done.
  - pose proof (Hp _ Hlive). destruct H as [H|[t Ht]]; [congruence|].
    unfold family_row_live in Hlive. rewrite Ht in Hlive. bools. done.
Qed.

(** The role table is what the roles mean: only the owner changes the
    workspace itself, team and billing powers stop at the administrators,
    viewer, operator, admin and owner form a chain, and exactly the first
    three can create, retry or cancel a print job. *)
Theorem role_table_sound role perm :
  (perm ∈ permissionsByRole admin ↔ perm ∈ permissionsByRole owner ∧ perm ≠ tenant_update) ∧
  (perm ∈ permissionsByRole viewer → perm ∈ permissionsByRole operator) ∧
  (perm ∈ permissionsByRole operator → perm ∈ permissionsByRole admin) ∧
  (perm ∈ permissionsByRole role → perm ∈ permissionsByRole owner) ∧
  (users_manage ∈ permissionsByRole role ↔ role = owner ∨ role = admin) ∧
  (perm ∈ [jobs_create; jobs_retry; jobs_cancel; printers_test] →
     perm ∈ permissionsByRole role ↔ role = owner ∨ role = admin ∨ role = operator).
Proof.
  split_and!; [| | | | |intros Hp].
  1-4: apply (bool_decide_unpack _); destruct role, perm; vm_compute; exact I.
  - apply (bool_decide_unpack _); destruct role; vm_compute; exact I.
  - revert Hp. apply (bool_decide_unpack _). destruct role, perm; vm_compute; exact I.
Qed.

(** The fence admits a principal exactly while all of it is still true: the
    role grants the permission, the membership row still carries that very
    role, and a live session row of that tenant, user and role backs claims
    that have not run out. *)
Theorem authority_fence_exact a ck claims perm u f
  (Huser : mc_userId claims = Some u) (Hu : u ≠ "")
  (Hfam : mc_familyId claims = Some f) (Hf : f ≠ "") :
  requireManagerActorInTransaction a ck claims perm = Ok tt ↔
  perm ∈ permissionsByRole (mc_role claims) ∧
  tenant_users a !! (u, mc_tenantId claims) = Some (mc_role claims) ∧
  clock_timestamp ck < secs (mc_exp claims) ∧
  ∃ id rt, refresh_tokens a !! id = Some rt ∧ rt_familyId rt = f ∧
    rt_tenantId rt = Some (mc_tenantId claims) ∧ rt_userId rt = Some u ∧
    rt_role rt = Some (mc_role claims) ∧ rt_revokedAt rt = None ∧
    clock_timestamp ck < rt_expiresAt rt ∧
    rt_kind rt = if bool_decide (mc_kind claims = Some "customer") then "customer" else "manager".
Proof.
  unfold requireManagerActorInTransaction, hasManagerPermission, membership_current, session_active.
  rewrite Huser, Hfam. cbn [truthy]. rewrite (bool_decide_false (u = "")), (bool_decide_false (f = "")) by done.
  cbn [negb orb].
  assert (∀ rt, family_row_live ck claims rt = true ↔
    rt_familyId rt = f ∧ rt_tenantId rt = Some (mc_tenantId claims) ∧ rt_userId rt = Some u ∧
    rt_role rt = Some (mc_role claims) ∧ rt_revokedAt rt = None ∧
    clock_timestamp ck < rt_expiresAt rt ∧
    rt_kind rt = (if bool_decide (mc_kind claims = Some "customer") then "customer" else "manager") ∧
    clock_timestamp ck < secs (mc_exp claims)) as Hrow.
  { intros rt. unfold family_row_live, userPredicate, unexpired_claims. rewrite Huser, Hfam. simpl.
    rewrite (bool_decide_false (u = "")) by done. simpl.
    rewrite !andb_true_iff, !bool_decide_eq_true, !Z.ltb_lt, is_none_true. naive_solver. }
  rewrite !guard_passes, guard_last, !negb_false_iff, !bool_decide_eq_true.
  set (kind := if bool_decide (mc_kind claims = Some "customer") then _ else _) in *.
  split; [intros (? & ? & id & rt & Hid & Hlive%Hrow)|intros (? & ? & ? & id & rt & Hid & ?)].
  - split_and!; [done..|naive_solver|]. exists id, rt. naive_solver.
  - split_and!; [done..|]. exists id, rt. split; [done|]. apply Hrow. naive_solver.
Qed.

Definition sample_claims : ManagerClaims := {|
  mc_jti := "jti"; mc_exp := 900; mc_tenantId := "t1"; mc_userId := Some "u1";
  mc_role := operator; mc_kind := Some "manager"; mc_familyId := Some "f1" |}.

Definition sample_token : refresh_token := {|
  rt_familyId := "f1"; rt_kind := "manager"; rt_tenantId := Some "t1"; rt_userId := Some "u1";
  rt_role := Some operator; rt_email := None; rt_tokenHash := "h1"; rt_issuedAt := 0;
  rt_familyCreatedAt := 0; rt_expiresAt := 1000000; rt_revokedAt := None; rt_revokedReason := None;
  rt_replacedBy := None; rt_replacedAt := None |}.

Definition sample_auth : auth_db := {|
  users := ∅; tenant_users := {[("u1", "t1") := operator]};
  refresh_tokens := {["r1" := sample_token]};
  manager_sessions := ∅ |}.

Lemma authority_fence_exact_witness :
  requireManagerActorInTransaction sample_auth {| now := 5; clock_timestamp := 5 |} sample_claims
    jobs_retry = Ok tt.
Proof.
  apply (authority_fence_exact sample_auth {| now := 5; clock_timestamp := 5 |} sample_claims
    jobs_retry "u1" "f1" eq_refl ltac:(done) eq_refl ltac:(done)).
  split_and!; [set_solver|vm_compute; reflexivity|done|].
  exists "r1", sample_token.
  split_and!; done || (vm_compute; reflexivity).
Defined.
