(* ===== verification/Availability.v ===== *)
(** * Presence: which agents and printers count as live

    [src/lib/agent-availability.ts] (the server's routing and presentation
    predicates) and [src/shared/job-vocabulary.ts] (the copies the browser and
    desktop bundles ship), with the theorems that keep the two in step.

    [gatewayNow()] is the argument [now]; [Date.parse] and [translate] (the
    message catalogue lookup) are parameters. Ages in seconds are exact
    rationals, milliseconds over 1000. *)

From Stdlib Require Import QArith.
From S2P Require Import Prelude DatabaseTime JobStatus.
#[local] Open Scope Z_scope.

Inductive ObservationFreshness : Type := fresh | stale | missing.

#[export] Instance ObservationFreshness_eq_dec : EqDecision ObservationFreshness.
Proof. solve_decision. Defined.

(** Truthiness of a column value: a [Date] is truthy, [null] and the empty
    string are falsy. *)
Definition dbtime_truthy (v : dbtime) : bool :=
  match v with DNull => false | DDate _ => true | DText s => s != "" end.

(** The columns both presence predicates read. *)
Record Presence := {
  ps_lifecycle : option string;
  ps_status : option string;
  ps_lastSeenAt : dbtime;
}.

Inductive AgentReason : Type :=
  active_online_fresh | inactive_lifecycle | offline_reason | stale_reason | missing_heartbeat.

Record AgentAvailability := { available : bool; reason : AgentReason }.

Definition ageSeconds (now lastSeen : Z) : Q := (now - lastSeen) # 1000.

Section presence.
Context (Date_parse : string → option Z).
(** [process.env.STALE_AGENT_THRESHOLD_SECONDS] as a number. *)
Context (env : option jsnum).

Definition observationFreshness (lastSeenAt : dbtime) (thresholdSeconds : Z) (now : Z)
    : ObservationFreshness :=
  if negb (dbtime_truthy lastSeenAt) then missing
  else
    match parseDbTimeMs Date_parse lastSeenAt with
    | None => missing
    | Some lastSeen =>
        let age := ageSeconds now lastSeen in
        if Qle_bool 0 age && Qle_bool age (inject_Z thresholdSeconds) then fresh else stale
    end.

Definition getPrinterObservationFreshness (lastSeenAt : dbtime) (now : Z) : ObservationFreshness :=
  observationFreshness lastSeenAt printerStaleThresholdSeconds now.

Definition getAgentHeartbeatFreshness (lastSeenAt : dbtime) (now : Z) : ObservationFreshness :=
  observationFreshness lastSeenAt (agentStaleThresholdSeconds env) now.

Definition isPrinterObservationFresh (lastSeenAt : dbtime) (now : Z) : bool :=
  if negb (dbtime_truthy lastSeenAt) then false
  else
    match parseDbTimeMs Date_parse lastSeenAt with
    | None => false
    | Some lastSeen =>
        let age := ageSeconds now lastSeen in
        Qle_bool 0 age && Qle_bool age (inject_Z printerStaleThresholdSeconds)
    end.

Definition getAgentAvailability (a : Presence) (now : Z) : AgentAvailability :=
  if ps_lifecycle a != Some "active" then {| available := false; reason := inactive_lifecycle |}
  else if ps_status a != Some "online" then {| available := false; reason := offline_reason |}
  else if negb (dbtime_truthy (ps_lastSeenAt a))
  then {| available := false; reason := missing_heartbeat |}
  else
    match parseDbTimeMs Date_parse (ps_lastSeenAt a) with
    | None => {| available := false; reason := missing_heartbeat |}
    | Some lastSeen =>
        let age := ageSeconds now lastSeen in
        if negb (Qle_bool 0 age) || negb (Qle_bool age (inject_Z (agentStaleThresholdSeconds env)))
        then {| available := false; reason := stale_reason |}
        else {| available := true; reason := active_online_fresh |}
    end.

Definition getEffectiveAgentStatus (a : Presence) (now : Z) : string :=
  if ps_lifecycle a == Some "disabled" then "disabled"
  else if ps_lifecycle a == Some "retired" then "retired"
  else if ps_lifecycle a != Some "active" then "unknown"
  else if getAgentHeartbeatFreshness (ps_lastSeenAt a) now != fresh then "unknown"
  else
    let raw := toLowerCase (trim (coalesce (ps_status a) "")) in
    if (raw == "online") || (raw == "offline") then raw else "unknown".

Definition isAgentAvailableForJob (a : Presence) (now : Z) : bool :=
  available (getAgentAvailability a now).

(** The [_agent] parameter of the source is unused. *)
Definition getEffectivePrinterStatus (p : Presence) (now : Z) : string :=
  if ps_lifecycle p == Some "disabled" then "disabled"
  else if ps_lifecycle p == Some "retired" then "retired"
  else if ps_lifecycle p != Some "active" then "unknown"
  else if negb (isPrinterObservationFresh (ps_lastSeenAt p) now) then "unknown"
  else
    let rawStatus := trim (toLowerCase (coalesce (ps_status p) "")) in
    if one_of ["online"; "offline"; "busy"; "error"; "unknown"] rawStatus then rawStatus
    else "unknown".

(** ** The client copies *)

Definition sharedObservationFreshness (lastSeenAt : dbtime) (thresholdSeconds nowMs : Z)
    : ObservationFreshness :=
  match (if dbtime_truthy lastSeenAt then parseSharedTimeMs Date_parse lastSeenAt else None) with
  | None => missing
  | Some seen =>
      let ageMs := nowMs - seen in
      if (0 <=? ageMs) && (ageMs <=? thresholdSeconds * 1000) then fresh else stale
  end.

Definition printerObservationFreshness (lastSeenAt : dbtime) (nowMs : Z) : ObservationFreshness :=
  sharedObservationFreshness lastSeenAt printerStaleThresholdSeconds nowMs.

(** The threshold a client works with: the one sent with the record, if any. *)
Definition client_threshold (staleThresholdSeconds : option jsnum) : Z :=
  match staleThresholdSeconds with
  | None => agentStaleThresholdSeconds env
  | Some n => resolveAgentStaleThresholdSeconds (Some n)
  end.

Definition agentHeartbeatFreshness (lastSeenAt : dbtime) (nowMs : Z)
    (staleThresholdSeconds : option jsnum) : ObservationFreshness :=
  sharedObservationFreshness lastSeenAt (client_threshold staleThresholdSeconds) nowMs.

Definition effectivePrinterStatus (p : Presence) (nowMs : Z) : string :=
  if truthy (ps_lifecycle p) && (ps_lifecycle p != Some "active")
  then coalesce (ps_lifecycle p) ""
  else if negb (dbtime_truthy (ps_lastSeenAt p)) then "unknown"
  else
    match parseSharedTimeMs Date_parse (ps_lastSeenAt p) with
    | None => "unknown"
    | Some seen =>
        let ageMs := nowMs - seen in
        if (ageMs <? 0) || (printerStaleThresholdSeconds * 1000 <? ageMs) then "unknown"
        else
          let status := toLowerCase (if truthy (ps_status p) then coalesce (ps_status p) ""
                                     else "unknown") in
          if one_of ["online"; "offline"; "busy"; "error"; "unknown"] status then status
          else "unknown"
    end.
End presence.

(** ** Operator vocabulary *)

Inductive Tone : Type := ok | bad | warn | info | neutral.

#[export] Instance Tone_eq_dec : EqDecision Tone.
Proof. solve_decision. Defined.

Definition UNKNOWN_OUTCOME_MARKERS : list string :=
  ["AGENT_EXECUTION_TIMEOUT"; "AGENT_RESTART_DURING_PRINT"; "JOB_EXPIRED_DURING_PRINT";
   "UNKNOWN_PARTIAL_DELIVERY"; "UNKNOWN_SUBMISSION_OUTCOME"].

Inductive JobFailureKind : Type :=
  capability_mismatch | unsupported_transport | unsupported_protocol | ipp_unreachable
| pdfium_headless | spooler_session_busy | interactive_virtual_timeout.

Definition classifyJobFailure (error : option string) : option JobFailureKind :=
  let value := toUpperCase (coalesce error "") in
  if includes value "CAPABILITY_MISMATCH" then Some capability_mismatch
  else if includes value "ERR_UNSUPPORTED_TRANSPORT" || includes value "UNSUPPORTED_TRANSPORT"
  then Some unsupported_transport
  else if includes value "UNSUPPORTED_PROTOCOL" || includes value "UNSUPPORTED PROTOCOL"
  then Some unsupported_protocol
  else if includes value "IPP PRINTER " && includes value "UNREACHABLE (REQUEST NOT SENT)"
  then Some ipp_unreachable
  else if includes value "GETFILETYPE /DEV/STDOUT" && includes value "HANDLE IS INVALID"
  then Some pdfium_headless
  else if includes value "SPOOLER SESSION LOCK" && includes value "TIMED OUT"
  then Some spooler_session_busy
  else if (includes value "ONENOTE" || includes value "MICROSOFT PRINT TO PDF") &&
          (includes value "CONTEXT DEADLINE EXCEEDED" || includes value "TIMED OUT")
  then Some interactive_virtual_timeout
  else None.

Definition deriveOutcome (status : string) (error : option string) : PhysicalOutcome :=
  if status == "success" then unknown
  else
    let msg := coalesce error "" in
    if existsb (λ marker, startsWith msg marker) UNKNOWN_OUTCOME_MARKERS then unknown
    else not_printed.

Definition jobTone (status : string) (outcome : option PhysicalOutcome) : Tone :=
  let s := toLowerCase status in
  if (s != "success") && (outcome == Some unknown) then warn
  else if s == "success" then (if outcome == Some printed then ok else info)
  else if s == "failed" then bad
  else if s == "expired" then bad
  else if s == "printing" then info
  else if s == "claimed" then info
  else if s == "queued" then neutral
  else neutral.

Definition printerTone (status : string) : Tone :=
  if status == "online" then ok
  else if status == "busy" then warn
  else if (status == "error") || (status == "offline") then bad
  else neutral.

Section labels.
(** [translate(locale, key)] for the locale in use. *)
Context (word : string → string).

Record FailurePresentation := { fp_kind : JobFailureKind; fp_title : string; fp_guidance : string }.

Definition jobFailurePresentation (error : option string) : option FailurePresentation :=
  match classifyJobFailure error with
  | Some capability_mismatch => Some {| fp_kind := capability_mismatch;
      fp_title := word "errors.capabilityMismatch";
      fp_guidance := word "errors.capabilityMismatchAction" |}
  | Some unsupported_transport => Some {| fp_kind := unsupported_transport;
      fp_title := word "job.unsupportedTransport";
      fp_guidance := word "job.unsupportedTransportAction" |}
  | Some unsupported_protocol => Some {| fp_kind := unsupported_protocol;
      fp_title := word "job.unsupportedProtocol";
      fp_guidance := word "job.unsupportedProtocolAction" |}
  | Some ipp_unreachable => Some {| fp_kind := ipp_unreachable;
      fp_title := word "job.ippUnreachable"; fp_guidance := word "job.ippUnreachableAction" |}
  | Some pdfium_headless => Some {| fp_kind := pdfium_headless;
      fp_title := word "job.pdfiumHeadless"; fp_guidance := word "job.pdfiumHeadlessAction" |}
  | Some spooler_session_busy => Some {| fp_kind := spooler_session_busy;
      fp_title := word "job.spoolerSessionBusy";
      fp_guidance := word "job.spoolerSessionBusyAction" |}
  | Some interactive_virtual_timeout => Some {| fp_kind := interactive_virtual_timeout;
      fp_title := word "job.interactiveVirtualTimeout";
      fp_guidance := word "job.interactiveVirtualTimeoutAction" |}
  | None => None
  end.

Definition jobLabel (status : string) (outcome : option PhysicalOutcome) : string :=
  let s := toLowerCase status in
  if s == "queued" then word "job.queued"
  else if s == "claimed" then word "job.claimed"
  else if s == "printing" then word "job.printing"
  else if s == "success"
  then word (if outcome == Some printed then "job.success" else "job.successUnverified")
  else if s == "failed"
  then (if outcome == Some unknown then word "job.failedUnknown" else word "job.failed")
  else if s == "expired"
  then (if outcome == Some unknown then word "job.expiredUnknown" else word "job.expired")
  else status.

Definition jobDisplayLabel (status : string) (error : option string) : string :=
  match (if toLowerCase status == "failed" then jobFailurePresentation error else None) with
  | Some failure => fp_title failure
  | None => jobLabel status (Some (deriveOutcome status error))
  end.

Definition jobGuidance (status : string) (outcome : PhysicalOutcome) : string :=
  if status == "success" then word "job.guidance.success"
  else if outcome == unknown then word "job.guidance.unknown"
  else if status == "expired" then word "job.guidance.expired"
  else if status == "failed" then word "job.guidance.failed"
  else if status == "queued" then word "job.guidance.queued"
  else if status == "claimed" then word "job.guidance.claimed"
  else if status == "printing" then word "job.guidance.printing"
  else "".

Definition printerLabel (status : string) : string :=
  if status == "online" then word "status.online"
  else if status == "offline" then word "status.offline"
  else if status == "busy" then word "status.busy"
  else if status == "error" then word "status.errorCheckPrinter"
  else if status == "stale" then word "status.stale"
  else word "status.unknown".

Definition agentLiveView (Date_parse : string → option Z) (env : option jsnum)
    (a : Presence) (staleThresholdSeconds : option jsnum) (nowMs : Z) : Tone * string :=
  if truthy (ps_lifecycle a) && (ps_lifecycle a != Some "active")
  then (neutral, if ps_lifecycle a == Some "retired" then word "status.retired"
                 else word "status.disabled")
  else
    match (if dbtime_truthy (ps_lastSeenAt a)
           then parseSharedTimeMs Date_parse (ps_lastSeenAt a) else None) with
    | None => (neutral, word "status.unknown")
    | Some seen =>
        let ageMs := nowMs - seen in
        let thresholdSeconds := client_threshold env staleThresholdSeconds in
        let fresh := (0 <=? ageMs) && (ageMs <=? thresholdSeconds * 1000) in
        if negb fresh then (bad, word "status.heartbeatLost")
        else if ps_status a == Some "online" then (ok, word "status.online")
        else (bad, word "status.offline")
    end.
End labels.

(** ** Lemmas *)

Lemma ageSeconds_nonneg n s : Qle_bool 0 (ageSeconds n s) = (0 <=? n - s).
Proof. unfold Qle_bool, ageSeconds. simpl. f_equal; lia. Qed.

Lemma ageSeconds_le n s t : Qle_bool (ageSeconds n s) (inject_Z t) = (n - s <=? t * 1000).
Proof. unfold Qle_bool, ageSeconds, inject_Z. simpl. f_equal; lia. Qed.
#[export] Hint Rewrite ageSeconds_nonneg ageSeconds_le : gateway.

(** The threshold sent with an agent record survives the client's validation. *)
Lemma client_threshold_sent env env' :
  client_threshold env' (Some (JFin (agentStaleThresholdSeconds env) 1))
  = agentStaleThresholdSeconds env.
Proof.
  pose proof (resolveAgentStale_bounds env) as [Hlo Hhi].
  unfold client_threshold. unfold agentStaleThresholdSeconds in *.
  set (t := resolveAgentStaleThresholdSeconds env) in *. clearbody t.
  unfold resolveAgentStaleThresholdSeconds. simpl.
  rewrite Z.div_1_r, !Z.mul_1_r. case_if; [|done].
  apply orb_true_iff in Heqb as [Heqb|Heqb]; bools; lia.
Qed.

Lemma isPrinterObservationFresh_spec Date_parse v n :
  isPrinterObservationFresh Date_parse v n
  = (getPrinterObservationFreshness Date_parse v n == fresh).
Proof.
  unfold isPrinterObservationFresh, getPrinterObservationFreshness, observationFreshness.
  destruct (dbtime_truthy v); [|done]. simpl. destruct (parseDbTimeMs _ _); [|done]. by case_if.
Qed.

Lemma printer_status_normal s :
  s ∈ ["online"; "offline"; "busy"; "error"; "unknown"] →
  toLowerCase s = s ∧ trim s = s ∧ s ≠ "".
Proof. intros Hs. repeat (apply elem_of_cons in Hs as [->|Hs]; [done|]). set_solver. Qed.

Lemma deriveOutcome_marker status error :
  hasUnknownPhysicalOutcomeMarker error = true → deriveOutcome status error = unknown.
Proof.
  intros Hm. change (derivePhysicalOutcome status error = unknown).
  unfold derivePhysicalOutcome. rewrite Hm. by case_if.
Qed.

(** ** Properties *)

(** The freshness the client computes is the server's, for every observation
    time (driver [Date], naive UTC text or nothing) and every threshold. *)
Theorem freshness_mirror Date_parse v threshold n :
  sharedObservationFreshness Date_parse v threshold n
  = observationFreshness Date_parse v threshold n.
Proof.
  unfold sharedObservationFreshness, observationFreshness. rewrite parseShared_parseDb.
  destruct (dbtime_truthy v); [|done]. simpl. destruct (parseDbTimeMs _ _); [|done].
  by autorewrite with gateway.
Qed.

(** The console shows an agent as healthy exactly when the server would let
    it claim a job, provided the record carries the server's own threshold;
    this holds whatever threshold the client's own environment has. *)
Theorem live_view_matches_claim_gate word Date_parse env env' a lifecycle n
  (Hlife : ps_lifecycle a = Some lifecycle) (Hset : lifecycle ≠ "") :
  (agentLiveView word Date_parse env' a (Some (JFin (agentStaleThresholdSeconds env) 1)) n).1 = ok
  ↔ isAgentAvailableForJob Date_parse env a n = true.
Proof.
  unfold agentLiveView, isAgentAvailableForJob, getAgentAvailability.
  rewrite client_threshold_sent, Hlife, parseShared_parseDb. simpl.
  rewrite (bool_decide_false (lifecycle = "")) by done. simpl.
  destruct (bool_decide _) eqn:Hact; simpl; [|by repeat case_if].
  destruct (dbtime_truthy (ps_lastSeenAt a)); simpl; [|by repeat case_if].
  destruct (parseDbTimeMs _ _); simpl; [|by repeat case_if].
  autorewrite with gateway.
  by destruct (0 <=? _), (_ <=? _), (bool_decide (ps_status a = _)).
Qed.

Lemma live_view_matches_claim_gate_witness :
  (agentLiveView id (λ _, None) None
    {| ps_lifecycle := Some "active"; ps_status := Some "online"; ps_lastSeenAt := DDate 1000 |}
    (Some (JFin (agentStaleThresholdSeconds (Some (JFin 120 1))) 1)) 121000).1 = ok.
Proof.
  apply (live_view_matches_claim_gate id (λ _, None) (Some (JFin 120 1)) None
    {| ps_lifecycle := Some "active"; ps_status := Some "online"; ps_lastSeenAt := DDate 1000 |}
    "active" 121000).
  - reflexivity.
  - discriminate.
  - vm_compute. reflexivity.
Defined.

(** The client and the server give a printer row the same customer-facing
    state, for every row the table's [CHECK] constraints admit. *)
Theorem printer_status_mirror Date_parse p lifecycle status n
  (Hlife : ps_lifecycle p = Some lifecycle) (Hl : lifecycle ∈ ["active"; "disabled"; "retired"])
  (Hstatus : ps_status p = Some status)
  (Hs : status ∈ ["online"; "offline"; "busy"; "error"; "unknown"]) :
  effectivePrinterStatus Date_parse p n = getEffectivePrinterStatus Date_parse p n.
Proof.
  destruct (printer_status_normal _ Hs) as (Hlow & Htrim & Hne).
  unfold effectivePrinterStatus, getEffectivePrinterStatus, isPrinterObservationFresh.
  rewrite Hlife, Hstatus, parseShared_parseDb. simpl.
  rewrite (bool_decide_false (status = "")) by done. simpl. rewrite Hlow, Htrim.
  repeat (apply elem_of_cons in Hl as [->|Hl]; [try done|]); [|set_solver].
  simpl. destruct (dbtime_truthy _); [|done]. simpl. destruct (parseDbTimeMs _ _); [|done].
  autorewrite with gateway. rewrite !Z.ltb_antisym. by destruct (0 <=? _), (_ <=? _).
Qed.

Lemma printer_status_mirror_witness :
  effectivePrinterStatus (λ _, None) {| ps_lifecycle := Some "active"; ps_status := Some "busy";
    ps_lastSeenAt := DDate 5 |} 90005 = "busy".
Proof.
  rewrite (printer_status_mirror (λ _, None) {| ps_lifecycle := Some "active";
    ps_status := Some "busy"; ps_lastSeenAt := DDate 5 |} "active" "busy" 90005);
    [vm_compute; reflexivity|reflexivity| |reflexivity|]; apply (bool_decide_unpack _);
    vm_compute; exact I.
Defined.

(** The operator is never told more than the gateway knows: a job row is
    never shown in the success tone, its outcome is the server's, and a failed
    or expired row whose bytes may have reached paper gets the cautious label
    unless a specific failure class was recognised. *)
Theorem job_presentation_honest word status error :
  deriveOutcome status error = derivePhysicalOutcome status error ∧
  jobTone status (Some (deriveOutcome status error)) ≠ ok ∧
  (hasUnknownPhysicalOutcomeMarker error = true →
   (status = "failed" → classifyJobFailure error = None →
      jobDisplayLabel word status error = word "job.failedUnknown") ∧
   (status = "expired" → jobDisplayLabel word status error = word "job.expiredUnknown")).
Proof.
  assert (deriveOutcome status error = derivePhysicalOutcome status error) as Heq by done.
  split; [done|]. split.
  - rewrite Heq. pose proof (derivePhysicalOutcome_never_printed status error) as Hne.
    unfold jobTone. repeat case_if; bools; naive_solver.
  - intros Hm. split; intros ->; [intros Hc|]; unfold jobDisplayLabel; simpl.
    + unfold jobFailurePresentation. by rewrite Hc, deriveOutcome_marker.
    + by rewrite deriveOutcome_marker.
Qed.
