(* ===== verification/Payload.v ===== *)
(** * Print payload admission

    [src/lib/payload.ts]: [printJobPayloadSchema] / [validatePrintJobPayload].
    The zod combinators are modelled by what they accept: [z.object] drops
    unknown keys, [.strict()] refuses them, [.optional()] admits a missing key
    and nothing else. The constants are those of
    [contracts/print-payload-contract.json].

    Node's lenient [Buffer.from(text, "base64")] is the parameter [decode];
    its inverse [toString("base64")] is RFC 4648 and is written out. *)

From Stdlib Require Import Ascii.
From S2P Require Import Prelude DatabaseTime JobStatus Json Schema.

Definition MAX_PAYLOAD_BYTES : Z := 5242880.
Definition PAYLOAD_TYPES : list string := ["raw"; "escpos"; "pdf"; "image"].
Definition RAW_PROTOCOLS : list string := ["raw"; "escpos"; "zpl"; "tspl"].
Definition DRAWER_MODES : list string := ["pin2"; "pin5"; "none"].
Definition CUTTER_MODES : list string := ["partial"; "full"; "none"].
Definition BUZZER_MODES : list string := ["epson_pulse"; "star_bel"; "none"].

(** ** Bytes and base64 *)

Definition bytes : Type := list ascii.

Definition byte_length (b : bytes) : Z := Z.of_nat (length b).

Definition b64_digit (n : Z) : ascii :=
  ascii_of_nat (Z.to_nat
    (if n <? 26 then 65 + n else if n <? 52 then 71 + n else if n <? 62 then n - 4
     else if n =? 62 then 43 else 47)).

Definition byte_val (c : ascii) : Z := Z.of_nat (nat_of_ascii c).

(** [bytes.toString("base64")]. *)
Fixpoint base64 (b : bytes) : string :=
  match b with
  | [] => EmptyString
  | [x] =>
      let n := byte_val x in
      String (b64_digit (Z.shiftr n 2))
        (String (b64_digit (Z.shiftl (Z.land n 3) 4)) "==")
  | [x; y] =>
      let n := byte_val x in let m := byte_val y in
      String (b64_digit (Z.shiftr n 2))
        (String (b64_digit (Z.lor (Z.shiftl (Z.land n 3) 4) (Z.shiftr m 4)))
          (String (b64_digit (Z.shiftl (Z.land m 15) 2)) "="))
  | x :: y :: z :: b' =>
      let n := byte_val x in let m := byte_val y in let k := byte_val z in
      String (b64_digit (Z.shiftr n 2))
        (String (b64_digit (Z.lor (Z.shiftl (Z.land n 3) 4) (Z.shiftr m 4)))
          (String (b64_digit (Z.lor (Z.shiftl (Z.land m 15) 2) (Z.shiftr k 6)))
            (String (b64_digit (Z.land k 63)) (base64 b'))))
  end.

Definition text_bytes (s : string) : bytes := String.list_ascii_of_string s.

Definition starts_with_bytes (p b : bytes) : bool := bool_decide (take (length p) b = p).

(** [b.includes(sub)]. *)
Fixpoint includes_bytes (sub b : bytes) : bool :=
  starts_with_bytes sub b ||
  match b with [] => false | _ :: b' => includes_bytes sub b' end.

(** [b.subarray(Math.max(0, b.length - n))]. *)
Definition last_bytes (n : nat) (b : bytes) : bytes := drop (length b - n) b.

Definition pdfSignature : bytes := text_bytes "%PDF-".
Definition jpegSignature : bytes := [ascii_of_nat 255; ascii_of_nat 216; ascii_of_nat 255].
Definition eofMarker : bytes := text_bytes "%%EOF".

(** ** The parsed payload *)

Record Peripherals := {
  pe_drawer : option string;
  pe_cutter : option string;
  pe_buzzer : option string;
}.

Record PrintJobPayload := {
  pp_type : string;
  pp_encoding : string;
  pp_protocol : option string;
  pp_peripherals : option Peripherals;
  pp_data : string;
}.

(** A [ZodError]: the shape of the value, or the issues [superRefine] added,
    as (path, message). *)
Inductive payload_error : Type :=
| ShapeError
| RefineError (issues : list (string * string)).

(** [z.enum(l).optional()] at a key. *)
Definition optional_enum (l : list string) (v : json) (key : string)
    : result (option string) payload_error :=
  match json_field v key with
  | None => Ok None
  | Some (JString s) => if one_of l s then Ok (Some s) else Err ShapeError
  | Some _ => Err ShapeError
  end.

Definition required_string (v : json) (key : string) : result string payload_error :=
  match json_field v key with Some (JString s) => Ok s | _ => Err ShapeError end.

Definition parse_peripherals (v : json) : result (option Peripherals) payload_error :=
  match json_field v "peripherals" with
  | None => Ok None
  | Some (JObject l as o) =>
      let* drawer := optional_enum DRAWER_MODES o "drawer" in
      let* cutter := optional_enum CUTTER_MODES o "cutter" in
      let* buzzer := optional_enum BUZZER_MODES o "buzzer" in
      do* throw_if (negb (forallb (one_of ["drawer"; "cutter"; "buzzer"]) l.*1)) ShapeError in
      Ok (Some {| pe_drawer := drawer; pe_cutter := cutter; pe_buzzer := buzzer |})
  | Some _ => Err ShapeError
  end.

(** The [z.object] part. The length bound is [(MAX / 3) * 4 + 8]. *)
Definition parse_shape (v : json) : result PrintJobPayload payload_error :=
  match v with
  | JObject _ =>
      let* type := required_string v "type" in
      do* throw_if (negb (one_of PAYLOAD_TYPES type)) ShapeError in
      let* encoding := required_string v "encoding" in
      do* throw_if (encoding != "base64") ShapeError in
      let* protocol := optional_enum RAW_PROTOCOLS v "protocol" in
      let* peripherals := parse_peripherals v in
      let* data := required_string v "data" in
      do* throw_if (negb ((1 <=? strlen data) && (3 * (strlen data - 8) <=? 4 * MAX_PAYLOAD_BYTES)))
            ShapeError in
      Ok {| pp_type := type; pp_encoding := encoding; pp_protocol := protocol;
            pp_peripherals := peripherals; pp_data := data |}
  | _ => Err ShapeError
  end.

Section refine.
Context (decode : string → bytes).

Definition active_mode (o : option string) : bool :=
  match o with Some m => m != "none" | None => false end.

Definition hasPeripherals (p : Peripherals) : bool :=
  active_mode (pe_drawer p) || active_mode (pe_cutter p) || active_mode (pe_buzzer p).

Definition issue_if (b : bool) (path message : string) : list (string * string) :=
  if b then [(path, message)] else [].

(** The [superRefine] callback: the issues it adds, in order. *)
Definition refine_issues (payload : PrintJobPayload) : list (string * string) :=
  let decoded := decode (pp_data payload) in
  if (byte_length decoded =? 0) || (MAX_PAYLOAD_BYTES <? byte_length decoded)
     || (base64 decoded != pp_data payload)
  then [("data", "payload.data must be valid base64 and decode to 1..5242880 bytes")]
  else
    let type := pp_type payload in
    let looksLikePdf := starts_with_bytes pdfSignature decoded in
    issue_if ((type == "pdf") && negb looksLikePdf) "data"
      "PDF payload must start with the %PDF- signature" ++
    issue_if ((type == "pdf") && looksLikePdf && negb (includes_bytes eofMarker (last_bytes 4096 decoded)))
      "data" "PDF payload is incomplete (missing %%EOF trailer)" ++
    issue_if ((type == "image") && negb (starts_with_bytes jpegSignature decoded)) "data"
      "Image payload must be a JPEG" ++
    issue_if (((type == "raw") || (type == "escpos")) && looksLikePdf) "data"
      "PDF bytes cannot be labeled as raw/escpos; provide a real byte-stream payload or convert explicitly" ++
    issue_if ((type == "raw") && negb (truthy (pp_protocol payload))) "protocol"
      "protocol is required for raw payloads" ++
    issue_if ((type == "escpos") &&
              (negb (truthy (pp_protocol payload)) || (pp_protocol payload != Some "escpos")))
      "protocol" "protocol 'escpos' is required for escpos payloads" ++
    issue_if (((type == "pdf") || (type == "image")) && truthy (pp_protocol payload)) "protocol"
      "protocol is not applicable for pdf/image payloads" ++
    match pp_peripherals payload with
    | Some pe =>
        issue_if (hasPeripherals pe && (pp_protocol payload != Some "escpos")) "peripherals"
          "peripherals are only supported for escpos protocol"
    | None => []
    end.

Definition validatePrintJobPayload (payload : json) : result PrintJobPayload payload_error :=
  let* p := parse_shape payload in
  match refine_issues p with
  | [] => Ok p
  | issues => Err (RefineError issues)
  end.
End refine.

(** The validated object, as [JSON.stringify] and [jsonb] see it. *)
Definition optional_field (key : string) (o : option string) : list (string * json) :=
  match o with Some s => [(key, JString s)] | None => [] end.

Definition peripherals_json (p : Peripherals) : json := JObject (
  optional_field "drawer" (pe_drawer p) ++ optional_field "cutter" (pe_cutter p) ++
  optional_field "buzzer" (pe_buzzer p)).

Definition payload_json (p : PrintJobPayload) : json := JObject (
  [("type", JString (pp_type p)); ("encoding", JString (pp_encoding p))] ++
  optional_field "protocol" (pp_protocol p) ++
  match pp_peripherals p with Some pe => [("peripherals", peripherals_json pe)] | None => [] end ++
  [("data", JString (pp_data p))]).

(** ** What an admitted payload is *)

(** The documented wire contract of a payload, on its decoded bytes. *)
Inductive wire_payload (type : string) (protocol : option string) (b : bytes) : Prop :=
| wire_raw p :
    type = "raw" → protocol = Some p → p ∈ RAW_PROTOCOLS → ¬ pdfSignature `prefix_of` b →
    wire_payload type protocol b
| wire_escpos :
    type = "escpos" → protocol = Some "escpos" → ¬ pdfSignature `prefix_of` b →
    wire_payload type protocol b
| wire_pdf :
    type = "pdf" → protocol = None → pdfSignature `prefix_of` b →
    (∃ l r, last_bytes 4096 b = l ++ eofMarker ++ r) → wire_payload type protocol b
| wire_image :
    type = "image" → protocol = None → jpegSignature `prefix_of` b → wire_payload type protocol b.

Lemma starts_with_spec p b : starts_with_bytes p b = true ↔ p `prefix_of` b.
Proof.
  unfold starts_with_bytes. rewrite bool_decide_eq_true. split.
  - intros H. exists (drop (length p) b). rewrite <-H at 1. by rewrite take_drop.
  - intros [k ->]. by rewrite take_app_length.
Qed.

Lemma includes_bytes_spec sub b : includes_bytes sub b = true ↔ ∃ l r, b = l ++ sub ++ r.
Proof.
  induction b as [|c b IH]; simpl; rewrite orb_true_iff, starts_with_spec.
  - split; [intros [[r Hr]|?]; [by exists [], r|done]|].
    intros (l & r & H). left. symmetry in H. apply app_nil in H as [-> H]. by exists r.
  - rewrite IH. split.
    + intros [[r ->]|(l & r & ->)]; [by exists [], r|by exists (c :: l), r].
    + intros ([|c' l] & r & H); simplify_eq/=; [left; by exists r|right; eauto].
Qed.

Lemma optional_enum_in l v key s : optional_enum l v key = Ok (Some s) → s ∈ l.
Proof. unfold optional_enum, one_of. intros. repeat case_match; simplify_eq; by bools. Qed.

Lemma parse_shape_spec v p :
  parse_shape v = Ok p →
  pp_type p ∈ PAYLOAD_TYPES ∧ pp_encoding p = "base64" ∧
  (∀ s, pp_protocol p = Some s → s ∈ RAW_PROTOCOLS).
Proof.
  unfold parse_shape. intros H. destruct v; try done. rinv. subst. simpl. unfold one_of in *. bools.
  split_and!; [done|done|]. intros s ->. by eapply optional_enum_in.
Qed.

Lemma issue_if_nil b path message : issue_if b path message = [] ↔ b = false.
Proof. by destruct b. Qed.

Lemma raw_protocol_truthy (o : option string) :
  (∀ s, o = Some s → s ∈ RAW_PROTOCOLS) → truthy o = is_some o.
Proof.
  intros H. destruct o as [s|]; [|done]. simpl. specialize (H _ eq_refl).
  apply negb_true_iff, bool_decide_eq_false. intros ->. revert H. unfold RAW_PROTOCOLS. set_solver.
Qed.

Lemma peripherals_issue (o : option Peripherals) protocol path message :
  match o with
  | Some pe => issue_if (hasPeripherals pe && (protocol != Some "escpos")) path message
  | None => []
  end = [] ↔ ∀ pe, o = Some pe → hasPeripherals pe = true → protocol = Some "escpos".
Proof.
  destruct o as [pe|]; [|naive_solver].
  rewrite issue_if_nil, andb_false_iff, negb_false_iff, bool_decide_eq_true. split.
  - intros [H|H] ? [= <-]; congruence.
  - intros H. destruct (hasPeripherals pe) eqn:E; [right; by eapply H|by left].
Qed.

(** The seven tests on type, protocol and leading bytes, together. *)
Lemma type_issues type protocol b :
  type ∈ PAYLOAD_TYPES → (∀ s, protocol = Some s → s ∈ RAW_PROTOCOLS) →
  let pdf := starts_with_bytes pdfSignature b in
  ((type == "pdf") && negb pdf = false ∧
   (type == "pdf") && pdf && negb (includes_bytes eofMarker (last_bytes 4096 b)) = false ∧
   (type == "image") && negb (starts_with_bytes jpegSignature b) = false ∧
   ((type == "raw") || (type == "escpos")) && pdf = false ∧
   (type == "raw") && negb (is_some protocol) = false ∧
   (type == "escpos") && (negb (is_some protocol) || (protocol != Some "escpos")) = false ∧
   ((type == "pdf") || (type == "image")) && is_some protocol = false)
  ↔ wire_payload type protocol b.
Proof.
  intros Htype Hproto pdf.
  pose proof (starts_with_spec pdfSignature b) as Hpdf. fold pdf in Hpdf.
  pose proof (starts_with_spec jpegSignature b) as Hjpg.
  pose proof (includes_bytes_spec eofMarker (last_bytes 4096 b)) as Heof.
  revert Hpdf Hjpg Heof. generalize pdf (starts_with_bytes jpegSignature b)
    (includes_bytes eofMarker (last_bytes 4096 b)). clear pdf. intros pdf jpg eof Hpdf Hjpg Heof.
  unfold PAYLOAD_TYPES in Htype. set_unfold in Htype.
  destruct Htype as [->|[->|[->|[->|[]]]]]; eval_strings; split.
  - intros (_ & _ & _ & -> & Hp & _). destruct protocol as [pr|]; [|done].
    eapply wire_raw; [done|done|by apply Hproto|]. by rewrite <-Hpdf.
  - inversion 1; simplify_eq. destruct pdf; [|done]. exfalso. by apply H3, Hpdf.
  - intros (_ & _ & _ & -> & _ & Hp & _). destruct protocol as [pr|]; [|done]. simpl in Hp. bools.
    simplify_eq. apply wire_escpos; [done..|]. by rewrite <-Hpdf.
  - inversion 1; simplify_eq. destruct pdf; [|done]. exfalso. by apply H2, Hpdf.
  - intros (H1 & H2 & _ & _ & _ & _ & H3). destruct protocol, pdf, eof; try done.
    apply wire_pdf; [done|done|by apply Hpdf|by apply Heof].
  - inversion 1 as [| |_ -> H2%Hpdf H3%Heof|]; simplify_eq. done.
  - intros (_ & _ & H1 & _ & _ & _ & H3). destruct protocol, jpg; try done.
    apply wire_image; [done|done|by apply Hjpg].
  - inversion 1 as [| | |_ -> H2%Hjpg]; simplify_eq. done.
Qed.

(** The refinement accepts exactly the wire contract. *)
Lemma refine_issues_spec decode p :
  pp_type p ∈ PAYLOAD_TYPES → (∀ s, pp_protocol p = Some s → s ∈ RAW_PROTOCOLS) →
  refine_issues decode p = [] ↔
  let b := decode (pp_data p) in
  base64 b = pp_data p ∧ 1 ≤ byte_length b ≤ MAX_PAYLOAD_BYTES ∧
  wire_payload (pp_type p) (pp_protocol p) b ∧
  (∀ pe, pp_peripherals p = Some pe → hasPeripherals pe = true → pp_protocol p = Some "escpos").
Proof.
  intros Htype Hproto. unfold refine_issues. set (b := decode (pp_data p)). simpl.
  assert (0 ≤ byte_length b) by (unfold byte_length; lia).
  destruct ((byte_length b =? 0) || (MAX_PAYLOAD_BYTES <? byte_length b)
    || (base64 b != pp_data p)) eqn:Hguard.
  { split; [done|]. intros (Hb & Hl & _). rewrite Hb, bool_decide_true in Hguard by done.
    rewrite !orb_true_iff in Hguard. destruct Hguard as [[?%Z.eqb_eq|?%Z.ltb_lt]|?]; [lia|lia|done]. }
  apply orb_false_iff in Hguard as [Hguard ?]. apply orb_false_iff in Hguard as [?%Z.eqb_neq ?]. bools.
  rewrite !app_nil, !issue_if_nil, (raw_protocol_truthy _ Hproto), peripherals_issue.
  rewrite <-(type_issues _ _ b Htype Hproto). simpl. split; intros; destruct_and?; split_and!; done || lia.
Qed.

(** ** Properties *)

(** Admission is exactly the wire contract: a well-shaped payload is accepted
    if and only if its data is the canonical base64 of 1 to 5242880 bytes that
    are what the type says they are, in a protocol the type allows, with
    active peripherals only on ESC/POS; and it is stored unchanged. *)
Theorem payload_admission_exact decode v p
  (Hshape : parse_shape v = Ok p) :
  let b := decode (pp_data p) in
  let accepted := base64 b = pp_data p ∧ 1 ≤ byte_length b ≤ MAX_PAYLOAD_BYTES ∧
    wire_payload (pp_type p) (pp_protocol p) b ∧
    (∀ pe, pp_peripherals p = Some pe → hasPeripherals pe = true → pp_protocol p = Some "escpos") in
  (accepted → validatePrintJobPayload decode v = Ok p) ∧
  (¬ accepted → ∃ issues, issues ≠ [] ∧
     validatePrintJobPayload decode v = Err (RefineError issues)).
Proof.
  destruct (parse_shape_spec _ _ Hshape) as (Ht & _ & Hp).
  pose proof (refine_issues_spec decode p Ht Hp) as Hspec. simpl in *.
  unfold validatePrintJobPayload. rewrite Hshape. simpl. split; intros H.
  - by rewrite (proj2 Hspec H).
  - destruct (refine_issues decode p) as [|i l] eqn:E; [naive_solver|]. by exists (i :: l).
Qed.

Lemma payload_json_type p : json_text (payload_json p) "type" = Some (pp_type p).
Proof. done. Qed.

Lemma payload_json_protocol p : json_text (payload_json p) "protocol" = pp_protocol p.
Proof.
  unfold payload_json, json_text, json_field. simpl.
  destruct (pp_protocol p); simpl; [done|]. by destruct (pp_peripherals p).
Qed.

(** The gateway's own admission and the table's [CHECK] constraint agree: an
    accepted payload never makes the insert fail. *)
Lemma admitted_payload_check decode v p :
  validatePrintJobPayload decode v = Ok p → payload_contract_check (payload_json p) = true.
Proof.
  unfold validatePrintJobPayload. intros H. apply rbind_Ok in H as (p' & Hshape & H).
  destruct (refine_issues decode p') eqn:E; simplify_eq.
  destruct (parse_shape_spec _ _ Hshape) as (Ht & _ & Hp).
  apply (refine_issues_spec decode p Ht Hp) in E as (_ & _ & Hw & _).
  unfold payload_contract_check. rewrite payload_json_type, payload_json_protocol. simpl.
  inversion Hw as [pr Et Ep Hpr|Et Ep|Et Ep|Et Ep]; rewrite Et, Ep; simpl; eval_strings; try done.
  unfold one_of. rewrite (bool_decide_true (pr ∈ _)); [done|exact Hpr].
Qed.

Definition sample_raw : json := JObject [
  ("type", JString "raw"); ("protocol", JString "zpl"); ("encoding", JString "base64");
  ("data", JString "XlhB")].

Definition sample_decode (s : string) : bytes := if s == "XlhB" then text_bytes "^XA" else [].

Lemma payload_admission_exact_witness :
  validatePrintJobPayload sample_decode sample_raw =
  Ok {| pp_type := "raw"; pp_encoding := "base64"; pp_protocol := Some "zpl";
        pp_peripherals := None; pp_data := "XlhB" |}.
Proof.
  apply (payload_admission_exact sample_decode sample_raw
    {| pp_type := "raw"; pp_encoding := "base64"; pp_protocol := Some "zpl";
       pp_peripherals := None; pp_data := "XlhB" |} ltac:(vm_compute; reflexivity)).
  split_and!; [vm_compute; reflexivity|vm_compute; congruence|vm_compute; congruence| |done].
  eapply wire_raw; [done|done|unfold RAW_PROTOCOLS; set_solver|].
  rewrite <-starts_with_spec. vm_compute. done.
Defined.
