(* ===== verification/PrinterVirtual.v ===== *)
(** * Virtual printers: the classifier and its SQL twin

    [src/lib/printer-virtual.ts] ([isVirtualPrinterRecord]) decides whether a
    printer record is a software, redirected or fax queue, and
    [src/lib/printer-virtual-sql.ts] ([nonVirtualPrinterPredicate]) restates
    that decision over the columns of [printers], for pages and counts. The
    two are modelled apart, each from its own text, and proved equal. *)

From Stdlib Require Import Ascii.
From S2P Require Import Prelude DatabaseTime JobStatus Json Schema.

(** ** [printer-virtual.ts] *)

Record PrinterLike := {
  pv_name : option string;
  pv_displayName : option string;
  pv_display_name : option string;
  pv_spoolerName : option string;
  pv_spooler_name : option string;
  pv_endpoint : option string;
  pv_printerType : option string;
  pv_connectionType : option string;
  pv_protocol : option string;
  pv_port : option json;
  pv_driverName : option string;
  pv_capabilities : option json;
  pv_config : option json;
}.

Definition VIRTUAL_CAPABILITY_KEYS : list string :=
  ["virtual"; "is_virtual"; "virtual_test_sink"; "virtual_spooler_test"].
Definition VIRTUAL_CLASSES : list string := ["virtual"; "redirected"].

Definition VIRTUAL_PORT_MONITORS : list string :=
  ["portprompt:"; "xpsport:"; "file:"; "nul:"; "null:"; "shrfax:"; "fax:"; "brfax:"].

Definition SOFTWARE_WRITER_TOKENS : list string :=
  ["microsoft print to pdf"; "microsoft xps document writer"; "microsoft shared fax";
   "pc-fax"; "pc fax"; "pcfax"; "fax driver"; "fax v."; "send to onenote"; "onenote";
   "document writer"; "documentwriter"; "print to pdf"; "topdf"; "pdf writer"; "pdfwriter";
   "pdf printer"; "pdf creator"; "pdf converter"; "pdf architect"; "virtual printer";
   "software printer"; "image printer";
   "foxit"; "anydesk"; "cutepdf"; "pdf995"; "novapdf"; "bullzip"; "pdfcreator"; "pdfforge";
   "doro pdf"; "biopdf"; "nitro pdf"; "adobe pdf"; "bluebeam"; "tinypdf"; "7-pdf";
   "icecream pdf"; "pdf24"].

Definition SESSION_REDIRECT_TOKENS : list string :=
  ["remote desktop easy print"; "terminal services easy print"; "ts easy print"; "easy print";
   "citrix"; "vmware virtual print"; "vmware universal printer"; "thinprint"; "safeguard print"].

(** [lower(value: unknown)]; the second form is for fields typed as strings. *)
Definition lower_text (s : string) : string := toLowerCase (trim s).

Definition lower (value : option json) : string :=
  match value with Some (JString s) => lower_text s | _ => "" end.

Definition lower_str (value : option string) : string :=
  match value with Some s => lower_text s | None => "" end.

(** [s.split(",")[0]]. *)
Fixpoint before_comma (s : string) : string :=
  match s with
  | EmptyString => EmptyString
  | String c s' => if c == ","%char then EmptyString else String c (before_comma s')
  end.

Definition isVirtualPortMonitor (port : option json) : bool :=
  let raw := lower port in
  if raw == "" then false
  else
    let head := trim (before_comma raw) in
    existsb (λ monitor, (head == monitor) || startsWith head monitor) VIRTUAL_PORT_MONITORS.

(** An object's own properties; [None] is [null]. *)
Definition capabilitiesRecord (capabilities : option json) : option json :=
  match capabilities with Some (JObject l) => Some (JObject l) | _ => None end.

(** [record?.key]. *)
Definition prop (record : option json) (key : string) : option json :=
  match record with Some v => json_field v key | None => None end.

(** [a ?? b]. *)
Definition nullish (a b : option json) : option json :=
  match a with Some JNull | None => b | Some v => Some v end.

(** [parts.push(text)] for the texts that are not empty. *)
Definition non_empty (l : list string) : list string := filter (λ s, s ≠ "") l.

Definition array_entries (v : option json) : list string :=
  match v with
  | Some (JArray l) => non_empty (map (λ e, lower (Some e)) l)
  | _ => []
  end.

Definition DRIVER_KEYS : list string := ["driver_name"; "driverName"; "comment"; "device_id"; "deviceId"].
Definition HARDWARE_KEYS : list string :=
  ["hardware_ids"; "hardwareIds"; "compatible_ids"; "compatibleIds"].

(** The second argument is always given. *)
Definition identityHaystack (caps : option json) (printer : PrinterLike) : string :=
  let top := non_empty [lower_str (pv_driverName printer); lower (pv_port printer)] in
  match caps with
  | None => String.concat " " top
  | Some _ =>
      String.concat " " (top ++ non_empty (map (λ key, lower (prop caps key)) DRIVER_KEYS) ++
                         flat_map (λ key, array_entries (prop caps key)) HARDWARE_KEYS)
  end.

Definition native_queue (connection protocol : string) : bool :=
  (connection == "spooler") || (connection == "windows_spooler")
  || (protocol == "spooler") || (protocol == "windows_spooler").

Definition label_names (printer : PrinterLike) : list string :=
  let config := capabilitiesRecord (pv_config printer) in
  let caps := capabilitiesRecord (pv_capabilities printer) in
  non_empty (
    [lower_str (pv_name printer); lower_str (pv_displayName printer);
     lower_str (pv_display_name printer); lower_str (pv_spoolerName printer);
     lower_str (pv_spooler_name printer);
     lower (prop config "spooler_name"); lower (prop config "spoolerName");
     lower (prop config "display_name"); lower (prop config "displayName");
     lower (prop caps "spooler_name"); lower (prop caps "spoolerName");
     lower (prop caps "display_name"); lower (prop caps "displayName")] ++
    if native_queue (lower_str (pv_connectionType printer)) (lower_str (pv_protocol printer))
    then [lower_str (pv_endpoint printer); lower (prop config "address")] else []).

Definition session_redirect_name (name : string) : bool :=
  includes name "(redirected" || endsWith name "redirected)" || includes name " in session "
  || endsWith name " in session" || (includes name "(from " && includes name "in session").

(** [vendorFaxName] on a string; it lowers its argument once more. *)
Definition vendorFaxName (value : string) : bool :=
  let text := lower_text value in
  (text == "fax") || endsWith text " fax" || endsWith text "-fax" || endsWith text " (fax)".

Definition vendorFaxField (value : option json) : bool :=
  match value with Some (JString s) => vendorFaxName s | _ => false end.

Definition is_json_true (v : option json) : bool :=
  match v with Some (JBool true) => true | _ => false end.

Definition capability_virtual (caps : json) : bool :=
  existsb (λ key, is_json_true (json_field caps key) || (lower (json_field caps key) == "true"))
    VIRTUAL_CAPABILITY_KEYS
  || one_of VIRTUAL_CLASSES (lower (nullish (json_field caps "printer_class") (json_field caps "printerClass")))
  || isVirtualPortMonitor (nullish (json_field caps "port_name") (json_field caps "portName")).

Definition isVirtualPrinterRecord (printer : option PrinterLike) : bool :=
  match printer with
  | None => false
  | Some printer =>
  let type := lower_str (pv_printerType printer) in
  let connection := lower_str (pv_connectionType printer) in
  let protocol := lower_str (pv_protocol printer) in
  if (type == "virtual") || (type == "redirected") || (connection == "virtual") || (protocol == "virtual")
  then true
  else
  let config := capabilitiesRecord (pv_config printer) in
  let caps := capabilitiesRecord (pv_capabilities printer) in
  if existsb (λ record, existsb (λ key, is_some (prop record key))
                          ["virtual_test_sink"; "virtual_spooler_test"]) [config; caps]
  then true
  else if match caps with Some c => capability_virtual c | None => false end then true
  else
  let names := label_names printer in
  if existsb session_redirect_name names then true
  else if isVirtualPortMonitor (pv_port printer) then true
  else if existsb vendorFaxName (names ++ [coalesce (pv_driverName printer) ""])
          || vendorFaxField (prop caps "driver_name") || vendorFaxField (prop caps "driverName")
  then true
  else
  let hay := identityHaystack caps printer in
  if (hay != "") && (existsb (includes hay) SOFTWARE_WRITER_TOKENS
                     || existsb (includes hay) SESSION_REDIRECT_TOKENS)
  then true
  else existsb (λ name, existsb (includes name) SOFTWARE_WRITER_TOKENS) names
  end.

(** The identity a row of [printers] gives to the classifier. *)
Definition row_identity (p : printer) : PrinterLike := {|
  pv_name := Some (pr_name p); pv_displayName := None; pv_display_name := None;
  pv_spoolerName := None; pv_spooler_name := None; pv_endpoint := None;
  pv_printerType := Some (pr_printerType p); pv_connectionType := Some (pr_connectionType p);
  pv_protocol := Some (pr_protocol p); pv_port := None; pv_driverName := None;
  pv_capabilities := pr_capabilities p; pv_config := pr_config p |}.

Definition virtual_row (p : printer) : bool := isVirtualPrinterRecord (Some (row_identity p)).

(** ** [printer-virtual-sql.ts]

    [btrim] with the module's [trimChars] and [lower] are the trim and case
    mapping of the strings modelled here. *)

Definition sql_text (value : option string) : string := toLowerCase (trim (coalesce value "")).

Definition sql_object (value : option json) : json :=
  match value with Some (JObject l) => JObject l | _ => JObject [] end.

Definition sql_string (value : option json) : string :=
  match value with Some (JString s) => sql_text (Some s) | _ => "" end.

(** [coalesce(nullif(record -> first, 'null'), record -> second)]. *)
Definition sql_choice (record : json) (first second : string) : option json :=
  match json_field record first with
  | Some JNull | None => json_field record second
  | v => v
  end.

Definition sql_patterns (tokens : list string) : list string :=
  map (λ token, "%" +:+ escape_like token +:+ "%") tokens.

(** [value LIKE ANY (patterns)]. *)
Definition like_any (value : string) (patterns : list string) : bool :=
  existsb (sql_like value) patterns.

Definition sql_contains (value : string) (tokens : list string) : bool :=
  like_any value (sql_patterns tokens).

Definition hardwareText (record : json) (key : string) : string :=
  match json_field record key with
  | Some (JArray l) =>
      String.concat " " (filter (λ s, s ≠ "")
        (omap (λ e, match e with JString s => Some (sql_text (Some s)) | _ => None end) l))
  | _ => ""
  end.

(** [concat_ws(' ', nullif(v, ''), ...)]. *)
Definition concat_ws (l : list string) : string := String.concat " " (filter (λ s, s ≠ "") l).

Definition sql_vendorFax (value : string) : bool :=
  (value == "fax") || like_any value ["% fax"; "%-fax"; "% (fax)"].

Definition alias_forbidden (name : string) : bool :=
  sql_like name "%(redirected%" || sql_like name "%redirected)" || sql_like name "% in session %"
  || sql_like name "% in session"
  || (sql_like name "%(from %" && sql_like name "%in session%")
  || sql_vendorFax name || sql_contains name SOFTWARE_WRITER_TOKENS.

Definition json_key (v : json) (key : string) : bool := is_some (json_field v key).

Definition sql_aliases (p : printer) : list string :=
  let config := sql_object (pr_config p) in
  let caps := sql_object (pr_capabilities p) in
  let connection := sql_text (Some (pr_connectionType p)) in
  let protocol := sql_text (Some (pr_protocol p)) in
  let nativeQueue := one_of ["spooler"; "windows_spooler"] connection
                     || one_of ["spooler"; "windows_spooler"] protocol in
  [sql_text (Some (pr_name p))] ++
  flat_map (λ record, map (λ key, sql_string (json_field record key))
    ["spooler_name"; "spoolerName"; "display_name"; "displayName"]) [config; caps] ++
  [if nativeQueue then sql_string (json_field config "address") else ""].

Definition sql_haystack (caps : json) : string :=
  concat_ws (map (λ key, sql_string (json_field caps key)) DRIVER_KEYS ++
             map (hardwareText caps) HARDWARE_KEYS).

Definition nonVirtualPrinterPredicate (p : printer) : bool :=
  let config := sql_object (pr_config p) in
  let caps := sql_object (pr_capabilities p) in
  let connection := sql_text (Some (pr_connectionType p)) in
  let protocol := sql_text (Some (pr_protocol p)) in
  let hay := sql_haystack caps in
  let port := sql_string (sql_choice caps "port_name" "portName") in
  let portHead := trim (before_comma port) in
  let forbidden :=
    [one_of ["virtual"; "redirected"] (sql_text (Some (pr_printerType p)));
     (connection == "virtual") || (protocol == "virtual");
     json_key config "virtual_test_sink" || json_key config "virtual_spooler_test"
     || json_key caps "virtual_test_sink" || json_key caps "virtual_spooler_test";
     one_of VIRTUAL_CLASSES (sql_string (sql_choice caps "printer_class" "printerClass"));
     existsb (λ monitor, sql_like portHead (monitor +:+ "%")) VIRTUAL_PORT_MONITORS;
     existsb alias_forbidden (sql_aliases p);
     sql_vendorFax (sql_string (json_field caps "driver_name"));
     sql_vendorFax (sql_string (json_field caps "driverName"));
     sql_contains hay SOFTWARE_WRITER_TOKENS;
     sql_contains hay SESSION_REDIRECT_TOKENS] ++
    map (λ key, is_json_true (json_field caps key) || (sql_string (json_field caps key) == "true"))
      VIRTUAL_CAPABILITY_KEYS in
  negb (existsb id forbidden).

(** ** The two agree, part by part *)

Lemma existsb_ext_in {A} (f g : A → bool) l :
  Forall (λ x, f x = g x) l → existsb f l = existsb g l.
Proof. induction 1 as [|x l Hx _ IH]; [done|]. simpl. by rewrite Hx, IH. Qed.

Lemma existsb_or {A} (f g : A → bool) l :
  existsb (λ x, f x || g x) l = existsb f l || existsb g l.
Proof.
  induction l as [|x l IH]; [done|]. simpl. rewrite IH.
  destruct (f x), (g x), (existsb f l), (existsb g l); done.
Qed.

Lemma existsb_non_empty (f : string → bool) l : f "" = false → existsb f (non_empty l) = existsb f l.
Proof.
  intros H. induction l as [|x l IH]; [done|]. unfold non_empty in *. rewrite filter_cons.
  case_decide as Hx; simpl; [by rewrite IH|].
  destruct (decide (x = "")) as [->|]; [by rewrite H, IH|done].
Qed.

Lemma lower_text_idem s : lower_text (lower_text s) = lower_text s.
Proof. unfold lower_text. by rewrite trim_lower, trim_idem, toLowerCase_idem. Qed.

Lemma lower_stable v : lower_text (lower v) = lower v.
Proof. destruct v as [[]|]; try done. apply lower_text_idem. Qed.

Lemma prop_object v key : prop (capabilitiesRecord v) key = json_field (sql_object v) key.
Proof. by destruct v as [[]|]. Qed.

Lemma contains_spec value tokens : sql_contains value tokens = existsb (includes value) tokens.
Proof.
  unfold sql_contains, like_any, sql_patterns. induction tokens as [|t tokens IH]; [done|].
  cbn [map existsb]. by rewrite sql_like_includes, IH.
Qed.

Lemma vendorFax_spec s : vendorFaxName s = sql_vendorFax (lower_text s).
Proof.
  unfold vendorFaxName, sql_vendorFax. cbn [like_any existsb].
  change "% fax" with ("%" +:+ escape_like " fax" +:+ EmptyString).
  change "%-fax" with ("%" +:+ escape_like "-fax" +:+ EmptyString).
  change "% (fax)" with ("%" +:+ escape_like " (fax)" +:+ EmptyString).
  rewrite !sql_like_suffix. by rewrite orb_false_r, !orb_assoc.
Qed.

Lemma vendorFaxField_spec v : vendorFaxField v = sql_vendorFax (sql_string v).
Proof. destruct v as [[]|]; try done. apply vendorFax_spec. Qed.

Lemma alias_spec name :
  lower_text name = name →
  alias_forbidden name =
  session_redirect_name name || vendorFaxName name || existsb (includes name) SOFTWARE_WRITER_TOKENS.
Proof.
  intros Hn. rewrite vendorFax_spec, Hn. unfold alias_forbidden, session_redirect_name.
  rewrite contains_spec. do 2 f_equal.
  change "%(redirected%" with ("%" +:+ escape_like "(redirected" +:+ "%").
  change "% in session %" with ("%" +:+ escape_like " in session " +:+ "%").
  change "%(from %" with ("%" +:+ escape_like "(from " +:+ "%").
  change "%in session%" with ("%" +:+ escape_like "in session" +:+ "%").
  change "%redirected)" with ("%" +:+ escape_like "redirected)" +:+ EmptyString).
  change "% in session" with ("%" +:+ escape_like " in session" +:+ EmptyString).
  by rewrite !sql_like_includes, !sql_like_suffix.
Qed.

Lemma port_spec v :
  isVirtualPortMonitor v =
  existsb (λ monitor, sql_like (trim (before_comma (sql_string v))) (monitor +:+ "%"))
    VIRTUAL_PORT_MONITORS.
Proof.
  unfold isVirtualPortMonitor. change (sql_string v) with (lower v).
  destruct (decide (lower v = "")) as [->|Hne]; [done|]. rewrite bool_decide_false by done.
  apply existsb_ext_in. set (head := trim _).
  assert (∀ m, escape_like m = m → (head == m) || startsWith head m = sql_like head (m +:+ "%")) as H.
  { intros m Hm. pose proof (sql_like_prefix m head) as Hp. rewrite Hm in Hp. rewrite Hp.
    case_bool_decide as He; [|done]. rewrite He. simpl. symmetry. apply prefix_spec. exists "". by rewrite string_app_nil_r. }
  repeat (apply Forall_cons; split; [by apply H|]). constructor.
Qed.

Lemma choice_spec v first second :
  lower (nullish (json_field v first) (json_field v second)) = sql_string (sql_choice v first second).
Proof. unfold sql_choice. by destruct (json_field v first) as [[]|]. Qed.

Lemma array_entries_spec v key :
  String.concat " " (array_entries (json_field v key)) = hardwareText v key.
Proof.
  unfold array_entries, hardwareText. destruct (json_field v key) as [[]|]; try done. f_equal.
  unfold non_empty. induction l as [|e l IH]; [done|].
  destruct e; simpl; rewrite ?filter_cons; try (rewrite decide_False by naive_solver; exact IH).
  change (sql_text (Some s)) with (lower_text s). case_decide; [f_equal|]; exact IH.
Qed.

Lemma concat_cons x l : l ≠ [] → String.concat " " (x :: l) = x +:+ " " +:+ String.concat " " l.
Proof. by destruct l. Qed.

Lemma append_nonempty (x y : string) : x ≠ "" → x +:+ y ≠ "".
Proof. by destruct x. Qed.

Lemma concat_nonempty l : Forall (λ s, s ≠ "") l → l ≠ [] → String.concat " " l ≠ "".
Proof.
  intros Hall Hl. destruct l as [|x l]; [done|]. inversion Hall; subst.
  destruct l; [done|]. rewrite concat_cons by done. by apply append_nonempty.
Qed.

Lemma concat_app l l' :
  l ≠ [] → l' ≠ [] → String.concat " " (l ++ l') = String.concat " " l +:+ " " +:+ String.concat " " l'.
Proof.
  intros Hl Hl'. induction l as [|x l IH]; [done|]. destruct l as [|y l]; [by apply concat_cons|].
  change ((x :: y :: l) ++ l') with (x :: ((y :: l) ++ l')).
  rewrite !concat_cons by done. rewrite IH by done. by rewrite !string_app_assoc.
Qed.

(** Joining groups of texts is joining the joined groups, empty ones left out. *)
Lemma concat_groups l (f : string → list string) ks :
  (∀ k, Forall (λ s, s ≠ "") (f k)) →
  String.concat " " (l ++ flat_map f ks) =
  String.concat " " (l ++ non_empty (map (λ k, String.concat " " (f k)) ks)).
Proof.
  intros Hne. revert l. induction ks as [|k ks IH]; intros l; [done|]. simpl. unfold non_empty in *.
  rewrite filter_cons. destruct (decide (f k = [])) as [Hf|Hf].
  - rewrite Hf. rewrite decide_False by (simpl; naive_solver). apply IH.
  - rewrite decide_True by (by apply concat_nonempty). rewrite app_assoc, IH.
    rewrite <-(app_assoc l (f k)).
    generalize (filter (λ s, s ≠ "") (map (λ k, String.concat " " (f k)) ks)). intros [|r rest].
    + rewrite app_nil_r. destruct l as [|x l]; [done|]. rewrite !(concat_app (x :: l)) by done. done.
    + destruct l as [|x l].
      * rewrite !app_nil_l, concat_app by done. symmetry. by apply concat_cons.
      * rewrite !(concat_app (x :: l)) by (try done; by destruct (f k)).
        by rewrite concat_app by done.
Qed.

Lemma haystack_spec p :
  identityHaystack (capabilitiesRecord (pr_capabilities p)) (row_identity p) =
  sql_haystack (sql_object (pr_capabilities p)).
Proof.
  destruct (pr_capabilities p) as [[]|]; try reflexivity.
  unfold identityHaystack, sql_haystack, concat_ws. cbn [capabilitiesRecord sql_object].
  change (non_empty [lower_str (pv_driverName (row_identity p)); lower (pv_port (row_identity p))])
    with (@nil string). rewrite app_nil_l.
  rewrite (concat_groups _ (λ key, array_entries (prop (Some (JObject l)) key))).
  - rewrite filter_app. f_equal. f_equal. unfold non_empty. f_equal. unfold HARDWARE_KEYS.
    cbn [map prop]. by rewrite !array_entries_spec.
  - intros k. unfold array_entries, non_empty. destruct (prop _ _) as [[]|]; try constructor.
    apply Forall_forall. by intros s [? _]%list_elem_of_filter.
Qed.

Lemma names_spec f p :
  f "" = false → existsb f (label_names (row_identity p)) = existsb f (sql_aliases p).
Proof.
  intros Hf. unfold label_names. rewrite existsb_non_empty by done. unfold sql_aliases.
  cbn [row_identity pv_name pv_displayName pv_display_name pv_spoolerName pv_spooler_name pv_endpoint
       pv_config pv_capabilities pv_connectionType pv_protocol lower_str flat_map map app].
  rewrite !prop_object.
  assert (native_queue (lower_text (pr_connectionType p)) (lower_text (pr_protocol p)) =
    one_of ["spooler"; "windows_spooler"] (sql_text (Some (pr_connectionType p)))
    || one_of ["spooler"; "windows_spooler"] (sql_text (Some (pr_protocol p)))) as ->.
  { unfold native_queue, one_of. change (sql_text (Some ?x)) with (lower_text x).
    generalize (lower_text (pr_connectionType p)) (lower_text (pr_protocol p)). intros c q.
    apply Bool.eq_iff_eq_true. rewrite !orb_true_iff, !bool_decide_eq_true. set_solver. }
  change (lower_text (pr_name p)) with (sql_text (Some (pr_name p))).
  change lower with sql_string. simpl. rewrite !Hf. simpl.
  case_if; simpl; rewrite ?Hf, ?orb_false_r; done.
Qed.

Lemma names_lowered p : Forall (λ n, lower_text n = n) (label_names (row_identity p)).
Proof.
  unfold label_names, non_empty. apply Forall_forall. intros n [_ Hn]%list_elem_of_filter. simpl in Hn.
  repeat (apply elem_of_cons in Hn as [->|Hn];
          [first [done | apply lower_text_idem | apply lower_stable]|]).
  case_if; [|set_solver].
  repeat (apply elem_of_cons in Hn as [->|Hn]; [first [done | apply lower_stable]|]). set_solver.
Qed.

Lemma if_true_orb (a b : bool) : (if a then true else b) = a || b.
Proof. done. Qed.

Lemma names_scan p :
  existsb alias_forbidden (sql_aliases p) =
  existsb session_redirect_name (label_names (row_identity p))
  || existsb vendorFaxName (label_names (row_identity p))
  || existsb (λ name, existsb (includes name) SOFTWARE_WRITER_TOKENS) (label_names (row_identity p)).
Proof.
  rewrite <-names_spec by reflexivity. rewrite <-!existsb_or. apply existsb_ext_in.
  eapply Forall_impl; [apply names_lowered|]. exact alias_spec.
Qed.

Lemma capability_spec v :
  match capabilitiesRecord v with Some c => capability_virtual c | None => false end =
  existsb (λ key, is_json_true (json_field (sql_object v) key)
                  || (sql_string (json_field (sql_object v) key) == "true")) VIRTUAL_CAPABILITY_KEYS
  || one_of VIRTUAL_CLASSES (sql_string (sql_choice (sql_object v) "printer_class" "printerClass"))
  || existsb (λ monitor, sql_like (trim (before_comma
                (sql_string (sql_choice (sql_object v) "port_name" "portName")))) (monitor +:+ "%"))
       VIRTUAL_PORT_MONITORS.
Proof.
  destruct v as [[]|]; try reflexivity. cbn [capabilitiesRecord sql_object]. unfold capability_virtual.
  rewrite choice_spec, port_spec. do 2 f_equal.
  unfold nullish, sql_choice. by destruct (json_field (JObject l) "port_name") as [[]|].
Qed.

Lemma hay_scan hay :
  (hay != "") && (existsb (includes hay) SOFTWARE_WRITER_TOKENS
                  || existsb (includes hay) SESSION_REDIRECT_TOKENS) =
  sql_contains hay SOFTWARE_WRITER_TOKENS || sql_contains hay SESSION_REDIRECT_TOKENS.
Proof.
  rewrite !contains_spec. destruct (decide (hay = "")) as [->|]; [reflexivity|].
  by rewrite bool_decide_false.
Qed.

Lemma existsb_id_app l l' : existsb id (l ++ l') = existsb id l || existsb id l'.
Proof. apply existsb_app. Qed.

Lemma existsb_id_map {A} (f : A → bool) l : existsb id (map f l) = existsb f l.
Proof. induction l as [|x l IH]; [done|]. simpl. by rewrite IH. Qed.

Lemma one_of_pair a b x : one_of [a; b] x = (x == a) || (x == b).
Proof.
  unfold one_of. apply Bool.eq_iff_eq_true. rewrite orb_true_iff, !bool_decide_eq_true. set_solver.
Qed.

(** ** Properties *)

(** A page or count filtered in SQL sees exactly the printers the classifier
    lets through: no software queue is counted, no physical printer is lost. *)
Theorem virtual_sql_mirror p :
  nonVirtualPrinterPredicate p = negb (isVirtualPrinterRecord (Some (row_identity p))).
Proof.
  unfold nonVirtualPrinterPredicate. f_equal. rewrite existsb_id_app, existsb_id_map.
  cbn [existsb]. rewrite names_scan. unfold isVirtualPrinterRecord, json_key, id.
  change (pv_capabilities (row_identity p)) with (pr_capabilities p).
  change (pv_config (row_identity p)) with (pr_config p).
  rewrite haystack_spec, hay_scan, capability_spec, !if_true_orb, existsb_app, one_of_pair.
  cbn [row_identity pv_printerType pv_connectionType pv_protocol pv_port pv_driverName lower_str existsb].
  rewrite !prop_object, !vendorFaxField_spec.
  change (lower_text (pr_printerType p)) with (sql_text (Some (pr_printerType p))).
  change (lower_text (pr_connectionType p)) with (sql_text (Some (pr_connectionType p))).
  change (lower_text (pr_protocol p)) with (sql_text (Some (pr_protocol p))).
  change (isVirtualPortMonitor None) with false. change (vendorFaxName (coalesce None "")) with false.
  apply Bool.eq_iff_eq_true. rewrite !orb_false_r, ?orb_false_l, !orb_true_iff. tauto.
Qed.

(** A friendly display name or a claim to be physical hardware does not hide
    the Windows queue behind it: one software-writer name among the queue
    labels is enough, whatever the other fields say. *)
Theorem label_cannot_mask printer s token
  (Hname : json_field (sql_object (pv_config printer)) "spooler_name" = Some (JString s))
  (Htoken : token ∈ SOFTWARE_WRITER_TOKENS) (Hin : includes (lower_text s) token = true) :
  isVirtualPrinterRecord (Some printer) = true.
Proof.
  assert (token ≠ "") as Hne.
  { intros ->. unfold SOFTWARE_WRITER_TOKENS in Htoken.
    repeat (apply elem_of_cons in Htoken as [Ht|Htoken]; [discriminate Ht|]).
    by apply not_elem_of_nil in Htoken. }
  assert (lower_text s ∈ label_names printer) as Hlab.
  { unfold label_names, non_empty. apply list_elem_of_filter. split.
    - intros He. rewrite He, includes_empty in Hin by done. done.
    - apply elem_of_app. left. rewrite !prop_object, Hname. cbn [lower]. set_solver. }
  unfold isVirtualPrinterRecord. rewrite !if_true_orb.
  assert (existsb (λ name, existsb (includes name) SOFTWARE_WRITER_TOKENS) (label_names printer) = true)
    as ->; [|by rewrite !orb_true_r].
  apply existsb_exists. exists (lower_text s). split; [by apply list_elem_of_In|].
  apply existsb_exists. exists token. split; [by apply list_elem_of_In|done].
Qed.

Definition masked_queue : PrinterLike := {|
  pv_name := Some "Front desk laser"; pv_displayName := None; pv_display_name := None;
  pv_spoolerName := None; pv_spooler_name := None; pv_endpoint := None;
  pv_printerType := Some "physical"; pv_connectionType := Some "spooler";
  pv_protocol := Some "spooler"; pv_port := None; pv_driverName := None; pv_capabilities := None;
  pv_config := Some (JObject [("spooler_name", JString "Microsoft Print to PDF")]) |}.

Lemma label_cannot_mask_witness : isVirtualPrinterRecord (Some masked_queue) = true.
Proof.
  apply (label_cannot_mask masked_queue "Microsoft Print to PDF" "print to pdf").
  - reflexivity.
  - unfold SOFTWARE_WRITER_TOKENS. set_solver.
  - vm_compute. reflexivity.
Defined.
