(* ===== verification/Capability.v ===== *)
(** * What a printer can be sent

    [src/lib/printer-capability.ts] (the payload/printer capability table, the
    supported-type matrix and the transport labels) and [src/lib/routing.ts]
    (which printers can be routed to at all).

    The capabilities column is agent-reported JSON, so it is a [json] value
    here and its shape is checked by the code, not assumed. The virtual-queue
    classifier is that of [PrinterVirtual]. *)

From S2P Require Import Prelude DatabaseTime Json Schema Availability PrinterVirtual.

(** [payloadContract.rawProtocols]. *)
Definition BYTE_PROTOCOLS : list string := ["raw"; "escpos"; "zpl"; "tspl"].

Record PayloadSpec := { ps_type : string; ps_protocol : option string }.

(** The printer columns the capability check reads. *)
Record CapabilityPrinter := {
  cp_protocol : option string;
  cp_capabilities : option json;
  cp_connectionType : option string;
}.

(** [{ ok: true }] or [{ ok: false, reason }]. *)
Definition CapabilityCheckResult : Type := result unit string.

Definition documentTypeCandidates (protocol transport : string) : list string :=
  if (transport == "spooler") || (protocol == "spooler") then ["pdf"; "image"]
  else if (protocol == "ipp") || (protocol == "ipps") || (transport == "ipp") || (transport == "ipps")
  then ["pdf"]
  else if protocol == "escpos" then ["escpos"; "raw"; "image"]
  else if protocol == "zpl" then ["zpl"; "raw"]
  else if protocol == "tspl" then ["tspl"; "raw"]
  else if protocol == "raw" then ["raw"]
  else [].

(** ** The normalised view of a printer the table is written over *)

Definition norm_conn (connectionType : option string) : string :=
  let rawConn := toLowerCase (coalesce connectionType "") in
  if rawConn == "windows_spooler" then "spooler" else rawConn.

Definition norm_proto (conn : string) (protocol : option string) : string :=
  let rawProto := toLowerCase (coalesce protocol "") in
  if (rawProto == "windows_spooler") && (conn == "spooler") then "spooler" else rawProto.

(** [Object.prototype.hasOwnProperty.call(capabilities, "supported_protocols")]
    and the property's value. *)
Definition supported_protocols (capabilities : option json) : option json :=
  match capabilities with
  | Some c => json_field c "supported_protocols"
  | None => None
  end.

(** The string entries, lower-cased and trimmed. *)
Definition declared_tokens (raw : option json) : list string :=
  match raw with
  | Some (JArray l) =>
      omap (λ v, match v with JString s => Some (trim (toLowerCase s)) | _ => None end) l
  | _ => []
  end.

Definition is_array (v : json) : bool := match v with JArray _ => true | _ => false end.

Definition physicalSpooler (conn proto : string) : bool :=
  (conn == "spooler") || ((conn == "usb") && (proto == "spooler")).

Definition physicalPdf (conn proto : string) : bool :=
  physicalSpooler conn proto || (conn == "ipp") || (conn == "ipps")
  || ((conn == "network") && ((proto == "ipp") || (proto == "ipps"))).

Definition physicalImage (conn proto : string) : bool :=
  physicalSpooler conn proto || ((conn == "network") && (proto == "escpos")).

Definition physicalByteProtocol (conn proto protocol : string) : bool :=
  if physicalSpooler conn proto then (protocol == "raw") || (protocol == "escpos")
  else ((conn == "network") || (conn == "usb")) && (proto == protocol)
       && one_of BYTE_PROTOCOLS protocol.

Definition mismatch (text : string) : CapabilityCheckResult :=
  Err ("CAPABILITY_MISMATCH: " +:+ text).

Definition or_unknown (proto : string) : string := if proto == "" then "unknown" else proto.

(** ** [validatePayloadForPrinter] *)

Definition validatePayloadForPrinter (payloadInput : option PayloadSpec) (p : CapabilityPrinter)
    : CapabilityCheckResult :=
  match payloadInput with
  | None => mismatch "payload is required"
  | Some payload =>
  let pt := toLowerCase (ps_type payload) in
  let payloadProto := if truthy (ps_protocol payload) then toLowerCase <$> ps_protocol payload
                      else None in
  let conn := norm_conn (cp_connectionType p) in
  let proto := norm_proto conn (cp_protocol p) in
  let rawSupported := supported_protocols (cp_capabilities p) in
  let hasExplicitCaps := is_some rawSupported in
  if hasExplicitCaps && negb (match rawSupported with Some v => is_array v | None => false end)
  then mismatch "supported_protocols must be an array"
  else
  let supported := declared_tokens rawSupported in
  let anyCap := λ names, if hasExplicitCaps then existsb (λ name, one_of supported name) names
                         else false in
  let spooler := physicalSpooler conn proto in
  if pt == "pdf" then
    if is_some payloadProto then mismatch "pdf payloads cannot specify a printer protocol"
    else if negb (physicalPdf conn proto) then mismatch "pdf requires spooler or IPP transport"
    else Ok tt
  else if pt == "image" then
    if is_some payloadProto then mismatch "image payloads cannot specify a printer protocol"
    else if negb (physicalImage conn proto) then mismatch "image payload not supported by printer"
    else if spooler then Ok tt
    else if negb hasExplicitCaps || anyCap ["image"; "jpeg"; "escpos"] then Ok tt
    else mismatch "image payload not supported by printer"
  else if pt == "escpos" then
    if is_some payloadProto && (payloadProto != Some "escpos")
    then mismatch ("escpos payload cannot use protocol " +:+ coalesce payloadProto "")
    else if spooler then
      if hasExplicitCaps && anyCap ["escpos"] then Ok tt
      else mismatch "This printer is configured for Windows document spooling and has not been declared as ESC/POS-capable."
    else if physicalByteProtocol conn proto "escpos" && (negb hasExplicitCaps || anyCap ["escpos"])
    then Ok tt
    else mismatch ("printer does not explicitly support ESC/POS (protocol=" +:+ or_unknown proto +:+ ")")
  else if pt == "raw" then
    match payloadProto with
    | None => mismatch "raw payloads must declare an explicit protocol (raw, escpos, zpl, or tspl)"
    | Some pp =>
        if negb (one_of BYTE_PROTOCOLS pp) then mismatch ("unsupported raw protocol " +:+ pp)
        else if spooler then
          if (pp == "escpos") && hasExplicitCaps && anyCap ["escpos"] then Ok tt
          else if (pp == "raw") && hasExplicitCaps && anyCap ["raw"] then Ok tt
          else
            let label := if pp == "escpos" then "ESC/POS" else toUpperCase pp in
            mismatch ("This printer is configured for Windows document spooling and has not been declared as "
                      +:+ label +:+ "-capable.")
        else if physicalByteProtocol conn proto pp && (negb hasExplicitCaps || anyCap [pp])
        then Ok tt
        else mismatch ("printer does not explicitly support " +:+ toUpperCase pp
                       +:+ " (protocol=" +:+ or_unknown proto +:+ ")")
    end
  else mismatch ("unsupported payload type " +:+ pt)
  end.

Definition is_ok {A E} (r : result A E) : bool := match r with Ok _ => true | Err _ => false end.

Definition hasDeclaredProtocol (capabilities : option json) (token : string) : bool :=
  one_of (declared_tokens (supported_protocols capabilities)) token.

(** [[...new Set(l)]]: the first occurrence of each element. *)
Fixpoint unique (seen l : list string) : list string :=
  match l with
  | [] => []
  | x :: l => if one_of seen x then unique seen l else x :: unique (x :: seen) l
  end.

(** The payload the matrix probes a document type with. *)
Definition probe_payload (capabilities : option json) (normalized type : string) : PayloadSpec :=
  if (type == "zpl") || (type == "tspl") then {| ps_type := "raw"; ps_protocol := Some type |}
  else if type == "raw" then
    {| ps_type := "raw";
       ps_protocol := Some (if one_of BYTE_PROTOCOLS normalized then normalized
                            else if hasDeclaredProtocol capabilities "escpos" then "escpos"
                            else "raw") |}
  else if type == "escpos" then {| ps_type := type; ps_protocol := Some "escpos" |}
  else {| ps_type := type; ps_protocol := None |}.

Definition getSupportedDocumentTypes (protocol transport : string) (capabilities : option json)
    : list string :=
  let normalizedTransport := if transport == "windows_spooler" then "spooler" else transport in
  let normalized := if (protocol == "windows_spooler") && (normalizedTransport == "spooler")
                    then "spooler" else protocol in
  let candidates := unique [] (documentTypeCandidates normalized normalizedTransport
                               ++ ["raw"; "escpos"; "zpl"; "tspl"; "pdf"; "image"]) in
  filter (λ type, is_ok (validatePayloadForPrinter
                           (Some (probe_payload capabilities normalized type))
                           {| cp_protocol := Some normalized; cp_capabilities := capabilities;
                              cp_connectionType := Some normalizedTransport |}) = true) candidates.

(** ** Transport labels *)

Definition norm (s : string) : string := toLowerCase (trim s).

Definition isIppTransport (transport protocol : string) : bool :=
  let conn := norm transport in
  let proto := norm protocol in
  (conn == "ipp") || (conn == "ipps") ||
  ((conn == "network") && ((proto == "ipp") || (proto == "ipps"))).

Definition isSpoolerTransport (transport protocol : string) : bool :=
  let conn := norm transport in
  let proto := norm protocol in
  (conn == "spooler") || (conn == "windows_spooler") ||
  ((conn == "usb") && ((proto == "spooler") || (proto == "windows_spooler"))).

Definition isRawTransport (protocol : string) : bool :=
  (protocol == "raw") || (protocol == "escpos") || (protocol == "zpl") || (protocol == "tspl").

Definition badge (b : bool) (s : string) : list string := if b then [s] else [].

Definition getPrinterLanguageBadges (protocol connectionType : string) : list string :=
  let conn := norm connectionType in
  let proto := norm protocol in
  badge (proto == "escpos") "ESC/POS" ++ badge (proto == "zpl") "ZPL" ++
  badge (proto == "tspl") "TSPL" ++ badge (isIppTransport conn proto) "IPP · PDF" ++
  badge (isSpoolerTransport conn proto) "Spooler · PDF" ++
  badge (proto == "raw") (if conn == "usb" then "RAW" else "Raw 9100").

Definition getTransportDisplayName (transport : string) : string :=
  if transport == "network" then "Network (TCP)"
  else if transport == "usb" then "USB"
  else if transport == "spooler" then "Windows Spooler"
  else if transport == "ipp" then "IPP"
  else if transport == "ipps" then "IPPS (Secure)"
  else if transport == "unknown" then "Unknown"
  else transport.

Definition getProtocolDisplayName (protocol : string) : string :=
  if protocol == "raw" then "RAW"
  else if protocol == "escpos" then "ESC/POS"
  else if protocol == "zpl" then "ZPL"
  else if protocol == "tspl" then "TSPL"
  else if protocol == "ipp" then "IPP (driverless direction, not certified Everywhere)"
  else if protocol == "ipps" then "IPPS (Secure, not certified Everywhere)"
  else if protocol == "spooler" then "Spooler"
  else if protocol == "windows_spooler" then "Windows Spooler"
  else if protocol == "unknown" then "Unknown"
  else protocol.

(** ** Routing *)

(** Status, connection type and protocol of a printer record. *)
Definition isPrinterStatusExecutable (status connectionType protocol : option string) : bool :=
  let st := trim (toLowerCase (coalesce status "")) in
  if (st == "online") || (st == "busy") then true
  else if (st == "offline") || (st == "error") then false
  else if st != "unknown" then false
  else
    let conn := norm_conn connectionType in
    let proto := norm_proto conn protocol in
    if conn == "spooler" then true
    else if (conn == "ipp") || (conn == "ipps")
            || ((conn == "network") && ((proto == "ipp") || (proto == "ipps"))) then true
    else if (conn == "network") || (conn == "usb") then one_of BYTE_PROTOCOLS proto
    else false.

Definition isPrinterClaimable : option string → option string → option string → bool :=
  isPrinterStatusExecutable.

Section routing.
Context (Date_parse : string → option Z) (env : option jsnum).

(** The [agent] argument of the source is a record or [null]. *)
Definition isAgentAvailableForPrinter (a : option Presence) (now : Z) : bool :=
  match a with
  | None => false
  | Some a =>
      if ps_lifecycle a != Some "active" then false
      else available (getAgentAvailability Date_parse env a now)
  end.

(** [agent = None] is [undefined]: the agent is not part of the question. *)
Definition isPrinterAvailableForJob (p : printer) (a : option (option Presence)) (now : Z) : bool :=
  if pr_lifecycle p != "active" then false
  else if negb (pr_sharedWithGateway p) then false
  else if negb (pr_inventoryPresent p) then false
  else if virtual_row p then false
  else if match a with Some a => negb (isAgentAvailableForPrinter a now) | None => false end
  then false
  else isPrinterStatusExecutable (Some (pr_status p)) (Some (pr_connectionType p))
         (Some (pr_protocol p)).
End routing.

(** ** What the table promises, as rules *)

(** A Windows queue: its driver renders documents. *)
Definition spooler_queue (conn proto : string) : Prop :=
  conn = "spooler" ∨ (conn = "usb" ∧ proto = "spooler").

(** A transport that consumes whole documents. *)
Definition document_transport (conn proto : string) : Prop :=
  spooler_queue conn proto ∨ conn ∈ ["ipp"; "ipps"] ∨
  (conn = "network" ∧ proto ∈ ["ipp"; "ipps"]).

(** [Accepts conn proto declared type protocol]: a printer reached over [conn]
    speaking [proto], whose operator declared the tokens [declared] (or
    nothing at all), may be sent a payload of this type and protocol. *)
Inductive Accepts (conn proto : string) (declared : option (list string))
    : string → option string → Prop :=
| acc_pdf : document_transport conn proto → Accepts conn proto declared "pdf" None
| acc_image_queue : spooler_queue conn proto → Accepts conn proto declared "image" None
| acc_image_raster :
    conn = "network" → proto = "escpos" →
    (∀ l, declared = Some l → "image" ∈ l ∨ "jpeg" ∈ l ∨ "escpos" ∈ l) →
    Accepts conn proto declared "image" None
| acc_passthrough token l :
    spooler_queue conn proto → token ∈ ["raw"; "escpos"] → declared = Some l → token ∈ l →
    Accepts conn proto declared "raw" (Some token)
| acc_passthrough_escpos l pp :
    spooler_queue conn proto → declared = Some l → "escpos" ∈ l → pp ∈ [None; Some "escpos"] →
    Accepts conn proto declared "escpos" pp
| acc_bytes :
    conn ∈ ["network"; "usb"] → proto ∈ BYTE_PROTOCOLS →
    (∀ l, declared = Some l → proto ∈ l) →
    Accepts conn proto declared "raw" (Some proto)
| acc_bytes_escpos pp :
    conn ∈ ["network"; "usb"] → proto = "escpos" →
    (∀ l, declared = Some l → "escpos" ∈ l) → pp ∈ [None; Some "escpos"] →
    Accepts conn proto declared "escpos" pp.

(** What the operator declared, when the blob is well formed. *)
Definition declaration (capabilities : option json) : option (option (list string)) :=
  match supported_protocols capabilities with
  | None => Some None
  | Some (JArray l) => Some (Some (declared_tokens (Some (JArray l))))
  | Some _ => None
  end.

Definition payload_protocol (payload : PayloadSpec) : option string :=
  if truthy (ps_protocol payload) then toLowerCase <$> ps_protocol payload else None.

(** ** Lemmas *)

Ltac capcase :=
  repeat match goal with
  | H : _ || _ = true |- _ => apply orb_true_iff in H as [H|H]
  | H : _ && _ = false |- _ => apply andb_false_iff in H as [H|H]
  | _ => progress bools
  end.

Lemma physicalSpooler_spec conn proto :
  physicalSpooler conn proto = true ↔ spooler_queue conn proto.
Proof.
  unfold physicalSpooler, spooler_queue.
  rewrite orb_true_iff, andb_true_iff, !bool_decide_eq_true. done.
Qed.

Lemma physicalPdf_spec conn proto :
  physicalPdf conn proto = true ↔ document_transport conn proto.
Proof.
  unfold physicalPdf, document_transport.
  rewrite !orb_true_iff, andb_true_iff, orb_true_iff, !bool_decide_eq_true, physicalSpooler_spec.
  set_solver.
Qed.

Lemma byte_not_spooler conn proto :
  conn ∈ ["network"; "usb"] → proto ∈ BYTE_PROTOCOLS → physicalSpooler conn proto = false.
Proof.
  intros Hc Hp. apply not_true_iff_false. rewrite physicalSpooler_spec.
  unfold BYTE_PROTOCOLS in Hp. intros [->|[_ ->]]; set_solver.
Qed.

(** The table over normalised values, with the declaration already read. *)
Definition table (conn proto : string) (declared : option (list string))
    (pt : string) (pp : option string) : bool :=
  let says := λ token, match declared with Some l => one_of l token | None => false end in
  let silent := is_none declared in
  if pt == "pdf" then is_none pp && physicalPdf conn proto
  else if pt == "image" then
    is_none pp && physicalImage conn proto &&
    (physicalSpooler conn proto || silent || says "image" || says "jpeg" || says "escpos")
  else if pt == "escpos" then
    (is_none pp || (pp == Some "escpos")) &&
    (if physicalSpooler conn proto then says "escpos"
     else physicalByteProtocol conn proto "escpos" && (silent || says "escpos"))
  else if pt == "raw" then
    match pp with
    | None => false
    | Some pp =>
        one_of BYTE_PROTOCOLS pp &&
        (if physicalSpooler conn proto
         then ((pp == "escpos") && says "escpos") || ((pp == "raw") && says "raw")
         else physicalByteProtocol conn proto pp && (silent || says pp))
    end
  else false.

(** Truth-table reasoning over the atoms of the capability table. *)
Ltac table_cases :=
  cbn -[one_of physicalByteProtocol physicalPdf physicalImage physicalSpooler declared_tokens];
  repeat match goal with
  | |- context [bool_decide (?x = ?y)] => destruct (bool_decide (x = y)); try done
  | |- context [one_of ?l ?x] => destruct (one_of l x); try done
  | |- context [physicalSpooler ?c ?p] => destruct (physicalSpooler c p); try done
  | |- context [physicalPdf ?c ?p] => destruct (physicalPdf c p); try done
  | |- context [physicalImage ?c ?p] => destruct (physicalImage c p); try done
  | |- context [physicalByteProtocol ?c ?p ?q] => destruct (physicalByteProtocol c p q); try done
  | |- context [is_some ?o] => destruct o; cbn -[one_of physicalByteProtocol]; try done
  | |- context [is_none ?o] => destruct o; cbn -[one_of physicalByteProtocol]; try done
  | |- context [match ?o with Some _ => _ | None => _ end] =>
      destruct o; cbn -[one_of physicalByteProtocol]; try done
  end.

Lemma validate_table payload p declared :
  declaration (cp_capabilities p) = Some declared →
  is_ok (validatePayloadForPrinter (Some payload) p) =
  table (norm_conn (cp_connectionType p))
        (norm_proto (norm_conn (cp_connectionType p)) (cp_protocol p)) declared
        (toLowerCase (ps_type payload)) (payload_protocol payload).
Proof.
  unfold declaration, validatePayloadForPrinter, table, payload_protocol.
  generalize (toLowerCase (ps_type payload)) as pt.
  generalize (norm_proto (norm_conn (cp_connectionType p)) (cp_protocol p)) as proto.
  generalize (norm_conn (cp_connectionType p)) as conn.
  generalize (if truthy (ps_protocol payload) then toLowerCase <$> ps_protocol payload else None) as pp.
  intros pp conn proto pt Hd.
  destruct (supported_protocols (cp_capabilities p)) as [[]|]; simplify_eq; table_cases.
Qed.

Lemma table_sound conn proto declared pt pp :
  table conn proto declared pt pp = true → Accepts conn proto declared pt pp.
Proof.
  unfold table. intros H.
  destruct (bool_decide_reflect (pt = "pdf")) as [->|_];
    [|destruct (bool_decide_reflect (pt = "image")) as [->|_];
      [|destruct (bool_decide_reflect (pt = "escpos")) as [->|_];
        [|destruct (bool_decide_reflect (pt = "raw")) as [->|_]; [|done]]]].
  - apply andb_true_iff in H as [->%is_none_true H]. by apply acc_pdf, physicalPdf_spec.
  - apply andb_true_iff in H as [[->%is_none_true Hi]%andb_true_iff H]. unfold physicalImage in Hi.
    destruct (physicalSpooler conn proto) eqn:Hsp; [by apply acc_image_queue, physicalSpooler_spec|].
    simpl in *. bools. apply acc_image_raster; [done..|]. intros l ->. simpl in *.
    capcase; rewrite ?one_of_true in *; naive_solver.
  - apply andb_true_iff in H as [Hpp H].
    assert (pp ∈ [None; Some "escpos"]) as Hin
      by (capcase; [apply is_none_true in Hpp as ->|subst]; set_solver).
    case_if.
    + destruct declared as [l|]; [|done]. rewrite one_of_true in *.
      eapply acc_passthrough_escpos; [by apply physicalSpooler_spec|done..].
    + bools. unfold physicalByteProtocol in *. rewrite Heqb in *. bools. subst.
      apply acc_bytes_escpos; [|done| |done].
      * capcase; subst; set_solver.
      * intros l ->. simpl in *. by rewrite one_of_true in *.
  - destruct pp as [pp|]; [|done]. bools. case_if.
    + destruct declared as [l|]; [|by capcase]. rewrite physicalSpooler_spec in *.
      capcase; subst; rewrite one_of_true in *; eapply acc_passthrough; by set_solver.
    + bools. unfold physicalByteProtocol in *. rewrite Heqb in *. bools. subst.
      rewrite one_of_true in *. apply acc_bytes; [|done|].
      * capcase; subst; set_solver.
      * intros l ->. simpl in *. by rewrite one_of_true in *.
Qed.

Lemma table_complete conn proto declared pt pp :
  Accepts conn proto declared pt pp → table conn proto declared pt pp = true.
Proof.
  destruct 1 as [H|H| -> -> H|token l Hq Ht -> Hl|l pp Hq -> Hl Hpp|Hc Hp H|pp Hc -> H Hpp];
    unfold table; simpl; unfold physicalImage; rewrite ?(proj2 (physicalPdf_spec _ _)) by done.
  - done.
  - by rewrite (proj2 (physicalSpooler_spec _ _)).
  - destruct declared as [l|]; [|done]. simpl. destruct (H l eq_refl) as [Hi|[Hi|Hi]];
      rewrite (proj2 (one_of_true _ _) Hi); by rewrite ?orb_true_r.
  - rewrite (proj2 (physicalSpooler_spec _ _)) by done.
    repeat (apply elem_of_cons in Ht as [->|Ht];
      [by rewrite (proj2 (one_of_true _ _) Hl)|]); set_solver.
  - rewrite (proj2 (physicalSpooler_spec _ _)), (proj2 (one_of_true _ _) Hl) by done.
    repeat (apply elem_of_cons in Hpp as [->|Hpp]; [done|]); set_solver.
  - rewrite byte_not_spooler, (proj2 (one_of_true _ _) Hp) by done. simpl.
    unfold physicalByteProtocol. rewrite byte_not_spooler, (proj2 (one_of_true _ _) Hp) by done.
    rewrite (bool_decide_true (proto = proto)) by done.
    destruct declared as [l|]; simpl; [rewrite (proj2 (one_of_true _ _) (H l eq_refl))|];
      repeat (apply elem_of_cons in Hc as [->|Hc]; [done|]); set_solver.
  - assert ("escpos" ∈ BYTE_PROTOCOLS) as Hb by (unfold BYTE_PROTOCOLS; set_solver).
    rewrite byte_not_spooler by done. unfold physicalByteProtocol.
    rewrite byte_not_spooler by done.
    destruct declared as [l|]; simpl; [rewrite (proj2 (one_of_true _ _) (H l eq_refl))|];
      repeat (apply elem_of_cons in Hc as [->|Hc];
        [repeat (apply elem_of_cons in Hpp as [->|Hpp]; [done|]); set_solver|]); set_solver.
Qed.

Lemma validate_malformed payload p :
  declaration (cp_capabilities p) = None →
  is_ok (validatePayloadForPrinter (Some payload) p) = false.
Proof.
  unfold declaration, validatePayloadForPrinter. intros H.
  destruct (supported_protocols (cp_capabilities p)) as [[]|]; simplify_eq; done.
Qed.

(** The capability columns of a stored row. *)
Definition row_caps (p : printer) : CapabilityPrinter := {|
  cp_protocol := Some (pr_protocol p); cp_capabilities := pr_capabilities p;
  cp_connectionType := Some (pr_connectionType p) |}.

Lemma printer_check_columns p :
  printer_check p = true →
  pr_connectionType p ∈ CONNECTION_TYPES ∧ pr_protocol p ∈ PRINTER_PROTOCOLS ∧
  pr_status p ∈ PRINTER_STATUSES.
Proof.
  unfold printer_check. intros H. rewrite !andb_true_iff, !one_of_true in H. naive_solver.
Qed.

(** Case analysis on a member of a concrete list of strings. *)
Ltac elem_cases H :=
  repeat (apply elem_of_cons in H as [->|H]); [..|by apply elem_of_nil in H].

(** ** Properties *)

(** [validatePayloadForPrinter] accepts exactly what the capability rules
    allow: documents need a document transport, a Windows queue takes raw bytes
    only when its operator declared that language, a byte pipe takes only the
    one language it speaks and only if an explicit list does not leave it out,
    and a malformed declaration is refused whatever the payload. *)
Theorem capability_table_spec payload p :
  validatePayloadForPrinter (Some payload) p = Ok tt ↔
  ∃ declared, declaration (cp_capabilities p) = Some declared ∧
    Accepts (norm_conn (cp_connectionType p))
            (norm_proto (norm_conn (cp_connectionType p)) (cp_protocol p)) declared
            (toLowerCase (ps_type payload)) (payload_protocol payload).
Proof.
  assert (validatePayloadForPrinter (Some payload) p = Ok tt ↔
          is_ok (validatePayloadForPrinter (Some payload) p) = true) as ->
    by (destruct (validatePayloadForPrinter _ _) as [[]|]; naive_solver).
  destruct (declaration (cp_capabilities p)) as [d|] eqn:Hd.
  - rewrite (validate_table _ _ _ Hd). split.
    + intros H%table_sound. by exists d.
    + intros (d' & [= <-] & H). by apply table_complete.
  - rewrite validate_malformed by done. naive_solver.
Qed.

(** The console's document badges say what the enforcer does: for every
    stored row with a well-formed declaration, a PDF badge is shown exactly
    when a PDF would be accepted, except for a USB row labelled
    [windows_spooler], which is badged and refused. *)
Theorem pdf_badge_exact p declared
  (Hcheck : printer_check p = true)
  (Hdecl : declaration (pr_capabilities p) = Some declared) :
  ("IPP · PDF" ∈ getPrinterLanguageBadges (pr_protocol p) (pr_connectionType p) ∨
   "Spooler · PDF" ∈ getPrinterLanguageBadges (pr_protocol p) (pr_connectionType p)) ↔
  (validatePayloadForPrinter (Some {| ps_type := "pdf"; ps_protocol := None |}) (row_caps p) = Ok tt
   ∨ (pr_connectionType p = "usb" ∧ pr_protocol p = "windows_spooler")).
Proof.
  destruct (printer_check_columns _ Hcheck) as (Hc & Hp & _).
  assert (validatePayloadForPrinter (Some {| ps_type := "pdf"; ps_protocol := None |}) (row_caps p)
          = Ok tt ↔ is_ok (validatePayloadForPrinter (Some {| ps_type := "pdf"; ps_protocol := None |})
          (row_caps p)) = true) as ->
    by (destruct (validatePayloadForPrinter _ _) as [[]|]; naive_solver).
  rewrite (validate_table _ (row_caps p) _ Hdecl). simpl.
  revert Hc Hp. generalize (pr_connectionType p) as conn, (pr_protocol p) as proto.
  intros conn proto Hc Hp. elem_cases Hc; elem_cases Hp;
    apply (bool_decide_unpack _); vm_compute; exact I.
Qed.

Definition sample_printer : printer := {|
  pr_agentId := "a1"; pr_name := "Front desk"; pr_printerType := "physical";
  pr_deviceClass := "office"; pr_connectionType := "spooler"; pr_protocol := "windows_spooler";
  pr_status := "online"; pr_lifecycle := "active"; pr_managementSource := "agent";
  pr_sharedWithGateway := true; pr_sharedWithGatewayVersion := None; pr_desiredRevision := 0; pr_appliedDesiredRevision := 0;
  pr_observedDesiredRevision := 0; pr_observedDeviceClass := None; pr_config := None;
  pr_capabilities := Some (JObject [("supported_protocols", JArray [JString "escpos"])]);
  pr_inventoryPresent := true; pr_inventorySnapshotId := None; pr_lastSeenAt := Some 1000; pr_updatedAt := 0 |}.

Lemma pdf_badge_exact_witness :
  validatePayloadForPrinter (Some {| ps_type := "pdf"; ps_protocol := None |})
    (row_caps sample_printer) = Ok tt ∨
  (pr_connectionType sample_printer = "usb" ∧ pr_protocol sample_printer = "windows_spooler").
Proof.
  apply (pdf_badge_exact sample_printer (Some ["escpos"])); [reflexivity|reflexivity|].
  right. apply (bool_decide_unpack _). vm_compute. exact I.
Defined.

(** Two rows the schema admits whose badges promise a language or document the
    enforcer refuses: a spooler queue labelled [escpos] with no declaration,
    and a USB row labelled [windows_spooler]. *)
Lemma badge_overclaims :
  "ESC/POS" ∈ getPrinterLanguageBadges "escpos" "spooler" ∧
  is_ok (validatePayloadForPrinter (Some {| ps_type := "escpos"; ps_protocol := Some "escpos" |})
    {| cp_protocol := Some "escpos"; cp_capabilities := None;
       cp_connectionType := Some "spooler" |}) = false ∧
  "Spooler · PDF" ∈ getPrinterLanguageBadges "windows_spooler" "usb" ∧
  is_ok (validatePayloadForPrinter (Some {| ps_type := "pdf"; ps_protocol := None |})
    {| cp_protocol := Some "windows_spooler"; cp_capabilities := None;
       cp_connectionType := Some "usb" |}) = false.
Proof. apply (bool_decide_unpack _). vm_compute. exact I. Qed.
