(* ===== verification/Entitlements.v ===== *)
(** * Billing entitlements and the print-credit ledger

    [src/lib/entitlements.ts]. Reads take the database and a [clock]; a thrown
    error class is a constructor of [tenant_error]; an operation that writes
    returns the new database. Row locks ([FOR UPDATE]) have no effect on one
    transaction's own reads and are left out. *)

From Stdlib Require Import Ascii.
From S2P Require Import Prelude DatabaseTime JobStatus Json Schema.

Inductive tenant_error : Type :=
| TenantEntitlementError (entitlement : string) (limit used : Z)
| TenantSubscriptionRequiredError
| TenantPrintQuotaExceededError (limit used periodStart : Z) (periodEnd : option Z)
| TenantEntitlementConfigError (entitlement : string)
| TenantSuspendedError
| TenantDeletedError.

Definition isTenantBillingError (error : tenant_error) : bool :=
  match error with
  | TenantSubscriptionRequiredError | TenantEntitlementConfigError _
  | TenantSuspendedError | TenantDeletedError => true
  | _ => false
  end.

(** ** Plans *)

Definition BILLING_ACCESS_STATUSES : list string := ["trialing"; "active"; "past_due"].

Definition isBillingAccessStatus (status : option string) : bool :=
  match status with Some s => one_of BILLING_ACCESS_STATUSES s | None => false end.

Inductive EntitlementValue : Type := limited (n : Z) | unlimited.

Record TenantEntitlements := {
  max_agents : EntitlementValue;
  max_printers : EntitlementValue;
  max_jobs_per_minute : EntitlementValue;
  max_concurrent_jobs : EntitlementValue;
  max_prints_per_period : EntitlementValue;
}.

Definition PLAN_ENTITLEMENT_KEYS : list string :=
  ["max_agents"; "max_printers"; "max_jobs_per_minute"; "max_concurrent_jobs";
   "max_prints_per_period"].

Definition PRINT_QUOTA_ENTITLEMENT : string := "max_prints_per_period".

(** [Number.isSafeInteger] on an integer. *)
Definition isSafeInteger (n : Z) : bool := (- (2 ^ 53 - 1) <=? n) && (n <=? 2 ^ 53 - 1).

(** One turn of the loop over [PLAN_ENTITLEMENT_KEYS]. *)
Definition entitlement_value (source : json) (key : string) : result EntitlementValue string :=
  match json_field source key with
  | Some (JString s) =>
      if s == "unlimited" then Ok unlimited
      else Err ("Entitlement " +:+ key +:+ " must be a positive integer")
  | Some (JNumber n) =>
      if negb (isSafeInteger n) || (n <=? 0)
      then Err ("Entitlement " +:+ key +:+ " must be a positive integer")
      else Ok (limited n)
  | _ => Err ("Entitlement " +:+ key +:+ " must be a positive integer")
  end.

Definition normalizePlanEntitlements (input : json) : result TenantEntitlements string :=
  match input with
  | JObject _ =>
      let* a := entitlement_value input "max_agents" in
      let* p := entitlement_value input "max_printers" in
      let* m := entitlement_value input "max_jobs_per_minute" in
      let* c := entitlement_value input "max_concurrent_jobs" in
      let* q := entitlement_value input "max_prints_per_period" in
      Ok {| max_agents := a; max_printers := p; max_jobs_per_minute := m;
            max_concurrent_jobs := c; max_prints_per_period := q |}
  | _ => Err "entitlements must be an object"
  end.

Definition entitlement (e : TenantEntitlements) (key : string) : EntitlementValue :=
  if key == "max_agents" then max_agents e
  else if key == "max_printers" then max_printers e
  else if key == "max_jobs_per_minute" then max_jobs_per_minute e
  else if key == "max_concurrent_jobs" then max_concurrent_jobs e
  else max_prints_per_period e.

(** ** Subscription time *)

(** [/(?:Z|[+-]\d{2}:?\d{2})$/]: unlike [has_zone_suffix], no lower-case z. *)
Definition has_upper_zone_suffix (s : string) : bool :=
  match rev_chars s with
  | c :: _ => (c == "Z"%char) || ((c != "z"%char) && has_zone_suffix s)
  | [] => false
  end.

Section dates.
Context (Date_parse : string → option Z).

Definition parseEntitlementDate (value : dbtime) : option Z :=
  match value with
  | DNull => None
  | DDate ms => Some ms
  | DText value =>
      let text := trim value in
      let iso := if has_upper_zone_suffix text then text else replace_space text +:+ "Z" in
      Date_parse iso
  end.

Definition isSubscriptionPeriodLive (currentPeriodEnd : dbtime) (nowMs : Z) : bool :=
  match currentPeriodEnd with
  | DNull => true
  | v =>
      match parseEntitlementDate v with
      | None => false
      | Some endsAt => nowMs <? endsAt
      end
  end.

(** ** Live subscriptions *)

Definition live_subscription_row (ck : clock) (requireUnblocked : bool) (ts : subscription) : bool :=
  one_of ["trialing"; "active"; "past_due"] (ts_status ts) &&
  ((ts_status ts == "past_due")
   || match ts_currentPeriodEnd ts with
      | None => true
      | Some e => clock_timestamp ck <? e
      end) &&
  (negb requireUnblocked || negb (ts_entitlementBlocked ts)).

(** The subscription row selected as [ts]; [tenant_id] is unique in the table. *)
Definition liveTenantSubscriptionWhere (d : db) (ck : clock) (tenantId : string)
    (requireUnblocked : bool) : option subscription :=
  match subscriptions d !! tenantId with
  | Some ts => if live_subscription_row ck requireUnblocked ts then Some ts else None
  | None => None
  end.

Definition liveTenantSubscriptionPredicate (d : db) (ck : clock) (tenantId : string)
    (requireUnblocked : bool) : bool :=
  match subscriptions d !! tenantId with
  | Some ts => live_subscription_row ck requireUnblocked ts
  | None => false
  end.

Definition requireTenantBillingAccess (d : db) (ck : clock) (tenantId : string)
    : result unit tenant_error :=
  throw_if (is_none (liveTenantSubscriptionWhere d ck tenantId true))
    TenantSubscriptionRequiredError.

(** [SELECT ... FROM tenant_subscriptions ts JOIN plans p ON p.id = ts.plan_id
    WHERE live LIMIT 1]. *)
Definition live_plan (d : db) (ck : clock) (tenantId : string) : option (subscription * plan) :=
  ts ← liveTenantSubscriptionWhere d ck tenantId false;
  p ← plans d !! ts_planId ts;
  Some (ts, p).

Definition getTenantEntitlementLimit (d : db) (ck : clock) (tenantId key : string)
    : result (option Z) tenant_error :=
  match live_plan d ck tenantId with
  | None => Err TenantSubscriptionRequiredError
  | Some (ts, p) =>
      do* throw_if (negb (one_of PLAN_ENTITLEMENT_KEYS key)) (TenantEntitlementConfigError key) in
      do* throw_if (ts_entitlementBlocked ts) (TenantEntitlementConfigError key) in
      match normalizePlanEntitlements (pl_entitlements p) with
      | Err _ => Err (TenantEntitlementConfigError key)
      | Ok entitlements =>
          match entitlement entitlements key with
          | unlimited => Ok None
          | limited value => Ok (Some value)
          end
      end
  end.

Definition getTenantEntitlements (d : db) (ck : clock) (tenantId : string)
    : result TenantEntitlements tenant_error :=
  match live_plan d ck tenantId with
  | None => Err TenantSubscriptionRequiredError
  | Some (ts, p) =>
      do* throw_if (ts_entitlementBlocked ts) (TenantEntitlementConfigError "plan_entitlements") in
      match normalizePlanEntitlements (pl_entitlements p) with
      | Err _ => Err (TenantEntitlementConfigError "plan_entitlements")
      | Ok e => Ok e
      end
  end.

(** [currentCountSql] has been evaluated to [count]. *)
Definition enforceTenantResourceEntitlement (d : db) (ck : clock) (tenantId key : string) (count : Z)
    : result unit tenant_error :=
  let* limit := getTenantEntitlementLimit d ck tenantId key in
  match limit with
  | None => Ok tt
  | Some limit => throw_if (limit <=? count) (TenantEntitlementError key limit count)
  end.

(** ** Print credits *)

Record PrintQuotaContext := {
  qc_limit : EntitlementValue;
  qc_periodStart : Z;
  qc_periodEnd : option Z;
}.

Definition db_time (o : option Z) : dbtime := match o with Some t => DDate t | None => DNull end.

Definition getTenantPrintQuotaContext (d : db) (ck : clock) (tenantId : string)
    : result PrintQuotaContext tenant_error :=
  match live_plan d ck tenantId with
  | None => Err TenantSubscriptionRequiredError
  | Some (ts, p) =>
      do* throw_if (ts_entitlementBlocked ts) (TenantEntitlementConfigError PRINT_QUOTA_ENTITLEMENT) in
      match normalizePlanEntitlements (pl_entitlements p) with
      | Err _ => Err (TenantEntitlementConfigError PRINT_QUOTA_ENTITLEMENT)
      | Ok entitlements =>
          match parseEntitlementDate (DDate (ts_currentPeriodStart ts)) with
          | None => Err (TenantEntitlementConfigError "subscription_period")
          | Some periodStart =>
              let periodEnd := parseEntitlementDate (db_time (ts_currentPeriodEnd ts)) in
              do* throw_if (match periodEnd with Some e => e <=? periodStart | None => false end)
                    (TenantEntitlementConfigError "subscription_period") in
              Ok {| qc_limit := max_prints_per_period entitlements;
                    qc_periodStart := periodStart; qc_periodEnd := periodEnd |}
          end
      end
  end.

Record TenantPrintUsage := {
  tu_limit : EntitlementValue;
  tu_used : Z;
  tu_remaining : EntitlementValue;
  tu_periodStart : Z;
  tu_periodEnd : option Z;
}.

Definition usage_of (context : PrintQuotaContext) (used : Z) : TenantPrintUsage := {|
  tu_limit := qc_limit context; tu_used := used;
  tu_remaining := match qc_limit context with
                  | unlimited => unlimited
                  | limited limit => limited (Z.max 0 (limit - used))
                  end;
  tu_periodStart := qc_periodStart context; tu_periodEnd := qc_periodEnd context |}.

(** The [WHERE] of the upsert's update arm. *)
Definition credit_left (limit : EntitlementValue) (used : Z) : bool :=
  match limit with unlimited => true | limited limit => used <? limit end.

Definition used_prints (d : db) (tenantId : string) (periodStart : Z) : Z :=
  match usage_periods d !! (tenantId, periodStart) with Some u => up_usedPrints u | None => 0 end.

Definition put_usage (tenantId : string) (context : PrintQuotaContext) (used : Z) (d : db) : db :=
  with_usage (<[(tenantId, qc_periodStart context) :=
    {| up_periodEnd := qc_periodEnd context; up_usedPrints := used |}]> (usage_periods d)) d.

Definition reserveTenantPrintCredit (d : db) (ck : clock) (tenantId : string)
    : result (TenantPrintUsage * db) tenant_error :=
  let* context := getTenantPrintQuotaContext d ck tenantId in
  match usage_periods d !! (tenantId, qc_periodStart context) with
  | None => Ok (usage_of context 1, put_usage tenantId context 1 d)
  | Some u =>
      if credit_left (qc_limit context) (up_usedPrints u)
      then Ok (usage_of context (up_usedPrints u + 1),
               put_usage tenantId context (up_usedPrints u + 1) d)
      else Err (TenantPrintQuotaExceededError
                  (match qc_limit context with limited limit => limit | unlimited => 0 end)
                  (used_prints d tenantId (qc_periodStart context))
                  (qc_periodStart context) (qc_periodEnd context))
  end.

Definition getTenantPrintUsage (d : db) (ck : clock) (tenantId : string)
    : result TenantPrintUsage tenant_error :=
  let* context := getTenantPrintQuotaContext d ck tenantId in
  Ok (usage_of context (used_prints d tenantId (qc_periodStart context))).

(** ** Job rate and concurrency *)

(** [SELECT COUNT( * ) FROM print_jobs WHERE p]. *)
Definition count_jobs (p : print_job → bool) (d : db) : Z :=
  count_rows p (print_jobs d).

Definition recent_job (ck : clock) (tenantId : string) (j : print_job) : bool :=
  (pj_tenantId j == tenantId) && (now ck - mins 1 <=? pj_createdAt j).

Definition concurrent_job (ck : clock) (tenantId : string) (j : print_job) : bool :=
  (pj_tenantId j == tenantId) && status_in [queued; claimed; printing] j && (now ck <? pj_expiresAt j).

Definition enforceTenantJobEntitlements (d : db) (ck : clock) (tenantId : string)
    : result unit tenant_error :=
  let* minuteLimit := getTenantEntitlementLimit d ck tenantId "max_jobs_per_minute" in
  do* match minuteLimit with
      | None => Ok tt
      | Some limit =>
          let count := count_jobs (recent_job ck tenantId) d in
          throw_if (limit <=? count) (TenantEntitlementError "max_jobs_per_minute" limit count)
      end in
  let* concurrentLimit := getTenantEntitlementLimit d ck tenantId "max_concurrent_jobs" in
  match concurrentLimit with
  | None => Ok tt
  | Some limit =>
      let count := count_jobs (concurrent_job ck tenantId) d in
      throw_if (limit <=? count) (TenantEntitlementError "max_concurrent_jobs" limit count)
  end.
End dates.

(** ** The upgrade signal

    [ls_period] is the billing period the two ISO strings of the signal
    render; the message text is left out. *)

Record EntitlementLimitSignal := {
  ls_code : string;
  ls_entitlement : string;
  ls_limit : Z;
  ls_used : Z;
  ls_remaining : Z;
  ls_period : option (Z * option Z);
  ls_upgradeRequired : bool;
  ls_retryAfterSeconds : option Z;
  ls_retryable : bool;
}.

Definition entitlementLimitSignal (error : tenant_error) (nowMs : Z) : option EntitlementLimitSignal :=
  match error with
  | TenantPrintQuotaExceededError limit used periodStart periodEnd => Some {|
      ls_code := "PRINT_QUOTA_EXCEEDED"; ls_entitlement := PRINT_QUOTA_ENTITLEMENT;
      ls_limit := limit; ls_used := used; ls_remaining := 0;
      ls_period := Some (periodStart, periodEnd); ls_upgradeRequired := true;
      ls_retryAfterSeconds := (λ e, Z.max 1 (ceil_seconds (e - nowMs))) <$> periodEnd;
      ls_retryable := false |}
  | TenantEntitlementError key limit used =>
      let capacity := (key == "max_agents") || (key == "max_printers") in
      Some {| ls_code := "TENANT_ENTITLEMENT_EXCEEDED"; ls_entitlement := key;
              ls_limit := limit; ls_used := used; ls_remaining := Z.max 0 (limit - used);
              ls_period := None; ls_upgradeRequired := true;
              ls_retryAfterSeconds := if capacity then None else Some 60;
              ls_retryable := negb capacity |}
  | _ => None
  end.

(** ** Lemmas *)

Lemma entitlement_value_pos source key n :
  entitlement_value source key = Ok (limited n) → 0 < n ≤ 2 ^ 53 - 1.
Proof.
  unfold entitlement_value, isSafeInteger. intros H.
  repeat case_match; simplify_eq; bools; lia.
Qed.

Lemma normalized_quota_pos input e n :
  normalizePlanEntitlements input = Ok e → max_prints_per_period e = limited n →
  0 < n ≤ 2 ^ 53 - 1.
Proof.
  unfold normalizePlanEntitlements. intros H Hq. destruct input; try done. rinv. subst. simpl in Hq.
  subst. by eapply entitlement_value_pos.
Qed.

Lemma quota_context_pos Date_parse d ck t c n :
  getTenantPrintQuotaContext Date_parse d ck t = Ok c → qc_limit c = limited n → 0 < n ≤ 2 ^ 53 - 1.
Proof.
  unfold getTenantPrintQuotaContext. intros H Hq.
  destruct (live_plan d ck t) as [[ts p]|]; [|done]. rinv.
  destruct (normalizePlanEntitlements _) eqn:He; [|done]. simpl in H. rinv. subst.
  by eapply normalized_quota_pos.
Qed.

(** The quota context reads subscriptions and plans only. *)
Lemma quota_context_frame Date_parse d us ck t :
  getTenantPrintQuotaContext Date_parse (with_usage us d) ck t
  = getTenantPrintQuotaContext Date_parse d ck t.
Proof. done. Qed.

Lemma used_prints_put t c n d :
  used_prints (put_usage t c n d) t (qc_periodStart c) = n.
Proof. unfold used_prints, put_usage. simpl. by rewrite lookup_insert_eq. Qed.

(** One reservation, in terms of the counter it moves. *)
Lemma reserve_inv Date_parse d ck t c :
  getTenantPrintQuotaContext Date_parse d ck t = Ok c →
  let used := used_prints d t (qc_periodStart c) in
  reserveTenantPrintCredit Date_parse d ck t =
  if is_none (usage_periods d !! (t, qc_periodStart c)) || credit_left (qc_limit c) used
  then Ok (usage_of c (used + 1), put_usage t c (used + 1) d)
  else Err (TenantPrintQuotaExceededError
              (match qc_limit c with limited limit => limit | unlimited => 0 end)
              used (qc_periodStart c) (qc_periodEnd c)).
Proof.
  intros Hc. unfold reserveTenantPrintCredit, used_prints. rewrite Hc. simpl.
  by destruct (usage_periods d !! _).
Qed.

(** A tenant's reservations at the given times; a refused one changes nothing. *)
Fixpoint reserve_run (Date_parse : string → option Z) (d : db) (t : string) (cks : list clock)
    : Z * db :=
  match cks with
  | [] => (0, d)
  | ck :: cks =>
      match reserveTenantPrintCredit Date_parse d ck t with
      | Ok (_, d') => let '(n, d'') := reserve_run Date_parse d' t cks in (n + 1, d'')
      | Err _ => reserve_run Date_parse d t cks
      end
  end.

(** ** Properties *)

(** A granted reservation charges exactly one credit to the tenant's current
    period, never past the plan's limit, and touches no other row; it is
    refused with the quota error exactly when a counted period is used up. *)
Theorem reserve_credit_exact Date_parse d ck t c
  (Hctx : getTenantPrintQuotaContext Date_parse d ck t = Ok c) :
  (∀ u d', reserveTenantPrintCredit Date_parse d ck t = Ok (u, d') →
     tu_used u = used_prints d t (qc_periodStart c) + 1 ∧
     used_prints d' t (qc_periodStart c) = tu_used u ∧
     (∀ limit, qc_limit c = limited limit → tu_used u ≤ limit) ∧
     (∀ k, k ≠ (t, qc_periodStart c) → usage_periods d' !! k = usage_periods d !! k) ∧
     d' = with_usage (usage_periods d') d) ∧
  (∀ e, reserveTenantPrintCredit Date_parse d ck t = Err e ↔
     ∃ limit, qc_limit c = limited limit ∧ limit ≤ used_prints d t (qc_periodStart c) ∧
       e = TenantPrintQuotaExceededError limit (used_prints d t (qc_periodStart c))
             (qc_periodStart c) (qc_periodEnd c)).
Proof.
  rewrite (reserve_inv _ _ _ _ _ Hctx).
  pose proof (λ n, quota_context_pos _ _ _ _ _ n Hctx) as Hpos.
  assert (is_none (usage_periods d !! (t, qc_periodStart c)) = true →
          used_prints d t (qc_periodStart c) = 0) as Hnone.
  { unfold used_prints. by destruct (_ !! _). }
  split; [intros u d'|intros e]; case_if; intros; rinv; simplify_eq.
  - rewrite used_prints_put. split_and!; [done|done| | |done].
    + intros limit Hl. specialize (Hpos _ Hl). rewrite Hl in Heqb. simpl in *.
      apply orb_true_iff in Heqb as [Hn|Hlt]; [rewrite (Hnone Hn)|bools]; lia.
    + intros k Hk. unfold put_usage. simpl. by rewrite lookup_insert_ne.
  - split; [done|]. intros (limit & Hl & Hle & _). specialize (Hpos _ Hl). rewrite Hl in Heqb.
    simpl in *. apply orb_true_iff in Heqb as [Hn|Hlt]; [rewrite (Hnone Hn) in Hle|bools]; lia.
  - apply orb_false_iff in Heqb as [_ Hcr]. destruct (qc_limit c) as [limit|] eqn:Hl; [|done].
    simpl in Hcr. bools. split; [intros [= <-]; by exists limit|naive_solver].
Qed.

(** Over any run of reservations within one billing period, the number
    granted is exactly the number asked for, cut off at what the plan has left. *)
Theorem quota_run_exact Date_parse t limit start end_ cks d
  (Hctx : Forall (λ ck, getTenantPrintQuotaContext Date_parse d ck t =
    Ok {| qc_limit := limited limit; qc_periodStart := start; qc_periodEnd := end_ |}) cks) :
  let granted := (reserve_run Date_parse d t cks).1 in
  granted = Z.min (Z.of_nat (length cks)) (Z.max 0 (limit - used_prints d t start)) ∧
  used_prints (reserve_run Date_parse d t cks).2 t start = used_prints d t start + granted.
Proof.
  revert d Hctx. induction cks as [|ck cks IH]; intros d Hctx; [simpl; lia|].
  inversion Hctx as [|? ? Hck Hrest]; subst.
  pose proof (quota_context_pos _ _ _ _ _ limit Hck eq_refl) as Hpos.
  cbn [reserve_run]. rewrite (reserve_inv _ _ _ _ _ Hck). cbn -[Z.add Z.of_nat put_usage usage_of].
  set (used := used_prints d t start).
  assert (is_none (usage_periods d !! (t, start)) = true → used = 0) as Hnone.
  { unfold used, used_prints. by destruct (_ !! _). }
  case_if.
  - set (d' := put_usage _ _ _ d).
    specialize (IH d' ltac:(eapply Forall_impl; [exact Hrest|done])). simpl in IH.
    assert (used_prints d' t start = used + 1) as Hd' by apply used_prints_put.
    rewrite Hd' in IH. destruct (reserve_run Date_parse d' t cks) as [n d'']. simpl in *.
    apply orb_true_iff in Heqb as [Hn|Hlt]; [specialize (Hnone Hn)|bools]; lia.
  - apply orb_false_iff in Heqb as [_ Hge]. bools.
    specialize (IH d Hrest). simpl in IH. fold used in IH. lia.
Qed.

Definition sample_plan (n : Z) : plan := {| pl_entitlements := JObject [
  ("max_agents", JNumber 2); ("max_printers", JNumber 5); ("max_jobs_per_minute", JNumber 60);
  ("max_concurrent_jobs", JString "unlimited"); ("max_prints_per_period", JNumber n)] |}.

Definition sample_subscription : subscription := {|
  ts_planId := "basic"; ts_status := "active"; ts_currentPeriodStart := 0;
  ts_currentPeriodEnd := Some 9000000; ts_entitlementBlocked := false |}.

Definition metered_db (n : Z) : db := {|
  tenants := ∅; agents := ∅; printers := ∅; api_keys := ∅; print_jobs := ∅; receipts := ∅;
  plans := {["basic" := sample_plan n]}; subscriptions := {["t1" := sample_subscription]};
  usage_periods := ∅; job_notices := [] |}.

Definition at_time (t : Z) : clock := {| now := t; clock_timestamp := t |}.

Lemma reserve_credit_exact_witness :
  ∃ u d', reserveTenantPrintCredit (λ _, None) (metered_db 3) (at_time 5) "t1" = Ok (u, d') ∧
    tu_used u = 1.
Proof.
  eexists _, _. split; [vm_compute; reflexivity|].
  pose proof (reserve_credit_exact (λ _, None) (metered_db 3) (at_time 5) "t1"
    {| qc_limit := limited 3; qc_periodStart := 0; qc_periodEnd := Some 9000000 |}
    ltac:(vm_compute; reflexivity)) as [H _].
  exact (proj1 (H _ _ ltac:(vm_compute; reflexivity))).
Defined.

Lemma quota_run_exact_witness :
  (reserve_run (λ _, None) (metered_db 3) "t1"
    [at_time 1; at_time 2; at_time 3; at_time 4; at_time 5]).1 = 3.
Proof.
  rewrite (proj1 (quota_run_exact (λ _, None) "t1" 3 0 (Some 9000000)
    [at_time 1; at_time 2; at_time 3; at_time 4; at_time 5] (metered_db 3)
    ltac:(repeat constructor))).
  vm_compute. reflexivity.
Defined.

(** The application's period gate and the SQL predicate agree: a subscription
    row counts as live in a query exactly when its status keeps access and it
    is past due or its period passes [isSubscriptionPeriodLive] at database
    time. *)
Theorem subscription_gate_mirror Date_parse ck ts :
  live_subscription_row ck false ts =
  isBillingAccessStatus (Some (ts_status ts)) &&
  ((ts_status ts == "past_due")
   || isSubscriptionPeriodLive Date_parse (db_time (ts_currentPeriodEnd ts)) (clock_timestamp ck)).
Proof.
  unfold live_subscription_row. simpl. rewrite andb_true_r. unfold BILLING_ACCESS_STATUSES.
  by destruct (ts_currentPeriodEnd ts).
Qed.
