(* ===== verification/Inventory.v ===== *)
(** * Inventory: what an agent reports in a heartbeat

    The request of [src/app/api/agent/heartbeat/route.ts]: reading its body,
    and turning each reported printer into one that may be stored, or refusing
    it with a reason; [src/lib/inventory-snapshot.ts] and
    [src/lib/printer-identity.ts]. SHA-256, UTF-8 length and the [URL] parser are
    arguments. *)

From Stdlib Require Import Ascii.
From S2P Require Import Prelude DatabaseTime JobStatus Json NetworkAddress Schema PrinterModel.
From S2P Require Import PrinterVirtual Entitlements.

Definition MAX_HEARTBEAT_BODY_BYTES : Z := 512 * 1024.
Definition MAX_KEEP_ALIVE_JOB_IDS : nat := 64.
Definition VALID_PRINTER_STATUSES : list string := ["online"; "offline"; "busy"; "error"; "unknown"].
Definition KNOWN_CAPABILITY_TOKENS : list string :=
  ["raw"; "escpos"; "zpl"; "tspl"; "pdf"; "image"; "jpeg"; "spooler"; "windows_spooler"; "ipp"; "ipps"; "unknown"].
Definition VALID_AGENT_STATUSES : list string := ["online"; "offline"].

(** ** Snapshot versions *)

Definition INT64_MAX : Z := 9223372036854775807.

(** [/^[1-9][0-9]{0,18}$/] and at most [INT64_MAX]; the text itself is kept. *)
Definition version_text (s : string) : bool :=
  match s with
  | String c _ => (c != "0"%char) && all_chars is_digit s && (strlen s <=? 19)
                  && (coalesce (decimal_value 0 s) 0 <=? INT64_MAX)
  | "" => false
  end.

Definition parseInventorySnapshotVersion (value : option json) : option string :=
  match value with Some (JString s) => if version_text s then Some s else None | _ => None end.

(** [BigInt] of a version. *)
Definition version_number (s : string) : Z := coalesce (decimal_value 0 s) 0.

Definition inventoryVersionAllowsPage (version : option string) (retainedVersion : string) (page : Z) : bool :=
  match version with
  | None => retainedVersion == "0"
  | Some v =>
      if negb (version_text v) then false
      else if (retainedVersion != "0") && negb (version_text retainedVersion) then false
      else if page =? 1 then version_number retainedVersion <? version_number v
      else v == retainedVersion
  end.

(** ** Printers *)

(** [String(value)]. *)
Fixpoint js_string (v : json) : string :=
  match v with
  | JNull => "null"
  | JBool true => "true"
  | JBool false => "false"
  | JNumber n => number_text n
  | JString s => s
  | JArray l => String.concat "," (map (λ e, match e with JNull => "" | _ => js_string e end) l)
  | JObject _ => "[object Object]"
  end.

Definition normalize_transport (value : option json) : string :=
  let candidate := match value with Some (JString s) => trim (toLowerCase s) | _ => "" end in
  if candidate == "tcp" then "network" else if candidate == "windows_spooler" then "spooler" else candidate.

Definition normalizeConnectionType (raw legacy : option json) : option string :=
  let canonical := normalize_transport raw in
  let normalizedOld := normalize_transport legacy in
  if (canonical != "") && (normalizedOld != "") && (canonical != normalizedOld) then None
  else let value := if canonical != "" then canonical else normalizedOld in
       if one_of CONNECTION_TYPES value then Some value else None.

Definition normalizeProtocol (raw : option json) : option string :=
  let p := match raw with Some (JString s) => trim (toLowerCase s) | _ => "" end in
  let normalized := if p == "windows_spooler" then "spooler" else p in
  if one_of PRINTER_PROTOCOLS normalized && (normalized != "") then Some normalized else None.

(** [{ ...value }] of an object or an array. *)
Definition spread (v : option json) : option (list (string * json)) :=
  match v with
  | Some (JObject l) => Some l
  | Some (JArray l) => Some (imap (λ i e, (number_text (Z.of_nat i), e)) l)
  | _ => None
  end.

Definition without_key (key : string) (l : list (string * json)) : list (string * json) := filter (λ kv, kv.1 ≠ key) l.

(** [record.key = value]. *)
Definition set_key (key : string) (value : json) (l : list (string * json)) : list (string * json) :=
  if existsb (λ kv, kv.1 == key) l then map (λ kv, if kv.1 == key then (key, value) else kv) l else l ++ [(key, value)].

Definition string_of (v : option json) : option string := match v with Some (JString s) => Some s | _ => None end.

Record sanitized := {
  sz_id : string;
  sz_name : string;
  sz_printerType : string;
  sz_deviceClass : string;
  sz_connectionType : string;
  sz_protocol : string;
  sz_status : string;
  sz_sharedWithGateway : bool;
  sz_config : json;
  sz_capabilities : option json;
}.

(** [supported_protocols] of a copy of the capabilities: the known tokens of a
    list; anything else is refused, because dropping it would widen what the
    device may be sent. *)
Definition sanitize_capabilities (caps : option (list (string * json))) : result (option (list (string * json))) string :=
  match caps with
  | None => Ok None
  | Some l =>
      match json_field (JObject l) "supported_protocols" with
      | None => Ok (Some l)
      | Some (JArray vs) =>
          Ok (Some (set_key "supported_protocols"
            (JArray (map JString (filter (λ t, one_of KNOWN_CAPABILITY_TOKENS t = true)
              (map (λ v, trim (toLowerCase (js_string v))) vs)))) l))
      | Some _ => Err "invalid_supported_protocols"
      end
  end.

(** The printer type and device class; older agents put the class in the type. *)
Definition device_kind (p : json) : string * string :=
  let printerType := match json_field p "printerType" with Some (JString s) => toLowerCase (trim s) | _ => "" end in
  let deviceClass := match json_field p "deviceClass" with Some (JString s) => toLowerCase (trim s) | _ => "unknown" end in
  if negb (one_of PRINTER_TYPES printerType) && one_of DEVICE_CLASSES printerType then ("physical", printerType)
  else (if printerType == "" then "physical" else printerType, deviceClass).

Section inventory.
Context (URL : string → option url) (utf8_length : string → Z) (sha256 : string → string).

(** A USB printer behind a named Windows queue is that queue. *)
Definition canonical_transport (connectionType protocol : string) (config : list (string * json))
    : string * string * list (string * json) :=
  match json_field (JObject config) "spooler_name" with
  | Some (JString s) =>
      if (connectionType == "usb") && (trim s != "") then ("spooler", "spooler", set_key "address" (JString (trim s)) config)
      else (connectionType, protocol, config)
  | _ => (connectionType, protocol, config)
  end.

(** The record [isVirtualPrinterRecord] is asked about. *)
Definition reported_identity (p : json) (name printerType connectionType protocol : string)
    (capabilities : option (list (string * json))) (config : list (string * json)) : PrinterLike := {|
  pv_name := Some name; pv_displayName := string_of (json_field p "displayName"); pv_display_name := None;
  pv_spoolerName := string_of (json_field p "spoolerName"); pv_spooler_name := None;
  pv_endpoint := string_of (json_field p "endpoint"); pv_printerType := Some printerType;
  pv_connectionType := Some connectionType; pv_protocol := Some protocol; pv_port := None; pv_driverName := None;
  pv_capabilities := JObject <$> capabilities; pv_config := Some (JObject config) |}.

Definition complain (prefix : string) (e : option string) : result unit string :=
  match e with Some e => Err (prefix +:+ e) | None => Ok tt end.

Definition or_reason {A} (o : option A) (reason : string) : result A string := match o with Some a => Ok a | None => Err reason end.

(** A non-blank string of at most [max] characters. *)
Definition label (max : Z) (v : option json) : option string :=
  match v with Some (JString s) => if (trim s == "") || (max <? strlen s) then None else Some s | _ => None end.

Definition sanitizePrinter (p : json) : result sanitized string :=
  do* throw_if (match p with JObject _ => false | _ => true end) "invalid_printer" in
  let* id := or_reason (label 120 (json_field p "id")) "invalid_id" in
  let* name := or_reason (label 100 (json_field p "name")) "invalid_name" in
  let* shared := match json_field p "sharedWithGateway" with
                 | None => Ok false
                 | Some (JBool true) => Ok true
                 | Some _ => Err "invalid_shared_with_gateway"
                 end in
  let* connectionType := or_reason (normalizeConnectionType (json_field p "connectionType") (json_field p "type"))
                           "invalid_or_unsupported_connection_type" in
  let '(printerType, deviceClass) := device_kind p in
  do* throw_if (negb (one_of PRINTER_TYPES printerType) || negb (one_of DEVICE_CLASSES deviceClass))
    "invalid_device_class_or_printer_type" in
  let* protocol := or_reason (normalizeProtocol (nullish (json_field p "protocol") (prop (json_field p "config") "protocol")))
                     "invalid_or_unsupported_protocol" in
  let '(connectionType, protocol, config) :=
    canonical_transport connectionType protocol (without_key "protocol" (coalesce (spread (json_field p "config")) [])) in
  let* capabilities := sanitize_capabilities (spread (json_field p "capabilities")) in
  do* throw_if (isVirtualPrinterRecord (Some (reported_identity p name printerType connectionType protocol capabilities config)))
    "virtual_or_software_printer" in
  let status := match json_field p "status" with
                | Some (JString s) => if one_of VALID_PRINTER_STATUSES (toLowerCase (trim s)) then toLowerCase (trim s) else "unknown"
                | _ => "unknown"
                end in
  do* throw_if (PRINTER_CONFIG_MAX_BYTES <? utf8_length (stringify (JObject config))) "config_payload_too_large" in
  do* throw_if match capabilities with
               | Some c => PRINTER_CAPABILITIES_MAX_BYTES <? utf8_length (stringify (JObject c))
               | None => false
               end "capabilities_payload_too_large" in
  do* complain "invalid_connection_config: " (validateConnectionConfig URL connectionType (JObject config) protocol) in
  do* complain "invalid_transport_protocol: " (validatePrinterTransportProtocol connectionType protocol) in
  Ok {| sz_id := trim id; sz_name := trim name; sz_printerType := printerType; sz_deviceClass := deviceClass;
        sz_connectionType := connectionType; sz_protocol := protocol; sz_status := status;
        sz_sharedWithGateway := shared; sz_config := JObject config; sz_capabilities := JObject <$> capabilities |}.

(** The identity of a printer whose local id belongs to another agent. *)
Definition aliasPrinterIdForAgent (localId agentId : string) : string :=
  localId +:+ "~" +:+ slice0 8 (sha256 ("printer-alias:" +:+ agentId +:+ ":" +:+ localId)).

(** ** The body *)

Record heartbeat := {
  hb_status : string;
  hb_page : Z;
  hb_pageCount : Z;
  hb_snapshotId : string;
  hb_complete : bool;
  hb_version : option string;
  hb_paging : bool;
  hb_printers : list json;
  hb_privateIds : list string;
  hb_gatewayOwned : list string;
  hb_tokened : list (string * string);
  hb_acks : list json;
}.

Definition isFinalHeartbeatPage (h : heartbeat) : bool := hb_page h =? hb_pageCount h.
Definition snapshotEnabled (h : heartbeat) : bool := hb_snapshotId h != "".

Definition page_number (paginated : bool) (v : option json) : Z :=
  if paginated then match v with Some (JNumber n) => if isSafeInteger n then n else -1 | _ => -1 end else 1.

(** [/^[A-Za-z0-9._:-]+$/], at most 128. *)
Definition safe_token (s : string) : bool :=
  (s != "") && (strlen s <=? 128) &&
  all_chars (λ c, is_digit c || ((97 <=? Z.of_nat (nat_of_ascii (ascii_lower c))) && (Z.of_nat (nat_of_ascii (ascii_lower c)) <=? 122))
                  || one_of ["."; "_"; ":"; "-"] (String c "")) s.

Definition optional_flag (v : option json) : option bool :=
  match v with None => Some false | Some (JBool b) => Some b | Some _ => None end.

Definition elements (v : option json) : list json := match v with Some (JArray l) => l | _ => [] end.

(** The entries of [keepAliveJobIds] until 64 have been taken. *)
Definition keep_alive_entry (entry : json) : option (string * option string) :=
  let fits (s : string) := (0 <? strlen s) && (strlen s <=? 120) in
  match entry with
  | JString s => if fits s then Some (s, None) else None
  | JObject _ | JArray _ =>
      let jobId := match json_field entry "jobId" with
                   | Some (JString s) => s
                   | _ => match json_field entry "id" with Some (JString s) => s | _ => "" end
                   end in
      let claimToken := match json_field entry "claimToken" with
                        | Some (JString s) => if fits s then Some s else None
                        | _ => None
                        end in
      if fits jobId then Some (jobId, claimToken) else None
  | _ => None
  end.

Definition keep_alive_pairs (l : list json) : list (string * option string) :=
  take MAX_KEEP_ALIVE_JOB_IDS (omap keep_alive_entry l).

Definition tokened_pairs (l : list (string * option string)) : list (string * string) :=
  omap (λ p : string * option string, match p.2 with Some t => Some (p.1, t) | None => None end) l.

Definition parse_private_ids (v : option json) : result (list string) string :=
  match v with
  | None => Ok []
  | Some (JArray l) =>
      if 500 <? Z.of_nat (length l) then Err "privatePrinterIds must be an array of at most 500 printer IDs"
      else or_reason (mapM (λ v, trim <$> label 120 (Some v)) l)
             "privatePrinterIds must contain non-empty printer IDs up to 120 characters"
  | Some _ => Err "privatePrinterIds must be an array of at most 500 printer IDs"
  end.

(** What a heartbeat says, or why it is refused with 400. *)
Definition parse_heartbeat (body : json) : result heartbeat string :=
  let f := json_field body in
  let status := match f "status" with Some (JString s) => toLowerCase (trim s) | _ => "online" end in
  do* throw_if (negb (one_of VALID_AGENT_STATUSES status)) "status must be online or offline" in
  let paginated := is_some (f "heartbeatPage") || is_some (f "heartbeatPageCount") in
  let page := page_number paginated (f "heartbeatPage") in
  let pageCount := page_number paginated (f "heartbeatPageCount") in
  do* throw_if ((page <? 1) || (pageCount <? 1) || (pageCount <? page))
    "heartbeatPage and heartbeatPageCount must be positive integers with heartbeatPage <= heartbeatPageCount" in
  let snapshotId := match f "inventorySnapshotId" with Some (JString s) => trim s | _ => "" end in
  do* throw_if (is_some (f "inventorySnapshotId") && negb (safe_token snapshotId))
    "inventorySnapshotId must be a non-empty safe token up to 128 characters" in
  let* complete := or_reason (optional_flag (f "inventoryComplete")) "inventoryComplete must be boolean" in
  do* throw_if (complete && (snapshotId == "")) "inventoryComplete requires inventorySnapshotId" in
  let version := parseInventorySnapshotVersion (f "inventorySnapshotVersion") in
  do* throw_if (is_some (f "inventorySnapshotVersion") && (is_none version || (snapshotId == "")))
    "inventorySnapshotVersion requires inventorySnapshotId and a positive int64 decimal string" in
  let* paging := or_reason (optional_flag (f "desiredStatePaging")) "desiredStatePaging must be boolean" in
  let printers := elements (f "printers") in
  do* throw_if (500 <? Z.of_nat (length printers)) "too many printers in heartbeat page" in
  do* throw_if (256000 <? utf8_length (stringify (JArray printers))) "heartbeat printer metadata page exceeds 256KB" in
  do* throw_if ((is_some (f "privatePrinterIds") || existsb (λ p, is_some (json_field p "sharedWithGateway")) printers)
                && (negb paginated || (snapshotId == "") || is_none version))
    "Printer sharing controls require a versioned paginated inventory snapshot" in
  let* privateIds := parse_private_ids (f "privatePrinterIds") in
  do* throw_if (500 <? Z.of_nat (length (elements (f "gatewayOwnedPrinterIds"))))
    "too many Gateway-owned printer IDs in heartbeat" in
  Ok {| hb_status := status; hb_page := page; hb_pageCount := pageCount; hb_snapshotId := snapshotId;
        hb_complete := complete; hb_version := version; hb_paging := paging; hb_printers := printers;
        hb_privateIds := privateIds;
        hb_gatewayOwned := omap (λ v, trim <$> label 120 (Some v)) (elements (f "gatewayOwnedPrinterIds"));
        hb_tokened := tokened_pairs (keep_alive_pairs (elements (f "keepAliveJobIds")));
        hb_acks := take 500 (elements (f "desiredStateAcks")) |}.

(** ** What is accepted *)

(** A heartbeat that was read: pages are in order, a version comes with a
    snapshot id, and sharing is only said in a versioned snapshot. *)
Record heartbeat_wf (h : heartbeat) : Prop := {
  hw_page : 1 ≤ hb_page h ≤ hb_pageCount h;
  hw_status : hb_status h ∈ VALID_AGENT_STATUSES;
  hw_version : ∀ v, hb_version h = Some v → version_text v = true ∧ snapshotEnabled h = true;
  hw_complete : hb_complete h = true → snapshotEnabled h = true;
  hw_private : hb_privateIds h ≠ [] → is_some (hb_version h) = true;
  hw_shared : ∀ p, p ∈ hb_printers h → is_some (json_field p "sharedWithGateway") = true → is_some (hb_version h) = true;
  hw_tokened : (length (hb_tokened h) ≤ MAX_KEEP_ALIVE_JOB_IDS)%nat;
  hw_sizes : (length (hb_printers h) ≤ 500)%nat ∧ (length (hb_privateIds h) ≤ 500)%nat ∧ (length (hb_acks h) ≤ 500)%nat;
}.

Lemma or_reason_Ok {A} (o : option A) e a : or_reason o e = Ok a → o = Some a.
Proof. destruct o; [by intros [= ->]|done]. Qed.

Lemma length_omap_le {A B} (f : A → option B) l : (length (omap f l) ≤ length l)%nat.
Proof. induction l as [|x l IH]; [done|]. csimpl. destruct (f x); simpl; lia. Qed.

Lemma parse_private_length v l : parse_private_ids v = Ok l → (length l ≤ 500)%nat ∧ (l ≠ [] → is_some v = true).
Proof.
  unfold parse_private_ids. destruct v as [[| | | |vs|]|]; try done; [|intros [= <-]; simpl; split; [lia|done]].
  destruct (500 <? _) eqn:E; [done|]. intros H%or_reason_Ok. apply length_mapM in H. apply Z.ltb_ge in E. split; [lia|done].
Qed.

Lemma version_parsed v s : parseInventorySnapshotVersion v = Some s → version_text s = true ∧ is_some v = true.
Proof. unfold parseInventorySnapshotVersion. destruct v as [[| | |t| |]|]; try done. destruct (version_text t) eqn:E; [|done]. by intros [= <-]. Qed.

Lemma parse_heartbeat_wf body h : parse_heartbeat body = Ok h → heartbeat_wf h.
Proof.
  unfold parse_heartbeat. generalize (json_field body) as f. intros f H. rinv. subst h.
  repeat match goal with G : or_reason _ _ = Ok _ |- _ => apply or_reason_Ok in G end.
  assert (is_some (f "privatePrinterIds") || existsb (λ p, is_some (json_field p "sharedWithGateway")) (elements (f "printers")) = true →
    is_some (parseInventorySnapshotVersion (f "inventorySnapshotVersion")) = true) as Hshare.
  { intros E. rewrite E in Hr8. simpl in Hr8. apply orb_false_iff in Hr8 as [_ Hr8]. by apply negb_false_iff in Hr8. }
  split; simpl.
  - lia.
  - apply negb_false_iff in Hr. by apply one_of_true in Hr.
  - intros v Hv. destruct (version_parsed _ _ Hv) as [Ht Hs]. split; [done|]. rewrite Hs in Hr4. simpl in Hr4.
    apply orb_false_iff in Hr4 as [_ Hr4]. unfold snapshotEnabled. simpl. by rewrite Hr4.
  - intros ->. unfold snapshotEnabled. simpl in *. by rewrite Hr3.
  - intros Hne. apply parse_private_length in Hr9 as [_ Hr9]. apply Hshare. by rewrite Hr9.
  - intros p Hp Hs. apply Hshare. apply orb_true_iff. right. apply existsb_exists. exists p. split; [by apply list_elem_of_In|done].
  - unfold tokened_pairs, keep_alive_pairs. etrans; [apply length_omap_le|]. rewrite length_take. lia.
  - apply parse_private_length in Hr9 as [? _]. rewrite length_take. split_and!; lia.
Qed.

Lemma label_Some max v s : label max v = Some s → trim s ≠ "" ∧ strlen s ≤ max.
Proof.
  unfold label. destruct v as [[| | |t| |]|]; try done. destruct (_ || _) eqn:E; [done|]. intros [= <-].
  apply orb_false_iff in E as [E1 E2]. apply bool_decide_eq_false in E1. split; [done|lia].
Qed.

Lemma trim_length s : strlen (trim s) ≤ strlen s.
Proof.
  assert (∀ t, strlen (trim_start t) ≤ strlen t) as H1.
  { unfold strlen. induction t as [|c t IH]; [done|]. cbn [trim_start]. destruct (is_js_space c); cbn [String.length] in *; lia. }
  assert (∀ t, strlen (trim_end t) ≤ strlen t) as H2.
  { unfold strlen. induction t as [|c t IH]; [done|]. cbn [trim_end]. destruct (trim_end t); [destruct (is_js_space c)|];
      cbn [String.length] in *; lia. }
  unfold trim. etrans; [apply H2|apply H1].
Qed.

(** What is stored of a reported printer. *)
Record sanitized_ok (s : sanitized) : Prop := {
  so_id : 1 ≤ strlen (sz_id s) ≤ 120;
  so_config : well_configured URL utf8_length (sz_name s) (sz_printerType s) (sz_deviceClass s) (sz_connectionType s)
    (sz_protocol s) (sz_config s) (sz_capabilities s);
  so_status : sz_status s ∈ VALID_PRINTER_STATUSES;
}.

Lemma canonical_types connectionType protocol config :
  connectionType ∈ CONNECTION_TYPES → protocol ∈ PRINTER_PROTOCOLS →
  (canonical_transport connectionType protocol config).1.1 ∈ CONNECTION_TYPES ∧
  (canonical_transport connectionType protocol config).1.2 ∈ PRINTER_PROTOCOLS.
Proof.
  intros Hc Hp. unfold canonical_transport. destruct (json_field _ _) as [[| | |t| |]|]; try done. destruct (_ && _); [|done].
  split; by apply (bool_decide_unpack _).
Qed.

Lemma sanitize_sound p s : sanitizePrinter p = Ok s → sanitized_ok s.
Proof.
  unfold sanitizePrinter. intros H. rinv.
  destruct (device_kind p) as [printerType deviceClass] eqn:Hk. rinv.
  destruct (canonical_transport _ _ _) as [[connectionType protocol] config] eqn:Hc. rinv. subst s.
  repeat match goal with G : or_reason _ _ = Ok _ |- _ => apply or_reason_Ok in G end.
  destruct (validateConnectionConfig _ _ _ _) eqn:Ev; [done|]. destruct (validatePrinterTransportProtocol _ _) eqn:Et; [done|].
  apply label_Some in Hr0 as [Hi1 Hi2], Hr1 as [Hn1 Hn2]. pose proof (trim_length r0). pose proof (trim_length r1).
  pose proof (strlen_pos _ Hi1). pose proof (strlen_pos _ Hn1).
  apply orb_false_iff in Hr4 as [Ht%negb_false_iff Hd%negb_false_iff]. apply one_of_true in Ht, Hd.
  assert (r3 ∈ CONNECTION_TYPES) as H3.
  { unfold normalizeConnectionType in Hr3. destruct (_ && _); [done|]. destruct (one_of CONNECTION_TYPES _) eqn:E; [|done].
    apply one_of_true in E. congruence. }
  assert (r5 ∈ PRINTER_PROTOCOLS) as H5.
  { unfold normalizeProtocol in Hr5. destruct (_ && _) eqn:E in Hr5; [|done]. apply andb_true_iff in E as [E _].
    apply one_of_true in E. congruence. }
  destruct (canonical_types _ _ (without_key "protocol" (coalesce (spread (json_field p "config")) [])) H3 H5) as [Hc1 Hc2].
  rewrite Hc in Hc1, Hc2. simpl in Hc1, Hc2.
  split; simpl; [lia| |].
  - split; [lia|done..|by apply transport_sound|by apply config_sound|lia|].
    intros c Hcap. destruct r6 as [l|]; [|done]. simpl in Hcap. injection Hcap as <-. lia.
  - destruct (json_field p "status") as [[| | |t| |]|]; try by apply (bool_decide_unpack _).
    destruct (one_of VALID_PRINTER_STATUSES (toLowerCase (trim t))) eqn:E; [by apply one_of_true in E|by apply (bool_decide_unpack _)].
Qed.

Lemma sanitize_object p s : sanitizePrinter p = Ok s → ∃ config, sz_config s = JObject config.
Proof.
  unfold sanitizePrinter. intros H. rinv. destruct (device_kind p). rinv. destruct (canonical_transport _ _ _) as [[] config]. rinv. subst s.
  by exists config.
Qed.

Lemma sanitize_shared p s : sanitizePrinter p = Ok s → sz_sharedWithGateway s = true →
  json_field p "sharedWithGateway" = Some (JBool true).
Proof.
  unfold sanitizePrinter. intros H. rinv. destruct (device_kind p). rinv. destruct (canonical_transport _ _ _) as [[] ?]. rinv. subst s.
  simpl. intros ->. by destruct (json_field p "sharedWithGateway") as [[| [] | | | |]|].
Qed.

End inventory.
