(* ===== verification/Samples.v ===== *)
(** * A small concrete gateway

    One tenant on a live plan with one agent, one shared spooler printer and
    the jobs given to [gateway_db]; the witnesses of the theorems evaluate on
    it. *)

From S2P Require Import Prelude DatabaseTime JobStatus Json Schema Capability Entitlements.

Definition sample_tenant : tenant := {|
  tn_lifecycle := "active"; tn_suspendedAt := None; tn_deletedAt := None;
  tn_lifecycleReason := None; tn_updatedAt := 0 |}.

Definition sample_agent : agent := {|
  ag_tenantId := "t1"; ag_name := "counter"; ag_pairingCodeHash := None;
  ag_pairingCodeExpiresAt := None; ag_secret := Some "s"; ag_status := "online";
  ag_lifecycle := "active"; ag_lifecycleRevision := 0; ag_snapshot := no_snapshot; ag_metadata := None; ag_lastSeenAt := Some 1000;
  ag_updatedAt := 0 |}.

Definition sample_job : print_job := {|
  pj_tenantId := "t1"; pj_apiKeyId := None; pj_destination := None;
  pj_documentType := Some "invoice"; pj_agentId := "a1"; pj_printerId := "p1";
  pj_status := queued; pj_payload := JObject [("type", JString "pdf"); ("data", JString "QQ==")];
  pj_error := None; pj_requestedBy := None; pj_requestId := None; pj_idempotencyKey := Some "k1";
  pj_retries := 0; pj_claimedAt := None; pj_claimToken := None; pj_closedClaimTokenHash := None;
  pj_deliveryAttempts := 0; pj_deliveredAt := None; pj_ackedAt := None; pj_expiresAt := 600000;
  pj_createdAt := 1000; pj_updatedAt := 1000; pj_spoolerJobId := None; pj_attemptId := None |}.

(** The job while an agent holds it under token [t]. *)
Definition claimed_job (t : string) : print_job :=
  sample_job |> set_status claimed |> set_claimToken (Some t) |> set_claimedAt (Some 1000)
             |> set_deliveryAttempts 1.

Definition gateway_db (jobs : gmap string print_job) : db := {|
  tenants := {["t1" := sample_tenant]}; agents := {["a1" := sample_agent]};
  printers := {[("t1", "p1") := sample_printer]}; api_keys := ∅; print_jobs := jobs;
  receipts := ∅; plans := {["basic" := sample_plan 3]};
  subscriptions := {["t1" := sample_subscription]}; usage_periods := ∅; job_notices := [] |}.

Lemma gateway_db_checks jobs k p : printers (gateway_db jobs) !! k = Some p → printer_check p = true.
Proof.
  simpl. intros [_ <-]%lookup_singleton_Some. vm_compute. reflexivity.
Qed.

(** The database with one job, queued or held under a token. *)
Definition queued_db : db := gateway_db {["j1" := sample_job]}.
Definition held_db (t : string) : db := gateway_db {["j1" := claimed_job t]}.
