(* ===== verification/DesiredState.v ===== *)
(** * DesiredState: the configuration an agent fetches page by page

    [src/lib/desired-state-page.ts] with the cursor of [src/lib/fleet-cursor.ts]
    and the route [src/app/api/agent/desired-state/route.ts]. A page is bounded
    in rows and in bytes; the cursor is the last id it holds. Ids compare byte by
    byte here and by the database's collation there. Base64url is an argument. *)

From Stdlib Require Import Ascii.
From S2P Require Import Prelude DatabaseTime JobStatus Json Schema Samples.

Definition DESIRED_STATE_PAGE_ROWS : nat := 64.
Definition DESIRED_STATE_PAGE_BYTES : Z := 512 * 1024.

(** ** The rows *)

(** The columns an agent sees, in the order they are selected. *)
Definition desired_json (row : string * printer) : json := JObject [
  ("id", JString row.1); ("name", JString (pr_name row.2)); ("printerType", JString (pr_printerType row.2));
  ("deviceClass", JString (pr_deviceClass row.2)); ("connectionType", JString (pr_connectionType row.2));
  ("protocol", JString (pr_protocol row.2)); ("lifecycle", JString (pr_lifecycle row.2));
  ("config", coalesce (pr_config row.2) JNull); ("desiredRevision", JNumber (pr_desiredRevision row.2))].

Definition id_le (a b : string * printer) : Prop := String.le a.1 b.1.
#[export] Instance id_le_dec : RelDecision id_le.
Proof. unfold id_le. intros a b. apply _. Defined.
#[export] Instance id_le_trans : Transitive id_le.
Proof. unfold id_le. intros a b c ? ?. by etrans. Qed.
#[export] Instance id_le_total : Total id_le.
Proof. unfold id_le. intros a b. apply String.le_total. Qed.

(** The printers of the agent that a manager configures. *)
Definition desired_of (d : db) (tenantId agentId : string) : list (string * printer) :=
  omap (λ kp : (string * string) * printer,
    if (kp.1.1 == tenantId) && (pr_agentId kp.2 == agentId) && (pr_managementSource kp.2 == "manager")
    then Some (kp.1.2, kp.2) else None) (map_to_list (printers d)).

(** [id > after]. *)
Definition beyond (after : option string) (row : string * printer) : bool :=
  match after with None => true | Some a => negb (bool_decide (String.le row.1 a)) end.

(** [ORDER BY id ASC], of which those beyond the cursor. *)
Definition desired_rows (d : db) (tenantId agentId : string) (after : option string) : list (string * printer) :=
  filter (λ row, beyond after row = true) (merge_sort id_le (desired_of d tenantId agentId)).

(** ** The cursor *)

Inductive page_error : Type := InvalidCursor | OversizedRow.

Section desired.
Context (utf8_length : string → Z) (encode decode : string → string).

Definition cursor_char (c : ascii) : bool :=
  let n := Z.of_nat (nat_of_ascii (ascii_lower c)) in
  is_digit c || ((97 <=? n) && (n <=? 122)) || (c == "_"%char) || (c == "-"%char).

(** [/^[A-Za-z0-9_-]{1,2732}$/]. *)
Definition cursor_shape (s : string) : bool := (1 <=? strlen s) && (strlen s <=? 2732) && all_chars cursor_char s.

Definition readFleetCursorId (raw encoded : option string) : result (option string) page_error :=
  let* id := match encoded with
             | None => Ok raw
             | Some e =>
                 do* throw_if (negb (cursor_shape e)) InvalidCursor in
                 let decoded := decode e in
                 do* throw_if (encode decoded != e) InvalidCursor in
                 do* throw_if (is_some raw && (raw != Some decoded)) InvalidCursor in
                 Ok (Some decoded)
             end in
  match id with
  | Some s => do* throw_if ((strlen s <? 1) || (512 <? strlen s)) InvalidCursor in Ok (Some s)
  | None => Ok None
  end.

(** [/^[\x21-\x7e]+$/]. *)
Definition header_text (s : string) : bool :=
  (s != "") && all_chars (λ c, (33 <=? Z.of_nat (nat_of_ascii c)) && (Z.of_nat (nat_of_ascii c) <=? 126)) s.

Definition fleetCursorIdHeaders (id : string) : list (string * string) :=
  ("X-Next-Before-Id-Encoded", encode id) :: (if header_text id then [("X-Next-Before-Id", id)] else []).

(** ** The page *)

Definition row_bytes (row : string * printer) : Z := utf8_length (stringify (desired_json row)).

(** The loop over the rows: what is kept, last first, and the bytes so far. *)
Fixpoint fill_page (rows items : list (string * printer)) (bytes : Z) : result (list (string * printer)) page_error :=
  match rows with
  | [] => Ok items
  | row :: rows =>
      let size := row_bytes row + (if bool_decide (items = []) then 0 else 1) in
      if DESIRED_STATE_PAGE_BYTES <? bytes + size
      then (if bool_decide (items = []) then Err OversizedRow else Ok items)
      else fill_page rows (row :: items) (bytes + size)
  end.

Definition getDesiredPrinterPage (d : db) (tenantId agentId : string) (cursor : option string)
    : result (list (string * printer) * option string) page_error :=
  let* after := match cursor with None => Ok None | Some c => readFleetCursorId None (Some c) end in
  let rows := take (S DESIRED_STATE_PAGE_ROWS) (desired_rows d tenantId agentId after) in
  let* items := fill_page (take DESIRED_STATE_PAGE_ROWS rows) [] 2 in
  Ok (reverse items,
      match items with
      | lst :: _ => if (length items <? length rows)%nat then Some (encode lst.1) else None
      | [] => None
      end).

(** The status and the page of the route. *)
Definition GET_desired_state (d : db) (agent : option (string * string)) (cursor : option string)
    : Z * option (list (string * printer) * option string) :=
  match agent with
  | None => (401, None)
  | Some (tenantId, agentId) =>
      match getDesiredPrinterPage d tenantId agentId cursor with
      | Ok page => (200, Some page)
      | Err InvalidCursor => (400, None)
      | Err OversizedRow => (503, None)
      end
  end.

(** ** Following the cursor *)

Fixpoint all_pages (fuel : nat) (d : db) (tenantId agentId : string) (cursor : option string)
    : result (list (list (string * printer))) page_error :=
  match fuel with
  | O => Ok []
  | S fuel =>
      let* page := getDesiredPrinterPage d tenantId agentId cursor in
      match page.2 with
      | None => Ok [page.1]
      | Some c => let* rest := all_pages fuel d tenantId agentId (Some c) in Ok (page.1 :: rest)
      end
  end.

(** ** Pages are complete *)

(** The bytes of a page: brackets, rows and commas. *)
Definition page_bytes (items : list (string * printer)) : Z :=
  2 + foldr (λ row n, row_bytes row + n) 0 items + Z.max 0 (Z.of_nat (length items) - 1).

Lemma page_bytes_cons row items :
  page_bytes (row :: items) = page_bytes items + row_bytes row + (if bool_decide (items = []) then 0 else 1).
Proof. unfold page_bytes. destruct items as [|x items]; simpl; [lia|]. lia. Qed.

Lemma fill_page_prefix rows items bytes items' : bytes = page_bytes items → page_bytes items ≤ DESIRED_STATE_PAGE_BYTES →
  fill_page rows items bytes = Ok items' →
  ∃ k, (k ≤ length rows)%nat ∧ items' = reverse (take k rows) ++ items ∧ page_bytes items' ≤ DESIRED_STATE_PAGE_BYTES ∧
    (items = [] → rows ≠ [] → (1 ≤ k)%nat).
Proof.
  revert items bytes. induction rows as [|row rows IH]; intros items bytes -> Hle; cbn [fill_page].
  - intros [= <-]. exists 0%nat. by split_and!.
  - rewrite Z.add_assoc, <-page_bytes_cons. destruct (_ <? _) eqn:E.
    + case_bool_decide as Hi; [done|]. intros [= <-]. exists 0%nat. split_and!; [lia|done|done|done].
    + intros H. apply Z.ltb_ge in E. destruct (IH _ _ eq_refl E H) as (k & Hk & -> & Hb & _). exists (S k). split_and!.
      * simpl. lia.
      * rewrite firstn_cons, reverse_cons, <-app_assoc. done.
      * done.
      * lia.
Qed.

Lemma fill_page_total rows items bytes :
  items ≠ [] ∨ (bytes = 2 ∧ ∀ row, row ∈ rows → 2 + row_bytes row ≤ DESIRED_STATE_PAGE_BYTES) →
  ∃ items', fill_page rows items bytes = Ok items'.
Proof.
  revert items bytes. induction rows as [|row rows IH]; intros items bytes H; cbn [fill_page]; [eauto|].
  destruct (_ <? _) eqn:E; [|by apply IH; left]. case_bool_decide as Hi; [|eauto]. destruct H as [H|[-> H]]; [done|].
  specialize (H row ltac:(left)). lia.
Qed.

Lemma desired_of_elem d tenantId agentId id p :
  (id, p) ∈ desired_of d tenantId agentId ↔
  printers d !! (tenantId, id) = Some p ∧ pr_agentId p = agentId ∧ pr_managementSource p = "manager".
Proof.
  unfold desired_of. rewrite list_elem_of_omap. split.
  - intros ([[t i] q] & Hin & H). apply elem_of_map_to_list in Hin. simpl in *. destruct (_ && _) eqn:E; [|done].
    injection H as <- <-. bools. by subst.
  - intros (Hp & Ha & Hm). exists ((tenantId, id), p). split; [by apply elem_of_map_to_list|]. simpl.
    by rewrite !bool_decide_true.
Qed.

Lemma desired_of_ids d tenantId agentId : NoDup (desired_of d tenantId agentId).*1.
Proof.
  unfold desired_of. pose proof (NoDup_fst_map_to_list (printers d)) as H. revert H.
  generalize (map_to_list (printers d)) as l. induction l as [|[[t i] q] l IH]; [constructor|]. rewrite fmap_cons, NoDup_cons.
  intros [Hni Hl]. csimpl. destruct (_ && _) eqn:E; [|by apply IH]. csimpl. apply NoDup_cons. split; [|by apply IH].
  intros Hin. apply list_elem_of_fmap in Hin as ([i' q'] & Hi & Hin). simpl in Hi. subst i'.
  apply list_elem_of_omap in Hin as ([[t' i2] q2] & Hin & H). simpl in H. destruct (_ && _) eqn:E2 in H; [|done]. simplify_eq.
  bools. subst. apply Hni. apply list_elem_of_fmap. by exists ((tenantId, i), q').
Qed.

Abbreviation sorted_rows d tenantId agentId := (merge_sort id_le (desired_of d tenantId agentId)).

Lemma filter_split (f : string * printer → bool) pre post :
  (∀ x, x ∈ pre → f x = false) → (∀ x, x ∈ post → f x = true) → filter (λ x, f x = true) (pre ++ post) = post.
Proof.
  intros Hpre Hpost. rewrite filter_app.
  assert (filter (λ x, f x = true) pre = []) as ->.
  { induction pre as [|x pre IH]; [done|]. rewrite filter_cons_False by (rewrite Hpre; [done|left]). apply IH. intros y Hy. apply Hpre. by right. }
  simpl. induction post as [|x post IH]; [done|]. rewrite filter_cons_True by (apply Hpost; left). f_equal. apply IH.
  intros y Hy. apply Hpost. by right.
Qed.

(** What is beyond the last id of a prefix is the rest. *)
Lemma beyond_suffix pre row post : StronglySorted id_le (pre ++ row :: post) → NoDup (pre ++ row :: post).*1 →
  filter (λ r, beyond (Some row.1) r = true) (pre ++ row :: post) = post.
Proof.
  intros Hs Hn. change (row :: post) with ([row] ++ post) in *. rewrite app_assoc in *. apply filter_split; intros x Hx; unfold beyond.
  - apply negb_false_iff, bool_decide_eq_true. apply elem_of_app in Hx as [Hx|Hx%list_elem_of_singleton]; [|by subst].
    apply StronglySorted_app_1_l in Hs. apply (StronglySorted_app_1_elem_of id_le pre [row] x row Hs Hx). left.
  - apply negb_true_iff, bool_decide_eq_false. intros Hle. assert (row ∈ pre ++ [row]) as Hrow by (apply elem_of_app; right; left).
    pose proof (StronglySorted_app_1_elem_of id_le _ _ _ _ Hs Hrow Hx) as Hge. unfold id_le in Hge.
    rewrite fmap_app, NoDup_app in Hn. destruct Hn as (_ & Hn & _). apply (Hn row.1); [by apply list_elem_of_fmap_2|].
    rewrite (anti_symm String.le row.1 x.1 Hge Hle). by apply list_elem_of_fmap_2.
Qed.

(** A cursor that was handed out reads back as the id it stands for. *)
Context (Hcodec : ∀ s, decode (encode s) = s).
Context (Hshape : ∀ s, 1 ≤ strlen s ≤ 512 → cursor_shape (encode s) = true).

Lemma cursor_roundtrip s : 1 ≤ strlen s ≤ 512 → readFleetCursorId None (Some (encode s)) = Ok (Some s).
Proof.
  intros Hs. unfold readFleetCursorId. rewrite Hshape, Hcodec, bool_decide_true by done. simpl.
  replace ((strlen s <? 1) || (512 <? strlen s)) with false by lia. done.
Qed.

(** Both headers name the row they were made from, together or alone. *)
Lemma headers_roundtrip s raw : 1 ≤ strlen s ≤ 512 → raw = None ∨ (("X-Next-Before-Id", s) ∈ fleetCursorIdHeaders s ∧ raw = Some s) →
  readFleetCursorId raw (Some (encode s)) = Ok (Some s).
Proof.
  intros Hs [->|[_ ->]]; [by apply cursor_roundtrip|]. unfold readFleetCursorId.
  rewrite Hshape, Hcodec, !bool_decide_true by done. simpl. replace ((strlen s <? 1) || (512 <? strlen s)) with false by lia. done.
Qed.

(** The rows that are left, and the cursor that asks for them. *)
Definition asks_for (d : db) (tenantId agentId : string) (cursor : option string) (rest : list (string * printer)) : Prop :=
  ∃ pre, sorted_rows d tenantId agentId = pre ++ rest ∧
    match cursor with None => pre = [] | Some c => ∃ pre' row, pre = pre' ++ [row] ∧ c = encode row.1 end.

Lemma asked_rows d tenantId agentId cursor rest :
  (∀ id p, (id, p) ∈ desired_of d tenantId agentId → 1 ≤ strlen id ≤ 512) → asks_for d tenantId agentId cursor rest →
  ∃ after, match cursor with None => Ok None | Some c => readFleetCursorId None (Some c) end = Ok after ∧
    desired_rows d tenantId agentId after = rest.
Proof.
  intros Hids (pre & Hall & Hc). unfold desired_rows. rewrite Hall. destruct cursor as [c|].
  - destruct Hc as (pre' & [id p] & -> & ->). exists (Some id). assert (sorted_rows d tenantId agentId ≡ₚ desired_of d tenantId agentId) as Hp
      by apply merge_sort_Permutation. split.
    + apply cursor_roundtrip, (Hids id p). rewrite <-Hp, Hall, !elem_of_app. left. right. left.
    + rewrite <-app_assoc in *. apply (beyond_suffix pre' (id, p) rest).
      * change ((id, p) :: rest) with ([(id, p)] ++ rest). rewrite <-Hall. by apply (StronglySorted_merge_sort id_le).
      * change ((id, p) :: rest) with ([(id, p)] ++ rest). rewrite <-Hall, Hp. apply desired_of_ids.
  - exists None. subst pre. split; [done|]. apply (filter_split (beyond None) [] rest); [|done]. intros x []%not_elem_of_nil.
Qed.

(** One page: a bounded, non-empty prefix of what is left, and a cursor exactly
    when something is left after it. *)
Lemma page_step d tenantId agentId cursor rest
    (Hids : ∀ id p, (id, p) ∈ desired_of d tenantId agentId → 1 ≤ strlen id ≤ 512)
    (Hfit : ∀ row, row ∈ desired_of d tenantId agentId → 2 + row_bytes row ≤ DESIRED_STATE_PAGE_BYTES) :
  asks_for d tenantId agentId cursor rest →
  ∃ k next, getDesiredPrinterPage d tenantId agentId cursor = Ok (take k rest, next) ∧
    (length (take k rest) ≤ DESIRED_STATE_PAGE_ROWS)%nat ∧ page_bytes (reverse (take k rest)) ≤ DESIRED_STATE_PAGE_BYTES ∧
    match next with
    | None => take k rest = rest
    | Some c => (1 ≤ k)%nat ∧ asks_for d tenantId agentId (Some c) (drop k rest) ∧ (k ≤ length rest)%nat
    end.
Proof.
  intros Hask. destruct (asked_rows _ _ _ _ _ Hids Hask) as (after & Hafter & Hrows). unfold getDesiredPrinterPage.
  rewrite Hafter. cbn [rbind]. rewrite Hrows. rewrite take_take, Nat.min_l by lia.
  destruct (fill_page_total (take DESIRED_STATE_PAGE_ROWS rest) [] 2) as [items Hi].
  { right. split; [done|]. intros row Hrow. apply Hfit. apply elem_of_take in Hrow as (? & Hrow%list_elem_of_lookup_2 & _).
    rewrite <-(merge_sort_Permutation id_le). destruct Hask as (pre & -> & _). apply elem_of_app. by right. }
  rewrite Hi. cbn [rbind]. destruct (fill_page_prefix _ _ _ _ (eq_refl : 2 = page_bytes []) ltac:(done) Hi) as (k & Hk & -> & Hb & Hne).
  rewrite app_nil_r in *. rewrite length_take in Hk. rewrite take_take, Nat.min_l in * by lia.
  exists k. eexists. split; [by rewrite reverse_involutive|]. split; [rewrite length_take; lia|]. split; [done|].
  destruct (reverse (take k rest)) as [|lst l] eqn:E.
  - apply (f_equal length) in E. rewrite length_reverse, length_take in E. destruct rest as [|x rest]; [by rewrite take_nil|].
    exfalso. simpl in E. assert (1 ≤ k)%nat; [apply Hne; [done|done]|]. lia.
  - assert (length (lst :: l) = k) as Hlen by (rewrite <-E, length_reverse, length_take; lia).
    rewrite Hlen, length_take. destruct (k <? _)%nat eqn:El.
    + split_and!; [simpl in Hlen; lia| |lia]. destruct Hask as (pre & Hall & _). exists (pre ++ take k rest). split.
      * by rewrite <-app_assoc, take_drop.
      * exists (pre ++ reverse l), lst. split; [|done]. rewrite <-(reverse_involutive (take k rest)), E, reverse_cons. by rewrite app_assoc.
    + apply Nat.ltb_ge in El. apply take_ge. lia.
Qed.

(** An agent that follows the cursor from the start gets, after at most one
    request per printer and one more, every printer a manager configures for it,
    each once and in order, in pages of at most 64 rows and 512 KiB of JSON; no
    page but the last is without a cursor, and no request fails. The hypotheses
    are that base64url decodes what it encodes, and that ids and single rows fit,
    which the limits on stored printers give. *)
Theorem desired_pages_complete d tenantId agentId
    (Hids : ∀ id p, (id, p) ∈ desired_of d tenantId agentId → 1 ≤ strlen id ≤ 512)
    (Hfit : ∀ row, row ∈ desired_of d tenantId agentId → 2 + row_bytes row ≤ DESIRED_STATE_PAGE_BYTES) :
  ∃ pages, all_pages (S (length (desired_of d tenantId agentId))) d tenantId agentId None = Ok pages ∧
    concat pages ≡ₚ desired_of d tenantId agentId ∧ StronglySorted id_le (concat pages) ∧ NoDup (concat pages).*1 ∧
    Forall (λ page, (length page ≤ DESIRED_STATE_PAGE_ROWS)%nat ∧ page_bytes (reverse page) ≤ DESIRED_STATE_PAGE_BYTES) pages.
Proof.
  assert (∀ n rest cursor, (length rest < n)%nat → asks_for d tenantId agentId cursor rest →
    ∃ pages, all_pages n d tenantId agentId cursor = Ok pages ∧ concat pages = rest ∧
      Forall (λ page, (length page ≤ DESIRED_STATE_PAGE_ROWS)%nat ∧ page_bytes (reverse page) ≤ DESIRED_STATE_PAGE_BYTES) pages) as H.
  { induction n as [|n IH]; intros rest cursor Hn Hask; [lia|].
    destruct (page_step _ _ _ _ _ Hids Hfit Hask) as (k & next & Hp & Hl & Hb & Hnext). cbn [all_pages]. rewrite Hp. cbn [rbind fst snd].
    destruct next as [c|].
    - destruct Hnext as (Hk & Hask' & Hkl). destruct (IH (drop k rest) (Some c)) as (pages & -> & Hc & Hf); [|done|].
      + rewrite length_drop. lia.
      + eexists. split; [done|]. split; [|by constructor]. simpl. by rewrite Hc, take_drop.
    - eexists. split; [done|]. rewrite Hnext in *. split; [simpl; by rewrite app_nil_r|]. by apply Forall_singleton. }
  assert (sorted_rows d tenantId agentId ≡ₚ desired_of d tenantId agentId) as Hperm by apply merge_sort_Permutation.
  destruct (H (S (length (desired_of d tenantId agentId))) (sorted_rows d tenantId agentId) None) as (pages & Hp & Hc & Hf).
  - rewrite Hperm. lia.
  - by exists [].
  - exists pages. rewrite Hc. split_and!; [done|done| | |done]; [by apply (StronglySorted_merge_sort id_le)|].
    rewrite Hperm. apply desired_of_ids.
Qed.
End desired.

(** ** Seventy printers come in two pages

    The cursor is the id in hexadecimal here, which the shape of a cursor admits. *)
Fixpoint hex_encode (s : string) : string :=
  match s with
  | "" => ""
  | String c s => String (hex_digit (nat_of_ascii c / 16)) (String (hex_digit (nat_of_ascii c mod 16)) (hex_encode s))
  end.

Definition hex_nibble (c : ascii) : nat := let n := nat_of_ascii c in if (n <? 58)%nat then (n - 48)%nat else (n - 87)%nat.

Fixpoint hex_decode (s : string) : string :=
  match s with
  | String a (String b s) => String (ascii_of_nat (16 * hex_nibble a + hex_nibble b)) (hex_decode s)
  | _ => ""
  end.

Lemma hex_roundtrip s : hex_decode (hex_encode s) = s.
Proof.
  induction s as [|c s IH]; [done|]. cbn [hex_encode hex_decode]. rewrite IH. f_equal.
  destruct c as [[] [] [] [] [] [] [] []]; reflexivity.
Qed.

Lemma hex_cursor s : 1 ≤ strlen s ≤ 512 → cursor_shape (hex_encode s) = true.
Proof.
  intros Hs. assert (strlen (hex_encode s) = 2 * strlen s) as Hl.
  { clear Hs. unfold strlen. induction s as [|c s IH]; [done|]. cbn [hex_encode String.length]. lia. }
  unfold cursor_shape. rewrite Hl. apply andb_true_iff. split; [lia|]. clear. induction s as [|c s IH]; [done|].
  cbn [hex_encode all_chars]. rewrite IH, andb_true_r. destruct c as [[] [] [] [] [] [] [] []]; reflexivity.
Qed.

Definition managed_printer (name : string) : printer := {|
  pr_agentId := "a1"; pr_name := name; pr_printerType := "physical"; pr_deviceClass := "laser";
  pr_connectionType := "network"; pr_protocol := "raw"; pr_status := "online"; pr_lifecycle := "active";
  pr_managementSource := "manager"; pr_sharedWithGateway := true; pr_sharedWithGatewayVersion := None;
  pr_desiredRevision := 3; pr_appliedDesiredRevision := 2; pr_observedDesiredRevision := 2; pr_observedDeviceClass := None;
  pr_config := Some (JObject [("ip", JString "10.0.0.9"); ("port", JNumber 9100)]); pr_capabilities := None;
  pr_inventoryPresent := true; pr_inventorySnapshotId := None; pr_lastSeenAt := None; pr_updatedAt := 0 |}.

Definition fleet_db : db := with_printers
  (list_to_map (map (λ n, (("t1", "printer_" +:+ number_text n), managed_printer (number_text n))) (seqZ 0 70))) (gateway_db ∅).

Example two_pages :
  match all_pages strlen hex_encode hex_decode 71 fleet_db "t1" "a1" None with
  | Ok pages => map length pages = [64; 6]%nat
  | Err _ => False
  end.
Proof. vm_compute. reflexivity. Qed.

Lemma fleet_fits : Forall (λ row, 1 ≤ strlen row.1 ≤ 512 ∧ 2 + row_bytes strlen row ≤ DESIRED_STATE_PAGE_BYTES)
  (desired_of fleet_db "t1" "a1").
Proof. apply (bool_decide_unpack _). vm_compute. exact I. Qed.

Lemma desired_pages_complete_witness :
  ∃ pages, all_pages strlen hex_encode hex_decode (S (length (desired_of fleet_db "t1" "a1"))) fleet_db "t1" "a1" None = Ok pages ∧
    concat pages ≡ₚ desired_of fleet_db "t1" "a1".
Proof.
  destruct (desired_pages_complete strlen hex_encode hex_decode hex_roundtrip hex_cursor fleet_db "t1" "a1"
    (λ id p Hin, proj1 (proj1 (Forall_forall _ _) fleet_fits (id, p) Hin))
    (λ row Hin, proj2 (proj1 (Forall_forall _ _) fleet_fits row Hin))) as (pages & Hp & Hc & _).
  exists pages. exact (conj Hp Hc).
Defined.
