(* ===== verification/JobProtocol.v ===== *)
(** * The protocol a print job follows

    The contract the pipeline promises for one job, stated without tables,
    clocks or error texts: who may move a job from where to where, under which
    claim, and what that costs. The files that model the code ([JobDelivery],
    [JobMaintenance], [AgentJobs]) show that every statement they issue is a
    step of this protocol ([Pipeline] puts them together); what follows about
    duplicates, budgets and finality is proved here once, on the protocol. *)

From S2P Require Import Prelude DatabaseTime JobStatus Json Schema.

(** ** Budgets and evidence *)

Definition MAX_RETRIES : Z := 5.
Definition MAX_DELIVERY_ATTEMPTS : Z := 5.
Definition DELIVERY_EVIDENCE_PENDING : string := "DELIVERY_EVIDENCE_PENDING".

(** Nothing says the job left the gateway. *)
Definition no_delivery_evidence (j : print_job) : bool :=
  is_none (pj_deliveredAt j) && is_none (pj_ackedAt j) &&
  (coalesce (pj_error j) "" != DELIVERY_EVIDENCE_PENDING).

#[global] Arguments no_delivery_evidence _ : simpl never.

Definition within_budgets (j : print_job) : bool :=
  (pj_retries j <? MAX_RETRIES) && (pj_deliveryAttempts j <? MAX_DELIVERY_ATTEMPTS).

(** ** States *)

Inductive phase : Type :=
| Waiting                                   (* queued *)
| Held (claim : option string) (evidence : bool)  (* claimed; did anything leave the gateway? *)
| Printing (claim : option string)          (* admitted to the printer *)
| Done (outcome : JobStatus) (fence : option string). (* terminal; token kept for late reports *)

Record protocol_state := { ph : phase; attempts : Z; handbacks : Z }.

(** Who moves a job: an agent presenting a token, the gateway's own sender, or
    the maintenance sweep. *)
Inductive actor : Type :=
| Agent (token : option string)
| Sender
| Sweeper.

Inductive event : Type :=
| EClaim | EReclaim | EEvidence | EAdmit | ERelease | ERequeue | EHandback | ERecover
| EClose | EReconcile | EForget.

#[export] Instance event_eq_dec : EqDecision event.
Proof. solve_decision. Defined.

Definition terminal_phase (p : phase) : Prop := ∃ o f, p = Done o f.

(** An agent may close only the attempt it presents. *)
Definition may_close (by_ : actor) (claim : option string) : Prop :=
  match by_ with Agent t => t = claim | Sender | Sweeper => True end.

Inductive protocol_step : event → actor → protocol_state → protocol_state → Prop :=
| ps_claim t ev d r :
    d < MAX_DELIVERY_ATTEMPTS → r < MAX_RETRIES →
    protocol_step EClaim Sender {| ph := Waiting; attempts := d; handbacks := r |}
      {| ph := Held (Some t) ev; attempts := d + 1; handbacks := r |}
| ps_reclaim c t ev d r :
    d < MAX_DELIVERY_ATTEMPTS → r < MAX_RETRIES →
    protocol_step EReclaim Sender {| ph := Held c false; attempts := d; handbacks := r |}
      {| ph := Held (Some t) ev; attempts := d + 1; handbacks := r + 1 |}
| ps_evidence t ev by_ d r :
    by_ = Sender ∨ by_ = Agent (Some t) →
    protocol_step EEvidence by_ {| ph := Held (Some t) ev; attempts := d; handbacks := r |}
      {| ph := Held (Some t) true; attempts := d; handbacks := r |}
| ps_admit t ev d r :
    protocol_step EAdmit (Agent (Some t)) {| ph := Held (Some t) ev; attempts := d; handbacks := r |}
      {| ph := Printing (Some t); attempts := d; handbacks := r |}
| ps_release c ev d r :
    d < MAX_DELIVERY_ATTEMPTS →
    protocol_step ERelease Sender {| ph := Held c ev; attempts := d; handbacks := r |}
      {| ph := Waiting; attempts := d; handbacks := r |}
| ps_requeue c d r :
    d < MAX_DELIVERY_ATTEMPTS → r < MAX_RETRIES →
    protocol_step ERequeue Sweeper {| ph := Held c false; attempts := d; handbacks := r |}
      {| ph := Waiting; attempts := d; handbacks := r + 1 |}
| ps_handback t ev d r :
    r < MAX_RETRIES →
    protocol_step EHandback (Agent (Some t)) {| ph := Held (Some t) ev; attempts := d; handbacks := r |}
      {| ph := Waiting; attempts := Z.max (d - 1) 0; handbacks := r + 1 |}
| ps_recover t d r :
    r < MAX_RETRIES →
    protocol_step ERecover (Agent (Some t)) {| ph := Printing (Some t); attempts := d; handbacks := r |}
      {| ph := Waiting; attempts := d; handbacks := r + 1 |}
| ps_close_waiting by_ o d r :
    o = failed ∨ o = expired → may_close by_ None →
    protocol_step EClose by_ {| ph := Waiting; attempts := d; handbacks := r |}
      {| ph := Done o None; attempts := d; handbacks := r |}
| ps_close_held by_ c ev o f d r :
    isTerminal o = true → may_close by_ c → f = c ∨ f = None →
    (o = success → f = None ∧ by_ ≠ Sender ∧ by_ ≠ Sweeper ∧ is_Some c) →
    protocol_step EClose by_ {| ph := Held c ev; attempts := d; handbacks := r |}
      {| ph := Done o f; attempts := d; handbacks := r |}
| ps_close_printing by_ c o f d r :
    isTerminal o = true → may_close by_ c → f = c ∨ f = None → by_ ≠ Sender →
    (o = success → f = None ∧ by_ ≠ Sweeper ∧ is_Some c) →
    protocol_step EClose by_ {| ph := Printing c; attempts := d; handbacks := r |}
      {| ph := Done o f; attempts := d; handbacks := r |}
| ps_reconcile t o d r :
    o = failed ∨ o = expired →
    protocol_step EReconcile (Agent (Some t)) {| ph := Done o (Some t); attempts := d; handbacks := r |}
      {| ph := Done success None; attempts := d; handbacks := r |}
| ps_forget o t d r :
    o = failed ∨ o = expired →
    protocol_step EForget Sweeper {| ph := Done o (Some t); attempts := d; handbacks := r |}
      {| ph := Done o None; attempts := d; handbacks := r |}.

(** A history: the events of a job from one moment to another. *)
Inductive history : protocol_state → list (event * actor) → protocol_state → Prop :=
| history_nil s : history s [] s
| history_cons s e a s' es s'' :
    protocol_step e a s s' → history s' es s'' → history s ((e, a) :: es) s''.

Lemma history_app s es s' es' s'' :
  history s es s' → history s' es' s'' → history s (es ++ es') s''.
Proof. induction 1; simpl; [done|]. econstructor; eauto. Qed.

Lemma history_one e a s s' : protocol_step e a s s' → history s [(e, a)] s'.
Proof. intros. econstructor; [done|constructor]. Qed.

#[export] Hint Constructors protocol_step history : gateway.
#[export] Hint Resolve history_app history_one : gateway.

(** How often something happened. *)
Fixpoint occurrences (e : event) (es : list (event * actor)) : Z :=
  match es with
  | [] => 0
  | (e', _) :: es => (if e' == e then 1 else 0) + occurrences e es
  end.

Lemma occurrences_app e es es' : occurrences e (es ++ es') = occurrences e es + occurrences e es'.
Proof. induction es as [|[e' a] es IH]; simpl; lia. Qed.

Lemma occurrences_nonneg e es : 0 ≤ occurrences e es.
Proof. induction es as [|[e' a] es IH]; simpl; [lia|]. case_if; lia. Qed.

(** ** What the protocol guarantees *)

Definition budgets_ok (s : protocol_state) : Prop :=
  0 ≤ attempts s ≤ MAX_DELIVERY_ATTEMPTS ∧ 0 ≤ handbacks s ≤ MAX_RETRIES.

Lemma step_budgets e a s s' : protocol_step e a s s' → budgets_ok s → budgets_ok s'.
Proof.
  unfold budgets_ok, MAX_DELIVERY_ATTEMPTS, MAX_RETRIES.
  destruct 1; simpl in *; unfold MAX_DELIVERY_ATTEMPTS, MAX_RETRIES in *; lia.
Qed.

Lemma history_budgets s es s' : history s es s' → budgets_ok s → budgets_ok s'.
Proof. induction 1; eauto using step_budgets. Qed.

(** Every claim leaves a mark: it is still charged, or it was refunded by a
    hand-back. *)
Lemma history_claims s es s' :
  history s es s' →
  occurrences EClaim es + occurrences EReclaim es
  ≤ (attempts s' - attempts s) + (handbacks s' - handbacks s).
Proof.
  induction 1 as [|s e a s' es s'' Hstep _ IH]; simpl; [lia|].
  destruct Hstep; simpl in *; lia.
Qed.

Definition printing_phase (p : phase) : Z := match p with Printing _ => 1 | _ => 0 end.
Definition closed_phase (p : phase) : Z := match p with Done _ _ => 1 | _ => 0 end.

(** A job that reached the printer comes back only through a recovery. *)
Lemma history_admissions s es s' :
  history s es s' →
  occurrences EAdmit es + printing_phase (ph s) + closed_phase (ph s)
  ≤ occurrences ERecover es + printing_phase (ph s') + closed_phase (ph s').
Proof.
  induction 1 as [|s e a s' es s'' Hstep _ IH]; simpl; [lia|].
  destruct Hstep; simpl in *; lia.
Qed.

Lemma step_retries e a s s' :
  protocol_step e a s s' →
  handbacks s' = handbacks s +
    (if bool_decide (e ∈ [EReclaim; ERequeue; EHandback; ERecover]) then 1 else 0).
Proof. destruct 1; simpl; lia. Qed.

Lemma history_recoveries s es s' :
  history s es s' → occurrences ERecover es ≤ handbacks s' - handbacks s.
Proof.
  induction 1 as [|s e a s' es s'' Hstep _ IH]; simpl; [lia|].
  destruct Hstep; simpl in *; lia.
Qed.

(** A finished job stays finished; success is absorbing. *)
Lemma step_terminal e a s s' o f :
  protocol_step e a s s' → ph s = Done o f →
  attempts s' = attempts s ∧ handbacks s' = handbacks s ∧ o ≠ success ∧
  ((e = EForget ∧ ph s' = Done o None) ∨
   (e = EReconcile ∧ ph s' = Done success None ∧ ∃ t, f = Some t ∧ a = Agent (Some t))).
Proof. destruct 1; simpl; intros; simplify_eq; naive_solver. Qed.

Lemma history_success s es s' :
  history s es s' → (∃ f, ph s = Done success f) → es = [] ∧ s' = s.
Proof.
  destruct 1 as [|s e a s' es s'' Hstep]; [done|]. intros [f Hf].
  destruct (step_terminal _ _ _ _ _ _ Hstep Hf) as (_ & _ & ? & _). done.
Qed.

Lemma history_done s es s' : history s es s' → terminal_phase (ph s) → terminal_phase (ph s').
Proof.
  induction 1 as [|s e a s' es s'' Hstep _ IH]; [done|]. intros (o & f & Hd). apply IH.
  destruct (step_terminal _ _ _ _ _ _ Hstep Hd) as (_ & _ & _ & [(_ & ->)|(_ & -> & _)]);
    unfold terminal_phase; eauto.
Qed.

(** The outcome of a finished job changes at most once, to success. *)
Lemma history_outcome s es s' o f :
  history s es s' → ph s = Done o f →
  ∃ o' f', ph s' = Done o' f' ∧ (o' = o ∨ (o' = success ∧ o ≠ success)).
Proof.
  intros H. revert o f. induction H as [s|s e a s' es s'' Hstep _ IH]; intros o f Hd; [by eauto|].
  destruct (step_terminal _ _ _ _ _ _ Hstep Hd) as (_ & _ & Hne & [(_ & Hd')|(_ & Hd' & _)]);
    destruct (IH _ _ Hd') as (o' & f' & Ho & [->|[-> _]]); eauto 10.
Qed.

(** Recoveries and successes are reported by the agent that holds the claim. *)
Lemma history_recoverers s es s' a :
  history s es s' → (ERecover, a) ∈ es → ∃ t, a = Agent (Some t).
Proof.
  induction 1 as [|s e a' s' es s'' Hstep _ IH]; [by intros ?%elem_of_nil|].
  intros [Heq|Hin]%elem_of_cons; [|by apply IH]. simplify_eq. inversion Hstep. eauto.
Qed.

Lemma step_success e a s s' f :
  protocol_step e a s s' → ph s' = Done success f →
  ∃ t, (e = EClose ∨ e = EReconcile) ∧ a = Agent (Some t).
Proof.
  destruct 1 as [| | | | | | | |by_ o d r Ho|by_ c ev o f' d r _ Hm _ Hs|by_ c o f' d r _ Hm _ Hb Hs| |o t d r Ho];
    simpl; intros; simplify_eq; try (by destruct Ho).
  - destruct (Hs eq_refl) as (_ & ? & ? & [t ->]). destruct by_ as [t'| |]; [|done|done].
    simpl in *. subst t'. eauto.
  - destruct (Hs eq_refl) as (_ & ? & [t ->]). destruct by_ as [t'| |]; [|done|done].
    simpl in *. subst t'. eauto.
  - eauto.
Qed.

Lemma history_reporters s es s' f :
  history s es s' → ph s' = Done success f → ¬ terminal_phase (ph s) →
  ∃ e t, (e = EClose ∨ e = EReconcile) ∧ (e, Agent (Some t)) ∈ es.
Proof.
  intros H Hd Hopen. assert (∀ f', ph s ≠ Done success f') as Hs
    by (intros f' E; apply Hopen; by eexists _, _).
  clear Hopen. induction H as [s|s e a s' es s'' Hstep _ IH]; [by destruct (Hs f)|].
  destruct (ph s') as [|c ev|c|[| | | | |] f'] eqn:Hs';
    try (destruct (IH Hd) as (e' & t & He & Hin); [done|]; exists e', t; split; [done|by right]).
  destruct (step_success _ _ _ _ _ Hstep Hs') as (t & He & ->). exists e, t. split; [done|]. left.
Qed.

(** An agent presenting a token other than the live one moves nothing. *)
Lemma step_fenced e t s s' :
  protocol_step e (Agent t) s s' →
  match ph s with
  | Waiting => t = None
  | Held c _ | Printing c | Done _ c => t = c
  end.
Proof.
  inversion 1; simpl; try naive_solver.
Qed.

(** Only an agent's own recovery report, never the gateway by itself, puts
    back a job whose bytes may be on paper. *)
Lemma step_no_auto_requeue e a s s' :
  protocol_step e a s s' → ph s' = Waiting →
  match ph s with
  | Printing c => e = ERecover ∧ a = Agent c ∧ is_Some c
  | Held c true => (e = ERelease ∧ a = Sender) ∨ (e = EHandback ∧ a = Agent c ∧ is_Some c)
  | Held c false => True
  | Waiting | Done _ _ => False
  end.
Proof. destruct 1; simpl; intros; simplify_eq; try destruct ev; naive_solver. Qed.

(** ** From a row to a protocol state *)

Definition abs_phase (j : print_job) : phase :=
  match pj_status j with
  | queued => Waiting
  | claimed => Held (pj_claimToken j) (negb (no_delivery_evidence j))
  | printing => Printing (pj_claimToken j)
  | o => Done o (pj_claimToken j)
  end.

Definition abs (j : print_job) : protocol_state :=
  {| ph := abs_phase j; attempts := pj_deliveryAttempts j; handbacks := pj_retries j |}.

(** What every row satisfies besides: a live claim has a token and a start
    time, a queued or finished-with-success job has none, a job at the printer
    was delivered, and no live row carries the receipt of a closed attempt. *)
Definition row_ok (j : print_job) : Prop :=
  budgets_ok (abs j) ∧
  match pj_status j with
  | queued => pj_claimToken j = None ∧ pj_claimedAt j = None ∧ pj_deliveredAt j = None ∧
              pj_ackedAt j = None ∧ pj_closedClaimTokenHash j = None
  | claimed => is_Some (pj_claimToken j) ∧ is_Some (pj_claimedAt j) ∧ 1 ≤ pj_deliveryAttempts j ∧
               pj_closedClaimTokenHash j = None
  | printing => is_Some (pj_claimToken j) ∧ is_Some (pj_claimedAt j) ∧ 1 ≤ pj_deliveryAttempts j ∧
                is_Some (pj_deliveredAt j) ∧ pj_closedClaimTokenHash j = None
  | success => pj_claimToken j = None ∧ is_Some (pj_deliveredAt j)
  | failed | expired => True
  end.

(** The columns no operation on an existing row may change. *)
Definition same_identity (j j' : print_job) : Prop :=
  pj_tenantId j' = pj_tenantId j ∧ pj_agentId j' = pj_agentId j ∧
  pj_printerId j' = pj_printerId j ∧ pj_payload j' = pj_payload j ∧
  pj_documentType j' = pj_documentType j ∧ pj_destination j' = pj_destination j ∧
  pj_idempotencyKey j' = pj_idempotencyKey j ∧ pj_apiKeyId j' = pj_apiKeyId j ∧
  pj_requestedBy j' = pj_requestedBy j ∧ pj_expiresAt j' = pj_expiresAt j ∧
  pj_createdAt j' = pj_createdAt j.

(** [row_refines who j j']: an operation that found [j] left [j'], and did so
    by steps of the protocol that only actors in [who] take. *)
Definition row_refines (who : actor → Prop) (j j' : print_job) : Prop :=
  same_identity j j' ∧
  (row_ok j → row_ok j' ∧ ∃ es, history (abs j) es (abs j') ∧ Forall (λ ea, who ea.2) es).

Lemma same_identity_refl j : same_identity j j.
Proof. by repeat split. Qed.

Section refines.
Context (who : actor → Prop).

Lemma row_refines_refl j : row_refines who j j.
Proof.
  split; [apply same_identity_refl|]. intros. split; [done|]. exists []. split; constructor.
Qed.

Lemma row_refines_trans j j' j'' :
  row_refines who j j' → row_refines who j' j'' → row_refines who j j''.
Proof.
  intros [I1 H1] [I2 H2]. split.
  - unfold same_identity in *. destruct_and?. split_and!; congruence.
  - intros Hok. destruct (H1 Hok) as (Hok' & es & Hh & Hw).
    destruct (H2 Hok') as (Hok'' & es' & Hh' & Hw'). split; [done|]. exists (es ++ es').
    split; [by eapply history_app|by apply Forall_app].
Qed.

#[export] Instance row_refines_preorder : PreOrder (row_refines who).
Proof. split; [exact row_refines_refl|exact row_refines_trans]. Qed.

(** One step, or none at all. *)
Lemma one_step e a s s' :
  who a → protocol_step e a s s' →
  ∃ es, history s es s' ∧ Forall (λ ea : event * actor, who ea.2) es.
Proof. intros Hw Hs. exists [(e, a)]. split; [by apply history_one|by repeat constructor]. Qed.

Lemma row_refines_still (s s' : protocol_state) :
  s = s' → ∃ es, history s es s' ∧ Forall (λ ea : event * actor, who ea.2) es.
Proof. intros ->. exists []. split; constructor. Qed.
End refines.

Lemma row_refines_mono (who who' : actor → Prop) j j' :
  (∀ a, who a → who' a) → row_refines who j j' → row_refines who' j j'.
Proof.
  intros Hsub [Hi H]. split; [done|]. intros Hok. destruct (H Hok) as (Hok' & es & Hh & Hw).
  split; [done|]. exists es. split; [done|]. eapply Forall_impl; [exact Hw|]. simpl. eauto.
Qed.

Lemma abs_terminal j : isTerminal (pj_status j) = true ↔ terminal_phase (ph (abs j)).
Proof.
  unfold terminal_phase, abs, abs_phase. simpl.
  destruct (pj_status j); simpl; split; try done; naive_solver.
Qed.

(** A row that is still open now was open before. *)
Lemma row_refines_open who j j' :
  row_refines who j j' → row_ok j → isTerminal (pj_status j') = false → isTerminal (pj_status j) = false.
Proof.
  intros [_ H] Hok Hopen. destruct (H Hok) as (_ & es & Hh & _). apply not_true_iff_false.
  intros Ht%abs_terminal. apply (history_done _ _ _ Hh), abs_terminal in Ht. congruence.
Qed.

Lemma delivered_is_evidence j : is_Some (pj_deliveredAt j) → no_delivery_evidence j = false.
Proof. intros [t Ht]. unfold no_delivery_evidence. by rewrite Ht. Qed.

Lemma acked_is_evidence j : is_Some (pj_ackedAt j) → no_delivery_evidence j = false.
Proof. intros [t Ht]. unfold no_delivery_evidence. rewrite Ht. by destruct (is_none _). Qed.

(** ** From a database to another

    [jobs_refine who d d']: no row was added, and every row that is still
    there moved by the protocol, at the hands of [who]. *)

Definition jobs_refine (who : actor → Prop) (d d' : db) : Prop :=
  ∀ id j', print_jobs d' !! id = Some j' →
    ∃ j, print_jobs d !! id = Some j ∧ row_refines who j j'.

Section jobs_refine.
Context (who : actor → Prop).

#[export] Instance jobs_refine_preorder : PreOrder (jobs_refine who).
Proof.
  split.
  - intros d id j Hj. exists j. split; [done|reflexivity].
  - intros d1 d2 d3 H12 H23 id j3 H3. destruct (H23 _ _ H3) as (j2 & H2 & R23).
    destruct (H12 _ _ H2) as (j1 & H1 & R12). exists j1. split; [done|]. by etrans.
Qed.

(** Operations that leave the jobs table alone. *)
Lemma jobs_refine_frame d d' : print_jobs d' = print_jobs d → jobs_refine who d d'.
Proof. intros Heq id j Hj. rewrite Heq in Hj. exists j. split; [done|reflexivity]. Qed.

Lemma update_job_refines id p f d :
  (∀ j, print_jobs d !! id = Some j → p j = true → row_refines who j (f j)) →
  jobs_refine who d (update_job id p f d).2.
Proof.
  intros Hf. destruct (update_job id p f d) as [r d'] eqn:E.
  apply update_job_inv in E as [(_ & -> & _)|(j & Hj & Hp & _ & ->)]; [reflexivity|].
  intros k j' Hk. simpl in Hk. destruct (decide (k = id)) as [->|Hne].
  - rewrite lookup_insert_eq in Hk. simplify_eq. eauto.
  - rewrite lookup_insert_ne in Hk by done. exists j'. split; [done|reflexivity].
Qed.

Lemma update_jobs_refines ids f d :
  (∀ id j, id ∈ ids → print_jobs d !! id = Some j → row_refines who j (f j)) →
  jobs_refine who d (update_jobs ids f d).
Proof.
  intros Hf id j' Hj'. rewrite lookup_update_jobs in Hj'.
  destruct (print_jobs d !! id) as [j|] eqn:Hj; [|done]. simpl in Hj'. exists j. split; [done|].
  case_bool_decide; simplify_eq; [by eapply Hf|reflexivity].
Qed.
End jobs_refine.

Lemma jobs_refine_mono (who who' : actor → Prop) d d' :
  (∀ a, who a → who' a) → jobs_refine who d d' → jobs_refine who' d d'.
Proof.
  intros Hsub H id j' Hj'. destruct (H _ _ Hj') as (j & Hj & Hr).
  exists j. split; [done|]. by eapply row_refines_mono.
Qed.

(** Prove that one row assignment is a step of the protocol: compute both
    sides, then search the protocol's rules. *)
Ltac row_step_setup :=
  split; [by repeat split|];
  let Hb := fresh "Hb" in let Hok := fresh "Hok" in
  intros [Hb Hok]; unfold row_ok, budgets_ok, abs, abs_phase in *; cbn in *.

(** Discharge the row invariant of an updated row. *)
Ltac row_facts :=
  destruct_and?; split_and?; unfold MAX_DELIVERY_ATTEMPTS, MAX_RETRIES in *;
  first [done | lia | by eauto | naive_solver].

(** Use the known status of the row. *)
Ltac row_status :=
  match goal with H : pj_status ?j = ?s |- _ => rewrite H in * end.
