(* ===== verification/JobDelivery.v ===== *)
(** * Handing a queued job to an agent

    [src/lib/job-delivery.ts] and the fences of [src/lib/job-fencing.ts], with
    the budgets declared in [src/lib/job-maintenance.ts].

    Each function is one transaction on the database. [skip] says that another
    transaction holds a lock on the rows selected [FOR UPDATE SKIP LOCKED];
    [token] is the value [gen_random_uuid()] returned. *)

From S2P Require Import Prelude DatabaseTime JobStatus Json Schema Availability PrinterVirtual.
From S2P Require Import Capability Entitlements Samples JobProtocol.

Definition MAX_AGENT_IN_FLIGHT_JOBS : Z := 64.

(** ** Fences ([job-fencing.ts]) *)

Definition fencedJobWrite (tenantId agentId : string) (expectedStatus : JobStatus)
    (claimToken : option string) (j : print_job) : bool :=
  (pj_tenantId j == tenantId) && (pj_agentId j == agentId) &&
  (pj_status j == expectedStatus) && (pj_claimToken j == claimToken).

Definition fencedDeliveryWrite (tenantId agentId claimToken : string) (statuses : list JobStatus)
    (j : print_job) : bool :=
  (pj_tenantId j == tenantId) && (pj_agentId j == agentId) &&
  status_in statuses j && (pj_claimToken j == Some claimToken).

(** [EXISTS (SELECT 1 FROM agents WHERE id AND tenant_id AND lifecycle = 'active')]. *)
Definition agent_active (d : db) (agentId tenantId : string) : bool :=
  match agents d !! agentId with
  | Some a => (ag_tenantId a == tenantId) && (ag_lifecycle a == "active")
  | None => false
  end.

Definition tenant_active (d : db) (tenantId : string) : bool :=
  match tenants d !! tenantId with Some t => tn_lifecycle t == "active" | None => false end.

Definition printingAdmissionLifecycleFence (d : db) (agentId tenantId : string) : bool :=
  agent_active d agentId tenantId && tenant_active d tenantId.

(** ** Eligibility in SQL *)

(** [x IS NOT NULL AND x <= now() AND x >= now() - make_interval(secs => n)]. *)
Definition seen_within (ck : clock) (seconds : Z) (x : option Z) : bool :=
  match x with
  | Some t => (t <=? now ck) && (now ck - secs seconds <=? t)
  | None => false
  end.

Definition agent_live (env : option jsnum) (ck : clock) (a : agent) : bool :=
  (ag_lifecycle a == "active") && (ag_status a == "online") &&
  seen_within ck (agentStaleThresholdSeconds env) (ag_lastSeenAt a).

Definition printer_executable (p : printer) : bool :=
  (pr_status p == "online") || (pr_status p == "busy") ||
  ((pr_status p == "unknown") &&
   ((pr_connectionType p == "spooler")
    || one_of ["ipp"; "ipps"] (pr_connectionType p)
    || ((pr_connectionType p == "network") && one_of ["ipp"; "ipps"] (pr_protocol p))
    || (one_of ["network"; "usb"] (pr_connectionType p)
        && one_of ["raw"; "escpos"; "zpl"; "tspl"] (pr_protocol p)))).

Definition desired_state_reached (p : printer) : bool :=
  (pr_managementSource p == "agent")
  || ((pr_desiredRevision p <=? pr_appliedDesiredRevision p)
      && (pr_desiredRevision p <=? pr_observedDesiredRevision p)).

Definition printer_ready (ck : clock) (p : printer) : bool :=
  (pr_lifecycle p == "active") && pr_inventoryPresent p && pr_sharedWithGateway p &&
  printer_executable p && desired_state_reached p &&
  seen_within ck printerStaleThresholdSeconds (pr_lastSeenAt p).

(** A claim whose lease ran out before any evidence of delivery. *)
Definition stale_claim (env : option jsnum) (ck : clock) (j : print_job) : bool :=
  (pj_status j == claimed) && no_delivery_evidence j &&
  (pj_updatedAt j <? now ck - secs (agentStaleThresholdSeconds env)) && within_budgets j.

(** The row's own agent and tenant, as the joins find them. *)
Definition owner_live (env : option jsnum) (ck : clock) (d : db) (j : print_job) : bool :=
  match agents d !! pj_agentId j with
  | Some a => (ag_tenantId a == pj_tenantId j) && agent_live env ck a
  | None => false
  end && tenant_active d (pj_tenantId j).

Definition counts_in_flight (env : option jsnum) (ck : clock) (d : db) (agentId : string)
    (j : print_job) : bool :=
  (pj_agentId j == agentId) && status_in [claimed; printing] j &&
  (now ck <? pj_expiresAt j) && negb (stale_claim env ck j) && owner_live env ck d j.

Definition in_flight (env : option jsnum) (ck : clock) (d : db) (agentId : string) : Z :=
  count_jobs (counts_in_flight env ck d agentId) d.

(** The tenant of the agent, if it is active. *)
Definition agent_tenant (d : db) (agentId : string) : option string :=
  a ← agents d !! agentId;
  if tenant_active d (ag_tenantId a) then Some (ag_tenantId a) else None.

(** The row condition of the [SELECT ... FOR UPDATE OF p, a, pr SKIP LOCKED]. *)
Definition claim_eligible (env : option jsnum) (ck : clock) (d : db) (tenantId agentId : string)
    (j : print_job) : bool :=
  (pj_tenantId j == tenantId) && (pj_agentId j == agentId) && (pj_status j == queued) &&
  (coalesce (pj_error j) "" != PRINTER_NOT_SHARED_PAUSE) && (now ck <? pj_expiresAt j) &&
  (pj_deliveryAttempts j <? MAX_DELIVERY_ATTEMPTS) && (pj_retries j <? MAX_RETRIES) &&
  owner_live env ck d j &&
  match printers d !! (pj_tenantId j, pj_printerId j) with
  | Some pr => printer_ready ck pr
  | None => false
  end &&
  liveTenantSubscriptionPredicate d ck (pj_tenantId j) true.

(** ** [claimJobForDelivery] *)

Definition claim_row (ck : clock) (token : string) (error : option string) (j : print_job)
    : print_job :=
  j |> set_status claimed
    |> set_claimedAt (Some (clock_timestamp ck))
    |> set_updatedAt (clock_timestamp ck)
    |> set_claimToken (Some token)
    |> set_closedClaimTokenHash None
    |> set_deliveredAt None
    |> set_ackedAt None
    |> set_error error
    |> set_deliveryAttempts (pj_deliveryAttempts j + 1).

Definition claimJobForDelivery (env : option jsnum) (ck : clock) (token : string) (skip : bool)
    (jobId agentId : string) (markDeliveryEvidencePending : bool) (d : db)
    : option print_job * db :=
  match agent_tenant d agentId with
  | None => (None, d)
  | Some tenantId =>
      if MAX_AGENT_IN_FLIGHT_JOBS <=? in_flight env ck d agentId then (None, d)
      else
        match print_jobs d !! jobId with
        | Some p =>
            if negb skip && claim_eligible env ck d tenantId agentId p then
              update_job jobId
                (λ j, (pj_tenantId j == tenantId) && (pj_agentId j == agentId) &&
                      (pj_status j == queued) && (now ck <? pj_expiresAt j) &&
                      liveTenantSubscriptionPredicate d ck (pj_tenantId j) true)
                (λ j, claim_row ck token
                        (if markDeliveryEvidencePending then Some DELIVERY_EVIDENCE_PENDING
                         else pj_error j) j) d
            else (None, d)
        | None => (None, d)
        end
  end.

(** ** Delivery evidence *)

Definition delivered_row (ck : clock) (j : print_job) : print_job :=
  j |> set_deliveredAt (Some (clock_timestamp ck))
    |> set_error (if pj_error j == Some DELIVERY_EVIDENCE_PENDING then None else pj_error j)
    |> set_updatedAt (clock_timestamp ck).

Definition markJobDelivered (ck : clock) (jobId tenantId agentId : string)
    (claimToken : option string) (d : db) : bool * db :=
  if negb (truthy claimToken) then (false, d)
  else
    let '(res, d') := update_job jobId
      (fencedDeliveryWrite tenantId agentId (coalesce claimToken "") [claimed; printing])
      (delivered_row ck) d in
    (is_some res, d').

Definition DELIVERY_UNKNOWN_ERROR : string :=
  "UNKNOWN_PARTIAL_DELIVERY: WebSocket frame was accepted but delivery evidence could not be persisted; physical output is unknown (reconciliation is allowed only for the same fenced attempt)".

Definition delivery_unknown_row (ck : clock) (j : print_job) : print_job :=
  j |> set_status failed
    |> set_error (Some DELIVERY_UNKNOWN_ERROR)
    |> set_deliveredAt (Some (coalesce (pj_deliveredAt j) (clock_timestamp ck)))
    |> set_claimedAt (Some (coalesce (pj_claimedAt j) (clock_timestamp ck)))
    |> set_updatedAt (clock_timestamp ck).

Definition markJobDeliveryUnknown (ck : clock) (jobId tenantId agentId claimToken : string) (d : db)
    : bool * db :=
  let '(res, d') := update_job jobId
    (fencedDeliveryWrite tenantId agentId claimToken [claimed]) (delivery_unknown_row ck) d in
  (is_some res, d').

Definition ack_row (ck : clock) (j : print_job) : print_job :=
  j |> set_ackedAt (Some (coalesce (pj_ackedAt j) (clock_timestamp ck)))
    |> set_updatedAt (clock_timestamp ck).

Definition recordJobAck (ck : clock) (jobId tenantId agentId : string) (claimToken : option string)
    (d : db) : bool * db :=
  if negb (truthy claimToken) then (false, d)
  else
    let '(res, d') := update_job jobId
      (λ j, fencedDeliveryWrite tenantId agentId (coalesce claimToken "") [claimed; printing] j
            && agent_active d agentId tenantId)
      (ack_row ck) d in
    (is_some res, d').

(** ** [releaseUndeliveredClaim] *)

Inductive ReleaseOutcome : Type := release_requeued | release_failed | release_noop.

Definition release_fence (tenantId agentId : string) (claimToken : option string) (j : print_job)
    : bool :=
  (pj_tenantId j == tenantId) && (pj_agentId j == agentId) && (pj_status j == claimed) &&
  (pj_claimToken j == claimToken) && is_none (pj_deliveredAt j) && is_none (pj_ackedAt j).

Definition release_row (ck : clock) (reason : string) (j : print_job) : print_job :=
  j |> set_status queued |> set_claimedAt None |> set_claimToken None
    |> set_updatedAt (clock_timestamp ck) |> set_error (Some reason).

Definition give_up_row (ck : clock) (reason : string) (j : print_job) : print_job :=
  j |> set_status failed |> set_claimToken None |> set_claimedAt None
    |> set_updatedAt (clock_timestamp ck)
    |> set_error (Some (reason +:+ " (giving up after " +:+ number_text MAX_DELIVERY_ATTEMPTS
                        +:+ " delivery attempts)")).

Definition releaseUndeliveredClaim (ck : clock) (jobId tenantId agentId : string)
    (claimToken : option string) (reason : string) (d : db) : ReleaseOutcome * db :=
  match update_job jobId
    (λ j, release_fence tenantId agentId claimToken j
          && (pj_deliveryAttempts j <? MAX_DELIVERY_ATTEMPTS) && (now ck <? pj_expiresAt j))
    (release_row ck reason) d with
  | (Some _, d') => (release_requeued, d')
  | (None, d) =>
      match update_job jobId
        (λ j, release_fence tenantId agentId claimToken j
              && (MAX_DELIVERY_ATTEMPTS <=? pj_deliveryAttempts j))
        (give_up_row ck reason) d with
      | (Some _, d') => (release_failed, d')
      | (None, d) => (release_noop, d)
      end
  end.

(** ** Every delivery write is a protocol step *)

Lemma claim_row_refines ck token error j :
  pj_status j = queued → pj_deliveryAttempts j < MAX_DELIVERY_ATTEMPTS → pj_retries j < MAX_RETRIES →
  row_refines (eq Sender) j (claim_row ck token error j).
Proof.
  intros Hs Hd Hr. row_step_setup. rewrite Hs in *. split; [row_facts|].
  eapply one_step; [done|]. by eapply ps_claim.
Qed.

Lemma delivered_row_refines ck tenantId agentId token j :
  fencedDeliveryWrite tenantId agentId token [claimed; printing] j = true →
  row_refines (eq Sender) j (delivered_row ck j).
Proof.
  unfold fencedDeliveryWrite, status_in. intros H. bools. row_step_setup.
  assert (pj_status j = claimed ∨ pj_status j = printing) as [Hs|Hs] by set_solver;
    rewrite Hs in *; (split; [row_facts|]).
  - eapply one_step; [done|].
    rewrite H0, (delivered_is_evidence (delivered_row ck j)) by (by eexists).
    apply ps_evidence. by left.
  - by apply row_refines_still.
Qed.

Lemma delivery_unknown_row_refines ck tenantId agentId token j :
  fencedDeliveryWrite tenantId agentId token [claimed] j = true →
  row_refines (eq Sender) j (delivery_unknown_row ck j).
Proof.
  unfold fencedDeliveryWrite, status_in. intros H. bools. row_step_setup.
  assert (pj_status j = claimed) as Hs by set_solver. rewrite Hs in *. split; [row_facts|].
  eapply one_step; [done|]. apply (ps_close_held Sender); naive_solver.
Qed.

Lemma ack_row_refines ck tenantId agentId token j :
  fencedDeliveryWrite tenantId agentId token [claimed; printing] j = true →
  row_refines (eq (Agent (Some token))) j (ack_row ck j).
Proof.
  unfold fencedDeliveryWrite, status_in. intros H. bools. row_step_setup.
  assert (pj_status j = claimed ∨ pj_status j = printing) as [Hs|Hs] by set_solver;
    rewrite Hs in *; (split; [row_facts|]).
  - eapply one_step; [done|]. rewrite H0, (acked_is_evidence (ack_row ck j)) by (by eexists).
    apply ps_evidence. by right.
  - by apply row_refines_still.
Qed.

Lemma release_row_refines ck reason tenantId agentId claimToken j :
  release_fence tenantId agentId claimToken j = true →
  pj_deliveryAttempts j < MAX_DELIVERY_ATTEMPTS →
  row_refines (eq Sender) j (release_row ck reason j).
Proof.
  unfold release_fence. intros H Hd. bools. rewrite is_none_true in *. row_step_setup.
  row_status. split; [row_facts|]. eapply one_step; [done|]. by apply ps_release.
Qed.

Lemma give_up_row_refines ck reason tenantId agentId claimToken j :
  release_fence tenantId agentId claimToken j = true →
  row_refines (eq Sender) j (give_up_row ck reason j).
Proof.
  unfold release_fence. intros H. bools. row_step_setup.
  row_status. split; [row_facts|]. eapply one_step; [done|].
  apply (ps_close_held Sender); naive_solver.
Qed.

(** ** The operations *)

(** What a granted claim tells about the row before and after. *)
Lemma claim_inv env ck token skip jobId agentId pending d j' d' :
  claimJobForDelivery env ck token skip jobId agentId pending d = (Some j', d') →
  ∃ tenantId j,
    agent_tenant d agentId = Some tenantId ∧ in_flight env ck d agentId < MAX_AGENT_IN_FLIGHT_JOBS ∧
    print_jobs d !! jobId = Some j ∧ skip = false ∧
    claim_eligible env ck d tenantId agentId j = true ∧
    j' = claim_row ck token (if pending then Some DELIVERY_EVIDENCE_PENDING else pj_error j) j ∧
    d' = with_jobs (<[jobId := j']> (print_jobs d)) d.
Proof.
  unfold claimJobForDelivery. intros H.
  destruct (agent_tenant d agentId) as [t|]; [|done].
  destruct (MAX_AGENT_IN_FLIGHT_JOBS <=? in_flight env ck d agentId) eqn:Hcap; [done|].
  destruct (print_jobs d !! jobId) as [j|] eqn:Hj; [|done].
  destruct (negb skip && claim_eligible env ck d t agentId j) eqn:He; [|done]. bools.
  apply update_job_inv in H as [(? & _)|(j2 & Hj2 & _ & Hr & ->)]; [done|].
  rewrite Hj in Hj2. simplify_eq. exists t, j2. by split_and!.
Qed.

Lemma claim_refused env ck token skip jobId agentId pending d d' :
  claimJobForDelivery env ck token skip jobId agentId pending d = (None, d') → d' = d.
Proof.
  unfold claimJobForDelivery. intros H.
  destruct (agent_tenant d agentId) as [t|]; [|by simplify_eq].
  destruct (MAX_AGENT_IN_FLIGHT_JOBS <=? _); [by simplify_eq|].
  destruct (print_jobs d !! jobId) as [j|]; [|by simplify_eq].
  destruct (negb skip && _); [|by simplify_eq].
  by apply update_job_inv in H as [(_ & -> & _)|(? & _ & _ & ? & _)].
Qed.

Lemma claim_eligible_inv env ck d tenantId agentId j :
  claim_eligible env ck d tenantId agentId j = true →
  pj_tenantId j = tenantId ∧ pj_agentId j = agentId ∧ pj_status j = queued ∧
  now ck < pj_expiresAt j ∧ pj_deliveryAttempts j < MAX_DELIVERY_ATTEMPTS ∧
  pj_retries j < MAX_RETRIES ∧ owner_live env ck d j = true ∧
  (∃ pr, printers d !! (pj_tenantId j, pj_printerId j) = Some pr ∧ printer_ready ck pr = true) ∧
  liveTenantSubscriptionPredicate d ck (pj_tenantId j) true = true.
Proof.
  unfold claim_eligible. intros H. bools. split_and!; try done.
  destruct (printers d !! _) as [pr|]; [by exists pr|done].
Qed.

Lemma claimJobForDelivery_refines env ck token skip jobId agentId pending d :
  jobs_refine (eq Sender) d (claimJobForDelivery env ck token skip jobId agentId pending d).2.
Proof.
  destruct (claimJobForDelivery _ _ _ _ _ _ _ _) as [[j'|] d'] eqn:H; simpl.
  - apply claim_inv in H as (t & j & _ & _ & Hj & _ & He & -> & ->).
    apply claim_eligible_inv in He as (_ & _ & Hs & _ & Hd & Hr & _).
    intros k r Hk. simpl in Hk. destruct (decide (k = jobId)) as [->|Hne].
    + rewrite lookup_insert_eq in Hk. simplify_eq. exists j. split; [done|].
      by apply claim_row_refines.
    + rewrite lookup_insert_ne in Hk by done. exists r. split; [done|reflexivity].
  - apply claim_refused in H as ->. reflexivity.
Qed.

Lemma snd_let {A B C} (f : A → C) (x : A * B) : (let '(a, b) := x in (f a, b)).2 = x.2.
Proof. by destruct x. Qed.

Lemma markJobDelivered_refines ck jobId tenantId agentId token d :
  jobs_refine (eq Sender) d (markJobDelivered ck jobId tenantId agentId token d).2.
Proof.
  unfold markJobDelivered. case_if; [reflexivity|]. rewrite snd_let.
  apply update_job_refines. intros j _ Hp. by eapply delivered_row_refines.
Qed.

Lemma markJobDeliveryUnknown_refines ck jobId tenantId agentId token d :
  jobs_refine (eq Sender) d (markJobDeliveryUnknown ck jobId tenantId agentId token d).2.
Proof.
  unfold markJobDeliveryUnknown. rewrite snd_let.
  apply update_job_refines. intros j _ Hp. by eapply delivery_unknown_row_refines.
Qed.

Lemma recordJobAck_refines ck jobId tenantId agentId token d :
  jobs_refine (eq (Agent token)) d (recordJobAck ck jobId tenantId agentId token d).2.
Proof.
  unfold recordJobAck. case_if; [reflexivity|]. rewrite snd_let.
  apply update_job_refines. intros j _ Hp. bools. destruct token as [t|]; [|done].
  by eapply ack_row_refines.
Qed.

Lemma releaseUndeliveredClaim_refines ck jobId tenantId agentId token reason d :
  jobs_refine (eq Sender) d (releaseUndeliveredClaim ck jobId tenantId agentId token reason d).2.
Proof.
  unfold releaseUndeliveredClaim.
  destruct (update_job _ _ _ d) as [[r|] d1] eqn:E1; simpl.
  - change d1 with (Some r, d1).2. rewrite <-E1. apply update_job_refines.
    intros j _ Hp. bools. by eapply release_row_refines.
  - apply update_job_inv in E1 as [(_ & -> & _)|(? & _ & _ & ? & _)]; [|done].
    destruct (update_job _ _ _ d) as [[r|] d2] eqn:E2; simpl;
      change d2 with ((Some r, d2).2) || change d2 with ((@None print_job, d2).2);
      rewrite <-E2; apply update_job_refines; intros j _ Hp; bools;
      by eapply give_up_row_refines.
Qed.

(** ** The SQL gates and the application's predicates *)

Definition agent_presence (a : agent) : Presence := {|
  ps_lifecycle := Some (ag_lifecycle a); ps_status := Some (ag_status a);
  ps_lastSeenAt := db_time (ag_lastSeenAt a) |}.

Lemma agent_live_mirror Date_parse env ck a :
  agent_live env ck a = isAgentAvailableForJob Date_parse env (agent_presence a) (now ck).
Proof.
  unfold agent_live, isAgentAvailableForJob, getAgentAvailability, seen_within. simpl.
  rewrite !Some_eqb.
  destruct (bool_decide (ag_lifecycle a = "active")), (bool_decide (ag_status a = "online"));
    [|done..].
  simpl. destruct (ag_lastSeenAt a) as [t|]; [|done]. simpl. autorewrite with gateway.
  unfold secs.
  assert ((t <=? now ck) = (0 <=? now ck - t)) as -> by (apply eq_iff_eq_true; rewrite !Z.leb_le; lia).
  assert ((now ck - agentStaleThresholdSeconds env * 1000 <=? t)
          = (now ck - t <=? agentStaleThresholdSeconds env * 1000)) as ->
    by (apply eq_iff_eq_true; rewrite !Z.leb_le; lia).
  by destruct (0 <=? _), (_ <=? _).
Qed.

Lemma printer_executable_mirror p :
  printer_check p = true →
  printer_executable p = isPrinterStatusExecutable (Some (pr_status p))
    (Some (pr_connectionType p)) (Some (pr_protocol p)).
Proof.
  intros (Hc & Hp & Hs)%printer_check_columns. unfold printer_executable.
  revert Hc Hp Hs.
  generalize (pr_connectionType p) as conn, (pr_protocol p) as proto, (pr_status p) as st.
  intros conn proto st Hc Hp Hs. elem_cases Hc; elem_cases Hp; elem_cases Hs; vm_compute; done.
Qed.

Lemma claimed_row_counts env ck d agentId token error j :
  clock_ok ck → pj_agentId j = agentId → now ck < pj_expiresAt j → owner_live env ck d j = true →
  counts_in_flight env ck d agentId (claim_row ck token error j) = true.
Proof.
  intros Hck Ha He Ho. unfold counts_in_flight, stale_claim, clock_ok in *. cbn.
  pose proof (agentStale_pos env) as Hpos. unfold secs in *.
  assert ((clock_timestamp ck <? now ck - agentStaleThresholdSeconds env * 1000) = false) as ->
    by (apply Z.ltb_ge; lia).
  rewrite andb_false_r. cbn. unfold owner_live in *. cbn. rewrite Ho. bsplit; done.
Qed.

Lemma queued_not_in_flight env ck d agentId j :
  pj_status j = queued → counts_in_flight env ck d agentId j = false.
Proof.
  intros Hs. unfold counts_in_flight, status_in. rewrite Hs. by rewrite andb_false_r.
Qed.

(** ** Properties *)


(** Delivery bookkeeping is fenced: a write that presents a token other than
    the row's current one changes nothing and reports failure. *)
Theorem delivery_writes_fenced ck jobId tenantId agentId token reason d
  (Hstale : ∀ j, print_jobs d !! jobId = Some j → pj_claimToken j ≠ Some token) :
  markJobDelivered ck jobId tenantId agentId (Some token) d = (false, d) ∧
  markJobDeliveryUnknown ck jobId tenantId agentId token d = (false, d) ∧
  recordJobAck ck jobId tenantId agentId (Some token) d = (false, d) ∧
  releaseUndeliveredClaim ck jobId tenantId agentId (Some token) reason d = (release_noop, d).
Proof.
  assert (∀ p f, (∀ j, p j = true → pj_claimToken j = Some token) →
                 update_job jobId p f d = (None, d)) as Hno.
  { intros p f Hp. unfold update_job. destruct (print_jobs d !! jobId) as [j|] eqn:Hj; [|done].
    destruct (p j) eqn:Hpj; [|done]. exfalso. exact (Hstale j eq_refl (Hp j Hpj)). }
  assert (∀ l j, fencedDeliveryWrite tenantId agentId token l j = true → pj_claimToken j = Some token)
    as Hf by (unfold fencedDeliveryWrite; intros l j Hj; by bools).
  assert (∀ j, release_fence tenantId agentId (Some token) j = true → pj_claimToken j = Some token)
    as Hr by (unfold release_fence; intros j Hj; by bools).
  split_and!.
  - unfold markJobDelivered. rewrite Hno by (intros; by eapply Hf). by case_if.
  - unfold markJobDeliveryUnknown. by rewrite Hno by (intros; by eapply Hf).
  - unfold recordJobAck. rewrite Hno by (intros j Hj; bools; by eapply Hf). by case_if.
  - unfold releaseUndeliveredClaim. by rewrite !Hno by (intros j Hj; bools; by apply Hr).
Qed.

(** Releasing an undelivered claim always settles it: a live one goes back to
    the queue while attempts remain and fails when they are spent, and no
    released job keeps its token. *)
Theorem release_settles ck jobId tenantId agentId token reason d j
  (Hj : print_jobs d !! jobId = Some j)
  (Hfence : release_fence tenantId agentId token j = true)
  (Hlive : now ck < pj_expiresAt j) :
  let '(outcome, d') := releaseUndeliveredClaim ck jobId tenantId agentId token reason d in
  ∃ j', print_jobs d' !! jobId = Some j' ∧ pj_claimToken j' = None ∧
    pj_deliveryAttempts j' = pj_deliveryAttempts j ∧ pj_retries j' = pj_retries j ∧
    ((outcome = release_requeued ∧ pj_status j' = queued ∧
      pj_deliveryAttempts j < MAX_DELIVERY_ATTEMPTS) ∨
     (outcome = release_failed ∧ pj_status j' = failed ∧
      MAX_DELIVERY_ATTEMPTS ≤ pj_deliveryAttempts j)).
Proof.
  unfold releaseUndeliveredClaim, update_job. rewrite Hj, Hfence. simpl.
  rewrite (proj2 (Z.ltb_lt _ _) Hlive), andb_true_r.
  destruct (pj_deliveryAttempts j <? MAX_DELIVERY_ATTEMPTS) eqn:Hd; bools.
  - eexists. simpl. rewrite lookup_insert_eq. split; [done|]. simpl. naive_solver.
  - rewrite Hj, Hfence, (proj2 (Z.leb_le _ _) Hd). simpl.
    eexists. rewrite lookup_insert_eq. split; [done|]. simpl. naive_solver.
Qed.

(** ** Witnesses *)

Definition claim_sample : option print_job * db :=
  claimJobForDelivery None (at_time 2000) "tok" false "j1" "a1" true
    queued_db.


Lemma delivery_writes_fenced_witness :
  recordJobAck (at_time 2000) "j1" "t1" "a1" (Some "old")
    (held_db "new")
  = (false, held_db "new").
Proof.
  apply (delivery_writes_fenced (at_time 2000) "j1" "t1" "a1" "old" "x"
    (held_db "new")).
  intros j Hj. unfold held_db in Hj. simpl in Hj. rewrite lookup_singleton_eq in Hj. injection Hj as <-. discriminate.
Defined.

Lemma release_settles_witness :
  (releaseUndeliveredClaim (at_time 2000) "j1" "t1" "a1" (Some "tok") "send failed"
    (held_db "tok")).1 = release_requeued.
Proof.
  pose proof (release_settles (at_time 2000) "j1" "t1" "a1" (Some "tok") "send failed"
    (held_db "tok") (claimed_job "tok")
    ltac:(vm_compute; reflexivity) ltac:(vm_compute; reflexivity) ltac:(simpl; lia)) as H.
  destruct (releaseUndeliveredClaim _ _ _ _ _ _ _) as [o d'].
  destruct H as (j' & _ & _ & _ & _ & [(-> & _)|(_ & _ & H)]); [reflexivity|].
  exfalso. revert H. vm_compute. intros H. exact (H eq_refl).
Defined.
