(* ===== verification/JobMaintenance.v ===== *)
(** * The maintenance sweep and retention

    [src/lib/job-maintenance.ts] and [src/shared/job-retention.ts]. Every
    sweep statement is [select_ids] (the bounded, lock-skipping candidate
    query) followed by one assignment on the selected rows. The statements
    read the clock separately, so [sweepPrintJobs] takes a clock and a set of
    rows locked elsewhere per statement. Candidate queries without [ORDER BY]
    take the order the database happens to use as an argument. *)

From S2P Require Import Prelude DatabaseTime JobStatus Json Schema Capability Entitlements Samples.
From S2P Require Import JobProtocol JobDelivery.

Definition STALE_PRINTING_SECONDS : Z := 10 * 60.
Definition DEFAULT_RETENTION_BATCH : nat := 500.
Definition PRINT_JOB_RETENTION_HOURS : Z := 48.
Definition RECEIPT_MATERIALIZE_BATCH_ROWS : nat := 20.

(** [Number.isFinite(x) && x >= 1 ? Math.min(Math.floor(x), 5000) : fallback]. *)
Definition sweep_limit (env : option jsnum) (fallback : nat) : nat :=
  match env with
  | Some (JFin n d) => if Z.pos d <=? n then Z.to_nat (Z.min (n / Z.pos d) 5000) else fallback
  | _ => fallback
  end.

(** [AND agent_id = ...], when a scope is given. *)
Definition agentFilter (scope : option string) (j : print_job) : bool :=
  negb (truthy scope) || (Some (pj_agentId j) == scope).

Section sweep.
Context (env : option jsnum) (scope : option string) (SWEEP_BATCH : nat).

(** [SELECT id ... FOR UPDATE SKIP LOCKED], then the assignment. *)
Definition sweep_statement (p : print_job → bool) (order : print_job → Z) (skip : gset string)
    (f : print_job → print_job) (d : db) : nat * db :=
  let ids := select_ids (λ j, p j && agentFilter scope j) order SWEEP_BATCH skip (print_jobs d) in
  (length ids, update_jobs ids f d).

(** ** Expiry *)

Definition overdue (ck : clock) (j : print_job) : bool :=
  negb (status_in [success; failed; expired] j) && (pj_expiresAt j <=? now ck).

(** [delivered_at IS NOT NULL OR acked_at IS NOT NULL OR error = ...]. *)
Definition maybe_delivered (j : print_job) : bool :=
  is_some (pj_deliveredAt j) || is_some (pj_ackedAt j)
  || (pj_error j == Some DELIVERY_EVIDENCE_PENDING).

Definition keeps_fence (j : print_job) : bool :=
  ((pj_status j == printing) && is_some (pj_claimToken j))
  || ((pj_status j == claimed) && is_some (pj_claimToken j) && maybe_delivered j).

Definition EXPIRED_PRINTING_ERROR : string :=
  "JOB_EXPIRED_DURING_PRINT: physical output is unknown (full, partial or none)".
Definition EXPIRED_DELIVERY_ERROR : string :=
  "UNKNOWN_PARTIAL_DELIVERY: job expired after delivery without an execution report (physical output is unknown)".

Definition expire_row (ck : clock) (j : print_job) : print_job :=
  j |> set_status expired
    |> set_error (if pj_status j == printing then Some EXPIRED_PRINTING_ERROR
                  else if (pj_status j == claimed) && maybe_delivered j
                  then Some EXPIRED_DELIVERY_ERROR else None)
    |> set_claimToken (if keeps_fence j then pj_claimToken j else None)
    |> set_claimedAt (if keeps_fence j then pj_claimedAt j else None)
    |> set_updatedAt (clock_timestamp ck).

Definition sweep_expired (ck : clock) (skip : gset string) : db → nat * db :=
  sweep_statement (overdue ck) pj_expiresAt skip (expire_row ck).

(** ** Claims whose lease ran out *)

Definition requeue_row (ck : clock) (j : print_job) : print_job :=
  j |> set_status queued |> set_claimedAt None |> set_claimToken None
    |> set_deliveredAt None |> set_ackedAt None
    |> set_retries (pj_retries j + 1) |> set_updatedAt (clock_timestamp ck).

Definition lease_over (ck : clock) (seconds : Z) (j : print_job) : bool :=
  pj_updatedAt j <? now ck - secs seconds.

Definition sweep_requeue (ck : clock) (skip : gset string) : db → nat * db :=
  sweep_statement
    (λ j, (pj_status j == claimed) && no_delivery_evidence j &&
          lease_over ck (agentStaleThresholdSeconds env) j && within_budgets j &&
          (now ck <? pj_expiresAt j))
    pj_updatedAt skip (requeue_row ck).

Definition SILENT_DELIVERY_ERROR : string :=
  "UNKNOWN_PARTIAL_DELIVERY: claim lease expired after delivery without an execution report (physical output is unknown; reconciliation is allowed only for the same fenced attempt)".

Definition silent_row (ck : clock) (j : print_job) : print_job :=
  j |> set_status failed |> set_error (Some SILENT_DELIVERY_ERROR)
    |> set_claimToken (pj_claimToken j) |> set_claimedAt (pj_claimedAt j)
    |> set_updatedAt (clock_timestamp ck).

Definition sweep_silent (ck : clock) (skip : gset string) : db → nat * db :=
  sweep_statement
    (λ j, (pj_status j == claimed) && maybe_delivered j &&
          lease_over ck (agentStaleThresholdSeconds env) j)
    pj_updatedAt skip (silent_row ck).

(** ** Jobs at the printer too long *)

Definition EXECUTION_TIMEOUT_ERROR : string :=
  "AGENT_EXECUTION_TIMEOUT: agent execution lease expired (physical output is unknown; manual reconciliation required)".

Definition timeout_row (ck : clock) (j : print_job) : print_job :=
  let late := pj_expiresAt j <=? now ck in
  j |> set_status failed
    |> set_error (Some (if late then EXPIRED_PRINTING_ERROR else EXECUTION_TIMEOUT_ERROR))
    |> set_claimToken (if late then None else pj_claimToken j)
    |> set_claimedAt (if late then None else pj_claimedAt j)
    |> set_updatedAt (clock_timestamp ck).

Definition sweep_printing (ck : clock) (skip : gset string) : db → nat * db :=
  sweep_statement (λ j, (pj_status j == printing) && lease_over ck STALE_PRINTING_SECONDS j)
    pj_updatedAt skip (timeout_row ck).

(** ** Budgets spent *)

Definition budget_spent (j : print_job) : bool :=
  (MAX_RETRIES <=? pj_retries j) || (MAX_DELIVERY_ATTEMPTS <=? pj_deliveryAttempts j).

Definition exhausted_row (ck : clock) (error : string) (j : print_job) : print_job :=
  j |> set_status failed |> set_error (Some error) |> set_claimToken None |> set_claimedAt None
    |> set_updatedAt (clock_timestamp ck).

Definition sweep_exhausted_claims (ck : clock) (skip : gset string) : db → nat * db :=
  sweep_statement
    (λ j, (pj_status j == claimed) && no_delivery_evidence j &&
          lease_over ck (agentStaleThresholdSeconds env) j && budget_spent j)
    pj_updatedAt skip
    (exhausted_row ck "exceeded max retries after a stale claim (agent likely crashed or lost connection)").

Definition sweep_exhausted_queued (ck : clock) (skip : gset string) : db → nat * db :=
  sweep_statement
    (λ j, (pj_status j == queued) && (now ck <? pj_expiresAt j) && budget_spent j)
    pj_createdAt skip (exhausted_row ck "exceeded max retries before delivery").

(** ** Fences no report can use any more *)

Definition forget_row (j : print_job) : print_job := j |> set_claimToken None |> set_claimedAt None.

Definition sweep_expired_fences (ck : clock) (order : print_job → Z) (skip : gset string)
    : db → nat * db :=
  sweep_statement
    (λ j, (pj_status j == expired) && is_some (pj_claimToken j) &&
          (pj_expiresAt j <=? now ck - mins 5))
    order skip forget_row.

Definition releasable_error (error : option string) : bool :=
  like_null error "UNKNOWN_PARTIAL_DELIVERY:%"
  || like_null error "AGENT_EXECUTION_TIMEOUT:%"
  || like_null error "AGENT_RESTART_DURING_PRINT:%".

Definition sweep_failed_fences (ck : clock) (order : print_job → Z) (skip : gset string)
    : db → nat * db :=
  sweep_statement
    (λ j, (pj_status j == failed) && is_some (pj_claimToken j) &&
          releasable_error (pj_error j) &&
          (pj_updatedAt j <=? now ck - hours 24))
    order skip forget_row.

(** ** [sweepPrintJobs] *)

Record SweepResult := {
  sr_expired : nat;
  sr_requeuedClaims : nat;
  sr_silentDeliveries : nat;
  sr_stalePrinting : nat;
  sr_exhaustedClaims : nat;
  sr_exhaustedQueued : nat;
}.

(** What one run meets: the clock of each statement, the rows locked by
    others, and the order of the two unordered queries. *)
Record sweep_run := {
  sw_clock : nat → clock;
  sw_skip : nat → gset string;
  sw_order : nat → print_job → Z;
}.

Definition sweepPrintJobs (w : sweep_run) (d0 : db) : SweepResult * db :=
  let '(n1, d1) := sweep_expired (sw_clock w 1) (sw_skip w 1) d0 in
  let '(n2, d2) := sweep_requeue (sw_clock w 2) (sw_skip w 2) d1 in
  let '(n3, d3) := sweep_silent (sw_clock w 3) (sw_skip w 3) d2 in
  let '(n4, d4) := sweep_printing (sw_clock w 4) (sw_skip w 4) d3 in
  let '(n5, d5) := sweep_exhausted_claims (sw_clock w 5) (sw_skip w 5) d4 in
  let '(n6, d6) := sweep_exhausted_queued (sw_clock w 6) (sw_skip w 6) d5 in
  let '(_, d7) := sweep_expired_fences (sw_clock w 7) (sw_order w 7) (sw_skip w 7) d6 in
  let '(_, d8) := sweep_failed_fences (sw_clock w 8) (sw_order w 8) (sw_skip w 8) d7 in
  ({| sr_expired := n1; sr_requeuedClaims := n2; sr_silentDeliveries := n3;
      sr_stalePrinting := n4; sr_exhaustedClaims := n5; sr_exhaustedQueued := n6 |}, d8).
End sweep.

(** ** Retention *)

Section retention.
Context (sha256 : string → string).

Definition receipt_of (row : print_job) : receipt := {|
  rc_tenantId := pj_tenantId row; rc_idempotencyKey := pj_idempotencyKey row;
  rc_fingerprint := idempotencyDigest sha256 {|
    fi_printerId := pj_printerId row; fi_documentType := pj_documentType row;
    fi_destination := pj_destination row; fi_payload := pj_payload row |};
  rc_printerId := pj_printerId row; rc_agentId := pj_agentId row; rc_apiKeyId := pj_apiKeyId row;
  rc_destination := pj_destination row; rc_documentType := pj_documentType row;
  rc_requestedBy := pj_requestedBy row; rc_status := pj_status row; rc_error := pj_error row;
  rc_closedClaimTokenHash := pj_closedClaimTokenHash row; rc_deliveredAt := pj_deliveredAt row;
  rc_ackedAt := pj_ackedAt row; rc_createdAt := pj_createdAt row;
  rc_updatedAt := pj_updatedAt row |}.

(** The unique index on [(tenant_id, idempotency_key)]: [NULL] keys differ. *)
Definition same_key (tenantId : string) (key : option string) (r : receipt) : bool :=
  is_some key && (rc_tenantId r == tenantId) && (rc_idempotencyKey r == key).

Definition key_taken (rs : gmap string receipt) (tenantId : string) (key : option string) : bool :=
  bool_decide (map_Exists (λ _ r, same_key tenantId key r = true) rs).

(** One row of [INSERT ... ON CONFLICT DO NOTHING]; [mk] builds its values. *)
Definition insert_receipt (mk : print_job → receipt) (rs : gmap string receipt)
    (kv : string * print_job) : gmap string receipt :=
  let '(id, row) := kv in
  if is_some (rs !! id) || key_taken rs (pj_tenantId row) (pj_idempotencyKey row) then rs
  else <[id := mk row]> rs.

(** [ids.slice(offset, offset + n)] for offset = 0, n, 2n, ... *)
Fixpoint batches (fuel n : nat) (ids : list string) : list (list string) :=
  match fuel with
  | O => []
  | S fuel =>
      match ids with
      | [] => []
      | _ => take n ids :: batches fuel n (drop n ids)
      end
  end.

Definition rows_of (d : db) (ids : list string) : list (string * print_job) :=
  omap (λ id, (λ j, (id, j)) <$> print_jobs d !! id) ids.

(** Materialise the receipts of one batch and delete its rows. *)
Definition archive_batch (d : db) (batchIds : list string) : nat * db :=
  let rows := rows_of d batchIds in
  match rows with
  | [] => (O, d)
  | _ =>
      (length rows,
       d |> with_receipts (fold_left (insert_receipt receipt_of) rows (receipts d))
         |> with_jobs (filter (λ kv : string * print_job, kv.1 ∉ batchIds) (print_jobs d)))
  end.

Fixpoint archive_batches (d : db) (bs : list (list string)) : nat * db :=
  match bs with
  | [] => (O, d)
  | b :: bs =>
      let '(n, d1) := archive_batch d b in
      let '(m, d2) := archive_batches d1 bs in
      ((n + m)%nat, d2)
  end.

Definition archive_ids (d : db) (ids : list string) : nat * db :=
  archive_batches d (batches (length ids) RECEIPT_MATERIALIZE_BATCH_ROWS ids).

Definition retained_too_long (ck : clock) (scope : option string) (j : print_job) : bool :=
  status_in [success; failed; expired] j && is_none (pj_claimToken j) &&
  (pj_updatedAt j <=? now ck - hours PRINT_JOB_RETENTION_HOURS) && agentFilter scope j.

Definition cleanupTerminalPrintJobs (env : option jsnum) (ck : clock) (scope : option string)
    (skip : gset string) (d : db) : nat * db :=
  let limit := sweep_limit env DEFAULT_RETENTION_BATCH in
  archive_ids d (select_ids (retained_too_long ck scope) pj_updatedAt limit skip (print_jobs d)).
End retention.

(** ** Every sweep statement is a protocol step *)

Lemma maybe_delivered_spec j : maybe_delivered j = negb (no_delivery_evidence j).
Proof.
  unfold maybe_delivered, no_delivery_evidence, is_none.
  destruct (pj_deliveredAt j), (pj_ackedAt j); try done.
  destruct (pj_error j) as [e|]; [|done]. simpl. by rewrite Some_eqb, negb_involutive.
Qed.

Lemma sweep_statement_refines scope n p order skip f d :
  (∀ j, p j = true → row_refines (eq Sweeper) j (f j)) →
  jobs_refine (eq Sweeper) d (sweep_statement scope n p order skip f d).2.
Proof.
  intros Hf. unfold sweep_statement. simpl. apply update_jobs_refines. intros id j Hin Hj.
  pose proof (select_ids_row _ _ _ _ _ _ _ Hin Hj) as Hp. simpl in Hp. bools. by apply Hf.
Qed.

Lemma expire_row_refines ck j : overdue ck j = true → row_refines (eq Sweeper) j (expire_row ck j).
Proof.
  unfold overdue, status_in. intros H. bools. row_step_setup. split; [row_facts|].
  unfold keeps_fence. destruct (pj_status j) eqn:Hs; try set_solver; cbn.
  - eapply one_step; [done|]. apply (ps_close_waiting Sweeper); naive_solver.
  - eapply one_step; [done|]. apply (ps_close_held Sweeper); [done..| |done].
    case_match; naive_solver.
  - eapply one_step; [done|]. apply (ps_close_printing Sweeper); [done..| |done|done].
    case_match; naive_solver.
Qed.

Lemma requeue_row_refines ck j :
  pj_status j = claimed → no_delivery_evidence j = true → within_budgets j = true →
  row_refines (eq Sweeper) j (requeue_row ck j).
Proof.
  unfold within_budgets. intros Hs He Hb. bools. row_step_setup. row_status.
  split; [row_facts|]. rewrite He. eapply one_step; [done|]. by apply ps_requeue.
Qed.

Lemma silent_row_refines ck j : pj_status j = claimed → row_refines (eq Sweeper) j (silent_row ck j).
Proof.
  intros Hs. row_step_setup. row_status. split; [row_facts|].
  eapply one_step; [done|]. apply (ps_close_held Sweeper); naive_solver.
Qed.

Lemma timeout_row_refines ck j : pj_status j = printing → row_refines (eq Sweeper) j (timeout_row ck j).
Proof.
  intros Hs. row_step_setup. row_status. split; [row_facts|].
  eapply one_step; [done|]. apply (ps_close_printing Sweeper); try done.
  case_match; naive_solver.
Qed.

Lemma exhausted_row_refines ck error j :
  pj_status j = claimed ∨ pj_status j = queued → row_refines (eq Sweeper) j (exhausted_row ck error j).
Proof.
  intros [Hs|Hs]; row_step_setup; row_status; (split; [row_facts|]);
    (eapply one_step; [done|]).
  - apply (ps_close_held Sweeper); naive_solver.
  - apply (ps_close_waiting Sweeper); naive_solver.
Qed.

Lemma forget_row_refines j :
  pj_status j = expired ∨ pj_status j = failed → is_some (pj_claimToken j) = true →
  row_refines (eq Sweeper) j (forget_row j).
Proof.
  intros Hs [t Ht]%is_some_true. destruct Hs as [Hs|Hs]; row_step_setup; row_status;
    (split; [row_facts|]); rewrite Ht; (eapply one_step; [done|]); apply ps_forget; naive_solver.
Qed.

Section sweep_refines.
Context (env : option jsnum) (scope : option string) (n : nat).

Lemma sweep_expired_refines ck skip d : jobs_refine (eq Sweeper) d (sweep_expired scope n ck skip d).2.
Proof. apply sweep_statement_refines. intros j Hj. by apply expire_row_refines. Qed.

Lemma sweep_requeue_refines ck skip d : jobs_refine (eq Sweeper) d (sweep_requeue env scope n ck skip d).2.
Proof. apply sweep_statement_refines. intros j Hj. bools. by apply requeue_row_refines. Qed.

Lemma sweep_silent_refines ck skip d : jobs_refine (eq Sweeper) d (sweep_silent env scope n ck skip d).2.
Proof. apply sweep_statement_refines. intros j Hj. bools. by apply silent_row_refines. Qed.

Lemma sweep_printing_refines ck skip d : jobs_refine (eq Sweeper) d (sweep_printing scope n ck skip d).2.
Proof. apply sweep_statement_refines. intros j Hj. bools. by apply timeout_row_refines. Qed.

Lemma sweep_exhausted_claims_refines ck skip d :
  jobs_refine (eq Sweeper) d (sweep_exhausted_claims env scope n ck skip d).2.
Proof. apply sweep_statement_refines. intros j Hj. bools. apply exhausted_row_refines. auto. Qed.

Lemma sweep_exhausted_queued_refines ck skip d :
  jobs_refine (eq Sweeper) d (sweep_exhausted_queued scope n ck skip d).2.
Proof. apply sweep_statement_refines. intros j Hj. bools. apply exhausted_row_refines. auto. Qed.

Lemma sweep_expired_fences_refines ck order skip d :
  jobs_refine (eq Sweeper) d (sweep_expired_fences scope n ck order skip d).2.
Proof. apply sweep_statement_refines. intros j Hj. bools. apply forget_row_refines; auto. Qed.

Lemma sweep_failed_fences_refines ck order skip d :
  jobs_refine (eq Sweeper) d (sweep_failed_fences scope n ck order skip d).2.
Proof. apply sweep_statement_refines. intros j Hj. bools. apply forget_row_refines; auto. Qed.

(** The statements of a run, one after the other. *)
Lemma sweepPrintJobs_db w d :
  (sweepPrintJobs env scope n w d).2 =
  (sweep_failed_fences scope n (sw_clock w 8) (sw_order w 8) (sw_skip w 8)
  (sweep_expired_fences scope n (sw_clock w 7) (sw_order w 7) (sw_skip w 7)
  (sweep_exhausted_queued scope n (sw_clock w 6) (sw_skip w 6)
  (sweep_exhausted_claims env scope n (sw_clock w 5) (sw_skip w 5)
  (sweep_printing scope n (sw_clock w 4) (sw_skip w 4)
  (sweep_silent env scope n (sw_clock w 3) (sw_skip w 3)
  (sweep_requeue env scope n (sw_clock w 2) (sw_skip w 2)
  (sweep_expired scope n (sw_clock w 1) (sw_skip w 1) d).2).2).2).2).2).2).2).2.
Proof.
  unfold sweepPrintJobs.
  destruct (sweep_expired _ _ _ _ d) as [n1 d1]. cbn [snd].
  destruct (sweep_requeue _ _ _ _ _ d1) as [n2 d2]. cbn [snd].
  destruct (sweep_silent _ _ _ _ _ d2) as [n3 d3]. cbn [snd].
  destruct (sweep_printing _ _ _ _ d3) as [n4 d4]. cbn [snd].
  destruct (sweep_exhausted_claims _ _ _ _ _ d4) as [n5 d5]. cbn [snd].
  destruct (sweep_exhausted_queued _ _ _ _ d5) as [n6 d6]. cbn [snd].
  destruct (sweep_expired_fences _ _ _ _ _ d6) as [n7 d7]. cbn [snd].
  by destruct (sweep_failed_fences _ _ _ _ _ d7).
Qed.

Lemma sweepPrintJobs_refines w d : jobs_refine (eq Sweeper) d (sweepPrintJobs env scope n w d).2.
Proof.
  rewrite sweepPrintJobs_db.
  etrans; [|apply sweep_failed_fences_refines]. etrans; [|apply sweep_expired_fences_refines].
  etrans; [|apply sweep_exhausted_queued_refines]. etrans; [|apply sweep_exhausted_claims_refines].
  etrans; [|apply sweep_printing_refines]. etrans; [|apply sweep_silent_refines].
  etrans; [|apply sweep_requeue_refines]. apply sweep_expired_refines.
Qed.
End sweep_refines.

(** ** What a statement does to one row *)

Lemma lookup_sweep scope n p order skip f d id j' :
  print_jobs (sweep_statement scope n p order skip f d).2 !! id = Some j' →
  ∃ j, print_jobs d !! id = Some j ∧ (j' = j ∨ (p j = true ∧ j' = f j)).
Proof.
  unfold sweep_statement. cbn [snd]. rewrite lookup_update_jobs. intros H.
  destruct (print_jobs d !! id) as [j|] eqn:Hj; [|done]. simpl in H. exists j. split; [done|].
  case_bool_decide as Hin; simplify_eq; [|by left]. right.
  pose proof (select_ids_row _ _ _ _ _ _ _ Hin Hj) as Hp. simpl in Hp. by bools.
Qed.

(** A row property that every statement keeps is kept by the run. *)
Lemma sweep_keeps (P : print_job → Prop) env scope n w :
  (∀ ck j, overdue ck j = true → P j → P (expire_row ck j)) →
  (∀ ck j, pj_status j = claimed → no_delivery_evidence j = true → P j → P (requeue_row ck j)) →
  (∀ ck j, pj_status j = claimed → P j → P (silent_row ck j)) →
  (∀ ck j, pj_status j = printing → P j → P (timeout_row ck j)) →
  (∀ ck e j, (pj_status j = claimed ∧ no_delivery_evidence j = true) ∨ pj_status j = queued →
     P j → P (exhausted_row ck e j)) →
  (∀ j, pj_status j = expired ∨ (pj_status j = failed ∧ releasable_error (pj_error j) = true) →
     P j → P (forget_row j)) →
  ∀ d id j', print_jobs (sweepPrintJobs env scope n w d).2 !! id = Some j' →
  ∃ j, print_jobs d !! id = Some j ∧ (P j → P j').
Proof.
  intros He Hr Hs Ht Hx Hf d id j'. rewrite sweepPrintJobs_db.
  intros (j8 & H8 & C8)%lookup_sweep. apply lookup_sweep in H8 as (j7 & H7 & C7).
  apply lookup_sweep in H7 as (j6 & H6 & C6). apply lookup_sweep in H6 as (j5 & H5 & C5).
  apply lookup_sweep in H5 as (j4 & H4 & C4). apply lookup_sweep in H4 as (j3 & H3 & C3).
  apply lookup_sweep in H3 as (j2 & H2 & C2). apply lookup_sweep in H2 as (j1 & H1 & C1).
  exists j1. split; [done|]. intros HP.
  assert (P j2) by (destruct C1 as [->|[? ->]]; [done|]; by apply He).
  assert (P j3) by (destruct C2 as [->|[? ->]]; [done|]; bools; by apply Hr).
  assert (P j4) by (destruct C3 as [->|[? ->]]; [done|]; bools; by apply Hs).
  assert (P j5) by (destruct C4 as [->|[? ->]]; [done|]; bools; by apply Ht).
  assert (P j6) by (destruct C5 as [->|[? ->]]; [done|]; bools; apply Hx; auto).
  assert (P j7) by (destruct C6 as [->|[? ->]]; [done|]; bools; apply Hx; auto).
  assert (P j8) by (destruct C7 as [->|[? ->]]; [done|]; bools; apply Hf; auto).
  destruct C8 as [->|[? ->]]; [done|]; bools; apply Hf; auto.
Qed.

(** The job may be on paper: it is at the printer, or something of it left the
    gateway, or it ended with exactly that recorded. *)
Definition maybe_printed (j : print_job) : Prop :=
  pj_status j = printing ∨ (pj_status j = claimed ∧ maybe_delivered j = true) ∨
  (isTerminal (pj_status j) = true ∧
   derivePhysicalOutcome (status_text (pj_status j)) (pj_error j) = unknown).

(** ** Properties *)


(** ** Progress *)

(** Rows some statement of the sweep may still have to touch. *)
Definition needs_attention (j : print_job) : bool :=
  negb (isTerminal (pj_status j)) || is_some (pj_claimToken j).

(** With room in the batch and no locks elsewhere, a statement reaches every
    row it is for. *)
Lemma sweep_complete n p order f d id :
  (∀ j, p j = true → needs_attention j = true) →
  count_rows needs_attention (print_jobs d) ≤ Z.of_nat n →
  print_jobs (sweep_statement None n p order ∅ f d).2 !! id =
  (λ j, if p j then f j else j) <$> print_jobs d !! id.
Proof.
  intros Hp Hn. unfold sweep_statement. cbn [snd]. rewrite lookup_update_jobs.
  destruct (print_jobs d !! id) as [j|] eqn:Hj; [|done]. simpl. f_equal.
  destruct (p j) eqn:Hpj.
  - rewrite bool_decide_true; [done|]. eapply select_ids_complete; [|done|by rewrite Hpj].
    apply Nat2Z.inj_le. etrans; [|exact Hn]. apply length_select_rows. intros x Hx. bools. auto.
  - case_bool_decide as Hin; [|done].
    pose proof (select_ids_row _ _ _ _ _ _ _ Hin Hj) as H. simpl in H. by rewrite Hpj in H.
Qed.

Lemma sweep_attention scope n p order skip f d :
  (∀ j, p j = true → needs_attention (f j) = true → needs_attention j = true) →
  count_rows needs_attention (print_jobs (sweep_statement scope n p order skip f d).2)
  ≤ count_rows needs_attention (print_jobs d).
Proof.
  intros H. etrans; [apply (count_rows_le needs_attention needs_attention (print_jobs d) _ [])|simpl; lia].
  intros k x' Hx' Hn _. apply lookup_sweep in Hx' as (x & Hx & [->|[Hp ->]]); eauto.
Qed.

Lemma live_needs_attention j : isTerminal (pj_status j) = false → needs_attention j = true.
Proof. intros H. unfold needs_attention. by rewrite H. Qed.

Section progress.
Context (env : option jsnum) (n : nat) (w : sweep_run).
Context (Hskip : ∀ i, sw_skip w i = ∅).

(** The six statements that move jobs, on one row. *)
Definition row_expired (j : print_job) : print_job :=
  if overdue (sw_clock w 1) j then expire_row (sw_clock w 1) j else j.

Definition row_requeue (j : print_job) : print_job :=
  if (pj_status j == claimed) && no_delivery_evidence j &&
     lease_over (sw_clock w 2) (agentStaleThresholdSeconds env) j && within_budgets j &&
     (now (sw_clock w 2) <? pj_expiresAt j) then requeue_row (sw_clock w 2) j else j.

Definition row_silent (j : print_job) : print_job :=
  if (pj_status j == claimed) && maybe_delivered j &&
     lease_over (sw_clock w 3) (agentStaleThresholdSeconds env) j
  then silent_row (sw_clock w 3) j else j.

Definition row_printing (j : print_job) : print_job :=
  if (pj_status j == printing) && lease_over (sw_clock w 4) STALE_PRINTING_SECONDS j
  then timeout_row (sw_clock w 4) j else j.

Definition row_exhausted_claim (j : print_job) : print_job :=
  if (pj_status j == claimed) && no_delivery_evidence j &&
     lease_over (sw_clock w 5) (agentStaleThresholdSeconds env) j && budget_spent j
  then exhausted_row (sw_clock w 5)
         "exceeded max retries after a stale claim (agent likely crashed or lost connection)" j
  else j.

Definition row_exhausted_queued (j : print_job) : print_job :=
  if (pj_status j == queued) && (now (sw_clock w 6) <? pj_expiresAt j) && budget_spent j
  then exhausted_row (sw_clock w 6) "exceeded max retries before delivery" j else j.

Definition sweep_row (j : print_job) : print_job :=
  row_exhausted_queued (row_exhausted_claim (row_printing (row_silent (row_requeue (row_expired j))))).

Lemma attend_status s j : pj_status j = s → isTerminal s = false → needs_attention j = true.
Proof. intros <-. apply live_needs_attention. Qed.

Ltac attends := let j := fresh in let Hj := fresh in
  intros j Hj; bools; eapply attend_status; [eassumption|reflexivity].

Lemma overdue_attends ck j : overdue ck j = true → needs_attention j = true.
Proof.
  unfold overdue, status_in. intros H. bools. apply live_needs_attention.
  destruct (pj_status j); try done; set_solver.
Qed.

Ltac attention_step := etrans; [apply sweep_attention; intros ? Hj _;
  bools; eapply attend_status; [eassumption|reflexivity]|assumption].

Lemma sweep_progress_row d id j' :
  count_rows needs_attention (print_jobs d) ≤ Z.of_nat n →
  print_jobs (sweepPrintJobs env None n w d).2 !! id = Some j' →
  isTerminal (pj_status j') = false →
  ∃ j, print_jobs d !! id = Some j ∧ j' = sweep_row j.
Proof.
  intros H0. rewrite sweepPrintJobs_db. rewrite !Hskip.
  set (d1 := (sweep_expired _ _ _ _ d).2). set (d2 := (sweep_requeue _ _ _ _ _ d1).2).
  set (d3 := (sweep_silent _ _ _ _ _ d2).2). set (d4 := (sweep_printing _ _ _ _ d3).2).
  set (d5 := (sweep_exhausted_claims _ _ _ _ _ d4).2).
  set (d6 := (sweep_exhausted_queued _ _ _ _ d5).2).
  assert (count_rows needs_attention (print_jobs d1) ≤ Z.of_nat n) as H1
    by (etrans; [apply sweep_attention; intros j Hj _; exact (overdue_attends _ _ Hj)|done]).
  assert (count_rows needs_attention (print_jobs d2) ≤ Z.of_nat n) as H2 by attention_step.
  assert (count_rows needs_attention (print_jobs d3) ≤ Z.of_nat n) as H3 by attention_step.
  assert (count_rows needs_attention (print_jobs d4) ≤ Z.of_nat n) as H4 by attention_step.
  assert (count_rows needs_attention (print_jobs d5) ≤ Z.of_nat n) as H5 by attention_step.
  intros (j8 & H8 & C8)%lookup_sweep Hlive.
  assert (j' = j8) as ->.
  { destruct C8 as [->|[? ->]]; [done|]. bools. cbn in Hlive. by rewrite H in Hlive. }
  clear C8. apply lookup_sweep in H8 as (j7 & H7 & C7).
  assert (j8 = j7) as ->.
  { destruct C7 as [->|[? ->]]; [done|]. bools. cbn in Hlive. by rewrite H in Hlive. }
  clear C7. revert H7.
  assert (print_jobs d6 !! id = row_exhausted_queued <$> print_jobs d5 !! id) as ->
    by (apply sweep_complete; [attends|done]).
  assert (print_jobs d5 !! id = row_exhausted_claim <$> print_jobs d4 !! id) as ->
    by (apply sweep_complete; [attends|done]).
  assert (print_jobs d4 !! id = row_printing <$> print_jobs d3 !! id) as ->
    by (apply sweep_complete; [attends|done]).
  assert (print_jobs d3 !! id = row_silent <$> print_jobs d2 !! id) as ->
    by (apply sweep_complete; [attends|done]).
  assert (print_jobs d2 !! id = row_requeue <$> print_jobs d1 !! id) as ->
    by (apply sweep_complete; [attends|done]).
  assert (print_jobs d1 !! id = row_expired <$> print_jobs d !! id) as ->
    by (apply sweep_complete; [intros j; apply overdue_attends|done]).
  destruct (print_jobs d !! id) as [j|]; [|done]. cbn [fmap option_fmap option_map].
  intros Heq. apply (inj Some) in Heq. exists j. split; [reflexivity|]. symmetry. exact Heq.
Qed.
End progress.

Lemma budget_spent_spec j : budget_spent j = negb (within_budgets j).
Proof.
  unfold budget_spent, within_budgets. rewrite negb_andb, !Z.leb_antisym. done.
Qed.

(** A statement that ends jobs left the row alone if it is still open. *)
Ltac still_open f := intros Hopen; unfold f in *; case_if; [discriminate Hopen|done].

Section still_open.
Context (env : option jsnum) (w : sweep_run) (j : print_job).

Lemma row_expired_open :
  isTerminal (pj_status (row_expired w j)) = false →
  row_expired w j = j ∧ overdue (sw_clock w 1) j = false.
Proof. still_open row_expired. Qed.

Lemma row_silent_open :
  isTerminal (pj_status (row_silent env w j)) = false →
  row_silent env w j = j ∧
  (pj_status j == claimed) && maybe_delivered j &&
    lease_over (sw_clock w 3) (agentStaleThresholdSeconds env) j = false.
Proof. still_open row_silent. Qed.

Lemma row_printing_open :
  isTerminal (pj_status (row_printing w j)) = false →
  row_printing w j = j ∧
  (pj_status j == printing) && lease_over (sw_clock w 4) STALE_PRINTING_SECONDS j = false.
Proof. still_open row_printing. Qed.

Lemma row_exhausted_claim_open :
  isTerminal (pj_status (row_exhausted_claim env w j)) = false →
  row_exhausted_claim env w j = j ∧
  (pj_status j == claimed) && no_delivery_evidence j &&
    lease_over (sw_clock w 5) (agentStaleThresholdSeconds env) j && budget_spent j = false.
Proof. still_open row_exhausted_claim. Qed.

Lemma row_exhausted_queued_open :
  isTerminal (pj_status (row_exhausted_queued w j)) = false →
  row_exhausted_queued w j = j ∧
  (pj_status j == queued) && (now (sw_clock w 6) <? pj_expiresAt j) && budget_spent j = false.
Proof. still_open row_exhausted_queued. Qed.

(** The requeue keeps a row open either way. *)
Lemma row_requeue_terminal :
  isTerminal (pj_status (row_requeue env w j)) = false → isTerminal (pj_status j) = false.
Proof. unfold row_requeue. case_if; [|done]. bools. by row_status. Qed.

Lemma row_requeue_claimed :
  pj_status (row_requeue env w j) = claimed →
  row_requeue env w j = j ∧
  no_delivery_evidence j && lease_over (sw_clock w 2) (agentStaleThresholdSeconds env) j &&
    within_budgets j && (now (sw_clock w 2) <? pj_expiresAt j) = false.
Proof.
  unfold row_requeue. case_if; [done|]. intros Hs. split; [done|].
  rewrite Hs, bool_decide_true in Heqb by done. exact Heqb.
Qed.

Lemma row_requeue_expiresAt : pj_expiresAt (row_requeue env w j) = pj_expiresAt j.
Proof. unfold row_requeue. by case_if. Qed.

Lemma not_overdue_open ck :
  overdue ck j = false → isTerminal (pj_status j) = false → now ck < pj_expiresAt j.
Proof.
  unfold overdue, status_in. intros [Ho|Ho]%andb_false_iff Ht; bools; [|lia].
  exfalso. apply isTerminal_false in Ht as [Ht|[Ht|Ht]]; rewrite Ht in Ho; set_solver.
Qed.
End still_open.

(** C12. After an unobstructed sweep nothing is left behind that the sweep is there
    to move: every job that is still open has not expired, a claim still open
    is within its lease, a job at the printer is within its execution time,
    and a queued one has budget left. (The clock may advance between the
    statements; a job that expires meanwhile is the next run's.) *)
Theorem sweep_leaves_nothing_stuck env n w d id j'
  (Hskip : ∀ i, sw_skip w i = ∅)
  (Hmono : ∀ i k, (i ≤ k)%nat → now (sw_clock w i) ≤ now (sw_clock w k))
  (Hroom : count_rows needs_attention (print_jobs d) ≤ Z.of_nat n)
  (Hafter : print_jobs (sweepPrintJobs env None n w d).2 !! id = Some j')
  (Hopen : isTerminal (pj_status j') = false) :
  now (sw_clock w 1) < pj_expiresAt j' ∧
  (pj_status j' = claimed →
     now (sw_clock w 1) - secs (agentStaleThresholdSeconds env) ≤ pj_updatedAt j' ∨
     pj_expiresAt j' ≤ now (sw_clock w 2)) ∧
  (pj_status j' = printing → now (sw_clock w 1) - secs STALE_PRINTING_SECONDS ≤ pj_updatedAt j') ∧
  (pj_status j' = queued → within_budgets j' = true ∨ pj_expiresAt j' ≤ now (sw_clock w 6)).
Proof.
  destruct (sweep_progress_row env n w Hskip d id j' Hroom Hafter Hopen) as (j & _ & Hj').
  clear Hafter Hroom Hskip. unfold sweep_row in Hj'. subst j'.
  pose proof (Hmono 1 3 ltac:(lia))%nat. pose proof (Hmono 1 2 ltac:(lia))%nat.
  pose proof (Hmono 1 4 ltac:(lia))%nat. pose proof (Hmono 1 5 ltac:(lia))%nat. clear Hmono.
  destruct (row_exhausted_queued_open _ _ Hopen) as [E6 G6]. rewrite E6 in *. clear E6.
  destruct (row_exhausted_claim_open _ _ _ Hopen) as [E5 G5]. rewrite E5 in *. clear E5.
  destruct (row_printing_open _ _ Hopen) as [E4 G4]. rewrite E4 in *. clear E4.
  destruct (row_silent_open _ _ _ Hopen) as [E3 G3]. rewrite E3 in *. clear E3.
  pose proof (row_requeue_terminal _ _ _ Hopen) as Hopen1.
  destruct (row_expired_open _ _ Hopen1) as [E1 G1]. rewrite E1 in *. clear E1 Hopen1.
  rewrite budget_spent_spec in *. rewrite maybe_delivered_spec in G3.
  unfold lease_over in *. split; [|split; [|split]].
  - rewrite row_requeue_expiresAt. apply not_overdue_open; [done|].
    by eapply row_requeue_terminal.
  - intros Hs. destruct (row_requeue_claimed _ _ _ Hs) as [E2 G2]. rewrite E2 in *.
    rewrite Hs, !bool_decide_true in * by done. simpl in *.
    destruct (no_delivery_evidence j); simpl in *; bools; [|lia].
    destruct (within_budgets j); simpl in *; [|rewrite andb_true_r in G5; bools; lia].
    unfold lease_over in G2. rewrite andb_true_r in G2.
    apply andb_false_iff in G2 as [G2|G2]; bools; lia.
  - intros Hs. rewrite Hs, bool_decide_true in G4 by done. simpl in G4. bools. lia.
  - intros Hs. rewrite Hs, bool_decide_true in G6 by done. simpl in G6.
    destruct (within_budgets _); [by left|right]. rewrite andb_true_r in G6. by bools.
Qed.

(** ** Retention *)

(** One logical request, one record: no job shares its id or its idempotency
    key with a receipt or with another job. *)
Definition same_request (t : string) (k : option string) (j : print_job) : Prop :=
  is_Some k ∧ pj_tenantId j = t ∧ pj_idempotencyKey j = k.

Definition keys_ok (jobs : gmap string print_job) (rs : gmap string receipt) : Prop :=
  (∀ id j, jobs !! id = Some j →
     rs !! id = None ∧ key_taken rs (pj_tenantId j) (pj_idempotencyKey j) = false) ∧
  (∀ id1 id2 j1 j2, jobs !! id1 = Some j1 → jobs !! id2 = Some j2 →
     same_request (pj_tenantId j1) (pj_idempotencyKey j1) j2 → id1 = id2) ∧
  (∀ id1 id2 r1 r2, rs !! id1 = Some r1 → rs !! id2 = Some r2 →
     same_key (rc_tenantId r1) (rc_idempotencyKey r1) r2 = true → id1 = id2).

Lemma key_taken_false rs t k :
  key_taken rs t k = false ↔ ∀ id r, rs !! id = Some r → same_key t k r = false.
Proof.
  unfold key_taken. rewrite bool_decide_eq_false. split.
  - intros H id r Hr. apply not_true_iff_false. intros Hs. apply H. by exists id, r.
  - intros H (id & r & Hr & Hs). by rewrite (H _ _ Hr) in Hs.
Qed.

(** A receipt of a row carries the row's tenant and key. *)
Definition receipt_maker (mk : print_job → receipt) : Prop :=
  ∀ j, rc_tenantId (mk j) = pj_tenantId j ∧ rc_idempotencyKey (mk j) = pj_idempotencyKey j.

Section archive.
Context (mk : print_job → receipt) (Hmk : receipt_maker mk).

Lemma insert_receipt_free rs id j :
  rs !! id = None → key_taken rs (pj_tenantId j) (pj_idempotencyKey j) = false →
  insert_receipt mk rs (id, j) = <[id := mk j]> rs.
Proof. intros H1 H2. unfold insert_receipt. by rewrite H1, H2. Qed.

(** Archiving one row keeps the invariant for the rows that remain. *)
Lemma keys_ok_archive_one jobs rs id j :
  keys_ok jobs rs → jobs !! id = Some j →
  keys_ok (delete id jobs) (<[id := mk j]> rs).
Proof.
  intros (H1 & H2 & H3) Hj. split_and!.
  - intros id' j' [Hne Hj']%lookup_delete_Some. destruct (H1 _ _ Hj') as [Hn Hk].
    rewrite lookup_insert_ne by done. split; [done|]. rewrite key_taken_false in *.
    intros id'' r [[<- <-]|[Hne' Hr]]%lookup_insert_Some; [|eauto].
    destruct (Hmk j) as [Mt Mk].
    apply not_true_iff_false. unfold same_key. intros Hs. bools.
    apply is_some_true in H. apply Hne. eapply H2; [done..|]. unfold same_request. split_and!; congruence.
  - intros id1 id2 j1 j2 [_ Hj1]%lookup_delete_Some [_ Hj2]%lookup_delete_Some. eauto.
  - destruct (H1 _ _ Hj) as [_ Hk]. rewrite key_taken_false in Hk.
    intros id1 id2 r1 r2 [[<- <-]|[Hn1 Hr1]]%lookup_insert_Some [[<- <-]|[Hn2 Hr2]]%lookup_insert_Some Hs;
      [done| | |by eauto]; exfalso.
    + specialize (Hk _ _ Hr2). destruct (Hmk j) as [Mt Mk]. rewrite Mt, Mk in Hs. congruence.
    + specialize (Hk _ _ Hr1). revert Hk. apply not_false_iff_true.
      destruct (Hmk j) as [Mt Mk].
      unfold same_key in *. bools. bsplit; congruence.
Qed.

Lemma fold_receipts rows rs jobs :
  NoDup rows.*1 → (∀ id j, (id, j) ∈ rows → jobs !! id = Some j) → keys_ok jobs rs →
  let rs' := fold_left (insert_receipt mk) rows rs in
  let jobs' := filter (λ kv : string * print_job, kv.1 ∉ rows.*1) jobs in
  keys_ok jobs' rs' ∧
  (∀ id j, (id, j) ∈ rows → rs' !! id = Some (mk j)) ∧
  (∀ id, id ∉ rows.*1 → rs' !! id = rs !! id).
Proof.
  revert rs jobs. induction rows as [|[id j] rows IH]; intros rs jobs Hnd Hin Hok; cbn zeta.
  { simpl. rewrite map_filter_id by set_solver. split; [done|]. split; [set_solver|done]. }
  apply NoDup_cons in Hnd as [Hni Hnd].
  assert (jobs !! id = Some j) as Hj by (apply Hin; set_solver).
  destruct (proj1 Hok _ _ Hj) as [Hn Hk].
  rewrite fmap_cons. cbn [fold_left fst]. rewrite insert_receipt_free by done.
  destruct (IH (<[id := mk j]> rs) (delete id jobs)) as (Hok' & Hrec & Hsame).
  - done.
  - intros id' j' Hin'. rewrite lookup_delete_ne; [apply Hin; set_solver|].
    intros ->. apply Hni. apply list_elem_of_fmap. by exists (id', j').
  - by apply keys_ok_archive_one.
  - split_and!.
    + replace (filter (λ kv : string * print_job, kv.1 ∉ id :: rows.*1) jobs)
        with (filter (λ kv : string * print_job, kv.1 ∉ rows.*1) (delete id jobs)); [done|].
      apply map_eq. intros k. apply option_eq. intros x.
      rewrite !map_lookup_filter_Some, lookup_delete_Some. simpl. set_solver.
    + intros id' j' [[= -> ->]|Hin']%elem_of_cons; [|by apply Hrec].
      rewrite Hsame by done. by rewrite lookup_insert_eq.
    + intros id' Hni'. rewrite Hsame by set_solver. rewrite lookup_insert_ne; set_solver.
Qed.
End archive.

(** What archiving a set of ids means for the database. *)
Definition archived (sha256 : string → string) (ids : list string) (d d' : db) : Prop :=
  (∀ id j, id ∈ ids → print_jobs d !! id = Some j →
     print_jobs d' !! id = None ∧ receipts d' !! id = Some (receipt_of sha256 j)) ∧
  (∀ id, id ∉ ids → print_jobs d' !! id = print_jobs d !! id) ∧
  (∀ id r, receipts d !! id = Some r → receipts d' !! id = Some r) ∧
  keys_ok (print_jobs d') (receipts d').

Lemma elem_of_rows_of d ids id j :
  (id, j) ∈ rows_of d ids ↔ id ∈ ids ∧ print_jobs d !! id = Some j.
Proof.
  unfold rows_of. rewrite list_elem_of_omap. split.
  - intros (x & Hx & Hm). destruct (print_jobs d !! x) eqn:E; simpl in Hm; naive_solver.
  - intros [Hi Hj]. exists id. by rewrite Hj.
Qed.

Lemma rows_of_NoDup d ids : NoDup ids → NoDup (rows_of d ids).*1.
Proof.
  intros Hnd. eapply sublist_NoDup; [exact Hnd|]. clear Hnd. unfold rows_of.
  induction ids as [|id ids IH]; simpl; [constructor|].
  destruct (print_jobs d !! id); simpl; by constructor.
Qed.

Section archive_batches.
Context (sha256 : string → string).

Lemma archive_batch_spec d b :
  NoDup b → keys_ok (print_jobs d) (receipts d) →
  archived sha256 b d (archive_batch sha256 d b).2.
Proof.
  intros Hnd Hok. unfold archive_batch.
  destruct (fold_receipts (receipt_of sha256) (λ j, conj eq_refl eq_refl) (rows_of d b) (receipts d) (print_jobs d)) as (Hok' & Hrec & Hsame);
    [by apply rows_of_NoDup|intros id j [_ Hj]%elem_of_rows_of; exact Hj|done|].
  assert (∀ id, id ∈ (rows_of d b).*1 ↔ id ∈ b ∧ is_Some (print_jobs d !! id)) as Hids.
  { intros id. rewrite list_elem_of_fmap. split.
    - intros ([id' j] & -> & [Hb Hj]%elem_of_rows_of). simpl. split; [done|by exists j].
    - intros (Hb & j & Hj). exists (id, j). by rewrite elem_of_rows_of. }
  assert (filter (λ kv : string * print_job, kv.1 ∉ (rows_of d b).*1) (print_jobs d)
          = filter (λ kv : string * print_job, kv.1 ∉ b) (print_jobs d)) as Hf.
  { apply map_filter_ext. intros id j Hj. simpl. rewrite Hids. naive_solver. }
  rewrite Hf in Hok'. destruct (rows_of d b) as [|kv rows] eqn:Hrows.
  - simpl. split_and!; [|done..|done].
    intros id j Hb Hj. exfalso. assert ((id, j) ∈ rows_of d b) as Hin by (by apply elem_of_rows_of).
    rewrite Hrows in Hin. set_solver.
  - rewrite <-Hrows in *. cbn [snd]. split_and!; [| | |exact Hok'].
    + intros id j Hb Hj. simpl. split.
      * apply map_lookup_filter_None. right. intros x _. simpl. by intros ?.
      * apply Hrec. by apply elem_of_rows_of.
    + intros id Hni. simpl. apply option_eq. intros x.
      rewrite map_lookup_filter_Some. simpl. naive_solver.
    + intros id r Hr. simpl. rewrite Hsame; [done|]. rewrite Hids. intros [_ [j Hj]].
      destruct (proj1 Hok _ _ Hj) as [Hn _]. congruence.
Qed.

Lemma archive_batches_spec bs d :
  NoDup (concat bs) → keys_ok (print_jobs d) (receipts d) →
  archived sha256 (concat bs) d (archive_batches sha256 d bs).2.
Proof.
  revert d. induction bs as [|b bs IH]; intros d Hnd Hok; simpl.
  { split_and!; [set_solver|done..]. }
  apply NoDup_app in Hnd as (Hb & Hdisj & Hbs).
  pose proof (archive_batch_spec d b Hb Hok) as (A1 & A2 & A3 & A4).
  destruct (archive_batch sha256 d b) as [n d1]. cbn [snd] in *.
  destruct (IH d1 Hbs A4) as (B1 & B2 & B3 & B4).
  destruct (archive_batches sha256 d1 bs) as [m d2]. cbn [snd] in *. split_and!; [| |eauto|done].
  - intros id j [Hin|Hin]%elem_of_app Hj.
    + destruct (A1 _ _ Hin Hj) as [Hn Hr]. rewrite B2; [by eauto|]. by apply Hdisj.
    + eapply B1; [done|]. rewrite A2; [done|]. intros Hb'. by eapply Hdisj.
  - intros id [? ?]%not_elem_of_app. rewrite B2, A2; done.
Qed.

Lemma concat_batches fuel k ids :
  (0 < k)%nat → (length ids ≤ fuel)%nat → concat (batches fuel k ids) = ids.
Proof.
  intros Hk. revert ids. induction fuel as [|fuel IH]; intros ids Hlen.
  { by destruct ids; simpl in *; [|lia]. }
  destruct ids as [|x ids]; [done|]. cbn [batches concat].
  rewrite IH; [by rewrite take_drop|]. rewrite length_drop. simpl in *. lia.
Qed.

Lemma archive_ids_spec d ids :
  NoDup ids → keys_ok (print_jobs d) (receipts d) →
  archived sha256 ids d (archive_ids sha256 d ids).2.
Proof.
  intros Hnd Hok. unfold archive_ids.
  pose proof (archive_batches_spec (batches (length ids) RECEIPT_MATERIALIZE_BATCH_ROWS ids) d) as H.
  rewrite concat_batches in H by (unfold RECEIPT_MATERIALIZE_BATCH_ROWS; lia). auto.
Qed.
End archive_batches.

(** Archiving only removes rows. *)
Lemma archive_batch_subset sha256 d b : print_jobs (archive_batch sha256 d b).2 ⊆ print_jobs d.
Proof.
  unfold archive_batch. destruct (rows_of d b); [done|]. simpl. apply map_filter_subseteq.
Qed.

Lemma archive_ids_subset sha256 d ids : print_jobs (archive_ids sha256 d ids).2 ⊆ print_jobs d.
Proof.
  unfold archive_ids. generalize (batches (length ids) RECEIPT_MATERIALIZE_BATCH_ROWS ids) as bs.
  intros bs. revert d. induction bs as [|b bs IH]; intros d; simpl; [done|].
  pose proof (archive_batch_subset sha256 d b) as H.
  destruct (archive_batch sha256 d b) as [n d1]. specialize (IH d1).
  destruct (archive_batches sha256 d1 bs) as [m d2]. simpl in *. by etrans.
Qed.

Lemma archive_ids_refines sha256 who d ids : jobs_refine who d (archive_ids sha256 d ids).2.
Proof.
  intros id j Hj. exists j. split; [|reflexivity].
  by eapply lookup_weaken; [|apply archive_ids_subset].
Qed.

(** ** Properties *)

(** Retention removes only terminal jobs whose fence is gone and that have
    been untouched for 48 hours; for each of them it leaves a receipt with the
    request's fingerprint and the recorded outcome, it keeps every receipt it
    finds, and it keeps ids and idempotency keys unique across both tables. *)
Theorem retention_archives sha256 env ck scope skip d
  (Hkeys : keys_ok (print_jobs d) (receipts d)) :
  let d' := (cleanupTerminalPrintJobs sha256 env ck scope skip d).2 in
  (∀ id j, print_jobs d !! id = Some j →
     print_jobs d' !! id = Some j ∨
     (print_jobs d' !! id = None ∧ receipts d' !! id = Some (receipt_of sha256 j) ∧
      isTerminal (pj_status j) = true ∧ pj_claimToken j = None ∧
      pj_updatedAt j + hours PRINT_JOB_RETENTION_HOURS ≤ now ck)) ∧
  (∀ id r, receipts d !! id = Some r → receipts d' !! id = Some r) ∧
  print_jobs d' ⊆ print_jobs d ∧ keys_ok (print_jobs d') (receipts d').
Proof.
  unfold cleanupTerminalPrintJobs.
  destruct (archive_ids_spec sha256 d (select_ids (retained_too_long ck scope) pj_updatedAt
    (sweep_limit env DEFAULT_RETENTION_BATCH) skip (print_jobs d)))
    as (A1 & A2 & A3 & A4); [apply select_ids_NoDup|done|].
  split; [|split; [done|]; split; [apply archive_ids_subset|done]]. intros id j Hj. destruct (decide (id ∈ select_ids (retained_too_long ck scope)
    pj_updatedAt (sweep_limit env DEFAULT_RETENTION_BATCH) skip (print_jobs d))) as [Hin|Hni].
  - right. destruct (A1 _ _ Hin Hj) as [Hn Hr].
    pose proof (select_ids_row _ _ _ _ _ _ _ Hin Hj) as Hp.
    unfold retained_too_long, status_in in Hp. bools. rewrite is_none_true in *.
    split_and!; [done|done| |done|lia].
    apply isTerminal_spec. set_solver.
  - left. rewrite A2 by done. exact Hj.
Qed.

(** ** Witnesses *)

Definition idle_run (t : Z) : sweep_run := {|
  sw_clock := λ _, at_time t; sw_skip := λ _, ∅; sw_order := λ _, pj_updatedAt |}.

(** A job handed to the agent long ago, with no report since. *)
Definition silent_job : print_job := claimed_job "tok" |> set_deliveredAt (Some 1500).

Definition done_job : print_job := sample_job |> set_status success |> set_deliveredAt (Some 1500).


Lemma sweep_leaves_nothing_stuck_witness :
  now (at_time 2000) < pj_expiresAt sample_job.
Proof.
  refine (proj1 (sweep_leaves_nothing_stuck None 200 (idle_run 2000) queued_db "j1" sample_job
    _ _ _ _ _)).
  - reflexivity.
  - intros i k _. apply Z.le_refl.
  - vm_compute. discriminate.
  - vm_compute. reflexivity.
  - reflexivity.
Defined.

Lemma keys_ok_sample :
  keys_ok (print_jobs (gateway_db {["j1" := done_job]})) (receipts (gateway_db {["j1" := done_job]})).
Proof.
  split_and!; simpl.
  - intros id j Hj. split; [by rewrite lookup_empty|]. apply key_taken_false.
    intros id' r Hr. by rewrite lookup_empty in Hr.
  - intros id1 id2 j1 j2 [<- _]%lookup_singleton_Some [<- _]%lookup_singleton_Some. done.
  - intros id1 id2 r1 r2 Hr. by rewrite lookup_empty in Hr.
Qed.

Lemma retention_archives_witness :
  receipts (cleanupTerminalPrintJobs id None (at_time (hours 60)) None ∅
    (gateway_db {["j1" := done_job]})).2 !! "j1" = Some (receipt_of id done_job).
Proof.
  destruct (proj1 (retention_archives id None (at_time (hours 60)) None ∅
    (gateway_db {["j1" := done_job]}) keys_ok_sample) "j1" done_job) as [H|(_ & H & _)].
  - vm_compute. reflexivity.
  - exfalso. revert H. vm_compute. discriminate.
  - exact H.
Defined.
