(* ===== verification/AgentJobs.v ===== *)
(** * The agent's job endpoint

    [src/app/api/agent/jobs/route.ts]: [GET] claims a bounded batch of jobs in
    one transaction; [PATCH] reports what became of one.

    [PATCH] reads the job first and writes later, so it takes the database as
    it was read ([d_read]) and as it is at the write ([d]), which may differ in
    any way: what makes the write safe has to be in its own [WHERE] clause.
    Between the two it may try to acknowledge a replay against [d_ack]. The
    timeline, the metrics and the logs are left out. *)

From S2P Require Import Prelude DatabaseTime JobStatus Json Schema Availability Capability.
From S2P Require Import Entitlements Samples JobProtocol JobDelivery JobMaintenance.

Definition MAX_CLAIM_BATCH : Z := 20.
Definition MAX_ERROR_LENGTH : nat := 2000.
Definition MAX_POLL_RESPONSE_BYTES : Z := 64 * 1024 * 1024.
Definition POLL_ROW_OVERHEAD_BYTES : Z := 2048.

(** The authenticated agent: [agent.id], [agent.tenantId]. *)
Record agent_identity := { ai_id : string; ai_tenantId : string }.

Definition printerEligibilityPredicate (d : db) (ck : clock) (tenantId : string) (pr : printer)
    : bool :=
  printer_ready ck pr && liveTenantSubscriptionPredicate d ck tenantId true.

(** ** [GET]: the poll claim *)

(** The joins on agent, printer and tenant with their conditions. *)
Definition poll_runtime (env : option jsnum) (ck : clock) (d : db) (j : print_job) : bool :=
  owner_live env ck d j &&
  match printers d !! (pj_tenantId j, pj_printerId j) with
  | Some pr => printerEligibilityPredicate d ck (pj_tenantId j) pr
  | None => false
  end.

Definition stale_candidate (env : option jsnum) (ck : clock) (d : db) (agentId : string)
    (j : print_job) : bool :=
  (pj_agentId j == agentId) && (now ck <? pj_expiresAt j) && (pj_status j == claimed) &&
  is_none (pj_deliveredAt j) && is_none (pj_ackedAt j) &&
  (coalesce (pj_error j) "" != DELIVERY_EVIDENCE_PENDING) &&
  (pj_updatedAt j <? now ck - secs (agentStaleThresholdSeconds env)) &&
  (pj_retries j <? MAX_RETRIES) && (pj_deliveryAttempts j <? MAX_DELIVERY_ATTEMPTS) &&
  poll_runtime env ck d j.

Definition queued_candidate (env : option jsnum) (ck : clock) (d : db) (agentId : string)
    (queuedLimit : Z) (j : print_job) : bool :=
  (pj_agentId j == agentId) && (now ck <? pj_expiresAt j) && (pj_status j == queued) &&
  (coalesce (pj_error j) "" != PRINTER_NOT_SHARED_PAUSE) &&
  (pj_deliveryAttempts j <? MAX_DELIVERY_ATTEMPTS) && (pj_retries j <? MAX_RETRIES) &&
  (0 <? queuedLimit) && poll_runtime env ck d j.

(** [ORDER BY c.priority, c.created_at, c.id]. *)
Definition candidate : Type := nat * Z * string.
Definition rank_le (a b : candidate) : Prop :=
  (a.1.1 < b.1.1)%nat ∨ (a.1.1 = b.1.1 ∧ (a.1.2 < b.1.2 ∨ (a.1.2 = b.1.2 ∧ String.le a.2 b.2))).
#[export] Instance rank_le_dec : RelDecision rank_le.
Proof. intros a b. unfold rank_le. apply _. Defined.

Definition candidates_of (d : db) (priority : nat) (ids : list string) : list candidate :=
  omap (λ id, (λ j, (priority, pj_createdAt j, id)) <$> print_jobs d !! id) ids.

(** The rows the poll may take: stale claims first, then the queue, oldest
    first, without the rows in [skip] and within the free slots. *)
Definition claimable (env : option jsnum) (ck : clock) (d : db) (agentId : string) (queuedLimit : Z)
    (skip : gset string) : list string :=
  let limit := Z.to_nat queuedLimit in
  let stale := select_ids (stale_candidate env ck d agentId) pj_createdAt limit ∅ (print_jobs d) in
  let fresh := select_ids (queued_candidate env ck d agentId queuedLimit) pj_createdAt limit ∅
                 (print_jobs d) in
  take limit (filter (λ id, id ∉ skip)
    (merge_sort rank_le (candidates_of d 0 stale ++ candidates_of d 1 fresh)).*2).

Section poll.
(** [octet_length(payload::text)]. *)
Context (octets : json → Z).

(** The running sum of the estimated response size, row by row. *)
Fixpoint ranked (d : db) (total : Z) (ids : list string) : list (string * Z) :=
  match ids with
  | [] => []
  | id :: ids =>
      let total' := total + match print_jobs d !! id with
                            | Some j => octets (pj_payload j) + POLL_ROW_OVERHEAD_BYTES
                            | None => 0
                            end in
      (id, total') :: ranked d total' ids
  end.

Definition bounded_claimable (d : db) (ids : list string) : list string :=
  (filter (λ r : string * Z, r.2 ≤ MAX_POLL_RESPONSE_BYTES) (ranked d 0 ids)).*1.

Definition poll_row (ck : clock) (token : string) (j : print_job) : print_job :=
  j |> set_status claimed
    |> set_claimedAt (Some (clock_timestamp ck))
    |> set_updatedAt (clock_timestamp ck)
    |> set_claimToken (Some token)
    |> set_closedClaimTokenHash None
    |> set_ackedAt None
    |> set_deliveredAt None
    |> set_error (Some DELIVERY_EVIDENCE_PENDING)
    |> set_deliveryAttempts (pj_deliveryAttempts j + 1)
    |> set_retries (if pj_status j == claimed then pj_retries j + 1 else pj_retries j).

Definition poll_slots (env : option jsnum) (ck : clock) (d : db) (agentId : string) : Z :=
  let remainingSlots := Z.max 0 (MAX_AGENT_IN_FLIGHT_JOBS - in_flight env ck d agentId) in
  Z.min MAX_CLAIM_BATCH remainingSlots.

(** The ids the [UPDATE] hits. *)
Definition poll_ids (env : option jsnum) (ck : clock) (skip : gset string) (a : agent_identity)
    (d : db) : list string :=
  filter (λ id, match print_jobs d !! id with
                | Some j => liveTenantSubscriptionPredicate d ck (pj_tenantId j) true
                | None => false
                end = true)
    (bounded_claimable d (claimable env ck d (ai_id a) (poll_slots env ck d (ai_id a)) skip)).

(** [gen_random_uuid()] is evaluated once per row: [token id]. *)
Definition claim_batch (ck : clock) (token : string → string) (ids : list string) (d : db) : db :=
  with_jobs (map_imap (λ id j, Some (if bool_decide (id ∈ ids) then poll_row ck (token id) j else j))
               (print_jobs d)) d.

Definition claimJobs (env : option jsnum) (ck : clock) (token : string → string)
    (skip : gset string) (a : agent_identity) (d : db) : list (string * print_job) * db :=
  if negb (tenant_active d (ai_tenantId a)) then ([], d)
  else
    let ids := poll_ids env ck skip a d in
    let d' := claim_batch ck token ids d in
    (rows_of d' ids, d').

(** ** The response *)

(** [new Date(ms).toISOString()]. *)
Context (Date_parse : string → option Z) (toISOString : Z → string).

Definition toWireIso (value : dbtime) : option string :=
  match value with
  | DNull => None
  | DDate ms => Some (toISOString ms)
  | DText s =>
      if s == "" then Some s
      else
        match Date_parse (iso_of_db_text s) with
        | None => Some s
        | Some ms => Some (toISOString ms)
        end
  end.

Record wire_job := {
  wj_id : string;
  wj_row : print_job;
  wj_expiresAt : option string;
  wj_createdAt : option string;
  wj_physicalOutcome : PhysicalOutcome;
}.

Definition wire (kv : string * print_job) : wire_job := {|
  wj_id := kv.1; wj_row := kv.2;
  wj_expiresAt := toWireIso (DDate (pj_expiresAt kv.2));
  wj_createdAt := toWireIso (DDate (pj_createdAt kv.2));
  wj_physicalOutcome := derivePhysicalOutcome (status_text (pj_status kv.2)) (pj_error kv.2) |}.

(** [None] is 401: [validateAgent] did not recognise the credentials. *)
Definition GET (env : option jsnum) (ck : clock) (token : string → string) (skip : gset string)
    (a : option agent_identity) (d : db) : option (list wire_job) * db :=
  match a with
  | None => (None, d)
  | Some a => let '(rows, d') := claimJobs env ck token skip a d in (Some (wire <$> rows), d')
  end.
End poll.

(** ** [PATCH]: reporting on a job *)

Inductive patch_response : Type :=
| PatchError (http : Z) (code : option string) (status : option JobStatus)
| PatchOk (status : JobStatus) (outcome : PhysicalOutcome) (detail : option string).

Record patch_request := {
  pq_jobId : string;
  pq_status : JobStatus;
  pq_error : option string;
  pq_reason : string;
  pq_claimToken : option string;
  pq_spoolerJobId : option string;
}.

(** [typeof x === "string"]. *)
Definition as_string (v : option json) : option string :=
  match v with Some (JString s) => Some s | _ => None end.

(** A string of 1 to [n] code units. *)
Definition bounded_string (n : Z) (v : option json) : option string :=
  match as_string v with
  | Some s => if (0 <? strlen s) && (strlen s <=? n) then Some s else None
  | None => None
  end.

(** The body, read and validated; [None] is a body that is not JSON. *)
Definition patch_parse (body : option json) : result patch_request patch_response :=
  match body with
  | Some (JObject l) =>
      let field := json_field (JObject l) in
      match as_string (field "jobId") with
      | None | Some EmptyString => Err (PatchError 400 None None)
      | Some jobId =>
          match as_string (field "status") ≫= as_JobStatus with
          | None => Err (PatchError 400 None None)
          | Some status =>
              Ok {| pq_jobId := jobId; pq_status := status;
                    pq_error := match as_string (field "error") with
                                | Some e => if 0 <? strlen e then Some (slice0 MAX_ERROR_LENGTH e) else None
                                | None => None
                                end;
                    pq_reason := match as_string (field "reason") with Some r => trim r | None => "" end;
                    pq_claimToken := bounded_string 120 (field "claimToken");
                    pq_spoolerJobId := trim <$> bounded_string 64 (field "spoolerJobId") |}
          end
      end
  | _ => Err (PatchError 400 None None)
  end.

(** [whereClause]: the agent's own job. *)
Definition owns (a : agent_identity) (j : print_job) : bool :=
  (pj_tenantId j == ai_tenantId a) && (pj_agentId j == ai_id a).

Definition find_job (d : db) (a : agent_identity) (jobId : string) : option print_job :=
  j ← print_jobs d !! jobId; if owns a j then Some j else None.

Definition conflict (d : db) (a : agent_identity) (jobId : string) : patch_response :=
  PatchError 409 None (pj_status <$> find_job d a jobId).

(** One fenced [UPDATE ... RETURNING] and the answer to its outcome. *)
Definition fenced_update (a : agent_identity) (rq : patch_request) (current : JobStatus)
    (extra : print_job → bool) (set : print_job → print_job)
    (yes : print_job → patch_response) (no : db → patch_response) (d : db) : patch_response * db :=
  match update_job (pq_jobId rq)
    (λ j, fencedJobWrite (ai_tenantId a) (ai_id a) current (pq_claimToken rq) j && extra j) set d with
  | (Some j, d') => (yes j, d')
  | (None, d') => (no d', d')
  end.

Section patch.
Context (sha256 : string → string).
Context (ck : clock) (a : agent_identity) (rq : patch_request).

Definition token_hash : option string := sha256 <$> pq_claimToken rq.

(** *** The job is gone: a receipt may still acknowledge the report *)
Definition patch_missing (d : db) : patch_response :=
  match receipts d !! pq_jobId rq with
  | Some r =>
      if (rc_tenantId r == ai_tenantId a) && (rc_agentId r == ai_id a) &&
         truthy (pq_claimToken rq) && (rc_status r == pq_status rq) &&
         (rc_closedClaimTokenHash r == token_hash)
      then PatchOk (rc_status r) (derivePhysicalOutcome (status_text (rc_status r)) (rc_error r)) None
      else PatchError 404 None None
  | None => PatchError 404 None None
  end.

(** *** A replayed final report: [SET status = status] under the closed hash *)
Definition patch_replay (job : print_job) (d_ack : db) : option patch_response :=
  if truthy (pq_claimToken rq) && isTerminal (pj_status job) && (pq_status rq == pj_status job) then
    match find_job d_ack a (pq_jobId rq) with
    | Some j =>
        if (pj_status j == pj_status job) && is_some token_hash
           && (pj_closedClaimTokenHash j == token_hash)
        then Some (PatchOk (pj_status j)
                     (derivePhysicalOutcome (status_text (pj_status j)) (pj_error j)) None)
        else None
    | None => None
    end
  else None.

(** *** Expiry reported by the agent *)
Definition patch_expiry_row (current : JobStatus) (j : print_job) : print_job :=
  j |> set_status expired
    |> set_error (if pj_status j == printing
                  then Some "JOB_EXPIRED_DURING_PRINT: physical output is unknown"
                  else if (pj_status j == claimed) && maybe_delivered j
                  then Some "UNKNOWN_PARTIAL_DELIVERY: job expired after possible delivery without an execution report"
                  else None)
    |> set_updatedAt (clock_timestamp ck)
    |> set_deliveredAt (if current == printing
                        then Some (coalesce (pj_deliveredAt j) (clock_timestamp ck))
                        else pj_deliveredAt j).

Definition patch_expired (current : JobStatus) (d : db) : patch_response * db :=
  if isTerminal current then (PatchError 409 (Some "JOB_ALREADY_TERMINAL") (Some current), d)
  else
    fenced_update a rq current (λ j, pj_expiresAt j <=? now ck) (patch_expiry_row current)
      (λ j, PatchOk expired (derivePhysicalOutcome "expired" (pj_error j)) None)
      (λ _, PatchError 409 (Some "JOB_NOT_EXPIRED_OR_STALE") None) d.

(** *** Crash recovery under the at-least-once policy *)
Definition crash_requeue_row (j : print_job) : print_job :=
  j |> set_status queued |> set_claimToken None |> set_closedClaimTokenHash None
    |> set_claimedAt None |> set_deliveredAt None |> set_ackedAt None
    |> set_error (Some "AGENT_RESTART_DURING_PRINT: operator-enabled at-least-once crash recovery; prior physical outcome is unknown and a new delivery may duplicate output")
    |> set_retries (pj_retries j + 1) |> set_updatedAt (clock_timestamp ck).

Definition patch_crash_requeue (current : JobStatus) (d : db) : patch_response * db :=
  if pq_reason rq != AGENT_REPRINT_AFTER_CRASH_REASON then (PatchError 409 None None, d)
  else
    fenced_update a rq current
      (λ j, (now ck <? pj_expiresAt j) && (pj_retries j <? MAX_RETRIES)) crash_requeue_row
      (λ _, PatchOk queued unknown (Some "requeuedAfterCrash"))
      (λ _, PatchError 409 (Some "CRASH_REQUEUE_REJECTED") None) d.

(** *** Hand-back before execution *)
Definition handback_row (j : print_job) : print_job :=
  j |> set_status queued |> set_claimToken None |> set_closedClaimTokenHash None
    |> set_deliveredAt None |> set_ackedAt None |> set_claimedAt None
    |> set_error (Some (if pq_reason rq == "printer_not_shared" then PRINTER_NOT_SHARED_PAUSE
                        else "Agent returned job before execution (" +:+ pq_reason rq +:+ ")"))
    |> set_updatedAt (clock_timestamp ck)
    |> set_deliveryAttempts (Z.max (pj_deliveryAttempts j - 1) 0)
    |> set_retries (pj_retries j + 1).

Definition patch_handback (current : JobStatus) (d : db) : patch_response * db :=
  if negb (one_of AGENT_REQUEUE_REASONS (pq_reason rq)) then (PatchError 409 None None, d)
  else
    fenced_update a rq current
      (λ j, (now ck <? pj_expiresAt j) && (pj_retries j <? MAX_RETRIES)) handback_row
      (λ _, PatchOk queued not_printed None) (λ d, conflict d a (pq_jobId rq)) d.

(** *** Success after the fact *)

Definition error_starts (o : option string) (marker : string) : bool :=
  match o with Some e => startsWith e marker | None => false end.

(** [Ok lateSuccess], or the answer that refuses the report. *)
Definition late_success_check (job : print_job) : result bool patch_response :=
  if (pj_status job == failed) && (pq_status rq == success) then
    let executionTimeoutLateSuccess := error_starts (pj_error job) "AGENT_EXECUTION_TIMEOUT"
      || error_starts (pj_error job) "AGENT_RESTART_DURING_PRINT" in
    let deliveryUnknownLateSuccess := error_starts (pj_error job) "UNKNOWN_PARTIAL_DELIVERY"
      && (is_some (pj_claimedAt job) && truthy (pj_claimToken job)) in
    do* throw_if (negb executionTimeoutLateSuccess && negb deliveryUnknownLateSuccess)
          (PatchError 409 None None) in
    do* throw_if (deliveryUnknownLateSuccess &&
                  (is_none (pj_claimedAt job) || negb (truthy (pj_claimToken job))
                   || negb (truthy (pq_claimToken rq)) || (pq_claimToken rq != pj_claimToken job)))
          (PatchError 409 (Some "DELIVERY_RECONCILIATION_NOT_POSSIBLE") (Some (pj_status job))) in
    Ok true
  else Ok false.

Definition post_expiry_error : string :=
  slice0 MAX_ERROR_LENGTH
    (LATE_SUCCESS_POST_EXPIRATION_MARKER +:+ ": print execution completed after TTL expiry"
     +:+ match pq_error rq with Some e => " (" +:+ e +:+ ")" | None => "" end).

Definition post_expired_row (j : print_job) : print_job :=
  j |> set_status success |> set_error (Some post_expiry_error) |> set_claimToken None
    |> set_closedClaimTokenHash token_hash |> set_updatedAt (clock_timestamp ck)
    |> set_deliveredAt (Some (coalesce (pj_deliveredAt j) (clock_timestamp ck))).

Definition patch_post_expired (job : print_job) (d : db) : patch_response * db :=
  let error := coalesce (pj_error job) "" in
  let expiredLateSuccessMarker := startsWith error "JOB_EXPIRED_DURING_PRINT"
    || startsWith error "UNKNOWN_PARTIAL_DELIVERY" in
  let possibleDelivery := is_some (pj_deliveredAt job) || is_some (pj_ackedAt job)
    || startsWith error "UNKNOWN_PARTIAL_DELIVERY" in
  if is_none (pj_claimedAt job) || negb (truthy (pj_claimToken job))
     || negb (truthy (pq_claimToken rq)) || (pq_claimToken rq != pj_claimToken job)
     || negb possibleDelivery || negb expiredLateSuccessMarker
  then (PatchError 409 (Some "EXPIRED_JOB_ATTEMPT_NOT_RECONCILIABLE") (Some (pj_status job)), d)
  else
    fenced_update a rq (pj_status job)
      (λ j, (pj_expiresAt j <=? now ck) &&
            (now ck - secs (EXPIRED_LATE_SUCCESS_GRACE_MS / 1000) <? pj_expiresAt j))
      post_expired_row
      (λ _, PatchOk success (derivePhysicalOutcome "success" (Some post_expiry_error))
              (Some LATE_SUCCESS_POST_EXPIRATION_MARKER))
      (λ d, conflict d a (pq_jobId rq)) d.

(** *** The status transition itself *)

Definition next_error (job : print_job) (lateSuccess : bool) : option string :=
  if lateSuccess then Some ("LATE_SUCCESS: " +:+ coalesce (pj_error job) "AGENT_EXECUTION_TIMEOUT")
  else pq_error rq.

Definition retainsLateSuccessFence (nextError : option string) : bool :=
  (pq_status rq == failed) && existsb (error_starts nextError) LATE_SUCCESS_ERROR_MARKERS.

(** A column the report leaves out keeps its value. *)
Definition status_update_row (current : JobStatus) (nextError : option string) (j : print_job)
    : print_job :=
  let requested := pq_status rq in
  j |> set_status requested
    |> set_error nextError
    |> set_closedClaimTokenHash (if isTerminal requested then token_hash
                                 else pj_closedClaimTokenHash j)
    |> set_claimToken (if isTerminal requested && negb (retainsLateSuccessFence nextError)
                       then None else pj_claimToken j)
    |> set_updatedAt (clock_timestamp ck)
    |> set_deliveredAt (if (requested == printing) || (requested == success)
                           || ((requested == failed) && (current == printing))
                        then Some (coalesce (pj_deliveredAt j) (clock_timestamp ck))
                        else pj_deliveredAt j)
    |> set_spoolerJobId (if truthy (pq_spoolerJobId rq) then pq_spoolerJobId rq
                         else pj_spoolerJobId j).

(** The conditions of [runStatusUpdate] besides the fence. *)
Definition status_update_extra (d : db) (lateSuccess : bool) (j : print_job) : bool :=
  (if lateSuccess
   then (now ck - secs (LATE_SUCCESS_MAX_AGE_MS / 1000) <=? pj_updatedAt j) && (pj_updatedAt j <=? now ck)
   else if pq_status rq == printing then now ck <? pj_expiresAt j
   else true) &&
  (if pq_status rq == printing then printingAdmissionLifecycleFence d (ai_id a) (ai_tenantId a)
   else true).

(** The locked runtime rows of a [printing] admission. *)
Definition admission_open (printerId : string) (d : db) : bool :=
  tenant_active d (ai_tenantId a) &&
  match agents d !! ai_id a with
  | Some ag =>
      (ag_tenantId ag == ai_tenantId a) &&
      match printers d !! (ag_tenantId ag, printerId) with
      | Some pr =>
          (pr_agentId pr == ai_id a) && printerEligibilityPredicate d ck (ag_tenantId ag) pr &&
          (ag_lifecycle ag == "active") && (pr_lifecycle pr == "active") && pr_inventoryPresent pr &&
          negb ((pr_managementSource pr == "manager") &&
                ((pr_appliedDesiredRevision pr <? pr_desiredRevision pr)
                 || (pr_observedDesiredRevision pr <? pr_desiredRevision pr)))
      | None => false
      end
  | None => false
  end.

Definition patch_transition (job : print_job) (lateSuccess : bool) (d : db) : patch_response * db :=
  let current := pj_status job in
  let requested := pq_status rq in
  let printingAdmissionReplay := (requested == printing) && (current == printing) in
  if negb printingAdmissionReplay && negb (canTransition current requested lateSuccess)
  then (PatchError 409 None None, d)
  else
    let nextError := next_error job lateSuccess in
    let answer := if printingAdmissionReplay then PatchOk printing unknown None
                  else PatchOk requested (derivePhysicalOutcome (status_text requested) nextError)
                         (pq_spoolerJobId rq) in
    if (requested == printing) && negb (admission_open (pj_printerId job) d)
    then (conflict d a (pq_jobId rq), d)
    else
      fenced_update a rq current (status_update_extra d lateSuccess)
        (status_update_row current nextError) (λ _, answer) (λ d, conflict d a (pq_jobId rq)) d.

(** *** The handler after parsing *)

Definition patch_job (job : print_job) (d : db) : patch_response * db :=
  let current := pj_status job in
  let requested := pq_status rq in
  if (requested != expired) &&
     (negb (truthy (pj_claimToken job)) || negb (truthy (pq_claimToken rq))
      || (pq_claimToken rq != pj_claimToken job))
  then (PatchError 409 (Some "CLAIM_REQUIRED") (Some current), d)
  else if requested == expired then patch_expired current d
  else if (requested == queued) && (current == printing) then patch_crash_requeue current d
  else if (requested == queued) && (current == claimed) then patch_handback current d
  else
    match late_success_check job with
    | Err r => (r, d)
    | Ok lateSuccess =>
        if (current == expired) && (requested == success) then patch_post_expired job d
        else patch_transition job lateSuccess d
    end.

Definition patch_request_on (d_read d_ack d : db) : patch_response * db :=
  match find_job d_read a (pq_jobId rq) with
  | None => (patch_missing d_read, d)
  | Some job =>
      match patch_replay job d_ack with
      | Some r => (r, d)
      | None => patch_job job d
      end
  end.
End patch.

(** [validateAgent] gave [a]; [overLimit] is [hasBodyOverLimit(req, 64 KiB)]. *)
Definition PATCH (sha256 : string → string) (ck : clock) (a : option agent_identity)
    (overLimit : bool) (body : option json) (d_read d_ack d : db) : patch_response * db :=
  match a with
  | None => (PatchError 401 None None, d)
  | Some a =>
      if overLimit then (PatchError 413 None None, d)
      else
        match patch_parse body with
        | Err r => (r, d)
        | Ok rq => patch_request_on sha256 ck a rq d_read d_ack d
        end
  end.

(** ** Every report is a protocol step of the attempt it names *)

Lemma fenced_update_refines a rq current extra set yes no d who :
  (∀ j, fencedJobWrite (ai_tenantId a) (ai_id a) current (pq_claimToken rq) j = true →
        extra j = true → row_refines who j (set j)) →
  jobs_refine who d (fenced_update a rq current extra set yes no d).2.
Proof.
  intros H. unfold fenced_update.
  pose proof (update_job_refines who (pq_jobId rq)
    (λ j, fencedJobWrite (ai_tenantId a) (ai_id a) current (pq_claimToken rq) j && extra j) set d) as Hr.
  destruct (update_job _ _ _ d) as [[r|] d']; simpl in *; apply Hr; intros j _ Hj; bools; auto.
Qed.

Lemma fencedJobWrite_inv t a s tok j :
  fencedJobWrite t a s tok j = true → pj_status j = s ∧ pj_claimToken j = tok.
Proof. unfold fencedJobWrite. intros H. by bools. Qed.

Section patch_refines.
Context (sha256 : string → string) (ck : clock) (a : agent_identity) (rq : patch_request).

Definition reporter : actor → Prop := eq (Agent (pq_claimToken rq)).

Lemma expiry_row_refines current j :
  isTerminal current = false →
  fencedJobWrite (ai_tenantId a) (ai_id a) current (pq_claimToken rq) j = true →
  row_refines reporter j (patch_expiry_row ck current j).
Proof.
  intros Ht [Hs Htok]%fencedJobWrite_inv. unfold patch_expiry_row, reporter. rewrite <-Htok.
  destruct current; try done; cbn; row_step_setup; row_status; (split; [row_facts|]);
    (eapply one_step; [done|]).
  - destruct Hok as [Hn _]. rewrite Hn. apply ps_close_waiting; [by right|done].
  - apply ps_close_held; naive_solver.
  - apply ps_close_printing; naive_solver.
Qed.

Lemma crash_requeue_row_refines j :
  fencedJobWrite (ai_tenantId a) (ai_id a) printing (pq_claimToken rq) j = true →
  pj_retries j < MAX_RETRIES → row_refines reporter j (crash_requeue_row ck j).
Proof.
  intros [Hs Htok]%fencedJobWrite_inv Hr. unfold reporter. rewrite <-Htok. row_step_setup.
  row_status. destruct Hok as ([t Ht] & _). rewrite Ht. split; [row_facts|].
  eapply one_step; [done|]. by apply ps_recover.
Qed.

Lemma handback_row_refines j :
  fencedJobWrite (ai_tenantId a) (ai_id a) claimed (pq_claimToken rq) j = true →
  pj_retries j < MAX_RETRIES → row_refines reporter j (handback_row ck rq j).
Proof.
  intros [Hs Htok]%fencedJobWrite_inv Hr. unfold reporter. rewrite <-Htok. row_step_setup.
  row_status. destruct Hok as ([t Ht] & _). rewrite Ht. split; [row_facts|].
  eapply one_step; [done|]. by apply ps_handback.
Qed.

Lemma post_expired_row_refines j :
  is_Some (pq_claimToken rq) →
  fencedJobWrite (ai_tenantId a) (ai_id a) expired (pq_claimToken rq) j = true →
  row_refines reporter j (post_expired_row sha256 ck rq j).
Proof.
  intros [t Ht] [Hs Htok]%fencedJobWrite_inv. unfold reporter. rewrite <-Htok. row_step_setup.
  row_status. rewrite Htok, Ht. split; [row_facts|].
  eapply one_step; [done|]. apply ps_reconcile. by right.
Qed.

Lemma status_update_row_refines current nextError late j :
  is_Some (pq_claimToken rq) → pq_status rq ≠ queued →
  (pq_status rq = printing ∧ current = printing) ∨ canTransition current (pq_status rq) late = true →
  fencedJobWrite (ai_tenantId a) (ai_id a) current (pq_claimToken rq) j = true →
  row_refines reporter j (status_update_row sha256 ck rq current nextError j).
Proof.
  intros [t Ht] Hnq Htr [Hs Htok]%fencedJobWrite_inv.
  unfold status_update_row, reporter. rewrite Ht in Htok. rewrite Ht.
  assert (pq_status rq = success → retainsLateSuccessFence rq nextError = false) as Hkeep
    by (intros Heq; unfold retainsLateSuccessFence; by rewrite Heq).
  assert ((current = claimed ∨ current = printing) ∧ pq_status rq ∈ [printing; success; failed] ∨
          current = failed ∧ pq_status rq = success) as Hcases.
  { destruct Htr as [[-> ->]|Htr%canTransition_inv]; [left; set_solver|].
    destruct Htr as [[-> Hq]|[[-> Hq]|(-> & Hq & _)]]; [left|left|right]; set_solver. }
  clear Htr. row_step_setup.
  destruct Hcases as [[[->| ->] Hrq]|[-> Hrq]]; rewrite Hs in *; rewrite Htok in *;
    [repeat (apply elem_of_cons in Hrq as [Hrq|Hrq]); try by apply elem_of_nil in Hrq..|];
    rewrite Hrq in *; cbn; rewrite ?Hkeep by done;
    (split; [row_facts|]).
  - eapply one_step; [done|]. apply ps_admit.
  - eapply one_step; [done|]. apply ps_close_held; naive_solver.
  - eapply one_step; [done|]. apply ps_close_held; try done. case_if; naive_solver.
  - by apply row_refines_still.
  - eapply one_step; [done|]. apply ps_close_printing; naive_solver.
  - eapply one_step; [done|]. apply ps_close_printing; try done. case_if; naive_solver.
  - eapply one_step; [done|]. apply ps_reconcile. by left.
Qed.

Lemma patch_expired_refines current d :
  jobs_refine reporter d (patch_expired ck a rq current d).2.
Proof.
  unfold patch_expired. case_if; [reflexivity|]. apply fenced_update_refines.
  intros j Hf _. by apply expiry_row_refines.
Qed.

Lemma patch_crash_requeue_refines d :
  jobs_refine reporter d (patch_crash_requeue ck a rq printing d).2.
Proof.
  unfold patch_crash_requeue. case_if; [reflexivity|]. apply fenced_update_refines.
  intros j Hf He. bools. by apply crash_requeue_row_refines.
Qed.

Lemma patch_handback_refines d : jobs_refine reporter d (patch_handback ck a rq claimed d).2.
Proof.
  unfold patch_handback. case_if; [reflexivity|]. apply fenced_update_refines.
  intros j Hf He. bools. by apply handback_row_refines.
Qed.

Lemma patch_post_expired_refines job d :
  is_Some (pq_claimToken rq) → pj_status job = expired →
  jobs_refine reporter d (patch_post_expired sha256 ck a rq job d).2.
Proof.
  intros Ht Hs. unfold patch_post_expired. rewrite Hs. case_if; [reflexivity|].
  apply fenced_update_refines. intros j Hf _. by apply post_expired_row_refines.
Qed.

Lemma patch_transition_refines job late d :
  is_Some (pq_claimToken rq) → (pq_status rq = queued → pj_status job ≠ claimed) →
  jobs_refine reporter d (patch_transition sha256 ck a rq job late d).2.
Proof.
  intros Ht Hq. unfold patch_transition.
  destruct (negb _ && negb _) eqn:Hg; [reflexivity|].
  destruct (_ && negb (admission_open _ _ _ _)); [reflexivity|].
  apply fenced_update_refines. intros j Hf _. eapply (status_update_row_refines _ _ late); [done| | |done].
  - intros Heq. rewrite Heq in *. simpl in Hg. bools. apply canTransition_inv in Hg. naive_solver.
  - apply andb_false_iff in Hg as [Hg|Hg]; bools; [by left|by right].
Qed.

(** The claim the report presents, for anything but an expiry. *)
Lemma presents_claim job :
  (pq_status rq != expired) && (negb (truthy (pj_claimToken job)) || negb (truthy (pq_claimToken rq))
      || (pq_claimToken rq != pj_claimToken job)) = false →
  pq_status rq ≠ expired → is_Some (pq_claimToken rq) ∧ pq_claimToken rq = pj_claimToken job.
Proof.
  intros H Hne. rewrite bool_decide_false in H by done. simpl in H. bools.
  split; [|done]. by destruct (pq_claimToken rq).
Qed.

Lemma patch_job_refines job d : jobs_refine reporter d (patch_job sha256 ck a rq job d).2.
Proof.
  unfold patch_job.
  destruct ((pq_status rq != expired) && _) eqn:Hclaim; [reflexivity|].
  pose proof (presents_claim _ Hclaim) as Ht.
  destruct (bool_decide_reflect (pq_status rq = expired)) as [He|Hne];
    [apply patch_expired_refines|]. destruct (Ht Hne) as [Htok _]. clear Ht Hclaim.
  destruct ((pq_status rq == queued) && (pj_status job == printing)) eqn:Hc; bools.
  { rewrite H0. apply patch_crash_requeue_refines. }
  destruct ((pq_status rq == queued) && (pj_status job == claimed)) eqn:Hh; bools.
  { rewrite H0. apply patch_handback_refines. }
  destruct (late_success_check rq job) as [late|r]; [|reflexivity].
  destruct ((pj_status job == expired) && _) eqn:Hp; bools.
  - by apply patch_post_expired_refines.
  - apply patch_transition_refines; [done|]. intros Hq Hcl.
    rewrite Hq, Hcl, !bool_decide_true in Hh by done. done.
Qed.

Lemma patch_request_on_refines d_read d_ack d :
  jobs_refine reporter d (patch_request_on sha256 ck a rq d_read d_ack d).2.
Proof.
  unfold patch_request_on. destruct (find_job d_read a _) as [job|]; [|reflexivity].
  destruct (patch_replay _ _ _ _ _); [reflexivity|]. apply patch_job_refines.
Qed.
End patch_refines.

(** Whatever body an agent sends, the handler acts as that agent. *)
Definition some_agent (x : actor) : Prop := ∃ t, x = Agent t.

Lemma PATCH_refines sha256 ck a overLimit body d_read d_ack d :
  jobs_refine some_agent d (PATCH sha256 ck a overLimit body d_read d_ack d).2.
Proof.
  unfold PATCH. destruct a as [a|]; [|reflexivity]. destruct overLimit; [reflexivity|].
  destruct (patch_parse body) as [rq|r]; [|reflexivity].
  eapply jobs_refine_mono; [|apply patch_request_on_refines]. intros x <-. by eexists.
Qed.

(** ** The poll *)

Lemma poll_row_refines ck token j :
  (pj_status j = queued ∨ (pj_status j = claimed ∧ no_delivery_evidence j = true)) →
  pj_deliveryAttempts j < MAX_DELIVERY_ATTEMPTS → pj_retries j < MAX_RETRIES →
  row_refines (eq Sender) j (poll_row ck token j).
Proof.
  intros Hs Hd Hr. destruct Hs as [Hs|[Hs He]]; row_step_setup; rewrite Hs in *;
    rewrite ?(bool_decide_false (queued = claimed)), ?(bool_decide_true (claimed = claimed)) by done;
    (split; [row_facts|]); (eapply one_step; [done|]).
  - by apply ps_claim.
  - rewrite He. by apply ps_reclaim.
Qed.

Section poll_lemmas.
Context (octets : json → Z) (env : option jsnum) (ck : clock).

Lemma candidates_ids d n ids : sublist (candidates_of d n ids).*2 ids.
Proof.
  unfold candidates_of. induction ids as [|id ids IH]; simpl; [constructor|].
  destruct (print_jobs d !! id); simpl; by constructor.
Qed.

Lemma stale_candidate_inv d agentId j :
  stale_candidate env ck d agentId j = true →
  pj_agentId j = agentId ∧ now ck < pj_expiresAt j ∧ pj_status j = claimed ∧
  no_delivery_evidence j = true ∧ pj_retries j < MAX_RETRIES ∧
  pj_deliveryAttempts j < MAX_DELIVERY_ATTEMPTS ∧ poll_runtime env ck d j = true.
Proof.
  unfold stale_candidate. intros H. bools. split_and!; try done.
  unfold no_delivery_evidence. bsplit; try done.
Qed.

Lemma queued_candidate_inv d agentId n j :
  queued_candidate env ck d agentId n j = true →
  pj_agentId j = agentId ∧ now ck < pj_expiresAt j ∧ pj_status j = queued ∧
  pj_retries j < MAX_RETRIES ∧ pj_deliveryAttempts j < MAX_DELIVERY_ATTEMPTS ∧
  poll_runtime env ck d j = true.
Proof. unfold queued_candidate. intros H. by bools. Qed.

(** A row the poll may take: waiting, or held under a lease that ran out with
    no sign of delivery. *)
Definition takeable (d : db) (agentId : string) (j : print_job) : Prop :=
  pj_agentId j = agentId ∧ now ck < pj_expiresAt j ∧
  (pj_status j = queued ∨ (pj_status j = claimed ∧ no_delivery_evidence j = true)) ∧
  pj_retries j < MAX_RETRIES ∧ pj_deliveryAttempts j < MAX_DELIVERY_ATTEMPTS ∧
  poll_runtime env ck d j = true.

Lemma claimable_sound d agentId n skip id :
  id ∈ claimable env ck d agentId n skip →
  (id ∉ skip) ∧ (∃ j, print_jobs d !! id = Some j ∧ takeable d agentId j).
Proof.
  unfold claimable. intros H. apply (sublist_subseteq _ _ (sublist_take _ _)) in H.
  apply list_elem_of_filter in H as [Hskip H]. rewrite merge_sort_Permutation in H.
  rewrite fmap_app in H. split; [done|].
  apply elem_of_app in H as [H|H]; apply (sublist_subseteq _ _ (candidates_ids _ _ _)) in H;
    apply select_ids_sound in H as (j & Hj & Hc & _); exists j; (split; [done|]).
  - apply stale_candidate_inv in Hc. unfold takeable. naive_solver.
  - apply queued_candidate_inv in Hc. unfold takeable. naive_solver.
Qed.

Lemma claimable_NoDup d agentId n skip : NoDup (claimable env ck d agentId n skip).
Proof.
  unfold claimable. eapply sublist_NoDup; [|apply sublist_take].
  eapply sublist_NoDup; [|apply sublist_filter]. rewrite merge_sort_Permutation, fmap_app.
  apply NoDup_app. split_and!.
  - eapply sublist_NoDup; [|apply candidates_ids]. apply select_ids_NoDup.
  - intros id H1 H2. apply (sublist_subseteq _ _ (candidates_ids _ _ _)) in H1, H2.
    apply select_ids_sound in H1 as (j & Hj & H1 & _). apply select_ids_sound in H2 as (j2 & Hj2 & H2 & _).
    apply stale_candidate_inv in H1 as (_ & _ & H1 & _).
    apply queued_candidate_inv in H2 as (_ & _ & H2 & _). congruence.
  - eapply sublist_NoDup; [|apply candidates_ids]. apply select_ids_NoDup.
Qed.

Lemma length_claimable d agentId n skip :
  0 ≤ n → Z.of_nat (length (claimable env ck d agentId n skip)) ≤ n.
Proof. intros. unfold claimable. rewrite length_take. lia. Qed.

Lemma ranked_ids d t ids : (ranked octets d t ids).*1 = ids.
Proof. revert t. induction ids as [|id ids IH]; intros t; simpl; [done|]. by rewrite IH. Qed.

Lemma bounded_sublist d ids : sublist (bounded_claimable octets d ids) ids.
Proof.
  unfold bounded_claimable. rewrite <-(ranked_ids d 0 ids) at 2. apply fmap_sublist, sublist_filter.
Qed.

(** The estimated size of the rows with these ids. *)
Fixpoint response_bytes (d : db) (ids : list string) : Z :=
  match ids with
  | [] => 0
  | id :: ids =>
      match print_jobs d !! id with
      | Some j => octets (pj_payload j) + POLL_ROW_OVERHEAD_BYTES
      | None => 0
      end + response_bytes d ids
  end.

Context (Hoctets : ∀ v, 0 ≤ octets v).

Lemma row_bytes_nonneg d id :
  0 ≤ match print_jobs d !! id with
      | Some j => octets (pj_payload j) + POLL_ROW_OVERHEAD_BYTES
      | None => 0
      end.
Proof. unfold POLL_ROW_OVERHEAD_BYTES. destruct (_ !! _) as [j|]; [specialize (Hoctets (pj_payload j))|]; lia. Qed.

Lemma response_bytes_sublist d ids ids' :
  sublist ids ids' → response_bytes d ids ≤ response_bytes d ids'.
Proof.
  induction 1 as [|id ids ids' _ IH|id ids ids' _ IH]; simpl; [lia|lia|].
  pose proof (row_bytes_nonneg d id). lia.
Qed.

Lemma ranked_over d t ids :
  MAX_POLL_RESPONSE_BYTES < t →
  filter (λ r : string * Z, r.2 ≤ MAX_POLL_RESPONSE_BYTES) (ranked octets d t ids) = [].
Proof.
  revert t. induction ids as [|id ids IH]; intros t Ht; [done|]. cbn [ranked]. cbn zeta.
  pose proof (row_bytes_nonneg d id) as Hb.
  rewrite filter_cons_False by (simpl; lia). apply IH. lia.
Qed.

Lemma bounded_bytes d t ids :
  t ≤ MAX_POLL_RESPONSE_BYTES →
  t + response_bytes d (filter (λ r : string * Z, r.2 ≤ MAX_POLL_RESPONSE_BYTES)
                          (ranked octets d t ids)).*1 ≤ MAX_POLL_RESPONSE_BYTES.
Proof.
  revert t. induction ids as [|id ids IH]; intros t Ht; [simpl; lia|]. cbn [ranked]. cbn zeta.
  rewrite filter_cons. case_decide as Hd.
  - rewrite fmap_cons. cbn [response_bytes fst]. specialize (IH _ Hd). simpl in *. lia.
  - rewrite ranked_over by (simpl in Hd; lia). simpl. lia.
Qed.

Lemma poll_ids_sublist skip a d :
  sublist (poll_ids octets env ck skip a d) (bounded_claimable octets d
    (claimable env ck d (ai_id a) (poll_slots env ck d (ai_id a)) skip)).
Proof. apply sublist_filter. Qed.

Lemma poll_ids_claimable skip a d :
  sublist (poll_ids octets env ck skip a d)
    (claimable env ck d (ai_id a) (poll_slots env ck d (ai_id a)) skip).
Proof. etrans; [apply poll_ids_sublist|apply bounded_sublist]. Qed.
End poll_lemmas.

Lemma lookup_claim_batch ck token ids d id :
  print_jobs (claim_batch ck token ids d) !! id =
  (λ j, if bool_decide (id ∈ ids) then poll_row ck (token id) j else j) <$> print_jobs d !! id.
Proof. unfold claim_batch. simpl. rewrite map_lookup_imap. by destruct (print_jobs d !! id). Qed.

(** A row just claimed is not stale, and its owner did not change. *)
Lemma polled_row_in_flight env ck d ids token agentId j :
  counts_in_flight env ck (claim_batch ck token ids d) agentId j =
  counts_in_flight env ck d agentId j.
Proof. done. Qed.

Lemma poll_ids_row octets env ck skip a d id :
  id ∈ poll_ids octets env ck skip a d →
  (id ∉ skip) ∧ (∃ j, print_jobs d !! id = Some j ∧ takeable env ck d (ai_id a) j).
Proof.
  intros H. eapply claimable_sound. by apply (sublist_subseteq _ _ (poll_ids_claimable octets _ _ _ _ _)).
Qed.

Lemma poll_slots_nonneg env ck d agentId : 0 ≤ poll_slots env ck d agentId.
Proof. unfold poll_slots, MAX_CLAIM_BATCH. lia. Qed.

Lemma length_poll_ids octets env ck skip a d :
  Z.of_nat (length (poll_ids octets env ck skip a d)) ≤ poll_slots env ck d (ai_id a).
Proof.
  etrans; [|apply length_claimable, poll_slots_nonneg].
  apply Nat2Z.inj_le, sublist_length, poll_ids_claimable.
Qed.

Lemma claimJobs_refines octets env ck token skip a d :
  jobs_refine (eq Sender) d (claimJobs octets env ck token skip a d).2.
Proof.
  unfold claimJobs. case_if; [reflexivity|]. cbn [snd]. intros id j' Hj'.
  rewrite lookup_claim_batch in Hj'. destruct (print_jobs d !! id) as [j|] eqn:Hj; [|done].
  simpl in Hj'. exists j. split; [done|].
  case_bool_decide as Hin; simplify_eq; [|reflexivity].
  apply poll_ids_row in Hin as (_ & j0 & Hj0 & _ & _ & Hs & Hr & Hd & _). simplify_eq.
  by apply poll_row_refines.
Qed.

Lemma GET_refines octets Date_parse toISO env ck token skip a d :
  jobs_refine (eq Sender) d (GET octets Date_parse toISO env ck token skip a d).2.
Proof.
  unfold GET. destruct a as [a|]; [|reflexivity].
  pose proof (claimJobs_refines octets env ck token skip a d) as H.
  by destruct (claimJobs octets env ck token skip a d).
Qed.

Lemma rows_of_ids d ids :
  (∀ id, id ∈ ids → is_Some (print_jobs d !! id)) → (rows_of d ids).*1 = ids.
Proof.
  unfold rows_of. induction ids as [|id ids IH]; intros H; simpl; [done|].
  destruct (H id ltac:(set_solver)) as [j Hj]. rewrite Hj. simpl. f_equal. apply IH. set_solver.
Qed.

Lemma poll_in_flight octets env ck token skip a d :
  let ids := poll_ids octets env ck skip a d in
  ids ≠ [] → in_flight env ck (claim_batch ck token ids d) (ai_id a) ≤ MAX_AGENT_IN_FLIGHT_JOBS.
Proof.
  intros ids Hne. pose proof (length_poll_ids octets env ck skip a d) as Hlen. fold ids in Hlen.
  assert (in_flight env ck (claim_batch ck token ids d) (ai_id a)
          ≤ in_flight env ck d (ai_id a) + Z.of_nat (length ids)) as Hle.
  { unfold in_flight, count_jobs. apply count_rows_le. intros id j' Hj' Hc Hni.
    rewrite lookup_claim_batch, bool_decide_false in Hj' by done.
    destruct (print_jobs d !! id) as [j|]; [|done]. simpl in Hj'. simplify_eq. eauto. }
  assert (0 < length ids)%nat by (destruct ids; simpl; [done|lia]).
  unfold poll_slots in Hlen. lia.
Qed.

(** ** Properties *)


(** ** The writes a report can make *)

Section writes.
Context (sha256 : string → string) (ck : clock) (a : agent_identity) (rq : patch_request).
Context (printerId : string).   (* of the job as the handler read it *)

(** The answer to a transition to [requested]. *)
Definition finished (nextError : option string) : patch_response :=
  PatchOk (pq_status rq) (derivePhysicalOutcome (status_text (pq_status rq)) nextError)
    (pq_spoolerJobId rq).

(** [report_write d j f r]: at the write, on the row [j] of the database [d],
    the handler assigns [f] and answers [r]. *)
Inductive report_write (d : db) (j : print_job)
    : (print_job → print_job) → patch_response → Prop :=
| rw_expired :
    pq_status rq = expired → isTerminal (pj_status j) = false → pj_expiresAt j ≤ now ck →
    report_write d j (patch_expiry_row ck (pj_status j))
      (PatchOk expired (derivePhysicalOutcome "expired" (pj_error (patch_expiry_row ck (pj_status j) j))) None)
| rw_crash :
    pq_status rq = queued → pj_status j = printing → is_Some (pj_claimToken j) →
    pq_reason rq = AGENT_REPRINT_AFTER_CRASH_REASON → now ck < pj_expiresAt j →
    pj_retries j < MAX_RETRIES →
    report_write d j (crash_requeue_row ck) (PatchOk queued unknown (Some "requeuedAfterCrash"))
| rw_handback :
    pq_status rq = queued → pj_status j = claimed → is_Some (pj_claimToken j) →
    pq_reason rq ∈ AGENT_REQUEUE_REASONS → now ck < pj_expiresAt j →
    pj_retries j < MAX_RETRIES →
    report_write d j (handback_row ck rq) (PatchOk queued not_printed None)
| rw_post_expired :
    pq_status rq = success → pj_status j = expired → is_Some (pj_claimToken j) →
    pj_expiresAt j ≤ now ck → now ck < pj_expiresAt j + EXPIRED_LATE_SUCCESS_GRACE_MS →
    report_write d j (post_expired_row sha256 ck rq)
      (PatchOk success (derivePhysicalOutcome "success" (Some (post_expiry_error rq)))
         (Some LATE_SUCCESS_POST_EXPIRATION_MARKER))
| rw_late nextError :
    pq_status rq = success → pj_status j = failed → is_Some (pj_claimToken j) →
    now ck - LATE_SUCCESS_MAX_AGE_MS ≤ pj_updatedAt j ≤ now ck →
    report_write d j (status_update_row sha256 ck rq failed nextError) (finished nextError)
| rw_admit nextError r :
    pq_status rq = printing → pj_status j = claimed ∨ pj_status j = printing →
    is_Some (pj_claimToken j) → now ck < pj_expiresAt j →
    printingAdmissionLifecycleFence d (ai_id a) (ai_tenantId a) = true →
    admission_open ck a printerId d = true →
    r = PatchOk printing unknown None ∨ r = finished nextError →
    report_write d j (status_update_row sha256 ck rq (pj_status j) nextError) r
| rw_finish nextError :
    pq_status rq = success ∨ pq_status rq = failed →
    pj_status j = claimed ∨ pj_status j = printing → is_Some (pj_claimToken j) →
    report_write d j (status_update_row sha256 ck rq (pj_status j) nextError) (finished nextError).

(** The handler leaves the database alone, or makes one such write on the
    presented job under the presented token. *)
Definition report_outcome (d : db) (x : patch_response * db) : Prop :=
  x.2 = d ∨
  ∃ j f, print_jobs d !! pq_jobId rq = Some j ∧ owns a j = true ∧
    pj_claimToken j = pq_claimToken rq ∧ report_write d j f x.1 ∧
    x.2 = with_jobs (<[pq_jobId rq := f j]> (print_jobs d)) d.

Lemma fenced_update_outcome current extra set yes no d :
  (∀ j, pj_status j = current → pj_claimToken j = pq_claimToken rq → extra j = true →
        report_write d j set (yes (set j))) →
  report_outcome d (fenced_update a rq current extra set yes no d).
Proof.
  intros H. unfold fenced_update.
  destruct (update_job _ _ _ d) as [r d'] eqn:E.
  apply update_job_inv in E as [(-> & -> & _)|(j & Hj & Hp & -> & ->)]; [by left|right].
  unfold fencedJobWrite in Hp. bools. exists j, set. simpl. split_and!; try done.
  - unfold owns. bsplit; done.
  - apply H; done.
Qed.

Lemma patch_transition_outcome job late d :
  is_Some (pq_claimToken rq) → (pq_status rq = queued → pj_status job ≠ claimed) →
  late_success_check rq job = Ok late → pq_status rq ≠ expired → pj_printerId job = printerId →
  report_outcome d (patch_transition sha256 ck a rq job late d).
Proof.
  intros Htok Hq Hlate Hne Hpid. unfold patch_transition.
  destruct (negb _ && negb _) eqn:Hg; [by left|].
  destruct ((pq_status rq == printing) && negb (admission_open _ _ _ _)) eqn:Ha; [by left|].
  apply fenced_update_outcome. intros j Hs Ht Hex. rewrite <-Hs in *. rewrite <-Ht in Htok.
  unfold status_update_extra in Hex. apply andb_true_iff in Hex as [Hw Hfence].
  destruct (decide (pq_status rq = printing)) as [Hp|Hp].
  - rewrite Hp, !bool_decide_true in * by done. simpl in *. bools. rewrite Hpid in *.
    assert (late = false) as ->.
    { unfold late_success_check in Hlate. rewrite Hp in Hlate. rewrite andb_false_r in Hlate.
      by rinv. }
    bools. eapply rw_admit; try done; 
      [|case_if; [by left|right; unfold finished; by rewrite Hp]].
    apply andb_false_iff in Hg as [Hg|Hg]; bools; [by right|].
    apply canTransition_inv in Hg. naive_solver.
  - rewrite !(bool_decide_false (pq_status rq = printing)) in * by done. simpl in *. bools.
    apply canTransition_inv in Hg as [[Hc Hto]|[[Hc Hto]|(Hc & Hto & ->)]].
    + apply rw_finish; naive_solver.
    + apply rw_finish; naive_solver.
    + rewrite Hc. bools. apply rw_late; try done.
Qed.

Lemma patch_job_outcome job d :
  pj_printerId job = printerId → report_outcome d (patch_job sha256 ck a rq job d).
Proof.
  intros Hpid. unfold patch_job.
  destruct ((pq_status rq != expired) && _) eqn:Hclaim; [by left|].
  pose proof (presents_claim _ _ Hclaim) as Ht.
  destruct (bool_decide_reflect (pq_status rq = expired)) as [He|Hne].
  { unfold patch_expired. destruct (isTerminal (pj_status job)) eqn:Hterm; [by left|].
    apply fenced_update_outcome. intros j Hs _ Hex. bools. rewrite <-Hs in *. by apply rw_expired. }
  destruct (Ht Hne) as [Htok _]. clear Ht Hclaim.
  destruct ((pq_status rq == queued) && (pj_status job == printing)) eqn:Hc; bools.
  { unfold patch_crash_requeue. destruct (pq_reason rq != _) eqn:Hreason; [by left|]. bools.
    apply fenced_update_outcome. intros j Hs Hj Hex. bools. rewrite <-Hj in Htok.
    apply rw_crash; try done. by rewrite Hs. }
  destruct ((pq_status rq == queued) && (pj_status job == claimed)) eqn:Hh; bools.
  { unfold patch_handback. destruct (negb (one_of _ _)) eqn:Hreason; [by left|]. bools.
    apply fenced_update_outcome. intros j Hs Hj Hex. bools. rewrite <-Hj in Htok.
    apply rw_handback; try done; [by rewrite Hs|]. by apply bool_decide_eq_true in Hreason. }
  destruct (late_success_check rq job) as [late|r] eqn:Hlate; [|by left].
  destruct ((pj_status job == expired) && _) eqn:Hp; bools.
  - unfold patch_post_expired. destruct (is_none _ || _ || _ || _ || _ || _); [by left|].
    apply fenced_update_outcome. intros j Hs Hj Hex. bools. rewrite <-Hj in Htok.
    apply rw_post_expired; try done; [by rewrite Hs|].
    change (secs (EXPIRED_LATE_SUCCESS_GRACE_MS / 1000)) with EXPIRED_LATE_SUCCESS_GRACE_MS in *. lia.
  - apply patch_transition_outcome; try done. intros Hq Hcl.
    rewrite Hq, Hcl, !bool_decide_true in Hh by done. done.
Qed.

End writes.

Lemma patch_request_outcome sha256 ck a rq d_read d_ack d :
  (patch_request_on sha256 ck a rq d_read d_ack d).2 = d ∨
  ∃ job j f, find_job d_read a (pq_jobId rq) = Some job ∧
    print_jobs d !! pq_jobId rq = Some j ∧ owns a j = true ∧ pj_claimToken j = pq_claimToken rq ∧
    report_write sha256 ck a rq (pj_printerId job) d j f
      (patch_request_on sha256 ck a rq d_read d_ack d).1 ∧
    (patch_request_on sha256 ck a rq d_read d_ack d).2
    = with_jobs (<[pq_jobId rq := f j]> (print_jobs d)) d.
Proof.
  unfold patch_request_on. destruct (find_job d_read a _) as [job|]; [|by left].
  destruct (patch_replay _ _ _ _ _); [by left|].
  destruct (patch_job_outcome sha256 ck a rq (pj_printerId job) job d eq_refl)
    as [H|(j & f & H)]; [by left|]. right. by exists job, j, f.
Qed.

Lemma admission_open_inv ck a printerId d :
  admission_open ck a printerId d = true →
  ∃ p, printers d !! (ai_tenantId a, printerId) = Some p ∧ pr_agentId p = ai_id a ∧
       printer_ready ck p = true ∧ liveTenantSubscriptionPredicate d ck (ai_tenantId a) true = true.
Proof.
  unfold admission_open. intros [_ H]%andb_true_iff.
  destruct (agents d !! ai_id a) as [ag|]; [|done]. apply andb_true_iff in H as [Ht H].
  apply bool_decide_eq_true in Ht. rewrite Ht in H.
  destruct (printers d !! _) as [p|] eqn:Hp; [|done]. exists p.
  unfold printerEligibilityPredicate in H. by bools.
Qed.

(** ** Properties of a report *)

(** C8. A report is fenced at its write, not at its read: whatever the database
    held when the handler read it, a report whose token is not the row's token
    at the time of the write changes nothing; and no report ever changes any
    job but the one it names. *)
Theorem stale_report_inert sha256 ck a rq d_read d_ack d
  (Hstale : ∀ j, print_jobs d !! pq_jobId rq = Some j →
     pj_claimToken j ≠ pq_claimToken rq ∨ owns a j = false) :
  (patch_request_on sha256 ck a rq d_read d_ack d).2 = d.
Proof.
  destruct (patch_request_outcome sha256 ck a rq d_read d_ack d) as [H|(job & j & f & _ & Hj & Ho & Ht & _)];
    [done|]. destruct (Hstale j Hj) as [?|?]; congruence.
Qed.

Definition report (jobId : string) (status : JobStatus) (token : option string) : patch_request := {|
  pq_jobId := jobId; pq_status := status; pq_error := None; pq_reason := "";
  pq_claimToken := token; pq_spoolerJobId := None |}.

Definition agent_a1 : agent_identity := {| ai_id := "a1"; ai_tenantId := "t1" |}.

(** The job was read under token [old], then reclaimed under [new]. *)
Lemma stale_report_inert_witness :
  (patch_request_on id (at_time 2000) agent_a1 (report "j1" printing (Some "old"))
    (held_db "old") (held_db "old") (held_db "new")).2 = held_db "new".
Proof.
  apply (stale_report_inert id (at_time 2000) agent_a1 (report "j1" printing (Some "old"))
    (held_db "old") (held_db "old") (held_db "new")).
  intros j Hj. left. unfold held_db in Hj. simpl in Hj. rewrite lookup_singleton_eq in Hj.
  injection Hj as <-. discriminate.
Defined.

(** Printing starts only through an open gate: when a report moves a job to
    [printing], the row at the write was held by that very claim and had not
    expired, and agent, tenant, subscription and the agent's own printer of the
    job were all admissible in the database at the write, whatever they were when the handler started. *)
Theorem printing_admission_gate sha256 ck a rq d_read d_ack d j j'
  (Hbefore : print_jobs d !! pq_jobId rq = Some j) (Hnot : pj_status j ≠ printing)
  (Hafter : print_jobs (patch_request_on sha256 ck a rq d_read d_ack d).2 !! pq_jobId rq = Some j')
  (Hprinting : pj_status j' = printing) :
  pj_status j = claimed ∧ pj_claimToken j = pq_claimToken rq ∧ is_Some (pq_claimToken rq) ∧
  pj_claimToken j' = pj_claimToken j ∧ is_Some (pj_deliveredAt j') ∧
  now ck < pj_expiresAt j ∧ agent_active d (ai_id a) (ai_tenantId a) = true ∧
  tenant_active d (ai_tenantId a) = true ∧
  liveTenantSubscriptionPredicate d ck (ai_tenantId a) true = true ∧
  ∃ job p, find_job d_read a (pq_jobId rq) = Some job ∧
    printers d !! (ai_tenantId a, pj_printerId job) = Some p ∧ pr_agentId p = ai_id a ∧
    printer_ready ck p = true.
Proof.
  destruct (patch_request_outcome sha256 ck a rq d_read d_ack d)
    as [H|(job & j0 & f & Hjob & Hj0 & _ & Ht & Hw & H)]; rewrite H in Hafter; [congruence|]. simplify_eq.
  simpl in Hafter. rewrite lookup_insert_eq in Hafter. injection Hafter as <-. rewrite <-Ht.
  destruct Hw as [| | | | |ne r Hrq Hs Htok Hexp Hf Ha _|ne Hrq]; try done; [simpl in Hprinting; congruence| |
    simpl in Hprinting; destruct Hrq; congruence].
  destruct Hs as [Hs|Hs]; [|done].
  destruct (admission_open_inv _ _ _ _ Ha) as (p & Hp & Hown & Hready & Hlive).
  unfold printingAdmissionLifecycleFence in Hf. bools.
  split_and!; try done; [by simpl; rewrite Hrq|simpl; rewrite Hrq; by eexists|by exists job, p].
Qed.

Lemma printing_admission_gate_witness :
  is_Some (pj_deliveredAt (status_update_row id (at_time 2000) (report "j1" printing (Some "tok"))
    claimed None (claimed_job "tok"))).
Proof.
  eapply (printing_admission_gate id (at_time 2000) agent_a1 (report "j1" printing (Some "tok"))
    (held_db "tok") (held_db "tok") (held_db "tok") (claimed_job "tok")).
  - vm_compute. reflexivity.
  - discriminate.
  - vm_compute. reflexivity.
  - reflexivity.
Defined.

(** A finished job is reopened only to record a success, only by the attempt
    whose fence was kept, and only inside the window: 24 hours after a failure
    was recorded, five minutes after an expiry. A recorded success is final. *)
Theorem late_success_window sha256 ck a rq d_read d_ack d j j'
  (Hbefore : print_jobs d !! pq_jobId rq = Some j) (Hterm : isTerminal (pj_status j) = true)
  (Hafter : print_jobs (patch_request_on sha256 ck a rq d_read d_ack d).2 !! pq_jobId rq = Some j')
  (Hchanged : j' ≠ j) :
  pj_status j' = success ∧ pj_claimToken j' = None ∧
  pj_claimToken j = pq_claimToken rq ∧ is_Some (pj_claimToken j) ∧
  ((pj_status j = failed ∧ now ck - LATE_SUCCESS_MAX_AGE_MS ≤ pj_updatedAt j ≤ now ck) ∨
   (pj_status j = expired ∧ pj_expiresAt j ≤ now ck < pj_expiresAt j + EXPIRED_LATE_SUCCESS_GRACE_MS)).
Proof.
  destruct (patch_request_outcome sha256 ck a rq d_read d_ack d)
    as [H|(job & j0 & f & _ & Hj0 & _ & Ht & Hw & H)]; rewrite H in Hafter; [congruence|]. simplify_eq.
  simpl in Hafter. rewrite lookup_insert_eq in Hafter. injection Hafter as <-.
  destruct Hw as [? Hn|? Hs|? Hs|Hrq Hs Htok Hlo Hhi|ne Hrq Hs Htok Hw|ne r ? [Hs|Hs]|ne ? [Hs|Hs]];
    try (by rewrite Hs in Hterm).
  - congruence.
  - split_and!; try done. right. done.
  - split; [exact Hrq|]. split; [|by split_and!; [done|done|left]].
    cbn. unfold retainsLateSuccessFence. by rewrite Hrq.
Qed.

(** A job that timed out at the printer, its fence kept. *)
Definition timed_out_job : print_job :=
  timeout_row (at_time 1000) (claimed_job "tok" |> set_status printing |> set_deliveredAt (Some 1000)).

Lemma late_success_window_witness :
  pj_status (status_update_row id (at_time 2000) (report "j1" success (Some "tok")) failed
    (next_error (report "j1" success (Some "tok")) timed_out_job true) timed_out_job) = success.
Proof.
  eapply (late_success_window id (at_time 2000) agent_a1 (report "j1" success (Some "tok"))
    (gateway_db {["j1" := timed_out_job]}) (gateway_db {["j1" := timed_out_job]})
    (gateway_db {["j1" := timed_out_job]}) timed_out_job).
  - vm_compute. reflexivity.
  - reflexivity.
  - vm_compute. reflexivity.
  - discriminate.
Defined.

(** ** Replays *)

Lemma replay_acknowledged sha256 ck a rq d j t :
  pq_claimToken rq = Some t → t ≠ "" → print_jobs d !! pq_jobId rq = Some j → owns a j = true →
  isTerminal (pj_status j) = true → pq_status rq = pj_status j →
  pj_closedClaimTokenHash j = Some (sha256 t) →
  patch_request_on sha256 ck a rq d d d =
  (PatchOk (pj_status j) (derivePhysicalOutcome (status_text (pj_status j)) (pj_error j)) None, d).
Proof.
  intros Ht Hne Hj Ho Hterm Hs Hc. unfold patch_request_on, find_job. rewrite Hj. simpl. rewrite Ho.
  unfold patch_replay, find_job, token_hash. rewrite Ht, Hterm, Hs, Hj. simpl. rewrite Ho.
  rewrite (bool_decide_false (t = "")) by done. rewrite Hc. simpl.
  by rewrite !bool_decide_true by done.
Qed.

(** C10. An agent that lost the answer to its final report can repeat it: the
    repetition gets the same status and outcome and changes nothing, both while
    the job row is still there and after retention has replaced it by its
    receipt. *)
Theorem final_report_replay sha256 ck ck' a rq d_read d_ack d s o detail d1
  (Hfinal : s = success ∨ s = failed)
  (Hreport : patch_request_on sha256 ck a rq d_read d_ack d = (PatchOk s o detail, d1))
  (Hwrote : d1 ≠ d) (Htok : pq_claimToken rq ≠ Some "") :
  patch_request_on sha256 ck' a rq d1 d1 d1 = (PatchOk s o None, d1) ∧
  (∀ j d2, print_jobs d1 !! pq_jobId rq = Some j → print_jobs d2 !! pq_jobId rq = None →
     receipts d2 !! pq_jobId rq = Some (receipt_of sha256 j) →
     patch_request_on sha256 ck' a rq d2 d2 d2 = (PatchOk s o None, d2)).
Proof.
  destruct (patch_request_outcome sha256 ck a rq d_read d_ack d)
    as [H|(job & j & f & _ & Hj & Ho & Ht & Hw & H)]; rewrite Hreport in *; simpl in *; [done|].
  assert (is_Some (pj_claimToken j) ∧ pj_status (f j) = s ∧ pq_status rq = s ∧
    pj_closedClaimTokenHash (f j) = token_hash sha256 rq ∧ owns a (f j) = true ∧
    derivePhysicalOutcome (status_text s) (pj_error (f j)) = o) as ([t Hjt] & Hfs & Hrs & Hh & Hfo & Hout).
  { inversion Hw as [| | |Hrq Hs Hc|ne Hrq Hs Hc|ne r Hrq Hs Hc _ _ _ Hr|ne Hrq Hs Hc]; simplify_eq;
      try (by destruct Hfinal).
    all: try (by split_and!).
    - split_and!; try done. cbn. by rewrite Hrq.
    - exfalso. unfold finished in Hr. rewrite Hrq in Hr. destruct Hfinal, Hr; simplify_eq.
    - split_and!; try done. cbn. by destruct Hrq as [-> | ->]. }
  rewrite Hjt in Ht. unfold token_hash in Hh. rewrite <-Ht in Hh. simpl in Hh.
  assert (t ≠ "") as Hne by congruence. subst d1. split.
  - rewrite (replay_acknowledged _ _ _ _ _ (f j) t); simpl; rewrite ?lookup_insert_eq; try done.
    + by rewrite Hfs, Hout.
    + rewrite Hfs. by destruct Hfinal as [->| ->].
    + by rewrite Hfs.
  - intros j1 d2 Hj1 Hnone Hrec. simpl in Hj1. rewrite lookup_insert_eq in Hj1. injection Hj1 as <-.
    unfold patch_request_on, find_job, patch_missing, token_hash. rewrite Hnone. simpl.
    rewrite Hrec, <-Ht. simpl. unfold owns in Hfo. bools.
    rewrite (bool_decide_false (t = "")) by done.
    rewrite Hh, Hrs, Hfs, !bool_decide_true by done. simpl. by rewrite Hout.
Qed.

Definition success_report : patch_request := report "j1" success (Some "tok").

Lemma final_report_replay_witness :
  let first := patch_request_on id (at_time 2000) agent_a1 success_report
    (held_db "tok") (held_db "tok") (held_db "tok") in
  patch_request_on id (at_time 9000) agent_a1 success_report first.2 first.2 first.2
  = (PatchOk success unknown None, first.2).
Proof.
  cbv zeta.
  refine (proj1 (final_report_replay id (at_time 2000) (at_time 9000) agent_a1 success_report
    (held_db "tok") (held_db "tok") (held_db "tok") success unknown None _ _ _ _ _)).
  - left. reflexivity.
  - vm_compute. reflexivity.
  - intros H. apply (f_equal (λ d, pj_status <$> print_jobs d !! "j1")) in H. revert H.
    vm_compute. discriminate.
  - discriminate.
Defined.


(** ** A fence that is never released

    The handler keeps the token of a failure whose text starts with
    [AGENT_EXECUTION_TIMEOUT]; the sweep releases such fences only when a colon
    follows the marker. A bare marker therefore keeps its token for good, and
    retention, which wants the token gone, never archives the job. *)
Definition bare_timeout_report : patch_request := {|
  pq_jobId := "j1"; pq_status := failed; pq_error := Some "AGENT_EXECUTION_TIMEOUT";
  pq_reason := ""; pq_claimToken := Some "tok"; pq_spoolerJobId := None |}.

Definition bare_timeout_job : print_job :=
  status_update_row id (at_time 2000) bare_timeout_report claimed (Some "AGENT_EXECUTION_TIMEOUT")
    (claimed_job "tok").

(** The report closes the job with its token in place; every later sweep leaves
    the row as it is, whatever its clock, scope and batch; and retention never
    selects it. *)
Lemma bare_marker_keeps_fence :
  print_jobs (patch_request_on id (at_time 2000) agent_a1 bare_timeout_report
    (held_db "tok") (held_db "tok") (held_db "tok")).2 !! "j1" = Some bare_timeout_job ∧
  pj_status bare_timeout_job = failed ∧ pj_claimToken bare_timeout_job = Some "tok" ∧
  (∀ env scope n w d j', print_jobs d !! "j1" = Some bare_timeout_job →
     print_jobs (sweepPrintJobs env scope n w d).2 !! "j1" = Some j' → j' = bare_timeout_job) ∧
  (∀ ck scope, retained_too_long ck scope bare_timeout_job = false).
Proof.
  split; [vm_compute; reflexivity|]. split; [reflexivity|]. split; [reflexivity|]. split.
  - intros env scope n w d j' Hd Hj'.
    assert (pj_status bare_timeout_job = failed) as Hf by reflexivity.
    assert (releasable_error (pj_error bare_timeout_job) = false) as Hr by (vm_compute; reflexivity).
    apply (sweep_keeps (λ j, j = bare_timeout_job)) in Hj' as (j & Hj & HP);
      [apply HP; congruence|..]; clear -Hf Hr; revert Hf Hr; generalize bare_timeout_job as b.
    + intros b Hf _ ck j Ho ->. exfalso. unfold overdue, status_in in Ho. rewrite Hf in Ho. done.
    + intros b Hf _ ck j Hs _ ->. congruence.
    + intros b Hf _ ck j Hs ->. congruence.
    + intros b Hf _ ck j Hs ->. congruence.
    + intros b Hf _ ck e j [[Hs _]|Hs] ->; congruence.
    + intros b Hf Hr j [Hs|[_ He]] ->; congruence.
  - intros ck scope. unfold retained_too_long. done.
Qed.
