(* ===== verification/JobService.v ===== *)
(** * Creating a print job

    [src/lib/print-job-service.ts]: the enqueue transaction
    [insertQueuedJobAtomically], the recovery of receipts whose printer or
    agent is gone, and [createPrintJobForPrinter]. A thrown error aborts the
    transaction, so an [Err] leaves the database as it was; advisory and row
    locks order transactions and have no effect inside one. The job timeline
    and the log lines are left out.

    The digest, the UTF-8 length of a string and the length of a [jsonb]
    value's text are parameters, as are the session tables ([auth_db]) and the
    clock row as the driver delivers it. *)

From Stdlib Require Import Ascii.
From S2P Require Import Prelude DatabaseTime JobStatus Json Schema Authority Availability Payload.
From S2P Require Import PrinterVirtual Capability Entitlements Samples JobProtocol JobDelivery.
From S2P Require Import JobMaintenance.

Definition MAX_AGENT_QUEUED_JOBS : Z := 256.
Definition MAX_AGENT_QUEUED_PAYLOAD_BYTES : Z := 128 * 1024 * 1024.

Inductive enqueue_error : Type :=
| PrintJobInputError (message code : string) (status : Z)
| IdempotencyConflict
| PrintJobCapabilityError (reason : string)
| AgentQueuedJobsFullError (agentId : string) (queued : Z)
| AgentQueueFullError (agentId : string) (inFlight : Z)
| BillingError (error : tenant_error)
| PayloadError (error : payload_error)
| UniqueViolation.

(** A [Date]; [None] is an invalid one. *)
Definition jsdate : Type := option Z.

Record CreatePrintJobOptions := {
  co_managerAuthority : option (ManagerClaims * ManagerPermission);
  co_agentDiagnosticAuthority : option (string * string);   (* agent, tenant *)
  co_requestedBy : string;
  co_idempotencyKey : option string;
  co_tenantId : string;
  co_destination : option string;
  co_documentType : option string;
  co_expiresAt : option jsdate;
  co_rateLimitKeyId : option string;
  co_requestId : option string;
  co_reprintOfJobId : option string;
}.

(** [CreatePrintJobResult]; the inner function calls its id [jobId]. *)
Record CreatePrintJobResult := {
  cr_id : string;
  cr_printerId : string;
  cr_agentId : string;
  cr_status : JobStatus;
  cr_isReused : bool;
}.

(** The argument of [insertQueuedJobAtomically]: the caller's options with
    the ids and the payload resolved and [requestedBy] normalised. *)
Record enqueue_request := {
  eq_jobId : string;
  eq_printerId : string;
  eq_agentId : string;
  eq_payload : PrintJobPayload;
  eq_requestedBy : string;
  eq_options : CreatePrintJobOptions;
}.

Definition eq_tenantId (rq : enqueue_request) : string := co_tenantId (eq_options rq).

Definition normalizeRequestedBy (value : string) : result string enqueue_error :=
  let normalized := trim value in
  do* throw_if ((normalized == "") || (100 <? strlen normalized))
        (PrintJobInputError "requestedBy is invalid" "INVALID_REQUEST" 400) in
  Ok normalized.

Definition lift_billing {A} (m : result A tenant_error) : result A enqueue_error :=
  match m with Ok a => Ok a | Err e => Err (BillingError e) end.

(** ** Fences before any lookup *)

(** [SELECT lifecycle FROM tenants WHERE id = ...]. *)
Definition tenant_lifecycle (d : db) (tenantId : string) : option string :=
  tn_lifecycle <$> tenants d !! tenantId.

Definition require_active_tenant (d : db) (tenantId : string) : result unit enqueue_error :=
  throw_if (tenant_lifecycle d tenantId != Some "active")
    (PrintJobInputError "Workspace is no longer active" "TENANT_UNAVAILABLE" 403).

Definition diagnostic_fence (rq : enqueue_request) : result unit enqueue_error :=
  match co_agentDiagnosticAuthority (eq_options rq) with
  | Some (agentId, tenantId) =>
      throw_if ((tenantId != eq_tenantId rq) || (agentId != eq_agentId rq))
        (PrintJobInputError "Agent diagnostic printer ownership changed" "AGENT_PRINTER_MISMATCH" 403)
  | None => Ok tt
  end.

Definition authority_changed_message : string :=
  "Your workspace authorization changed. Refresh your session and try again.".

Definition manager_fence (d : db) (a : auth_db) (ck : clock) (rq : enqueue_request)
    : result unit enqueue_error :=
  match co_managerAuthority (eq_options rq) with
  | Some (claims, permission) =>
      do* throw_if (mc_tenantId claims != eq_tenantId rq)
            (PrintJobInputError "Workspace session does not own this job" "MANAGER_TENANT_MISMATCH" 403) in
      do* throw_if (match agents d !! eq_agentId rq with
                    | Some ag => ag_tenantId ag != eq_tenantId rq
                    | None => true
                    end) (PrintJobInputError "Agent no longer exists" "AGENT_NOT_FOUND" 404) in
      match requireManagerActorInTransaction a ck claims permission with
      | Ok _ => Ok tt
      | Err ManagerMutationAuthorityChangedError =>
          Err (PrintJobInputError authority_changed_message "MANAGER_AUTH_CHANGED" 403)
      end
  | None => Ok tt
  end.

(** The [api_keys] row a live Odoo credential has. *)
Definition credential_live (d : db) (tenantId keyId : string) : bool :=
  match api_keys d !! keyId with
  | Some k => (ak_tenantId k == tenantId) && is_none (ak_revokedAt k) &&
              is_none (ak_readOnlyUntil k) && ak_odooEnabled k
  | None => false
  end.

Definition require_credential (d : db) (tenantId : string) (keyId : option string)
    : result unit enqueue_error :=
  match keyId with
  | Some k =>
      throw_if ((k != "") && negb (credential_live d tenantId k))
        (PrintJobInputError "Integration credential is no longer active" "UNAUTHORIZED" 401)
  | None => Ok tt
  end.

(** ** Reprints *)

(** [s.replace(/c/g, by)]. *)
Fixpoint replace_all (c : ascii) (by_ : string) (s : string) : string :=
  match s with
  | EmptyString => EmptyString
  | String c' s' =>
      if c' == c then by_ +:+ replace_all c by_ s' else String c' (replace_all c by_ s')
  end.

Definition escaped (c : ascii) : string := String backslash (String c EmptyString).

Definition escapedReprintId (id : string) : string :=
  replace_all "_"%char (escaped "_"%char)
    (replace_all "%"%char (escaped "%"%char) (replace_all backslash (escaped backslash) id)).

Definition reprint_pattern (id : string) : string :=
  "gw-reprint:" +:+ escapedReprintId id +:+ ":%".

Definition active_reprint_row (tenantId original : string) (j : print_job) : bool :=
  (pj_tenantId j == tenantId) && like_null (pj_idempotencyKey j) (reprint_pattern original) &&
  status_in [queued; claimed; printing] j.

(** [ORDER BY created_at DESC LIMIT 1]. *)
Definition active_reprint (d : db) (tenantId original : string) : option (string * print_job) :=
  head (select_rows (active_reprint_row tenantId original) (λ j, - pj_createdAt j) ∅ (print_jobs d)).

(** [COUNT( * )] over the jobs and the receipts together. *)
Definition reprint_count (d : db) (tenantId original : string) : Z :=
  count_rows (λ j, (pj_tenantId j == tenantId) &&
                   like_null (pj_idempotencyKey j) (reprint_pattern original)) (print_jobs d) +
  count_rows (λ r, (rc_tenantId r == tenantId) &&
                   like_null (rc_idempotencyKey r) (reprint_pattern original)) (receipts d).

Definition reprint_key (original : string) (n : Z) : string :=
  "gw-reprint:" +:+ original +:+ ":" +:+ number_text n.

Definition reused (id : string) (status : JobStatus) (agentId printerId : string)
    : CreatePrintJobResult := {|
  cr_id := id; cr_printerId := printerId; cr_agentId := agentId; cr_status := status;
  cr_isReused := true |}.

(** Either the active reprint, or the idempotency key to go on with. *)
Definition reprint_step (d : db) (rq : enqueue_request)
    : CreatePrintJobResult + option string :=
  let o := eq_options rq in
  match co_reprintOfJobId o with
  | Some original =>
      if original == "" then inr (co_idempotencyKey o)
      else match active_reprint d (eq_tenantId rq) original with
           | Some (id, row) => inl (reused id (pj_status row) (pj_agentId row) (pj_printerId row))
           | None => inr (Some (reprint_key original (reprint_count d (eq_tenantId rq) original + 1)))
           end
  | None => inr (co_idempotencyKey o)
  end.

(** ** Idempotent reuse *)

Definition receipt_by_key (d : db) (tenantId key : string) : option (string * receipt) :=
  find_row (same_key tenantId (Some key)) (receipts d).

Definition job_key_is (tenantId key : string) (j : print_job) : bool :=
  (pj_tenantId j == tenantId) && (pj_idempotencyKey j == Some key).

Definition job_by_key (d : db) (tenantId key : string) : option (string * print_job) :=
  find_row (job_key_is tenantId key) (print_jobs d).

Section service.
Context (sha256 : string → string).
Context (decode : string → bytes) (Date_parse : string → option Z).
Context (utf8_length : string → Z) (jsonb_text_length : json → Z).

Definition request_fingerprint (rq : enqueue_request) : FingerprintInput := {|
  fi_printerId := eq_printerId rq; fi_documentType := co_documentType (eq_options rq);
  fi_destination := co_destination (eq_options rq); fi_payload := payload_json (eq_payload rq) |}.

Definition row_fingerprint (j : print_job) : FingerprintInput := {|
  fi_printerId := pj_printerId j; fi_documentType := pj_documentType j;
  fi_destination := pj_destination j; fi_payload := pj_payload j |}.

(** May this principal be told about a job of that API key and requester? *)
Definition foreign_identity (rq : enqueue_request) (apiKeyId requestedBy : option string) : bool :=
  (truthy (co_rateLimitKeyId (eq_options rq)) && is_none apiKeyId)
  || (is_some (co_managerAuthority (eq_options rq)) && (requestedBy != Some (eq_requestedBy rq))).

Definition reuse_receipt (rq : enqueue_request) (kr : string * receipt)
    : result CreatePrintJobResult enqueue_error :=
  let '(id, receipt) := kr in
  do* throw_if (foreign_identity rq (rc_apiKeyId receipt) (rc_requestedBy receipt)
                || (rc_fingerprint receipt != idempotencyDigest sha256 (request_fingerprint rq)))
        IdempotencyConflict in
  Ok (reused id (rc_status receipt) (rc_agentId receipt) (rc_printerId receipt)).

Definition reuse_job (rq : enqueue_request) (kj : string * print_job)
    : result CreatePrintJobResult enqueue_error :=
  let '(id, row) := kj in
  do* throw_if (foreign_identity rq (pj_apiKeyId row) (pj_requestedBy row)) IdempotencyConflict in
  if idempotencyFingerprint (row_fingerprint row) == idempotencyFingerprint (request_fingerprint rq)
  then Ok (reused id (pj_status row) (pj_agentId row) (pj_printerId row))
  else Err IdempotencyConflict.

(** The lookups under the idempotency lock; [None] is a key not seen before. *)
Definition reuse_step (d : db) (rq : enqueue_request) (key : option string)
    : result (option CreatePrintJobResult) enqueue_error :=
  match key with
  | Some key =>
      if key == "" then Ok None
      else match receipt_by_key d (eq_tenantId rq) key with
           | Some kr => let* r := reuse_receipt rq kr in Ok (Some r)
           | None =>
               match job_by_key d (eq_tenantId rq) key with
               | Some kj => let* r := reuse_job rq kj in Ok (Some r)
               | None => Ok None
               end
           end
  | None => Ok None
  end.
(** ** Clock and expiry *)

(** [text.replace(/([+-]\d{2})$/, "$1:00")] after the space became a T. *)
Definition clock_text (s : string) : string :=
  let iso := replace_space (trim s) in
  if has_short_offset iso then iso +:+ ":00" else iso.

Definition read_clock (rawNow : dbtime) : jsdate :=
  match rawNow with
  | DDate ms => Some ms
  | DText s => Date_parse (clock_text s)
  | DNull => None
  end.

Definition require_clock (rawNow : dbtime) : result Z enqueue_error :=
  match read_clock rawNow with
  | Some t => Ok t
  | None => Err (PrintJobInputError "Database clock is unavailable" "INTERNAL_ERROR" 500)
  end.

(** [expiresAt ?? new Date(dbNow + 60 * 60 * 1000)]. *)
Definition effectiveExpiresAt (o : CreatePrintJobOptions) (dbNow : Z) : jsdate :=
  match co_expiresAt o with Some e => e | None => Some (dbNow + 60 * 60 * 1000) end.

Definition require_expiry (dbNow : Z) (e : jsdate) : result Z enqueue_error :=
  match e with
  | None => Err (PrintJobInputError "expiresAt must be in the future" "INVALID_REQUEST" 400)
  | Some e =>
      do* throw_if (e <=? dbNow)
            (PrintJobInputError "expiresAt must be in the future" "INVALID_REQUEST" 400) in
      do* throw_if (24 * 60 * 60 * 1000 <? e - dbNow)
            (PrintJobInputError "expiresAt exceeds the 24 hour maximum" "INVALID_REQUEST" 400) in
      Ok e
  end.

(** ** The runtime owner, re-read inside the transaction *)

(** [FROM agents a JOIN printers p ... JOIN tenants te ...]. *)
Definition runtime_owner (d : db) (rq : enqueue_request) : option (agent * printer * tenant) :=
  a ← agents d !! eq_agentId rq;
  p ← printers d !! (eq_tenantId rq, eq_printerId rq);
  te ← tenants d !! ag_tenantId a;
  if (ag_tenantId a == eq_tenantId rq) && (pr_agentId p == eq_agentId rq)
  then Some (a, p, te) else None.

Definition owner_changed : enqueue_error :=
  PrintJobInputError "Printer owner changed during enqueue; retry the print operation"
    "PRINTER_OWNER_CHANGED" 409.

Definition check_owner (a : agent) (p : printer) (te : tenant) : result unit enqueue_error :=
  do* throw_if (tn_lifecycle te != "active")
        (PrintJobInputError ("Workspace is " +:+ tn_lifecycle te) "TENANT_UNAVAILABLE" 409) in
  do* throw_if (virtual_row p)
        (PrintJobInputError "Virtual and software printers are not supported" "PRINTER_VIRTUAL" 409) in
  do* throw_if (negb (pr_sharedWithGateway p))
        (PrintJobInputError
           "Printer is local-only; share it from the Agent before sending a cloud print job"
           "PRINTER_NOT_SHARED" 409) in
  do* throw_if (pr_lifecycle p != "active")
        (PrintJobInputError ("Printer is " +:+ pr_lifecycle p) "PRINTER_UNAVAILABLE" 409) in
  do* throw_if (negb (pr_inventoryPresent p))
        (PrintJobInputError "Printer is no longer present in the Agent inventory"
           "PRINTER_UNAVAILABLE" 409) in
  do* throw_if (negb (isPrinterStatusExecutable (Some (pr_status p)) (Some (pr_connectionType p))
                        (Some (pr_protocol p))))
        (PrintJobInputError "Printer is not executable" "PRINTER_OFFLINE" 503) in
  do* throw_if (ag_lifecycle a != "active")
        (PrintJobInputError ("Agent is " +:+ ag_lifecycle a) "AGENT_UNAVAILABLE" 409) in
  throw_if ((pr_managementSource p == "manager") &&
            (pr_appliedDesiredRevision p <? pr_desiredRevision p))
    (PrintJobInputError "Printer configuration is still applying; retry when the printer is ready"
       "PRINTER_UNAVAILABLE" 503).

Definition payload_spec (p : PrintJobPayload) : PayloadSpec :=
  {| ps_type := pp_type p; ps_protocol := pp_protocol p |}.

Definition printer_caps (p : printer) : CapabilityPrinter := {|
  cp_protocol := Some (pr_protocol p); cp_capabilities := pr_capabilities p;
  cp_connectionType := Some (pr_connectionType p) |}.

Definition check_capability (payload : PrintJobPayload) (p : printer) : result unit enqueue_error :=
  match validatePayloadForPrinter (Some (payload_spec payload)) (printer_caps p) with
  | Ok _ => Ok tt
  | Err reason => Err (PrintJobCapabilityError reason)
  end.

(** ** Queue ceilings *)

Definition agent_job (tenantId agentId : string) (j : print_job) : bool :=
  (pj_tenantId j == tenantId) && (pj_agentId j == agentId).

Definition agent_queued (ck : clock) (tenantId agentId : string) (j : print_job) : bool :=
  agent_job tenantId agentId j && (pj_status j == queued) && (now ck <? pj_expiresAt j).

Definition agent_in_flight (ck : clock) (tenantId agentId : string) (j : print_job) : bool :=
  agent_job tenantId agentId j && status_in [claimed; printing] j && (now ck <? pj_expiresAt j).

(** [COALESCE(SUM(octet_length(payload::text)) FILTER (...), 0)]. *)
Definition queued_payload_bytes (ck : clock) (tenantId agentId : string) (d : db) : Z :=
  map_fold (λ _ j acc, (if agent_queued ck tenantId agentId j
                        then jsonb_text_length (pj_payload j) else 0) + acc) 0 (print_jobs d).

Definition check_ceilings (ck : clock) (rq : enqueue_request) (d : db) : result unit enqueue_error :=
  let tenantId := eq_tenantId rq in
  let agentId := eq_agentId rq in
  let agentQueued := count_jobs (agent_queued ck tenantId agentId) d in
  let inFlight := count_jobs (agent_in_flight ck tenantId agentId) d in
  do* throw_if ((MAX_AGENT_QUEUED_JOBS <=? agentQueued)
                || (MAX_AGENT_QUEUED_PAYLOAD_BYTES <=?
                    queued_payload_bytes ck tenantId agentId d
                    + utf8_length (stringify (payload_json (eq_payload rq)))))
        (AgentQueuedJobsFullError agentId agentQueued) in
  throw_if (MAX_AGENT_IN_FLIGHT_JOBS <=? inFlight) (AgentQueueFullError agentId inFlight).

(** ** The insert *)

Definition new_job (rq : enqueue_request) (key : option string) (dbNow expiresAt : Z) : print_job :=
  let o := eq_options rq in {|
  pj_tenantId := co_tenantId o; pj_apiKeyId := co_rateLimitKeyId o;
  pj_destination := co_destination o; pj_documentType := co_documentType o;
  pj_agentId := eq_agentId rq; pj_printerId := eq_printerId rq; pj_status := queued;
  pj_payload := payload_json (eq_payload rq); pj_error := None;
  pj_requestedBy := Some (eq_requestedBy rq); pj_requestId := co_requestId o;
  pj_idempotencyKey := key; pj_retries := 0; pj_claimedAt := None; pj_claimToken := None;
  pj_closedClaimTokenHash := None; pj_deliveryAttempts := 0; pj_deliveredAt := None;
  pj_ackedAt := None; pj_expiresAt := expiresAt; pj_createdAt := dbNow; pj_updatedAt := dbNow;
  pj_spoolerJobId := None; pj_attemptId := None |}.

(** The primary key and the partial unique index of [print_jobs]. *)
Definition insert_job (id : string) (j : print_job) (d : db) : result db enqueue_error :=
  do* throw_if (is_some (print_jobs d !! id)
                || match pj_idempotencyKey j with
                   | Some key => is_some (job_by_key d (pj_tenantId j) key)
                   | None => false
                   end) UniqueViolation in
  Ok (with_jobs (<[id := j]> (print_jobs d)) d).

Definition notify_agent (rq : enqueue_request) (d : db) : db :=
  with_notices (job_notices d ++ [{| jn_jobId := eq_jobId rq; jn_agentId := eq_agentId rq;
    jn_tenantId := eq_tenantId rq; jn_requestId := co_requestId (eq_options rq) |}]) d.

(** Everything after the idempotency lookups: a key not seen before. *)
Definition admit_new (ck : clock) (dbNow : Z) (rq : enqueue_request) (key : option string) (d : db)
    : result (CreatePrintJobResult * db) enqueue_error :=
  let* expiresAt := require_expiry dbNow (effectiveExpiresAt (eq_options rq) dbNow) in
  match runtime_owner d rq with
  | None => Err owner_changed
  | Some (a, p, te) =>
      do* check_owner a p te in
      do* check_capability (eq_payload rq) p in
      do* lift_billing (enforceTenantJobEntitlements d ck (eq_tenantId rq)) in
      let* (_, d1) := lift_billing (reserveTenantPrintCredit Date_parse d ck (eq_tenantId rq)) in
      do* check_ceilings ck rq d1 in
      let* d2 := insert_job (eq_jobId rq) (new_job rq key dbNow expiresAt) d1 in
      Ok ({| cr_id := eq_jobId rq; cr_printerId := eq_printerId rq; cr_agentId := eq_agentId rq;
             cr_status := queued; cr_isReused := false |}, notify_agent rq d2)
  end.

Definition authority_fences (d : db) (a : auth_db) (ck : clock) (rq : enqueue_request)
    : result unit enqueue_error :=
  do* diagnostic_fence rq in
  do* manager_fence d a ck rq in
  require_credential d (eq_tenantId rq) (co_rateLimitKeyId (eq_options rq)).

Definition insertQueuedJobAtomically (a : auth_db) (ck : clock) (rawNow : dbtime)
    (rq : enqueue_request) (d : db) : result (CreatePrintJobResult * db) enqueue_error :=
  do* throw_if ((eq_tenantId rq == "") || (128 <? strlen (eq_tenantId rq)))
        (PrintJobInputError "tenantId is invalid" "INVALID_TENANT" 400) in
  do* require_active_tenant d (eq_tenantId rq) in
  let* dbNow := require_clock rawNow in
  do* authority_fences d a ck rq in
  match reprint_step d rq with
  | inl r => Ok (r, d)
  | inr key =>
      let* prior := reuse_step d rq key in
      match prior with
      | Some r => Ok (r, d)
      | None => admit_new ck dbNow rq key d
      end
  end.

(** ** Receipts that outlive their printer *)

Definition recoverReceiptForMissingOwner (printerId : string) (payload : PrintJobPayload)
    (o : CreatePrintJobOptions) (d : db) : result (option CreatePrintJobResult) enqueue_error :=
  match co_rateLimitKeyId o, co_idempotencyKey o with
  | Some apiKeyId, Some key =>
      if (apiKeyId == "") || (key == "") || is_some (co_managerAuthority o)
         || is_some (co_agentDiagnosticAuthority o) then Ok None
      else
        do* throw_if (128 <? strlen (co_tenantId o))
              (PrintJobInputError "tenantId is invalid" "INVALID_TENANT" 400) in
        do* require_active_tenant d (co_tenantId o) in
        do* throw_if (negb (credential_live d (co_tenantId o) apiKeyId))
              (PrintJobInputError "Integration credential is no longer active" "UNAUTHORIZED" 401) in
        match receipt_by_key d (co_tenantId o) key with
        | None => Ok None
        | Some (id, receipt) =>
            do* throw_if (is_none (rc_apiKeyId receipt)
                          || (rc_fingerprint receipt != idempotencyDigest sha256 {|
                                fi_printerId := printerId; fi_documentType := co_documentType o;
                                fi_destination := co_destination o;
                                fi_payload := payload_json payload |}))
                  IdempotencyConflict in
            Ok (Some (reused id (rc_status receipt) (rc_agentId receipt) (rc_printerId receipt)))
        end
  | _, _ => Ok None
  end.

(** ** [createPrintJobForPrinter]

    [nanoid] is the fresh part of the new job's id. The printer and its agent
    are read from [d_read], before the transaction that runs on [d]. *)
Definition find_owner (d : db) (tenantId printerId : string) : option printer * option agent :=
  match printers d !! (tenantId, printerId) with
  | Some p =>
      (Some p, match agents d !! pr_agentId p with
               | Some a => if ag_tenantId a == tenantId then Some a else None
               | None => None
               end)
  | None => (None, None)
  end.

Definition createPrintJobForPrinter (a : auth_db) (ck : clock) (rawNow : dbtime) (nanoid : string)
    (printerId : string) (payload : json) (o : CreatePrintJobOptions) (d_read d : db)
    : result (CreatePrintJobResult * db) enqueue_error :=
  let normalizedPrinterId := trim printerId in
  do* throw_if (normalizedPrinterId == "")
        (PrintJobInputError "printer id is required" "INVALID_REQUEST" 400) in
  do* throw_if (trim (co_tenantId o) == "")
        (PrintJobInputError "tenant context is required" "TENANT_CONTEXT_REQUIRED" 400) in
  let* requestedBy := normalizeRequestedBy (co_requestedBy o) in
  match validatePrintJobPayload decode payload with
  | Err e => Err (PayloadError e)
  | Ok validatedPayload =>
      match find_owner d_read (co_tenantId o) normalizedPrinterId with
      | (Some p, Some _) =>
          do* throw_if (match co_expiresAt o with Some None => true | _ => false end)
                (PrintJobInputError "expiresAt must be a valid timestamp" "INVALID_REQUEST" 400) in
          insertQueuedJobAtomically a ck rawNow
            {| eq_jobId := "job_" +:+ nanoid; eq_printerId := normalizedPrinterId;
               eq_agentId := pr_agentId p; eq_payload := validatedPayload;
               eq_requestedBy := requestedBy; eq_options := o |} d
      | (printer, _) =>
          let* recovered := recoverReceiptForMissingOwner normalizedPrinterId validatedPayload o d in
          match recovered with
          | Some r => Ok (r, d)
          | None =>
              if is_none printer
              then Err (PrintJobInputError "Printer not found" "PRINTER_NOT_FOUND" 404)
              else Err (PrintJobInputError "Printer owner agent not found" "AGENT_NOT_FOUND" 404)
          end
      end
  end.
End service.

(** ** Reprint keys *)

Lemma replace_all_app c by_ x y :
  replace_all c by_ (x +:+ y) = replace_all c by_ x +:+ replace_all c by_ y.
Proof.
  induction x as [|c' x IH]; [done|]. rewrite string_app_cons. cbn [replace_all]. rewrite IH.
  case_if; [by rewrite string_app_assoc|by rewrite string_app_cons].
Qed.

Lemma replace_all_ne c by_ c' s :
  c' ≠ c → replace_all c by_ (String c' s) = String c' (replace_all c by_ s).
Proof. intros. simpl. by rewrite bool_decide_false. Qed.

(** Three passes, backslash first, are one pass over the string. *)
Lemma escapedReprintId_spec id : escapedReprintId id = escape_like id.
Proof.
  unfold escapedReprintId. induction id as [|c s IH]; [done|]. cbn [escape_like].
  unfold is_wildcard.
  destruct (decide (c = "%"%char)) as [->|H1];
    [|destruct (decide (c = "_"%char)) as [->|H2];
      [|destruct (decide (c = backslash)) as [->|H3]]].
  1-3: change (String ?x ?y) with (String x EmptyString +:+ y) at 1;
       rewrite !replace_all_app, IH; reflexivity.
  rewrite (bool_decide_false (c = Ascii.ascii_of_nat 37)), (bool_decide_false (c = Ascii.ascii_of_nat 95)),
    (bool_decide_false (c = backslash)) by done.
  by rewrite !replace_all_ne, IH by done.
Qed.

Lemma escape_like_app x y : escape_like (x +:+ y) = escape_like x +:+ escape_like y.
Proof.
  induction x as [|c x IH]; [done|]. rewrite string_app_cons. cbn [escape_like].
  rewrite IH. by case_if.
Qed.

Lemma reprint_pattern_spec key original :
  like_null (Some key) (reprint_pattern original)
  = startsWith key ("gw-reprint:" +:+ original +:+ ":").
Proof.
  unfold reprint_pattern. rewrite escapedReprintId_spec. cbn [like_null].
  rewrite <-sql_like_prefix, !escape_like_app, !string_app_assoc.
  assert (escape_like "gw-reprint:" = "gw-reprint:") as -> by (vm_compute; reflexivity).
  assert (escape_like ":" = ":") as -> by (vm_compute; reflexivity). done.
Qed.

Lemma reprint_key_matches original n :
  like_null (Some (reprint_key original n)) (reprint_pattern original) = true.
Proof.
  rewrite reprint_pattern_spec. unfold reprint_key. apply prefix_spec. exists (number_text n).
  by rewrite !string_app_assoc.
Qed.

(** ** What the transaction did *)

Lemma insert_job_inv id j d d' :
  insert_job id j d = Ok d' →
  print_jobs d !! id = None ∧
  (∀ key, pj_idempotencyKey j = Some key →
     ∀ k x, print_jobs d !! k = Some x → job_key_is (pj_tenantId j) key x = false) ∧
  d' = with_jobs (<[id := j]> (print_jobs d)) d.
Proof.
  unfold insert_job. intros H. rinv. apply orb_false_iff in Hr as [H1 H2]. split_and!; [| |done].
  - by destruct (print_jobs d !! id).
  - intros key Hk k x Hx. rewrite Hk in H2. unfold job_by_key in H2.
    destruct (find_row _ _) eqn:E; [done|]. by eapply find_row_None.
Qed.

Lemma runtime_owner_inv d rq a p te :
  runtime_owner d rq = Some (a, p, te) →
  agents d !! eq_agentId rq = Some a ∧ printers d !! (eq_tenantId rq, eq_printerId rq) = Some p ∧
  tenants d !! eq_tenantId rq = Some te ∧ ag_tenantId a = eq_tenantId rq ∧
  pr_agentId p = eq_agentId rq.
Proof.
  unfold runtime_owner. intros H.
  destruct (agents d !! eq_agentId rq) as [a'|]; [|done]. simpl in H.
  destruct (printers d !! (eq_tenantId rq, eq_printerId rq)) as [p'|]; [|done]. simpl in H.
  destruct (tenants d !! ag_tenantId a') as [te'|] eqn:Ht; [|done]. simpl in H.
  case_if; [|done]. bools. simplify_eq. split_and!; congruence.
Qed.

Lemma require_expiry_inv now e e' :
  require_expiry now e = Ok e' → e = Some e' ∧ now < e' ≤ now + 24 * 60 * 60 * 1000.
Proof.
  unfold require_expiry. destruct e as [e|]; [|done]. intros H. rinv. bools. subst. split; [done|lia].
Qed.

(** A printer that passes the transaction's own checks passes the routing
    test, and its owner is active and up to date. *)
Lemma check_owner_inv Date_parse env a p te now :
  check_owner a p te = Ok tt →
  tn_lifecycle te = "active" ∧ ag_lifecycle a = "active" ∧
  isPrinterAvailableForJob Date_parse env p None now = true ∧
  (pr_managementSource p = "manager" → pr_desiredRevision p ≤ pr_appliedDesiredRevision p).
Proof.
  unfold check_owner. intros H. rinv. bools. split_and!; [done..| |].
  - unfold isPrinterAvailableForJob. rewrite (bool_decide_true (pr_lifecycle p = _)) by done.
    rewrite Hr1, Hr3, Hr0, Hr4. done.
  - intros Hm. rewrite (bool_decide_true (pr_managementSource p = "manager")) in H by done.
    simpl in H. bools. lia.
Qed.

Section inversion.
Context (sha256 : string → string).
Context (decode : string → bytes) (Date_parse : string → option Z).
Context (utf8_length : string → Z) (jsonb_text_length : json → Z).

Abbreviation insertQueued := (insertQueuedJobAtomically sha256 Date_parse utf8_length jsonb_text_length).
Abbreviation create := (createPrintJobForPrinter sha256 decode Date_parse utf8_length jsonb_text_length).

(** What a newly admitted job satisfies. *)
Record admitted (ck : clock) (dbNow : Z) (rq : enqueue_request) (key : option string) (d d' : db)
    (a : agent) (p : printer) (te : tenant) (usage : TenantPrintUsage) (expiresAt : Z) : Prop := {
  ad_expiry : dbNow < expiresAt ≤ dbNow + 24 * 60 * 60 * 1000;
  ad_owner : runtime_owner d rq = Some (a, p, te);
  ad_checks : check_owner a p te = Ok tt;
  ad_capable : validatePayloadForPrinter (Some (payload_spec (eq_payload rq))) (printer_caps p) = Ok tt;
  ad_rates : enforceTenantJobEntitlements d ck (eq_tenantId rq) = Ok tt;
  ad_credit : ∃ d1, reserveTenantPrintCredit Date_parse d ck (eq_tenantId rq) = Ok (usage, d1) ∧
    d' = notify_agent rq (with_jobs (<[eq_jobId rq := new_job rq key dbNow expiresAt]> (print_jobs d)) d1);
  ad_queued : count_jobs (agent_queued ck (eq_tenantId rq) (eq_agentId rq)) d < MAX_AGENT_QUEUED_JOBS;
  ad_in_flight :
    count_jobs (agent_in_flight ck (eq_tenantId rq) (eq_agentId rq)) d < MAX_AGENT_IN_FLIGHT_JOBS;
  ad_bytes : queued_payload_bytes jsonb_text_length ck (eq_tenantId rq) (eq_agentId rq) d
    + utf8_length (stringify (payload_json (eq_payload rq))) < MAX_AGENT_QUEUED_PAYLOAD_BYTES;
  ad_fresh : print_jobs d !! eq_jobId rq = None;
  ad_key : ∀ k, key = Some k →
    ∀ id x, print_jobs d !! id = Some x → job_key_is (eq_tenantId rq) k x = false;
}.

Lemma reserve_frame d ck t u d1 :
  reserveTenantPrintCredit Date_parse d ck t = Ok (u, d1) → ∃ us, d1 = with_usage us d.
Proof.
  unfold reserveTenantPrintCredit. intros H. rinv.
  destruct (usage_periods d !! _); [case_if|]; simplify_eq; eauto.
Qed.

Lemma admit_new_inv ck dbNow rq key d r d' :
  admit_new Date_parse utf8_length jsonb_text_length ck dbNow rq key d = Ok (r, d') →
  r = {| cr_id := eq_jobId rq; cr_printerId := eq_printerId rq; cr_agentId := eq_agentId rq;
         cr_status := queued; cr_isReused := false |} ∧
  ∃ a p te usage expiresAt, admitted ck dbNow rq key d d' a p te usage expiresAt.
Proof.
  unfold admit_new. intros H. apply rbind_Ok in H as (e & He & H).
  destruct (runtime_owner d rq) as [[[a p] te]|] eqn:Ho; [|done].
  apply rbind_Ok in H as ([] & Hck & H). apply rbind_Ok in H as ([] & Hcap & H).
  apply rbind_Ok in H as ([] & Hent & H). apply rbind_Ok in H as ([usage d1] & Hcr & H).
  apply rbind_Ok in H as ([] & Hceil & H). apply rbind_Ok in H as (d2 & Hins & H). simplify_eq.
  split; [done|]. exists a, p, te, usage, e.
  assert (reserveTenantPrintCredit Date_parse d ck (eq_tenantId rq) = Ok (usage, d1)) as Hres
    by (unfold lift_billing in Hcr; by destruct (reserveTenantPrintCredit _ _ _ _); simplify_eq).
  destruct (reserve_frame _ _ _ _ _ Hres) as [us ->].
  apply insert_job_inv in Hins as (Hf & Hk & ->). apply require_expiry_inv in He as [_ He].
  unfold check_ceilings in Hceil. rinv. bools. constructor; try done.
  - unfold check_capability in Hcap.
    by destruct (validatePayloadForPrinter _ _) as [[]|] eqn:E; simplify_eq.
  - unfold lift_billing in Hent. destruct (enforceTenantJobEntitlements _ _ _) as [[]|]; by simplify_eq.
  - by exists (with_usage us d).
Qed.

Lemma insertQueued_inv a ck rawNow rq d r d' :
  insertQueued a ck rawNow rq d = Ok (r, d') →
  authority_fences d a ck rq = Ok tt ∧ tenant_lifecycle d (eq_tenantId rq) = Some "active" ∧
  (eq_tenantId rq == "") || (128 <? strlen (eq_tenantId rq)) = false ∧
  ((d' = d ∧ cr_isReused r = true ∧ (reprint_step d rq = inl r ∨
      ∃ key, reprint_step d rq = inr key ∧ reuse_step sha256 d rq key = Ok (Some r))) ∨
   (cr_isReused r = false ∧ ∃ dbNow key, read_clock Date_parse rawNow = Some dbNow ∧
      reprint_step d rq = inr key ∧ reuse_step sha256 d rq key = Ok None ∧
      admit_new Date_parse utf8_length jsonb_text_length ck dbNow rq key d = Ok (r, d'))).
Proof.
  unfold insertQueuedJobAtomically. intros H. apply rbind_Ok in H as ([] & Hid%throw_if_Ok & H).
  apply rbind_Ok in H as ([] & Ht & H). apply rbind_Ok in H as (dbNow & Hc & H).
  apply rbind_Ok in H as ([] & Hf & H). split; [done|]. split.
  { unfold require_active_tenant in Ht. rinv. by bools. }
  split; [done|]. destruct (reprint_step d rq) as [r0|key] eqn:Er.
  - simplify_eq. left. split; [done|]. split; [|by left]. unfold reprint_step in Er.
    repeat case_match; simplify_eq; done.
  - apply rbind_Ok in H as ([r0|] & Hreuse & H).
    + simplify_eq. left. split; [done|]. split; [|by eauto]. unfold reuse_step in Hreuse.
      repeat case_match; simplify_eq; rinv; simplify_eq.
      * unfold reuse_receipt in Hr. case_match. rinv. by subst.
      * unfold reuse_job in Hr. case_match. rinv. case_if; by simplify_eq.
    + right. pose proof (admit_new_inv _ _ _ _ _ _ _ H) as [-> _]. split; [done|].
      exists dbNow, key. split_and!; try done. unfold require_clock in Hc. by case_match; simplify_eq.
Qed.

(** The request the public entry point hands to the transaction. *)
Definition request_of (nanoid printerId agentId requestedBy : string) (payload : PrintJobPayload)
    (o : CreatePrintJobOptions) : enqueue_request := {|
  eq_jobId := "job_" +:+ nanoid; eq_printerId := printerId; eq_agentId := agentId;
  eq_payload := payload; eq_requestedBy := requestedBy; eq_options := o |}.

(** A request that passed the checks made before any query. *)
Record well_formed_request (printerId : string) (payload : json) (o : CreatePrintJobOptions)
    (requestedBy : string) (p : PrintJobPayload) : Prop := {
  wr_printer : trim printerId ≠ "";
  wr_tenant : trim (co_tenantId o) ≠ "";
  wr_requester : normalizeRequestedBy (co_requestedBy o) = Ok requestedBy;
  wr_payload : validatePrintJobPayload decode payload = Ok p;
}.

Lemma create_inv a ck rawNow nanoid printerId payload o d_read d r d' :
  create a ck rawNow nanoid printerId payload o d_read d = Ok (r, d') →
  ∃ requestedBy p, well_formed_request printerId payload o requestedBy p ∧
    ((∃ pr ag, find_owner d_read (co_tenantId o) (trim printerId) = (Some pr, Some ag) ∧
        co_expiresAt o ≠ Some None ∧
        insertQueued a ck rawNow (request_of nanoid (trim printerId) (pr_agentId pr) requestedBy p o) d
        = Ok (r, d')) ∨
     (d' = d ∧ cr_isReused r = true ∧
        (∀ pr ag, find_owner d_read (co_tenantId o) (trim printerId) ≠ (Some pr, Some ag)) ∧
        recoverReceiptForMissingOwner sha256 (trim printerId) p o d = Ok (Some r))).
Proof.
  unfold createPrintJobForPrinter. intros H. apply rbind_Ok in H as ([] & H1%throw_if_Ok & H).
  apply rbind_Ok in H as ([] & H2%throw_if_Ok & H). apply rbind_Ok in H as (requestedBy & H3 & H).
  destruct (validatePrintJobPayload decode payload) as [p|] eqn:Hp; [|done]. bools.
  exists requestedBy, p. split; [by constructor|].
  destruct (find_owner d_read (co_tenantId o) (trim printerId)) as [[pr|] [ag|]] eqn:Ho.
  1: { left. exists pr, ag. apply rbind_Ok in H as ([] & He%throw_if_Ok & H).
       split_and!; [done| |done]. intros Hn. by rewrite Hn in He. }
  all: right; apply rbind_Ok in H as ([r0|] & Hrec & H); [|by case_if]; simplify_eq;
    split_and!; [done| |naive_solver|done];
    unfold recoverReceiptForMissingOwner in Hrec; repeat case_match; simplify_eq; rinv; by simplify_eq.
Qed.

(** A create that is the transaction of its request. *)
Lemma create_unfold a ck rawNow nanoid printerId payload o d_read d requestedBy p pr ag :
  well_formed_request printerId payload o requestedBy p →
  find_owner d_read (co_tenantId o) (trim printerId) = (Some pr, Some ag) →
  co_expiresAt o ≠ Some None →
  create a ck rawNow nanoid printerId payload o d_read d =
  insertQueued a ck rawNow (request_of nanoid (trim printerId) (pr_agentId pr) requestedBy p o) d.
Proof.
  intros [H1 H2 H3 H4] Ho He. unfold createPrintJobForPrinter.
  rewrite bool_decide_false by done. simpl. rewrite bool_decide_false by done. simpl.
  rewrite H3. simpl. rewrite H4, Ho. by destruct (co_expiresAt o) as [[|]|].
Qed.

Lemma create_new_inv a ck rawNow nanoid printerId payload o d_read d r d' :
  create a ck rawNow nanoid printerId payload o d_read d = Ok (r, d') → cr_isReused r = false →
  ∃ requestedBy p pr ag dbNow key aa pp te usage expiresAt,
    well_formed_request printerId payload o requestedBy p ∧ co_expiresAt o ≠ Some None ∧
    find_owner d_read (co_tenantId o) (trim printerId) = (Some pr, Some ag) ∧
    let rq := request_of nanoid (trim printerId) (pr_agentId pr) requestedBy p o in
    read_clock Date_parse rawNow = Some dbNow ∧ reprint_step d rq = inr key ∧
    reuse_step sha256 d rq key = Ok None ∧
    (eq_tenantId rq == "") || (128 <? strlen (eq_tenantId rq)) = false ∧
    r = {| cr_id := eq_jobId rq; cr_printerId := eq_printerId rq; cr_agentId := eq_agentId rq;
           cr_status := queued; cr_isReused := false |} ∧
    admitted ck dbNow rq key d d' aa pp te usage expiresAt.
Proof.
  intros H Hnew.
  destruct (create_inv _ _ _ _ _ _ _ _ _ _ _ H) as (requestedBy & p & Hwf & [(pr & ag & Ho & He & Hi)|(_ & Hre & _)]);
    [|congruence].
  destruct (insertQueued_inv _ _ _ _ _ _ _ Hi)
    as (Hf & _ & Hid & [(_ & Hre & _)|(_ & dbNow & key & Hc & Hrs & Hru & Ha)]); [congruence|].
  destruct (admit_new_inv _ _ _ _ _ _ _ Ha) as (Hr & aa & pp & te & usage & e & Had).
  exists requestedBy, p, pr, ag, dbNow, key, aa, pp, te, usage, e. by split_and!.
Qed.
End inversion.

(** ** Keys stay unique *)

Lemma keys_ok_insert jobs rs id j :
  keys_ok jobs rs → jobs !! id = None → rs !! id = None →
  key_taken rs (pj_tenantId j) (pj_idempotencyKey j) = false →
  (∀ key k x, pj_idempotencyKey j = Some key → jobs !! k = Some x →
     job_key_is (pj_tenantId j) key x = false) →
  keys_ok (<[id := j]> jobs) rs.
Proof.
  intros (H1 & H2 & H3) Hj Hr Hk Hfree.
  assert (∀ k x, jobs !! k = Some x → ¬ same_request (pj_tenantId j) (pj_idempotencyKey j) x) as Hno.
  { intros k x Hx ([key Hkey] & Ht & Hs). specialize (Hfree _ _ _ Hkey Hx).
    unfold job_key_is in Hfree. rewrite Ht, Hs, Hkey, !bool_decide_true in Hfree by done. done. }
  split_and!; [| |done].
  - intros id' j' [[<- <-]|[_ Hj']]%lookup_insert_Some; eauto.
  - intros id1 id2 j1 j2 [[<- <-]|[_ Hj1]]%lookup_insert_Some [[<- <-]|[_ Hj2]]%lookup_insert_Some Hs;
      [done| | |by eauto]; exfalso.
    + by eapply Hno.
    + destruct Hs as (Hk' & Ht & Hs). eapply (Hno id1 j1); [done|]. unfold same_request.
      split_and!; congruence.
Qed.

(** A key the lookups did not find is free in both tables. *)
Lemma reuse_step_None sha256 d rq key :
  reuse_step sha256 d rq key = Ok None → key ≠ Some "" →
  key_taken (receipts d) (eq_tenantId rq) key = false ∧
  (∀ k, key = Some k → job_by_key d (eq_tenantId rq) k = None).
Proof.
  intros H Hne. unfold reuse_step in H. destruct key as [k|].
  - rewrite bool_decide_false in H by congruence.
    destruct (receipt_by_key d _ k) as [kr|] eqn:Er; [rinv; done|].
    destruct (job_by_key d _ k) as [kj|] eqn:Ej; [rinv; done|]. split; [|by intros ? [= <-]].
    apply key_taken_false. intros id r Hr. by eapply find_row_None.
  - split; [|done]. apply key_taken_false. done.
Qed.

Lemma reprint_step_key d rq key :
  reprint_step d rq = inr key → co_idempotencyKey (eq_options rq) ≠ Some "" → key ≠ Some "".
Proof.
  unfold reprint_step. intros H Hne. by repeat case_match; simplify_eq.
Qed.

Section guarantees.
Context (sha256 : string → string).
Context (decode : string → bytes) (Date_parse : string → option Z).
Context (utf8_length : string → Z) (jsonb_text_length : json → Z).

Abbreviation create := (createPrintJobForPrinter sha256 decode Date_parse utf8_length jsonb_text_length).

Lemma new_job_ok rq key dbNow e : row_ok (new_job rq key dbNow e).
Proof.
  unfold row_ok, budgets_ok, MAX_DELIVERY_ATTEMPTS, MAX_RETRIES. simpl. split_and!; done || lia.
Qed.

Lemma admitted_frame ck dbNow rq key d d' a p te usage e :
  admitted Date_parse utf8_length jsonb_text_length ck dbNow rq key d d' a p te usage e →
  print_jobs d' = <[eq_jobId rq := new_job rq key dbNow e]> (print_jobs d) ∧
  receipts d' = receipts d ∧ agents d' = agents d ∧ printers d' = printers d ∧
  tenants d' = tenants d ∧ api_keys d' = api_keys d ∧ plans d' = plans d ∧
  subscriptions d' = subscriptions d ∧
  job_notices d' = job_notices d ++ [{| jn_jobId := eq_jobId rq; jn_agentId := eq_agentId rq;
    jn_tenantId := eq_tenantId rq; jn_requestId := co_requestId (eq_options rq) |}].
Proof.
  intros [_ _ _ _ _ (d1 & Hres & ->)].
  destruct (reserve_frame Date_parse _ _ _ _ _ Hres) as [us ->]. done.
Qed.

Lemma admitted_usage ck dbNow rq key d d' a p te usage e :
  admitted Date_parse utf8_length jsonb_text_length ck dbNow rq key d d' a p te usage e →
  ∃ c, getTenantPrintQuotaContext Date_parse d ck (eq_tenantId rq) = Ok c ∧
    used_prints d' (eq_tenantId rq) (qc_periodStart c)
    = used_prints d (eq_tenantId rq) (qc_periodStart c) + 1 ∧
    (∀ limit, qc_limit c = limited limit →
       used_prints d' (eq_tenantId rq) (qc_periodStart c) ≤ limit).
Proof.
  intros [_ _ _ _ _ (d1 & Hres & ->)].
  assert (∃ c, getTenantPrintQuotaContext Date_parse d ck (eq_tenantId rq) = Ok c) as [c Hc].
  { unfold reserveTenantPrintCredit in Hres. apply rbind_Ok in Hres as (c & Hc & _). by exists c. }
  exists c. split; [done|]. rewrite (reserve_inv _ _ _ _ _ Hc) in Hres. case_if; [|done]. simplify_eq.
  change (used_prints (notify_agent _ (with_jobs _ ?d1))) with (used_prints d1).
  rewrite used_prints_put. split; [done|]. intros limit Hl.
  pose proof (quota_context_pos _ _ _ _ _ _ Hc Hl). rewrite Hl in *. simpl in *.
  apply orb_true_iff in Heqb as [Hn|Hlt]; [|bools; lia].
  unfold used_prints. destruct (_ !! _); [done|]. lia.
Qed.

(** ** Properties *)

(** The reprint search matches exactly the keys of that original job: no
    character of a job id acts as a wildcard. *)
Theorem reprint_match_exact key original :
  like_null (Some key) (reprint_pattern original)
  = startsWith key ("gw-reprint:" +:+ original +:+ ":").
Proof. apply reprint_pattern_spec. Qed.

(** C13. A request that creates a job creates exactly one, under the fresh id: a
    queued row in the state the protocol starts from, valid for the table's
    constraints, stamped with the database clock and expiring within 24 hours;
    its printer and payload pass routing and capability checks; the agent
    stays within its queue ceilings; exactly one print credit of the tenant's
    period is charged, within the plan; one notice is sent; nothing else
    changes. *)
Theorem create_admits_exactly_one a ck rawNow nanoid printerId payload o d_read d r d'
  (Hrun : create a ck rawNow nanoid printerId payload o d_read d = Ok (r, d'))
  (Hnew : cr_isReused r = false) :
  let id := "job_" +:+ nanoid in
  ∃ j p dbNow c,
    cr_id r = id ∧ print_jobs d !! id = None ∧ print_jobs d' = <[id := j]> (print_jobs d) ∧
    row_ok j ∧ print_job_check j = true ∧ pj_status j = queued ∧ pj_tenantId j = co_tenantId o ∧
    read_clock Date_parse rawNow = Some dbNow ∧ pj_createdAt j = dbNow ∧
    dbNow < pj_expiresAt j ≤ dbNow + hours 24 ∧
    printers d !! (pj_tenantId j, pj_printerId j) = Some p ∧ pr_agentId p = pj_agentId j ∧
    (∀ env t, isPrinterAvailableForJob Date_parse env p None t = true) ∧
    count_jobs (agent_queued ck (co_tenantId o) (pj_agentId j)) d' ≤ MAX_AGENT_QUEUED_JOBS ∧
    getTenantPrintQuotaContext Date_parse d ck (co_tenantId o) = Ok c ∧
    used_prints d' (co_tenantId o) (qc_periodStart c)
    = used_prints d (co_tenantId o) (qc_periodStart c) + 1 ∧
    (∀ limit, qc_limit c = limited limit →
       used_prints d' (co_tenantId o) (qc_periodStart c) ≤ limit) ∧
    receipts d' = receipts d ∧ agents d' = agents d ∧ printers d' = printers d ∧
    ∃ n, job_notices d' = job_notices d ++ [n] ∧ jn_jobId n = id ∧ jn_agentId n = pj_agentId j.
Proof.
  intros id. destruct (create_new_inv _ _ _ _ _ _ _ _ _ _ _ _ _ _ _ _ Hrun Hnew)
    as (requestedBy & pl & pr & ag & dbNow & key & aa & pp & te & usage & e & Hwf & _ & Ho & Hc & Hrs &
        Hru & Hf & Hr & Had).
  set (rq := request_of _ _ _ _ _ _) in *.
  destruct (admitted_frame _ _ _ _ _ _ _ _ _ _ _ Had) as (Hj & Hrc & Hag & Hpr & _ & _ & _ & _ & Hn).
  destruct (admitted_usage _ _ _ _ _ _ _ _ _ _ _ Had) as (c & Hctx & Hused & Hlim).
  destruct (runtime_owner_inv _ _ _ _ _ (ad_owner _ _ _ _ _ _ _ _ _ _ _ _ _ _ Had))
    as (_ & Hp & _ & _ & Hpa).
  exists (new_job rq key dbNow e), pp, dbNow, c.
  split; [by rewrite Hr|]. split; [apply (ad_fresh _ _ _ _ _ _ _ _ _ _ _ _ _ _ Had)|].
  split; [done|]. split; [apply new_job_ok|]. split_and!; try done.
  - unfold print_job_check. simpl. eapply admitted_payload_check, wr_payload. exact Hwf.
  - apply (ad_expiry _ _ _ _ _ _ _ _ _ _ _ _ _ _ Had).
  - apply (ad_expiry _ _ _ _ _ _ _ _ _ _ _ _ _ _ Had).
  - intros env t. by eapply check_owner_inv, ad_checks.
  - pose proof (ad_queued _ _ _ _ _ _ _ _ _ _ _ _ _ _ Had) as Hq. unfold count_jobs in *.
    change (count_rows (agent_queued ck (eq_tenantId rq) (eq_agentId rq)) (print_jobs d')
            ≤ MAX_AGENT_QUEUED_JOBS).
    etrans; [apply (count_rows_le (agent_queued ck (eq_tenantId rq) (eq_agentId rq)) _ (print_jobs d)
      _ [eq_jobId rq])|cbn [length]; lia].
    intros k x Hx Hq' Hni. exists x. split; [|done]. rewrite Hj, lookup_insert_ne in Hx; [done|set_solver].
  - exists {| jn_jobId := eq_jobId rq; jn_agentId := eq_agentId rq;
      jn_tenantId := eq_tenantId rq; jn_requestId := co_requestId (eq_options rq) |}. by split_and!.
Qed.

(** One logical request is one record: creating jobs keeps ids and idempotency
    keys unique across live jobs and receipts, and a request that is answered
    with an existing record changes nothing at all (no second row, no second
    charge, no second notice). *)
Theorem create_keeps_keys a ck rawNow nanoid printerId payload o d_read d r d'
  (Hkeys : keys_ok (print_jobs d) (receipts d)) (Hkey : co_idempotencyKey o ≠ Some "")
  (Hfresh : receipts d !! ("job_" +:+ nanoid) = None)
  (Hrun : create a ck rawNow nanoid printerId payload o d_read d = Ok (r, d')) :
  keys_ok (print_jobs d') (receipts d') ∧ receipts d' = receipts d ∧
  if cr_isReused r then d' = d
  else print_jobs d !! cr_id r = None ∧
       ∃ rq key dbNow e, print_jobs d' = <[cr_id r := new_job rq key dbNow e]> (print_jobs d).
Proof.
  destruct (cr_isReused r) eqn:Hre.
  - assert (d' = d) as ->; [|done].
    destruct (create_inv _ _ _ _ _ _ _ _ _ _ _ _ _ _ _ _ Hrun)
      as (? & ? & _ & [(pr & ag & _ & _ & Hi)|(-> & _)]); [|done].
    destruct (insertQueued_inv _ _ _ _ _ _ _ _ _ _ _ Hi) as (_ & _ & _ & [(-> & _)|(? & _)]); [done|congruence].
  - destruct (create_new_inv _ _ _ _ _ _ _ _ _ _ _ _ _ _ _ _ Hrun Hre)
      as (requestedBy & pl & pr & ag & dbNow & key & aa & pp & te & usage & e & _ & _ & _ & _ & Hrs &
          Hru & _ & -> & Had).
    destruct (admitted_frame _ _ _ _ _ _ _ _ _ _ _ Had) as (-> & -> & _).
    split; [|split; [done|]; split; [apply (ad_fresh _ _ _ _ _ _ _ _ _ _ _ _ _ _ Had)|by eauto]].
    pose proof (reprint_step_key _ _ _ Hrs Hkey) as Hne.
    destruct (reuse_step_None _ _ _ _ Hru Hne) as [Ht _].
    apply keys_ok_insert; [done|apply (ad_fresh _ _ _ _ _ _ _ _ _ _ _ _ _ _ Had)|done|done|].
    intros k id x Hk Hx. by eapply (ad_key _ _ _ _ _ _ _ _ _ _ _ _ _ _ Had).
Qed.

(** ** Retries *)

(** [j'] records the same request as [j]; the payload may come back from
    [jsonb] with its properties in another order. *)
Definition same_logical (j j' : print_job) : Prop :=
  pj_tenantId j' = pj_tenantId j ∧ pj_idempotencyKey j' = pj_idempotencyKey j ∧
  pj_apiKeyId j' = pj_apiKeyId j ∧ pj_requestedBy j' = pj_requestedBy j ∧
  pj_printerId j' = pj_printerId j ∧ pj_documentType j' = pj_documentType j ∧
  pj_destination j' = pj_destination j ∧ json_eqv (pj_payload j) (pj_payload j').

(** Receipt [rc] records the request of row [j]. *)
Definition records (j : print_job) (rc : receipt) : Prop :=
  rc_tenantId rc = pj_tenantId j ∧ rc_idempotencyKey rc = pj_idempotencyKey j ∧
  rc_apiKeyId rc = pj_apiKeyId j ∧ rc_requestedBy rc = pj_requestedBy j ∧
  rc_fingerprint rc = idempotencyDigest sha256 (row_fingerprint j).

(** The record of job [j] is still there, live or archived. *)
Inductive kept (d : db) (id : string) (j : print_job) : Prop :=
| kept_live j' : print_jobs d !! id = Some j' → same_logical j j' → kept d id j
| kept_archived j' rc :
    receipts d !! id = Some rc → records j' rc → same_logical j j' → kept d id j.

Lemma wf_payload_json p : wf_json (payload_json p).
Proof.
  assert (∀ key o, Forall (λ kv : string * json, wf_json kv.2) (optional_field key o)) as Hopt
    by (intros key [s|]; repeat constructor).
  assert (∀ l, bool_decide (NoDup l) = true → NoDup (A := string) l) as Hnd
    by (intros l; apply bool_decide_eq_true).
  constructor.
  - apply Hnd. destruct (pp_protocol p), (pp_peripherals p); vm_compute; reflexivity.
  - repeat (apply Forall_app; split); [repeat constructor|apply Hopt| |repeat constructor].
    destruct (pp_peripherals p) as [pe|]; [|constructor]. constructor; [|constructor]. constructor.
    + apply Hnd. destruct (pe_drawer pe), (pe_cutter pe), (pe_buzzer pe); vm_compute; reflexivity.
    + repeat (apply Forall_app; split); apply Hopt.
Qed.

Lemma logical_fingerprint rq key dbNow e j' :
  same_logical (new_job rq key dbNow e) j' →
  idempotencyFingerprint (row_fingerprint j') = idempotencyFingerprint (request_fingerprint rq).
Proof.
  intros (_ & _ & _ & _ & Hp & Ht & Hd & Hpay). symmetry.
  apply fingerprint_eqv; simpl; [done|by rewrite Ht|by rewrite Hd|apply wf_payload_json|done].
Qed.

Lemma own_identity rq rq' key dbNow e apiKeyId requestedBy :
  eq_options rq' = eq_options rq → eq_requestedBy rq' = eq_requestedBy rq →
  apiKeyId = pj_apiKeyId (new_job rq key dbNow e) →
  requestedBy = pj_requestedBy (new_job rq key dbNow e) →
  foreign_identity rq' apiKeyId requestedBy = false.
Proof.
  intros Ho Hb -> ->. unfold foreign_identity. rewrite Ho, Hb. simpl.
  rewrite bool_decide_true by done. rewrite andb_false_r, orb_false_r.
  by destruct (co_rateLimitKeyId (eq_options rq)) as [k|]; simpl; [rewrite andb_false_r|].
Qed.

Lemma receipt_found d rq key dbNow e id j' rc :
  keys_ok (print_jobs d) (receipts d) → receipts d !! id = Some rc → records j' rc →
  same_logical (new_job rq (Some key) dbNow e) j' →
  receipt_by_key d (eq_tenantId rq) key = Some (id, rc).
Proof.
  intros (_ & _ & K3) Hr (Rt & Rk & _) (St & Sk & _). simpl in St, Sk.
  change (co_tenantId (eq_options rq)) with (eq_tenantId rq) in St. apply find_row_unique; [done| |].
  - unfold same_key. simpl. rewrite Rt, Rk, St, Sk, !bool_decide_true by done. done.
  - intros k x Hx Hk. eapply (K3 k id); [done|done|]. unfold same_key in *.
    rewrite !andb_true_iff, !bool_decide_eq_true in *. destruct Hk as [[_ Hkt] Hkk].
    rewrite Hkk, Hkt. simpl. split_and!; congruence.
Qed.

Lemma receipt_fingerprint rq key dbNow e j' rc :
  records j' rc → same_logical (new_job rq key dbNow e) j' →
  rc_fingerprint rc = idempotencyDigest sha256 (request_fingerprint rq).
Proof.
  intros (_ & _ & _ & _ & ->) Hs. unfold idempotencyDigest.
  by rewrite <-(logical_fingerprint _ _ _ _ _ Hs).
Qed.

(** The lookups find the kept record. *)
Lemma reuse_kept d rq rq' key dbNow e id :
  keys_ok (print_jobs d) (receipts d) → key ≠ "" →
  eq_options rq' = eq_options rq → eq_requestedBy rq' = eq_requestedBy rq →
  request_fingerprint rq' = request_fingerprint rq →
  kept d id (new_job rq (Some key) dbNow e) →
  ∃ r, reuse_step sha256 d rq' (Some key) = Ok (Some r) ∧ cr_id r = id ∧ cr_isReused r = true.
Proof.
  intros (K1 & K2 & K3) Hne Ho Hb Hfp Hk. unfold reuse_step. rewrite bool_decide_false by done.
  assert (eq_tenantId rq' = eq_tenantId rq) as Ht by (unfold eq_tenantId; by rewrite Ho).
  destruct Hk as [j' Hj Hs|j' rc Hr Hrec Hs]; pose proof Hs as (St & Sk & Sa & Sb & _); simpl in St, Sk;
    change (co_tenantId (eq_options rq)) with (eq_tenantId rq) in St.
  - destruct (K1 _ _ Hj) as [_ Hfree]. rewrite St, Sk in Hfree.
    assert (receipt_by_key d (eq_tenantId rq') key = None) as ->.
    { apply find_row_absent. intros k x Hx. rewrite Ht. by apply (proj1 (key_taken_false _ _ _) Hfree k). }
    assert (job_by_key d (eq_tenantId rq') key = Some (id, j')) as ->.
    { apply find_row_unique; [done| |].
      - unfold job_key_is. by rewrite Ht, St, Sk, !bool_decide_true.
      - intros k x Hx Hk. unfold job_key_is in Hk. bools. eapply K2; [done..|].
        unfold same_request. split_and!; [by eexists|congruence|congruence]. }
    unfold reuse_job. erewrite own_identity by done. cbn [rbind throw_if].
    rewrite (logical_fingerprint _ _ _ _ _ Hs), Hfp, bool_decide_true by done.
    by eexists.
  - rewrite Ht, (receipt_found _ _ _ _ _ _ _ _ (conj K1 (conj K2 K3)) Hr Hrec Hs).
    pose proof Hrec as (_ & _ & Ra & Rb & _). unfold reuse_receipt.
    rewrite (own_identity rq rq' (Some key) dbNow e) by (simpl in *; congruence).
    rewrite (receipt_fingerprint _ _ _ _ _ _ Hrec Hs), Hfp, bool_decide_true by done.
    cbn [negb orb throw_if rbind]. by eexists.
Qed.

Abbreviation insertQueued := (insertQueuedJobAtomically sha256 Date_parse utf8_length jsonb_text_length).

(** A request that passes the fences is decided by the lookups. *)
Lemma insertQueued_lookup a ck rawNow dbNow rq d :
  (eq_tenantId rq == "") || (128 <? strlen (eq_tenantId rq)) = false →
  tenant_lifecycle d (eq_tenantId rq) = Some "active" → read_clock Date_parse rawNow = Some dbNow →
  authority_fences d a ck rq = Ok tt →
  insertQueued a ck rawNow rq d =
  match reprint_step d rq with
  | inl r => Ok (r, d)
  | inr key =>
      let* prior := reuse_step sha256 d rq key in
      match prior with
      | Some r => Ok (r, d)
      | None => admit_new Date_parse utf8_length jsonb_text_length ck dbNow rq key d
      end
  end.
Proof.
  intros Hid Ht Hc Hf. unfold insertQueuedJobAtomically, require_active_tenant, require_clock.
  rewrite Hid, Ht, Hc, Hf. rewrite bool_decide_true by done. done.
Qed.

(** A retry of an accepted request returns the job it created, as long as the
    record is kept and the caller is still authorised. *)
Lemma retry_same_job a ck rawNow nanoid printerId payload o d_read d r d' j
    a2 ck2 rawNow2 dbNow2 nanoid2 d_read2 d2 pr2 ag2
  (Hrun : create a ck rawNow nanoid printerId payload o d_read d = Ok (r, d'))
  (Hnew : cr_isReused r = false) (Hjob : print_jobs d' !! cr_id r = Some j)
  (Hkey : truthy (co_idempotencyKey o) = true) (Hplain : co_reprintOfJobId o = None)
  (Hkeys : keys_ok (print_jobs d2) (receipts d2)) (Hkept : kept d2 (cr_id r) j)
  (Htenant : tenant_lifecycle d2 (co_tenantId o) = Some "active")
  (Hclock : read_clock Date_parse rawNow2 = Some dbNow2)
  (Howner : find_owner d_read2 (co_tenantId o) (trim printerId) = (Some pr2, Some ag2))
  (Hauth : ∀ requestedBy p, authority_fences d2 a2 ck2
     (request_of nanoid2 (trim printerId) (pr_agentId pr2) requestedBy p o) = Ok tt) :
  ∃ r2, create a2 ck2 rawNow2 nanoid2 printerId payload o d_read2 d2 = Ok (r2, d2) ∧
    cr_id r2 = cr_id r ∧ cr_isReused r2 = true.
Proof.
  destruct (create_new_inv _ _ _ _ _ _ _ _ _ _ _ _ _ _ _ _ Hrun Hnew)
    as (requestedBy & pl & pr & ag & dbNow & key & aa & pp & te & usage & e & Hwf & He & _ & _ & Hrs &
        _ & Hid & Hr & Had).
  destruct (admitted_frame _ _ _ _ _ _ _ _ _ _ _ Had) as (Hjobs & _).
  assert (key = co_idempotencyKey o) as ->
    by (unfold reprint_step in Hrs; simpl in Hrs; rewrite Hplain in Hrs; by simplify_eq).
  destruct (co_idempotencyKey o) as [key|] eqn:Hk; [|done]. simpl in Hkey.
  apply negb_true_iff, bool_decide_eq_false in Hkey.
  rewrite Hr, Hjobs in Hjob. simpl in Hjob. rewrite lookup_insert_eq in Hjob. simplify_eq.
  rewrite (create_unfold _ _ _ _ _ _ _ _ _ _ _ _ _ _ _ _ _ _ Hwf Howner He).
  rewrite (insertQueued_lookup _ _ _ _
    (request_of nanoid2 (trim printerId) (pr_agentId pr2) requestedBy pl o) _ Hid Htenant Hclock
    (Hauth _ _)).
  unfold reprint_step. simpl eq_options. rewrite Hplain, Hk.
  destruct (reuse_kept d2 (request_of nanoid (trim printerId) (pr_agentId pr) requestedBy pl o)
    (request_of nanoid2 (trim printerId) (pr_agentId pr2) requestedBy pl o)
    key dbNow e _ Hkeys Hkey eq_refl eq_refl eq_refl Hkept) as (r2 & -> & Hr2 & Hre).
  by exists r2.
Qed.

(** The same holds for an integration whose printer or agent has been removed
    since: the archived outcome is recovered, not lost and not printed again. *)
Theorem retry_survives_inventory a ck rawNow nanoid printerId payload o d_read d r d' j j' rc
    a2 ck2 rawNow2 nanoid2 d_read2 d2 keyId
  (Hrun : create a ck rawNow nanoid printerId payload o d_read d = Ok (r, d'))
  (Hnew : cr_isReused r = false) (Hjob : print_jobs d' !! cr_id r = Some j)
  (Hkey : truthy (co_idempotencyKey o) = true) (Hplain : co_reprintOfJobId o = None)
  (Hcaller : co_rateLimitKeyId o = Some keyId) (Hid : keyId ≠ "")
  (Hmanager : co_managerAuthority o = None) (Hdiag : co_agentDiagnosticAuthority o = None)
  (Hkeys : keys_ok (print_jobs d2) (receipts d2))
  (Hreceipt : receipts d2 !! cr_id r = Some rc) (Hrec : records j' rc) (Hsame : same_logical j j')
  (Htenant : tenant_lifecycle d2 (co_tenantId o) = Some "active")
  (Hlive : credential_live d2 (co_tenantId o) keyId = true)
  (Hgone : ∀ pr ag, find_owner d_read2 (co_tenantId o) (trim printerId) ≠ (Some pr, Some ag)) :
  ∃ r2, create a2 ck2 rawNow2 nanoid2 printerId payload o d_read2 d2 = Ok (r2, d2) ∧
    cr_id r2 = cr_id r ∧ cr_status r2 = rc_status rc ∧ cr_isReused r2 = true.
Proof.
  destruct (create_new_inv _ _ _ _ _ _ _ _ _ _ _ _ _ _ _ _ Hrun Hnew)
    as (requestedBy & pl & pr & ag & dbNow & key & aa & pp & te & usage & e & Hwf & He & _ & _ & Hrs &
        _ & Hlen & Hr & Had).
  destruct (admitted_frame _ _ _ _ _ _ _ _ _ _ _ Had) as (Hjobs & _).
  assert (key = co_idempotencyKey o) as ->
    by (unfold reprint_step in Hrs; simpl in Hrs; rewrite Hplain in Hrs; by simplify_eq).
  destruct (co_idempotencyKey o) as [key|] eqn:Hk; [|done]. simpl in Hkey.
  apply negb_true_iff, bool_decide_eq_false in Hkey.
  rewrite Hr, Hjobs in Hjob. simpl in Hjob. rewrite lookup_insert_eq in Hjob. simplify_eq.
  apply orb_false_iff in Hlen as [_ Hlen]. set (rq := request_of _ _ _ _ _ _) in *.
  exists (reused (eq_jobId rq) (rc_status rc) (rc_agentId rc) (rc_printerId rc)).
  split; [|done]. destruct Hwf as [W1 W2 W3 W4]. unfold createPrintJobForPrinter.
  rewrite bool_decide_false by done. simpl. rewrite bool_decide_false by done. simpl.
  rewrite W3. simpl. rewrite W4.
  assert (recoverReceiptForMissingOwner sha256 (trim printerId) pl o d2 =
    Ok (Some (reused (eq_jobId rq) (rc_status rc) (rc_agentId rc) (rc_printerId rc)))) as Hanswer.
  { unfold recoverReceiptForMissingOwner, require_active_tenant.
    rewrite Hcaller, Hk, Hmanager, Hdiag, Htenant, Hlive, (bool_decide_false (keyId = "")),
      (bool_decide_false (key = "")), bool_decide_true by done. cbn [is_some orb negb throw_if rbind].
    change (128 <? strlen (co_tenantId o)) with (128 <? strlen (eq_tenantId rq)). rewrite Hlen.
    cbn [throw_if rbind]. cbn [cr_id] in Hreceipt.
    pose proof (receipt_found d2 rq key dbNow e _ _ _ Hkeys Hreceipt Hrec Hsame) as Hf.
    change (eq_tenantId rq) with (co_tenantId o) in Hf. rewrite Hf.
    change {| fi_printerId := trim printerId; fi_documentType := co_documentType o;
              fi_destination := co_destination o; fi_payload := payload_json pl |}
      with (request_fingerprint rq).
    rewrite (receipt_fingerprint _ _ _ _ _ _ Hrec Hsame), bool_decide_true by done.
    destruct Hsame as (_ & _ & Ha & _). destruct Hrec as (_ & _ & Hra & _). simpl in Ha.
    rewrite Hcaller in Ha. by rewrite Hra, Ha. }
  destruct (find_owner d_read2 (co_tenantId o) (trim printerId)) as [[pr2|] [ag2|]] eqn:Hown;
    [by destruct (Hgone _ _ eq_refl)|..]; by rewrite Hanswer.
Qed.


(** A key that already names another request is refused: when the stored
    request differs, or belongs to a principal this caller may not see, the
    caller gets a conflict, neither the other job's identity nor a new job. *)
Theorem key_conflict_refused a ck rawNow dbNow nanoid printerId payload o d_read d requestedBy p
    key id j pr ag
  (Hwf : well_formed_request decode printerId payload o requestedBy p)
  (Hexp : co_expiresAt o ≠ Some None)
  (Hid : (co_tenantId o == "") || (128 <? strlen (co_tenantId o)) = false)
  (Hkey : co_idempotencyKey o = Some key) (Hne : key ≠ "") (Hplain : co_reprintOfJobId o = None)
  (Hkeys : keys_ok (print_jobs d) (receipts d))
  (Hjob : print_jobs d !! id = Some j) (Hown : job_key_is (co_tenantId o) key j = true)
  (Htenant : tenant_lifecycle d (co_tenantId o) = Some "active")
  (Hclock : read_clock Date_parse rawNow = Some dbNow)
  (Howner : find_owner d_read (co_tenantId o) (trim printerId) = (Some pr, Some ag)) :
  let rq := request_of nanoid (trim printerId) (pr_agentId pr) requestedBy p o in
  authority_fences d a ck rq = Ok tt →
  foreign_identity rq (pj_apiKeyId j) (pj_requestedBy j) = true ∨
  idempotencyFingerprint (row_fingerprint j) ≠ idempotencyFingerprint (request_fingerprint rq) →
  create a ck rawNow nanoid printerId payload o d_read d = Err IdempotencyConflict.
Proof.
  intros rq Hauth Hdiff. destruct Hkeys as (K1 & K2 & _).
  rewrite (create_unfold _ _ _ _ _ _ _ _ _ _ _ _ _ _ _ _ _ _ Hwf Howner Hexp).
  fold rq. rewrite (insertQueued_lookup _ _ _ _ rq _ Hid Htenant Hclock Hauth).
  unfold reprint_step. change (eq_options rq) with o. rewrite Hplain, Hkey. unfold reuse_step.
  rewrite bool_decide_false by done. change (eq_tenantId rq) with (co_tenantId o).
  unfold job_key_is in Hown. bools. destruct (K1 _ _ Hjob) as [_ Hfree].
  assert (receipt_by_key d (co_tenantId o) key = None) as ->.
  { apply find_row_absent. intros k x Hx. rewrite key_taken_false in Hfree.
    specialize (Hfree _ _ Hx). congruence. }
  assert (job_by_key d (co_tenantId o) key = Some (id, j)) as ->.
  { apply find_row_unique; [done| |].
    - unfold job_key_is. by rewrite !bool_decide_true.
    - intros k x Hx Hk. unfold job_key_is in Hk. bools. eapply K2; [done..|].
      unfold same_request. split_and!; [by eexists|congruence|congruence]. }
  unfold reuse_job. destruct (foreign_identity rq _ _) eqn:Hfi; cbn [throw_if rbind]; [done|].
  rewrite bool_decide_false; [done|]. by destruct Hdiff.
Qed.

(** Operators who ask for a reprint of the same job while one is still open
    converge on it: whatever claims, sweeps and reports happened since the
    first reprint was created, a second request (by anyone entitled to make it)
    returns that very job and creates nothing. *)
Theorem reprint_converges a ck rawNow nanoid printerId payload o d_read d r d' original who
    a2 ck2 rawNow2 dbNow2 nanoid2 printerId2 payload2 o2 requestedBy2 p2 d_read2 d2 j2 pr2 ag2
  (Hrun : create a ck rawNow nanoid printerId payload o d_read d = Ok (r, d'))
  (Hnew : cr_isReused r = false)
  (Hof : co_reprintOfJobId o = Some original) (Hne : original ≠ "")
  (Hok : ∀ id j, print_jobs d' !! id = Some j → row_ok j)
  (Hlater : jobs_refine who d' d2)
  (Hopen : print_jobs d2 !! cr_id r = Some j2) (Hlive : isTerminal (pj_status j2) = false)
  (Hwf2 : well_formed_request decode printerId2 payload2 o2 requestedBy2 p2)
  (Hexp2 : co_expiresAt o2 ≠ Some None)
  (Hsame : co_tenantId o2 = co_tenantId o) (Hof2 : co_reprintOfJobId o2 = Some original)
  (Htenant : tenant_lifecycle d2 (co_tenantId o) = Some "active")
  (Hclock : read_clock Date_parse rawNow2 = Some dbNow2)
  (Howner : find_owner d_read2 (co_tenantId o2) (trim printerId2) = (Some pr2, Some ag2))
  (Hauth : authority_fences d2 a2 ck2
     (request_of nanoid2 (trim printerId2) (pr_agentId pr2) requestedBy2 p2 o2) = Ok tt) :
  create a2 ck2 rawNow2 nanoid2 printerId2 payload2 o2 d_read2 d2 =
  Ok (reused (cr_id r) (pj_status j2) (pj_agentId j2) (pj_printerId j2), d2).
Proof.
  destruct (create_new_inv _ _ _ _ _ _ _ _ _ _ _ _ _ _ _ _ Hrun Hnew)
    as (requestedBy & pl & pr & ag & dbNow & key & aa & pp & te & usage & e & Hwf & He & _ & _ & Hrs &
        _ & Hid & Hr & Had).
  destruct (admitted_frame _ _ _ _ _ _ _ _ _ _ _ Had) as (Hjobs & _).
  set (rq := request_of nanoid _ _ _ _ _) in *.
  set (rq2 := request_of nanoid2 (trim printerId2) (pr_agentId pr2) requestedBy2 p2 o2) in *.
  rewrite (create_unfold _ _ _ _ _ _ _ _ _ _ _ _ _ _ _ _ _ _ Hwf2 Howner Hexp2).
  assert (eq_tenantId rq2 = eq_tenantId rq) as Ht by exact Hsame.
  fold rq2. rewrite (insertQueued_lookup _ _ _ dbNow2 rq2); [|by rewrite Ht|by rewrite Ht|done|done].
  unfold reprint_step in *. change (eq_options rq) with o in Hrs. change (eq_options rq2) with o2.
  rewrite Hof in Hrs. rewrite Hof2. rewrite bool_decide_false in * by done.
  destruct (active_reprint d (eq_tenantId rq) original) as [[k0 x0]|] eqn:Hact; [done|]. simplify_eq.
  rewrite Ht.
  assert (∀ j, active_reprint_row (eq_tenantId rq) original j = true ↔
    pj_tenantId j = eq_tenantId rq ∧ like_null (pj_idempotencyKey j) (reprint_pattern original) = true ∧
    isTerminal (pj_status j) = false) as Hrow.
  { intros j. unfold active_reprint_row, status_in. rewrite !andb_true_iff, !bool_decide_eq_true.
    split; intros; destruct_and?; split_and!; try done; destruct (pj_status j); set_solver. }
  assert (∀ k x, print_jobs d2 !! k = Some x → active_reprint_row (eq_tenantId rq) original x = true →
    k = eq_jobId rq) as Huniq.
  { intros k x Hx (Hxt & Hxk & Hxl)%Hrow. destruct (Hlater _ _ Hx) as (x0 & Hx0 & Href).
    pose proof (row_refines_open _ _ _ Href (Hok _ _ Hx0) Hxl) as Hxl0.
    destruct Href as [(It & _ & _ & _ & _ & _ & Ik & _) _]. rewrite Hjobs in Hx0.
    apply lookup_insert_Some in Hx0 as [[<- _]|[_ Hx0]]; [done|].
    pose proof (select_head_None _ _ _ _ _ Hact Hx0) as Hf. apply not_true_iff_false in Hf.
    destruct Hf. apply Hrow. rewrite <-It, <-Ik. done. }
  assert (active_reprint_row (eq_tenantId rq) original j2 = true) as Hj2.
  { destruct (Hlater _ _ Hopen) as (j0 & Hj0 & [(It & _ & _ & _ & _ & _ & Ik & _) _]).
    rewrite Hjobs in Hj0. simpl in Hj0. rewrite lookup_insert_eq in Hj0. simplify_eq.
    apply Hrow. rewrite It, Ik. split_and!; [done|apply reprint_key_matches|done]. }
  destruct (active_reprint d2 (eq_tenantId rq) original) as [[k x]|] eqn:Hfound.
  - apply select_head_Some in Hfound as [Hx Hxa]. pose proof (Huniq _ _ Hx Hxa) as ->.
    cbn [cr_id] in *. rewrite Hx in Hopen. by injection Hopen as ->.
  - pose proof (select_head_None _ _ _ _ _ Hfound Hopen). congruence.
Qed.
End guarantees.

(** ** Witnesses *)

Definition sample_document : string := "%PDF-1.4 %%EOF".

Definition pdf_decode (s : string) : bytes :=
  if s == base64 (text_bytes sample_document) then text_bytes sample_document else [].

Definition pdf_payload : json := JObject [
  ("type", JString "pdf"); ("encoding", JString "base64");
  ("data", JString (base64 (text_bytes sample_document)))].

Definition sample_key : api_key := {|
  ak_tenantId := "t1"; ak_odooEnabled := true; ak_revokedAt := None; ak_readOnlyUntil := None |}.

Definition service_db : db := {|
  tenants := {["t1" := sample_tenant]}; agents := {["a1" := sample_agent]};
  printers := {[("t1", "p1") := sample_printer]}; api_keys := {["key1" := sample_key]};
  print_jobs := ∅; receipts := ∅; plans := {["basic" := sample_plan 3]};
  subscriptions := {["t1" := sample_subscription]}; usage_periods := ∅; job_notices := [] |}.

Definition sample_options (key reprint documentType : option string) : CreatePrintJobOptions := {|
  co_managerAuthority := None; co_agentDiagnosticAuthority := None; co_requestedBy := "odoo";
  co_idempotencyKey := key; co_tenantId := "t1"; co_destination := None;
  co_documentType := documentType; co_expiresAt := None; co_rateLimitKeyId := Some "key1";
  co_requestId := None; co_reprintOfJobId := reprint |}.

Definition order_request : CreatePrintJobOptions := sample_options (Some "order-1") None (Some "invoice").
Definition reprint_request : CreatePrintJobOptions := sample_options None (Some "job_0") None.

(** One call of the service at time [t], on one database. *)
Definition service_run (t : Z) (nanoid : string) (o : CreatePrintJobOptions) (d_read d : db) :=
  createPrintJobForPrinter id pdf_decode (λ _, None) strlen (λ v, strlen (stringify v))
    sample_auth (at_time t) (DDate t) nanoid "p1" pdf_payload o d_read d.

Definition after (m : result (CreatePrintJobResult * db) enqueue_error) (d : db) : db :=
  match m with Ok (_, d') => d' | Err _ => d end.

Definition sample_answer (nanoid : string) : CreatePrintJobResult := {|
  cr_id := "job_" +:+ nanoid; cr_printerId := "p1"; cr_agentId := "a1"; cr_status := queued;
  cr_isReused := false |}.

Definition ordered_db : db := after (service_run 2000 "x" order_request service_db service_db) service_db.
Definition reprint_db : db := after (service_run 2000 "x" reprint_request service_db service_db) service_db.

Lemma order_accepted :
  service_run 2000 "x" order_request service_db service_db = Ok (sample_answer "x", ordered_db).
Proof. vm_compute. reflexivity. Qed.

Lemma reprint_accepted :
  service_run 2000 "x" reprint_request service_db service_db = Ok (sample_answer "x", reprint_db).
Proof. vm_compute. reflexivity. Qed.

Lemma single_job_keys jobs rs id j :
  jobs = {[id := j]} → rs = ∅ → keys_ok jobs rs.
Proof.
  intros -> ->. split_and!.
  - intros id' j' _. split; [by rewrite lookup_empty|]. apply key_taken_false.
    intros id'' r Hr. by rewrite lookup_empty in Hr.
  - intros id1 id2 j1 j2 [<- _]%lookup_singleton_Some [<- _]%lookup_singleton_Some. done.
  - intros id1 id2 r1 r2 Hr. by rewrite lookup_empty in Hr.
Qed.

Definition order_job : print_job := new_job
  (request_of "x" "p1" "a1" "odoo" {| pp_type := "pdf"; pp_encoding := "base64"; pp_protocol := None;
     pp_peripherals := None; pp_data := base64 (text_bytes sample_document) |} order_request)
  (Some "order-1") 2000 3602000.

Lemma create_admits_exactly_one_witness :
  ∃ j, print_jobs ordered_db = {["job_x" := j]} ∧ row_ok j ∧ pj_createdAt j = 2000.
Proof.
  destruct (create_admits_exactly_one id pdf_decode (λ _, None) strlen (λ v, strlen (stringify v))
    sample_auth (at_time 2000) (DDate 2000) "x" "p1" pdf_payload order_request service_db service_db
    _ _ order_accepted eq_refl)
    as (j & p & dbNow & c & _ & _ & Hj & Hok & _ & _ & _ & Hc & Hcr & _).
  exists j. split; [exact Hj|]. split; [exact Hok|]. simpl in Hc. congruence.
Defined.

Lemma create_keeps_keys_witness : keys_ok (print_jobs ordered_db) (receipts ordered_db).
Proof.
  apply (create_keeps_keys id pdf_decode (λ _, None) strlen (λ v, strlen (stringify v))
    sample_auth (at_time 2000) (DDate 2000) "x" "p1" pdf_payload order_request service_db service_db
    (sample_answer "x") ordered_db).
  - split_and!; intros ? ? ?; simpl; try (intros ?); rewrite lookup_empty; done.
  - done.
  - apply lookup_empty.
  - apply order_accepted.
Defined.

(** The order, printed and archived; the printer is gone. *)
Definition archived_db : db := {|
  tenants := {["t1" := sample_tenant]}; agents := ∅; printers := ∅;
  api_keys := {["key1" := sample_key]}; print_jobs := ∅;
  receipts := {["job_x" := receipt_of id (set_status success order_job)]};
  plans := ∅; subscriptions := ∅; usage_periods := ∅; job_notices := [] |}.

Lemma retry_survives_inventory_witness :
  ∃ r2, service_run 90000 "y" order_request archived_db archived_db = Ok (r2, archived_db) ∧
    cr_id r2 = "job_x" ∧ cr_status r2 = success ∧ cr_isReused r2 = true.
Proof.
  apply (retry_survives_inventory id pdf_decode (λ _, None) strlen (λ v, strlen (stringify v))
    sample_auth (at_time 2000) (DDate 2000) "x" "p1" pdf_payload order_request service_db service_db
    (sample_answer "x") ordered_db order_job (set_status success order_job)
    (receipt_of id (set_status success order_job)) sample_auth (at_time 90000) (DDate 90000) "y" archived_db archived_db "key1" order_accepted eq_refl);
    try (vm_compute; reflexivity).
  - done.
  - split_and!; simpl.
    + intros i j0 Hj0. by rewrite lookup_empty in Hj0.
    + intros i i' j0 j0' Hj0. by rewrite lookup_empty in Hj0.
    + intros i i' r0 r0' [<- _]%lookup_singleton_Some [<- _]%lookup_singleton_Some. done.
  - by split_and!.
  - split_and!; try reflexivity. apply eqv_refl.
  - intros pr ag. vm_compute. discriminate.
Defined.

Lemma sample_request_ok o :
  normalizeRequestedBy (co_requestedBy o) = Ok "odoo" → trim (co_tenantId o) ≠ "" →
  well_formed_request pdf_decode "p1" pdf_payload o "odoo"
    {| pp_type := "pdf"; pp_encoding := "base64"; pp_protocol := None;
       pp_peripherals := None; pp_data := base64 (text_bytes sample_document) |}.
Proof. intros Hr Ht. constructor; [done|done|done|]. vm_compute. reflexivity. Qed.

Lemma key_conflict_refused_witness :
  service_run 9000 "y" (sample_options (Some "order-1") None (Some "label")) ordered_db ordered_db
  = Err IdempotencyConflict.
Proof.
  apply (key_conflict_refused id pdf_decode (λ _, None) strlen (λ v, strlen (stringify v))
    sample_auth (at_time 9000) (DDate 9000) 9000 "y" "p1" pdf_payload
    (sample_options (Some "order-1") None (Some "label")) ordered_db ordered_db "odoo"
    {| pp_type := "pdf"; pp_encoding := "base64"; pp_protocol := None;
       pp_peripherals := None; pp_data := base64 (text_bytes sample_document) |}
    "order-1" "job_x" order_job sample_printer sample_agent); try (vm_compute; reflexivity).
  - by apply sample_request_ok.
  - done.
  - done.
  - by eapply (single_job_keys _ _ "job_x" order_job); vm_compute.
  - right. vm_compute. discriminate.
Defined.

Definition reprint_job : print_job := new_job
  (request_of "x" "p1" "a1" "odoo" {| pp_type := "pdf"; pp_encoding := "base64"; pp_protocol := None;
     pp_peripherals := None; pp_data := base64 (text_bytes sample_document) |} reprint_request)
  (Some "gw-reprint:job_0:1") 2000 3602000.

Lemma reprint_converges_witness :
  service_run 9000 "y" reprint_request reprint_db reprint_db =
  Ok (reused "job_x" queued "a1" "p1", reprint_db).
Proof.
  apply (reprint_converges id pdf_decode (λ _, None) strlen (λ v, strlen (stringify v))
    sample_auth (at_time 2000) (DDate 2000) "x" "p1" pdf_payload reprint_request service_db service_db
    (sample_answer "x") reprint_db "job_0" (λ _, True) sample_auth (at_time 9000) (DDate 9000) 9000 "y"
    "p1" pdf_payload reprint_request "odoo"
    {| pp_type := "pdf"; pp_encoding := "base64"; pp_protocol := None;
       pp_peripherals := None; pp_data := base64 (text_bytes sample_document) |}
    reprint_db reprint_db reprint_job sample_printer sample_agent reprint_accepted eq_refl eq_refl);
    try (vm_compute; reflexivity).
  - done.
  - assert (print_jobs reprint_db = {["job_x" := reprint_job]}) as -> by (vm_compute; reflexivity).
    intros i j [_ <-]%lookup_singleton_Some. apply new_job_ok.
  - reflexivity.
  - by apply sample_request_ok.
  - done.
Defined.
