(* ===== verification/Lifecycle.v ===== *)
(** * Tenant and agent lifecycles

    [src/lib/lifecycle.ts], [src/lib/tenant-guard.ts],
    [src/lib/tenant-lifecycle.ts] ([transitionTenantLifecycle], with the two
    session revocations it performs from [manager-auth.ts] and
    [session-tokens.ts]) and [src/lib/agent-lifecycle.ts]
    ([transitionAgentLifecycle]). The audit rows and the session-channel
    notices are left out; whether the platform session behind a public call is
    still valid ([requirePlatformActorInTransaction]) is an argument. *)

From S2P Require Import Prelude DatabaseTime JobStatus Json Schema Authority Availability Payload.
From S2P Require Import PrinterVirtual Capability Entitlements Samples JobProtocol JobDelivery.
From S2P Require Import JobMaintenance JobService.

(** ** [tenant-guard.ts] *)

Definition requireActiveTenantInTransaction (d : db) (tenantId : string) : result unit tenant_error :=
  let lifecycle := tenant_lifecycle d tenantId in
  do* throw_if (lifecycle == Some "suspended") TenantSuspendedError in
  do* throw_if ((lifecycle == Some "deleted") || is_none lifecycle) TenantDeletedError in
  throw_if (lifecycle != Some "active") TenantDeletedError.

Definition requireActiveTenant (d : db) (tenantId : string) : result unit tenant_error :=
  match tenants d !! tenantId with
  | None => Err TenantDeletedError
  | Some tenant =>
      do* throw_if (tn_lifecycle tenant == "suspended") TenantSuspendedError in
      throw_if (tn_lifecycle tenant != "active") TenantDeletedError
  end.

(** Every error of the guard is one of the two it turns into [null]. *)
Definition requireActiveTenantOrNull (d : db) (tenantId : string) : option unit :=
  match requireActiveTenant d tenantId with Ok u => Some u | Err _ => None end.

(** ** [tenant-lifecycle.ts] *)

Definition TENANT_LIFECYCLES : list string := ["active"; "suspended"; "deleted"].

Definition ALLOWED_TRANSITIONS (from : string) : list string :=
  if from == "active" then ["suspended"; "deleted"]
  else if from == "suspended" then ["active"; "deleted"]
  else [].

Definition canTransitionTenantLifecycle (from to : string) : bool := one_of (ALLOWED_TRANSITIONS from) to.

Definition isTenantLifecycleState (value : string) : bool := one_of TENANT_LIFECYCLES value.

Inductive lifecycle_error : Type :=
| TenantLifecycleError (message code : string) (status : Z)
| PlatformMutationAuthorityChangedError.

Record TransitionTenantLifecycleResult := {
  tt_changed : bool;
  tt_lifecycle : string;
  tt_previousLifecycle : string;
}.

Definition revokeLegacyManagerSessionsForTenant (at_ : Z) (tenantId : string) (a : auth_db) : auth_db := {|
  users := users a; tenant_users := tenant_users a; refresh_tokens := refresh_tokens a;
  manager_sessions := (λ s, if ms_tenantId s == tenantId
    then {| ms_tenantId := ms_tenantId s; ms_userId := ms_userId s; ms_role := ms_role s;
            ms_expiresAt := ms_expiresAt s; ms_revokedAt := Some at_ |}
    else s) <$> manager_sessions a |}.

Definition revokeTenantRefreshFamilies (at_ : Z) (reason tenantId : string) (a : auth_db) : auth_db :=
  revoke_where (λ rt, rt_tenantId rt == Some tenantId) at_ reason a.

(** The [updates] object on the row. *)
Definition transitioned_tenant (next reason : string) (now : Z) (t : tenant) : tenant := {|
  tn_lifecycle := next;
  tn_suspendedAt := if next == "suspended" then Some now
                    else if (next == "active") && (tn_lifecycle t == "suspended") then None
                    else tn_suspendedAt t;
  tn_deletedAt := if next == "deleted" then Some now else tn_deletedAt t;
  tn_lifecycleReason := Some reason;
  tn_updatedAt := now |}.

(** [platformActor] is [None] for internal callers, otherwise whether the
    platform session still holds; [platformTenantId] is the trimmed runtime
    secret; [rawNow] is the clock row, [None] when it cannot be read. *)
Definition transitionTenantLifecycle (platformTenantId : option string) (tenantId next reason : string)
    (platformActor : option bool) (rawNow : option Z) (d : db) (a : auth_db)
    : result (TransitionTenantLifecycleResult * db * auth_db) lifecycle_error :=
  do* throw_if (negb (isTenantLifecycleState next))
        (TenantLifecycleError ("Invalid lifecycle state: " +:+ next) "INVALID_LIFECYCLE_STATE" 400) in
  do* throw_if (trim reason == "")
        (TenantLifecycleError "Lifecycle transition reason is required" "REASON_REQUIRED" 400) in
  match tenants d !! tenantId with
  | None => Err (TenantLifecycleError "Tenant not found" "TENANT_NOT_FOUND" 404)
  | Some tenant =>
      do* throw_if (platformActor == Some false) PlatformMutationAuthorityChangedError in
      do* throw_if (truthy platformTenantId && (Some tenantId == platformTenantId))
            (TenantLifecycleError "The platform tenant is protected from lifecycle suspension or deletion."
               "PLATFORM_TENANT_PROTECTED" 409) in
      do* throw_if (negb (isTenantLifecycleState (tn_lifecycle tenant)))
            (TenantLifecycleError "Tenant has an invalid lifecycle value" "INVALID_STORED_LIFECYCLE" 500) in
      let current := tn_lifecycle tenant in
      if current == next
      then Ok ({| tt_changed := false; tt_lifecycle := current; tt_previousLifecycle := current |}, d, a)
      else
        do* throw_if (negb (canTransitionTenantLifecycle current next))
              (TenantLifecycleError
                 ("Cannot transition tenant from '" +:+ current +:+ "' to '" +:+ next +:+ "'")
                 "INVALID_LIFECYCLE_TRANSITION" 409) in
        match rawNow with
        | None =>
            Err (TenantLifecycleError "Database clock is unavailable" "DATABASE_CLOCK_UNAVAILABLE" 503)
        | Some now =>
            let d' := with_tenants
              (<[tenantId := transitioned_tenant next (trim reason) now tenant]> (tenants d)) d in
            let a' := if (next == "suspended") || (next == "deleted")
                      then revokeTenantRefreshFamilies now
                             (if next == "deleted" then "tenant_deleted" else "tenant_suspended") tenantId
                             (revokeLegacyManagerSessionsForTenant now tenantId a)
                      else a in
            Ok ({| tt_changed := true; tt_lifecycle := next; tt_previousLifecycle := current |}, d', a')
        end
  end.

(** ** [lifecycle.ts] *)

Definition canTransitionLifecycle (current next : string) : bool :=
  if current == next then true
  else if current == "retired" then false
  else if next == "retired" then (current == "active") || (current == "disabled")
  else if (next == "active") || (next == "disabled") then (current == "active") || (current == "disabled")
  else false.

Definition lifecycleAllowsNewJobs (lifecycle : string) : bool := lifecycle == "active".

(** ** [agent-lifecycle.ts] *)

Inductive agent_lifecycle_error : Type :=
| AgentTenantError (error : tenant_error)
| InvalidAgentRevision
| LifecycleConflict (current next : string)
| ManagerTenantChanged
| AgentAuthorityChanged
| AgentBillingError (error : tenant_error)
| NoPairingCode.

Record AgentLifecycleResult := {
  al_changed : bool;
  al_lifecycle : string;
  al_pairingCode : option string;
  al_pairingCodeExpiresAt : option Z;
}.

Section agent_lifecycle.
Context (sha256 : string → string).

Definition hashPairingCode (code : string) : string := sha256 (toUpperCase (trim code)).

(** The first drawn code that no other agent holds. *)
Definition mint_pairing_code (d : db) (agentId : string) (candidates : list string) : option string :=
  List.find (λ candidate,
    match find_row (λ a, ag_pairingCodeHash a == Some (hashPairingCode candidate)) (agents d) with
    | None => true
    | Some (id, _) => id == agentId
    end) candidates.

Definition transitioned_agent (next : string) (pairingCode : option string) (now : Z) (ag : agent) : agent := {|
  ag_tenantId := ag_tenantId ag; ag_name := ag_name ag;
  ag_pairingCodeHash := hashPairingCode <$> pairingCode;
  ag_pairingCodeExpiresAt := (λ _, now + 10 * 60 * 1000) <$> pairingCode;
  ag_secret := None; ag_status := "offline"; ag_lifecycle := next;
  ag_lifecycleRevision := ag_lifecycleRevision ag + 1; ag_snapshot := ag_snapshot ag; ag_metadata := ag_metadata ag;
  ag_lastSeenAt := ag_lastSeenAt ag;
  ag_updatedAt := now |}.

(** [candidates] are the codes [generatePairingCode] draws, of which the loop
    looks at five. The result is [None] when the agent is not the tenant's. The
    row is locked, so the guarded update always finds it as it was read. *)
Definition transitionAgentLifecycle (agentId next tenantId : string) (manager : ManagerClaims)
    (ck : clock) (candidates : list string) (d : db) (a : auth_db)
    : result (option (AgentLifecycleResult * db)) agent_lifecycle_error :=
  do* match requireActiveTenantInTransaction d tenantId with
      | Ok _ => Ok tt | Err e => Err (AgentTenantError e) end in
  match agents d !! agentId with
  | None => Ok None
  | Some ag =>
      if ag_tenantId ag != tenantId then Ok None
      else
        do* throw_if (ag_lifecycleRevision ag <? 0) InvalidAgentRevision in
        let current := ag_lifecycle ag in
        if current == next
        then Ok (Some ({| al_changed := false; al_lifecycle := next; al_pairingCode := None;
                          al_pairingCodeExpiresAt := None |}, d))
        else
          do* throw_if (negb (canTransitionLifecycle current next)) (LifecycleConflict current next) in
          let reenable := (current == "disabled") && (next == "active") in
          do* throw_if (mc_tenantId manager != tenantId) ManagerTenantChanged in
          do* match requireManagerActorInTransaction a ck manager
                      (if next == "retired" then agents_retire else agents_disable) with
              | Ok _ => Ok tt | Err _ => Err AgentAuthorityChanged end in
          do* if reenable
              then match requireTenantBillingAccess d ck tenantId with
                   | Ok _ => Ok tt | Err e => Err (AgentBillingError e) end
              else Ok tt in
          let pairingCode := if reenable then mint_pairing_code d agentId (take 5 candidates) else None in
          do* throw_if (reenable && is_none pairingCode) NoPairingCode in
          let ag' := transitioned_agent next pairingCode (clock_timestamp ck) ag in
          Ok (Some ({| al_changed := true; al_lifecycle := next; al_pairingCode := pairingCode;
                       al_pairingCodeExpiresAt := ag_pairingCodeExpiresAt ag' |},
                    with_agents (<[agentId := ag']> (agents d)) d))
  end.
End agent_lifecycle.

(** ** What a transition did *)

Lemma transition_inv ptid t next reason pa rawNow d a r d' a' :
  transitionTenantLifecycle ptid t next reason pa rawNow d a = Ok (r, d', a') →
  ∃ row, tenants d !! t = Some row ∧ next ∈ TENANT_LIFECYCLES ∧ pa ≠ Some false ∧
    (truthy ptid = true → ptid ≠ Some t) ∧
    ((tt_changed r = false ∧ tn_lifecycle row = next ∧ d' = d ∧ a' = a) ∨
     (tt_changed r = true ∧ tn_lifecycle row ≠ next ∧
      canTransitionTenantLifecycle (tn_lifecycle row) next = true ∧ ∃ now, rawNow = Some now ∧
      d' = with_tenants (<[t := transitioned_tenant next (trim reason) now row]> (tenants d)) d ∧
      a' = if (next == "suspended") || (next == "deleted")
           then revokeTenantRefreshFamilies now
                  (if next == "deleted" then "tenant_deleted" else "tenant_suspended") t (revokeLegacyManagerSessionsForTenant now t a)
           else a)).
Proof.
  unfold transitionTenantLifecycle. intros H.
  apply rbind_Ok in H as ([] & H1%throw_if_Ok & H). apply rbind_Ok in H as ([] & _ & H).
  destruct (tenants d !! t) as [row|]; [|done].
  apply rbind_Ok in H as ([] & H2%throw_if_Ok & H). apply rbind_Ok in H as ([] & H3%throw_if_Ok & H).
  apply rbind_Ok in H as ([] & _ & H). exists row. split; [done|].
  split; [unfold isTenantLifecycleState in H1; bools; by apply one_of_true|].
  split; [by bools|]. split.
  { intros Hp Heq. rewrite Hp, Heq, bool_decide_true in H3 by done. done. }
  destruct (decide (tn_lifecycle row = next)) as [He|Hne].
  - rewrite bool_decide_true in H by done. simplify_eq. by left.
  - rewrite bool_decide_false in H by done. right. apply rbind_Ok in H as ([] & H4%throw_if_Ok & H).
    destruct rawNow as [now|]; [|done]. simplify_eq. bools. split_and!; try done. by exists now.
Qed.

(** The timestamps of a tenant row tell its lifecycle. *)
Definition tenant_row_ok (t : tenant) : Prop :=
  tn_lifecycle t ∈ TENANT_LIFECYCLES ∧
  (tn_lifecycle t = "active" → tn_suspendedAt t = None ∧ tn_deletedAt t = None) ∧
  (tn_lifecycle t = "suspended" → is_Some (tn_suspendedAt t) ∧ tn_deletedAt t = None) ∧
  (tn_lifecycle t = "deleted" ↔ is_Some (tn_deletedAt t)).

Lemma can_transition_cases from to :
  canTransitionTenantLifecycle from to = true ↔
  (from = "active" ∧ (to = "suspended" ∨ to = "deleted")) ∨
  (from = "suspended" ∧ (to = "active" ∨ to = "deleted")).
Proof.
  unfold canTransitionTenantLifecycle, ALLOWED_TRANSITIONS. rewrite one_of_true.
  repeat case_bool_decide; subst; set_unfold; naive_solver.
Qed.

Lemma transitioned_ok next reason now row :
  canTransitionTenantLifecycle (tn_lifecycle row) next = true → tenant_row_ok row →
  tenant_row_ok (transitioned_tenant next reason now row).
Proof.
  intros Hc (_ & Ha & Hs & Hd). apply can_transition_cases in Hc.
  destruct Hc as [[Hl [->| ->]]|[Hl [->| ->]]]; unfold tenant_row_ok, transitioned_tenant, TENANT_LIFECYCLES;
    cbn [tn_lifecycle tn_suspendedAt tn_deletedAt]; eval_strings; rewrite ?Hl in *; eval_strings;
    (split; [set_solver|]); naive_solver.
Qed.

(** Revocation closes every session of the tenant. *)
Lemma revoked_tenant_sessions now reason t a ck claims perm :
  mc_tenantId claims = t →
  requireManagerActorInTransaction
    (revokeTenantRefreshFamilies now reason t (revokeLegacyManagerSessionsForTenant now t a)) ck claims perm
  = Err ManagerMutationAuthorityChangedError.
Proof.
  intros Ht. destruct (truthy (mc_familyId claims)) eqn:Hf.
  - apply revoke_where_fenced; [done|]. intros rt Hlive. unfold family_row_live in Hlive.
    rewrite Ht in Hlive. bools. by apply bool_decide_eq_true.
  - unfold requireManagerActorInTransaction, throw_if, session_active. rewrite Hf. simpl.
    rewrite lookup_fmap. destruct (manager_sessions a !! mc_jti claims) as [s|]; simpl;
      [|by repeat case_match].
    assert (legacy_row_live ck claims (if ms_tenantId s == t then
      {| ms_tenantId := ms_tenantId s; ms_userId := ms_userId s; ms_role := ms_role s;
         ms_expiresAt := ms_expiresAt s; ms_revokedAt := Some now |} else s) = false) as ->;
      [|by repeat case_match].
    unfold legacy_row_live. rewrite Ht. apply not_true_iff_false. intros Hlive.
    destruct (ms_tenantId s == t) eqn:E; bools; [done|congruence].
Qed.

Lemma guard_active d t :
  requireActiveTenantInTransaction d t = Ok tt ↔ tenant_active d t = true.
Proof.
  unfold requireActiveTenantInTransaction, tenant_lifecycle, tenant_active.
  destruct (tenants d !! t) as [row|]; [|done]. simpl. rewrite !Some_eqb, orb_false_r.
  destruct (decide (tn_lifecycle row = "suspended")) as [->|H1]; [done|].
  destruct (decide (tn_lifecycle row = "deleted")) as [->|H2]; [done|].
  rewrite (bool_decide_false (tn_lifecycle row = "suspended")),
    (bool_decide_false (tn_lifecycle row = "deleted")) by done. simpl.
  by destruct (tn_lifecycle row == "active").
Qed.

(** A minted code is one of the first five drawn, and free. *)
Lemma mint_sound sha256 d agentId candidates code ag :
  agents d !! agentId = Some ag → mint_pairing_code sha256 d agentId candidates = Some code →
  code ∈ candidates ∧
  ((∀ id other, agents d !! id = Some other →
      ag_pairingCodeHash other ≠ Some (hashPairingCode sha256 code)) ∨
   ag_pairingCodeHash ag = Some (hashPairingCode sha256 code)).
Proof.
  intros Hag Hm. unfold mint_pairing_code in Hm. apply find_some in Hm as [Hin Hp].
  split; [by apply list_elem_of_In|].
  destruct (find_row _ _) as [[id other]|] eqn:E.
  - right. apply find_row_Some in E as [Ho Hh]. bools. congruence.
  - left. intros id other Ho. pose proof (find_row_None _ _ _ _ E Ho) as Hf. cbv beta in Hf. by bools.
Qed.

(** ** Properties *)

(** The guard used before a transaction and the one inside it give the same
    verdict, and pass exactly the tenants whose lifecycle is active. *)
Theorem tenant_guards_agree d t :
  requireActiveTenant d t = requireActiveTenantInTransaction d t ∧
  (requireActiveTenantInTransaction d t = Ok tt ↔ tenant_active d t = true).
Proof.
  split; [|apply guard_active].
  unfold requireActiveTenant, requireActiveTenantInTransaction, tenant_lifecycle.
  destruct (tenants d !! t) as [row|]; [|done]. simpl. rewrite !Some_eqb, orb_false_r.
  destruct (decide (tn_lifecycle row = "deleted")) as [->|H2]; [done|].
  rewrite (bool_decide_false (tn_lifecycle row = "deleted")) by done. done.
Qed.

(** A lifecycle change is one of the four the table allows, so a deleted
    tenant never comes back and the platform tenant is never touched; the row's
    timestamps keep telling its state, and no other tenant changes. *)
Theorem tenant_transition_sound ptid t next reason pa rawNow d a r d' a'
  (Hrun : transitionTenantLifecycle ptid t next reason pa rawNow d a = Ok (r, d', a'))
  (Hok : ∀ id row, tenants d !! id = Some row → tenant_row_ok row) :
  (∀ id row, tenants d' !! id = Some row → tenant_row_ok row) ∧
  (∀ id, id ≠ t → tenants d' !! id = tenants d !! id) ∧
  (truthy ptid = true → ptid ≠ Some t) ∧
  tenant_lifecycle d' t = Some next ∧
  (∀ id, tenant_lifecycle d id = Some "deleted" → tenants d' !! id = tenants d !! id).
Proof.
  destruct (transition_inv _ _ _ _ _ _ _ _ _ _ _ Hrun)
    as (row & Hrow & _ & _ & Hp & [(_ & Hl & -> & ->)|(_ & Hne & Hc & now & _ & -> & _)]).
  - split_and!; try done. unfold tenant_lifecycle. by rewrite Hrow, <-Hl.
  - split_and!; [| | done | |].
    + intros id row'. cbn [tenants with_tenants]. intros [[<- <-]|[_ Hr]]%lookup_insert_Some; [|by eauto].
      apply transitioned_ok; [done|by eapply Hok].
    + intros id Hid. simpl. by rewrite lookup_insert_ne.
    + unfold tenant_lifecycle. simpl. by rewrite lookup_insert_eq.
    + intros id Hdel. simpl. rewrite lookup_insert_ne; [done|]. intros <-.
      unfold tenant_lifecycle in Hdel. rewrite Hrow in Hdel. simpl in Hdel. simplify_eq.
      apply can_transition_cases in Hc as [[Hl _]|[Hl _]]; congruence.
Qed.


(** An agent whose lifecycle changes loses its credential in the same write:
    the old secret is gone, the revision moves by exactly one, and only a
    re-enabled agent gets a pairing code, fresh among all agents and good for
    ten minutes. A retired agent never changes again. *)
Theorem agent_transition_sound sha256 agentId next tenantId manager ck candidates d a r d'
  (Hrun : transitionAgentLifecycle sha256 agentId next tenantId manager ck candidates d a
          = Ok (Some (r, d'))) (Hchanged : al_changed r = true) :
  ∃ ag ag', agents d !! agentId = Some ag ∧ agents d' = <[agentId := ag']> (agents d) ∧
    ag_lifecycle ag ≠ "retired" ∧ ag_lifecycle ag' = next ∧ next ∈ ["active"; "disabled"; "retired"] ∧
    ag_secret ag' = None ∧ ag_status ag' = "offline" ∧
    ag_lifecycleRevision ag' = ag_lifecycleRevision ag + 1 ∧
    tenant_active d tenantId = true ∧
    match al_pairingCode r with
    | Some code =>
        ag_lifecycle ag = "disabled" ∧ next = "active" ∧
        ag_pairingCodeHash ag' = Some (hashPairingCode sha256 code) ∧
        ag_pairingCodeExpiresAt ag' = Some (clock_timestamp ck + mins 10)
    | None => next ≠ "active" ∧ ag_pairingCodeHash ag' = None
    end ∧
    (∀ code, al_pairingCode r = Some code → code ∈ take 5 candidates ∧
       ((∀ id other, agents d !! id = Some other →
           ag_pairingCodeHash other ≠ Some (hashPairingCode sha256 code)) ∨
        ag_pairingCodeHash ag = Some (hashPairingCode sha256 code))).
Proof.
  unfold transitionAgentLifecycle in Hrun.
  destruct (requireActiveTenantInTransaction d tenantId) as [[]|] eqn:Htenant; [|done]. simpl in Hrun.
  destruct (agents d !! agentId) as [ag|] eqn:Hag; [|done]. case_if; [done|].
  apply rbind_Ok in Hrun as ([] & _ & Hrun).
  destruct (decide (ag_lifecycle ag = next)) as [He|Hne].
  { rewrite bool_decide_true in Hrun by done. by simplify_eq. }
  rewrite bool_decide_false in Hrun by done.
  apply rbind_Ok in Hrun as ([] & Hcan%throw_if_Ok & Hrun).
  apply rbind_Ok in Hrun as ([] & _ & Hrun). apply rbind_Ok in Hrun as ([] & _ & Hrun).
  apply rbind_Ok in Hrun as ([] & _ & Hrun). apply rbind_Ok in Hrun as ([] & Hmint%throw_if_Ok & Hrun).
  simplify_eq. exists ag. eexists. split; [done|]. split; [reflexivity|]. bools.
  assert (tenant_active d tenantId = true) as Hact by (by apply guard_active).
  assert (ag_lifecycle ag ≠ "retired" ∧ next ∈ ["active"; "disabled"; "retired"] ∧
    (next = "active" → ag_lifecycle ag = "disabled")) as (Hr1 & Hr2 & Hr3).
  { unfold canTransitionLifecycle in Hcan. rewrite bool_decide_false in Hcan by done.
    repeat case_bool_decide; simplify_eq; set_unfold; naive_solver. }
  cbn [al_pairingCode al_changed ag_pairingCodeHash transitioned_agent ag_lifecycle ag_secret ag_status
       ag_lifecycleRevision ag_pairingCodeExpiresAt].
  set (re := (ag_lifecycle ag == "disabled") && (next == "active")) in *.
  split_and!; try done.
  - destruct re eqn:Hre; unfold re in Hre.
    + bools. destruct (mint_pairing_code _ _ _ _); [|done]. by split_and!.
    + split; [|done]. intros ->. rewrite Hr3 in Hre by done. done.
  - intros code Hcode. destruct re; [|done]. by eapply mint_sound.
Qed.

(** ** Witnesses *)

Definition lifecycle_db : db := gateway_db ∅.

Lemma sample_tenant_ok id row : tenants lifecycle_db !! id = Some row → tenant_row_ok row.
Proof.
  simpl. intros [_ <-]%lookup_singleton_Some. unfold tenant_row_ok, TENANT_LIFECYCLES. simpl.
  split; [set_solver|]. split_and!; done.
Qed.

Definition suspend_sample :=
  transitionTenantLifecycle (Some "platform") "t1" "suspended" "unpaid" (Some true) (Some 77)
    lifecycle_db sample_auth.

Definition suspended_result : TransitionTenantLifecycleResult :=
  {| tt_changed := true; tt_lifecycle := "suspended"; tt_previousLifecycle := "active" |}.

Definition suspended_db : db :=
  match suspend_sample with Ok (_, d, _) => d | Err _ => lifecycle_db end.
Definition suspended_auth : auth_db :=
  match suspend_sample with Ok (_, _, a) => a | Err _ => sample_auth end.

Lemma suspend_runs :
  transitionTenantLifecycle (Some "platform") "t1" "suspended" "unpaid" (Some true) (Some 77)
    lifecycle_db sample_auth = Ok (suspended_result, suspended_db, suspended_auth).
Proof. vm_compute. reflexivity. Qed.

Lemma tenant_transition_sound_witness : tenant_lifecycle suspended_db "t1" = Some "suspended".
Proof.
  refine (proj1 (proj2 (proj2 (proj2 (tenant_transition_sound _ _ _ _ _ _ _ _ _ _ _ suspend_runs _))))).
  exact sample_tenant_ok.
Defined.


Definition admin_claims : ManagerClaims := {|
  mc_jti := "jti"; mc_exp := 900; mc_tenantId := "t1"; mc_userId := None; mc_role := admin;
  mc_kind := None; mc_familyId := None |}.

Definition admin_auth : auth_db := {|
  users := ∅; tenant_users := ∅; refresh_tokens := ∅;
  manager_sessions := {["jti" := {| ms_tenantId := "t1"; ms_userId := None; ms_role := admin;
    ms_expiresAt := 900000; ms_revokedAt := None |}]} |}.

Lemma agent_transition_sound_witness :
  ∃ r d' ag', transitionAgentLifecycle id "a1" "disabled" "t1" admin_claims (at_time 5) [] lifecycle_db
                admin_auth = Ok (Some (r, d')) ∧
    agents d' !! "a1" = Some ag' ∧ ag_secret ag' = None ∧ ag_lifecycleRevision ag' = 1.
Proof.
  eexists _, _. edestruct (agent_transition_sound id "a1" "disabled" "t1" admin_claims (at_time 5) []
    lifecycle_db admin_auth) as (ag & ag' & Hag & Hd' & _ & _ & _ & Hs & _ & Hrev & _).
  - vm_compute. reflexivity.
  - reflexivity.
  - exists ag'. split; [vm_compute; reflexivity|]. split; [rewrite Hd'; apply lookup_insert_eq|].
    split; [exact Hs|]. simpl in Hag. apply lookup_singleton_Some in Hag as [_ <-]. exact Hrev.
Defined.
