(* ===== verification/Operator.v ===== *)
(** * Operator actions that remove jobs

    The workspace's manual cleanup ([DELETE] of [src/app/api/jobs/route.ts])
    and [deleteAgent] of [src/app/actions.ts]: both archive job rows into
    receipts before deleting them, with plain [INSERT]s that a duplicate would
    abort. Audit rows, the discovery tables and the session-channel notice are
    left out. *)

From S2P Require Import Prelude DatabaseTime JobStatus Json Schema Authority Availability Payload.
From S2P Require Import PrinterVirtual Capability Entitlements Samples JobProtocol JobDelivery.
From S2P Require Import JobMaintenance JobService Lifecycle.

(** ** Archiving without a conflict clause *)

Section strict.
Context (mk : print_job → receipt).

(** [INSERT INTO print_job_receipts VALUES ...]: [None] is a unique violation. *)
Fixpoint insert_receipts (rows : list (string * print_job)) (rs : gmap string receipt)
    : option (gmap string receipt) :=
  match rows with
  | [] => Some rs
  | (id, row) :: rows =>
      if is_some (rs !! id) || key_taken rs (pj_tenantId row) (pj_idempotencyKey row) then None
      else insert_receipts rows (<[id := mk row]> rs)
  end.

(** One batch: read the rows, insert their receipts, delete them. *)
Definition move_batch (d : db) (batchIds : list string) : option (nat * db) :=
  let rows := rows_of d batchIds in
  rs ← insert_receipts rows (receipts d);
  Some (length rows,
        d |> with_receipts rs
          |> with_jobs (filter (λ kv : string * print_job, kv.1 ∉ batchIds) (print_jobs d))).

Fixpoint move_batches (d : db) (bs : list (list string)) : option (nat * db) :=
  match bs with
  | [] => Some (O, d)
  | b :: bs =>
      '(n, d1) ← move_batch d b;
      '(m, d2) ← move_batches d1 bs;
      Some ((n + m)%nat, d2)
  end.

Definition move_ids (d : db) (ids : list string) : option (nat * db) :=
  move_batches d (batches (length ids) RECEIPT_MATERIALIZE_BATCH_ROWS ids).
End strict.

(** ** [DELETE /api/jobs] *)

Definition MAX_CLEANUP_ROWS : Z := 5000.

Inductive cleanup_response : Type :=
| cleanup_unauthorized
| cleanup_forbidden
| cleanup_invalid (message : string)
| cleanup_denied
| cleanup_failed
| cleanup_done (deleted : nat).

(** [Number.isInteger(n)] with its value. *)
Definition js_integer (n : jsnum) : option Z :=
  match n with
  | JFin num den => if (num mod Z.pos den =? 0) then Some (num / Z.pos den) else None
  | _ => None
  end.

Definition cleanup_candidate (tenantId : string) (before : Z) (j : print_job) : bool :=
  (pj_tenantId j == tenantId) && status_in [success; failed; expired] j &&
  is_none (pj_claimToken j) && (pj_updatedAt j <? before).

Definition cleanup_transaction (sha256 : string → string) (claims : ManagerClaims) (ck : clock)
    (before : Z) (limit : nat) (a : auth_db) (d : db) : cleanup_response * db :=
  match requireActiveTenantInTransaction d (mc_tenantId claims) with
  | Err _ => (cleanup_denied, d)
  | Ok _ =>
      let candidateIds := select_ids (cleanup_candidate (mc_tenantId claims) before) pj_updatedAt
                            limit ∅ (print_jobs d) in
      match requireManagerActorInTransaction a ck claims jobs_cancel with
      | Err _ => (cleanup_denied, d)
      | Ok _ =>
          match move_ids (receipt_of sha256) d candidateIds with
          | Some (n, d') => (cleanup_done n, d')
          | None => (cleanup_failed, d)
          end
      end
  end.

(** [limitRaw] and [beforeRaw] are the query parameters, the former already
    read as a number; [databaseNow] is [databaseNowMs()]. *)
Definition DELETE_jobs (sha256 : string → string) (Date_parse : string → option Z)
    (claims : option ManagerClaims) (confirm beforeRaw : option string) (limitRaw : option jsnum)
    (databaseNow : Z) (ck : clock) (a : auth_db) (d : db) : cleanup_response * db :=
  match claims with
  | None => (cleanup_unauthorized, d)
  | Some claims =>
      if negb (hasManagerPermission claims jobs_cancel) then (cleanup_forbidden, d)
      else if confirm != Some "1" then (cleanup_invalid "Cleanup requires confirm=1", d)
      else match beforeRaw with
      | None | Some EmptyString =>
          (cleanup_invalid "Cleanup requires before=<ISO-8601 timestamp>", d)
      | Some raw =>
          match Date_parse raw with
          | None => (cleanup_invalid "before must be a valid ISO-8601 timestamp", d)
          | Some before =>
              if databaseNow <? before then (cleanup_invalid "before cannot be in the future", d)
              else match js_integer (coalesce limitRaw (JFin MAX_CLEANUP_ROWS 1)) with
              | Some n =>
                  if (n <? 1) || (MAX_CLEANUP_ROWS <? n)
                  then (cleanup_invalid "limit must be an integer between 1 and 5000", d)
                  else cleanup_transaction sha256 claims ck before (Z.to_nat n) a d
              | None => (cleanup_invalid "limit must be an integer between 1 and 5000", d)
              end
          end
      end
  end.

(** ** [deleteAgent] *)

Definition AGENT_DELETED_UNKNOWN : string :=
  "UNKNOWN_PARTIAL_DELIVERY: Agent deleted during an accepted execution; inspect the physical printer before reprinting.".
Definition AGENT_DELETED_CANCELLED : string :=
  "AGENT_DELETED: Cancelled before delivery by workspace administrator.".

Definition uncertain (row : print_job) : bool :=
  (pj_status row == printing) || (pj_error row == Some "DELIVERY_EVIDENCE_PENDING")
  || is_some (pj_deliveredAt row) || is_some (pj_ackedAt row)
  || truthy (pj_spoolerJobId row) || truthy (pj_attemptId row).

Definition deletion_receipt (sha256 : string → string) (now : Z) (row : print_job) : receipt :=
  let terminal := isTerminal (pj_status row) in {|
  rc_tenantId := pj_tenantId row; rc_idempotencyKey := pj_idempotencyKey row;
  rc_fingerprint := idempotencyDigest sha256 {|
    fi_printerId := pj_printerId row; fi_documentType := pj_documentType row;
    fi_destination := pj_destination row; fi_payload := pj_payload row |};
  rc_printerId := pj_printerId row; rc_agentId := pj_agentId row; rc_apiKeyId := pj_apiKeyId row;
  rc_destination := pj_destination row; rc_documentType := pj_documentType row;
  rc_requestedBy := pj_requestedBy row;
  rc_status := if terminal then pj_status row else failed;
  rc_error := if terminal then pj_error row
              else if uncertain row then Some AGENT_DELETED_UNKNOWN else Some AGENT_DELETED_CANCELLED;
  rc_closedClaimTokenHash :=
    match pj_closedClaimTokenHash row with
    | Some h => Some h
    | None => if truthy (pj_claimToken row) then sha256 <$> pj_claimToken row else None
    end;
  rc_deliveredAt := pj_deliveredAt row; rc_ackedAt := pj_ackedAt row;
  rc_createdAt := pj_createdAt row;
  rc_updatedAt := if terminal then pj_updatedAt row else now |}.

Definition agent_printer_ids (d : db) (tenantId agentId : string) : list string :=
  (filter (λ kp : (string * string) * printer, kp.1.1 = tenantId ∧ pr_agentId kp.2 = agentId)
          (map_to_list (printers d))).*1.*2.

Definition ownedJobs (tenantId agentId : string) (printerIds : list string) (j : print_job) : bool :=
  (pj_tenantId j == tenantId) && ((pj_agentId j == agentId) || one_of printerIds (pj_printerId j)).

(** The [while (true)] loop: [None] is an aborted transaction. Every round
    removes at least one row, so one round per row is fuel enough. *)
Fixpoint archive_owned (mk : print_job → receipt) (owned : print_job → bool) (fuel : nat) (d : db)
    : option (nat * db) :=
  match fuel with
  | O => None
  | S fuel =>
      let idRows := select_ids owned (λ _, 0) 100 ∅ (print_jobs d) in
      match idRows with
      | [] => Some (O, d)
      | _ =>
          '(n, d1) ← move_ids mk d idRows;
          '(m, d2) ← archive_owned mk owned fuel d1;
          Some ((n + m)%nat, d2)
      end
  end.

Inductive delete_response : Type :=
| delete_unauthorized
| delete_forbidden
| delete_invalid
| delete_denied
| delete_not_found
| delete_failed
| delete_ok (archivedJobs : nat).

Definition remove_agent (tenantId agentId : string) (d : db) : db :=
  d |> with_printers (filter (λ kp : (string * string) * printer,
                        ¬ (kp.1.1 = tenantId ∧ pr_agentId kp.2 = agentId)) (printers d))
    |> with_agents (delete agentId (agents d)).

Definition deleteAgent (sha256 : string → string) (manager : option ManagerClaims) (id : string)
    (ck : clock) (a : auth_db) (d : db) : delete_response * db :=
  match manager with
  | None => (delete_unauthorized, d)
  | Some manager =>
      let tenantId := mc_tenantId manager in
      let agentId := trim id in
      if negb (hasManagerPermission manager agents_retire) then (delete_forbidden, d)
      else if agentId == "" then (delete_invalid, d)
      else if match requireActiveTenantInTransaction d tenantId with Ok _ => false | Err _ => true end
      then (delete_denied, d)
      else if negb match agents d !! agentId with
                   | Some ag => ag_tenantId ag == tenantId
                   | None => false
                   end then (delete_not_found, d)
      else if match requireManagerActorInTransaction a ck manager agents_retire with
              | Ok _ => false | Err _ => true end
      then (delete_denied, d)
      else
        let printerIds := agent_printer_ids d tenantId agentId in
        match archive_owned (deletion_receipt sha256 (clock_timestamp ck))
                (ownedJobs tenantId agentId printerIds) (S (size (print_jobs d))) d with
        | None => (delete_failed, d)
        | Some (n, d1) => (delete_ok n, remove_agent tenantId agentId d1)
        end
  end.

(** ** Archiving succeeds *)

Definition moved (mk : print_job → receipt) (ids : list string) (d d' : db) : Prop :=
  (∀ id j, id ∈ ids → print_jobs d !! id = Some j →
     print_jobs d' !! id = None ∧ receipts d' !! id = Some (mk j)) ∧
  (∀ id, id ∉ ids → print_jobs d' !! id = print_jobs d !! id) ∧
  print_jobs d' ⊆ print_jobs d ∧
  (∀ id r, receipts d !! id = Some r → receipts d' !! id = Some r) ∧
  keys_ok (print_jobs d') (receipts d') ∧
  d' = with_jobs (print_jobs d') (with_receipts (receipts d') d).

Section moving.
Context (mk : print_job → receipt) (Hmk : receipt_maker mk).

(** Unique ids and keys: the plain insert is the guarded one. *)
Lemma insert_receipts_free rows rs jobs :
  NoDup rows.*1 → (∀ id j, (id, j) ∈ rows → jobs !! id = Some j) → keys_ok jobs rs →
  insert_receipts mk rows rs = Some (fold_left (insert_receipt mk) rows rs).
Proof.
  revert rs jobs. induction rows as [|[id j] rows IH]; intros rs jobs Hnd Hin Hok; [done|].
  apply NoDup_cons in Hnd as [Hni Hnd].
  assert (jobs !! id = Some j) as Hj by (apply Hin; set_solver).
  destruct (proj1 Hok _ _ Hj) as [Hn Hk]. cbn [insert_receipts fold_left].
  rewrite Hn, Hk. cbn [is_some orb]. rewrite insert_receipt_free by done.
  apply (IH _ (delete id jobs)); [done| |by apply keys_ok_archive_one].
  intros id' j' Hin'. rewrite lookup_delete_ne; [apply Hin; set_solver|].
  intros ->. apply Hni. apply list_elem_of_fmap. by exists (id', j').
Qed.

Lemma move_batch_spec d b :
  NoDup b → keys_ok (print_jobs d) (receipts d) →
  ∃ n d', move_batch mk d b = Some (n, d') ∧ moved mk b d d'.
Proof.
  intros Hnd Hok. unfold move_batch.
  assert (∀ id j, (id, j) ∈ rows_of d b → print_jobs d !! id = Some j) as Hin
    by (intros id j Hx; by apply elem_of_rows_of in Hx as [_ ?]).
  rewrite (insert_receipts_free _ _ (print_jobs d)) by (try apply rows_of_NoDup; done). simpl.
  destruct (fold_receipts mk Hmk (rows_of d b) (receipts d) (print_jobs d)) as (Hok' & Hrec & Hsame);
    [by apply rows_of_NoDup|done|done|].
  assert (∀ id, id ∈ (rows_of d b).*1 ↔ id ∈ b ∧ is_Some (print_jobs d !! id)) as Hids.
  { intros id. rewrite list_elem_of_fmap. split.
    - intros ([id' j] & -> & [Hb Hj]%elem_of_rows_of). simpl. split; [done|by exists j].
    - intros (Hb & j & Hj). exists (id, j). by rewrite elem_of_rows_of. }
  assert (filter (λ kv : string * print_job, kv.1 ∉ (rows_of d b).*1) (print_jobs d)
          = filter (λ kv : string * print_job, kv.1 ∉ b) (print_jobs d)) as Hf.
  { apply map_filter_ext. intros id j Hj. simpl. rewrite Hids. naive_solver. }
  rewrite Hf in Hok'. eexists _, _. split; [done|].
  split; [|split; [|split; [apply map_filter_subseteq|split; [|split; [exact Hok'|done]]]]].
  - intros id j Hb Hj. simpl. split.
    + apply map_lookup_filter_None. right. intros x _. simpl. by intros ?.
    + apply Hrec. by apply elem_of_rows_of.
  - intros id Hni. simpl. apply option_eq. intros x. rewrite map_lookup_filter_Some. simpl. naive_solver.
  - intros id r Hr. simpl. rewrite Hsame; [done|]. rewrite Hids. intros [_ [j Hj]].
    destruct (proj1 Hok _ _ Hj) as [Hn _]. congruence.
Qed.

Lemma moved_trans ids ids' d d1 d2 :
  (∀ x, x ∈ ids → x ∉ ids') → moved mk ids d d1 → moved mk ids' d1 d2 → moved mk (ids ++ ids') d d2.
Proof.
  intros Hdisj (A1 & A2 & A0 & A3 & A4 & A5) (B1 & B2 & B0 & B3 & B4 & B5).
  split; [|split; [|split; [by etrans|split; [|split; [done|]]]]].
  - intros id j [Hin|Hin]%elem_of_app Hj.
    + destruct (A1 _ _ Hin Hj) as [Hn Hr]. rewrite B2 by (by apply Hdisj). by eauto.
    + apply (B1 _ _ Hin). rewrite A2; [done|]. intros Hx. by eapply Hdisj.
  - intros id [? ?]%not_elem_of_app. by rewrite B2, A2.
  - eauto.
  - by rewrite B5, A5.
Qed.

Lemma move_batches_spec bs d :
  NoDup (concat bs) → keys_ok (print_jobs d) (receipts d) →
  ∃ n d', move_batches mk d bs = Some (n, d') ∧ moved mk (concat bs) d d'.
Proof.
  revert d. induction bs as [|b bs IH]; intros d Hnd Hok; simpl.
  { exists O, d. split; [done|]. split; [set_solver|]. split_and!; try done. by destruct d. }
  apply NoDup_app in Hnd as (Hb & Hdisj & Hbs).
  destruct (move_batch_spec d b Hb Hok) as (n & d1 & -> & A). simpl.
  destruct (IH d1 Hbs (proj1 (proj2 (proj2 (proj2 (proj2 A)))))) as (m & d2 & -> & B). simpl.
  eexists _, _. split; [done|]. by eapply moved_trans.
Qed.

Lemma move_ids_spec d ids :
  NoDup ids → keys_ok (print_jobs d) (receipts d) →
  ∃ n d', move_ids mk d ids = Some (n, d') ∧ moved mk ids d d'.
Proof.
  intros Hnd Hok. unfold move_ids.
  destruct (move_batches_spec (batches (length ids) RECEIPT_MATERIALIZE_BATCH_ROWS ids) d)
    as (n & d' & Hm & Hmoved);
    rewrite ?concat_batches in * by (unfold RECEIPT_MATERIALIZE_BATCH_ROWS; lia); eauto.
Qed.
End moving.

(** Every row that [owned] accepts became a receipt; the rest stayed. *)
Definition moved_where (mk : print_job → receipt) (owned : print_job → bool) (d d' : db) : Prop :=
  (∀ id j, print_jobs d !! id = Some j → owned j = true →
     print_jobs d' !! id = None ∧ receipts d' !! id = Some (mk j)) ∧
  (∀ id j, print_jobs d !! id = Some j → owned j = false → print_jobs d' !! id = Some j) ∧
  (∀ id, print_jobs d !! id = None → print_jobs d' !! id = None) ∧
  (∀ id r, receipts d !! id = Some r → receipts d' !! id = Some r) ∧
  keys_ok (print_jobs d') (receipts d') ∧
  d' = with_jobs (print_jobs d') (with_receipts (receipts d') d).

Lemma select_ids_empty {A} (p : A → bool) order n (m : gmap string A) k x :
  select_ids p order (S n) ∅ m = [] → m !! k = Some x → p x = false.
Proof.
  intros H Hm. unfold select_ids in H. eapply (select_head_None p order); [|exact Hm].
  by destruct (select_rows p order ∅ m).
Qed.

(** A round that finds rows leaves fewer. *)
Lemma moved_shrinks mk ids d d' id j :
  moved mk ids d d' → id ∈ ids → print_jobs d !! id = Some j →
  (size (print_jobs d') < size (print_jobs d))%nat.
Proof.
  intros (A1 & _ & Hsub & _) Hin Hj. apply map_subset_size. split; [done|].
  intros Hsup. destruct (A1 _ _ Hin Hj) as [Hn _].
  pose proof (lookup_weaken _ _ _ _ Hj Hsup). congruence.
Qed.

(** The loop ends, and has moved everything that was owned. *)
Lemma archive_owned_spec mk owned fuel d :
  receipt_maker mk → (size (print_jobs d) < fuel)%nat → keys_ok (print_jobs d) (receipts d) →
  ∃ n d', archive_owned mk owned fuel d = Some (n, d') ∧ moved_where mk owned d d'.
Proof.
  intros Hmk. revert d. induction fuel as [|fuel IH]; intros d Hf Hok; [lia|].
  cbn [archive_owned].
  pose proof (select_ids_NoDup owned (λ _, 0) 100 ∅ (print_jobs d)) as Hnd.
  pose proof (λ k x, select_ids_row owned (λ _, 0) 100 ∅ (print_jobs d) k x) as Hsel.
  pose proof (λ k, select_ids_sound owned (λ _, 0) 100 ∅ (print_jobs d) k) as Hsound.
  destruct (select_ids owned (λ _, 0) 100 ∅ (print_jobs d)) as [|id0 ids] eqn:Hids.
  { exists O, d. split; [done|]. assert (∀ k x, print_jobs d !! k = Some x → owned x = false) as Hno
      by (intros k x; by eapply select_ids_empty).
    split; [|split; [|split; [done|split; [done|split; [done|by destruct d]]]]].
    - intros k x Hx Ho. specialize (Hno _ _ Hx). congruence.
    - done. }
  destruct (move_ids_spec mk Hmk d (id0 :: ids) Hnd Hok) as (n & d1 & -> & Hm). simpl.
  destruct (Hsound id0 ltac:(set_solver)) as (x0 & Hx0 & _).
  pose proof (moved_shrinks _ _ _ _ _ _ Hm (proj2 (elem_of_cons _ _ _) (or_introl eq_refl)) Hx0) as Hlt.
  destruct Hm as (A1 & A2 & A0 & A3 & A4 & A5).
  destruct (IH d1 ltac:(lia) A4) as (m & d2 & -> & (B1 & B2 & B6 & B3 & B4 & B5)). simpl.
  eexists _, _. split; [done|]. split; [|split; [|split; [|split; [|split; [done|]]]]].
  - intros id j Hj Ho. destruct (decide (id ∈ id0 :: ids)) as [Hin|Hni].
    + destruct (A1 _ _ Hin Hj) as [Hn Hr]. by eauto.
    + apply B1; [by rewrite A2|done].
  - intros id j Hj Ho. apply B2; [|done]. rewrite A2; [done|]. intros Hin.
    rewrite (Hsel _ _ Hin Hj) in Ho. done.
  - intros id Hn. apply B6. destruct (print_jobs d1 !! id) as [x|] eqn:Hx; [|done].
    pose proof (lookup_weaken _ _ _ _ Hx A0). congruence.
  - eauto.
  - by rewrite B5, A5.
Qed.

Lemma deletion_receipt_maker sha256 now : receipt_maker (deletion_receipt sha256 now).
Proof. intros j. done. Qed.

Lemma receipt_of_maker sha256 : receipt_maker (receipt_of sha256).
Proof. intros j. done. Qed.

(** ** Properties *)

(** The request was refused: nothing changed. *)
Ltac refused := simplify_eq; split; [done|]; split; [done|]; split; [reflexivity|]; by eauto.

(** Manual cleanup never loses an operation: whatever the answer, every job of
    every tenant is either untouched or archived with its outcome, and the
    latter only for a finished job of the caller's own tenant, with no open
    fence, last touched before the given time; the transaction itself cannot
    fail on a duplicate receipt. *)
Theorem cleanup_archives sha256 Date_parse claims confirm beforeRaw limitRaw databaseNow ck a d resp d'
  (Hkeys : keys_ok (print_jobs d) (receipts d))
  (Hrun : DELETE_jobs sha256 Date_parse claims confirm beforeRaw limitRaw databaseNow ck a d = (resp, d')) :
  resp ≠ cleanup_failed ∧ keys_ok (print_jobs d') (receipts d') ∧ print_jobs d' ⊆ print_jobs d ∧
  (∀ id r, receipts d !! id = Some r → receipts d' !! id = Some r) ∧
  (∀ id j, print_jobs d !! id = Some j →
     print_jobs d' !! id = Some j ∨
     (print_jobs d' !! id = None ∧ receipts d' !! id = Some (receipt_of sha256 j) ∧
      isTerminal (pj_status j) = true ∧ pj_claimToken j = None ∧ pj_updatedAt j < databaseNow ∧
      ∃ c, claims = Some c ∧ pj_tenantId j = mc_tenantId c ∧ jobs_cancel ∈ permissionsByRole (mc_role c))).
Proof.
  unfold DELETE_jobs in Hrun. destruct claims as [c|]; [|refused].
  unfold hasManagerPermission in Hrun.
  destruct (bool_decide (jobs_cancel ∈ _)) eqn:Hperm; simpl in Hrun; [|refused].
  case_if; [refused|]. destruct beforeRaw as [[|ch raw]|]; try (refused).
  destruct (Date_parse _) as [before|]; [|refused].
  destruct (databaseNow <? before) eqn:Hbefore; [refused|].
  destruct (js_integer _) as [n|]; [|refused].
  destruct ((n <? 1) || _); [refused|]. unfold cleanup_transaction in Hrun.
  destruct (requireActiveTenantInTransaction d _); [|refused].
  destruct (requireManagerActorInTransaction _ _ _ _); [|refused].
  set (ids := select_ids _ _ _ _ _) in Hrun.
  destruct (move_ids_spec (receipt_of sha256) (receipt_of_maker sha256) d ids)
    as (m & d1 & Hm & (A1 & A2 & A0 & A3 & A4 & _)); [apply select_ids_NoDup|done|].
  rewrite Hm in Hrun. simplify_eq. split; [done|]. split; [exact A4|].
  split; [exact A0|]. split; [exact A3|].
  intros id j Hj. destruct (decide (id ∈ ids)) as [Hin|Hni]; [|left; by rewrite A2].
  right. destruct (A1 _ _ Hin Hj) as [Hn Hr]. pose proof (select_ids_row _ _ _ _ _ _ _ Hin Hj) as Hp.
  unfold cleanup_candidate, status_in in Hp. bools. rewrite is_none_true in *.
  split_and!; [done|done|apply isTerminal_spec; set_solver|done|lia|by exists c].
Qed.


(** ** Witnesses *)

Definition finished_db : db := gateway_db {["j1" := done_job]}.

Definition cleaned_db : db :=
  (DELETE_jobs id (λ _, Some 5000) (Some admin_claims) (Some "1") (Some "x") None 6000 (at_time 6000)
     admin_auth finished_db).2.

Lemma cleanup_runs :
  DELETE_jobs id (λ _, Some 5000) (Some admin_claims) (Some "1") (Some "x") None 6000 (at_time 6000)
    admin_auth finished_db = (cleanup_done 1, cleaned_db).
Proof. vm_compute. reflexivity. Qed.

Lemma cleanup_archives_witness :
  print_jobs cleaned_db !! "j1" = None ∧ receipts cleaned_db !! "j1" = Some (receipt_of id done_job).
Proof.
  destruct (cleanup_archives _ _ _ _ _ _ _ _ _ _ _ _ keys_ok_sample cleanup_runs) as (_ & _ & _ & _ & H).
  destruct (H "j1" done_job) as [Hx|(Hn & Hx & _)]; [vm_compute; reflexivity| |exact (conj Hn Hx)].
  exfalso. revert Hx. vm_compute. discriminate.
Defined.

Definition agentless_db : db :=
  (deleteAgent id (Some admin_claims) "a1" (at_time 6000) admin_auth (held_db "tok")).2.

Lemma delete_runs :
  deleteAgent id (Some admin_claims) "a1" (at_time 6000) admin_auth (held_db "tok")
  = (delete_ok 1, agentless_db).
Proof. vm_compute. reflexivity. Qed.

Lemma held_keys t : keys_ok (print_jobs (held_db t)) (receipts (held_db t)).
Proof. by eapply (single_job_keys _ _ "j1" (claimed_job t)). Qed.

