(* ===== verification/Sessions.v ===== *)
(** * Sessions: signed access tokens and rotating refresh tokens

    [src/lib/session-tokens.ts]. An access token is a signed JSON document; the
    HMAC, the base64url codec, [JSON.parse] and SHA-256 are arguments. Refresh
    tokens live in [refresh_tokens]: each rotation inserts a successor in the
    same family, and presenting a token that has already been replaced closes
    the family. [Math.random]-like values are arguments too ([fresh_values]);
    the rotation reads the token before it takes its locks and again after, so
    it takes both databases. Cookies, audit rows and the notification mail are
    not modelled. *)

From Stdlib Require Import Ascii.
From S2P Require Import Prelude DatabaseTime JobStatus Json Schema Authority Availability Payload.
From S2P Require Import PrinterVirtual Capability Entitlements Samples JobProtocol JobDelivery.
From S2P Require Import JobMaintenance AgentJobs JobService Lifecycle.

(** ** Kinds, principals and claims *)

Inductive SessionKind : Type := manager_kind | platform_kind | customer_kind.

#[export] Instance SessionKind_eq_dec : EqDecision SessionKind.
Proof. solve_decision. Defined.

Definition kind_text (k : SessionKind) : string :=
  match k with
  | manager_kind => "manager" | platform_kind => "platform" | customer_kind => "customer"
  end.

Definition as_SessionKind (s : string) : option SessionKind :=
  if s == "manager" then Some manager_kind
  else if s == "platform" then Some platform_kind
  else if s == "customer" then Some customer_kind
  else None.

(** [CONFIG[kind].sub]. *)
Definition configFor_sub (k : SessionKind) : string :=
  match k with platform_kind => "platform_owner" | _ => "manager" end.

Definition ACCESS_TOKEN_VERSION : Z := 2.
Definition ACCESS_TOKEN_TTL_SECONDS : Z := 15 * 60.
Definition REFRESH_FAMILY_TTL_MS : Z := 30 * 24 * 60 * 60 * 1000.
Definition REFRESH_ROTATION_GRACE_MS : Z := 5000.

Definition role_text (r : ManagerRole) : string :=
  match r with
  | owner => "owner" | admin => "admin" | operator => "operator" | viewer => "viewer"
  | integration_admin => "integration_admin" | billing_admin => "billing_admin"
  end.

Record SharedSessionPrincipal := {
  sp_kind : SessionKind;
  sp_tenantId : option string;
  sp_userId : option string;
  sp_role : option ManagerRole;
  sp_email : option string;
  sp_credentialVersion : option string;
}.

Record SharedSessionClaims := {
  sc_kind : SessionKind;
  sc_jti : string;
  sc_sid : string;
  sc_familyId : string;
  sc_iat : Z;
  sc_exp : Z;
  sc_sub : string;
  sc_tenantId : option string;
  sc_userId : option string;
  sc_role : option string;
  sc_email : option string;
}.

Record SessionPair := {
  pr_accessToken : string;
  pr_accessJti : string;
  pr_refreshToken : string;
  pr_refreshTokenId : string;
  pr_familyId : string;
  pr_accessExpiresAt : Z;
  pr_refreshExpiresAt : Z;
}.

Inductive session_error : Type :=
| InvalidPrincipal (message : string)
| AuthenticationChangedError
| TenantRefused (error : tenant_error)
| REFRESH_FAMILY_EXPIRED
| InvalidFamilyId
| ConstraintViolation.

Inductive RefreshResult : Type :=
| rotated (pair : SessionPair)
| invalid
| reused_token (familyId : string) (notificationEmail tenantId userId : option string) (kind : SessionKind).

(** The random values one call draws. *)
Record fresh_values := {
  fv_familyId : string;
  fv_refreshTokenId : string;
  fv_accessJti : string;
  fv_refreshToken : string;
}.

(** [...(x ? { k: x } : {})]. *)
Definition spread_truthy (o : option string) : option string := if truthy o then o else None.

Definition makeClaims (p : SharedSessionPrincipal) (accessJti refreshTokenId familyId : string)
    (nowSec : Z) : SharedSessionClaims := {|
  sc_kind := sp_kind p; sc_jti := accessJti; sc_sid := refreshTokenId; sc_familyId := familyId;
  sc_iat := nowSec; sc_exp := nowSec + ACCESS_TOKEN_TTL_SECONDS; sc_sub := configFor_sub (sp_kind p);
  sc_tenantId := spread_truthy (sp_tenantId p); sc_userId := spread_truthy (sp_userId p);
  sc_role := role_text <$> sp_role p; sc_email := spread_truthy (sp_email p) |}.

Definition validatePrincipal (p : SharedSessionPrincipal) : result unit session_error :=
  if sp_kind p == platform_kind then
    throw_if (negb (truthy (sp_userId p)) || negb (truthy (sp_email p)) || truthy (sp_tenantId p)
              || is_some (sp_role p)) (InvalidPrincipal "Invalid platform session principal")
  else
    throw_if (negb (truthy (sp_tenantId p)) || is_none (sp_role p))
      (InvalidPrincipal "Invalid tenant session principal").

(** ** Access tokens *)

Definition claims_json (c : SharedSessionClaims) : json :=
  let optional (key : string) (o : option string) :=
    match o with Some v => [(key, JString v)] | None => [] end in
  JObject ([("ver", JNumber ACCESS_TOKEN_VERSION); ("kind", JString (kind_text (sc_kind c)));
            ("jti", JString (sc_jti c)); ("sid", JString (sc_sid c));
            ("familyId", JString (sc_familyId c)); ("iat", JNumber (sc_iat c));
            ("exp", JNumber (sc_exp c)); ("sub", JString (sc_sub c))]
           ++ optional "tenantId" (sc_tenantId c) ++ optional "userId" (sc_userId c)
           ++ optional "role" (sc_role c) ++ optional "email" (sc_email c)).

Definition header_json : json := JObject [("alg", JString "HS256"); ("typ", JString "JWT")].

(** [typeof v === "string" && lo <= v.length <= hi]. *)
Definition string_between (lo hi : Z) (v : option json) : option string :=
  match v with
  | Some (JString s) => if (lo <=? strlen s) && (strlen s <=? hi) then Some s else None
  | _ => None
  end.

(** An optional claim: absent, or a string of the given length. *)
Definition optional_between (lo hi : Z) (v : option json) : option (option string) :=
  match v with
  | None => Some None
  | Some _ => Some <$> string_between lo hi v
  end.

Definition as_number (v : option json) : option Z :=
  match v with Some (JNumber n) => Some n | _ => None end.

(** [typeof v === "number" && Number.isSafeInteger(v)]. *)
Definition safe_integer (v : option json) : option Z :=
  n ← as_number v; if isSafeInteger n then Some n else None.

(** The tenant, user, role and email of the claims of a kind. *)
Definition scoped_claims (k : SessionKind) (v : json)
    : option (option string * option string * option string * option string) :=
  let field := json_field v in
  match k with
  | platform_kind =>
      (* no upper bound on the user id here *)
      userId ← (match field "userId" with
                | Some (JString s) => if 1 <=? strlen s then Some s else None
                | _ => None
                end);
      email ← string_between 3 320 (field "email");
      if is_some (field "tenantId") || is_some (field "role") then None
      else Some (None, Some userId, None, Some email)
  | _ =>
      tenantId ← string_between 1 128 (field "tenantId");
      role ← string_between 1 64 (field "role");
      userId ← optional_between 1 128 (field "userId");
      email ← optional_between 3 320 (field "email");
      Some (Some tenantId, userId, Some role, email)
  end.

Definition parse_claims (v : json) : option SharedSessionClaims :=
  let field := json_field v in
  if as_number (field "ver") != Some ACCESS_TOKEN_VERSION then None
  else
    kind ← (match field "kind" with Some (JString s) => as_SessionKind s | _ => None end);
    jti ← string_between 16 128 (field "jti");
    sid ← string_between 16 128 (field "sid");
    familyId ← string_between 16 128 (field "familyId");
    iat ← safe_integer (field "iat");
    exp ← safe_integer (field "exp");
    if (exp <=? iat) || negb (exp - iat =? ACCESS_TOKEN_TTL_SECONDS) then None
    else if as_string (field "sub") != Some (configFor_sub kind) then None
    else
      '(tenantId, userId, role, email) ← scoped_claims kind v;
      Some {| sc_kind := kind; sc_jti := jti; sc_sid := sid; sc_familyId := familyId;
              sc_iat := iat; sc_exp := exp; sc_sub := configFor_sub kind;
              sc_tenantId := tenantId; sc_userId := userId; sc_role := role; sc_email := email |}.

Section tokens.
Context (hmac : string → string) (encode decode : string → string).
Context (JSON_parse : string → option json) (sha256 : string → string).

Definition compareStringsSafe (a b : string) : bool := sha256 a == sha256 b.

Definition signAccessToken (claims : SharedSessionClaims) : string :=
  let data := encode (stringify header_json) +:+ "." +:+ encode (stringify (claims_json claims)) in
  data +:+ "." +:+ hmac data.

Definition header_ok (v : json) : bool :=
  (as_string (json_field v "alg") == Some "HS256") && (as_string (json_field v "typ") == Some "JWT").

(** A parse failure is caught and answered with [null]. *)
Definition verifySignatureShape (token : string) : option SharedSessionClaims :=
  if (strlen token <? 80) || (4096 <? strlen token) then None
  else
    match split_on "."%char token with
    | [headerPart; payloadPart; signature] =>
        header ← JSON_parse (decode headerPart);
        if negb (header_ok header) then None
        else
          payload ← JSON_parse (decode payloadPart);
          claims ← parse_claims payload;
          if compareStringsSafe signature (hmac (headerPart +:+ "." +:+ payloadPart))
          then Some claims else None
    | _ => None
    end.

Definition verifyAccessTokenSignature (token : string) (expectedKinds : list SessionKind)
    : option SharedSessionClaims :=
  claims ← verifySignatureShape token;
  if bool_decide (sc_kind claims ∈ expectedKinds) then Some claims else None.

Definition hashRefreshToken (token : string) : string := sha256 token.

(** ** Issuing a pair *)

(** [createHmac("sha256", secret).update(...)] over user and password hash. *)
Definition credentialVersionFor (userId passwordHash : string) : string :=
  hmac ("session-credential-v1" +:+ String "000"%char EmptyString +:+ userId
        +:+ String "000"%char EmptyString +:+ passwordHash).

Definition assertSessionCredential (a : auth_db) (userId credentialVersion : string)
    : result unit session_error :=
  match users a !! userId with
  | Some u =>
      throw_if ((us_passwordHash u == "") || is_none (us_emailVerifiedAt u)
                || negb (compareStringsSafe credentialVersion (credentialVersionFor userId (us_passwordHash u))))
        AuthenticationChangedError
  | None => Err AuthenticationChangedError
  end.

(** [refresh_tokens_kind_scope_check] and [refresh_tokens_time_order_check]. *)
Definition token_check (rt : refresh_token) : bool :=
  (((rt_kind rt == "platform") && is_none (rt_tenantId rt) && is_some (rt_userId rt) && is_none (rt_role rt))
   || (one_of ["manager"; "customer"] (rt_kind rt) && is_some (rt_tenantId rt) && is_some (rt_role rt)))
  && (rt_familyCreatedAt rt <=? rt_issuedAt rt) && (rt_issuedAt rt <=? rt_expiresAt rt).

(** Primary key and unique [token_hash]. *)
Definition insert_token (id : string) (rt : refresh_token) (a : auth_db) : result auth_db session_error :=
  do* throw_if (is_some (refresh_tokens a !! id)
                || is_some (find_row (λ x, rt_tokenHash x == rt_tokenHash rt) (refresh_tokens a))
                || negb (token_check rt)) ConstraintViolation in
  Ok (with_refresh_tokens (<[id := rt]> (refresh_tokens a)) a).

Definition new_token (p : SharedSessionPrincipal) (v : fresh_values) (familyId : string)
    (nowMs familyCreatedAt : Z) : refresh_token := {|
  rt_familyId := familyId; rt_kind := kind_text (sp_kind p); rt_tenantId := sp_tenantId p;
  rt_userId := sp_userId p; rt_role := sp_role p; rt_email := sp_email p;
  rt_tokenHash := hashRefreshToken (fv_refreshToken v); rt_issuedAt := nowMs;
  rt_familyCreatedAt := familyCreatedAt; rt_expiresAt := familyCreatedAt + REFRESH_FAMILY_TTL_MS;
  rt_revokedAt := None; rt_revokedReason := None; rt_replacedBy := None; rt_replacedAt := None |}.

Definition new_pair (p : SharedSessionPrincipal) (v : fresh_values) (familyId : string)
    (nowMs familyCreatedAt : Z) : SessionPair :=
  let nowSec := nowMs / 1000 in {|
  pr_accessToken := signAccessToken (makeClaims p (fv_accessJti v) (fv_refreshTokenId v) familyId nowSec);
  pr_accessJti := fv_accessJti v; pr_refreshToken := fv_refreshToken v;
  pr_refreshTokenId := fv_refreshTokenId v; pr_familyId := familyId;
  pr_accessExpiresAt := (nowSec + ACCESS_TOKEN_TTL_SECONDS) * 1000;
  pr_refreshExpiresAt := familyCreatedAt + REFRESH_FAMILY_TTL_MS |}.

(** [principal.email ?? null], or the user's when that is empty. *)
Definition session_email (a : auth_db) (p : SharedSessionPrincipal) : option string :=
  if negb (truthy (sp_email p)) && truthy (sp_userId p)
  then us_email <$> (sp_userId p ≫= λ u, users a !! u)
  else sp_email p.

Definition with_email (email : option string) (p : SharedSessionPrincipal) : SharedSessionPrincipal := {|
  sp_kind := sp_kind p; sp_tenantId := sp_tenantId p; sp_userId := sp_userId p; sp_role := sp_role p;
  sp_email := email; sp_credentialVersion := sp_credentialVersion p |}.

Definition insertInitialPair (d : db) (p : SharedSessionPrincipal) (v : fresh_values) (nowMs : Z)
    (a : auth_db) : result (SessionPair * auth_db) session_error :=
  do* validatePrincipal p in
  do* (if sp_kind p == platform_kind then Ok tt
       else match requireActiveTenantInTransaction d (coalesce (sp_tenantId p) "") with
            | Ok _ => Ok tt
            | Err e => Err (TenantRefused e)
            end) in
  do* (match sp_credentialVersion p with
       | Some cv =>
           if cv == "" then Ok tt
           else if negb (truthy (sp_userId p)) then Err AuthenticationChangedError
           else assertSessionCredential a (coalesce (sp_userId p) "") cv
       | None => Ok tt
       end) in
  let resolved := with_email (session_email a p) p in
  let* a' := insert_token (fv_refreshTokenId v) (new_token resolved v (fv_familyId v) nowMs nowMs) a in
  Ok (new_pair resolved v (fv_familyId v) nowMs nowMs, a').

(** ** Rotation *)

Definition principal_of (kind : SessionKind) (rt : refresh_token) : SharedSessionPrincipal := {|
  sp_kind := kind; sp_tenantId := rt_tenantId rt; sp_userId := rt_userId rt; sp_role := rt_role rt;
  sp_email := rt_email rt; sp_credentialVersion := None |}.

Definition refreshPrincipalStillValid (d : db) (a : auth_db) (kind : SessionKind) (rt : refresh_token)
    : bool :=
  if kind == platform_kind then
    truthy (rt_userId rt) && truthy (rt_email rt) &&
    match rt_userId rt ≫= λ u, users a !! u with
    | Some u => us_isPlatformOwner u && is_some (us_emailVerifiedAt u) && (Some (us_email u) == rt_email rt)
    | None => false
    end
  else
    match rt_tenantId rt, rt_role rt with
    | Some t, Some role =>
        (t != "") && (tenant_lifecycle d t == Some "active") &&
        (negb (truthy (rt_userId rt)) ||
         match rt_userId rt with
         | Some u =>
             (tenant_users a !! (u, t) == Some role) &&
             match users a !! u with
             | Some row =>
                 (negb (truthy (rt_email rt)) || (Some (us_email row) == rt_email rt)) &&
                 (negb (kind == customer_kind) || is_some (us_emailVerifiedAt row))
             | None => false
             end
         | None => false
         end)
    | _, _ => false
    end.

Definition rotateWithinFamily (kind : SessionKind) (row : refresh_token) (v : fresh_values) (nowMs : Z)
    (a : auth_db) : result (SessionPair * auth_db) session_error :=
  let p := principal_of kind row in
  do* validatePrincipal p in
  do* throw_if (rt_familyCreatedAt row + REFRESH_FAMILY_TTL_MS <=? nowMs) REFRESH_FAMILY_EXPIRED in
  let* a' := insert_token (fv_refreshTokenId v)
               (new_token p v (rt_familyId row) nowMs (rt_familyCreatedAt row)) a in
  Ok (new_pair p v (rt_familyId row) nowMs (rt_familyCreatedAt row), a').

(** [SET replaced_by = ..., replaced_at = clock_timestamp() WHERE id = ...]. *)
Definition replaced_token (by_ : string) (at_ : Z) (rt : refresh_token) : refresh_token := {|
  rt_familyId := rt_familyId rt; rt_kind := rt_kind rt; rt_tenantId := rt_tenantId rt;
  rt_userId := rt_userId rt; rt_role := rt_role rt; rt_email := rt_email rt;
  rt_tokenHash := rt_tokenHash rt; rt_issuedAt := rt_issuedAt rt;
  rt_familyCreatedAt := rt_familyCreatedAt rt; rt_expiresAt := rt_expiresAt rt;
  rt_revokedAt := rt_revokedAt rt; rt_revokedReason := rt_revokedReason rt;
  rt_replacedBy := Some by_; rt_replacedAt := Some at_ |}.

Definition mark_replaced (id by_ : string) (at_ : Z) (a : auth_db) : auth_db :=
  with_refresh_tokens (alter (replaced_token by_ at_) id (refresh_tokens a)) a.

(** An expired family is not an error of the caller. *)
Definition or_invalid (m : result (RefreshResult * auth_db) session_error) (a : auth_db)
    : result (RefreshResult * auth_db) session_error :=
  match m with Err REFRESH_FAMILY_EXPIRED => Ok (invalid, a) | _ => m end.

Definition in_grace (nowMs : Z) (rt : refresh_token) : bool :=
  match rt_replacedAt rt with
  | Some r => nowMs <=? r + REFRESH_ROTATION_GRACE_MS
  | None => false
  end.

(** After the locks: [nowMs] is the clock as read, [at_] the clock of the
    writes that follow. *)
Definition rotate_locked (kind : SessionKind) (id : string) (row : refresh_token) (v : fresh_values)
    (nowMs at_ : Z) (d : db) (a : auth_db) : result (RefreshResult * auth_db) session_error :=
  let family := rt_familyId row in
  if rt_familyCreatedAt row + REFRESH_FAMILY_TTL_MS <=? nowMs
  then Ok (invalid, revoke_family family at_ "absolute_expired" a)
  else if rt_expiresAt row <=? nowMs then Ok (invalid, a)
  else if negb (refreshPrincipalStillValid d a kind row)
  then Ok (invalid, revoke_family family at_ "principal_invalid" a)
  else if truthy (rt_replacedBy row) then
    if in_grace nowMs row
    then or_invalid (let* (issued, a') := rotateWithinFamily kind row v nowMs a in Ok (rotated issued, a')) a
    else Ok (reused_token family (rt_email row) (rt_tenantId row) (rt_userId row) kind,
             revoke_family family at_ "refresh_reuse_detected" a)
  else
    or_invalid (let* (issued, a') := rotateWithinFamily kind row v nowMs a in
                Ok (rotated issued, mark_replaced id (fv_refreshTokenId v) at_ a')) a.

Definition tenant_admits (kind : SessionKind) (d : db) (initial : refresh_token) : bool :=
  (kind == platform_kind) ||
  (truthy (rt_tenantId initial) &&
   match requireActiveTenantInTransaction d (coalesce (rt_tenantId initial) "") with
   | Ok _ => true
   | Err _ => false
   end).

Definition rotateRefreshToken (kind : SessionKind) (token : string) (v : fresh_values) (nowMs at_ : Z)
    (d : db) (a_read a : auth_db) : result (RefreshResult * auth_db) session_error :=
  match find_row (λ rt, rt_tokenHash rt == hashRefreshToken token) (refresh_tokens a_read) with
  | None => Ok (invalid, a)
  | Some (id, initial) =>
      if (rt_kind initial != kind_text kind) || negb (tenant_admits kind d initial)
      then Ok (invalid, a)
      else match refresh_tokens a !! id with
           | None => Ok (invalid, a)
           | Some row =>
               if (rt_kind row != kind_text kind) || (rt_familyId row != rt_familyId initial)
                  || is_some (rt_revokedAt row)
               then Ok (invalid, a)
               else rotate_locked kind id row v nowMs at_ d a
           end
  end.

(** ** Revocation and cleanup *)

(** [/^[0-9a-f]{32}$/]. *)
Definition family_id_shape (familyId : string) : bool :=
  hex_string 32 familyId.

Definition revokeSessionFamilyInTransaction (familyId reason : string) (at_ : Z) (a : auth_db)
    : result auth_db session_error :=
  do* throw_if (negb (family_id_shape familyId)) InvalidFamilyId in
  Ok (revoke_family familyId at_ reason a).

Definition revokeUserRefreshFamilies (userId reason : string) (at_ : Z) (a : auth_db) : auth_db :=
  revoke_where (λ rt, rt_userId rt == Some userId) at_ reason a.

Definition revokeUserTenantRefreshFamilies (userId tenantId reason : string) (at_ : Z) (a : auth_db)
    : auth_db :=
  revoke_where (λ rt, (rt_userId rt == Some userId) && (rt_tenantId rt == Some tenantId)) at_ reason a.

Definition revokeRefreshTokenFamily (kind : SessionKind) (token reason : string) (at_ : Z) (a : auth_db)
    : result (bool * auth_db) session_error :=
  match find_row (λ rt, (rt_tokenHash rt == hashRefreshToken token) && (rt_kind rt == kind_text kind))
          (refresh_tokens a) with
  | None => Ok (false, a)
  | Some (_, row) =>
      if rt_familyId row == "" then Ok (false, a)
      else let* a' := revokeSessionFamilyInTransaction (rt_familyId row) reason at_ a in Ok (true, a')
  end.

(** [DELETE], with [replaced_by ... ON DELETE SET NULL] on the rows that stay. *)
Definition unlink (gone : gmap string refresh_token) (rt : refresh_token) : refresh_token := {|
  rt_familyId := rt_familyId rt; rt_kind := rt_kind rt; rt_tenantId := rt_tenantId rt;
  rt_userId := rt_userId rt; rt_role := rt_role rt; rt_email := rt_email rt;
  rt_tokenHash := rt_tokenHash rt; rt_issuedAt := rt_issuedAt rt;
  rt_familyCreatedAt := rt_familyCreatedAt rt; rt_expiresAt := rt_expiresAt rt;
  rt_revokedAt := rt_revokedAt rt; rt_revokedReason := rt_revokedReason rt;
  rt_replacedBy := match rt_replacedBy rt with
                   | Some id => if is_some (gone !! id) then None else Some id
                   | None => None
                   end;
  rt_replacedAt := rt_replacedAt rt |}.

Definition delete_tokens (p : refresh_token → bool) (a : auth_db) : nat * auth_db :=
  let gone := filter (λ kv : string * refresh_token, p kv.2 = true) (refresh_tokens a) in
  (size gone,
   with_refresh_tokens
     (unlink gone <$> filter (λ kv : string * refresh_token, p kv.2 = false) (refresh_tokens a)) a).

Definition cleanupExpiredRefreshTokens (at_ : Z) (a : auth_db) : nat * auth_db :=
  delete_tokens (λ rt, rt_expiresAt rt <=? at_) a.

Definition isSessionFamilyActive (familyId : string) (kind : SessionKind) (tenantId userId : option string)
    (at_ : Z) (a : auth_db) : bool :=
  family_id_shape familyId &&
  bool_decide (map_Exists (λ _ rt,
    (rt_familyId rt == familyId) && (rt_kind rt == kind_text kind) && (rt_tenantId rt == tenantId) &&
    is_none (rt_revokedAt rt) && (at_ <? rt_expiresAt rt) &&
    (negb (truthy userId) || (rt_userId rt == userId)) = true) (refresh_tokens a)).
End tokens.

(** ** Steps of the session tables *)

(** The columns nothing ever rewrites. *)
Definition static (r r' : refresh_token) : Prop :=
  rt_familyId r' = rt_familyId r ∧ rt_kind r' = rt_kind r ∧ rt_tenantId r' = rt_tenantId r ∧
  rt_userId r' = rt_userId r ∧ rt_role r' = rt_role r ∧ rt_email r' = rt_email r ∧
  rt_tokenHash r' = rt_tokenHash r ∧ rt_familyCreatedAt r' = rt_familyCreatedAt r ∧
  rt_expiresAt r' = rt_expiresAt r.

(** Who a token speaks for, and since when. *)
Definition same_principal (r r' : refresh_token) : Prop :=
  rt_kind r' = rt_kind r ∧ rt_tenantId r' = rt_tenantId r ∧ rt_userId r' = rt_userId r ∧
  rt_role r' = rt_role r ∧ rt_email r' = rt_email r ∧ rt_familyCreatedAt r' = rt_familyCreatedAt r.

Record families_ok (m : gmap string refresh_token) : Prop := {
  fo_expiry : ∀ id r, m !! id = Some r → rt_expiresAt r = rt_familyCreatedAt r + REFRESH_FAMILY_TTL_MS;
  fo_same : ∀ id1 id2 r1 r2, m !! id1 = Some r1 → m !! id2 = Some r2 →
    rt_familyId r1 = rt_familyId r2 → same_principal r1 r2;
  fo_hash : ∀ id1 id2 r1 r2, m !! id1 = Some r1 → m !! id2 = Some r2 →
    rt_tokenHash r1 = rt_tokenHash r2 → id1 = id2;
  fo_link : ∀ id r id', m !! id = Some r → rt_replacedBy r = Some id' →
    ∃ r', m !! id' = Some r' ∧ rt_familyId r' = rt_familyId r;
}.

(** How a row may change while it lives: revocation and replacement are for
    good. *)
Record evolves (r r' : refresh_token) : Prop := {
  ev_static : static r r';
  ev_revoked : is_Some (rt_revokedAt r) → is_Some (rt_revokedAt r');
  ev_replaced : truthy (rt_replacedBy r) = true →
    rt_replacedBy r' = rt_replacedBy r ∧ rt_replacedAt r' = rt_replacedAt r;
}.

#[export] Instance evolves_preorder : PreOrder evolves.
Proof.
  split; [by repeat split|]. intros r1 r2 r3 [S1 V1 P1] [S2 V2 P2]. split; [|by auto|].
  - unfold static in *. destruct_and!. split_and!; congruence.
  - intros Hr. destruct (P1 Hr) as [E1 E2]. rewrite <-E1, <-E2. apply P2. by rewrite E1.
Qed.

(** No token of the family is left unrevoked. *)
Definition family_dead (f : string) (m : gmap string refresh_token) : Prop :=
  ∀ id r, m !! id = Some r → rt_familyId r = f → is_Some (rt_revokedAt r).

(** Row [id], and no other, is [r0] as later steps left it. *)
Definition descends (id : string) (r0 : refresh_token) (m : gmap string refresh_token) : Prop :=
  ∀ k r, m !! k = Some r → k = id ∨ rt_tokenHash r = rt_tokenHash r0 → k = id ∧ evolves r0 r.

Section session_steps.
Context (hmac encode sha256 : string → string).
Abbreviation issue := (insertInitialPair hmac encode sha256).
Abbreviation rotate := (rotateRefreshToken hmac encode sha256).
Abbreviation rotate_row := (rotateWithinFamily hmac encode sha256).

(** [drawn] says what is known of the random values. *)
Inductive session_step (drawn : fresh_values → Prop) : auth_db → auth_db → Prop :=
| ss_issue d p v nowMs a pair a' :
    issue d p v nowMs a = Ok (pair, a') → drawn v →
    (∀ id r, refresh_tokens a !! id = Some r → rt_familyId r ≠ fv_familyId v) →
    session_step drawn a a'
| ss_rotate kind token v nowMs at_ d a_read a r a' :
    rotate kind token v nowMs at_ d a_read a = Ok (r, a') → drawn v → fv_refreshTokenId v ≠ "" →
    session_step drawn a a'
| ss_revoke p at_ reason a :                    (* by family, user, membership or tenant *)
    session_step drawn a (revoke_where p at_ reason a)
| ss_cleanup at_ a : session_step drawn a (cleanupExpiredRefreshTokens at_ a).2
| ss_delete_user u a :                          (* ON DELETE CASCADE *)
    session_step drawn a (delete_tokens (λ r, rt_userId r == Some u) a).2
| ss_delete_tenant t a :
    session_step drawn a (delete_tokens (λ r, rt_tenantId r == Some t) a).2
| ss_other a a' : refresh_tokens a' = refresh_tokens a → session_step drawn a a'.

Lemma static_refl r : static r r.
Proof. by repeat split. Qed.

Lemma static_families m m' :
  families_ok m →
  (∀ id r', m' !! id = Some r' → ∃ r, m !! id = Some r ∧ static r r') →
  (∀ id r id', m' !! id = Some r → rt_replacedBy r = Some id' →
     ∃ r', m' !! id' = Some r' ∧ rt_familyId r' = rt_familyId r) →
  families_ok m'.
Proof.
  intros Hok Hfrom Hlink. split; [..|done].
  - intros id r' Hr'. destruct (Hfrom _ _ Hr') as (r & Hr & Hs). unfold static in Hs. destruct_and!.
    pose proof (fo_expiry _ Hok _ _ Hr). congruence.
  - intros id1 id2 r1' r2' H1 H2 Hf. destruct (Hfrom _ _ H1) as (r1 & Hr1 & Hs1).
    destruct (Hfrom _ _ H2) as (r2 & Hr2 & Hs2). unfold static in *. destruct_and!.
    destruct (fo_same _ Hok _ _ _ _ Hr1 Hr2) as (? & ? & ? & ? & ? & ?); [congruence|].
    unfold same_principal. split_and!; congruence.
  - intros id1 id2 r1' r2' H1 H2 Hf. destruct (Hfrom _ _ H1) as (r1 & Hr1 & Hs1).
    destruct (Hfrom _ _ H2) as (r2 & Hr2 & Hs2). unfold static in *. destruct_and!.
    eapply (fo_hash _ Hok); [done|done|congruence].
Qed.

Lemma revoke_families p at_ reason a :
  families_ok (refresh_tokens a) → families_ok (refresh_tokens (revoke_where p at_ reason a)).
Proof.
  intros Hok. eapply static_families; [done| |].
  - intros id r' Hr'. apply lookup_revoke_where in Hr' as (r & Hr & [[-> _]|[-> _]]);
      exists r; (split; [done|by repeat split]).
  - intros id r' id' Hr' Hrep. apply lookup_revoke_where in Hr' as (r & Hr & Hcase).
    assert (rt_replacedBy r = Some id' ∧ rt_familyId r' = rt_familyId r) as [Hrep' ->]
      by (by destruct Hcase as [[-> _]|[-> _]]).
    destruct (fo_link _ Hok _ _ _ Hr Hrep') as (x & Hx & Hfx). simpl. rewrite lookup_fmap, Hx. simpl.
    eexists. split; [done|]. by destruct (p x && _).
Qed.

Lemma lookup_delete_tokens p a id r' :
  refresh_tokens (delete_tokens p a).2 !! id = Some r' ↔
  ∃ r, refresh_tokens a !! id = Some r ∧ p r = false ∧
    r' = unlink (filter (λ kv : string * refresh_token, p kv.2 = true) (refresh_tokens a)) r.
Proof.
  simpl. rewrite lookup_fmap, fmap_Some. setoid_rewrite map_lookup_filter_Some. simpl.
  split; [intros (r & [Hr Hp] & ->)|intros (r & Hr & Hp & ->)]; eauto.
Qed.

(** Deleting by what a family has in common leaves no dangling successor. *)
Lemma delete_keeps_links p a id r :
  families_ok (refresh_tokens a) →
  (∀ r1 r2, same_principal r1 r2 → rt_expiresAt r1 = rt_expiresAt r2 → p r1 = p r2) →
  refresh_tokens a !! id = Some r → p r = false →
  unlink (filter (λ kv : string * refresh_token, p kv.2 = true) (refresh_tokens a)) r = r.
Proof.
  intros Hok Hp Hr Hpr. destruct r as [f k t u ro e h i c ex rv rr [by_|] ra]; [|done].
  unfold unlink. simpl. f_equal.
  destruct (fo_link _ Hok _ _ _ Hr eq_refl) as (x & Hx & Hfx). simpl in Hfx.
  destruct (filter _ _ !! by_) as [y|] eqn:Hy; [|done]. exfalso.
  apply map_lookup_filter_Some in Hy as [Hy Hpy]. simpl in Hpy.
  assert (y = x) as -> by congruence.
  pose proof (fo_same _ Hok _ _ _ _ Hr Hx (eq_sym Hfx)) as Hsame.
  pose proof (fo_expiry _ Hok _ _ Hr) as E1. pose proof (fo_expiry _ Hok _ _ Hx) as E2.
  rewrite (Hp _ _ Hsame) in Hpr; [congruence|]. rewrite E1, E2.
  destruct Hsame as (_ & _ & _ & _ & _ & Hc). by rewrite Hc.
Qed.

Lemma delete_families p a :
  families_ok (refresh_tokens a) →
  (∀ r1 r2, same_principal r1 r2 → rt_expiresAt r1 = rt_expiresAt r2 → p r1 = p r2) →
  families_ok (refresh_tokens (delete_tokens p a).2) ∧
  refresh_tokens (delete_tokens p a).2 ⊆ refresh_tokens a.
Proof.
  intros Hok Hp.
  assert (refresh_tokens (delete_tokens p a).2 ⊆ refresh_tokens a) as Hsub.
  { apply map_subseteq_spec. intros id r' (r & Hr & Hpr & ->)%lookup_delete_tokens.
    by rewrite (delete_keeps_links p a id r). }
  split; [|done]. eapply static_families; [done| |].
  - intros id r' Hr'. exists r'. split; [by eapply lookup_weaken|apply static_refl].
  - intros id r id' Hr Hrep. pose proof (lookup_weaken _ _ _ _ Hr Hsub) as Hr0.
    destruct (fo_link _ Hok _ _ _ Hr0 Hrep) as (x & Hx & Hfx). exists x. split; [|done].
    apply lookup_delete_tokens in Hr as (r0 & Hr1 & Hpr & _).
    assert (r0 = r) as -> by congruence.
    assert (p x = false) as Hpx.
    { rewrite <-Hpr. symmetry.
      pose proof (fo_same _ Hok _ _ _ _ Hr1 Hx (eq_sym Hfx)) as Hsame. apply Hp; [done|].
      rewrite (fo_expiry _ Hok _ _ Hr1), (fo_expiry _ Hok _ _ Hx).
      destruct Hsame as (_ & _ & _ & _ & _ & Hc). by rewrite Hc. }
    apply lookup_delete_tokens. exists x. split_and!; [done|done|].
    by rewrite (delete_keeps_links p a id' x).
Qed.

Lemma insert_token_inv id r a a' :
  insert_token id r a = Ok a' →
  refresh_tokens a !! id = None ∧
  (∀ k x, refresh_tokens a !! k = Some x → rt_tokenHash x ≠ rt_tokenHash r) ∧
  a' = with_refresh_tokens (<[id := r]> (refresh_tokens a)) a.
Proof.
  unfold insert_token. intros H. rinv. apply orb_false_iff in Hr as [[H1 H2]%orb_false_iff _].
  split_and!; [by destruct (refresh_tokens a !! id)| |done].
  intros k x Hx Heq. destruct (find_row _ _) eqn:E; [done|].
  pose proof (find_row_None _ _ _ _ E Hx) as Hne. by apply bool_decide_eq_false in Hne.
Qed.

Lemma insert_families id r a a' :
  families_ok (refresh_tokens a) → insert_token id r a = Ok a' →
  rt_expiresAt r = rt_familyCreatedAt r + REFRESH_FAMILY_TTL_MS → rt_replacedBy r = None →
  (∀ k x, refresh_tokens a !! k = Some x → rt_familyId x = rt_familyId r → same_principal x r) →
  families_ok (refresh_tokens a').
Proof.
  intros Hok (Hn & Hh & ->)%insert_token_inv Hexp Hrep Hsame. simpl. split.
  - intros k x [[<- <-]|[_ Hx]]%lookup_insert_Some; [done|by eapply fo_expiry].
  - intros k1 k2 x1 x2 [[<- <-]|[_ H1]]%lookup_insert_Some [[<- <-]|[_ H2]]%lookup_insert_Some Hf.
    + by repeat split.
    + destruct (Hsame _ _ H2 (eq_sym Hf)) as (? & ? & ? & ? & ? & ?).
      unfold same_principal. split_and!; congruence.
    + by apply (Hsame _ _ H1).
    + by eapply fo_same.
  - intros k1 k2 x1 x2 [[<- <-]|[_ H1]]%lookup_insert_Some [[<- <-]|[_ H2]]%lookup_insert_Some Hf; try done.
    + by destruct (Hh _ _ H2).
    + by destruct (Hh _ _ H1).
    + by eapply fo_hash.
  - intros k x k' [[<- <-]|[_ Hx]]%lookup_insert_Some Hk'; [congruence|].
    destruct (fo_link _ Hok _ _ _ Hx Hk') as (y & Hy & Hfy). exists y. split; [|done].
    rewrite lookup_insert_ne; [done|]. congruence.
Qed.
Lemma same_principal_refl r : same_principal r r.
Proof. by repeat split. Qed.

Lemma or_invalid_inv kind row v nowMs a (f : auth_db → auth_db) res a' :
  nowMs < rt_familyCreatedAt row + REFRESH_FAMILY_TTL_MS →
  or_invalid (let* (issued, b) := rotate_row kind row v nowMs a in Ok (rotated issued, f b)) a
    = Ok (res, a') →
  (res = invalid ∧ a' = a) ∨
  (∃ pair b, res = rotated pair ∧ pr_familyId pair = rt_familyId row ∧ a' = f b ∧
     insert_token (fv_refreshTokenId v)
       (new_token sha256 (principal_of kind row) v (rt_familyId row) nowMs (rt_familyCreatedAt row)) a = Ok b).
Proof.
  intros Hyoung. unfold rotateWithinFamily. rewrite (proj2 (Z.leb_gt _ _) Hyoung).
  destruct (validatePrincipal _) as [[]|e]; simpl; [destruct (insert_token _ _ _) as [b|e] eqn:Hins; simpl|].
  - intros H. injection H as <- <-. right. do 2 eexists. by split_and!.
  - intros H. destruct e; try done. injection H as <- <-. by left.
  - intros H. destruct e; try done. injection H as <- <-. by left.
Qed.

(** What the rows are after a rotation: the tables as they were, a family
    closed, or a successor added (and, outside the grace window, linked). *)
Lemma rotate_inv kind token v nowMs at_ d a_read a res a' :
  rotate kind token v nowMs at_ d a_read a = Ok (res, a') →
  (res = invalid ∧ a' = a) ∨
  (∃ id row, refresh_tokens a !! id = Some row ∧ rt_revokedAt row = None ∧
     (∃ reason, (res = invalid ∨
        truthy (rt_replacedBy row) = true ∧ in_grace nowMs row = false ∧
        res = reused_token (rt_familyId row) (rt_email row) (rt_tenantId row) (rt_userId row) kind) ∧
        a' = revoke_family (rt_familyId row) at_ reason a)) ∨
  (∃ id row pair b, refresh_tokens a !! id = Some row ∧ rt_revokedAt row = None ∧
     rt_kind row = kind_text kind ∧ res = rotated pair ∧ pr_familyId pair = rt_familyId row ∧
     nowMs < rt_expiresAt row ∧
     (∃ row0, refresh_tokens a_read !! id = Some row0 ∧ rt_tokenHash row0 = sha256 token) ∧
     insert_token (fv_refreshTokenId v)
       (new_token sha256 (principal_of kind row) v (rt_familyId row) nowMs (rt_familyCreatedAt row)) a = Ok b ∧
     (truthy (rt_replacedBy row) = true ∧ in_grace nowMs row = true ∧ a' = b ∨
      truthy (rt_replacedBy row) = false ∧ a' = mark_replaced id (fv_refreshTokenId v) at_ b)).
Proof.
  unfold rotateRefreshToken. intros H.
  destruct (find_row _ _) as [[id initial]|] eqn:Hfind; [|rinv; left; by simplify_eq].
  destruct (_ || _); [rinv; left; by simplify_eq|].
  destruct (refresh_tokens a !! id) as [row|] eqn:Hrow; [|rinv; left; by simplify_eq].
  destruct (_ || is_some _) eqn:Hguard; [rinv; left; by simplify_eq|].
  apply orb_false_iff in Hguard as [[Hkind _]%orb_false_iff Hrev].
  apply negb_false_iff, bool_decide_eq_true in Hkind.
  assert (rt_revokedAt row = None) as Hrev' by (by destruct (rt_revokedAt row)).
  assert (∃ row0, refresh_tokens a_read !! id = Some row0 ∧ rt_tokenHash row0 = sha256 token) as Hread.
  { apply find_row_Some in Hfind as [Hi Hh]. exists initial. split; [done|]. by apply bool_decide_eq_true in Hh. }
  revert H. unfold rotate_locked.
  destruct (_ <=? nowMs) eqn:Habs; [intros H; rinv; right; left; exists id, row; simplify_eq; eauto 8|].
  destruct (rt_expiresAt row <=? nowMs) eqn:Hexp; [intros H; rinv; left; by simplify_eq|].
  destruct (negb _) eqn:Hvalid; [intros H; rinv; right; left; exists id, row; simplify_eq; eauto 8|].
  apply Z.leb_gt in Habs, Hexp.
  destruct (truthy _) eqn:Hrep; [destruct (in_grace _ _) eqn:Hgrace|].
  - intros [H|(pair & b & -> & Hf & -> & Hins)]%(or_invalid_inv _ _ _ _ _ (λ b, b)); [by left|..|done].
    right; right. exists id, row, pair, b. split_and!; eauto.
  - intros H. injection H as <- <-. right; left. exists id, row. eauto 10.
  - intros [H|(pair & b & -> & Hf & -> & Hins)]%(or_invalid_inv _ _ _ _ _ (mark_replaced id _ at_)); [by left|..|done].
    right; right. exists id, row, pair, b. split_and!; eauto.
Qed.
(** Where the rows of the next state come from. *)
Definition row_origin (drawn : fresh_values → Prop) (m : gmap string refresh_token) (id : string)
    (r' : refresh_token) : Prop :=
  (∃ r, m !! id = Some r ∧ evolves r r') ∨
  (m !! id = None ∧ ∃ v, drawn v ∧ id = fv_refreshTokenId v ∧
     rt_tokenHash r' = sha256 (fv_refreshToken v) ∧
     (rt_familyId r' = fv_familyId v ∨
      ∃ id0 r0, m !! id0 = Some r0 ∧ rt_familyId r0 = rt_familyId r' ∧ rt_revokedAt r0 = None)).

Lemma origin_same drawn m id r : m !! id = Some r → row_origin drawn m id r.
Proof. intros Hr. left. by exists r. Qed.

Lemma revoke_origin drawn p at_ reason a id r' :
  refresh_tokens (revoke_where p at_ reason a) !! id = Some r' → row_origin drawn (refresh_tokens a) id r'.
Proof.
  intros (r & Hr & Hcase)%lookup_revoke_where. left. exists r. split; [done|].
  destruct Hcase as [[-> _]|[-> _]]; [|done]. split; [by repeat split|by eexists|done].
Qed.

Lemma delete_step drawn p a :
  families_ok (refresh_tokens a) →
  (∀ r1 r2, same_principal r1 r2 → rt_expiresAt r1 = rt_expiresAt r2 → p r1 = p r2) →
  families_ok (refresh_tokens (delete_tokens p a).2) ∧
  ∀ id r', refresh_tokens (delete_tokens p a).2 !! id = Some r' →
    row_origin drawn (refresh_tokens a) id r'.
Proof.
  intros Hok Hp. destruct (delete_families p a Hok Hp) as [Hok' Hsub]. split; [done|].
  intros id r' Hr'. apply origin_same. by eapply lookup_weaken.
Qed.

Lemma rotate_families kind token v nowMs at_ d a_read a res a' :
  families_ok (refresh_tokens a) →
  rotate kind token v nowMs at_ d a_read a = Ok (res, a') → families_ok (refresh_tokens a').
Proof.
  intros Hok [[_ ->]|[(id & row & _ & _ & reason & _ & ->)|
    (id & row & pair & b & Hrow & Hrev & Hkind & _ & _ & _ & _ & Hins & Hcase)]]%rotate_inv;
    [done|by apply revoke_families|].
  assert (families_ok (refresh_tokens b)) as Hb.
  { eapply insert_families; [done|exact Hins|done|done|]. intros k x Hx Hf. simpl in Hf.
    destruct (fo_same _ Hok _ _ _ _ Hx Hrow Hf) as (? & ? & ? & ? & ? & ?).
    unfold same_principal. simpl. split_and!; congruence. }
  destruct Hcase as [(_ & _ & ->)|[_ ->]]; [done|].
  apply insert_token_inv in Hins as (Hn & _ & ->).
  assert (id ≠ fv_refreshTokenId v) as Hne by congruence.
  eapply static_families; [done|..]; simpl.
  - intros k r' Hr'. destruct (decide (k = id)) as [->|Hk].
    + rewrite lookup_alter_eq in Hr'. apply fmap_Some in Hr' as (r & Hr & ->). exists r. split; [done|by repeat split].
    + rewrite lookup_alter_ne in Hr' by done. exists r'. split; [done|apply static_refl].
  - intros k r k' Hr Hrep. destruct (decide (k = id)) as [->|Hk].
    + rewrite lookup_alter_eq, lookup_insert_ne, Hrow in Hr by done. simpl in Hr. injection Hr as <-.
      simpl in Hrep. injection Hrep as <-. eexists.
      rewrite lookup_alter_ne, lookup_insert_eq by done. by split.
    + rewrite lookup_alter_ne in Hr by done.
      destruct (fo_link _ Hb _ _ _ Hr Hrep) as (x & Hx & Hfx). simpl in Hx.
      destruct (decide (k' = id)) as [->|Hk'].
      * rewrite lookup_alter_eq, Hx. simpl. by eexists.
      * rewrite lookup_alter_ne, Hx by done. by eexists.
Qed.

Lemma rotate_origin (drawn : fresh_values → Prop) kind token v nowMs at_ d a_read a res a' id r' :
  drawn v → rotate kind token v nowMs at_ d a_read a = Ok (res, a') →
  refresh_tokens a' !! id = Some r' → row_origin drawn (refresh_tokens a) id r'.
Proof.
  intros Hv [[_ ->]|[(k & row & _ & _ & reason & _ & ->)|
    (k & row & pair & b & Hrow & Hrev & _ & _ & _ & _ & _ & Hins & Hcase)]]%rotate_inv Hr';
    [by apply origin_same|by eapply revoke_origin|].
  apply insert_token_inv in Hins as (Hn & _ & ->).
  assert (∀ x, <[fv_refreshTokenId v := new_token sha256 (principal_of kind row) v (rt_familyId row)
      nowMs (rt_familyCreatedAt row)]> (refresh_tokens a) !! id = Some x →
    row_origin drawn (refresh_tokens a) id x) as Hb.
  { intros x [[<- <-]|[_ Hx]]%lookup_insert_Some; [|by apply origin_same].
    right. split; [done|]. exists v. split_and!; eauto 6. }
  destruct Hcase as [(_ & _ & ->)|[Hfree ->]]; [by apply Hb|].
  simpl in Hr'. destruct (decide (id = k)) as [->|Hk].
  - rewrite lookup_alter_eq, lookup_insert_ne, Hrow in Hr' by congruence. simpl in Hr'. injection Hr' as <-.
    left. exists row. split; [done|]. split; [by repeat split|done|]. by rewrite Hfree.
  - rewrite lookup_alter_ne in Hr' by done. by apply Hb.
Qed.

Lemma issue_inv d p v nowMs a pair a' :
  issue d p v nowMs a = Ok (pair, a') →
  insert_token (fv_refreshTokenId v)
    (new_token sha256 (with_email (session_email a p) p) v (fv_familyId v) nowMs nowMs) a = Ok a'.
Proof. unfold insertInitialPair. intros H. rinv. by simplify_eq. Qed.

Lemma step_families drawn a a' :
  session_step drawn a a' → families_ok (refresh_tokens a) →
  families_ok (refresh_tokens a') ∧
  ∀ id r', refresh_tokens a' !! id = Some r' → row_origin drawn (refresh_tokens a) id r'.
Proof.
  assert (∀ r1 r2, same_principal r1 r2 → rt_tenantId r2 = rt_tenantId r1 ∧ rt_userId r2 = rt_userId r1)
    as Hscope by (unfold same_principal; intros; destruct_and!; done).
  destruct 1 as [d p v nowMs a pair a' H Hv Hfresh|kind token v nowMs at_ d a_read a r a' H Hv _|
    p at_ reason a|at_ a|u a|t a|a a' ->]; intros Hok.
  - apply issue_inv in H. split.
    + eapply insert_families; [done|exact H|done|done|]. intros k x Hx Hf. by destruct (Hfresh _ _ Hx).
    + apply insert_token_inv in H as (Hn & _ & ->). simpl.
      intros id r' [[<- <-]|[_ Hx]]%lookup_insert_Some; [|by apply origin_same].
      right. split; [done|]. exists v. split_and!; try done. by left.
  - split; [by eapply rotate_families|by intros; eapply rotate_origin].
  - split; [by apply revoke_families|by intros; eapply revoke_origin].
  - apply delete_step; [done|]. intros r1 r2 _ E. by rewrite E.
  - apply delete_step; [done|]. intros r1 r2 [_ E]%Hscope _. by rewrite E.
  - apply delete_step; [done|]. intros r1 r2 [E _]%Hscope _. by rewrite E.
  - split; [done|by apply origin_same].
Qed.

Lemma steps_families drawn a a' :
  rtc (session_step drawn) a a' → families_ok (refresh_tokens a) → families_ok (refresh_tokens a').
Proof. induction 1 as [|a b c H _ IH]; [done|]. intros Hok. apply IH. by eapply step_families. Qed.

(** A closed family stays closed as long as its id is not drawn again. *)
Lemma dead_forever f a a' :
  rtc (session_step (λ v, fv_familyId v ≠ f)) a a' → families_ok (refresh_tokens a) →
  family_dead f (refresh_tokens a) → family_dead f (refresh_tokens a').
Proof.
  induction 1 as [|a b c H _ IH]; [done|]. intros Hok Hdead.
  destruct (step_families _ _ _ H Hok) as [Hok' Hfrom]. apply IH; [done|].
  intros id r' Hr' Hf. destruct (Hfrom _ _ Hr') as [(r & Hr & [Hst Hrev _])|(_ & v & Hv & _ & _ & Hcase)].
  - apply Hrev, (Hdead _ _ Hr). rewrite <-Hf. symmetry. apply Hst.
  - destruct Hcase as [Heq|(id0 & r0 & Hr0 & Hf0 & Hno)]; [congruence|].
    destruct (Hdead _ _ Hr0) as [t Ht]; congruence.
Qed.

Lemma descends_steps id r0 a a' :
  rtc (session_step (λ v, fv_refreshTokenId v ≠ id ∧ sha256 (fv_refreshToken v) ≠ rt_tokenHash r0)) a a' →
  families_ok (refresh_tokens a) → descends id r0 (refresh_tokens a) → descends id r0 (refresh_tokens a').
Proof.
  induction 1 as [|a b c H _ IH]; [done|]. intros Hok Hd.
  destruct (step_families _ _ _ H Hok) as [Hok' Hfrom]. apply IH; [done|].
  intros k r' Hr' Hk. destruct (Hfrom _ _ Hr') as [(r & Hr & Hev)|(_ & v & [Hid Hh] & -> & Hhash & _)].
  - destruct (Hd _ _ Hr) as [-> Hev0].
    + destruct Hk as [->|Hk]; [by left|right]. rewrite <-Hk. symmetry. apply Hev.
    + split; [done|]. by etrans.
  - destruct Hk; congruence.
Qed.
(** ** What the tables promise *)

(** The session tables as calls in any order leave them. *)
Definition sessions_reachable (a : auth_db) : Prop :=
  ∃ a0, refresh_tokens a0 = ∅ ∧ rtc (session_step (λ _, True)) a0 a.

Lemma families_ok_empty : families_ok ∅.
Proof. split; by intros *; rewrite lookup_empty. Qed.

Lemma reachable_families a : sessions_reachable a → families_ok (refresh_tokens a).
Proof. intros (a0 & H0 & Hs). eapply steps_families; [exact Hs|]. rewrite H0. apply families_ok_empty. Qed.

Lemma revoke_family_dead f at_ reason a : family_dead f (refresh_tokens (revoke_family f at_ reason a)).
Proof.
  intros id r' (r & Hr & [[-> _]|[-> Hcase]])%lookup_revoke_where Hf; [by eexists|].
  destruct Hcase as [Hp|]; [|done]. by apply bool_decide_eq_false in Hp.
Qed.

Lemma dead_family_fenced f a ck claims perm :
  family_dead f (refresh_tokens a) → mc_familyId claims = Some f → f ≠ "" →
  requireManagerActorInTransaction a ck claims perm = Err ManagerMutationAuthorityChangedError.
Proof.
  intros Hdead Hf Hne. unfold requireManagerActorInTransaction, throw_if.
  assert (session_active a ck claims = false) as ->; [|by repeat case_match].
  unfold session_active. rewrite Hf. simpl. rewrite bool_decide_false by done. simpl.
  apply bool_decide_eq_false. intros (id & r & Hr & Hlive). unfold family_row_live in Hlive. bools.
  destruct (Hdead _ _ Hr) as [t Ht]; [congruence|]. by rewrite Ht in *.
Qed.

Lemma dead_family_inactive f kind t u at_ a :
  family_dead f (refresh_tokens a) → isSessionFamilyActive f kind t u at_ a = false.
Proof.
  intros Hdead. unfold isSessionFamilyActive. apply andb_false_iff. right.
  apply bool_decide_eq_false. intros (id & r & Hr & Hlive). bools.
  destruct (Hdead _ _ Hr) as [s Hs]; [done|]. by rewrite Hs in *.
Qed.
Lemma row_comes_from (drawn : fresh_values → Prop) a a' id r' :
  rtc (session_step drawn) a a' → families_ok (refresh_tokens a) →
  (∀ v, drawn v → fv_refreshTokenId v ≠ id) → refresh_tokens a' !! id = Some r' →
  ∃ r, refresh_tokens a !! id = Some r ∧ evolves r r'.
Proof.
  induction 1 as [|a b c H _ IH]; intros Hok Hid Hr'; [by exists r'|].
  destruct (step_families _ _ _ H Hok) as [Hok' Hfrom].
  destruct (IH Hok' Hid Hr') as (r1 & Hr1 & Hev).
  destruct (Hfrom _ _ Hr1) as [(r & Hr & Hev0)|(_ & v & Hv & -> & _)]; [|by destruct (Hid v)].
  exists r. split; [done|]. by etrans.
Qed.

Lemma tenant_admits_static kind d r r' : static r r' → tenant_admits kind d r' = tenant_admits kind d r.
Proof. unfold static, tenant_admits. intros. destruct_and!. by replace (rt_tenantId r') with (rt_tenantId r). Qed.

(** A presented token whose row was replaced longer ago than the grace
    window. *)
Lemma spent_rotation kind token v nowMs at_ d a_read a id initial row w :
  families_ok (refresh_tokens a_read) →
  refresh_tokens a_read !! id = Some initial → rt_tokenHash initial = sha256 token →
  refresh_tokens a !! id = Some row → static initial row → rt_revokedAt row = None →
  rt_kind row = kind_text kind → tenant_admits kind d row = true →
  nowMs < rt_expiresAt row → rt_expiresAt row = rt_familyCreatedAt row + REFRESH_FAMILY_TTL_MS →
  refreshPrincipalStillValid d a kind row = true →
  truthy (rt_replacedBy row) = true → rt_replacedAt row = Some w → w + REFRESH_ROTATION_GRACE_MS < nowMs →
  rotate kind token v nowMs at_ d a_read a
  = Ok (reused_token (rt_familyId row) (rt_email row) (rt_tenantId row) (rt_userId row) kind,
        revoke_family (rt_familyId row) at_ "refresh_reuse_detected" a).
Proof.
  intros Hok Hi Hh Hrow Hst Hrev Hkind Hten Hexp Hexpc Hvalid Hrep Hw Hlate.
  unfold rotateRefreshToken. rewrite (find_row_unique _ _ id initial); [|done|..]; cycle 1.
  { by apply bool_decide_eq_true. }
  { intros k x Hx Hhx. apply bool_decide_eq_true in Hhx. eapply (fo_hash _ Hok); [done|done|].
    unfold hashRefreshToken in Hhx. congruence. }
  rewrite <-(tenant_admits_static _ _ _ _ Hst), Hten.
  destruct Hst as (Hf & Hk & _). rewrite <-Hk, Hkind, bool_decide_true, Hrow, Hkind, Hf, !bool_decide_true, Hrev by done.
  simpl. unfold rotate_locked. rewrite (proj2 (Z.leb_gt _ _)) by lia.
  rewrite (proj2 (Z.leb_gt _ _)) by lia. rewrite Hvalid, Hrep. simpl. unfold in_grace.
  rewrite Hw, (proj2 (Z.leb_gt _ _)) by lia. by rewrite Hf.
Qed.

(** Whatever the order of sign-ins, rotations, revocations and deletions,
    every refresh token of the table expires exactly thirty days after its
    family was opened (rotation never extends a session), all tokens of a
    family speak for one principal, no two rows share a token hash, and a
    replaced token's successor is a row of the same family. *)
Theorem session_families_fixed a : sessions_reachable a → families_ok (refresh_tokens a).
Proof. apply reachable_families. Qed.

(** Once a family has been revoked, and as long as its random id is not
    drawn again, no later step reopens it: the mutation fence refuses every
    claim of the family, [isSessionFamilyActive] denies it, and no refresh
    answers with a new pair for it. *)
Theorem revoked_family_is_final a f at_ reason b a' :
  sessions_reachable a →
  revokeSessionFamilyInTransaction f reason at_ a = Ok b →
  rtc (session_step (λ v, fv_familyId v ≠ f)) b a' →
  (∀ ck claims perm, mc_familyId claims = Some f →
     requireManagerActorInTransaction a' ck claims perm = Err ManagerMutationAuthorityChangedError) ∧
  (∀ kind t u now, isSessionFamilyActive f kind t u now a' = false) ∧
  (∀ kind token v nowMs at' d a_read pair a'',
     rotate kind token v nowMs at' d a_read a' = Ok (rotated pair, a'') → pr_familyId pair ≠ f).
Proof.
  unfold revokeSessionFamilyInTransaction. intros Hreach H Hs. rinv. subst b.
  assert (f ≠ "") as Hne by (by intros ->; vm_compute in Hr).
  assert (family_dead f (refresh_tokens a')) as Hdead.
  { eapply dead_forever; [exact Hs|by apply revoke_families, reachable_families|apply revoke_family_dead]. }
  split_and!.
  - intros. by eapply dead_family_fenced.
  - intros. by apply dead_family_inactive.
  - intros * [[? _]|[(? & ? & _ & _ & ? & [?|(_ & _ & ?)] & _)|(id & row & pair' & c & Hrow & Hrev & _ & Hres & Hf & _)]]%rotate_inv Hpf;
      try congruence.
    injection Hres as <-. destruct (Hdead _ _ Hrow) as [t Ht]; congruence.
Qed.

(** C35. A refresh token that was replaced is worth nothing after the grace
    window, whatever happened in between: presenting it never yields a pair,
    and as long as its row is live and its principal current the presentation
    is reported as reuse and revokes every token of the family. The reads
    before and after the locks may see different tables. *)
Theorem refresh_replay_contained a0 id r0 w a_read a kind token v nowMs at_ d res a' :
  sessions_reachable a0 →
  refresh_tokens a0 !! id = Some r0 → truthy (rt_replacedBy r0) = true → rt_replacedAt r0 = Some w →
  rtc (session_step (λ v, fv_refreshTokenId v ≠ id ∧ sha256 (fv_refreshToken v) ≠ rt_tokenHash r0)) a0 a_read →
  rtc (session_step (λ v, fv_refreshTokenId v ≠ id ∧ sha256 (fv_refreshToken v) ≠ rt_tokenHash r0)) a_read a →
  sha256 token = rt_tokenHash r0 → w + REFRESH_ROTATION_GRACE_MS < nowMs →
  rotate kind token v nowMs at_ d a_read a = Ok (res, a') →
  (∀ pair, res ≠ rotated pair) ∧
  (∀ row, refresh_tokens a !! id = Some row → rt_revokedAt row = None → rt_kind row = kind_text kind →
     tenant_admits kind d row = true → nowMs < rt_expiresAt row →
     refreshPrincipalStillValid d a kind row = true →
     res = reused_token (rt_familyId r0) (rt_email r0) (rt_tenantId r0) (rt_userId r0) kind ∧
     family_dead (rt_familyId r0) (refresh_tokens a')).
Proof.
  intros Hreach%reachable_families Hr0 Hrep Hw Hs1 Hs2 Htok Hlate Hrot.
  pose proof (steps_families _ _ _ Hs1 Hreach) as Hok1. pose proof (steps_families _ _ _ Hs2 Hok1) as Hok2.
  assert (descends id r0 (refresh_tokens a0)) as Hd0.
  { intros k r Hr [->|Hh]; [split; [done|]; by replace r with r0 by congruence|].
    assert (k = id) as -> by (by eapply (fo_hash _ Hreach)). split; [done|]. by replace r with r0 by congruence. }
  pose proof (descends_steps _ _ _ _ Hs1 Hreach Hd0) as Hd1. pose proof (descends_steps _ _ _ _ Hs2 Hok1 Hd1) as Hd2.
  split.
  - intros pair ->. apply rotate_inv in Hrot as [[? _]|[(? & ? & _ & _ & ? & [?|(_ & _ & ?)] & _)|
      (k & row & p' & c & Hrow & _ & _ & _ & _ & _ & (row0 & Hrow0 & Hh0) & _ & Hcase)]]; try done.
    destruct (Hd1 _ _ Hrow0) as [-> _]; [by right; congruence|].
    destruct (Hd2 _ _ Hrow) as [_ [_ _ Hev]]; [by left|]. destruct (Hev Hrep) as [Er Ew].
    rewrite Er, Hrep in Hcase. destruct Hcase as [(_ & Hg & _)|[? _]]; [|done].
    unfold in_grace in Hg. rewrite Ew, Hw in Hg. apply Z.leb_le in Hg. lia.
  - intros row Hrow Hrev Hkind Hten Hexp Hvalid.
    destruct (Hd2 _ _ Hrow) as [_ [Hst0 _ Hev]]; [by left|]. destruct (Hev Hrep) as [Er Ew].
    destruct (row_comes_from _ _ _ _ _ Hs2 Hok1 (λ v Hv, proj1 Hv) Hrow) as (initial & Hi & [Hst _ _]).
    destruct (Hd1 _ _ Hi) as [_ [Hsti _ _]]; [by left|].
    rewrite (spent_rotation kind token v nowMs at_ d a_read a id initial row w) in Hrot; try done.
    + injection Hrot as <- <-. unfold static in Hst0. destruct_and!.
      split; [by f_equal|]. replace (rt_familyId r0) with (rt_familyId row) by done. apply revoke_family_dead.
    + unfold static in Hsti. destruct_and!. congruence.
    + by eapply (fo_expiry _ Hok2).
    + by rewrite Er.
    + by rewrite Ew.
Qed.
End session_steps.

(** ** Access tokens round-trip *)

Definition between (lo hi : Z) (s : string) : Prop := lo ≤ strlen s ≤ hi.

(** The lengths [verifySignatureShape] asks of the values a token carries. *)
Record claims_sized (p : SharedSessionPrincipal) (jti sid familyId : string) (nowSec : Z) : Prop := {
  cz_jti : between 16 128 jti;
  cz_sid : between 16 128 sid;
  cz_familyId : between 16 128 familyId;
  cz_now : 0 ≤ nowSec ≤ 2 ^ 52;
  cz_tenantId : ∀ t, sp_tenantId p = Some t → strlen t ≤ 128;
  cz_userId : ∀ u, sp_userId p = Some u → strlen u ≤ 128;
  cz_email : ∀ e, sp_email p = Some e → e ≠ "" → between 3 320 e;
}.

#[local] Arguments string_between : simpl never.

Lemma string_between_some lo hi s : between lo hi s → string_between lo hi (Some (JString s)) = Some s.
Proof. unfold between, string_between. intros. by rewrite !(proj2 (Z.leb_le _ _)) by lia. Qed.

Lemma spread_truthy_cases o :
  (spread_truthy o = None ∧ truthy o = false) ∨ (∃ s, o = Some s ∧ s ≠ "" ∧ spread_truthy o = Some s).
Proof.
  unfold spread_truthy. destruct (truthy o) eqn:E; [right|by left].
  destruct o as [s|]; [|done]. simpl in E. bools. by eexists.
Qed.

Lemma role_text_sized r : between 1 64 (role_text r).
Proof. destruct r; split; vm_compute; discriminate. Qed.

Lemma claims_fields c :
  let field := json_field (claims_json c) in
  field "ver" = Some (JNumber ACCESS_TOKEN_VERSION) ∧ field "kind" = Some (JString (kind_text (sc_kind c))) ∧
  field "jti" = Some (JString (sc_jti c)) ∧ field "sid" = Some (JString (sc_sid c)) ∧
  field "familyId" = Some (JString (sc_familyId c)) ∧ field "iat" = Some (JNumber (sc_iat c)) ∧
  field "exp" = Some (JNumber (sc_exp c)) ∧ field "sub" = Some (JString (sc_sub c)) ∧
  field "tenantId" = JString <$> sc_tenantId c ∧ field "userId" = JString <$> sc_userId c ∧
  field "role" = JString <$> sc_role c ∧ field "email" = JString <$> sc_email c.
Proof.
  destruct c as [k jti sid f iat exp sub [t|] [u|] [r|] [e|]]; split_and!; vm_compute; reflexivity.
Qed.

Lemma as_kind_text k : as_SessionKind (kind_text k) = Some k.
Proof. by destruct k. Qed.

Lemma optional_between_spread lo hi o :
  (∀ s, o = Some s → s ≠ "" → between lo hi s) →
  optional_between lo hi (JString <$> spread_truthy o) = Some (spread_truthy o).
Proof.
  intros H. destruct (spread_truthy_cases o) as [[-> _]|(s & Ho & Hne & ->)]; [done|].
  unfold optional_between. simpl. by rewrite string_between_some by auto.
Qed.

(** The claims of the kind the principal has. *)
Lemma scoped_claims_json p jti sid familyId nowSec :
  validatePrincipal p = Ok tt → claims_sized p jti sid familyId nowSec →
  let c := makeClaims p jti sid familyId nowSec in
  scoped_claims (sp_kind p) (claims_json c) = Some (sc_tenantId c, sc_userId c, sc_role c, sc_email c).
Proof.
  intros Hp [_ _ _ _ Ht Hu He] c. destruct (claims_fields c) as (_ & _ & _ & _ & _ & _ & _ & _ & Et & Eu & Er & Ee).
  unfold scoped_claims. cbv zeta. rewrite Et, Eu, Er, Ee. clear Et Eu Er Ee. subst c.
  destruct p as [k t u r e cv]. simpl in *.
  unfold validatePrincipal, throw_if in Hp. simpl in Hp.
  assert (∀ o : option string, truthy o = true → ∃ s, o = Some s ∧ s ≠ "" ∧ spread_truthy o = Some s) as Htr.
  { intros o Ho. destruct (spread_truthy_cases o) as [[_ ?]|?]; [congruence|done]. }
  assert (k = platform_kind ∨ k ≠ platform_kind) as [->|Hk] by (destruct k; auto).
  - simpl in Hp. destruct (_ || _) eqn:Hb in Hp; [done|].
    apply orb_false_iff in Hb as [[[Hb1 Hb2]%orb_false_iff Hb3]%orb_false_iff Hb4].
    apply negb_false_iff in Hb1, Hb2. destruct (Htr _ Hb1) as (u' & -> & Hu' & ->).
    destruct (Htr _ Hb2) as (e' & -> & He' & ->). destruct r; [done|]. unfold spread_truthy at 1 2. rewrite Hb3. simpl.
    rewrite (proj2 (Z.leb_le _ _)) by (by apply strlen_pos). simpl.
    by rewrite string_between_some by (by apply He).
  - rewrite bool_decide_false in Hp by done. destruct (_ || _) eqn:Hb in Hp; [done|].
    apply orb_false_iff in Hb as [Hb1 Hb2]. apply negb_false_iff in Hb1.
    destruct (Htr _ Hb1) as (t' & -> & Ht' & ->). destruct r as [r|]; [|done].
    assert (∀ X Y : option (option string * option string * option string * option string),
      match k with platform_kind => X | _ => Y end = Y) as -> by (by destruct k).
    simpl. rewrite (string_between_some _ _ t') by (split; [by apply strlen_pos|by apply Ht]). simpl.
    rewrite string_between_some by apply role_text_sized. simpl.
    rewrite (optional_between_spread _ _ u) by (intros s -> Hs; split; [by apply strlen_pos|by apply Hu]). simpl.
    by rewrite optional_between_spread by (intros s -> Hs; by apply He).
Qed.

(** The parser reads back the claims the signer wrote. *)
Lemma parse_claims_json p jti sid familyId nowSec :
  validatePrincipal p = Ok tt → claims_sized p jti sid familyId nowSec →
  parse_claims (claims_json (makeClaims p jti sid familyId nowSec))
  = Some (makeClaims p jti sid familyId nowSec).
Proof.
  intros Hp Hz. pose proof (scoped_claims_json _ _ _ _ _ Hp Hz) as Hscope. destruct Hz as [Hj Hs Hf Hn _ _ _].
  set (c := makeClaims p jti sid familyId nowSec) in *.
  destruct (claims_fields c) as (Ev & Ek & Ej & Es & Ef & Ei & Ex & Eu & _).
  unfold parse_claims. cbv zeta. rewrite Ev, Ek, Ej, Es, Ef, Ei, Ex, Eu. simpl. rewrite as_kind_text. simpl.
  rewrite !string_between_some by done. simpl. unfold safe_integer, isSafeInteger, ACCESS_TOKEN_TTL_SECONDS. simpl.
  rewrite !(proj2 (Z.leb_le _ _)) by lia. simpl.
  rewrite (proj2 (Z.leb_gt _ _)) by lia. rewrite (proj2 (Z.eqb_eq _ _)) by lia. simpl.
  rewrite bool_decide_true by done. simpl. by rewrite Hscope.
Qed.

Lemma parse_claims_life v c : parse_claims v = Some c → sc_exp c = sc_iat c + ACCESS_TOKEN_TTL_SECONDS.
Proof.
  unfold parse_claims. cbv zeta. intros H. destruct (negb _) in H; [done|].
  repeat (apply bind_Some in H as (? & _ & H)).
  destruct (_ || _) eqn:Hlife in H; [done|]. destruct (negb _) in H; [done|].
  apply bind_Some in H as ([[[? ?] ?] ?] & _ & H). injection H as <-. simpl.
  apply orb_false_iff in Hlife as [_ Hlife%negb_false_iff%Z.eqb_eq]. lia.
Qed.

Abbreviation dotless := (free_of "."%char).

Section access_tokens.
Context (hmac encode decode : string → string) (JSON_parse : string → option json) (sha256 : string → string).
Context (decode_encode : ∀ s, decode (encode s) = s).
Context (encode_dotless : ∀ s, dotless (encode s) = true) (hmac_dotless : ∀ s, dotless (hmac s) = true).
Abbreviation sign := (signAccessToken hmac encode).
Abbreviation verify := (verifyAccessTokenSignature hmac decode JSON_parse sha256).

Lemma split_signed c :
  let data := encode (stringify header_json) +:+ "." +:+ encode (stringify (claims_json c)) in
  split_on "."%char (sign c) = [encode (stringify header_json); encode (stringify (claims_json c)); hmac data].
Proof.
  cbv zeta. unfold signAccessToken. rewrite !string_app_assoc.
  by rewrite !(split_on_app "."%char), split_on_free.
Qed.

(** A token signed for a principal verifies, until it is tampered with,
    to exactly the claims it was signed with, for the kinds that are expected
    and for no other; and any token that verifies at all consists of a header, a
    payload and a signature that matches the HMAC of the two, is of an expected
    kind and lives exactly fifteen minutes. *)
Theorem access_token_roundtrip p jti sid familyId nowSec kinds :
  let c := makeClaims p jti sid familyId nowSec in
  JSON_parse (stringify header_json) = Some header_json →
  JSON_parse (stringify (claims_json c)) = Some (claims_json c) →
  validatePrincipal p = Ok tt → claims_sized p jti sid familyId nowSec →
  80 ≤ strlen (sign c) ≤ 4096 →
  verify (sign c) kinds = (if bool_decide (sp_kind p ∈ kinds) then Some c else None) ∧
  (∀ token claims, verify token kinds = Some claims →
     ∃ header payload signature, token = header +:+ "." +:+ payload +:+ "." +:+ signature ∧
       sha256 signature = sha256 (hmac (header +:+ "." +:+ payload)) ∧
       sc_kind claims ∈ kinds ∧ sc_exp claims = sc_iat claims + ACCESS_TOKEN_TTL_SECONDS).
Proof.
  intros c Hh Hc Hp Hz Hlen. split.
  - unfold verifyAccessTokenSignature, verifySignatureShape.
    rewrite (proj2 (Z.ltb_ge _ _)), (proj2 (Z.ltb_ge _ _)) by lia. simpl orb. cbv iota.
    rewrite split_signed, !decode_encode, Hh. cbn [mbind option_bind].
    assert (header_ok header_json = true) as -> by (vm_compute; reflexivity). cbn [negb].
    rewrite Hc. cbn [mbind option_bind]. 
    pose proof (parse_claims_json _ _ _ _ _ Hp Hz) as Hparse. fold c in Hparse. rewrite Hparse.
    cbn [mbind option_bind].
    unfold compareStringsSafe. by rewrite bool_decide_true.
  - unfold verifyAccessTokenSignature, verifySignatureShape. intros token claims H.
    destruct (_ || _); [done|]. pose proof (split_on_concat "."%char token) as [Hjoin _].
    destruct (split_on "."%char token) as [|h [|pl [|sg [|]]]]; try done.
    destruct (JSON_parse (decode h)) as [hd|]; [|done]. simpl in H. destruct (header_ok hd); [|done]. simpl in H.
    destruct (JSON_parse (decode pl)) as [v|]; [|done]. simpl in H.
    destruct (parse_claims v) as [c'|] eqn:Hparse; [|done]. simpl in H.
    destruct (compareStringsSafe _ _ _) eqn:Hsig; [|done]. simpl in H.
    destruct (bool_decide _) eqn:Hk; [|done]. injection H as <-.
    exists h, pl, sg. split_and!; [by rewrite <-Hjoin|by apply bool_decide_eq_true in Hsig|by apply bool_decide_eq_true in Hk|].
    by eapply parse_claims_life.
Qed.
End access_tokens.

(** ** Instances *)

(** A family of two tokens: [r1], replaced by [r2] at 2,000. *)
Definition sample_principal : SharedSessionPrincipal := {|
  sp_kind := manager_kind; sp_tenantId := Some "t1"; sp_userId := None; sp_role := Some operator;
  sp_email := None; sp_credentialVersion := None |}.

Definition sample_family : string := "00112233445566778899aabbccddeeff".

Definition drawn_values (n : string) : fresh_values := {|
  fv_familyId := sample_family; fv_refreshTokenId := "r" +:+ n; fv_accessJti := "jti" +:+ n;
  fv_refreshToken := "token" +:+ n |}.

Definition no_sessions : auth_db := {|
  users := ∅; tenant_users := ∅; refresh_tokens := ∅; manager_sessions := ∅ |}.

Definition plain (s : string) : string := s.
Definition hashed (s : string) : string := "h:" +:+ s.

Definition ok_state {A} (m : result (A * auth_db) session_error) : auth_db :=
  match m with Ok (_, a) => a | Err _ => no_sessions end.

Definition one_session : auth_db :=
  ok_state (insertInitialPair plain plain hashed queued_db sample_principal (drawn_values "1") 1000 no_sessions).

Definition two_sessions : auth_db :=
  ok_state (rotateRefreshToken plain plain hashed manager_kind "token1" (drawn_values "2") 2000 2000 queued_db
              one_session one_session).

Lemma one_session_reachable : sessions_reachable plain plain hashed one_session.
Proof.
  exists no_sessions. split; [done|]. apply rtc_once.
  eapply (ss_issue _ _ _ _ queued_db sample_principal (drawn_values "1") 1000 no_sessions); [|done|].
  - vm_compute. reflexivity.
  - intros id r Hr. simpl in Hr. by rewrite lookup_empty in Hr.
Qed.

Lemma two_sessions_reachable : sessions_reachable plain plain hashed two_sessions.
Proof.
  destruct one_session_reachable as (a0 & H0 & Hs). exists a0. split; [done|]. eapply rtc_r; [exact Hs|].
  eapply (ss_rotate _ _ _ _ manager_kind "token1" (drawn_values "2") 2000 2000 queued_db one_session);
    [vm_compute; reflexivity|done|done].
Qed.

Lemma session_families_fixed_witness :
  size (refresh_tokens two_sessions) = 2%nat ∧ families_ok (refresh_tokens two_sessions).
Proof.
  split; [vm_compute; reflexivity|].
  exact (session_families_fixed plain plain hashed two_sessions two_sessions_reachable).
Defined.

Lemma revoked_family_is_final_witness :
  isSessionFamilyActive sample_family manager_kind (Some "t1") None 2500 two_sessions = true ∧
  isSessionFamilyActive sample_family manager_kind (Some "t1") None 3500
    (revoke_family sample_family 3000 "logout" two_sessions) = false.
Proof.
  split; [vm_compute; reflexivity|].
  apply (revoked_family_is_final plain plain hashed two_sessions sample_family 3000 "logout" _ _
           two_sessions_reachable eq_refl (rtc_refl _ _)).
Defined.

Definition replayed : auth_db :=
  ok_state (rotateRefreshToken plain plain hashed manager_kind "token1" (drawn_values "3") 9000 9000 queued_db
              two_sessions two_sessions).

Lemma refresh_replay_contained_witness : family_dead sample_family (refresh_tokens replayed).
Proof.
  assert (∃ r0, refresh_tokens two_sessions !! "r1" = Some r0 ∧ truthy (rt_replacedBy r0) = true ∧
    rt_replacedAt r0 = Some 2000 ∧ hashed "token1" = rt_tokenHash r0 ∧ rt_revokedAt r0 = None ∧
    rt_kind r0 = "manager" ∧ tenant_admits manager_kind queued_db r0 = true ∧ 9000 < rt_expiresAt r0 ∧
    refreshPrincipalStillValid queued_db two_sessions manager_kind r0 = true ∧ rt_familyId r0 = sample_family)
    as (r0 & Hr0 & Hrep & Hw & Hh & Hrev & Hk & Ht & Hx & Hv & Hf).
  { eexists. split; [vm_compute; reflexivity|]. split_and!; vm_compute; reflexivity. }
  rewrite <-Hf.
  exact (proj2 (proj2 (refresh_replay_contained plain plain hashed two_sessions "r1" r0 2000 two_sessions
    two_sessions manager_kind "token1" (drawn_values "3") 9000 9000 queued_db
    (reused_token sample_family None (Some "t1") None manager_kind) replayed
    two_sessions_reachable Hr0 Hrep Hw (rtc_refl _ _) (rtc_refl _ _) Hh ltac:(vm_compute; reflexivity)
    ltac:(vm_compute; reflexivity)) r0 Hr0 Hrev Hk Ht Hx Hv)).
Defined.

(** A codec with the two properties the round trip needs: two letters a
    byte. *)
Definition nibble (b0 b1 b2 b3 : bool) : ascii :=
  ascii_of_nat (97 + (if b0 then 1 else 0) + (if b1 then 2 else 0) + (if b2 then 4 else 0)
                + (if b3 then 8 else 0)).

Definition bit (i : nat) (c : ascii) : bool := Nat.testbit (nat_of_ascii c - 97) i.

Fixpoint letter_encode (s : string) : string :=
  match s with
  | EmptyString => EmptyString
  | String (Ascii b0 b1 b2 b3 b4 b5 b6 b7) s =>
      String (nibble b0 b1 b2 b3) (String (nibble b4 b5 b6 b7) (letter_encode s))
  end.

Fixpoint letter_decode (s : string) : string :=
  match s with
  | String l (String h s) =>
      String (Ascii (bit 0 l) (bit 1 l) (bit 2 l) (bit 3 l) (bit 0 h) (bit 1 h) (bit 2 h) (bit 3 h))
        (letter_decode s)
  | _ => EmptyString
  end.

Lemma nibble_bits b0 b1 b2 b3 :
  let c := nibble b0 b1 b2 b3 in
  bit 0 c = b0 ∧ bit 1 c = b1 ∧ bit 2 c = b2 ∧ bit 3 c = b3 ∧ (c != "."%char) = true.
Proof. by destruct b0, b1, b2, b3. Qed.

Lemma letter_roundtrip s : letter_decode (letter_encode s) = s.
Proof.
  induction s as [|[b0 b1 b2 b3 b4 b5 b6 b7] s IH]; [done|]. cbn [letter_encode letter_decode]. rewrite IH.
  destruct (nibble_bits b0 b1 b2 b3) as (-> & -> & -> & -> & _).
  by destruct (nibble_bits b4 b5 b6 b7) as (-> & -> & -> & -> & _).
Qed.

Lemma letter_dotless s : dotless (letter_encode s) = true.
Proof.
  unfold free_of. induction s as [|[b0 b1 b2 b3 b4 b5 b6 b7] s IH]; [done|]. cbn [letter_encode all_chars].
  destruct (nibble_bits b0 b1 b2 b3) as (_ & _ & _ & _ & ->).
  destruct (nibble_bits b4 b5 b6 b7) as (_ & _ & _ & _ & ->). by rewrite IH.
Qed.

Definition sample_session_claims : SharedSessionClaims :=
  makeClaims sample_principal "0123456789abcdef" "fedcba9876543210" sample_family 1000.

(** [JSON.parse] on the two documents of the example. *)
Definition sample_parse (s : string) : option json :=
  if s == stringify header_json then Some header_json
  else if s == stringify (claims_json sample_session_claims) then Some (claims_json sample_session_claims)
  else None.

Lemma access_token_roundtrip_witness :
  let token := signAccessToken letter_encode letter_encode sample_session_claims in
  verifyAccessTokenSignature letter_encode letter_decode sample_parse hashed token [manager_kind]
    = Some sample_session_claims.
Proof.
  refine (proj1 (access_token_roundtrip letter_encode letter_encode letter_decode sample_parse hashed letter_roundtrip
    letter_dotless letter_dotless sample_principal "0123456789abcdef" "fedcba9876543210" sample_family 1000
    [manager_kind] _ _ _ _ _)).
  - vm_compute. reflexivity.
  - vm_compute. reflexivity.
  - vm_compute. reflexivity.
  - split; unfold between; simpl; intros; simplify_eq; by vm_compute.
  - split; vm_compute; discriminate.
Defined.
