(* ===== verification/Cookies.v ===== *)
(** * Cookies: how a request carries its session tokens

    The request side of [src/lib/session-tokens.ts]: the cookie names of the
    session kinds, the header that sets and clears them, and how a token is
    read back. [decodeURIComponent] and [toUTCString] are arguments; a request
    is the headers that are read. *)

From Stdlib Require Import Ascii.
From S2P Require Import Prelude DatabaseTime JobStatus Json Schema Authority Sessions.

Definition accessCookieName (k : SessionKind) : string :=
  match k with
  | manager_kind => "mgr_session" | customer_kind => "cust_session" | platform_kind => "plt_session"
  end.

Definition refreshCookieName (k : SessionKind) : string :=
  match k with
  | manager_kind => "mgr_refresh" | customer_kind => "cust_refresh" | platform_kind => "plt_refresh"
  end.

Definition refreshCookiePath (k : SessionKind) : string :=
  match k with
  | manager_kind => "/api/auth/manager" | customer_kind => "/api/auth" | platform_kind => "/api/platform/auth"
  end.

(** [value.slice(1, -1)] when a double quote stands at both ends. *)
Definition unquote (value : string) : string :=
  let quoted (c : option ascii) := bool_decide (c = Some "034"%char) in
  if quoted (String.get 0 value) && quoted (String.get (String.length value - 1) value)
  then String.substring 1 (String.length value - 2) value else value.

Record request := {
  rq_cookie : option string;
  rq_authorization : option string;
  rq_origin : option string;
  rq_desktop : option string;        (* x-odoo-print-desktop *)
  rq_refreshToken : option string;   (* x-refresh-token *)
}.

(** [x || null]. *)
Definition null_if_empty (s : string) : option string := if s == "" then None else Some s.

Section cookies.
Context (decodeURIComponent : string → option string) (toUTCString : Z → string) (secure : bool).

(** The value of the first part with the name; malformed escapes stay as they
    are. *)
Fixpoint find_cookie (name : string) (parts : list string) : option string :=
  match parts with
  | [] => None
  | part :: parts =>
      match split_on "="%char (trim part) with
      | key :: rest =>
          if key == name
          then let value := unquote (trim (String.concat "=" rest)) in
               null_if_empty (coalesce (decodeURIComponent value) value)
          else find_cookie name parts
      | [] => find_cookie name parts
      end
  end.

Definition readCookie (req : request) (name : string) : option string :=
  find_cookie name (split_on ";"%char (coalesce (rq_cookie req) "")).

Definition isTrustedDesktopRequest (req : request) : bool :=
  (rq_desktop req == Some "1") && one_of ["tauri://localhost"; "http://tauri.localhost"] (coalesce (rq_origin req) "").

Definition bearer (req : request) : option string :=
  a ← rq_authorization req;
  if startsWith a "Bearer " then null_if_empty (trim (String.substring 7 (String.length a - 7) a)) else None.

Definition getAccessTokenFromRequest (req : request) (kind : SessionKind) : option string :=
  match bearer req with
  | Some token => Some token
  | None => readCookie req (accessCookieName kind)
  end.

Definition getRefreshTokenFromRequest (req : request) (kind : SessionKind) : option string :=
  let headerToken := if isTrustedDesktopRequest req then rq_refreshToken req ≫= (λ h, null_if_empty (trim h)) else None in
  match headerToken with
  | Some token => Some token
  | None => readCookie req (refreshCookieName kind)
  end.

Definition secure_attribute : string := if secure then "; Secure" else "".

Definition accessCookieHeader (kind : SessionKind) (token : string) (expiresAt : Z) : string :=
  accessCookieName kind +:+ "=" +:+ token +:+ "; Path=/; HttpOnly; SameSite=Lax" +:+ secure_attribute
  +:+ "; Expires=" +:+ toUTCString expiresAt +:+ "; Max-Age=" +:+ number_text ACCESS_TOKEN_TTL_SECONDS.

Definition refreshCookieHeader (kind : SessionKind) (token : string) (expiresAt : Z) : string :=
  refreshCookieName kind +:+ "=" +:+ token +:+ "; Path=" +:+ refreshCookiePath kind
  +:+ "; HttpOnly; SameSite=Strict" +:+ secure_attribute +:+ "; Expires=" +:+ toUTCString expiresAt
  +:+ "; Max-Age=" +:+ number_text (REFRESH_FAMILY_TTL_MS / 1000).

Definition EPOCH_UTC : string := "Thu, 01 Jan 1970 00:00:00 GMT".

Definition clearAccessCookieHeader (kind : SessionKind) : string :=
  accessCookieName kind +:+ "=; Path=/; HttpOnly; SameSite=Lax" +:+ secure_attribute
  +:+ "; Expires=" +:+ EPOCH_UTC +:+ "; Max-Age=0".

Definition clearRefreshCookieHeader (kind : SessionKind) : string :=
  refreshCookieName kind +:+ "=; Path=" +:+ refreshCookiePath kind +:+ "; HttpOnly; SameSite=Strict"
  +:+ secure_attribute +:+ "; Expires=" +:+ EPOCH_UTC +:+ "; Max-Age=0".

(** ** Reading back what was set *)

(** What a user agent keeps of a [Set-Cookie] header: its first part. *)
Definition stored_cookie (header : string) : string := coalesce (head (split_on ";"%char header)) "".

(** The [Cookie] header of the cookies it keeps. *)
Definition cookie_line (cookies : list string) : string := String.concat "; " cookies.

(** Characters a token is made of. *)
Definition token_char (c : ascii) : bool :=
  negb (bool_decide (c = ";"%char)) && negb (bool_decide (c = "="%char)) &&
  negb (bool_decide (c = "034"%char)) && negb (is_js_space c).

Lemma token_free s : all_chars token_char s = true →
  free_of ";"%char s = true ∧ free_of "="%char s = true ∧ all_chars (λ c, negb (is_js_space c)) s = true.
Proof.
  intros Hs. unfold free_of. split_and!; (eapply all_chars_impl; [|exact Hs]); intros c Hc;
    unfold token_char in Hc; rewrite !andb_true_iff in Hc; tauto.
Qed.

Lemma unquote_token s : all_chars token_char s = true → unquote s = s.
Proof.
  intros Hs. unfold unquote. destruct s as [|c s]; [done|]. cbn [String.get].
  cbn [all_chars] in Hs. apply andb_true_iff in Hs as [Hc _]. unfold token_char in Hc.
  rewrite !andb_true_iff in Hc. destruct Hc as [[_ Hq] _]. apply negb_true_iff, bool_decide_eq_false in Hq.
  by rewrite bool_decide_false by congruence.
Qed.

Lemma find_cookie_cons name key value lead parts :
  all_chars token_char key = true → all_chars token_char value = true → all_chars is_js_space lead = true →
  find_cookie name ((lead +:+ key +:+ "=" +:+ value) :: parts) =
  if key == name then null_if_empty (coalesce (decodeURIComponent value) value) else find_cookie name parts.
Proof.
  intros Hk Hv Hl. destruct (token_free _ Hk) as (_ & Hke & Hks). destruct (token_free _ Hv) as (_ & Hve & Hvs).
  cbn [find_cookie].
  assert (trim (lead +:+ key +:+ "=" +:+ value) = key +:+ "=" +:+ value) as ->.
  { unfold trim. assert (trim_start (lead +:+ key +:+ "=" +:+ value) = trim_start (key +:+ "=" +:+ value)) as ->.
    { induction lead as [|c l IH]; [done|]. cbn [all_chars] in Hl. apply andb_true_iff in Hl as [Hc Hl].
      change (String c l +:+ key +:+ "=" +:+ value) with (String c (l +:+ key +:+ "=" +:+ value)).
      cbn [trim_start]. rewrite Hc. by apply IH. }
    apply trim_spaceless. rewrite !all_chars_app, Hks, Hvs. done. }
  rewrite (split_on_app "="%char), split_on_free by done. destruct (key == name); [|done].
  cbn [String.concat]. by rewrite trim_spaceless, unquote_token.
Qed.
Lemma split_line lead x xs :
  free_of ";"%char lead = true → Forall (λ x, free_of ";"%char x = true) (x :: xs) →
  split_on ";"%char (lead +:+ cookie_line (x :: xs)) = (lead +:+ x) :: map (String.append " ") xs.
Proof.
  revert lead x. induction xs as [|y ys IH]; intros lead x Hl [Hx Hxs]%Forall_cons.
  - apply split_on_free. unfold free_of in *. cbn [cookie_line String.concat]. by rewrite all_chars_app, Hl, Hx.
  - change (cookie_line (x :: y :: ys)) with (x +:+ ";" +:+ (" " +:+ cookie_line (y :: ys))).
    rewrite <-string_app_assoc, (split_on_app ";"%char), IH by (done || unfold free_of in *; by rewrite all_chars_app, Hl, Hx).
    done.
Qed.

(** A session cookie as the gateway set it. *)
Record session_cookie := { ck_refresh : bool; ck_kind : SessionKind; ck_token : string; ck_expiresAt : Z }.

Definition cookie_name (c : session_cookie) : string :=
  if ck_refresh c then refreshCookieName (ck_kind c) else accessCookieName (ck_kind c).

Definition set_cookie (c : session_cookie) : string :=
  if ck_refresh c then refreshCookieHeader (ck_kind c) (ck_token c) (ck_expiresAt c)
  else accessCookieHeader (ck_kind c) (ck_token c) (ck_expiresAt c).

Definition cookie_ok (c : session_cookie) : Prop :=
  ck_token c ≠ "" ∧ all_chars token_char (ck_token c) = true ∧ decodeURIComponent (ck_token c) = Some (ck_token c).

Lemma cookie_name_chars c : all_chars token_char (cookie_name c) = true.
Proof. destruct c as [[] [] t e]; vm_compute; reflexivity. Qed.

Lemma stored_set_cookie c :
  all_chars token_char (ck_token c) = true → stored_cookie (set_cookie c) = cookie_name c +:+ "=" +:+ ck_token c.
Proof.
  intros (Hf & _ & _)%token_free. destruct (token_free _ (cookie_name_chars c)) as (Hn & _ & _).
  assert (∃ rest, set_cookie c = (cookie_name c +:+ "=" +:+ ck_token c) +:+ ";" +:+ rest) as [rest ->].
  { unfold set_cookie, cookie_name, accessCookieHeader, refreshCookieHeader.
    destruct (ck_refresh c); eexists; by rewrite !string_app_assoc. }
  unfold stored_cookie. rewrite (split_on_app ";"%char); [done|].
  unfold free_of in *. by rewrite !all_chars_app, Hn, Hf.
Qed.

Lemma find_cookie_lines c cs lead :
  NoDup (map cookie_name cs) → c ∈ cs → Forall cookie_ok cs → all_chars is_js_space lead = true →
  find_cookie (cookie_name c) (map (λ c, lead +:+ stored_cookie (set_cookie c)) cs) = Some (ck_token c).
Proof.
  intros Hnd Hc Hok Hlead. induction Hok as [|x cs (Hne & Hch & Hdec) Hok IH]; [by apply not_elem_of_nil in Hc|].
  cbn [map]. rewrite stored_set_cookie by done. rewrite find_cookie_cons by (done || apply cookie_name_chars).
  cbn [map] in Hnd. apply NoDup_cons in Hnd as [Hnotin Hnd].
  apply elem_of_cons in Hc as [->|Hc].
  - rewrite bool_decide_true, Hdec by done. unfold null_if_empty. simpl. by rewrite bool_decide_false.
  - rewrite bool_decide_false; [by apply IH|]. intros Heq. apply Hnotin. rewrite Heq.
    apply list_elem_of_In, in_map. by apply list_elem_of_In.
Qed.

(** Every session cookie the gateway set comes back as the token it was set
    with, whichever other session cookies the user agent sends along and in
    whatever order. *)
Theorem session_cookies_roundtrip cs c req :
  NoDup (map cookie_name cs) → c ∈ cs → Forall cookie_ok cs →
  rq_cookie req = Some (cookie_line (map (λ c, stored_cookie (set_cookie c)) cs)) →
  readCookie req (cookie_name c) = Some (ck_token c).
Proof.
  intros Hnd Hc Hok Hreq. unfold readCookie. rewrite Hreq. simpl coalesce.
  destruct cs as [|x cs]; [by apply not_elem_of_nil in Hc|]. rewrite map_cons.
  assert (Forall (λ x, free_of ";"%char x = true) (map (λ c, stored_cookie (set_cookie c)) (x :: cs))) as Hfree.
  { apply Forall_map, (Forall_impl _ _ _ Hok). intros y (_ & Hch & _). simpl. rewrite stored_set_cookie by done.
    destruct (token_free _ Hch) as (Hf & _). destruct (token_free _ (cookie_name_chars y)) as (Hn & _).
    unfold free_of in *. by rewrite !all_chars_app, Hn, Hf. }
  rewrite map_cons in Hfree.
  match goal with |- find_cookie _ (split_on _ ?line) = _ => change line with ("" +:+ line) end.
  rewrite split_line, map_map by done.
  pose proof Hok as [(Hne & Hch & Hdec) Hok']%Forall_cons. cbn [map] in Hnd. apply NoDup_cons in Hnd as [Hnotin Hnd].
  rewrite stored_set_cookie, find_cookie_cons by (done || apply cookie_name_chars).
  apply elem_of_cons in Hc as [->|Hc].
  - rewrite bool_decide_true, Hdec by done. unfold null_if_empty. simpl. by rewrite bool_decide_false.
  - rewrite bool_decide_false; [by apply find_cookie_lines|]. intros Heq. apply Hnotin. rewrite Heq.
    apply list_elem_of_In, in_map. by apply list_elem_of_In.
Qed.
End cookies.
