(* ===== verification/RateLimit.v ===== *)
(** * RateLimit: the shared authentication and upgrade limiter

    [src/lib/auth-rate-limit.ts] and [src/lib/ws-rate-limit.ts]: one row per
    key in [auth_rate_limits]. A reservation reads the database clock, creates
    the row when there is none, locks it, and either refuses while the row's
    lock is in the future or counts the attempt and sets the next lock. The
    clock is read before the row lock is taken, so the reservations of one key
    may be applied out of clock order. [isIP] is an argument. *)

From Stdlib Require Import Ascii.
From S2P Require Import Prelude.

(** ** Curves *)

Definition AUTH_RATE_WINDOW_MS : Z := 15 * 60 * 1000.
Definition PAIRING_RATE_WINDOW_MS : Z := 15 * 60 * 1000.
Definition AUTH_RATE_RETENTION_MS : Z := 24 * 60 * 60 * 1000.

Definition ACCOUNT_LOCK_THRESHOLDS : list Z := [5; 10; 15; 20].
Definition IP_LOCK_THRESHOLDS : list Z := [20; 30; 40; 50].
Definition LOCK_DURATIONS_MS : list Z := [0; 30000; 5 * 60000; 15 * 60000; 60 * 60000].

Inductive RateLimitCurve : Type := account_curve | ip_curve.

Definition thresholdsFor (curve : RateLimitCurve) : list Z :=
  match curve with ip_curve => IP_LOCK_THRESHOLDS | account_curve => ACCOUNT_LOCK_THRESHOLDS end.

(** The first threshold above the count gives the duration; the last duration
    is for counts past them all. *)
Fixpoint scan_thresholds (thresholds durations : list Z) (failures : Z) : Z :=
  match thresholds, durations with
  | t :: ts, d :: ds => if failures <? t then d else scan_thresholds ts ds failures
  | _, _ => List.last LOCK_DURATIONS_MS 0
  end.

Definition lockDurationFor (curve : RateLimitCurve) (failures : Z) : Z :=
  scan_thresholds (thresholdsFor curve) LOCK_DURATIONS_MS failures.

Definition activeLimitFor (failures : Z) (curve : RateLimitCurve) : Z :=
  match List.find (λ threshold, failures <=? threshold) (thresholdsFor curve) with
  | Some t => t
  | None => List.last (thresholdsFor curve) 0
  end.

(** ** Keys *)

Section keys.
Context (isIP : string → bool).

(** [candidates] from the last to the first, the proxy's own header last. *)
Definition clientIpFrom (trustProxy : bool) (x_forwarded_for x_real_ip : option string) : string :=
  if negb trustProxy then "unknown"
  else
    let candidates := match x_forwarded_for with Some h => split_on ","%char h | None => [] end
                      ++ [match x_real_ip with Some h => h | None => "" end] in
    match List.find (λ ip, (ip != "") && isIP ip) (map trim (reverse candidates)) with
    | Some ip => slice0 128 ip
    | None => "unknown"
    end.

Definition accountKey (username : string) : string := "acct:" +:+ slice0 128 (toLowerCase (trim username)).
Definition ipKey (ip : string) : string := "ip:" +:+ slice0 128 ip.
Definition pairingIpKey (ip : string) : string := "pairing-ip:" +:+ slice0 128 ip.
Definition pairingCodeKey (codeHash : string) : string := "pairing-code:" +:+ codeHash.
Definition wsKey (key : string) : string := "ws-upgrade:" +:+ key.

(** [keys] after [sort()]: an account key sorts before an address key. *)
Definition auth_keys (ip username : string) : list string :=
  accountKey username :: (if isIP ip then [ipKey ip] else []).

Definition curve_of (key : string) : RateLimitCurve :=
  if startsWith key "ip:" then ip_curve else account_curve.
End keys.

(** ** Rows and decisions *)

Record bucket := {
  bk_failures : Z;
  bk_windowStartedAt : Z;
  bk_lockedUntil : option Z;
  bk_updatedAt : Z;
}.

Abbreviation limits := (gmap string bucket).

Record RateLimitBucketSnapshot := {
  sn_limit : Z;
  sn_remaining : Z;
  sn_resetAtMs : Z;
  sn_lockedUntilMs : option Z;
}.

Record RateLimitDecision := {
  rd_allowed : bool;
  rd_retryAfterSec : option Z;
  rd_limit : Z;
  rd_remaining : Z;
  rd_resetAtEpochSec : Z;
}.

(** [lockedUntilMs !== null && lockedUntilMs > nowMs], as the lock's end. *)
Definition active_lock (lockedUntilMs : option Z) (nowMs : Z) : option Z :=
  match lockedUntilMs with Some l => if nowMs <? l then Some l else None | None => None end.

Definition snapshotBucket (failures windowStartMs : Z) (lockedUntilMs : option Z) (nowMs windowMs : Z)
    (curve : RateLimitCurve) : RateLimitBucketSnapshot :=
  let activeLock := active_lock lockedUntilMs nowMs in
  let limit := activeLimitFor failures curve in {|
  sn_limit := limit;
  sn_remaining := if is_some activeLock then 0 else Z.max 0 (limit - failures);
  sn_resetAtMs := match activeLock with Some l => l | None => windowStartMs + windowMs end;
  sn_lockedUntilMs := activeLock |}.

(** [remaining / limit] of one below the other; a limit of 0 counts as 0. The
    products are exact where the source divides. *)
Definition ratio_below (a b : RateLimitBucketSnapshot) : bool :=
  let num s := if 0 <? sn_limit s then sn_remaining s else 0 in
  let den s := if 0 <? sn_limit s then sn_limit s else 1 in
  num a * den b <? num b * den a.

(** [reduce] without a seed throws on an empty array. *)
Definition effectiveSnapshot (snapshots : list RateLimitBucketSnapshot) : option RateLimitBucketSnapshot :=
  match snapshots with
  | [] => None
  | s :: ss => Some (fold_left (λ best current, if ratio_below current best then current else best) ss s)
  end.

(** [Math.max(...locks)] of the locked snapshots, and the snapshot that has
    it; there is none when nothing is locked. *)
Definition latest_lock (snapshots : list RateLimitBucketSnapshot) : option (Z * RateLimitBucketSnapshot) :=
  let locked := List.filter (λ s, is_some (sn_lockedUntilMs s)) snapshots in
  match locked with
  | [] => None
  | s0 :: _ =>
      let ends := omap sn_lockedUntilMs locked in
      let latest := fold_left Z.max ends (coalesce (sn_lockedUntilMs s0) 0) in
      Some (latest, coalesce (List.find (λ s, sn_resetAtMs s =? latest) locked) s0)
  end.

Definition locked_decision (allowed : bool) (nowMs : Z) (ll : Z * RateLimitBucketSnapshot)
    : RateLimitDecision := {|
  rd_allowed := allowed; rd_retryAfterSec := Some (Z.max 1 (ceil_seconds (ll.1 - nowMs)));
  rd_limit := sn_limit ll.2; rd_remaining := 0; rd_resetAtEpochSec := ceil_seconds ll.1 |}.

(** [None] is the [TypeError] of [locked[0]!.limit] on an empty array. *)
Definition blockedDecision (snapshots : list RateLimitBucketSnapshot) (nowMs : Z) : option RateLimitDecision :=
  locked_decision false nowMs <$> latest_lock snapshots.

Definition allowedDecision (snapshots : list RateLimitBucketSnapshot) (nowMs : Z) : option RateLimitDecision :=
  match latest_lock snapshots with
  | Some ll => Some (locked_decision true nowMs ll)
  | None =>
      snapshot ← effectiveSnapshot snapshots;
      Some {| rd_allowed := true; rd_retryAfterSec := None; rd_limit := sn_limit snapshot;
              rd_remaining := sn_remaining snapshot; rd_resetAtEpochSec := ceil_seconds (sn_resetAtMs snapshot) |}
  end.

(** ** Reservations *)

(** [INSERT ... VALUES (key, 0, now, NULL, now) ON CONFLICT DO NOTHING]. *)
Definition fresh_bucket (nowMs : Z) : bucket := {|
  bk_failures := 0; bk_windowStartedAt := nowMs; bk_lockedUntil := None; bk_updatedAt := nowMs |}.

Definition insert_absent (nowMs : Z) (L : limits) (key : string) : limits :=
  match L !! key with Some _ => L | None => <[key := fresh_bucket nowMs]> L end.

(** The [UPDATE] that counts one attempt. *)
Definition count_attempt (lock : Z → Z) (windowMs nowMs : Z) (b : bucket) : bucket :=
  let windowExpired := bk_windowStartedAt b <? nowMs - windowMs in
  let attempts := if windowExpired then 1 else bk_failures b + 1 in
  let lockMs := lock attempts in {|
  bk_failures := attempts;
  bk_windowStartedAt := if windowExpired then nowMs else bk_windowStartedAt b;
  bk_lockedUntil := if 0 <? lockMs then Some (nowMs + lockMs) else None;
  bk_updatedAt := nowMs |}.

Definition bucket_snapshot (nowMs windowMs : Z) (curve : RateLimitCurve) (b : bucket)
    : RateLimitBucketSnapshot :=
  snapshotBucket (bk_failures b) (bk_windowStartedAt b) (bk_lockedUntil b) nowMs windowMs curve.

Definition is_locked (nowMs : Z) (b : bucket) : bool := is_some (active_lock (bk_lockedUntil b) nowMs).

Definition reserveBucketAttempt (key : string) (windowMs : Z) (curve : RateLimitCurve) (nowMs : Z)
    (L : limits) : option RateLimitDecision * limits :=
  let L1 := insert_absent nowMs L key in
  let row := coalesce (L1 !! key) (fresh_bucket nowMs) in
  if is_locked nowMs row
  then (blockedDecision [bucket_snapshot nowMs windowMs curve row] nowMs, L1)
  else
    let row' := count_attempt (lockDurationFor curve) windowMs nowMs row in
    (allowedDecision [bucket_snapshot nowMs windowMs curve row'] nowMs, <[key := row']> L1).

Section reservations.
Context (isIP : string → bool).

(** An address that is not one is not limited here; [appNow] is the
    process's clock. *)
Definition reservePairingAttempt (ip : string) (appNow nowMs : Z) (L : limits)
    : option RateLimitDecision * limits :=
  if negb (isIP ip)
  then (Some {| rd_allowed := true; rd_retryAfterSec := None; rd_limit := 0; rd_remaining := 0;
                rd_resetAtEpochSec := ceil_seconds appNow + ceil_seconds PAIRING_RATE_WINDOW_MS |}, L)
  else reserveBucketAttempt (pairingIpKey ip) PAIRING_RATE_WINDOW_MS account_curve nowMs L.

(** [None] is the error for a hash that is not one. *)
Definition reservePairingCodeAttempt (codeHash : string) (nowMs : Z) (L : limits)
    : option RateLimitDecision * limits :=
  if negb (hex_string 64 codeHash) then (None, L)
  else reserveBucketAttempt (pairingCodeKey codeHash) PAIRING_RATE_WINDOW_MS account_curve nowMs L.

Definition reserveAuthAttempt (ip username : string) (nowMs : Z) (L : limits)
    : option RateLimitDecision * limits :=
  let keys := auth_keys isIP ip username in
  let L1 := fold_left (insert_absent nowMs) keys L in
  let rows := omap (λ key, pair key <$> L1 !! key) keys in
  let snapshots (rows : list (string * bucket)) :=
    map (λ kb, bucket_snapshot nowMs AUTH_RATE_WINDOW_MS (curve_of kb.1) kb.2) rows in
  if existsb (λ kb, is_locked nowMs kb.2) rows
  then (blockedDecision (List.filter (λ s, is_some (sn_lockedUntilMs s)) (snapshots rows)) nowMs, L1)
  else
    let rows' := map (λ kb, (kb.1, count_attempt (lockDurationFor (curve_of kb.1)) AUTH_RATE_WINDOW_MS
                                     nowMs kb.2)) rows in
    (allowedDecision (snapshots rows') nowMs, fold_left (λ L kb, <[kb.1 := kb.2]> L) rows' L1).

Definition recordAuthSuccess (ip username : string) (L : limits) : limits :=
  fold_left (λ L key, delete key L) (auth_keys isIP ip username) L.
End reservations.

Definition recordPairingSuccess (ip : string) (L : limits) : limits := delete (pairingIpKey ip) L.

Definition cleanupAuthRateLimits (nowMs : Z) (L : limits) : nat * limits :=
  let gone := filter (λ kb : string * bucket, bk_updatedAt kb.2 < nowMs - AUTH_RATE_RETENTION_MS) L in
  (size gone, L ∖ gone).

(** ** The upgrade limiter *)

Definition WINDOW_MS : Z := 60000.
Definition MAX_FAILURES : Z := 20.
Definition LOCK_MS : Z := 60000.

Definition ws_lock (failures : Z) : Z := if MAX_FAILURES <=? failures then LOCK_MS else 0.

(** [{ allowed, retryAfterSec? }]. *)
Definition reserveWsUpgradeAttempt (key : string) (nowMs : Z) (L : limits)
    : (bool * option Z) * limits :=
  let bucketKey := wsKey key in
  let L1 := insert_absent nowMs L bucketKey in
  match L1 !! bucketKey with
  | None => ((true, None), L1)
  | Some row =>
      let existingLock := coalesce (bk_lockedUntil row) 0 in
      if nowMs <? existingLock
      then ((false, Some (Z.max 1 (ceil_seconds (existingLock - nowMs)))), L1)
      else
        let row' := count_attempt ws_lock WINDOW_MS nowMs row in
        ((true, match bk_lockedUntil row' with
                | Some l => Some (Z.max 1 (ceil_seconds (l - nowMs)))
                | None => None
                end), <[bucketKey := row']> L1)
  end.

Definition recordWsUpgradeSuccess (key : string) (L : limits) : limits := delete (wsKey key) L.

(** ** Decisions are always made *)

Lemma latest_lock_some s ss : In s ss → is_some (sn_lockedUntilMs s) = true → is_some (latest_lock ss) = true.
Proof.
  intros Hin Hs. unfold latest_lock.
  assert (In s (List.filter (λ s, is_some (sn_lockedUntilMs s)) ss)) as Hf by (by apply filter_In).
  by destruct (List.filter _ ss).
Qed.

Lemma allowedDecision_total s ss nowMs : ∃ d, allowedDecision (s :: ss) nowMs = Some d ∧ rd_allowed d = true.
Proof. unfold allowedDecision. destruct (latest_lock _); by eexists. Qed.

Lemma blockedDecision_total s ss nowMs :
  In s ss → is_some (sn_lockedUntilMs s) = true →
  ∃ d, blockedDecision ss nowMs = Some d ∧ rd_allowed d = false.
Proof.
  intros Hin Hs. pose proof (latest_lock_some s ss Hin Hs). unfold blockedDecision.
  destruct (latest_lock ss); [by eexists|done].
Qed.

Lemma snapshot_locked nowMs windowMs curve b :
  is_some (sn_lockedUntilMs (bucket_snapshot nowMs windowMs curve b)) = is_locked nowMs b.
Proof. done. Qed.

(** ** One key at a time *)

Definition lock_of (key : string) : Z → Z :=
  if startsWith key "ws-upgrade:" then ws_lock else lockDurationFor (curve_of key).

Definition window_of (key : string) : Z :=
  if startsWith key "ws-upgrade:" then WINDOW_MS else AUTH_RATE_WINDOW_MS.

(** What one event may do to one row, and whether it is a granted attempt. *)
Inductive row_step (key : string) (nowMs : Z) : bool → option bucket → option bucket → Prop :=
| rs_same o : row_step key nowMs false o o
| rs_touch : row_step key nowMs false None (Some (fresh_bucket nowMs))
| rs_count o b :
    b = coalesce o (fresh_bucket nowMs) → is_locked nowMs b = false →
    row_step key nowMs true o (Some (count_attempt (lock_of key) (window_of key) nowMs b))
| rs_expire b :
    bk_updatedAt b < nowMs - AUTH_RATE_RETENTION_MS → row_step key nowMs false (Some b) None.

Inductive rate_event : Type :=
| ev_auth (ip username : string)
| ev_pairing (ip : string) (appNow : Z)
| ev_pairing_code (codeHash : string)
| ev_ws (key : string)
| ev_auth_success (ip username : string)
| ev_pairing_success (ip : string)
| ev_ws_success (key : string)
| ev_cleanup.

Definition decided (d : option RateLimitDecision) : bool :=
  match d with Some d => rd_allowed d | None => false end.

Section events.
Context (isIP : string → bool).

(** The table after an event. *)
Definition apply_event (nowMs : Z) (e : rate_event) (L : limits) : limits :=
  match e with
  | ev_auth ip username => (reserveAuthAttempt isIP ip username nowMs L).2
  | ev_pairing ip appNow => (reservePairingAttempt isIP ip appNow nowMs L).2
  | ev_pairing_code h => (reservePairingCodeAttempt h nowMs L).2
  | ev_ws key => (reserveWsUpgradeAttempt key nowMs L).2
  | ev_auth_success ip username => recordAuthSuccess isIP ip username L
  | ev_pairing_success ip => recordPairingSuccess ip L
  | ev_ws_success key => recordWsUpgradeSuccess key L
  | ev_cleanup => (cleanupAuthRateLimits nowMs L).2
  end.

(** Whether the caller was let through on account of this key. *)
Definition granted (nowMs : Z) (e : rate_event) (L : limits) (k : string) : bool :=
  match e with
  | ev_auth ip username =>
      decided (reserveAuthAttempt isIP ip username nowMs L).1 && bool_decide (k ∈ auth_keys isIP ip username)
  | ev_pairing ip appNow =>
      isIP ip && decided (reservePairingAttempt isIP ip appNow nowMs L).1 && (k == pairingIpKey ip)
  | ev_pairing_code h => decided (reservePairingCodeAttempt h nowMs L).1 && (k == pairingCodeKey h)
  | ev_ws key => (reserveWsUpgradeAttempt key nowMs L).1.1 && (k == wsKey key)
  | _ => false
  end.

(** A recorded success forgets the key. *)
Definition clears (e : rate_event) (k : string) : bool :=
  match e with
  | ev_auth_success ip username => bool_decide (k ∈ auth_keys isIP ip username)
  | ev_pairing_success ip => k == pairingIpKey ip
  | ev_ws_success key => k == wsKey key
  | _ => false
  end.

Lemma lookup_insert_absent nowMs L key k :
  insert_absent nowMs L key !! k =
  if bool_decide (k = key) then Some (coalesce (L !! k) (fresh_bucket nowMs)) else L !! k.
Proof.
  unfold insert_absent. destruct (bool_decide (k = key)) eqn:E.
  - apply bool_decide_eq_true in E as ->. destruct (L !! key) as [b|] eqn:Hb; [done|].
    by rewrite lookup_insert_eq.
  - apply bool_decide_eq_false in E. destruct (L !! key); [done|]. by rewrite lookup_insert_ne.
Qed.

Lemma lookup_insert_all nowMs keys L k :
  fold_left (insert_absent nowMs) keys L !! k =
  if bool_decide (k ∈ keys) then Some (coalesce (L !! k) (fresh_bucket nowMs)) else L !! k.
Proof.
  revert L. induction keys as [|key keys IH]; intros L; [done|]. simpl.
  rewrite IH, lookup_insert_absent. destruct (decide (k = key)) as [->|Hne].
  - rewrite (bool_decide_true (key = key)) by done. rewrite (bool_decide_true (key ∈ key :: keys)) by set_solver.
    by destruct (bool_decide _).
  - rewrite (bool_decide_false (k = key)) by done.
    by rewrite (bool_decide_ext (k ∈ key :: keys) (k ∈ keys)) by set_solver.
Qed.

Lemma lookup_insert_rows (f : string → bucket) keys (L : limits) k :
  fold_left (λ (L : limits) kb, <[kb.1 := kb.2]> L) (map (λ key, (key, f key)) keys) L !! k =
  if bool_decide (k ∈ keys) then Some (f k) else L !! k.
Proof.
  revert L. induction keys as [|key keys IH]; intros L; [done|]. simpl. rewrite IH.
  destruct (decide (k = key)) as [->|Hne].
  - rewrite lookup_insert_eq, (bool_decide_true (key ∈ key :: keys)) by set_solver. by destruct (bool_decide _).
  - rewrite lookup_insert_ne by done.
    by rewrite (bool_decide_ext (k ∈ key :: keys) (k ∈ keys)) by set_solver.
Qed.

Lemma auth_rows nowMs keys (L : limits) :
  omap (λ key, pair key <$> fold_left (insert_absent nowMs) keys L !! key) keys =
  map (λ key, (key, coalesce (L !! key) (fresh_bucket nowMs))) keys.
Proof.
  assert (∀ ks, (∀ k, k ∈ ks → k ∈ keys) →
    omap (λ key, pair key <$> fold_left (insert_absent nowMs) keys L !! key) ks =
    map (λ key, (key, coalesce (L !! key) (fresh_bucket nowMs))) ks) as H; [|by apply H].
  induction ks as [|key ks IH]; intros Hks; [done|]. simpl.
  rewrite lookup_insert_all, bool_decide_true by (apply Hks; set_solver). simpl.
  f_equal. apply IH. intros. apply Hks. set_solver.
Qed.

(** A key of its own kind has the curve and window the code uses for it. *)
Lemma key_kinds s :
  (lock_of (pairingIpKey s) = lockDurationFor account_curve ∧ window_of (pairingIpKey s) = PAIRING_RATE_WINDOW_MS) ∧
  (lock_of (pairingCodeKey s) = lockDurationFor account_curve ∧ window_of (pairingCodeKey s) = PAIRING_RATE_WINDOW_MS) ∧
  (lock_of (wsKey s) = ws_lock ∧ window_of (wsKey s) = WINDOW_MS) ∧
  (lock_of (accountKey s) = lockDurationFor account_curve ∧ lock_of (ipKey s) = lockDurationFor ip_curve).
Proof.
  unfold lock_of, window_of, curve_of, startsWith, wsKey, ipKey. rewrite !prefix_app_self.
  split_and!; reflexivity.
Qed.

Lemma auth_key_kind ip username k :
  k ∈ auth_keys isIP ip username →
  lock_of k = lockDurationFor (curve_of k) ∧ window_of k = AUTH_RATE_WINDOW_MS.
Proof.
  unfold auth_keys. intros [->|Hk]%elem_of_cons; [split; reflexivity|].
  destruct (isIP ip); [|set_solver]. apply list_elem_of_singleton in Hk as ->. split; reflexivity.
Qed.

Lemma bucket_row key windowMs curve nowMs L k :
  lock_of key = lockDurationFor curve → window_of key = windowMs →
  row_step k nowMs (decided (reserveBucketAttempt key windowMs curve nowMs L).1 && (k == key))
    (L !! k) ((reserveBucketAttempt key windowMs curve nowMs L).2 !! k).
Proof.
  intros Hlock Hwin. unfold reserveBucketAttempt. cbv zeta.
  rewrite (lookup_insert_absent nowMs L key key), bool_decide_true by done.
  assert (∀ x y : bucket, coalesce (Some x) y = x) as -> by done.
  set (row := coalesce (L !! key) (fresh_bucket nowMs)). destruct (is_locked nowMs row) eqn:Hl.
  - destruct (blockedDecision_total (bucket_snapshot nowMs windowMs curve row)
      [bucket_snapshot nowMs windowMs curve row] nowMs) as (d & -> & Hd); [by left|done|].
    simpl. rewrite Hd, lookup_insert_absent. simpl. destruct (bool_decide (k = key)) eqn:E; [|apply rs_same].
    destruct (L !! k); [apply rs_same|apply rs_touch].
  - destruct (allowedDecision_total
      (bucket_snapshot nowMs windowMs curve (count_attempt (lockDurationFor curve) windowMs nowMs row)) [] nowMs)
      as (d & -> & Hd).
    simpl. rewrite Hd. simpl. destruct (decide (k = key)) as [->|Hne].
    + rewrite bool_decide_true, lookup_insert_eq by done. rewrite <-Hlock, <-Hwin. by apply rs_count.
    + rewrite bool_decide_false, lookup_insert_ne, lookup_insert_absent, bool_decide_false by done. apply rs_same.
Qed.

Lemma auth_row ip username nowMs L k :
  row_step k nowMs
    (decided (reserveAuthAttempt isIP ip username nowMs L).1 && bool_decide (k ∈ auth_keys isIP ip username))
    (L !! k) ((reserveAuthAttempt isIP ip username nowMs L).2 !! k).
Proof.
  unfold reserveAuthAttempt. cbv zeta. set (keys := auth_keys isIP ip username). rewrite auth_rows.
  set (row key := coalesce (L !! key) (fresh_bucket nowMs)).
  destruct (existsb _ _) eqn:Hex.
  - apply existsb_exists in Hex as ([k0 b] & Hin & Hl). simpl in Hl.
    match goal with |- context [blockedDecision ?ss nowMs] => set (snaps := ss) end.
    destruct (blockedDecision_total (bucket_snapshot nowMs AUTH_RATE_WINDOW_MS (curve_of k0) b) snaps nowMs)
      as (d & -> & Hd); [|done|].
    { apply filter_In. split; [|done]. by apply (in_map (λ kb, bucket_snapshot _ _ (curve_of kb.1) kb.2) _ (k0, b)). }
    cbn [fst snd decided]. rewrite Hd, lookup_insert_all. cbn [andb].
    destruct (bool_decide (k ∈ keys)); [|apply rs_same].
    destruct (L !! k); [apply rs_same|apply rs_touch].
  - rewrite !map_map. cbn [fst snd].
    rewrite (lookup_insert_rows (λ key, count_attempt (lockDurationFor (curve_of key)) AUTH_RATE_WINDOW_MS
      nowMs (row key))), lookup_insert_all.
    match goal with |- context [allowedDecision ?ss nowMs] =>
      assert (∃ d, allowedDecision ss nowMs = Some d ∧ rd_allowed d = true) as (d & -> & Hd)
        by apply allowedDecision_total end.
    cbn [decided]. rewrite Hd. cbn [andb]. destruct (bool_decide (k ∈ keys)) eqn:Hk; [|apply rs_same].
    apply bool_decide_eq_true in Hk. destruct (auth_key_kind _ _ _ Hk) as [<- <-]. apply rs_count; [done|].
    apply not_true_iff_false. intros Hlk. apply not_true_iff_false in Hex. apply Hex, existsb_exists.
    exists (k, row k). split; [|done]. apply (in_map (λ key, (key, row key))). by apply list_elem_of_In.
Qed.
Lemma ws_row key nowMs L k :
  0 ≤ nowMs →
  row_step k nowMs ((reserveWsUpgradeAttempt key nowMs L).1.1 && (k == wsKey key))
    (L !! k) ((reserveWsUpgradeAttempt key nowMs L).2 !! k).
Proof.
  intros Hnow. unfold reserveWsUpgradeAttempt. cbv zeta.
  rewrite (lookup_insert_absent nowMs L (wsKey key) (wsKey key)), bool_decide_true by done.
  set (row := coalesce (L !! wsKey key) (fresh_bucket nowMs)).
  assert (is_locked nowMs row = (nowMs <? coalesce (bk_lockedUntil row) 0)) as <-.
  { unfold is_locked, active_lock. destruct (bk_lockedUntil row) as [l|]; simpl.
    - by destruct (nowMs <? l).
    - symmetry. by apply Z.ltb_ge. }
  destruct (is_locked nowMs row) eqn:Hl; cbn [fst snd andb].
  - rewrite lookup_insert_absent. destruct (bool_decide (k = wsKey key)); [|apply rs_same].
    destruct (L !! k); [apply rs_same|apply rs_touch].
  - destruct (decide (k = wsKey key)) as [->|Hne].
    + rewrite bool_decide_true, lookup_insert_eq by done.
      destruct (key_kinds key) as (_ & _ & [<- <-] & _). by apply rs_count.
    + rewrite bool_decide_false, lookup_insert_ne, lookup_insert_absent, bool_decide_false by done. apply rs_same.
Qed.

Lemma cleanup_row nowMs L k : row_step k nowMs false (L !! k) ((cleanupAuthRateLimits nowMs L).2 !! k).
Proof.
  simpl. destruct (L !! k) as [b|] eqn:Hb.
  - destruct (decide (bk_updatedAt b < nowMs - AUTH_RATE_RETENTION_MS)) as [Hold|Hnew].
    + replace (_ !! k) with (@None bucket); [by apply rs_expire|]. symmetry.
      apply lookup_difference_None. right. exists b. by apply map_lookup_filter_Some.
    + replace (_ !! k) with (Some b); [apply rs_same|]. symmetry.
      apply lookup_difference_Some. split; [done|]. apply map_lookup_filter_None. right.
      intros b' Hb'. by replace b' with b by congruence.
  - replace (_ !! k) with (@None bucket); [apply rs_same|]. symmetry. apply lookup_difference_None. by left.
Qed.

Lemma lookup_delete_keys keys (L : limits) k :
  k ∉ keys → fold_left (λ (L : limits) key, delete key L) keys L !! k = L !! k.
Proof.
  revert L. induction keys as [|key keys IH]; intros L Hk; [done|]. simpl.
  rewrite IH by set_solver. apply lookup_delete_ne. set_solver.
Qed.

(** Every event is a step of each row it does not forget. *)
Lemma event_row nowMs e L k :
  0 ≤ nowMs → clears e k = false →
  row_step k nowMs (granted nowMs e L k) (L !! k) (apply_event nowMs e L !! k).
Proof.
  intros Hnow Hc. destruct e as [ip u|ip app|h|key|ip u|ip|key|]; simpl in Hc |- *.
  - apply auth_row.
  - unfold reservePairingAttempt. destruct (isIP ip); simpl; [|apply rs_same].
    apply bucket_row; apply (key_kinds ip).
  - unfold reservePairingCodeAttempt. destruct (hex_string 64 h); simpl; [|apply rs_same].
    apply bucket_row; apply (key_kinds h).
  - by apply ws_row.
  - unfold recordAuthSuccess. apply bool_decide_eq_false in Hc. rewrite lookup_delete_keys by done. apply rs_same.
  - unfold recordPairingSuccess. apply bool_decide_eq_false in Hc. rewrite lookup_delete_ne by done. apply rs_same.
  - unfold recordWsUpgradeSuccess. apply bool_decide_eq_false in Hc. rewrite lookup_delete_ne by done. apply rs_same.
  - apply cleanup_row.
Qed.
End events.

(** ** The budget of a window *)

(** How far behind a later-applied reservation's clock may be: the time a
    transaction may wait between reading it and holding the row, which the
    pool's [lock_timeout] of 5 s for each of its statements keeps below this. *)
Definition CLOCK_SKEW_MS : Z := 30000.

(** The time the locks of the first [n] counts add up to. *)
Fixpoint spent_n (lock : Z → Z) (n : nat) : Z :=
  match n with O => 0 | S n => spent_n lock n + lock (Z.of_nat n) end.

Definition spent (lock : Z → Z) (n : Z) : Z := spent_n lock (Z.to_nat n).

(** A curve under which at most [bound] attempts fit in a window. *)
Class LockCurve (lock : Z → Z) (window bound : Z) : Prop := {
  lc_nonneg n : 0 ≤ lock n;
  lc_free n : 0 ≤ n → lock n = 0 → spent lock (n + 1) = 0;
  lc_window : 0 < window ≤ AUTH_RATE_WINDOW_MS;
  lc_bound : 0 ≤ bound ∧ window + CLOCK_SKEW_MS < spent lock (bound + 1);
}.

Lemma spent_n_le lock n m : (∀ i, 0 ≤ lock i) → (n ≤ m)%nat → spent_n lock n ≤ spent_n lock m.
Proof. intros Hn. induction 1 as [|m _ IH]; simpl; [lia|]. pose proof (Hn (Z.of_nat m)). lia. Qed.

Lemma spent_le lock n m : (∀ i, 0 ≤ lock i) → n ≤ m → spent lock n ≤ spent lock m.
Proof. intros Hn Hle. apply spent_n_le; [done|lia]. Qed.

Lemma spent_S lock n : 0 ≤ n → spent lock (n + 1) = spent lock n + lock n.
Proof.
  intros Hn. unfold spent. replace (Z.to_nat (n + 1)) with (S (Z.to_nat n)) by lia. simpl.
  by rewrite Z2Nat.id by lia.
Qed.

(** A curve is free exactly below its first threshold. *)
Lemma spent_free lock t :
  (∀ i, 0 ≤ lock i) → spent lock t = 0 → ∀ n, 0 ≤ n → n + 1 ≤ t → spent lock (n + 1) = 0.
Proof.
  intros Hn Ht n H0 Hle. pose proof (spent_le lock _ _ Hn Hle). pose proof (spent_le lock 0 (n + 1) Hn ltac:(lia)).
  change (spent lock 0) with 0 in *. lia.
Qed.

Lemma lockDurationFor_cases curve n :
  0 ≤ lockDurationFor curve n ∧
  (lockDurationFor curve n = 0 → n < match curve with account_curve => 5 | ip_curve => 20 end).
Proof.
  unfold lockDurationFor. destruct curve; simpl;
    repeat match goal with |- context [n <? ?t] => destruct (Z.ltb_spec n t) end; lia.
Qed.

Lemma ws_lock_cases n : 0 ≤ ws_lock n ∧ (ws_lock n = 0 → n < MAX_FAILURES).
Proof. unfold ws_lock, LOCK_MS. destruct (Z.leb_spec MAX_FAILURES n); lia. Qed.

#[export] Instance account_lock_curve : LockCurve (lockDurationFor account_curve) AUTH_RATE_WINDOW_MS 12.
Proof.
  split; [apply lockDurationFor_cases| |done|by vm_compute].
  intros n H0 Hz%lockDurationFor_cases. apply (spent_free _ 5); [apply lockDurationFor_cases|done|lia|lia].
Qed.

#[export] Instance ip_lock_curve : LockCurve (lockDurationFor ip_curve) AUTH_RATE_WINDOW_MS 32.
Proof.
  split; [apply lockDurationFor_cases| |done|by vm_compute].
  intros n H0 Hz%lockDurationFor_cases. apply (spent_free _ 20); [apply lockDurationFor_cases|done|lia|lia].
Qed.

#[export] Instance ws_lock_curve : LockCurve ws_lock WINDOW_MS 21.
Proof.
  split; [apply ws_lock_cases| |done|by vm_compute].
  intros n H0 Hz%ws_lock_cases. unfold MAX_FAILURES in Hz.
  apply (spent_free _ 20); [apply ws_lock_cases|done|lia|lia].
Qed.

(** The most attempts one window of a key admits. *)
Definition budget_of (key : string) : Z :=
  if startsWith key "ws-upgrade:" then 21
  else match curve_of key with ip_curve => 32 | account_curve => 12 end.

#[export] Instance key_lock_curve key : LockCurve (lock_of key) (window_of key) (budget_of key).
Proof.
  unfold lock_of, window_of, budget_of. destruct (startsWith key "ws-upgrade:"); [apply _|].
  destruct (curve_of key); apply _.
Qed.

Section budget.
Context (key : string).
Abbreviation lock := (lock_of key).
Abbreviation window := (window_of key).
Abbreviation bound := (budget_of key).

(** What the writes make of a row: its count is paid for by the time since the
    window opened, and its lock is the one the count calls for. *)
Record bucket_ok (b : bucket) : Prop := {
  bo_failures : 0 ≤ bk_failures b;
  bo_paid : bk_windowStartedAt b + spent lock (bk_failures b) - CLOCK_SKEW_MS ≤ bk_updatedAt b;
  bo_window : bk_updatedAt b ≤ bk_windowStartedAt b + window;
  bo_lock : bk_lockedUntil b =
    if 0 <? lock (bk_failures b) then Some (bk_updatedAt b + lock (bk_failures b)) else None;
}.

(** After [total] granted attempts since [t0], the latest clock being [hi]:
    full windows behind, and the one the row is in. *)
Definition budget_inv (t0 hi total : Z) (o : option bucket) : Prop :=
  match o with
  | None => ∃ w, 0 ≤ w ∧ total ≤ bound * w ∧ (w = 0 ∨ t0 + w * window ≤ hi - CLOCK_SKEW_MS)
  | Some b => bucket_ok b ∧ bk_windowStartedAt b ≤ hi ∧
      ∃ w, 0 ≤ w ∧ total ≤ bound * w + bk_failures b ∧ t0 + w * window ≤ bk_windowStartedAt b
  end.

Lemma bucket_budget b : bucket_ok b → bk_failures b ≤ bound.
Proof.
  intros [H0 Hp Hw _]. destruct (lc_bound (LockCurve := key_lock_curve key)) as [_ Hb].
  destruct (Z.le_gt_cases (bk_failures b) bound) as [|Hgt]; [done|].
  pose proof (spent_le lock (bound + 1) (bk_failures b) (lc_nonneg (LockCurve := key_lock_curve key)) ltac:(lia)).
  lia.
Qed.

Lemma fresh_ok nowMs : bucket_ok (fresh_bucket nowMs).
Proof.
  pose proof (lc_window (LockCurve := key_lock_curve key)).
  assert (lock 0 = 0) as H0.
  { unfold lock_of. destruct (startsWith _ _); [done|]. by destruct (curve_of key). }
  split; simpl; [done| |lia|by rewrite H0].
  change (spent lock 0) with 0. unfold CLOCK_SKEW_MS. lia.
Qed.

(** A granted attempt keeps the row in order. *)
Lemma count_ok nowMs hi b :
  bucket_ok b → bk_windowStartedAt b ≤ hi → hi - CLOCK_SKEW_MS ≤ nowMs → is_locked nowMs b = false →
  bucket_ok (count_attempt lock window nowMs b).
Proof.
  intros [H0 Hp Hw Hl] Hhi Hnow Hfree.
  pose proof (lc_window (LockCurve := key_lock_curve key)) as Hwin.
  pose proof (lc_nonneg (LockCurve := key_lock_curve key)) as Hnn.
  unfold count_attempt. destruct (bk_windowStartedAt b <? nowMs - window) eqn:Hexp.
  - split; simpl; [lia| |lia|done].
    assert (spent lock 1 = 0) as ->; [|unfold CLOCK_SKEW_MS; lia].
    change 1 with (0 + 1). apply (lc_free (LockCurve := key_lock_curve key)); [done|].
    pose proof (bo_lock _ (fresh_ok 0)) as E. simpl in E. pose proof (Hnn 0). destruct (0 <? lock 0) eqn:E0; [done|].
    apply Z.ltb_ge in E0. lia.
  - apply Z.ltb_ge in Hexp. split; simpl; [lia| |lia|done].
    destruct (Z.eq_dec (lock (bk_failures b)) 0) as [Hz|Hnz].
    + rewrite (lc_free (LockCurve := key_lock_curve key)) by done. lia.
    + rewrite spent_S by done. pose proof (Hnn (bk_failures b)).
      rewrite (proj2 (Z.ltb_lt _ _)) in Hl by lia. unfold is_locked, active_lock in Hfree. rewrite Hl in Hfree.
      destruct (nowMs <? _) eqn:E in Hfree; [done|]. apply Z.ltb_ge in E. lia.
Qed.

Lemma budget_step t0 hi total nowMs g o o' :
  t0 ≤ nowMs → hi - CLOCK_SKEW_MS ≤ nowMs → row_step key nowMs g o o' →
  budget_inv t0 hi total o → budget_inv t0 (Z.max hi nowMs) (total + if g then 1 else 0) o'.
Proof.
  intros Ht0 Hnow Hstep Hinv. pose proof (lc_window (LockCurve := key_lock_curve key)) as Hwin.
  destruct (lc_bound (LockCurve := key_lock_curve key)) as [Hb0 _].
  assert (budget_inv t0 hi total None → budget_inv t0 (Z.max hi nowMs) total (Some (fresh_bucket nowMs))) as Hfresh.
  { intros (w & Hw & Htot & Hcase). split; [apply fresh_ok|]. simpl. split; [lia|]. exists w. lia. }
  destruct Hstep as [o| |o b -> Hfree|b Hold]; rewrite ?Z.add_0_r.
  - destruct o as [b|]; [|by destruct Hinv as (w & ? & ? & ?); exists w; lia].
    destruct Hinv as (Hok & Hhi & w & ? & ? & ?). split; [done|]. split; [lia|]. exists w; lia.
  - by apply Hfresh.
  - assert (budget_inv t0 (Z.max hi nowMs) total (Some (coalesce o (fresh_bucket nowMs)))) as (Hok & Hhi & w & Hw & Htot & Hst).
    { destruct o as [b|]; [|by apply Hfresh]. destruct Hinv as (Hok & Hhi & w & ? & ? & ?).
      split; [done|]. simpl. split; [lia|]. exists w; lia. }
    set (b := coalesce o (fresh_bucket nowMs)) in *. pose proof (bucket_budget b Hok) as Hbb.
    assert (bucket_ok (count_attempt lock window nowMs b)) as Hok'.
    { destruct o as [b0|]; [|by apply (count_ok nowMs nowMs); [|simpl; lia|unfold CLOCK_SKEW_MS; lia|]].
      destruct Hinv as (_ & Hhi0 & _). by apply (count_ok nowMs hi). }
    split; [done|]. unfold count_attempt. simpl.
    destruct (bk_windowStartedAt b <? nowMs - window) eqn:Hexp.
    + apply Z.ltb_lt in Hexp. split; [lia|]. exists (w + 1). lia.
    + split; [lia|]. exists w. lia.
  - destruct Hinv as (Hok & Hhi & w & Hw & Htot & Hst). pose proof (bucket_budget b Hok).
    exists (w + 1). split_and!; [lia|lia|right]. destruct Hok as [Hf Hp _ _].
    pose proof (spent_le lock 0 (bk_failures b) (lc_nonneg (LockCurve := key_lock_curve key)) Hf) as Hs.
    change (spent lock 0) with 0 in Hs. unfold AUTH_RATE_RETENTION_MS, AUTH_RATE_WINDOW_MS, CLOCK_SKEW_MS in *. lia.
Qed.
End budget.

(** ** Runs *)

Section runs.
Context (isIP : string → bool).

Fixpoint run_events (evs : list (Z * rate_event)) (L : limits) : limits :=
  match evs with
  | [] => L
  | (nowMs, e) :: evs => run_events evs (apply_event isIP nowMs e L)
  end.

(** The attempts granted on account of [k]. *)
Fixpoint attempts (k : string) (evs : list (Z * rate_event)) (L : limits) : Z :=
  match evs with
  | [] => 0
  | (nowMs, e) :: evs =>
      (if granted isIP nowMs e L k then 1 else 0) + attempts k evs (apply_event isIP nowMs e L)
  end.

(** Clock readings between [t0] and [t1], in an order in which none is further
    behind the latest one so far than the skew. *)
Fixpoint clocks_ok (t0 t1 hi : Z) (evs : list (Z * rate_event)) : Prop :=
  match evs with
  | [] => True
  | (nowMs, _) :: evs => t0 ≤ nowMs ≤ t1 ∧ hi - CLOCK_SKEW_MS ≤ nowMs ∧ clocks_ok t0 t1 (Z.max hi nowMs) evs
  end.

Lemma run_budget k t0 t1 evs hi total L :
  0 ≤ t0 → hi ≤ t1 → clocks_ok t0 t1 hi evs → (∀ nowMs e, (nowMs, e) ∈ evs → clears isIP e k = false) →
  budget_inv k t0 hi total (L !! k) →
  ∃ hi', hi' ≤ t1 ∧ budget_inv k t0 hi' (total + attempts k evs L) (run_events evs L !! k).
Proof.
  intros H0. revert hi total L. induction evs as [|[nowMs e] evs IH]; intros hi total L Hhi Hck Hcl Hinv.
  - exists hi. simpl. by rewrite Z.add_0_r.
  - simpl in Hck |- *. destruct Hck as ([Ht0 Ht1] & Hskew & Hck).
    rewrite Z.add_assoc. apply (IH (Z.max hi nowMs)); [lia|done| |].
    + intros n x Hx. apply (Hcl n). apply elem_of_cons. by right.
    + eapply budget_step; [done|done| |exact Hinv]. apply event_row; [lia|]. apply (Hcl nowMs). apply elem_of_cons. by left.
Qed.

Lemma attempts_app k evs1 evs2 L :
  attempts k (evs1 ++ evs2) L = attempts k evs1 L + attempts k evs2 (run_events evs1 L).
Proof.
  revert L. induction evs1 as [|[nowMs e] evs1 IH]; intros L; [done|]. simpl. rewrite IH. lia.
Qed.

Lemma run_events_app evs1 evs2 L : run_events (evs1 ++ evs2) L = run_events evs2 (run_events evs1 L).
Proof. revert L. induction evs1 as [|[nowMs e] evs1 IH]; intros L; [done|]. simpl. by rewrite IH. Qed.

Lemma attempts_bounded k t0 t1 evs L :
  0 ≤ t0 ≤ t1 → L !! k = None → clocks_ok t0 t1 t0 evs →
  (∀ nowMs e, (nowMs, e) ∈ evs → clears isIP e k = false) →
  attempts k evs L ≤ budget_of k * (1 + (t1 - t0) / window_of k) ∧
  (∀ b, run_events evs L !! k = Some b → 0 ≤ bk_failures b ≤ budget_of k).
Proof.
  intros Ht Hnone Hck Hcl.
  destruct (run_budget k t0 t1 evs t0 0 L) as (hi & Hhi & Hinv); [lia|lia|done|done|rewrite Hnone; exists 0; lia|].
  pose proof (lc_window (LockCurve := key_lock_curve k)) as Hwin.
  destruct (lc_bound (LockCurve := key_lock_curve k)) as [Hb0 _].
  assert (∀ w, 0 ≤ w → w = 0 ∨ t0 + w * window_of k ≤ t1 → w ≤ (t1 - t0) / window_of k) as Hdiv.
  { intros w Hw [->|Hle]; [apply Z.div_pos; lia|]. apply Z.div_le_lower_bound; lia. }
  destruct (run_events evs L !! k) as [b|].
  - destruct Hinv as (Hok & Hst & w & Hw & Htot & Hle). pose proof (bucket_budget k b Hok) as Hb.
    specialize (Hdiv w Hw ltac:(right; lia)). split; [nia|].
    intros b' [= <-]. split; [by apply (bo_failures k)|done].
  - destruct Hinv as (w & Hw & Htot & Hcase). unfold CLOCK_SKEW_MS in Hcase.
    specialize (Hdiv w Hw ltac:(lia)). split; [nia|done].
Qed.

(** C36. Guessing is bounded: whatever mix of sign-ins, pairings, upgrades,
    cleanups and successes for other keys runs, in whatever interleaving the
    database clock allows, a key without a success of its own is granted at
    most [budget_of] attempts a window -- 12 in a quarter of an hour for an
    account, a pairing code or a pairing address, 32 for an address, 21 a
    minute for an upgrade key -- and its row never counts past that. *)
Theorem brute_force_bound k t0 t1 evs L :
  0 ≤ t0 ≤ t1 → L !! k = None → clocks_ok t0 t1 t0 evs →
  (∀ nowMs e, (nowMs, e) ∈ evs → clears isIP e k = false) →
  attempts k evs L ≤ budget_of k * (1 + (t1 - t0) / window_of k) ∧
  (∀ b, run_events evs L !! k = Some b → 0 ≤ bk_failures b ≤ budget_of k).
Proof. apply attempts_bounded. Qed.
End runs.

(** Thirty guesses a second apart: the first four are free, the fifth locks
    the account for half a minute. *)
Definition guesses : list (Z * rate_event) :=
  map (λ n, (Z.of_nat n * 1000, ev_auth "10.0.0.1" "Bob ")) (seq 0 30).

Lemma brute_force_bound_witness :
  attempts (λ _, true) (accountKey "bob") guesses ∅ = 5 ∧
  attempts (λ _, true) (accountKey "bob") guesses ∅ ≤ 12 * (1 + 29000 / AUTH_RATE_WINDOW_MS).
Proof.
  split; [vm_compute; reflexivity|].
  refine (proj1 (brute_force_bound (λ _, true) (accountKey "bob") 0 29000 guesses ∅ _ _ _ _)).
  - lia.
  - done.
  - vm_compute. repeat split; discriminate.
  - intros nowMs e (n & [= _ <-] & _)%list_elem_of_In%in_map_iff. done.
Defined.
