(* ===== verification/CircuitBreaker.v ===== *)
(** * CircuitBreaker: the database circuit breaker

    [src/lib/circuit-breaker.ts]. The class's private fields are a record;
    [execute] is split where it awaits, into the synchronous part before the
    call and the part that runs when the call settles, so that other calls may
    run in between. [Date.now()] is an argument of each part. *)

From S2P Require Import Prelude.

Inductive CircuitBreakerState : Type := closed | open | half_open.

#[export] Instance CircuitBreakerState_eq_dec : EqDecision CircuitBreakerState.
Proof. solve_decision. Defined.

Record CircuitBreakerOptions := {
  co_failureThreshold : Z;
  co_resetTimeoutMs : Z;
}.

Record CircuitBreaker := {
  cb_state : CircuitBreakerState;
  cb_failureCount : Z;
  cb_openedAt : Z;
  cb_halfOpenProbeInFlight : bool;
  cb_generation : Z;
}.

Inductive breaker_error : Type := BreakerOpen | ProbeInProgress.

(** A call that has been let through and has not settled: the locals of
    [execute] that live across the [await]. *)
Record call := {
  cl_isProbe : bool;
  cl_generation : Z;
}.

Definition new_breaker : CircuitBreaker := {|
  cb_state := closed; cb_failureCount := 0; cb_openedAt := 0; cb_halfOpenProbeInFlight := false;
  cb_generation := 0 |}.

Definition with_state (st : CircuitBreakerState) (b : CircuitBreaker) : CircuitBreaker := {|
  cb_state := st; cb_failureCount := cb_failureCount b; cb_openedAt := cb_openedAt b;
  cb_halfOpenProbeInFlight := cb_halfOpenProbeInFlight b; cb_generation := cb_generation b |}.

Definition with_probe (p : bool) (b : CircuitBreaker) : CircuitBreaker := {|
  cb_state := cb_state b; cb_failureCount := cb_failureCount b; cb_openedAt := cb_openedAt b;
  cb_halfOpenProbeInFlight := p; cb_generation := cb_generation b |}.

Section breaker.
Context (o : CircuitBreakerOptions).

(** The answer is the state it leaves. *)
Definition getState (now : Z) (b : CircuitBreaker) : CircuitBreaker :=
  if (cb_state b == open) && (co_resetTimeoutMs o <=? now - cb_openedAt b) then with_state half_open b else b.

(** [execute] up to [await fn()]. *)
Definition execute_start (now : Z) (b : CircuitBreaker) : result call breaker_error * CircuitBreaker :=
  let b := getState now b in
  match cb_state b with
  | open => (Err BreakerOpen, b)
  | half_open =>
      if cb_halfOpenProbeInFlight b then (Err ProbeInProgress, b)
      else (Ok {| cl_isProbe := true; cl_generation := cb_generation b |}, with_probe true b)
  | closed => (Ok {| cl_isProbe := false; cl_generation := cb_generation b |}, b)
  end.

Definition onSuccess (b : CircuitBreaker) : CircuitBreaker := {|
  cb_state := closed; cb_failureCount := 0; cb_openedAt := cb_openedAt b;
  cb_halfOpenProbeInFlight := false; cb_generation := cb_generation b |}.

Definition onFailure (now : Z) (b : CircuitBreaker) : CircuitBreaker :=
  let failureCount := cb_failureCount b + 1 in
  if co_failureThreshold o <=? failureCount
  then {| cb_state := open; cb_failureCount := failureCount; cb_openedAt := now;
          cb_halfOpenProbeInFlight := false; cb_generation := cb_generation b + 1 |}
  else {| cb_state := cb_state b; cb_failureCount := failureCount; cb_openedAt := cb_openedAt b;
          cb_halfOpenProbeInFlight := cb_halfOpenProbeInFlight b; cb_generation := cb_generation b |}.

(** [execute] from the settled call on: the handler, then [finally]. *)
Definition execute_settle (now : Z) (ok : bool) (c : call) (b : CircuitBreaker) : CircuitBreaker :=
  let b1 := if cl_generation c =? cb_generation b then (if ok then onSuccess b else onFailure now b) else b in
  if cl_isProbe c && (cl_generation c =? cb_generation b1) then with_probe false b1 else b1.

(** ** Interleaved calls *)

(** The breaker, the calls in flight, and the outcomes that were counted, the
    newest first. *)
Record world := {
  wd_breaker : CircuitBreaker;
  wd_inflight : list call;
  wd_counted : list bool;
}.

Inductive breaker_step : world → world → Prop :=
| bs_observe now b cs log :
    breaker_step {| wd_breaker := b; wd_inflight := cs; wd_counted := log |}
      {| wd_breaker := getState now b; wd_inflight := cs; wd_counted := log |}
| bs_admit now b cs log c b' :
    execute_start now b = (Ok c, b') →
    breaker_step {| wd_breaker := b; wd_inflight := cs; wd_counted := log |}
      {| wd_breaker := b'; wd_inflight := c :: cs; wd_counted := log |}
| bs_refuse now b cs log e b' :
    execute_start now b = (Err e, b') →
    breaker_step {| wd_breaker := b; wd_inflight := cs; wd_counted := log |}
      {| wd_breaker := b'; wd_inflight := cs; wd_counted := log |}
| bs_settle now ok b cs1 c cs2 log :
    breaker_step {| wd_breaker := b; wd_inflight := cs1 ++ c :: cs2; wd_counted := log |}
      {| wd_breaker := execute_settle now ok c b; wd_inflight := cs1 ++ cs2;
         wd_counted := if cl_generation c =? cb_generation b then ok :: log else log |}.

Definition fresh_world : world := {| wd_breaker := new_breaker; wd_inflight := []; wd_counted := [] |}.

(** The calls of the breaker's own generation. *)
Definition current (b : CircuitBreaker) (cs : list call) : list call :=
  List.filter (λ c, cl_generation c =? cb_generation b) cs.

#[local] Arguments current : simpl never.

(** The counted failures are the last ones, in a row. *)
Definition consecutive (b : CircuitBreaker) (log : list bool) : Prop :=
  0 ≤ cb_failureCount b ≤ Z.of_nat (length log) ∧
  Forall (λ ok, ok = false) (take (Z.to_nat (cb_failureCount b)) log).

Record breaker_ok (w : world) : Prop := {
  br_generations : Forall (λ c, cl_generation c ≤ cb_generation (wd_breaker w)) (wd_inflight w);
  br_consecutive : consecutive (wd_breaker w) (wd_counted w);
  br_state : match cb_state (wd_breaker w) with
    | closed => cb_failureCount (wd_breaker w) < co_failureThreshold o ∧
        cb_halfOpenProbeInFlight (wd_breaker w) = false ∧
        Forall (λ c, cl_isProbe c = false) (current (wd_breaker w) (wd_inflight w))
    | open => co_failureThreshold o ≤ cb_failureCount (wd_breaker w) ∧
        cb_halfOpenProbeInFlight (wd_breaker w) = false ∧ current (wd_breaker w) (wd_inflight w) = []
    | half_open => co_failureThreshold o ≤ cb_failureCount (wd_breaker w) ∧
        current (wd_breaker w) (wd_inflight w) =
          if cb_halfOpenProbeInFlight (wd_breaker w)
          then [{| cl_isProbe := true; cl_generation := cb_generation (wd_breaker w) |}] else []
    end;
}.

Lemma current_cons b c cs :
  current b (c :: cs) = if cl_generation c =? cb_generation b then c :: current b cs else current b cs.
Proof. done. Qed.

Lemma current_app b cs1 cs2 : current b (cs1 ++ cs2) = current b cs1 ++ current b cs2.
Proof. apply List.filter_app. Qed.

(** No call of a generation that has only just begun. *)
Lemma current_next b g cs :
  Forall (λ c, cl_generation c ≤ cb_generation b) cs → cb_generation b < cb_generation g → current g cs = [].
Proof.
  intros Hall Hlt. induction Hall as [|c cs Hc _ IH]; [done|]. rewrite current_cons, IH.
  by rewrite (proj2 (Z.eqb_neq _ _)) by lia.
Qed.

Lemma current_gen b b' cs : cb_generation b' = cb_generation b → current b' cs = current b cs.
Proof. unfold current. by intros ->. Qed.

Lemma observe_ok now b cs log :
  breaker_ok {| wd_breaker := b; wd_inflight := cs; wd_counted := log |} →
  breaker_ok {| wd_breaker := getState now b; wd_inflight := cs; wd_counted := log |}.
Proof.
  intros Hok. unfold getState. destruct (_ && _) eqn:E; [|done]. bools.
  destruct Hok as [Hg Hc Hs]. simpl in *. rewrite H in Hs. destruct Hs as (Ht & Hp & Hcur).
  split; [done|done|]. simpl. rewrite Hp. split; [done|]. by rewrite (current_gen b).
Qed.

Lemma admit_ok now b cs log c b' :
  breaker_ok {| wd_breaker := b; wd_inflight := cs; wd_counted := log |} →
  execute_start now b = (Ok c, b') →
  breaker_ok {| wd_breaker := b'; wd_inflight := c :: cs; wd_counted := log |}.
Proof.
  intros Hok%(observe_ok now). unfold execute_start. set (b1 := getState now b) in *.
  destruct Hok as [Hg Hc Hs]. simpl in *. destruct (cb_state b1) eqn:Hst; [|done|].
  - intros [= <- <-]. destruct Hs as (Ht & Hp & Hcur). split; simpl; [by constructor|done|].
    rewrite Hst, current_cons. simpl. rewrite Z.eqb_refl. split_and!; [done|done|by constructor].
  - destruct (cb_halfOpenProbeInFlight b1) eqn:Hp; [done|]. intros [= <- <-]. destruct Hs as [Ht Hcur].
    split; simpl; [by constructor|done|]. rewrite Hst. split; [done|].
    rewrite current_cons. simpl. by rewrite Z.eqb_refl, (current_gen b1), Hcur.
Qed.

Lemma refuse_ok now b cs log e b' :
  breaker_ok {| wd_breaker := b; wd_inflight := cs; wd_counted := log |} →
  execute_start now b = (Err e, b') →
  breaker_ok {| wd_breaker := b'; wd_inflight := cs; wd_counted := log |}.
Proof.
  intros Hok%(observe_ok now). unfold execute_start. set (b1 := getState now b) in *.
  destruct (cb_state b1) eqn:Hst; [done| |]; [by intros [= <- <-]|].
  destruct (cb_halfOpenProbeInFlight b1); [by intros [= <- <-]|done].
Qed.

Lemma settle_stale now ok c b : cl_generation c ≠ cb_generation b → execute_settle now ok c b = b.
Proof.
  intros Hne%Z.eqb_neq. unfold execute_settle. rewrite Hne, Hne. by rewrite andb_false_r.
Qed.

Lemma settle_success now c b : cl_generation c = cb_generation b → execute_settle now true c b = onSuccess b.
Proof.
  intros He%Z.eqb_eq. unfold execute_settle. rewrite He. simpl. rewrite He. by destruct (cl_isProbe c).
Qed.

(** A failure at the threshold opens a new generation, which the [finally]
    clause leaves alone; below it only a probe's flag is dropped. *)
Lemma settle_trip now c b :
  cl_generation c = cb_generation b → co_failureThreshold o ≤ cb_failureCount b + 1 →
  execute_settle now false c b =
  {| cb_state := open; cb_failureCount := cb_failureCount b + 1; cb_openedAt := now;
     cb_halfOpenProbeInFlight := false; cb_generation := cb_generation b + 1 |}.
Proof.
  intros He Ht. unfold execute_settle, onFailure.
  rewrite (proj2 (Z.eqb_eq _ _) He), (proj2 (Z.leb_le _ _) Ht). simpl.
  rewrite (proj2 (Z.eqb_neq _ _)) by lia. by rewrite andb_false_r.
Qed.

Lemma settle_count now c b :
  cl_generation c = cb_generation b → cl_isProbe c = false → cb_failureCount b + 1 < co_failureThreshold o →
  execute_settle now false c b =
  {| cb_state := cb_state b; cb_failureCount := cb_failureCount b + 1; cb_openedAt := cb_openedAt b;
     cb_halfOpenProbeInFlight := cb_halfOpenProbeInFlight b; cb_generation := cb_generation b |}.
Proof.
  intros He Hp Ht. unfold execute_settle, onFailure.
  by rewrite (proj2 (Z.eqb_eq _ _) He), (proj2 (Z.leb_gt _ _) Ht), Hp.
Qed.

Lemma consecutive_fail b b' log :
  consecutive b log → cb_failureCount b' = cb_failureCount b + 1 → consecutive b' (false :: log).
Proof.
  intros [Hn Hf] Hb'. unfold consecutive. rewrite Hb'. simpl length. split; [lia|].
  replace (Z.to_nat (cb_failureCount b + 1)) with (S (Z.to_nat (cb_failureCount b))) by lia. by constructor.
Qed.

(** What a settled call of the current generation was. *)
Lemma settled_call b cs1 c cs2 log :
  breaker_ok {| wd_breaker := b; wd_inflight := cs1 ++ c :: cs2; wd_counted := log |} →
  cl_generation c = cb_generation b →
  (cb_state b = closed ∧ cl_isProbe c = false ∧ cb_failureCount b < co_failureThreshold o ∧
     cb_halfOpenProbeInFlight b = false ∧ Forall (λ c, cl_isProbe c = false) (current b (cs1 ++ cs2))) ∨
  (cb_state b = half_open ∧ cl_isProbe c = true ∧ co_failureThreshold o ≤ cb_failureCount b ∧
     current b (cs1 ++ cs2) = []).
Proof.
  intros [_ _ Hs] He%Z.eqb_eq. simpl in Hs. rewrite !current_app, current_cons, He in *.
  destruct (cb_state b).
  - destruct Hs as (Ht & Hp & Hall). apply Forall_app in Hall as [H1 [H2 H3]%Forall_cons].
    left. split_and!; try done. by apply Forall_app.
  - destruct Hs as (_ & _ & Hnil). by destruct (current b cs1).
  - destruct Hs as [Ht Hcur]. right. destruct (cb_halfOpenProbeInFlight b); [|by destruct (current b cs1)].
    destruct (current b cs1) as [|x [|]]; try done. simpl in *. injection Hcur as -> ->. by split_and!.
Qed.

Lemma settle_ok now ok b cs1 c cs2 log :
  0 < co_failureThreshold o →
  breaker_ok {| wd_breaker := b; wd_inflight := cs1 ++ c :: cs2; wd_counted := log |} →
  breaker_ok {| wd_breaker := execute_settle now ok c b; wd_inflight := cs1 ++ cs2;
                wd_counted := if cl_generation c =? cb_generation b then ok :: log else log |}.
Proof.
  intros Hpos Hok. pose proof (settled_call _ _ _ _ _ Hok) as Hcall. destruct Hok as [Hg Hc Hs]. simpl in *.
  assert (Forall (λ c, cl_generation c ≤ cb_generation b) (cs1 ++ cs2)) as Hg'.
  { apply Forall_app in Hg as [? [_ ?]%Forall_cons]. by apply Forall_app. }
  destruct (cl_generation c =? cb_generation b) eqn:He.
  - apply Z.eqb_eq in He. specialize (Hcall He). destruct ok.
    + rewrite settle_success by done. split; simpl; [done|by split; simpl; [lia|constructor]|].
      split_and!; [done|done|]. rewrite (current_gen b) by done.
      destruct Hcall as [(_ & _ & _ & _ & ?)|(_ & _ & _ & ->)]; [done|constructor].
    + destruct (Z.le_gt_cases (co_failureThreshold o) (cb_failureCount b + 1)) as [Ht|Ht].
      * rewrite settle_trip by done. split; simpl;
          [by eapply Forall_impl; [exact Hg'|simpl; lia]|by eapply consecutive_fail|].
        split_and!; [done|done|]. eapply current_next; [exact Hg'|simpl; lia].
      * destruct Hcall as [(Hst & Hpr & Hlt & Hfl & Hall)|(_ & _ & ? & _)]; [|lia].
        rewrite settle_count by done. split; simpl; [done|by eapply consecutive_fail|].
        rewrite Hst, Hfl. split_and!; [lia|done|]. by rewrite (current_gen b).
  - apply Z.eqb_neq in He. rewrite settle_stale by done. split; simpl; [done|done|].
    rewrite current_app, current_cons, (proj2 (Z.eqb_neq _ _) He), <-current_app in Hs. done.
Qed.

Lemma breaker_reachable_ok w : 0 < co_failureThreshold o → rtc breaker_step fresh_world w → breaker_ok w.
Proof.
  intros Hpos Hs. remember fresh_world as w0 eqn:Hw0.
  assert (breaker_ok w0) as Hok.
  { subst. split; simpl; [constructor|split; [simpl; lia|constructor]|]. by split_and!; [| |constructor]. }
  clear Hw0. induction Hs as [|w1 w2 w3 H _ IH]; [done|]. apply IH. destruct H.
  - by apply observe_ok.
  - by eapply admit_ok.
  - by eapply refuse_ok.
  - by apply settle_ok.
Qed.
(** Whatever calls start and settle in whatever order: the breaker leaves
    [closed] only after at least [failureThreshold] counted failures in a row;
    while it is open and the timeout has not passed every call is refused and
    nothing changes; once it has passed exactly one probe is let through and
    every other call refused until the probe settles; and the probe's outcome
    alone decides -- success closes the breaker with a clean count, failure
    reopens it from now. A call that outlived its generation changes nothing. *)
Theorem breaker_contract w now :
  0 < co_failureThreshold o → rtc breaker_step fresh_world w →
  let b := wd_breaker w in
  (cb_state b ≠ closed → ∃ n, co_failureThreshold o ≤ Z.of_nat n ≤ Z.of_nat (length (wd_counted w)) ∧
     Forall (λ ok, ok = false) (take n (wd_counted w))) ∧
  (cb_state b = open → now - cb_openedAt b < co_resetTimeoutMs o →
     execute_start now b = (Err BreakerOpen, b)) ∧
  (cb_state b = open → co_resetTimeoutMs o ≤ now - cb_openedAt b →
     ∃ b', execute_start now b = (Ok {| cl_isProbe := true; cl_generation := cb_generation b |}, b') ∧
       ∀ later, execute_start later b' = (Err ProbeInProgress, b')) ∧
  (length (List.filter cl_isProbe (current b (wd_inflight w))) ≤ 1)%nat ∧
  (∀ c, c ∈ wd_inflight w → cl_isProbe c = true → cl_generation c = cb_generation b →
     execute_settle now true c b = onSuccess b ∧
     cb_state (execute_settle now false c b) = open ∧ cb_openedAt (execute_settle now false c b) = now) ∧
  (∀ c ok, cl_generation c ≠ cb_generation b → execute_settle now ok c b = b).
Proof.
  intros Hpos Hreach%breaker_reachable_ok b; [|done]. pose proof Hreach as [Hg [Hn Hf] Hs]. fold b in Hg, Hn, Hf, Hs.
  split_and!.
  - intros Hst. exists (Z.to_nat (cb_failureCount b)). split; [|done].
    assert (co_failureThreshold o ≤ cb_failureCount b); [|lia]. destruct (cb_state b); [done|apply Hs..].
  - intros Hst Hlt. unfold execute_start, getState. rewrite Hst, (proj2 (Z.leb_gt _ _)) by lia. simpl. by rewrite Hst.
  - intros Hst Hle. rewrite Hst in Hs. destruct Hs as (_ & Hp & _).
    exists (with_probe true (with_state half_open b)). split; [|done].
    unfold execute_start, getState. rewrite Hst, (proj2 (Z.leb_le _ _)) by lia. unfold b in *. simpl. by rewrite Hp.
  - destruct (cb_state b).
    + destruct Hs as (_ & _ & Hall). 
      induction Hall as [|c cs Hc _ IH]; simpl; [lia|by rewrite Hc].
    + destruct Hs as (_ & _ & ->). simpl. lia.
    + destruct Hs as [_ ->]. destruct (cb_halfOpenProbeInFlight b); simpl; lia.
  - intros c Hc Hp He. split; [by apply settle_success|].
    apply list_elem_of_split in Hc as (cs1 & cs2 & Hcs).
    destruct (settled_call b cs1 c cs2 (wd_counted w)) as [(_ & ? & _)|(_ & _ & Ht & _)]; [|done|congruence|].
    + unfold b. rewrite <-Hcs. by destruct w.
    + rewrite settle_trip by lia. done.
  - intros. by apply settle_stale.
Qed.
End breaker.

(** Two failures trip it; one call of the first generation is still out. *)
Definition tight : CircuitBreakerOptions := {| co_failureThreshold := 2; co_resetTimeoutMs := 1000 |}.

Definition first_call : call := {| cl_isProbe := false; cl_generation := 0 |}.

Definition tripped : CircuitBreaker := {|
  cb_state := open; cb_failureCount := 2; cb_openedAt := 50; cb_halfOpenProbeInFlight := false;
  cb_generation := 1 |}.

Lemma tripped_reachable :
  rtc (breaker_step tight) fresh_world
    {| wd_breaker := tripped; wd_inflight := [first_call]; wd_counted := [false; false] |}.
Proof.
  do 3 (eapply rtc_l; [by apply (bs_admit tight 10)|]).
  eapply rtc_l; [apply (bs_settle tight 40 false _ [] first_call [first_call; first_call])|].
  eapply rtc_l; [apply (bs_settle tight 50 false _ [] first_call [first_call])|]. apply rtc_refl.
Qed.

Lemma breaker_contract_witness :
  execute_start tight 60 tripped = (Err BreakerOpen, tripped) ∧
  execute_settle tight 60 true first_call tripped = tripped.
Proof.
  destruct (breaker_contract tight _ 60 ltac:(done) tripped_reachable) as (_ & Hopen & _ & _ & _ & Hstale).
  split; [by apply Hopen|by apply Hstale].
Defined.
