(* ===== verification/Pairing.v ===== *)
(** * Pairing: how an agent gets its secret, and how it proves it

    [src/app/api/agent/register/route.ts] ([POST]) and [src/lib/agent-auth.ts].
    SHA-256 and [isIP] are arguments, and so is the secret a call draws. The
    transaction first looks for the tenant without a lock and then locks the
    agent's row, so it takes the database as each of the two reads found it. *)

From Stdlib Require Import Ascii.
From S2P Require Import Prelude DatabaseTime JobStatus Json Schema Authority Availability Payload.
From S2P Require Import PrinterVirtual Capability Entitlements Samples JobProtocol JobDelivery.
From S2P Require Import JobMaintenance AgentJobs JobService Lifecycle RateLimit.

(** ** [agent-auth.ts] *)

Definition PAIRING_CODE_ALPHABET : string := "ABCDEFGHJKLMNPQRSTUVWXYZ23456789".
Definition PAIRING_CODE_LENGTH : Z := 6.

Fixpoint char_in (c : ascii) (s : string) : bool :=
  match s with EmptyString => false | String d s => bool_decide (c = d) || char_in c s end.

Definition isValidPairingCode (value : string) : bool :=
  let normalized := toUpperCase (trim value) in
  (strlen normalized =? PAIRING_CODE_LENGTH) && all_chars (λ c, char_in c PAIRING_CODE_ALPHABET) normalized.

(** [[A-Za-z0-9_-]]. *)
Definition base64url_char (c : ascii) : bool :=
  let n := nat_of_ascii c in
  ((48 <=? n) && (n <=? 57) || (65 <=? n) && (n <=? 90) || (97 <=? n) && (n <=? 122)
   || (n =? 95) || (n =? 45))%nat.

(** [/^agt_[A-Za-z0-9_-]{8}$/]. *)
Definition isValidAgentId (value : string) : bool :=
  startsWith value "agt_" && (strlen value =? 12) && all_chars base64url_char (String.substring 4 8 value).

Section auth.
Context (sha256 : string → string).

Definition hashSecret (secret : string) : string := sha256 secret.

Definition timingSafeStringEqual (a b : string) : bool := sha256 a == sha256 b.

(** [token.indexOf(":")], as the two slices around it. *)
Fixpoint cut_colon (s : string) : option (string * string) :=
  match s with
  | EmptyString => None
  | String c s => if bool_decide (c = ":"%char) then Some (EmptyString, s)
                  else prod_map (String c) id <$> cut_colon s
  end.

Definition validateAgent (d : db) (authHeader : option string) : option (string * agent) :=
  header ← authHeader;
  if negb (startsWith header "Bearer ") then None
  else
    '(agentId, secret) ← cut_colon (String.substring 7 (String.length header - 7) header);
    if (agentId == "") || (secret == "") || negb (isValidAgentId agentId) then None
    else
      ag ← agents d !! agentId;
      match ag_secret ag with
      | None => None
      | Some stored =>
          if (stored == "") || (ag_lifecycle ag != "active") then None
          else if negb (timingSafeStringEqual stored (hashSecret secret)) then None
          else match requireActiveTenantOrNull d (ag_tenantId ag) with
               | Some _ => Some (agentId, ag)
               | None => None
               end
      end.
End auth.

(** ** The request *)

Record registration := {
  rg_pairingCode : option string;
  rg_pairing_code : option string;
  rg_hostname : option string;
  rg_client_version : option string;
  rg_clientVersion : option string;
  rg_platform : option string;
  rg_metadata : option (list (string * json));
  rg_agentId : option string;
  rg_agent_id : option string;
}.

(** [z.string().trim().min(lo).max(hi).refine(p).optional()]. *)
Definition optional_string (lo hi : Z) (p : string → bool) (v : option json) : option (option string) :=
  match v with
  | None => Some None
  | Some (JString s) =>
      let t := trim s in
      if (lo <=? strlen t) && (strlen t <=? hi) && p t then Some (Some t) else None
  | Some _ => None
  end.

Definition optional_record (v : option json) : option (option (list (string * json))) :=
  match v with
  | None => Some None
  | Some (JObject l) => Some (Some l)
  | Some _ => None
  end.

Definition REGISTRATION_KEYS : list string :=
  ["pairingCode"; "pairing_code"; "hostname"; "client_version"; "clientVersion"; "platform"; "metadata";
   "agentId"; "agent_id"].

(** Two spellings of one field that are both there and differ. *)
Definition conflicting (a b : option string) : bool := truthy a && truthy b && (a != b).

Definition registrationSchema (l : list (string * json)) : option registration :=
  let field := json_field (JObject l) in
  if negb (forallb (λ kv, one_of REGISTRATION_KEYS kv.1) l) then None
  else
    pairingCode ← optional_string 6 6 isValidPairingCode (field "pairingCode");
    pairing_code ← optional_string 6 6 isValidPairingCode (field "pairing_code");
    hostname ← optional_string 0 255 (λ _, true) (field "hostname");
    client_version ← optional_string 0 100 (λ _, true) (field "client_version");
    clientVersion ← optional_string 0 100 (λ _, true) (field "clientVersion");
    platform ← optional_string 0 100 (λ _, true) (field "platform");
    metadata ← optional_record (field "metadata");
    agentId ← optional_string 1 120 (λ _, true) (field "agentId");
    agent_id ← optional_string 1 120 (λ _, true) (field "agent_id");
    if negb (truthy pairingCode || truthy pairing_code)
       || conflicting (toUpperCase <$> pairingCode) (toUpperCase <$> pairing_code)
       || conflicting agentId agent_id || conflicting clientVersion client_version
    then None
    else Some {| rg_pairingCode := pairingCode; rg_pairing_code := pairing_code; rg_hostname := hostname;
                 rg_client_version := client_version; rg_clientVersion := clientVersion;
                 rg_platform := platform; rg_metadata := metadata; rg_agentId := agentId;
                 rg_agent_id := agent_id |}.

(** [a || b] of two nullable strings. *)
Definition or_else (a b : option string) : option string := if truthy a then a else b.

(** [normalizedCode]. *)
Definition request_code (rg : registration) : string :=
  toUpperCase (trim (coalesce (or_else (rg_pairing_code rg) (rg_pairingCode rg)) "")).

Definition request_agent (rg : registration) : option string := or_else (rg_agent_id rg) (rg_agentId rg).

(** Object spread: a key keeps its place and takes the later value. *)
Definition obj_set (l : list (string * json)) (kv : string * json) : list (string * json) :=
  if existsb (λ x, x.1 == kv.1) l then map (λ x, if x.1 == kv.1 then kv else x) l else l ++ [kv].

Definition obj_spread (l more : list (string * json)) : list (string * json) := fold_left obj_set more l.

Definition spread_string (key : string) (o : option string) : list (string * json) :=
  match o with Some s => if s == "" then [] else [(key, JString s)] | None => [] end.

Definition registration_metadata (ag : agent) (rg : registration) : json :=
  let stored := match ag_metadata ag with Some (JObject l) => l | _ => [] end in
  JObject (obj_spread (obj_spread (obj_spread (obj_spread (obj_spread [] stored) (coalesce (rg_metadata rg) []))
    (spread_string "hostname" (rg_hostname rg)))
    (spread_string "version" (or_else (rg_client_version rg) (rg_clientVersion rg))))
    (spread_string "os" (rg_platform rg))).

(** ** The transaction *)

Inductive pairing_outcome : Type := not_found | billing_required | consumed | paired (agentId secret : string).

(** [pairing_code_hash = ... AND lifecycle = 'active' AND
    pairing_code_expires_at > clock_timestamp()]. *)
Definition pending (hashedCode : string) (ck : clock) (ag : agent) : bool :=
  (ag_pairingCodeHash ag == Some hashedCode) && (ag_lifecycle ag == "active") &&
  match ag_pairingCodeExpiresAt ag with Some e => clock_timestamp ck <? e | None => false end.

(** The pending agent, the named one when the request names one. *)
Definition pending_agent (hashedCode : string) (target : option string) (ck : clock) (d : db)
    : option (string * agent) :=
  match target with
  | Some id => ag ← agents d !! id; if pending hashedCode ck ag then Some (id, ag) else None
  | None => find_row (pending hashedCode ck) (agents d)
  end.

Section register.
Context (sha256 : string → string) (isIP : string → bool).

Definition registered_agent (rg : registration) (secret : string) (ck : clock) (ag : agent) : agent := {|
  ag_tenantId := ag_tenantId ag; ag_name := ag_name ag; ag_pairingCodeHash := None;
  ag_pairingCodeExpiresAt := None; ag_secret := Some (hashSecret sha256 secret); ag_status := "online";
  ag_lifecycle := ag_lifecycle ag; ag_lifecycleRevision := ag_lifecycleRevision ag;
  ag_snapshot := ag_snapshot ag; ag_metadata := Some (registration_metadata ag rg); ag_lastSeenAt := Some (clock_timestamp ck);
  ag_updatedAt := clock_timestamp ck |}.

Definition register_transaction (rg : registration) (hashedCode secret : string) (ck ck_update : clock)
    (d_read d : db) : result (pairing_outcome * db) tenant_error :=
  let target := request_agent rg in
  match (x ← pending_agent hashedCode target ck d_read;
         if is_some (tenants d_read !! ag_tenantId x.2) then Some (ag_tenantId x.2) else None) with
  | None => Ok (not_found, d)
  | Some tenantId =>
      do* requireActiveTenantInTransaction d tenantId in
      match pending_agent hashedCode target ck d with
      | None => Ok (not_found, d)
      | Some (id, ag) =>
          if ag_tenantId ag != tenantId then Ok (not_found, d)
          else if is_none (liveTenantSubscriptionWhere d ck tenantId true) then Ok (billing_required, d)
          else if negb (pending hashedCode ck_update ag) then Ok (consumed, d)
          else Ok (paired id secret,
                   with_agents (<[id := registered_agent rg secret ck_update ag]> (agents d)) d)
      end
  end.

(** ** The route *)

Inductive register_response : Type :=
| RegisterError (status : Z) (retryAfter : option Z) (code : option string)
| Registered (agentId secret : string).

(** What one call brings: the parsed body, the headers the address comes from,
    the clocks of the two reservations and of the transaction, and the drawn
    secret. *)
Record register_call := {
  rc_overLimit : bool;
  rc_body : option json;
  rc_trustProxy : bool;
  rc_forwardedFor : option string;
  rc_realIp : option string;
  rc_appNow : Z;
  rc_ipNow : Z;
  rc_codeNow : Z;
  rc_ck : clock;
  rc_ck_update : clock;
  rc_secret : string;
}.

Definition metadata_too_large (l : list (string * json)) : bool :=
  match json_field (JObject l) "metadata" with
  | Some JNull | None | Some (JBool false) => false
  | Some (JNumber n) => negb (n =? 0) && (32768 <? strlen (stringify (JNumber n)))
  | Some (JString s) => (s != "") && (32768 <? strlen (stringify (JString s)))
  | Some v => 32768 <? strlen (stringify v)
  end.

(** The checks before the limiter. *)
Definition parse_call (c : register_call) : result registration register_response :=
  if rc_overLimit c then Err (RegisterError 413 None None)
  else match rc_body c with
       | Some (JObject l) =>
           if metadata_too_large l then Err (RegisterError 400 None None)
           else match registrationSchema l with
                | Some rg => Ok rg
                | None => Err (RegisterError 400 None None)
                end
       | _ => Err (RegisterError 400 None None)
       end.

Definition call_ip (c : register_call) : string :=
  clientIpFrom isIP (rc_trustProxy c) (rc_forwardedFor c) (rc_realIp c).

(** A refused or failed reservation ends the request; otherwise the retry hint
    of the later one wins. *)
Definition reserve_call (c : register_call) (hashedCode : string) (L : limits)
    : result (option Z) register_response * limits :=
  let '(d1, L1) := reservePairingAttempt isIP (call_ip c) (rc_appNow c) (rc_ipNow c) L in
  match d1 with
  | None => (Err (RegisterError 503 None None), L1)
  | Some decision =>
      if negb (rd_allowed decision) then (Err (RegisterError 429 (rd_retryAfterSec decision) None), L1)
      else
        let '(d2, L2) := reservePairingCodeAttempt hashedCode (rc_codeNow c) L1 in
        match d2 with
        | None => (Err (RegisterError 503 None None), L2)
        | Some codeDecision =>
            if negb (rd_allowed codeDecision)
            then (Err (RegisterError 429 (rd_retryAfterSec codeDecision) None), L2)
            else (Ok (match rd_retryAfterSec codeDecision with
                      | Some s => Some s
                      | None => rd_retryAfterSec decision
                      end), L2)
        end
  end.

(** How the outcome is told. *)
Definition answer (retryAfter : option Z) (o : pairing_outcome) : register_response :=
  match o with
  | billing_required => RegisterError 403 None (Some "SUBSCRIPTION_REQUIRED")
  | not_found =>
      match retryAfter with
      | Some s => RegisterError 429 (Some s) None
      | None => RegisterError 400 None None
      end
  | consumed =>
      match retryAfter with
      | Some s => RegisterError 429 (Some s) None
      | None => RegisterError 409 None None
      end
  | paired id secret => Registered id secret
  end.

Definition tenant_error_code (e : tenant_error) : option string :=
  match e with
  | TenantSuspendedError => Some "TENANT_SUSPENDED"
  | TenantDeletedError => Some "TENANT_DELETED"
  | _ => None
  end.

Definition POST (c : register_call) (d_read d : db) (L : limits) : register_response * db * limits :=
  match parse_call c with
  | Err r => (r, d, L)
  | Ok rg =>
      let hashedCode := hashPairingCode sha256 (request_code rg) in
      match reserve_call c hashedCode L with
      | (Err r, L') => (r, d, L')
      | (Ok retryAfter, L') =>
          match register_transaction rg hashedCode (rc_secret c) (rc_ck c) (rc_ck_update c) d_read d with
          | Err e => (RegisterError 403 None (tenant_error_code e), d, L')
          | Ok (o, d') => (answer retryAfter o, d', L')
          end
      end
  end.
End register.

(** ** What a pairing did *)

Lemma pending_agent_inv hashedCode target ck d id ag :
  pending_agent hashedCode target ck d = Some (id, ag) →
  agents d !! id = Some ag ∧ pending hashedCode ck ag = true.
Proof.
  unfold pending_agent. destruct target as [t|].
  - destruct (agents d !! t) as [ag0|] eqn:Ht; [|done]. simpl. destruct (pending _ _ _) eqn:Hp; [|done].
    by intros [= <- <-].
  - intros H. by apply find_row_Some in H.
Qed.

Section pairing.
Context (sha256 : string → string) (isIP : string → bool).

Lemma register_transaction_inv rg h secret ck cku d_read d o d' :
  register_transaction sha256 rg h secret ck cku d_read d = Ok (o, d') →
  (d' = d ∧ ∀ id s, o ≠ paired id s) ∨
  ∃ id ag, o = paired id secret ∧ agents d !! id = Some ag ∧ pending h ck ag = true ∧
    pending h cku ag = true ∧ tenant_active d (ag_tenantId ag) = true ∧
    is_some (liveTenantSubscriptionWhere d ck (ag_tenantId ag) true) = true ∧
    d' = with_agents (<[id := registered_agent sha256 rg secret cku ag]> (agents d)) d.
Proof.
  unfold register_transaction. intros H. destruct (_ ≫= _) as [t|]; [|rinv; simplify_eq; by left].
  rinv. destruct r. apply guard_active in Hr as Ht.
  destruct (pending_agent h _ ck d) as [[id ag]|] eqn:Hp; [|rinv; simplify_eq; by left].
  apply pending_agent_inv in Hp as [Hag Hpend].
  destruct (negb (bool_decide (ag_tenantId ag = t))) eqn:Htid; [rinv; simplify_eq; by left|].
  apply negb_false_iff, bool_decide_eq_true in Htid. subst t.
  destruct (is_none _) eqn:Hlive; [rinv; simplify_eq; by left|].
  destruct (negb (pending h cku ag)) eqn:Hu; [rinv; simplify_eq; by left|].
  apply negb_false_iff in Hu. rinv. simplify_eq. right. exists id, ag. split_and!; try done.
  by destruct (liveTenantSubscriptionWhere _ _ _ _).
Qed.

Lemma POST_inv c d_read d L r d' L' :
  POST sha256 isIP c d_read d L = (r, d', L') →
  (d' = d ∧ ∀ id s, r ≠ Registered id s) ∨
  ∃ rg id ag, parse_call c = Ok rg ∧ r = Registered id (rc_secret c) ∧ agents d !! id = Some ag ∧
    pending (hashPairingCode sha256 (request_code rg)) (rc_ck c) ag = true ∧
    pending (hashPairingCode sha256 (request_code rg)) (rc_ck_update c) ag = true ∧
    tenant_active d (ag_tenantId ag) = true ∧
    is_some (liveTenantSubscriptionWhere d (rc_ck c) (ag_tenantId ag) true) = true ∧
    d' = with_agents (<[id := registered_agent sha256 rg (rc_secret c) (rc_ck_update c) ag]> (agents d)) d.
Proof.
  unfold POST. destruct (parse_call c) as [rg|e] eqn:Hparse.
  2:{ intros [= <- <- <-]. left. split; [done|]. intros id s ->. unfold parse_call in Hparse.
      repeat case_match; simplify_eq. }
  destruct (reserve_call _ _ _ _) as [[ra|e] L2] eqn:Hres.
  2:{ intros [= <- <- <-]. left. split; [done|]. intros id s ->. unfold reserve_call in Hres.
      repeat case_match; simplify_eq. }
  destruct (register_transaction _ _ _ _ _ _ _ _) as [[o dd]|e] eqn:Ht; intros [= <- <- <-]; [|by left].
  apply register_transaction_inv in Ht as [[-> Hno]|(id & ag & -> & H)].
  - left. split; [done|]. intros id s Ha. destruct o; simpl in Ha; try (destruct ra; done).
    injection Ha as -> ->. by destruct (Hno id s).
  - right. exists rg, id, ag. destruct H as (? & ? & ? & ? & ? & ?). by split_and!.
Qed.

(** [agents_pairing_code_hash_pending_unique]. *)
Definition codes_unique (d : db) : Prop :=
  ∀ id1 id2 a1 a2 h, agents d !! id1 = Some a1 → agents d !! id2 = Some a2 →
    ag_pairingCodeHash a1 = Some h → ag_pairingCodeHash a2 = Some h → id1 = id2.

(** No agent waits for the code. *)
Definition code_gone (h : string) (d : db) : Prop :=
  ∀ id ag, agents d !! id = Some ag → ag_pairingCodeHash ag ≠ Some h.

Lemma POST_agents c d_read d L r d' L' id' ag' :
  POST sha256 isIP c d_read d L = (r, d', L') → agents d' !! id' = Some ag' →
  agents d !! id' = Some ag' ∨ ag_pairingCodeHash ag' = None.
Proof.
  intros [[-> _]|(rg & id & ag & _ & _ & _ & _ & _ & _ & _ & ->)]%POST_inv Hag'; [by left|].
  simpl in Hag'. apply lookup_insert_Some in Hag' as [[_ <-]|[_ ?]]; [by right|by left].
Qed.

Lemma POST_keeps_unique c d_read d L r d' L' :
  POST sha256 isIP c d_read d L = (r, d', L') → codes_unique d → codes_unique d'.
Proof.
  intros HP Hu id1 id2 a1 a2 h H1 H2 Hh1 Hh2.
  destruct (POST_agents _ _ _ _ _ _ _ _ _ HP H1) as [H1'|?]; [|congruence].
  destruct (POST_agents _ _ _ _ _ _ _ _ _ HP H2) as [H2'|?]; [|congruence]. by eapply Hu.
Qed.

Lemma POST_keeps_gone c d_read d L r d' L' h :
  POST sha256 isIP c d_read d L = (r, d', L') → code_gone h d → code_gone h d'.
Proof.
  intros HP Hg id ag Hag. destruct (POST_agents _ _ _ _ _ _ _ _ _ HP Hag) as [H|H]; [by eapply Hg|congruence].
Qed.

(** A registration is for an agent that waited for the code, and none does
    afterwards. *)
Lemma POST_consumes c rg d_read d L id s d' L' :
  codes_unique d → parse_call c = Ok rg →
  POST sha256 isIP c d_read d L = (Registered id s, d', L') →
  ¬ code_gone (hashPairingCode sha256 (request_code rg)) d ∧
  code_gone (hashPairingCode sha256 (request_code rg)) d'.
Proof.
  intros Hu Hparse [[_ H]|(rg' & id' & ag & Hp & Hr & Hag & Hpend & _ & _ & _ & ->)]%POST_inv; [by destruct (H id s)|].
  assert (rg' = rg) as -> by congruence.
  unfold pending in Hpend. bools. split; [intros Hg; by eapply Hg|].
  intros k x Hx Hk. simpl in Hx. apply lookup_insert_Some in Hx as [[<- <-]|[Hne Hx]]; [done|].
  apply Hne. by eapply Hu.
Qed.

(** ** The credential works *)

Lemma cut_colon_app s t : free_of ":"%char s = true → cut_colon (s +:+ ":" +:+ t) = Some (s, t).
Proof.
  unfold free_of. induction s as [|c s IH]; [done|]. cbn [all_chars].
  intros [Hc Hs]%andb_true_iff. apply negb_true_iff in Hc.
  change (String c s +:+ ":" +:+ t) with (String c (s +:+ ":" +:+ t)). cbn [cut_colon]. by rewrite Hc, (IH Hs).
Qed.

Lemma substring_take n s : (String.length s ≤ n)%nat → String.substring 0 n s = s.
Proof.
  revert n. induction s as [|c s IH]; intros n Hn; [by destruct n|]. destruct n as [|n]; cbn in *; [lia|].
  by rewrite IH by lia.
Qed.

Lemma agent_id_colonless id : isValidAgentId id = true → free_of ":"%char id = true ∧ id ≠ "".
Proof.
  unfold isValidAgentId. intros H. bools. apply prefix_spec in H as [t ->].
  apply Z.eqb_eq in H1. split; [|done]. unfold free_of. rewrite all_chars_app. simpl.
  assert (String.substring 4 8 ("agt_" +:+ t) = t) as Ht.
  { unfold strlen in H1. change (String.length ("agt_" +:+ t)) with (4 + String.length t)%nat in H1.
    change (String.substring 0 8 t = t). apply substring_take. lia. }
  rewrite Ht in H0. eapply all_chars_impl; [|exact H0]. intros c Hc. apply negb_true_iff, bool_decide_eq_false.
  by intros ->.
Qed.

Lemma validateAgent_spec d id secret ag stored :
  isValidAgentId id = true → secret ≠ "" → agents d !! id = Some ag → ag_secret ag = Some stored →
  stored ≠ "" → ag_lifecycle ag = "active" → tenant_active d (ag_tenantId ag) = true →
  validateAgent sha256 d (Some ("Bearer " +:+ id +:+ ":" +:+ secret)) =
  if sha256 stored == sha256 (sha256 secret) then Some (id, ag) else None.
Proof.
  intros Hid Hs Hag Hst Hne Hlife Hten. destruct (agent_id_colonless _ Hid) as [Hfree Hidne].
  unfold validateAgent. cbn [mbind option_bind]. unfold startsWith. rewrite prefix_app_self. cbn [negb].
  assert (String.substring 7 (String.length ("Bearer " +:+ id +:+ ":" +:+ secret) - 7)
            ("Bearer " +:+ id +:+ ":" +:+ secret) = id +:+ ":" +:+ secret) as ->.
  { set (rest := id +:+ ":" +:+ secret).
    change (String.length ("Bearer " +:+ rest)) with (7 + String.length rest)%nat.
    change (String.substring 0 (7 + String.length rest - 7) rest = rest). apply substring_take. lia. }
  rewrite cut_colon_app by done. cbn [mbind option_bind].
  rewrite !bool_decide_false, Hid by done. cbn [orb negb]. rewrite Hag. cbn [mbind option_bind].
  rewrite Hst, bool_decide_false, Hlife, bool_decide_true by done. cbn [orb negb].
  unfold timingSafeStringEqual, hashSecret. destruct (sha256 stored == _); cbn [negb]; [|done].
  unfold requireActiveTenantOrNull. rewrite (proj1 (tenant_guards_agree d _)).
  by rewrite (proj2 (guard_active d _) Hten).
Qed.

(** A successful registration is the exchange of a one-time code: the
    agent was active and waiting for exactly this unexpired code, its tenant
    active and paid up; only its row changed; the credential it was given now
    authenticates it, any other secret does not; and no agent waits for the
    code any more. *)
Theorem pairing_exchange c rg d_read d L id s d' L' :
  codes_unique d → parse_call c = Ok rg → isValidAgentId id = true → rc_secret c ≠ "" →
  (∀ x, sha256 x ≠ "") →
  POST sha256 isIP c d_read d L = (Registered id s, d', L') →
  s = rc_secret c ∧
  ∃ ag ag', agents d !! id = Some ag ∧
    pending (hashPairingCode sha256 (request_code rg)) (rc_ck_update c) ag = true ∧
    tenant_active d (ag_tenantId ag) = true ∧
    is_some (liveTenantSubscriptionWhere d (rc_ck c) (ag_tenantId ag) true) = true ∧
    d' = with_agents (<[id := ag']> (agents d)) d ∧ ag_tenantId ag' = ag_tenantId ag ∧
    validateAgent sha256 d' (Some ("Bearer " +:+ id +:+ ":" +:+ s)) = Some (id, ag') ∧
    (∀ s', s' ≠ "" → sha256 (sha256 s') ≠ sha256 (sha256 s) →
       validateAgent sha256 d' (Some ("Bearer " +:+ id +:+ ":" +:+ s')) = None) ∧
    code_gone (hashPairingCode sha256 (request_code rg)) d'.
Proof.
  intros Hu Hparse Hid Hsec Hsha HP. pose proof (POST_consumes _ _ _ _ _ _ _ _ _ Hu Hparse HP) as [_ Hgone].
  apply POST_inv in HP as [[_ H]|(rg' & id' & ag & Hp & Hr & Hag & _ & Hpend & Hten & Hlive & ->)];
    [by destruct (H id s)|].
  assert (rg' = rg) as -> by congruence. injection Hr as <- ->. split; [done|].
  exists ag, (registered_agent sha256 rg (rc_secret c) (rc_ck_update c) ag).
  set (d' := with_agents _ d) in *.
  assert (ag_lifecycle ag = "active") as Hlife by (unfold pending in Hpend; by bools).
  assert (∀ x, x ≠ "" → validateAgent sha256 d' (Some ("Bearer " +:+ id +:+ ":" +:+ x)) =
    if sha256 (sha256 (rc_secret c)) == sha256 (sha256 x)
    then Some (id, registered_agent sha256 rg (rc_secret c) (rc_ck_update c) ag) else None) as Hv.
  { intros x Hx. apply validateAgent_spec; try done. simpl. apply lookup_insert_eq. }
  split_and!; try done.
  - rewrite Hv by done. by rewrite bool_decide_true.
  - intros s' Hs' Hne. rewrite Hv by done. by rewrite bool_decide_false.
Qed.

(** ** Many calls *)

Definition call_hash (c : register_call) : option string :=
  match parse_call c with Ok rg => Some (hashPairingCode sha256 (request_code rg)) | Err _ => None end.

(** Whether the call got past the limiter to try the code. *)
Definition guessed (h : string) (c : register_call) (L : limits) : bool :=
  match parse_call c with
  | Ok rg =>
      (hashPairingCode sha256 (request_code rg) == h) &&
      match (reserve_call isIP c h L).1 with Ok _ => true | Err _ => false end
  | Err _ => false
  end.

(** The events a call is for the limiter. *)
Definition call_events (c : register_call) (L : limits) : list (Z * rate_event) :=
  match parse_call c with
  | Ok rg =>
      (rc_ipNow c, ev_pairing (call_ip isIP c) (rc_appNow c)) ::
      (if decided (reservePairingAttempt isIP (call_ip isIP c) (rc_appNow c) (rc_ipNow c) L).1
       then [(rc_codeNow c, ev_pairing_code (hashPairingCode sha256 (request_code rg)))] else [])
  | Err _ => []
  end.

Lemma POST_events c d_read d L :
  (POST sha256 isIP c d_read d L).2 = run_events isIP (call_events c L) L.
Proof.
  unfold POST, call_events. destruct (parse_call c) as [rg|]; [|done]. unfold reserve_call.
  destruct (reservePairingAttempt _ _ _ _ _) as [[d1|] L1] eqn:H1; [|by simpl; rewrite H1].
  cbn [fst decided]. destruct (rd_allowed d1) eqn:Ha; cbn [negb]; [|by simpl; rewrite H1].
  simpl run_events. rewrite H1. cbn [snd].
  destruct (reservePairingCodeAttempt _ _ _) as [[d2|] L2] eqn:H2; cbn [snd]; [|done].
  destruct (rd_allowed d2); cbn [negb]; [|done]. by destruct (register_transaction _ _ _ _ _ _ _ _) as [[o dd]|].
Qed.

Lemma attempts_nonneg k evs L : 0 ≤ attempts isIP k evs L.
Proof.
  revert L. induction evs as [|[n e] evs IH]; intros L; simpl; [lia|]. pose proof (IH (apply_event isIP n e L)).
  destruct (granted _ _ _ _ _); lia.
Qed.

Lemma guessed_charged h c L :
  (if guessed h c L then 1 else 0) ≤ attempts isIP (pairingCodeKey h) (call_events c L) L.
Proof.
  destruct (guessed h c L) eqn:Hg; [|apply attempts_nonneg]. unfold guessed, call_events in *.
  destruct (parse_call c) as [rg|]; [|done]. bools. subst h. unfold reserve_call in H0.
  destruct (reservePairingAttempt _ _ _ _ _) as [[d1|] L1] eqn:H1; [|done].
  cbn [fst decided]. destruct (rd_allowed d1) eqn:Ha; [|done]. cbn [negb] in H0.
  cbn [attempts apply_event granted]. rewrite H1. cbn [fst snd decided].
  destruct (reservePairingCodeAttempt _ _ _) as [[d2|] L2] eqn:H2; [|done]. cbn [fst decided].
  destruct (rd_allowed d2); [|done].
  rewrite (bool_decide_true (pairingCodeKey _ = pairingCodeKey _)) by done. cbn [andb].
  destruct (isIP _ && _ && _); lia.
Qed.

(** The database and the limiter after each call saw some earlier database
    first. *)
Fixpoint run_calls (cs : list (register_call * db)) (d : db) (L : limits)
    : list (register_call * register_response) :=
  match cs with
  | [] => []
  | (c, d_read) :: cs =>
      let '(r, d', L') := POST sha256 isIP c d_read d L in (c, r) :: run_calls cs d' L'
  end.

Fixpoint calls_events (cs : list (register_call * db)) (L : limits) : list (Z * rate_event) :=
  match cs with
  | [] => []
  | (c, _) :: cs => call_events c L ++ calls_events cs (run_events isIP (call_events c L) L)
  end.

Fixpoint guesses_of (h : string) (cs : list (register_call * db)) (L : limits) : Z :=
  match cs with
  | [] => 0
  | (c, _) :: cs =>
      (if guessed h c L then 1 else 0) + guesses_of h cs (run_events isIP (call_events c L) L)
  end.

(** The calls that were given a credential for the code. *)
Definition pairings (h : string) (rs : list (register_call * register_response)) : list (register_call * register_response) :=
  List.filter (λ cr, (call_hash cr.1 == Some h) && match cr.2 with Registered _ _ => true | _ => false end) rs.

Lemma guesses_charged h cs L :
  guesses_of h cs L ≤ attempts isIP (pairingCodeKey h) (calls_events cs L) L.
Proof.
  revert L. induction cs as [|[c d_read] cs IH]; intros L; simpl; [lia|].
  rewrite attempts_app. pose proof (guessed_charged h c L).
  pose proof (IH (run_events isIP (call_events c L) L)). lia.
Qed.

Lemma calls_never_clear cs L k nowMs e : (nowMs, e) ∈ calls_events cs L → clears isIP e k = false.
Proof.
  revert L. induction cs as [|[c d_read] cs IH]; intros L; simpl; [by intros ?%not_elem_of_nil|].
  intros [H|H]%elem_of_app; [|by eapply IH]. unfold call_events in H. destruct (parse_call c); [|by apply not_elem_of_nil in H].
  destruct (decided _); set_solver.
Qed.

Lemma gone_no_pairing h cs d L : codes_unique d → code_gone h d → pairings h (run_calls cs d L) = [].
Proof.
  revert d L. induction cs as [|[c d_read] cs IH]; intros d L Hu Hg; [done|]. simpl run_calls.
  destruct (POST sha256 isIP c d_read d L) as [[r d'] L'] eqn:HP. unfold pairings. simpl.
  destruct (_ && _) eqn:Hb; [|apply IH; [by eapply POST_keeps_unique|by eapply POST_keeps_gone]].
  exfalso. bools. destruct r as [|id s]; [done|]. unfold call_hash in H. destruct (parse_call c) as [rg|] eqn:Hp; [|done].
  injection H as <-. by destruct (POST_consumes _ _ _ _ _ _ _ _ _ Hu Hp HP) as [Hng _].
Qed.

(** A pairing code cannot be brute-forced and cannot be used twice: over
    any sequence of registration calls, from any addresses and with reads as
    stale as they may be, at most twelve calls per quarter of an hour get to
    try the code, and at most one call is ever given a credential for it. *)
Theorem pairing_guesses_bounded h cs d L t0 t1 :
  codes_unique d → 0 ≤ t0 ≤ t1 → L !! pairingCodeKey h = None → clocks_ok t0 t1 t0 (calls_events cs L) →
  guesses_of h cs L ≤ 12 * (1 + (t1 - t0) / PAIRING_RATE_WINDOW_MS) ∧
  (length (pairings h (run_calls cs d L)) ≤ 1)%nat.
Proof.
  intros Hu Ht Hnone Hck. split.
  - pose proof (guesses_charged h cs L) as Hg.
    destruct (attempts_bounded isIP (pairingCodeKey h) t0 t1 (calls_events cs L) L Ht Hnone Hck) as [Hb _].
    { intros n e. apply calls_never_clear. }
    change (budget_of (pairingCodeKey h)) with 12 in Hb.
    change (window_of (pairingCodeKey h)) with PAIRING_RATE_WINDOW_MS in Hb. lia.
  - clear t0 t1 Ht Hnone Hck. revert d L Hu. induction cs as [|[c d_read] cs IH]; intros d L Hu; simpl; [lia|].
    destruct (POST sha256 isIP c d_read d L) as [[r d'] L'] eqn:HP. unfold pairings. simpl.
    destruct (_ && _) eqn:Hb; [|apply IH; by eapply POST_keeps_unique].
    bools. destruct r as [|id s]; [done|]. unfold call_hash in H. destruct (parse_call c) as [rg|] eqn:Hp; [|done].
    injection H as <-. destruct (POST_consumes _ _ _ _ _ _ _ _ _ Hu Hp HP) as [_ Hgone].
    pose proof (gone_no_pairing _ cs d' L' (POST_keeps_unique _ _ _ _ _ _ _ HP Hu) Hgone) as Hnil.
    unfold pairings in Hnil. simpl. rewrite Hnil. simpl. lia.
Qed.
End pairing.

(** ** Instances *)

(** A digest of the right shape for the limiter. *)
Definition fixed_digest (s : string) : string :=
  "0123456789abcdef0123456789abcdef0123456789abcdef0123456789abcdef".

Definition waiting_agent : agent := {|
  ag_tenantId := "t1"; ag_name := "counter"; ag_pairingCodeHash := Some (fixed_digest "ABC234");
  ag_pairingCodeExpiresAt := Some 600000; ag_secret := None; ag_status := "offline";
  ag_lifecycle := "active"; ag_lifecycleRevision := 0; ag_snapshot := no_snapshot; ag_metadata := None; ag_lastSeenAt := None;
  ag_updatedAt := 0 |}.

Definition waiting_db : db := with_agents {["agt_00000001" := waiting_agent]} (gateway_db ∅).

Definition sample_call : register_call := {|
  rc_overLimit := false; rc_body := Some (JObject [("pairing_code", JString " abc234 "); ("platform", JString "linux")]);
  rc_trustProxy := true; rc_forwardedFor := Some "10.0.0.7"; rc_realIp := None; rc_appNow := 1000;
  rc_ipNow := 1000; rc_codeNow := 1001; rc_ck := {| now := 1002; clock_timestamp := 1002 |};
  rc_ck_update := {| now := 1002; clock_timestamp := 1003 |}; rc_secret := "s3cret" |}.

Definition all_ips (s : string) : bool := s != "".

Lemma waiting_unique : codes_unique waiting_db.
Proof.
  intros id1 id2 a1 a2 h. simpl. rewrite !lookup_singleton_Some. by intros [<- _] [<- _].
Qed.

Definition pairing_answer : register_response * db * limits :=
  POST fixed_digest all_ips sample_call waiting_db waiting_db ∅.

Lemma pairing_exchange_witness :
  is_some (validateAgent fixed_digest pairing_answer.1.2 (Some "Bearer agt_00000001:s3cret")) = true.
Proof.
  destruct (pairing_exchange fixed_digest all_ips sample_call
    {| rg_pairingCode := None; rg_pairing_code := Some "abc234"; rg_hostname := None; rg_client_version := None;
       rg_clientVersion := None; rg_platform := Some "linux"; rg_metadata := None; rg_agentId := None;
       rg_agent_id := None |}
    waiting_db waiting_db ∅ "agt_00000001" "s3cret" pairing_answer.1.2 pairing_answer.2 waiting_unique)
    as (_ & ag & ag' & _ & _ & _ & _ & _ & _ & Hv & _).
  - vm_compute. reflexivity.
  - vm_compute. reflexivity.
  - done.
  - done.
  - assert (pairing_answer.1.1 = Registered "agt_00000001" "s3cret") as <- by (vm_compute; reflexivity).
    fold pairing_answer. by destruct pairing_answer as [[r d'] L'].
  - exact (f_equal is_some Hv).
Defined.

Lemma pairing_guesses_bounded_witness :
  length (pairings fixed_digest (fixed_digest "") (run_calls fixed_digest all_ips
    [(sample_call, waiting_db); (sample_call, waiting_db)] waiting_db ∅)) = 1%nat ∧
  guesses_of fixed_digest all_ips (fixed_digest "")
    [(sample_call, waiting_db); (sample_call, waiting_db)] ∅ ≤ 12 * (1 + 1 / PAIRING_RATE_WINDOW_MS).
Proof.
  split; [vm_compute; reflexivity|].
  refine (proj1 (pairing_guesses_bounded fixed_digest all_ips (fixed_digest "")
    [(sample_call, waiting_db); (sample_call, waiting_db)] waiting_db ∅ 1000 1001 waiting_unique _ _ _)).
  - lia.
  - done.
  - vm_compute. repeat split; discriminate.
Defined.
