(* ===== verification/Billing.v ===== *)
(** * Billing: the Stripe webhook

    [src/app/api/billing/webhook/route.ts] with the period reader of
    [src/lib/stripe.ts]. A delivery is handled in attempts: each reads what is
    known outside any transaction, asks Stripe for the current resource, and
    then runs one transaction that fails when the row has moved on since. The
    signature check, Stripe's answers and the clocks are arguments, and so is
    the database as each of the unlocked reads found it. Audit rows and the
    stored payload are not modelled; a price id that is not a string counts as
    missing. *)

From Stdlib Require Import Ascii.
From S2P Require Import Prelude DatabaseTime JobStatus Json Schema Authority Availability Payload.
From S2P Require Import PrinterVirtual Capability Entitlements Samples JobProtocol JobDelivery.
From S2P Require Import JobMaintenance AgentJobs.

(** ** Tables *)

(** [tenant_subscriptions], without the start of the trial. *)
Record billing_row := {
  bs_planId : string;
  bs_stripeCustomerId : option string;
  bs_stripeSubscriptionId : option string;
  bs_status : string;
  bs_currentPeriodStart : Z;
  bs_currentPeriodEnd : option Z;
  bs_stripeLastEventCreatedAt : option Z;
  bs_stripeStateRevision : Z;
  bs_cancelAtPeriodEnd : bool;
  bs_checkoutStatus : string;
  bs_checkoutPlanId : option string;
  bs_checkoutIdempotencyKey : option string;
  bs_checkoutRequestParams : option json;
  bs_checkoutIntentCreatedAt : option Z;
  bs_checkoutSessionId : option string;
  bs_checkoutSessionUrl : option string;
  bs_checkoutSessionExpiresAt : option Z;
  bs_billingOperationId : option string;
  bs_billingOperationType : option string;
  bs_billingOperationIdempotencyKey : option string;
  bs_billingOperationSubscriptionId : option string;
  bs_entitlementBlocked : bool;
  bs_entitlementBlockedReason : option string;
  bs_updatedAt : Z;
}.

(** [billing_events]. *)
Record billing_event := {
  be_eventType : string;
  be_tenantId : option string;
  be_processedAt : option Z;
}.

(** What billing reads of a plan: whether it is on sale, the current price and
    the earlier ones. *)
Record plan_prices := {
  pp_isActive : bool;
  pp_isPublic : bool;
  pp_stripePriceId : option string;
  pp_stripePriceHistory : list string;
}.

Record billing_db := {
  bd_tenants : gset string;
  bd_subscriptions : gmap string billing_row;
  bd_events : gmap string billing_event;
  bd_plans : gmap string plan_prices;
}.

Definition with_subscriptions (m : gmap string billing_row) (d : billing_db) : billing_db := {|
  bd_tenants := bd_tenants d; bd_subscriptions := m; bd_events := bd_events d; bd_plans := bd_plans d |}.

Definition with_events (m : gmap string billing_event) (d : billing_db) : billing_db := {|
  bd_tenants := bd_tenants d; bd_subscriptions := bd_subscriptions d; bd_events := m; bd_plans := bd_plans d |}.

(** What the entitlement checks read of the row. *)
Definition entitlement_row (r : billing_row) : subscription := {|
  ts_planId := bs_planId r; ts_status := bs_status r; ts_currentPeriodStart := bs_currentPeriodStart r;
  ts_currentPeriodEnd := bs_currentPeriodEnd r; ts_entitlementBlocked := bs_entitlementBlocked r |}.

(** ** Reading events *)

Definition statusOf (status : string) : string :=
  if one_of ["trialing"; "active"; "past_due"; "incomplete"; "incomplete_expired"; "unpaid"; "paused"] status
  then status else "cancelled".

(** [typeof o[key] === "string"]. *)
Definition str (o : json) (key : string) : option string := as_string (json_field o key).

(** [o.metadata?.tenant_id] when it is a string. *)
Definition metadata_tenant (o : json) : option string := m ← json_field o "metadata"; str m "tenant_id".

Definition subscriptionIdForEvent (eventType : string) (object : json) : option string :=
  match str object "subscription" with
  | Some s => Some s
  | None => if startsWith eventType "customer.subscription." then str object "id" else None
  end.

(** [items?.data?.[0]]. *)
Definition first_item (o : json) : option json :=
  items ← json_field o "items"; data ← json_field items "data";
  match data with JArray (x :: _) => Some x | _ => None end.

(** [a ?? b] of two JSON values. *)
Definition json_coalesce (a b : option json) : option json :=
  match a with None | Some JNull => b | _ => a end.

(** A Unix second as milliseconds, when it is a date. *)
Definition stripe_date (v : option json) : option Z :=
  match v with
  | Some (JNumber n) => if (0 <=? n) && (n <=? 8640000000000) then Some (n * 1000) else None
  | _ => None
  end.

Definition stripeSubscriptionPeriod (o : json) : option Z * option Z :=
  let item := match first_item o with Some (JObject l) => JObject l | _ => JNull end in
  (stripe_date (json_coalesce (json_field item "current_period_start") (json_field o "current_period_start")),
   stripe_date (json_coalesce (json_field item "current_period_end") (json_field o "current_period_end"))).

Definition price_id (o : json) : option string := item ← first_item o; price ← json_field item "price"; str price "id".

Definition currentSnapshotSubscriptionEvents : list string :=
  ["customer.subscription.created"; "customer.subscription.updated"; "customer.subscription.paused";
   "customer.subscription.resumed"; "customer.subscription.pending_update_applied";
   "customer.subscription.pending_update_expired"].

Definition is_snapshot_event (eventType : string) : bool := one_of currentSnapshotSubscriptionEvents eventType.

Definition is_state_event (eventType : string) : bool :=
  (eventType == "customer.subscription.deleted") || is_snapshot_event eventType.

(** The parsed event; [ev_created] is in milliseconds. *)
Record stripe_event := {
  ev_id : string;
  ev_type : string;
  ev_created : Z;
  ev_object : json;
}.

(** ** The transaction *)

Inductive billing_error : Type := BILLING_SNAPSHOT_CHANGED | ConstraintViolation.

Inductive tx_result : Type := tx_idempotent | tx_ignored | tx_processed (tenantId : option string).

(** What the attempt has gathered before its transaction. *)
Record gathered := {
  ga_state : json;
  ga_stale : bool;
  ga_fetchedRevision : option Z;
  ga_checkoutSubscription : option json;
}.

Definition candidate_tenant (ev : stripe_event) (g : gathered) : option string :=
  match metadata_tenant (ga_state g) with
  | Some t => Some t
  | None => match metadata_tenant (ev_object ev) with
            | Some t => Some t
            | None => str (ev_object ev) "client_reference_id"
            end
  end.

Definition customer_id (ev : stripe_event) (g : gathered) : option string :=
  match str (ga_state g) "customer" with Some c => Some c | None => str (ev_object ev) "customer" end.

(** [INSERT ... ON CONFLICT DO NOTHING]. *)
Definition record_event (ev : stripe_event) (d : billing_db) : billing_db :=
  match bd_events d !! ev_id ev with
  | Some _ => d
  | None => with_events (<[ev_id ev := {| be_eventType := ev_type ev; be_tenantId := None;
                                          be_processedAt := None |}]> (bd_events d)) d
  end.

(** [UPDATE billing_events SET tenant_id, processed_at]; [tenant_id] is a
    foreign key. *)
Definition mark_processed (ev : stripe_event) (tenant : option string) (nowMs : Z) (d : billing_db)
    : result billing_db billing_error :=
  do* throw_if (match tenant with Some t => negb (bool_decide (t ∈ bd_tenants d)) | None => false end)
        ConstraintViolation in
  Ok (with_events (alter (λ e, {| be_eventType := be_eventType e; be_tenantId := tenant;
                                  be_processedAt := Some nowMs |}) (ev_id ev) (bd_events d)) d).

(** The tenants whose row has the subscription or the customer. *)
Definition identity_rows (subId customerId : option string) (d : billing_db) : list string :=
  (filter (λ kr : string * billing_row,
    ((truthy subId && (bs_stripeSubscriptionId kr.2 == subId))
     || (truthy customerId && (bs_stripeCustomerId kr.2 == customerId))) && (kr.1 != "") = true)
    (map_to_list (bd_subscriptions d))).*1.

(** A unique nullable column: two rows that collide on it. *)
Definition collides (column : billing_row → option string) (r r' : billing_row) : bool :=
  is_some (column r) && (column r' == column r).

(** Unique [stripe_customer_id], [stripe_subscription_id] and
    [checkout_session_id]; no update here sets one of the other unique
    columns. *)
Definition unique_ok (t : string) (r : billing_row) (d : billing_db) : bool :=
  bool_decide (map_Forall (λ t' r', t' = t ∨
    negb (collides bs_stripeCustomerId r r' || collides bs_stripeSubscriptionId r r'
          || collides bs_checkoutSessionId r r') = true) (bd_subscriptions d)).

Definition update_subscription (t : string) (r : billing_row) (d : billing_db) : result billing_db billing_error :=
  do* throw_if (negb (unique_ok t r d)) ConstraintViolation in
  Ok (with_subscriptions (<[t := r]> (bd_subscriptions d)) d).

Definition is_ended (status : string) : bool := one_of ["cancelled"; "incomplete_expired"] status.

(** [Number(row?.stripeStateRevision ?? 0) !== (fetchedRevision ?? 0)]. *)
Definition moved_on (r : option billing_row) (fetched : option Z) : bool :=
  negb (match r with Some r => bs_stripeStateRevision r | None => 0 end =? coalesce fetched 0).

(** ** [checkout.session.completed] *)

Definition checkout_row (subId : string) (customerId sessionId : option string) (period : option Z * option Z)
    (different : bool) (nowMs : Z) (r : billing_row) : billing_row :=
  let fence_free := different || is_none (bs_stripeLastEventCreatedAt r) in {|
  bs_planId := bs_planId r;
  bs_stripeCustomerId := match bs_stripeCustomerId r with Some c => Some c | None => customerId end;
  bs_stripeSubscriptionId := if different then Some subId
    else match bs_stripeSubscriptionId r with Some s => Some s | None => Some subId end;
  bs_status := bs_status r;
  bs_currentPeriodStart := if fence_free then coalesce period.1 (bs_currentPeriodStart r) else bs_currentPeriodStart r;
  bs_currentPeriodEnd := if fence_free then match period.2 with Some e => Some e | None => bs_currentPeriodEnd r end
    else bs_currentPeriodEnd r;
  bs_stripeLastEventCreatedAt := if different then None else bs_stripeLastEventCreatedAt r;
  bs_stripeStateRevision := bs_stripeStateRevision r + 1;
  bs_cancelAtPeriodEnd := bs_cancelAtPeriodEnd r;
  bs_checkoutStatus := "completed";
  bs_checkoutPlanId := bs_checkoutPlanId r; bs_checkoutIdempotencyKey := bs_checkoutIdempotencyKey r;
  bs_checkoutRequestParams := bs_checkoutRequestParams r; bs_checkoutIntentCreatedAt := bs_checkoutIntentCreatedAt r;
  bs_checkoutSessionId := sessionId;
  bs_checkoutSessionUrl := bs_checkoutSessionUrl r; bs_checkoutSessionExpiresAt := bs_checkoutSessionExpiresAt r;
  bs_billingOperationId := bs_billingOperationId r; bs_billingOperationType := bs_billingOperationType r;
  bs_billingOperationIdempotencyKey := bs_billingOperationIdempotencyKey r;
  bs_billingOperationSubscriptionId := bs_billingOperationSubscriptionId r;
  bs_entitlementBlocked := bs_entitlementBlocked r; bs_entitlementBlockedReason := bs_entitlementBlockedReason r;
  bs_updatedAt := nowMs |}.

(** [Ok None] is an event that is acknowledged and ignored. *)
Definition apply_checkout (ev : stripe_event) (g : gathered) (t : string) (nowMs : Z) (d : billing_db)
    : result (option billing_db) billing_error :=
  match str (ev_object ev) "subscription" with
  | Some subId =>
      if (subId == "") || (t == "") then Ok (Some d)
      else
        let current := bd_subscriptions d !! t in
        do* throw_if (is_some (ga_checkoutSubscription g) && moved_on current (ga_fetchedRevision g))
              BILLING_SNAPSHOT_CHANGED in
        let bound := current ≫= bs_stripeSubscriptionId in
        let status := bs_status <$> current in
        let different := truthy bound && (bound != Some subId) in
        let customerId := customer_id ev g in
        let stripeCustomer := match ga_checkoutSubscription g ≫= (λ o, str o "customer") with
                              | Some c => Some c
                              | None => customerId
                              end in
        let stripeStatus := ga_checkoutSubscription g ≫= (λ o, str o "status") in
        let ownCustomer := current ≫= bs_stripeCustomerId in
        if (different && (status != Some "cancelled") && (status != Some "incomplete_expired"))
           || (truthy stripeCustomer && truthy customerId && (stripeCustomer != customerId))
           || (different && (status == Some "cancelled") && (stripeStatus == Some "canceled"))
           || (truthy ownCustomer && truthy customerId && (ownCustomer != customerId))
        then Ok None
        else match current with
             | None => Ok (Some d)
             | Some r =>
                 let* d' := update_subscription t
                   (checkout_row subId customerId (str (ev_object ev) "id")
                      (match ga_checkoutSubscription g with Some o => stripeSubscriptionPeriod o | None => (None, None) end)
                      different nowMs r) d in
                 Ok (Some d')
             end
  | None => Ok (Some d)
  end.

(** ** Lifecycle events *)

(** The plan whose price it is, when it is one plan's. *)
Definition plan_of_price (priceId : option string) (d : billing_db) : option string :=
  if truthy priceId then
    match (filter (λ kp : string * plan_prices,
      (pp_stripePriceId kp.2 == priceId) || existsb (λ p, Some p == priceId) (pp_stripePriceHistory kp.2) = true)
      (map_to_list (bd_plans d))).*1 with
    | [p] => Some p
    | _ => None
    end
  else None.

(** The comparisons of the event with the row: whether it may be written. *)
Definition may_update (ev : stripe_event) (g : gathered) (subId : string) (r : billing_row) : bool :=
  let bound := bs_stripeSubscriptionId r in
  let different := truthy bound && (bound != Some subId) in
  let same_or_unbound := negb (truthy bound) || (bound == Some subId) in
  let newer := match bs_stripeLastEventCreatedAt r with Some s => s <? ev_created ev | None => true end in
  let newer_replacement := different && is_ended (bs_status r) && newer in
  let terminalDelete := ev_type ev == "customer.subscription.deleted" in
  let adoptable := (bs_status r == "cancelled") && (bound == Some subId) && (bs_checkoutStatus r == "completed")
    && negb terminalDelete && (is_none (bs_stripeLastEventCreatedAt r) || newer) in
  let authoritative := is_snapshot_event (ev_type ev) && negb (ga_stale g)
    && match bs_stripeLastEventCreatedAt r with Some s => s <=? ev_created ev | None => true end in
  let same_can_update := same_or_unbound && (authoritative || terminalDelete || newer)
    && negb ((bs_status r == "cancelled") && (bound == Some subId) && negb terminalDelete && negb adoptable) in
  same_can_update || newer_replacement.

Definition lifecycle_row (ev : stripe_event) (o : json) (subId : string) (plan : option string) (nowMs : Z)
    (r : billing_row) : billing_row :=
  let nextStatus := match str o "status" with Some s => statusOf s | None => bs_status r end in
  let period := stripeSubscriptionPeriod o in
  let priceMappingAuthoritative :=
    one_of ["customer.subscription.created"; "customer.subscription.updated"] (ev_type ev) in
  let entitlementBlocked := if priceMappingAuthoritative then is_none plan else bs_entitlementBlocked r in
  let ended := is_ended nextStatus in
  let keep {A} (x : option A) := if ended then None else x in {|
  bs_planId := coalesce plan (bs_planId r);
  bs_stripeCustomerId := match str o "customer" with Some c => Some c | None => bs_stripeCustomerId r end;
  bs_stripeSubscriptionId := if subId == "" then bs_stripeSubscriptionId r else Some subId;
  bs_status := nextStatus;
  bs_currentPeriodStart := coalesce period.1 (bs_currentPeriodStart r);
  bs_currentPeriodEnd := match period.2 with Some e => Some e | None => bs_currentPeriodEnd r end;
  bs_stripeLastEventCreatedAt := Some (Z.max (coalesce (bs_stripeLastEventCreatedAt r) (ev_created ev)) (ev_created ev));
  bs_stripeStateRevision := bs_stripeStateRevision r + 1;
  bs_cancelAtPeriodEnd := match json_field o "cancel_at_period_end" with Some (JBool b) => b | _ => false end;
  bs_checkoutStatus := if ended then "none" else bs_checkoutStatus r;
  bs_checkoutPlanId := keep (bs_checkoutPlanId r); bs_checkoutIdempotencyKey := keep (bs_checkoutIdempotencyKey r);
  bs_checkoutRequestParams := bs_checkoutRequestParams r; bs_checkoutIntentCreatedAt := bs_checkoutIntentCreatedAt r;
  bs_checkoutSessionId := keep (bs_checkoutSessionId r); bs_checkoutSessionUrl := keep (bs_checkoutSessionUrl r);
  bs_checkoutSessionExpiresAt := keep (bs_checkoutSessionExpiresAt r);
  bs_billingOperationId := keep (bs_billingOperationId r); bs_billingOperationType := keep (bs_billingOperationType r);
  bs_billingOperationIdempotencyKey := keep (bs_billingOperationIdempotencyKey r);
  bs_billingOperationSubscriptionId := keep (bs_billingOperationSubscriptionId r);
  bs_entitlementBlocked := entitlementBlocked;
  bs_entitlementBlockedReason :=
    if priceMappingAuthoritative then
      if entitlementBlocked
      then Some ("stripe_price_unmapped:" +:+ coalesce (if truthy (price_id o) then price_id o else None) "missing")
      else None
    else bs_entitlementBlockedReason r;
  bs_updatedAt := nowMs |}.

Definition apply_lifecycle (ev : stripe_event) (g : gathered) (t : string) (nowMs : Z) (d : billing_db)
    : result billing_db billing_error :=
  let subId := coalesce (str (ga_state g) "id") "" in
  if t == "" then Ok d
  else match bd_subscriptions d !! t with
       | None => Ok d
       | Some r =>
           do* throw_if (is_snapshot_event (ev_type ev) && negb (ga_stale g)
                         && moved_on (Some r) (ga_fetchedRevision g)) BILLING_SNAPSHOT_CHANGED in
           if may_update ev g subId r
           then update_subscription t
                  (lifecycle_row ev (ga_state g) subId (plan_of_price (price_id (ga_state g)) d) nowMs r) d
           else Ok d
       end.

Definition webhook_transaction (ev : stripe_event) (g : gathered) (nowMs : Z) (d0 : billing_db)
    : result (tx_result * billing_db) billing_error :=
  let d := record_event ev d0 in
  if is_some (bd_events d !! ev_id ev ≫= be_processedAt) then Ok (tx_idempotent, d0)
  else
    let candidate := candidate_tenant ev g in
    let rows := identity_rows (subscriptionIdForEvent (ev_type ev) (ga_state g)) (customer_id ev g) d in
    let bound := head rows in
    let conflict := existsb (λ t, negb (bool_decide (Some t = bound))) rows
      || (truthy bound && truthy candidate && (bound != candidate)) in
    let tenantId := match bound with Some t => Some t | None => candidate end in
    if conflict then let* d' := mark_processed ev bound nowMs d in Ok (tx_ignored, d')
    else if (ev_type ev == "checkout.session.completed") && truthy tenantId then
      let* applied := apply_checkout ev g (coalesce tenantId "") nowMs d in
      match applied with
      | None => let* d' := mark_processed ev tenantId nowMs d in Ok (tx_ignored, d')
      | Some d1 => let* d' := mark_processed ev tenantId nowMs d1 in Ok (tx_processed tenantId, d')
      end
    else
      let* d1 := (if is_state_event (ev_type ev) && truthy tenantId
                  then apply_lifecycle ev g (coalesce tenantId "") nowMs d else Ok d) in
      let* d' := mark_processed ev tenantId nowMs d1 in Ok (tx_processed tenantId, d').

(** ** Attempts *)

Inductive webhook_response : Type :=
| WebhookError (status : Z)
| WebhookReceived (idempotent ignored : bool).

(** What an attempt meets: the tables at its two unlocked reads, Stripe's
    answers, the clock and the table its transaction runs on. *)
Record attempt_env := {
  ae_prior : billing_db;
  ae_known : billing_db;
  ae_retrieve : string → option json;
  ae_now : Z;
  ae_db : billing_db;
}.

Definition event_object (event : json) : option json :=
  match json_coalesce (json_field event "data" ≫= λ v, json_field v "object") (Some (JObject [])) with
  | Some (JObject l) => Some (JObject l)
  | _ => None
  end.

(** The event, or nothing when it is not one. The object is checked after the
    duplicate test. *)
Definition event_header (body : option json) : option (string * string * Z) :=
  match body with
  | Some (JObject l) =>
      let event := JObject l in
      match str event "id", str event "type", json_field event "created" with
      | Some id, Some type, Some (JNumber created) =>
          if (id == "") || (type == "") || negb (isSafeInteger created) || (created <? 0) then None
          else Some (id, type, created)
      | _, _, _ => None
      end
  | _ => None
  end.

Definition known_by_subscription (subId : string) (d : billing_db) : option billing_row :=
  snd <$> find_row (λ r, bs_stripeSubscriptionId r == Some subId) (bd_subscriptions d).

(** The subscription as it stands at Stripe, for the events whose snapshot is
    not trusted; [Err] answers the request. *)
Definition gather (ev : stripe_event) (env : attempt_env) : result gathered webhook_response :=
  let obj := ev_object ev in
  let* g := (if is_snapshot_event (ev_type ev) then
               let subId := coalesce (str obj "id") "" in
               if subId == "" then Err (WebhookError 400)
               else
                 let known := known_by_subscription subId (ae_known env) in
                 let fetched := bs_stripeStateRevision <$> known in
                 let stale := match known ≫= bs_stripeLastEventCreatedAt with
                              | Some k => ev_created ev <? k
                              | None => false
                              end in
                 if stale
                 then Ok {| ga_state := obj; ga_stale := true; ga_fetchedRevision := fetched;
                            ga_checkoutSubscription := None |}
                 else match ae_retrieve env subId with
                      | Some o => Ok {| ga_state := o; ga_stale := false; ga_fetchedRevision := fetched;
                                        ga_checkoutSubscription := None |}
                      | None => Err (WebhookError 502)
                      end
             else Ok {| ga_state := obj; ga_stale := false; ga_fetchedRevision := None;
                        ga_checkoutSubscription := None |}) in
  if ev_type ev == "checkout.session.completed" then
    let subId := coalesce (str obj "subscription") "" in
    if subId == "" then Ok g
    else
      let candidate := candidate_tenant ev g in
      let known := if truthy candidate then bd_subscriptions (ae_known env) !! coalesce candidate "" else None in
      match ae_retrieve env subId with
      | Some o => Ok {| ga_state := ga_state g; ga_stale := ga_stale g;
                        ga_fetchedRevision := bs_stripeStateRevision <$> known;
                        ga_checkoutSubscription := Some o |}
      | None => Err (WebhookError 502)
      end
  else Ok g.

(** [None] asks for another attempt. *)
Definition webhook_attempt (ev_header : string * string * Z) (body : json) (env : attempt_env)
    : option webhook_response * billing_db :=
  let d := ae_db env in
  let '(id, type, created) := ev_header in
  if is_some (bd_events (ae_prior env) !! id ≫= be_processedAt) then (Some (WebhookReceived true false), d)
  else match event_object body with
       | None => (Some (WebhookError 400), d)
       | Some obj =>
           let ev := {| ev_id := id; ev_type := type; ev_created := created * 1000; ev_object := obj |} in
           match gather ev env with
           | Err r => (Some r, d)
           | Ok g =>
               match webhook_transaction ev g (ae_now env) d with
               | Ok (tx_idempotent, d') => (Some (WebhookReceived true false), d')
               | Ok (tx_ignored, d') => (Some (WebhookReceived false true), d')
               | Ok (tx_processed _, d') => (Some (WebhookReceived false false), d')
               | Err BILLING_SNAPSHOT_CHANGED => (None, d)
               | Err ConstraintViolation => (Some (WebhookError 500), d)
               end
           end
       end.

(** The first attempt and up to two more; [envs] is what each of them met. The
    result is the answer and the table after the last attempt that ran. *)
Fixpoint attempts_from (h : string * string * Z) (body : json) (env : attempt_env) (more : list attempt_env)
    : webhook_response * billing_db :=
  match webhook_attempt h body env with
  | (Some r, d') => (r, d')
  | (None, d') =>
      match more with
      | env' :: more => attempts_from h body env' more
      | [] => (WebhookError 503, d')
      end
  end.

Definition handleWebhook (overLimit signed : bool) (body : option json) (env1 env2 env3 : attempt_env)
    : webhook_response * billing_db :=
  let d := ae_db env1 in
  if overLimit then (WebhookError 413, d)
  else if negb signed then (WebhookError 400, d)
  else match body, event_header body with
       | Some b, Some h => attempts_from h b env1 [env2; env3]
       | _, _ => (WebhookError 400, d)
       end.

(** ** What a transaction writes *)

(** A write of one row, by its kind. *)
Inductive row_write (ev : stripe_event) (g : gathered) (nowMs : Z) (r : billing_row) : billing_row → Prop :=
| rw_checkout subId customerId sessionId period different :
    ev_type ev = "checkout.session.completed" → str (ev_object ev) "subscription" = Some subId →
    (is_some (ga_checkoutSubscription g) = true → moved_on (Some r) (ga_fetchedRevision g) = false) →
    different = truthy (bs_stripeSubscriptionId r) && (bs_stripeSubscriptionId r != Some subId) →
    (different = true → is_ended (bs_status r) = true) →
    row_write ev g nowMs r (checkout_row subId customerId sessionId period different nowMs r)
| rw_lifecycle plan :
    is_state_event (ev_type ev) = true →
    (is_snapshot_event (ev_type ev) = true → ga_stale g = false → moved_on (Some r) (ga_fetchedRevision g) = false) →
    may_update ev g (coalesce (str (ga_state g) "id") "") r = true →
    row_write ev g nowMs r (lifecycle_row ev (ga_state g) (coalesce (str (ga_state g) "id") "") plan nowMs r).

Lemma update_subscription_inv t r d d' :
  update_subscription t r d = Ok d' → d' = with_subscriptions (<[t := r]> (bd_subscriptions d)) d.
Proof. unfold update_subscription. intros H. rinv. by simplify_eq. Qed.

(** The rows of two tables differ in at most one write. *)
Definition one_write (ev : stripe_event) (g : gathered) (nowMs : Z) (d d' : billing_db) : Prop :=
  bd_subscriptions d' = bd_subscriptions d ∨
  ∃ t r r', bd_subscriptions d !! t = Some r ∧ row_write ev g nowMs r r' ∧
    bd_subscriptions d' = <[t := r']> (bd_subscriptions d).

Lemma apply_checkout_inv ev g t nowMs d d' :
  ev_type ev = "checkout.session.completed" →
  apply_checkout ev g t nowMs d = Ok (Some d') → one_write ev g nowMs d d' ∧ bd_events d' = bd_events d.
Proof.
  intros Hty. unfold apply_checkout. destruct (str (ev_object ev) "subscription") as [subId|] eqn:Hsub;
    [|intros H; rinv; simplify_eq; by split; [left|]].
  destruct (_ || _); [intros H; rinv; simplify_eq; by split; [left|]|].
  intros H. rinv. destruct (_ || _ || _ || _) eqn:Hguard; [done|].
  destruct (bd_subscriptions d !! t) as [r1|] eqn:Hrow; [|rinv; simplify_eq; by split; [left|]].
  rinv. subst. apply update_subscription_inv in Hr0 as ->.
  apply orb_false_iff in Hguard as [[[Hg _]%orb_false_iff _]%orb_false_iff _].
  split; [|done]. right. exists t, r1. eexists. split; [done|]. split; [|done]. simpl in *.
  eapply rw_checkout; [done|done| |done|].
  - intros Hf. by rewrite Hf in Hr.
  - intros Hd. rewrite Hd in Hg. simpl in Hg. unfold is_ended, one_of. apply bool_decide_eq_true.
    destruct (decide (bs_status r1 = "cancelled")) as [->|H1]; [set_solver|].
    destruct (decide (bs_status r1 = "incomplete_expired")) as [->|H2]; [set_solver|].
    rewrite !bool_decide_false in Hg by congruence. done.
Qed.

Lemma apply_lifecycle_inv ev g t nowMs d d' :
  is_state_event (ev_type ev) = true →
  apply_lifecycle ev g t nowMs d = Ok d' → one_write ev g nowMs d d' ∧ bd_events d' = bd_events d.
Proof.
  intros Hty. unfold apply_lifecycle. destruct (t == ""); [intros H; rinv; simplify_eq; by split; [left|]|].
  destruct (bd_subscriptions d !! t) as [r|] eqn:Hrow; [|intros H; rinv; simplify_eq; by split; [left|]].
  intros H. rinv. destruct (may_update _ _ _ _) eqn:Hmay; [|rinv; simplify_eq; by split; [left|]].
  apply update_subscription_inv in H as ->. split; [|done]. right. exists t, r. eexists.
  split; [done|]. split; [|done]. apply rw_lifecycle; [done| |done].
  intros Hsnap Hst. by rewrite Hsnap, Hst in Hr.
Qed.

Lemma mark_processed_inv ev tenant nowMs d d' :
  mark_processed ev tenant nowMs d = Ok d' →
  bd_subscriptions d' = bd_subscriptions d ∧ bd_plans d' = bd_plans d ∧
  (∀ id e, id ≠ ev_id ev → bd_events d !! id = Some e → bd_events d' !! id = Some e) ∧
  (∀ e, bd_events d !! ev_id ev = Some e → is_some (bd_events d' !! ev_id ev ≫= be_processedAt) = true).
Proof.
  unfold mark_processed. intros H. rinv. subst d'. simpl. split_and!; try done.
  - intros id e Hne He. by rewrite lookup_alter_ne.
  - intros e He. by rewrite lookup_alter_eq, He.
Qed.

Lemma record_event_spec ev d :
  bd_subscriptions (record_event ev d) = bd_subscriptions d ∧
  (∃ e, bd_events (record_event ev d) !! ev_id ev = Some e) ∧
  (∀ id e, bd_events d !! id = Some e → bd_events (record_event ev d) !! id = Some e).
Proof.
  unfold record_event. destruct (bd_events d !! ev_id ev) as [e|] eqn:He; [split_and!; eauto|].
  simpl. split_and!; [done|rewrite lookup_insert_eq; eauto|].
  intros id e He'. rewrite lookup_insert_ne; [done|]. congruence.
Qed.

Definition processed (id : string) (d : billing_db) : bool := is_some (bd_events d !! id ≫= be_processedAt).

(** An event that was recorded and marked, with what came in between. *)
Lemma marked_processed ev tenant nowMs d0 d d' :
  bd_events d = bd_events (record_event ev d0) → mark_processed ev tenant nowMs d = Ok d' →
  bd_subscriptions d' = bd_subscriptions d ∧ processed (ev_id ev) d' = true ∧
  (∀ id, processed id d0 = true → processed id d' = true).
Proof.
  intros Hev (Hs & _ & Hother & Hself)%mark_processed_inv.
  destruct (record_event_spec ev d0) as (_ & [e He] & Hkeep).
  assert (processed (ev_id ev) d' = true) as Hp by (apply (Hself e); by rewrite Hev).
  split_and!; [done|done|]. intros id Hid. destruct (decide (id = ev_id ev)) as [->|Hne]; [done|].
  unfold processed in *. destruct (bd_events d0 !! id) as [x|] eqn:Hx; [|done].
  by rewrite (Hother id x Hne) by (rewrite Hev; by apply Hkeep).
Qed.

Lemma webhook_transaction_inv ev g nowMs d res d' :
  webhook_transaction ev g nowMs d = Ok (res, d') →
  one_write ev g nowMs d d' ∧ processed (ev_id ev) d' = true ∧
  (∀ id, processed id d = true → processed id d' = true) ∧
  (processed (ev_id ev) d = true → d' = d).
Proof.
  unfold webhook_transaction. destruct (record_event_spec ev d) as (Hsub & [e He] & Hkeep).
  destruct (is_some (bd_events (record_event ev d) !! ev_id ev ≫= be_processedAt)) eqn:Hp.
  { intros H. rinv. simplify_eq. assert (processed (ev_id ev) d' = true) as Hd.
    { unfold processed. revert Hp. unfold record_event.
      destruct (bd_events d' !! ev_id ev) as [x|] eqn:Hx; [by rewrite Hx|]. simpl. by rewrite lookup_insert_eq. }
    split_and!; try done. by left. }
  assert (processed (ev_id ev) d = false) as Hnot.
  { unfold processed. destruct (bd_events d !! ev_id ev) as [x|] eqn:Hx; [|done]. by rewrite (Hkeep _ _ Hx) in Hp. }
  assert (∀ d1 tn dd, one_write ev g nowMs (record_event ev d) d1 → bd_events d1 = bd_events (record_event ev d) →
    mark_processed ev tn nowMs d1 = Ok dd →
    one_write ev g nowMs d dd ∧ processed (ev_id ev) dd = true ∧ (∀ id, processed id d = true → processed id dd = true) ∧
    (processed (ev_id ev) d = true → dd = d)) as Hdone.
  { intros d1 tn dd Hw Hev Hm. destruct (marked_processed _ _ _ _ _ _ Hev Hm) as (Hs & Hp' & Hk').
    split_and!; [|done|done|congruence]. unfold one_write in *. by rewrite Hs, <-Hsub. }
  destruct (existsb _ _ || _).
  { intros H. rinv. simplify_eq. by apply (Hdone _ _ _ (or_introl eq_refl) eq_refl) in Hr. }
  destruct (_ && truthy _) eqn:Hchk.
  - intros H. rinv. bools. destruct r as [d1|]; rinv; simplify_eq.
    + apply apply_checkout_inv in Hr as [Hw Hev]; [|done]. by eapply Hdone.
    + by apply (Hdone _ _ _ (or_introl eq_refl) eq_refl) in Hr0.
  - intros H. rinv. simplify_eq. destruct (is_state_event _ && _) eqn:Hst; [|rinv; subst; by apply (Hdone _ _ _ (or_introl eq_refl) eq_refl) in Hr0].
    bools. apply apply_lifecycle_inv in Hr as [Hw Hev]; [|done]. by eapply Hdone.
Qed.

(** ** What a write may do *)

Lemma moved_on_false r fetched :
  moved_on (Some r) fetched = false → bs_stripeStateRevision r = coalesce fetched 0.
Proof. unfold moved_on. intros H%negb_false_iff%Z.eqb_eq. done. Qed.

(** The promises every write of a row keeps. *)
Record sound_write (ev : stripe_event) (subId : string) (r r' : billing_row) : Prop := {
  sw_revision : bs_stripeStateRevision r' = bs_stripeStateRevision r + 1;
  sw_identity : bs_stripeSubscriptionId r' ≠ bs_stripeSubscriptionId r →
    truthy (bs_stripeSubscriptionId r) = false ∨ is_ended (bs_status r) = true;
  sw_status : bs_status r' ≠ bs_status r →
    is_state_event (ev_type ev) = true ∧
    (ev_type ev = "customer.subscription.deleted" ∨
     ∀ s, bs_stripeLastEventCreatedAt r = Some s → s ≤ ev_created ev);
  sw_fence : bs_stripeSubscriptionId r' = bs_stripeSubscriptionId r →
    ∀ s, bs_stripeLastEventCreatedAt r = Some s → ∃ s', bs_stripeLastEventCreatedAt r' = Some s' ∧ s ≤ s';
  sw_ended : subId ≠ "" → ev_type ev ≠ "customer.subscription.deleted" → bs_status r = "cancelled" →
    bs_status r' ≠ "cancelled" → bs_stripeSubscriptionId r = Some subId →
    bs_checkoutStatus r = "completed" ∧ ∀ s, bs_stripeLastEventCreatedAt r = Some s → s < ev_created ev;
}.

Lemma checkout_sound ev subId0 subId customerId sessionId period different nowMs r :
  different = truthy (bs_stripeSubscriptionId r) && (bs_stripeSubscriptionId r != Some subId) →
  (different = true → is_ended (bs_status r) = true) →
  sound_write ev subId0 r (checkout_row subId customerId sessionId period different nowMs r).
Proof.
  intros Hd Hend. split; simpl; try done.
  - intros Hne. destruct different; [by right; apply Hend|].
    destruct (bs_stripeSubscriptionId r); [by destruct Hne|by left].
  - intros Heq s Hs. destruct different; [|exists s; by split; [|lia]]. exfalso. symmetry in Hd. bools. congruence.
Qed.

(** [may_update], as the reasons it names. *)
Lemma may_update_inv ev g subId r :
  may_update ev g subId r = true →
  let bound := bs_stripeSubscriptionId r in
  (truthy bound = true → bound ≠ Some subId → is_ended (bs_status r) = true) ∧
  (ev_type ev = "customer.subscription.deleted" ∨
   ∀ s, bs_stripeLastEventCreatedAt r = Some s → s ≤ ev_created ev) ∧
  (subId ≠ "" → ev_type ev ≠ "customer.subscription.deleted" → bs_status r = "cancelled" → bound = Some subId →
   bs_checkoutStatus r = "completed" ∧ ∀ s, bs_stripeLastEventCreatedAt r = Some s → s < ev_created ev).
Proof.
  unfold may_update. cbv zeta. intros H. split_and!.
  - intros Ht Hne. rewrite Ht, (bool_decide_false (bs_stripeSubscriptionId r = Some subId)) in H by done.
    cbn [negb orb andb] in H. by bools.
  - destruct (decide (ev_type ev = "customer.subscription.deleted")) as [Hd|Hd]; [by left|right].
    intros s Hs. rewrite Hs, (bool_decide_false (ev_type ev = _)) in H by done.
    destruct (Z.ltb_spec s (ev_created ev)); [lia|]. destruct (Z.leb_spec s (ev_created ev)); [lia|].
    by rewrite ?andb_false_r, ?orb_false_r, ?andb_false_r in H.
  - intros Hsub Hd Hc Hb. rewrite Hb, Hc, (bool_decide_false (ev_type ev = _)) in H by done.
    rewrite (bool_decide_true (Some subId = Some subId)), (bool_decide_true ("cancelled" = "cancelled")) in H by done.
    rewrite ?andb_false_r in H. cbn [negb andb orb] in H. rewrite orb_false_r, ?andb_true_r in H.
    apply andb_true_iff in H as [_ H]. apply negb_true_iff, negb_false_iff in H. bools.
    split; [done|]. intros s Hs. rewrite Hs in *.
    by destruct (Z.ltb_spec s (ev_created ev)).
Qed.

Lemma lifecycle_sound ev g subId plan nowMs r :
  is_state_event (ev_type ev) = true → may_update ev g subId r = true →
  sound_write ev subId r (lifecycle_row ev (ga_state g) subId plan nowMs r).
Proof.
  intros Hst (Hid & Hfence & Hend)%may_update_inv. split; simpl.
  - done.
  - intros Hne. destruct (truthy (bs_stripeSubscriptionId r)) eqn:Ht; [right|by left].
    apply Hid; [done|]. intros Heq. rewrite Heq in Hne. by destruct (subId == "") in Hne.
  - by intros _.
  - intros _ s Hs. rewrite Hs. simpl. eexists. split; [done|]. lia.
  - intros Hsub Hd Hc _ Hb. by apply Hend.
Qed.

Lemma row_write_sound ev g nowMs r r' :
  row_write ev g nowMs r r' → sound_write ev (coalesce (str (ga_state g) "id") "") r r'.
Proof. destruct 1; [by apply checkout_sound|by apply lifecycle_sound]. Qed.

(** The revision a fetched resource was read at. *)
Lemma row_write_revision ev g nowMs r r' :
  row_write ev g nowMs r r' →
  (is_snapshot_event (ev_type ev) = true → ga_stale g = false →
   bs_stripeStateRevision r = coalesce (ga_fetchedRevision g) 0).
Proof.
  destruct 1 as [? ? ? ? ? Hty|? _ Hm _]; intros Hsnap Hstale.
  - rewrite Hty in Hsnap. vm_compute in Hsnap. done.
  - by apply moved_on_false, Hm.
Qed.

(** ** Attempts *)

Lemma gather_snapshot ev env g :
  gather ev env = Ok g → is_snapshot_event (ev_type ev) = true →
  ga_fetchedRevision g = bs_stripeStateRevision <$> known_by_subscription (coalesce (str (ev_object ev) "id") "") (ae_known env).
Proof.
  unfold gather. intros H Hsnap. rewrite Hsnap in H.
  assert ((ev_type ev == "checkout.session.completed") = false) as Hne.
  { apply bool_decide_eq_false. intros Heq. rewrite Heq in Hsnap. by vm_compute in Hsnap. }
  rewrite Hne in H. rinv. subst r.
  destruct (_ == "") in Hr; [done|]. destruct (match _ with Some _ => _ | None => _ end); [by rinv; subst|].
  destruct (ae_retrieve env _); rinv; by subst.
Qed.

(** Nothing known is nothing newer. *)
Lemma gather_unknown ev env g :
  gather ev env = Ok g → is_snapshot_event (ev_type ev) = true →
  known_by_subscription (coalesce (str (ev_object ev) "id") "") (ae_known env) = None → ga_stale g = false.
Proof.
  unfold gather. intros H Hsnap Hknown. rewrite Hsnap, Hknown in H. rinv.
  destruct (_ == "") in Hr; [done|]. cbn [mbind option_bind] in Hr.
  destruct (ae_retrieve env _); rinv; subst r. repeat (case_match; rinv; simplify_eq; try done).
Qed.

(** The event an attempt works on. *)
Definition attempt_event (h : string * string * Z) (obj : json) : stripe_event :=
  {| ev_id := h.1.1; ev_type := h.1.2; ev_created := h.2 * 1000; ev_object := obj |}.

Lemma attempt_inv h body env res d' :
  webhook_attempt h body env = (res, d') →
  (d' = ae_db env ∧ ∀ i, res ≠ Some (WebhookReceived false i)) ∨
  ∃ obj g res0, event_object body = Some obj ∧ gather (attempt_event h obj) env = Ok g ∧
    webhook_transaction (attempt_event h obj) g (ae_now env) (ae_db env) = Ok (res0, d').
Proof.
  destruct h as [[id type] created]. unfold webhook_attempt.
  destruct (is_some _); [intros [= <- <-]; left; by split; [|intros []]|].
  destruct (event_object body) as [obj|]; [|intros [= <- <-]; left; by split; [|intros []]].
  destruct (gather _ env) as [g|r] eqn:Hg.
  2:{ intros [= <- <-]. left. split; [done|]. intros i [= ->]. unfold gather in Hg.
      repeat (case_match; simplify_eq; try done). }
  destruct (webhook_transaction _ _ _ _) as [[res0 dd]|e] eqn:Ht.
  - intros H. right. exists obj, g, res0. split_and!; [done|done|].
    unfold attempt_event. simpl. rewrite Ht. destruct res0; by injection H as <- <-.
  - destruct e; intros [= <- <-]; left; by split; [|intros []].
Qed.

(** ** Deliveries *)

(** One attempt of some delivery, or anything that leaves the processed events
    as they are (checkout, cancel and resume, administration). *)
Inductive billing_step : billing_db → billing_db → Prop :=
| bs_attempt h body env res d' :
    webhook_attempt h body env = (res, d') → billing_step (ae_db env) d'
| bs_elsewhere d d' : bd_events d' = bd_events d → billing_step d d'.

Lemma step_processed d d' id : billing_step d d' → processed id d = true → processed id d' = true.
Proof.
  destruct 1 as [h body env res d' H|d d' H]; intros Hp; [|unfold processed in *; by rewrite H].
  apply attempt_inv in H as [[-> _]|(obj & g & res0 & _ & _ & Ht)]; [done|].
  apply webhook_transaction_inv in Ht as (_ & _ & Hkeep & _). by apply Hkeep.
Qed.

(** C37. A Stripe event takes effect at most once: a delivery that was
    acknowledged without being marked idempotent leaves its event processed,
    and after that, whatever else happens, no delivery of the event -- however
    stale its first look at the table -- changes anything. *)
Theorem webhook_once h body env i d d' :
  webhook_attempt h body env = (Some (WebhookReceived false i), d) →
  rtc billing_step d d' →
  processed h.1.1 d' = true ∧
  (∀ body' env' type created, ae_db env' = d' →
     (webhook_attempt (h.1.1, type, created) body' env').2 = d' ∧
     (∀ j, (webhook_attempt (h.1.1, type, created) body' env').1 ≠ Some (WebhookReceived false j)) ∧
     (ae_prior env' = d' →
      (webhook_attempt (h.1.1, type, created) body' env').1 = Some (WebhookReceived true false))).
Proof.
  intros Hfirst Hs.
  assert (processed h.1.1 d = true) as Hd.
  { apply attempt_inv in Hfirst as [[_ H]|(obj & g & res0 & _ & _ & Ht)]; [by destruct (H i)|].
    by apply webhook_transaction_inv in Ht as (_ & ? & _). }
  assert (processed h.1.1 d' = true) as Hd'.
  { clear Hfirst. induction Hs as [|d1 d2 d3 H _ IH]; [done|]. apply IH. by eapply step_processed. }
  split; [done|]. intros body' env' type created Henv.
  destruct (webhook_attempt (h.1.1, type, created) body' env') as [res dd] eqn:Ha. simpl.
  assert (dd = d' ∧ ∀ j, res ≠ Some (WebhookReceived false j)) as [-> Hres].
  { pose proof Ha as [[-> Hno]|(obj & g & res0 & Hobj & Hg & Ht)]%attempt_inv; [by rewrite Henv|].
    pose proof Ht as (_ & _ & _ & Hsame)%webhook_transaction_inv. rewrite Henv in Hsame, Ht. split; [by apply Hsame|].
    intros j ->. revert Ha. unfold webhook_attempt. rewrite Hobj. unfold attempt_event in Hg, Ht. simpl in Hg, Ht.
    destruct (is_some _); [done|]. rewrite Hg, Henv, Ht. unfold webhook_transaction in Ht.
    assert (is_some (bd_events (record_event {| ev_id := h.1.1; ev_type := type; ev_created := created * 1000;
      ev_object := obj |} d') !! h.1.1 ≫= be_processedAt) = true) as Hp.
    { unfold processed in Hd'. unfold record_event. simpl. by destruct (bd_events d' !! h.1.1) eqn:E; [rewrite E|]. }
    simpl in Ht. rewrite Hp in Ht. injection Ht as <- <-. done. }
  split_and!; [done|done|]. intros Hprior. revert Ha. unfold webhook_attempt. rewrite Hprior.
  unfold processed in Hd'. rewrite Hd'. by intros [= <-].
Qed.

(** What one delivery may write: at most one tenant's row, and that row in
    order -- its revision advances by one; its subscription is replaced only
    when it has none or has ended; its status changes only by a lifecycle event
    not older than the last one applied (or the deletion itself); the event
    fence of the bound subscription never moves back; an ended subscription
    comes back only through a completed checkout and a newer event; and a
    resource fetched from Stripe is written only over the revision that was
    read before it was fetched. *)
Theorem webhook_write_sound h body env res d' :
  webhook_attempt h body env = (res, d') →
  bd_subscriptions d' = bd_subscriptions (ae_db env) ∨
  ∃ t r r' obj g, bd_subscriptions (ae_db env) !! t = Some r ∧
    bd_subscriptions d' = <[t := r']> (bd_subscriptions (ae_db env)) ∧
    event_object body = Some obj ∧ gather (attempt_event h obj) env = Ok g ∧
    sound_write (attempt_event h obj) (coalesce (str (ga_state g) "id") "") r r' ∧
    (is_snapshot_event h.1.2 = true → ga_stale g = false →
     bs_stripeStateRevision r = coalesce (bs_stripeStateRevision <$>
       known_by_subscription (coalesce (str obj "id") "") (ae_known env)) 0).
Proof.
  intros [[-> _]|(obj & g & res0 & Hobj & Hg & Ht)]%attempt_inv; [by left|].
  apply webhook_transaction_inv in Ht as ([Hsame|(t & r & r' & Hr & Hw & Hd')] & _); [by left|right].
  exists t, r, r', obj, g. split_and!; try done; [by eapply row_write_sound|].
  intros Hsnap Hst. rewrite (row_write_revision _ _ _ _ _ Hw Hsnap Hst). by rewrite (gather_snapshot _ _ _ Hg Hsnap).
Qed.

(** A subscription that no row is bound to when its event is read is never
    adopted by that event once the tenant's row has been written before: the
    revision it is compared with is then 0, so no row with another revision
    changes, however often the event is delivered. *)
Theorem unknown_subscription_never_adopted h body env res d' obj t r :
  event_object body = Some obj → is_snapshot_event h.1.2 = true →
  known_by_subscription (coalesce (str obj "id") "") (ae_known env) = None →
  webhook_attempt h body env = (res, d') →
  bd_subscriptions (ae_db env) !! t = Some r → bs_stripeStateRevision r ≠ 0 →
  bd_subscriptions d' !! t = Some r.
Proof.
  intros Hobj Hsnap Hknown [[-> _]|(obj' & g & res0 & Hobj' & Hg & Ht)]%attempt_inv Hr Hrev; [done|].
  assert (obj' = obj) as -> by congruence.
  apply webhook_transaction_inv in Ht as ([->|(t' & r0 & r' & Hr0 & Hw & ->)] & _); [done|].
  destruct (decide (t = t')) as [->|Hne]; [|by rewrite lookup_insert_ne].
  assert (r0 = r) as -> by congruence. exfalso. apply Hrev.
  assert (ga_stale g = false) as Hst.
  { by eapply gather_unknown. }
  rewrite (row_write_revision _ _ _ _ _ Hw Hsnap Hst), (gather_snapshot _ _ _ Hg Hsnap).
  unfold attempt_event. simpl. by rewrite Hknown.
Qed.

(** ** A tenant that changes its subscription *)

Definition ended_row : billing_row := {|
  bs_planId := "basic"; bs_stripeCustomerId := Some "cus_1"; bs_stripeSubscriptionId := Some "sub_A";
  bs_status := "cancelled"; bs_currentPeriodStart := 0; bs_currentPeriodEnd := None;
  bs_stripeLastEventCreatedAt := Some 100000; bs_stripeStateRevision := 4; bs_cancelAtPeriodEnd := false;
  bs_checkoutStatus := "none"; bs_checkoutPlanId := None; bs_checkoutIdempotencyKey := None;
  bs_checkoutRequestParams := None; bs_checkoutIntentCreatedAt := None;
  bs_checkoutSessionId := None; bs_checkoutSessionUrl := None; bs_checkoutSessionExpiresAt := None;
  bs_billingOperationId := None; bs_billingOperationType := None; bs_billingOperationIdempotencyKey := None;
  bs_billingOperationSubscriptionId := None; bs_entitlementBlocked := false;
  bs_entitlementBlockedReason := None; bs_updatedAt := 0 |}.

Definition ended_db : billing_db := {|
  bd_tenants := {["t1"]}; bd_subscriptions := {["t1" := ended_row]}; bd_events := ∅;
  bd_plans := {["basic" := {| pp_isActive := true; pp_isPublic := true;
                            pp_stripePriceId := Some "price_1"; pp_stripePriceHistory := [] |}]} |}.

Definition stripe_object (id status : string) : json :=
  JObject [("id", JString id); ("customer", JString "cus_1"); ("status", JString status);
           ("metadata", JObject [("tenant_id", JString "t1")]);
           ("items", JObject [("data", JArray [JObject [("price", JObject [("id", JString "price_1")])]])])].

Definition event_body (id type : string) (created : Z) (object : json) : json :=
  JObject [("id", JString id); ("type", JString type); ("created", JNumber created);
           ("data", JObject [("object", object)])].

(** Stripe says: [sub_A] is over and [sub_B] is paid. *)
Definition stripe_says (id : string) : option json :=
  if id == "sub_B" then Some (stripe_object "sub_B" "active")
  else if id == "sub_A" then Some (stripe_object "sub_A" "canceled") else None.

Definition quiet_env (d : billing_db) : attempt_env := {|
  ae_prior := d; ae_known := d; ae_retrieve := stripe_says; ae_now := 500000; ae_db := d |}.

Definition deliver (body : json) (d : billing_db) : webhook_response * billing_db :=
  handleWebhook false true (Some body) (quiet_env d) (quiet_env d) (quiet_env d).

Definition checkout_B : json :=
  event_body "evt_1" "checkout.session.completed" 200
    (JObject [("id", JString "cs_1"); ("subscription", JString "sub_B"); ("customer", JString "cus_1");
              ("client_reference_id", JString "t1")]).
Definition created_B : json := event_body "evt_2" "customer.subscription.created" 201 (stripe_object "sub_B" "active").
Definition deleted_A : json := event_body "evt_3" "customer.subscription.deleted" 90 (stripe_object "sub_A" "canceled").

Definition after_checkout : billing_db := (deliver checkout_B ended_db).2.
Definition after_deletion : billing_db := (deliver deleted_A after_checkout).2.

Definition binding (d : billing_db) : option (option string * string * string) :=
  (λ r, (bs_stripeSubscriptionId r, bs_status r, bs_checkoutStatus r)) <$> bd_subscriptions d !! "t1".

(** In order, the new subscription is bound and then activated. *)
Example checkout_then_created :
  binding after_checkout = Some (Some "sub_B", "cancelled", "completed") ∧
  binding (deliver created_B after_checkout).2 = Some (Some "sub_B", "active", "completed").
Proof. split; vm_compute; reflexivity. Qed.

(** A deletion of the previous subscription that arrives after a completed
    checkout takes the tenant back from the paid subscription: the checkout
    clears the event fence but leaves the status as it was, so the older event
    of the other subscription counts as a newer replacement. The paid
    subscription's own events are then answered with 503, on every delivery. *)
Example delayed_deletion_strands_checkout :
  binding after_checkout = Some (Some "sub_B", "cancelled", "completed") ∧
  (deliver deleted_A after_checkout).1 = WebhookReceived false false ∧
  binding after_deletion = Some (Some "sub_A", "cancelled", "none") ∧
  deliver created_B after_deletion = (WebhookError 503, after_deletion).
Proof. split_and!; vm_compute; reflexivity. Qed.

Definition event_header_of (body : json) : string * string * Z :=
  coalesce (event_header (Some body)) ("", "", 0).

Lemma webhook_once_witness : processed "evt_1" after_checkout = true.
Proof.
  refine (proj1 (webhook_once (event_header_of checkout_B) checkout_B (quiet_env ended_db) false after_checkout
    after_checkout _ (rtc_refl _ _))).
  vm_compute. reflexivity.
Defined.

Lemma webhook_write_sound_witness :
  bd_subscriptions after_checkout ≠ bd_subscriptions ended_db ∧
  ∃ r r', bd_subscriptions ended_db !! "t1" = Some r ∧ bd_subscriptions after_checkout !! "t1" = Some r' ∧
    bs_stripeStateRevision r' = bs_stripeStateRevision r + 1.
Proof.
  assert (bd_subscriptions after_checkout ≠ bd_subscriptions ended_db) as Hne.
  { intros H. assert (binding after_checkout = binding ended_db) as Hb by (unfold binding; by rewrite H).
    vm_compute in Hb. discriminate Hb. }
  split; [exact Hne|].
  destruct (webhook_write_sound (event_header_of checkout_B) checkout_B (quiet_env ended_db)
    (Some (WebhookReceived false false)) after_checkout) as [H|(t & r & r' & obj & g & Hr & Hd & _ & _ & Hs & _)].
  - vm_compute. reflexivity.
  - destruct (Hne H).
  - assert (t = "t1") as ->.
    { simpl in Hr. apply lookup_singleton_Some in Hr as [<- _]. reflexivity. }
    exists r, r'. split; [exact Hr|]. split; [rewrite Hd; apply lookup_insert_eq|exact (sw_revision _ _ _ _ Hs)].
Defined.

Lemma unknown_subscription_never_adopted_witness :
  bd_subscriptions (deliver created_B ended_db).2 !! "t1" = Some ended_row ∧
  (deliver created_B ended_db).1 = WebhookError 503.
Proof.
  split; [|vm_compute; reflexivity].
  apply (unknown_subscription_never_adopted (event_header_of created_B) created_B (quiet_env ended_db)
    None (deliver created_B ended_db).2 (stripe_object "sub_B" "active") "t1" ended_row);
    done || (vm_compute; reflexivity) || (vm_compute; discriminate).
Defined.
