(* ===== verification/BillingOperation.v ===== *)
(** * BillingOperation: cancelling and resuming a subscription

    [src/lib/billing-operation.ts] ([runBillingOperation]) and the error
    classes of [src/lib/stripe.ts]. An operation is claimed in one transaction,
    executed at Stripe under the claim's idempotency key, and finalized (or,
    when Stripe definitively refuses, released) in another; any number of
    processes may be between the two. Stripe's answer and the random id are
    arguments. *)

From S2P Require Import Prelude DatabaseTime JobStatus Json Schema Authority Availability Payload.
From S2P Require Import PrinterVirtual Capability Entitlements Samples JobProtocol JobDelivery.
From S2P Require Import JobMaintenance AgentJobs JobService Lifecycle Billing.

Inductive operation_type : Type := op_cancel | op_resume.

#[export] Instance operation_type_eq_dec : EqDecision operation_type.
Proof. solve_decision. Defined.

Definition type_text (o : operation_type) : string :=
  match o with op_cancel => "cancel" | op_resume => "resume" end.

(** The local [cancel_at_period_end] the routes pass with each type. *)
Definition op_cancelAtPeriodEnd (o : operation_type) : bool :=
  match o with op_cancel => true | op_resume => false end.

Inductive BillingOperationState : Type :=
| proceed (operationId idempotencyKey subscriptionId subscriptionStatus : string)
| in_progress
| rejected
| missing.

Inductive operation_error : Type :=
| OperationTenantError (e : tenant_error)
| OperationAuthorityChanged.

(** ** Stripe's answer *)

Definition isRetryableStripeMutationStatus (status : Z) : bool :=
  (status =? 408) || (status =? 409) || (status =? 429) || (500 <=? status).

(** The call succeeded, was refused with a status, or failed without one. *)
Inductive stripe_answer : Type := stripe_ok | stripe_status (status : Z) | stripe_failed.

Definition isDefinitiveStripeMutationError (a : stripe_answer) : bool :=
  match a with stripe_status s => negb (isRetryableStripeMutationStatus s) | _ => false end.

(** The path of the call, and whether it carries the operation's form. *)
Definition stripeBillingMutation (o : operation_type) (subscriptionStatus subscriptionId : string) : string * bool :=
  let pausedResume := bool_decide (o = op_resume) && (subscriptionStatus == "paused") in
  if pausedResume then ("subscriptions/" +:+ subscriptionId +:+ "/resume", false)
  else ("subscriptions/" +:+ subscriptionId, true).

(** ** The claim *)

Definition with_operation (id type key sub : option string) (nowMs : Z) (r : billing_row) : billing_row := {|
  bs_planId := bs_planId r; bs_stripeCustomerId := bs_stripeCustomerId r;
  bs_stripeSubscriptionId := bs_stripeSubscriptionId r; bs_status := bs_status r;
  bs_currentPeriodStart := bs_currentPeriodStart r; bs_currentPeriodEnd := bs_currentPeriodEnd r;
  bs_stripeLastEventCreatedAt := bs_stripeLastEventCreatedAt r;
  bs_stripeStateRevision := bs_stripeStateRevision r; bs_cancelAtPeriodEnd := bs_cancelAtPeriodEnd r;
  bs_checkoutStatus := bs_checkoutStatus r; bs_checkoutPlanId := bs_checkoutPlanId r;
  bs_checkoutIdempotencyKey := bs_checkoutIdempotencyKey r; bs_checkoutRequestParams := bs_checkoutRequestParams r;
  bs_checkoutIntentCreatedAt := bs_checkoutIntentCreatedAt r; bs_checkoutSessionId := bs_checkoutSessionId r;
  bs_checkoutSessionUrl := bs_checkoutSessionUrl r; bs_checkoutSessionExpiresAt := bs_checkoutSessionExpiresAt r;
  bs_billingOperationId := id; bs_billingOperationType := type; bs_billingOperationIdempotencyKey := key;
  bs_billingOperationSubscriptionId := sub;
  bs_entitlementBlocked := bs_entitlementBlocked r; bs_entitlementBlockedReason := bs_entitlementBlockedReason r;
  bs_updatedAt := nowMs |}.

Definition cleared (nowMs : Z) (r : billing_row) : billing_row := with_operation None None None None nowMs r.

Definition with_cancelAtPeriodEnd (v : bool) (r : billing_row) : billing_row := {|
  bs_planId := bs_planId r; bs_stripeCustomerId := bs_stripeCustomerId r;
  bs_stripeSubscriptionId := bs_stripeSubscriptionId r; bs_status := bs_status r;
  bs_currentPeriodStart := bs_currentPeriodStart r; bs_currentPeriodEnd := bs_currentPeriodEnd r;
  bs_stripeLastEventCreatedAt := bs_stripeLastEventCreatedAt r;
  bs_stripeStateRevision := bs_stripeStateRevision r; bs_cancelAtPeriodEnd := v;
  bs_checkoutStatus := bs_checkoutStatus r; bs_checkoutPlanId := bs_checkoutPlanId r;
  bs_checkoutIdempotencyKey := bs_checkoutIdempotencyKey r; bs_checkoutRequestParams := bs_checkoutRequestParams r;
  bs_checkoutIntentCreatedAt := bs_checkoutIntentCreatedAt r; bs_checkoutSessionId := bs_checkoutSessionId r;
  bs_checkoutSessionUrl := bs_checkoutSessionUrl r; bs_checkoutSessionExpiresAt := bs_checkoutSessionExpiresAt r;
  bs_billingOperationId := bs_billingOperationId r; bs_billingOperationType := bs_billingOperationType r;
  bs_billingOperationIdempotencyKey := bs_billingOperationIdempotencyKey r;
  bs_billingOperationSubscriptionId := bs_billingOperationSubscriptionId r;
  bs_entitlementBlocked := bs_entitlementBlocked r; bs_entitlementBlockedReason := bs_entitlementBlockedReason r;
  bs_updatedAt := bs_updatedAt r |}.

Definition set_row (t : string) (r : billing_row) (b : billing_db) : billing_db :=
  with_subscriptions (<[t := r]> (bd_subscriptions b)) b.

(** Whether the status lets the operation reach Stripe. *)
Definition status_refuses (o : operation_type) (status : string) : bool :=
  is_ended status || (bool_decide (o = op_cancel) && (status == "paused")).

Definition operation_key (o : operation_type) (operationId : string) : string :=
  "billing-" +:+ type_text o +:+ "-" +:+ operationId.

(** The claim on a row, under the row's lock. *)
Definition claim_subscription (o : operation_type) (uuid : string) (nowMs : Z) (r : billing_row)
    : BillingOperationState * option billing_row :=
  match bs_stripeSubscriptionId r with
  | None => (missing, None)
  | Some sub =>
      if sub == "" then (missing, None)
      else if status_refuses o (bs_status r) then (rejected, None)
      else
        let stale := truthy (bs_billingOperationId r) && truthy (bs_billingOperationSubscriptionId r)
                     && (bs_billingOperationSubscriptionId r != Some sub) in
        let r1 := if stale then cleared nowMs r else r in
        if truthy (bs_billingOperationId r1) then
          if (bs_billingOperationType r1 != Some (type_text o))
             || negb (truthy (bs_billingOperationIdempotencyKey r1))
             || negb (truthy (bs_billingOperationSubscriptionId r1))
          then (in_progress, None)
          else (proceed (coalesce (bs_billingOperationId r1) "") (coalesce (bs_billingOperationIdempotencyKey r1) "")
                  (coalesce (bs_billingOperationSubscriptionId r1) "") (bs_status r1), None)
        else
          let operationId := "billop_" +:+ uuid in
          let key := operation_key o operationId in
          (proceed operationId key sub (bs_status r1),
           Some (with_operation (Some operationId) (Some (type_text o)) (Some key) (Some sub) nowMs r1))
  end.

Definition claim (manager : ManagerClaims) (o : operation_type) (uuid : string) (ck : clock) (d : db) (a : auth_db)
    (b : billing_db) : result (BillingOperationState * billing_db) operation_error :=
  let t := mc_tenantId manager in
  do* match requireActiveTenantInTransaction d t with
      | Ok _ => Ok tt | Err e => Err (OperationTenantError e) end in
  do* match requireManagerActorInTransaction a ck manager billing_manage with
      | Ok _ => Ok tt | Err _ => Err OperationAuthorityChanged end in
  match bd_subscriptions b !! t with
  | None => Ok (missing, b)
  | Some r =>
      let '(state, r') := claim_subscription o uuid (clock_timestamp ck) r in
      Ok (state, match r' with Some r' => set_row t r' b | None => b end)
  end.

(** ** After the call *)

(** Clearing the claim Stripe refused. *)
Definition release_claim (t operationId sub : string) (nowMs : Z) (b : billing_db) : billing_db :=
  match bd_subscriptions b !! t with
  | Some r => if (bs_billingOperationId r == Some operationId) && (bs_stripeSubscriptionId r == Some sub)
              then set_row t (cleared nowMs r) b else b
  | None => b
  end.

Inductive finalized : Type := already_finalized | stale_identity | updated.

Definition finalize (t : string) (o : operation_type) (operationId sub : string) (nowMs : Z) (b : billing_db)
    : finalized * billing_db :=
  match bd_subscriptions b !! t with
  | None => (already_finalized, b)
  | Some r =>
      if bs_billingOperationId r != Some operationId then (already_finalized, b)
      else if bs_stripeSubscriptionId r != Some sub then (stale_identity, set_row t (cleared nowMs r) b)
      else (updated, set_row t (with_cancelAtPeriodEnd (op_cancelAtPeriodEnd o) (cleared nowMs r)) b)
  end.

Inductive operation_response : Type := OperationOk | OperationError (status : Z).

(** What follows the claim, on the table as it is once Stripe has answered. *)
Definition conclude (t : string) (o : operation_type) (s : BillingOperationState) (answer : stripe_answer)
    (nowMs : Z) (b : billing_db) : operation_response * billing_db :=
  match s with
  | missing | rejected | in_progress => (OperationError 409, b)
  | proceed operationId _ sub _ =>
      match answer with
      | stripe_ok =>
          match finalize t o operationId sub nowMs b with
          | (stale_identity, b') => (OperationError 409, b')
          | (_, b') => (OperationOk, b')
          end
      | _ => if isDefinitiveStripeMutationError answer
             then (OperationError 409, release_claim t operationId sub nowMs b)
             else (OperationError 502, b)
      end
  end.

(** One request with nobody else in between. *)
Definition runBillingOperation (manager : ManagerClaims) (o : operation_type) (uuid : string) (answer : stripe_answer)
    (ck : clock) (nowMs : Z) (d : db) (a : auth_db) (b : billing_db)
    : result (operation_response * billing_db) operation_error :=
  let* (s, b1) := claim manager o uuid ck d a b in
  Ok (conclude (mc_tenantId manager) o s answer nowMs b1).

(** The two routes; an error that is not one of the refusals is rethrown and
    answered by the framework. *)
Definition operation_route (o : operation_type) (claims : option ManagerClaims) (uuid : string)
    (answer : stripe_answer) (ck : clock) (nowMs : Z) (d : db) (a : auth_db) (b : billing_db)
    : operation_response * billing_db :=
  match claims with
  | None => (OperationError 401, b)
  | Some c =>
      if negb (truthy (mc_userId c)) then (OperationError 401, b)
      else if negb (hasManagerPermission c billing_manage) then (OperationError 403, b)
      else match runBillingOperation c o uuid answer ck nowMs d a b with
           | Ok r => r
           | Err OperationAuthorityChanged
           | Err (OperationTenantError TenantDeletedError)
           | Err (OperationTenantError TenantSuspendedError) => (OperationError 403, b)
           | Err _ => (OperationError 500, b)
           end
  end.

Definition cancel_POST := operation_route op_cancel.
Definition resume_POST := operation_route op_resume.

(** ** Overlapping operations *)

(** A process between its claim and the end of its Stripe call. *)
Record stripe_call := {
  fl_tenant : string;
  fl_type : operation_type;
  fl_id : string;
  fl_key : string;
  fl_sub : string;
}.

(** The operation is the one recorded on the row. *)
Definition pending_on (f : stripe_call) (r : billing_row) : Prop := bs_billingOperationId r = Some (fl_id f).

(** An id that no row and no process has. *)
Definition fresh_id (uuid : string) (b : billing_db) (cs : list stripe_call) : Prop :=
  (∀ t r, bd_subscriptions b !! t = Some r → bs_billingOperationId r ≠ Some ("billop_" +:+ uuid)) ∧
  (∀ f, f ∈ cs → fl_id f ≠ "billop_" +:+ uuid).

Inductive operation_step : billing_db * list stripe_call → billing_db * list stripe_call → Prop :=
| os_claim m o uuid ck d a b cs id key sub st b' :
    claim m o uuid ck d a b = Ok (proceed id key sub st, b') → fresh_id uuid b cs →
    operation_step (b, cs)
      (b', {| fl_tenant := mc_tenantId m; fl_type := o; fl_id := id; fl_key := key; fl_sub := sub |} :: cs)
| os_refused m o uuid ck d a b cs s b' :
    claim m o uuid ck d a b = Ok (s, b') → (∀ id key sub st, s ≠ proceed id key sub st) →
    operation_step (b, cs) (b', cs)
| os_conclude b cs1 f cs2 st answer nowMs :
    operation_step (b, cs1 ++ f :: cs2)
      ((conclude (fl_tenant f) (fl_type f) (proceed (fl_id f) (fl_key f) (fl_sub f) st) answer nowMs b).2, cs1 ++ cs2)
| os_crash b cs1 f cs2 : operation_step (b, cs1 ++ f :: cs2) (b, cs1 ++ cs2)
| os_webhook h body env res b' cs :
    webhook_attempt h body env = (res, b') → operation_step (ae_db env, cs) (b', cs).

(** The operation columns of a row are all there or the row is free. *)
Definition columns_ok (r : billing_row) : Prop :=
  bs_billingOperationId r = None ∨
  ∃ o id sub, bs_billingOperationId r = Some id ∧ bs_billingOperationType r = Some (type_text o) ∧
    bs_billingOperationIdempotencyKey r = Some (operation_key o id) ∧
    bs_billingOperationSubscriptionId r = Some sub ∧ id ≠ "" ∧ sub ≠ "".

Record operations_ok (b : billing_db) (cs : list stripe_call) : Prop := {
  oo_rows : ∀ t r, bd_subscriptions b !! t = Some r → columns_ok r;
  oo_own : ∀ t1 t2 r1 r2 id, bd_subscriptions b !! t1 = Some r1 → bd_subscriptions b !! t2 = Some r2 →
    bs_billingOperationId r1 = Some id → bs_billingOperationId r2 = Some id → t1 = t2;
  oo_key : ∀ f, f ∈ cs → fl_key f = operation_key (fl_type f) (fl_id f);
  oo_row : ∀ f t r, f ∈ cs → bd_subscriptions b !! t = Some r → pending_on f r →
    t = fl_tenant f ∧ bs_billingOperationType r = Some (type_text (fl_type f)) ∧
    bs_billingOperationSubscriptionId r = Some (fl_sub f);
  oo_same : ∀ f1 f2, f1 ∈ cs → f2 ∈ cs → fl_id f1 = fl_id f2 → f1 = f2;
}.

(** A row that changed nothing of its operation, or dropped it. *)
Definition operation_kept (r r' : billing_row) : Prop :=
  (bs_billingOperationId r' = bs_billingOperationId r ∧ bs_billingOperationType r' = bs_billingOperationType r ∧
   bs_billingOperationIdempotencyKey r' = bs_billingOperationIdempotencyKey r ∧
   bs_billingOperationSubscriptionId r' = bs_billingOperationSubscriptionId r) ∨
  bs_billingOperationId r' = None.

Lemma type_text_inj o1 o2 : type_text o1 = type_text o2 → o1 = o2.
Proof. by destruct o1, o2. Qed.

Lemma operation_key_inj o1 o2 id1 id2 : operation_key o1 id1 = operation_key o2 id2 → o1 = o2 ∧ id1 = id2.
Proof. unfold operation_key. destruct o1, o2; cbn; intros H; simplify_eq; done. Qed.

Lemma kept_ok b cs t r r' :
  operations_ok b cs → bd_subscriptions b !! t = Some r → operation_kept r r' → operations_ok (set_row t r' b) cs.
Proof.
  intros [Hrows Hown Hkey Hrow Hsame] Hr Hk.
  assert (∀ k x, bd_subscriptions (set_row t r' b) !! k = Some x →
    ∃ y, bd_subscriptions b !! k = Some y ∧ operation_kept y x) as Hfrom.
  { intros k x. simpl. intros [[<- <-]|[_ Hx]]%lookup_insert_Some; [by exists r|]. exists x. split; [done|]. by left. }
  split; [| |done| |done].
  - intros k x (y & Hy & [(E1 & E2 & E3 & E4)|Hn])%Hfrom; [|by left].
    destruct (Hrows _ _ Hy) as [H|(o & id & sub & H)]; [left; congruence|right].
    exists o, id, sub. by rewrite E1, E2, E3, E4.
  - intros t1 t2 x1 x2 id (y1 & Hy1 & K1)%Hfrom (y2 & Hy2 & K2)%Hfrom Hi1 Hi2.
    destruct K1 as [(E1 & _)|?]; [|congruence]. destruct K2 as [(E2 & _)|?]; [|congruence].
    eapply (Hown _ _ _ _ id Hy1 Hy2); congruence.
  - intros f k x Hf (y & Hy & Hkx)%Hfrom Hp. unfold pending_on in *.
    destruct Hkx as [(E1 & E2 & E3 & E4)|?]; [|congruence]. rewrite E2, E4. eapply Hrow; [done|done|congruence].
Qed.

Lemma sub_ok b cs cs' : operations_ok b cs → (∀ f, f ∈ cs' → f ∈ cs) → operations_ok b cs'.
Proof. intros [? ? ? ? ?] Hsub. split; eauto. Qed.

Lemma webhook_kept ev g nowMs r r' : row_write ev g nowMs r r' → operation_kept r r'.
Proof.
  destruct 1; [by left|]. unfold operation_kept. simpl.
  destruct (is_ended _); [by right|by left].
Qed.

(** The claims of a row: the recorded operation again, or a new one. *)
Lemma claim_subscription_inv o uuid nowMs r s r' :
  columns_ok r → claim_subscription o uuid nowMs r = (s, r') →
  (∀ id key sub st, s ≠ proceed id key sub st) ∧ r' = None ∨
  (∃ id sub st, s = proceed id (operation_key o id) sub st ∧ r' = None ∧ bs_billingOperationId r = Some id ∧
     bs_billingOperationType r = Some (type_text o) ∧ bs_billingOperationSubscriptionId r = Some sub) ∨
  (∃ sub st r1, s = proceed ("billop_" +:+ uuid) (operation_key o ("billop_" +:+ uuid)) sub st ∧ sub ≠ "" ∧
     r' = Some (with_operation (Some ("billop_" +:+ uuid)) (Some (type_text o))
                  (Some (operation_key o ("billop_" +:+ uuid))) (Some sub) nowMs r1)).
Proof.
  intros Hcol. unfold claim_subscription. destruct (bs_stripeSubscriptionId r) as [sub|]; [|intros [= <- <-]; by left].
  destruct (bool_decide (sub = "")) eqn:Hsub; [intros [= <- <-]; by left|].
  apply bool_decide_eq_false in Hsub. destruct (status_refuses _ _); [intros [= <- <-]; by left|].
  destruct (truthy (bs_billingOperationId r) && _ && _) eqn:Hstale; cbv zeta.
  { cbn [bs_billingOperationId cleared with_operation truthy]. intros [= <- <-]. right; right. eauto 8. }
  destruct Hcol as [Hn|(o' & id & sub' & E1 & E2 & E3 & E4 & Hid & Hs')].
  { rewrite Hn. cbn [truthy]. intros [= <- <-]. right; right. eauto 8. }
  rewrite E1, E2, E3, E4. cbn [truthy coalesce default from_option]. rewrite (bool_decide_false (id = "")) by done.
  cbn [negb]. destruct (decide (o' = o)) as [->|Hne].
  - rewrite (bool_decide_true (Some (type_text o) = _)), (bool_decide_false (operation_key o id = "")),
      (bool_decide_false (sub' = "")) by done. cbn [negb orb]. intros [= <- <-]. right; left. eauto 10.
  - rewrite (bool_decide_false (Some (type_text o') = _)) by (intros [= ?%type_text_inj]; done).
    cbn [negb orb]. intros [= <- <-]. by left.
Qed.

(** A claim while an operation of the bound subscription is recorded. *)
Lemma claim_subscription_pending o uuid nowMs r o' id sub :
  bs_stripeSubscriptionId r = Some sub → sub ≠ "" → bs_billingOperationId r = Some id →
  bs_billingOperationType r = Some (type_text o') → bs_billingOperationIdempotencyKey r = Some (operation_key o' id) →
  bs_billingOperationSubscriptionId r = Some sub → id ≠ "" →
  claim_subscription o uuid nowMs r =
  (if status_refuses o (bs_status r) then rejected
   else if bool_decide (o = o') then proceed id (operation_key o' id) sub (bs_status r) else in_progress, None).
Proof.
  intros Hs Hne E1 E2 E3 E4 Hid. unfold claim_subscription. rewrite Hs, E1, E4. cbv zeta.
  rewrite (bool_decide_false (sub = "")), (bool_decide_true (Some sub = Some sub)) by done.
  destruct (status_refuses _ _); [done|]. cbn [negb]. rewrite andb_false_r, E1, E2, E3, E4.
  cbn [truthy coalesce default from_option].
  rewrite (bool_decide_false (id = "")), (bool_decide_false (operation_key o' id = "")),
    (bool_decide_false (sub = "")) by done. cbn [negb orb].
  destruct (decide (o = o')) as [->|Hoo].
  - by rewrite (bool_decide_true (o' = o')), (bool_decide_true (Some (type_text o') = _)).
  - rewrite (bool_decide_false (o = o')) by done.
    by rewrite (bool_decide_false (Some (type_text o') = _)) by (intros [= ?%type_text_inj]; done).
Qed.

Lemma claim_billing_inv m o uuid ck d a b s b' :
  claim m o uuid ck d a b = Ok (s, b') →
  (s = missing ∧ b' = b ∧ bd_subscriptions b !! mc_tenantId m = None) ∨
  ∃ r r', bd_subscriptions b !! mc_tenantId m = Some r ∧
    claim_subscription o uuid (clock_timestamp ck) r = (s, r') ∧
    b' = match r' with Some r' => set_row (mc_tenantId m) r' b | None => b end.
Proof.
  unfold claim. intros H. rinv. destruct (bd_subscriptions b !! _) as [row|] eqn:Hrow; [|rinv; simplify_eq; by left].
  destruct (claim_subscription _ _ _ _) as [s0 r'] eqn:Hc. rinv. simplify_eq. right. eauto.
Qed.

Lemma new_claim_ok b cs t r1 o uuid sub nowMs :
  operations_ok b cs → fresh_id uuid b cs → sub ≠ "" →
  let id := "billop_" +:+ uuid in
  operations_ok
    (set_row t (with_operation (Some id) (Some (type_text o)) (Some (operation_key o id)) (Some sub) nowMs r1) b)
    ({| fl_tenant := t; fl_type := o; fl_id := id; fl_key := operation_key o id; fl_sub := sub |} :: cs).
Proof.
  intros [Hrows Hown Hkey Hrow Hsame] [Hf1 Hf2] Hsub id. split; simpl.
  - intros k x [[<- <-]|[_ Hx]]%lookup_insert_Some; [|by eapply Hrows]. right. exists o, id, sub. by split_and!.
  - intros t1 t2 x1 x2 i [[<- <-]|[_ H1]]%lookup_insert_Some [[<- <-]|[_ H2]]%lookup_insert_Some; simpl; intros E1 E2;
      [done|by destruct (Hf1 _ _ H2); rewrite E2, <- E1|by destruct (Hf1 _ _ H1); rewrite E1, <- E2|by eapply Hown].
  - intros f [->|Hf]%elem_of_cons; [done|by apply Hkey].
  - intros f k x Hf Hx Hp. unfold pending_on in Hp. apply elem_of_cons in Hf as [->|Hf].
    + apply lookup_insert_Some in Hx as [[<- <-]|[_ Hx]]; [done|]. by destruct (Hf1 _ _ Hx).
    + apply lookup_insert_Some in Hx as [[<- <-]|[_ Hx]]; [|by eapply Hrow].
      simpl in Hp. destruct (Hf2 f Hf). by injection Hp as <-.
  - intros f1 f2 [->|H1]%elem_of_cons [->|H2]%elem_of_cons Heq; [done| | |by apply Hsame].
    + by destruct (Hf2 f2 H2).
    + by destruct (Hf2 f1 H1).
Qed.

Lemma repeated_claim_ok b cs t r o id sub :
  operations_ok b cs → bd_subscriptions b !! t = Some r → bs_billingOperationId r = Some id →
  bs_billingOperationType r = Some (type_text o) → bs_billingOperationSubscriptionId r = Some sub →
  operations_ok b ({| fl_tenant := t; fl_type := o; fl_id := id; fl_key := operation_key o id; fl_sub := sub |} :: cs).
Proof.
  intros [Hrows Hown Hkey Hrow Hsame] Hr E1 E2 E3.
  assert (∀ f, f ∈ cs → fl_id f = id →
    f = {| fl_tenant := t; fl_type := o; fl_id := id; fl_key := operation_key o id; fl_sub := sub |}) as Heq.
  { intros [ft fo fi fk fs] Hf Hi. simpl in Hi. subst fi. pose proof (Hkey _ Hf) as Hfk. simpl in Hfk. subst fk.
    destruct (Hrow _ _ _ Hf Hr E1) as (Ht & Hty & Hs). simpl in *.
    assert (fo = o) as -> by (apply type_text_inj; congruence). congruence. }
  split; [done|done|..].
  - intros f [->|Hf]%elem_of_cons; [done|by apply Hkey].
  - intros f k x [->|Hf]%elem_of_cons Hx Hp; [|by eapply Hrow]. unfold pending_on in Hp. simpl in *.
    assert (k = t) as -> by (by eapply Hown). assert (x = r) as -> by congruence. done.
  - intros f1 f2 [->|H1]%elem_of_cons [->|H2]%elem_of_cons He; simpl in *;
      [done|symmetry; by apply Heq|by apply Heq|by apply Hsame].
Qed.

Lemma conclude_ok b cs f st answer nowMs :
  operations_ok b cs →
  operations_ok (conclude (fl_tenant f) (fl_type f) (proceed (fl_id f) (fl_key f) (fl_sub f) st) answer nowMs b).2 cs.
Proof.
  intros Hok. cbn [conclude].
  assert (operations_ok (release_claim (fl_tenant f) (fl_id f) (fl_sub f) nowMs b) cs) as Hrel.
  { unfold release_claim. destruct (bd_subscriptions b !! _) as [r|] eqn:Hr; [|done]. destruct (_ && _); [|done].
    eapply kept_ok; [done|done|]. by right. }
  assert (operations_ok (finalize (fl_tenant f) (fl_type f) (fl_id f) (fl_sub f) nowMs b).2 cs) as Hfin.
  { unfold finalize. destruct (bd_subscriptions b !! _) as [r|] eqn:Hr; [|done].
    destruct (negb _); [done|]. destruct (negb _); (eapply kept_ok; [done|done|by right]). }
  destruct answer as [|status|]; cbn [isDefinitiveStripeMutationError].
  - destruct (finalize _ _ _ _ _ _) as [[] b'] eqn:E; done.
  - by destruct (negb _).
  - done.
Qed.

Lemma operation_step_ok w w' :
  operation_step w w' → operations_ok w.1 w.2 → operations_ok w'.1 w'.2.
Proof.
  destruct 1 as [m o uuid ck d a b cs id key sub st b' Hc Hfresh|m o uuid ck d a b cs s b' Hc Hno|
    b cs1 f cs2 st answer nowMs|b cs1 f cs2|h body env res b' cs Hw]; cbn [fst snd]; intros Hok.
  - apply claim_billing_inv in Hc as [[? _]|(r & r' & Hr & Hrow & ->)]; [done|].
    apply claim_subscription_inv in Hrow as [[Hno _]|[(i & s & st' & Hs & -> & E1 & E2 & E3)|(s & st' & r1 & Hs & Hne & ->)]];
      [by destruct (Hno id key sub st)|..|by eapply (oo_rows _ _ Hok)]; injection Hs as -> -> -> ->.
    + by eapply repeated_claim_ok.
    + by apply new_claim_ok.
  - apply claim_billing_inv in Hc as [(_ & -> & _)|(r & r' & Hr & Hrow & ->)]; [done|].
    apply claim_subscription_inv in Hrow as [[_ ->]|[(i & s' & st' & Hs & _)|(s' & st' & r1 & Hs & _)]];
      [done|by destruct (Hno _ _ _ _ Hs)..|by eapply (oo_rows _ _ Hok)].
  - apply conclude_ok. eapply sub_ok; [done|]. set_solver.
  - eapply sub_ok; [done|]. set_solver.
  - apply attempt_inv in Hw as [[-> _]|(obj & g & res0 & _ & _ & Ht)]; [done|].
    apply webhook_transaction_inv in Ht as ([Hs|(t & r & r' & Hr & Hwr & Hs)] & _).
    + destruct Hok as [H1 H2 H3 H4 H5]. split; by rewrite ?Hs.
    + destruct (kept_ok _ _ _ _ _ Hok Hr (webhook_kept _ _ _ _ _ Hwr)) as [H1 H2 H3 H4 H5]. simpl in *.
      split; by rewrite ?Hs.
Qed.

(** No operation is recorded and none is running. *)
Definition idle (b : billing_db) : Prop :=
  ∀ t r, bd_subscriptions b !! t = Some r → bs_billingOperationId r = None.

Lemma operation_steps_ok w w' :
  rtc operation_step w w' → operations_ok w.1 w.2 → operations_ok w'.1 w'.2.
Proof. induction 1 as [|w1 w2 w3 H _ IH]; [done|]. intros H0. by apply IH, (operation_step_ok w1). Qed.

Lemma operations_reached b0 b cs :
  idle b0 → rtc operation_step (b0, []) (b, cs) → operations_ok b cs.
Proof.
  intros Hidle Hs. apply (operation_steps_ok _ _ Hs).
  split; simpl; [intros t r Hr; left; by eapply Hidle| |set_solver..].
  intros t1 t2 r1 r2 id H1 _ Hi. pose proof (Hidle _ _ H1). congruence.
Qed.

(** C38. However claims, Stripe calls, retries, crashes, webhook deliveries and
    finalizations overlap: processes that call Stripe under one idempotency key
    run the same operation on the same subscription of the same tenant; while an
    operation is recorded on the row of the subscription it is for, a claim of
    the same kind gets its key again and one of the other kind is turned away;
    and a process whose operation is no longer recorded changes nothing when it
    finalizes. *)
Theorem billing_operation_exclusive b0 b cs :
  idle b0 → rtc operation_step (b0, []) (b, cs) →
  (∀ f1 f2, f1 ∈ cs → f2 ∈ cs → fl_key f1 = fl_key f2 → f1 = f2) ∧
  (∀ f r m o uuid ck d a s b', f ∈ cs → bd_subscriptions b !! fl_tenant f = Some r → pending_on f r →
     bs_stripeSubscriptionId r = Some (fl_sub f) → mc_tenantId m = fl_tenant f →
     claim m o uuid ck d a b = Ok (s, b') →
     b' = b ∧ if bool_decide (o = fl_type f)
              then s = rejected ∨ s = proceed (fl_id f) (fl_key f) (fl_sub f) (bs_status r)
              else s = rejected ∨ s = in_progress) ∧
  (∀ f r nowMs, f ∈ cs → bd_subscriptions b !! fl_tenant f = Some r → ¬ pending_on f r →
     finalize (fl_tenant f) (fl_type f) (fl_id f) (fl_sub f) nowMs b = (already_finalized, b)).
Proof.
  intros Hidle Hs.
  assert (operations_ok b cs) as Hok by (by apply (operations_reached b0)).
  split_and!.
  - intros f1 f2 H1 H2 Hk. apply (oo_same _ _ Hok); [done|done|].
    rewrite (oo_key _ _ Hok f1 H1), (oo_key _ _ Hok f2 H2) in Hk. by apply operation_key_inj in Hk as [_ ?].
  - intros f r m o uuid ck d a s b' Hf Hr Hp Hsub Hm Hc.
    destruct (oo_row _ _ Hok f _ r Hf Hr Hp) as (_ & Hty & Hopsub). unfold pending_on in Hp.
    pose proof (oo_key _ _ Hok f Hf) as Hkey.
    destruct (oo_rows _ _ Hok _ _ Hr) as [Hn|(o' & i & s' & E1 & E2 & E3 & E4 & Hi & Hne)]; [congruence|].
    assert (o' = fl_type f) as -> by (apply type_text_inj; congruence).
    assert (i = fl_id f) as -> by congruence. assert (s' = fl_sub f) as -> by congruence.
    apply claim_billing_inv in Hc as [(_ & _ & Hnone)|(r0 & r' & Hr0 & Hrow & ->)]; [congruence|].
    assert (r0 = r) as -> by congruence. rewrite (claim_subscription_pending _ _ _ _ _ _ _ Hsub Hne E1 E2 E3 E4 Hi) in Hrow.
    injection Hrow as <- <-. split; [done|]. rewrite Hkey.
    destruct (status_refuses _ _); [by destruct (bool_decide _); left|].
    destruct (bool_decide (o = fl_type f)) eqn:Ho; right; [|done]. by apply bool_decide_eq_true in Ho as ->.
  - intros f r nowMs Hf Hr Hnp. unfold finalize. rewrite Hr. unfold pending_on in Hnp.
    by rewrite (bool_decide_false (bs_billingOperationId r = _)).
Qed.

(** ** A cancellation in progress *)

Definition paying_row : billing_row := {|
  bs_planId := "basic"; bs_stripeCustomerId := Some "cus_1"; bs_stripeSubscriptionId := Some "sub_A";
  bs_status := "active"; bs_currentPeriodStart := 0; bs_currentPeriodEnd := None;
  bs_stripeLastEventCreatedAt := None; bs_stripeStateRevision := 1; bs_cancelAtPeriodEnd := false;
  bs_checkoutStatus := "none"; bs_checkoutPlanId := None; bs_checkoutIdempotencyKey := None;
  bs_checkoutRequestParams := None; bs_checkoutIntentCreatedAt := None;
  bs_checkoutSessionId := None; bs_checkoutSessionUrl := None; bs_checkoutSessionExpiresAt := None;
  bs_billingOperationId := None; bs_billingOperationType := None; bs_billingOperationIdempotencyKey := None;
  bs_billingOperationSubscriptionId := None; bs_entitlementBlocked := false;
  bs_entitlementBlockedReason := None; bs_updatedAt := 0 |}.

Definition paying_db : billing_db := {|
  bd_tenants := {["t1"]}; bd_subscriptions := {["t1" := paying_row]}; bd_events := ∅; bd_plans := ∅ |}.

Definition cancelling_row : billing_row :=
  with_operation (Some "billop_u") (Some "cancel") (Some "billing-cancel-billop_u") (Some "sub_A") 5 paying_row.

Definition cancelling_db : billing_db := set_row "t1" cancelling_row paying_db.

Definition cancelling : stripe_call := {|
  fl_tenant := "t1"; fl_type := op_cancel; fl_id := "billop_u"; fl_key := "billing-cancel-billop_u";
  fl_sub := "sub_A" |}.

Lemma paying_idle : idle paying_db.
Proof. intros t r H. apply (lookup_singleton_Some "t1" t paying_row) in H as [_ <-]. reflexivity. Qed.

Lemma cancel_runs :
  claim admin_claims op_cancel "u" (at_time 5) lifecycle_db admin_auth paying_db =
  Ok (proceed "billop_u" "billing-cancel-billop_u" "sub_A" "active", cancelling_db).
Proof. vm_compute. reflexivity. Qed.

Lemma cancelling_reached : rtc operation_step (paying_db, []) (cancelling_db, [cancelling]).
Proof.
  apply rtc_once, (os_claim admin_claims _ _ _ _ _ _ [] _ _ _ _ _ cancel_runs). split; [|set_solver].
  intros t r Hr. by rewrite (paying_idle t r Hr).
Qed.

Lemma resume_turned_away :
  claim admin_claims op_resume "v" (at_time 6) lifecycle_db admin_auth cancelling_db = Ok (in_progress, cancelling_db).
Proof. vm_compute. reflexivity. Qed.

Lemma billing_operation_exclusive_witness :
  claim admin_claims op_resume "v" (at_time 6) lifecycle_db admin_auth cancelling_db = Ok (in_progress, cancelling_db) ∧
  (in_progress = rejected ∨ in_progress = in_progress).
Proof.
  split; [exact resume_turned_away|].
  refine (proj2 (proj1 (proj2 (billing_operation_exclusive paying_db cancelling_db [cancelling] paying_idle
    cancelling_reached)) cancelling cancelling_row admin_claims op_resume "v" (at_time 6) lifecycle_db admin_auth
    in_progress cancelling_db _ _ _ _ _ resume_turned_away)); done || (vm_compute; reflexivity) || set_solver.
Defined.

(** Once the cancellation is confirmed the row is free again and says so. *)
Example cancel_confirmed :
  (λ r, (bs_billingOperationId r, bs_cancelAtPeriodEnd r)) <$>
    bd_subscriptions (conclude "t1" op_cancel (proceed "billop_u" "billing-cancel-billop_u" "sub_A" "active")
      stripe_ok 9 cancelling_db).2 !! "t1" = Some (None, true).
Proof. vm_compute. reflexivity. Qed.
