(* ===== verification/StripeClient.v ===== *)
(** * StripeClient: reading Stripe's answers

    The request helpers of [src/lib/stripe.ts]: what a mutation, a list and a
    retrieval make of an HTTP answer, and the check that a plan's price fits
    the plan. The network is an argument: an answer is a status with a JSON
    body (the empty object when the body is not JSON), or no answer at all. *)

From S2P Require Import Prelude DatabaseTime JobStatus Json Schema Authority Availability Payload.
From S2P Require Import PrinterVirtual Capability Entitlements Samples JobProtocol JobDelivery.
From S2P Require Import JobMaintenance AgentJobs JobService Lifecycle Billing BillingOperation.

(** ** Answers *)

Inductive http_reply : Type :=
| http (status : Z) (data : json)
| http_failed
| not_configured.

Inductive stripe_error : Type :=
| StripeRequestError (status : Z)
| StripeFailure
| StripeNotConfigured.

#[export] Instance stripe_error_eq_dec : EqDecision stripe_error.
Proof. solve_decision. Defined.

Record StripeApiResponse := {
  sa_id : string;
  sa_url : option string;
  sa_expires_at : option Z;
}.

(** [res.ok]. *)
Definition res_ok (status : Z) : bool := (200 <=? status) && (status <=? 299).

Definition requireStripeObject (data : json) : result json stripe_error :=
  match data with JObject l => Ok (JObject l) | _ => Err StripeFailure end.

(** [typeof object.id === "string" && object.id.length > 0]. *)
Definition object_id (object : json) : result string stripe_error :=
  match str object "id" with
  | Some id => if id == "" then Err StripeFailure else Ok id
  | None => Err StripeFailure
  end.

(** The two fields of a Checkout Session that are checked. *)
Definition session_fields_ok (object : json) : bool :=
  match json_field object "url" with None | Some JNull | Some (JString _) => true | _ => false end
  && match json_field object "expires_at" with
     | None => true
     | Some (JNumber n) => isSafeInteger n && (0 <? n)
     | _ => false
     end.

Definition parseStripeResponse (path : string) (data : json) : result StripeApiResponse stripe_error :=
  let* object := requireStripeObject data in
  let* id := object_id object in
  do* throw_if ((path == "checkout/sessions") && negb (session_fields_ok object)) StripeFailure in
  Ok {| sa_id := id; sa_url := str object "url";
        sa_expires_at := match json_field object "expires_at" with Some (JNumber n) => Some n | _ => None end |}.

Definition stripeRequest (path : string) (reply : http_reply) : result StripeApiResponse stripe_error :=
  match reply with
  | not_configured => Err StripeNotConfigured
  | http_failed => Err StripeFailure
  | http status data => if res_ok status then parseStripeResponse path data else Err (StripeRequestError status)
  end.

(** A read; its failures carry no status. *)
Definition read_object (reply : http_reply) : result json stripe_error :=
  match reply with
  | not_configured => Err StripeNotConfigured
  | http_failed => Err StripeFailure
  | http status data => if res_ok status then requireStripeObject data else Err StripeFailure
  end.

Definition stripeRetrieve (reply : http_reply) : result json stripe_error :=
  let* object := read_object reply in
  let* _ := object_id object in
  Ok object.

(** The page's rows and whether there are more. *)
Definition stripeList (reply : http_reply) : result (list json * bool) stripe_error :=
  let* object := read_object reply in
  match json_field object "data" with
  | Some (JArray rows) =>
      if forallb (λ row, match row with
                         | JObject _ => match object_id row with Ok _ => true | Err _ => false end
                         | _ => false
                         end) rows
      then Ok (rows, match json_field object "has_more" with Some (JBool true) => true | _ => false end)
      else Err StripeFailure
  | _ => Err StripeFailure
  end.

(** [isDefinitiveStripeMutationError] of a thrown error. *)
Definition definitive_error (e : stripe_error) : bool :=
  match e with StripeRequestError status => isDefinitiveStripeMutationError (stripe_status status) | _ => false end.

(** ** The price of a plan *)

Record StripePriceBinding := {
  pb_id : string;
  pb_active : bool;
  pb_type : option string;
  pb_currency : option string;
  pb_interval : option string;
  pb_productId : option string;
}.

Inductive binding_error : Type := STRIPE_PRICE_INVALID | STRIPE_NOT_CONFIGURED | STRIPE_UNAVAILABLE.

Record binding_input := {
  bi_priceId : string;
  bi_currency : string;
  bi_interval : string;
  bi_productId : option string;
  bi_requireActive : option bool;
}.

Definition price_binding (price : json) : StripePriceBinding := {|
  pb_id := coalesce (str price "id") "";
  pb_active := match json_field price "active" with Some (JBool true) => true | _ => false end;
  pb_type := str price "type";
  pb_currency := toLowerCase <$> str price "currency";
  pb_interval := recurring ← json_field price "recurring"; str recurring "interval";
  pb_productId := str price "product" |}.

Definition validateStripePriceBinding (input : binding_input) (reply : http_reply)
    : result StripePriceBinding binding_error :=
  match stripeRetrieve reply with
  | Err StripeNotConfigured => Err STRIPE_NOT_CONFIGURED
  | Err _ => Err STRIPE_UNAVAILABLE
  | Ok price =>
      let binding := price_binding price in
      let recurring key := json_field price "recurring" ≫= λ o, json_field o key in
      do* throw_if (pb_id binding != bi_priceId input) STRIPE_PRICE_INVALID in
      do* throw_if (pb_type binding != Some "recurring") STRIPE_PRICE_INVALID in
      do* throw_if ((bi_requireActive input != Some false) && negb (pb_active binding)) STRIPE_PRICE_INVALID in
      do* throw_if (pb_currency binding != Some (toLowerCase (bi_currency input))) STRIPE_PRICE_INVALID in
      do* throw_if (pb_interval binding != Some (bi_interval input)) STRIPE_PRICE_INVALID in
      do* throw_if (match recurring "interval_count" with Some (JNumber 1) => false | _ => true end)
            STRIPE_PRICE_INVALID in
      do* throw_if (as_string (recurring "usage_type") != Some "licensed") STRIPE_PRICE_INVALID in
      do* throw_if (truthy (bi_productId input) && (pb_productId binding != bi_productId input))
            STRIPE_PRICE_INVALID in
      Ok binding
  end.

(** ** What the readers promise *)

(** An answer that is taken for a Checkout Session came with a success status,
    has an id, and its expiry is a positive safe integer when it has one. *)
Lemma session_answer reply s :
  stripeRequest "checkout/sessions" reply = Ok s →
  sa_id s ≠ "" ∧ (∀ n, sa_expires_at s = Some n → 0 < n ≤ 2 ^ 53 - 1) ∧
  ∃ status data, reply = http status data ∧ 200 ≤ status ≤ 299.
Proof.
  destruct reply as [status data| |]; cbn [stripeRequest]; try done.
  destruct (res_ok status) eqn:Hok; [|done]. unfold parseStripeResponse. intros H. rinv.
  unfold object_id in Hr0. destruct (str r "id") as [i|] eqn:Hid; [|done].
  destruct (bool_decide (i = "")) eqn:He; [done|]. rinv. simplify_eq. rewrite bool_decide_true in Hr1 by done.
  cbn [andb] in Hr1. unfold session_fields_ok in Hr1. bools.
  unfold res_ok in Hok. bools. simpl. split_and!; [done| |by eexists _, _].
  intros n Hn. destruct (json_field r "expires_at") as [[]|]; simplify_eq. unfold isSafeInteger in *. bools. by split.
Qed.

(** A definitive refusal has a status, and not one that may be retried. *)
Lemma definitive_status path reply e :
  stripeRequest path reply = Err e → definitive_error e = true →
  ∃ status data, reply = http status data ∧ e = StripeRequestError status ∧
    ¬ (200 ≤ status ≤ 299) ∧ status < 500 ∧ status ∉ [408; 409; 429].
Proof.
  intros H Hd. destruct e as [status| |]; try done.
  destruct reply as [st data| |]; cbn [stripeRequest] in H; try done. destruct (res_ok st) eqn:Hok.
  - unfold parseStripeResponse, requireStripeObject, object_id in H. repeat (case_match; try done; simplify_eq/=).
    all: unfold throw_if in *; repeat (case_match; try done; simplify_eq/=).
  - injection H as ->. eexists _, _. split_and!; [done|done|..]; unfold res_ok in Hok;
      cbn [definitive_error isDefinitiveStripeMutationError] in Hd; unfold isRetryableStripeMutationStatus in Hd; bools.
    + intros [Hlo Hhi]. apply Z.leb_le in Hlo, Hhi. by rewrite Hlo, Hhi in Hok.
    + lia.
    + repeat match goal with H : (_ =? _) = false |- _ => apply Z.eqb_neq in H end. set_solver.
Qed.

(** A binding that is accepted is the price asked for, recurring in the plan's
    currency and interval, billed once an interval at a fixed quantity, active
    unless that was waived, and of the product when one was named. *)
Lemma price_binding_sound input reply b :
  validateStripePriceBinding input reply = Ok b →
  ∃ price, stripeRetrieve reply = Ok price ∧ b = price_binding price ∧
    pb_id b = bi_priceId input ∧ pb_type b = Some "recurring" ∧
    (bi_requireActive input ≠ Some false → pb_active b = true) ∧
    pb_currency b = Some (toLowerCase (bi_currency input)) ∧ pb_interval b = Some (bi_interval input) ∧
    (json_field price "recurring" ≫= λ o, json_field o "interval_count") = Some (JNumber 1) ∧
    (json_field price "recurring" ≫= λ o, str o "usage_type") = Some "licensed" ∧
    (truthy (bi_productId input) = true → pb_productId b = bi_productId input).
Proof.
  unfold validateStripePriceBinding. destruct (stripeRetrieve reply) as [price|[]]; try done.
  intros H. exists price. rinv. subst b. bools. split_and!; try done.
  - intros Hne. rewrite (bool_decide_false (bi_requireActive input = _)) in Hr1 by done. cbn [negb andb] in Hr1. by bools.
  - destruct (json_field price "recurring" ≫= _) as [[]|]; try done. by destruct n as [|[]|].
  - unfold str. by destruct (json_field price "recurring").
  - intros Ht. rewrite Ht in Hr6. cbn [andb] in Hr6. by bools.
Qed.

Definition monthly_price : json :=
  JObject [("id", JString "price_1"); ("active", JBool true); ("type", JString "recurring");
           ("currency", JString "USD"); ("product", JString "prod_1");
           ("recurring", JObject [("interval", JString "month"); ("interval_count", JNumber 1);
                                  ("usage_type", JString "licensed")])].

Example monthly_price_accepted :
  validateStripePriceBinding {| bi_priceId := "price_1"; bi_currency := "usd"; bi_interval := "month";
    bi_productId := None; bi_requireActive := None |} (http 200 monthly_price) = Ok (price_binding monthly_price).
Proof. vm_compute. reflexivity. Qed.
