(* ===== verification/BillingCheckout.v ===== *)
(** * BillingCheckout: opening a Stripe Checkout

    [src/app/api/billing/checkout/route.ts]. A request decides in one
    transaction what may be done, and then goes through Stripe in phases with a
    transaction at each: verification of an existing subscription, recovery of
    an intent whose result was lost, the customer, the attempt fence, the
    session, and its finalization or release. Every transaction is a function
    of the row; Stripe's answers, the random id, the database clock, the
    calibrated gateway clock ([gw], read once a transaction) and the base URL
    are arguments. Logs and the wording of errors are not modelled. *)

From S2P Require Import Prelude DatabaseTime JobStatus Json Schema Authority Availability Payload.
From S2P Require Import PrinterVirtual Capability Entitlements Samples JobProtocol JobDelivery.
From S2P Require Import JobMaintenance AgentJobs JobService Lifecycle Billing BillingOperation StripeClient.

(** ** Constants *)

Definition ACTIVE_SUBSCRIPTION_STATUSES : list string := ["trialing"; "active"; "past_due"].
Definition CHECKOUT_BLOCKING_SUBSCRIPTION_STATUSES : list string := ["paused"; "unpaid"; "incomplete"].
Definition STRIPE_NONTERMINAL_SUBSCRIPTION_STATUSES : list string :=
  ["trialing"; "active"; "past_due"; "incomplete"; "unpaid"; "paused"].
Definition CHECKOUT_IDEMPOTENCY_REPLAY_MAX_AGE_MS : Z := hours 23.
Definition CHECKOUT_STALE_RECONCILE_AGE_MS : Z := hours 25.

(** ** Clock readings *)

(** [gw] is [gatewayNowMs()]. *)
Definition checkoutIntentExpired (gw : Z) (expiresAt : option Z) : bool :=
  match expiresAt with Some e => e <=? gw | None => false end.

Definition replayableCheckoutSnapshot (gw : Z) (snapshot : option json) (createdAt : option Z) : option json :=
  match createdAt with
  | None => None
  | Some created =>
      let age := gw - created in
      if (age <? 0) || (CHECKOUT_IDEMPOTENCY_REPLAY_MAX_AGE_MS <=? age) then None
      else match snapshot with
           | Some (JObject (kv :: l)) =>
               if existsb (λ kv : string * json, is_none (as_string (Some kv.2))) (kv :: l) then None
               else Some (JObject (kv :: l))
           | _ => None
           end
  end.

Definition creatingCheckoutCanBeAbandoned (gw : Z) (intentCreatedAt lastAttemptAt : option Z) : bool :=
  let intent := match intentCreatedAt with Some i => Some i | None => lastAttemptAt end in
  match intent, lastAttemptAt with
  | Some i, Some l => (CHECKOUT_STALE_RECONCILE_AGE_MS <=? gw - i) && (CHECKOUT_STALE_RECONCILE_AGE_MS <=? gw - l)
  | _, _ => false
  end.

(** [Math.ceil(ms / 1000)]. *)
Definition retry_seconds (ms : Z) : Z := - (- ms `div` 1000).

Definition creatingCheckoutRetryAfterSeconds (gw : Z) (lastAttemptAt : option Z) : Z :=
  match lastAttemptAt with
  | None => retry_seconds CHECKOUT_STALE_RECONCILE_AGE_MS
  | Some l => Z.max 1 (retry_seconds (CHECKOUT_STALE_RECONCILE_AGE_MS - (gw - l)))
  end.

(** ** Reading a subscription *)

Definition localSubscriptionStatus (status : option json) : option string :=
  match as_string status with
  | Some s =>
      if one_of ["trialing"; "active"; "past_due"; "incomplete"; "incomplete_expired"; "unpaid"; "paused"] s then Some s
      else if one_of ["canceled"; "cancelled"] s then Some "cancelled" else None
  | None => None
  end.

Definition stripeSubscriptionPriceId (subscription : json) : option string := price_id subscription.

Definition stripeSubscriptionMetadata (subscription : json) : json :=
  match json_field subscription "metadata" with Some (JObject l) => JObject l | _ => JObject [] end.

Definition knownPrices (p : plan_prices) : list string :=
  filter (λ s, s ≠ "") (option_list (pp_stripePriceId p) ++ pp_stripePriceHistory p).

Definition planForStripeSubscription (subscription : json) (b : billing_db) : option string :=
  let priceId := stripeSubscriptionPriceId subscription in
  let mapped := id ← str (stripeSubscriptionMetadata subscription) "plan_id";
                if id == "" then None
                else p ← bd_plans b !! id;
                     if negb (truthy priceId) || one_of (knownPrices p) (coalesce priceId "") then Some id else None in
  match mapped with Some id => Some id | None => plan_of_price priceId b end.

(** ** The row *)

(** The checkout columns and [updated_at]. *)
Definition with_checkout (status : string) (plan key : option string) (params : option json) (created : option Z)
    (session url : option string) (expires : option Z) (nowMs : Z) (r : billing_row) : billing_row := {|
  bs_planId := bs_planId r; bs_stripeCustomerId := bs_stripeCustomerId r;
  bs_stripeSubscriptionId := bs_stripeSubscriptionId r; bs_status := bs_status r;
  bs_currentPeriodStart := bs_currentPeriodStart r; bs_currentPeriodEnd := bs_currentPeriodEnd r;
  bs_stripeLastEventCreatedAt := bs_stripeLastEventCreatedAt r;
  bs_stripeStateRevision := bs_stripeStateRevision r; bs_cancelAtPeriodEnd := bs_cancelAtPeriodEnd r;
  bs_checkoutStatus := status; bs_checkoutPlanId := plan; bs_checkoutIdempotencyKey := key;
  bs_checkoutRequestParams := params; bs_checkoutIntentCreatedAt := created;
  bs_checkoutSessionId := session; bs_checkoutSessionUrl := url; bs_checkoutSessionExpiresAt := expires;
  bs_billingOperationId := bs_billingOperationId r; bs_billingOperationType := bs_billingOperationType r;
  bs_billingOperationIdempotencyKey := bs_billingOperationIdempotencyKey r;
  bs_billingOperationSubscriptionId := bs_billingOperationSubscriptionId r;
  bs_entitlementBlocked := bs_entitlementBlocked r; bs_entitlementBlockedReason := bs_entitlementBlockedReason r;
  bs_updatedAt := nowMs |}.

(** A fresh intent. *)
Definition new_intent (planId key : string) (params : json) (nowMs : Z) (r : billing_row) : billing_row :=
  with_checkout "creating" (Some planId) (Some key) (Some params) (Some nowMs) None None None nowMs r.

Definition no_intent (nowMs : Z) (r : billing_row) : billing_row :=
  with_checkout "none" None None None None None None None nowMs r.

(** [SET updated_at = clock_timestamp()]. *)
Definition touched (nowMs : Z) (r : billing_row) : billing_row :=
  with_checkout (bs_checkoutStatus r) (bs_checkoutPlanId r) (bs_checkoutIdempotencyKey r) (bs_checkoutRequestParams r)
    (bs_checkoutIntentCreatedAt r) (bs_checkoutSessionId r) (bs_checkoutSessionUrl r) (bs_checkoutSessionExpiresAt r)
    nowMs r.

(** The session is recorded on its intent. *)
Definition opened (s : StripeApiResponse) (nowMs : Z) (r : billing_row) : billing_row :=
  with_checkout "open" (bs_checkoutPlanId r) (bs_checkoutIdempotencyKey r) (bs_checkoutRequestParams r)
    (bs_checkoutIntentCreatedAt r) (Some (sa_id s)) (sa_url s) (Z.mul 1000 <$> sa_expires_at s) nowMs r.

(** The columns the state of a subscription is in. *)
Definition with_subscription (plan : string) (customer subscription : option string) (status : string)
    (period : Z * option Z) (fence : option Z) (cancel : bool) (blocked : bool * option string)
    (r : billing_row) : billing_row := {|
  bs_planId := plan; bs_stripeCustomerId := customer; bs_stripeSubscriptionId := subscription; bs_status := status;
  bs_currentPeriodStart := period.1; bs_currentPeriodEnd := period.2; bs_stripeLastEventCreatedAt := fence;
  bs_stripeStateRevision := bs_stripeStateRevision r + 1; bs_cancelAtPeriodEnd := cancel;
  bs_checkoutStatus := bs_checkoutStatus r; bs_checkoutPlanId := bs_checkoutPlanId r;
  bs_checkoutIdempotencyKey := bs_checkoutIdempotencyKey r; bs_checkoutRequestParams := bs_checkoutRequestParams r;
  bs_checkoutIntentCreatedAt := bs_checkoutIntentCreatedAt r; bs_checkoutSessionId := bs_checkoutSessionId r;
  bs_checkoutSessionUrl := bs_checkoutSessionUrl r; bs_checkoutSessionExpiresAt := bs_checkoutSessionExpiresAt r;
  bs_billingOperationId := bs_billingOperationId r; bs_billingOperationType := bs_billingOperationType r;
  bs_billingOperationIdempotencyKey := bs_billingOperationIdempotencyKey r;
  bs_billingOperationSubscriptionId := bs_billingOperationSubscriptionId r;
  bs_entitlementBlocked := blocked.1; bs_entitlementBlockedReason := blocked.2;
  bs_updatedAt := bs_updatedAt r |}.

Definition with_customer (customer : string) (nowMs : Z) (r : billing_row) : billing_row := {|
  bs_planId := bs_planId r; bs_stripeCustomerId := Some customer;
  bs_stripeSubscriptionId := bs_stripeSubscriptionId r; bs_status := bs_status r;
  bs_currentPeriodStart := bs_currentPeriodStart r; bs_currentPeriodEnd := bs_currentPeriodEnd r;
  bs_stripeLastEventCreatedAt := bs_stripeLastEventCreatedAt r;
  bs_stripeStateRevision := bs_stripeStateRevision r; bs_cancelAtPeriodEnd := bs_cancelAtPeriodEnd r;
  bs_checkoutStatus := bs_checkoutStatus r; bs_checkoutPlanId := bs_checkoutPlanId r;
  bs_checkoutIdempotencyKey := bs_checkoutIdempotencyKey r; bs_checkoutRequestParams := bs_checkoutRequestParams r;
  bs_checkoutIntentCreatedAt := bs_checkoutIntentCreatedAt r; bs_checkoutSessionId := bs_checkoutSessionId r;
  bs_checkoutSessionUrl := bs_checkoutSessionUrl r; bs_checkoutSessionExpiresAt := bs_checkoutSessionExpiresAt r;
  bs_billingOperationId := bs_billingOperationId r; bs_billingOperationType := bs_billingOperationType r;
  bs_billingOperationIdempotencyKey := bs_billingOperationIdempotencyKey r;
  bs_billingOperationSubscriptionId := bs_billingOperationSubscriptionId r;
  bs_entitlementBlocked := bs_entitlementBlocked r; bs_entitlementBlockedReason := bs_entitlementBlockedReason r;
  bs_updatedAt := nowMs |}.

(** The row of a workspace that has none; the columns it does not set have
    their defaults. *)
Definition first_row (planId key : string) (params : json) (ck : clock) : billing_row := {|
  bs_planId := planId; bs_stripeCustomerId := None; bs_stripeSubscriptionId := None; bs_status := "cancelled";
  bs_currentPeriodStart := now ck; bs_currentPeriodEnd := None; bs_stripeLastEventCreatedAt := None;
  bs_stripeStateRevision := 0; bs_cancelAtPeriodEnd := false;
  bs_checkoutStatus := "creating"; bs_checkoutPlanId := Some planId; bs_checkoutIdempotencyKey := Some key;
  bs_checkoutRequestParams := Some params; bs_checkoutIntentCreatedAt := Some (clock_timestamp ck);
  bs_checkoutSessionId := None; bs_checkoutSessionUrl := None; bs_checkoutSessionExpiresAt := None;
  bs_billingOperationId := None; bs_billingOperationType := None; bs_billingOperationIdempotencyKey := None;
  bs_billingOperationSubscriptionId := None; bs_entitlementBlocked := false;
  bs_entitlementBlockedReason := None; bs_updatedAt := now ck |}.

(** ** The decision *)

Inductive CheckoutState : Type :=
| already_subscribed
| subscription_needs_attention (status : string)
| checkout_in_progress (url : option string)
| plan_conflict (openPlanId : string)
| recovery_wait (retryAfterSeconds : Z)
| recovery_blocked (reason : string)
| verify_subscription (subscriptionId : string) (customerId : option string) (revision : Z)
    (idempotencyKey : option string)
| reconcile_stale (priorPlanId priorIdempotencyKey customerId : option string) (intentCreatedAt : option Z)
    (lastAttemptAt : Z) (revision : Z)
| checkout_proceed (intentId idempotencyKey : string) (customerId : option string) (requestParams : json).

Inductive checkout_error : Type :=
| PLAN_NOT_BILLABLE
| BaseUrlError
| TENANT_NOT_FOUND
| TENANT_NOT_ACTIVE
| CheckoutTenantError (e : tenant_error)
| CheckoutAuthorityChanged
| CheckoutConstraint
| CustomerConflict
| TENANT_SUBSCRIPTION_MISSING.

(** [base] is [appBaseUrl(req)], or nothing when it throws. *)
Definition buildCheckoutRequestParams (base : option string) (t planId : string) (plan : plan_prices)
    : result json checkout_error :=
  do* throw_if (negb (pp_isActive plan) || negb (pp_isPublic plan) || negb (truthy (pp_stripePriceId plan)))
        PLAN_NOT_BILLABLE in
  match base with
  | None => Err BaseUrlError
  | Some base =>
      Ok (JObject [("mode", JString "subscription");
                   ("client_reference_id", JString t);
                   ("success_url", JString (base +:+ "/billing?checkout=success&session_id={CHECKOUT_SESSION_ID}"));
                   ("cancel_url", JString (base +:+ "/billing?checkout=cancelled"));
                   ("line_items[0][price]", JString (coalesce (pp_stripePriceId plan) ""));
                   ("line_items[0][quantity]", JString "1");
                   ("subscription_data[metadata][tenant_id]", JString t);
                   ("subscription_data[metadata][plan_id]", JString planId)])
  end.

(** The access rule of the two liveness queries. *)
Definition live_subscription (nowMs : Z) (r : billing_row) : bool :=
  one_of ACTIVE_SUBSCRIPTION_STATUSES (bs_status r)
  && ((bs_status r == "past_due") || match bs_currentPeriodEnd r with None => true | Some e => nowMs <? e end)
  && negb (bs_entitlementBlocked r).

(** [sub?.stripeSubscriptionId && ACTIVE_SUBSCRIPTION_STATUSES.has(sub.status)]. *)
Definition has_active (r : billing_row) : bool :=
  truthy (bs_stripeSubscriptionId r) && one_of ACTIVE_SUBSCRIPTION_STATUSES (bs_status r).

Definition has_blocking (r : billing_row) : bool :=
  truthy (bs_stripeSubscriptionId r) && one_of CHECKOUT_BLOCKING_SUBSCRIPTION_STATUSES (bs_status r).

Definition intent_key (uuid : string) : string := "checkout-intent-chk_" +:+ uuid.

(** [key.replace(/^checkout-intent-/, "")]. *)
Definition intent_of_key (key : string) : string :=
  if startsWith key "checkout-intent-" then String.substring 16 (String.length key - 16) key else key.

Definition is_creating (r : billing_row) : bool := bs_checkoutStatus r == "creating".
Definition intent_open (r : billing_row) : bool := bs_checkoutStatus r == "open".

Definition abandonable (gw : Z) (r : billing_row) : bool :=
  is_creating r && creatingCheckoutCanBeAbandoned gw (bs_checkoutIntentCreatedAt r) (Some (bs_updatedAt r)).

(** The recorded intent again, while Stripe still knows its key. *)
Definition replay_intent (gw : Z) (r : billing_row) : CheckoutState :=
  match replayableCheckoutSnapshot gw (bs_checkoutRequestParams r) (bs_checkoutIntentCreatedAt r) with
  | None => recovery_wait (creatingCheckoutRetryAfterSeconds gw (Some (bs_updatedAt r)))
  | Some params =>
      let key := coalesce (bs_checkoutIdempotencyKey r) "" in
      checkout_proceed (intent_of_key key) key (bs_stripeCustomerId r) params
  end.

(** The row that is there, up to the point where a new intent may be made. *)
Definition existing_state (verified : bool) (planId : string) (nowMs gw : Z) (r : billing_row) : option CheckoutState :=
  let other_plan := truthy (bs_checkoutPlanId r) && (bs_checkoutPlanId r != Some planId) in
  let same_plan := bs_checkoutPlanId r == Some planId in
  let expired := checkoutIntentExpired gw (bs_checkoutSessionExpiresAt r) in
  let url := if truthy (bs_checkoutSessionUrl r) then bs_checkoutSessionUrl r else None in
  if has_active r then
    if live_subscription nowMs r then Some already_subscribed
    else if verified then Some already_subscribed
    else Some (verify_subscription (coalesce (bs_stripeSubscriptionId r) "") (bs_stripeCustomerId r)
                 (bs_stripeStateRevision r) (bs_checkoutIdempotencyKey r))
  else if truthy (bs_billingOperationId r) then Some (checkout_in_progress None)
  else if intent_open r && same_plan && is_some url && negb expired then Some (checkout_in_progress url)
  else if abandonable gw r then
    Some (reconcile_stale (bs_checkoutPlanId r) (bs_checkoutIdempotencyKey r) (bs_stripeCustomerId r)
            (bs_checkoutIntentCreatedAt r) (bs_updatedAt r) (bs_stripeStateRevision r))
  else if is_creating r && other_plan then Some (plan_conflict (coalesce (bs_checkoutPlanId r) ""))
  else if intent_open r && negb expired then
    if other_plan then Some (plan_conflict (coalesce (bs_checkoutPlanId r) "")) else Some (checkout_in_progress url)
  else if bs_checkoutStatus r == "completed" then Some (checkout_in_progress None)
  else if is_creating r && same_plan && truthy (bs_checkoutIdempotencyKey r) then Some (replay_intent gw r)
  else if has_blocking r then Some (subscription_needs_attention (bs_status r))
  else None.

(** Whether a new intent replaces what the row has. *)
Definition renews_intent (planId : string) (gw : Z) (r : billing_row) : bool :=
  negb (is_creating r) || negb (truthy (bs_checkoutIdempotencyKey r))
  || (intent_open r && checkoutIntentExpired gw (bs_checkoutSessionExpiresAt r))
  || (bs_checkoutPlanId r != Some planId).

(** What the first transaction decides, with the row it writes. *)
Definition checkout_decision (verified : bool) (planId : string) (plan : plan_prices) (base : option string)
    (t uuid : string) (ck : clock) (gw : Z) (sub : option billing_row)
    : result (CheckoutState * option billing_row) checkout_error :=
  let nowMs := clock_timestamp ck in
  let key := intent_key uuid in
  match sub ≫= existing_state verified planId nowMs gw with
  | Some s => Ok (s, None)
  | None =>
      let* params := buildCheckoutRequestParams base t planId plan in
      match sub with
      | None => Ok (checkout_proceed ("chk_" +:+ uuid) key None params, Some (first_row planId key params ck))
      | Some r =>
          if renews_intent planId gw r
          then Ok (checkout_proceed ("chk_" +:+ uuid) key (bs_stripeCustomerId r) params,
                   Some (new_intent planId key params nowMs r))
          else Ok (replay_intent gw r, None)
      end
  end.

(** The unique columns the route writes: those of the webhook and the key of
    the intent. *)
Definition intent_unique_ok (t : string) (r : billing_row) (b : billing_db) : bool :=
  unique_ok t r b && bool_decide (map_Forall (λ t' r', t' = t ∨
    negb (collides bs_checkoutIdempotencyKey r r') = true) (bd_subscriptions b)).

Definition store (t : string) (r : billing_row) (b : billing_db) : result billing_db checkout_error :=
  do* throw_if (negb (intent_unique_ok t r b)) CheckoutConstraint in
  Ok (set_row t r b).

Definition store_opt (t : string) (r : option billing_row) (b : billing_db) : result billing_db checkout_error :=
  match r with Some r => store t r b | None => Ok b end.

(** [requireManagerActorInTransaction(tx, claims, "billing.manage")]. *)
Definition require_billing_actor (a : auth_db) (ck : clock) (m : ManagerClaims) : result unit checkout_error :=
  match requireManagerActorInTransaction a ck m billing_manage with
  | Ok _ => Ok tt
  | Err _ => Err CheckoutAuthorityChanged
  end.

(** The two guards of every later transaction. *)
Definition require_checkout_access (d : db) (a : auth_db) (ck : clock) (m : ManagerClaims)
    : result unit checkout_error :=
  do* match requireActiveTenantInTransaction d (mc_tenantId m) with
      | Ok _ => Ok tt
      | Err e => Err (CheckoutTenantError e)
      end in
  require_billing_actor a ck m.

Definition start_checkout (m : ManagerClaims) (verified : bool) (planId : string) (plan : plan_prices)
    (base : option string) (uuid : string) (ck : clock) (gw : Z) (d : db) (a : auth_db) (b : billing_db)
    : result (CheckoutState * billing_db) checkout_error :=
  let t := mc_tenantId m in
  do* throw_if (is_none (tenant_lifecycle d t)) TENANT_NOT_FOUND in
  do* throw_if (tenant_lifecycle d t != Some "active") TENANT_NOT_ACTIVE in
  do* require_billing_actor a ck m in
  let* (s, r') := checkout_decision verified planId plan base t uuid ck gw (bd_subscriptions b !! t) in
  let* b' := store_opt t r' b in
  Ok (s, b').

(** ** Verifying the subscription that is there *)

(** The status Stripe reports, when the answer is about this subscription. *)
Definition verified_status (t subscriptionId : string) (customerId : option string) (o : json) : option string :=
  let tenant_differs := match json_field (stripeSubscriptionMetadata o) "tenant_id" with
                        | None => false
                        | v => as_string v != Some t
                        end in
  match localSubscriptionStatus (json_field o "status") with
  | None => None
  | Some status =>
      if (str o "id" != Some subscriptionId) || (truthy customerId && (str o "customer" != customerId)) || tenant_differs
      then None else Some status
  end.

(** A subscription Stripe has ended. *)
Definition ended_by_stripe (status : string) (nowMs : Z) (r : billing_row) : billing_row :=
  let r1 := with_subscription (bs_planId r) (bs_stripeCustomerId r) (bs_stripeSubscriptionId r) status
              (bs_currentPeriodStart r, bs_currentPeriodEnd r) (bs_stripeLastEventCreatedAt r) (bs_cancelAtPeriodEnd r)
              (bs_entitlementBlocked r, bs_entitlementBlockedReason r) r in
  cleared nowMs (if bs_checkoutStatus r == "completed" then no_intent nowMs r1 else r1).

(** Whether the row is still the one that was read, and what is done to it. *)
Definition apply_verification (m : ManagerClaims) (subscriptionId : string) (revision : Z) (key : option string)
    (status : string) (ck : clock) (d : db) (a : auth_db) (b : billing_db)
    : result (bool * billing_db) checkout_error :=
  let t := mc_tenantId m in
  do* require_checkout_access d a ck m in
  match bd_subscriptions b !! t with
  | None => Ok (false, b)
  | Some r =>
      if (bs_stripeSubscriptionId r != Some subscriptionId) || negb (bs_stripeStateRevision r =? revision)
         || (bs_checkoutIdempotencyKey r != key)
      then Ok (false, b)
      else if negb (is_ended status) then Ok (true, b)
      else let* b' := store t (ended_by_stripe status (clock_timestamp ck) r) b in Ok (true, b')
  end.

(** ** Recovering an intent whose result was lost *)

Inductive lookup_result : Type :=
| lookup_blocked (reason : string)
| lookup_recovered (subscription : json)
| lookup_none.

Definition nonterminal_status (o : json) : option string :=
  status ← localSubscriptionStatus (json_field o "status");
  if one_of STRIPE_NONTERMINAL_SUBSCRIPTION_STATUSES status then Some status else None.

(** Stripe's subscriptions of the customer: the one that is not over, if any. *)
Definition stripe_lookup (t : string) (customerId : option string) (listed : http_reply)
    (retrieved : string → http_reply) : lookup_result :=
  if negb (truthy customerId) then lookup_none
  else match stripeList listed with
       | Err _ => lookup_blocked "Stripe subscription state could not be verified right now."
       | Ok (_, true) => lookup_blocked "Stripe returned more subscriptions than can be reconciled safely in one bounded request."
       | Ok (rows, false) =>
           match filter (λ o, (str o "customer" == customerId) && is_some (nonterminal_status o) = true) rows with
           | [] => lookup_none
           | [o] =>
               match stripeRetrieve (retrieved (coalesce (str o "id") "")) with
               | Err _ => lookup_blocked "Stripe subscription state could not be verified right now."
               | Ok current =>
                   let tenant := str (stripeSubscriptionMetadata current) "tenant_id" in
                   if (str current "customer" != customerId) || (truthy tenant && (tenant != Some t))
                   then lookup_blocked "Stripe subscription identity does not match this workspace."
                   else if is_some (nonterminal_status current) then lookup_recovered current else lookup_none
               end
           | _ => lookup_blocked "Stripe reports multiple non-terminal subscriptions for this workspace customer."
           end
       end.

(** The plan, status, id and first period of a recovered subscription. *)
Definition recovered_columns (customerId : option string) (o : json) (b : billing_db)
    : option (string * string * string * Z) :=
  status ← nonterminal_status o;
  plan ← planForStripeSubscription o b;
  id ← str o "id";
  start ← (stripeSubscriptionPeriod o).1;
  if (id == "") || (str o "customer" != customerId) then None else Some (plan, status, id, start).

Definition recovered_row (plan status id : string) (start : Z) (o : json) (nowMs : Z) (r : billing_row) : billing_row :=
  with_checkout "completed" (Some plan) None None None None None None nowMs
    (with_subscription plan (str o "customer") (Some id) status (start, (stripeSubscriptionPeriod o).2)
       (if bs_stripeSubscriptionId r != Some id then None else bs_stripeLastEventCreatedAt r)
       match json_field o "cancel_at_period_end" with Some (JBool true) => true | _ => false end
       (false, None) r).

Definition LOCAL_CHANGED : string := "Local billing state changed during reconciliation. Retry safely.".
Definition LOCAL_DISAPPEARED : string := "Local subscription state disappeared during reconciliation.".

Definition apply_recovery (m : ManagerClaims) (key customerId : option string) (revision : Z)
    (cols : string * string * string * Z) (o : json) (ck : clock) (d : db) (a : auth_db) (b : billing_db)
    : result (CheckoutState * billing_db) checkout_error :=
  let t := mc_tenantId m in
  let '(plan, status, id, start) := cols in
  do* require_checkout_access d a ck m in
  match bd_subscriptions b !! t with
  | None => Ok (recovery_blocked LOCAL_DISAPPEARED, b)
  | Some r =>
      if negb (is_creating r) || (bs_checkoutIdempotencyKey r != key) || negb (bs_stripeStateRevision r =? revision)
         || (bs_stripeCustomerId r != customerId)
      then Ok (recovery_blocked LOCAL_CHANGED, b)
      else if truthy (bs_stripeSubscriptionId r) && (bs_stripeSubscriptionId r != Some id) && negb (is_ended (bs_status r))
      then Ok (recovery_blocked "A different Stripe subscription is already bound to this workspace.", b)
      else
        let* b' := store t (recovered_row plan status id start o (clock_timestamp ck) r) b in
        Ok (if one_of ACTIVE_SUBSCRIPTION_STATUSES status then already_subscribed
            else subscription_needs_attention status, b')
  end.

(** Nothing was found at Stripe: the aged intent is replaced. *)
Definition rotate_decision (planId : string) (plan : plan_prices) (base : option string) (t uuid : string)
    (key customerId : option string) (revision : Z) (nowMs gw : Z) (r : billing_row)
    : result (CheckoutState * option billing_row) checkout_error :=
  if negb (bs_stripeStateRevision r =? revision) || (bs_stripeCustomerId r != customerId)
  then Ok (recovery_blocked LOCAL_CHANGED, None)
  else if has_active r then Ok (already_subscribed, None)
  else if has_blocking r then Ok (subscription_needs_attention (bs_status r), None)
  else if truthy (bs_billingOperationId r) then Ok (checkout_in_progress None, None)
  else if negb (is_creating r) || (bs_checkoutIdempotencyKey r != key) then
    Ok (if intent_open r && truthy (bs_checkoutSessionUrl r)
           && negb (checkoutIntentExpired gw (bs_checkoutSessionExpiresAt r))
        then if truthy (bs_checkoutPlanId r) && (bs_checkoutPlanId r != Some planId)
             then plan_conflict (coalesce (bs_checkoutPlanId r) "")
             else checkout_in_progress (bs_checkoutSessionUrl r)
        else checkout_in_progress None, None)
  else if is_none customerId && is_some (bs_stripeCustomerId r) then Ok (recovery_wait 1, None)
  else if negb (creatingCheckoutCanBeAbandoned gw (bs_checkoutIntentCreatedAt r) (Some (bs_updatedAt r)))
  then Ok (recovery_wait (creatingCheckoutRetryAfterSeconds gw (Some (bs_updatedAt r))), None)
  else
    let* params := buildCheckoutRequestParams base t planId plan in
    Ok (checkout_proceed ("chk_" +:+ uuid) (intent_key uuid) (bs_stripeCustomerId r) params,
        Some (new_intent planId (intent_key uuid) params nowMs r)).

Definition rotate_intent (m : ManagerClaims) (planId : string) (plan : plan_prices) (base : option string)
    (uuid : string) (key customerId : option string) (revision : Z) (ck : clock) (gw : Z) (d : db) (a : auth_db)
    (b : billing_db) : result (CheckoutState * billing_db) checkout_error :=
  let t := mc_tenantId m in
  do* require_checkout_access d a ck m in
  match bd_subscriptions b !! t with
  | None => Ok (recovery_blocked LOCAL_DISAPPEARED, b)
  | Some r =>
      let* (s, r') := rotate_decision planId plan base t uuid key customerId revision (clock_timestamp ck) gw r in
      let* b' := store_opt t r' b in
      Ok (s, b')
  end.

(** ** From the intent to the session *)

(** The customer Stripe made is recorded, unless another one is. *)
Definition bind_customer (t customerId : string) (nowMs : Z) (b : billing_db)
    : result (string * billing_db) checkout_error :=
  match bd_subscriptions b !! t with
  | None => Err TENANT_SUBSCRIPTION_MISSING
  | Some r =>
      if truthy (bs_stripeCustomerId r) then
        if bs_stripeCustomerId r != Some customerId then Err CustomerConflict
        else Ok (coalesce (bs_stripeCustomerId r) "", b)
      else let* b' := store t (with_customer customerId nowMs r) b in Ok (customerId, b')
  end.

(** [WHERE checkout_idempotency_key = key AND checkout_status = 'creating']. *)
Definition owns_intent (key : string) (r : billing_row) : bool :=
  (bs_checkoutIdempotencyKey r == Some key) && is_creating r.

Inductive fence_result : Type := fence_proceed | fence_existing (url : string) | fence_completed | fence_changed.

Definition attempt_fence (m : ManagerClaims) (key : string) (ck : clock) (d : db) (a : auth_db) (b : billing_db)
    : result (fence_result * billing_db) checkout_error :=
  let t := mc_tenantId m in
  do* require_checkout_access d a ck m in
  match bd_subscriptions b !! t with
  | None => Ok (fence_changed, b)
  | Some r =>
      if owns_intent key r then
        let* b' := store t (touched (clock_timestamp ck) r) b in Ok (fence_proceed, b')
      else if intent_open r && truthy (bs_checkoutSessionUrl r)
      then Ok (fence_existing (coalesce (bs_checkoutSessionUrl r) ""), b)
      else if truthy (bs_stripeSubscriptionId r) then Ok (fence_completed, b)
      else Ok (fence_changed, b)
  end.

Inductive finalize_result : Type := session_completed | session_existing (url : string) | session_open.

Definition finalize_session (m : ManagerClaims) (key : string) (s : StripeApiResponse) (ck : clock) (d : db)
    (a : auth_db) (b : billing_db) : result (finalize_result * billing_db) checkout_error :=
  let t := mc_tenantId m in
  do* require_checkout_access d a ck m in
  match bd_subscriptions b !! t with
  | None => Ok (session_open, b)
  | Some r =>
      if has_active r && live_subscription (clock_timestamp ck) r then Ok (session_completed, b)
      else if owns_intent key r then
        let* b' := store t (opened s (clock_timestamp ck) r) b in Ok (session_open, b')
      else if truthy (bs_stripeSubscriptionId r) then Ok (session_completed, b)
      else if truthy (bs_checkoutSessionUrl r) then Ok (session_existing (coalesce (bs_checkoutSessionUrl r) ""), b)
      else Ok (session_open, b)
  end.

(** A definitive refusal gives the intent up. *)
Definition release_intent (t key : string) (nowMs : Z) (b : billing_db) : billing_db :=
  match bd_subscriptions b !! t with
  | Some r => if owns_intent key r then set_row t (no_intent nowMs r) b else b
  | None => b
  end.

(** ** Answers *)

Inductive checkout_response : Type :=
| CheckoutUrl (url : string) (existing : bool)
| CheckoutError (status : Z) (code : option string).

(** Errors of the first transaction. *)
Definition start_error (e : checkout_error) : checkout_response :=
  match e with
  | CheckoutAuthorityChanged => CheckoutError 403 None
  | PLAN_NOT_BILLABLE => CheckoutError 400 (Some "PLAN_NOT_BILLABLE")
  | TENANT_NOT_FOUND => CheckoutError 404 None
  | TENANT_NOT_ACTIVE => CheckoutError 409 None
  | _ => CheckoutError 500 None
  end.

(** Errors of the later ones: the refusals, and [otherwise]. *)
Definition later_error (otherwise : checkout_response) (e : checkout_error) : checkout_response :=
  match e with
  | CheckoutAuthorityChanged
  | CheckoutTenantError TenantDeletedError
  | CheckoutTenantError TenantSuspendedError => CheckoutError 403 None
  | _ => otherwise
  end.

Definition BLOCKED_502 : checkout_response := CheckoutError 502 (Some "CHECKOUT_RECONCILIATION_BLOCKED").
Definition RETRY_502 : checkout_response := CheckoutError 502 None.

(** The answer to a state that goes no further. *)
Definition state_response (s : CheckoutState) : checkout_response :=
  match s with
  | already_subscribed => CheckoutError 409 None
  | subscription_needs_attention _ => CheckoutError 409 (Some "SUBSCRIPTION_NEEDS_ATTENTION")
  | checkout_in_progress (Some url) => if url == "" then CheckoutError 409 None else CheckoutUrl url true
  | checkout_in_progress None => CheckoutError 409 None
  | recovery_wait _ => CheckoutError 409 (Some "CHECKOUT_RECONCILIATION_PENDING")
  | plan_conflict _ => CheckoutError 409 (Some "CHECKOUT_PLAN_CONFLICT")
  | recovery_blocked _ => CheckoutError 409 (Some "CHECKOUT_RECONCILIATION_BLOCKED")
  | _ => CheckoutError 409 (Some "CHECKOUT_STATE_CHANGED")
  end.

(** What a failed Stripe mutation leads to: whether the intent is released, and
    the answer. *)
Definition mutation_failure (e : stripe_error) : bool * checkout_response :=
  if definitive_error e then (true, CheckoutError 409 (Some "STRIPE_CHECKOUT_REJECTED"))
  else match e with
       | StripeNotConfigured => (false, CheckoutError 503 (Some "STRIPE_NOT_CONFIGURED"))
       | _ => (false, RETRY_502)
       end.

(** ** A request on its own *)

(** What one request meets when nobody else runs in between. *)
Record checkout_env := {
  ce_clock : clock;
  ce_gw : Z;
  ce_db : db;
  ce_auth : auth_db;
  ce_base : option string;
  ce_uuid : string;
  ce_retrieve : string → http_reply;
  ce_list : string → http_reply;
  ce_customer : string → http_reply;
  ce_session : string → json → http_reply;
}.

(** [{ ...requestParams, customer }]. *)
Definition session_form (params : json) (customer : string) : json :=
  match params with JObject l => JObject (l ++ [("customer", JString customer)]) | v => v end.

(** The fence, the session and its record. *)
Definition create_session (e : checkout_env) (m : ManagerClaims) (key customer : string) (params : json)
    (b : billing_db) : checkout_response * billing_db :=
  let ck := ce_clock e in
  match attempt_fence m key ck (ce_db e) (ce_auth e) b with
  | Err err => (later_error RETRY_502 err, b)
  | Ok (fence_existing url, b1) => (CheckoutUrl url true, b1)
  | Ok (fence_completed, b1) => (CheckoutError 409 None, b1)
  | Ok (fence_changed, b1) => (CheckoutError 409 (Some "CHECKOUT_STATE_CHANGED"), b1)
  | Ok (fence_proceed, b1) =>
      match stripeRequest "checkout/sessions" (ce_session e key (session_form params customer)) with
      | Err err => let '(release, answer) := mutation_failure err in
                   (answer, if release then release_intent (mc_tenantId m) key (clock_timestamp ck) b1 else b1)
      | Ok s =>
          if negb (truthy (sa_url s)) then (RETRY_502, b1)
          else match finalize_session m key s ck (ce_db e) (ce_auth e) b1 with
               | Err err => (later_error RETRY_502 err, b1)
               | Ok (session_completed, b2) => (CheckoutError 409 None, b2)
               | Ok (session_existing url, b2) => (CheckoutUrl url true, b2)
               | Ok (session_open, b2) => (CheckoutUrl (coalesce (sa_url s) "") false, b2)
               end
      end
  end.

Definition open_checkout (e : checkout_env) (m : ManagerClaims) (key : string) (customerId : option string)
    (params : json) (b : billing_db) : checkout_response * billing_db :=
  let t := mc_tenantId m in
  if truthy customerId then create_session e m key (coalesce customerId "") params b
  else match stripeRequest "customers" (ce_customer e ("tenant-customer-" +:+ t)) with
       | Err err => let '(release, answer) := mutation_failure err in
                    (answer, if release then release_intent t key (clock_timestamp (ce_clock e)) b else b)
       | Ok c =>
           match bind_customer t (sa_id c) (clock_timestamp (ce_clock e)) b with
           | Err err => (later_error RETRY_502 err, b)
           | Ok (customer, b1) => create_session e m key customer params b1
           end
       end.

(** The end of the handler, once the state is decided. *)
Definition answer_state (e : checkout_env) (m : ManagerClaims) (s : CheckoutState) (b : billing_db)
    : checkout_response * billing_db :=
  match s with
  | checkout_proceed _ key customerId params => open_checkout e m key customerId params b
  | s => (state_response s, b)
  end.

Definition reconcile (e : checkout_env) (m : ManagerClaims) (planId : string) (plan : plan_prices)
    (key customerId : option string) (revision : Z) (b : billing_db) : checkout_response * billing_db :=
  let finish r := match r with
                  | Err err => (later_error BLOCKED_502 err, b)
                  | Ok (s, b') => answer_state e m s b'
                  end in
  match stripe_lookup (mc_tenantId m) customerId (ce_list e (coalesce customerId "")) (ce_retrieve e) with
  | lookup_blocked reason => (state_response (recovery_blocked reason), b)
  | lookup_recovered o =>
      match recovered_columns customerId o b with
      | None => (state_response
                   (recovery_blocked "Stripe subscription state could not be mapped safely to the local billing record."), b)
      | Some cols => finish (apply_recovery m key customerId revision cols o (ce_clock e) (ce_db e) (ce_auth e) b)
      end
  | lookup_none => finish (rotate_intent m planId plan (ce_base e) (ce_uuid e) key customerId revision (ce_clock e)
                             (ce_gw e) (ce_db e) (ce_auth e) b)
  end.

(** The planned checkout, [verified] once the subscription that was there is
    known to be over. *)
Definition run_checkout (verified : bool) (e : checkout_env) (m : ManagerClaims) (planId : string)
    (again : billing_db → checkout_response * billing_db) (b : billing_db) : checkout_response * billing_db :=
  match bd_plans b !! planId with
  | None => (CheckoutError 400 None, b)
  | Some plan =>
      match start_checkout m verified planId plan (ce_base e) (ce_uuid e) (ce_clock e) (ce_gw e) (ce_db e) (ce_auth e) b with
      | Err err => (start_error err, b)
      | Ok (verify_subscription sub customerId revision key, b1) =>
          match stripeRetrieve (ce_retrieve e sub) with
          | Err _ => (BLOCKED_502, b1)
          | Ok o =>
              match verified_status (mc_tenantId m) sub customerId o with
              | None => (CheckoutError 409 (Some "CHECKOUT_RECONCILIATION_BLOCKED"), b1)
              | Some status =>
                  match apply_verification m sub revision key status (ce_clock e) (ce_db e) (ce_auth e) b1 with
                  | Err err => (later_error BLOCKED_502 err, b1)
                  | Ok (false, b2) => (CheckoutError 409 (Some "CHECKOUT_STATE_CHANGED"), b2)
                  | Ok (true, b2) => if is_ended status then again b2
                                     else (CheckoutError 409 (Some "SUBSCRIPTION_NEEDS_ATTENTION"), b2)
                  end
              end
          end
      | Ok (reconcile_stale _ key customerId _ _ revision, b1) => reconcile e m planId plan key customerId revision b1
      | Ok (s, b1) => answer_state e m s b1
      end
  end.

(** The second call is made with [subscriptionVerified], which leaves nothing to
    verify, so there is no third. *)
Definition handleCheckout (e : checkout_env) (m : ManagerClaims) (planId : string) (b : billing_db)
    : checkout_response * billing_db :=
  run_checkout false e m planId (run_checkout true e m planId (λ b, (BLOCKED_502, b))) b.

Definition checkout_POST (overLimit : bool) (claims : option ManagerClaims) (body : option json) (e : checkout_env)
    (b : billing_db) : checkout_response * billing_db :=
  if overLimit then (CheckoutError 413 None, b)
  else match claims with
       | None => (CheckoutError 401 None, b)
       | Some m =>
           if negb (truthy (mc_userId m)) then (CheckoutError 401 None, b)
           else if negb (hasManagerPermission m billing_manage) then (CheckoutError 403 None, b)
           else match body with
                | Some (JObject l) => handleCheckout e m (trim (coalesce (str (JObject l) "planId") "")) b
                | _ => (CheckoutError 400 None, b)
                end
       end.

(** ** The customer portal *)

(** [src/app/api/billing/portal/route.ts]: access is checked before Stripe is
    called and again before its URL is given away. *)
Definition portal_POST (claims : option ManagerClaims) (base : option string) (before after : clock * db * auth_db)
    (reply : http_reply) (b : billing_db) : checkout_response :=
  let access m (w : clock * db * auth_db) := require_checkout_access w.1.2 w.2 w.1.1 m in
  match claims with
  | None => CheckoutError 401 None
  | Some m =>
      if negb (truthy (mc_userId m)) then CheckoutError 401 None
      else if negb (hasManagerPermission m billing_manage) then CheckoutError 403 None
      else match access m before with
           | Err e => later_error RETRY_502 e
           | Ok _ =>
               let sub := bd_subscriptions b !! mc_tenantId m in
               if negb (truthy (sub ≫= bs_stripeCustomerId)) then CheckoutError 409 None
               else if negb (truthy (sub ≫= bs_stripeSubscriptionId)) then CheckoutError 409 None
               else if is_none base then RETRY_502
               else match stripeRequest "billing_portal/sessions" reply with
                    | Err StripeNotConfigured => CheckoutError 503 (Some "STRIPE_NOT_CONFIGURED")
                    | Err _ => RETRY_502
                    | Ok portal =>
                        if negb (truthy (sa_url portal)) then CheckoutError 502 None
                        else match access m after with
                             | Err e => later_error RETRY_502 e
                             | Ok _ => CheckoutUrl (coalesce (sa_url portal) "") false
                             end
                    end
           end
  end.

(** ** The branches *)

(** A request that comes back verified has nothing left to verify. *)
Lemma verified_once planId nowMs gw r sub c rev key :
  existing_state true planId nowMs gw r ≠ Some (verify_subscription sub c rev key).
Proof.
  unfold existing_state, replay_intent. repeat (case_match; try done).
Qed.

(** A portal URL is only given to a manager who may manage billing when it is
    asked for and when it is handed over, for a workspace with a customer and a
    subscription at Stripe. *)
Lemma portal_url_access claims base before after reply b url e :
  portal_POST claims base before after reply b = CheckoutUrl url e →
  ∃ m r, claims = Some m ∧ bd_subscriptions b !! mc_tenantId m = Some r ∧ url ≠ "" ∧
    truthy (bs_stripeCustomerId r) = true ∧ truthy (bs_stripeSubscriptionId r) = true ∧
    require_checkout_access before.1.2 before.2 before.1.1 m = Ok tt ∧
    require_checkout_access after.1.2 after.2 after.1.1 m = Ok tt.
Proof.
  assert (∀ err, later_error RETRY_502 err ≠ CheckoutUrl url e) as Hlater by (by intros [| | | |[]| | | |]).
  unfold portal_POST. destruct claims as [m|]; [|done].
  destruct (negb (truthy (mc_userId m))); [done|]. destruct (negb (hasManagerPermission _ _)); [done|].
  destruct (require_checkout_access before.1.2 _ _ m) as [[]|err] eqn:Hb; [|by intros ?%Hlater].
  destruct (bd_subscriptions b !! _) as [r|] eqn:Hr; [|done]. cbn [mbind option_bind].
  destruct (truthy (bs_stripeCustomerId r)) eqn:Hc; [|done].
  destruct (truthy (bs_stripeSubscriptionId r)) eqn:Hs; [|done]. destruct (is_none base); [done|]. cbn [negb].
  destruct (stripeRequest _ _) as [p|[]]; try done. destruct (sa_url p) as [u|]; [|done]. cbn [truthy].
  destruct (bool_decide (u = "")) eqn:Hu; [done|]. cbn [negb].
  destruct (require_checkout_access after.1.2 _ _ m) as [[]|err] eqn:Ha; [|by intros ?%Hlater].
  intros [= <- _]. bools. exists m, r. by split_and!.
Qed.

(** ** What the decision means *)

(** A new intent is made only when no subscription is active or unresolved, no
    operation is recorded, no session is open, nothing awaits its webhook, and
    no intent under way has to be finished first. *)
Lemma existing_none verified planId nowMs gw r :
  existing_state verified planId nowMs gw r = None →
  has_active r = false ∧ has_blocking r = false ∧ truthy (bs_billingOperationId r) = false ∧
  bs_checkoutStatus r ≠ "completed" ∧
  (intent_open r = true → checkoutIntentExpired gw (bs_checkoutSessionExpiresAt r) = true) ∧
  (is_creating r = true → truthy (bs_checkoutPlanId r) = true → bs_checkoutPlanId r = Some planId) ∧
  (is_creating r = true → bs_checkoutPlanId r = Some planId → truthy (bs_checkoutIdempotencyKey r) = false).
Proof.
  unfold existing_state. cbv zeta.
  destruct (has_active r); [by repeat case_match|]. destruct (truthy (bs_billingOperationId r)); [done|].
  destruct (intent_open r && _ && _ && _); [done|]. destruct (abandonable gw r); [done|].
  destruct (is_creating r && _) eqn:Hc; [done|]. destruct (intent_open r && negb _) eqn:Ho; [by case_match|].
  destruct (bool_decide (bs_checkoutStatus r = "completed")) eqn:Hst; [done|].
  destruct (is_creating r && _ && truthy _) eqn:Hr; [done|]. destruct (has_blocking r); [done|]. intros _.
  bools. split_and!; try done.
  - intros Hop. rewrite Hop in Ho. cbn [andb] in Ho. by bools.
  - intros Hcr Hp. rewrite Hcr, Hp in Hc. cbn [andb] in Hc. by bools.
  - intros Hcr Hp. by rewrite Hcr, (bool_decide_true (_ = Some planId)) in Hr.
Qed.

(** The replay below the update is never reached. *)
Lemma existing_none_renews verified planId nowMs gw r :
  existing_state verified planId nowMs gw r = None → renews_intent planId gw r = true.
Proof.
  intros (_ & _ & _ & _ & _ & _ & H)%existing_none. unfold renews_intent.
  destruct (is_creating r); [|done]. destruct (truthy (bs_checkoutIdempotencyKey r)); [|done].
  destruct (bool_decide (bs_checkoutPlanId r = Some planId)) eqn:Hp; [|by rewrite orb_true_r]. bools. by specialize (H eq_refl Hp).
Qed.

Lemma replay_intent_inv gw r i key c params :
  replay_intent gw r = checkout_proceed i key c params →
  key = coalesce (bs_checkoutIdempotencyKey r) "" ∧
  ∃ T, bs_checkoutIntentCreatedAt r = Some T ∧ 0 ≤ gw - T < CHECKOUT_IDEMPOTENCY_REPLAY_MAX_AGE_MS.
Proof.
  unfold replay_intent, replayableCheckoutSnapshot. destruct (bs_checkoutIntentCreatedAt r) as [T|]; [|done].
  destruct (_ || _) eqn:Hage; [done|]. bools. repeat (case_match; try done). intros [= _ <- _ _].
  split; [done|]. by exists T.
Qed.

(** The two states that go on with an intent that is there. *)
Lemma existing_some verified planId nowMs gw r s :
  existing_state verified planId nowMs gw r = Some s →
  match s with
  | checkout_proceed _ key _ _ =>
      is_creating r = true ∧ truthy (bs_checkoutIdempotencyKey r) = true ∧ bs_checkoutIdempotencyKey r = Some key ∧
      ∃ T, bs_checkoutIntentCreatedAt r = Some T ∧ 0 ≤ gw - T < CHECKOUT_IDEMPOTENCY_REPLAY_MAX_AGE_MS
  | reconcile_stale _ key _ _ _ _ => abandonable gw r = true ∧ key = bs_checkoutIdempotencyKey r
  | _ => True
  end.
Proof.
  unfold existing_state. cbv zeta.
  destruct (has_active r); [by destruct (live_subscription nowMs r); [|destruct verified]; intros [= <-]|].
  destruct (truthy (bs_billingOperationId r)); [by intros [= <-]|].
  destruct (intent_open r && _ && _ && _); [by intros [= <-]|]. destruct (abandonable gw r); [by intros [= <-]|].
  destruct (is_creating r && (_ && _)); [by intros [= <-]|]. destruct (intent_open r && _); [by destruct (truthy _ && _); intros [= <-]|].
  destruct (bs_checkoutStatus r == "completed"); [by intros [= <-]|].
  destruct (is_creating r && _ && truthy _) eqn:Hr; [|by destruct (has_blocking r); intros [= <-]]. bools.
  intros [= <-]. destruct (replay_intent gw r) eqn:E; try done.
  - unfold replay_intent in E. by case_match.
  - apply replay_intent_inv in E as [-> HT]. by destruct (bs_checkoutIdempotencyKey r).
Qed.

Lemma store_inv t r b b' : store t r b = Ok b' → b' = set_row t r b.
Proof. unfold store. intros H. rinv. by subst. Qed.

(** The first transaction: it decides without writing, or makes an intent. *)
Lemma start_inv m verified planId plan base uuid ck gw d a b s b' :
  start_checkout m verified planId plan base uuid ck gw d a b = Ok (s, b') →
  let t := mc_tenantId m in
  (b' = b ∧ ∃ r, bd_subscriptions b !! t = Some r ∧
     existing_state verified planId (clock_timestamp ck) gw r = Some s) ∨
  ∃ i c params, s = checkout_proceed i (intent_key uuid) c params ∧
    buildCheckoutRequestParams base t planId plan = Ok params ∧
    ((bd_subscriptions b !! t = None ∧ b' = set_row t (first_row planId (intent_key uuid) params ck) b) ∨
     ∃ r, bd_subscriptions b !! t = Some r ∧ existing_state verified planId (clock_timestamp ck) gw r = None ∧
       b' = set_row t (new_intent planId (intent_key uuid) params (clock_timestamp ck) r) b).
Proof.
  unfold start_checkout. intros H. rinv. destruct r2 as [s0 r']. rinv. simplify_eq.
  rename Hr3 into Hst, Hr2 into Hdec. clear r r0 r1 Hr Hr0 Hr1.
  unfold checkout_decision in Hdec. destruct (bd_subscriptions b !! mc_tenantId m) as [r|] eqn:Hrow; cbn [mbind option_bind] in Hdec.
  - destruct (existing_state _ _ _ _ r) as [s1|] eqn:Hex.
    + rinv. simplify_eq. left. cbn [store_opt] in Hst. rinv. split; [done|]. by exists r.
    + rinv. rewrite (existing_none_renews _ _ _ _ _ Hex) in Hdec. rinv. simplify_eq. right.
      cbn [store_opt] in Hst. apply store_inv in Hst as ->. eexists _, _, _. split_and!; [done|done|]. right. by exists r.
  - rinv. simplify_eq. right. cbn [store_opt] in Hst. apply store_inv in Hst as ->.
    eexists _, _, _. split_and!; [done|done|]. by left.
Qed.

(** The later transactions, by what they write. *)
Lemma verification_inv m sub rev key status ck d a b x b' :
  apply_verification m sub rev key status ck d a b = Ok (x, b') →
  b' = b ∨ ∃ r, bd_subscriptions b !! mc_tenantId m = Some r ∧
    b' = set_row (mc_tenantId m) (ended_by_stripe status (clock_timestamp ck) r) b.
Proof.
  unfold apply_verification. intros H. rinv. destruct (bd_subscriptions b !! _) as [r1|]; [|rinv; simplify_eq; by left].
  destruct (_ || _ || _); [rinv; simplify_eq; by left|]. destruct (negb (is_ended status)); [rinv; simplify_eq; by left|].
  rinv. simplify_eq. right. exists r1. split; [done|]. by apply store_inv.
Qed.

Lemma recovery_inv m key c rev cols o ck d a b s b' :
  apply_recovery m key c rev cols o ck d a b = Ok (s, b') →
  b' = b ∨ ∃ r plan status id start, bd_subscriptions b !! mc_tenantId m = Some r ∧ is_creating r = true ∧
    bs_checkoutIdempotencyKey r = key ∧
    b' = set_row (mc_tenantId m) (recovered_row plan status id start o (clock_timestamp ck) r) b.
Proof.
  unfold apply_recovery. destruct cols as [[[plan status] id] start]. intros H. rinv.
  destruct (bd_subscriptions b !! _) as [r1|]; [|rinv; simplify_eq; by left].
  destruct (_ || _ || _ || _) eqn:Hg; [rinv; simplify_eq; by left|].
  destruct (_ && _ && _); [rinv; simplify_eq; by left|]. bools.
  rinv. simplify_eq. right. exists r1, plan, status, id, start. split_and!; [done..|]. by apply store_inv.
Qed.

Lemma rotation_inv m planId plan base uuid key c rev ck gw d a b s b' :
  rotate_intent m planId plan base uuid key c rev ck gw d a b = Ok (s, b') →
  let t := mc_tenantId m in
  (b' = b ∧ state_response s ≠ CheckoutError 409 (Some "CHECKOUT_STATE_CHANGED")) ∨
  ∃ r i cust params, bd_subscriptions b !! t = Some r ∧ is_creating r = true ∧ bs_checkoutIdempotencyKey r = key ∧
    creatingCheckoutCanBeAbandoned gw (bs_checkoutIntentCreatedAt r) (Some (bs_updatedAt r)) = true ∧
    s = checkout_proceed i (intent_key uuid) cust params ∧
    b' = set_row t (new_intent planId (intent_key uuid) params (clock_timestamp ck) r) b.
Proof.
  unfold rotate_intent. intros H. rinv. destruct (bd_subscriptions b !! _) as [r1|]; [|rinv; simplify_eq; by left].
  rinv. destruct r0 as [s0 r']. rinv. simplify_eq. rename Hr0 into Hdec, Hr1 into Hst. unfold rotate_decision in Hdec.
  repeat match type of Hdec with
  | (if ?c then _ else _) = _ => destruct c eqn:?; [rinv; simplify_eq; cbn [store_opt] in Hst; rinv; subst; left;
      split; [done|]; repeat case_match; by simpl; repeat case_match|]
  end.
  rinv. simplify_eq. right. cbn [store_opt] in Hst. apply store_inv in Hst as ->. bools.
  eexists r1, _, _, _. by split_and!.
Qed.

Lemma customer_inv t c n b x b' :
  bind_customer t c n b = Ok (x, b') →
  b' = b ∨ ∃ r, bd_subscriptions b !! t = Some r ∧ b' = set_row t (with_customer c n r) b.
Proof.
  unfold bind_customer. intros H. destruct (bd_subscriptions b !! t) as [r|]; [|done].
  destruct (truthy _); [destruct (negb _); rinv; simplify_eq; by left|]. rinv. simplify_eq. right. exists r.
  split; [done|]. by apply store_inv.
Qed.

Lemma fence_inv m key ck d a b b' :
  attempt_fence m key ck d a b = Ok (fence_proceed, b') →
  ∃ r, bd_subscriptions b !! mc_tenantId m = Some r ∧ owns_intent key r = true ∧
    b' = set_row (mc_tenantId m) (touched (clock_timestamp ck) r) b.
Proof.
  unfold attempt_fence. intros H. rinv. destruct (bd_subscriptions b !! _) as [r1|]; [|done].
  destruct (owns_intent key r1) eqn:Hown; [|by repeat case_match].
  rinv. simplify_eq. exists r1. split_and!; [done..|]. by apply store_inv.
Qed.

Lemma finalize_inv m key s ck d a b x b' :
  finalize_session m key s ck d a b = Ok (x, b') →
  b' = b ∨ ∃ r, bd_subscriptions b !! mc_tenantId m = Some r ∧ owns_intent key r = true ∧
    b' = set_row (mc_tenantId m) (opened s (clock_timestamp ck) r) b.
Proof.
  unfold finalize_session. intros H. rinv. destruct (bd_subscriptions b !! _) as [r1|]; [|rinv; simplify_eq; by left].
  destruct (has_active r1 && _); [rinv; simplify_eq; by left|].
  destruct (owns_intent key r1) eqn:Hown; [|repeat case_match; rinv; simplify_eq; by left].
  rinv. simplify_eq. right. exists r1. split_and!; [done..|]. by apply store_inv.
Qed.
