(* ===== verification/CheckoutRuns.v ===== *)
(** * CheckoutRuns: overlapping checkout requests

    Any number of requests are between the transactions of
    [src/app/api/billing/checkout/route.ts], Stripe serves their calls, users
    pay, webhooks arrive, processes die. The runs keep the one promise all the
    fences of the route are there for: a workspace never has two Checkout
    Sessions that can be paid.

    Stripe is described by the rules of the step relation, which are its
    documentation: a key is answered with the session made under it for 24
    hours, a session lives at most 24 hours, and a refused key stays refused
    and has no session. [skew] bounds how far the gateway clock is from the
    database's, [lag] how long a request takes from its decision to its call;
    the hour the route keeps in reserve has to cover both. *)

From S2P Require Import Prelude DatabaseTime JobStatus Json Schema Authority Availability Payload.
From S2P Require Import PrinterVirtual Capability Entitlements Samples JobProtocol JobDelivery.
From S2P Require Import JobMaintenance AgentJobs JobService Lifecycle Billing BillingOperation StripeClient.
From S2P Require Import BillingCheckout.

(** ** Stripe's sessions and the requests under way *)

Record stripe_session := {
  ss_key : string;
  ss_tenant : string;
  ss_answer : StripeApiResponse;
  ss_created : Z;
  ss_expires : Z;
  ss_paid : bool;
}.

Definition pay (s : stripe_session) : stripe_session := {|
  ss_key := ss_key s; ss_tenant := ss_tenant s; ss_answer := ss_answer s; ss_created := ss_created s;
  ss_expires := ss_expires s; ss_paid := true |}.

(** What a request waits for. *)
Inductive request_phase : Type :=
| ph_verify (sub : string) (customer : option string) (revision : Z) (key : option string)
| ph_stale (key customer : option string) (revision : Z)
| ph_ready (key : string) (customer : option string) (params : json)
| ph_fenced (key : string) (at_ : Z)
| ph_answered (key : string) (s : StripeApiResponse)
| ph_rejected (key : string).

Record checkout_request := Req {
  rq_manager : ManagerClaims;
  rq_planId : string;
  rq_plan : plan_prices;
  rq_base : option string;
  rq_decided : Z;
  rq_phase : request_phase;
}.

Definition rq_tenant (p : checkout_request) : string := mc_tenantId (rq_manager p).

Definition in_phase (ph : request_phase) (p : checkout_request) : checkout_request :=
  Req (rq_manager p) (rq_planId p) (rq_plan p) (rq_base p) (rq_decided p) ph.

(** The request a decided state leaves running. *)
Definition follow (m : ManagerClaims) (planId : string) (plan : plan_prices) (base : option string) (n : Z)
    (s : CheckoutState) : list checkout_request :=
  match s with
  | verify_subscription sub c rev key => [Req m planId plan base n (ph_verify sub c rev key)]
  | reconcile_stale _ key c _ _ rev => [Req m planId plan base n (ph_stale key c rev)]
  | checkout_proceed _ key c params => [Req m planId plan base n (ph_ready key c params)]
  | _ => []
  end.

(** [cw_intents] remembers whose intent a key was, and since when;
    [cw_refused] the keys Stripe has definitively refused. *)
Record checkout_world := W {
  cw_now : Z;
  cw_db : billing_db;
  cw_intents : gmap string (string * Z);
  cw_sessions : list stripe_session;
  cw_refused : gset string;
  cw_requests : list checkout_request;
}.

Definition mint (uuid t : string) (n : Z) (s : CheckoutState) (I : gmap string (string * Z))
    : gmap string (string * Z) :=
  match s with
  | checkout_proceed _ key _ _ => if key == intent_key uuid then <[key := (t, n)]> I else I
  | _ => I
  end.

Definition has_intent (r : billing_row) : bool := is_creating r || intent_open r.

(** The columns of an intent. *)
Definition intent_columns (r : billing_row) :=
  (bs_checkoutStatus r, bs_checkoutPlanId r, bs_checkoutIdempotencyKey r, bs_checkoutIntentCreatedAt r,
   bs_checkoutSessionExpiresAt r).

(** What webhooks are taken to do to a row with an intent: an event that ends a
    subscription does not arrive while another checkout is pending, and a
    completed checkout is the one that was paid. *)
Definition faithful (S : list stripe_session) (r r' : billing_row) : Prop :=
  has_intent r = true → bs_checkoutStatus r' ≠ "none" ∧
  (bs_checkoutStatus r' = "completed" →
   ∃ s, s ∈ S ∧ bs_checkoutIdempotencyKey r = Some (ss_key s) ∧ ss_paid s = true).

(** A write of another route: a pending intent stays as it is and its
    [updated_at] does not go back. A new row has no intent. *)
Definition unrelated (n : Z) (r : option billing_row) (r' : billing_row) : Prop :=
  match r with
  | Some r => intent_columns r' = intent_columns r ∧
              (is_creating r = true → bs_updatedAt r ≤ bs_updatedAt r' ≤ n)
  | None => bs_checkoutStatus r' = "none"
  end.

(** Cancelling and resuming are such writes. *)
Lemma set_row_unrelated n b t r r' :
  bd_subscriptions b !! t = Some r → intent_columns r' = intent_columns r → bs_updatedAt r ≤ bs_updatedAt r' ≤ n →
  (∀ t r, bd_subscriptions b !! t = Some r → bs_updatedAt r ≤ n) →
  ∀ t0 r0, bd_subscriptions (set_row t r' b) !! t0 = Some r0 → unrelated n (bd_subscriptions b !! t0) r0.
Proof.
  intros Hr Hcol Hup Hall t0 r0. cbn. intros [[<- <-]|[_ Hr0]]%lookup_insert_Some; [by rewrite Hr|].
  rewrite Hr0. split; [done|]. specialize (Hall _ _ Hr0). lia.
Qed.

Lemma operations_unrelated n b t o s answer :
  (∀ t r, bd_subscriptions b !! t = Some r → bs_updatedAt r ≤ n) →
  (∀ m uuid ck d a s' b', clock_timestamp ck = n → claim m o uuid ck d a b = Ok (s', b') →
     ∀ t0 r0, bd_subscriptions b' !! t0 = Some r0 → unrelated n (bd_subscriptions b !! t0) r0) ∧
  (∀ t0 r0, bd_subscriptions (conclude t o s answer n b).2 !! t0 = Some r0 → unrelated n (bd_subscriptions b !! t0) r0).
Proof.
  intros Hall.
  assert (∀ t0 r0, bd_subscriptions b !! t0 = Some r0 → unrelated n (bd_subscriptions b !! t0) r0) as Hsame.
  { intros t0 r0 Hr0. rewrite Hr0. split; [done|]. specialize (Hall _ _ Hr0). lia. }
  split.
  - intros m uuid ck d a s' b' Hck [(_ & -> & _)|(r & r' & Hr & Hrow & ->)]%claim_billing_inv; [done|].
    destruct r' as [r'|]; [|done]. rewrite Hck in Hrow. pose proof (Hall _ _ Hr).
    assert (intent_columns r' = intent_columns r ∧ bs_updatedAt r' = n) as [Hcol Hup].
    { unfold claim_subscription in Hrow. repeat (case_match; simplify_eq; try done). }
    eapply set_row_unrelated; [done|done|lia|done].
  - assert (∀ r v, bd_subscriptions b !! t = Some r → ∀ t0 r0,
      bd_subscriptions (set_row t (v (cleared n r)) b) !! t0 = Some r0 → v = id ∨ v = with_cancelAtPeriodEnd (op_cancelAtPeriodEnd o) →
      unrelated n (bd_subscriptions b !! t0) r0) as Hset.
    { intros r v Hr t0 r0 H0 Hv. pose proof (Hall _ _ Hr). revert t0 r0 H0.
      destruct Hv as [-> | ->]; (eapply set_row_unrelated; [done|done|cbn; lia|done]). }
    intros t0 r0. unfold conclude, finalize, release_claim.
    repeat case_match; simplify_eq/=; try (intros ?; by eapply Hsame).
    all: intros H0; first [eapply (Hset _ id); [done|exact H0|by left]
      | eapply (Hset _ (with_cancelAtPeriodEnd (op_cancelAtPeriodEnd o))); [done|exact H0|by right]].
Qed.

Section runs.
Context (skew lag : Z).

Definition clock_at (n : Z) (ck : clock) : Prop := clock_timestamp ck = n ∧ now ck ≤ n.
Definition near (n gw : Z) : Prop := n - skew ≤ gw ≤ n + skew.

(** Stripe's answers to a call under a key. *)
Inductive stripe_serves (n : Z) (S : list stripe_session) (R : gset string) (key t : string)
    : list stripe_session → gset string → request_phase → Prop :=
| ss_replayed s :
    s ∈ S → ss_key s = key → n < ss_created s + hours 24 →
    stripe_serves n S R key t S R (ph_answered key (ss_answer s))
| ss_made s :
    (∀ s', s' ∈ S → ss_key s' = key → ss_created s' + hours 24 ≤ n) → key ∉ R →
    ss_key s = key → ss_tenant s = t → ss_created s = n → n < ss_expires s ≤ n + hours 24 →
    (∀ x, sa_expires_at (ss_answer s) = Some x → ss_expires s = 1000 * x) →
    stripe_serves n S R key t (S ++ [s]) R (ph_answered key (ss_answer s))
| ss_refused :
    (∀ s', s' ∈ S → ss_key s' ≠ key) →
    stripe_serves n S R key t S ({[key]} ∪ R) (ph_rejected key).

Inductive checkout_step : checkout_world → checkout_world → Prop :=
| cs_tick n n' b I S R P : n ≤ n' → checkout_step (W n b I S R P) (W n' b I S R P)
| cs_start n b I S R P m verified planId plan base uuid ck gw d a s b' :
    clock_at n ck → near n gw → planId ≠ "" → I !! intent_key uuid = None →
    start_checkout m verified planId plan base uuid ck gw d a b = Ok (s, b') →
    checkout_step (W n b I S R P)
      (W n b' (mint uuid (mc_tenantId m) n s I) S R (follow m planId plan base n s ++ P))
| cs_verify n b I S R P1 p P2 sub c rev key reply o status ck d a x b' :
    rq_phase p = ph_verify sub c rev key → clock_at n ck →
    stripeRetrieve reply = Ok o → verified_status (rq_tenant p) sub c o = Some status →
    apply_verification (rq_manager p) sub rev key status ck d a b = Ok (x, b') →
    checkout_step (W n b I S R (P1 ++ p :: P2)) (W n b' I S R (P1 ++ P2))
| cs_recover n b I S R P1 p P2 key c rev listed retrieved o b0 cols ck d a s b' :
    rq_phase p = ph_stale key c rev → clock_at n ck →
    stripe_lookup (rq_tenant p) c listed retrieved = lookup_recovered o →
    recovered_columns c o b0 = Some cols →
    apply_recovery (rq_manager p) key c rev cols o ck d a b = Ok (s, b') →
    checkout_step (W n b I S R (P1 ++ p :: P2)) (W n b' I S R (P1 ++ P2))
| cs_rotate n b I S R P1 p P2 key c rev listed retrieved uuid ck gw d a s b' :
    rq_phase p = ph_stale key c rev → clock_at n ck → near n gw → rq_planId p ≠ "" →
    I !! intent_key uuid = None →
    stripe_lookup (rq_tenant p) c listed retrieved = lookup_none →
    rotate_intent (rq_manager p) (rq_planId p) (rq_plan p) (rq_base p) uuid key c rev ck gw d a b = Ok (s, b') →
    checkout_step (W n b I S R (P1 ++ p :: P2))
      (W n b' (mint uuid (rq_tenant p) n s I) S R
         (P1 ++ follow (rq_manager p) (rq_planId p) (rq_plan p) (rq_base p) n s ++ P2))
| cs_customer n b I S R P1 p P2 key c params made customer b' :
    rq_phase p = ph_ready key c params → truthy c = false →
    bind_customer (rq_tenant p) made n b = Ok (customer, b') →
    checkout_step (W n b I S R (P1 ++ p :: P2))
      (W n b' I S R (P1 ++ in_phase (ph_ready key (Some customer) params) p :: P2))
| cs_customer_refused n b I S R P1 p P2 key c params :
    rq_phase p = ph_ready key c params → truthy c = false → (∀ s', s' ∈ S → ss_key s' ≠ key) →
    checkout_step (W n b I S R (P1 ++ p :: P2))
      (W n b I S ({[key]} ∪ R) (P1 ++ in_phase (ph_rejected key) p :: P2))
| cs_fence n b I S R P1 p P2 key c params ck d a b' :
    rq_phase p = ph_ready key c params → truthy c = true → clock_at n ck →
    attempt_fence (rq_manager p) key ck d a b = Ok (fence_proceed, b') →
    checkout_step (W n b I S R (P1 ++ p :: P2)) (W n b' I S R (P1 ++ in_phase (ph_fenced key n) p :: P2))
| cs_call n b I S R P1 p P2 key at_ S' R' ph :
    rq_phase p = ph_fenced key at_ → n ≤ rq_decided p + lag → stripe_serves n S R key (rq_tenant p) S' R' ph →
    checkout_step (W n b I S R (P1 ++ p :: P2)) (W n b I S' R' (P1 ++ in_phase ph p :: P2))
| cs_finalize n b I S R P1 p P2 key s ck d a x b' :
    rq_phase p = ph_answered key s → truthy (sa_url s) = true → clock_at n ck →
    finalize_session (rq_manager p) key s ck d a b = Ok (x, b') →
    checkout_step (W n b I S R (P1 ++ p :: P2)) (W n b' I S R (P1 ++ P2))
| cs_release n b I S R P1 p P2 key :
    rq_phase p = ph_rejected key →
    checkout_step (W n b I S R (P1 ++ p :: P2)) (W n (release_intent (rq_tenant p) key n b) I S R (P1 ++ P2))
| cs_end n b I S R P1 p P2 : checkout_step (W n b I S R (P1 ++ p :: P2)) (W n b I S R (P1 ++ P2))
| cs_pay n b I S R P i s :
    S !! i = Some s → n < ss_expires s → checkout_step (W n b I S R P) (W n b I (<[i := pay s]> S) R P)
| cs_webhook n I S R P h body env res b' :
    webhook_attempt h body env = (res, b') → ae_now env = n →
    (∀ t r r', bd_subscriptions (ae_db env) !! t = Some r → bd_subscriptions b' !! t = Some r' → faithful S r r') →
    checkout_step (W n (ae_db env) I S R P) (W n b' I S R P)
| cs_elsewhere n b I S R P b' :
    (∀ t r', bd_subscriptions b' !! t = Some r' → unrelated n (bd_subscriptions b !! t) r') →
    (∀ t, is_Some (bd_subscriptions b !! t) → is_Some (bd_subscriptions b' !! t)) →
    checkout_step (W n b I S R P) (W n b' I S R P).

(** ** The invariant *)

(** The request has passed the fence of the key and its answer is open. *)
Definition past_fence (P : list checkout_request) (k : string) (at_ decided : Z) : Prop :=
  ∃ p, p ∈ P ∧ rq_phase p = ph_fenced k at_ ∧ rq_decided p = decided.

(** The key is the one of the pending intent of the tenant. *)
Definition current_intent (b : billing_db) (t k : string) : Prop :=
  ∃ r, bd_subscriptions b !! t = Some r ∧ has_intent r = true ∧ bs_checkoutIdempotencyKey r = Some k.

#[local] Instance current_dec b t k : Decision (current_intent b t k).
Proof.
  destruct (bd_subscriptions b !! t) as [r|] eqn:Hr.
  - destruct (decide (has_intent r = true ∧ bs_checkoutIdempotencyKey r = Some k)) as [H|H]; [left; by exists r|right].
    intros (r' & Hr' & H'). simplify_eq. by destruct H.
  - right. intros (r' & Hr' & _). congruence.
Defined.

(** No session of the key can be paid, now or later. *)
Definition dead (n : Z) (S : list stripe_session) (R : gset string) (P : list checkout_request) (k : string) : Prop :=
  (∀ s, s ∈ S → ss_key s = k → ss_paid s = true ∨ ss_expires s ≤ n + skew) ∧
  (∀ at_ decided, past_fence P k at_ decided → decided + lag < n ∨ k ∈ R ∨ ∃ s, s ∈ S ∧ ss_key s = k).

Definition key_age_ok (I : gmap string (string * Z)) (t k : string) (decided : Z) : Prop :=
  ∃ T, I !! k = Some (t, T) ∧ T ≤ decided < T + hours 23 + skew.

Definition phase_ok (n : Z) (I : gmap string (string * Z)) (S : list stripe_session) (R : gset string) (t : string)
    (decided : Z) (ph : request_phase) : Prop :=
  match ph with
  | ph_verify _ _ _ _ => True
  | ph_stale key _ _ => ∃ k T, key = Some k ∧ I !! k = Some (t, T) ∧ T + hours 25 ≤ n + skew ∧
                          (∀ s, s ∈ S → ss_key s = k → ss_expires s ≤ n + skew)
  | ph_ready k _ _ => key_age_ok I t k decided
  | ph_fenced k at_ => key_age_ok I t k decided ∧ decided ≤ at_ ≤ n
  | ph_answered k s => key_age_ok I t k decided ∧ ∃ x, x ∈ S ∧ ss_key x = k ∧ ss_answer x = s
  | ph_rejected k => key_age_ok I t k decided ∧ k ∈ R
  end.

Definition request_ok (n : Z) (I : gmap string (string * Z)) (S : list stripe_session) (R : gset string)
    (p : checkout_request) : Prop :=
  rq_decided p ≤ n ∧ phase_ok n I S R (rq_tenant p) (rq_decided p) (rq_phase p).

Record session_ok (n : Z) (I : gmap string (string * Z)) (R : gset string) (s : stripe_session) : Prop := {
  so_intent : ∃ T, I !! ss_key s = Some (ss_tenant s, T) ∧ T ≤ ss_created s;
  so_created : ss_created s ≤ n;
  so_life : ss_expires s ≤ ss_created s + hours 24;
  so_answer : ∀ x, sa_expires_at (ss_answer s) = Some x → ss_expires s = 1000 * x;
  so_accepted : ss_key s ∉ R;
}.

Record creating_ok (n : Z) (I : gmap string (string * Z)) (S : list stripe_session) (P : list checkout_request) (t : string)
    (r : billing_row) (k : string) (T : Z) : Prop := {
  co_key : bs_checkoutIdempotencyKey r = Some k;
  co_named : k ≠ "";
  co_intent : I !! k = Some (t, T);
  co_since : bs_checkoutIntentCreatedAt r = Some T;
  co_plan : ∃ pl, bs_checkoutPlanId r = Some pl ∧ pl ≠ "";
  co_touched : bs_updatedAt r ≤ n;
  co_fenced : ∀ at_ decided, past_fence P k at_ decided → at_ ≤ bs_updatedAt r;
  co_sessions : ∀ s, s ∈ S → ss_key s = k → ss_created s ≤ bs_updatedAt r + lag;
}.

Definition open_ok (I : gmap string (string * Z)) (S : list stripe_session) (t : string) (r : billing_row) : Prop :=
  ∃ s T, s ∈ S ∧ bs_checkoutIdempotencyKey r = Some (ss_key s) ∧ I !! ss_key s = Some (t, T) ∧
    ∀ e, bs_checkoutSessionExpiresAt r = Some e → ss_expires s = e.

Definition intent_row_ok (n : Z) (I : gmap string (string * Z)) (S : list stripe_session) (P : list checkout_request) (t : string)
    (r : billing_row) : Prop :=
  (is_creating r = true → ∃ k T, creating_ok n I S P t r k T) ∧ (intent_open r = true → open_ok I S t r).

Record world_ok (w : checkout_world) : Prop := {
  wo_rows : ∀ t r, bd_subscriptions (cw_db w) !! t = Some r →
    intent_row_ok (cw_now w) (cw_intents w) (cw_sessions w) (cw_requests w) t r;
  wo_requests : ∀ p, p ∈ cw_requests w → request_ok (cw_now w) (cw_intents w) (cw_sessions w) (cw_refused w) p;
  wo_sessions : ∀ s, s ∈ cw_sessions w → session_ok (cw_now w) (cw_intents w) (cw_refused w) s;
  wo_one : ∀ i j s1 s2, cw_sessions w !! i = Some s1 → cw_sessions w !! j = Some s2 → ss_key s1 = ss_key s2 → i = j;
  wo_dead : ∀ k t T, cw_intents w !! k = Some (t, T) → ¬ current_intent (cw_db w) t k →
    dead (cw_now w) (cw_sessions w) (cw_refused w) (cw_requests w) k;
  wo_intents : ∀ k t T, cw_intents w !! k = Some (t, T) → T ≤ cw_now w;
}.

(** ** Requests come and go *)

Lemma fenced_sub P P' k at_ decided :
  (∀ p, p ∈ P' → p ∈ P) → past_fence P' k at_ decided → past_fence P k at_ decided.
Proof. intros Hsub (p & Hp & H). exists p. split; [by apply Hsub|done]. Qed.

(** A request that was replaced by one that has not passed a fence. *)
Lemma fenced_replaced P1 p ps P2 k at_ decided :
  (∀ q k at_, q ∈ ps → rq_phase q ≠ ph_fenced k at_) →
  past_fence (P1 ++ ps ++ P2) k at_ decided → past_fence (P1 ++ p :: P2) k at_ decided.
Proof.
  intros Hno (q & Hq & Hph & Hd). exists q. split; [|done].
  apply elem_of_app in Hq as [Hq|[Hq|Hq]%elem_of_app]; [set_solver| |set_solver]. by destruct (Hno q k at_ Hq).
Qed.

Lemma follow_unfenced m planId plan base n s q k at_ :
  q ∈ follow m planId plan base n s → rq_phase q ≠ ph_fenced k at_.
Proof. destruct s; cbn [follow]; rewrite ?list_elem_of_singleton; try set_solver; by intros ->. Qed.

Lemma creating_ok_mono n n' I I' S P P' t r k T :
  creating_ok n I S P t r k T → n ≤ n' → I ⊆ I' →
  (∀ at_ decided, past_fence P' k at_ decided → past_fence P k at_ decided) → creating_ok n' I' S P' t r k T.
Proof.
  intros [] Hn HI HP. split; try done.
  - by eapply lookup_weaken.
  - lia.
  - intros at_ decided Hf. by eapply co_fenced0, HP.
Qed.

Lemma row_ok_mono n n' I I' S P P' t r :
  intent_row_ok n I S P t r → n ≤ n' → I ⊆ I' →
  (∀ k T at_ decided, I !! k = Some (t, T) → past_fence P' k at_ decided → past_fence P k at_ decided) →
  intent_row_ok n' I' S P' t r.
Proof.
  intros [Hc Ho] Hn HI HP. split.
  - intros (k & T & H)%Hc. exists k, T. eapply creating_ok_mono; [done..|]. intros at_ decided. by eapply HP, co_intent.
  - intros (s & T & Hs & Hk & HT & He)%Ho. exists s, T. split_and!; try done. by eapply lookup_weaken.
Qed.

Lemma request_ok_mono n n' I I' S R R' p :
  request_ok n I S R p → n ≤ n' → I ⊆ I' → R ⊆ R' → request_ok n' I' S R' p.
Proof.
  intros [Hd H] Hn HI HR. split; [lia|].
  assert (∀ k, key_age_ok I (rq_tenant p) k (rq_decided p) → key_age_ok I' (rq_tenant p) k (rq_decided p)) as Hage.
  { intros k (T & HT & Hlt). exists T. split; [by eapply lookup_weaken|done]. }
  destruct (rq_phase p); cbn [phase_ok] in *; try done.
  - destruct H as (k & T & -> & HT & Hage' & Hs). exists k, T. split_and!; [done|by eapply lookup_weaken|lia|].
    intros s Hin Hk. specialize (Hs s Hin Hk). lia.
  - by apply Hage.
  - destruct H as [? ?]. split; [by apply Hage|lia].
  - destruct H as [? ?]. split; [by apply Hage|done].
  - destruct H as [? ?]. split; [by apply Hage|set_solver].
Qed.

Lemma dead_mono n n' S R R' P P' k :
  dead n S R P k → n ≤ n' → R ⊆ R' →
  (∀ at_ decided, past_fence P' k at_ decided → past_fence P k at_ decided) → dead n' S R' P' k.
Proof.
  intros [Hs Hf] Hn HR HP. split.
  - intros s Hin Hk. destruct (Hs s Hin Hk); [by left|right; lia].
  - intros at_ decided [H|[H|H]]%HP%Hf; [left; lia|right; left; set_solver|by do 2 right].
Qed.

(** A step that touches neither Stripe nor the clock. *)
Lemma local_step_ok n b I S R P b' I' P' :
  world_ok (W n b I S R P) → I ⊆ I' →
  (∀ k t T, I' !! k = Some (t, T) → I !! k = None → T = n) →
  (∀ k at_ decided, past_fence P' k at_ decided →
     past_fence P k at_ decided ∨ ∃ t T, I !! k = Some (t, T) ∧ current_intent b' t k) →
  (∀ p, p ∈ P' → p ∈ P ∨ request_ok n I' S R p) →
  (∀ t r, bd_subscriptions b' !! t = Some r → intent_row_ok n I' S P' t r) →
  (∀ k t T, I !! k = Some (t, T) → current_intent b t k → ¬ current_intent b' t k → dead n S R P k) →
  world_ok (W n b' I' S R P').
Proof.
  intros [Hrows Hreq Hses Hone Hdead Hint] HI Hnew HP Hreq' Hrows' Hleft. simpl in *.
  split; simpl; [done| | |done| |].
  - intros p [Hp|Hp]%Hreq'; [|done]. by eapply request_ok_mono; [by apply Hreq|..].
  - intros s Hs. destruct (Hses s Hs) as [(T & HT & Hle) ? ? ? ?]. split; try done. exists T. split; [|done].
    by eapply lookup_weaken.
  - intros k t T HT Hnc. destruct (I !! k) as [[t0 T0]|] eqn:Hk.
    + assert (t0 = t ∧ T0 = T) as [-> ->].
      { pose proof (lookup_weaken _ _ _ _ Hk HI). by simplify_eq. }
      assert (dead n S R P k) as Hd.
      { destruct (decide (current_intent b t k)) as [Hc|Hc]; [by eapply Hleft|by eapply Hdead]. }
      destruct Hd as [Hs Hf]. split; [done|]. intros at_ decided [H|(t1 & T1 & H1 & Hc)]%HP; [by eapply Hf|].
      destruct Hnc. rewrite Hk in H1. by injection H1 as <- <-.
    + split.
      * intros s Hs <-. destruct (so_intent _ _ _ _ (Hses s Hs)) as (T0 & HT0 & _). congruence.
      * intros at_ decided [(p & Hp & Hph & Hd)|(t1 & T1 & H1 & _)]%HP; [|congruence].
        destruct (Hreq p Hp) as [_ H]. rewrite Hph in H. destruct H as [(T0 & HT0 & _) _]. congruence.
  - intros k t T HT. destruct (I !! k) as [[t0 T0]|] eqn:Hk.
    + pose proof (lookup_weaken _ _ _ _ Hk HI). simplify_eq. by eapply Hint.
    + rewrite (Hnew k t T HT Hk). lia.
Qed.

(** ** Writes of one row *)

(** The intent the row of a tenant has. *)
Definition pending_intent (r : billing_row) (k : string) : Prop := has_intent r = true ∧ bs_checkoutIdempotencyKey r = Some k.

Lemma current_set_row b t r t' k :
  current_intent (set_row t r b) t' k ↔ (t' = t ∧ pending_intent r k) ∨ (t' ≠ t ∧ current_intent b t' k).
Proof.
  unfold current_intent, pending_intent. cbn. split.
  - intros (x & [[<- <-]|[Hne Hx]]%lookup_insert_Some & H); [by left|right]. split; [done|]. by exists x.
  - intros [[-> H]|[Hne (x & Hx & H)]]; [exists r; by rewrite lookup_insert_eq|exists x].
    by rewrite lookup_insert_ne.
Qed.

Lemma row_step_ok n b I S R P t r' I' P' :
  world_ok (W n b I S R P) → I ⊆ I' →
  (∀ k t T, I' !! k = Some (t, T) → I !! k = None → T = n) →
  (∀ k at_ decided, past_fence P' k at_ decided → past_fence P k at_ decided) →
  (∀ p, p ∈ P' → p ∈ P ∨ request_ok n I' S R p) →
  intent_row_ok n I' S P t r' →
  (∀ k r, bd_subscriptions b !! t = Some r → pending_intent r k → ¬ pending_intent r' k → dead n S R P k) →
  world_ok (W n (set_row t r' b) I' S R P').
Proof.
  intros Hok HI Hnew HP Hreq Hrow Hleft. eapply local_step_ok; try done.
  - intros k at_ decided Hf. left. by apply HP.
  - intros t0 r0. cbn. intros [[<- <-]|[Hne Hr0]]%lookup_insert_Some.
    + eapply row_ok_mono; [done|lia|done|]. intros k T at_ decided _. apply HP.
    + eapply row_ok_mono; [by apply (wo_rows _ Hok)|cbn; lia|done|]. intros k T at_ decided _. apply HP.
  - intros k t0 T HT (r & Hr & Hp) Hnc. destruct (decide (t0 = t)) as [->|Hne].
    + eapply (Hleft k r); [done|done|]. intros Hp'. apply Hnc, current_set_row. by left.
    + destruct Hnc. apply current_set_row. right. split; [done|]. by exists r.
Qed.

(** The intent stays and is at most touched. *)
Lemma columns_pending r r' k : intent_columns r' = intent_columns r → pending_intent r k → pending_intent r' k.
Proof.
  unfold intent_columns, pending_intent, has_intent, is_creating, intent_open. intros [= -> _ -> _ _]. done.
Qed.

Lemma row_ok_keep n I S P t r r' :
  intent_row_ok n I S P t r → intent_columns r' = intent_columns r →
  (is_creating r = true → bs_updatedAt r ≤ bs_updatedAt r' ≤ n) → intent_row_ok n I S P t r'.
Proof.
  intros [Hc Ho] Hcol Hup. unfold intent_columns in Hcol. injection Hcol as Hst Hpl Hk Hat Hex.
  assert (is_creating r' = is_creating r) as Hcr by (unfold is_creating; by rewrite Hst).
  assert (intent_open r' = intent_open r) as Hop by (unfold intent_open; by rewrite Hst). split.
  - intros H. rewrite Hcr in H. destruct (Hc H) as (k & T & []). exists k, T. specialize (Hup H).
    split; rewrite ?Hk, ?Hat, ?Hpl; try done; [lia|..].
    + intros at_ decided Hf. specialize (co_fenced0 _ _ Hf). lia.
    + intros s Hs Hsk. specialize (co_sessions0 _ Hs Hsk). lia.
  - intros H. rewrite Hop in H. destruct (Ho H) as (s & T & H1 & H2 & H3 & H4). exists s, T. by rewrite Hk, Hex.
Qed.

Lemma keep_ok n b I S R P t r r' P' :
  world_ok (W n b I S R P) → bd_subscriptions b !! t = Some r → intent_columns r' = intent_columns r →
  (is_creating r = true → bs_updatedAt r ≤ bs_updatedAt r' ≤ n) →
  (∀ k at_ decided, past_fence P' k at_ decided → past_fence P k at_ decided) →
  (∀ p, p ∈ P' → p ∈ P ∨ request_ok n I S R p) →
  world_ok (W n (set_row t r' b) I S R P').
Proof.
  intros Hok Hr Hcol Hup HP Hreq. eapply row_step_ok; try done; [congruence|..].
  - eapply row_ok_keep; [by apply (wo_rows _ Hok t r Hr)|done|done].
  - intros k r0 Hr0 Hp Hnp. assert (r0 = r) as -> by congruence. destruct Hnp. by eapply columns_pending.
Qed.

(** The intent is left once its key is dead. *)
Lemma leave_ok n b I S R P t r r' P' :
  world_ok (W n b I S R P) → bd_subscriptions b !! t = Some r → has_intent r' = false →
  (∀ k, pending_intent r k → dead n S R P k) →
  (∀ k at_ decided, past_fence P' k at_ decided → past_fence P k at_ decided) →
  (∀ p, p ∈ P' → p ∈ P ∨ request_ok n I S R p) →
  world_ok (W n (set_row t r' b) I S R P').
Proof.
  intros Hok Hr Hno Hdead HP Hreq. apply orb_false_iff in Hno as [Hc Ho].
  eapply row_step_ok; try done; [congruence|by split; rewrite ?Hc, ?Ho|].
  intros k r0 Hr0 Hp _. simplify_eq. by apply Hdead.
Qed.

(** A new intent takes the place of one whose key is dead. *)
Lemma mint_ok n b I S R P t r' key planId P' :
  world_ok (W n b I S R P) → I !! key = None → key ≠ "" → planId ≠ "" →
  is_creating r' = true → bs_checkoutIdempotencyKey r' = Some key → bs_checkoutPlanId r' = Some planId →
  bs_checkoutIntentCreatedAt r' = Some n → bs_updatedAt r' ≤ n →
  (∀ k r, bd_subscriptions b !! t = Some r → pending_intent r k → dead n S R P k) →
  (∀ k at_ decided, past_fence P' k at_ decided → past_fence P k at_ decided) →
  (∀ p, p ∈ P' → p ∈ P ∨ request_ok n (<[key := (t, n)]> I) S R p) →
  world_ok (W n (set_row t r' b) (<[key := (t, n)]> I) S R P').
Proof.
  intros Hok Hfresh Hkey Hplan Hcr Hk Hpl Hat Hup Hdead HP Hreq.
  eapply row_step_ok; try done.
  - by apply insert_subseteq.
  - intros k t0 T0 [[-> Heq]|[_ ?]]%lookup_insert_Some Hnone; [by simplify_eq|congruence].
  - split.
    + intros _. exists key, n. split; try done; [by rewrite lookup_insert_eq|by exists planId|..].
      * intros at_ decided (p & Hp & Hph & _). destruct (wo_requests _ Hok p Hp) as [_ H]. rewrite Hph in H.
        destruct H as [(T & HT & _) _]. cbn in HT. congruence.
      * intros s Hs <-. destruct (so_intent _ _ _ _ (wo_sessions _ Hok s Hs)) as (T & HT & _). cbn in HT. congruence.
    + unfold is_creating, intent_open in *. intros Ho. bools. congruence.
  - intros k r Hr Hp _. by eapply Hdead.
Qed.

(** ** When a key is dead *)

Context (slack : 0 ≤ skew ∧ 0 ≤ lag ∧ skew + lag ≤ hours 1).

Lemma same_session w s1 s2 :
  world_ok w → s1 ∈ cw_sessions w → s2 ∈ cw_sessions w → ss_key s1 = ss_key s2 → s1 = s2.
Proof.
  intros Hok [i Hi]%list_elem_of_lookup [j Hj]%list_elem_of_lookup Hk.
  assert (i = j) as -> by (by eapply (wo_one _ Hok)). congruence.
Qed.

(** The session the row names has expired. *)
Lemma expired_dead n b I S R P t r gw k :
  world_ok (W n b I S R P) → near n gw → bd_subscriptions b !! t = Some r → intent_open r = true →
  checkoutIntentExpired gw (bs_checkoutSessionExpiresAt r) = true → bs_checkoutIdempotencyKey r = Some k →
  dead n S R P k.
Proof.
  intros Hok Hgw Hr Ho Hex Hk. destruct (proj2 (wo_rows _ Hok t r Hr) Ho) as (s & T & Hs & Hsk & _ & He). cbn in *.
  assert (ss_key s = k) as Hkey by congruence. clear Hsk. split.
  - intros s' Hs' Hk'. right. assert (s' = s) as -> by (eapply (same_session _ _ _ Hok); [done|done|congruence]).
    unfold checkoutIntentExpired in Hex. destruct (bs_checkoutSessionExpiresAt r) as [e|]; [|done]. bools.
    rewrite (He e eq_refl). unfold near in Hgw. lia.
  - intros at_ decided _. do 2 right. by exists s.
Qed.

(** The last attempt is so long ago that whatever it made has expired. *)
Lemma abandoned_dead n b I S R P t r gw k :
  world_ok (W n b I S R P) → near n gw → bd_subscriptions b !! t = Some r → is_creating r = true →
  creatingCheckoutCanBeAbandoned gw (bs_checkoutIntentCreatedAt r) (Some (bs_updatedAt r)) = true →
  bs_checkoutIdempotencyKey r = Some k → dead n S R P k.
Proof.
  intros Hok Hgw Hr Hc Hab Hk. destruct (proj1 (wo_rows _ Hok t r Hr) Hc) as (k' & T & [Hk' _ _ HT _ _ Hf Hses]). cbn in *.
  assert (k' = k) as -> by congruence. unfold creatingCheckoutCanBeAbandoned in Hab. rewrite HT in Hab.
  unfold CHECKOUT_STALE_RECONCILE_AGE_MS, near, hours, mins, secs in *. bools. split.
  - intros s Hs Hsk. right. specialize (Hses s Hs Hsk). pose proof (so_life _ _ _ _ (wo_sessions _ Hok s Hs)).
    unfold hours, mins, secs in *. lia.
  - intros at_ decided Hfe. left. specialize (Hf _ _ Hfe). destruct Hfe as (p & Hp & Hph & <-).
    destruct (wo_requests _ Hok p Hp) as [_ H']. rewrite Hph in H'. destruct H' as [_ ?]. lia.
Qed.

(** What a request that found the intent stale knows, however long ago. *)
Lemma stale_dead n b I S R P p key c rev k :
  world_ok (W n b I S R P) → p ∈ P → rq_phase p = ph_stale key c rev → key = Some k → dead n S R P k.
Proof.
  intros Hok Hp Hph ->. destruct (wo_requests _ Hok p Hp) as [_ H]. rewrite Hph in H.
  destruct H as (k' & T & [= <-] & HT & Hage & Hses). cbn in *. split; [intros s Hs Hk; right; by apply Hses|].
  intros at_ decided (q & Hq & Hqph & <-). left. destruct (wo_requests _ Hok q Hq) as [_ H]. rewrite Hqph in H.
  destruct H as [(T' & HT' & Hlt) _]. cbn in *. simplify_eq. unfold hours, mins, secs in *. lia.
Qed.

Lemma refused_dead n b I S R P k : world_ok (W n b I S R P) → k ∈ R → dead n S R P k.
Proof.
  intros Hok Hk. split; [|by right; left]. intros s Hs <-.
  by destruct (so_accepted _ _ _ _ (wo_sessions _ Hok s Hs)).
Qed.

Lemma paid_dead n b I S R P s : world_ok (W n b I S R P) → s ∈ S → ss_paid s = true → dead n S R P (ss_key s).
Proof.
  intros Hok Hs Hp. split; [|by do 2 right; exists s]. intros s' Hs' Hk.
  assert (s' = s) as -> by (by eapply (same_session _ _ _ Hok)). by left.
Qed.

(** A stale intent, when it is found. *)
Lemma abandonable_stale n b I S R P t r gw :
  world_ok (W n b I S R P) → near n gw → bd_subscriptions b !! t = Some r → abandonable gw r = true →
  phase_ok n I S R t n (ph_stale (bs_checkoutIdempotencyKey r) (bs_stripeCustomerId r) (bs_stripeStateRevision r)).
Proof.
  intros Hok Hgw Hr Hab. unfold abandonable in Hab. apply andb_true_iff in Hab as [Hc Hab].
  destruct (proj1 (wo_rows _ Hok t r Hr) Hc) as (k & T & [Hk _ HI HT _ _ _ Hses]). cbn in *. exists k, T.
  unfold creatingCheckoutCanBeAbandoned in Hab. rewrite HT in Hab.
  unfold CHECKOUT_STALE_RECONCILE_AGE_MS, near, hours, mins, secs in *. bools. split_and!; [done|done|lia|].
  intros s Hs Hsk. specialize (Hses s Hs Hsk). pose proof (so_life _ _ _ _ (wo_sessions _ Hok s Hs)).
  unfold hours, mins, secs in *. lia.
Qed.

(** ** The steps of the route *)

(** Nothing is written; the request goes on, or ends. *)
Lemma requests_ok n b I S R P P' :
  world_ok (W n b I S R P) → (∀ k at_ decided, past_fence P' k at_ decided → past_fence P k at_ decided) →
  (∀ p, p ∈ P' → p ∈ P ∨ request_ok n I S R p) → world_ok (W n b I S R P').
Proof.
  intros Hok HP Hreq. eapply local_step_ok; try done; [congruence|auto|].
  intros t r Hr. eapply row_ok_mono; [by apply (wo_rows _ Hok)|cbn; lia|done|]. intros k T at_ decided _. apply HP.
Qed.

Lemma intent_key_named uuid : intent_key uuid ≠ "".
Proof. done. Qed.

(** The request that minted an intent. *)
Lemma minted_request I S R m planId plan base n i key c params t :
  mc_tenantId m = t →
  ∀ p, p ∈ follow m planId plan base n (checkout_proceed i key c params) →
  request_ok n (<[key := (t, n)]> I) S R p.
Proof.
  intros Ht p Hp. cbn [follow] in Hp. apply list_elem_of_singleton in Hp as ->. split; [cbn; lia|].
  exists n. rewrite <-Ht, lookup_insert_eq. unfold hours, mins, secs in *. split; [done|]. cbn. lia.
Qed.

Lemma starting_ok n b I S R P m verified planId plan base uuid ck gw d a s b' :
  world_ok (W n b I S R P) → clock_at n ck → near n gw → planId ≠ "" → I !! intent_key uuid = None →
  start_checkout m verified planId plan base uuid ck gw d a b = Ok (s, b') →
  world_ok (W n b' (mint uuid (mc_tenantId m) n s I) S R (follow m planId plan base n s ++ P)).
Proof.
  intros Hok [Hck Hnow] Hgw Hplan Hfresh Hs. apply start_inv in Hs. cbv zeta in Hs. rewrite Hck in Hs.
  assert (∀ k at_ decided, past_fence (follow m planId plan base n s ++ P) k at_ decided → past_fence P k at_ decided) as HP.
  { intros k at_ decided (q & [Hq|Hq]%elem_of_app & Hph & Hd); [by destruct (follow_unfenced _ _ _ _ _ _ _ _ _ Hq Hph)|].
    by exists q. }
  destruct Hs as [(-> & r & Hr & Hex)|(i & c & params & -> & Hpar & Hrow)].
  - pose proof (existing_some _ _ _ _ _ _ Hex) as Hst.
    assert (mint uuid (mc_tenantId m) n s I = I ∧
      ∀ p, p ∈ follow m planId plan base n s → request_ok n I S R p) as [-> Hreq].
    { destruct s; cbn [mint follow]; try (split; [done|]; set_solver).
      - split; [done|]. intros p ->%list_elem_of_singleton. split; [cbn; lia|done].
      - destruct Hst as [Hab ->]. split; [done|]. intros p ->%list_elem_of_singleton. split; [cbn; lia|].
        exact (abandonable_stale _ _ _ _ _ _ _ _ _ Hok Hgw Hr Hab).
      - destruct Hst as (Hc & _ & Hk & T & HT & Hage).
        destruct (proj1 (wo_rows _ Hok _ r Hr) Hc) as (k & T' & [Hk' _ HI HT' _ _ _ _]). cbn in *. simplify_eq.
        rewrite bool_decide_false by congruence. split; [done|]. intros p ->%list_elem_of_singleton.
        split; [cbn; lia|]. exists T. split; [done|]. pose proof (wo_intents _ Hok _ _ _ HI). cbn in *.
        unfold CHECKOUT_IDEMPOTENCY_REPLAY_MAX_AGE_MS, near, hours, mins, secs in *. lia. }
    eapply requests_ok; [done|done|]. intros p [Hp|Hp]%elem_of_app; [right; by apply Hreq|by left].
  - cbn [mint]. rewrite (bool_decide_true (_ = _)) by done.
    assert (∀ p, p ∈ follow m planId plan base n (checkout_proceed i (intent_key uuid) c params) ++ P →
      p ∈ P ∨ request_ok n (<[intent_key uuid := (mc_tenantId m, n)]> I) S R p) as Hreq.
    { intros p [Hp|Hp]%elem_of_app; [right; by eapply minted_request|by left]. }
    destruct Hrow as [[Hnone ->]|(r & Hr & Hex & ->)].
    { eapply mint_ok; try done; [cbn; congruence|]. intros k r0 Hr0. congruence. }
    eapply mint_ok; try done. intros k r0 Hr0 [Hi Hk]. simplify_eq. apply existing_none in Hex as (_ & _ & _ & _ & Hopen & Hc1 & Hc2).
    apply orb_true_iff in Hi as [Hc|Ho]; [|by eapply expired_dead; [..|by apply Hopen|]].
    exfalso. destruct (proj1 (wo_rows _ Hok _ r Hr) Hc) as (k' & T & [Hk' Hne _ _ (pl & Hpl & Hpn) _ _ _]). cbn in *.
    assert (truthy (bs_checkoutIdempotencyKey r) = true) as Htk.
    { rewrite Hk'. cbn. by rewrite bool_decide_false. }
    rewrite Hc2 in Htk; [done|done|]. apply Hc1; [done|]. rewrite Hpl. cbn. by rewrite bool_decide_false.
Qed.

Lemma removed_fenced P1 (p : checkout_request) P2 k at_ decided :
  past_fence (P1 ++ P2) k at_ decided → past_fence (P1 ++ p :: P2) k at_ decided.
Proof. apply fenced_sub. set_solver. Qed.

Lemma removed_requests n I S R P1 (p : checkout_request) P2 q :
  q ∈ P1 ++ P2 → q ∈ P1 ++ p :: P2 ∨ request_ok n I S R q.
Proof. left. set_solver. Qed.

Lemma touched_now n b I S R P t r :
  world_ok (W n b I S R P) → bd_subscriptions b !! t = Some r → is_creating r = true → bs_updatedAt r ≤ n ≤ n.
Proof. intros Hok Hr Hc. destruct (proj1 (wo_rows _ Hok t r Hr) Hc) as (k & T & []). cbn in *. lia. Qed.

Lemma verification_ok n b I S R P1 p P2 sub rev key status ck d a x b' :
  world_ok (W n b I S R (P1 ++ p :: P2)) → clock_at n ck →
  apply_verification (rq_manager p) sub rev key status ck d a b = Ok (x, b') →
  world_ok (W n b' I S R (P1 ++ P2)).
Proof.
  intros Hok [Hck _] [->|(r & Hr & ->)]%verification_inv.
  { eapply requests_ok; [done|apply removed_fenced|apply removed_requests]. }
  rewrite Hck. unfold ended_by_stripe. destruct (bool_decide (bs_checkoutStatus r = "completed")) eqn:Hst; bools.
  - eapply leave_ok; [done|done|done| |apply removed_fenced|apply removed_requests].
    intros k [Hi _]. unfold has_intent, is_creating, intent_open in Hi. by rewrite Hst in Hi.
  - eapply keep_ok; [done|done|done| |apply removed_fenced|apply removed_requests]. cbn. by eapply touched_now.
Qed.

Lemma recover_ok n b I S R P1 p P2 key c rev cols o ck d a s b' :
  world_ok (W n b I S R (P1 ++ p :: P2)) → clock_at n ck → rq_phase p = ph_stale key c rev →
  apply_recovery (rq_manager p) key c rev cols o ck d a b = Ok (s, b') →
  world_ok (W n b' I S R (P1 ++ P2)).
Proof.
  intros Hok _ Hph [->|(r & plan & status & id & start & Hr & Hc & Hk & ->)]%recovery_inv.
  { eapply requests_ok; [done|apply removed_fenced|apply removed_requests]. }
  eapply leave_ok; [done|done|done| |apply removed_fenced|apply removed_requests].
  intros k [_ Hk']. eapply (stale_dead _ _ _ _ _ _ p); [done|set_solver|done|congruence].
Qed.

Lemma rotate_ok n b I S R P1 p P2 key c rev uuid ck gw d a s b' :
  world_ok (W n b I S R (P1 ++ p :: P2)) → clock_at n ck → near n gw → rq_planId p ≠ "" →
  I !! intent_key uuid = None →
  rotate_intent (rq_manager p) (rq_planId p) (rq_plan p) (rq_base p) uuid key c rev ck gw d a b = Ok (s, b') →
  world_ok (W n b' (mint uuid (rq_tenant p) n s I) S R
    (P1 ++ follow (rq_manager p) (rq_planId p) (rq_plan p) (rq_base p) n s ++ P2)).
Proof.
  intros Hok [Hck _] Hgw Hplan Hfresh Hrot. apply rotation_inv in Hrot.
  assert (∀ k at_ decided, past_fence (P1 ++ follow (rq_manager p) (rq_planId p) (rq_plan p) (rq_base p) n s ++ P2) k at_ decided →
    past_fence (P1 ++ p :: P2) k at_ decided) as HP.
  { intros k at_ decided. apply fenced_replaced. intros q k0 a0. apply follow_unfenced. }
  destruct Hrot as [[-> Hno]|(r & i & cust & params & Hr & Hc & Hk & Hab & -> & ->)].
  - assert (mint uuid (rq_tenant p) n s I = I ∧
      follow (rq_manager p) (rq_planId p) (rq_plan p) (rq_base p) n s = []) as [-> ->] by (by destruct s).
    eapply requests_ok; [done|apply removed_fenced|apply removed_requests].
  - cbn [mint]. rewrite (bool_decide_true (_ = _)) by done. rewrite Hck. eapply mint_ok; try done.
    + intros k r0 Hr0 [_ Hk0]. fold (rq_tenant p) in Hr, Hr0. simplify_eq. by eapply abandoned_dead.
    + intros q [Hq|[Hq|Hq]%elem_of_app]%elem_of_app; [left; set_solver| |left; set_solver].
      right. exact (minted_request _ _ _ _ _ _ _ _ _ _ _ _ (rq_tenant p) eq_refl _ Hq).
Qed.

(** The request moves on to a phase behind no fence. *)
Lemma phase_step_ok n b I S R P1 p P2 ph :
  world_ok (W n b I S R (P1 ++ p :: P2)) → (∀ k at_, ph ≠ ph_fenced k at_) →
  (phase_ok n I S R (rq_tenant p) (rq_decided p) (rq_phase p) → phase_ok n I S R (rq_tenant p) (rq_decided p) ph) →
  (∀ k at_ decided, past_fence (P1 ++ in_phase ph p :: P2) k at_ decided → past_fence (P1 ++ p :: P2) k at_ decided) ∧
  (∀ q, q ∈ P1 ++ in_phase ph p :: P2 → q ∈ P1 ++ p :: P2 ∨ request_ok n I S R q).
Proof.
  intros Hok Hno Hph. split.
  - intros k at_ decided. apply (fenced_replaced P1 p [in_phase ph p] P2).
    intros q k0 a0 ->%list_elem_of_singleton. apply Hno.
  - intros q [Hq|[->|Hq]%elem_of_cons]%elem_of_app; [left; set_solver|right|left; set_solver].
    destruct (wo_requests _ Hok p) as [Hd H]; [cbn; set_solver|]. split; [done|]. by apply Hph.
Qed.

Lemma customer_ok n b I S R P1 p P2 key c params made customer b' :
  world_ok (W n b I S R (P1 ++ p :: P2)) → rq_phase p = ph_ready key c params →
  bind_customer (rq_tenant p) made n b = Ok (customer, b') →
  world_ok (W n b' I S R (P1 ++ in_phase (ph_ready key (Some customer) params) p :: P2)).
Proof.
  intros Hok Hph Hb. destruct (phase_step_ok _ _ _ _ _ _ _ _ (ph_ready key (Some customer) params) Hok) as [HP Hreq];
    [done|by rewrite Hph|]. apply customer_inv in Hb as [->|(r & Hr & ->)]; [by eapply requests_ok|].
  eapply keep_ok; [done|done|done| |done|done]. cbn. by eapply touched_now.
Qed.

Lemma finalize_ok n b I S R P1 p P2 key s ck d a x b' :
  world_ok (W n b I S R (P1 ++ p :: P2)) → clock_at n ck → rq_phase p = ph_answered key s →
  finalize_session (rq_manager p) key s ck d a b = Ok (x, b') →
  world_ok (W n b' I S R (P1 ++ P2)).
Proof.
  intros Hok [Hck _] Hph [->|(r & Hr & Hown & ->)]%finalize_inv.
  { eapply requests_ok; [done|apply removed_fenced|apply removed_requests]. }
  unfold owns_intent in Hown. bools. destruct (wo_requests _ Hok p) as [_ H']; [cbn; set_solver|]. rewrite Hph in H'.
  destruct H' as [(T & HT & _) (y & Hy & Hyk & Hya)]. cbn in *.
  eapply row_step_ok; [done|done|congruence|apply removed_fenced|apply removed_requests|..].
  - split; [done|]. intros _. exists y, T. split_and!; [done|cbn; congruence|by rewrite Hyk|].
    intros e He. cbn in He. subst s. destruct (sa_expires_at (ss_answer y)) as [v|] eqn:Hv; [|done].
    injection He as <-. by apply (so_answer _ _ _ _ (wo_sessions _ Hok y Hy)).
  - intros k r0 Hr0 [_ Hk0] Hnp. simplify_eq. by destruct Hnp.
Qed.

Lemma release_ok n b I S R P1 p P2 key :
  world_ok (W n b I S R (P1 ++ p :: P2)) → rq_phase p = ph_rejected key →
  world_ok (W n (release_intent (rq_tenant p) key n b) I S R (P1 ++ P2)).
Proof.
  intros Hok Hph. destruct (wo_requests _ Hok p) as [_ H]; [cbn; set_solver|]. rewrite Hph in H. destruct H as [_ HR].
  assert (world_ok (W n b I S R (P1 ++ P2))) as Hsame.
  { eapply requests_ok; [done|apply removed_fenced|apply removed_requests]. }
  unfold release_intent. destruct (bd_subscriptions b !! rq_tenant p) as [r|] eqn:Hr; [|done].
  destruct (owns_intent key r) eqn:Hown; [|done]. unfold owns_intent in Hown. bools.
  eapply leave_ok; [exact Hok|done|done| |apply removed_fenced|apply removed_requests].
  intros k [_ Hk]. simplify_eq. by eapply refused_dead.
Qed.

Lemma in_phase_fenced P1 ph p P2 k at_ decided :
  past_fence (P1 ++ in_phase ph p :: P2) k at_ decided →
  past_fence (P1 ++ p :: P2) k at_ decided ∨ (ph = ph_fenced k at_ ∧ decided = rq_decided p).
Proof.
  intros (q & [Hq|[->|Hq]%elem_of_cons]%elem_of_app & Hph & Hd);
    [left; exists q; set_solver|by right|left; exists q; set_solver].
Qed.

Lemma attempt_ok n b I S R P1 p P2 key c params ck d a b' :
  world_ok (W n b I S R (P1 ++ p :: P2)) → rq_phase p = ph_ready key c params → clock_at n ck →
  attempt_fence (rq_manager p) key ck d a b = Ok (fence_proceed, b') →
  world_ok (W n b' I S R (P1 ++ in_phase (ph_fenced key n) p :: P2)).
Proof.
  intros Hok Hph [Hck _] (r & Hr & Hown & ->)%fence_inv. rewrite Hck. clear Hck. fold (rq_tenant p) in Hr |- *.
  destruct (wo_requests _ Hok p) as [Hdec Hage]; [cbn; set_solver|]. rewrite Hph in Hage. cbn in Hdec, Hage.
  unfold owns_intent in Hown. apply andb_true_iff in Hown as [Hk Hc]. bools.
  destruct (proj1 (wo_rows _ Hok _ r Hr) Hc) as (k' & T & Hco). pose proof Hco as [Hk' Hne HI HT Hpl Hup Hf Hses]. cbn in *.
  assert (k' = key) as -> by congruence.
  assert (current_intent (set_row (rq_tenant p) (touched n r) b) (rq_tenant p) key) as Hcur.
  { apply current_set_row. left. split; [done|]. split; [|done]. cbn. by apply orb_true_iff; left. }
  eapply local_step_ok; [exact Hok|done|congruence|..].
  - intros k at_ decided [Hold|[[= -> ->] _]]%in_phase_fenced; [by left|right]. by exists (rq_tenant p), T.
  - intros q [Hq|[->|Hq]%elem_of_cons]%elem_of_app; [left; set_solver|right|left; set_solver].
    split; [done|]. by split; [|cbn; lia].
  - intros t r0. cbn. intros [[<- <-]|[Hnt Hr0]]%lookup_insert_Some.
    + split; [|unfold intent_open, is_creating in *; cbn; intros ?; bools; congruence]. intros _. exists key, T.
      split; cbn; try done.
      * intros at_ decided [Hold%Hf|[[= <-] _]]%in_phase_fenced; lia.
      * intros s Hs Hsk. specialize (Hses s Hs Hsk). lia.
    + eapply row_ok_mono; [by apply (wo_rows _ Hok)|cbn; lia|done|]. cbn.
      intros k T0 at_ decided HI0 [Hold|[[= -> ->] _]]%in_phase_fenced; [done|]. congruence.
  - intros k t T0 HT0 Hc0 Hnc. destruct Hnc. destruct (decide (t = rq_tenant p)) as [->|Hnt].
    + destruct Hc0 as (r0 & Hr0 & Hi & Hk0). apply current_set_row. left. simplify_eq. by split; [|split].
    + apply current_set_row. by right.
Qed.

Lemma refusal_ok n b I S R P1 p P2 key :
  world_ok (W n b I S R (P1 ++ p :: P2)) → key_age_ok I (rq_tenant p) key (rq_decided p) →
  (∀ s', s' ∈ S → ss_key s' ≠ key) →
  world_ok (W n b I S ({[key]} ∪ R) (P1 ++ in_phase (ph_rejected key) p :: P2)).
Proof.
  intros Hok Hage Hno.
  assert (∀ k at_ decided, past_fence (P1 ++ in_phase (ph_rejected key) p :: P2) k at_ decided →
    past_fence (P1 ++ p :: P2) k at_ decided) as HP.
  { by intros k at_ decided [?|[? _]]%in_phase_fenced. }
  destruct Hok as [Hrows Hreq Hses Hone Hdead Hint]. cbn in *. split; cbn; [| | |done| |done].
  - intros t r Hr. eapply row_ok_mono; [by apply Hrows|lia|done|]. intros k T at_ decided _. apply HP.
  - assert (request_ok n I S ({[key]} ∪ R) (in_phase (ph_rejected key) p)) as Hp.
    { destruct (Hreq p) as [Hd _]; [set_solver|]. split; [done|]. split; [done|]. set_solver. }
    intros q [Hq|[->|Hq]%elem_of_cons]%elem_of_app; [|done|];
      (eapply request_ok_mono; [apply Hreq; set_solver|lia|done|set_solver]).
  - intros s Hs. destruct (Hses s Hs) as [? ? ? ? ?]. split; try done. specialize (Hno s Hs). set_solver.
  - intros k t T HT Hnc. eapply dead_mono; [by eapply Hdead|lia|set_solver|apply HP].
Qed.

(** ** Stripe's steps *)

(** A request that may still call Stripe under a key that has a session is
    answered with it. *)
Lemma call_in_window n b I S R P t key decided s :
  world_ok (W n b I S R P) → key_age_ok I t key decided → n ≤ decided + lag → s ∈ S → ss_key s = key →
  n < ss_created s + hours 24.
Proof.
  intros Hok (T & HT & Hage) Hn Hs Hk. destruct (so_intent _ _ _ _ (wo_sessions _ Hok s Hs)) as (T' & HT' & Hle).
  cbn in *. simplify_eq. unfold hours, mins, secs in *. lia.
Qed.

(** A request that may still call Stripe has a key that is not stale. *)
Lemma call_not_stale n I S R t t' key decided c rev d0 :
  key_age_ok I t key decided → n ≤ decided + lag → ¬ phase_ok n I S R t' d0 (ph_stale (Some key) c rev).
Proof.
  intros (T & HT & Hage) Hn (k & T' & [= <-] & HT' & Hold & _). simplify_eq. unfold hours, mins, secs in *. lia.
Qed.

Lemma made_row_ok n I S P1 p P2 ph t r key at_ s :
  intent_row_ok n I S (P1 ++ p :: P2) t r → rq_phase p = ph_fenced key at_ → (∀ k a, ph ≠ ph_fenced k a) →
  rq_decided p ≤ at_ → n ≤ rq_decided p + lag → ss_key s = key → ss_created s = n →
  intent_row_ok n I (S ++ [s]) (P1 ++ in_phase ph p :: P2) t r.
Proof.
  intros [Hc Ho] Hph Hno Hat Hn Hk Hcr. split.
  - intros (k & T & [H1 H2 H3 H4 H5 H6 Hf Hses])%Hc. exists k, T. split; try done.
    + intros a0 d0 [Hold|[? _]]%in_phase_fenced; [by eapply Hf|by destruct (Hno k a0)].
    + intros x [Hx|Hx%list_elem_of_singleton]%elem_of_app Hxk; [by apply Hses|]. subst x.
      assert (k = key) as -> by congruence. enough (at_ ≤ bs_updatedAt r) by lia. eapply (Hf at_ (rq_decided p)).
      exists p. split; [set_solver|done].
  - intros (x & T & Hx & H)%Ho. exists x, T. split; [set_solver|done].
Qed.

Lemma made_ok n b I S R P1 p P2 key at_ s :
  world_ok (W n b I S R (P1 ++ p :: P2)) → rq_phase p = ph_fenced key at_ → n ≤ rq_decided p + lag →
  (∀ s', s' ∈ S → ss_key s' = key → ss_created s' + hours 24 ≤ n) → key ∉ R →
  ss_key s = key → ss_tenant s = rq_tenant p → ss_created s = n → n < ss_expires s ≤ n + hours 24 →
  (∀ x, sa_expires_at (ss_answer s) = Some x → ss_expires s = 1000 * x) →
  world_ok (W n b I (S ++ [s]) R (P1 ++ in_phase (ph_answered key (ss_answer s)) p :: P2)).
Proof.
  intros Hok Hph Hn Hold HR Hk Ht Hcr Hex Hans.
  destruct (wo_requests _ Hok p) as [Hdec Hage]; [cbn; set_solver|]. rewrite Hph in Hage. destruct Hage as [Hage Hat]. cbn in *.
  assert (∀ s', s' ∈ S → ss_key s' ≠ key) as Hnone.
  { intros s' Hs' Hk'. pose proof (call_in_window _ _ _ _ _ _ _ _ _ _ Hok Hage Hn Hs' Hk'). specialize (Hold s' Hs' Hk'). lia. }
  destruct Hok as [Hrows Hreq Hses Hone Hdead Hint] eqn:E. clear E. cbn in *.
  assert (current_intent b (rq_tenant p) key) as Hcur.
  { destruct (decide (current_intent b (rq_tenant p) key)) as [Hc|Hc]; [done|exfalso]. destruct Hage as (T & HT & _).
    destruct (Hdead _ _ _ HT Hc) as [_ Hf]. destruct (Hf at_ (rq_decided p)) as [?|[?|(s' & Hs' & Hk')]]; [|lia|done|].
    - exists p. split; [set_solver|done].
    - by destruct (Hnone s' Hs'). }
  assert (∀ k a d0, past_fence (P1 ++ in_phase (ph_answered key (ss_answer s)) p :: P2) k a d0 →
    past_fence (P1 ++ p :: P2) k a d0) as HP by (by intros k a d0 [?|[? _]]%in_phase_fenced).
  split; cbn; [| | | | |done].
  - intros t r Hr. eapply made_row_ok; [by apply Hrows|done|done|lia|done..].
  - assert (∀ q, q ∈ P1 ++ p :: P2 → request_ok n I (S ++ [s]) R q) as Hkeep.
    { intros q Hq. destruct (Hreq q Hq) as [Hd H]. split; [done|]. destruct (rq_phase q) as [| |k c pr|k a|k y|k] eqn:Hqph; try done.
      - assert (Some key ≠ key0) as Hne.
        { intros <-. eapply (call_not_stale n I S R _ _ key); [exact Hage|exact Hn|exact H]. }
        destruct H as (k & T & -> & HT & Hg & Hs0). exists k, T. split_and!; try done.
        intros x [Hx|Hx%list_elem_of_singleton]%elem_of_app Hxk; [by apply Hs0|]. subst x. congruence.
      - destruct H as [H (x & Hx & H')]. split; [done|]. exists x. split; [set_solver|done]. }
    intros q [Hq|[->|Hq]%elem_of_cons]%elem_of_app; [apply Hkeep; set_solver| |apply Hkeep; set_solver].
    split; [done|]. split; [done|]. exists s. split; [set_solver|done].
  - intros x [Hx|Hx%list_elem_of_singleton]%elem_of_app; [by apply Hses|]. subst x.
    destruct Hage as (T & HT & Hlt). split; [exists T; rewrite Hk, Ht; split; [done|lia]|lia|lia|done|congruence].
  - intros i j s1 s2 Hi Hj Heq. apply lookup_snoc_Some in Hi as [[Hil Hi]|[-> <-]], Hj as [[Hjl Hj]|[-> <-]].
    + by eapply Hone.
    + apply list_elem_of_lookup_2 in Hi. by destruct (Hnone s1 Hi); congruence.
    + apply list_elem_of_lookup_2 in Hj. by destruct (Hnone s2 Hj); congruence.
    + done.
  - intros k t T HT Hnc. destruct (Hdead k t T HT Hnc) as [Hs0 Hf0].
    assert (k ≠ key) as Hne.
    { intros ->. destruct Hage as (T' & HT' & _). by simplify_eq. }
    split.
    + intros x [Hx|Hx%list_elem_of_singleton]%elem_of_app Hxk; [by apply Hs0|]. subst x. congruence.
    + intros a d0 [H|[H|(x & Hx & Hxk)]]%HP%Hf0; [by left|by right; left|]. do 2 right. exists x. split; [set_solver|done].
Qed.

(** A payment settles a session and changes nothing else of it. *)
Lemma paid_from (S : list stripe_session) i s x :
  S !! i = Some s → x ∈ <[i := pay s]> S →
  ∃ y, y ∈ S ∧ ss_key y = ss_key x ∧ ss_tenant y = ss_tenant x ∧ ss_answer y = ss_answer x ∧
    ss_created y = ss_created x ∧ ss_expires y = ss_expires x ∧ (ss_paid y = true → ss_paid x = true).
Proof.
  intros Hi [j Hj]%list_elem_of_lookup. destruct (decide (i = j)) as [->|Hne].
  - rewrite list_lookup_insert_eq in Hj by (by eapply lookup_lt_Some). injection Hj as <-. exists s.
    split; [by eapply list_elem_of_lookup_2|done].
  - rewrite list_lookup_insert_ne in Hj by done. exists x. split; [by eapply list_elem_of_lookup_2|done].
Qed.

Lemma paid_to (S : list stripe_session) i s y :
  S !! i = Some s → y ∈ S →
  ∃ x, x ∈ <[i := pay s]> S ∧ ss_key x = ss_key y ∧ ss_answer x = ss_answer y ∧ ss_expires x = ss_expires y.
Proof.
  intros Hi [j Hj]%list_elem_of_lookup. destruct (decide (i = j)) as [->|Hne].
  - exists (pay s). simplify_eq. split; [|done]. eapply (list_elem_of_lookup_2 _ j).
    apply list_lookup_insert_eq. by eapply lookup_lt_Some.
  - exists y. split; [|done]. eapply (list_elem_of_lookup_2 _ j). by rewrite list_lookup_insert_ne.
Qed.

Lemma pay_ok n b I S R P i s :
  world_ok (W n b I S R P) → S !! i = Some s → world_ok (W n b I (<[i := pay s]> S) R P).
Proof.
  intros [Hrows Hreq Hses Hone Hdead Hint] Hi. cbn in *. split; cbn; [..|done].
  - intros t r Hr. destruct (Hrows t r Hr) as [Hc Ho]. split.
    + intros (k & T & [])%Hc. exists k, T. split; try done. intros x (y & Hy & <- & _ & _ & <- & _)%(paid_from _ _ _ _ Hi).
      by apply co_sessions0.
    + intros (y & T & (x & Hx & Hxk & _ & Hxe)%(paid_to _ _ _ _ Hi) & H1 & H2 & H3)%Ho. exists x, T.
      by rewrite Hxk, Hxe.
  - intros p Hp. destruct (Hreq p Hp) as [Hd H]. split; [done|]. destruct (rq_phase p); try done.
    + destruct H as (k & T & H1 & H2 & H3 & H4). exists k, T. split_and!; try done.
      intros x (y & Hy & <- & _ & _ & _ & <- & _)%(paid_from _ _ _ _ Hi). by apply H4.
    + destruct H as [H1 (y & (x & Hx & <- & <- & _)%(paid_to _ _ _ _ Hi) & H2 & H3)]. split; [done|]. by exists x.
  - intros x (y & Hy & E1 & E2 & E3 & E4 & E5 & _)%(paid_from _ _ _ _ Hi).
    destruct (Hses y Hy) as [H1 H2 H3 H4 H5]. split; by rewrite <-?E1, <-?E2, <-?E3, <-?E4, <-?E5.
  - intros j1 j2 s1 s2 H1 H2 Hk.
    assert (∀ j x, <[i := pay s]> S !! j = Some x → ∃ y, S !! j = Some y ∧ ss_key y = ss_key x) as Hback.
    { intros j x. destruct (decide (i = j)) as [->|Hne]; [|rewrite list_lookup_insert_ne by done; by exists x].
      rewrite list_lookup_insert_eq by (by eapply lookup_lt_Some). intros [= <-]. by exists s. }
    apply Hback in H1 as (y1 & H1 & E1), H2 as (y2 & H2 & E2). eapply Hone; [done|done|congruence].
  - intros k t T HT Hnc. destruct (Hdead k t T HT Hnc) as [Hs Hf]. split.
    + intros x (y & Hy & E1 & _ & _ & _ & <- & Hp)%(paid_from _ _ _ _ Hi) Hxk.
      destruct (Hs y Hy) as [?|?]; [congruence|left; by apply Hp|by right].
    + intros a d0 [H|[H|(y & (x & Hx & <- & _)%(paid_to _ _ _ _ Hi) & Hyk)]]%Hf; [by left|by right; left|].
      do 2 right. by exists x.
Qed.

(** ** The other steps *)

Lemma tick_ok n n' b I S R P : world_ok (W n b I S R P) → n ≤ n' → world_ok (W n' b I S R P).
Proof.
  intros [Hrows Hreq Hses Hone Hdead Hint] Hn. cbn in *. split; cbn; [| | |done| |].
  - intros t r Hr. by eapply row_ok_mono; [by apply Hrows|..].
  - intros p Hp. by eapply request_ok_mono; [by apply Hreq|..].
  - intros s Hs. destruct (Hses s Hs). split; try done. lia.
  - intros k t T HT Hnc. by eapply dead_mono; [by eapply Hdead|..].
  - intros k t T HT. specialize (Hint _ _ _ HT). lia.
Qed.

Lemma same_rows n b b' I S R P :
  bd_subscriptions b' = bd_subscriptions b → world_ok (W n b I S R P) → world_ok (W n b' I S R P).
Proof.
  intros Heq [Hrows Hreq Hses Hone Hdead Hint]. cbn in *. split; cbn; try done; [by rewrite Heq|].
  intros k t T HT Hnc. eapply Hdead; [done|]. intros (r & Hr & H). apply Hnc. exists r. by rewrite Heq.
Qed.

Lemma webhook_ok n I S R P h body env res b' :
  world_ok (W n (ae_db env) I S R P) → webhook_attempt h body env = (res, b') → ae_now env = n →
  (∀ t r r', bd_subscriptions (ae_db env) !! t = Some r → bd_subscriptions b' !! t = Some r' → faithful S r r') →
  world_ok (W n b' I S R P).
Proof.
  intros Hok Hw Hnow Hfaith. apply attempt_inv in Hw as [[-> _]|(obj & g & res0 & _ & _ & Ht)]; [done|].
  apply webhook_transaction_inv in Ht as ([Heq|(t & r & r' & Hr & Hwr & Heq)] & _); [by eapply same_rows|].
  apply (same_rows _ (set_row t r' (ae_db env))); [done|].
  assert (faithful S r r') as Hf.
  { apply (Hfaith t); [done|]. by rewrite Heq, lookup_insert_eq. }
  rewrite Hnow in Hwr. destruct Hwr as [subId cust sid period different _ _ _ _ _|plan _ _ _].
  - eapply leave_ok; [exact Hok|done|done| |done|by left]. intros k [Hi Hk].
    destruct (proj2 (Hf Hi) eq_refl) as (s & Hs & Hsk & Hp). assert (k = ss_key s) as -> by congruence. by eapply paid_dead.
  - unfold lifecycle_row in *. cbv zeta in *. destruct (is_ended _) eqn:Hend.
    + eapply leave_ok; [exact Hok|done|done| |done|by left]. intros k [Hi _]. by destruct (proj1 (Hf Hi)).
    + eapply keep_ok; [exact Hok|done|done| |done|by left]. cbn. by eapply touched_now.
Qed.

Lemma elsewhere_ok n b b' I S R P :
  world_ok (W n b I S R P) →
  (∀ t r', bd_subscriptions b' !! t = Some r' → unrelated n (bd_subscriptions b !! t) r') →
  (∀ t, is_Some (bd_subscriptions b !! t) → is_Some (bd_subscriptions b' !! t)) →
  world_ok (W n b' I S R P).
Proof.
  intros Hok Hrel Hall. eapply local_step_ok; try done; [congruence|auto|auto|..].
  - intros t r' Hr'. specialize (Hrel t r' Hr'). destruct (bd_subscriptions b !! t) as [r|] eqn:Hr.
    + destruct Hrel as [Hcol Hup]. by eapply row_ok_keep; [by apply (wo_rows _ Hok)|..].
    + cbn in Hrel. split; unfold is_creating, intent_open; by rewrite Hrel.
  - intros k t T _ (r & Hr & Hp) Hnc. destruct Hnc. destruct (Hall t) as [r' Hr']; [by rewrite Hr|].
    specialize (Hrel t r' Hr'). rewrite Hr in Hrel. destruct Hrel as [Hcol _]. exists r'. split; [done|].
    by eapply columns_pending.
Qed.

Lemma call_ok n b I S R P1 p P2 key at_ S' R' ph :
  world_ok (W n b I S R (P1 ++ p :: P2)) → rq_phase p = ph_fenced key at_ → n ≤ rq_decided p + lag →
  stripe_serves n S R key (rq_tenant p) S' R' ph → world_ok (W n b I S' R' (P1 ++ in_phase ph p :: P2)).
Proof.
  intros Hok Hph Hn Hserve. destruct Hserve as [s Hs Hk Hlive|s Hold HR Hk Ht Hcr Hex Hans|Hno].
  - destruct (phase_step_ok _ _ _ _ _ _ _ _ (ph_answered key (ss_answer s)) Hok) as [HP Hreq]; [done| |by eapply requests_ok].
    rewrite Hph. intros [Hage _]. split; [done|]. by exists s.
  - by eapply made_ok.
  - apply refusal_ok; [done| |done]. destruct (wo_requests _ Hok p) as [_ H]; [cbn; set_solver|].
    rewrite Hph in H. by destruct H.
Qed.

Lemma checkout_step_ok w w' : checkout_step w w' → world_ok w → world_ok w'.
Proof.
  destruct 1; intros Hok.
  - by eapply tick_ok.
  - by eapply starting_ok.
  - by eapply verification_ok.
  - by eapply recover_ok.
  - by eapply rotate_ok.
  - by eapply customer_ok.
  - apply refusal_ok; [done| |done]. destruct (wo_requests _ Hok p) as [_ Hp]; [cbn; set_solver|].
    match goal with E : rq_phase p = _ |- _ => by rewrite E in Hp end.
  - by eapply attempt_ok.
  - by eapply call_ok.
  - by eapply finalize_ok.
  - by eapply release_ok.
  - eapply requests_ok; [done|apply removed_fenced|apply removed_requests].
  - by eapply pay_ok.
  - by eapply webhook_ok.
  - by eapply elsewhere_ok.
Qed.

(** Nothing is under way and no intent is pending. *)
Definition no_checkout (w : checkout_world) : Prop :=
  cw_intents w = ∅ ∧ cw_sessions w = [] ∧ cw_requests w = [] ∧
  ∀ t r, bd_subscriptions (cw_db w) !! t = Some r → has_intent r = false.

Lemma quiet_ok w : no_checkout w → world_ok w.
Proof.
  destruct w as [n b I S R P]. unfold no_checkout. cbn. intros (-> & -> & -> & Hrows). split; cbn; try (set_solver || done).
  intros t r Hr. apply Hrows, orb_false_iff in Hr as [Hc Ho]. by split; rewrite ?Hc, ?Ho.
Qed.

Lemma reached_ok w0 w : no_checkout w0 → rtc checkout_step w0 w → world_ok w.
Proof. intros H0%quiet_ok Hs. induction Hs as [|w1 w2 w3 H _ IH]; [done|]. by apply IH, (checkout_step_ok w1). Qed.

(** It can be paid, by every clock. *)
Definition payable (n : Z) (s : stripe_session) : Prop := ss_paid s = false ∧ n + skew < ss_expires s.

Lemma payable_current w s :
  world_ok w → s ∈ cw_sessions w → payable (cw_now w) s → current_intent (cw_db w) (ss_tenant s) (ss_key s).
Proof.
  intros Hok Hs [Hp Hex]. destruct (so_intent _ _ _ _ (wo_sessions _ Hok s Hs)) as (T & HT & _).
  destruct (decide (current_intent (cw_db w) (ss_tenant s) (ss_key s))) as [|Hn]; [done|].
  destruct (proj1 (wo_dead _ Hok _ _ _ HT Hn) s Hs eq_refl); [congruence|lia].
Qed.

End runs.


(** ** A checkout *)

Definition checkout_plan : plan_prices := {|
  pp_isActive := true; pp_isPublic := true; pp_stripePriceId := Some "price_1"; pp_stripePriceHistory := [] |}.

Definition new_workspace : billing_db := {|
  bd_tenants := {["t1"]}; bd_subscriptions := ∅; bd_events := ∅; bd_plans := {["basic" := checkout_plan]} |}.

Definition session_reply (id : string) (expires : Z) : json :=
  JObject [("id", JString id); ("url", JString ("https://checkout.stripe.com/" +:+ id)); ("expires_at", JNumber expires)].

Definition session_of (id : string) (expires : Z) : StripeApiResponse := {|
  sa_id := id; sa_url := Some ("https://checkout.stripe.com/" +:+ id); sa_expires_at := Some expires |}.

Example session_read : stripeRequest "checkout/sessions" (http 200 (session_reply "cs_1" 3600)) = Ok (session_of "cs_1" 3600).
Proof. vm_compute. reflexivity. Qed.

(** One request at time [n], with the answers Stripe gives it. *)
Definition checkout_at (n : Z) (uuid : string) (retrieve : string → http_reply) (session : http_reply) : checkout_env := {|
  ce_clock := at_time n; ce_gw := n; ce_db := lifecycle_db; ce_auth := admin_auth;
  ce_base := Some "https://gateway"; ce_uuid := uuid; ce_retrieve := retrieve;
  ce_list := λ _, http 200 (JObject [("data", JArray []); ("has_more", JBool false)]);
  ce_customer := λ _, http 200 (JObject [("id", JString "cus_1")]); ce_session := λ _ _, session |}.

Definition intent_of (b : billing_db) : option (string * option string) :=
  (λ r, (bs_checkoutStatus r, bs_checkoutIdempotencyKey r)) <$> bd_subscriptions b !! "t1".

Definition first_checkout : checkout_response * billing_db :=
  handleCheckout (checkout_at 1000 "u1" (λ _, http_failed) (http 200 (session_reply "cs_1" 3600))) admin_claims "basic"
    new_workspace.

Example first_checkout_opens :
  first_checkout.1 = CheckoutUrl "https://checkout.stripe.com/cs_1" false ∧
  intent_of first_checkout.2 = Some ("open", Some "checkout-intent-chk_u1").
Proof. split; vm_compute; reflexivity. Qed.

(** The same, one step at a time. *)
Definition started := start_checkout admin_claims false "basic" checkout_plan (Some "https://gateway") "u1" (at_time 1000)
  1000 lifecycle_db admin_auth new_workspace.

Definition unwrap {A E} (x : A) (r : result A E) : A := match r with Ok y => y | Err _ => x end.

Definition started_db : billing_db := (unwrap (already_subscribed, new_workspace) started).2.
Definition started_state : CheckoutState := (unwrap (already_subscribed, new_workspace) started).1.
Definition bound_db : billing_db := (unwrap ("", started_db) (bind_customer "t1" "cus_1" 1000 started_db)).2.
Definition fenced_db : billing_db :=
  (unwrap (fence_changed, bound_db)
     (attempt_fence admin_claims (intent_key "u1") (at_time 1000) lifecycle_db admin_auth bound_db)).2.

Definition first_session : stripe_session := {|
  ss_key := intent_key "u1"; ss_tenant := "t1"; ss_answer := session_of "cs_1" 3600; ss_created := 1000;
  ss_expires := 3600000; ss_paid := false |}.

Definition first_request (ph : request_phase) : checkout_request :=
  Req admin_claims "basic" checkout_plan (Some "https://gateway") 1000 ph.

Definition first_params : json :=
  match started_state with checkout_proceed _ _ _ params => params | _ => JNull end.

Definition first_intents : gmap string (string * Z) := {[intent_key "u1" := ("t1", 1000)]}.

Definition empty_world : checkout_world := W 1000 new_workspace ∅ [] ∅ [].
Definition session_world : checkout_world :=
  W 1000 fenced_db first_intents [first_session] ∅ [first_request (ph_answered (intent_key "u1") (session_of "cs_1" 3600))].

Lemma empty_world_quiet : no_checkout empty_world.
Proof. split_and!; try reflexivity. intros t r H. destruct (lookup_empty_Some t r H). Qed.

Lemma session_world_reached : rtc (checkout_step (secs 5) (mins 10)) empty_world session_world.
Proof.
  eapply rtc_l. { apply (cs_start _ _ 1000 new_workspace ∅ [] ∅ [] admin_claims false "basic" checkout_plan
    (Some "https://gateway") "u1" (at_time 1000) 1000 lifecycle_db admin_auth started_state started_db);
    [by split|by split|done|done|vm_compute; reflexivity]. }
  eapply rtc_l. { apply (cs_customer _ _ 1000 started_db first_intents [] ∅ [] (first_request (ph_ready (intent_key "u1") None first_params))
    [] (intent_key "u1") None first_params "cus_1" "cus_1" bound_db); [done|done|vm_compute; reflexivity]. }
  eapply rtc_l. { apply (cs_fence _ _ 1000 bound_db first_intents [] ∅ []
    (first_request (ph_ready (intent_key "u1") (Some "cus_1") first_params)) [] (intent_key "u1") (Some "cus_1") first_params
    (at_time 1000) lifecycle_db admin_auth fenced_db); [done|done|by split|vm_compute; reflexivity]. }
  apply rtc_once. apply (cs_call _ _ 1000 fenced_db first_intents [] ∅ [] (first_request (ph_fenced (intent_key "u1") 1000)) []
    (intent_key "u1") 1000 [first_session]); [done|done|].
  apply (ss_made 1000 [] ∅ (intent_key "u1") "t1" first_session); try done; [set_solver|by intros x [= <-]].
Qed.


(** ** Where the promise ends *)

(** A workspace whose subscription has lapsed locally; at Stripe it is over. *)
Definition lapsed_row : billing_row :=
  with_subscription "basic" (Some "cus_1") (Some "sub_A") "active" (0, Some 500) (Some 100) false (false, None)
    paying_row.

Definition lapsed_db : billing_db := {|
  bd_tenants := {["t1"]}; bd_subscriptions := {["t1" := lapsed_row]}; bd_events := ∅;
  bd_plans := {["basic" := checkout_plan]} |}.

Definition sub_A_over (_ : string) : http_reply := http 200 (stripe_object "sub_A" "canceled").

(** The verification finds it over and opens a checkout. *)
Definition replacing : checkout_response * billing_db :=
  handleCheckout (checkout_at 1000 "u1" sub_A_over (http 200 (session_reply "cs_1" 3600))) admin_claims "basic" lapsed_db.

(** The deletion Stripe sent before arrives. *)
Definition after_old_deletion : billing_db := (deliver deleted_A replacing.2).2.

Definition reopened : checkout_response * billing_db :=
  handleCheckout (checkout_at 2000 "u2" sub_A_over (http 200 (session_reply "cs_2" 3600))) admin_claims "basic"
    after_old_deletion.


(** A first attempt whose answer was lost, and a retry of the same key that
    Stripe turns away for a reason of its own (the API key was revoked). *)
Definition lost_answer : checkout_response * billing_db :=
  handleCheckout (checkout_at 1000 "u1" sub_A_over http_failed) admin_claims "basic" new_workspace.

Definition refused_retry : checkout_response * billing_db :=
  handleCheckout (checkout_at 2000 "u2" sub_A_over (http 401 (JObject []))) admin_claims "basic" lost_answer.2.

Definition third_try : checkout_response * billing_db :=
  handleCheckout (checkout_at 3000 "u3" sub_A_over (http 200 (session_reply "cs_3" 3600))) admin_claims "basic"
    refused_retry.2.

(** The refusal of the retry gives up the intent of the first attempt, which may
    have made a session, and the next request opens another. *)
Example refused_retry_reopens :
  lost_answer.1 = RETRY_502 ∧ intent_of lost_answer.2 = Some ("creating", Some "checkout-intent-chk_u1") ∧
  refused_retry.1 = CheckoutError 409 (Some "STRIPE_CHECKOUT_REJECTED") ∧ intent_of refused_retry.2 = Some ("none", None) ∧
  third_try.1 = CheckoutUrl "https://checkout.stripe.com/cs_3" false ∧
  intent_of third_try.2 = Some ("open", Some "checkout-intent-chk_u3").
Proof. split_and!; vm_compute; reflexivity. Qed.

(** An open session past its expiry is replaced without asking Stripe whether it
    was paid, unlike an intent without a session. *)
Lemma expired_open_rotates verified planId plan base t uuid ck gw r e params :
  intent_open r = true → bs_checkoutSessionExpiresAt r = Some e → e ≤ gw →
  has_active r = false → has_blocking r = false → truthy (bs_billingOperationId r) = false →
  buildCheckoutRequestParams base t planId plan = Ok params →
  checkout_decision verified planId plan base t uuid ck gw (Some r) =
  Ok (checkout_proceed ("chk_" +:+ uuid) (intent_key uuid) (bs_stripeCustomerId r) params,
      Some (new_intent planId (intent_key uuid) params (clock_timestamp ck) r)).
Proof.
  intros Ho He Hle Ha Hb Hop Hpar. assert (is_creating r = false) as Hc.
  { unfold intent_open, is_creating in *. bools. rewrite Ho. done. }
  assert (existing_state verified planId (clock_timestamp ck) gw r = None) as Hex.
  { unfold existing_state, abandonable. rewrite Ha, Hop, Ho, Hc, Hb, He. cbv zeta. cbn [andb checkoutIntentExpired].
    assert ((e <=? gw) = true) as -> by lia. rewrite andb_false_r. cbn [negb]. unfold intent_open in Ho. bools. by rewrite Ho. }
  unfold checkout_decision. cbn [mbind option_bind]. rewrite Hex, Hpar. cbn [rbind].
  by rewrite (existing_none_renews _ _ _ _ _ Hex).
Qed.
