(* ===== verification/Sockets.v ===== *)
(** * Sockets: the registry of agent WebSockets

    [src/server/ws.ts]: the capacity reservation of an upgrade, the registration
    under the lifecycle lock, the [Set] of sockets per agent, the waiters for a
    registration, sending to an agent, and the closing of sessions on lifecycle
    notifications. Every definition is one synchronous turn of the event loop;
    an [await] ends a turn, so any other turn may come in between. The [Set]
    objects are kept in a store of their own because a close listener keeps the
    one it was installed with, which may no longer be the registered one. *)

From S2P Require Import Prelude DatabaseTime JobStatus Json Schema Authority Availability Payload.
From S2P Require Import PrinterVirtual Capability Entitlements Samples JobProtocol JobDelivery.
From S2P Require Import JobMaintenance AgentJobs JobService Lifecycle Operator.

Definition MAX_AGENT_SOCKETS : Z := 8.
Definition MAX_TOTAL_AGENT_SOCKETS : Z := 4096.
Definition MAX_WS_BUFFERED_BYTES : Z := 1024 * 1024.

(** ** State *)

(** How far an upgrade has come: refused handshake, waiting for the lifecycle
    check, registered with the commit outstanding, rejected with the rollback
    outstanding, finished. *)
Inductive upgrade_stage : Type := no_socket | verifying | registered | rejecting | finished.

#[export] Instance upgrade_stage_eq_dec : EqDecision upgrade_stage.
Proof. solve_decision. Defined.

(** What the closures of one upgrade and its [AgentSocket] hold; [cn_set] is the
    [Set] captured by the close listener of [trackAgentSocket]. *)
Record connection := {
  cn_agentId : string;
  cn_tenantId : string;
  cn_lifecycleRevision : Z;
  cn_reservationActive : bool;
  cn_registrationPending : bool;
  cn_stage : upgrade_stage;
  cn_open : bool;
  cn_socketCounted : bool;
  cn_set : option nat;
}.

Record ws_state := {
  ws_conns : gmap string connection;
  ws_sets : gmap nat (list string);
  ws_agentSockets : gmap string nat;
  ws_totalAgentSockets : Z;
  ws_pendingReservations : Z;
  ws_pendingRegistrations : gmap string Z;
  ws_waiters : gmap string (list string);
  ws_resolved : gmap string bool;
}.

Definition ws_start : ws_state := {|
  ws_conns := ∅; ws_sets := ∅; ws_agentSockets := ∅; ws_totalAgentSockets := 0; ws_pendingReservations := 0;
  ws_pendingRegistrations := ∅; ws_waiters := ∅; ws_resolved := ∅ |}.

Definition with_reservation (b : bool) (c : connection) : connection := {|
  cn_agentId := cn_agentId c; cn_tenantId := cn_tenantId c; cn_lifecycleRevision := cn_lifecycleRevision c;
  cn_reservationActive := b; cn_registrationPending := cn_registrationPending c; cn_stage := cn_stage c;
  cn_open := cn_open c; cn_socketCounted := cn_socketCounted c; cn_set := cn_set c |}.
Definition with_pending (b : bool) (c : connection) : connection := {|
  cn_agentId := cn_agentId c; cn_tenantId := cn_tenantId c; cn_lifecycleRevision := cn_lifecycleRevision c;
  cn_reservationActive := cn_reservationActive c; cn_registrationPending := b; cn_stage := cn_stage c;
  cn_open := cn_open c; cn_socketCounted := cn_socketCounted c; cn_set := cn_set c |}.
Definition with_stage (g : upgrade_stage) (c : connection) : connection := {|
  cn_agentId := cn_agentId c; cn_tenantId := cn_tenantId c; cn_lifecycleRevision := cn_lifecycleRevision c;
  cn_reservationActive := cn_reservationActive c; cn_registrationPending := cn_registrationPending c;
  cn_stage := g; cn_open := cn_open c; cn_socketCounted := cn_socketCounted c; cn_set := cn_set c |}.
Definition not_open (c : connection) : connection := {|
  cn_agentId := cn_agentId c; cn_tenantId := cn_tenantId c; cn_lifecycleRevision := cn_lifecycleRevision c;
  cn_reservationActive := cn_reservationActive c; cn_registrationPending := cn_registrationPending c;
  cn_stage := cn_stage c; cn_open := false; cn_socketCounted := cn_socketCounted c; cn_set := cn_set c |}.
Definition with_counted (b : bool) (c : connection) : connection := {|
  cn_agentId := cn_agentId c; cn_tenantId := cn_tenantId c; cn_lifecycleRevision := cn_lifecycleRevision c;
  cn_reservationActive := cn_reservationActive c; cn_registrationPending := cn_registrationPending c;
  cn_stage := cn_stage c; cn_open := cn_open c; cn_socketCounted := b; cn_set := cn_set c |}.
Definition with_set (sid : nat) (c : connection) : connection := {|
  cn_agentId := cn_agentId c; cn_tenantId := cn_tenantId c; cn_lifecycleRevision := cn_lifecycleRevision c;
  cn_reservationActive := cn_reservationActive c; cn_registrationPending := cn_registrationPending c;
  cn_stage := cn_stage c; cn_open := cn_open c; cn_socketCounted := cn_socketCounted c; cn_set := Some sid |}.

Definition with_conns (m : gmap string connection) (s : ws_state) : ws_state := {|
  ws_conns := m; ws_sets := ws_sets s; ws_agentSockets := ws_agentSockets s;
  ws_totalAgentSockets := ws_totalAgentSockets s; ws_pendingReservations := ws_pendingReservations s;
  ws_pendingRegistrations := ws_pendingRegistrations s; ws_waiters := ws_waiters s; ws_resolved := ws_resolved s |}.
Definition with_sets (m : gmap nat (list string)) (ag : gmap string nat) (s : ws_state) : ws_state := {|
  ws_conns := ws_conns s; ws_sets := m; ws_agentSockets := ag;
  ws_totalAgentSockets := ws_totalAgentSockets s; ws_pendingReservations := ws_pendingReservations s;
  ws_pendingRegistrations := ws_pendingRegistrations s; ws_waiters := ws_waiters s; ws_resolved := ws_resolved s |}.
Definition with_total (n : Z) (s : ws_state) : ws_state := {|
  ws_conns := ws_conns s; ws_sets := ws_sets s; ws_agentSockets := ws_agentSockets s;
  ws_totalAgentSockets := n; ws_pendingReservations := ws_pendingReservations s;
  ws_pendingRegistrations := ws_pendingRegistrations s; ws_waiters := ws_waiters s; ws_resolved := ws_resolved s |}.
Definition with_reservations (n : Z) (s : ws_state) : ws_state := {|
  ws_conns := ws_conns s; ws_sets := ws_sets s; ws_agentSockets := ws_agentSockets s;
  ws_totalAgentSockets := ws_totalAgentSockets s; ws_pendingReservations := n;
  ws_pendingRegistrations := ws_pendingRegistrations s; ws_waiters := ws_waiters s; ws_resolved := ws_resolved s |}.
Definition with_registrations (m : gmap string Z) (s : ws_state) : ws_state := {|
  ws_conns := ws_conns s; ws_sets := ws_sets s; ws_agentSockets := ws_agentSockets s;
  ws_totalAgentSockets := ws_totalAgentSockets s; ws_pendingReservations := ws_pendingReservations s;
  ws_pendingRegistrations := m; ws_waiters := ws_waiters s; ws_resolved := ws_resolved s |}.
Definition with_waiters (m : gmap string (list string)) (r : gmap string bool) (s : ws_state) : ws_state := {|
  ws_conns := ws_conns s; ws_sets := ws_sets s; ws_agentSockets := ws_agentSockets s;
  ws_totalAgentSockets := ws_totalAgentSockets s; ws_pendingReservations := ws_pendingReservations s;
  ws_pendingRegistrations := ws_pendingRegistrations s; ws_waiters := m; ws_resolved := r |}.

(** An update of one connection's closure variables. *)
Definition on_conn (f : connection → connection) (c : string) (s : ws_state) : ws_state :=
  with_conns (alter f c (ws_conns s)) s.

(** ** Reservations and pending registrations *)

Definition canReserveAgentSocketSlot (activeCount pendingCount max : Z) : bool :=
  isSafeInteger activeCount && isSafeInteger pendingCount && isSafeInteger max && (0 <=? activeCount)
  && (0 <=? pendingCount) && (0 <? max) && (activeCount + pendingCount <? max).

Definition reserveAgentSocketSlot (s : ws_state) : bool * ws_state :=
  if negb (canReserveAgentSocketSlot (ws_totalAgentSockets s) (ws_pendingReservations s) MAX_TOTAL_AGENT_SOCKETS)
  then (false, s)
  else (true, with_reservations (ws_pendingReservations s + 1) s).

Definition releaseAgentSocketSlot (s : ws_state) : ws_state :=
  with_reservations (Z.max 0 (ws_pendingReservations s - 1)) s.

(** The closure of an upgrade: it releases its own reservation once. *)
Definition releaseReservation (c : string) (s : ws_state) : ws_state :=
  match ws_conns s !! c with
  | Some cn => if cn_reservationActive cn then releaseAgentSocketSlot (on_conn (with_reservation false) c s) else s
  | None => s
  end.

Definition registrations_of (s : ws_state) (agentId : string) : Z :=
  coalesce (ws_pendingRegistrations s !! agentId) 0.

Definition markAgentSocketRegistrationPending (agentId : string) (s : ws_state) : ws_state :=
  with_registrations (<[agentId := registrations_of s agentId + 1]> (ws_pendingRegistrations s)) s.

(** Every waiter in the list gets the same answer. *)
Definition resolve_all (ws : list string) (ready : bool) (r : gmap string bool) : gmap string bool :=
  foldr (λ w r, <[w := ready]> r) r ws.

Definition finishAgentSocketRegistrationPending (agentId : string) (ready : bool) (s : ws_state) : ws_state :=
  let pending := registrations_of s agentId in
  let s1 := with_registrations
    (if pending <=? 1 then delete agentId (ws_pendingRegistrations s)
     else <[agentId := pending - 1]> (ws_pendingRegistrations s)) s in
  if negb ready && (1 <? pending) then s1
  else match ws_waiters s1 !! agentId with
       | None => s1
       | Some waiters => with_waiters (delete agentId (ws_waiters s1)) (resolve_all waiters ready (ws_resolved s1)) s1
       end.

Definition completeRegistration (c : string) (ready : bool) (s : ws_state) : ws_state :=
  match ws_conns s !! c with
  | Some cn => if cn_registrationPending cn
               then finishAgentSocketRegistrationPending (cn_agentId cn) ready (on_conn (with_pending false) c s)
               else s
  | None => s
  end.

(** ** The sets *)

Definition set_of (s : ws_state) (agentId : string) : option (nat * list string) :=
  sid ← ws_agentSockets s !! agentId; l ← ws_sets s !! sid; Some (sid, l).

Definition is_open (s : ws_state) (c : string) : bool :=
  match ws_conns s !! c with Some cn => cn_open cn | None => false end.

Definition hasOpenAgentSocket (s : ws_state) (agentId : string) : bool :=
  match set_of s agentId with Some (_, l) => existsb (is_open s) l | None => false end.

Definition getAgentWsCount (s : ws_state) (agentId : string) : Z :=
  match set_of s agentId with Some (_, l) => Z.of_nat (length l) | None => 0 end.

Definition uncountAgentSocket (c : string) (s : ws_state) : ws_state :=
  match ws_conns s !! c with
  | Some cn => if cn_socketCounted cn
               then with_total (Z.max 0 (ws_totalAgentSockets s - 1)) (on_conn (with_counted false) c s)
               else s
  | None => s
  end.

(** [ws.close(...)] and [ws.terminate()]: the socket is no longer open. *)
Definition close_socket (c : string) (s : ws_state) : ws_state := on_conn not_open c s.

(** The eviction loop: the oldest sockets of a full set. *)
Fixpoint evict (l : list string) (s : ws_state) : list string * ws_state :=
  match l with
  | oldest :: rest =>
      if MAX_AGENT_SOCKETS <=? Z.of_nat (length l)
      then evict rest (close_socket oldest (uncountAgentSocket oldest s))
      else (l, s)
  | [] => ([], s)
  end.

Definition trackAgentSocket (c agentId : string) (s : ws_state) : ws_state :=
  let s0 := on_conn (with_counted false) c s in
  let '(sid, l, s1) :=
    match set_of s0 agentId with
    | Some (sid, l) => (sid, l, s0)
    | None => let sid := stdpp.base.fresh (dom (ws_sets s0) : gset nat) in
              (sid, [], with_sets (<[sid := []]> (ws_sets s0)) (<[agentId := sid]> (ws_agentSockets s0)) s0)
    end in
  let '(l', s2) := evict l s1 in
  let s3 := with_sets (<[sid := l' ++ [c]]> (ws_sets s2)) (ws_agentSockets s2) s2 in
  with_total (ws_totalAgentSockets s3 + 1) (on_conn (λ cn, with_set sid (with_counted true cn)) c s3).

(** [set.delete(ws)]. *)
Definition without (c : string) (l : list string) : list string := filter (λ x, x ≠ c) l.

(** The close listener of [trackAgentSocket]. *)
Definition tracked_close (c : string) (cn : connection) (s : ws_state) : ws_state :=
  match cn_set cn with
  | None => s
  | Some sid =>
      let l := without c (coalesce (ws_sets s !! sid) []) in
      let s1 := uncountAgentSocket c (with_sets (<[sid := l]> (ws_sets s)) (ws_agentSockets s) s) in
      if bool_decide (l = []) && bool_decide (ws_agentSockets s1 !! cn_agentId cn = Some sid)
      then with_sets (ws_sets s1) (delete (cn_agentId cn) (ws_agentSockets s1)) s1
      else s1
  end.

(** ** The upgrade *)

(** From the authenticated agent to the start of the lifecycle check, one turn;
    [handshake] is whether [handleUpgrade] produced a WebSocket. *)
Definition upgrade (c agentId tenantId : string) (revision : Z) (handshake : bool) (s : ws_state) : bool * ws_state :=
  match reserveAgentSocketSlot s with
  | (false, s) => (false, s)
  | (true, s1) =>
      let s2 := markAgentSocketRegistrationPending agentId s1 in
      (true, with_conns (<[c := {| cn_agentId := agentId; cn_tenantId := tenantId; cn_lifecycleRevision := revision;
         cn_reservationActive := true; cn_registrationPending := true;
         cn_stage := if handshake then verifying else no_socket; cn_open := handshake;
         cn_socketCounted := false; cn_set := None |}]> (ws_conns s2)) s2)
  end.

Definition shouldAcceptAgentSocketForLifecycleState (authenticatedRevision currentRevision : option Z)
    (currentLifecycle : option string) : bool :=
  (currentLifecycle == Some "active") &&
  match authenticatedRevision, currentRevision with
  | Some a, Some r => isSafeInteger a && (0 <=? a) && isSafeInteger r && (0 <=? r) && (a =? r)
  | _, _ => false
  end.

Definition agent_row_of (d : db) (agentId tenantId : string) : option agent :=
  ag ← agents d !! agentId; if ag_tenantId ag == tenantId then Some ag else None.

(** The turn of [verifyAndTrackAgentSocket] that ends the check, with the two
    rows locked. *)
Definition verifyAndTrackAgentSocket (d : db) (c : string) (s : ws_state) : ws_state :=
  match ws_conns s !! c with
  | Some cn =>
      let row := agent_row_of d (cn_agentId cn) (cn_tenantId cn) in
      if (tn_lifecycle <$> tenants d !! cn_tenantId cn) != Some "active" then on_conn (with_stage rejecting) c s
      else if negb (shouldAcceptAgentSocketForLifecycleState (Some (cn_lifecycleRevision cn))
                      (ag_lifecycleRevision <$> row) (ag_lifecycle <$> row))
      then on_conn (with_stage rejecting) c s
      else if negb (cn_open cn) then on_conn (with_stage rejecting) c s
      else on_conn (with_stage registered) c (trackAgentSocket c (cn_agentId cn) s)
  | None => s
  end.

(** The turn after it; [committed] is false when the transaction failed. *)
Definition finish_upgrade (c : string) (committed : bool) (s : ws_state) : ws_state :=
  match ws_conns s !! c with
  | Some cn =>
      let accepted := committed && bool_decide (cn_stage cn = registered) in
      let s0 := if bool_decide (cn_stage cn = registered) then s else on_conn (with_stage rejecting) c s in
      let s1 := on_conn (with_stage finished) c (completeRegistration c accepted (releaseReservation c s0)) in
      if accepted then s1 else close_socket c s1
  | None => s
  end.

(** The raw socket closes: the upgrade lets go, and the WebSocket on it stops
    being open. *)
Definition raw_close (c : string) (s : ws_state) : ws_state :=
  completeRegistration c false (releaseReservation c (close_socket c s)).

(** The WebSocket's close event. *)
Definition ws_close (c : string) (s : ws_state) : ws_state :=
  match ws_conns s !! c with
  | Some cn => tracked_close c cn (completeRegistration c false (releaseReservation c (close_socket c s)))
  | None => s
  end.

(** ** Sending *)

Inductive JobSendOutcome : Type := sent | not_sent | ambiguous.

(** The loop over the open sockets, newest first. [buffered] is what each still
    has to write and [throws] whether its [send] throws; the last component is
    the socket whose [send] was entered. *)
Fixpoint send_loop (agentId : string) (buffered : string → Z) (throws : string → bool) (targets : list string)
    (s : ws_state) : JobSendOutcome * ws_state * option string :=
  match targets with
  | [] => (not_sent, s, None)
  | target :: rest =>
      if MAX_WS_BUFFERED_BYTES <? buffered target then send_loop agentId buffered throws rest s
      else if negb (throws target) then (sent, s, Some target)
      else
        match set_of s agentId with
        | None => (ambiguous, s, Some target)
        | Some (sid, l) =>
            let l' := without target l in
            let s1 := with_sets (<[sid := l']> (ws_sets s)) (ws_agentSockets s) s in
            let s2 := close_socket target (uncountAgentSocket target s1) in
            (ambiguous,
             if bool_decide (l' = []) then with_sets (ws_sets s2) (delete agentId (ws_agentSockets s2)) s2 else s2,
             Some target)
        end
  end.

Definition sendJobToAgent (agentId : string) (buffered : string → Z) (throws : string → bool) (s : ws_state)
    : JobSendOutcome * ws_state * option string :=
  match set_of s agentId with
  | None => (not_sent, s, None)
  | Some (_, l) => send_loop agentId buffered throws (reverse (filter (λ c, is_open s c = true) l)) s
  end.

(** ** Waiting for a registration *)

Definition waitForAgentSocketReady (agentId w : string) (s : ws_state) : ws_state :=
  if hasOpenAgentSocket s agentId then with_waiters (ws_waiters s) (<[w := true]> (ws_resolved s)) s
  else if registrations_of s agentId =? 0 then with_waiters (ws_waiters s) (<[w := false]> (ws_resolved s)) s
  else with_waiters (<[agentId := coalesce (ws_waiters s !! agentId) [] ++ [w]]> (ws_waiters s)) (ws_resolved s) s.

(** The timer of a waiter; it was cleared when the waiter was answered. *)
Definition waiter_timeout (agentId w : string) (s : ws_state) : ws_state :=
  match ws_waiters s !! agentId with
  | Some l =>
      if bool_decide (w ∈ l) then
        let l' := without w l in
        with_waiters (if bool_decide (l' = []) then delete agentId (ws_waiters s) else <[agentId := l']> (ws_waiters s))
          (<[w := hasOpenAgentSocket s agentId]> (ws_resolved s)) s
      else s
  | None => s
  end.

(** ** Closing sessions *)

Definition shouldCloseAgentSocketForLifecycleRevision (socketRevision : option Z) (invalidatingRevision : Z) : bool :=
  match socketRevision with None => true | Some r => r <? invalidatingRevision end.

Definition invalidated (revision : option Z) (cn : connection) : bool :=
  match revision with
  | None => true
  | Some r => shouldCloseAgentSocketForLifecycleRevision (Some (cn_lifecycleRevision cn)) r
  end.

Definition close_where (p : connection → bool) (l : list string) (s : ws_state) : ws_state :=
  foldl (λ s c, match ws_conns s !! c with Some cn => if p cn then close_socket c s else s | None => s end) s l.

Definition closeAgentSockets (agentId : string) (lifecycleRevision : option Z) (s : ws_state) : ws_state :=
  match set_of s agentId with
  | None => s
  | Some (_, l) => close_where (invalidated lifecycleRevision) l s
  end.

Definition shouldCloseTenantSocketsForNotification (lifecycle : option string) : bool :=
  (lifecycle == Some "suspended") || (lifecycle == Some "deleted").

(** The sockets of every registered set. *)
Definition registered_sockets (s : ws_state) : list string :=
  (map_to_list (ws_agentSockets s)).*2 ≫= λ sid, coalesce (ws_sets s !! sid) [].

Definition closeTenantSockets (tenantId : string) (s : ws_state) : ws_state :=
  close_where (λ cn, cn_tenantId cn == tenantId) (registered_sockets s) s.

(** ** Turns *)

(** Everything the server may do next; [d] is the database the check reads. *)
Inductive ws_step (d : db) : ws_state → ws_state → Prop :=
| wst_upgrade c agentId tenantId revision handshake s :
    ws_conns s !! c = None → ws_step d s (upgrade c agentId tenantId revision handshake s).2
| wst_verify c cn s :
    ws_conns s !! c = Some cn → cn_stage cn = verifying → ws_step d s (verifyAndTrackAgentSocket d c s)
| wst_finish c cn committed s :
    ws_conns s !! c = Some cn → cn_stage cn ≠ no_socket → cn_stage cn ≠ finished →
    ws_step d s (finish_upgrade c committed s)
| wst_raw_close c s : ws_step d s (raw_close c s)
| wst_close c cn s : ws_conns s !! c = Some cn → ws_step d s (ws_close c s)
| wst_terminate c s : ws_step d s (close_socket c s)
| wst_send agentId buffered throws s : ws_step d s (sendJobToAgent agentId buffered throws s).1.2
| wst_wait agentId w s : ws_step d s (waitForAgentSocketReady agentId w s)
| wst_timeout agentId w s : ws_step d s (waiter_timeout agentId w s)
| wst_close_agent agentId revision s : ws_step d s (closeAgentSockets agentId revision s)
| wst_close_tenant tenantId s : ws_step d s (closeTenantSockets tenantId s).

(** ** The registry *)

(** What ties the counter, the connections and the sets together. *)
Record registry_ok (s : ws_state) : Prop := {
  rg_total : ws_totalAgentSockets s = count_rows cn_socketCounted (ws_conns s);
  rg_set : ∀ a sid, ws_agentSockets s !! a = Some sid → ∃ l, ws_sets s !! sid = Some l ∧ NoDup l ∧
    ∀ c, c ∈ l → ∃ cn, ws_conns s !! c = Some cn ∧ cn_socketCounted cn = true ∧ cn_agentId cn = a ∧ cn_set cn = Some sid;
  rg_counted : ∀ c cn, ws_conns s !! c = Some cn → cn_socketCounted cn = true →
    ∃ sid l, ws_agentSockets s !! cn_agentId cn = Some sid ∧ ws_sets s !! sid = Some l ∧ c ∈ l;
  rg_heap : ∀ sid l, ws_sets s !! sid = Some l → l ≠ [] → ∃ a, ws_agentSockets s !! a = Some sid;
  rg_inj : ∀ a1 a2 sid, ws_agentSockets s !! a1 = Some sid → ws_agentSockets s !! a2 = Some sid → a1 = a2;
  rg_captured : ∀ c cn sid, ws_conns s !! c = Some cn → cn_set cn = Some sid → is_Some (ws_sets s !! sid);
}.

(** No set is too large and a registered one is not empty. *)
Record sizes_ok (s : ws_state) : Prop := {
  sz_max : ∀ sid l, ws_sets s !! sid = Some l → Z.of_nat (length l) ≤ MAX_AGENT_SOCKETS;
  sz_some : ∀ a sid, ws_agentSockets s !! a = Some sid → ws_sets s !! sid ≠ Some [];
}.

(** A reservation is held for every upgrade that may still register. *)
Definition waiting (cn : connection) : bool := cn_reservationActive cn && negb (bool_decide (cn_stage cn = registered)).

Record slots_ok (s : ws_state) : Prop := {
  sl_pending : ws_pendingReservations s = count_rows cn_reservationActive (ws_conns s);
  sl_capacity : ws_totalAgentSockets s + count_rows waiting (ws_conns s) ≤ MAX_TOTAL_AGENT_SOCKETS;
  sl_open : ∀ c cn, ws_conns s !! c = Some cn → cn_stage cn = verifying → cn_open cn = true →
    cn_reservationActive cn = true;
  sl_fresh : ∀ c cn, ws_conns s !! c = Some cn → cn_stage cn = verifying → cn_socketCounted cn = false ∧ cn_set cn = None;
  sl_finished : ∀ c cn, ws_conns s !! c = Some cn → cn_stage cn = finished →
    cn_reservationActive cn = false ∧ cn_registrationPending cn = false;
}.

Definition pending_for (a : string) (cn : connection) : bool := cn_registrationPending cn && (cn_agentId cn == a).

Record waiters_ok (s : ws_state) : Prop := {
  wt_pending : ∀ a, registrations_of s a = count_rows (pending_for a) (ws_conns s);
  wt_positive : ∀ a n, ws_pendingRegistrations s !! a = Some n → 0 < n;
  wt_waiters : ∀ a l, ws_waiters s !! a = Some l → l ≠ [] ∧ 0 < registrations_of s a;
}.

Record ws_ok (s : ws_state) : Prop := {
  ok_registry : registry_ok s;
  ok_sizes : sizes_ok s;
  ok_slots : slots_ok s;
  ok_waiters : waiters_ok s;
}.

(** A connection after an update of one. *)
Lemma on_conn_inv f c s k cn' :
  ws_conns (on_conn f c s) !! k = Some cn' →
  ∃ cn, ws_conns s !! k = Some cn ∧ cn' = if decide (k = c) then f cn else cn.
Proof.
  simpl. intros H. destruct (decide (k = c)) as [->|Hne].
  - rewrite lookup_alter_eq in H. destruct (ws_conns s !! c) as [cn|]; simplify_eq/=. by eexists.
  - rewrite lookup_alter_ne in H by done. by eexists.
Qed.

Lemma on_conn_lookup f c s k cn :
  ws_conns s !! k = Some cn → ws_conns (on_conn f c s) !! k = Some (if decide (k = c) then f cn else cn).
Proof.
  simpl. intros H. destruct (decide (k = c)) as [->|Hne].
  - by rewrite lookup_alter_eq, H.
  - by rewrite lookup_alter_ne.
Qed.

(** Updates that leave the registry's view of a connection alone. *)
Definition keeps_registry (f : connection → connection) : Prop :=
  ∀ cn, cn_agentId (f cn) = cn_agentId cn ∧ cn_socketCounted (f cn) = cn_socketCounted cn ∧ cn_set (f cn) = cn_set cn.

Lemma registry_on_conn f c s : keeps_registry f → registry_ok s → registry_ok (on_conn f c s).
Proof.
  intros Hf [H1 H2 H3 H4 H5 H6]. split; [|..|exact H4|exact H5|].
  - simpl. rewrite H1. symmetry. apply count_rows_alter. intros x _. apply Hf.
  - intros a sid Ha. destruct (H2 _ _ Ha) as (l & Hl & Hnd & Hm). exists l. split_and!; [done..|].
    intros k (cn & Hcn & E1 & E2 & E3)%Hm. eexists. split; [by apply on_conn_lookup|].
    destruct (decide (k = c)); [|done]. destruct (Hf cn) as (F1 & F2 & F3). split_and!; congruence.
  - intros k cn' (cn & Hcn & ->)%on_conn_inv Hc. destruct (Hf cn) as (F1 & F2 & F3).
    destruct (decide (k = c)); [|by eapply H3]. rewrite F1. apply (H3 k cn Hcn). congruence.
  - intros k cn' sid (cn & Hcn & ->)%on_conn_inv Hs. destruct (Hf cn) as (F1 & F2 & F3).
    destruct (decide (k = c)); apply (H6 k cn sid Hcn); congruence.
Qed.

(** States that agree on what the registry consists of. *)
Lemma registry_frame s s' :
  ws_conns s' = ws_conns s → ws_sets s' = ws_sets s → ws_agentSockets s' = ws_agentSockets s →
  ws_totalAgentSockets s' = ws_totalAgentSockets s → registry_ok s → registry_ok s'.
Proof. intros E1 E2 E3 E4 [H1 H2 H3 H4 H5 H6]. split; rewrite ?E1, ?E2, ?E3, ?E4; auto. Qed.

(** A member leaves its set and the count together. *)
Lemma registry_drop c cn s sid l :
  registry_ok s → ws_conns s !! c = Some cn → cn_socketCounted cn = true →
  ws_agentSockets s !! cn_agentId cn = Some sid → ws_sets s !! sid = Some l →
  registry_ok (uncountAgentSocket c (with_sets (<[sid := without c l]> (ws_sets s)) (ws_agentSockets s) s)).
Proof.
  intros [H1 H2 H3 H4 H5 H6] Hcn Hct Ha Hl. unfold uncountAgentSocket. simpl. rewrite Hcn, Hct.
  assert (alter (with_counted false) c (ws_conns s) = <[c := with_counted false cn]> (ws_conns s)) as Halt.
  { apply map_eq. intros i. destruct (decide (i = c)) as [->|]; by simplify_map_eq. }
  assert (count_rows cn_socketCounted (<[c := with_counted false cn]> (ws_conns s)) =
          count_rows cn_socketCounted (ws_conns s) - 1) as Hcnt.
  { rewrite (count_rows_change _ _ _ _ _ Hcn), Hct. simpl. lia. }
  pose proof (count_rows_nonneg cn_socketCounted (<[c := with_counted false cn]> (ws_conns s))).
  split; simpl; rewrite ?Halt.
  - lia.
  - intros a sid' Ha'. destruct (H2 _ _ Ha') as (l' & Hl' & Hnd & Hm). destruct (decide (sid' = sid)) as [->|Hne].
    + assert (a = cn_agentId cn) as -> by (by eapply H5). assert (l' = l) as -> by congruence.
      exists (without c l). rewrite lookup_insert_eq. split_and!; [done|by apply NoDup_filter|].
      intros k [Hk Hin]%list_elem_of_filter. destruct (Hm _ Hin) as (cn' & Hcn' & ?). exists cn'.
      by rewrite lookup_insert_ne.
    + exists l'. rewrite lookup_insert_ne by done. split_and!; [done..|].
      intros k Hin. destruct (Hm _ Hin) as (cn' & Hcn' & E1 & E2 & E3). exists cn'.
      destruct (decide (k = c)) as [->|Hkc]; [|by rewrite lookup_insert_ne].
      assert (cn' = cn) as -> by congruence. subst a. congruence.
  - intros k cn' Hk Hc'. apply lookup_insert_Some in Hk as [[<- <-]|[Hne Hk]]; [done|].
    destruct (H3 _ _ Hk Hc') as (sid' & l' & E1 & E2 & E3). exists sid'.
    destruct (decide (sid' = sid)) as [->|Hs].
    + exists (without c l). rewrite lookup_insert_eq. assert (l' = l) as -> by congruence.
      split_and!; [done..|]. by apply list_elem_of_filter.
    + exists l'. by rewrite lookup_insert_ne.
  - intros sid' l' Hl' Hn. apply lookup_insert_Some in Hl' as [[<- <-]|[Hs Hl']]; [by eexists|by eapply H4].
  - intros a1 a2 sid'. apply H5.
  - intros k cn' sid' Hk Hs. destruct (decide (sid' = sid)) as [->|Hne]; [rewrite lookup_insert_eq; by eexists|].
    rewrite lookup_insert_ne by done. apply lookup_insert_Some in Hk as [[<- <-]|[_ Hk]]; [by eapply (H6 c cn)|by eapply H6].
Qed.

(** The entry of an emptied set leaves the map. *)
Lemma registry_unmap a s sid :
  registry_ok s → ws_agentSockets s !! a = Some sid → ws_sets s !! sid = Some [] →
  registry_ok (with_sets (ws_sets s) (delete a (ws_agentSockets s)) s).
Proof.
  intros [H1 H2 H3 H4 H5 H6] Ha Hs. split; simpl; [done|..|done].
  - intros a' sid' [_ Ha']%lookup_delete_Some. by apply H2.
  - intros c cn Hcn Hct. destruct (H3 _ _ Hcn Hct) as (sid' & l' & E1 & E2 & E3). exists sid', l'.
    split_and!; [|done..]. apply lookup_delete_Some. split; [|done]. intros ->.
    assert (sid' = sid) as -> by congruence. assert (l' = []) as -> by congruence. by apply not_elem_of_nil in E3.
  - intros sid' l' Hl' Hn. destruct (H4 _ _ Hl' Hn) as [a' Ha']. exists a'. apply lookup_delete_Some.
    split; [|done]. intros <-. congruence.
  - intros a1 a2 sid' [_ H1']%lookup_delete_Some [_ H2']%lookup_delete_Some. by eapply H5.
Qed.

(** ** Slots and waiters under updates of a connection *)

(** Updates that only close a socket or take it out of the count. *)
Definition shrinks (f : connection → connection) : Prop :=
  ∀ cn, cn_agentId (f cn) = cn_agentId cn ∧ cn_reservationActive (f cn) = cn_reservationActive cn ∧
    cn_registrationPending (f cn) = cn_registrationPending cn ∧ cn_stage (f cn) = cn_stage cn ∧
    cn_set (f cn) = cn_set cn ∧ (cn_open (f cn) = true → cn_open cn = true) ∧
    (cn_socketCounted (f cn) = true → cn_socketCounted cn = true).

Lemma not_open_shrinks : shrinks not_open.
Proof. by intros cn. Qed.

Lemma uncounted_shrinks : shrinks (with_counted false).
Proof. by intros cn. Qed.

Lemma slots_shrink f c s s' :
  shrinks f → ws_conns s' = alter f c (ws_conns s) → ws_totalAgentSockets s' ≤ ws_totalAgentSockets s →
  ws_pendingReservations s' = ws_pendingReservations s → slots_ok s → slots_ok s'.
Proof.
  intros Hf Hc Ht Hp [H1 H2 H3 H4 H5].
  assert (count_rows cn_reservationActive (ws_conns s') = count_rows cn_reservationActive (ws_conns s)) as E1.
  { rewrite Hc. apply count_rows_alter. intros x _. apply Hf. }
  assert (count_rows waiting (ws_conns s') = count_rows waiting (ws_conns s)) as E2.
  { rewrite Hc. apply count_rows_alter. intros x _. unfold waiting. destruct (Hf x) as (_ & -> & _ & -> & _). done. }
  assert (∀ k cn', ws_conns s' !! k = Some cn' → ∃ cn, ws_conns s !! k = Some cn ∧ (cn' = cn ∨ cn' = f cn)) as Hfrom.
  { intros k cn' Hk. rewrite Hc in Hk. apply (on_conn_inv f c s) in Hk as (cn & Hk & ->).
    exists cn. split; [done|]. destruct (decide (k = c)); auto. }
  split; [congruence|lia|..]; intros k cn' (cn & Hk & Hor)%Hfrom; pose proof (Hf cn) as (F1 & F2 & F3 & F4 & F5 & F6 & F7);
    (destruct Hor as [->| ->]; [eauto|]); rewrite ?F2, ?F3, ?F4, ?F5; eauto.
  intros Hst. destruct (H4 _ _ Hk Hst) as [Hu ?]. split; [|done].
  destruct (cn_socketCounted (f cn)) eqn:E; [|done]. rewrite <- Hu. symmetry. by apply F7.
Qed.

Lemma slots_frame s s' :
  ws_conns s' = ws_conns s → ws_totalAgentSockets s' = ws_totalAgentSockets s →
  ws_pendingReservations s' = ws_pendingReservations s → slots_ok s → slots_ok s'.
Proof. intros E1 E2 E3 [H1 H2 H3 H4 H5]. split; rewrite ?E1, ?E2, ?E3; auto. Qed.

Definition keeps_pending (f : connection → connection) : Prop :=
  ∀ cn, cn_agentId (f cn) = cn_agentId cn ∧ cn_registrationPending (f cn) = cn_registrationPending cn.

Lemma waiters_on_conn f c s s' :
  keeps_pending f → ws_conns s' = alter f c (ws_conns s) →
  ws_pendingRegistrations s' = ws_pendingRegistrations s → ws_waiters s' = ws_waiters s →
  waiters_ok s → waiters_ok s'.
Proof.
  intros Hf Hc Hp Hw [H1 H2 H3]. assert (∀ a, registrations_of s' a = registrations_of s a) as Hr.
  { intros a. unfold registrations_of. by rewrite Hp. }
  split; rewrite ?Hp, ?Hw; [|done|].
  - intros a. rewrite Hr, H1, Hc. symmetry. apply count_rows_alter. intros x _. unfold pending_for.
    by destruct (Hf x) as [-> ->].
  - intros a l Hl. rewrite Hr. by apply H3.
Qed.

Lemma waiters_frame s s' :
  ws_conns s' = ws_conns s → ws_pendingRegistrations s' = ws_pendingRegistrations s → ws_waiters s' = ws_waiters s →
  waiters_ok s → waiters_ok s'.
Proof.
  intros E1 E2 E3 [H1 H2 H3]. split; unfold registrations_of in *; rewrite ?E1, ?E2, ?E3; auto.
Qed.

(** ** The primitive operations keep the invariant *)

Lemma shrinks_pending f : shrinks f → keeps_pending f.
Proof. intros Hf cn. by destruct (Hf cn) as (? & _ & ? & _). Qed.

Lemma close_socket_ok c s : ws_ok s → ws_ok (close_socket c s).
Proof.
  intros [H1 [H2 H2'] H3 H4]. split.
  - by apply registry_on_conn.
  - by split.
  - by eapply (slots_shrink not_open c s); [apply not_open_shrinks|..].
  - by eapply (waiters_on_conn not_open c s).
Qed.

Lemma close_where_ok p l s : ws_ok s → ws_ok (close_where p l s).
Proof.
  unfold close_where. revert s. induction l as [|c l IH]; intros s Hok; [done|]. simpl. apply IH.
  destruct (ws_conns s !! c) as [cn|]; [|done]. destruct (p cn); [|done]. by apply close_socket_ok.
Qed.

Lemma releaseReservation_ok c s :
  (∀ cn, ws_conns s !! c = Some cn → cn_stage cn = verifying → cn_open cn = false) →
  ws_ok s → ws_ok (releaseReservation c s).
Proof.
  intros Hopen Hok. unfold releaseReservation. destruct (ws_conns s !! c) as [cn|] eqn:Hcn; [|done].
  destruct (cn_reservationActive cn) eqn:Hr; [|done]. destruct Hok as [H1 H2 [S1 S2 S3 S4 S5] H4].
  assert (alter (with_reservation false) c (ws_conns s) = <[c := with_reservation false cn]> (ws_conns s)) as Halt.
  { apply map_eq. intros i. destruct (decide (i = c)) as [->|]; by simplify_map_eq. }
  pose proof (count_rows_change cn_reservationActive _ _ _ (with_reservation false cn) Hcn) as C1.
  pose proof (count_rows_change waiting _ _ _ (with_reservation false cn) Hcn) as C2.
  pose proof (count_rows_nonneg cn_reservationActive (<[c := with_reservation false cn]> (ws_conns s))).
  assert (Z.b2z (waiting (with_reservation false cn)) ≤ Z.b2z (waiting cn)) by (unfold waiting; simpl; destruct (_ && _); simpl; lia).
  rewrite Hr in C1. simpl in C1. split.
  - apply (registry_frame (on_conn (with_reservation false) c s)); [done..|]. by apply registry_on_conn.
  - destruct H2. by split.
  - split; simpl; rewrite ?Halt; [lia|lia|..]; intros k cn' Hk;
      (apply lookup_insert_Some in Hk as [[<- <-]|[_ Hk]]; [simpl|by eauto]).
    + intros Hst Ho. by rewrite (Hopen cn) in Ho.
    + intros Hst. by apply (S4 c cn).
    + intros Hst. split; [done|]. by apply (S5 c cn).
  - by eapply (waiters_on_conn (with_reservation false) c s).
Qed.

(** One pending registration of an agent less. *)
Definition one_less (a : string) (m : gmap string Z) : gmap string Z :=
  let n := coalesce (m !! a) 0 in if n <=? 1 then delete a m else <[a := n - 1]> m.

Lemma one_less_spec a m :
  1 ≤ coalesce (m !! a) 0 → (∀ b n, m !! b = Some n → 0 < n) →
  (∀ b, coalesce (one_less a m !! b) 0 = coalesce (m !! b) 0 - Z.b2z (a == b)) ∧
  (∀ b n, one_less a m !! b = Some n → 0 < n).
Proof.
  unfold one_less, coalesce. intros Hge Hpos. split.
  - intros b. destruct (decide (a = b)) as [<-|Hne].
    + rewrite (bool_decide_true (a = a)) by done. simpl. destruct (_ <=? 1) eqn:E.
      * rewrite lookup_delete_eq. simpl. lia.
      * rewrite lookup_insert_eq. simpl. lia.
    + rewrite (bool_decide_false (a = b)) by done. simpl.
      destruct (_ <=? 1); rewrite ?lookup_delete_ne, ?lookup_insert_ne by done; lia.
  - intros b n. destruct (_ <=? 1) eqn:E.
    + intros [_ Hb]%lookup_delete_Some. by eapply Hpos.
    + intros [[<- <-]|[_ Hb]]%lookup_insert_Some; [lia|by eapply Hpos].
Qed.

Lemma slots_pending c s : slots_ok s → slots_ok (on_conn (with_pending false) c s).
Proof.
  intros [S1 S2 S3 S4 S5]. split; simpl.
  - rewrite S1. symmetry. by apply count_rows_alter.
  - by rewrite (count_rows_alter waiting).
  - intros k cn' (cn0 & Hk & ->)%(on_conn_inv (with_pending false) c s). destruct (decide (k = c)); by apply (S3 k cn0).
  - intros k cn' (cn0 & Hk & ->)%(on_conn_inv (with_pending false) c s). destruct (decide (k = c)); by apply (S4 k cn0).
  - intros k cn' (cn0 & Hk & ->)%(on_conn_inv (with_pending false) c s). intros Hst.
    destruct (decide (k = c)); [|by apply (S5 k cn0)]. split; [|done]. by apply (S5 k cn0).
Qed.

(** The upgrade's registration is over, and [w] are the waiters left. *)
Lemma pending_over c cn w r s :
  ws_ok s → ws_conns s !! c = Some cn → cn_registrationPending cn = true →
  (∀ b l, w !! b = Some l → ws_waiters s !! b = Some l ∧ (b = cn_agentId cn → 1 < registrations_of s b)) →
  ws_ok (with_waiters w r (with_registrations (one_less (cn_agentId cn) (ws_pendingRegistrations s))
           (on_conn (with_pending false) c s))).
Proof.
  intros [H1 [Z1 Z2] H3 [W1 W2 W3]] Hcn Hp Hw. set (a := cn_agentId cn) in *. set (s0 := on_conn (with_pending false) c s).
  assert (ws_conns s0 = <[c := with_pending false cn]> (ws_conns s)) as Halt.
  { apply map_eq. intros i. simpl. destruct (decide (i = c)) as [->|]; by simplify_map_eq. }
  assert (∀ b, count_rows (pending_for b) (ws_conns s0) = registrations_of s b - Z.b2z (a == b)) as Hcount.
  { intros b. rewrite Halt, (count_rows_change _ _ _ _ _ Hcn), <- W1. unfold pending_for. simpl. rewrite Hp. simpl.
    subst a. lia. }
  destruct (one_less_spec a (ws_pendingRegistrations s)) as [Hregs Hpos]; [|done|].
  { pose proof (count_rows_nonneg (pending_for a) (ws_conns s0)) as H. rewrite Hcount, bool_decide_true in H by done.
    simpl in H. unfold registrations_of in H. lia. }
  split; [|done|..].
  - apply (registry_frame s0); [done..|]. by apply registry_on_conn.
  - apply (slots_frame s0); [done..|]. by apply slots_pending.
  - split; simpl; [|done|].
    + intros b. etrans; [apply Hregs|]. symmetry. apply Hcount.
    + intros b l Hl. unfold registrations_of in *. simpl. rewrite Hregs. destruct (Hw _ _ Hl) as [Hl0 Hb].
      destruct (W3 _ _ Hl0) as [? ?]. split; [done|]. destruct (bool_decide (a = b)) eqn:E; simpl; [|lia].
      apply bool_decide_eq_true in E as <-. specialize (Hb eq_refl). lia.
Qed.

Lemma completeRegistration_ok c ready s : ws_ok s → ws_ok (completeRegistration c ready s).
Proof.
  intros Hok. unfold completeRegistration. destruct (ws_conns s !! c) as [cn|] eqn:Hcn; [|done].
  destruct (cn_registrationPending cn) eqn:Hp; [|done]. unfold finishAgentSocketRegistrationPending. cbv zeta.
  change (registrations_of (on_conn (with_pending false) c s)) with (registrations_of s).
  change (if registrations_of s (cn_agentId cn) <=? 1 then _ else _)
    with (one_less (cn_agentId cn) (ws_pendingRegistrations s)). cbn [ws_waiters with_registrations on_conn with_conns].
  destruct (negb ready && _) eqn:E.
  - apply (pending_over c cn (ws_waiters s) (ws_resolved s)); [done..|]. intros b l Hl. split; [done|].
    intros ->. lia.
  - assert (∀ b l, delete (cn_agentId cn) (ws_waiters s) !! b = Some l →
      ws_waiters s !! b = Some l ∧ (b = cn_agentId cn → 1 < registrations_of s b)) as Hdel.
    { intros b l [Hne Hl]%lookup_delete_Some. by split. }
    destruct (ws_waiters s !! cn_agentId cn) as [ws|] eqn:Ew; [by apply pending_over|].
    apply (pending_over c cn (ws_waiters s) (ws_resolved s)); [done..|]. intros b l Hl. apply Hdel.
    apply lookup_delete_Some. split; [|done]. intros <-. congruence.
Qed.

(** ** Leaving and joining a set *)

Lemma uncount_frame c s :
  ws_sets (uncountAgentSocket c s) = ws_sets s ∧ ws_agentSockets (uncountAgentSocket c s) = ws_agentSockets s ∧
  ws_pendingReservations (uncountAgentSocket c s) = ws_pendingReservations s ∧
  ws_pendingRegistrations (uncountAgentSocket c s) = ws_pendingRegistrations s ∧
  ws_waiters (uncountAgentSocket c s) = ws_waiters s.
Proof. unfold uncountAgentSocket. destruct (ws_conns s !! c) as [cn|]; [|done]. by destruct (cn_socketCounted cn). Qed.

Lemma uncount_conns c s :
  ws_totalAgentSockets s = count_rows cn_socketCounted (ws_conns s) →
  ws_totalAgentSockets (uncountAgentSocket c s) ≤ ws_totalAgentSockets s ∧
  ∃ f, shrinks f ∧ ws_conns (uncountAgentSocket c s) = alter f c (ws_conns s).
Proof.
  intros Ht. pose proof (count_rows_nonneg cn_socketCounted (ws_conns s)).
  assert (∃ f, shrinks f ∧ ws_conns s = alter f c (ws_conns s)) as Hid.
  { exists (λ x, x). split; [done|]. apply map_eq. intros i. destruct (decide (i = c)) as [->|]; simplify_map_eq; [|done].
    by destruct (ws_conns s !! c). }
  unfold uncountAgentSocket. destruct (ws_conns s !! c) as [cn|]; [|done].
  destruct (cn_socketCounted cn); [|done]. simpl. split; [lia|]. exists (with_counted false). split; [|done].
  apply uncounted_shrinks.
Qed.

Lemma uncount_slots c s : registry_ok s → slots_ok s → slots_ok (uncountAgentSocket c s).
Proof.
  intros Hr Hs. destruct (uncount_conns c s (rg_total _ Hr)) as (Ht & f & Hf & Hc).
  eapply (slots_shrink f c s); [done..| |done]. by destruct (uncount_frame c s) as (_ & _ & ? & _).
Qed.

Lemma uncount_waiters c s :
  ws_totalAgentSockets s = count_rows cn_socketCounted (ws_conns s) → waiters_ok s → waiters_ok (uncountAgentSocket c s).
Proof.
  intros Hr Hw. destruct (uncount_conns c s Hr) as (_ & f & Hf & Hc).
  destruct (uncount_frame c s) as (_ & _ & _ & E1 & E2).
  by eapply (waiters_on_conn f c s); [apply shrinks_pending|..].
Qed.

Lemma length_without c l : (length (without c l) ≤ length l)%nat.
Proof. apply length_filter. Qed.

(** A socket leaves its set, the count and, as the last one, the map. *)
Definition drop_member (c agentId : string) (sid : nat) (l : list string) (s : ws_state) : ws_state :=
  let s1 := uncountAgentSocket c (with_sets (<[sid := without c l]> (ws_sets s)) (ws_agentSockets s) s) in
  if bool_decide (without c l = []) then with_sets (ws_sets s1) (delete agentId (ws_agentSockets s1)) s1 else s1.

Lemma drop_member_ok c cn s sid l :
  ws_ok s → ws_conns s !! c = Some cn → cn_socketCounted cn = true →
  ws_agentSockets s !! cn_agentId cn = Some sid → ws_sets s !! sid = Some l →
  ws_ok (drop_member c (cn_agentId cn) sid l s).
Proof.
  intros [H1 [Z1 Z2] H3 H4] Hcn Hct Ha Hl. unfold drop_member.
  pose proof (registry_drop c cn s sid l H1 Hcn Hct Ha Hl) as Hreg.
  set (s0 := with_sets (<[sid := without c l]> (ws_sets s)) (ws_agentSockets s) s) in *.
  destruct (uncount_frame c s0) as (F1 & F2 & F3 & F4 & F5).
  assert (slots_ok (uncountAgentSocket c s0)) as Hsl.
  { destruct (uncount_conns c s0) as (Ht & f & Hf & Hc); [apply H1|]. by eapply (slots_shrink f c s). }
  assert (waiters_ok (uncountAgentSocket c s0)) as Hwt.
  { apply uncount_waiters; [apply H1|]. by apply (waiters_frame s). }
  assert (∀ sid' l', ws_sets (uncountAgentSocket c s0) !! sid' = Some l' → Z.of_nat (length l') ≤ MAX_AGENT_SOCKETS) as Hmax.
  { rewrite F1. simpl. intros sid' l' [[<- <-]|[_ Hl']]%lookup_insert_Some; [|by eapply Z1].
    pose proof (Z1 _ _ Hl). pose proof (length_without c l). lia. }
  destruct (bool_decide (without c l = [])) eqn:E.
  - apply bool_decide_eq_true in E. split; [|split|by apply (slots_frame (uncountAgentSocket c s0))|
      by apply (waiters_frame (uncountAgentSocket c s0))].
    + apply (registry_unmap _ _ sid); [done|by rewrite F2|]. rewrite F1. simpl. by rewrite lookup_insert_eq, E.
    + exact Hmax.
    + intros a sid'. simpl. rewrite F1, F2. simpl. intros [Hne Ha']%lookup_delete_Some.
      rewrite lookup_insert_ne; [by eapply Z2|]. intros <-. apply Hne. by eapply (rg_inj _ H1).
  - apply bool_decide_eq_false in E. split; [done|split|done|done]; [exact Hmax|].
    intros a sid'. rewrite F1, F2. simpl. intros Ha'. destruct (decide (sid' = sid)) as [->|Hne].
    + rewrite lookup_insert_eq. congruence.
    + rewrite lookup_insert_ne by done. by eapply Z2.
Qed.

(** Who is in a set that is registered, and who is not. *)
Lemma set_member s a sid l c :
  registry_ok s → ws_agentSockets s !! a = Some sid → ws_sets s !! sid = Some l → c ∈ l →
  ∃ cn, ws_conns s !! c = Some cn ∧ cn_socketCounted cn = true ∧ cn_agentId cn = a ∧ cn_set cn = Some sid.
Proof.
  intros Hr Ha Hl Hin. destruct (rg_set _ Hr _ _ Ha) as (l' & Hl' & _ & Hm).
  assert (l' = l) as -> by congruence. by apply Hm.
Qed.

Lemma uncounted_absent s c cn sid l :
  registry_ok s → ws_conns s !! c = Some cn → cn_socketCounted cn = false → ws_sets s !! sid = Some l → c ∉ l.
Proof.
  intros Hr Hcn Hct Hl Hin. destruct (rg_heap _ Hr _ _ Hl) as [a Ha]; [by intros ->; apply not_elem_of_nil in Hin|].
  destruct (set_member _ _ _ _ _ Hr Ha Hl Hin) as (cn' & ? & ? & _). congruence.
Qed.

Lemma without_absent c l : c ∉ l → without c l = l.
Proof.
  intros Hni. induction l as [|x l IH]; [done|]. apply not_elem_of_cons in Hni as [Hx Hl]. unfold without.
  rewrite filter_cons_True by congruence. f_equal. by apply IH.
Qed.

Lemma tracked_close_ok c cn s : ws_ok s → ws_conns s !! c = Some cn → ws_ok (tracked_close c cn s).
Proof.
  intros Hok Hcn. pose proof (ok_registry _ Hok) as Hr. unfold tracked_close.
  destruct (cn_set cn) as [sid|] eqn:Hset; [|done]. destruct (rg_captured _ Hr _ _ _ Hcn Hset) as [l Hl].
  rewrite Hl. change (coalesce (Some l) []) with l. cbv zeta. destruct (cn_socketCounted cn) eqn:Hct.
  - destruct (rg_counted _ Hr _ _ Hcn Hct) as (sid' & l' & Ha & Hl' & Hin).
    destruct (set_member _ _ _ _ _ Hr Ha Hl' Hin) as (cn' & Hcn' & _ & _ & Hset').
    assert (sid' = sid) as -> by congruence. pose proof (drop_member_ok c cn s sid l Hok Hcn Hct Ha Hl) as Hd.
    unfold drop_member in Hd. cbv zeta in Hd. destruct (uncount_frame c (with_sets (<[sid := without c l]> (ws_sets s)) (ws_agentSockets s) s))
      as (_ & F2 & _). rewrite F2. cbn [ws_agentSockets with_sets]. rewrite Ha, (bool_decide_true (Some sid = Some sid)) by done.
    rewrite andb_true_r. rewrite F2 in Hd. exact Hd.
  - rewrite without_absent by (by eapply uncounted_absent).
    assert (with_sets (<[sid := l]> (ws_sets s)) (ws_agentSockets s) s = s) as ->.
    { rewrite insert_id by done. by destruct s. }
    assert (uncountAgentSocket c s = s) as -> by (unfold uncountAgentSocket; by rewrite Hcn, Hct).
    destruct (bool_decide (l = [])) eqn:E; [|done]. apply bool_decide_eq_true in E as ->. simpl.
    rewrite bool_decide_false; [done|]. intros Ha. by apply (sz_some _ (ok_sizes _ Hok) _ _ Ha).
Qed.

(** The state with one set as the eviction loop sees it. *)
Definition overlay (sid : nat) (l : list string) (s : ws_state) : ws_state :=
  with_sets (<[sid := l]> (ws_sets s)) (ws_agentSockets s) s.

(** One round of the loop, and what it leaves alone. *)
Definition evict_one (c : string) (s : ws_state) : ws_state := close_socket c (uncountAgentSocket c s).

Lemma evict_one_overlay c sid l s : evict_one c (overlay sid l s) = overlay sid l (evict_one c s).
Proof.
  unfold evict_one, uncountAgentSocket, overlay. simpl. destruct (ws_conns s !! c) as [cn|]; [|done].
  by destruct (cn_socketCounted cn).
Qed.

Lemma evict_one_other c s k : k ≠ c → ws_conns (evict_one c s) !! k = ws_conns s !! k.
Proof.
  intros Hne. unfold evict_one, uncountAgentSocket. simpl. rewrite lookup_alter_ne by done.
  destruct (ws_conns s !! c) as [cn|]; [|done]. destruct (cn_socketCounted cn); [|done]. simpl.
  by rewrite lookup_alter_ne.
Qed.

Lemma evict_one_ok a sid c rest s :
  ws_agentSockets s !! a = Some sid → registry_ok (overlay sid (c :: rest) s) → slots_ok s → waiters_ok s →
  registry_ok (overlay sid rest (evict_one c s)) ∧ slots_ok (evict_one c s) ∧ waiters_ok (evict_one c s) ∧
  ws_agentSockets (evict_one c s) = ws_agentSockets s ∧ ws_sets (evict_one c s) = ws_sets s.
Proof.
  intros Ha Hr Hsl Hwt. destruct (uncount_frame c s) as (F1 & F2 & F3 & F4 & F5).
  assert (ws_sets (overlay sid (c :: rest) s) !! sid = Some (c :: rest)) as Hset by apply lookup_insert_eq.
  destruct (set_member _ a sid _ c Hr Ha Hset) as (cn & Hcn & Hct & Hag & _); [set_solver|].
  assert (without c (c :: rest) = rest) as Hw.
  { destruct (rg_set _ Hr _ _ Ha) as (l & Hl & Hnd & _). assert (l = c :: rest) as -> by congruence.
    apply NoDup_cons in Hnd as [Hni _]. unfold without. rewrite filter_cons_False by naive_solver.
    by apply without_absent. }
  split_and!.
  - rewrite <- evict_one_overlay. apply registry_on_conn; [done|]. subst a.
    pose proof (registry_drop c cn _ sid _ Hr Hcn Hct Ha Hset) as Hd. rewrite Hw in Hd.
    unfold overlay in *. simpl in Hd. rewrite insert_insert_eq in Hd. exact Hd.
  - destruct (uncount_conns c s (rg_total _ Hr)) as (Ht & f & Hf & Hc).
    eapply (slots_shrink not_open c (uncountAgentSocket c s)); [apply not_open_shrinks|done..|].
    by eapply (slots_shrink f c s).
  - eapply (waiters_on_conn not_open c (uncountAgentSocket c s)); [done..|].
    apply uncount_waiters; [|done]. exact (rg_total _ Hr).
  - done.
  - done.
Qed.

Lemma evict_ok a sid l s l' s' :
  ws_agentSockets s !! a = Some sid → registry_ok (overlay sid l s) → slots_ok s → waiters_ok s →
  evict l s = (l', s') →
  registry_ok (overlay sid l' s') ∧ slots_ok s' ∧ waiters_ok s' ∧ ws_agentSockets s' = ws_agentSockets s ∧
  ws_sets s' = ws_sets s ∧ Z.of_nat (length l') < MAX_AGENT_SOCKETS ∧
  (∀ k, k ∉ l → (k ∉ l') ∧ ws_conns s' !! k = ws_conns s !! k).
Proof.
  revert s. induction l as [|c rest IH]; intros s Ha Hr Hsl Hwt Hev.
  { injection Hev as <- <-. split_and!; done. }
  cbn [evict] in Hev. destruct (MAX_AGENT_SOCKETS <=? _) eqn:E.
  - destruct (evict_one_ok a sid c rest s Ha Hr Hsl Hwt) as (R1 & R2 & R3 & R4 & R5).
    apply (IH (evict_one c s)) in Hev as (K1 & K2 & K3 & K4 & K5 & K6 & K7); [|by rewrite R4|done..].
    split_and!; [done|done|done|congruence|congruence|done|]. intros k [Hk1 Hk2]%not_elem_of_cons.
    destruct (K7 k Hk2) as [? ->]. split; [done|]. by apply evict_one_other.
  - injection Hev as <- <-. split_and!; try done. lia.
Qed.

(** A socket joins the set of its agent and the count. *)
Definition join (c : string) (sid : nat) (l : list string) (s : ws_state) : ws_state :=
  let s1 := overlay sid (l ++ [c]) s in
  with_total (ws_totalAgentSockets s1 + 1) (on_conn (λ cn, with_set sid (with_counted true cn)) c s1).

Lemma registry_join c cn sid l s :
  registry_ok (overlay sid l s) → ws_agentSockets s !! cn_agentId cn = Some sid → ws_conns s !! c = Some cn →
  cn_socketCounted cn = false → registry_ok (join c sid l s).
Proof.
  intros Hr Ha Hcn Hct. assert (ws_sets (overlay sid l s) !! sid = Some l) as Hset by apply lookup_insert_eq.
  pose proof (uncounted_absent _ c cn sid l Hr Hcn Hct Hset) as Hni. destruct Hr as [H1 H2 H3 H4 H5 H6].
  assert (ws_conns (join c sid l s) = <[c := with_set sid (with_counted true cn)]> (ws_conns s)) as Halt.
  { apply map_eq. intros i. simpl. destruct (decide (i = c)) as [->|]; by simplify_map_eq. }
  simpl in H1, H2, H3, H4, H5, H6, Hset. split; rewrite ?Halt; simpl.
  - rewrite (count_rows_change _ _ _ _ _ Hcn), Hct, <- H1. simpl. lia.
  - intros a' sid' Ha'. destruct (H2 _ _ Ha') as (l' & Hl' & Hnd & Hm). destruct (decide (sid' = sid)) as [->|Hne].
    + assert (a' = cn_agentId cn) as -> by (by eapply H5). assert (l' = l) as -> by congruence.
      exists (l ++ [c]). rewrite lookup_insert_eq. split_and!; [done| |].
      * apply NoDup_app. split_and!; [done| |by apply NoDup_singleton]. set_solver.
      * intros k [Hk|Hk]%elem_of_app.
        -- destruct (Hm _ Hk) as (cn' & Hcn' & ?). exists cn'. rewrite lookup_insert_ne; [done|]. intros <-. done.
        -- apply list_elem_of_singleton in Hk as ->. rewrite lookup_insert_eq. by eexists.
    + rewrite lookup_insert_ne in Hl' by done. exists l'. rewrite lookup_insert_ne by done. split_and!; [done..|].
      intros k Hk. destruct (Hm _ Hk) as (cn' & Hcn' & E & ?). exists cn'. rewrite lookup_insert_ne; [done|].
      intros <-. congruence.
  - intros k cn' Hk Hc'. apply lookup_insert_Some in Hk as [[<- <-]|[Hne Hk]].
    + exists sid, (l ++ [c]). rewrite lookup_insert_eq. split_and!; [done..|set_solver].
    + destruct (H3 _ _ Hk Hc') as (sid' & l' & E1 & E2 & E3). exists sid'. destruct (decide (sid' = sid)) as [->|Hs].
      * exists (l ++ [c]). rewrite lookup_insert_eq in *. simplify_eq. split_and!; [done..|set_solver].
      * exists l'. by rewrite lookup_insert_ne in * by done.
  - intros sid' l' Hl' Hn. apply lookup_insert_Some in Hl' as [[<- <-]|[Hs Hl']]; [by eexists|].
    apply (H4 sid' l'); [|done]. by rewrite lookup_insert_ne.
  - exact H5.
  - intros k cn' sid' Hk Hs. destruct (decide (sid' = sid)) as [->|Hne]; [rewrite lookup_insert_eq; by eexists|].
    rewrite lookup_insert_ne by done. apply lookup_insert_Some in Hk as [[<- <-]|[_ Hk]]; simpl in *; [congruence|].
    pose proof (H6 _ _ _ Hk Hs) as Hi. by rewrite lookup_insert_ne in Hi.
Qed.

(** The registering turn: the set is there or a new one, the oldest sockets
    leave, and the socket's reservation becomes its place in the count. *)
Lemma join_ok c cn sid l l' s s' :
  ws_agentSockets s !! cn_agentId cn = Some sid → registry_ok (overlay sid l s) →
  (∀ sid' l', ws_sets s !! sid' = Some l' → Z.of_nat (length l') ≤ MAX_AGENT_SOCKETS) →
  (∀ a sid', ws_agentSockets s !! a = Some sid' → a ≠ cn_agentId cn → ws_sets s !! sid' ≠ Some []) →
  slots_ok s → waiters_ok s → ws_conns s !! c = Some cn → cn_stage cn = verifying → cn_open cn = true →
  evict l s = (l', s') → ws_ok (on_conn (with_stage registered) c (join c sid l' s')).
Proof.
  intros Ha Hr Hmax Hsome Hsl Hwt Hcn Hst Hop Hev.
  destruct (sl_fresh _ Hsl _ _ Hcn Hst) as [Hct Hset]. pose proof (sl_open _ Hsl _ _ Hcn Hst Hop) as Hres.
  assert (c ∉ l) as Hni.
  { eapply (uncounted_absent (overlay sid l s)); [done|done|done|]. apply lookup_insert_eq. }
  destruct (evict_ok _ sid l s l' s' Ha Hr Hsl Hwt Hev) as (R1 & R2 & R3 & R4 & R5 & R6 & R7).
  destruct (R7 c Hni) as [Hni' Hc']. rewrite Hcn in Hc'.
  assert (registry_ok (join c sid l' s')) as Hj by (apply (registry_join c cn); [done|by rewrite R4|done..]).
  set (cn2 := with_stage registered (with_set sid (with_counted true cn))).
  assert (ws_conns (on_conn (with_stage registered) c (join c sid l' s')) = <[c := cn2]> (ws_conns s')) as Halt.
  { apply map_eq. intros i. simpl. destruct (decide (i = c)) as [->|]; by simplify_map_eq. }
  split.
  - by apply registry_on_conn.
  - split; simpl.
    + intros sid' x [[<- <-]|[_ Hx]]%lookup_insert_Some; [rewrite length_app; simpl; lia|]. rewrite R5 in Hx. by eapply Hmax.
    + intros a sid' Ha'. rewrite R4 in Ha'. destruct (decide (sid' = sid)) as [->|Hne].
      * rewrite lookup_insert_eq. by destruct l'.
      * rewrite lookup_insert_ne, R5 by done. eapply Hsome; [done|]. intros ->. congruence.
  - destruct R2 as [S1 S2 S3 S4 S5].
    pose proof (count_rows_change cn_reservationActive _ _ _ cn2 Hc') as C1.
    pose proof (count_rows_change waiting _ _ _ cn2 Hc') as C2. unfold waiting in C2 at 3 4. simpl in C1, C2.
    rewrite Hres, Hst in C2. simpl in C2.
    split; rewrite ?Halt; simpl; [lia|lia|..]; intros k cn' Hk;
      (apply lookup_insert_Some in Hk as [[<- <-]|[_ Hk]]; [done|by eauto]).
  - destruct R3 as [W1 W2 W3]. split; [|exact W2|exact W3]. intros a'. rewrite Halt, (count_rows_change _ _ _ _ _ Hc').
    change (registrations_of s' a' = count_rows (pending_for a') (ws_conns s') + Z.b2z (pending_for a' cn) - Z.b2z (pending_for a' cn)).
    rewrite W1. lia.
Qed.

Lemma registry_new_set a sid s :
  registry_ok s → ws_agentSockets s !! a = None → ws_sets s !! sid = None →
  registry_ok (with_sets (<[sid := []]> (ws_sets s)) (<[a := sid]> (ws_agentSockets s)) s).
Proof.
  intros [H1 H2 H3 H4 H5 H6] Ha Hs.
  assert (∀ a', ws_agentSockets s !! a' ≠ Some sid) as Hno.
  { intros a' Ha'. destruct (H2 _ _ Ha') as (l & ? & _). congruence. }
  split; simpl; [done|..].
  - intros a' sid' [[<- <-]|[_ Ha']]%lookup_insert_Some.
    + exists []. rewrite lookup_insert_eq. split_and!; [done|constructor|]. by intros c ?%not_elem_of_nil.
    + rewrite lookup_insert_ne by (intros <-; by apply Hno in Ha'). by apply H2.
  - intros c cn Hcn Hct. destruct (H3 _ _ Hcn Hct) as (sid' & l & E1 & E2 & E3). exists sid', l.
    rewrite !lookup_insert_ne; [done|..]; [intros ->; by apply Hno in E1|intros ->; congruence].
  - intros sid' l [[<- <-]|[_ Hl]]%lookup_insert_Some Hn; [done|]. destruct (H4 _ _ Hl Hn) as [a' Ha']. exists a'.
    rewrite lookup_insert_ne; [done|]. intros <-. congruence.
  - intros a1 a2 sid' [[? ?]|[_ E1]]%lookup_insert_Some [[? ?]|[_ E2]]%lookup_insert_Some; subst;
      [done|by apply Hno in E2|by apply Hno in E1|by eapply H5].
  - intros c cn sid' Hcn Hset. destruct (decide (sid' = sid)) as [->|Hne]; [rewrite lookup_insert_eq; by eexists|].
    rewrite lookup_insert_ne by done. by eapply H6.
Qed.

Lemma uncounted_same c cn s :
  ws_conns s !! c = Some cn → cn_socketCounted cn = false → on_conn (with_counted false) c s = s.
Proof.
  intros Hcn Hct. assert (alter (with_counted false) c (ws_conns s) = ws_conns s) as E.
  { apply map_eq. intros i. destruct (decide (i = c)) as [->|]; simplify_map_eq; [|done].
    f_equal. destruct cn. simpl in *. by subst. }
  unfold on_conn. rewrite E. by destruct s.
Qed.

Lemma track_ok c cn s :
  ws_ok s → ws_conns s !! c = Some cn → cn_stage cn = verifying → cn_open cn = true →
  ws_ok (on_conn (with_stage registered) c (trackAgentSocket c (cn_agentId cn) s)).
Proof.
  intros [H1 [Z1 Z2] H3 H4] Hcn Hst Hop. destruct (sl_fresh _ H3 _ _ Hcn Hst) as [Hct _].
  unfold trackAgentSocket. rewrite (uncounted_same c cn s Hcn Hct). cbv zeta.
  destruct (set_of s (cn_agentId cn)) as [[sid l]|] eqn:Hset.
  - unfold set_of in Hset. destruct (ws_agentSockets s !! cn_agentId cn) as [sid0|] eqn:Ha; [|done]. simpl in Hset.
    destruct (ws_sets s !! sid0) as [l0|] eqn:Hl; [|done]. simpl in Hset. simplify_eq.
    destruct (evict l s) as [l' s'] eqn:Hev. eapply (join_ok c cn sid l l' s s'); try done.
    + apply (registry_frame s); try done. simpl. by apply insert_id.
    + intros a sid' Ha' _. by eapply Z2.
  - assert (ws_agentSockets s !! cn_agentId cn = None) as Ha.
    { unfold set_of in Hset. destruct (ws_agentSockets s !! cn_agentId cn) as [sid|] eqn:Ha; [|done].
      destruct (rg_set _ H1 _ _ Ha) as (l & Hl & _). simpl in Hset. by rewrite Hl in Hset. }
    set (sid := stdpp.base.fresh (dom (ws_sets s) : gset nat)).
    assert (ws_sets s !! sid = None) as Hs.
    { apply not_elem_of_dom. apply is_fresh. }
    set (s1 := with_sets (<[sid := []]> (ws_sets s)) (<[cn_agentId cn := sid]> (ws_agentSockets s)) s).
    cbn [evict]. eapply (join_ok c cn sid [] [] s1 s1); try done.
    + simpl. by rewrite lookup_insert_eq.
    + apply (registry_frame s1); try done; [simpl; by rewrite insert_insert_eq|]. by apply registry_new_set.
    + simpl. intros sid' l' [[<- <-]|[_ Hl]]%lookup_insert_Some; [done|by eapply Z1].
    + simpl. intros a sid' Ha' Hne. rewrite lookup_insert_ne in Ha' by done.
      rewrite lookup_insert_ne; [by eapply Z2|]. intros <-. destruct (rg_set _ H1 _ _ Ha') as (l & ? & _). congruence.
    + by apply (slots_frame s).
    + by apply (waiters_frame s).
Qed.

(** ** Every turn keeps the invariant *)

Lemma stage_ok c cn g s :
  ws_ok s → ws_conns s !! c = Some cn → g ≠ verifying → waiting (with_stage g cn) = waiting cn →
  (g = finished → cn_reservationActive cn = false ∧ cn_registrationPending cn = false) →
  ws_ok (on_conn (with_stage g) c s).
Proof.
  intros [H1 [Z1 Z2] [S1 S2 S3 S4 S5] H4] Hcn Hg Hw Hfin. split; [by apply registry_on_conn|by split|..].
  - split; simpl.
    + rewrite S1. symmetry. by apply count_rows_alter.
    + rewrite (count_rows_alter waiting); [done|]. intros x Hx. by simplify_eq.
    + intros k cn' (cn0 & Hk & ->)%(on_conn_inv (with_stage g) c s). destruct (decide (k = c)); [done|by apply (S3 k cn0)].
    + intros k cn' (cn0 & Hk & ->)%(on_conn_inv (with_stage g) c s). destruct (decide (k = c)); [done|by apply (S4 k cn0)].
    + intros k cn' (cn0 & Hk & ->)%(on_conn_inv (with_stage g) c s). destruct (decide (k = c)) as [->|]; [|by apply (S5 k cn0)].
      simplify_eq. apply Hfin.
  - by eapply (waiters_on_conn (with_stage g) c s).
Qed.

(** The connection once its upgrade has let go. *)
Lemma release_conn c cn s :
  ws_conns s !! c = Some cn → ws_conns (releaseReservation c s) !! c = Some (with_reservation false cn).
Proof.
  intros Hcn. unfold releaseReservation. rewrite Hcn. destruct (cn_reservationActive cn) eqn:E; simpl.
  - by rewrite lookup_alter_eq, Hcn.
  - rewrite Hcn. f_equal. destruct cn. simpl in *. by subst.
Qed.

Lemma complete_conn c cn ready s :
  ws_conns s !! c = Some cn → ws_conns (completeRegistration c ready s) !! c = Some (with_pending false cn).
Proof.
  intros Hcn. unfold completeRegistration. rewrite Hcn. destruct (cn_registrationPending cn) eqn:E; simpl.
  - unfold finishAgentSocketRegistrationPending. cbv zeta.
    assert (ws_conns (on_conn (with_pending false) c s) !! c = Some (with_pending false cn)) as H.
    { simpl. by rewrite lookup_alter_eq, Hcn. }
    destruct (_ && _); [done|]. destruct (ws_waiters _ !! _); done.
  - rewrite Hcn. f_equal. destruct cn. simpl in *. by subst.
Qed.

Lemma upgrade_ok c agentId tenantId revision handshake s :
  ws_ok s → ws_conns s !! c = None → ws_ok (upgrade c agentId tenantId revision handshake s).2.
Proof.
  intros [[H1 H2 H3 H4 H5 H6] [Z1 Z2] [S1 S2 S3 S4 S5] [W1 W2 W3]] Hc. unfold upgrade, reserveAgentSocketSlot.
  destruct (canReserveAgentSocketSlot _ _ _) eqn:Hcan; [|done]. cbn [negb snd].
  unfold canReserveAgentSocketSlot in Hcan. set (cn := {| cn_agentId := agentId |}).
  assert (∀ p, count_rows p (<[c := cn]> (ws_conns s)) = count_rows p (ws_conns s) + Z.b2z (p cn)) as Hcount
    by (intros p; by apply count_rows_new).
  assert (count_rows waiting (ws_conns s) ≤ count_rows cn_reservationActive (ws_conns s)) as Hle.
  { pose proof (count_rows_le cn_reservationActive waiting (ws_conns s) (ws_conns s) []) as H.
    simpl in H. rewrite Z.add_0_r in H. apply H. intros k x' Hx Hw _. exists x'. split; [done|].
    unfold waiting in Hw. by destruct (cn_reservationActive x'). }
  assert (waiting cn = true) as Hwait by (unfold waiting; simpl; by destruct handshake).
  pose proof (W1 agentId) as Hreg. pose proof (count_rows_nonneg (pending_for agentId) (ws_conns s)).
  split; split; simpl; try done.
  - rewrite Hcount. simpl. lia.
  - intros a sid Ha. destruct (H2 _ _ Ha) as (l & Hl & Hnd & Hm). exists l. split_and!; [done..|].
    intros k Hk. destruct (Hm _ Hk) as (cn' & Hcn' & ?). exists cn'. rewrite lookup_insert_ne; [done|]. intros <-. congruence.
  - intros k cn' [[<- <-]|[_ Hk]]%lookup_insert_Some; [done|by apply H3].
  - intros k cn' sid [[<- <-]|[_ Hk]]%lookup_insert_Some; [done|by eapply H6].
  - rewrite Hcount. simpl. lia.
  - rewrite Hcount, Hwait. simpl. lia.
  - intros k cn' [[<- <-]|[_ Hk]]%lookup_insert_Some; [done|by eapply S3].
  - intros k cn' [[<- <-]|[_ Hk]]%lookup_insert_Some; [done|by eapply S4].
  - intros k cn' [[<- <-]|[_ Hk]]%lookup_insert_Some; [by destruct handshake|by eapply S5].
  - intros a. rewrite Hcount, <- W1. unfold pending_for, registrations_of, coalesce. simpl.
    destruct (decide (agentId = a)) as [<-|Hne].
    + rewrite lookup_insert_eq, bool_decide_true by done. done.
    + rewrite lookup_insert_ne, bool_decide_false by done. simpl. lia.
  - intros a n [[<- <-]|[_ Ha]]%lookup_insert_Some; [|by eapply W2].
    unfold registrations_of in *. simpl. lia.
  - intros a l Hl. destruct (W3 _ _ Hl) as [? Hp]. split; [done|]. unfold registrations_of, coalesce in *. simpl.
    destruct (decide (agentId = a)) as [<-|Hne]; [|by rewrite lookup_insert_ne].
    rewrite lookup_insert_eq. unfold registrations_of, coalesce. simpl. lia.
Qed.

Lemma verify_ok d c cn s :
  ws_ok s → ws_conns s !! c = Some cn → cn_stage cn = verifying → ws_ok (verifyAndTrackAgentSocket d c s).
Proof.
  intros Hok Hcn Hst. unfold verifyAndTrackAgentSocket. rewrite Hcn. cbv zeta.
  assert (ws_ok (on_conn (with_stage rejecting) c s)) as Hrej.
  { apply (stage_ok c cn); [done|done|done| |done]. unfold waiting. simpl. by rewrite Hst. }
  destruct (negb (bool_decide _)); [done|]. destruct (negb (shouldAcceptAgentSocketForLifecycleState _ _ _)); [done|].
  destruct (cn_open cn) eqn:Hop; [|done]. by apply track_ok.
Qed.

Lemma finish_ok c cn committed s :
  ws_ok s → ws_conns s !! c = Some cn → cn_stage cn ≠ finished → ws_ok (finish_upgrade c committed s).
Proof.
  intros Hok Hcn Hnf. unfold finish_upgrade. rewrite Hcn. cbv zeta. set (accepted := committed && _).
  assert (∃ s0 cn0, (if bool_decide (cn_stage cn = registered) then s else on_conn (with_stage rejecting) c s) = s0 ∧
    ws_ok s0 ∧ ws_conns s0 !! c = Some cn0 ∧ cn_stage cn0 ≠ verifying) as (s0 & cn0 & -> & Hok0 & Hcn0 & Hnv).
  { destruct (bool_decide _) eqn:E; [apply bool_decide_eq_true in E|apply bool_decide_eq_false in E].
    - eexists _, cn. split_and!; [done..|]. congruence.
    - eexists _, (with_stage rejecting cn). split_and!; [done| |simpl; by rewrite lookup_alter_eq, Hcn|done].
      apply (stage_ok c cn); [done|done|done| |done]. unfold waiting. simpl. by rewrite (bool_decide_false (cn_stage cn = _)). }
  pose proof (release_conn c cn0 s0 Hcn0) as Hc1. pose proof (complete_conn c _ accepted _ Hc1) as Hc2.
  assert (ws_ok (on_conn (with_stage finished) c (completeRegistration c accepted (releaseReservation c s0)))) as Hs1.
  { eapply stage_ok; [|exact Hc2|done..]. apply completeRegistration_ok, releaseReservation_ok; [|done].
    intros cn' Hcn'. congruence. }
  destruct accepted; [done|]. by apply close_socket_ok.
Qed.

(** A closed socket lets its upgrade go. *)
Lemma let_go_ok c s :
  ws_ok s → ws_ok (completeRegistration c false (releaseReservation c (close_socket c s))).
Proof.
  intros Hok. apply completeRegistration_ok, releaseReservation_ok; [|by apply close_socket_ok].
  intros cn' (cn & _ & ->)%on_conn_inv. by rewrite decide_True.
Qed.

Lemma ws_close_ok c s : ws_ok s → ws_ok (ws_close c s).
Proof.
  intros Hok. unfold ws_close. destruct (ws_conns s !! c) as [cn|] eqn:Hcn; [|done].
  pose proof (on_conn_lookup not_open c s c cn Hcn) as H0. rewrite decide_True in H0 by done.
  pose proof (complete_conn c _ false _ (release_conn c _ _ H0)) as H1.
  apply (tracked_close_ok c _ _ (let_go_ok c s Hok) H1).
Qed.

Lemma send_ok agentId buffered throws s : ws_ok s → ws_ok (sendJobToAgent agentId buffered throws s).1.2.
Proof.
  intros Hok. unfold sendJobToAgent. destruct (set_of s agentId) as [[sid l]|] eqn:Hset; [|done].
  assert (∀ t, t ∈ reverse (filter (λ c, is_open s c = true) l) → t ∈ l) as Hin.
  { intros t Ht. rewrite reverse_Permutation in Ht. by apply list_elem_of_filter in Ht as [_ ?]. }
  revert Hin. generalize (reverse (filter (λ c, is_open s c = true) l)) as ts.
  induction ts as [|t ts IH]; intros Hin; [done|]. cbn [send_loop].
  destruct (_ <? _); [apply IH; set_solver|]. destruct (negb (throws t)); [done|]. rewrite Hset. cbv zeta. cbn [fst snd].
  unfold set_of in Hset. destruct (ws_agentSockets s !! agentId) as [sid0|] eqn:Ha; [|done]. simpl in Hset.
  destruct (ws_sets s !! sid0) as [l0|] eqn:Hl; [|done]. simpl in Hset. simplify_eq.
  destruct (set_member s agentId sid l t (ok_registry _ Hok) Ha Hl) as (cn & Hcn & Hct & Hag & _); [set_solver|].
  subst agentId. pose proof (close_socket_ok t _ (drop_member_ok t cn s sid l Hok Hcn Hct Ha Hl)) as Hd.
  unfold drop_member in Hd. cbv zeta in Hd. by destruct (bool_decide (without t l = [])).
Qed.

Lemma with_waiters_ok w r s :
  ws_ok s → (∀ a l, w !! a = Some l → l ≠ [] ∧ 0 < registrations_of s a) → ws_ok (with_waiters w r s).
Proof.
  intros [H1 [Z1 Z2] H3 [W1 W2 W3]] Hw.
  split; [by apply (registry_frame s)|by split|by apply (slots_frame s)|by split].
Qed.

Lemma wait_ok agentId w s : ws_ok s → ws_ok (waitForAgentSocketReady agentId w s).
Proof.
  intros Hok. pose proof (ok_waiters _ Hok) as [W1 W2 W3]. unfold waitForAgentSocketReady.
  destruct (hasOpenAgentSocket s agentId); [by apply with_waiters_ok|].
  destruct (registrations_of s agentId =? 0) eqn:E; [by apply with_waiters_ok|].
  apply with_waiters_ok; [done|]. intros a l [[<- <-]|[_ Hl]]%lookup_insert_Some; [|by apply W3].
  split; [by destruct (coalesce _ _)|]. pose proof (count_rows_nonneg (pending_for agentId) (ws_conns s)) as Hn.
  rewrite <- W1 in Hn. lia.
Qed.

Lemma timeout_ok agentId w s : ws_ok s → ws_ok (waiter_timeout agentId w s).
Proof.
  intros Hok. pose proof (ok_waiters _ Hok) as [W1 W2 W3]. unfold waiter_timeout.
  destruct (ws_waiters s !! agentId) as [l|] eqn:Hl; [|done]. destruct (bool_decide (w ∈ l)); [|done]. cbv zeta.
  apply with_waiters_ok; [done|]. intros a l' Hl'. destruct (bool_decide (without w l = [])) eqn:E.
  - apply lookup_delete_Some in Hl' as [_ Hl']. by apply W3.
  - apply lookup_insert_Some in Hl' as [[<- <-]|[_ Hl']]; [|by apply W3].
    split; [by apply bool_decide_eq_false in E|]. by apply (W3 _ _ Hl).
Qed.

Lemma ws_step_ok d s s' : ws_step d s s' → ws_ok s → ws_ok s'.
Proof.
  destruct 1; intros Hok.
  - by apply upgrade_ok.
  - by eapply verify_ok.
  - by eapply finish_ok.
  - by apply let_go_ok.
  - by apply ws_close_ok.
  - by apply close_socket_ok.
  - by apply send_ok.
  - by apply wait_ok.
  - by apply timeout_ok.
  - unfold closeAgentSockets. destruct (set_of s agentId) as [[? ?]|]; [|done]. by apply close_where_ok.
  - by apply close_where_ok.
Qed.

Lemma ws_start_ok : ws_ok ws_start.
Proof.
  split; split; simpl; try done; intros; rewrite ?lookup_empty in *; try done; naive_solver.
Qed.

(** A turn with the database as it then is. *)
Definition ws_turn (s s' : ws_state) : Prop := ∃ d, ws_step d s s'.

Lemma ws_reach_ok s0 s : rtc ws_turn s0 s → ws_ok s0 → ws_ok s.
Proof. induction 1 as [|s1 s2 s3 [d H] _ IH]; [done|]. intros H0. by apply IH, (ws_step_ok d s1). Qed.

Lemma finished_counts s (p : connection → bool) :
  (∀ c cn, ws_conns s !! c = Some cn → p cn = false) → count_rows p (ws_conns s) = 0.
Proof.
  intros H. pose proof (count_rows_nonneg p (ws_conns s)). pose proof (count_rows_le (λ _, false) p (ws_conns s) (ws_conns s) []) as Hle.
  assert (count_rows (λ _ : connection, false) (ws_conns s) = 0) as E.
  { unfold count_rows. replace (filter _ (ws_conns s)) with (∅ : gmap string connection); [done|]. symmetry. apply map_empty.
    intros i. apply map_lookup_filter_None. by right. }
  rewrite E in Hle. simpl in Hle. enough (count_rows p (ws_conns s) ≤ 0) by lia. apply Hle.
  intros k x Hx Hp. by rewrite (H k x Hx) in Hp.
Qed.

(** C33. However upgrades, lifecycle checks, disconnects, evictions, failed
    sends and closes interleave: the socket counter is the number of registered
    sockets and stays within the capacity, no agent has more than eight, every
    registered socket is in the set of its own agent and every member of a
    registered set is one that was counted; the reservation and registration
    counters are the numbers of upgrades that hold them, a finished upgrade
    holds neither, so they return to zero; and nobody waits for a registration
    of an agent that has none pending. *)
Theorem socket_accounting s (Hreach : rtc ws_turn ws_start s) :
  ws_totalAgentSockets s = count_rows cn_socketCounted (ws_conns s) ∧
  0 ≤ ws_totalAgentSockets s ≤ MAX_TOTAL_AGENT_SOCKETS ∧
  (∀ a, getAgentWsCount s a ≤ MAX_AGENT_SOCKETS) ∧
  (∀ a c cn, ws_conns s !! c = Some cn →
     (∃ sid l, set_of s a = Some (sid, l) ∧ c ∈ l) ↔ cn_socketCounted cn = true ∧ cn_agentId cn = a) ∧
  ws_pendingReservations s = count_rows cn_reservationActive (ws_conns s) ∧
  (∀ a, registrations_of s a = count_rows (pending_for a) (ws_conns s)) ∧
  ((∀ c cn, ws_conns s !! c = Some cn → cn_stage cn = finished) →
     ws_pendingReservations s = 0 ∧ ws_pendingRegistrations s = ∅ ∧ ws_waiters s = ∅) ∧
  (∀ a l, ws_waiters s !! a = Some l → l ≠ [] ∧ 0 < registrations_of s a).
Proof.
  apply ws_reach_ok in Hreach; [|apply ws_start_ok].
  destruct Hreach as [Hr [Z1 Z2] [S1 S2 S3 S4 S5] [W1 W2 W3]].
  pose proof (count_rows_nonneg waiting (ws_conns s)). pose proof (count_rows_nonneg cn_socketCounted (ws_conns s)).
  pose proof (rg_total _ Hr). split_and!; try done; try lia.
  - intros a. unfold getAgentWsCount, set_of. destruct (ws_agentSockets s !! a) as [sid|]; [|done]. simpl.
    destruct (ws_sets s !! sid) as [l|] eqn:Hl; [|done]. simpl. by eapply Z1.
  - intros a c cn Hcn. unfold set_of. split.
    + intros (sid & l & Hs & Hin). destruct (ws_agentSockets s !! a) as [sid0|] eqn:Ha; [|done]. simpl in Hs.
      destruct (ws_sets s !! sid0) as [l0|] eqn:Hl; [|done]. simpl in Hs. simplify_eq.
      destruct (set_member _ _ _ _ _ Hr Ha Hl Hin) as (cn' & ? & ? & ? & _). by simplify_eq.
    + intros [Hct <-]. destruct (rg_counted _ Hr _ _ Hcn Hct) as (sid & l & Ha & Hl & Hin). exists sid, l.
      rewrite Ha. simpl. by rewrite Hl.
  - intros Hall. assert (∀ a, registrations_of s a = 0) as Hz.
    { intros a. rewrite W1. apply finished_counts. intros c cn Hcn. unfold pending_for.
      by destruct (S5 _ _ Hcn (Hall _ _ Hcn)) as [_ ->]. }
    split_and!.
    + rewrite S1. apply finished_counts. intros c cn Hcn. by apply (S5 _ _ Hcn (Hall _ _ Hcn)).
    + apply map_empty. intros a. destruct (ws_pendingRegistrations s !! a) as [n|] eqn:E; [|done].
      pose proof (W2 _ _ E). pose proof (Hz a) as Hza. unfold registrations_of in Hza. rewrite E in Hza. simpl in Hza. lia.
    + apply map_empty. intros a. destruct (ws_waiters s !! a) as [l|] eqn:E; [|done].
      destruct (W3 _ _ E) as [_ Hp]. rewrite Hz in Hp. lia.
Qed.

(** ** One agent connects *)

Definition connected : ws_state :=
  finish_upgrade "c1" true (verifyAndTrackAgentSocket lifecycle_db "c1" (upgrade "c1" "a1" "t1" 0 true ws_start).2).

Lemma connected_reached : rtc ws_turn ws_start connected.
Proof.
  eapply rtc_l; [exists lifecycle_db; apply (wst_upgrade _ "c1" "a1" "t1" 0 true); done|].
  eapply rtc_l; [exists lifecycle_db; eapply (wst_verify _ "c1"); vm_compute; reflexivity|].
  apply rtc_once. exists lifecycle_db. eapply (wst_finish _ "c1" _ true); [vm_compute; reflexivity|discriminate..].
Qed.

Lemma socket_accounting_witness :
  ws_totalAgentSockets connected = 1 ∧ getAgentWsCount connected "a1" ≤ MAX_AGENT_SOCKETS ∧
  ws_pendingReservations connected = 0.
Proof.
  destruct (socket_accounting connected connected_reached) as (_ & _ & H & _ & _ & _ & Hdone & _).
  split; [vm_compute; reflexivity|]. split; [apply H|].
  refine (proj1 (Hdone _)). intros c cn Hcn.
  assert (ws_conns connected = {["c1" := {| cn_agentId := "a1"; cn_tenantId := "t1"; cn_lifecycleRevision := 0;
    cn_reservationActive := false; cn_registrationPending := false; cn_stage := finished; cn_open := true;
    cn_socketCounted := true; cn_set := Some 0%nat |}]}) as E by (vm_compute; reflexivity).
  rewrite E in Hcn. by apply lookup_singleton_Some in Hcn as [_ <-].
Defined.
