(* ===== verification/SocketFence.v ===== *)
(** * SocketFence: lifecycle changes end the sessions they invalidate

    The registry of [Sockets] together with the agent rows and the channel
    [print_gateway_agent_sessions]: [transitionAgentLifecycle] and [deleteAgent]
    queue a notice with their commit, and [handleNotification] of
    [src/server/ws.ts] first reads the durable revision and then, in a later
    turn, closes the sessions. Anybody may send on the channel. *)

From S2P Require Import Prelude DatabaseTime JobStatus Json Schema Authority Availability Payload.
From S2P Require Import PrinterVirtual Capability Entitlements Samples JobProtocol JobDelivery.
From S2P Require Import JobMaintenance AgentJobs JobService Lifecycle Operator Sockets.

(** ** The notices *)

(** [currentAgentLifecycleState]: nothing for a missing row or a revision that is
    not a count. *)
Definition currentAgentLifecycleState (d : db) (agentId : string) : option (string * Z) :=
  ag ← agents d !! agentId;
  if negb (isSafeInteger (ag_lifecycleRevision ag)) || (ag_lifecycleRevision ag <? 0) then None
  else Some (ag_lifecycle ag, ag_lifecycleRevision ag).

(** The revision a notice names, when it is one. *)
Definition notice_revision (lifecycleRevision : option Z) : option Z :=
  r ← lifecycleRevision; if isSafeInteger r && (0 <=? r) then Some r else None.

(** What a notice asks [closeAgentSockets] for, after the lookup; [None] is a
    notice that is ignored. *)
Definition notice_decision (d : db) (agentId : string) (lifecycleRevision : option Z) : option (option Z) :=
  match currentAgentLifecycleState d agentId with
  | None => Some None
  | Some (_, current) =>
      match notice_revision lifecycleRevision with
      | Some r => if current <? r then None else Some (Some r)
      | None => Some (Some current)
      end
  end.

(** ** The system *)

(** The rows, the server, the notices in the channel and the closes whose lookup
    has been made. *)
Record fence_world := {
  fw_db : db;
  fw_ws : ws_state;
  fw_notices : list (string * option Z);
  fw_closing : list (string * option Z);
}.

(** The columns the fence reads. *)
Definition fence_columns (ag : agent) : string * string * Z :=
  (ag_tenantId ag, ag_lifecycle ag, ag_lifecycleRevision ag).

(** The column is an [integer] that a check keeps from being negative. *)
Definition rows_ok (d : db) : Prop := ∀ id ag, agents d !! id = Some ag → 0 ≤ ag_lifecycleRevision ag < 2 ^ 31.

(** Ids that a socket, a notice or a close has. *)
Definition mentioned (s : ws_state) (ns cl : list (string * option Z)) (id : string) : Prop :=
  (∃ c cn, ws_conns s !! c = Some cn ∧ cn_agentId cn = id) ∨ id ∈ ns.*1 ∨ id ∈ cl.*1.

Inductive fence_step : fence_world → fence_world → Prop :=
| fs_turn d s s' ns cl :
    ws_step d s s' → fence_step (Build_fence_world d s ns cl) (Build_fence_world d s' ns cl)
| fs_transition sha256 agentId next tenantId manager ck candidates a r d d' s ns cl :
    transitionAgentLifecycle sha256 agentId next tenantId manager ck candidates d a = Ok (Some (r, d')) →
    rows_ok d' →
    fence_step (Build_fence_world d s ns cl)
      (Build_fence_world d' s
         (if al_changed r then ns ++ [(agentId, ag_lifecycleRevision <$> agents d' !! agentId)] else ns) cl)
| fs_delete sha256 manager id ck a d s ns cl :
    fence_step (Build_fence_world d s ns cl)
      (Build_fence_world (deleteAgent sha256 manager id ck a d).2 s
         (match (deleteAgent sha256 manager id ck a d).1 with delete_ok _ => ns ++ [(trim id, None)] | _ => ns end) cl)
| fs_other d d' s ns cl :                (* everything else: revisions stay, and the id of a new agent is new *)
    (∀ id ag, agents d !! id = Some ag → ∃ ag', agents d' !! id = Some ag' ∧ fence_columns ag' = fence_columns ag) →
    (∀ id, agents d !! id = None → is_Some (agents d' !! id) → ¬ mentioned s ns cl id) → rows_ok d' →
    fence_step (Build_fence_world d s ns cl) (Build_fence_world d' s ns cl)
| fs_sent agentId revision d s ns cl :   (* a notice nobody's transition made *)
    fence_step (Build_fence_world d s ns cl) (Build_fence_world d s (ns ++ [(agentId, revision)]) cl)
| fs_lookup agentId revision d s n1 n2 cl :
    fence_step (Build_fence_world d s (n1 ++ (agentId, revision) :: n2) cl)
      (Build_fence_world d s (n1 ++ n2)
         (match notice_decision d agentId revision with Some r => cl ++ [(agentId, r)] | None => cl end))
| fs_close agentId r d s ns l1 l2 :
    fence_step (Build_fence_world d s ns (l1 ++ (agentId, r) :: l2))
      (Build_fence_world d (closeAgentSockets agentId r s) ns (l1 ++ l2)).

(** A session: a registered socket that is open. *)
Definition session (s : ws_state) (c : string) (cn : connection) : Prop :=
  ws_conns s !! c = Some cn ∧ cn_socketCounted cn = true ∧ cn_open cn = true.

(** It was authenticated at the current revision of a live agent. *)
Definition session_current (d : db) (cn : connection) : Prop :=
  ∃ ag, agents d !! cn_agentId cn = Some ag ∧ ag_lifecycle ag = "active" ∧
    ag_lifecycleRevision ag = cn_lifecycleRevision cn.

(** A notice of the session's agent that will end it. *)
Definition outdating (d : db) (cn : connection) (revision : option Z) : Prop :=
  ∀ ag, agents d !! cn_agentId cn = Some ag →
    match notice_revision revision with
    | Some r => cn_lifecycleRevision cn < r ≤ ag_lifecycleRevision ag
    | None => cn_lifecycleRevision cn < ag_lifecycleRevision ag
    end.

Definition fenced (w : fence_world) : Prop :=
  ∀ c cn, session (fw_ws w) c cn →
    session_current (fw_db w) cn ∨
    (∃ r, (cn_agentId cn, r) ∈ fw_notices w ∧ outdating (fw_db w) cn r) ∨
    (∃ r, (cn_agentId cn, r) ∈ fw_closing w ∧ invalidated r cn = true).

(** A close that was looked up names no later revision than the row has. *)
Definition closing_sound (w : fence_world) : Prop :=
  ∀ a r, (a, r) ∈ fw_closing w → ∀ ag, agents (fw_db w) !! a = Some ag →
    match r with
    | Some r => r ≤ ag_lifecycleRevision ag
    | None => False
    end.


Record fence_ok (w : fence_world) : Prop := {
  fo_ws : ws_ok (fw_ws w);
  fo_rows : rows_ok (fw_db w);
  fo_fenced : fenced w;
  fo_closing : closing_sound w;
}.

(** ** Sessions only come from a registration *)

(** Every session of [s'] is one of [s]. *)
Definition sessions_from (s s' : ws_state) : Prop :=
  ∀ c cn', session s' c cn' → ∃ cn, session s c cn ∧ cn_agentId cn' = cn_agentId cn ∧
    cn_lifecycleRevision cn' = cn_lifecycleRevision cn.

#[export] Instance sessions_from_preorder : PreOrder sessions_from.
Proof.
  split; [by intros s c cn H; exists cn|].
  intros s1 s2 s3 H1 H2 c cn3 (cn2 & (cn1 & H & E1 & E2)%H1 & E3 & E4)%H2. exists cn1. split_and!; [done|congruence..].
Qed.

Lemma sessions_same s s' : ws_conns s' = ws_conns s → sessions_from s s'.
Proof. intros E c cn [H1 H2]. rewrite E in H1. by exists cn. Qed.

Lemma sessions_on_conn f c s s' :
  (∀ cn, cn_agentId (f cn) = cn_agentId cn ∧ cn_lifecycleRevision (f cn) = cn_lifecycleRevision cn ∧
     (cn_open (f cn) = true → cn_open cn = true) ∧ (cn_socketCounted (f cn) = true → cn_socketCounted cn = true)) →
  ws_conns s' = alter f c (ws_conns s) → sessions_from s s'.
Proof.
  intros Hf E k cn' (Hk & Hct & Hop). rewrite E in Hk. apply (on_conn_inv f c s) in Hk as (cn & Hk & ->).
  exists cn. destruct (Hf cn) as (F1 & F2 & F3 & F4). destruct (decide (k = c)); [|by split_and!].
  split_and!; [|done..]. split_and!; auto.
Qed.

Lemma sessions_close c s : sessions_from s (close_socket c s).
Proof. by eapply (sessions_on_conn not_open c). Qed.

Lemma sessions_release c s : sessions_from s (releaseReservation c s).
Proof.
  unfold releaseReservation. destruct (ws_conns s !! c) as [cn|]; [|done]. destruct (cn_reservationActive cn); [|done].
  by eapply (sessions_on_conn (with_reservation false) c).
Qed.

Lemma sessions_complete c ready s : sessions_from s (completeRegistration c ready s).
Proof.
  unfold completeRegistration. destruct (ws_conns s !! c) as [cn|]; [|done]. destruct (cn_registrationPending cn); [|done].
  unfold finishAgentSocketRegistrationPending. cbv zeta.
  destruct (_ && _); [|destruct (ws_waiters _ !! _)]; by eapply (sessions_on_conn (with_pending false) c).
Qed.

Lemma sessions_uncount c s : sessions_from s (uncountAgentSocket c s).
Proof.
  unfold uncountAgentSocket. destruct (ws_conns s !! c) as [cn|]; [|done]. destruct (cn_socketCounted cn); [|done].
  by eapply (sessions_on_conn (with_counted false) c).
Qed.

Lemma sessions_tracked_close c cn s : sessions_from s (tracked_close c cn s).
Proof.
  unfold tracked_close. destruct (cn_set cn) as [sid|]; [|done]. cbv zeta.
  set (s1 := with_sets _ _ s). transitivity (uncountAgentSocket c s1); [|by destruct (_ && _); apply sessions_same].
  transitivity s1; [by apply sessions_same|apply sessions_uncount].
Qed.

Lemma sessions_close_where p l s : sessions_from s (close_where p l s).
Proof.
  unfold close_where. revert s. induction l as [|c l IH]; intros s; [done|]. simpl. etrans; [|apply IH].
  destruct (ws_conns s !! c) as [cn|]; [|done]. destruct (p cn); [|done]. apply sessions_close.
Qed.

Lemma sessions_evict l s : sessions_from s (evict l s).2.
Proof.
  revert s. induction l as [|c l IH]; intros s; [done|]. cbn [evict]. destruct (_ <=? _); [|done].
  etrans; [apply sessions_uncount|]. etrans; [apply sessions_close|apply IH].
Qed.

Lemma sessions_send agentId buffered throws s : sessions_from s (sendJobToAgent agentId buffered throws s).1.2.
Proof.
  unfold sendJobToAgent. destruct (set_of s agentId) as [[sid l]|] eqn:Hset; [|done].
  generalize (reverse (filter (λ c, is_open s c = true) l)) as ts. induction ts as [|t ts IH]; [done|]. cbn [send_loop].
  destruct (_ <? _); [done|]. destruct (negb _); [done|]. rewrite Hset. cbv zeta. cbn [fst snd].
  set (s1 := with_sets _ _ s). transitivity (close_socket t (uncountAgentSocket t s1)).
  - transitivity s1; [by apply sessions_same|]. etrans; [apply sessions_uncount|apply sessions_close].
  - destruct (bool_decide _); by apply sessions_same.
Qed.

Lemma evict_identity l s k cn' :
  ws_conns (evict l s).2 !! k = Some cn' →
  ∃ cn, ws_conns s !! k = Some cn ∧ cn_agentId cn' = cn_agentId cn ∧ cn_lifecycleRevision cn' = cn_lifecycleRevision cn.
Proof.
  revert s. induction l as [|c l IH]; intros s; [by intros H; exists cn'|]. cbn [evict].
  destruct (_ <=? _); [|by intros H; exists cn']. intros (cn1 & H1 & E1 & E2)%IH.
  apply on_conn_inv in H1 as (cn2 & H2 & ->). unfold uncountAgentSocket in H2.
  assert (∃ cn, ws_conns s !! k = Some cn ∧ cn_agentId cn2 = cn_agentId cn ∧
    cn_lifecycleRevision cn2 = cn_lifecycleRevision cn) as (cn & Hcn & F1 & F2).
  { destruct (ws_conns s !! c) as [cnc|]; [|by exists cn2]. destruct (cn_socketCounted cnc); [|by exists cn2].
    apply (on_conn_inv _ c s) in H2 as (cn3 & H3 & ->). exists cn3. split; [done|]. by destruct (decide (k = c)). }
  exists cn. split; [done|]. destruct (decide (k = c)); simpl in *; split; congruence.
Qed.

(** A session after the registering turn is an old one or the registered one. *)
Lemma track_sessions c cn s k cn' :
  ws_conns s !! c = Some cn → cn_socketCounted cn = false → session (trackAgentSocket c (cn_agentId cn) s) k cn' →
  (∃ cn0, session s k cn0 ∧ cn_agentId cn' = cn_agentId cn0 ∧ cn_lifecycleRevision cn' = cn_lifecycleRevision cn0) ∨
  (k = c ∧ cn_agentId cn' = cn_agentId cn ∧ cn_lifecycleRevision cn' = cn_lifecycleRevision cn).
Proof.
  intros Hcn Hct. unfold trackAgentSocket. rewrite (uncounted_same c cn s Hcn Hct). cbv zeta.
  set (start := match set_of s (cn_agentId cn) with Some _ => _ | None => _ end).
  assert (ws_conns start.2 = ws_conns s) as Hstart.
  { unfold start. by destruct (set_of s (cn_agentId cn)) as [[? ?]|]. }
  destruct start as [[sid l] s1]. simpl in Hstart. destruct (evict l s1) as [l' s2] eqn:Hev.
  assert (sessions_from s s2) as Hfrom.
  { transitivity s1; [by apply sessions_same|]. pose proof (sessions_evict l s1) as H. by rewrite Hev in H. }
  intros (Hk & Hct' & Hop). simpl in Hk. apply (on_conn_inv _ c s2) in Hk as (cn2 & Hk & ->).
  destruct (decide (k = c)) as [->|Hne].
  - right. split; [done|]. simpl. pose proof (evict_identity l s1 c cn2) as Hid. rewrite Hev, Hstart in Hid.
    destruct (Hid Hk) as (cn0 & H0 & ? & ?). by simplify_eq.
  - left. by apply Hfrom.
Qed.

(** The registered session is at the row's revision. *)
Lemma verify_sessions d c cn s k cn' :
  ws_ok s → ws_conns s !! c = Some cn → cn_stage cn = verifying →
  session (verifyAndTrackAgentSocket d c s) k cn' →
  (∃ cn0, session s k cn0 ∧ cn_agentId cn' = cn_agentId cn0 ∧ cn_lifecycleRevision cn' = cn_lifecycleRevision cn0) ∨
  session_current d cn'.
Proof.
  intros Hok Hcn Hst. unfold verifyAndTrackAgentSocket. rewrite Hcn. cbv zeta.
  assert (sessions_from s (on_conn (with_stage rejecting) c s)) as Hrej
    by (by eapply (sessions_on_conn (with_stage rejecting) c)).
  destruct (negb (bool_decide _)); [left; by apply Hrej|].
  destruct (shouldAcceptAgentSocketForLifecycleState _ _ _) eqn:Hacc; [|left; by apply Hrej]. cbn [negb].
  destruct (cn_open cn) eqn:Hop; [|left; by apply Hrej]. cbn [negb]. intros Hs.
  destruct (sl_fresh _ (ok_slots _ Hok) _ _ Hcn Hst) as [Hct _].
  assert (sessions_from (trackAgentSocket c (cn_agentId cn) s)
    (on_conn (with_stage registered) c (trackAgentSocket c (cn_agentId cn) s))) as Hreg
    by (by eapply (sessions_on_conn (with_stage registered) c)).
  destruct (Hreg _ _ Hs) as (cn1 & H1 & E1 & E2).
  apply track_sessions in H1 as [(cn0 & H0 & F1 & F2)|(-> & F1 & F2)]; [|..|done|done].
  - left. exists cn0. split_and!; [done|congruence..].
  - right. unfold shouldAcceptAgentSocketForLifecycleState, agent_row_of in Hacc.
    destruct (agents d !! cn_agentId cn) as [ag|] eqn:Hag; [|done]. simpl in Hacc.
    destruct (bool_decide (ag_tenantId ag = cn_tenantId cn)); [|done]. simpl in Hacc.
    apply andb_true_iff in Hacc as [Hl Hr]. apply bool_decide_eq_true in Hl. injection Hl as Hl.
    exists ag. rewrite E1, F1, E2, F2. split_and!; [done|done|]. symmetry. apply Z.eqb_eq.
    by apply andb_true_iff in Hr as [_ ?].
Qed.

(** A turn: an old session, or a new one that is current. *)
Lemma turn_sessions d s s' k cn' :
  ws_ok s → ws_step d s s' → session s' k cn' →
  (∃ cn0, session s k cn0 ∧ cn_agentId cn' = cn_agentId cn0 ∧ cn_lifecycleRevision cn' = cn_lifecycleRevision cn0) ∨
  session_current d cn'.
Proof.
  intros Hok Hstep. assert (sessions_from s s' ∨ ∃ c cn, ws_conns s !! c = Some cn ∧ cn_stage cn = verifying ∧
    s' = verifyAndTrackAgentSocket d c s) as [Hf|(c & cn & Hcn & Hst & ->)].
  { destruct Hstep; try (left; first [apply sessions_close|apply sessions_send|apply sessions_close_where]).
    - left. unfold upgrade. destruct (reserveAgentSocketSlot s) as [[] s1] eqn:E; [|by unfold reserveAgentSocketSlot in E; destruct (negb _); simplify_eq].
      assert (ws_conns s1 = ws_conns s) as E1 by (unfold reserveAgentSocketSlot in E; destruct (negb _); by simplify_eq).
      intros k' cnk (Hk & Hct & Hop). simpl in Hk. rewrite E1 in Hk.
      apply lookup_insert_Some in Hk as [[<- <-]|[_ Hk]]; [done|]. by exists cnk.
    - right. by exists c, cn.
    - left. unfold finish_upgrade. destruct (ws_conns s !! c); [|done]. cbv zeta.
      set (s0 := if bool_decide _ then s else _). assert (sessions_from s s0) as Hs0.
      { unfold s0. destruct (bool_decide _); [done|]. by eapply (sessions_on_conn (with_stage rejecting) c). }
      set (s1 := on_conn _ c _). assert (sessions_from s s1) as Hs1.
      { etrans; [exact Hs0|]. etrans; [apply (sessions_release c)|]. etrans; [apply sessions_complete|].
        by eapply (sessions_on_conn (with_stage finished) c). }
      destruct (_ && _); [done|]. etrans; [exact Hs1|apply sessions_close].
    - left. unfold raw_close. etrans; [apply sessions_close|]. etrans; [apply sessions_release|apply sessions_complete].
    - left. unfold ws_close. destruct (ws_conns s !! c); [|done]. etrans; [apply sessions_close|].
      etrans; [apply sessions_release|]. etrans; [apply sessions_complete|apply sessions_tracked_close].
    - left. unfold waitForAgentSocketReady. repeat case_match; by apply sessions_same.
    - left. unfold waiter_timeout. repeat case_match; by apply sessions_same.
    - left. unfold closeAgentSockets. destruct (set_of s agentId) as [[? ?]|]; [|done]. apply sessions_close_where. }
  - intros Hs. left. by apply Hf.
  - by apply (verify_sessions d c cn).
Qed.

(** ** Rows and notices *)

Lemma transition_rows sha256 agentId next tenantId manager ck candidates d a r d' :
  transitionAgentLifecycle sha256 agentId next tenantId manager ck candidates d a = Ok (Some (r, d')) →
  (al_changed r = false ∧ d' = d) ∨
  ∃ ag ag', al_changed r = true ∧ agents d !! agentId = Some ag ∧ agents d' = <[agentId := ag']> (agents d) ∧
    ag_lifecycleRevision ag' = ag_lifecycleRevision ag + 1.
Proof.
  unfold transitionAgentLifecycle. intros H. rinv. destruct (agents d !! agentId) as [ag|] eqn:Hag; [|by simplify_eq].
  destruct (negb _); [by simplify_eq|]. rinv. destruct (bool_decide _); [simplify_eq; by left|]. rinv. simplify_eq.
  right. exists ag. eexists. split_and!; done.
Qed.

Lemma archive_owned_agents mk owned fuel d n d' : archive_owned mk owned fuel d = Some (n, d') → agents d' = agents d.
Proof.
  revert d n. induction fuel as [|fuel IH]; intros d n; [done|]. cbn [archive_owned].
  destruct (select_ids _ _ _ _ _) as [|id ids]; [by intros [= _ ->]|]. unfold move_ids.
  generalize (batches (length (id :: ids)) RECEIPT_MATERIALIZE_BATCH_ROWS (id :: ids)) as bs. intros bs.
  assert (∀ bs d n d1, move_batches mk d bs = Some (n, d1) → agents d1 = agents d) as Hb.
  { clear. induction bs as [|b bs IHb]; intros d n d1; [by intros [= _ ->]|]. cbn [move_batches]. unfold move_batch.
    destruct (insert_receipts _ _ _); [|done]. simpl. destruct (move_batches _ _ _) as [[m d2]|] eqn:E; [|done]. simpl.
    intros [= _ <-]. by apply IHb in E. }
  destruct (move_batches _ _ _) as [[m d1]|] eqn:E; [|done]. simpl.
  destruct (archive_owned _ _ _ _) as [[m2 d2]|] eqn:E2; [|done]. simpl. intros [= _ <-].
  apply IH in E2. apply Hb in E. congruence.
Qed.

Lemma delete_rows sha256 manager id ck a d :
  (∃ n, (deleteAgent sha256 manager id ck a d).1 = delete_ok n ∧
     agents (deleteAgent sha256 manager id ck a d).2 = delete (trim id) (agents d)) ∨
  ((∀ n, (deleteAgent sha256 manager id ck a d).1 ≠ delete_ok n) ∧ (deleteAgent sha256 manager id ck a d).2 = d).
Proof.
  unfold deleteAgent. destruct manager as [m|]; [|by right]. cbv zeta.
  do 5 match goal with |- context [if ?b then _ else _] => destruct b; [by right|] end.
  destruct (archive_owned _ _ _ _) as [[n d1]|] eqn:E; [|by right]. left. exists n. split; [done|]. simpl.
  by rewrite (archive_owned_agents _ _ _ _ _ _ E).
Qed.

(** A row change under which the revisions of the agents in [P] only grow. *)
Definition rows_grow (P : string → Prop) (d d' : db) : Prop :=
  ∀ id ag', P id → agents d' !! id = Some ag' → ∃ ag, agents d !! id = Some ag ∧
    (fence_columns ag' = fence_columns ag ∨ ag_lifecycleRevision ag < ag_lifecycleRevision ag').

Lemma outdating_grow (P : string → Prop) d d' cn r :
  rows_grow P d d' → P (cn_agentId cn) → outdating d cn r → outdating d' cn r.
Proof.
  intros Hg HP Ho ag' Hag'. destruct (Hg _ _ HP Hag') as (ag & Hag & Hc). specialize (Ho _ Hag).
  assert (ag_lifecycleRevision ag ≤ ag_lifecycleRevision ag') by (destruct Hc as [[=]|?]; lia).
  destruct (notice_revision r); lia.
Qed.

Lemma closing_grow (P : string → Prop) d d' s ns ns' cl :
  rows_grow P d d' → (∀ a r, (a, r) ∈ cl → P a) → closing_sound (Build_fence_world d s ns cl) → closing_sound (Build_fence_world d' s ns' cl).
Proof.
  intros Hg HP Hc a r Hin ag' Hag'. simpl in *. destruct (Hg _ _ (HP _ _ Hin) Hag') as (ag & Hag & Hor).
  specialize (Hc a r Hin ag Hag). destruct r; [|done].
  destruct Hor as [[=]|?]; lia.
Qed.

Lemma safe_revision r : 0 ≤ r < 2 ^ 31 → isSafeInteger r = true ∧ (r <? 0) = false ∧ notice_revision (Some r) = Some r.
Proof.
  intros H. assert (isSafeInteger r = true) as Hs by (unfold isSafeInteger; lia). split_and!; [done|lia|].
  unfold notice_revision. simpl. rewrite Hs. simpl. by rewrite (proj2 (Z.leb_le 0 r)) by lia.
Qed.

(** The closing turn ends what its revision invalidates. *)
Lemma close_where_lookup p l s k cn' :
  ws_conns (close_where p l s) !! k = Some cn' →
  ∃ cn, ws_conns s !! k = Some cn ∧ (cn' = cn ∧ (k ∈ l → p cn = true → cn_open cn = false) ∨ (cn' = not_open cn ∧ k ∈ l ∧ p cn = true)).
Proof.
  unfold close_where. revert s. induction l as [|c l IH]; intros s.
  { simpl. intros H. exists cn'. split; [done|]. left. split; [done|]. by intros ?%not_elem_of_nil. }
  simpl. intros (cn1 & H1 & Hor)%IH. destruct (ws_conns s !! c) as [cnc|] eqn:Hc.
  - destruct (p cnc) eqn:Hp.
    + apply on_conn_inv in H1 as (cn & Hk & ->). exists cn. split; [done|].
      destruct (decide (k = c)) as [->|Hne].
      * assert (cn = cnc) as -> by congruence. right. destruct Hor as [[-> _]|(-> & _)]; (split_and!; [done|set_solver|done]).
      * destruct Hor as [[-> Hl]|(-> & Hl & Hq)]; [left|right; by split_and!; [|set_solver|]].
        split; [done|]. intros Hin Hq. apply Hl; [set_solver|done].
    + exists cn1. split; [done|]. destruct Hor as [[-> Hl]|(-> & Hl & Hq)]; [left|right; by split_and!; [|set_solver|]].
      split; [done|]. intros [->|Hin]%elem_of_cons Hq; [congruence|by apply Hl].
  - exists cn1. split; [done|]. destruct Hor as [[-> Hl]|(-> & Hl & Hq)]; [left|right; by split_and!; [|set_solver|]].
    split; [done|]. intros [->|Hin]%elem_of_cons Hq; [congruence|by apply Hl].
Qed.

Lemma closed_sessions a r s k cn' :
  ws_ok s → session (closeAgentSockets a r s) k cn' → session s k cn' ∧ (cn_agentId cn' = a → invalidated r cn' = false).
Proof.
  intros Hok Hs. unfold closeAgentSockets in Hs. destruct (set_of s a) as [[sid l]|] eqn:Hset.
  - destruct Hs as (Hk & Hct & Hop). apply close_where_lookup in Hk as (cn & Hk & [[-> Hl]|(-> & _)]); [|done].
    split; [done|]. intros Ha. destruct (invalidated r cn) eqn:Hi; [|done]. rewrite Hl in Hop; [done| |done].
    destruct (rg_counted _ (ok_registry _ Hok) _ _ Hk Hct) as (sid' & l' & E1 & E2 & E3). unfold set_of in Hset.
    rewrite <- Ha, E1 in Hset. simpl in Hset. rewrite E2 in Hset. simpl in Hset. by simplify_eq.
  - split; [done|]. intros Ha. exfalso. destruct Hs as (Hk & Hct & Hop).
    destruct (rg_counted _ (ok_registry _ Hok) _ _ Hk Hct) as (sid' & l' & E1 & E2 & E3). unfold set_of in Hset.
    rewrite <- Ha, E1 in Hset. simpl in Hset. by rewrite E2 in Hset.
Qed.

(** ** Every step keeps the fence *)

Lemma fence_turn d s s' ns cl :
  ws_step d s s' → fence_ok (Build_fence_world d s ns cl) → fence_ok (Build_fence_world d s' ns cl).
Proof.
  intros Hst [Hok Hrows Hf Hcl]. split; simpl in *; [by eapply ws_step_ok|done| |done].
  intros c cn' Hs. simpl in *. apply (turn_sessions d s s' c cn' Hok Hst) in Hs as [(cn & Hs & E1 & E2)|Hs]; [|by left].
  unfold session_current, outdating, invalidated. rewrite E1, E2. by apply (Hf c cn Hs).
Qed.

Lemma fence_rows (P : string → Prop) d d' s ns ns' cl :
  rows_grow P d d' → rows_ok d' → (∀ id, mentioned s ns cl id → P id) → (∀ x, x ∈ ns → x ∈ ns') →
  (∀ c cn, session s c cn → session_current d cn →
     session_current d' cn ∨ ∃ r, (cn_agentId cn, r) ∈ ns' ∧ outdating d' cn r) →
  fence_ok (Build_fence_world d s ns cl) → fence_ok (Build_fence_world d' s ns' cl).
Proof.
  intros Hg Hrows' HP Hns Hcur [Hok Hrows Hf Hcl]. simpl in *. split; simpl; [done|done|..].
  - intros c cn Hs. simpl. destruct (Hf c cn Hs) as [H|[(r & Hr & Ho)|H]]; simpl in *.
    + destruct (Hcur c cn Hs H) as [?|?]; auto.
    + right; left. exists r. split; [by apply Hns|]. eapply outdating_grow; [done| |done]. apply HP. left.
      exists c, cn. split; [apply Hs|done].
    + by right; right.
  - eapply closing_grow; [done| |done]. intros a r Hin. apply HP. right; right. by apply (list_elem_of_fmap_2 fst) in Hin.
Qed.

Lemma fence_transition sha256 agentId next tenantId manager ck candidates a r d d' s ns cl :
  transitionAgentLifecycle sha256 agentId next tenantId manager ck candidates d a = Ok (Some (r, d')) → rows_ok d' →
  fence_ok (Build_fence_world d s ns cl) →
  fence_ok (Build_fence_world d' s
    (if al_changed r then ns ++ [(agentId, ag_lifecycleRevision <$> agents d' !! agentId)] else ns) cl).
Proof.
  intros Ht Hrows' Hok. apply transition_rows in Ht as [[-> ->]|(ag & ag' & -> & Hag & Hd' & Hrev)]; [done|].
  assert (agents d' !! agentId = Some ag') as Hag' by (rewrite Hd'; apply lookup_insert_eq). rewrite Hag'.
  apply (fence_rows (λ _, True) d d' s ns); [|done|done|set_solver| |done].
  - intros id x _. rewrite Hd'. intros [[<- <-]|[_ Hx]]%lookup_insert_Some; [exists ag; split; [done|]; right; lia|].
    exists x. by auto.
  - intros c cn _ (ag0 & Hag0 & Hl & Hr). destruct (decide (cn_agentId cn = agentId)) as [Ha|Ha].
    + right. exists (Some (ag_lifecycleRevision ag')). split; [rewrite Ha; set_solver|]. intros ag1 Hag1.
      rewrite Ha in *. assert (ag1 = ag') as -> by congruence. assert (ag0 = ag) as -> by congruence.
      destruct (safe_revision _ (Hrows' _ _ Hag')) as (_ & _ & ->). lia.
    + left. exists ag0. split; [|done]. by rewrite Hd', lookup_insert_ne.
Qed.

Lemma fence_delete sha256 manager id ck a d s ns cl :
  fence_ok (Build_fence_world d s ns cl) →
  fence_ok (Build_fence_world (deleteAgent sha256 manager id ck a d).2 s
    (match (deleteAgent sha256 manager id ck a d).1 with delete_ok _ => ns ++ [(trim id, None)] | _ => ns end) cl).
Proof.
  intros Hok. destruct (delete_rows sha256 manager id ck a d) as [(n & -> & Hd')|[Hno ->]].
  - apply (fence_rows (λ _, True) d _ s ns); [|..|set_solver| |done].
    + intros k x _. rewrite Hd'. intros [_ Hx]%lookup_delete_Some. exists x. by auto.
    + intros k x. rewrite Hd'. intros [_ Hx]%lookup_delete_Some. by apply (fo_rows _ Hok k).
    + done.
    + intros c cn _ (ag & Hag & Hl & Hr). destruct (decide (cn_agentId cn = trim id)) as [Ha|Ha].
      * right. exists None. split; [rewrite Ha; set_solver|]. intros ag1. rewrite Hd', Ha, lookup_delete_eq. done.
      * left. exists ag. split; [|done]. by rewrite Hd', lookup_delete_ne.
  - by destruct (deleteAgent sha256 manager id ck a d).1 as [| | | | | |n]; [..|destruct (Hno n)].
Qed.

Lemma decision_sound d agentId revision :
  rows_ok d →
  match notice_decision d agentId revision with
  | None => ∀ cn, cn_agentId cn = agentId → ¬ outdating d cn revision
  | Some r =>
      (∀ cn, cn_agentId cn = agentId → outdating d cn revision → invalidated r cn = true) ∧
      (∀ ag, agents d !! agentId = Some ag → match r with Some r => r ≤ ag_lifecycleRevision ag | None => False end)
  end.
Proof.
  intros Hrows. unfold notice_decision, currentAgentLifecycleState. destruct (agents d !! agentId) as [ag|] eqn:Hag; [|done].
  destruct (safe_revision _ (Hrows _ _ Hag)) as (E1 & E2 & _). simpl. rewrite E1, E2. cbn [negb orb].
  destruct (notice_revision revision) as [r|] eqn:Hr.
  - destruct (ag_lifecycleRevision ag <? r) eqn:E.
    + intros cn Ha Ho. rewrite <- Ha in Hag. specialize (Ho ag Hag). rewrite Hr in Ho. lia.
    + split; [|intros ag1 [= <-]; lia]. intros cn Ha Ho. rewrite <- Ha in Hag. specialize (Ho ag Hag). rewrite Hr in Ho.
      unfold invalidated, shouldCloseAgentSocketForLifecycleRevision. lia.
  - split; [|intros ag1 [= <-]; lia]. intros cn Ha Ho. rewrite <- Ha in Hag. specialize (Ho ag Hag). rewrite Hr in Ho.
    unfold invalidated, shouldCloseAgentSocketForLifecycleRevision. lia.
Qed.

Lemma fence_lookup agentId revision d s n1 n2 cl :
  fence_ok (Build_fence_world d s (n1 ++ (agentId, revision) :: n2) cl) →
  fence_ok (Build_fence_world d s (n1 ++ n2)
    (match notice_decision d agentId revision with Some r => cl ++ [(agentId, r)] | None => cl end)).
Proof.
  intros [Hok Hrows Hf Hcl]. simpl in *. pose proof (decision_sound d agentId revision Hrows) as Hd. split; simpl; [done|done|..].
  - intros c cn Hs. simpl. destruct (Hf c cn Hs) as [H|[(r & Hr & Ho)|(r & Hr & Hi)]]; simpl in *; [by left|..].
    + rewrite elem_of_app, elem_of_cons in Hr. destruct Hr as [Hr|[[= Ha ->]|Hr]];
        [right; left; exists r; split; [set_solver|done]| |right; left; exists r; split; [set_solver|done]].
      right; right. destruct (notice_decision d agentId revision) as [r|]; [|by destruct (Hd cn Ha)].
      exists r. rewrite Ha. split; [set_solver|]. by apply Hd.
    + right; right. exists r. split; [|done]. destruct (notice_decision d agentId revision); set_solver.
  - intros a r Hin ag Hag. simpl in *. destruct (notice_decision d agentId revision) as [r0|]; [|by apply (Hcl a r Hin)].
    apply elem_of_app in Hin as [Hin|[= -> ->]%list_elem_of_singleton]; [by apply (Hcl a r Hin)|by apply Hd].
Qed.

Lemma fence_close agentId r d s ns l1 l2 :
  fence_ok (Build_fence_world d s ns (l1 ++ (agentId, r) :: l2)) →
  fence_ok (Build_fence_world d (closeAgentSockets agentId r s) ns (l1 ++ l2)).
Proof.
  intros [Hok Hrows Hf Hcl]. simpl in *. split; simpl; [|done|..].
  - eapply (ws_step_ok d); [apply wst_close_agent|done].
  - intros c cn [Hs Hni]%closed_sessions; [|done]. simpl. destruct (Hf c cn Hs) as [H|[H|(r0 & Hr & Hi)]]; simpl in *; [by auto..|].
    right; right. rewrite elem_of_app, elem_of_cons in Hr. destruct Hr as [Hr|[[= Ha ->]|Hr]];
      [exists r0; split; [set_solver|done]|rewrite Hni in Hi by done; done|exists r0; split; [set_solver|done]].
  - intros a r0 Hin. apply (Hcl a r0). set_solver.
Qed.

Lemma fence_step_ok w w' : fence_step w w' → fence_ok w → fence_ok w'.
Proof.
  destruct 1; intros Hok.
  - by eapply fence_turn.
  - by eapply fence_transition.
  - by apply fence_delete.
  - eapply (fence_rows (mentioned s ns cl)); [|done|done|done| |exact Hok].
    + intros id ag' Hm Hag'. destruct (agents d !! id) as [ag|] eqn:Hag; [|by destruct (H0 id Hag)].
      exists ag. destruct (H _ _ Hag) as (ag1 & Hag1 & Hcol). assert (ag1 = ag') as -> by congruence.
      split; [done|by left].
    + intros c cn _ (ag & Hag & Hl & Hr). left. destruct (H _ _ Hag) as (ag1 & ? & [= E1 E2 E3]). exists ag1.
      split_and!; [done|congruence..].
  - destruct Hok as [H1 H2 H3 H4]. split; [done|done| |done]. intros c cn Hs. simpl.
    destruct (H3 c cn Hs) as [?|[(r & Hr & ?)|?]]; simpl in *; [by left| |by right; right].
    right; left. exists r. split; [set_solver|done].
  - by apply fence_lookup.
  - by apply fence_close.
Qed.

Lemma fence_reached w w' : rtc fence_step w w' → fence_ok w → fence_ok w'.
Proof. induction 1 as [|w1 w2 w3 H _ IH]; [done|]. intros H0. by apply IH, (fence_step_ok w1). Qed.

Lemma fence_start d : rows_ok d → fence_ok (Build_fence_world d ws_start [] []).
Proof.
  intros Hrows. split; simpl; [apply ws_start_ok|done|..].
  - intros c cn (H & _). simpl in H. by rewrite lookup_empty in H.
  - intros a r H. simpl in H. by apply not_elem_of_nil in H.
Qed.

Lemma close_where_keeps p l s k cn :
  ws_conns s !! k = Some cn → (k ∈ l → p cn = false) → ws_conns (close_where p l s) !! k = Some cn.
Proof.
  unfold close_where. revert s. induction l as [|c l IH]; intros s Hk Hp; [done|]. simpl.
  apply IH; [|intros Hin; apply Hp; set_solver]. destruct (ws_conns s !! c) as [cnc|] eqn:Hc; [|done].
  destruct (p cnc) eqn:E; [|done]. simpl. rewrite lookup_alter_ne; [done|]. intros <-.
  assert (cnc = cn) as -> by congruence. rewrite Hp in E; [done|set_solver].
Qed.

Lemma close_spares a r s c cn :
  ws_ok s → session s c cn → (cn_agentId cn = a → invalidated r cn = false) → session (closeAgentSockets a r s) c cn.
Proof.
  intros Hok (Hk & Hct & Hop) Hi. split; [|done]. unfold closeAgentSockets. destruct (set_of s a) as [[sid l]|] eqn:Hset; [|done].
  apply close_where_keeps; [done|]. intros Hin. apply Hi. unfold set_of in Hset.
  destruct (ws_agentSockets s !! a) as [sid0|] eqn:Ha; [|done]. simpl in Hset.
  destruct (ws_sets s !! sid0) as [l0|] eqn:Hl; [|done]. simpl in Hset. simplify_eq.
  destruct (set_member _ _ _ _ _ (ok_registry _ Hok) Ha Hl Hin) as (cn' & ? & _ & ? & _). by simplify_eq.
Qed.


(** ** An agent that is disabled while it is connected *)

Definition disabled_db : db :=
  match transitionAgentLifecycle id "a1" "disabled" "t1" admin_claims (at_time 5) [] lifecycle_db admin_auth with
  | Ok (Some (_, d')) => d' | _ => lifecycle_db end.

Definition disabled_world : fence_world := Build_fence_world disabled_db connected [("a1", Some 1)] [].

Lemma agents_at d d' id ag : agents d = {["a1" := d']} → agents d !! id = Some ag → ag = d'.
Proof. intros -> [_ <-]%lookup_singleton_Some. done. Qed.

Lemma lifecycle_rows_ok : rows_ok lifecycle_db.
Proof. intros k ag H. apply (agents_at _ sample_agent) in H as ->; [simpl; lia|vm_compute; reflexivity]. Qed.

Lemma disabled_rows_ok : rows_ok disabled_db.
Proof.
  intros k ag H. eapply agents_at in H as ->; [|vm_compute; reflexivity]. simpl. lia.
Qed.

Lemma disabled_reached : rtc fence_step (Build_fence_world lifecycle_db ws_start [] []) disabled_world.
Proof.
  eapply rtc_l; [apply fs_turn, (wst_upgrade _ "c1" "a1" "t1" 0 true); done|].
  eapply rtc_l; [apply fs_turn; eapply (wst_verify _ "c1"); vm_compute; reflexivity|].
  eapply rtc_l; [apply fs_turn; eapply (wst_finish _ "c1" _ true); [vm_compute; reflexivity|discriminate..]|].
  apply rtc_once. eapply (fs_transition id "a1" "disabled" "t1" admin_claims (at_time 5) [] admin_auth
    {| al_changed := true; al_lifecycle := "disabled"; al_pairingCode := None; al_pairingCodeExpiresAt := None |}
    lifecycle_db disabled_db connected [] []); [vm_compute; reflexivity|apply disabled_rows_ok].
Qed.


(** Once the notice is handled the session is over. *)
Example disabled_session_ends :
  notice_decision disabled_db "a1" (Some 1) = Some (Some 1) ∧
  hasOpenAgentSocket connected "a1" = true ∧
  hasOpenAgentSocket (closeAgentSockets "a1" (Some 1) connected) "a1" = false.
Proof. split_and!; vm_compute; reflexivity. Qed.
