(* ===== verification/SocketMessages.v ===== *)
(** * SocketMessages: what an agent may send over its WebSocket

    [src/server/ws.ts]: the token bucket per agent, its idle collection, the
    bound on messages being handled, the frames kept before a socket is admitted,
    and [handleAgentMessage]. [performance.now()] is in microseconds here, so
    that five tokens a second are one unit of credit a microsecond and a message
    costs 200,000 of them: the arithmetic of the bucket is exact, where the
    source rounds in floating point. *)

From S2P Require Import Prelude DatabaseTime JobStatus Json Schema Authority Availability Payload.
From S2P Require Import PrinterVirtual Capability Entitlements Samples JobProtocol JobDelivery JobMaintenance AgentJobs.

Definition MAX_WS_MESSAGE_BYTES : Z := 64 * 1024.
Definition MAX_WS_INFLIGHT_MESSAGES_PER_AGENT : Z := 16.
(** [WS_MESSAGE_BUCKET_CAPACITY] is 20 messages, [WS_MESSAGE_REFILL_PER_SECOND]
    is 5. *)
Definition MESSAGE_COST : Z := 200000.
Definition WS_MESSAGE_BUCKET_CAPACITY : Z := 20 * MESSAGE_COST.
Definition WS_BUCKET_IDLE_TTL : Z := 60 * 60 * 1000000.

(** ** Buckets *)

Record TokenBucket := { tb_tokens : Z; tb_lastRefill : Z }.

Definition new_bucket (now : Z) : TokenBucket := {| tb_tokens := WS_MESSAGE_BUCKET_CAPACITY; tb_lastRefill := now |}.

(** [consume(1)]. *)
Definition consume (now : Z) (b : TokenBucket) : bool * TokenBucket :=
  let elapsed := Z.max 0 (now - tb_lastRefill b) in
  let tokens := Z.min WS_MESSAGE_BUCKET_CAPACITY (tb_tokens b + elapsed) in
  if tokens <? MESSAGE_COST then (false, {| tb_tokens := tokens; tb_lastRefill := now |})
  else (true, {| tb_tokens := tokens - MESSAGE_COST; tb_lastRefill := now |}).

Record WsBucketEntry := { we_bucket : TokenBucket; we_lastSeen : Z }.

Definition getBucketForAgent (now : Z) (agentId : string) (m : gmap string WsBucketEntry)
    : TokenBucket * gmap string WsBucketEntry :=
  match m !! agentId with
  | Some e => (we_bucket e, <[agentId := {| we_bucket := we_bucket e; we_lastSeen := now |}]> m)
  | None => let b := new_bucket now in (b, <[agentId := {| we_bucket := b; we_lastSeen := now |}]> m)
  end.

(** The bucket object is shared with its entry. *)
Definition store_bucket (agentId : string) (b : TokenBucket) (m : gmap string WsBucketEntry) : gmap string WsBucketEntry :=
  alter (λ e, {| we_bucket := b; we_lastSeen := we_lastSeen e |}) agentId m.

Definition pruneIdleWsBuckets (now : Z) (m : gmap string WsBucketEntry) : gmap string WsBucketEntry :=
  filter (λ ke : string * WsBucketEntry, ¬ (WS_BUCKET_IDLE_TTL < now - we_lastSeen ke.2)) m.

(** ** Messages *)

(** [mg_running] are the agents whose messages are being handled, one entry per
    message. *)
Record message_state := {
  mg_buckets : gmap string WsBucketEntry;
  mg_inFlight : gmap string Z;
  mg_running : list string;
}.

Definition message_start : message_state := {| mg_buckets := ∅; mg_inFlight := ∅; mg_running := [] |}.

Definition in_flight_of (m : message_state) (a : string) : Z := coalesce (mg_inFlight m !! a) 0.

(** [remaining <= 0 ? delete : set]. *)
Definition one_done (agentId : string) (m : gmap string Z) : gmap string Z :=
  let remaining := coalesce (m !! agentId) 1 - 1 in
  if remaining <=? 0 then delete agentId m else <[agentId := remaining]> m.

Inductive message_outcome : Type := rate_limited | too_many_in_flight | missing_identity | handling.

(** The message listener of a registered socket; the bucket is looked up at [t1]
    and charged at [t2]. *)
Definition on_message (agentId : string) (tenantId : option string) (t1 t2 : Z) (m : message_state)
    : message_outcome * message_state :=
  let '(bucket, buckets) := getBucketForAgent t1 agentId (mg_buckets m) in
  let '(granted, bucket') := consume t2 bucket in
  let buckets' := store_bucket agentId bucket' buckets in
  if negb granted then (rate_limited, {| mg_buckets := buckets'; mg_inFlight := mg_inFlight m; mg_running := mg_running m |})
  else
    let inFlight := in_flight_of m agentId in
    if MAX_WS_INFLIGHT_MESSAGES_PER_AGENT <=? inFlight
    then (too_many_in_flight, {| mg_buckets := buckets'; mg_inFlight := mg_inFlight m; mg_running := mg_running m |})
    else
      let counted := <[agentId := inFlight + 1]> (mg_inFlight m) in
      if negb (truthy tenantId)
      then (missing_identity, {| mg_buckets := buckets'; mg_inFlight := one_done agentId counted; mg_running := mg_running m |})
      else (handling, {| mg_buckets := buckets'; mg_inFlight := counted; mg_running := agentId :: mg_running m |}).

(** The end of a handler, [l1] and [l2] being the others. *)
Definition on_handled (agentId : string) (l1 l2 : list string) (m : message_state) : message_state := {|
  mg_buckets := mg_buckets m; mg_inFlight := one_done agentId (mg_inFlight m); mg_running := l1 ++ l2 |}.

Definition on_prune (now : Z) (m : message_state) : message_state := {|
  mg_buckets := pruneIdleWsBuckets now (mg_buckets m); mg_inFlight := mg_inFlight m; mg_running := mg_running m |}.

(** ** [handleAgentMessage] *)

(** [msg] is the parsed frame, [None] when it is not JSON. *)
Definition handleAgentMessage (ck : clock) (agentId tenantId : string) (msg : option json) (d : db) : db :=
  match msg with
  | Some (JObject l) =>
      let o := JObject l in
      if as_string (json_field o "type") != Some "job_ack" then d
      else match json_field o "jobId" with
           | Some (JString jobId) =>
               if jobId == "" then d
               else let token := match json_field o "claimToken" with
                                 | Some (JString t) => if t == "" then None else Some t
                                 | _ => None
                                 end in
                    (recordJobAck ck jobId tenantId agentId token d).2
           | _ => d
           end
  | _ => d
  end.

(** ** Frames before admission *)

(** The sizes kept so far and their sum; [None] closes the socket. *)
Definition captureEarlyMessage (size : Z) (kept : list Z) (earlyBytes : Z) : option (list Z * Z) :=
  if (MAX_WS_MESSAGE_BYTES <? size) || (MAX_WS_MESSAGE_BYTES <? earlyBytes + size)
     || (MAX_WS_INFLIGHT_MESSAGES_PER_AGENT <=? Z.of_nat (length kept))
  then None
  else Some (kept ++ [size], earlyBytes + size).

Fixpoint capture_all (sizes kept : list Z) (earlyBytes : Z) : option (list Z * Z) :=
  match sizes with
  | [] => Some (kept, earlyBytes)
  | size :: sizes =>
      match captureEarlyMessage size kept earlyBytes with
      | Some (kept', bytes') => capture_all sizes kept' bytes'
      | None => None
      end
  end.

Lemma capture_bounded sizes kept bytes kept' bytes' :
  capture_all sizes kept bytes = Some (kept', bytes') → bytes ≤ MAX_WS_MESSAGE_BYTES →
  Z.of_nat (length kept) ≤ MAX_WS_INFLIGHT_MESSAGES_PER_AGENT →
  bytes' ≤ MAX_WS_MESSAGE_BYTES ∧ Z.of_nat (length kept') ≤ MAX_WS_INFLIGHT_MESSAGES_PER_AGENT.
Proof.
  revert kept bytes. induction sizes as [|size sizes IH]; intros kept bytes; [intros [= <- <-]; done|].
  cbn [capture_all]. unfold captureEarlyMessage. destruct (_ || _) eqn:E; [done|]. intros H Hb Hl.
  apply IH in H; [done|lia|]. rewrite length_app. simpl. lia.
Qed.

(** ** Runs *)

(** The bucket let the message through. *)
Definition message_granted (o : message_outcome) : bool := match o with rate_limited => false | _ => true end.

(** What happens between the times [s] and [e], with the agents whose messages
    were let through. The clock does not go back, and its two reads for a message
    are within a minute of each other. *)
Inductive message_run (s : Z) (m : message_state) : list string → Z → message_state → Prop :=
| mr_start : message_run s m [] s m
| mr_wait gs t t' m' : message_run s m gs t m' → t ≤ t' → message_run s m gs t' m'
| mr_message gs t m' a tenant t1 t2 :
    message_run s m gs t m' → t ≤ t1 → t1 ≤ t2 ≤ t1 + 60000000 →
    message_run s m (if message_granted (on_message a tenant t1 t2 m').1 then a :: gs else gs) t2 (on_message a tenant t1 t2 m').2
| mr_handled gs t m' a l1 l2 :
    message_run s m gs t m' → mg_running m' = l1 ++ a :: l2 → message_run s m gs t (on_handled a l1 l2 m')
| mr_prune gs t m' : message_run s m gs t m' → message_run s m gs t (on_prune t m').

(** How often an agent is in a list. *)
Definition count_in (a : string) (l : list string) : Z := Z.of_nat (length (filter (λ x, x = a) l)).

Lemma count_in_cons a x l : count_in a (x :: l) = count_in a l + Z.b2z (x == a).
Proof.
  unfold count_in. rewrite filter_cons. destruct (decide (x = a)) as [->|Hne].
  - rewrite (bool_decide_true (a = a)) by done. simpl. lia.
  - rewrite (bool_decide_false (x = a)) by done. simpl. lia.
Qed.

Lemma count_in_app a l1 l2 : count_in a (l1 ++ l2) = count_in a l1 + count_in a l2.
Proof. unfold count_in. rewrite filter_app, length_app. lia. Qed.

(** ** The invariant *)

Record messages_ok (t : Z) (m : message_state) : Prop := {
  mo_bucket : ∀ a e, mg_buckets m !! a = Some e →
    0 ≤ tb_tokens (we_bucket e) ≤ WS_MESSAGE_BUCKET_CAPACITY ∧
    we_lastSeen e ≤ tb_lastRefill (we_bucket e) ≤ t ∧ tb_lastRefill (we_bucket e) ≤ we_lastSeen e + 60000000;
  mo_inFlight : ∀ a, in_flight_of m a = count_in a (mg_running m);
  mo_bound : ∀ a, in_flight_of m a ≤ MAX_WS_INFLIGHT_MESSAGES_PER_AGENT;
}.

(** The credit an agent would have at a time: what its bucket holds after the
    refill, or a full one. *)
Definition credit (t : Z) (m : message_state) (a : string) : Z :=
  match mg_buckets m !! a with
  | Some e => Z.min WS_MESSAGE_BUCKET_CAPACITY (tb_tokens (we_bucket e) + (t - tb_lastRefill (we_bucket e)))
  | None => WS_MESSAGE_BUCKET_CAPACITY
  end.

Lemma start_ok t : messages_ok t message_start.
Proof. split; [by intros a e|done..]. Qed.

Lemma wait_time_ok t t' m : messages_ok t m → t ≤ t' → messages_ok t' m.
Proof. intros [H1 H2 H3] Ht. split; [|done..]. intros a e He. destruct (H1 a e He) as (? & ? & ?). lia. Qed.

(** Letting time pass adds at most as much credit as time. *)
Lemma credit_wait t t' m a : t ≤ t' → credit t' m a ≤ credit t m a + (t' - t).
Proof. intros Ht. unfold credit. destruct (mg_buckets m !! a); lia. Qed.

(** A prune changes nobody's credit. *)
Lemma credit_prune t m a : messages_ok t m → credit t (on_prune t m) a = credit t m a.
Proof.
  intros Hok. unfold credit, on_prune, pruneIdleWsBuckets. cbn [mg_buckets].
  destruct (mg_buckets m !! a) as [e|] eqn:He.
  - destruct (decide (WS_BUCKET_IDLE_TTL < t - we_lastSeen e)) as [Hi|Hi].
    + rewrite (proj2 (map_lookup_filter_None _ _ _)).
      * destruct (mo_bucket _ _ Hok a e He) as (? & ? & ?). unfold WS_BUCKET_IDLE_TTL in Hi.
        unfold WS_MESSAGE_BUCKET_CAPACITY, MESSAGE_COST in *. lia.
      * right. intros e' He'. simpl. replace e' with e by congruence. tauto.
    + by rewrite (proj2 (map_lookup_filter_Some _ _ _ _)) by done.
  - rewrite (proj2 (map_lookup_filter_None _ _ _)); [done|by left].
Qed.

Lemma prune_ok t m : messages_ok t m → messages_ok t (on_prune t m).
Proof.
  intros [H1 H2 H3]. split; [|done..]. simpl. intros a e [He _]%map_lookup_filter_Some. by apply (H1 a e).
Qed.

(** The buckets after a message of [a]. *)
Lemma message_buckets a tenant t1 t2 m :
  mg_buckets (on_message a tenant t1 t2 m).2 =
  <[a := {| we_bucket := (consume t2 (getBucketForAgent t1 a (mg_buckets m)).1).2; we_lastSeen := t1 |}]> (mg_buckets m).
Proof.
  assert (∀ b b', store_bucket a b' (<[a := {| we_bucket := b; we_lastSeen := t1 |}]> (mg_buckets m)) =
    <[a := {| we_bucket := b'; we_lastSeen := t1 |}]> (mg_buckets m)) as Hst.
  { intros b b'. unfold store_bucket. apply map_eq. intros i. destruct (decide (i = a)) as [->|]; by simplify_map_eq. }
  unfold on_message, getBucketForAgent. destruct (mg_buckets m !! a) as [e|]; cbn [fst];
    destruct (consume t2 _) as [g b']; cbn [snd]; rewrite Hst; repeat case_match; reflexivity.
Qed.

Lemma message_granted_consume a tenant t1 t2 m :
  message_granted (on_message a tenant t1 t2 m).1 = (consume t2 (getBucketForAgent t1 a (mg_buckets m)).1).1.
Proof.
  unfold on_message, getBucketForAgent. destruct (mg_buckets m !! a) as [e|]; cbn [fst];
    destruct (consume t2 _) as [[] b']; cbn [negb fst]; repeat case_match; reflexivity.
Qed.

(** A message that is let through costs its sender, and nobody else. *)
Lemma credit_message t a tenant t1 t2 m k :
  messages_ok t m → t ≤ t1 → t1 ≤ t2 →
  credit t2 (on_message a tenant t1 t2 m).2 k
    + MESSAGE_COST * Z.b2z (message_granted (on_message a tenant t1 t2 m).1 && (a == k)) ≤ credit t m k + (t2 - t).
Proof.
  intros Hok Ht1 Ht2. destruct (decide (a = k)) as [<-|Hne].
  - rewrite (bool_decide_true (a = a)), andb_true_r, message_granted_consume by done. unfold credit.
    rewrite message_buckets, lookup_insert_eq. cbn [we_bucket]. unfold getBucketForAgent.
    destruct (mg_buckets m !! a) as [e|] eqn:He; cbn [fst].
    + destruct (mo_bucket _ _ Hok a e He) as (? & ? & ?). unfold consume. destruct (_ <? _) eqn:E; simpl; unfold WS_MESSAGE_BUCKET_CAPACITY, MESSAGE_COST in *; lia.
    + unfold consume, new_bucket. destruct (_ <? _) eqn:E; simpl; unfold WS_MESSAGE_BUCKET_CAPACITY, MESSAGE_COST in *; lia.
  - rewrite (bool_decide_false (a = k)), andb_false_r by done. unfold credit. rewrite message_buckets, lookup_insert_ne by done.
    pose proof (credit_wait t t2 m k ltac:(lia)) as H. unfold credit in H. simpl. lia.
Qed.

(** Ending a handler takes one message off the count. *)
Lemma one_done_spec a k (m : gmap string Z) :
  1 ≤ coalesce (m !! a) 0 → coalesce (one_done a m !! k) 0 = coalesce (m !! k) 0 - Z.b2z (a == k).
Proof.
  unfold one_done, coalesce. intros Hge. destruct (m !! a) as [n|] eqn:Hn; simpl in *; [|lia].
  destruct (decide (a = k)) as [<-|Hne].
  - rewrite (bool_decide_true (a = a)), Hn by done. simpl. destruct (_ <=? 0) eqn:E.
    + rewrite lookup_delete_eq. simpl. lia.
    + rewrite lookup_insert_eq. simpl. lia.
  - rewrite (bool_decide_false (a = k)) by done. simpl.
    destruct (_ <=? 0); rewrite ?lookup_delete_ne, ?lookup_insert_ne by done; lia.
Qed.

Lemma message_ok t a tenant t1 t2 m :
  messages_ok t m → t ≤ t1 → t1 ≤ t2 ≤ t1 + 60000000 → messages_ok t2 (on_message a tenant t1 t2 m).2.
Proof.
  intros [H1 H2 H3] Ht1 Ht2.
  assert (∀ k, in_flight_of (on_message a tenant t1 t2 m).2 k = count_in k (mg_running (on_message a tenant t1 t2 m).2) ∧
    in_flight_of (on_message a tenant t1 t2 m).2 k ≤ MAX_WS_INFLIGHT_MESSAGES_PER_AGENT) as Hin.
  { intros k. unfold on_message. destruct (getBucketForAgent _ _ _) as [b bs]. destruct (consume t2 b) as [g b'].
    destruct (negb g); [split; [apply H2|apply H3]|]. cbv zeta.
    destruct (MAX_WS_INFLIGHT_MESSAGES_PER_AGENT <=? in_flight_of m a) eqn:E; [split; [apply H2|apply H3]|].
    pose proof (H2 k) as Hk. pose proof (H3 k) as Hb. assert (0 ≤ in_flight_of m a) by (rewrite H2; unfold count_in; lia).
    assert (∀ x, coalesce (<[a := in_flight_of m a + 1]> (mg_inFlight m) !! x) 0 = in_flight_of m x + Z.b2z (a == x)) as Hins.
    { intros x. destruct (decide (a = x)) as [<-|Hne].
      - rewrite lookup_insert_eq, (bool_decide_true (a = a)) by done. done.
      - rewrite lookup_insert_ne, (bool_decide_false (a = x)) by done. simpl. unfold in_flight_of. lia. }
    assert (∀ x y z, in_flight_of {| mg_buckets := x; mg_inFlight := y; mg_running := z |} k = coalesce (y !! k) 0) as Hf by done.
    destruct (negb (truthy tenant)); cbn [snd mg_running]; rewrite Hf.
    - rewrite one_done_spec by (rewrite Hins, (bool_decide_true (a = a)) by done; simpl; lia). rewrite Hins. split; lia.
    - rewrite Hins, count_in_cons. split; [lia|].
      destruct (bool_decide (a = k)) eqn:Eak; simpl; [|lia]. apply bool_decide_eq_true in Eak as <-. lia. }
  split; [|apply Hin..].
  intros k e. rewrite message_buckets. intros [[<- <-]|[_ He]]%lookup_insert_Some.
  - cbn [we_bucket we_lastSeen]. unfold getBucketForAgent. destruct (mg_buckets m !! a) as [e|] eqn:He; cbn [fst].
    + destruct (H1 a e He) as (? & ? & ?). unfold consume.
      destruct (_ <? _) eqn:E; cbn [tb_tokens tb_lastRefill fst snd] in *; unfold WS_MESSAGE_BUCKET_CAPACITY, MESSAGE_COST in *; lia.
    + unfold consume, new_bucket. destruct (_ <? _) eqn:E; cbn [tb_tokens tb_lastRefill fst snd] in *; unfold WS_MESSAGE_BUCKET_CAPACITY, MESSAGE_COST in *; lia.
  - destruct (H1 k e He) as (? & ? & ?). lia.
Qed.

Lemma handled_ok t a l1 l2 m :
  messages_ok t m → mg_running m = l1 ++ a :: l2 → messages_ok t (on_handled a l1 l2 m).
Proof.
  intros [H1 H2 H3] Hr. assert (∀ k, in_flight_of m k = count_in k (l1 ++ l2) + Z.b2z (a == k)) as Hk.
  { intros k. rewrite H2, Hr, !count_in_app, count_in_cons. lia. }
  assert (1 ≤ in_flight_of m a) as Hge.
  { rewrite Hk, (bool_decide_true (a = a)) by done. unfold count_in. simpl. lia. }
  assert (∀ k, in_flight_of (on_handled a l1 l2 m) k = count_in k (l1 ++ l2)) as Hd.
  { intros k. unfold in_flight_of at 1. cbn [mg_inFlight on_handled]. rewrite one_done_spec by done.
    pose proof (Hk k) as E. unfold in_flight_of in E. lia. }
  split; [done|done|]. intros k. rewrite Hd. pose proof (Hk k). pose proof (H3 k).
  assert (0 ≤ Z.b2z (a == k)) by (destruct (bool_decide _); simpl; lia). lia.
Qed.

Lemma run_ok s m gs e m' :
  message_run s m gs e m' → messages_ok s m →
  messages_ok e m' ∧ ∀ a, MESSAGE_COST * count_in a gs + credit e m' a ≤ credit s m a + (e - s).
Proof.
  induction 1 as [|gs t t' m' _ IH Ht|gs t m' a tenant t1 t2 _ IH Ht1 Ht2|gs t m' a l1 l2 _ IH Hr|gs t m' _ IH]; intros H0.
  - split; [done|]. intros a. unfold count_in. simpl. lia.
  - destruct (IH H0) as [Hok Hc]. split; [by eapply wait_time_ok|]. intros a. pose proof (Hc a).
    pose proof (credit_wait t t' m' a Ht). lia.
  - destruct (IH H0) as [Hok Hc]. split; [by eapply message_ok|]. intros k. pose proof (Hc k).
    pose proof (credit_message t a tenant t1 t2 m' k Hok Ht1 (proj1 Ht2)) as Hm.
    destruct (message_granted _); [rewrite count_in_cons|]; simpl in Hm; [|lia].
    destruct (bool_decide (a = k)); simpl in *; lia.
  - destruct (IH H0) as [Hok Hc]. split; [by apply handled_ok|done].
  - destruct (IH H0) as [Hok Hc]. split; [by apply prune_ok|]. intros a. rewrite credit_prune by done. apply Hc.
Qed.

(** Between any two moments, over any mix of messages, reconnects, handlers
    ending and idle collection, an agent gets through at most twenty messages and
    five more for each second between them (a message is 200,000 microseconds of
    credit); forgetting an idle bucket gives nobody more; and the count of
    messages being handled is exact and never above sixteen. *)
Theorem message_rate_bound s0 s e gs0 gs m m' (Hbefore : message_run s0 message_start gs0 s m)
    (Hrun : message_run s m gs e m') :
  (∀ a, MESSAGE_COST * count_in a gs ≤ WS_MESSAGE_BUCKET_CAPACITY + (e - s)) ∧
  (∀ a, in_flight_of m' a = count_in a (mg_running m') ∧ in_flight_of m' a ≤ MAX_WS_INFLIGHT_MESSAGES_PER_AGENT).
Proof.
  apply run_ok in Hbefore as [Hok _]; [|apply start_ok]. apply run_ok in Hrun as [Hok' Hc]; [|done]. split.
  - intros a. pose proof (Hc a). assert (credit s m a ≤ WS_MESSAGE_BUCKET_CAPACITY).
    { unfold credit. destruct (mg_buckets m !! a); lia. }
    assert (0 ≤ credit e m' a); [|lia]. unfold credit. destruct (mg_buckets m' !! a) as [x|] eqn:Hx; [|done].
    destruct (mo_bucket _ _ Hok' a x Hx) as (? & ? & ?). unfold WS_MESSAGE_BUCKET_CAPACITY, MESSAGE_COST in *. lia.
  - intros a. split; apply Hok'.
Qed.

Lemma message_rate_bound_witness :
  MESSAGE_COST * count_in "a1" ["a1"] ≤ WS_MESSAGE_BUCKET_CAPACITY + (10 - 0).
Proof.
  refine (proj1 (message_rate_bound 0 0 10 [] ["a1"] message_start
    (on_message "a1" (Some "t1") 5 10 message_start).2 (mr_start 0 message_start) _) "a1").
  apply (mr_message 0 message_start [] 0 message_start "a1" (Some "t1") 5 10); [apply mr_start|lia|lia].
Defined.

(** Twenty messages at once are let through, the next one is not. *)
Example burst :
  message_granted (on_message "a1" (Some "t1") 0 0 (Nat.iter 20 (λ m, on_handled "a1" [] [] (on_message "a1" (Some "t1") 0 0 m).2)
    message_start)).1 = false.
Proof. vm_compute. reflexivity. Qed.
