(* ===== verification/Pipeline.v ===== *)
(** * The print pipeline as a whole

    Every write the gateway makes to [print_jobs] and [print_job_receipts],
    as steps of one system: creating jobs ([JobService]), handing them out and
    recording delivery ([JobDelivery], [AgentJobs]), agents' reports
    ([AgentJobs]), the maintenance sweep and retention ([JobMaintenance]), the
    operator's cleanup and agent deletion ([Operator]), lifecycle changes
    ([Lifecycle]) and the two statements of [src/app/api/agent/heartbeat/route.ts]
    that touch jobs. Steps interleave freely and carry their own clocks and
    stale reads, so the theorems hold for every order in which transactions
    commit. *)

From S2P Require Import Prelude DatabaseTime JobStatus Json Schema Authority Availability Payload.
From S2P Require Import PrinterVirtual Capability Entitlements Samples JobProtocol JobDelivery.
From S2P Require Import JobMaintenance AgentJobs JobService Lifecycle Operator.

(** ** The heartbeat's job statements *)

(** [UPDATE print_jobs SET updated_at = now() WHERE ... (id, claim_token) IN
    (...)]: the lease of the claims the agent says it is working on. *)
Definition renewable (tenantId agentId token : string) (j : print_job) : bool :=
  (pj_tenantId j == tenantId) && (pj_agentId j == agentId) && status_in [claimed; printing] j &&
  (pj_claimToken j == Some token).

Definition renew_leases (ck : clock) (tenantId agentId : string) (tokened : list (string * string))
    (d : db) : db :=
  update_jobs
    (omap (λ it : string * string,
       match print_jobs d !! it.1 with
       | Some j => if renewable tenantId agentId it.2 j then Some it.1 else None
       | None => None
       end) tokened)
    (set_updatedAt (now ck)) d.

(** [UPDATE print_jobs SET error = NULL ... RETURNING] and one notice per row:
    jobs paused because their printer was not shared, now that it is. *)
Definition paused (tenantId agentId : string) (sharedIds : list string) (j : print_job) : bool :=
  (pj_tenantId j == tenantId) && (pj_agentId j == agentId) && one_of sharedIds (pj_printerId j) &&
  (pj_status j == queued) && (pj_error j == Some PRINTER_NOT_SHARED_PAUSE).

Definition resume_paused (tenantId agentId : string) (positivelySharedIds : list string) (d : db) : db :=
  let rows := filter (λ kj : string * print_job, paused tenantId agentId positivelySharedIds kj.2 = true)
                (map_to_list (print_jobs d)) in
  let d1 := update_jobs rows.*1 (set_error None) d in
  with_notices (job_notices d1 ++ map (λ kj : string * print_job, {|
    jn_jobId := kj.1; jn_agentId := pj_agentId kj.2; jn_tenantId := pj_tenantId kj.2;
    jn_requestId := pj_requestId kj.2 |}) rows) d1.

(** ** Steps *)

Section system.
Context (sha256 : string → string) (decode : string → bytes) (Date_parse : string → option Z).
Context (utf8_length : string → Z) (jsonb_text_length octets : json → Z) (toISOString : Z → string).
Context (env : option jsnum).

Abbreviation create := (createPrintJobForPrinter sha256 decode Date_parse utf8_length jsonb_text_length).

Inductive system_step : db → db → Prop :=
| st_create a ck rawNow nanoid printerId payload o d_read d r d' :
    create a ck rawNow nanoid printerId payload o d_read d = Ok (r, d') →
    co_idempotencyKey o ≠ Some "" →               (* refused by the request schemas *)
    receipts d !! ("job_" +:+ nanoid) = None →    (* a random id is not one of an archived job *)
    system_step d d'
| st_poll ck token skip a d : system_step d (GET octets Date_parse toISOString env ck token skip a d).2
| st_push ck token skip jobId agentId pending d :
    system_step d (claimJobForDelivery env ck token skip jobId agentId pending d).2
| st_delivered ck jobId tenantId agentId token d :
    system_step d (markJobDelivered ck jobId tenantId agentId token d).2
| st_delivery_unknown ck jobId tenantId agentId token d :
    system_step d (markJobDeliveryUnknown ck jobId tenantId agentId token d).2
| st_ack ck jobId tenantId agentId token d :
    system_step d (recordJobAck ck jobId tenantId agentId token d).2
| st_release ck jobId tenantId agentId token reason d :
    system_step d (releaseUndeliveredClaim ck jobId tenantId agentId token reason d).2
| st_report ck a overLimit body d_read d_ack d :
    system_step d (PATCH sha256 ck a overLimit body d_read d_ack d).2
| st_heartbeat ck tenantId agentId tokened d : system_step d (renew_leases ck tenantId agentId tokened d)
| st_resume tenantId agentId sharedIds d : system_step d (resume_paused tenantId agentId sharedIds d)
| st_sweep scope n w d : system_step d (sweepPrintJobs env scope n w d).2
| st_retention env' ck scope skip d :
    system_step d (cleanupTerminalPrintJobs sha256 env' ck scope skip d).2
| st_cleanup claims confirm beforeRaw limitRaw databaseNow ck a d :
    system_step d (DELETE_jobs sha256 Date_parse claims confirm beforeRaw limitRaw databaseNow ck a d).2
| st_delete_agent manager id ck a d : system_step d (deleteAgent sha256 manager id ck a d).2
| st_other d d' :                                 (* inventory, billing, sessions, lifecycles *)
    print_jobs d' = print_jobs d → receipts d' = receipts d → system_step d d'.

(** ** Statements that neither add nor remove rows *)

Definition same_table (d d' : db) : Prop :=
  dom (print_jobs d') = dom (print_jobs d) ∧ receipts d' = receipts d.

#[local] Instance same_table_preorder : PreOrder same_table.
Proof. split; [done|]. intros d1 d2 d3 [? ?] [? ?]. split; congruence. Qed.

Lemma update_job_table id p f d : same_table d (update_job id p f d).2.
Proof.
  unfold update_job. destruct (print_jobs d !! id) as [j|] eqn:Hj; [|done]. case_if; [|done].
  split; [|done]. simpl. rewrite dom_insert_L.
  assert (id ∈ dom (print_jobs d)) by (apply elem_of_dom; eauto). set_solver.
Qed.

Lemma update_jobs_table ids f d : same_table d (update_jobs ids f d).
Proof. split; [apply update_ids_dom|done]. Qed.

(** The database after an [update_job] that is all an operation writes. *)
Ltac same_table_op :=
  repeat match goal with
  | |- context [update_job ?i ?p ?f ?d] =>
      let H := fresh "H" in
      pose proof (update_job_table i p f d) as H; destruct (update_job i p f d) as [[?|] ?]; simpl in H |- *
  | |- context [match ?x with _ => _ end] => destruct x
  end; first [done | by etrans].

Lemma push_table ck token skip jobId agentId pending d :
  same_table d (claimJobForDelivery env ck token skip jobId agentId pending d).2.
Proof. unfold claimJobForDelivery. same_table_op. Qed.

Lemma delivered_table ck jobId tenantId agentId token d :
  same_table d (markJobDelivered ck jobId tenantId agentId token d).2.
Proof. unfold markJobDelivered. same_table_op. Qed.

Lemma delivery_unknown_table ck jobId tenantId agentId token d :
  same_table d (markJobDeliveryUnknown ck jobId tenantId agentId token d).2.
Proof. unfold markJobDeliveryUnknown. same_table_op. Qed.

Lemma ack_table ck jobId tenantId agentId token d :
  same_table d (recordJobAck ck jobId tenantId agentId token d).2.
Proof. unfold recordJobAck. same_table_op. Qed.

Lemma release_table ck jobId tenantId agentId token reason d :
  same_table d (releaseUndeliveredClaim ck jobId tenantId agentId token reason d).2.
Proof. unfold releaseUndeliveredClaim. same_table_op. Qed.

Lemma poll_table ck token skip a d :
  same_table d (GET octets Date_parse toISOString env ck token skip a d).2.
Proof.
  unfold GET. destruct a as [a|]; [|done]. unfold claimJobs. case_if; [done|]. simpl. split; [|done].
  simpl. apply set_eq. intros k. rewrite !elem_of_dom, map_lookup_imap.
  destruct (print_jobs d !! k); simpl; split; intros [? ?]; try done; by eexists.
Qed.

Lemma report_table ck a overLimit body d_read d_ack d :
  same_table d (PATCH sha256 ck a overLimit body d_read d_ack d).2.
Proof.
  unfold PATCH. destruct a as [a|]; [|done]. destruct overLimit; [done|].
  destruct (patch_parse body) as [rq|]; [|done]. unfold patch_request_on.
  destruct (find_job d_read a _) as [job|]; [|done]. destruct (patch_replay _ _ _ _ _); [done|].
  assert (∀ current extra set yes no,
    same_table d (fenced_update a rq current extra set yes no d).2) as Hf.
  { intros. unfold fenced_update. same_table_op. }
  unfold patch_job, patch_expired, patch_crash_requeue, patch_handback, patch_post_expired, patch_transition.
  repeat first [done | apply Hf | match goal with |- context [match ?x with _ => _ end] => destruct x end].
Qed.

Lemma sweep_table scope n w d : same_table d (sweepPrintJobs env scope n w d).2.
Proof.
  assert (∀ p order skip f d, same_table d (sweep_statement scope n p order skip f d).2) as Hs
    by (intros; apply update_jobs_table).
  rewrite sweepPrintJobs_db. repeat (etrans; [|apply Hs]). done.
Qed.

Lemma heartbeat_table ck tenantId agentId tokened d :
  same_table d (renew_leases ck tenantId agentId tokened d).
Proof. apply update_jobs_table. Qed.

Lemma resume_table tenantId agentId ids d : same_table d (resume_paused tenantId agentId ids d).
Proof. unfold resume_paused. destruct (update_jobs_table
  (filter (λ kj : string * print_job, paused tenantId agentId ids kj.2 = true)
     (map_to_list (print_jobs d))).*1 (set_error None) d) as [H _]. by split. Qed.

(** ** The heartbeat only renews and resumes *)

Lemma renew_refines who ck tenantId agentId tokened d :
  jobs_refine who d (renew_leases ck tenantId agentId tokened d).
Proof.
  apply update_jobs_refines. intros id j _ _. row_step_setup.
  split; [by destruct (pj_status j)|]. by apply row_refines_still.
Qed.

Lemma resume_refines who tenantId agentId ids d : jobs_refine who d (resume_paused tenantId agentId ids d).
Proof.
  unfold resume_paused. etrans; [apply update_jobs_refines|by apply jobs_refine_frame].
  intros id j Hin Hj. apply list_elem_of_fmap in Hin as ([k x] & -> & Hin).
  apply list_elem_of_filter in Hin as [Hp Hx]. apply elem_of_map_to_list in Hx. simpl in *. simplify_eq.
  unfold paused in Hp. bools. row_step_setup. row_status. split; [row_facts|]. by apply row_refines_still.
Qed.

(** ** What a step does to the two tables *)

Definition anyone (_ : actor) : Prop := True.

(** Where a job that was once [j] is now: in the queue, moved by the protocol,
    or archived with a terminal outcome and the identity of the request. *)
Inductive fate (d : db) (id : string) (j : print_job) : Prop :=
| fate_live j' : print_jobs d !! id = Some j' → row_refines anyone j j' → fate d id j
| fate_archived j' rc :
    receipts d !! id = Some rc → row_refines anyone j j' → records sha256 j' rc →
    isTerminal (rc_status rc) = true →
    (isTerminal (pj_status j') = true → rc_status rc = pj_status j' ∧ rc_error rc = pj_error j') →
    fate d id j.

Definition start : protocol_state := {| ph := Waiting; attempts := 0; handbacks := 0 |}.

Record advances (d d' : db) : Prop := {
  adv_kept : ∀ id j, print_jobs d !! id = Some j → fate d' id j;
  adv_from : ∀ id j', print_jobs d' !! id = Some j' →
    (∃ j, print_jobs d !! id = Some j ∧ row_refines anyone j j') ∨ (abs j' = start ∧ row_ok j');
  adv_receipts : ∀ id rc, receipts d !! id = Some rc → receipts d' !! id = Some rc;
  adv_keys : keys_ok (print_jobs d') (receipts d');
}.

Lemma keys_ok_refines who d d' :
  keys_ok (print_jobs d) (receipts d) → jobs_refine who d d' → receipts d' = receipts d →
  keys_ok (print_jobs d') (receipts d').
Proof.
  intros (K1 & K2 & K3) Href ->. split; [|split; [|done]].
  - intros id j' Hj'. destruct (Href _ _ Hj') as (j & Hj & [(-> & _ & _ & _ & _ & _ & -> & _) _]).
    by apply K1.
  - intros id1 id2 j1' j2' H1 H2 (Hk & Ht & Hi).
    destruct (Href _ _ H1) as (j1 & Hj1 & [(T1 & _ & _ & _ & _ & _ & I1 & _) _]).
    destruct (Href _ _ H2) as (j2 & Hj2 & [(T2 & _ & _ & _ & _ & _ & I2 & _) _]).
    eapply K2; [done|done|]. rewrite <-T1, <-I1. split_and!; congruence.
Qed.

Lemma jobs_refine_advances who d d' :
  jobs_refine who d d' → same_table d d' → keys_ok (print_jobs d) (receipts d) → advances d d'.
Proof.
  intros Href [Hdom Hrc] Hk.
  assert (jobs_refine anyone d d') as Hany by (eapply jobs_refine_mono; [|exact Href]; done).
  split.
  - intros id j Hj. assert (is_Some (print_jobs d' !! id)) as [j' Hj']
      by (apply elem_of_dom; rewrite Hdom; apply elem_of_dom; eauto).
    destruct (Hany _ _ Hj') as (j0 & Hj0 & ?). simplify_eq. by eapply fate_live.
  - intros id j' Hj'. left. by apply Hany.
  - intros id rc. by rewrite Hrc.
  - by eapply keys_ok_refines.
Qed.

(** A step that files some rows away and leaves the others. *)
Lemma filing_advances (mk : print_job → receipt) d d' :
  (∀ j, records sha256 j (mk j)) →
  (∀ j, isTerminal (pj_status j) = true → rc_status (mk j) = pj_status j ∧ rc_error (mk j) = pj_error j) →
  (∀ id j, print_jobs d !! id = Some j → print_jobs d' !! id = Some j ∨
     (receipts d' !! id = Some (mk j) ∧ isTerminal (rc_status (mk j)) = true)) →
  print_jobs d' ⊆ print_jobs d →
  (∀ id rc, receipts d !! id = Some rc → receipts d' !! id = Some rc) →
  keys_ok (print_jobs d') (receipts d') → advances d d'.
Proof.
  intros Hrec Hout Hrows Hsub Hrc Hk. split; [|..|done|done].
  - intros id j Hj. destruct (Hrows _ _ Hj) as [Hl|[Hr Ht]].
    + eapply fate_live; [done|reflexivity].
    + eapply fate_archived; [done|reflexivity|done|done|apply Hout].
  - intros id j' Hj'. left. exists j'. split; [by eapply lookup_weaken|reflexivity].
Qed.

Lemma create_advances a ck rawNow nanoid printerId payload o d_read d r d' :
  create a ck rawNow nanoid printerId payload o d_read d = Ok (r, d') →
  co_idempotencyKey o ≠ Some "" → receipts d !! ("job_" +:+ nanoid) = None →
  keys_ok (print_jobs d) (receipts d) → advances d d'.
Proof.
  intros Hrun Hne Hfresh Hk.
  destruct (create_keeps_keys _ _ _ _ _ _ _ _ _ _ _ _ _ _ _ _ Hk Hne Hfresh Hrun) as (Hk' & Hrc & Hcase).
  destruct (cr_isReused r).
  { subst d'. eapply (jobs_refine_advances anyone); [reflexivity|done|done]. }
  destruct Hcase as (Hnew & rq & key & dbNow & e & Hjobs). split; [|..|by rewrite Hrc|done].
  - intros id j Hj. apply fate_live with j; [|reflexivity]. rewrite Hjobs.
    rewrite lookup_insert_ne; [done|congruence].
  - intros id j' Hj'. rewrite Hjobs in Hj'. apply lookup_insert_Some in Hj' as [[_ <-]|[_ Hj']].
    + right. split; [done|apply new_job_ok].
    + left. exists j'. split; [done|reflexivity].
Qed.

Lemma receipt_records j : records sha256 j (receipt_of sha256 j).
Proof. by split_and!. Qed.

Lemma retention_advances env' ck scope skip d :
  keys_ok (print_jobs d) (receipts d) →
  advances d (cleanupTerminalPrintJobs sha256 env' ck scope skip d).2.
Proof.
  intros Hk. destruct (retention_archives sha256 env' ck scope skip d Hk) as (H1 & H2 & H3 & H4).
  eapply (filing_advances (receipt_of sha256)); [apply receipt_records|done| |done|done|done].
  intros id j Hj. destruct (H1 _ _ Hj) as [?|(_ & ? & ? & _)]; auto.
Qed.

Lemma cleanup_advances claims confirm beforeRaw limitRaw databaseNow ck a d :
  keys_ok (print_jobs d) (receipts d) →
  advances d (DELETE_jobs sha256 Date_parse claims confirm beforeRaw limitRaw databaseNow ck a d).2.
Proof.
  intros Hk. destruct (DELETE_jobs _ _ _ _ _ _ _ _ _ _) as [resp d'] eqn:E.
  destruct (cleanup_archives _ _ _ _ _ _ _ _ _ _ _ _ Hk E) as (_ & H4 & H3 & H2 & H1).
  eapply (filing_advances (receipt_of sha256)); [apply receipt_records|done| |done|done|done].
  intros id j Hj. destruct (H1 _ _ Hj) as [?|(_ & ? & ? & _)]; auto.
Qed.

Lemma delete_agent_advances manager id ck a d :
  keys_ok (print_jobs d) (receipts d) → advances d (deleteAgent sha256 manager id ck a d).2.
Proof.
  intros Hk. assert (advances d d) as Hsame by (by eapply (jobs_refine_advances anyone)).
  unfold deleteAgent. destruct manager as [m|]; [|done]. repeat (case_if; [done|]).
  set (owned := ownedJobs (mc_tenantId m) (trim id) (agent_printer_ids d (mc_tenantId m) (trim id))).
  destruct (archive_owned_spec (deletion_receipt sha256 (clock_timestamp ck)) owned
    (S (size (print_jobs d))) d) as (n & d1 & -> & (B1 & B2 & B0 & B3 & B4 & _));
    [apply deletion_receipt_maker|lia|done|].
  eapply (filing_advances (deletion_receipt sha256 (clock_timestamp ck))); try done.
  - intros j Ht. simpl. by rewrite Ht.
  - intros k j Hj. destruct (owned j) eqn:Hown.
    + right. destruct (B1 _ _ Hj Hown) as [_ Hr]. split; [done|]. simpl.
      by destruct (isTerminal (pj_status j)) eqn:Ht.
    + left. by apply B2.
  - apply map_subseteq_spec. intros k j' Hj'. simpl in Hj'.
    destruct (print_jobs d !! k) as [j|] eqn:Hj; [|by rewrite B0 in Hj'].
    destruct (owned j) eqn:Hown.
    + destruct (B1 _ _ Hj Hown) as [Hn _]. congruence.
    + rewrite (B2 _ _ Hj Hown) in Hj'. done.
Qed.

#[local] Hint Resolve push_table delivered_table delivery_unknown_table ack_table release_table poll_table
  report_table sweep_table heartbeat_table resume_table claimJobForDelivery_refines
  markJobDelivered_refines markJobDeliveryUnknown_refines recordJobAck_refines
  releaseUndeliveredClaim_refines GET_refines PATCH_refines sweepPrintJobs_refines : gateway.

Lemma step_advances d d' : system_step d d' → keys_ok (print_jobs d) (receipts d) → advances d d'.
Proof.
  intros Hstep Hk. destruct Hstep;
    try (by eapply jobs_refine_advances; eauto with gateway nocore).
  - by eapply create_advances.
  - eapply (jobs_refine_advances anyone); eauto using renew_refines with gateway.
  - eapply (jobs_refine_advances anyone); eauto using resume_refines with gateway.
  - by apply retention_advances.
  - by apply cleanup_advances.
  - by apply delete_agent_advances.
  - eapply (jobs_refine_advances anyone); [by apply jobs_refine_frame|by split; congruence|done].
Qed.

(** ** Every interleaving *)

(** A gateway that started empty. *)
Definition reachable (d : db) : Prop :=
  ∃ d0, print_jobs d0 = ∅ ∧ receipts d0 = ∅ ∧ rtc system_step d0 d.

Lemma fate_advances d d' id j : fate d id j → advances d d' → fate d' id j.
Proof.
  intros [j1 Hj1 R1|j1 rc Hrc R1 Hrec Ht Hout] Hadv.
  - destruct (adv_kept _ _ Hadv _ _ Hj1) as [j2 Hj2 R2|j2 rc Hrc R2 Hrec Ht Hout].
    + eapply fate_live; [done|by etrans].
    + eapply fate_archived; [done|by etrans|done|done|done].
  - eapply fate_archived; [by eapply adv_receipts|done|done|done|done].
Qed.

Lemma steps_advance d d' :
  rtc system_step d d' → keys_ok (print_jobs d) (receipts d) →
  keys_ok (print_jobs d') (receipts d') ∧ (∀ id j, fate d id j → fate d' id j) ∧
  (∀ id rc, receipts d !! id = Some rc → receipts d' !! id = Some rc).
Proof.
  induction 1 as [d|d d1 d2 Hstep _ IH]; intros Hk; [done|].
  pose proof (step_advances _ _ Hstep Hk) as Hadv. destruct (IH (adv_keys _ _ Hadv)) as (Hk2 & Hf & Hr).
  split_and!; [done| |].
  - intros id j Hj. apply Hf. by eapply fate_advances.
  - intros id rc Hrc. apply Hr. by eapply adv_receipts.
Qed.

Lemma reachable_steps d d' : reachable d → rtc system_step d d' → reachable d'.
Proof. intros (d0 & ? & ? & ?) ?. exists d0. split_and!; [done|done|by etrans]. Qed.

Lemma start_invariant d :
  print_jobs d = ∅ → receipts d = ∅ → keys_ok (print_jobs d) (receipts d).
Proof. intros -> ->. split_and!; intros ? ? ?; try intros ?; by rewrite lookup_empty. Qed.

(** Every row of a reachable database is well formed and has a history that
    starts with its admission. *)
Lemma reachable_inv d :
  reachable d →
  keys_ok (print_jobs d) (receipts d) ∧
  ∀ id j, print_jobs d !! id = Some j → row_ok j ∧ ∃ es, history start es (abs j).
Proof.
  intros (d0 & Hj0 & Hr0 & Hsteps). pose proof (start_invariant _ Hj0 Hr0) as Hk.
  assert (∀ id j, print_jobs d0 !! id = Some j → row_ok j ∧ ∃ es, history start es (abs j)) as Hrows
    by (intros id j; by rewrite Hj0, lookup_empty).
  clear Hj0 Hr0. induction Hsteps as [d|d d1 d2 Hstep _ IH]; [done|].
  pose proof (step_advances _ _ Hstep Hk) as Hadv. apply IH; [by apply (adv_keys _ _ Hadv)|].
  intros id j1 Hj1. destruct (adv_from _ _ Hadv _ _ Hj1) as [(j & Hj & [_ Href])|[Habs Hok]].
  - destruct (Hrows _ _ Hj) as [Hok (es & Hh)]. destruct (Href Hok) as (Hok1 & es' & Hh' & _).
    split; [done|]. exists (es ++ es'). by eapply history_app.
  - split; [done|]. rewrite Habs. exists []. constructor.
Qed.

(** The state of a job as the gateway reports it, live or archived. *)
Definition outcome (d : db) (id : string) : option JobStatus :=
  match print_jobs d !! id with
  | Some j => Some (pj_status j)
  | None => rc_status <$> receipts d !! id
  end.

Lemma fate_outcome d id j :
  keys_ok (print_jobs d) (receipts d) → fate d id j → row_ok j →
  ∃ s, outcome d id = Some s ∧
    (isTerminal (pj_status j) = true → s = pj_status j ∨ (s = success ∧ pj_status j ≠ success)).
Proof.
  intros (K1 & _ & _) Hf Hok.
  assert (∀ j', row_refines anyone j j' → isTerminal (pj_status j) = true →
    isTerminal (pj_status j') = true ∧
    (pj_status j' = pj_status j ∨ (pj_status j' = success ∧ pj_status j ≠ success))) as Hter.
  { intros j' [_ Hr] Ht. destruct (Hr Hok) as (_ & es & Hh & _).
    destruct (pj_status j) eqn:Hs; try done;
      (edestruct (history_outcome _ _ _ (pj_status j) (pj_claimToken j) Hh) as (o & f & Ho & Hor);
       [unfold abs, abs_phase; simpl; by rewrite Hs|];
       unfold abs, abs_phase in Ho; simpl in Ho; rewrite Hs in Hor;
       destruct (pj_status j'); simplify_eq; naive_solver). }
  unfold outcome. destruct Hf as [j' Hj' Hr|j' rc Hrc Hr _ _ Hout].
  - rewrite Hj'. eexists. split; [done|]. intros Ht. by apply Hter.
  - destruct (print_jobs d !! id) as [x|] eqn:Hx.
    { destruct (K1 _ _ Hx) as [Hn _]. congruence. }
    rewrite Hrc. eexists. split; [done|]. intros Ht.
    destruct (Hter _ Hr Ht) as [Ht' Hor]. destruct (Hout Ht') as [-> _]. done.
Qed.

(** ** Guarantees *)

(** C4. The invariant of the pipeline: in every state the gateway can reach, by
    any interleaving of requests, agents, sweeps and operators, each job row is
    well formed (claims have tokens, budgets are within bounds, a printing job
    was delivered) and ids and idempotency keys are unique across live jobs
    and archived receipts. *)
Theorem pipeline_invariant d (Hd : reachable d) :
  keys_ok (print_jobs d) (receipts d) ∧ ∀ id j, print_jobs d !! id = Some j → row_ok j.
Proof.
  destruct (reachable_inv d Hd) as [Hk Hrows]. split; [done|].
  intros id j Hj. by apply (Hrows id).
Qed.



(** C3. Nothing accepted is lost and outcomes are final: from any reachable state,
    after any further steps, every job is still accounted for, as a live row or
    as a receipt; a finished one keeps its outcome, except that a failure or
    expiry may turn into success once; and receipts never change nor come back
    to life. *)
Theorem pipeline_final d d' (Hd : reachable d) (Hsteps : rtc system_step d d') :
  (∀ id j, print_jobs d !! id = Some j → ∃ s, outcome d' id = Some s ∧
     (isTerminal (pj_status j) = true → s = pj_status j ∨ (s = success ∧ pj_status j ≠ success))) ∧
  (∀ id rc, receipts d !! id = Some rc → receipts d' !! id = Some rc ∧ print_jobs d' !! id = None).
Proof.
  destruct (reachable_inv d Hd) as [Hk Hrows].
  destruct (steps_advance _ _ Hsteps Hk) as (Hk' & Hf & Hr). split.
  - intros id j Hj. apply (fate_outcome d' id j Hk'); [|by apply (Hrows id)].
    apply Hf. by eapply fate_live.
  - intros id rc Hrc. split; [by apply Hr|]. destruct (print_jobs d' !! id) as [j|] eqn:Hj; [|done].
    destruct Hk' as (K1 & _). destruct (K1 _ _ Hj) as [Hn _]. rewrite (Hr _ _ Hrc) in Hn. done.
Qed.

Lemma fate_kept d id j : fate d id j → kept sha256 d id j.
Proof.
  assert (∀ j', row_refines anyone j j' → same_logical j j') as Hl.
  { intros j' [(? & ? & ? & Hp & ? & ? & ? & ? & ? & _) _]. unfold same_logical. rewrite Hp.
    split_and!; try done. apply eqv_refl. }
  intros [j' Hj' Hr|j' rc Hrc Hr Hrec _ _].
  - eapply kept_live; eauto.
  - eapply kept_archived; eauto.
Qed.

(** C1. Exactly once, end to end: a request accepted under an idempotency key and
    repeated after any further activity (delivery, printing, failure, expiry,
    archiving) is answered with the same job and changes nothing, and no other
    job of that tenant ever carries the key. *)
Theorem enqueue_exactly_once a ck rawNow nanoid printerId payload o d_read d r d' d2
    a2 ck2 rawNow2 dbNow2 nanoid2 d_read2 pr2 ag2
  (Hd : reachable d)
  (Hrun : create a ck rawNow nanoid printerId payload o d_read d = Ok (r, d'))
  (Hnew : cr_isReused r = false)
  (Hkey : truthy (co_idempotencyKey o) = true) (Hplain : co_reprintOfJobId o = None)
  (Hid : receipts d !! ("job_" +:+ nanoid) = None)
  (Hsteps : rtc system_step d' d2)
  (Htenant : tenant_lifecycle d2 (co_tenantId o) = Some "active")
  (Hclock : read_clock Date_parse rawNow2 = Some dbNow2)
  (Howner : find_owner d_read2 (co_tenantId o) (trim printerId) = (Some pr2, Some ag2))
  (Hauth : ∀ requestedBy p, authority_fences d2 a2 ck2
     (request_of nanoid2 (trim printerId) (pr_agentId pr2) requestedBy p o) = Ok tt) :
  (∃ r2, create a2 ck2 rawNow2 nanoid2 printerId payload o d_read2 d2 = Ok (r2, d2) ∧
     cr_id r2 = cr_id r ∧ cr_isReused r2 = true) ∧
  ∀ id1 id2 j1 j2, print_jobs d2 !! id1 = Some j1 → print_jobs d2 !! id2 = Some j2 →
    same_request (co_tenantId o) (co_idempotencyKey o) j1 →
    same_request (co_tenantId o) (co_idempotencyKey o) j2 → id1 = id2.
Proof.
  assert (co_idempotencyKey o ≠ Some "") as Hne by (intros E; by rewrite E in Hkey).
  assert (reachable d') as Hd' by (eapply reachable_steps; [done|]; apply rtc_once; by eapply st_create).
  destruct (reachable_inv d' Hd') as [Hk' _]. destruct (steps_advance _ _ Hsteps Hk') as (Hk2 & Hf & _).
  destruct (reachable_inv d Hd) as [Hk _].
  destruct (create_keeps_keys _ _ _ _ _ _ _ _ _ _ _ _ _ _ _ _ Hk Hne Hid Hrun) as (_ & _ & Hcase).
  rewrite Hnew in Hcase. destruct Hcase as (_ & rq & key & dbNow & e & Hjobs).
  assert (print_jobs d' !! cr_id r = Some (new_job rq key dbNow e)) as Hj
    by (by rewrite Hjobs, lookup_insert_eq).
  split.
  - eapply retry_same_job; try done. apply fate_kept, Hf. eapply fate_live; [done|reflexivity].
  - destruct Hk2 as (_ & K2 & _). intros id1 id2 j1 j2 H1 H2 (Hs & Ht1 & Hi1) (_ & Ht2 & Hi2).
    eapply K2; [done|done|]. rewrite Ht1, Hi1. by split_and!.
Qed.
End system.

(** ** Witnesses: one order, from the request to the archive *)

Abbreviation sample_step := (system_step id pdf_decode (λ _, None) strlen (λ v, strlen (stringify v))
  (λ v, strlen (stringify v)) (λ _, "") None).
Abbreviation sample_reachable := (reachable id pdf_decode (λ _, None) strlen (λ v, strlen (stringify v))
  (λ v, strlen (stringify v)) (λ _, "") None).

Definition overdue_time : Z := 4000000.

(** The job is never picked up and expires; two days later it is archived. *)
Definition expired_db : db := (sweepPrintJobs None None 10 (idle_run overdue_time) ordered_db).2.
Definition filed_db : db :=
  (cleanupTerminalPrintJobs id None (at_time (overdue_time + hours 60)) None ∅ expired_db).2.

Definition expired_job : print_job :=
  order_job |> set_status expired |> set_updatedAt overdue_time.

Lemma ordered_reachable : sample_reachable ordered_db.
Proof.
  exists service_db. split; [done|]. split; [done|]. apply rtc_once.
  refine (st_create id pdf_decode (λ _, None) strlen (λ v, strlen (stringify v)) _ _ _
    sample_auth (at_time 2000) (DDate 2000) "x" "p1" pdf_payload order_request service_db service_db
    (sample_answer "x") ordered_db order_accepted _ _); [done|apply lookup_empty].
Qed.

Lemma expiry_step : sample_step ordered_db expired_db.
Proof. apply st_sweep. Qed.

Lemma filing_step : sample_step expired_db filed_db.
Proof. apply st_retention. Qed.

Lemma expired_reachable : sample_reachable expired_db.
Proof. eapply reachable_steps; [exact ordered_reachable|]. apply rtc_once, expiry_step. Qed.

Lemma expired_row : print_jobs expired_db !! "job_x" = Some expired_job.
Proof. vm_compute. reflexivity. Qed.

(** Or the agent claims it, and reports success under its claim. *)
Definition claimed_db : db :=
  (claimJobForDelivery None (at_time 3000) "tok" false "job_x" "a1" true ordered_db).2.
Definition success_body : json := JObject [
  ("jobId", JString "job_x"); ("status", JString "success"); ("claimToken", JString "tok")].
Definition printed_db : db :=
  (PATCH id (at_time 4000) (Some agent_a1) false (Some success_body) claimed_db claimed_db claimed_db).2.
Definition printed_job : print_job := default order_job (print_jobs printed_db !! "job_x").

Lemma printed_row : print_jobs printed_db !! "job_x" = Some printed_job.
Proof. vm_compute. reflexivity. Qed.

Lemma printed_reachable : sample_reachable printed_db.
Proof.
  eapply reachable_steps; [exact ordered_reachable|].
  apply rtc_l with claimed_db; [apply st_push|]. apply rtc_once, st_report.
Qed.


Lemma pipeline_invariant_witness : row_ok expired_job.
Proof.
  destruct (pipeline_invariant _ _ _ _ _ _ _ _ _ expired_reachable) as [_ H].
  exact (H _ _ expired_row).
Defined.


Lemma pipeline_final_witness : outcome filed_db "job_x" = Some expired.
Proof.
  destruct (pipeline_final _ _ _ _ _ _ _ _ _ _ expired_reachable (rtc_once _ _ filing_step)) as [H _].
  destruct (H _ _ expired_row) as (s & Hs & Hor). rewrite Hs. f_equal.
  destruct (Hor eq_refl) as [->|[-> _]]; [reflexivity|]. exfalso. revert Hs. vm_compute. discriminate.
Defined.

Lemma enqueue_exactly_once_witness :
  ∃ r2, service_run 9000000 "y" order_request expired_db expired_db = Ok (r2, expired_db) ∧
    cr_id r2 = "job_x" ∧ cr_isReused r2 = true.
Proof.
  apply (enqueue_exactly_once id pdf_decode (λ _, None) strlen (λ v, strlen (stringify v))
    (λ v, strlen (stringify v)) (λ _, "") None
    sample_auth (at_time 2000) (DDate 2000) "x" "p1" pdf_payload order_request service_db service_db
    (sample_answer "x") ordered_db expired_db sample_auth (at_time 9000000) (DDate 9000000) 9000000 "y"
    expired_db sample_printer sample_agent).
  - exists service_db. split_and!; [done|done|reflexivity].
  - exact order_accepted.
  - done.
  - vm_compute. reflexivity.
  - done.
  - apply lookup_empty.
  - apply rtc_once, expiry_step.
  - vm_compute. reflexivity.
  - done.
  - vm_compute. reflexivity.
  - intros requestedBy p. vm_compute. reflexivity.
Defined.
