(* ===== verification/Push.v ===== *)
(** * Push: handing a job to an agent over its WebSocket

    [src/server/ws.ts]: [buildJobEnvelope], [claimAndPushJobToAgent] and the
    notification that starts it. A push claims the job, serializes and sends the
    frame in one turn, and then records what happened in another transaction;
    any number of pushes, and every other operation of the gateway, may run in
    between. The frame is handed to a socket when [send] is entered: from then
    on nobody can tell whether it was printed. *)

From S2P Require Import Prelude DatabaseTime JobStatus Json Schema Authority Availability Payload.
From S2P Require Import PrinterVirtual Capability Entitlements Samples JobProtocol JobDelivery.
From S2P Require Import JobMaintenance AgentJobs JobService Lifecycle Operator Sockets Pipeline.

Definition MAX_WS_JOB_ENVELOPE_BYTES : Z := 8 * 1024 * 1024 - 512 * 1024.

Definition RELEASE_REASON : string := "websocket delivery failed before send; job requeued for redelivery".

Inductive PushOutcome : Type := delivered | no_open_socket | not_claimable | push_requeued | push_failed | delivery_unknown.

#[export] Instance PushOutcome_eq_dec : EqDecision PushOutcome.
Proof. solve_decision. Defined.

(** ** The frame *)

Definition nullable (o : option string) : json := match o with Some s => JString s | None => JNull end.

Section push.
Context (sha256 : string → string) (decode : string → bytes) (Date_parse : string → option Z).
Context (utf8_length : string → Z) (jsonb_text_length octets : json → Z) (toISOString : Z → string).
Context (env : option jsnum).

Abbreviation system_step := (system_step sha256 decode Date_parse utf8_length jsonb_text_length octets toISOString env).

(** [toISOString] of an invalid date throws. *)
Definition envelope_expiry (expiresAt : dbtime) : option string :=
  match expiresAt with
  | DDate ms => Some (toISOString ms)
  | DText s => toISOString <$> Date_parse (iso_of_db_text s)
  | DNull => toISOString <$> Date_parse (iso_of_db_text "null")
  end.

(** [expiresAt] is the column as the driver returned it. *)
Definition buildJobEnvelope (id : string) (job : print_job) (expiresAt : dbtime) : option json :=
  iso ← envelope_expiry expiresAt;
  Some (JObject [
    ("type", JString "print_job");
    ("job", JObject [
      ("id", JString id); ("agentId", JString (pj_agentId job)); ("printerId", JString (pj_printerId job));
      ("documentType", nullable (pj_documentType job)); ("status", JString (status_text (pj_status job)));
      ("payload", pj_payload job); ("expiresAt", JString iso); ("retries", JNumber (pj_retries job));
      ("claimToken", nullable (pj_claimToken job)); ("requestId", nullable (pj_requestId job))]);
    ("id", JString id); ("printerId", JString (pj_printerId job)); ("expiresAt", JString iso);
    ("requestId", nullable (pj_requestId job))]).

Definition serializeJobEnvelope (envelope : json) : string * Z :=
  let payload := stringify envelope in (payload, utf8_length payload).

(** ** A push *)

Record push := {
  pu_jobId : string;
  pu_agentId : string;
  pu_tenantId : string;
  pu_token : string;
}.

(** Where a push is: claimed, with the row it got; before the release; sent;
    before the unknown outcome is recorded. *)
Inductive push_state : Type :=
| push_claimed (row : print_job)
| push_release
| push_sent
| push_unknown.

(** The claim; [None] is a job that is not claimable. *)
Definition push_claim (ck : clock) (token : string) (skip : bool) (jobId agentId : string) (d : db)
    : option (push * print_job) * db :=
  match claimJobForDelivery env ck token skip jobId agentId true d with
  | (Some row, d') =>
      if truthy (pj_claimToken row)
      then (Some ({| pu_jobId := jobId; pu_agentId := agentId; pu_tenantId := pj_tenantId row;
                     pu_token := coalesce (pj_claimToken row) "" |}, row), d')
      else (None, d')
  | (None, d') => (None, d')
  end.

(** The turn after it: the frame, its size and the send. [None] is an exception;
    the last component is the socket the frame was handed to. *)
Definition push_send (p : push) (row : print_job) (expiresAt : dbtime) (buffered : string → Z)
    (throws : string → bool) (s : ws_state) : option push_state * ws_state * option string :=
  match buildJobEnvelope (pu_jobId p) row expiresAt with
  | None => (None, s, None)
  | Some envelope =>
      if MAX_WS_JOB_ENVELOPE_BYTES <? (serializeJobEnvelope envelope).2 then (Some push_release, s, None)
      else match sendJobToAgent (pu_agentId p) buffered throws s with
           | (not_sent, s', t) => (Some push_release, s', t)
           | (ambiguous, s', t) => (Some push_unknown, s', t)
           | (sent, s', t) => (Some push_sent, s', t)
           end
  end.

Definition push_release_claim (p : push) (ck : clock) (d : db) : PushOutcome * db :=
  match releaseUndeliveredClaim ck (pu_jobId p) (pu_tenantId p) (pu_agentId p) (Some (pu_token p)) RELEASE_REASON d with
  | (release_failed, d') => (push_failed, d')
  | (_, d') => (push_requeued, d')
  end.

Definition push_mark_unknown (p : push) (ck : clock) (d : db) : PushOutcome * db :=
  match markJobDeliveryUnknown ck (pu_jobId p) (pu_tenantId p) (pu_agentId p) (pu_token p) d with
  | (true, d') => (delivery_unknown, d')
  | (false, d') => (not_claimable, d')
  end.

(** The evidence; without it the outcome is unknown. *)
Definition push_mark_delivered (p : push) (ck : clock) (d : db) : option PushOutcome * db :=
  match markJobDelivered ck (pu_jobId p) (pu_tenantId p) (pu_agentId p) (Some (pu_token p)) d with
  | (true, d') => (Some delivered, d')
  | (false, d') => (None, d')
  end.

(** The whole push with nobody in between; [ready] is the answer of
    [waitForAgentSocketReady]. *)
Definition claimAndPushJobToAgent (ready : bool) (ck ck1 ck2 : clock) (token : string) (skip : bool)
    (jobId agentId : string) (expiresAt : dbtime) (buffered : string → Z) (throws : string → bool)
    (s : ws_state) (d : db) : option PushOutcome * ws_state * db :=
  if negb (hasOpenAgentSocket s agentId) && negb ready then (Some no_open_socket, s, d)
  else match push_claim ck token skip jobId agentId d with
       | (None, d1) => (Some not_claimable, s, d1)
       | (Some (p, row), d1) =>
           match push_send p row expiresAt buffered throws s with
           | (None, s1, _) => (None, s1, d1)
           | (Some push_release, s1, _) => let '(o, d2) := push_release_claim p ck1 d1 in (Some o, s1, d2)
           | (Some push_sent, s1, _) =>
               match push_mark_delivered p ck1 d1 with
               | (Some o, d2) => (Some o, s1, d2)
               | (None, d2) => let '(o, d3) := push_mark_unknown p ck2 d2 in (Some o, s1, d3)
               end
           | (Some _, s1, _) => let '(o, d2) := push_mark_unknown p ck1 d1 in (Some o, s1, d2)
           end
       end.

(** ** Overlapping pushes *)

(** The database, the server, the pushes on their way, the tokens drawn so far,
    and every hand-over: the token and the socket. *)
Record push_world := {
  pw_db : db;
  pw_ws : ws_state;
  pw_pushes : list (push * push_state);
  pw_tokens : list string;
  pw_handed : list (string * string);
}.

(** The hand-over of a send, if there was one. *)
Definition handed (p : push) (target : option string) : list (string * string) :=
  match target with Some t => [(pu_token p, t)] | None => [] end.

Inductive push_step : push_world → push_world → Prop :=
| pst_claim ck token skip jobId agentId p row d d' s ps ts hs :
    push_claim ck token skip jobId agentId d = (Some (p, row), d') → token ∉ ts →
    push_step (Build_push_world d s ps ts hs) (Build_push_world d' s ((p, push_claimed row) :: ps) (token :: ts) hs)
| pst_send p row expiresAt buffered throws g s' t d s ps1 ps2 ts hs :
    push_send p row expiresAt buffered throws s = (g, s', t) →
    push_step (Build_push_world d s (ps1 ++ (p, push_claimed row) :: ps2) ts hs)
      (Build_push_world d s' (ps1 ++ match g with Some g => [(p, g)] | None => [] end ++ ps2) ts (handed p t ++ hs))
| pst_release p ck d s ps1 ps2 ts hs :
    push_step (Build_push_world d s (ps1 ++ (p, push_release) :: ps2) ts hs)
      (Build_push_world (push_release_claim p ck d).2 s (ps1 ++ ps2) ts hs)
| pst_evidence p ck d s ps1 ps2 ts hs :
    push_step (Build_push_world d s (ps1 ++ (p, push_sent) :: ps2) ts hs)
      (Build_push_world (push_mark_delivered p ck d).2 s
         (ps1 ++ (if is_some (push_mark_delivered p ck d).1 then [] else [(p, push_unknown)]) ++ ps2) ts hs)
| pst_mark_unknown p ck d s ps1 ps2 ts hs :
    push_step (Build_push_world d s (ps1 ++ (p, push_unknown) :: ps2) ts hs)
      (Build_push_world (push_mark_unknown p ck d).2 s (ps1 ++ ps2) ts hs)
| pst_crash p g d s ps1 ps2 ts hs :
    push_step (Build_push_world d s (ps1 ++ (p, g) :: ps2) ts hs) (Build_push_world d s (ps1 ++ ps2) ts hs).

(** The rest of the gateway. *)
Inductive world_step : push_world → push_world → Prop :=
| wds_push w w' : push_step w w' → world_step w w'
| wds_turn d s s' ps ts hs :
    ws_step d s s' → world_step (Build_push_world d s ps ts hs) (Build_push_world d s' ps ts hs)
| wds_system d d' s ps ts hs :
    system_step d d' → world_step (Build_push_world d s ps ts hs) (Build_push_world d' s ps ts hs).

(** A push that may still hand over, or has not. *)
Definition before_hand_over (g : push_state) : bool :=
  match g with push_claimed _ | push_release => true | _ => false end.

Record pushes_ok (w : push_world) : Prop := {
  pk_tokens : ∀ p g, (p, g) ∈ pw_pushes w → pu_token p ∈ pw_tokens w;
  pk_handed : ∀ t c, (t, c) ∈ pw_handed w → t ∈ pw_tokens w;
  pk_distinct : NoDup ((pu_token ∘ fst) <$> pw_pushes w);
  pk_before : ∀ p g c, (p, g) ∈ pw_pushes w → before_hand_over g = true → (pu_token p, c) ∉ pw_handed w;
  pk_once : NoDup (pw_handed w).*1;
}.

Lemma push_claim_inv ck token skip jobId agentId d p row d' :
  push_claim ck token skip jobId agentId d = (Some (p, row), d') →
  pu_token p = token ∧ pu_jobId p = jobId ∧ pu_agentId p = agentId ∧
  d' = (claimJobForDelivery env ck token skip jobId agentId true d).2 ∧
  (claimJobForDelivery env ck token skip jobId agentId true d).1 = Some row.
Proof.
  unfold push_claim. destruct (claimJobForDelivery _ _ _ _ _ _ _ _) as [[row0|] d0] eqn:E; [|done].
  destruct (truthy (pj_claimToken row0)); [|done]. intros H. simplify_eq. simpl. split_and!; try done.
  assert (pj_claimToken row = Some token) as Ht; [|by rewrite Ht].
  unfold claimJobForDelivery in E. repeat case_match; simplify_eq.
  apply update_job_inv in E as [[? _]|(j & _ & _ & ? & _)]; by simplify_eq.
Qed.

Lemma pushes_sub w w' :
  pushes_ok w → pw_tokens w' = pw_tokens w → pw_handed w' = pw_handed w →
  (pw_pushes w' `sublist_of` pw_pushes w) → pushes_ok w'.
Proof.
  intros [H1 H2 H3 H4 H5] E1 E2 Hs. split; rewrite ?E1, ?E2; try done.
  - intros p g Hin. apply (H1 p g). by eapply elem_of_sublist.
  - eapply sublist_NoDup; [exact H3|]. by apply fmap_sublist.
  - intros p g c Hin. apply (H4 p g c). by eapply elem_of_sublist.
Qed.

(** One push moves on without handing over. *)
Lemma pushes_move p g g' d' s' d s ps1 ps2 ts hs :
  pushes_ok (Build_push_world d s (ps1 ++ (p, g) :: ps2) ts hs) →
  (before_hand_over g' = true → before_hand_over g = true) →
  pushes_ok (Build_push_world d' s' (ps1 ++ [(p, g')] ++ ps2) ts hs).
Proof.
  intros [H1 H2 H3 H4 H5] Hb. simpl in *. split; simpl; try done.
  - intros q x Hin. rewrite elem_of_app, elem_of_cons in Hin. destruct Hin as [Hin|[[= -> ->]|Hin]];
      [apply (H1 q x)|apply (H1 p g)|apply (H1 q x)]; set_solver.
  - by rewrite fmap_app, fmap_cons in *.
  - intros q x c Hin Hx. rewrite elem_of_app, elem_of_cons in Hin. destruct Hin as [Hin|[[= -> ->]|Hin]];
      [apply (H4 q x c); [set_solver|done]|apply (H4 p g c); [set_solver|by apply Hb]|apply (H4 q x c); [set_solver|done]].
Qed.

(** The send was entered. *)
Lemma pushes_hand p row g' t d' s' d s ps1 ps2 ts hs :
  pushes_ok (Build_push_world d s (ps1 ++ (p, push_claimed row) :: ps2) ts hs) → before_hand_over g' = false →
  pushes_ok (Build_push_world d' s' (ps1 ++ [(p, g')] ++ ps2) ts ((pu_token p, t) :: hs)).
Proof.
  intros [H1 H2 H3 H4 H5] Hb. simpl in *.
  assert (∀ q x, (q, x) ∈ ps1 ∨ (q, x) ∈ ps2 → pu_token q ≠ pu_token p) as Hne.
  { intros q x Hin Heq. rewrite fmap_app, fmap_cons in H3. apply NoDup_app in H3 as (_ & Hd & [Hn _]%NoDup_cons).
    assert (pu_token p ∈ (pu_token ∘ fst) <$> ps1 ∨ pu_token p ∈ (pu_token ∘ fst) <$> ps2) as [Hi|Hi].
    { destruct Hin as [Hin|Hin]; [left|right]; apply list_elem_of_fmap; exists (q, x); done. }
    - apply (Hd _ Hi). simpl. set_solver.
    - done. }
  split; simpl.
  - intros q x Hin. rewrite elem_of_app, elem_of_cons in Hin. destruct Hin as [Hin|[[= -> ->]|Hin]];
      [apply (H1 q x)|apply (H1 p (push_claimed row))|apply (H1 q x)]; set_solver.
  - intros t' c [[= -> ->]|Hin]%elem_of_cons; [apply (H1 p (push_claimed row)); set_solver|by apply (H2 t' c)].
  - by rewrite fmap_app, fmap_cons in *.
  - intros q x c Hin Hx [[= Heq ->]|Hc]%elem_of_cons; rewrite elem_of_app, elem_of_cons in Hin.
    + destruct Hin as [Hin|[[= -> ->]|Hin]]; [by apply (Hne q x); auto|congruence|by apply (Hne q x); auto].
    + destruct Hin as [Hin|[[= -> ->]|Hin]]; [|congruence|]; (eapply (H4 q x c); [set_solver|done|done]).
  - apply NoDup_cons. split; [|done]. intros ((t' & c) & Ht & Hin)%list_elem_of_fmap. simpl in Ht. subst t'.
    eapply (H4 p (push_claimed row) c); [set_solver|done|done].
Qed.

(** What the send did, by the socket it was entered on. *)
Lemma send_target agentId buffered throws s o s' t :
  sendJobToAgent agentId buffered throws s = (o, s', t) → o = not_sent ↔ t = None.
Proof.
  unfold sendJobToAgent. destruct (set_of s agentId) as [[sid l]|]; [|intros; simplify_eq; by split].
  generalize (reverse (filter (λ c, is_open s c = true) l)) as xs. induction xs as [|x xs IH]; cbn [send_loop]; [intros; simplify_eq; by split|].
  destruct (_ <? _); [done|]. destruct (negb _); [intros; simplify_eq; by split|].
  destruct (set_of s agentId) as [[? ?]|]; intros; simplify_eq; by split.
Qed.

Lemma push_send_inv p row expiresAt buffered throws s g s' t :
  push_send p row expiresAt buffered throws s = (g, s', t) →
  (t = None ∧ (g = None ∨ g = Some push_release)) ∨ (∃ c, t = Some c ∧ (g = Some push_sent ∨ g = Some push_unknown)).
Proof.
  unfold push_send. destruct (buildJobEnvelope _ _ _) as [e|]; [|intros; simplify_eq; by auto].
  destruct (_ <? _); [intros; simplify_eq; by auto|].
  destruct (sendJobToAgent _ _ _ _) as [[[] s0] t0] eqn:E; intros; simplify_eq; apply send_target in E.
  - right. destruct t as [c|]; [by eauto|]. discriminate (proj2 E eq_refl).
  - left. split; [by apply E|by auto].
  - right. destruct t as [c|]; [by eauto|]. discriminate (proj2 E eq_refl).
Qed.

Lemma push_step_ok w w' : push_step w w' → pushes_ok w → pushes_ok w'.
Proof.
  destruct 1 as [ck token skip jobId agentId p row d d' s ps ts hs Hc Hf|
    p row expiresAt buffered throws g s' t d s ps1 ps2 ts hs Hs|p ck d s ps1 ps2 ts hs|p ck d s ps1 ps2 ts hs|
    p ck d s ps1 ps2 ts hs|p g d s ps1 ps2 ts hs]; intros Hok.
  - apply push_claim_inv in Hc as (<- & _). destruct Hok as [H1 H2 H3 H4 H5]. simpl in *. split; simpl.
    + intros q x [[= -> ->]|Hin]%elem_of_cons; [set_solver|]. apply elem_of_cons. right. by apply (H1 q x).
    + intros t c Hin. apply elem_of_cons. right. by apply (H2 t c).
    + apply NoDup_cons. split; [|done]. intros ((q & x) & Ht & Hin)%list_elem_of_fmap. simpl in Ht.
      apply Hf. rewrite Ht. by apply (H1 q x).
    + intros q x c [[= -> ->]|Hin]%elem_of_cons Hb Hc'; [apply Hf; by apply (H2 _ c)|by apply (H4 q x c)].
    + done.
  - apply push_send_inv in Hs as [[-> [->| ->]]|(c & -> & [->| ->])]; simpl.
    + eapply pushes_sub; [exact Hok|done..|]. simpl. apply sublist_app; [done|]. by constructor.
    + by eapply pushes_move.
    + by eapply pushes_hand.
    + by eapply pushes_hand.
  - eapply pushes_sub; [exact Hok|done..|]. simpl. apply sublist_app; [done|]. by constructor.
  - destruct (is_some _); [|by eapply pushes_move].
    eapply pushes_sub; [exact Hok|done..|]. simpl. apply sublist_app; [done|]. by constructor.
  - eapply pushes_sub; [exact Hok|done..|]. simpl. apply sublist_app; [done|]. by constructor.
  - eapply pushes_sub; [exact Hok|done..|]. simpl. apply sublist_app; [done|]. by constructor.
Qed.

(** ** The push path is part of the pipeline *)

Lemma push_step_system w w' : push_step w w' → rtc system_step (pw_db w) (pw_db w').
Proof.
  destruct 1; simpl; try reflexivity; apply rtc_once.
  - apply push_claim_inv in H as (_ & _ & _ & -> & _). apply st_push.
  - unfold push_release_claim. pose proof (st_release sha256 decode Date_parse utf8_length jsonb_text_length octets
      toISOString env ck (pu_jobId p) (pu_tenantId p) (pu_agentId p) (Some (pu_token p)) RELEASE_REASON d) as H.
    by destruct (releaseUndeliveredClaim _ _ _ _ _ _ _) as [[] d'].
  - unfold push_mark_delivered. pose proof (st_delivered sha256 decode Date_parse utf8_length jsonb_text_length octets
      toISOString env ck (pu_jobId p) (pu_tenantId p) (pu_agentId p) (Some (pu_token p)) d) as H.
    by destruct (markJobDelivered _ _ _ _ _ _) as [[] d'].
  - unfold push_mark_unknown. pose proof (st_delivery_unknown sha256 decode Date_parse utf8_length jsonb_text_length octets
      toISOString env ck (pu_jobId p) (pu_tenantId p) (pu_agentId p) (pu_token p) d) as H.
    by destruct (markJobDeliveryUnknown _ _ _ _ _ _) as [[] d'].
Qed.

Lemma world_step_ok w w' : world_step w w' → pushes_ok w ∧ ws_ok (pw_ws w) → pushes_ok w' ∧ ws_ok (pw_ws w').
Proof.
  destruct 1 as [w w' H|d s s' ps ts hs H|d d' s ps ts hs H]; intros [Hp Hw]; simpl in *.
  - split; [by eapply push_step_ok|]. destruct H; simpl in *; try done.
    unfold push_send in H. destruct (buildJobEnvelope _ _ _); [|by simplify_eq]. destruct (_ <? _); [by simplify_eq|].
    pose proof (send_ok (pu_agentId p) buffered throws s Hw) as Hs.
    by destruct (sendJobToAgent _ _ _ _) as [[[] ?] ?]; simplify_eq.
  - split; [|by eapply ws_step_ok]. destruct Hp. by split.
  - split; [|done]. destruct Hp. by split.
Qed.

Lemma world_reached w w' :
  rtc world_step w w' → pushes_ok w → ws_ok (pw_ws w) →
  pushes_ok w' ∧ ws_ok (pw_ws w') ∧ rtc system_step (pw_db w) (pw_db w').
Proof.
  induction 1 as [w|w1 w2 w3 H _ IH]; [done|]. intros Hp Hw. destruct (world_step_ok _ _ H) as [Hp2 Hw2]; [done|].
  destruct (IH Hp2 Hw2) as (? & ? & ?). split_and!; [done..|]. etrans; [|done].
  destruct H as [w1 w2 Hs|d s s' ps ts hs Hs|d d' s ps ts hs Hs]; [by apply push_step_system|done|by apply rtc_once].
Qed.

Lemma update_job_from id p f d k j' :
  print_jobs (update_job id p f d).2 !! k = Some j' →
  print_jobs d !! k = Some j' ∨ ∃ j, k = id ∧ print_jobs d !! k = Some j ∧ p j = true ∧ j' = f j.
Proof.
  destruct (update_job id p f d) as [r d'] eqn:E. apply update_job_inv in E as [(_ & -> & _)|(j & Hj & Hp & _ & ->)]; [by left|].
  simpl. intros [[<- <-]|[_ H]]%lookup_insert_Some; [right|by left]. by exists j.
Qed.

(** A statement that queues nothing. *)
Lemma update_job_queues id p f d k j j' :
  (∀ x, pj_status (f x) = queued → pj_status x = queued) →
  print_jobs d !! k = Some j → print_jobs (update_job id p f d).2 !! k = Some j' →
  pj_status j' = queued → pj_status j = queued.
Proof.
  intros Hf Hj [H|(x & -> & Hx & _ & ->)]%update_job_from Hq; [congruence|].
  assert (x = j) as -> by congruence. by apply Hf.
Qed.

Lemma release_queues ck jobId tenantId agentId token reason d k j j' :
  print_jobs d !! k = Some j →
  print_jobs (releaseUndeliveredClaim ck jobId tenantId agentId token reason d).2 !! k = Some j' →
  pj_status j' = queued → pj_status j = queued ∨ pj_claimToken j = token.
Proof.
  intros Hj. unfold releaseUndeliveredClaim.
  destruct (update_job jobId _ (release_row ck reason) d) as [[r|] d1] eqn:E;
    apply update_job_inv in E as [(? & -> & _)|(x & Hx & Hp & ? & ->)]; try done; simpl.
  - intros [[<- <-]|[_ Hk]]%lookup_insert_Some Hq; [|left; congruence]. right.
    assert (x = j) as -> by congruence. unfold release_fence in Hp. by bools.
  - intros Hj' Hq. left. revert Hj'.
    destruct (update_job jobId _ (give_up_row ck reason) d) as [[r|] d2] eqn:E;
      apply update_job_inv in E as [(? & -> & _)|(x & Hx & Hp & ? & ->)]; try done; simpl; [|congruence].
    intros [[<- <-]|[_ Hk]]%lookup_insert_Some; [done|congruence].
Qed.

Lemma claim_queues ck token skip jobId agentId d k j j' :
  print_jobs d !! k = Some j → print_jobs (claimJobForDelivery env ck token skip jobId agentId true d).2 !! k = Some j' →
  pj_status j' = queued → pj_status j = queued.
Proof.
  intros Hj. unfold claimJobForDelivery.
  destruct (agent_tenant d agentId); [|simpl; congruence]. destruct (_ <=? _); [simpl; congruence|].
  destruct (print_jobs d !! jobId); [|simpl; congruence]. destruct (_ && _); [|simpl; congruence].
  by apply update_job_queues.
Qed.

(** The only write of a push that puts a job back is its release, and it is of
    its own claim. *)
Lemma push_requeues w w' id j j' :
  push_step w w' → print_jobs (pw_db w) !! id = Some j → print_jobs (pw_db w') !! id = Some j' →
  pj_status j' = queued → pj_status j = queued ∨ ∃ p, (p, push_release) ∈ pw_pushes w ∧ pj_claimToken j = Some (pu_token p).
Proof.
  destruct 1 as [ck token skip jobId agentId p row d d' s ps ts hs Hc Hf|
    p row expiresAt buffered throws g s' t d s ps1 ps2 ts hs Hs|p ck d s ps1 ps2 ts hs|p ck d s ps1 ps2 ts hs|
    p ck d s ps1 ps2 ts hs|p g d s ps1 ps2 ts hs]; simpl; intros Hj Hj' Hq; try (left; congruence).
  - left. apply push_claim_inv in Hc as (_ & _ & _ & -> & _). by eapply claim_queues.
  - assert (print_jobs (releaseUndeliveredClaim ck (pu_jobId p) (pu_tenantId p) (pu_agentId p) (Some (pu_token p))
      RELEASE_REASON d).2 !! id = Some j') as H.
    { unfold push_release_claim in Hj'. by destruct (releaseUndeliveredClaim _ _ _ _ _ _ _) as [[] d']. }
    destruct (release_queues _ _ _ _ _ _ _ _ _ _ Hj H Hq) as [?|?]; [by left|right]. exists p. split; [set_solver|done].
  - left. unfold push_mark_delivered, markJobDelivered in Hj'. destruct (negb _); [simpl in Hj'; congruence|].
    destruct (update_job _ _ _ d) as [r d1] eqn:E. pose proof (f_equal snd E) as E1. simpl in E1.
    destruct r; simpl in Hj'; rewrite <- E1 in Hj';
      (eapply update_job_queues; [|exact Hj|exact Hj'|exact Hq]; done).
  - left. unfold push_mark_unknown, markJobDeliveryUnknown in Hj'.
    destruct (update_job _ _ _ d) as [r d1] eqn:E. pose proof (f_equal snd E) as E1. simpl in E1.
    destruct r; simpl in Hj'; rewrite <- E1 in Hj';
      (eapply update_job_queues; [|exact Hj|exact Hj'|exact Hq]; done).
Qed.

(** Whom a send hands the frame to. *)
Lemma send_to_open agentId buffered throws s o s' c :
  ws_ok s → sendJobToAgent agentId buffered throws s = (o, s', Some c) →
  ∃ cn, ws_conns s !! c = Some cn ∧ cn_agentId cn = agentId ∧ cn_socketCounted cn = true ∧ cn_open cn = true.
Proof.
  intros Hok. unfold sendJobToAgent. destruct (set_of s agentId) as [[sid l]|] eqn:Hset; [|done]. intros H.
  assert (c ∈ reverse (filter (λ c, is_open s c = true) l)) as Hin.
  { revert H. generalize (reverse (filter (λ c, is_open s c = true) l)) as xs. induction xs as [|x xs IH]; [done|].
    cbn [send_loop]. destruct (_ <? _); [intros; set_solver|]. destruct (negb _); [intros; simplify_eq; set_solver|].
    rewrite Hset. intros. simplify_eq. set_solver. }
  rewrite reverse_Permutation in Hin. apply list_elem_of_filter in Hin as [Ho Hl]. unfold set_of in Hset.
  destruct (ws_agentSockets s !! agentId) as [sid0|] eqn:Ha; [|done]. simpl in Hset.
  destruct (ws_sets s !! sid0) as [l0|] eqn:Hl0; [|done]. simpl in Hset. simplify_eq.
  destruct (set_member _ _ _ _ _ (ok_registry _ Hok) Ha Hl0 Hl) as (cn & Hcn & Hct & Hag & _). exists cn.
  unfold is_open in Ho. rewrite Hcn in Ho. done.
Qed.

(** C32. However pushes, claims of polls, reports, sweeps and socket events
    overlap: each claim is handed to a socket at most once, and that socket is an
    open, registered one of the agent the job was claimed for; a job whose frame
    was handed over is not put back into the queue by any push; and the database
    is one the pipeline reaches, so everything proved of the pipeline holds of
    the pushes too. *)
Theorem push_hands_over_once d0 s0 w
    (Hd : reachable sha256 decode Date_parse utf8_length jsonb_text_length octets toISOString env d0)
    (Hs : ws_ok s0) (Hreach : rtc world_step (Build_push_world d0 s0 [] [] []) w) :
  NoDup (pw_handed w).*1 ∧
  reachable sha256 decode Date_parse utf8_length jsonb_text_length octets toISOString env (pw_db w) ∧
  ∀ w', push_step w w' →
    (∀ t c, (t, c) ∈ pw_handed w' → (t, c) ∉ pw_handed w → ∃ p row cn, (p, push_claimed row) ∈ pw_pushes w ∧
       pu_token p = t ∧ ws_conns (pw_ws w) !! c = Some cn ∧ cn_agentId cn = pu_agentId p ∧
       cn_socketCounted cn = true ∧ cn_open cn = true) ∧
    (∀ id j j' t c, print_jobs (pw_db w) !! id = Some j → print_jobs (pw_db w') !! id = Some j' →
       pj_claimToken j = Some t → (t, c) ∈ pw_handed w → pj_status j ≠ queued → pj_status j' ≠ queued).
Proof.
  destruct (world_reached _ _ Hreach) as (Hp & Hw & Hsys); [|done|].
  { split; simpl; try constructor; intros; by try (apply not_elem_of_nil in H). }
  split_and!; [apply Hp|by eapply reachable_steps|]. intros w' Hstep. split.
  - intros t c Hin Hno. destruct Hstep; simpl in *; try done.
    unfold push_send in H. destruct (buildJobEnvelope _ _ _); [|by simplify_eq]. destruct (_ <? _); [by simplify_eq|].
    assert (t0 = Some c ∧ pu_token p = t) as [-> Ht].
    { destruct t0 as [x|]; [|done]. simpl in Hin. apply elem_of_cons in Hin as [[= -> ->]|?]; done. }
    destruct (sendJobToAgent _ _ _ _) as [[o s1] x] eqn:E. assert (x = Some c) as -> by (destruct o; by simplify_eq).
    apply send_to_open in E as (cn & ?); [|done]. exists p, row, cn. split; [set_solver|done].
  - intros id j j' t c Hj Hj' Ht Hin Hnq Hq.
    destruct (push_requeues _ _ _ _ _ Hstep Hj Hj' Hq) as [?|(p & Hp' & Htok)]; [done|].
    apply (pk_before _ Hp p push_release c Hp' eq_refl). by simplify_eq.
Qed.
End push.

(** ** The notification *)

Definition MAX_NOTIFICATION_RETRY_TIMERS : Z := 128.
Definition NOTIFICATION_RETRY_DELAYS_MS : list Z := [125; 375; 1000].

Definition jobNoticeTenantAllowed (noticeTenant : option json) (socketTenant : option string) : bool :=
  match noticeTenant with
  | Some (JString t) => (t != "") && truthy socketTenant && (socketTenant == Some t)
  | _ => false
  end.

(** The tenant of the first socket of the agent's set. *)
Definition socket_tenant (s : ws_state) (agentId : string) : option string :=
  '(_, l) ← set_of s agentId; c ← head l; cn_tenantId <$> ws_conns s !! c.

(** What a job notification starts: the job and the agent, for [pushNotifiedJob];
    the readiness wait is over. *)
Definition admit_notice (notice : json) (s : ws_state) : option (string * string) :=
  match json_field notice "jobId", json_field notice "agentId" with
  | Some (JString jobId), Some (JString agentId) =>
      if jobNoticeTenantAllowed (json_field notice "tenantId") (socket_tenant s agentId)
      then Some (jobId, agentId) else None
  | _, _ => None
  end.

(** After a push: whether another is scheduled, with its delay, and the timers.
    [timers] are the keys [agentId:jobId] that have one. *)
Definition schedule_retry (stopped : bool) (outcome : PushOutcome) (retryCount : nat) (open : bool) (key : string)
    (timers : gset string) : option (Z * gset string) :=
  if bool_decide (outcome ≠ not_claimable) || stopped || (length NOTIFICATION_RETRY_DELAYS_MS <=? retryCount)%nat || negb open
  then None
  else if bool_decide (key ∈ timers) || (MAX_NOTIFICATION_RETRY_TIMERS <=? Z.of_nat (size timers)) then None
  else delay ← NOTIFICATION_RETRY_DELAYS_MS !! retryCount; Some (delay, {[key]} ∪ timers).

(** The pushes one notification leads to: [outcomes] is what each of them would
    answer, and the timer fires before the next one. *)
Fixpoint notice_pushes (stopped open : bool) (key : string) (timers : gset string) (retryCount : nat)
    (outcomes : list PushOutcome) : nat :=
  match outcomes with
  | [] => 0
  | o :: rest =>
      match schedule_retry stopped o retryCount open key timers with
      | Some _ => S (notice_pushes stopped open key timers (S retryCount) rest)
      | None => 1
      end
  end.

Lemma schedule_retry_inv stopped o n open key timers delay timers' :
  schedule_retry stopped o n open key timers = Some (delay, timers') →
  o = not_claimable ∧ (n < 3)%nat ∧ (key ∉ timers) ∧ timers' = {[key]} ∪ timers ∧
  Z.of_nat (size timers') ≤ MAX_NOTIFICATION_RETRY_TIMERS.
Proof.
  unfold schedule_retry. match goal with |- context [if ?b then _ else _] => destruct b eqn:E1; [done|] end.
  match goal with |- context [if ?b then _ else _] => destruct b eqn:E2; [done|] end.
  apply orb_false_iff in E1 as [[[E1 _]%orb_false_iff E3]%orb_false_iff _].
  apply orb_false_iff in E2 as [E2 E4]. apply bool_decide_eq_false in E1, E2. apply Nat.leb_gt in E3. simpl in E3.
  destruct (NOTIFICATION_RETRY_DELAYS_MS !! n) as [x|]; [|done]. simpl. intros [= <- <-].
  split_and!; [by destruct (decide (o = not_claimable))|done|done|done|].
  rewrite size_union by set_solver. rewrite size_singleton. lia.
Qed.

(** A notification leads to at most four pushes. *)
Lemma notice_pushes_bounded stopped open key timers n outcomes :
  (n ≤ 3)%nat → (notice_pushes stopped open key timers n outcomes + n ≤ 4)%nat.
Proof.
  revert n. induction outcomes as [|o os IH]; intros n Hn; simpl; [lia|].
  destruct (schedule_retry _ _ _ _ _ _) as [[delay timers']|] eqn:E; [|lia].
  apply schedule_retry_inv in E as (_ & Hlt & _). specialize (IH (S n)). lia.
Qed.

(** A notice pushes only when it names the tenant of the agent's socket. *)
Lemma admit_notice_tenant notice s jobId agentId :
  admit_notice notice s = Some (jobId, agentId) →
  ∃ t, json_field notice "tenantId" = Some (JString t) ∧ socket_tenant s agentId = Some t.
Proof.
  unfold admit_notice. repeat case_match; try done. intros [= -> ->]. unfold jobNoticeTenantAllowed in *.
  repeat case_match; try done. bools. simplify_eq. eauto.
Qed.

(** ** An order is pushed *)

Definition sample_world_step :=
  world_step id pdf_decode (λ _, None) strlen (λ v, strlen (stringify v)) (λ v, strlen (stringify v)) (λ _, "") None.

Definition order_push : push := {| pu_jobId := "job_x"; pu_agentId := "a1"; pu_tenantId := "t1"; pu_token := "tok" |}.
Definition order_row : print_job := default order_job (print_jobs claimed_db !! "job_x").

Definition claimed_world : push_world :=
  Build_push_world claimed_db connected [(order_push, push_claimed order_row)] ["tok"] [].
Definition sent_world : push_world :=
  Build_push_world claimed_db connected [(order_push, push_sent)] ["tok"] [("tok", "c1")].

Lemma sent_reached : rtc sample_world_step (Build_push_world ordered_db connected [] [] []) sent_world.
Proof.
  eapply rtc_l with claimed_world.
  - apply wds_push. apply (pst_claim _ _ _ _ (at_time 3000) "tok" false "job_x" "a1"); [|set_solver].
    vm_compute. reflexivity.
  - apply rtc_once, wds_push.
    apply (pst_send _ _ _ _ order_push order_row (DDate 3602000) (λ _, 0) (λ _, false) (Some push_sent) connected (Some "c1")
      claimed_db connected [] [] ["tok"] []). vm_compute. reflexivity.
Qed.

Lemma push_hands_over_once_witness : NoDup (pw_handed sent_world).*1.
Proof.
  refine (proj1 (push_hands_over_once id pdf_decode (λ _, None) strlen (λ v, strlen (stringify v))
    (λ v, strlen (stringify v)) (λ _, "") None ordered_db connected sent_world ordered_reachable _ sent_reached)).
  exact (ws_reach_ok _ _ connected_reached ws_start_ok).
Defined.

(** Alone, the push ends with the evidence; when [send] throws, the job is marked
    unknown and not queued again. *)
Example push_alone :
  (claimAndPushJobToAgent (λ _, None) strlen (λ _, "") None false (at_time 3000) (at_time 3001) (at_time 3002) "tok" false
     "job_x" "a1" (DDate 3602000) (λ _, 0) (λ _, false) connected ordered_db).1.1 = Some delivered ∧
  (claimAndPushJobToAgent (λ _, None) strlen (λ _, "") None false (at_time 3000) (at_time 3001) (at_time 3002) "tok" false
     "job_x" "a1" (DDate 3602000) (λ _, 0) (λ _, true) connected ordered_db).1.1 = Some delivery_unknown.
Proof. split; vm_compute; reflexivity. Qed.
