(* ===== verification/Heartbeat.v ===== *)
(** * Heartbeat: what an agent's report changes

    The transaction of [src/app/api/agent/heartbeat/route.ts], statement by
    statement: the page order of an inventory snapshot, lease renewal,
    desired-state acknowledgements, denial and permission to share, observation
    of known printers, registration of new ones within the plan's limit, release
    of paused jobs, and absence. The tenant's advisory lock and the agent's row
    lock make it one step. *)

From S2P Require Import Prelude DatabaseTime JobStatus Json NetworkAddress Schema PrinterModel Authority Availability Payload.
From S2P Require Import PrinterVirtual Capability Entitlements Inventory Samples DesiredState JobProtocol JobDelivery.
From S2P Require Import JobMaintenance AgentJobs JobService Lifecycle Operator Pipeline.

Abbreviation fleet := (gmap (string * string) printer).

(** ** Acknowledgements *)

Definition ack_revision (v : option json) : Z :=
  match v with Some (JNumber n) => if isSafeInteger n && (0 <=? n) then n else -1 | _ => -1 end.

(** [LEAST] and [GREATEST] keep what was acknowledged before, and keep it below
    what is desired. *)
Definition acknowledge (applied observed : Z) (p : printer) : printer :=
  set_revisions
    (Z.min (pr_desiredRevision p) (Z.max (pr_appliedDesiredRevision p) applied))
    (Z.min (pr_desiredRevision p)
       (Z.max (pr_observedDesiredRevision p) (Z.min observed (Z.max (pr_appliedDesiredRevision p) applied)))) p.

Definition apply_ack (a : agent_identity) (rawAck : json) (P : fleet) : fleet :=
  let printerId := match json_field rawAck "printerId" with Some (JString s) => trim s | _ => "" end in
  let applied := ack_revision (json_field rawAck "appliedDesiredRevision") in
  let observed := ack_revision (json_field rawAck "observedDesiredRevision") in
  if (printerId == "") || (applied <? 0) || (observed <? 0) then P
  else alter (λ p, if (pr_agentId p == ai_id a) && (pr_managementSource p == "manager") then acknowledge applied observed p else p)
         (ai_tenantId a, printerId) P.

(** ** Sharing *)

(** [version IS NULL OR version::numeric <= incoming::numeric]. *)
Definition denial_applies (version : option string) (p : printer) : bool :=
  match pr_sharedWithGatewayVersion p with
  | None => true
  | Some v => match version with Some w => version_number v <=? version_number w | None => false end
  end.

Definition deny_private (a : agent_identity) (h : heartbeat) (now : Z) (P : fleet) : fleet :=
  foldr (λ id P, alter (λ p,
    if (pr_agentId p == ai_id a) && denial_applies (hb_version h) p
    then set_printer_updated now (set_sharing false (hb_version h) p) else p) (ai_tenantId a, id) P) P (hb_privateIds h).

Definition mayUpdateSharing (h : heartbeat) (p : sanitized) (existing : printer) : bool :=
  sz_sharedWithGateway p &&
  match hb_version h with
  | None => false
  | Some incoming =>
      match pr_sharedWithGatewayVersion existing with
      | None => true
      | Some retained => version_number retained <? version_number incoming
      end
  end.

(** ** Reading the page *)

Section heartbeat.
Context (URL : string → option url) (utf8_length : string → Z) (sha256 encode decode : string → string).

(** The printers of a page and the ones it leaves out, with the reason. A denied
    printer is not read at all. *)
Definition sanitize_page (private : list string) (raws : list json) : list sanitized * list (string * string) :=
  foldr (λ raw '(printers, skipped),
    let rawId := match json_field raw "id" with Some (JString s) => s | _ => "(unknown)" end in
    if one_of private (trim rawId) then (printers, skipped)
    else match sanitizePrinter URL utf8_length raw with
         | Ok p => (p :: printers, skipped)
         | Err reason => (printers, (rawId, reason) :: skipped)
         end) ([], []) raws.

Definition with_id (id : string) (p : sanitized) : sanitized := {|
  sz_id := id; sz_name := sz_name p; sz_printerType := sz_printerType p; sz_deviceClass := sz_deviceClass p;
  sz_connectionType := sz_connectionType p; sz_protocol := sz_protocol p; sz_status := sz_status p;
  sz_sharedWithGateway := sz_sharedWithGateway p; sz_config := sz_config p; sz_capabilities := sz_capabilities p |}.

(** A local id that belongs to another agent becomes this agent's alias. *)
Definition resolve_alias (a : agent_identity) (P : fleet) (p : sanitized) : sanitized :=
  match P !! (ai_tenantId a, sz_id p) with
  | Some existing =>
      if pr_agentId existing != ai_id a then with_id (aliasPrinterIdForAgent sha256 (sz_id p) (ai_id a)) p else p
  | None => p
  end.

Definition page_aliases (a : agent_identity) (P : fleet) (l : list sanitized) : list (string * string) :=
  omap (λ p, let q := resolve_alias a P p in if sz_id q == sz_id p then None else Some (sz_id p, sz_id q)) l.

(** The printers the page is about, under their stored identities. *)
Definition page_printers (a : agent_identity) (h : heartbeat) (P : fleet) : list sanitized :=
  filter (λ p, one_of (hb_privateIds h) (sz_id p) = false)
    (map (resolve_alias a P) (sanitize_page (hb_privateIds h) (hb_printers h)).1).

(** ** Capacity *)

(** What the plan's [max_printers] counts. *)
Definition counted (p : printer) : bool :=
  (pr_lifecycle p != "retired") && pr_sharedWithGateway p && ((pr_managementSource p != "agent") || pr_inventoryPresent p).

Definition printer_count (tenantId : string) (P : fleet) : Z :=
  Z.of_nat (size (filter (λ kp : (string * string) * printer, kp.1.1 = tenantId ∧ counted kp.2 = true) P)).

(** Whether taking this report at face value makes the printer count. *)
Definition capacity_candidate (a : agent_identity) (h : heartbeat) (P : fleet) (p : sanitized) : bool :=
  match P !! (ai_tenantId a, sz_id p) with
  | None => negb (one_of (hb_gatewayOwned h) (sz_id p))
  | Some existing =>
      if pr_agentId existing != ai_id a then false
      else if pr_lifecycle existing == "retired" then false
      else if negb (pr_sharedWithGateway existing) then mayUpdateSharing h p existing
      else if pr_managementSource existing != "agent" then false
      else negb (pr_inventoryPresent existing)
  end.

Definition candidate_ids (a : agent_identity) (h : heartbeat) (P : fleet) (l : list sanitized) : list string :=
  merge_sort String.le (remove_dups (map sz_id (filter (λ p, capacity_candidate a h P p = true) l))).

(** The candidates that do not fit, and whether billing is the reason; an error
    that is not one of billing aborts the heartbeat. *)
Definition over_limit (d : db) (ck : clock) (tenantId : string) (P : fleet) (candidates : list string)
    : result (list string * bool) tenant_error :=
  if bool_decide (candidates = []) then Ok ([], false)
  else match getTenantEntitlementLimit d ck tenantId "max_printers" with
       | Err e => if isTenantBillingError e then Ok (candidates, true) else Err e
       | Ok None => Ok ([], false)
       | Ok (Some limit) =>
           let available := Z.max 0 (limit - printer_count tenantId P) in
           Ok (drop (Z.to_nat available) candidates, false)
       end.

(** ** Writing the page *)

(** What the loops share: the rows as they were read and the candidates over the
    limit. *)
Record page_ctx := {
  px_agent : agent_identity;
  px_heartbeat : heartbeat;
  px_now : Z;
  px_rows : fleet;
  px_over : list string;
  px_blocked : bool;
}.

(** What they accumulate. *)
Record page_state := {
  pg_fleet : fleet;
  pg_skipped : list (string * string);
  pg_hadErrors : bool;
  pg_shared : list string;
}.

Definition over_reason (x : page_ctx) : string := if px_blocked x then "billing_required" else "max_printers_exceeded".

Definition snapshot_stamp (h : heartbeat) (p : printer) : printer :=
  if snapshotEnabled h then set_snapshot (Some (hb_snapshotId h)) p else p.

(** The printer would come back, but the plan has no room. *)
Definition reactivation_blocked (x : page_ctx) (p : sanitized) (existing : printer) : bool :=
  pr_sharedWithGateway existing && (pr_managementSource existing == "agent") && (pr_lifecycle existing != "retired")
  && negb (pr_inventoryPresent existing) && one_of (px_over x) (sz_id p).

Definition reshare_blocked (x : page_ctx) (p : sanitized) (existing : printer) : bool :=
  negb (pr_sharedWithGateway existing) && mayUpdateSharing (px_heartbeat x) p existing && one_of (px_over x) (sz_id p).

(** [SET] of an observation of a known printer. *)
Definition observe_row (x : page_ctx) (p : sanitized) (existing row : printer) : printer :=
  let blocked := reactivation_blocked x p existing in
  let observed := snapshot_stamp (px_heartbeat x)
    (set_observation (if blocked then "unknown" else sz_status p) (Some (sz_deviceClass p)) (sz_capabilities p)
       (Some (px_now x)) (negb blocked) row) in
  let shared := if mayUpdateSharing (px_heartbeat x) p existing && negb (reshare_blocked x p existing)
                then set_sharing true (hb_version (px_heartbeat x)) observed else observed in
  if pr_managementSource existing == "agent"
  then set_definition (sz_name p) (sz_printerType p) (sz_deviceClass p) (sz_connectionType p) (sz_protocol p)
         (Some (sz_config p)) shared
  else shared.

Definition observe_printer (x : page_ctx) (st : page_state) (p : sanitized) : page_state :=
  let a := px_agent x in
  let key := (ai_tenantId a, sz_id p) in
  match px_rows x !! key with
  | None => st
  | Some existing =>
      if pr_agentId existing != ai_id a
      then {| pg_fleet := pg_fleet st;
              pg_skipped := pg_skipped st ++ [(sz_id p, "owned_by_another_agent (" +:+ pr_agentId existing +:+ ")")];
              pg_hadErrors := true; pg_shared := pg_shared st |}
      else
        let updateSharing := mayUpdateSharing (px_heartbeat x) p existing in
        let blocked := reactivation_blocked x p existing || reshare_blocked x p existing in
        {| pg_fleet := alter (λ row, if (pr_agentId row == ai_id a) && (pr_managementSource row == pr_managementSource existing)
                                     then observe_row x p existing row else row) key (pg_fleet st);
           pg_skipped := pg_skipped st ++ (if blocked then [(sz_id p, over_reason x)] else []);
           pg_hadErrors := pg_hadErrors st;
           pg_shared := pg_shared st ++ (if updateSharing && negb blocked then [sz_id p] else []) |}
  end.

Definition new_printer (x : page_ctx) (p : sanitized) : printer := {|
  pr_agentId := ai_id (px_agent x); pr_name := sz_name p; pr_printerType := sz_printerType p;
  pr_deviceClass := sz_deviceClass p; pr_connectionType := sz_connectionType p; pr_protocol := sz_protocol p;
  pr_status := sz_status p; pr_lifecycle := "active"; pr_managementSource := "agent"; pr_sharedWithGateway := true;
  pr_sharedWithGatewayVersion := if sz_sharedWithGateway p then hb_version (px_heartbeat x) else None;
  pr_desiredRevision := 0; pr_appliedDesiredRevision := 0; pr_observedDesiredRevision := 0;
  pr_observedDeviceClass := Some (sz_deviceClass p); pr_config := Some (sz_config p);
  pr_capabilities := sz_capabilities p; pr_inventoryPresent := true;
  pr_inventorySnapshotId := if snapshotEnabled (px_heartbeat x) then Some (hb_snapshotId (px_heartbeat x)) else None;
  pr_lastSeenAt := Some (px_now x); pr_updatedAt := px_now x |}.

Definition skip (st : page_state) (id reason : string) (isError : bool) : page_state := {|
  pg_fleet := pg_fleet st; pg_skipped := pg_skipped st ++ [(id, reason)];
  pg_hadErrors := pg_hadErrors st || isError; pg_shared := pg_shared st |}.

Definition put_fleet (P : fleet) (st : page_state) : page_state := {|
  pg_fleet := P; pg_skipped := pg_skipped st; pg_hadErrors := pg_hadErrors st; pg_shared := pg_shared st |}.

(** [INSERT ... ON CONFLICT DO NOTHING]; the row that is in the way is this
    page's own when the page names a printer twice. *)
Definition register_printer (x : page_ctx) (st : page_state) (p : sanitized) : page_state :=
  let a := px_agent x in
  let key := (ai_tenantId a, sz_id p) in
  if is_some (px_rows x !! key) then st
  else if one_of (hb_privateIds (px_heartbeat x)) (sz_id p) then st
  else if one_of (hb_gatewayOwned (px_heartbeat x)) (sz_id p) then skip st (sz_id p) "gateway_owned_deletion_pending" true
  else if one_of (px_over x) (sz_id p) then skip st (sz_id p) (over_reason x) false
  else match pg_fleet st !! key with
       | None => put_fleet (<[key := new_printer x p]> (pg_fleet st)) st
       | Some raced =>
           if pr_agentId raced == ai_id a
           then put_fleet (<[key := snapshot_stamp (px_heartbeat x)
                  (set_observation (sz_status p) (Some (sz_deviceClass p)) (sz_capabilities p) (Some (px_now x)) true raced)]>
                  (pg_fleet st)) st
           else skip st (sz_id p) "insert_conflict_owned_by_another_agent" true
       end.

Definition write_page (x : page_ctx) (skipped : list (string * string)) (l : list sanitized) : page_state :=
  foldl (register_printer x)
    (foldl (observe_printer x)
       {| pg_fleet := px_rows x; pg_skipped := skipped; pg_hadErrors := bool_decide (skipped ≠ []); pg_shared := [] |} l) l.

(** ** Absence *)

Definition priorSnapshotHadErrors (h : heartbeat) (s : snapshot_progress) : bool :=
  if hb_page h =? 1 then false else sp_hadErrors s.

Definition mayReconcileAbsence (h : heartbeat) (s : snapshot_progress) (pageHadErrors : bool) : bool :=
  snapshotEnabled h && is_some (hb_version h) && isFinalHeartbeatPage h && hb_complete h
  && negb (priorSnapshotHadErrors h s) && negb pageHadErrors.

(** Present in the inventory but not in this snapshot. *)
Definition unseen (a : agent_identity) (snapshotId : string) (k : string * string) (p : printer) : bool :=
  (k.1 == ai_tenantId a) && (pr_agentId p == ai_id a) && (pr_managementSource p == "agent") && pr_sharedWithGateway p
  && (pr_lifecycle p != "retired") && pr_inventoryPresent p && (pr_inventorySnapshotId p != Some snapshotId).

Definition reconcile_absence (a : agent_identity) (snapshotId : string) (now : Z) (P : fleet) : fleet :=
  map_imap (λ k p, Some (if unseen a snapshotId k p then set_printer_updated now (set_presence false "unknown" p) else p)) P.

Definition advance_snapshot (h : heartbeat) (pageHadErrors : bool) (s : snapshot_progress) : snapshot_progress :=
  if negb (snapshotEnabled h) then s
  else if isFinalHeartbeatPage h
  then {| sp_id := None; sp_version := coalesce (hb_version h) (sp_version s); sp_pageCount := 0; sp_nextPage := 1;
          sp_complete := false; sp_hadErrors := false |}
  else {| sp_id := Some (hb_snapshotId h); sp_version := coalesce (hb_version h) (sp_version s);
          sp_pageCount := hb_pageCount h; sp_nextPage := hb_page h + 1; sp_complete := hb_complete h;
          sp_hadErrors := priorSnapshotHadErrors h s || pageHadErrors |}.

(** ** The transaction *)

Inductive heartbeat_answer : Type :=
| hb_missing
| hb_inactive (lifecycle : string)
| hb_conflict (expectedPage : Z) (minimumSnapshotVersion : string)
| hb_ok (skipped aliases : list (string * string)) (billingBlocked : bool)
    (desired : option (list (string * printer) * option string)).

Inductive heartbeat_error : Type := heartbeat_tenant (e : tenant_error) | heartbeat_page (e : page_error).

(** The next page of the snapshot in progress, or a new one. *)
Definition page_in_order (h : heartbeat) (s : snapshot_progress) : bool :=
  inventoryVersionAllowsPage (hb_version h) (sp_version s) (hb_page h) &&
  negb (snapshotEnabled h && (1 <? hb_page h) &&
        ((coalesce (sp_id s) "" != hb_snapshotId h) || negb (sp_pageCount s =? hb_pageCount h)
         || negb (sp_nextPage s =? hb_page h) || negb (Bool.eqb (sp_complete s) (hb_complete h)))).

Definition observed_agent (h : heartbeat) (now : Z) (progress : snapshot_progress) (ag : agent) : agent := {|
  ag_tenantId := ag_tenantId ag; ag_name := ag_name ag; ag_pairingCodeHash := ag_pairingCodeHash ag;
  ag_pairingCodeExpiresAt := ag_pairingCodeExpiresAt ag; ag_secret := ag_secret ag; ag_status := hb_status h;
  ag_lifecycle := ag_lifecycle ag; ag_lifecycleRevision := ag_lifecycleRevision ag; ag_snapshot := progress;
  ag_metadata := ag_metadata ag; ag_lastSeenAt := Some now; ag_updatedAt := ag_updatedAt ag |}.

(** The rows after the acknowledgements and denials, which is what the page is
    compared with. *)
Definition rows_read (a : agent_identity) (h : heartbeat) (now : Z) (P : fleet) : fleet :=
  deny_private a h now (foldl (λ P ack, apply_ack a ack P) P (hb_acks h)).

Definition in_tenant {A} (m : result A tenant_error) : result A heartbeat_error :=
  match m with Ok v => Ok v | Err e => Err (heartbeat_tenant e) end.

Definition heartbeat_transaction (ck : clock) (a : agent_identity) (h : heartbeat) (d : db)
    : result (heartbeat_answer * db) heartbeat_error :=
  do* in_tenant (requireActiveTenantInTransaction d (ai_tenantId a)) in
  match agents d !! ai_id a with
  | None => Ok (hb_missing, d)
  | Some ag =>
      if ag_tenantId ag != ai_tenantId a then Ok (hb_missing, d)
      else if ag_lifecycle ag != "active" then Ok (hb_inactive (ag_lifecycle ag), d)
      else if negb (page_in_order h (ag_snapshot ag))
      then Ok (hb_conflict (sp_nextPage (ag_snapshot ag)) (sp_version (ag_snapshot ag)), d)
      else
        let d1 := renew_leases ck (ai_tenantId a) (ai_id a) (hb_tokened h) d in
        let rows := rows_read a h (now ck) (printers d) in
        let '(_, skipped) := sanitize_page (hb_privateIds h) (hb_printers h) in
        let l := page_printers a h rows in
        let* limits := in_tenant (over_limit d ck (ai_tenantId a) rows (candidate_ids a h rows l)) in
        let '(over, blocked) := limits in
        let x := {| px_agent := a; px_heartbeat := h; px_now := now ck; px_rows := rows; px_over := over; px_blocked := blocked |} in
        let st := write_page x skipped l in
        let d2 := if bool_decide (pg_shared st = []) then d1
                  else resume_paused (ai_tenantId a) (ai_id a) (pg_shared st) d1 in
        let P := if mayReconcileAbsence h (ag_snapshot ag) (pg_hadErrors st)
                 then reconcile_absence a (hb_snapshotId h) (now ck) (pg_fleet st) else pg_fleet st in
        let d3 := with_printers P (with_agents (<[ai_id a := observed_agent h (now ck)
                     (advance_snapshot h (pg_hadErrors st) (ag_snapshot ag)) ag]> (agents d2)) d2) in
        let* desired := if isFinalHeartbeatPage h
                        then match getDesiredPrinterPage utf8_length encode decode d3 (ai_tenantId a) (ai_id a) None with
                             | Ok page => Ok (Some page)
                             | Err e => Err (heartbeat_page e)
                             end
                        else Ok None in
        Ok (hb_ok (pg_skipped st) (page_aliases a rows (sanitize_page (hb_privateIds h) (hb_printers h)).1) blocked desired, d3)
  end.

(** The reply: a status and, on success, what the agent is told. A page of the
    desired state is only sent whole, unless the agent can follow a cursor. *)
Inductive heartbeat_reply : Type :=
| refused (status : Z)
| accepted (skipped aliases : list (string * string)) (billingBlocked : bool)
    (desiredState : option (list (string * printer))) (nextCursor : option string) (upgradeRequired : bool).

Definition reply_of (h : heartbeat) (o : heartbeat_answer) : heartbeat_reply :=
  match o with
  | hb_missing => refused 401
  | hb_inactive _ | hb_conflict _ _ => refused 409
  | hb_ok skipped aliases blocked desired =>
      let whole := match desired with Some (_, None) => true | _ => false end in
      accepted skipped aliases blocked
        (match desired with Some (items, _) => if hb_paging h || whole then Some items else None | None => None end)
        (if hb_paging h then match desired with Some (_, next) => next | None => None end else None)
        (match desired with Some (_, Some _) => negb (hb_paging h) | _ => false end)
  end.

Definition error_status (e : heartbeat_error) : Z :=
  match e with
  | heartbeat_tenant (TenantEntitlementError _ _ _) => 429
  | heartbeat_tenant e => if isTenantBillingError e then 403 else 500
  | heartbeat_page _ => 500
  end.

(** [agent] is what [validateAgent] answers: the identity and the lifecycle read
    with it; [body] is [None] when it is not JSON. *)
Definition POST_heartbeat (ck : clock) (agent : option (agent_identity * string)) (overLimit : bool) (body : option json) (d : db)
    : heartbeat_reply * db :=
  match agent with
  | None => (refused 401, d)
  | Some (a, lifecycle) =>
      if lifecycle != "active" then (refused 409, d)
      else if overLimit then (refused 413, d)
      else match body with
      | Some (JObject o) =>
          match parse_heartbeat utf8_length (JObject o) with
          | Err _ => (refused 400, d)
          | Ok h =>
              match heartbeat_transaction ck a h d with
              | Ok (o, d') => (reply_of h o, d')
              | Err e => (refused (error_status e), d)
              end
          end
      | _ => (refused 400, d)
      end
  end.

(** ** What a page does to a row *)

Lemma foldl_inv {A B} (I : A → Prop) (f : A → B → A) l a :
  (∀ a b, b ∈ l → I a → I (f a b)) → I a → I (foldl f a l).
Proof.
  revert a. induction l as [|b l IH]; intros a Hf Ha; [done|]. simpl. apply IH; [|apply Hf; [left|done]].
  intros a' b' Hb. apply Hf. by right.
Qed.

(** A step that must have been taken, and what it established is kept. *)
Lemma foldl_did {A B} (I Q : A → Prop) (f : A → B → A) l a b :
  (∀ a b, b ∈ l → I a → I (f a b)) → (∀ a b, b ∈ l → I a → Q a → Q (f a b)) → (∀ a, I a → Q (f a b)) →
  b ∈ l → I a → Q (foldl f a l).
Proof.
  intros HI HQ Hb Hin. revert a. induction l as [|c l IH]; intros a Ha; [by apply not_elem_of_nil in Hin|]. simpl.
  assert (I (f a c)) as HIc by (apply HI; [left|done]).
  apply elem_of_cons in Hin as [<-|Hin].
  - apply (foldl_inv (λ a, I a ∧ Q a)); [|by auto]. intros a' b' Hb' [? ?]. split; [apply HI|apply HQ]; auto; by right.
  - apply IH; [| |done|done]; intros a0 b0 Hb0; [apply HI|apply HQ]; by right.
Qed.

(** The row [e] the page read, after observations of it. *)
Record observed_as (x : page_ctx) (l : list sanitized) (id : string) (e r : printer) : Prop := {
  oa_agent : pr_agentId r = pr_agentId e;
  oa_source : pr_managementSource r = pr_managementSource e;
  oa_lifecycle : pr_lifecycle r = pr_lifecycle e;
  oa_desired : pr_desiredRevision r = pr_desiredRevision e;
  oa_applied : pr_appliedDesiredRevision r = pr_appliedDesiredRevision e;
  oa_observed : pr_observedDesiredRevision r = pr_observedDesiredRevision e;
  oa_stamp : pr_inventorySnapshotId r =
    if snapshotEnabled (px_heartbeat x) then Some (hb_snapshotId (px_heartbeat x)) else pr_inventorySnapshotId e;
  oa_sharing : (pr_sharedWithGateway r = pr_sharedWithGateway e ∧ pr_sharedWithGatewayVersion r = pr_sharedWithGatewayVersion e) ∨
    (pr_sharedWithGateway r = true ∧ pr_sharedWithGatewayVersion r = hb_version (px_heartbeat x) ∧
     ∃ q, q ∈ l ∧ sz_id q = id ∧ mayUpdateSharing (px_heartbeat x) q e = true ∧
       (pr_sharedWithGateway e = true ∨ one_of (px_over x) id = false));
  oa_seen : ∃ q, q ∈ l ∧ sz_id q = id ∧ pr_inventoryPresent r = negb (reactivation_blocked x q e) ∧
    pr_status r = (if reactivation_blocked x q e then "unknown" else sz_status q) ∧
    pr_capabilities r = sz_capabilities q ∧
    if pr_managementSource e == "agent"
    then pr_name r = sz_name q ∧ pr_printerType r = sz_printerType q ∧ pr_deviceClass r = sz_deviceClass q ∧
         pr_connectionType r = sz_connectionType q ∧ pr_protocol r = sz_protocol q ∧ pr_config r = Some (sz_config q)
    else pr_name r = pr_name e ∧ pr_printerType r = pr_printerType e ∧ pr_deviceClass r = pr_deviceClass e ∧
         pr_connectionType r = pr_connectionType e ∧ pr_protocol r = pr_protocol e ∧ pr_config r = pr_config e;
}.

(** A row the page created, after observations of it. *)
Record registered_as (x : page_ctx) (l : list sanitized) (id : string) (r : printer) : Prop := {
  ra_agent : pr_agentId r = ai_id (px_agent x);
  ra_source : pr_managementSource r = "agent";
  ra_lifecycle : pr_lifecycle r = "active";
  ra_revisions : pr_desiredRevision r = 0 ∧ pr_appliedDesiredRevision r = 0 ∧ pr_observedDesiredRevision r = 0;
  ra_sharing : pr_sharedWithGateway r = true ∧
    (pr_sharedWithGatewayVersion r = None ∨ pr_sharedWithGatewayVersion r = hb_version (px_heartbeat x));
  ra_present : pr_inventoryPresent r = true;
  ra_stamp : pr_inventorySnapshotId r = if snapshotEnabled (px_heartbeat x) then Some (hb_snapshotId (px_heartbeat x)) else None;
  ra_admitted : one_of (hb_gatewayOwned (px_heartbeat x)) id = false ∧ one_of (px_over x) id = false;
  ra_reported : (∃ q, q ∈ l ∧ sz_id q = id ∧ pr_name r = sz_name q ∧ pr_printerType r = sz_printerType q ∧
    pr_deviceClass r = sz_deviceClass q ∧ pr_connectionType r = sz_connectionType q ∧ pr_protocol r = sz_protocol q ∧
    pr_config r = Some (sz_config q)) ∧ (∃ q, q ∈ l ∧ sz_id q = id ∧ pr_status r = sz_status q ∧ pr_capabilities r = sz_capabilities q);
}.

Definition page_row (x : page_ctx) (l : list sanitized) (k : string * string) (before after : option printer) : Prop :=
  match before, after with
  | None, None => True
  | None, Some r => k.1 = ai_tenantId (px_agent x) ∧ registered_as x l k.2 r
  | Some e, Some r => r = e ∨
      (k.1 = ai_tenantId (px_agent x) ∧ pr_agentId e = ai_id (px_agent x) ∧ observed_as x l k.2 e r)
  | Some _, None => False
  end.

Definition page_inv (x : page_ctx) (l : list sanitized) (st : page_state) : Prop :=
  ∀ k, page_row x l k (px_rows x !! k) (pg_fleet st !! k).

Lemma snapshot_stamp_id h p : pr_inventorySnapshotId (snapshot_stamp h p) =
  if snapshotEnabled h then Some (hb_snapshotId h) else pr_inventorySnapshotId p.
Proof. unfold snapshot_stamp. by destruct (snapshotEnabled h). Qed.

(** Every column but the stamp. *)
Lemma snapshot_stamp_rest h p {A} (f : printer → A) : (∀ v p, f (set_snapshot v p) = f p) → f (snapshot_stamp h p) = f p.
Proof. intros H. unfold snapshot_stamp. by destruct (snapshotEnabled h). Qed.

(** What is known of a row that is the one read, or an observation of it. *)
Lemma observed_base x l id e r : r = e ∨ observed_as x l id e r →
  (pr_agentId r = pr_agentId e ∧ pr_managementSource r = pr_managementSource e ∧ pr_lifecycle r = pr_lifecycle e) ∧
  (pr_desiredRevision r = pr_desiredRevision e ∧ pr_appliedDesiredRevision r = pr_appliedDesiredRevision e ∧
   pr_observedDesiredRevision r = pr_observedDesiredRevision e) ∧
  (snapshotEnabled (px_heartbeat x) = false → pr_inventorySnapshotId r = pr_inventorySnapshotId e) ∧
  ((pr_sharedWithGateway r = pr_sharedWithGateway e ∧ pr_sharedWithGatewayVersion r = pr_sharedWithGatewayVersion e) ∨
    (pr_sharedWithGateway r = true ∧ pr_sharedWithGatewayVersion r = hb_version (px_heartbeat x) ∧
     ∃ q, q ∈ l ∧ sz_id q = id ∧ mayUpdateSharing (px_heartbeat x) q e = true ∧
       (pr_sharedWithGateway e = true ∨ one_of (px_over x) id = false))) ∧
  (pr_managementSource e ≠ "agent" → pr_name r = pr_name e ∧ pr_printerType r = pr_printerType e ∧ pr_deviceClass r = pr_deviceClass e ∧
         pr_connectionType r = pr_connectionType e ∧ pr_protocol r = pr_protocol e ∧ pr_config r = pr_config e).
Proof.
  intros [->|[H1 H2 H3 H4 H5 H6 H7 H8 (q & _ & _ & _ & _ & _ & H9)]]; [by repeat split; auto|].
  split; [done|]. split; [done|]. split; [intros E; by rewrite E in H7|]. split; [done|].
  intros E. by rewrite (bool_decide_eq_false_2 _ E) in H9.
Qed.

(** Observing once more what is the row read, or is already an observation of it. *)
Lemma observe_row_ok x l p e r : p ∈ l → r = e ∨ observed_as x l (sz_id p) e r →
  observed_as x l (sz_id p) e (observe_row x p e r).
Proof.
  intros Hp Hr. apply observed_base in Hr as ((H1 & H2 & H3) & (H4 & H5 & H6) & H7 & H8 & H9).
  assert (Hshare : mayUpdateSharing (px_heartbeat x) p e && negb (reshare_blocked x p e) = true →
    mayUpdateSharing (px_heartbeat x) p e = true ∧ (pr_sharedWithGateway e = true ∨ one_of (px_over x) (sz_id p) = false)).
  { intros [Hu Hb%negb_true_iff]%andb_true_iff. split; [done|]. unfold reshare_blocked in Hb. rewrite Hu, andb_true_r in Hb.
    destruct (pr_sharedWithGateway e); [by left|by right]. }
  unfold observe_row, snapshot_stamp.
  destruct (mayUpdateSharing _ _ _ && negb _) eqn:Eu; destruct (pr_managementSource e == "agent") eqn:Em;
    destruct (snapshotEnabled (px_heartbeat x)) eqn:Es; split; simpl; rewrite ?Es, ?Em; try done; try (by apply H7).
  all: try (by right; split_and!; [done|done|]; exists p; destruct (Hshare eq_refl); split_and!).
  all: exists p; split_and!; try done; apply bool_decide_eq_false in Em; by apply H9.
Qed.

Lemma observe_printer_inv x l st p : p ∈ l → page_inv x l st → page_inv x l (observe_printer x st p).
Proof.
  intros Hp Hi k. pose proof (Hi k) as Hk. unfold observe_printer. destruct (px_rows x !! (_, sz_id p)) as [e|] eqn:He; [|done].
  destruct (pr_agentId e != _) eqn:Ha; [done|]. apply negb_false_iff, bool_decide_eq_true in Ha. simpl.
  destruct (decide (k = (ai_tenantId (px_agent x), sz_id p))) as [->|Hne]; [|by rewrite lookup_alter_ne].
  rewrite lookup_alter_eq. rewrite He in Hk |- *. destruct (pg_fleet st !! _) as [r|]; [|done]. simpl in Hk |- *.
  destruct (_ && _); [|done]. right. split_and!; [done|done|]. apply observe_row_ok; [done|]. destruct Hk as [?|(_ & _ & ?)]; auto.
Qed.

Lemma new_printer_ok x l p : p ∈ l → one_of (hb_gatewayOwned (px_heartbeat x)) (sz_id p) = false →
  one_of (px_over x) (sz_id p) = false → registered_as x l (sz_id p) (new_printer x p).
Proof.
  intros Hp Hg Ho. split; simpl; try done.
  - split; [done|]. destruct (sz_sharedWithGateway p); auto.
  - split; exists p; by split_and!.
Qed.

Lemma again_ok x l p r : p ∈ l → registered_as x l (sz_id p) r → registered_as x l (sz_id p)
  (snapshot_stamp (px_heartbeat x) (set_observation (sz_status p) (Some (sz_deviceClass p)) (sz_capabilities p) (Some (px_now x)) true r)).
Proof.
  intros Hp [H1 H2 H3 H4 H5 H6 H7 H8 [H9 _]]. unfold snapshot_stamp. destruct (snapshotEnabled (px_heartbeat x)) eqn:Es; split; simpl;
    rewrite ?Es; try done; (split; [done|]); by exists p.
Qed.

Lemma register_printer_inv x l st p : p ∈ l → page_inv x l st → page_inv x l (register_printer x st p).
Proof.
  intros Hp Hi. unfold register_printer. destruct (is_some (px_rows x !! _)) eqn:He; [done|]. destruct (one_of _ _); [done|].
  destruct (one_of (hb_gatewayOwned _) _) eqn:Hg; [done|]. destruct (one_of (px_over _) _) eqn:Ho; [done|].
  assert (px_rows x !! (ai_tenantId (px_agent x), sz_id p) = None) as Hnone by (by destruct (px_rows x !! _)).
  pose proof (Hi (ai_tenantId (px_agent x), sz_id p)) as Hk. rewrite Hnone in Hk.
  destruct (pg_fleet st !! _) as [raced|] eqn:Hr; [destruct (pr_agentId raced == _); [|done]|]; intros k; simpl;
    (destruct (decide (k = (ai_tenantId (px_agent x), sz_id p))) as [->|Hne]; [|by rewrite lookup_insert_ne; [apply Hi|]]);
    rewrite lookup_insert_eq, Hnone; simpl.
  - split; [done|]. apply again_ok; [done|]. apply Hk.
  - split; [done|]. by apply new_printer_ok.
Qed.

Lemma write_page_inv x skipped l : page_inv x l (write_page x skipped l).
Proof.
  unfold write_page. apply foldl_inv; [intros; by apply register_printer_inv|].
  apply foldl_inv; [intros; by apply observe_printer_inv|]. intros k. simpl. destruct (px_rows x !! k); [by left|done].
Qed.

(** ** What was read *)

(** The columns that neither an acknowledgement nor a denial touches. *)
Definition fixed_columns (p : printer) :=
  (pr_agentId p, pr_name p, pr_printerType p, pr_deviceClass p, pr_connectionType p, pr_protocol p, pr_status p,
   (pr_lifecycle p, pr_managementSource p, pr_desiredRevision p, pr_observedDeviceClass p, pr_config p, pr_capabilities p,
    pr_inventoryPresent p, pr_inventorySnapshotId p, pr_lastSeenAt p)).

Definition revisions_ok (p : printer) : Prop :=
  0 ≤ pr_observedDesiredRevision p ≤ pr_appliedDesiredRevision p ∧ pr_appliedDesiredRevision p ≤ pr_desiredRevision p.

Record read_as (h : heartbeat) (id : string) (e r : printer) : Prop := {
  rd_fixed : fixed_columns r = fixed_columns e;
  rd_revisions : revisions_ok e → revisions_ok r ∧ pr_appliedDesiredRevision e ≤ pr_appliedDesiredRevision r ∧
    pr_observedDesiredRevision e ≤ pr_observedDesiredRevision r;
  rd_sharing : (pr_sharedWithGateway r = pr_sharedWithGateway e ∧ pr_sharedWithGatewayVersion r = pr_sharedWithGatewayVersion e) ∨
    (pr_sharedWithGateway r = false ∧ pr_sharedWithGatewayVersion r = hb_version h ∧ id ∈ hb_privateIds h ∧
     denial_applies (hb_version h) e = true);
}.

Definition read_row (a : agent_identity) (h : heartbeat) (k : string * string) (before after : option printer) : Prop :=
  match before, after with
  | None, None => True
  | Some e, Some r => r = e ∨ (k.1 = ai_tenantId a ∧ pr_agentId e = ai_id a ∧ read_as h k.2 e r)
  | _, _ => False
  end.

Lemma read_base h id e r : r = e ∨ read_as h id e r → read_as h id e r.
Proof. intros [->|?]; [|done]. split; [done|intros ?; split_and!; done|by left]. Qed.

Lemma acknowledge_ok h id applied observed e r : 0 ≤ applied → 0 ≤ observed → r = e ∨ read_as h id e r →
  read_as h id e (acknowledge applied observed r).
Proof.
  intros Ha Ho [H1 H2 H3]%read_base. split; [by rewrite <-H1| |done].
  intros He. destruct (H2 He) as ([? ?] & ? & ?). unfold revisions_ok, acknowledge in *. simpl. lia.
Qed.

Lemma acks_read a h l P : ∀ k, read_row a h k (P !! k) (foldl (λ P ack, apply_ack a ack P) P l !! k).
Proof.
  apply (foldl_inv (λ P', ∀ k, read_row a h k (P !! k) (P' !! k))); [|intros k; by destruct (P !! k); [left|]].
  intros P' ack _ Hi k. specialize (Hi k). unfold apply_ack. destruct (_ || _) eqn:E; [done|].
  apply orb_false_iff in E as [[_ E1]%orb_false_iff E2].
  set (key := (ai_tenantId a, _)). destruct (decide (k = key)) as [->|Hne]; [|by rewrite lookup_alter_ne].
  rewrite lookup_alter_eq. destruct (P !! key) as [e|], (P' !! key) as [r|]; try done. simpl in Hi |- *.
  destruct (_ && _) eqn:Eo; [|done]. bools. right. split; [done|]. split.
  - destruct Hi as [->|(_ & ? & _)]; done.
  - apply acknowledge_ok; [lia|lia|]. destruct Hi as [?|(_ & _ & ?)]; auto.
Qed.

(** A denied row. *)
Definition denied_row (h : heartbeat) (now : Z) (p : printer) : printer :=
  set_printer_updated now (set_sharing false (hb_version h) p).

Definition is_denied (a : agent_identity) (h : heartbeat) (k : string * string) (p : printer) : bool :=
  (k.1 == ai_tenantId a) && one_of (hb_privateIds h) k.2 && (pr_agentId p == ai_id a) && denial_applies (hb_version h) p.

Lemma deny_private_lookup a h now P k :
  deny_private a h now P !! k = (λ p, if is_denied a h k p then denied_row h now p else p) <$> P !! k.
Proof.
  unfold deny_private, is_denied. induction (hb_privateIds h) as [|id l IH].
  - destruct (P !! k) as [p|] eqn:E; simpl; rewrite E; [|done]. f_equal. rewrite andb_false_r. done.
  - cbn [foldr]. assert (one_of (id :: l) k.2 = (k.2 == id) || one_of l k.2) as Hin.
    { unfold one_of. rewrite <-bool_decide_or. apply bool_decide_ext, elem_of_cons. }
    rewrite Hin. destruct (decide (k = (ai_tenantId a, id))) as [->|Hne].
    + rewrite lookup_alter_eq, IH. destruct (P !! _) as [p|]; [|done]. simpl fmap. f_equal. cbn [fst snd].
      rewrite (bool_decide_true (ai_tenantId a = ai_tenantId a)), (bool_decide_true (id = id)) by done. cbn [andb orb].
      destruct (one_of l id); cbn [andb]; destruct (bool_decide (pr_agentId p = ai_id a)) eqn:Ea; cbn [andb]; rewrite ?Ea; try done.
      destruct (denial_applies (hb_version h) p) eqn:Ed; cbn [andb]; rewrite ?Ea, ?Ed; [|done].
      unfold denial_applies, denied_row. simpl. rewrite Ea. destruct (hb_version h) as [v|]; [|done]. by rewrite Z.leb_refl.
    + rewrite lookup_alter_ne by done. rewrite IH. destruct (P !! k) as [p|]; [|done]. simpl fmap. f_equal.
      destruct (bool_decide (k.1 = ai_tenantId a)) eqn:Et; [|done]. apply bool_decide_eq_true in Et. cbn [andb].
      rewrite (bool_decide_false (k.2 = id)); [done|]. intros <-. destruct k; simpl in *; by subst.
Qed.

Lemma rows_read_row a h now P k : read_row a h k (P !! k) (rows_read a h now P !! k).
Proof.
  unfold rows_read. rewrite deny_private_lookup. pose proof (acks_read a h (hb_acks h) P k) as Hi.
  destruct (P !! k) as [e|], (foldl _ P (hb_acks h) !! k) as [r|]; try done. simpl in Hi |- *.
  destruct (is_denied a h k r) eqn:E; [|done]. unfold is_denied in E. bools. right. split; [done|].
  assert (pr_agentId e = ai_id a) as Ha by (destruct Hi as [->|(_ & ? & _)]; done). split; [done|].
  destruct (read_base h k.2 e r) as [R1 R2 R3]; [destruct Hi as [?|(_ & _ & ?)]; auto|]. split; [by rewrite <-R1|done|].
  right. split_and!; [done|done|by apply one_of_true|]. destruct R3 as [[_ R3]|(_ & _ & _ & R3)]; [|done].
  unfold denial_applies in *. by rewrite <-R3.
Qed.

(** ** The whole transaction *)

(** The page as the loops see it, and what they leave. *)
Definition page_at (ck : clock) (a : agent_identity) (h : heartbeat) (d : db) (over : list string) (blocked : bool) : page_ctx := {|
  px_agent := a; px_heartbeat := h; px_now := now ck; px_rows := rows_read a h (now ck) (printers d);
  px_over := over; px_blocked := blocked |}.

Definition listed (ck : clock) (a : agent_identity) (h : heartbeat) (d : db) : list sanitized :=
  page_printers a h (rows_read a h (now ck) (printers d)).

Definition page_written (ck : clock) (a : agent_identity) (h : heartbeat) (d : db) (over : list string) (blocked : bool) : page_state :=
  write_page (page_at ck a h d over blocked) (sanitize_page (hb_privateIds h) (hb_printers h)).2 (listed ck a h d).

Definition fleet_after (ck : clock) (a : agent_identity) (h : heartbeat) (s : snapshot_progress) (st : page_state) : fleet :=
  if mayReconcileAbsence h s (pg_hadErrors st) then reconcile_absence a (hb_snapshotId h) (now ck) (pg_fleet st) else pg_fleet st.

Record heartbeat_committed (ck : clock) (a : agent_identity) (h : heartbeat) (d d' : db) (ag : agent) (over : list string)
    (blocked : bool) : Prop := {
  hc_agent : agents d !! ai_id a = Some ag;
  hc_tenant : ag_tenantId ag = ai_tenantId a;
  hc_active : ag_lifecycle ag = "active";
  hc_order : page_in_order h (ag_snapshot ag) = true;
  hc_over : over_limit d ck (ai_tenantId a) (rows_read a h (now ck) (printers d))
    (candidate_ids a h (rows_read a h (now ck) (printers d)) (listed ck a h d)) = Ok (over, blocked);
  hc_agents : agents d' = <[ai_id a := observed_agent h (now ck)
    (advance_snapshot h (pg_hadErrors (page_written ck a h d over blocked)) (ag_snapshot ag)) ag]> (agents d);
  hc_printers : printers d' = fleet_after ck a h (ag_snapshot ag) (page_written ck a h d over blocked);
  hc_jobs : ∃ d2, ((pg_shared (page_written ck a h d over blocked) = [] ∧
       d2 = renew_leases ck (ai_tenantId a) (ai_id a) (hb_tokened h) d) ∨
      d2 = resume_paused (ai_tenantId a) (ai_id a) (pg_shared (page_written ck a h d over blocked))
             (renew_leases ck (ai_tenantId a) (ai_id a) (hb_tokened h) d)) ∧
    d' = with_printers (printers d') (with_agents (agents d') d2);
}.

Lemma heartbeat_inv ck a h d o d' : heartbeat_transaction ck a h d = Ok (o, d') →
  (d' = d ∧ ∀ s al b p, o ≠ hb_ok s al b p) ∨
  ∃ ag over blocked desired, heartbeat_committed ck a h d d' ag over blocked ∧
    o = hb_ok (pg_skipped (page_written ck a h d over blocked))
          (page_aliases a (rows_read a h (now ck) (printers d)) (sanitize_page (hb_privateIds h) (hb_printers h)).1) blocked desired.
Proof.
  unfold heartbeat_transaction. intros ([] & _ & H)%rbind_Ok. destruct (agents d !! ai_id a) as [ag|] eqn:Hag; [|by left; simplify_eq].
  destruct (_ != _) eqn:E1 in H; [by left; simplify_eq|]. destruct (_ != _) eqn:E2 in H; [by left; simplify_eq|].
  destruct (negb (page_in_order _ _)) eqn:E3; [by left; simplify_eq|].
  apply negb_false_iff in E1, E2, E3. apply bool_decide_eq_true in E1, E2. right.
  destruct (sanitize_page (hb_privateIds h) (hb_printers h)) as [ps skipped] eqn:Hs.
  apply rbind_Ok in H as ([over blocked] & Ho & H). apply rbind_Ok in H as (desired & _ & H).
  assert (over_limit d ck (ai_tenantId a) (rows_read a h (now ck) (printers d))
    (candidate_ids a h (rows_read a h (now ck) (printers d)) (listed ck a h d)) = Ok (over, blocked)) as Ho'.
  { unfold listed. destruct (over_limit _ _ _ _ _); [|done]. by injection Ho as ->. }
  injection H as <- <-. exists ag, over, blocked, desired. unfold page_written. rewrite Hs. split; [|done]. split; try done.
  - simpl. unfold page_written. rewrite Hs. case_bool_decide; done.
  - simpl. unfold page_written. rewrite Hs. done.
  - unfold page_written. rewrite Hs. simpl. case_bool_decide; eexists; (split; [|reflexivity]); [by left|by right].
Qed.

Lemma reconcile_lookup a s now P k : reconcile_absence a s now P !! k =
  (λ p, if unseen a s k p then set_printer_updated now (set_presence false "unknown" p) else p) <$> P !! k.
Proof. unfold reconcile_absence. rewrite map_lookup_imap. by destruct (P !! k). Qed.

(** A row at the end: as the loops left it, or marked absent. *)
Lemma fleet_after_lookup ck a h s st k : fleet_after ck a h s st !! k = pg_fleet st !! k ∨
  ∃ r, pg_fleet st !! k = Some r ∧ unseen a (hb_snapshotId h) k r = true ∧ mayReconcileAbsence h s (pg_hadErrors st) = true ∧
    fleet_after ck a h s st !! k = Some (set_printer_updated (now ck) (set_presence false "unknown" r)).
Proof.
  unfold fleet_after. destruct (mayReconcileAbsence _ _ _); [|by left]. rewrite reconcile_lookup.
  destruct (pg_fleet st !! k) as [r|]; [|by left]. simpl. destruct (unseen _ _ _ _) eqn:E; [right; by exists r|by left].
Qed.

(** Rows of other tenants and of other agents are as they were. *)
Lemma foreign_rows ck a h d d' ag over blocked k p : heartbeat_committed ck a h d d' ag over blocked →
  printers d !! k = Some p → k.1 ≠ ai_tenantId a ∨ pr_agentId p ≠ ai_id a → printers d' !! k = Some p.
Proof.
  intros Hc Hp Hf. rewrite (hc_printers _ _ _ _ _ _ _ _ Hc). set (st := page_written _ _ _ _ _ _).
  pose proof (rows_read_row a h (now ck) (printers d) k) as Hr. rewrite Hp in Hr.
  destruct (rows_read a h (now ck) (printers d) !! k) as [e|] eqn:He; [|done].
  assert (e = p) as -> by (destruct Hr as [?|(? & ? & _)]; [done|destruct Hf; congruence]). clear Hr.
  pose proof (write_page_inv (page_at ck a h d over blocked) (sanitize_page (hb_privateIds h) (hb_printers h)).2 (listed ck a h d) k) as Hw.
  change (px_rows (page_at ck a h d over blocked)) with (rows_read a h (now ck) (printers d)) in Hw. rewrite He in Hw.
  change (write_page _ _ _) with st in Hw. destruct (pg_fleet st !! k) as [r|] eqn:Hst; [|done].
  assert (r = p) as -> by (destruct Hw as [?|(? & ? & _)]; [done|destruct Hf; simpl in *; congruence]).
  destruct (fleet_after_lookup ck a h (ag_snapshot ag) st k) as [->|(r & Hr & Hu & _)]; [done|].
  rewrite Hst in Hr. simplify_eq. unfold unseen in Hu. bools. destruct Hf; congruence.
Qed.

(** ** Capacity *)

Lemma candidate_ids_elem a h P l id :
  id ∈ candidate_ids a h P l ↔ ∃ q, q ∈ l ∧ sz_id q = id ∧ capacity_candidate a h P q = true.
Proof.
  unfold candidate_ids. rewrite (merge_sort_Permutation String.le), elem_of_remove_dups, list_elem_of_fmap. split.
  - intros (q & -> & Hq). apply list_elem_of_filter in Hq as [? ?]. by exists q.
  - intros (q & Hq & <- & Hc). exists q. split; [done|]. by apply list_elem_of_filter.
Qed.

Lemma candidate_ids_NoDup a h P l : NoDup (candidate_ids a h P l).
Proof. unfold candidate_ids. rewrite (merge_sort_Permutation String.le). apply NoDup_remove_dups. Qed.

(** A row counts after the page only if it counted before, or it is a candidate
    that fits. *)
Lemma page_counts ck a h d over blocked k r : k.1 = ai_tenantId a →
  pg_fleet (page_written ck a h d over blocked) !! k = Some r → counted r = true →
  (∃ e, rows_read a h (now ck) (printers d) !! k = Some e ∧ counted e = true) ∨
  (k.2 ∈ candidate_ids a h (rows_read a h (now ck) (printers d)) (listed ck a h d) ∧ k.2 ∉ over).
Proof.
  intros Hk Hr Hcr. set (x := page_at ck a h d over blocked).
  pose proof (write_page_inv x (sanitize_page (hb_privateIds h) (hb_printers h)).2 (listed ck a h d) k) as Hw.
  change (write_page _ _ _) with (page_written ck a h d over blocked) in Hw. rewrite Hr in Hw.
  change (px_rows x) with (rows_read a h (now ck) (printers d)) in Hw.
  assert (∀ id, one_of over id = false → id ∉ over) as Hno.
  { intros id Ho Hin. by apply one_of_true in Hin; rewrite Hin in Ho. }
  destruct (rows_read a h (now ck) (printers d) !! k) as [e|] eqn:He.
  - destruct Hw as [->|(_ & Ha & Ho)]; [left; by exists e|]. destruct (counted e) eqn:Hce; [left; by exists e|]. right.
    destruct Ho as [O1 O2 O3 _ _ _ _ O8 (q & Hq & Hid & Hpres & _)]. simpl in Ha. unfold counted in Hcr, Hce. rewrite O2, O3 in Hcr.
    destruct k as [t id]. simpl in *. subst t.
    assert (pr_lifecycle e ≠ "retired") as Hlife by (intros E; by rewrite E in Hcr).
    rewrite (bool_decide_false (_ = "retired") Hlife) in Hcr, Hce. simpl in Hcr, Hce.
    apply andb_true_iff in Hcr as [Hsr Hpr].
    destruct (pr_sharedWithGateway e) eqn:Hse.
    + simpl in Hce. apply orb_false_iff in Hce as [Hm%negb_false_iff Hpe]. rewrite Hm in Hpr. simpl in Hpr. rewrite Hpr in Hpres.
      assert (one_of over id = false) as Hov.
      { unfold reactivation_blocked in Hpres. rewrite Hse, Hm, Hpe, Hid, (bool_decide_false (_ = "retired") Hlife) in Hpres. simpl in Hpres.
        by destruct (one_of over id). }
      split; [|by apply Hno]. apply candidate_ids_elem. exists q. split_and!; [done|done|]. unfold capacity_candidate.
      rewrite Hid, He, Ha, Hse, Hm, Hpe, bool_decide_true, (bool_decide_false (_ = "retired") Hlife) by done. done.
    + destruct O8 as [[O8 _]|(_ & _ & q' & Hq' & Hid' & Hmay & [?|Hov])]; [congruence|done|].
      split; [|by apply Hno]. apply candidate_ids_elem. exists q'. split_and!; [done|done|]. unfold capacity_candidate.
      rewrite Hid', He, Ha, Hse, bool_decide_true, (bool_decide_false (_ = "retired") Hlife) by done. done.
  - right. destruct Hw as [_ Hg]. destruct Hg as [_ _ _ _ _ _ _ [Hgo Hov] [(q & Hq & Hid & _) _]]. split; [|by apply Hno].
    apply candidate_ids_elem. exists q. split_and!; [done|done|]. unfold capacity_candidate. destruct k as [t id]. simpl in *. subst t.
    rewrite Hid, He. simpl in Hgo. by rewrite Hgo.
Qed.

Lemma size_listed (t : string) (l : list string) :
  (size (list_to_set (map (λ i, (t, i)) l) : gset (string * string)) ≤ length l)%nat.
Proof. etrans; [apply size_list_to_set_le|]. by rewrite length_map. Qed.

Definition counted_rows (t : string) (P : fleet) : gset (string * string) :=
  dom (filter (λ kp : (string * string) * printer, kp.1.1 = t ∧ counted kp.2 = true) P).

Lemma counted_rows_elem t P k : k ∈ counted_rows t P ↔ ∃ p, P !! k = Some p ∧ k.1 = t ∧ counted p = true.
Proof.
  unfold counted_rows. rewrite elem_of_dom. split.
  - intros [p [? [? ?]]%map_lookup_filter_Some]. by exists p.
  - intros (p & ? & ? & ?). exists p. by apply map_lookup_filter_Some.
Qed.

Lemma printer_count_rows t P : printer_count t P = Z.of_nat (size (counted_rows t P)).
Proof. unfold printer_count, counted_rows. by rewrite size_dom. Qed.

(** The count grows at most by the identities that are new in it. *)
Lemma printer_count_le t P P' new :
  (∀ id r, P' !! (t, id) = Some r → counted r = true → (∃ e, P !! (t, id) = Some e ∧ counted e = true) ∨ id ∈ new) →
  printer_count t P' ≤ printer_count t P + Z.of_nat (length new).
Proof.
  intros H. rewrite !printer_count_rows, <-Nat2Z.inj_add. apply Nat2Z.inj_le.
  etrans; [|apply Nat.add_le_mono_l, (size_listed t)].
  etrans; [apply (subseteq_size _ (counted_rows t P ∪ list_to_set (map (λ i, (t, i)) new)))|].
  - intros [t' id] (r & Hr & ? & Hc)%counted_rows_elem. simpl in *. subst t'. apply elem_of_union.
    destruct (H id r Hr Hc) as [(e & ? & ?)|Hin]; [left; apply counted_rows_elem; by exists e|right].
    apply elem_of_list_to_set, list_elem_of_fmap. by exists id.
  - rewrite size_union_alt. apply Nat.add_le_mono_l, subseteq_size. set_solver.
Qed.

(** Acknowledgements and denials count nothing in. *)
Lemma rows_read_count t a h now P : printer_count t (rows_read a h now P) ≤ printer_count t P.
Proof.
  pose proof (printer_count_le t P (rows_read a h now P) []) as H. simpl in H. rewrite Z.add_0_r in H. apply H.
  intros id r Hr Hc. left. pose proof (rows_read_row a h now P (t, id)) as Hrow. rewrite Hr in Hrow.
  destruct (P !! (t, id)) as [e|]; [|done]. exists e. split; [done|].
  destruct Hrow as [->|(_ & _ & [Hf _ Hs])]; [done|].
  assert (pr_lifecycle r = pr_lifecycle e ∧ pr_managementSource r = pr_managementSource e ∧ pr_inventoryPresent r = pr_inventoryPresent e)
    as (H1 & H2 & H3) by (unfold fixed_columns in Hf; split_and!; congruence).
  unfold counted in *. rewrite H1, H2, H3 in Hc. destruct Hs as [[Hs _]|(Hs & _)]; rewrite Hs in Hc; [done|]. by rewrite andb_false_r in Hc.
Qed.

(** Nor does absence. *)
Lemma fleet_after_count t ck a h s st : printer_count t (fleet_after ck a h s st) ≤ printer_count t (pg_fleet st).
Proof.
  pose proof (printer_count_le t (pg_fleet st) (fleet_after ck a h s st) []) as H. simpl in H. rewrite Z.add_0_r in H. apply H.
  intros id r Hr Hc. left. destruct (fleet_after_lookup ck a h s st (t, id)) as [E|(e & He & Hu & _ & E)]; rewrite E in Hr; [by exists r|].
  simplify_eq. exfalso. unfold unseen in Hu. bools. unfold counted in Hc. simpl in Hc.
  assert (pr_managementSource e = "agent") as Hm by done. rewrite Hm in Hc. by rewrite andb_false_r in Hc.
Qed.

(** The page counts in at most the candidates that are not over the limit. *)
Lemma page_written_count ck a h d over blocked fits :
  (∀ id, id ∈ candidate_ids a h (rows_read a h (now ck) (printers d)) (listed ck a h d) → id ∉ over → id ∈ fits) →
  printer_count (ai_tenantId a) (pg_fleet (page_written ck a h d over blocked)) ≤
    printer_count (ai_tenantId a) (rows_read a h (now ck) (printers d)) + Z.of_nat (length fits).
Proof.
  intros Hfits. apply printer_count_le. intros id r Hr Hc.
  destruct (page_counts ck a h d over blocked (ai_tenantId a, id) r eq_refl Hr Hc) as [?|[? ?]]; [by left|right; by apply Hfits].
Qed.

Lemma other_tenant_rows ck a h d d' ag over blocked k : heartbeat_committed ck a h d d' ag over blocked →
  k.1 ≠ ai_tenantId a → printers d' !! k = printers d !! k.
Proof.
  intros Hc Hk. destruct (printers d !! k) as [p|] eqn:Hp; [apply (foreign_rows _ _ _ _ _ _ _ _ _ _ Hc Hp); by left|].
  rewrite (hc_printers _ _ _ _ _ _ _ _ Hc). set (st := page_written _ _ _ _ _ _).
  assert (pg_fleet st !! k = None) as Hst.
  { pose proof (rows_read_row a h (now ck) (printers d) k) as Hr. rewrite Hp in Hr.
    pose proof (write_page_inv (page_at ck a h d over blocked) (sanitize_page (hb_privateIds h) (hb_printers h)).2 (listed ck a h d) k) as Hw.
    change (write_page _ _ _) with st in Hw. change (px_rows (page_at ck a h d over blocked)) with (rows_read a h (now ck) (printers d)) in Hw.
    destruct (rows_read _ _ _ _ !! k); [done|]. destruct (pg_fleet st !! k); [by destruct Hw|done]. }
  destruct (fleet_after_lookup ck a h (ag_snapshot ag) st k) as [->|(r & Hr & _)]; congruence.
Qed.

Lemma over_limit_fits d ck t P l over blocked : over_limit d ck t P l = Ok (over, blocked) →
  match getTenantEntitlementLimit d ck t "max_printers" with
  | Ok None => True
  | Ok (Some limit) => ∃ fits, (∀ id, id ∈ l → id ∉ over → id ∈ fits) ∧ Z.of_nat (length fits) ≤ Z.max 0 (limit - printer_count t P)
  | Err _ => ∀ id, id ∈ l → id ∈ over
  end.
Proof.
  unfold over_limit. case_bool_decide as E.
  - intros _. subst l. destruct (getTenantEntitlementLimit _ _ _ _) as [[limit|]|]; [|done|by intros ? ?%not_elem_of_nil].
    exists []. split; [by intros ? ?%not_elem_of_nil|simpl; lia].
  - destruct (getTenantEntitlementLimit _ _ _ _) as [[limit|]|e]; [|done|destruct (isTenantBillingError e); [|done]]; intros [= <- <-]; [|done].
    set (n := Z.to_nat _). exists (take n l). split; [|rewrite length_take; lia].
    intros id Hin Hni. rewrite <-(take_drop n l) in Hin. by apply elem_of_app in Hin as [?|?].
Qed.

(** A heartbeat never takes a tenant past its plan: the printers that count
    against [max_printers] afterwards are no more than before or no more than
    the limit, whatever the page reports and however often, and none are added
    while billing is blocked; other tenants' printers stay as they were. *)
Theorem printer_capacity ck a h d o d' : heartbeat_transaction ck a h d = Ok (o, d') →
  (∀ t, t ≠ ai_tenantId a → printer_count t (printers d') = printer_count t (printers d)) ∧
  match getTenantEntitlementLimit d ck (ai_tenantId a) "max_printers" with
  | Ok None => True
  | Ok (Some limit) => printer_count (ai_tenantId a) (printers d') ≤ Z.max limit (printer_count (ai_tenantId a) (printers d))
  | Err _ => printer_count (ai_tenantId a) (printers d') ≤ printer_count (ai_tenantId a) (printers d)
  end.
Proof.
  intros [[-> _]|(ag & over & blocked & desired & Hc & _)]%heartbeat_inv.
  - split; [done|]. destruct (getTenantEntitlementLimit _ _ _ _) as [[limit|]|]; [lia|done|lia].
  - split.
    + intros t Ht. rewrite !printer_count_rows. do 2 f_equal. apply set_eq. intros k. rewrite !counted_rows_elem.
      split; intros (p & Hp & Hk & Hcp); exists p; (split; [|done]);
        [rewrite <-(other_tenant_rows _ _ _ _ _ _ _ _ k Hc)|rewrite (other_tenant_rows _ _ _ _ _ _ _ _ k Hc)]; congruence.
    + pose proof (over_limit_fits _ _ _ _ _ _ _ (hc_over _ _ _ _ _ _ _ _ Hc)) as Hfit.
      pose proof (fleet_after_count (ai_tenantId a) ck a h (ag_snapshot ag) (page_written ck a h d over blocked)) as H1.
      rewrite <-(hc_printers _ _ _ _ _ _ _ _ Hc) in H1. pose proof (rows_read_count (ai_tenantId a) a h (now ck) (printers d)) as H2.
      pose proof (page_written_count ck a h d over blocked) as H3.
      destruct (getTenantEntitlementLimit _ _ _ _) as [[limit|]|]; [|done|].
      * destruct Hfit as (fits & Hfit & ?). specialize (H3 fits Hfit). lia.
      * specialize (H3 [] ltac:(intros id ? Hni; exfalso; by apply Hni, Hfit)). simpl in H3. lia.
Qed.

(** ** Sharing *)

(** Whether a sharing version is at least the retained one. *)
Definition version_le (v w : option string) : Prop :=
  match v, w with
  | None, _ => True
  | Some v, Some w => version_number v ≤ version_number w
  | Some _, None => False
  end.

Lemma listed_reported ck a h d q : q ∈ listed ck a h d →
  (sz_id q ∉ hb_privateIds h) ∧
  ∃ raw p, raw ∈ hb_printers h ∧ sanitizePrinter URL utf8_length raw = Ok p ∧
    q = resolve_alias a (rows_read a h (now ck) (printers d)) p.
Proof.
  unfold listed, page_printers. intros [Hp Hq]%list_elem_of_filter.
  split; [intros Hin; by apply one_of_true in Hin; rewrite Hin in Hp|].
  apply list_elem_of_fmap in Hq as (p & -> & Hin). clear Hp. unfold sanitize_page in Hin.
  induction (hb_printers h) as [|raw raws IH]; simpl in Hin; [by apply not_elem_of_nil in Hin|].
  destruct (foldr _ _ raws) as [ps skipped] eqn:E. simpl in IH.
  assert (p ∈ ps → ∃ raw0 p0, raw0 ∈ raw :: raws ∧ sanitizePrinter URL utf8_length raw0 = Ok p0 ∧
    resolve_alias a (rows_read a h (now ck) (printers d)) p = resolve_alias a (rows_read a h (now ck) (printers d)) p0) as Hrest.
  { intros Hps. destruct (IH Hps) as (raw' & p' & ? & ? & ?). exists raw', p'. split_and!; [by right|done|done]. }
  destruct (one_of _ _); [by apply Hrest|]. destruct (sanitizePrinter _ _ raw) as [p0|] eqn:Ep; [|by apply Hrest].
  simpl in Hin. apply elem_of_cons in Hin as [->|Hin]; [|by apply Hrest]. exists raw, p0. split_and!; [by left|done|done].
Qed.

Lemma resolve_alias_shared a P p : sz_sharedWithGateway (resolve_alias a P p) = sz_sharedWithGateway p.
Proof. unfold resolve_alias. by repeat case_match. Qed.

(** A row of the page's agent, from before the transaction to after it. *)
Lemma row_after ck a h d d' ag over blocked k p : heartbeat_committed ck a h d d' ag over blocked → printers d !! k = Some p →
  ∃ e r p', read_row a h k (Some p) (Some e) ∧ rows_read a h (now ck) (printers d) !! k = Some e ∧
    page_row (page_at ck a h d over blocked) (listed ck a h d) k (Some e) (Some r) ∧
    (p' = r ∨ (unseen a (hb_snapshotId h) k r = true ∧
       mayReconcileAbsence h (ag_snapshot ag) (pg_hadErrors (page_written ck a h d over blocked)) = true ∧
       p' = set_printer_updated (now ck) (set_presence false "unknown" r))) ∧
    printers d' !! k = Some p'.
Proof.
  intros Hc Hp. rewrite (hc_printers _ _ _ _ _ _ _ _ Hc). set (st := page_written _ _ _ _ _ _).
  pose proof (rows_read_row a h (now ck) (printers d) k) as Hr. rewrite Hp in Hr.
  pose proof (write_page_inv (page_at ck a h d over blocked) (sanitize_page (hb_privateIds h) (hb_printers h)).2 (listed ck a h d) k) as Hw.
  change (write_page _ _ _) with st in Hw. change (px_rows (page_at ck a h d over blocked)) with (rows_read a h (now ck) (printers d)) in Hw.
  destruct (rows_read a h (now ck) (printers d) !! k) as [e|]; [|done]. destruct (pg_fleet st !! k) as [r|] eqn:Hst; [|done].
  destruct (fleet_after_lookup ck a h (ag_snapshot ag) st k) as [E|(r' & Hr' & Hu & Hm & E)]; rewrite E.
  - exists e, r, r. rewrite Hst. by split_and!; [| | |left|].
  - rewrite Hst in Hr'. injection Hr' as <-. exists e, r. eexists. split_and!; [done|done|done|right; split_and!; [done|done|reflexivity]|done].
Qed.

(** A permission to share: the page lists the printer with an explicit
    [sharedWithGateway: true], under a version newer than the one retained. *)
Definition permits (ck : clock) (a : agent_identity) (h : heartbeat) (d : db) (id : string) (retained : option string) : Prop :=
  (id ∉ hb_privateIds h) ∧
  (∃ raw q, raw ∈ hb_printers h ∧ json_field raw "sharedWithGateway" = Some (JBool true) ∧
     sanitizePrinter URL utf8_length raw = Ok q ∧ sz_id (resolve_alias a (rows_read a h (now ck) (printers d)) q) = id) ∧
  ∃ v, hb_version h = Some v ∧ ∀ w, retained = Some w → version_number w < version_number v.

Lemma may_update_permits ck a h d q e : q ∈ listed ck a h d → mayUpdateSharing h q e = true →
  permits ck a h d (sz_id q) (pr_sharedWithGatewayVersion e).
Proof.
  intros (Hp & raw & p & Hraw & Hs & ->)%listed_reported [Hm1 Hm2]%andb_true_iff. rewrite resolve_alias_shared in Hm1.
  split; [done|]. split; [exists raw, p; split_and!; try done; by apply sanitize_shared in Hs|].
  destruct (hb_version h) as [v|]; [|done]. exists v. split; [done|]. intros w Hw. rewrite Hw in Hm2. lia.
Qed.

(** Sharing of a row over a committed heartbeat. *)
Record sharing_kept (ck : clock) (a : agent_identity) (h : heartbeat) (d : db) (k : string * string) (p p' : printer) : Prop := {
  sk_version : version_le (pr_sharedWithGatewayVersion p) (pr_sharedWithGatewayVersion p');
  sk_permitted : pr_sharedWithGateway p = false → pr_sharedWithGateway p' = true →
    permits ck a h d k.2 (pr_sharedWithGatewayVersion p) ∧ pr_sharedWithGatewayVersion p' = hb_version h;
  sk_withdrawn : pr_sharedWithGateway p = true → pr_sharedWithGateway p' = false →
    k.2 ∈ hb_privateIds h ∧ denial_applies (hb_version h) p = true;
  sk_denied : k.1 = ai_tenantId a → pr_agentId p = ai_id a → k.2 ∈ hb_privateIds h → denial_applies (hb_version h) p = true →
    pr_sharedWithGateway p' = false ∧ pr_sharedWithGatewayVersion p' = hb_version h;
}.

Lemma denied_read ck a h P k p e : P !! k = Some p → rows_read a h (now ck) P !! k = Some e →
  k.1 = ai_tenantId a → pr_agentId p = ai_id a → k.2 ∈ hb_privateIds h → denial_applies (hb_version h) p = true →
  pr_sharedWithGateway e = false ∧ pr_sharedWithGatewayVersion e = hb_version h.
Proof.
  intros Hp He Hk Ha Hin Hd. unfold rows_read in He. rewrite deny_private_lookup in He.
  pose proof (acks_read a h (hb_acks h) P k) as Hi. rewrite Hp in Hi. destruct (foldl _ P (hb_acks h) !! k) as [r|]; [|done].
  simpl in He, Hi. injection He as <-.
  assert (pr_agentId r = ai_id a ∧ denial_applies (hb_version h) r = true) as [Har Hdr].
  { destruct Hi as [->|(_ & _ & [Hf _ Hs])]; [done|]. split; [unfold fixed_columns in Hf; congruence|].
    unfold denial_applies in *. destruct Hs as [[_ ->]|(_ & -> & _)]; [done|]. destruct (hb_version h); [apply Z.leb_refl|done]. }
  unfold is_denied. rewrite Hk, Har, Hdr, !(bool_decide_true (_ = _)) by done.
  by rewrite (proj2 (one_of_true _ _) Hin).
Qed.

Lemma denial_version_le h p : denial_applies (hb_version h) p = true → version_le (pr_sharedWithGatewayVersion p) (hb_version h).
Proof. unfold denial_applies, version_le. repeat case_match; try done; lia. Qed.

Lemma committed_sharing ck a h d d' ag over blocked k p : heartbeat_committed ck a h d d' ag over blocked →
  printers d !! k = Some p → ∃ p', printers d' !! k = Some p' ∧ sharing_kept ck a h d k p p'.
Proof.
  intros Hc Hp. destruct (row_after _ _ _ _ _ _ _ _ _ _ Hc Hp) as (e & r & p' & Hread & He & Hpage & Hend & Hp').
  exists p'. split; [done|]. clear Hp'.
  assert (pr_sharedWithGateway p' = pr_sharedWithGateway r ∧ pr_sharedWithGatewayVersion p' = pr_sharedWithGatewayVersion r) as [E1 E2]
    by (by destruct Hend as [->|(_ & _ & ->)]).
  assert ((pr_sharedWithGateway e = pr_sharedWithGateway p ∧ pr_sharedWithGatewayVersion e = pr_sharedWithGatewayVersion p) ∨
    (pr_sharedWithGateway e = false ∧ pr_sharedWithGatewayVersion e = hb_version h ∧ k.2 ∈ hb_privateIds h ∧
     denial_applies (hb_version h) p = true)) as Hpe by (destruct Hread as [->|(_ & _ & [_ _ ?])]; auto).
  assert ((pr_sharedWithGateway r = pr_sharedWithGateway e ∧ pr_sharedWithGatewayVersion r = pr_sharedWithGatewayVersion e) ∨
    (pr_sharedWithGateway r = true ∧ pr_sharedWithGatewayVersion r = hb_version h ∧
     permits ck a h d k.2 (pr_sharedWithGatewayVersion e))) as Her.
  { destruct Hpage as [->|(_ & _ & [_ _ _ _ _ _ _ [?|(? & ? & q & Hq & <- & Hm & _)] _])]; [by left|by left|].
    right. split_and!; [done|done|]. by apply may_update_permits. }
  pose proof (denied_read ck a h (printers d) k p e Hp He) as Hden. clear Hread Hpage Hend He Hp.
  assert (∀ v, permits ck a h d k.2 v → version_le v (hb_version h)) as Hnew.
  { intros v (_ & _ & w & -> & Hw). destruct v as [v|]; [|done]. simpl. apply Z.lt_le_incl, Hw. done. }
  assert (∀ v, permits ck a h d k.2 v → k.2 ∈ hb_privateIds h → False) as Hno by (by intros v [? _] ?).
  split; rewrite ?E1, ?E2.
  - destruct Her as [[_ ->]|(_ & -> & Hm)].
    + destruct Hpe as [[_ ->]|(_ & -> & _ & Hd)]; [unfold version_le; by case_match|by apply denial_version_le].
    + destruct Hpe as [[_ <-]|(_ & _ & ? & _)]; [by apply Hnew|by destruct (Hno _ Hm)].
  - intros Hs Hs'. destruct Her as [[Her _]|(_ & -> & Hm)]; [destruct Hpe as [[? _]|(? & _)]; congruence|].
    split; [|done]. destruct Hpe as [[_ <-]|(_ & _ & ? & _)]; [done|by destruct (Hno _ Hm)].
  - intros Hs Hs'. destruct Her as [[Her _]|(? & _)]; [|congruence]. destruct Hpe as [[? _]|(_ & _ & ? & ?)]; [congruence|done].
  - intros Hk Ha Hin Hd. destruct (Hden Hk Ha Hin Hd) as [D1 D2].
    destruct Her as [[-> ->]|(_ & _ & Hm)]; [done|by destruct (Hno _ Hm)].
Qed.

(** C16. The sharing fence. Whatever a heartbeat reports, the rows of other
    tenants and of other agents are untouched; a printer that is not shared
    becomes shared only by an explicit permission in a page of a strictly newer
    inventory version that does not also deny it; a denial by a version that is
    not older takes effect whatever else the same page says; sharing is withdrawn
    only by a denial; and the retained version never goes back, so a delayed or
    replayed page cannot undo a later decision. *)
Theorem sharing_fence ck a h d o d' k p : heartbeat_transaction ck a h d = Ok (o, d') → printers d !! k = Some p →
  ∃ p', printers d' !! k = Some p' ∧
    (k.1 ≠ ai_tenantId a ∨ pr_agentId p ≠ ai_id a → p' = p) ∧
    ((∃ skipped aliases blocked desired, o = hb_ok skipped aliases blocked desired ∧ sharing_kept ck a h d k p p') ∨
     ((∀ skipped aliases blocked desired, o ≠ hb_ok skipped aliases blocked desired) ∧ d' = d)).
Proof.
  intros H Hp. apply heartbeat_inv in H as [[-> Ho]|(ag & over & blocked & desired & Hc & ->)].
  - exists p. split_and!; [done|done|by right; split].
  - destruct (committed_sharing _ _ _ _ _ _ _ _ _ _ Hc Hp) as (p' & Hp' & Hk). exists p'. split_and!; [done| |].
    + intros Hf. pose proof (foreign_rows _ _ _ _ _ _ _ _ _ _ Hc Hp Hf) as E. congruence.
    + left. by eexists _, _, _, _.
Qed.

(** ** Jobs *)

(** The printers a page shares are shared when it is done. *)
Definition shared_inv (x : page_ctx) (l : list sanitized) (st : page_state) : Prop :=
  ∀ id, id ∈ pg_shared st →
    (∃ q e, q ∈ l ∧ sz_id q = id ∧ px_rows x !! (ai_tenantId (px_agent x), id) = Some e ∧ pr_agentId e = ai_id (px_agent x) ∧
       mayUpdateSharing (px_heartbeat x) q e = true) ∧
    ∃ r, pg_fleet st !! (ai_tenantId (px_agent x), id) = Some r ∧ pr_sharedWithGateway r = true.

Lemma observe_row_shared x p e r : pr_sharedWithGateway r = true → pr_sharedWithGateway (observe_row x p e r) = true.
Proof. intros H. unfold observe_row, snapshot_stamp. by repeat case_match. Qed.

Lemma observe_row_shares x p e r : mayUpdateSharing (px_heartbeat x) p e = true → reshare_blocked x p e = false →
  pr_sharedWithGateway (observe_row x p e r) = true.
Proof. intros H1 H2. unfold observe_row, snapshot_stamp. rewrite H1, H2. simpl. by repeat case_match. Qed.

Lemma observe_printer_shared x l st p : p ∈ l → page_inv x l st → shared_inv x l st → shared_inv x l (observe_printer x st p).
Proof.
  intros Hp Hi Hs id. unfold observe_printer. set (key := (ai_tenantId (px_agent x), sz_id p)).
  destruct (px_rows x !! key) as [e|] eqn:He; [|apply Hs].
  destruct (pr_agentId e != _) eqn:Ha; [apply Hs|]. apply negb_false_iff, bool_decide_eq_true in Ha. cbn [pg_shared pg_fleet].
  intros [Hin|Hin]%elem_of_app.
  - destruct (Hs id Hin) as [Hq (r & Hr & Hsh)]. split; [done|].
    destruct (decide (key = (ai_tenantId (px_agent x), id))) as [Ek|Hne]; [|rewrite lookup_alter_ne by done; by exists r].
    rewrite <-Ek in Hr |- *. rewrite lookup_alter_eq, Hr. simpl. eexists. split; [reflexivity|]. case_match; [by apply observe_row_shared|done].
  - destruct (mayUpdateSharing _ p e) eqn:Hm; [|by apply not_elem_of_nil in Hin].
    destruct (_ || _) eqn:Hb in Hin; [by apply not_elem_of_nil in Hin|]. apply list_elem_of_singleton in Hin as ->.
    apply orb_false_iff in Hb as [_ Hb]. split; [by exists p, e|]. fold key. rewrite lookup_alter_eq.
    pose proof (Hi key) as Hrow. rewrite He in Hrow. destruct (pg_fleet st !! key) as [r|]; [|done]. simpl in Hrow |- *.
    eexists. split; [reflexivity|].
    assert (pr_agentId r = ai_id (px_agent x) ∧ pr_managementSource r = pr_managementSource e) as [-> ->]
      by (destruct Hrow as [->|(_ & _ & [H1 H2 _ _ _ _ _ _ _])]; split; congruence).
    rewrite !bool_decide_true by done. by apply observe_row_shares.
Qed.

Lemma register_printer_shared x l st p : shared_inv x l st → shared_inv x l (register_printer x st p).
Proof.
  intros Hs id Hin. assert (pg_shared (register_printer x st p) = pg_shared st) as E
    by (unfold register_printer; by repeat case_match). rewrite E in Hin.
  destruct (Hs id Hin) as [(q & e & Hq) (r & Hr & Hsh)]. split; [by exists q, e|]. exists r. split; [|done].
  unfold register_printer. destruct (is_some (px_rows x !! _)) eqn:He; [done|]. destruct Hq as (_ & _ & Hrow & _).
  assert ((ai_tenantId (px_agent x), sz_id p) ≠ (ai_tenantId (px_agent x), id)) as Hne by (intros E'; by rewrite E', Hrow in He).
  repeat case_match; simpl; rewrite ?lookup_insert_ne by done; done.
Qed.

Lemma write_page_shared x skipped l : shared_inv x l (write_page x skipped l).
Proof.
  unfold write_page. apply foldl_inv; [intros; by apply register_printer_shared|].
  apply (foldl_inv (λ st, page_inv x l st ∧ shared_inv x l st)).
  - intros st p Hp [? ?]. split; [by apply observe_printer_inv|by apply observe_printer_shared].
  - split; [intros k; simpl; destruct (px_rows x !! k); [by left|done]|]. by intros id ?%not_elem_of_nil.
Qed.

(** What a heartbeat does to a job: renew the lease it proves to hold, and release
    a job that waited for its printer to be shared. *)
Definition job_after (ck : clock) (a : agent_identity) (h : heartbeat) (shared : list string) (id : string) (j : print_job) : print_job :=
  let j1 := if existsb (λ it : string * string, (it.1 == id) && renewable (ai_tenantId a) (ai_id a) it.2 j) (hb_tokened h)
            then set_updatedAt (now ck) j else j in
  if paused (ai_tenantId a) (ai_id a) shared j then set_error None j1 else j1.

Lemma renew_leases_lookup ck t ag l d id : print_jobs (renew_leases ck t ag l d) !! id =
  (λ j, if existsb (λ it : string * string, (it.1 == id) && renewable t ag it.2 j) l then set_updatedAt (now ck) j else j)
    <$> print_jobs d !! id.
Proof.
  unfold renew_leases. rewrite lookup_update_jobs. destruct (print_jobs d !! id) as [j|] eqn:Hj; [|done]. simpl. f_equal.
  assert (bool_decide (id ∈ omap (λ it : string * string,
    match print_jobs d !! it.1 with Some j => if renewable t ag it.2 j then Some it.1 else None | None => None end) l) =
    existsb (λ it : string * string, (it.1 == id) && renewable t ag it.2 j) l) as ->; [|done].
  apply eq_true_iff_eq. rewrite bool_decide_eq_true, existsb_exists, list_elem_of_omap. split.
  - intros ([i tok] & Hin & Hm). simpl in Hm. destruct (print_jobs d !! i) as [j'|] eqn:Hi; [|done].
    destruct (renewable t ag tok j') eqn:Hr; [|done]. injection Hm as ->. exists (id, tok).
    split; [by apply list_elem_of_In|]. simpl. rewrite bool_decide_true by done. rewrite Hj in Hi. by injection Hi as ->.
  - intros ([i tok] & Hin%list_elem_of_In & Hm). simpl in Hm. apply andb_true_iff in Hm as [->%bool_decide_eq_true Hren].
    exists (id, tok). split; [done|]. simpl. by rewrite Hj, Hren.
Qed.

Lemma resume_paused_lookup t ag shared d id : print_jobs (resume_paused t ag shared d) !! id =
  (λ j, if paused t ag shared j then set_error None j else j) <$> print_jobs d !! id.
Proof.
  unfold resume_paused. simpl. rewrite lookup_update_ids. destruct (print_jobs d !! id) as [j|] eqn:Hj; [|done]. simpl. f_equal.
  assert (bool_decide (id ∈ (filter (λ kj : string * print_job, paused t ag shared kj.2 = true) (map_to_list (print_jobs d))).*1) =
    paused t ag shared j) as ->; [|done].
  apply eq_true_iff_eq. rewrite bool_decide_eq_true, list_elem_of_fmap. split.
  - intros ([i j'] & -> & [Hp Hin%elem_of_map_to_list]%list_elem_of_filter). simpl in *. congruence.
  - intros Hp. exists (id, j). split; [done|]. apply list_elem_of_filter. split; [done|]. by apply elem_of_map_to_list.
Qed.

(** The printers a committed page shares. *)
Lemma shared_permitted ck a h d d' ag over blocked id : heartbeat_committed ck a h d d' ag over blocked →
  id ∈ pg_shared (page_written ck a h d over blocked) →
  ∃ p p', printers d !! (ai_tenantId a, id) = Some p ∧ pr_agentId p = ai_id a ∧ permits ck a h d id (pr_sharedWithGatewayVersion p) ∧
    printers d' !! (ai_tenantId a, id) = Some p' ∧ pr_sharedWithGateway p' = true.
Proof.
  intros Hc Hin. destruct (write_page_shared (page_at ck a h d over blocked) _ _ id Hin) as [(q & e & Hq & <- & He & Ha & Hm) (r & Hr & Hsh)].
  change (write_page _ _ _) with (page_written ck a h d over blocked) in Hr. simpl in He, Ha, Hm, Hr.
  pose proof (may_update_permits _ _ _ _ _ _ Hq Hm) as Hper.
  pose proof (rows_read_row a h (now ck) (printers d) (ai_tenantId a, sz_id q)) as Hrow. rewrite He in Hrow.
  destruct (printers d !! _) as [p|]; [|done]. exists p.
  assert (pr_agentId p = ai_id a ∧ pr_sharedWithGatewayVersion e = pr_sharedWithGatewayVersion p) as [Hp <-].
  { destruct Hrow as [->|(_ & ? & [_ _ [[_ ?]|(_ & _ & Hpriv & _)]])]; [done|done|]. by destruct Hper as [? _]. }
  destruct (fleet_after_lookup ck a h (ag_snapshot ag) (page_written ck a h d over blocked) (ai_tenantId a, sz_id q))
    as [E|(r' & Hr' & _ & _ & E)]; rewrite (hc_printers _ _ _ _ _ _ _ _ Hc), E.
  - by exists r.
  - rewrite Hr in Hr'. injection Hr' as <-. eexists. split_and!; try done; reflexivity.
Qed.

(** A heartbeat refines the job protocol: an accepted one is a sequence of
    the pipeline's steps, so it keeps every guarantee of the pipeline, and its
    effect on jobs is exactly this: the leases it proves with a current claim
    token are renewed, jobs that waited because their printer was not shared are
    released when this very page shares the printer, and nothing else of any
    job changes. *)
Theorem heartbeat_jobs (base64 : string → bytes) Date_parse jsonb_text_length octets toISOString env
    ck a h d skipped aliases blocked desired d' :
  heartbeat_transaction ck a h d = Ok (hb_ok skipped aliases blocked desired, d') →
  rtc (system_step sha256 base64 Date_parse utf8_length jsonb_text_length octets toISOString env) d d' ∧
  ∃ shared, (∀ id, print_jobs d' !! id = job_after ck a h shared id <$> print_jobs d !! id) ∧
    ∀ id, id ∈ shared → ∃ p p', printers d !! (ai_tenantId a, id) = Some p ∧ pr_agentId p = ai_id a ∧
      permits ck a h d id (pr_sharedWithGatewayVersion p) ∧ printers d' !! (ai_tenantId a, id) = Some p' ∧ pr_sharedWithGateway p' = true.
Proof.
  intros [[_ Ho]|(ag & over & b & ds & Hc & _)]%heartbeat_inv; [by destruct (Ho skipped aliases blocked desired)|].
  destruct (hc_jobs _ _ _ _ _ _ _ _ Hc) as (d2 & Hd2 & Hd'). split.
  - apply rtc_l with (renew_leases ck (ai_tenantId a) (ai_id a) (hb_tokened h) d); [apply st_heartbeat|].
    destruct Hd2 as [[_ ->]| ->]; [|eapply rtc_l; [apply st_resume|]]; apply rtc_once, st_other; by rewrite Hd'.
  - exists (pg_shared (page_written ck a h d over b)). split; [|intros id; by apply (shared_permitted _ _ _ _ _ _ _ _ _ Hc)].
    intros id. rewrite Hd'. simpl. unfold job_after. destruct Hd2 as [[-> ->]| ->].
    + rewrite renew_leases_lookup. destruct (print_jobs d !! id) as [j|]; [|done]. simpl. f_equal.
      assert (paused (ai_tenantId a) (ai_id a) [] j = false) as ->; [|done].
      unfold paused. by rewrite (andb_comm _ (one_of [] _)).
    + rewrite resume_paused_lookup, renew_leases_lookup. destruct (print_jobs d !! id) as [j|]; [|done]. simpl. f_equal.
      by destruct (existsb _ _).
Qed.

(** ** Rows *)

(** What the table demands of a row, and what the application demands of the rows
    agents describe. *)
Definition printer_row_ok (p : printer) : Prop :=
  printer_check p = true ∧
  (pr_managementSource p = "agent" → ∃ config, pr_config p = Some (JObject config) ∧
     well_configured URL utf8_length (pr_name p) (pr_printerType p) (pr_deviceClass p) (pr_connectionType p) (pr_protocol p)
       (JObject config) (pr_capabilities p)).

Lemma printer_check_spec p : printer_check p = true ↔
  pr_managementSource p ∈ ["agent"; "manager"] ∧ revisions_ok p ∧ pr_lifecycle p ∈ ["active"; "disabled"; "retired"] ∧
  pr_connectionType p ∈ CONNECTION_TYPES ∧ pr_protocol p ∈ PRINTER_PROTOCOLS ∧ pr_status p ∈ PRINTER_STATUSES.
Proof.
  unfold printer_check, revisions_ok. rewrite !andb_true_iff, !one_of_true, !Z.leb_le. intuition lia.
Qed.

(** A reported printer, as a description of a row. *)
Definition describes (q : sanitized) (config : list (string * json)) : Prop :=
  sz_config q = JObject config ∧
  well_configured URL utf8_length (sz_name q) (sz_printerType q) (sz_deviceClass q) (sz_connectionType q) (sz_protocol q)
    (JObject config) (sz_capabilities q).

Lemma listed_ok ck a h d q : q ∈ listed ck a h d → (∃ config, describes q config) ∧ sz_status q ∈ PRINTER_STATUSES.
Proof.
  intros (_ & raw & p & _ & Hs & ->)%listed_reported. destruct (sanitize_object _ _ _ _ Hs) as [config Hc].
  apply sanitize_sound in Hs as [_ Hw Hs]. rewrite Hc in Hw.
  assert (VALID_PRINTER_STATUSES = PRINTER_STATUSES) as <- by reflexivity. unfold resolve_alias.
  repeat case_match; (split; [by exists config|done]).
Qed.

Lemma language_protocol connectionType protocol : protocol ∈ transport_languages connectionType → protocol ∈ PRINTER_PROTOCOLS.
Proof. unfold transport_languages. intros H. assert (∀ l, l ⊆ PRINTER_PROTOCOLS → protocol ∈ l → protocol ∈ PRINTER_PROTOCOLS) as Hl by set_solver.
  repeat case_match; revert H; apply Hl; apply (bool_decide_unpack _); exact I. Qed.

Lemma read_ok a h k p e : read_row a h k (Some p) (Some e) → printer_row_ok p → printer_row_ok e.
Proof.
  intros [->|(_ & _ & [Hf Hr _])] [(? & Hrev & ? & ? & ? & ?)%printer_check_spec Hc]; [split; [by apply printer_check_spec|done]|].
  destruct (Hr Hrev) as [? _]. unfold fixed_columns in Hf. injection Hf. intros. split.
  - apply printer_check_spec. split_and!; congruence.
  - intros Hm. destruct Hc as (config & ? & ?); [congruence|]. exists config. split; congruence.
Qed.

Lemma observed_ok ck a h d over blocked k e r :
  page_row (page_at ck a h d over blocked) (listed ck a h d) k (Some e) (Some r) → printer_row_ok e → printer_row_ok r.
Proof.
  intros [->|(_ & _ & [H1 H2 H3 H4 H5 H6 _ _ (q & Hq & _ & _ & Hs & Hcap & Hd)])]; [done|].
  intros [(? & ? & ? & ? & ? & ?)%printer_check_spec Hc]. apply listed_ok in Hq as [(config & Hcfg & Hw) Hst].
  assert (pr_status r ∈ PRINTER_STATUSES) by (rewrite Hs; destruct (reactivation_blocked _ _ _); [apply (bool_decide_unpack _); exact I|done]).
  assert (revisions_ok r) by (unfold revisions_ok in *; by rewrite H4, H5, H6).
  destruct (bool_decide_reflect (pr_managementSource e = "agent")) as [Hm|Hm]; destruct Hd as (D1 & D2 & D3 & D4 & D5 & D6); split.
  - apply printer_check_spec. rewrite H2, H3, D4, D5. split_and!; try done; [apply Hw|eapply language_protocol, Hw].
  - intros _. exists config. split; [congruence|]. rewrite D1, D2, D3, D4, D5, Hcap. apply Hw.
  - apply printer_check_spec. rewrite H2, H3, D4, D5. by split_and!.
  - intros Hm'. congruence.
Qed.

Lemma registered_ok ck a h d over blocked id r :
  registered_as (page_at ck a h d over blocked) (listed ck a h d) id r → printer_row_ok r.
Proof.
  intros [_ H2 H3 (H4 & H5 & H6) _ _ _ _ [(q & Hq & _ & D1 & D2 & D3 & D4 & D5 & D6) (q' & Hq' & _ & Hs & Hcap)]].
  apply listed_ok in Hq as [(config & Hcfg & Hw) _], Hq' as [(config' & _ & Hw') Hs']. split.
  - assert (revisions_ok r) by (unfold revisions_ok; lia). apply printer_check_spec. rewrite H2, H3, D4, D5, Hs.
    split_and!; try done; [by left|by left|apply Hw|eapply language_protocol, Hw].
  - intros _. exists config. split; [congruence|]. rewrite D1, D2, D3, D4, D5, Hcap. destruct Hw, Hw'. by split.
Qed.

Lemma absent_ok now r : printer_row_ok r → printer_row_ok (set_printer_updated now (set_presence false "unknown" r)).
Proof.
  intros [(? & ? & ? & ? & ? & _)%printer_check_spec Hc]. split; [|done]. apply printer_check_spec. split_and!; try done.
  apply (bool_decide_unpack _); exact I.
Qed.

Lemma row_new ck a h d d' ag over blocked k p' : heartbeat_committed ck a h d d' ag over blocked → printers d !! k = None →
  printers d' !! k = Some p' → ∃ r, k.1 = ai_tenantId a ∧ registered_as (page_at ck a h d over blocked) (listed ck a h d) k.2 r ∧
    (p' = r ∨ p' = set_printer_updated (now ck) (set_presence false "unknown" r)).
Proof.
  intros Hc Hp. rewrite (hc_printers _ _ _ _ _ _ _ _ Hc). set (st := page_written _ _ _ _ _ _).
  pose proof (rows_read_row a h (now ck) (printers d) k) as Hr. rewrite Hp in Hr.
  pose proof (write_page_inv (page_at ck a h d over blocked) (sanitize_page (hb_privateIds h) (hb_printers h)).2 (listed ck a h d) k) as Hw.
  change (write_page _ _ _) with st in Hw. change (px_rows (page_at ck a h d over blocked)) with (rows_read a h (now ck) (printers d)) in Hw.
  destruct (rows_read a h (now ck) (printers d) !! k) as [e|]; [done|]. simpl in Hw.
  destruct (fleet_after_lookup ck a h (ag_snapshot ag) st k) as [E|(r' & Hr' & _ & _ & E)]; rewrite E; intros Hp'.
  - rewrite Hp' in Hw. exists p'. destruct Hw. by split_and!; [| |left].
  - rewrite Hr' in Hw. injection Hp' as <-. exists r'. destruct Hw. by split_and!; [| |right].
Qed.

(** What agents report cannot spoil the printer table: if every row satisfies the
    table's checks, and every row an agent manages describes a printer a gateway
    may print to, then so do all rows after any heartbeat, whatever its JSON
    holds. *)
Lemma heartbeat_rows_ok ck a h d o d' : heartbeat_transaction ck a h d = Ok (o, d') →
  (∀ k p, printers d !! k = Some p → printer_row_ok p) → ∀ k p', printers d' !! k = Some p' → printer_row_ok p'.
Proof.
  intros [[-> _]|(ag & over & blocked & desired & Hc & _)]%heartbeat_inv Hall k p' Hp'; [by eapply Hall|].
  destruct (printers d !! k) as [p|] eqn:Hp.
  - destruct (row_after _ _ _ _ _ _ _ _ _ _ Hc Hp) as (e & r & p0 & Hread & _ & Hpage & Hend & Hp0). rewrite Hp0 in Hp'. injection Hp' as <-.
    assert (printer_row_ok r) by (eapply observed_ok, read_ok; [done|done|by eapply Hall]).
    destruct Hend as [->|(_ & _ & ->)]; [done|by apply absent_ok].
  - destruct (row_new _ _ _ _ _ _ _ _ _ _ Hc Hp Hp') as (r & _ & Hr%registered_ok & Hend). destruct Hend as [->| ->]; [done|by apply absent_ok].
Qed.

End heartbeat.

(** ** A heartbeat of the sample agent *)

Definition network_printer (shared : bool) (version : option string) : printer := {|
  pr_agentId := "a1"; pr_name := "Kitchen"; pr_printerType := "physical"; pr_deviceClass := "thermal";
  pr_connectionType := "network"; pr_protocol := "escpos"; pr_status := "online"; pr_lifecycle := "active";
  pr_managementSource := "agent"; pr_sharedWithGateway := shared; pr_sharedWithGatewayVersion := version;
  pr_desiredRevision := 0; pr_appliedDesiredRevision := 0; pr_observedDesiredRevision := 0; pr_observedDeviceClass := None;
  pr_config := Some (JObject [("ip", JString "10.0.0.9"); ("port", JNumber 9100)]); pr_capabilities := None;
  pr_inventoryPresent := true; pr_inventorySnapshotId := None; pr_lastSeenAt := Some 1000; pr_updatedAt := 0 |}.

(** A private kitchen printer with a job waiting for it, and a bar printer. *)
Definition private_db : db :=
  with_printers {[("t1", "p1") := network_printer false (Some "3"); ("t1", "p2") := network_printer true None]}
    (gateway_db {["j1" := set_error (Some PRINTER_NOT_SHARED_PAUSE) sample_job]}).

Definition reported (id : string) (extra : list (string * json)) : json := JObject ([
  ("id", JString id); ("name", JString "Kitchen"); ("type", JString "network"); ("protocol", JString "escpos");
  ("config", JObject [("ip", JString "10.0.0.9"); ("port", JNumber 9100)])] ++ extra).

(** The kitchen printer is shared, a new one appears, the bar printer is gone. *)
Definition sharing_body : json := JObject [
  ("heartbeatPage", JNumber 1); ("heartbeatPageCount", JNumber 1); ("inventorySnapshotId", JString "s9");
  ("inventorySnapshotVersion", JString "4"); ("inventoryComplete", JBool true);
  ("printers", JArray [reported "p1" [("sharedWithGateway", JBool true)]; reported "p7" []])].

Definition sharing_heartbeat : heartbeat := {|
  hb_status := "online"; hb_page := 1; hb_pageCount := 1; hb_snapshotId := "s9"; hb_complete := true; hb_version := Some "4";
  hb_paging := false; hb_printers := [reported "p1" [("sharedWithGateway", JBool true)]; reported "p7" []];
  hb_privateIds := []; hb_gatewayOwned := []; hb_tokened := []; hb_acks := [] |}.

Definition sample_identity : agent_identity := {| ai_id := "a1"; ai_tenantId := "t1" |}.

Abbreviation sample_beat :=
  (heartbeat_transaction sample_URL strlen (λ s, s) hex_encode hex_decode (at_time 5000) sample_identity sharing_heartbeat private_db).

Definition shared_db : db := match sample_beat with Ok (_, d') => d' | Err _ => private_db end.

Lemma sample_beat_ok : sample_beat = Ok (hb_ok [] [] false (Some ([], None)), shared_db).
Proof. vm_compute. reflexivity. Qed.

(** The body parses to the heartbeat; the kitchen printer is shared under the new
    version, its job is released, and the bar printer is marked absent. *)
Example sharing_beat :
  parse_heartbeat strlen sharing_body = Ok sharing_heartbeat ∧
  (pr_sharedWithGatewayVersion <$> printers shared_db !! ("t1", "p1")) = Some (Some "4") ∧
  (pr_inventoryPresent <$> printers shared_db !! ("t1", "p2")) = Some false ∧
  (pj_error <$> print_jobs shared_db !! "j1") = Some None ∧
  (ag_snapshot <$> agents shared_db !! "a1") = Some {| sp_id := None; sp_version := "4"; sp_pageCount := 0; sp_nextPage := 1;
     sp_complete := false; sp_hadErrors := false |}.
Proof. vm_compute. split_and!; reflexivity. Qed.

Lemma network_printer_ok shared version : printer_row_ok sample_URL strlen (network_printer shared version).
Proof.
  split; [reflexivity|]. intros _. eexists. split; [reflexivity|]. split; try done; try (apply (bool_decide_unpack _); exact I).
  apply (config_sound sample_URL strlen "network" _ "escpos"). vm_compute. reflexivity.
Qed.

Lemma printer_capacity_witness :
  printer_count "t1" (printers private_db) = 1 ∧ printer_count "t1" (printers shared_db) = 2 ∧
  printer_count "t1" (printers shared_db) ≤ Z.max 5 (printer_count "t1" (printers private_db)).
Proof.
  split; [reflexivity|]. split; [vm_compute; reflexivity|].
  exact (proj2 (printer_capacity _ _ _ _ _ (at_time 5000) sample_identity sharing_heartbeat private_db _ _ sample_beat_ok)).
Defined.

Lemma sharing_fence_witness :
  ∃ p', printers shared_db !! ("t1", "p1") = Some p' ∧ pr_sharedWithGateway p' = true ∧
    permits sample_URL strlen (λ s, s) (at_time 5000) sample_identity sharing_heartbeat private_db "p1" (Some "3").
Proof.
  destruct (sharing_fence _ _ _ _ _ (at_time 5000) sample_identity sharing_heartbeat private_db _ _ ("t1", "p1")
    (network_printer false (Some "3")) sample_beat_ok eq_refl) as (p' & Hp' & _ & [(? & ? & ? & ? & _ & Hk)|[Ho _]]);
    [|by destruct (Ho [] [] false (Some ([], None)))].
  assert (pr_sharedWithGateway p' = true) as Hs by (vm_compute in Hp'; by injection Hp' as <-).
  exists p'. split; [done|]. split; [done|]. apply (sk_permitted _ _ _ _ _ _ _ _ _ _ Hk eq_refl Hs).
Defined.

Lemma heartbeat_jobs_witness :
  ∃ shared, print_jobs shared_db !! "j1" = Some (job_after (at_time 5000) sample_identity sharing_heartbeat shared "j1"
    (set_error (Some PRINTER_NOT_SHARED_PAUSE) sample_job)).
Proof.
  destruct (heartbeat_jobs _ _ _ _ _ (λ _, []) (λ _, None) (λ _, 0) (λ _, 0) (λ _, "") None (at_time 5000) sample_identity
    sharing_heartbeat private_db _ _ _ _ _ sample_beat_ok) as [_ (shared & Hj & _)].
  exists shared. exact (Hj "j1").
Defined.
