(* ===== verification/HeartbeatRuns.v ===== *)
(** * Heartbeat runs: when a printer is declared absent

    An agent's inventory arrives as pages, each one transaction of [Heartbeat],
    with anything in between. A page's effect on the agent's row is the only
    memory of the pages before it. Here the pages an agent has had accepted are
    kept as a history, and that memory is shown to be faithful to it: a printer
    is declared absent only by the last page of a snapshot all of whose pages
    arrived, in order and without errors, and none of which listed it. *)

From S2P Require Import Prelude DatabaseTime JobStatus Json NetworkAddress Schema PrinterModel Authority Availability Payload.
From S2P Require Import PrinterVirtual Capability Entitlements Inventory Samples DesiredState JobProtocol JobDelivery.
From S2P Require Import JobMaintenance AgentJobs JobService Lifecycle Operator Pipeline Heartbeat.

Section runs.
Context (URL : string → option url) (utf8_length : string → Z) (sha256 encode decode : string → string).
Context (a : agent_identity).

Abbreviation page_listed := (listed URL utf8_length sha256).
Abbreviation written := (page_written URL utf8_length sha256).
Abbreviation committed := (heartbeat_committed URL utf8_length sha256).
Abbreviation transaction := (heartbeat_transaction URL utf8_length sha256 encode decode).

(** ** History *)

(** An accepted page: what it said, which of the printers it listed this agent
    has afterwards, and whether it had errors. *)
Record page_event := {
  pe_heartbeat : heartbeat;
  pe_seen : list string;
  pe_errors : bool;
}.

Definition own_row (d : db) (id : string) : bool :=
  match printers d !! (ai_tenantId a, id) with Some p => pr_agentId p == ai_id a | None => false end.

Definition page_errors (ck : clock) (h : heartbeat) (d : db) : bool :=
  let rows := rows_read a h (now ck) (printers d) in
  match over_limit d ck (ai_tenantId a) rows (candidate_ids a h rows (page_listed ck a h d)) with
  | Ok (over, blocked) => pg_hadErrors (written ck a h d over blocked)
  | Err _ => true
  end.

Definition page_event_of (ck : clock) (h : heartbeat) (d d' : db) : page_event := {|
  pe_heartbeat := h;
  pe_seen := filter (λ id, own_row d' id = true) (map sz_id (page_listed ck a h d));
  pe_errors := page_errors ck h d |}.

(** Anything else that happens: the agent's progress and the stamps of its
    printers are left alone, unless the agent is deleted with its printers. *)
Definition quiet (d d' : db) : Prop :=
  (∀ ag', agents d' !! ai_id a = Some ag' → sp_id (ag_snapshot ag') = None ∨
     ∃ ag, agents d !! ai_id a = Some ag ∧ ag_snapshot ag' = ag_snapshot ag) ∧
  (∀ k p, printers d !! k = Some p → pr_agentId p = ai_id a → agents d' !! ai_id a = None ∨
     ∃ p', printers d' !! k = Some p' ∧ pr_agentId p' = pr_agentId p ∧ pr_inventorySnapshotId p' = pr_inventorySnapshotId p).

Inductive page_run : db → list page_event → Prop :=
| run_start d : (∀ ag, agents d !! ai_id a = Some ag → sp_id (ag_snapshot ag) = None) → page_run d []
| run_page ck body h d pages skipped aliases blocked desired d' :
    page_run d pages →
    parse_heartbeat utf8_length body = Ok h →
    transaction ck a h d = Ok (hb_ok skipped aliases blocked desired, d') →
    snapshotEnabled h = true →
    page_run d' (pages ++ [page_event_of ck h d d'])
| run_quiet d pages d' : page_run d pages → quiet d d' → page_run d' pages.

(** ** The agent's row remembers the run *)

Definition in_sequence (sid : string) (count : Z) (complete : bool) (run : list page_event) : Prop :=
  ∀ i ev, run !! i = Some ev → hb_snapshotId (pe_heartbeat ev) = sid ∧ hb_page (pe_heartbeat ev) = Z.of_nat i + 1 ∧
    hb_pageCount (pe_heartbeat ev) = count ∧ hb_complete (pe_heartbeat ev) = complete.

Definition stamped (sid : string) (run : list page_event) (d : db) : Prop :=
  ∀ ev id, ev ∈ run → id ∈ pe_seen ev → ∃ p, printers d !! (ai_tenantId a, id) = Some p ∧ pr_agentId p = ai_id a ∧
    pr_inventorySnapshotId p = Some sid.

Definition tracked (d : db) (pages : list page_event) : Prop :=
  ∀ ag sid, agents d !! ai_id a = Some ag → sp_id (ag_snapshot ag) = Some sid →
    ∃ earlier run, pages = earlier ++ run ∧ in_sequence sid (sp_pageCount (ag_snapshot ag)) (sp_complete (ag_snapshot ag)) run ∧
      sp_nextPage (ag_snapshot ag) = Z.of_nat (length run) + 1 ∧ sp_hadErrors (ag_snapshot ag) = existsb pe_errors run ∧
      stamped sid run d.

Lemma quiet_tracked d d' pages : quiet d d' → tracked d pages → tracked d' pages.
Proof.
  intros [Hq1 Hq2] Ht ag' sid Hag' Hs. destruct (Hq1 ag' Hag') as [?|(ag & Hag & E)]; [congruence|]. rewrite E in Hs |- *.
  destruct (Ht ag sid Hag Hs) as (earlier & run & H1 & H2 & H3 & H4 & H5). exists earlier, run. split_and!; try done.
  intros ev id Hev Hid. destruct (H5 ev id Hev Hid) as (p & Hp & Ha & Hst).
  destruct (Hq2 _ _ Hp Ha) as [?|(p' & Hp' & Ha' & Hst')]; [congruence|]. exists p'. split_and!; congruence.
Qed.

(** ** Every printer a page lists is stamped *)

Lemma observe_row_stamp x p e r : snapshotEnabled (px_heartbeat x) = true →
  pr_inventorySnapshotId (observe_row x p e r) = Some (hb_snapshotId (px_heartbeat x)).
Proof. intros H. unfold observe_row, snapshot_stamp. rewrite H. by repeat case_match. Qed.

(** The row under a key is the stamped one. *)
Definition row_stamped (x : page_ctx) (key : string * string) (st : page_state) : Prop :=
  ∃ r, pg_fleet st !! key = Some r ∧ pr_inventorySnapshotId r = Some (hb_snapshotId (px_heartbeat x)).

Lemma observe_keeps_stamp x key st p : snapshotEnabled (px_heartbeat x) = true →
  row_stamped x key st → row_stamped x key (observe_printer x st p).
Proof.
  intros Hs (r & Hr & Hst). unfold observe_printer. destruct (px_rows x !! _) as [e|]; [|by exists r].
  destruct (pr_agentId e != _); [by exists r|]. unfold row_stamped. cbn [pg_fleet].
  destruct (decide ((ai_tenantId (px_agent x), sz_id p) = key)) as [Ek|Hne]; [|rewrite lookup_alter_ne by done; by exists r].
  rewrite Ek, lookup_alter_eq, Hr. simpl. eexists. split; [reflexivity|]. case_match; [by apply observe_row_stamp|done].
Qed.

Lemma register_keeps_stamp x key st p : px_rows x !! key ≠ None → row_stamped x key st → row_stamped x key (register_printer x st p).
Proof.
  intros Hk (r & Hr & Hst). exists r. split; [|done]. unfold register_printer. destruct (is_some (px_rows x !! _)) eqn:He; [done|].
  assert ((ai_tenantId (px_agent x), sz_id p) ≠ key) as Hne by (intros <-; by destruct (px_rows x !! _)).
  repeat case_match; simpl; rewrite ?lookup_insert_ne by done; done.
Qed.

Lemma listed_stamped x skipped l q r : q ∈ l → snapshotEnabled (px_heartbeat x) = true →
  pg_fleet (write_page x skipped l) !! (ai_tenantId (px_agent x), sz_id q) = Some r → pr_agentId r = ai_id (px_agent x) →
  pr_inventorySnapshotId r = Some (hb_snapshotId (px_heartbeat x)).
Proof.
  intros Hq Hs Hr Ha. set (key := (ai_tenantId (px_agent x), sz_id q)) in *.
  pose proof (write_page_inv x skipped l key) as Hw. rewrite Hr in Hw.
  destruct (px_rows x !! key) as [e|] eqn:He; [|by destruct Hw as [_ [_ _ _ _ _ _ -> _ _]]; rewrite Hs].
  assert (row_stamped x key (write_page x skipped l)) as (r' & Hr' & Hst); [|congruence].
  unfold write_page. apply foldl_inv; [intros; apply register_keeps_stamp; [by rewrite He|done]|].
  apply (foldl_did (page_inv x l) _ _ _ _ q).
  - intros; by apply observe_printer_inv.
  - intros; by apply observe_keeps_stamp.
  - intros st Hi. pose proof (Hi key) as Hk. rewrite He in Hk. unfold row_stamped, observe_printer. fold key. rewrite He.
    assert (pr_agentId e = ai_id (px_agent x)) as Hea by (destruct Hw as [<-|(_ & ? & _)]; done).
    rewrite (bool_decide_true _ Hea). cbn [negb pg_fleet]. rewrite lookup_alter_eq. destruct (pg_fleet st !! key) as [r0|]; [|done].
    simpl. eexists. split; [reflexivity|].
    assert (pr_agentId r0 = ai_id (px_agent x) ∧ pr_managementSource r0 = pr_managementSource e) as [-> ->]
      by (destruct Hk as [->|(_ & _ & [H1 H2 _ _ _ _ _ _ _])]; split; congruence).
    rewrite !bool_decide_true by done. by apply observe_row_stamp.
  - done.
  - intros k. simpl. destruct (px_rows x !! k); [by left|done].
Qed.

(** ** A page continues the run *)

Lemma committed_errors ck h d d' ag over blocked : committed ck a h d d' ag over blocked →
  page_errors ck h d = pg_hadErrors (written ck a h d over blocked).
Proof. intros Hc. unfold page_errors. by rewrite (hc_over _ _ _ _ _ _ _ _ _ _ _ Hc). Qed.

(** Rows the page saw are stamped with its snapshot. *)
Lemma committed_seen ck h d d' ag over blocked id : committed ck a h d d' ag over blocked → snapshotEnabled h = true →
  id ∈ pe_seen (page_event_of ck h d d') →
  ∃ p, printers d' !! (ai_tenantId a, id) = Some p ∧ pr_agentId p = ai_id a ∧ pr_inventorySnapshotId p = Some (hb_snapshotId h).
Proof.
  intros Hc Hs [Hown Hin]%list_elem_of_filter. apply list_elem_of_fmap in Hin as (q & -> & Hq). unfold own_row in Hown.
  destruct (printers d' !! _) as [p|] eqn:Hp; [|done]. apply bool_decide_eq_true in Hown. exists p. split_and!; [done|done|].
  rewrite (hc_printers _ _ _ _ _ _ _ _ _ _ _ Hc) in Hp.
  pose proof (listed_stamped (page_at ck a h d over blocked) (sanitize_page URL utf8_length (hb_privateIds h) (hb_printers h)).2
    (page_listed ck a h d) q) as Hst.
  destruct (fleet_after_lookup ck a h (ag_snapshot ag) (written ck a h d over blocked) (ai_tenantId a, sz_id q))
    as [E|(r & Hr & _ & _ & E)]; rewrite E in Hp; [by apply (Hst p)|]. injection Hp as <-. by apply (Hst r).
Qed.

(** Stamps of the same snapshot are kept. *)
Lemma committed_stamp ck h d d' ag over blocked k p : committed ck a h d d' ag over blocked →
  printers d !! k = Some p → ∃ p', printers d' !! k = Some p' ∧ pr_agentId p' = pr_agentId p ∧
    (pr_inventorySnapshotId p' = pr_inventorySnapshotId p ∨
     (snapshotEnabled h = true ∧ pr_agentId p = ai_id a ∧ pr_inventorySnapshotId p' = Some (hb_snapshotId h))).
Proof.
  intros Hc Hp. destruct (row_after _ _ _ _ _ _ _ _ _ _ _ _ _ Hc Hp) as (e & r & p' & Hread & _ & Hpage & Hend & Hp').
  exists p'. split; [done|].
  assert (pr_agentId e = pr_agentId p ∧ pr_inventorySnapshotId e = pr_inventorySnapshotId p) as [E1 E2].
  { destruct Hread as [->|(_ & _ & [Hf _ _])]; [done|]. unfold fixed_columns in Hf. split; congruence. }
  assert (pr_agentId p' = pr_agentId r ∧ pr_inventorySnapshotId p' = pr_inventorySnapshotId r) as [-> ->]
    by (by destruct Hend as [->|(_ & _ & ->)]).
  destruct Hpage as [->|(_ & Ha & [O1 _ _ _ _ _ O7 _ _])]; [split; [done|by left]|]. split; [congruence|].
  simpl in O7, Ha. destruct (snapshotEnabled h); [right; split_and!; congruence|left; congruence].
Qed.

(** What the page's order check establishes for a page after the first. *)
Lemma page_in_order_later h s : page_in_order h s = true → snapshotEnabled h = true → hb_page h ≠ 1 → 1 ≤ hb_page h →
  sp_id s = Some (hb_snapshotId h) ∧ sp_pageCount s = hb_pageCount h ∧ sp_nextPage s = hb_page h ∧ sp_complete s = hb_complete h.
Proof.
  unfold page_in_order. intros [_ H%negb_true_iff]%andb_true_iff Hs Hne Hge. rewrite Hs in H.
  assert ((1 <? hb_page h) = true) as Hlt by lia. rewrite Hlt in H. cbn [andb] in H.
  apply orb_false_iff in H as [[[H1 H2]%orb_false_iff H3]%orb_false_iff H4].
  apply negb_false_iff in H1, H2, H3, H4. apply bool_decide_eq_true in H1. apply eqb_prop in H4. split_and!; [|lia|lia|done].
  unfold coalesce in H1. destruct (sp_id s); [by f_equal|]. unfold snapshotEnabled in Hs. by rewrite <-H1 in Hs.
Qed.

Lemma in_sequence_snoc sid count complete run ev : in_sequence sid count complete run →
  hb_snapshotId (pe_heartbeat ev) = sid → hb_page (pe_heartbeat ev) = Z.of_nat (length run) + 1 →
  hb_pageCount (pe_heartbeat ev) = count → hb_complete (pe_heartbeat ev) = complete → in_sequence sid count complete (run ++ [ev]).
Proof.
  intros Hr H1 H2 H3 H4 i ev' [Hi|[Hi Hev]]%lookup_app_Some; [by apply Hr|].
  destruct (i - length run)%nat eqn:E; [|done]. injection Hev as <-. split_and!; try done. lia.
Qed.
(** The run of a snapshot page: what the agent's row remembered, if it is not the
    first, and this page. *)
Lemma page_continues ck h d d' ag over blocked pages :
  committed ck a h d d' ag over blocked → snapshotEnabled h = true → 1 ≤ hb_page h → tracked d pages →
  ∃ earlier run, pages = earlier ++ run ∧
    in_sequence (hb_snapshotId h) (hb_pageCount h) (hb_complete h) (run ++ [page_event_of ck h d d']) ∧
    Z.of_nat (length run) + 1 = hb_page h ∧ priorSnapshotHadErrors h (ag_snapshot ag) = existsb pe_errors run ∧
    stamped (hb_snapshotId h) (run ++ [page_event_of ck h d d']) d'.
Proof.
  intros Hc Hs Hge Ht.
  assert (∀ run, stamped (hb_snapshotId h) run d → stamped (hb_snapshotId h) (run ++ [page_event_of ck h d d']) d') as Hst.
  { intros run Hrun ev id [Hev| ->%list_elem_of_singleton]%elem_of_app Hid; [|by apply (committed_seen ck h d d' ag over blocked)].
    destruct (Hrun ev id Hev Hid) as (p & Hp & Ha & Hsp). destruct (committed_stamp _ _ _ _ _ _ _ _ _ Hc Hp) as (p' & Hp' & Ha' & Hst').
    exists p'. split_and!; [done|congruence|]. destruct Hst' as [?|(_ & _ & ?)]; congruence. }
  destruct (decide (hb_page h = 1)) as [E1|Hne].
  - exists pages, []. rewrite app_nil_r. split_and!; [done| |simpl; lia|unfold priorSnapshotHadErrors; by rewrite E1|].
    + by apply in_sequence_snoc.
    + apply Hst. by intros ev id ?%not_elem_of_nil.
  - destruct (page_in_order_later _ _ (hc_order _ _ _ _ _ _ _ _ _ _ _ Hc) Hs Hne Hge) as (P1 & P2 & P3 & P4).
    destruct (Ht ag _ (hc_agent _ _ _ _ _ _ _ _ _ _ _ Hc) P1) as (earlier & run & H1 & H2 & H3 & H4 & H5).
    rewrite P2, P4 in H2. rewrite P3 in H3. exists earlier, run. split_and!; [done| |done| |by apply Hst].
    + by apply in_sequence_snoc.
    + unfold priorSnapshotHadErrors. destruct (hb_page h =? 1) eqn:E; [lia|done].
Qed.

Lemma page_tracked ck h d d' ag over blocked pages :
  committed ck a h d d' ag over blocked → snapshotEnabled h = true → 1 ≤ hb_page h → tracked d pages →
  tracked d' (pages ++ [page_event_of ck h d d']).
Proof.
  intros Hc Hs Hge Ht ag' sid Hag' Hsid. destruct (page_continues _ _ _ _ _ _ _ _ Hc Hs Hge Ht) as (earlier & run & H1 & H2 & H3 & H4 & H5).
  rewrite (hc_agents _ _ _ _ _ _ _ _ _ _ _ Hc), lookup_insert_eq in Hag'. injection Hag' as <-. cbn [ag_snapshot observed_agent] in *.
  unfold advance_snapshot in *. rewrite Hs in *. cbn [negb] in *. destruct (isFinalHeartbeatPage h); [done|]. simpl in *.
  injection Hsid as <-. exists earlier, (run ++ [page_event_of ck h d d']). split_and!; [by rewrite H1, <-app_assoc|done| |
    |done].
  - rewrite length_app. simpl. lia.
  - rewrite existsb_app, H4. simpl. by rewrite (committed_errors _ _ _ _ _ _ _ Hc), orb_false_r.
Qed.

Lemma page_run_tracked d pages : page_run d pages → tracked d pages.
Proof.
  induction 1 as [d Hd|ck body h d pages skipped aliases blocked desired d' _ IH Hp Ht Hs|d pages d' _ IH Hq].
  - intros ag sid Hag Hsid. rewrite (Hd ag Hag) in Hsid. done.
  - apply parse_heartbeat_wf in Hp as [[? _] _ _ _ _ _ _ _].
    apply heartbeat_inv in Ht as [[_ Ho]|(ag & over & b & ds & Hc & _)]; [by destruct (Ho skipped aliases blocked desired)|].
    by eapply page_tracked.
  - by eapply quiet_tracked.
Qed.
(** ** Absence *)

(** A printer that was present and is not any more. *)
Lemma absence_cause ck h d d' ag over blocked k p p' : committed ck a h d d' ag over blocked →
  printers d !! k = Some p → printers d' !! k = Some p' → pr_inventoryPresent p = true → pr_inventoryPresent p' = false →
  mayReconcileAbsence h (ag_snapshot ag) (page_errors ck h d) = true ∧ k.1 = ai_tenantId a ∧ pr_agentId p = ai_id a ∧
  pr_managementSource p = "agent" ∧ pr_inventorySnapshotId p' ≠ Some (hb_snapshotId h).
Proof.
  intros Hc Hp Hp' Hpres Habs. destruct (row_after _ _ _ _ _ _ _ _ _ _ _ _ _ Hc Hp) as (e & r & p0 & Hread & _ & Hpage & Hend & Hp0).
  rewrite Hp' in Hp0. injection Hp0 as <-.
  assert (pr_inventoryPresent e = true ∧ pr_agentId e = pr_agentId p ∧ pr_managementSource e = pr_managementSource p) as (E1 & E2 & E3).
  { destruct Hread as [->|(_ & _ & [Hf _ _])]; [done|]. unfold fixed_columns in Hf. split_and!; congruence. }
  assert (pr_inventoryPresent r = true ∧ pr_agentId r = pr_agentId e ∧ pr_managementSource r = pr_managementSource e) as (F1 & F2 & F3).
  { destruct Hpage as [->|(_ & _ & [O1 O2 _ _ _ _ _ _ (q & _ & _ & Hq & _)])]; [done|]. split_and!; [|done|done].
    rewrite Hq. unfold reactivation_blocked. rewrite E1. by rewrite andb_false_r. }
  destruct Hend as [->|(Hu & Hm & ->)]; [congruence|]. rewrite (committed_errors _ _ _ _ _ _ _ Hc).
  unfold unseen in Hu. bools. split_and!; try done; congruence.
Qed.

(** C15. Absence is only declared on complete evidence. Over any history of an
    agent's pages, with anything in between: if a page makes a present printer
    absent, then it is the last page of a versioned snapshot declared complete,
    the pages before it in the history are exactly the first ones of that
    snapshot in order, none of them had an error, and no page of the snapshot
    listed the printer among those the agent has. *)
Theorem absence_on_complete_evidence d pages ck body h skipped aliases blocked desired d' k p p' :
  page_run d pages → parse_heartbeat utf8_length body = Ok h →
  transaction ck a h d = Ok (hb_ok skipped aliases blocked desired, d') →
  printers d !! k = Some p → printers d' !! k = Some p' → pr_inventoryPresent p = true → pr_inventoryPresent p' = false →
  k.1 = ai_tenantId a ∧ pr_agentId p = ai_id a ∧ pr_managementSource p = "agent" ∧ is_some (hb_version h) = true ∧
  ∃ earlier run, pages = earlier ++ run ∧
    in_sequence (hb_snapshotId h) (hb_pageCount h) true (run ++ [page_event_of ck h d d']) ∧
    Z.of_nat (length (run ++ [page_event_of ck h d d'])) = hb_pageCount h ∧
    existsb pe_errors (run ++ [page_event_of ck h d d']) = false ∧
    ∀ ev, ev ∈ run ++ [page_event_of ck h d d'] → k.2 ∉ pe_seen ev.
Proof.
  intros Hrun [[Hge _] _ _ _ _ _ _ _]%parse_heartbeat_wf Ht Hp Hp' Hpres Habs.
  apply heartbeat_inv in Ht as [[_ Ho]|(ag & over & b & ds & Hc & _)]; [by destruct (Ho skipped aliases blocked desired)|].
  destruct (absence_cause _ _ _ _ _ _ _ _ _ _ Hc Hp Hp' Hpres Habs) as (Hm & Hk & Ha & Hsrc & Hst).
  unfold mayReconcileAbsence in Hm. apply andb_true_iff in Hm as [[[[[Hs Hv]%andb_true_iff Hf]%andb_true_iff Hcomp]%andb_true_iff
    Hprior%negb_true_iff]%andb_true_iff Herr%negb_true_iff].
  destruct (page_continues _ _ _ _ _ _ _ _ Hc Hs Hge (page_run_tracked _ _ Hrun)) as (earlier & run & H1 & H2 & H3 & H4 & H5).
  rewrite Hcomp in H2. split_and!; try done. exists earlier, run. split_and!; [done|done| | |].
  - rewrite length_app. unfold isFinalHeartbeatPage in Hf. simpl. lia.
  - rewrite existsb_app, <-H4, Hprior. simpl. by rewrite Herr.
  - intros ev Hev Hin. destruct (H5 ev _ Hev Hin) as (p0 & Hp0 & _ & Hst0). destruct k as [t id]. simpl in *. subst t. congruence.
Qed.

(** Heartbeats of other agents, and those that carry no snapshot, are quiet. *)
Lemma heartbeat_quiet ck b h d o d' : transaction ck b h d = Ok (o, d') →
  ai_id b ≠ ai_id a ∨ snapshotEnabled h = false → quiet d d'.
Proof.
  intros [[-> _]|(ag & over & bl & ds & Hc & _)]%heartbeat_inv Hb.
  - split; [intros ag' ?; right; by exists ag'|intros k p ? ?; right; by exists p].
  - split.
    + intros ag'. rewrite (hc_agents _ _ _ _ _ _ _ _ _ _ _ Hc). intros [[Hid <-]|[_ Hag]]%lookup_insert_Some; right; [|by exists ag'].
      destruct Hb as [Hb|Hb]; [done|]. exists ag. split; [rewrite <-Hid; apply (hc_agent _ _ _ _ _ _ _ _ _ _ _ Hc)|].
      simpl. unfold advance_snapshot. by rewrite Hb.
    + intros k p Hp Ha. right. destruct (row_after _ _ _ _ _ _ _ _ _ _ _ _ _ Hc Hp) as (e & r & p' & Hread & _ & Hpage & Hend & Hp').
      exists p'. split; [done|].
      assert (pr_agentId p' = pr_agentId r ∧ pr_inventorySnapshotId p' = pr_inventorySnapshotId r) as [-> ->]
        by (by destruct Hend as [->|(_ & _ & ->)]).
      assert (pr_agentId e = pr_agentId p ∧ pr_inventorySnapshotId e = pr_inventorySnapshotId p) as [E1 E2].
      { destruct Hread as [->|(_ & _ & [Hf _ _])]; [done|]. unfold fixed_columns in Hf. split; congruence. }
      rewrite <-E1, <-E2. rewrite <-E1 in Ha.
      destruct Hpage as [->|(_ & He & [O1 _ _ _ _ _ O7 _ _])]; [done|]. simpl in He, O7. split; [done|].
      destruct Hb as [Hb|Hb]; [congruence|by rewrite Hb in O7].
Qed.

End runs.

(** ** Two pages of a snapshot *)

Definition page_body (page : Z) (printers : list json) : json := JObject [
  ("heartbeatPage", JNumber page); ("heartbeatPageCount", JNumber 2); ("inventorySnapshotId", JString "s9");
  ("inventorySnapshotVersion", JString "4"); ("inventoryComplete", JBool true); ("printers", JArray printers)].

Definition page_sample (page : Z) (printers : list json) : heartbeat := {|
  hb_status := "online"; hb_page := page; hb_pageCount := 2; hb_snapshotId := "s9"; hb_complete := true; hb_version := Some "4";
  hb_paging := false; hb_printers := printers; hb_privateIds := []; hb_gatewayOwned := []; hb_tokened := []; hb_acks := [] |}.

Abbreviation sample_page t page printers d :=
  (heartbeat_transaction sample_URL strlen (λ s, s) hex_encode hex_decode (at_time t) sample_identity (page_sample page printers) d).

Definition first_page : list json := [reported "p1" []].
Definition first_db : db := match sample_page 5000 1 first_page private_db with Ok (_, d') => d' | Err _ => private_db end.
Definition last_db : db := match sample_page 6000 2 [] first_db with Ok (_, d') => d' | Err _ => first_db end.

Lemma first_page_ok : sample_page 5000 1 first_page private_db = Ok (hb_ok [] [] false None, first_db).
Proof. vm_compute. reflexivity. Qed.
Lemma last_page_ok : sample_page 6000 2 [] first_db = Ok (hb_ok [] [] false (Some ([], None)), last_db).
Proof. vm_compute. reflexivity. Qed.

Lemma first_run : page_run sample_URL strlen (λ s, s) hex_encode hex_decode sample_identity first_db
  [page_event_of sample_URL strlen (λ s, s) sample_identity (at_time 5000) (page_sample 1 first_page) private_db first_db].
Proof.
  apply (run_page _ _ _ _ _ _ (at_time 5000) (page_body 1 first_page) (page_sample 1 first_page) private_db [] [] [] false None first_db);
    [|vm_compute; reflexivity|exact first_page_ok|reflexivity].
  apply run_start. intros ag Hag. simpl in Hag. apply lookup_singleton_Some in Hag as [_ <-]. reflexivity.
Qed.

(** The second page has nothing more: the bar printer is gone, the kitchen printer
    of the first page stays. *)
Lemma absence_on_complete_evidence_witness :
  (pr_inventoryPresent <$> printers last_db !! ("t1", "p1")) = Some true ∧
  (pr_inventoryPresent <$> printers last_db !! ("t1", "p2")) = Some false ∧
  ∃ earlier run, [page_event_of sample_URL strlen (λ s, s) sample_identity (at_time 5000) (page_sample 1 first_page) private_db first_db]
    = earlier ++ run ∧ (length run = 1)%nat.
Proof.
  split; [vm_compute; reflexivity|]. split; [vm_compute; reflexivity|].
  destruct (absence_on_complete_evidence sample_URL strlen (λ s, s) hex_encode hex_decode sample_identity first_db _ (at_time 6000)
    (page_body 2 []) (page_sample 2 []) [] [] false (Some ([], None)) last_db ("t1", "p2")
    (default sample_printer (printers first_db !! ("t1", "p2"))) (default sample_printer (printers last_db !! ("t1", "p2"))) first_run)
    as (_ & _ & _ & _ & earlier & run & Hrun & _ & Hlen & _).
  1, 3, 4, 5, 6: vm_compute; reflexivity.
  { exact last_page_ok. }
  exists earlier, run. split; [exact Hrun|]. rewrite length_app in Hlen. simpl in Hlen. lia.
Defined.
