(* ===== verification/Printers.v ===== *)
(** * Printers: registering, changing and retiring them

    [POST] of [src/app/api/printers/route.ts], [PATCH] of
    [src/app/api/printers/[id]/route.ts] and [setPrinterLifecycle] of
    [src/app/actions.ts], and what they and the heartbeat together guarantee of
    the printer table (a discovered device is made a printer in [Provision]). The tenant's and the printer's advisory locks and the row
    locks make each transaction one step; error texts are statuses. *)

From S2P Require Import Prelude DatabaseTime JobStatus Json NetworkAddress Schema PrinterModel Authority Availability Payload.
From S2P Require Import PrinterVirtual Capability Entitlements Inventory Samples DesiredState JobProtocol JobDelivery.
From S2P Require Import JobMaintenance AgentJobs JobService Lifecycle Operator Pipeline Heartbeat.

(** What [validateConsoleAuth] answers. *)
Inductive console_auth : Type :=
| AuthManager (claims : ManagerClaims)
| AuthAgent (agent : agent_identity).

Definition auth_tenant (auth : console_auth) : string :=
  match auth with AuthManager claims => mc_tenantId claims | AuthAgent agent => ai_tenantId agent end.

Definition is_manager (auth : console_auth) : bool := match auth with AuthManager _ => true | AuthAgent _ => false end.

Definition put_printer (tenantId id : string) (p : printer) (d : db) : db :=
  with_printers (<[(tenantId, id) := p]> (printers d)) d.

(** [in record]. *)
Definition has_key (key : string) (l : list (string * json)) : bool := existsb (λ kv, kv.1 == key) l.

Section printers.
Context (URL : string → option url) (utf8_length : string → Z).

(** ** [POST] *)

(** The record the classifier is asked about: the parsed body. *)
Definition input_identity (data : CanonicalPrinterInput) (connectionType protocol : string) (config : list (string * json)) : PrinterLike := {|
  pv_name := Some (ci_name data); pv_displayName := None; pv_display_name := None; pv_spoolerName := None;
  pv_spooler_name := None; pv_endpoint := None; pv_printerType := Some (ci_printerType data);
  pv_connectionType := Some connectionType; pv_protocol := Some protocol; pv_port := None; pv_driverName := None;
  pv_capabilities := JObject <$> ci_capabilities data; pv_config := Some (JObject config) |}.

(** The columns that are not given take their defaults. *)
Definition created_printer (auth : console_auth) (data : CanonicalPrinterInput) (connectionType protocol : string)
    (config : list (string * json)) (now : Z) : printer := {|
  pr_agentId := ci_agentId data; pr_name := ci_name data; pr_printerType := ci_printerType data;
  pr_deviceClass := ci_deviceClass data; pr_connectionType := connectionType; pr_protocol := protocol;
  pr_status := "unknown"; pr_lifecycle := "active";
  pr_managementSource := if is_manager auth then "manager" else "agent";
  pr_sharedWithGateway := true; pr_sharedWithGatewayVersion := None;
  pr_desiredRevision := if is_manager auth then 1 else 0; pr_appliedDesiredRevision := 0; pr_observedDesiredRevision := 0;
  pr_observedDeviceClass := None; pr_config := Some (JObject config); pr_capabilities := None;
  pr_inventoryPresent := true; pr_inventorySnapshotId := None; pr_lastSeenAt := None; pr_updatedAt := now |}.

(** What the catch clauses answer for a tenant's error. *)
Definition tenant_status (e : tenant_error) : Z :=
  match e with
  | TenantEntitlementError _ _ _ => 429
  | e => if isTenantBillingError e then 403 else 500
  end.

Definition by_tenant {A} (m : result A tenant_error) : result A Z := match m with Ok v => Ok v | Err e => Err (tenant_status e) end.
Definition by_authority {A} (m : result A authority_error) : result A Z := match m with Ok v => Ok v | Err _ => Err 403 end.

(** [duplicate_text] is what the driver says of a second row with the same key;
    the route knows it by /already exists|duplicate/i. *)
Definition duplicate_status (duplicate_text : string) : Z :=
  if includes (toLowerCase duplicate_text) "already exists" || includes (toLowerCase duplicate_text) "duplicate" then 409 else 500.

Definition register_printer_transaction (duplicate_text : string) (auth : console_auth) (data : CanonicalPrinterInput) (id : string)
    (row : Z → printer) (ck : clock) (a : auth_db) (d : db) : result db Z :=
  let tenantId := auth_tenant auth in
  do* by_tenant (requireActiveTenantInTransaction d tenantId) in
  match agents d !! ci_agentId data with
  | None => Err 404
  | Some ag =>
      do* throw_if (ag_tenantId ag != tenantId) 404 in
      do* throw_if (ag_lifecycle ag != "active") (if one_of ["disabled"; "retired"] (ag_lifecycle ag) then 409 else 500) in
      do* match auth with
          | AuthManager claims => by_authority (requireManagerActorInTransaction a ck claims printers_manage)
          | AuthAgent _ => Ok tt
          end in
      do* by_tenant (enforceTenantResourceEntitlement d ck tenantId "max_printers" (printer_count tenantId (printers d))) in
      do* throw_if (is_some (printers d !! (tenantId, id))) (duplicate_status duplicate_text) in
      Ok (put_printer tenantId id (row (now ck)) d)
  end.

(** [auth] is [None] when the caller is not signed in; [body] is [None] when it is
    not JSON. The answer is the status and the id of the new printer. *)
Definition POST_printers (duplicate_text nanoid : string) (auth : option console_auth) (body : option json) (ck : clock) (a : auth_db)
    (d : db) : result (string * db) Z :=
  match auth with
  | None => Err 401
  | Some auth =>
      do* throw_if (match auth with AuthManager claims => negb (hasManagerPermission claims printers_manage) | AuthAgent _ => false end) 403 in
      let* value := match body with Some (JObject o) => Ok (JObject o) | _ => Err 400 end in
      let* data := match parsePrinterInput URL utf8_length value with Ok data => Ok data | Err _ => Err 400 end in
      do* throw_if (match auth with AuthAgent agent => ci_agentId data != ai_id agent | AuthManager _ => false end) 403 in
      let '(connectionType, protocol, config) := canonical_transport (ci_connectionType data) (ci_protocol data) (ci_config data) in
      do* throw_if (isVirtualPrinterRecord (Some (input_identity data connectionType protocol config))
                    || has_key "virtual_spooler_test" config || has_key "virtual_test_sink" config) 400 in
      do* throw_if (is_some (validatePrinterTransportProtocol connectionType protocol)) 400 in
      do* throw_if (is_some (validateConnectionConfig URL connectionType (JObject config) protocol)) 400 in
      let id := match ci_id data with Some id => id | None => "printer_" +:+ nanoid end in
      let* d' := register_printer_transaction duplicate_text auth data id (created_printer auth data connectionType protocol config) ck a d in
      Ok (id, d')
  end.

(** ** [PATCH] *)

Record printer_patch := {
  pp_name : option string;
  pp_printerType : option string;
  pp_deviceClass : option string;
  pp_connectionType : option string;
  pp_protocol : option string;
  pp_lifecycle : option string;
  pp_config : option (list (string * json));
}.

Definition PATCH_CONFIG_SCHEMA : list (string * (json → option json)) := [
  ("ip", bounded_text 255);
  ("port", bounded_number 1 65535);
  ("vid", bounded_number 0 65535);
  ("pid", bounded_number 0 65535);
  ("serial", bounded_text 255);
  ("address", bounded_text 512);
  ("spooler_name", bounded_text 255);
  ("passthrough_protocols",
     bounded_list 2 (λ v, match v with JString s => if one_of ["raw"; "escpos"] s then Some v else None | _ => None end));
  ("paper_widths", bounded_list 32 (bounded_number 1 500));
  ("color_capable", flag);
  ("duplex_capable", flag)].

Definition PATCH_KEYS : list string :=
  ["name"; "printerType"; "deviceClass"; "connectionType"; "protocol"; "lifecycle"; "config"].

Definition LEGACY_KEYS : list string := ["branchId"; "branch_id"; "enabled"; "type"; "status"; "capabilities"].

Definition enum_optional (l : list string) (v : option json) : option (option string) :=
  match v with
  | None => Some None
  | Some (JString s) => if one_of l s then Some (Some s) else None
  | Some _ => None
  end.

Definition patch_config (v : option json) : option (option (list (string * json))) :=
  match v with
  | None => Some None
  | Some (JObject l) =>
      if forallb (λ kv, one_of PATCH_CONFIG_SCHEMA.*1 kv.1) l then Some <$> parse_fields PATCH_CONFIG_SCHEMA (JObject l) else None
  | Some _ => None
  end.

Definition patchSchema (value : list (string * json)) : option printer_patch :=
  if negb (forallb (λ kv, one_of PATCH_KEYS kv.1) value) then None
  else
    let f := json_field (JObject value) in
    name ← match f "name" with
           | None => Some None
           | Some (JString s) => if (1 <=? strlen (trim s)) && (strlen (trim s) <=? 100) then Some (Some (trim s)) else None
           | Some _ => None
           end;
    printerType ← enum_optional PRINTER_TYPES (f "printerType");
    deviceClass ← enum_optional DEVICE_CLASSES (f "deviceClass");
    connectionType ← enum_optional CONNECTION_TYPES (f "connectionType");
    protocol ← enum_optional PRINTER_PROTOCOLS (f "protocol");
    lifecycle ← enum_optional ["active"; "disabled"; "retired"] (f "lifecycle");
    config ← patch_config (f "config");
    Some {| pp_name := name; pp_printerType := printerType; pp_deviceClass := deviceClass; pp_connectionType := connectionType;
            pp_protocol := protocol; pp_lifecycle := lifecycle; pp_config := config |}.

(** [{ ...a, ...b }]. *)
Definition merge_config (a b : list (string * json)) : list (string * json) := foldl (λ l kv, set_key kv.1 kv.2 l) a b.

(** Transport, language and configuration after the change, before they are
    checked; a permission to pass bytes through is not inherited by another
    transport. *)
Record patched_transport := {
  pt_connectionType : string;
  pt_protocol : string;
  pt_merged : list (string * json);
  pt_config : list (string * json);
  pt_scrubbed : bool;
}.

Definition patch_transport (u : printer_patch) (existing : printer) : patched_transport :=
  let connectionType := coalesce (pp_connectionType u) (pr_connectionType existing) in
  let protocol := coalesce (pp_protocol u) (pr_protocol existing) in
  let cfg := merge_config (coalesce (spread (pr_config existing)) []) (coalesce (pp_config u) []) in
  let '(connectionType, protocol) :=
    if (connectionType == "usb") && is_some (text_field (JObject cfg) "spooler_name") then ("spooler", "spooler")
    else (connectionType, protocol) in
  let scrub := (connectionType != "spooler") && has_key "passthrough_protocols" cfg in
  {| pt_connectionType := connectionType; pt_protocol := protocol; pt_merged := cfg;
     pt_config := if scrub then without_key "passthrough_protocols" cfg else cfg; pt_scrubbed := scrub |}.

Definition transport_changed (u : printer_patch) : bool :=
  is_some (pp_connectionType u) || is_some (pp_protocol u) || is_some (pp_config u).

Definition desiredStateChanged (u : printer_patch) : bool :=
  is_some (pp_name u) || is_some (pp_printerType u) || is_some (pp_deviceClass u) || is_some (pp_connectionType u)
  || is_some (pp_protocol u) || is_some (pp_config u) || is_some (pp_lifecycle u).

(** The columns of a change of desired state that every such statement sets. *)
Definition set_desired (lifecycle : string) (now : Z) (p : printer) : printer := {|
  pr_agentId := pr_agentId p; pr_name := pr_name p; pr_printerType := pr_printerType p; pr_deviceClass := pr_deviceClass p;
  pr_connectionType := pr_connectionType p; pr_protocol := pr_protocol p; pr_status := pr_status p; pr_lifecycle := lifecycle;
  pr_managementSource := "manager"; pr_sharedWithGateway := pr_sharedWithGateway p;
  pr_sharedWithGatewayVersion := pr_sharedWithGatewayVersion p; pr_desiredRevision := pr_desiredRevision p + 1;
  pr_appliedDesiredRevision := pr_appliedDesiredRevision p; pr_observedDesiredRevision := pr_observedDesiredRevision p;
  pr_observedDeviceClass := pr_observedDeviceClass p; pr_config := pr_config p; pr_capabilities := pr_capabilities p;
  pr_inventoryPresent := pr_inventoryPresent p; pr_inventorySnapshotId := pr_inventorySnapshotId p;
  pr_lastSeenAt := pr_lastSeenAt p; pr_updatedAt := now |}.

Definition patched_printer (u : printer_patch) (t : patched_transport) (now : Z) (existing : printer) : printer :=
  let row := set_definition (coalesce (pp_name u) (pr_name existing)) (coalesce (pp_printerType u) (pr_printerType existing))
    (coalesce (pp_deviceClass u) (pr_deviceClass existing)) (pt_connectionType t) (pt_protocol t)
    (if is_some (pp_config u) || pt_scrubbed t then Some (JObject (pt_config t)) else pr_config existing) existing in
  if desiredStateChanged u then set_desired (coalesce (pp_lifecycle u) (pr_lifecycle existing)) now row
  else set_printer_updated now row.

(** The record the classifier is asked about: the row as it would be. *)
Definition patched_identity (u : printer_patch) (t : patched_transport) (existing : printer) : PrinterLike := {|
  pv_name := Some (coalesce (pp_name u) (pr_name existing)); pv_displayName := None; pv_display_name := None; pv_spoolerName := None;
  pv_spooler_name := None; pv_endpoint := None; pv_printerType := Some (coalesce (pp_printerType u) (pr_printerType existing));
  pv_connectionType := Some (pt_connectionType t); pv_protocol := Some (pt_protocol t); pv_port := None; pv_driverName := None;
  pv_capabilities := pr_capabilities existing; pv_config := Some (JObject (pt_merged t)) |}.

Definition patch_transaction (claims : ManagerClaims) (id : string) (u : printer_patch) (ck : clock) (a : auth_db) (d : db)
    : result (printer * db) Z :=
  let tenantId := mc_tenantId claims in
  do* match requireActiveTenantInTransaction d tenantId with
      | Ok _ => Ok tt
      | Err e => Err (if isTenantBillingError e then 403 else 500)
      end in
  match printers d !! (tenantId, id) with
  | None => Err 404
  | Some existing =>
      let* ownerLifecycle := match agents d !! pr_agentId existing with
                             | Some ag => if ag_tenantId ag == tenantId then Ok (ag_lifecycle ag) else Err 500
                             | None => Err 500
                             end in
      do* throw_if (virtual_row existing) 404 in
      do* throw_if ((pp_printerType u == Some "physical")
                    && match pp_config u with
                       | Some c => has_key "virtual_spooler_test" c || has_key "virtual_test_sink" c
                       | None => false
                       end) 400 in
      do* throw_if (match pp_lifecycle u with Some next => negb (canTransitionLifecycle (pr_lifecycle existing) next) | None => false end) 409 in
      do* throw_if ((pp_lifecycle u == Some "active") && (ownerLifecycle != "active")) 409 in
      do* by_authority (requireManagerActorInTransaction a ck claims printers_manage) in
      let t := patch_transport u existing in
      do* throw_if (isVirtualPrinterRecord (Some (patched_identity u t existing))) 400 in
      do* throw_if (match pp_config u with Some c => has_key "passthrough_protocols" c | None => false end
                    && (pt_connectionType t != "spooler")) 400 in
      do* throw_if (transport_changed u && is_some (validatePrinterTransportProtocol (pt_connectionType t) (pt_protocol t))) 400 in
      do* throw_if (transport_changed u
                    && is_some (validateConnectionConfig URL (pt_connectionType t) (JObject (pt_config t)) (pt_protocol t))) 400 in
      let row := patched_printer u t (now ck) existing in
      Ok (row, put_printer tenantId id row d)
  end.

Definition PATCH_printer (auth : option console_auth) (id : string) (body : option json) (ck : clock) (a : auth_db) (d : db)
    : result (printer * db) Z :=
  match auth with
  | None => Err 401
  | Some (AuthAgent _) => Err 403
  | Some (AuthManager claims) =>
      do* throw_if (negb (hasManagerPermission claims printers_manage)) 403 in
      let* value := match body with Some (JObject o) => Ok o | _ => Err 400 end in
      do* throw_if (existsb (λ key, has_key key value) LEGACY_KEYS) 400 in
      let* u := match patchSchema value with Some u => Ok u | None => Err 400 end in
      do* match assertPrinterMetadataLimits utf8_length (JObject (coalesce (pp_config u) [])) None with Ok _ => Ok tt | Err _ => Err 400 end in
      patch_transaction claims id u ck a d
  end.

(** ** [setPrinterLifecycle] *)

(** [claims] have been read from the session cookies. *)
Definition setPrinterLifecycle (claims : ManagerClaims) (id lifecycle : string) (ck : clock) (a : auth_db) (d : db) : result db Z :=
  let tenantId := mc_tenantId claims in
  do* throw_if (negb (hasManagerPermission claims printers_manage)) 403 in
  do* by_tenant (requireActiveTenantInTransaction d tenantId) in
  match printers d !! (tenantId, id) with
  | None => Err 404
  | Some p =>
      let* agentLifecycle := match agents d !! pr_agentId p with
                             | Some ag => if ag_tenantId ag == tenantId then Ok (ag_lifecycle ag) else Err 404
                             | None => Err 404
                             end in
      do* throw_if ((lifecycle == "active") && (agentLifecycle != "active")) 409 in
      do* by_authority (requireManagerActorInTransaction a ck claims printers_manage) in
      if pr_lifecycle p == lifecycle then Ok d
      else
        do* throw_if (negb (canTransitionLifecycle (pr_lifecycle p) lifecycle)) 409 in
        Ok (put_printer tenantId id (set_desired lifecycle (now ck) p) d)
  end.

(** ** What every row is *)

(** A printer a job may be sent to: a private or local endpoint, and a language
    its transport carries. *)
Record routable (p : printer) : Prop := {
  ro_name : 1 ≤ strlen (pr_name p) ≤ 100;
  ro_type : pr_printerType p ∈ PRINTER_TYPES;
  ro_class : pr_deviceClass p ∈ DEVICE_CLASSES;
  ro_connection : pr_connectionType p ∈ CONNECTION_TYPES;
  ro_language : pr_protocol p ∈ transport_languages (pr_connectionType p);
  ro_endpoint : ∃ config, pr_config p = Some (JObject config) ∧ endpoint_spec URL (pr_connectionType p) (JObject config) (pr_protocol p);
}.

Definition fleet_row (p : printer) : Prop := printer_row_ok URL utf8_length p ∧ routable p.

Definition fleet_ok (d : db) : Prop := ∀ k p, printers d !! k = Some p → fleet_row p.

Lemma put_fleet_ok t id p d : fleet_ok d → fleet_row p → fleet_ok (put_printer t id p d).
Proof. intros Hd Hp k p'. simpl. intros [[_ <-]|[_ ?]]%lookup_insert_Some; [done|by eapply Hd]. Qed.

Lemma described_routable p : printer_row_ok URL utf8_length p → pr_managementSource p = "agent" → routable p.
Proof. intros [_ Hc] Hm. destruct (Hc Hm) as (config & ? & [? ? ? ? ? ? _ _]). split; try done. by exists config. Qed.

Lemma well_configured_routable p config caps : pr_config p = Some (JObject config) →
  well_configured URL utf8_length (pr_name p) (pr_printerType p) (pr_deviceClass p) (pr_connectionType p) (pr_protocol p) (JObject config) caps →
  routable p.
Proof. intros Hc [? ? ? ? ? ? _ _]. split; try done. by exists config. Qed.

(** *** Registration *)

Lemma canonical_identity connectionType protocol config :
  (connectionType == "usb") && is_some (text_field (JObject config) "spooler_name") = false →
  canonical_transport connectionType protocol config = (connectionType, protocol, config).
Proof.
  unfold canonical_transport, text_field. destruct (json_field _ _) as [[| | |s| |]|]; try done.
  destruct (connectionType == "usb"); [|done]. destruct (trim s == ""); done.
Qed.

Lemma created_ok auth value data now : parsePrinterInput URL utf8_length value = Ok data →
  fleet_row (created_printer auth data (ci_connectionType data) (ci_protocol data) (ci_config data) now).
Proof.
  intros [Hw _]%input_sound. split.
  - split.
    + apply printer_check_spec. destruct Hw. unfold revisions_ok. simpl.
      split_and!; try done; try (by apply (bool_decide_unpack _)); try (destruct (is_manager auth); lia).
      * destruct (is_manager auth); by apply (bool_decide_unpack _).
      * by eapply language_protocol.
    + intros _. eexists. split; [reflexivity|]. destruct Hw. by split.
  - by eapply (well_configured_routable _ (ci_config data)).
Qed.

Lemma POST_printers_inv duplicate_text nanoid auth body ck a d id d' : POST_printers duplicate_text nanoid auth body ck a d = Ok (id, d') →
  ∃ auth' value data, auth = Some auth' ∧ parsePrinterInput URL utf8_length value = Ok data ∧
    match auth' with AuthAgent agent => ci_agentId data = ai_id agent | AuthManager _ => True end ∧
    register_printer_transaction duplicate_text auth' data id
      (created_printer auth' data (ci_connectionType data) (ci_protocol data) (ci_config data)) ck a d = Ok d'.
Proof.
  unfold POST_printers. destruct auth as [auth|]; [|done]. intros ([] & _ & H)%rbind_Ok. apply rbind_Ok in H as (value & _ & H).
  apply rbind_Ok in H as (data & Hp & H). destruct (parsePrinterInput _ _ value) as [data'|] eqn:Hv; [|done]. injection Hp as ->.
  apply rbind_Ok in H as ([] & Hown%throw_if_Ok & H). destruct (input_sound _ _ _ _ Hv) as [_ Hu]. rewrite (canonical_identity _ _ _ Hu) in H.
  do 3 (apply rbind_Ok in H as ([] & _ & H)). apply rbind_Ok in H as (d1 & Ht & [= <- <-]). exists auth, value, data.
  split_and!; try done. destruct auth; [done|]. by apply negb_false_iff, bool_decide_eq_true in Hown.
Qed.

(** What an accepted registration has checked. *)
Lemma register_inv duplicate_text auth data id row ck a d d' :
  register_printer_transaction duplicate_text auth data id row ck a d = Ok d' →
  (∃ ag, agents d !! ci_agentId data = Some ag ∧ ag_tenantId ag = auth_tenant auth ∧ ag_lifecycle ag = "active") ∧
  requireActiveTenantInTransaction d (auth_tenant auth) = Ok tt ∧
  enforceTenantResourceEntitlement d ck (auth_tenant auth) "max_printers" (printer_count (auth_tenant auth) (printers d)) = Ok tt ∧
  match auth with AuthManager claims => requireManagerActorInTransaction a ck claims printers_manage = Ok tt | AuthAgent _ => True end ∧
  printers d !! (auth_tenant auth, id) = None ∧ d' = put_printer (auth_tenant auth) id (row (now ck)) d.
Proof.
  unfold register_printer_transaction. intros ([] & Ht & H)%rbind_Ok. destruct (agents d !! _) as [ag|] eqn:Hag; [|done].
  apply rbind_Ok in H as ([] & H1%throw_if_Ok & H). apply rbind_Ok in H as ([] & H2%throw_if_Ok & H).
  apply rbind_Ok in H as ([] & Ha & H). apply rbind_Ok in H as ([] & He & H). apply rbind_Ok in H as ([] & Hd%throw_if_Ok & [= <-]).
  apply negb_false_iff, bool_decide_eq_true in H1, H2. split; [by exists ag|].
  destruct (requireActiveTenantInTransaction _ _) as [[]|]; [|done]. destruct (enforceTenantResourceEntitlement _ _ _ _ _) as [[]|]; [|done].
  destruct (printers d !! _); [done|]. split_and!; try done. destruct auth as [claims|]; [|done].
  by destruct (requireManagerActorInTransaction _ _ _ _) as [[]|].
Qed.

(** *** Changes *)

(** What the schema lets a change hold. *)
Record patch_ok (u : printer_patch) : Prop := {
  po_name : ∀ s, pp_name u = Some s → 1 ≤ strlen s ≤ 100;
  po_type : ∀ s, pp_printerType u = Some s → s ∈ PRINTER_TYPES;
  po_class : ∀ s, pp_deviceClass u = Some s → s ∈ DEVICE_CLASSES;
  po_connection : ∀ s, pp_connectionType u = Some s → s ∈ CONNECTION_TYPES;
  po_protocol : ∀ s, pp_protocol u = Some s → s ∈ PRINTER_PROTOCOLS;
  po_lifecycle : ∀ s, pp_lifecycle u = Some s → s ∈ ["active"; "disabled"; "retired"];
}.

Lemma enum_optional_in l v o s : enum_optional l v = Some o → o = Some s → s ∈ l.
Proof.
  unfold enum_optional. destruct v as [[| | |t| |]|]; try done; [|by intros [= <-]].
  destruct (one_of l t) eqn:E; [|done]. intros [= <-] [= <-]. by apply one_of_true in E.
Qed.

Lemma patchSchema_ok value u : patchSchema value = Some u → patch_ok u.
Proof.
  unfold patchSchema. destruct (negb _); [done|]. generalize (JObject value) as v. intros v H.
  repeat (apply bind_Some in H as (? & ? & H)). injection H as <-. split; simpl; intros s ->; try (by eapply enum_optional_in).
  destruct (json_field v "name") as [[| | |t| |]|]; try done. destruct (_ && _) eqn:E in *; [|done]. simplify_eq. lia.
Qed.

Lemma coalesce_in {A} (o : option A) (x : A) (Q : A → Prop) : (∀ y, o = Some y → Q y) → Q x → Q (coalesce o x).
Proof. destruct o as [y|]; simpl; eauto. Qed.

Lemma has_key_field key l : has_key key l = true → json_field (JObject l) key ≠ None.
Proof.
  unfold has_key. simpl. intros (kv & Hin & Hk)%existsb_exists. destruct (List.find _ l) eqn:E; [done|].
  pose proof (find_none _ _ E _ Hin) as Hn. simpl in Hn. congruence.
Qed.

Lemma patch_keeps_config u existing cfg : pr_config existing = Some (JObject cfg) → pp_config u = None →
  pt_scrubbed (patch_transport u existing) = false → pt_config (patch_transport u existing) = cfg.
Proof.
  unfold patch_transport. intros -> ->. cbn [coalesce default spread merge_config foldl].
  destruct ((_ == "usb") && _); simpl; [done|]. by intros ->.
Qed.

(** The row's endpoint after the change, whether or not it was checked. *)
Lemma patch_endpoint u existing (t := patch_transport u existing) : patch_ok u → routable existing →
  (transport_changed u && is_some (validatePrinterTransportProtocol (pt_connectionType t) (pt_protocol t)) = false) →
  (transport_changed u && is_some (validateConnectionConfig URL (pt_connectionType t) (JObject (pt_config t)) (pt_protocol t)) = false) →
  pt_connectionType t ∈ CONNECTION_TYPES ∧ pt_protocol t ∈ transport_languages (pt_connectionType t) ∧
  ∃ config, (if is_some (pp_config u) || pt_scrubbed t then Some (JObject (pt_config t)) else pr_config existing) = Some (JObject config) ∧
    endpoint_spec URL (pt_connectionType t) (JObject config) (pt_protocol t) ∧
    (transport_changed u = false → pr_config existing = Some (JObject config)).
Proof.
  intros Hu [_ _ _ Hconn Hlang (cfg & Hcfg & Hend)] Hv1 Hv2.
  assert (pt_connectionType t ∈ CONNECTION_TYPES ∧ pt_protocol t ∈ PRINTER_PROTOCOLS) as [Hc Hp].
  { unfold t, patch_transport. cbv zeta. destruct ((coalesce _ _ == "usb") && _); cbn [pt_connectionType pt_protocol];
      [split; by apply (bool_decide_unpack _)|].
    split; apply (coalesce_in _ _ (λ s, s ∈ _)); [apply (po_connection _ Hu)|done|apply (po_protocol _ Hu)|by eapply language_protocol]. }
  split; [done|]. destruct (transport_changed u) eqn:Ech.
  - simpl in Hv1, Hv2. split; [apply transport_sound; [done|done|by destruct (validatePrinterTransportProtocol _ _)]|].
    exists (pt_config t). split_and!; [|apply (config_sound URL utf8_length); by destruct (validateConnectionConfig _ _ _ _)|done].
    destruct (is_some (pp_config u) || pt_scrubbed t) eqn:E; [done|]. apply orb_false_iff in E as [E1 E2].
    rewrite Hcfg. do 2 f_equal. symmetry. apply patch_keeps_config; [done| |done]. by destruct (pp_config u).
  - clear Hv1 Hv2. unfold transport_changed in Ech.
    destruct (pp_connectionType u) eqn:E1; [done|]. destruct (pp_protocol u) eqn:E2; [done|]. destruct (pp_config u) eqn:E3; [done|].
    unfold t, patch_transport. rewrite E1, E2, E3, Hcfg. simpl.
    destruct ((pr_connectionType existing == "usb") && _) eqn:Eu; simpl.
    + apply andb_true_iff in Eu as [Eu%bool_decide_eq_true Es]. split; [by left|]. exists cfg. split_and!; [done| |done].
      destruct Hend as ([Hpt|[? _]] & _); [|congruence]. split; [by left|]. split_and!; try done; [by intros []|]. intros _. by left.
    + split; [done|]. exists cfg. destruct (_ && has_key _ cfg) eqn:Ek; simpl; [|done]. exfalso.
      apply andb_true_iff in Ek as [Ek%negb_true_iff%bool_decide_eq_false Hk%has_key_field].
      destruct Hend as ([?|[? _]] & _); done.
Qed.

(** What an accepted change has checked. *)
Lemma patch_inv claims id u ck a d row d' : patch_transaction claims id u ck a d = Ok (row, d') →
  ∃ existing, printers d !! (mc_tenantId claims, id) = Some existing ∧ virtual_row existing = false ∧
    (∀ next, pp_lifecycle u = Some next → canTransitionLifecycle (pr_lifecycle existing) next = true) ∧
    requireManagerActorInTransaction a ck claims printers_manage = Ok tt ∧
    (transport_changed u && is_some (validatePrinterTransportProtocol (pt_connectionType (patch_transport u existing))
       (pt_protocol (patch_transport u existing))) = false) ∧
    (transport_changed u && is_some (validateConnectionConfig URL (pt_connectionType (patch_transport u existing))
       (JObject (pt_config (patch_transport u existing))) (pt_protocol (patch_transport u existing))) = false) ∧
    row = patched_printer u (patch_transport u existing) (now ck) existing ∧
    d' = put_printer (mc_tenantId claims) id row d.
Proof.
  unfold patch_transaction. intros ([] & _ & H)%rbind_Ok. destruct (printers d !! _) as [existing|]; [|done]. exists existing.
  apply rbind_Ok in H as (ol & _ & H). apply rbind_Ok in H as ([] & Hv%throw_if_Ok & H). apply rbind_Ok in H as ([] & _ & H).
  apply rbind_Ok in H as ([] & Hl%throw_if_Ok & H). apply rbind_Ok in H as ([] & _ & H). apply rbind_Ok in H as ([] & Ha & H).
  apply rbind_Ok in H as ([] & _ & H). apply rbind_Ok in H as ([] & _ & H).
  apply rbind_Ok in H as ([] & H1%throw_if_Ok & H). apply rbind_Ok in H as ([] & H2%throw_if_Ok & [= <- <-]).
  destruct (requireManagerActorInTransaction _ _ _ _) as [[]|]; [|done]. split_and!; try done.
  intros next Hn. rewrite Hn in Hl. by apply negb_false_iff in Hl.
Qed.

(** A change of nothing but the transport a Windows queue implies. *)
Lemma unchanged_fields u : desiredStateChanged u = false →
  pp_name u = None ∧ pp_printerType u = None ∧ pp_deviceClass u = None ∧ pp_config u = None ∧ pp_lifecycle u = None ∧
  transport_changed u = false.
Proof.
  unfold desiredStateChanged, transport_changed.
  destruct (pp_name u), (pp_printerType u), (pp_deviceClass u), (pp_connectionType u), (pp_protocol u), (pp_config u), (pp_lifecycle u);
    by try discriminate.
Qed.

Lemma patched_ok u existing now (t := patch_transport u existing) : patch_ok u → fleet_row existing →
  (transport_changed u && is_some (validatePrinterTransportProtocol (pt_connectionType t) (pt_protocol t)) = false) →
  (transport_changed u && is_some (validateConnectionConfig URL (pt_connectionType t) (JObject (pt_config t)) (pt_protocol t)) = false) →
  fleet_row (patched_printer u t now existing).
Proof.
  intros Hu [[(C1 & C2 & C3 & C4 & C5 & C6)%printer_check_spec Hw] Hr] Hv1 Hv2.
  destruct (patch_endpoint u existing Hu Hr Hv1 Hv2) as (Hc & Hl & config & Hcfg & He & Hsame). fold t in Hc, Hl, Hcfg, He.
  destruct Hr as [Hn Hty Hcl _ _ _].
  assert (routable (patched_printer u t now existing)) as Hrow.
  { assert (1 ≤ strlen (coalesce (pp_name u) (pr_name existing)) ≤ 100) by (apply (coalesce_in _ _ (λ s, 1 ≤ strlen s ≤ 100)); [apply (po_name _ Hu)|done]).
    assert (coalesce (pp_printerType u) (pr_printerType existing) ∈ PRINTER_TYPES)
      by (apply (coalesce_in _ _ (λ s, s ∈ _)); [apply (po_type _ Hu)|done]).
    assert (coalesce (pp_deviceClass u) (pr_deviceClass existing) ∈ DEVICE_CLASSES)
      by (apply (coalesce_in _ _ (λ s, s ∈ _)); [apply (po_class _ Hu)|done]).
    unfold patched_printer. split; destruct (desiredStateChanged u); simpl; try done; by exists config. }
  split; [|done]. split.
  - apply printer_check_spec. unfold patched_printer, revisions_ok in *.
    destruct (desiredStateChanged u) eqn:Ech; simpl; split_and!; try done; try lia; try (by eapply language_protocol).
    + by apply (bool_decide_unpack _).
    + apply (coalesce_in _ _ (λ s, s ∈ _)); [apply (po_lifecycle _ Hu)|done].
  - unfold patched_printer. destruct (desiredStateChanged u) eqn:Ech; [done|]. simpl. intros Hm.
    destruct (unchanged_fields u Ech) as (-> & -> & -> & E4 & _ & E6). exists config. split; [done|].
    destruct (Hw Hm) as (cfg & Hcfg' & [? ? ? _ _ _ ? ?]). rewrite (Hsame E6) in Hcfg'. injection Hcfg' as ->. by split.
Qed.

Lemma lifecycle_ok lifecycle now p : lifecycle ∈ ["active"; "disabled"; "retired"] → fleet_row p → fleet_row (set_desired lifecycle now p).
Proof.
  intros Hl [[(C1 & C2 & C3 & C4 & C5 & C6)%printer_check_spec _] []]. split; [|by split]. split; [|done].
  apply printer_check_spec. unfold revisions_ok in *. simpl. split_and!; try done; try lia. by apply (bool_decide_unpack _).
Qed.

(** *** Heartbeats and deletions *)

Lemma heartbeat_fleet_ok sha256 encode decode ck ai h d o d' :
  heartbeat_transaction URL utf8_length sha256 encode decode ck ai h d = Ok (o, d') → fleet_ok d → fleet_ok d'.
Proof.
  intros Ht Hd k p' Hp'. assert (printer_row_ok URL utf8_length p') as Hrow.
  { eapply (heartbeat_rows_ok URL utf8_length); [done| |done]. intros k0 p0 Hp0. apply (Hd k0 p0 Hp0). }
  split; [done|]. destruct (decide (pr_managementSource p' = "agent")) as [Hm|Hm]; [by apply described_routable|].
  apply heartbeat_inv in Ht as [[-> _]|(ag & over & blocked & desired & Hc & _)]; [by eapply Hd|].
  destruct (printers d !! k) as [p|] eqn:Hp.
  - destruct (row_after _ _ _ _ _ _ _ _ _ _ _ _ _ Hc Hp) as (e & r & p0 & Hread & _ & Hpage & Hend & Hp0).
    rewrite Hp' in Hp0. injection Hp0 as <-. destruct (Hd k p Hp) as [_ [R1 R2 R3 R4 R5 R6]].
    assert (pr_managementSource p' = pr_managementSource r ∧ pr_name p' = pr_name r ∧ pr_printerType p' = pr_printerType r ∧
      pr_deviceClass p' = pr_deviceClass r ∧ pr_connectionType p' = pr_connectionType r ∧ pr_protocol p' = pr_protocol r ∧
      pr_config p' = pr_config r) as (E0 & E1 & E2 & E3 & E4 & E5 & E6) by (by destruct Hend as [->|(_ & _ & ->)]).
    assert (pr_name r = pr_name e ∧ pr_printerType r = pr_printerType e ∧ pr_deviceClass r = pr_deviceClass e ∧
      pr_connectionType r = pr_connectionType e ∧ pr_protocol r = pr_protocol e ∧ pr_config r = pr_config e) as (F1 & F2 & F3 & F4 & F5 & F6).
    { destruct Hpage as [->|(_ & _ & Ho)]; [done|]. apply (observed_base _ _ _ _ _ (or_intror Ho)).
      pose proof (oa_source _ _ _ _ _ Ho). congruence. }
    assert (fixed_columns e = fixed_columns p) as Hf by (destruct Hread as [->|(_ & _ & [Hf _ _])]; done).
    unfold fixed_columns in Hf. injection Hf. intros.
    assert (pr_name p' = pr_name p ∧ pr_printerType p' = pr_printerType p ∧ pr_deviceClass p' = pr_deviceClass p ∧
      pr_connectionType p' = pr_connectionType p ∧ pr_protocol p' = pr_protocol p ∧ pr_config p' = pr_config p)
      as (G1 & G2 & G3 & G4 & G5 & G6) by (split_and!; congruence).
    split; by rewrite ?G1, ?G2, ?G3, ?G4, ?G5, ?G6.
  - destruct (row_new _ _ _ _ _ _ _ _ _ _ _ _ _ Hc Hp Hp') as (r & _ & [_ Hsrc _ _ _ _ _ _ _] & Hend).
    by destruct Hend as [->| ->].
Qed.

Lemma move_batches_printers mk bs d n d' : move_batches mk d bs = Some (n, d') → printers d' = printers d.
Proof.
  revert d n d'. induction bs as [|b bs IH]; intros d n d'; simpl; [by intros [= _ <-]|].
  intros ([n1 d1] & H1 & ([m d2] & H2 & [= _ <-])%bind_Some)%bind_Some. rewrite (IH _ _ _ H2).
  unfold move_batch in H1. by apply bind_Some in H1 as (rs & _ & [= _ <-]).
Qed.

Lemma archive_owned_printers mk owned fuel d n d' : archive_owned mk owned fuel d = Some (n, d') → printers d' = printers d.
Proof.
  revert d n d'. induction fuel as [|fuel IH]; [done|]. intros d n d'. cbn [archive_owned].
  destruct (select_ids _ _ _ _ _) as [|i l] eqn:E; [by intros [= <- <-]|].
  intros ([n1 d1] & H1 & ([m d2] & H2 & [= _ <-])%bind_Some)%bind_Some. rewrite (IH _ _ _ H2). by eapply move_batches_printers.
Qed.

Lemma delete_fleet_ok sha256 manager id ck a d : fleet_ok d → fleet_ok (deleteAgent sha256 manager id ck a d).2.
Proof.
  intros Hd. unfold deleteAgent. destruct manager as [manager|]; [|done]. repeat (case_if; [done|]).
  destruct (archive_owned _ _ _ d) as [[n d1]|] eqn:Ha; [|done]. apply archive_owned_printers in Ha. simpl.
  intros k p. simpl. rewrite Ha. intros [Hp _]%map_lookup_filter_Some. by eapply Hd.
Qed.

(** ** Runs *)

(** Everything in this file and the heartbeat that writes the printer table, and
    anything that does not; what provisioning adds is in [DiscoveryRuns]. *)
Inductive fleet_step : db → db → Prop :=
| fl_heartbeat sha256 encode decode ck agent overLimit body d :
    fleet_step d (POST_heartbeat URL utf8_length sha256 encode decode ck agent overLimit body d).2
| fl_register duplicate_text nanoid auth body ck a d id d' :
    POST_printers duplicate_text nanoid auth body ck a d = Ok (id, d') → fleet_step d d'
| fl_change auth id body ck a d row d' : PATCH_printer auth id body ck a d = Ok (row, d') → fleet_step d d'
| fl_lifecycle claims id lifecycle ck a d d' : setPrinterLifecycle claims id lifecycle ck a d = Ok d' → fleet_step d d'
| fl_delete sha256 manager id ck a d : fleet_step d (deleteAgent sha256 manager id ck a d).2
| fl_other d d' : printers d' = printers d → fleet_step d d'.

Lemma PATCH_inv auth id body ck a d row d' : PATCH_printer auth id body ck a d = Ok (row, d') →
  ∃ claims u, auth = Some (AuthManager claims) ∧ patch_ok u ∧ patch_transaction claims id u ck a d = Ok (row, d').
Proof.
  unfold PATCH_printer. destruct auth as [[claims|]|]; [|done|done]. intros ([] & _ & H)%rbind_Ok. apply rbind_Ok in H as (value & _ & H).
  apply rbind_Ok in H as ([] & _ & H). apply rbind_Ok in H as (u & Hu & H). apply rbind_Ok in H as ([] & _ & H).
  exists claims, u. split_and!; [done| |done]. destruct (patchSchema value) as [u'|] eqn:E; [|done]. injection Hu as ->. by eapply patchSchema_ok.
Qed.

Lemma lifecycle_inv claims id lifecycle ck a d d' : setPrinterLifecycle claims id lifecycle ck a d = Ok d' →
  ∃ p, printers d !! (mc_tenantId claims, id) = Some p ∧ requireManagerActorInTransaction a ck claims printers_manage = Ok tt ∧
    ((lifecycle = pr_lifecycle p ∧ d' = d) ∨
     (lifecycle ≠ pr_lifecycle p ∧ canTransitionLifecycle (pr_lifecycle p) lifecycle = true ∧
      d' = put_printer (mc_tenantId claims) id (set_desired lifecycle (now ck) p) d)).
Proof.
  unfold setPrinterLifecycle. intros ([] & _ & H)%rbind_Ok. apply rbind_Ok in H as ([] & _ & H).
  destruct (printers d !! _) as [p|]; [|done]. exists p. split; [done|]. apply rbind_Ok in H as (al & _ & H).
  apply rbind_Ok in H as ([] & _ & H). apply rbind_Ok in H as ([] & Ha & H).
  destruct (requireManagerActorInTransaction _ _ _ _) as [[]|]; [|done]. split; [done|].
  case_bool_decide as E; [left; by injection H as <-|]. right. apply rbind_Ok in H as ([] & Ht%throw_if_Ok%negb_false_iff & [= <-]). by split_and!.
Qed.

Lemma can_transition_target current next : canTransitionLifecycle current next = true → current ≠ next →
  next ∈ ["active"; "disabled"; "retired"].
Proof. unfold canTransitionLifecycle. intros H Hne. repeat case_bool_decide; try done; subst; set_solver. Qed.

Lemma fleet_step_ok d d' : fleet_step d d' → fleet_ok d → fleet_ok d'.
Proof.
  intros [sha256 encode decode ck agent overLimit body d0|? ? auth body ck a d0 id d1 H|auth id body ck a d0 row d1 H|
    claims id lifecycle ck a d0 d1 H| |d0 d1 E] Hd.
  - unfold POST_heartbeat. repeat case_match; try done. by eapply heartbeat_fleet_ok.
  - apply POST_printers_inv in H as (auth' & value & data & _ & Hp & _ & (_ & _ & _ & _ & _ & ->)%register_inv).
    by apply put_fleet_ok, (created_ok _ value).
  - apply PATCH_inv in H as (claims & u & _ & Hu & (existing & Hp & _ & _ & _ & H1 & H2 & -> & ->)%patch_inv).
    apply put_fleet_ok; [done|]. apply patched_ok; try done. by eapply Hd.
  - apply lifecycle_inv in H as (p & Hp & _ & [[_ ->]|(Hne & Ht & ->)]); [done|]. apply put_fleet_ok; [done|].
    apply lifecycle_ok; [by eapply can_transition_target|by eapply Hd].
  - by apply delete_fleet_ok.
  - intros k p. rewrite E. apply Hd.
Qed.

(** ** What counts *)

Definition counts (p : printer) : Z := if counted p then 1 else 0.

Lemma count_delete t id P : printer_count t P =
  printer_count t (delete (t, id) P) + match P !! (t, id) with Some p => counts p | None => 0 end.
Proof.
  unfold printer_count, counts. set (Q := λ kp : (string * string) * printer, kp.1.1 = t ∧ counted kp.2 = true).
  destruct (P !! (t, id)) as [p|] eqn:Hp; [|by rewrite delete_id, Z.add_0_r].
  assert (filter Q P !! (t, id) = (if counted p then Some p else None)) as Hf.
  { destruct (counted p) eqn:Ec; [by apply map_lookup_filter_Some|]. apply map_lookup_filter_None. right. intros p' Hp' [_ Hc].
    simpl in Hc. congruence. }
  assert (filter Q (delete (t, id) P) = delete (t, id) (filter Q P)) as -> by apply map_filter_delete.
  destruct (counted p).
  - assert (size (filter Q P) = S (size (delete (t, id) (filter Q P)))) as ->; [|lia].
    rewrite <-(insert_delete_id (filter Q P) (t, id) p) at 1 by done. apply map_size_insert_None, lookup_delete_eq.
  - rewrite delete_id by done. lia.
Qed.

(** Writing a row changes the count by that row alone. *)
Lemma count_put t id p d : printer_count t (printers (put_printer t id p d)) =
  printer_count t (printers d) - match printers d !! (t, id) with Some q => counts q | None => 0 end + counts p.
Proof.
  rewrite (count_delete t id (printers d)), (count_delete t id (printers (put_printer t id p d))). simpl.
  rewrite lookup_insert_eq, delete_insert_eq. lia.
Qed.

(** ** Properties *)


(** An accepted registration adds exactly one row, of an active agent of the
    caller's own tenant, to a place that was free, and stays within the plan's
    limit; an agent only registers for itself, and a manager only while the
    session and role still hold at the commit. *)
Theorem registration_sound duplicate_text nanoid auth body ck a d id d' :
  POST_printers duplicate_text nanoid auth body ck a d = Ok (id, d') →
  ∃ caller p ag, auth = Some caller ∧ d' = put_printer (auth_tenant caller) id p d ∧
    printers d !! (auth_tenant caller, id) = None ∧ fleet_row p ∧
    agents d !! pr_agentId p = Some ag ∧ ag_tenantId ag = auth_tenant caller ∧ ag_lifecycle ag = "active" ∧
    match caller with
    | AuthAgent agent => pr_agentId p = ai_id agent ∧ pr_managementSource p = "agent"
    | AuthManager claims => requireManagerActorInTransaction a ck claims printers_manage = Ok tt ∧ pr_managementSource p = "manager" ∧
        pr_desiredRevision p = 1
    end ∧
    printer_count (auth_tenant caller) (printers d') = printer_count (auth_tenant caller) (printers d) + 1 ∧
    match getTenantEntitlementLimit d ck (auth_tenant caller) "max_printers" with
    | Ok None => True
    | Ok (Some limit) => printer_count (auth_tenant caller) (printers d') ≤ limit
    | Err _ => False
    end.
Proof.
  intros (caller & value & data & -> & Hp & Hown & ((ag & Hag & Hat & Hal) & _ & He & Ha & Hn & ->)%register_inv)%POST_printers_inv.
  set (p := created_printer caller data _ _ _ _). exists caller, p, ag.
  assert (printer_count (auth_tenant caller) (printers (put_printer (auth_tenant caller) id p d)) =
    printer_count (auth_tenant caller) (printers d) + 1) as Hc.
  { rewrite count_put, Hn. assert (counts p = 1) as ->; [|lia]. unfold counts, counted, p, created_printer. simpl. by destruct (is_manager caller). }
  split_and!; try done; [by eapply created_ok|by destruct caller|].
  unfold enforceTenantResourceEntitlement in He. apply rbind_Ok in He as ([limit|] & He & Hle); rewrite He; [|done].
  apply throw_if_Ok in Hle. lia.
Qed.

(** C18. A change of desired state takes over the printer it changes, whatever the
    plan allows: when an agent's printer is absent, so that it does not count, an
    accepted change that leaves it unretired makes it count, one more than before,
    with no look at the limit. Each of the other checks of the route holds. *)
Theorem adoption_escapes_limit auth id body ck a d row d' p claims :
  PATCH_printer auth id body ck a d = Ok (row, d') → auth = Some (AuthManager claims) →
  printers d !! (mc_tenantId claims, id) = Some p →
  pr_managementSource p = "agent" → pr_inventoryPresent p = false → pr_sharedWithGateway p = true →
  pr_managementSource row = "manager" → pr_lifecycle row ≠ "retired" →
  printer_count (mc_tenantId claims) (printers d') = printer_count (mc_tenantId claims) (printers d) + 1 ∧
  pr_desiredRevision row = pr_desiredRevision p + 1 ∧ canTransitionLifecycle (pr_lifecycle p) (pr_lifecycle row) = true.
Proof.
  intros (claims' & u & -> & Hu & (existing & Hp & _ & Hl & _ & _ & _ & Hrow & ->)%patch_inv)%PATCH_inv [= ->] Hp' Hm Hpres Hsh Hm' Hlife.
  rewrite Hp' in Hp. injection Hp as <-. rewrite count_put, Hp'. unfold patched_printer in Hrow.
  destruct (desiredStateChanged u) eqn:Ech; [|by rewrite Hrow in Hm'; simpl in Hm'; congruence].
  assert (pr_sharedWithGateway row = true ∧ pr_desiredRevision row = pr_desiredRevision p + 1 ∧
    pr_lifecycle row = coalesce (pp_lifecycle u) (pr_lifecycle p)) as (Hs & Hr & Hlr) by (by rewrite Hrow).
  split_and!; [|done|].
  - unfold counts, counted. rewrite Hm, Hpres, Hm', Hs, andb_false_r. rewrite (bool_decide_false _ Hlife). simpl. lia.
  - rewrite Hlr. destruct (pp_lifecycle u) as [next|] eqn:E; simpl; [by apply Hl|]. unfold canTransitionLifecycle. by rewrite bool_decide_true.
Qed.

End printers.

(** ** A small fleet *)

Definition empty_fleet : db := with_printers ∅ private_db.

Definition reported_fleet : db :=
  (POST_heartbeat sample_URL strlen (λ s, s) hex_encode hex_decode (at_time 5000) (Some (sample_identity, "active")) false
     (Some sharing_body) empty_fleet).2.


Definition registered_fleet : db :=
  match POST_printers sample_URL strlen "duplicate key value" "x" (Some (AuthManager admin_claims)) (Some sample_form) (at_time 6000)
          admin_auth private_db with
  | Ok (_, d') => d'
  | Err _ => private_db
  end.

Lemma registration_sound_witness :
  printer_count "t1" (printers private_db) = 1 ∧ printer_count "t1" (printers registered_fleet) = 2 ∧
  ∃ p, registered_fleet = put_printer "t1" "printer_x" p private_db ∧ pr_managementSource p = "manager".
Proof.
  split; [vm_compute; reflexivity|]. split; [vm_compute; reflexivity|].
  destruct (registration_sound sample_URL strlen "duplicate key value" "x" (Some (AuthManager admin_claims)) (Some sample_form)
    (at_time 6000) admin_auth private_db "printer_x" registered_fleet) as (caller & p & ag & Hcaller & Hd & _ & _ & _ & _ & _ & Hc & _).
  { vm_compute. reflexivity. }
  injection Hcaller as <-. exists p. split; [exact Hd|apply Hc].
Defined.

(** Five printers that count, which is the plan's limit, and one that is gone. *)
Definition full_fleet : db := with_printers (<[("t1", "gone") := set_presence false "unknown" (network_printer true None)]>
  (list_to_map (map (λ i, (("t1", i), network_printer true None)) ["p1"; "p2"; "p3"; "p4"; "p5"]))) private_db.

Definition renamed_fleet : db :=
  match PATCH_printer sample_URL strlen (Some (AuthManager admin_claims)) "gone" (Some (JObject [("name", JString "Bar")])) (at_time 6000)
          admin_auth full_fleet with
  | Ok (_, d') => d'
  | Err _ => full_fleet
  end.

Lemma adoption_escapes_limit_witness :
  getTenantEntitlementLimit full_fleet (at_time 6000) "t1" "max_printers" = Ok (Some 5) ∧
  printer_count "t1" (printers full_fleet) = 5 ∧ printer_count "t1" (printers renamed_fleet) = 5 + 1.
Proof.
  split; [vm_compute; reflexivity|]. split; [vm_compute; reflexivity|].
  destruct (adoption_escapes_limit sample_URL strlen (Some (AuthManager admin_claims)) "gone" (Some (JObject [("name", JString "Bar")]))
    (at_time 6000) admin_auth full_fleet (default sample_printer (printers renamed_fleet !! ("t1", "gone"))) renamed_fleet
    (set_presence false "unknown" (network_printer true None)) admin_claims) as [Hc _].
  1: vm_compute; reflexivity.
  1: reflexivity.
  1: vm_compute; reflexivity.
  1-3: reflexivity.
  1: vm_compute; reflexivity.
  1: vm_compute; discriminate.
  assert (printer_count "t1" (printers full_fleet) = 5) as H5 by (vm_compute; reflexivity). rewrite <-H5. exact Hc.
Defined.
