(* ===== verification/Passwords.v ===== *)
(** * Password hashes, opaque tokens, addresses and request sizes

    [src/lib/password.ts] and [src/lib/request-limits.ts], with the legacy
    hash check of [manager-auth.ts]. Argon2id, scrypt and the base64url codec
    are arguments; a key derivation that fails is [None]. The dummy
    verification that evens out response times has no effect on a result and is
    left out. *)

From Stdlib Require Import Ascii.
From S2P Require Import Prelude DatabaseTime JobStatus Json Schema PrinterModel Authority Availability Payload.
From S2P Require Import PrinterVirtual Capability Entitlements Samples JobProtocol JobDelivery JobMaintenance.
From S2P Require Import AgentJobs JobService Lifecycle Sessions.

Definition ARGON_MEMORY : Z := 64 * 1024.
Definition ARGON_PASSES : Z := 3.
Definition ARGON_PARALLELISM : Z := 4.
Definition ARGON_TAG_LENGTH : Z := 32.

Inductive password_error : Type := PasswordLength | KdfFailed.

Definition argon_params : string :=
  "m=" +:+ number_text ARGON_MEMORY +:+ ",t=" +:+ number_text ARGON_PASSES
  +:+ ",p=" +:+ number_text ARGON_PARALLELISM.

(** One group of [/^m=(\d+),t=(\d+),p=(\d+)$/]. *)
Definition numeric_group (name : ascii) (part : string) : option Z :=
  match part with
  | String c (String "=" (String d ds)) => if c == name then decimal_value 0 (String d ds) else None
  | _ => None
  end.

Definition pinned_params (params : string) : bool :=
  match split_on ","%char params with
  | [m; t; p] =>
      (numeric_group "m" m == Some ARGON_MEMORY) && (numeric_group "t" t == Some ARGON_PASSES)
      && (numeric_group "p" p == Some ARGON_PARALLELISM)
  | _ => false
  end.

Section passwords.
(** Argon2id under the pinned parameters, scrypt with a 32-byte key as hex, the
    codec of a [Buffer], and SHA-256. *)
Context (derive scrypt_hex : string → string → option string) (b64 unb64 sha256 : string → string).

Definition hashPassword (salt password : string) : result string password_error :=
  do* throw_if ((strlen password <? 12) || (4096 <? strlen password)) PasswordLength in
  match derive password salt with
  | Some key => Ok ("argon2id$v=19$" +:+ argon_params +:+ "$" +:+ b64 salt +:+ "$" +:+ b64 key)
  | None => Err KdfFailed
  end.

Definition verifyPassword (password encoded : string) : result bool password_error :=
  if (strlen password <? 1) || (4096 <? strlen password) then Ok false
  else if negb (startsWith encoded "argon2id$") then Ok false
  else match split_on "$"%char encoded with
       | [_; version; params; saltPart; tagPart] =>
           if (version != "v=19") || negb (pinned_params params) then Ok false
           else
             let salt := unb64 saltPart in
             let expected := unb64 tagPart in
             if (strlen salt <? 16) || negb (strlen expected =? ARGON_TAG_LENGTH) then Ok false
             else match derive password salt with
                  | Some actual => Ok (actual == expected)
                  | None => Err KdfFailed
                  end
       | _ => Ok false
       end.

(** [/^[0-9a-fA-F]{64}$/]. *)
Definition hex_any_case (s : string) : bool := hex_string 64 (toLowerCase s).

(** [stored.split(":", 2)] keeps the first two pieces. *)
Definition verifyScryptPasswordHash (input : string) (stored : option string) : result bool password_error :=
  match stored with
  | None => Ok false
  | Some stored =>
      if (stored == "") || negb (includes stored ":") then Ok false
      else match split_on ":"%char stored with
           | salt :: hash :: _ =>
               if (salt == "") || negb (hex_any_case hash) then Ok false
               else match scrypt_hex input salt with
                    | Some derived => Ok (sha256 derived == sha256 (toLowerCase hash))
                    | None => Err KdfFailed
                    end
           | _ => Ok false
           end
  end.

Definition hashToken (token : string) : string := sha256 token.
End passwords.

(** ** Addresses *)

Definition normalizeEmail (value : string) : string := toLowerCase (trim value).

(** A full stop with something after it. *)
Fixpoint dot_inside (s : string) : bool :=
  match s with
  | String "." (String _ _) => true
  | String _ s' => dot_inside s'
  | EmptyString => false
  end.

(** [/^[^\s@]+@[^\s@]+\.[^\s@]+$/]. *)
Definition email_shape (value : string) : bool :=
  all_chars (λ c, negb (is_js_space c)) value &&
  match split_on "@"%char value with
  | [local; String _ rest] => (local != "") && dot_inside rest
  | _ => false
  end.

Definition validEmail (value : string) : bool := (strlen value <=? 320) && email_shape value.

(** ** [request-limits.ts] *)

(** A header given more than once is a list in Node; the edge cases of a
    [Request] header are strings. *)
Definition parseStrictContentLength (raw : string) : option Z :=
  if raw == "" then None
  else n ← decimal_value 0 raw; if isSafeInteger n then Some n else None.

Definition hasBodyOverLimit (content_length : option string) (maxBytes : Z) : bool :=
  if negb (truthy content_length) then false
  else match parseStrictContentLength (coalesce content_length "") with
       | None => true
       | Some length => maxBytes <? length
       end.

(** [parseInt(raw ?? "", 10)] is an argument: [None] is [NaN]. *)
Definition clampListLimit (parsed : option Z) (fallback max : Z) : Z :=
  Z.min (Z.max 1 (coalesce parsed fallback)) max.

(** ** Properties *)

Lemma split_hash salt tag :
  free_of "$"%char salt = true → free_of "$"%char tag = true →
  split_on "$"%char ("argon2id$v=19$" +:+ argon_params +:+ "$" +:+ salt +:+ "$" +:+ tag)
  = ["argon2id"; "v=19"; argon_params; salt; tag].
Proof.
  intros Hs Ht.
  change ("argon2id$v=19$" +:+ argon_params +:+ "$" +:+ salt +:+ "$" +:+ tag)
    with ("argon2id" +:+ "$" +:+ ("v=19" +:+ "$" +:+ (argon_params +:+ "$" +:+ (salt +:+ "$" +:+ tag)))).
  rewrite !split_on_app by (done || vm_compute; reflexivity). by rewrite (split_on_free _ tag).
Qed.

Lemma pinned_own_params : pinned_params argon_params = true.
Proof. vm_compute. reflexivity. Qed.

Section password_laws.
Context (derive : string → string → option string) (b64 unb64 : string → string).
Context (Hcodec : ∀ bytes, unb64 (b64 bytes) = bytes).
Context (Halphabet : ∀ bytes, free_of "$"%char (b64 bytes) = true).

(** A password verifies against its own hash: hashing a password of 12 to
    4096 characters under a 16-byte salt gives an encoding that the pinned
    parameters accept, and an attempt of 1 to 4096 characters verifies against it
    exactly when it derives the same 32-byte key under that salt. *)
Theorem password_roundtrip salt password key attempt
  (Hs : strlen salt = 16) (Hk : strlen key = ARGON_TAG_LENGTH) (Hp : 12 ≤ strlen password ≤ 4096)
  (Ha : 1 ≤ strlen attempt ≤ 4096) (Hd : derive password salt = Some key) :
  ∃ encoded, hashPassword derive b64 salt password = Ok encoded ∧
    startsWith encoded "argon2id$" = true ∧
    verifyPassword derive unb64 attempt encoded
    = match derive attempt salt with Some actual => Ok (actual == key) | None => Err KdfFailed end.
Proof.
  destruct Hp as [Hp1 Hp2], Ha as [Ha1 Ha2]. unfold hashPassword, verifyPassword, throw_if.
  rewrite Hd, (proj2 (Z.ltb_ge _ _) Hp1), (proj2 (Z.ltb_ge _ _) Hp2). simpl orb. cbn [rbind].
  eexists. split; [reflexivity|]. split; [reflexivity|].
  rewrite (proj2 (Z.ltb_ge _ _) Ha1), (proj2 (Z.ltb_ge _ _) Ha2). simpl orb.
  rewrite split_hash by apply Halphabet. rewrite pinned_own_params, !Hcodec, Hs, Hk.
  reflexivity.
Qed.
End password_laws.

(** ** An instance *)

Lemma letter_dollarless s : free_of "$"%char (letter_encode s) = true.
Proof.
  unfold free_of. induction s as [|[b0 b1 b2 b3 b4 b5 b6 b7] s IH]; [done|]. cbn [letter_encode all_chars].
  rewrite IH. by destruct b0, b1, b2, b3, b4, b5, b6, b7.
Qed.

(** Two keys of 32 bytes. *)
Definition sample_derive (password _ : string) : option string :=
  Some (if password == "correct horse" then "kkkkkkkkkkkkkkkkkkkkkkkkkkkkkkkk" else "xxxxxxxxxxxxxxxxxxxxxxxxxxxxxxxx").

Lemma password_roundtrip_witness :
  ∃ encoded, hashPassword sample_derive letter_encode "0123456789abcdef" "correct horse" = Ok encoded ∧
    verifyPassword sample_derive letter_decode "battery staple" encoded = Ok false.
Proof.
  destruct (password_roundtrip sample_derive letter_encode letter_decode letter_roundtrip letter_dollarless
    "0123456789abcdef" "correct horse" "kkkkkkkkkkkkkkkkkkkkkkkkkkkkkkkk" "battery staple") as (x & H1 & _ & H2).
  - reflexivity.
  - reflexivity.
  - split; vm_compute; discriminate.
  - split; vm_compute; discriminate.
  - reflexivity.
  - exists x. split; [exact H1|]. rewrite H2. vm_compute. reflexivity.
Defined.
