(* ===== verification/Accounts.v ===== *)
(** * Accounts: registration, email proof and password recovery

    The routes [src/app/api/auth/register], [verify-email],
    [resend-verification], [forgot-password] and [reset-password], over the
    tables they share ([account_db]). Every route first spends an attempt of
    the authentication limiter, then reads, then commits one transaction: the
    reads may be older than the transaction, so a route takes the store it read
    ([s_read]) and the store it commits on ([s]). Random values are arguments;
    the hashes, codec and key derivation those of [Passwords]. A mail is
    represented by its recipient and the token in its link; the wording, the
    plan and invitation it carries along and the audit rows are left out. *)

From S2P Require Import Prelude DatabaseTime JobStatus Json Schema PrinterModel Authority Availability Payload.
From S2P Require Import PrinterVirtual Capability Entitlements Samples JobProtocol JobDelivery JobMaintenance.
From S2P Require Import AgentJobs JobService Lifecycle Sessions RateLimit Passwords.

(** ** Tables *)

(** [email_verification_tokens] and [password_reset_tokens]. *)
Record one_time_token := {
  ot_userId : string;
  ot_tokenHash : string;
  ot_expiresAt : Z;
  ot_consumedAt : option Z;
}.

Record platform_session := {
  ps_userId : string;
  ps_expiresAt : Z;
  ps_revokedAt : option Z;
}.

Record tenant_invitation := {
  ti_tenantId : string;
  ti_inviterUserId : string;
  ti_email : string;
  ti_role : ManagerRole;
  ti_tokenHash : string;
  ti_expiresAt : Z;
  ti_acceptedAt : option Z;
  ti_revokedAt : option Z;
}.

Record account_db := {
  gateway_of : db;
  auth_of : auth_db;
  email_verification_tokens : gmap string one_time_token;
  password_reset_tokens : gmap string one_time_token;
  platform_sessions : gmap string platform_session;
  tenant_invitations : gmap string tenant_invitation;
}.

Definition on_gateway (d : db) (s : account_db) : account_db := {|
  gateway_of := d; auth_of := auth_of s; email_verification_tokens := email_verification_tokens s;
  password_reset_tokens := password_reset_tokens s; platform_sessions := platform_sessions s;
  tenant_invitations := tenant_invitations s |}.

Definition on_auth (a : auth_db) (s : account_db) : account_db := {|
  gateway_of := gateway_of s; auth_of := a; email_verification_tokens := email_verification_tokens s;
  password_reset_tokens := password_reset_tokens s; platform_sessions := platform_sessions s;
  tenant_invitations := tenant_invitations s |}.

Definition on_verifications (m : gmap string one_time_token) (s : account_db) : account_db := {|
  gateway_of := gateway_of s; auth_of := auth_of s; email_verification_tokens := m;
  password_reset_tokens := password_reset_tokens s; platform_sessions := platform_sessions s;
  tenant_invitations := tenant_invitations s |}.

Definition on_resets (m : gmap string one_time_token) (s : account_db) : account_db := {|
  gateway_of := gateway_of s; auth_of := auth_of s; email_verification_tokens := email_verification_tokens s;
  password_reset_tokens := m; platform_sessions := platform_sessions s;
  tenant_invitations := tenant_invitations s |}.

Definition on_platform (m : gmap string platform_session) (s : account_db) : account_db := {|
  gateway_of := gateway_of s; auth_of := auth_of s; email_verification_tokens := email_verification_tokens s;
  password_reset_tokens := password_reset_tokens s; platform_sessions := m;
  tenant_invitations := tenant_invitations s |}.

Definition on_invitations (m : gmap string tenant_invitation) (s : account_db) : account_db := {|
  gateway_of := gateway_of s; auth_of := auth_of s; email_verification_tokens := email_verification_tokens s;
  password_reset_tokens := password_reset_tokens s; platform_sessions := platform_sessions s;
  tenant_invitations := m |}.

Definition with_users (m : gmap string user) (a : auth_db) : auth_db := {|
  users := m; tenant_users := tenant_users a; refresh_tokens := refresh_tokens a;
  manager_sessions := manager_sessions a |}.

Definition with_members (m : gmap (string * string) ManagerRole) (a : auth_db) : auth_db := {|
  users := users a; tenant_users := m; refresh_tokens := refresh_tokens a;
  manager_sessions := manager_sessions a |}.

Definition with_manager_sessions (m : gmap string manager_session) (a : auth_db) : auth_db := {|
  users := users a; tenant_users := tenant_users a; refresh_tokens := refresh_tokens a;
  manager_sessions := m |}.

(** ** Rows *)

Definition spent_at (at_ : Z) (t : one_time_token) : one_time_token := {|
  ot_userId := ot_userId t; ot_tokenHash := ot_tokenHash t; ot_expiresAt := ot_expiresAt t;
  ot_consumedAt := Some at_ |}.

(** [consumed_at IS NULL AND expires_at > clock_timestamp()]. *)
Definition token_live (ck : clock) (t : one_time_token) : bool :=
  is_none (ot_consumedAt t) && (clock_timestamp ck <? ot_expiresAt t).

(** [UPDATE ... SET consumed_at WHERE user_id = u AND consumed_at IS NULL]. *)
Definition consume_user_tokens (userId : string) (at_ : Z) (m : gmap string one_time_token)
    : gmap string one_time_token :=
  (λ t, if (ot_userId t == userId) && is_none (ot_consumedAt t) then spent_at at_ t else t) <$> m.

(** [UPDATE ... SET consumed_at WHERE id = ... AND <live> RETURNING id]. *)
Definition consume_token (id : string) (ck : clock) (at_ : Z) (m : gmap string one_time_token)
    : option (gmap string one_time_token) :=
  match m !! id with
  | Some t => if token_live ck t then Some (<[id := spent_at at_ t]> m) else None
  | None => None
  end.

Inductive account_error : Type :=
| ConstraintError
| USER_NOT_FOUND
| VerificationTokenConsumed
| ResetTokenConsumed
| ResetUserMissing.

(** Primary key, unique hash and the reference to the user. *)
Definition insert_one_time (id : string) (t : one_time_token) (a : auth_db) (m : gmap string one_time_token)
    : result (gmap string one_time_token) account_error :=
  do* throw_if (is_some (m !! id) || is_some (find_row (λ x, ot_tokenHash x == ot_tokenHash t) m)
                || is_none (users a !! ot_userId t)) ConstraintError in
  Ok (<[id := t]> m).

Definition insert_user (id : string) (u : user) (a : auth_db) : result auth_db account_error :=
  do* throw_if (is_some (users a !! id) || is_some (find_row (λ x, us_email x == us_email u) (users a)))
        ConstraintError in
  Ok (with_users (<[id := u]> (users a)) a).

(** [tenant_users_single_owner_idx]. *)
Definition owned (t : string) (m : gmap (string * string) ManagerRole) : bool :=
  existsb (λ kv, (kv.1.2 == t) && (kv.2 == owner)) (map_to_list m).

Definition insert_member (userId tenantId : string) (role : ManagerRole) (d : db) (a : auth_db)
    : result auth_db account_error :=
  do* throw_if (is_some (tenant_users a !! (userId, tenantId)) || is_none (tenants d !! tenantId)
                || is_none (users a !! userId)
                || ((role == owner) && owned tenantId (tenant_users a))) ConstraintError in
  Ok (with_members (<[(userId, tenantId) := role]> (tenant_users a)) a).

(** [tenants] by id; the name is not read back by the modelled code. *)
Definition insert_tenant (id : string) (at_ : Z) (d : db) : result db account_error :=
  do* throw_if (is_some (tenants d !! id)) ConstraintError in
  Ok (with_tenants (<[id := {| tn_lifecycle := "active"; tn_suspendedAt := None; tn_deletedAt := None;
                              tn_lifecycleReason := None; tn_updatedAt := at_ |}]> (tenants d)) d).

(** [tx.query.tenantUsers.findFirst({ where: userId })]. *)
Definition first_membership (userId : string) (a : auth_db) : option (string * ManagerRole) :=
  match List.find (λ kv, kv.1.1 == userId) (map_to_list (tenant_users a)) with
  | Some ((_, t), role) => Some (t, role)
  | None => None
  end.

(** ** Session boundaries of [manager-auth.ts] and [platform-auth.ts] *)

Definition revoked_manager_session (at_ : Z) (s : manager_session) : manager_session := {|
  ms_tenantId := ms_tenantId s; ms_userId := ms_userId s; ms_role := ms_role s;
  ms_expiresAt := ms_expiresAt s; ms_revokedAt := Some at_ |}.

Definition revokeLegacyManagerSessionsForUser (userId : string) (tenantId : option string) (at_ : Z)
    (a : auth_db) : auth_db :=
  with_manager_sessions
    ((λ s, if (ms_userId s == Some userId)
              && (negb (truthy tenantId) || (Some (ms_tenantId s) == tenantId))
           then revoked_manager_session at_ s else s) <$> manager_sessions a) a.

Definition revokeLegacyPlatformSessionsForUser (userId : string) (at_ : Z)
    (m : gmap string platform_session) : gmap string platform_session :=
  (λ s, if (ps_userId s == userId) && is_none (ps_revokedAt s)
        then {| ps_userId := ps_userId s; ps_expiresAt := ps_expiresAt s; ps_revokedAt := Some at_ |}
        else s) <$> m.

(** The three revocations a new password comes with. *)
Definition close_user_sessions (userId reason : string) (at_ : Z) (s : account_db) : account_db :=
  s |> on_auth (revokeUserRefreshFamilies userId reason at_
                  (revokeLegacyManagerSessionsForUser userId None at_ (auth_of s)))
    |> on_platform (revokeLegacyPlatformSessionsForUser userId at_ (platform_sessions s)).

(** ** Requests and outcomes *)

Record account_request := {
  aq_contentLength : option string;
  aq_body : option json;  (** [None]: not JSON *)
  aq_trustProxy : bool;
  aq_forwardedFor : option string;
  aq_realIp : option string;
  aq_nowMs : Z;  (** the limiter's clock *)
}.

Inductive account_reply : Type :=
| Refused (status : Z) (error : string)
| Limited (status : Z) (retryAfter : option Z)
| Generic (status : Z)
| Verified (requiresPasswordSetup : bool) (resetToken : option string)
| PasswordReset
| Unhandled.

(** A mail, by its recipient and the token of its link. *)
Record mail := { ml_to : string; ml_token : string }.

Record answered := {
  oc_reply : account_reply;
  oc_mail : option mail;
  oc_limits : limits;
  oc_store : account_db;
}.

Definition answer_with (r : account_reply) (L : limits) (s : account_db) : answered :=
  {| oc_reply := r; oc_mail := None; oc_limits := L; oc_store := s |}.

Definition body_text (body : json) (key : string) : string :=
  coalesce (as_string (json_field body key)) "".

(** The size check and the JSON object every route begins with. *)
Definition read_body (q : account_request) (maxBytes : Z) : result json account_reply :=
  if hasBodyOverLimit (aq_contentLength q) maxBytes then Err (Refused 413 "Request body too large")
  else match aq_body q with
       | Some (JObject l) => Ok (JObject l)
       | _ => Err (Refused 400 "Invalid JSON")
       end.

Definition with_password (hash : string) (u : user) : user := {|
  us_email := us_email u; us_passwordHash := hash; us_emailVerifiedAt := us_emailVerifiedAt u;
  us_isPlatformOwner := us_isPlatformOwner u |}.

(** [email_verified_at = COALESCE(email_verified_at, clock_timestamp())]. *)
Definition with_proof (at_ : Z) (u : user) : user := {|
  us_email := us_email u; us_passwordHash := us_passwordHash u;
  us_emailVerifiedAt := Some (coalesce (us_emailVerifiedAt u) at_);
  us_isPlatformOwner := us_isPlatformOwner u |}.

Definition days (n : Z) : Z := hours (24 * n).

Section routes.
Context (isIP : string → bool) (derive : string → string → option string) (b64 sha256 : string → string).
(** The message of the driver's error on a violated unique index. *)
Context (unique_violation : string).

Definition request_ip (q : account_request) : string :=
  clientIpFrom isIP (aq_trustProxy q) (aq_forwardedFor q) (aq_realIp q).

(** Known clients share an endpoint's bucket, the others the token's. *)
Definition token_identity (endpoint : string) (q : account_request) (tokenHash : string) : string :=
  endpoint +:+ (if request_ip q == "unknown" then tokenHash else request_ip q).

(** One attempt is spent before anything is read. *)
Definition with_attempt (q : account_request) (identity : string)
    (unavailable : account_reply) (limited : option Z → account_reply)
    (L : limits) (s : account_db) (go : limits → answered) : answered :=
  let '(decision, L1) := reserveAuthAttempt isIP (request_ip q) identity (aq_nowMs q) L in
  match decision with
  | None => answer_with unavailable L1 s
  | Some d => if rd_allowed d then go L1 else answer_with (limited (rd_retryAfterSec d)) L1 s
  end.

(** *** [register] *)

Record register_draw := {
  rg_userId : string;
  rg_tokenId : string;
  rg_rawToken : string;
  rg_salt : string;
}.

(** [/duplicate|unique/i.test(error.message)]. *)
Definition says_duplicate (message : string) : bool :=
  includes (toLowerCase message) "duplicate" || includes (toLowerCase message) "unique".

Definition open_account (v : register_draw) (email passwordHash : string) (ck : clock)
    (s : account_db) : result account_db account_error :=
  let* a' := insert_user (rg_userId v)
               {| us_email := email; us_passwordHash := passwordHash; us_emailVerifiedAt := None;
                  us_isPlatformOwner := false |} (auth_of s) in
  let* m := insert_one_time (rg_tokenId v)
              {| ot_userId := rg_userId v; ot_tokenHash := hashToken sha256 (rg_rawToken v);
                 ot_expiresAt := clock_timestamp ck + mins 30; ot_consumedAt := None |}
              a' (email_verification_tokens s) in
  Ok (on_verifications m (on_auth a' s)).

Definition register (q : account_request) (v : register_draw) (ck : clock) (L : limits)
    (s_read s : account_db) : answered :=
  match read_body q (64 * 1024) with
  | Err r => answer_with r L s
  | Ok body =>
      let email := normalizeEmail (body_text body "email") in
      let password := body_text body "password" in
      if negb (validEmail email) || (strlen password <? 12) || (4096 <? strlen password)
      then answer_with (Refused 400 "Enter a valid email and a password of at least 12 characters.") L s
      else
        with_attempt q email (Refused 503 "Registration temporarily unavailable") (Limited 429) L s (λ L1,
          if is_some (find_row (λ u, us_email u == email) (users (auth_of s_read)))
          then answer_with (Generic 202) L1 s
          else match hashPassword derive b64 (rg_salt v) password with
               | Err _ => answer_with (Refused 503 "Registration temporarily unavailable") L1 s
               | Ok passwordHash =>
                   match open_account v email passwordHash ck s with
                   | Ok s' => {| oc_reply := Generic 202;
                                 oc_mail := Some {| ml_to := email; ml_token := rg_rawToken v |};
                                 oc_limits := L1; oc_store := s' |}
                   | Err _ => if says_duplicate unique_violation
                              then answer_with (Generic 202) L1 s
                              else answer_with (Refused 503 "Registration temporarily unavailable") L1 s
                   end
               end)
  end.

(** *** [verify-email] *)

Record verify_draw := {
  vd_resetToken : string;
  vd_resetTokenId : string;
  vd_randomPassword : string;
  vd_salt : string;
  vd_tenantId : string;
}.

(** An account without a workspace gets one of its own. *)
Definition first_workspace (userId tenantId : string) (ck : clock) (s : account_db)
    : result account_db account_error :=
  match first_membership userId (auth_of s) with
  | Some _ => Ok s
  | None =>
      let* d' := insert_tenant tenantId (now ck) (gateway_of s) in
      let* a' := insert_member userId tenantId owner d' (auth_of s) in
      Ok (on_auth a' (on_gateway d' s))
  end.

(** [Ok (true, _)] when the account had been verified before. *)
Definition verify_transaction (tokenId userId pendingPasswordHash : string) (v : verify_draw) (ck : clock)
    (s : account_db) : result (bool * account_db) account_error :=
  match users (auth_of s) !! userId with
  | None => Err USER_NOT_FOUND
  | Some currentUser =>
      do* throw_if ((userId == "") || (us_email currentUser == "")) USER_NOT_FOUND in
      match consume_token tokenId ck (clock_timestamp ck) (email_verification_tokens s) with
      | None => Err VerificationTokenConsumed
      | Some m =>
          let s1 := on_verifications m s in
          if is_some (us_emailVerifiedAt currentUser) then Ok (true, s1)
          else
            let at_ := clock_timestamp ck in
            let s2 := on_auth (with_users (<[userId := with_proof at_ (with_password pendingPasswordHash currentUser)]>
                                             (users (auth_of s1))) (auth_of s1)) s1 in
            let s3 := close_user_sessions userId "email_verified_password_setup" at_ s2 in
            let spent := consume_user_tokens userId at_ (password_reset_tokens s3) in
            let* resets := insert_one_time (vd_resetTokenId v)
              {| ot_userId := userId; ot_tokenHash := hashToken sha256 (vd_resetToken v);
                 ot_expiresAt := at_ + mins 20; ot_consumedAt := None |} (auth_of s3) spent in
            let* s4 := first_workspace userId (vd_tenantId v) ck (on_resets resets s3) in
            Ok (false, s4)
      end
  end.

Definition INVALID_LINK : account_reply := Refused 400 "Invalid or expired verification link".

Definition verify_email (q : account_request) (v : verify_draw) (ck_read ck : clock) (L : limits)
    (s_read s : account_db) : answered :=
  match read_body q (16 * 1024) with
  | Err r => answer_with r L s
  | Ok body =>
      let token := body_text body "token" in
      if (token == "") || (256 <? strlen token) then answer_with INVALID_LINK L s
      else
        let tokenHash := hashToken sha256 token in
        let identity := token_identity "verify-email-token:" q tokenHash in
        with_attempt q identity (Refused 503 "Service temporarily unavailable") (Limited 429) L s (λ L1,
          match find_row (λ t, (ot_tokenHash t == tokenHash) && token_live ck_read t)
                  (email_verification_tokens s_read) with
          | None => answer_with INVALID_LINK L1 s
          | Some (tokenId, row) =>
              if is_none (users (auth_of s_read) !! ot_userId row) then answer_with INVALID_LINK L1 s
              else match hashPassword derive b64 (vd_salt v) (vd_randomPassword v) with
                   | Err _ => answer_with (Refused 503 "Service temporarily unavailable") L1 s
                   | Ok pendingPasswordHash =>
                       match verify_transaction tokenId (ot_userId row) pendingPasswordHash v ck s with
                       | Err VerificationTokenConsumed | Err USER_NOT_FOUND => answer_with INVALID_LINK L1 s
                       | Err _ => answer_with Unhandled L1 s
                       | Ok (alreadyVerified, s') =>
                           answer_with
                             (Verified (negb alreadyVerified)
                                (if alreadyVerified then None else Some (vd_resetToken v)))
                             (recordAuthSuccess isIP (request_ip q) identity L1) s'
                       end
                   end
          end)
  end.

(** *** [resend-verification] *)

(** A token of either table: its id and its text. *)
Record token_draw := { td_id : string; td_raw : string }.

(** [Ok None] when the account is gone or already verified. *)
Definition resend_transaction (userId : string) (v : token_draw) (ck : clock) (s : account_db)
    : result (option account_db) account_error :=
  match users (auth_of s) !! userId with
  | None => Ok None
  | Some u =>
      if (userId == "") || is_some (us_emailVerifiedAt u) then Ok None
      else
        let* m := insert_one_time (td_id v)
          {| ot_userId := userId; ot_tokenHash := hashToken sha256 (td_raw v);
             ot_expiresAt := clock_timestamp ck + mins 30; ot_consumedAt := None |} (auth_of s)
          (consume_user_tokens userId (now ck) (email_verification_tokens s)) in
        Ok (Some (on_verifications m s))
  end.

Definition resend_verification (q : account_request) (v : token_draw) (ck : clock) (L : limits)
    (s_read s : account_db) : answered :=
  match read_body q (64 * 1024) with
  | Err r => answer_with r L s
  | Ok body =>
      let email := normalizeEmail (body_text body "email") in
      if negb (validEmail email) then answer_with (Refused 400 "Enter a valid email address.") L s
      else
        with_attempt q email (Generic 503) (Limited 429) L s (λ L1,
          match find_row (λ u, us_email u == email) (users (auth_of s_read)) with
          | None => answer_with (Generic 202) L1 s
          | Some (userId, u) =>
              if is_some (us_emailVerifiedAt u) then answer_with (Generic 202) L1 s
              else match resend_transaction userId v ck s with
                   | Ok (Some s') => {| oc_reply := Generic 202;
                                        oc_mail := Some {| ml_to := email; ml_token := td_raw v |};
                                        oc_limits := L1; oc_store := s' |}
                   | Ok None | Err _ => answer_with (Generic 202) L1 s
                   end
          end)
  end.

(** *** [forgot-password] *)

Definition forgot_transaction (userId : string) (v : token_draw) (ck : clock) (s : account_db)
    : result account_db account_error :=
  let* m := insert_one_time (td_id v)
    {| ot_userId := userId; ot_tokenHash := hashToken sha256 (td_raw v);
       ot_expiresAt := clock_timestamp ck + mins 20; ot_consumedAt := None |} (auth_of s)
    (consume_user_tokens userId (now ck) (password_reset_tokens s)) in
  Ok (on_resets m s).

(** Every answer but the size check is the same body; a body that is not JSON
    gets it before the limiter is asked. *)
Definition forgot_password (q : account_request) (v : token_draw) (ck : clock) (L : limits)
    (s_read s : account_db) : answered :=
  if hasBodyOverLimit (aq_contentLength q) (32 * 1024)
  then answer_with (Refused 413 "Request body too large") L s
  else match aq_body q with
       | Some (JObject l) =>
           let email := normalizeEmail (body_text (JObject l) "email") in
           with_attempt q email (Generic 503) (Limited 202) L s (λ L1,
             match find_row (λ u, us_email u == email) (users (auth_of s_read)) with
             | None => answer_with (Generic 202) L1 s
             | Some (userId, u) =>
                 match forgot_transaction userId v ck s with
                 | Ok s' => {| oc_reply := Generic 202;
                               oc_mail := Some {| ml_to := us_email u; ml_token := td_raw v |};
                               oc_limits := L1; oc_store := s' |}
                 | Err _ => answer_with (Generic 202) L1 s
                 end
             end)
       | _ => answer_with (Generic 202) L s
       end.

(** *** [reset-password] *)

Definition reset_transaction (tokenId userId nextHash : string) (ck : clock) (s : account_db)
    : result account_db account_error :=
  match consume_token tokenId ck (now ck) (password_reset_tokens s) with
  | None => Err ResetTokenConsumed
  | Some m =>
      match users (auth_of s) !! userId with
      | None => Err ResetUserMissing
      | Some u =>
          let s1 := on_resets m s in
          let s2 := on_auth (with_users (<[userId := with_password nextHash u]> (users (auth_of s1)))
                               (auth_of s1)) s1 in
          Ok (close_user_sessions userId "password_reset" (clock_timestamp ck) s2)
      end
  end.

Definition EXPIRED_LINK : account_reply := Refused 400 "Reset link expired or invalid".

Definition reset_password (q : account_request) (salt : string) (ck_read ck : clock) (L : limits)
    (s_read s : account_db) : answered :=
  match read_body q (32 * 1024) with
  | Err r => answer_with r L s
  | Ok body =>
      let token := body_text body "token" in
      let password := body_text body "password" in
      if (token == "") || (strlen password <? 12) || (4096 <? strlen password)
      then answer_with (Refused 400 "Invalid or incomplete reset request") L s
      else
        let tokenHash := hashToken sha256 token in
        let identity := token_identity "reset-password-token:" q tokenHash in
        with_attempt q identity (Refused 503 "Service temporarily unavailable") (Limited 429) L s (λ L1,
          match find_row (λ t, (ot_tokenHash t == tokenHash) && token_live ck_read t)
                  (password_reset_tokens s_read) with
          | None => answer_with EXPIRED_LINK L1 s
          | Some (tokenId, row) =>
              match hashPassword derive b64 salt password with
              | Err _ => answer_with Unhandled L1 s
              | Ok nextHash =>
                  match reset_transaction tokenId (ot_userId row) nextHash ck s with
                  | Err ResetTokenConsumed => answer_with EXPIRED_LINK L1 s
                  | Err _ => answer_with (Refused 500 "Password reset failed") L1 s
                  | Ok s' => answer_with PasswordReset (recordAuthSuccess isIP (request_ip q) identity L1) s'
                  end
              end
          end)
  end.
End routes.
