(* ===== verification/Workspace.v ===== *)
(** * Workspace sessions of a request

    [src/lib/manager-auth.ts]: the verification of manager and customer
    access tokens, versioned or legacy ([verifyManagerToken],
    [verifyWorkspaceToken], [validateManagerClaims],
    [validateWorkspaceManager]). The checks at the door are compared with the
    fence a mutation passes at its commit ([Authority]). *)

From Stdlib Require Import Ascii.
From S2P Require Import Prelude DatabaseTime JobStatus Json Schema PrinterModel Authority Availability Payload.
From S2P Require Import PrinterVirtual Capability Entitlements Samples JobProtocol JobDelivery JobMaintenance.
From S2P Require Import AgentJobs JobService Lifecycle Sessions Cookies.

Definition LEGACY_SESSION_MAX_AGE_SECONDS : Z := 8 * 60 * 60.

(** [ManagerClaims] with the fields that only verification reads; [wk_ver2] is
    [ver === 2] with a kind, which the versioned constructors set together. *)
Record workspace_claims := {
  wk_claims : ManagerClaims;
  wk_iat : Z;
  wk_ver2 : bool;
}.

Definition role_of_text (s : string) : option ManagerRole :=
  List.find (λ r, role_text r == s) [owner; admin; operator; viewer; integration_admin; billing_admin].

(** The claims object of [verifySignature] before it is trusted. *)
Definition parse_legacy_claims (v : json) : option workspace_claims :=
  let field := json_field v in
  if (as_string (field "sub") != Some "manager") || is_some (field "ver") || is_some (field "kind")
     || is_some (field "sid") || is_some (field "familyId")
  then None
  else
    tenantId ← string_between 1 128 (field "tenantId");
    jti ← string_between 16 128 (field "jti");
    iat ← safe_integer (field "iat");
    exp ← safe_integer (field "exp");
    if (exp <=? iat) || (LEGACY_SESSION_MAX_AGE_SECONDS <? exp - iat) then None
    else
      role ← (as_string (field "role") ≫= role_of_text);
      userId ← optional_between 1 128 (field "userId");
      Some {| wk_claims := {| mc_jti := jti; mc_exp := exp; mc_tenantId := tenantId; mc_userId := userId;
                              mc_role := role; mc_kind := None; mc_familyId := None |};
              wk_iat := iat; wk_ver2 := false |}.

(** The claims a versioned access token turns into. Its role was signed as the
    text of a role; any other text belongs to no membership. *)
Definition versioned_claims (c : SharedSessionClaims) : option workspace_claims :=
  tenantId ← (if truthy (sc_tenantId c) then sc_tenantId c else None);
  role ← (sc_role c ≫= role_of_text);
  Some {| wk_claims := {| mc_jti := sc_jti c; mc_exp := sc_exp c; mc_tenantId := tenantId;
                          mc_userId := spread_truthy (sc_userId c); mc_role := role;
                          mc_kind := Some (kind_text (sc_kind c)); mc_familyId := Some (sc_familyId c) |};
          wk_iat := sc_iat c; wk_ver2 := true |}.

(** [nowMs] is [databaseNowMs()], [None] when it throws. *)
Definition validate_versioned (d : db) (a : auth_db) (nowMs : option Z) (ck : clock) (w : workspace_claims)
    : option ManagerClaims :=
  let claims := wk_claims w in
  nowMs ← nowMs;
  let nowSec := nowMs / 1000 in
  if (mc_exp claims <=? nowSec) || (nowSec + 60 <? wk_iat w)
     || negb (mc_exp claims - wk_iat w =? ACCESS_TOKEN_TTL_SECONDS) then None
  else if (mc_tenantId claims == "") || negb (truthy (mc_familyId claims)) then None
  else if negb (isSessionFamilyActive (coalesce (mc_familyId claims) "")
                  (if mc_kind claims == Some "customer" then customer_kind else manager_kind)
                  (Some (mc_tenantId claims)) (mc_userId claims) (clock_timestamp ck) a) then None
  else if negb (membership_current a claims) then None
  else _ ← requireActiveTenantOrNull d (mc_tenantId claims); Some claims.

Definition validate_legacy (d : db) (a : auth_db) (ck : clock) (w : workspace_claims)
    : option ManagerClaims :=
  let claims := wk_claims w in
  row ← manager_sessions a !! mc_jti claims;
  if (ms_expiresAt row <=? clock_timestamp ck) || (clock_timestamp ck / 1000 + 60 <? wk_iat w)
     || is_some (ms_revokedAt row) then None
  else if negb (ms_expiresAt row / 1000 =? mc_exp claims) then None
  else if (ms_tenantId row != mc_tenantId claims) || (ms_role row != mc_role claims)
          || (ms_userId row != mc_userId claims) then None
  else if truthy (ms_userId row)
          && (tenant_users a !! (coalesce (ms_userId row) "", ms_tenantId row) != Some (ms_role row)) then None
  else _ ← requireActiveTenantOrNull d (mc_tenantId claims); Some claims.

Definition validateManagerClaims (d : db) (a : auth_db) (nowMs : option Z) (ck : clock)
    (claims : option workspace_claims) : option ManagerClaims :=
  w ← claims;
  if wk_ver2 w then validate_versioned d a nowMs ck w else validate_legacy d a ck w.

Section tokens.
Context (hmac : string → string) (decode : string → string) (JSON_parse : string → option json).
Context (sha256 : string → string) (decodeURIComponent : string → option string).

(** [verifySignature]: the signature is checked before the payload is read. *)
Definition verifyLegacySignature (token : string) : option workspace_claims :=
  if (strlen token <? 40) || (4096 <? strlen token) then None
  else match split_on "."%char token with
       | [h; p; s] =>
           header ← JSON_parse (decode h);
           if negb (header_ok header) then None
           else if negb (compareStringsSafe sha256 s (hmac (h +:+ "." +:+ p))) then None
           else payload ← JSON_parse (decode p); parse_legacy_claims payload
       | _ => None
       end.

Section store.
Context (d : db) (a : auth_db) (nowMs : option Z) (ck : clock).

(** A token that verifies as a versioned one is never tried as a legacy one. *)
Definition verify_token (kinds : list SessionKind) (token : string) : option ManagerClaims :=
  match verifyAccessTokenSignature hmac decode JSON_parse sha256 token kinds with
  | Some versioned => validateManagerClaims d a nowMs ck (versioned_claims versioned)
  | None => validateManagerClaims d a nowMs ck (verifyLegacySignature token)
  end.

Definition verifyManagerToken : string → option ManagerClaims := verify_token [manager_kind].
Definition verifyWorkspaceToken : string → option ManagerClaims := verify_token [manager_kind; customer_kind].

Definition validateManager (req : request) : option ManagerClaims :=
  token ← getAccessTokenFromRequest decodeURIComponent req manager_kind; verifyManagerToken token.

(** A valid manager session has precedence; a failed one falls through. *)
Definition verifyWorkspaceTokenFromCookieValues (customerToken managerToken : option string)
    : option ManagerClaims :=
  match managerToken ≫= (λ t, if t == "" then None else verifyManagerToken t) with
  | Some claims => Some claims
  | None => customerToken ≫= λ t, if t == "" then None else verifyWorkspaceToken t
  end.

Definition validateWorkspaceManager (req : request) : option ManagerClaims :=
  match getAccessTokenFromRequest decodeURIComponent req manager_kind ≫= verifyManagerToken with
  | Some claims => Some claims
  | None => getAccessTokenFromRequest decodeURIComponent req customer_kind ≫= verifyWorkspaceToken
  end.

(** [customer-auth.ts]: a legacy token is the only one the manager cookie may
    carry here. *)
Definition validateCustomer (req : request) : option ManagerClaims :=
  match getAccessTokenFromRequest decodeURIComponent req customer_kind with
  | Some customerToken =>
      versioned ← verifyAccessTokenSignature hmac decode JSON_parse sha256 customerToken [customer_kind];
      validateManagerClaims d a nowMs ck (versioned_claims versioned)
  | None =>
      managerToken ← getAccessTokenFromRequest decodeURIComponent req manager_kind;
      if is_some (verifyAccessTokenSignature hmac decode JSON_parse sha256 managerToken
                    [manager_kind; customer_kind]) then None
      else validateManager req
  end.
End store.
End tokens.

(** [revokeManagerSession] and its transaction twin. *)
Definition revokeManagerSession (jti : string) (at_ : Z) (a : auth_db) : auth_db := {|
  users := users a; tenant_users := tenant_users a; refresh_tokens := refresh_tokens a;
  manager_sessions := alter (λ s, {| ms_tenantId := ms_tenantId s; ms_userId := ms_userId s;
    ms_role := ms_role s; ms_expiresAt := ms_expiresAt s; ms_revokedAt := Some at_ |}) jti
    (manager_sessions a) |}.

Definition cleanupExpiredManagerSessions (at_ : Z) (a : auth_db) : nat * auth_db :=
  let gone := filter (λ kv : string * manager_session, ms_expiresAt kv.2 ≤ at_) (manager_sessions a) in
  (size gone, {| users := users a; tenant_users := tenant_users a; refresh_tokens := refresh_tokens a;
                 manager_sessions := manager_sessions a ∖ gone |}).

(** ** The door and the fence *)

Lemma active_or_null d t : is_Some (requireActiveTenantOrNull d t) ↔ tenant_active d t = true.
Proof.
  destruct (tenant_guards_agree d t) as [Hg Hiff]. unfold requireActiveTenantOrNull. rewrite Hg.
  destruct (requireActiveTenantInTransaction d t) as [[]|] eqn:E; rewrite <-Hiff; [naive_solver|].
  split; [by intros []|done].
Qed.

(** The two kinds a workspace session has. *)
Definition workspace_kind (claims : ManagerClaims) : Prop :=
  mc_kind claims = Some "manager" ∨ mc_kind claims = Some "customer".

(** At one moment: [clock_timestamp()] and [databaseNowMs()] agree. *)
Lemma family_active_exact a nowMs claims u f :
  workspace_kind claims → mc_userId claims = Some u → u ≠ "" → mc_familyId claims = Some f →
  isSessionFamilyActive f (if mc_kind claims == Some "customer" then customer_kind else manager_kind)
    (Some (mc_tenantId claims)) (Some u) nowMs a = true ↔
  family_id_shape f = true ∧ ∃ id rt, refresh_tokens a !! id = Some rt ∧ rt_familyId rt = f ∧
    rt_tenantId rt = Some (mc_tenantId claims) ∧ rt_userId rt = Some u ∧ rt_revokedAt rt = None ∧
    nowMs < rt_expiresAt rt ∧
    rt_kind rt = (if bool_decide (mc_kind claims = Some "customer") then "customer" else "manager").
Proof.
  intros Hk Hu Hne Hf. unfold isSessionFamilyActive. rewrite andb_true_iff, bool_decide_eq_true.
  assert (kind_text (if mc_kind claims == Some "customer" then customer_kind else manager_kind)
    = (if bool_decide (mc_kind claims = Some "customer") then "customer" else "manager")) as -> by (by case_bool_decide).
  assert (negb (truthy (Some u)) = false) as Ht by (simpl; by rewrite bool_decide_false).
  set (kind := if bool_decide (mc_kind claims = Some "customer") then _ else _).
  split; (intros [Hs H]; split; [done|]).
  - destruct H as (id & rt & Hid & H). rewrite Ht in H. simpl in H. bools. apply is_none_true in H2.
    exists id, rt. by split_and!.
  - destruct H as (id & rt & Hid & H1 & H2 & H3 & H4 & H5 & H6). exists id, rt. split; [done|].
    rewrite Ht, H1, H2, H3, H4, H6, !bool_decide_true, (proj2 (Z.ltb_lt _ _) H5) by done. done.
Qed.

(** C23. The check at the door and the fence at the commit agree. For a
    versioned workspace session of a user, in a store whose rows of that session
    family carry the role of its claims, the request is let in with a
    permission exactly when, at the same moment, the commit fence admits that
    principal for it, the workspace is active, and the token itself is well
    formed: issued at most a minute ahead of the clock, for exactly fifteen
    minutes, with a family id of the issued shape. What the door lets in is the
    claims unchanged. *)
Theorem door_agrees_with_fence d a nowMs w u f perm
  (Hver : wk_ver2 w = true) (Hkind : workspace_kind (wk_claims w))
  (Huser : mc_userId (wk_claims w) = Some u) (Hu : u ≠ "")
  (Hfam : mc_familyId (wk_claims w) = Some f) (Hf : f ≠ "") (Htenant : mc_tenantId (wk_claims w) ≠ "")
  (Hroles : ∀ id rt, refresh_tokens a !! id = Some rt → rt_familyId rt = f →
     rt_role rt = Some (mc_role (wk_claims w))) :
  let ck := {| now := nowMs; clock_timestamp := nowMs |} in
  (validateManagerClaims d a (Some nowMs) ck (Some w) = Some (wk_claims w) ∧
   hasManagerPermission (wk_claims w) perm = true ↔
   requireManagerActorInTransaction a ck (wk_claims w) perm = Ok tt ∧
   tenant_active d (mc_tenantId (wk_claims w)) = true ∧ family_id_shape f = true ∧
   wk_iat w ≤ nowMs / 1000 + 60 ∧ mc_exp (wk_claims w) - wk_iat w = ACCESS_TOKEN_TTL_SECONDS) ∧
  (∀ claims, validateManagerClaims d a (Some nowMs) ck (Some w) = Some claims → claims = wk_claims w).
Proof.
  intros ck. set (c := wk_claims w) in *.
  assert (∀ x, validateManagerClaims d a (Some nowMs) ck (Some w) = Some x ↔ x = c ∧
    nowMs / 1000 < mc_exp c ∧ wk_iat w ≤ nowMs / 1000 + 60 ∧ mc_exp c - wk_iat w = ACCESS_TOKEN_TTL_SECONDS ∧
    isSessionFamilyActive f (if mc_kind c == Some "customer" then customer_kind else manager_kind)
      (Some (mc_tenantId c)) (Some u) nowMs a = true ∧ membership_current a c = true ∧
    tenant_active d (mc_tenantId c) = true) as Hdoor.
  { intros x. simpl. rewrite Hver. unfold validate_versioned. fold c. simpl. rewrite Hfam, Huser. simpl.
    rewrite !(bool_decide_false (mc_tenantId c = "")), (bool_decide_false (f = "")) by done. simpl.
    rewrite <-active_or_null.
    destruct (_ <=? _) eqn:E1; simpl; [split; [done|intros (_ & ? & _); bools; lia]|].
    destruct (_ <? wk_iat w) eqn:E2; simpl; [split; [done|intros (_ & _ & ? & _); bools; lia]|].
    destruct (_ =? _) eqn:E3; simpl; [|split; [done|intros (_ & _ & _ & ? & _); by apply Z.eqb_neq in E3]].
    apply Z.eqb_eq in E3. bools.
    destruct (isSessionFamilyActive _ _ _ _ _ _) eqn:E4; simpl; [|split; [done|by intros (_ & _ & _ & _ & ? & _)]].
    destruct (membership_current a c) eqn:E5; simpl; [|split; [done|by intros (_ & _ & _ & _ & _ & ? & _)]].
    destruct (requireActiveTenantOrNull _ _); simpl; [|split; [done|by intros (_ & _ & _ & _ & _ & _ & [])]].
    split; [intros [= <-]; split_and!; eauto|naive_solver]. }
  split; [|intros x Hx; by apply Hdoor in Hx as [-> _]].
  rewrite Hdoor, (family_active_exact a nowMs c u f Hkind Huser Hu Hfam).
  rewrite (authority_fence_exact a ck c perm u f Huser Hu Hfam Hf). unfold hasManagerPermission.
  rewrite bool_decide_eq_true. unfold membership_current. rewrite Huser, (bool_decide_false (u = "")) by done. simpl.
  rewrite bool_decide_eq_true.
  assert (nowMs / 1000 < mc_exp c ↔ nowMs < secs (mc_exp c)) as ->.
  { unfold secs. pose proof (Z.div_mod nowMs 1000 ltac:(done)). pose proof (Z.mod_pos_bound nowMs 1000 ltac:(done)). lia. }
  split.
  - intros [(_ & Hexp & Hiat & Httl & (Hshape & id & rt & Hid & H1 & H2 & H3 & H4 & H5 & H6) & Hm & Hact) Hp].
    split_and!; try done. exists id, rt. split_and!; try done. by eapply Hroles.
  - intros ((Hp & Hm & Hexp & id & rt & Hid & H1 & H2 & H3 & H4 & H5 & H6 & H7) & Hact & Hshape & Hiat & Httl).
    split_and!; try done. exists id, rt. by split_and!.
Qed.

(** ** An instance *)

Definition door_claims : workspace_claims := {|
  wk_claims := {| mc_jti := "jti"; mc_exp := 900; mc_tenantId := "t1"; mc_userId := Some "u1";
    mc_role := operator; mc_kind := Some "customer"; mc_familyId := Some sample_family |};
  wk_iat := 0; wk_ver2 := true |}.

Definition door_auth : auth_db := {|
  users := ∅; tenant_users := {[("u1", "t1") := operator]};
  refresh_tokens := {["r1" := new_token hashed (with_email None {| sp_kind := customer_kind; sp_tenantId := Some "t1";
    sp_userId := Some "u1"; sp_role := Some operator; sp_email := None; sp_credentialVersion := None |})
    (drawn_values "1") sample_family 0 0]};
  manager_sessions := ∅ |}.

Lemma door_agrees_with_fence_witness :
  requireManagerActorInTransaction door_auth (at_time 5) (wk_claims door_claims) jobs_create = Ok tt.
Proof.
  destruct (door_agrees_with_fence lifecycle_db door_auth 5 door_claims "u1" sample_family jobs_create eq_refl
    (or_intror eq_refl) eq_refl ltac:(done) eq_refl ltac:(done) ltac:(done)) as [Hiff _].
  - intros id rt Hrt _. simpl in Hrt. apply lookup_singleton_Some in Hrt as [_ <-]. reflexivity.
  - apply Hiff. split; vm_compute; reflexivity.
Defined.
