(* ===== verification/Login.v ===== *)
(** * Signing in

    [authenticateCustomer] and [authenticateManagerUser] of
    [src/lib/manager-auth.ts], the workspace chooser and session issue of
    [src/lib/customer-auth.ts], and the routes [auth/login] and
    [auth/select-tenant]. A password is checked against the row as it was read,
    the session is inserted later: [credentialVersion] ties the two together.
    A chosen workspace consumes its selection token by a marker row in the
    limiter's table. Audit rows and cookies are left out. *)

From Stdlib Require Import Ascii.
From S2P Require Import Prelude DatabaseTime JobStatus Json Schema PrinterModel Authority Availability Payload.
From S2P Require Import PrinterVirtual Capability Entitlements Samples JobProtocol JobDelivery JobMaintenance.
From S2P Require Import AgentJobs JobService Lifecycle Sessions Cookies RateLimit Passwords Accounts Workspace.

(** ** Credentials *)

Record identity := {
  id_userId : string;
  id_email : string;
  id_credentialVersion : string;
}.

Section credentials.
Context (derive scrypt_hex : string → string → option string) (b64 unb64 sha256 hmac : string → string).

(** Argon2id hashes by their prefix, anything else as the legacy format. *)
Definition password_matches (password hash : string) : result bool password_error :=
  if startsWith hash "argon2id$" then verifyPassword derive unb64 password hash
  else verifyScryptPasswordHash scrypt_hex sha256 password (Some hash).

(** A legacy hash is replaced only while it is still the one that was
    verified; [None] when it is not. *)
Definition upgrade_legacy (userId legacyHash salt password : string) (a : auth_db)
    : result (option (string * auth_db)) password_error :=
  let* upgraded := hashPassword derive b64 salt password in
  match users a !! userId with
  | Some current =>
      if us_passwordHash current != legacyHash then Ok None
      else Ok (Some (upgraded, with_users (<[userId := with_password upgraded current]> (users a)) a))
  | None => Ok None
  end.

(** The account [email] names when the password is its own, with the password
    hash that stands for it afterwards. [a_read] is the table as first read. *)
Definition authenticate_user (email password salt : string) (a_read a : auth_db)
    : result (option (string * user * string) * auth_db) password_error :=
  match find_row (λ u, us_email u == normalizeEmail email) (users a_read) with
  | None => Ok (None, a)
  | Some (userId, row) =>
      if is_none (us_emailVerifiedAt row) then Ok (None, a)
      else
        let* valid := password_matches password (us_passwordHash row) in
        if negb valid then Ok (None, a)
        else if startsWith (us_passwordHash row) "argon2id$"
        then Ok (Some (userId, row, us_passwordHash row), a)
        else
          let* upgraded := upgrade_legacy userId (us_passwordHash row) salt password a in
          match upgraded with
          | None => Ok (None, a)
          | Some (hash, a') => Ok (Some (userId, row, hash), a')
          end
  end.

Definition authenticateCustomer (email password salt : string) (a_read a : auth_db)
    : result (option identity * auth_db) password_error :=
  let* (found, a') := authenticate_user email password salt a_read a in
  Ok (match found with
      | Some (userId, row, hash) =>
          Some {| id_userId := userId; id_email := us_email row;
                  id_credentialVersion := credentialVersionFor hmac userId hash |}
      | None => None
      end, a').

Definition authenticateManagerUser (username password tenantId salt : string) (a_read a : auth_db)
    : result (option (string * ManagerRole * string) * auth_db) password_error :=
  if normalizeEmail username == "" then Ok (None, a)
  else
    let* (found, a') := authenticate_user username password salt a_read a in
    Ok (match found with
        | Some (userId, _, hash) =>
            role ← tenant_users a' !! (userId, tenantId);
            Some (userId, role, credentialVersionFor hmac userId hash)
        | None => None
        end, a').
End credentials.

(** ** Selection tokens *)

Record TenantSelectionClaims := {
  tc_jti : string;
  tc_iat : Z;
  tc_exp : Z;
  tc_userId : string;
  tc_email : string;
  tc_credentialVersion : string;
}.

Definition selection_json (c : TenantSelectionClaims) : json :=
  JObject [("jti", JString (tc_jti c)); ("iat", JNumber (tc_iat c)); ("exp", JNumber (tc_exp c));
           ("sub", JString "tenant_selection"); ("userId", JString (tc_userId c));
           ("email", JString (tc_email c)); ("credentialVersion", JString (tc_credentialVersion c))].

Definition parse_selection (v : json) : option TenantSelectionClaims :=
  let field := json_field v in
  if as_string (field "sub") != Some "tenant_selection" then None
  else
    jti ← as_string (field "jti");
    userId ← as_string (field "userId");
    email ← as_string (field "email");
    version ← as_string (field "credentialVersion");
    iat ← safe_integer (field "iat");
    exp ← safe_integer (field "exp");
    if negb (startsWith jti "tsel_") || negb (hex_string 64 version) then None
    else Some {| tc_jti := jti; tc_iat := iat; tc_exp := exp; tc_userId := userId; tc_email := email;
                 tc_credentialVersion := version |}.

Section selection.
Context (hmac : string → string) (encode decode : string → string) (JSON_parse : string → option json).
Context (sha256 : string → string).

(** [nanoid20] is the random part of the id. *)
Definition selection_claims (nanoid20 userId email credentialVersion : string) (nowSec : Z)
    : TenantSelectionClaims := {|
  tc_jti := "tsel_" +:+ nanoid20; tc_iat := nowSec; tc_exp := nowSec + 5 * 60; tc_userId := userId;
  tc_email := email; tc_credentialVersion := credentialVersion |}.

Definition sign_selection (c : TenantSelectionClaims) : string :=
  let data := encode (stringify header_json) +:+ "." +:+ encode (stringify (selection_json c)) in
  data +:+ "." +:+ hmac data.

Definition createTenantSelectionToken (nanoid20 userId email credentialVersion : string) (nowMs : Z) : string :=
  sign_selection (selection_claims nanoid20 userId email credentialVersion (nowMs / 1000)).

Definition verifyTenantSelectionToken (token : string) (nowMs : Z) : option TenantSelectionClaims :=
  if (strlen token <? 40) || (4096 <? strlen token) then None
  else match split_on "."%char token with
       | [h; p; s] =>
           header ← JSON_parse (decode h);
           if negb (header_ok header) then None
           else if negb (compareStringsSafe sha256 s (hmac (h +:+ "." +:+ p))) then None
           else
             payload ← JSON_parse (decode p);
             claims ← parse_selection payload;
             let nowSec := nowMs / 1000 in
             if (tc_exp claims <=? nowSec) || (nowSec + 60 <? tc_iat claims) then None else Some claims
       | _ => None
       end.
End selection.

(** ** [authenticateForTenant] and the login route *)

Inductive login_identity : Type :=
| NoWorkspace (who : identity)
| ChooseTenant (who : identity) (selectionToken : string) (memberships : list (string * ManagerRole))
| InTenant (who : identity) (tenantId : string) (role : ManagerRole).

Definition memberships_of (userId : string) (a : auth_db) : list (string * ManagerRole) :=
  omap (λ kv, if kv.1.1 == userId then Some (kv.1.2, kv.2) else None) (map_to_list (tenant_users a)).

Inductive login_reply : Type :=
| LoginRefused (status : Z) (error : string) (retryAfter : option Z)
| ChooseWorkspace (selectionToken : string) (workspaces : list string)
| LoggedIn (issued : SessionPair) (tenantId : string) (role : ManagerRole)
| LoginUnhandled.

(** The random values and clocks of one sign-in. *)
Record login_draw := {
  ld_salt : string;
  ld_nanoid : string;
  ld_session : fresh_values;
  ld_nowMs : Z;
}.

Section login.
Context (isIP : string → bool) (derive scrypt_hex : string → string → option string).
Context (b64 unb64 sha256 hmac encode decode : string → string) (JSON_parse : string → option json).

Definition authenticateForTenant (email password : string) (tenantId : option string) (v : login_draw)
    (s_read s : account_db) : result (option login_identity * account_db) password_error :=
  let* (found, a') := authenticateCustomer derive scrypt_hex b64 unb64 sha256 hmac email password
                        (ld_salt v) (auth_of s_read) (auth_of s) in
  let s' := on_auth a' s in
  let d := gateway_of s' in
  Ok (match found with
      | None => None
      | Some who =>
          if truthy tenantId then
            let t := coalesce tenantId "" in
            role ← tenant_users a' !! (id_userId who, t);
            _ ← requireActiveTenantOrNull d t;
            Some (InTenant who t role)
          else match memberships_of (id_userId who) a' with
               | [] => Some (NoWorkspace who)
               | [(t, role)] => _ ← requireActiveTenantOrNull d t; Some (InTenant who t role)
               | memberships =>
                   Some (ChooseTenant who
                     (createTenantSelectionToken hmac encode (ld_nanoid v) (id_userId who) (id_email who)
                        (id_credentialVersion who) (ld_nowMs v)) memberships)
               end
      end, s').

Definition customer_principal (userId tenantId : string) (role : ManagerRole) (email credentialVersion : option string)
    : SharedSessionPrincipal := {|
  sp_kind := customer_kind; sp_tenantId := Some tenantId; sp_userId := Some userId; sp_role := Some role;
  sp_email := email; sp_credentialVersion := credentialVersion |}.

(** [Ok None] when the workspace is not available. *)
Definition issueCustomerSession (userId tenantId : string) (role : ManagerRole)
    (email credentialVersion : option string) (v : fresh_values) (nowMs : Z) (s : account_db)
    : result (option SessionPair * account_db) session_error :=
  match requireActiveTenantOrNull (gateway_of s) tenantId with
  | None => Ok (None, s)
  | Some _ =>
      match insertInitialPair hmac encode sha256 (gateway_of s)
              (customer_principal userId tenantId role email credentialVersion) v nowMs (auth_of s) with
      | Ok (issued, a') => Ok (Some issued, on_auth a' s)
      | Err (TenantRefused _) => Ok (None, s)
      | Err e => Err e
      end
  end.

(** The second half of a sign-in, on the store as it is when the session is
    inserted ([s]). *)
Definition enter_workspace (who : identity) (t : string) (role : ManagerRole) (v : login_draw)
    (s : account_db) : login_reply * account_db :=
  if (t == "") then (LoginRefused 409 "Workspace setup is incomplete" None, s)
  else match issueCustomerSession (id_userId who) t role (Some (id_email who))
               (Some (id_credentialVersion who)) (ld_session v) (ld_nowMs v) s with
       | Ok (Some issued, s') => (LoggedIn issued t role, s')
       | Ok (None, s') => (LoginRefused 403 "Workspace is unavailable" None, s')
       | Err AuthenticationChangedError => (LoginRefused 401 "Invalid email or password" None, s)
       | Err _ => (LoginUnhandled, s)
       end.

(** The first half: the attempt, the password and the workspace. [inl] ends the
    request, [inr] goes on to the session. *)
Definition check_password (q : account_request) (v : login_draw) (L : limits) (s_read s : account_db)
    : (login_reply + identity * string * ManagerRole) * limits * account_db :=
  if hasBodyOverLimit (aq_contentLength q) (64 * 1024)
  then (inl (LoginRefused 413 "Request body too large" None), L, s)
  else match aq_body q with
  | Some (JObject l) =>
      let body := JObject l in
      let email := body_text body "email" in
      let password := body_text body "password" in
      let tenantId := as_string (json_field body "tenantId") ≫= λ t, if strlen t <=? 128 then Some t else None in
      if (email == "") || (password == "") || (4096 <? strlen password)
      then (inl (LoginRefused 400 "Email and password are required" None), L, s)
      else
        let ip := request_ip isIP q in
        let '(decision, L1) := reserveAuthAttempt isIP ip email (aq_nowMs q) L in
        match decision with
        | None => (inl (LoginRefused 503 "Authentication temporarily unavailable" None), L1, s)
        | Some pre =>
            if negb (rd_allowed pre)
            then (inl (LoginRefused 429 "Too many attempts. Try again later." (rd_retryAfterSec pre)), L1, s)
            else match authenticateForTenant email password tenantId v s_read s with
                 | Err _ => (inl (LoginRefused 503 "Authentication temporarily unavailable" None), L1, s)
                 | Ok (None, s') =>
                     (inl (match rd_retryAfterSec pre with
                           | Some r => if r =? 0 then LoginRefused 401 "Invalid email or password" None
                                       else LoginRefused 429 "Invalid email or password" (Some r)
                           | None => LoginRefused 401 "Invalid email or password" None
                           end), L1, s')
                 | Ok (Some found, s') =>
                     let L2 := recordAuthSuccess isIP ip email L1 in
                     (match found with
                      | ChooseTenant _ token memberships => inl (ChooseWorkspace token (map fst memberships))
                      | NoWorkspace _ => inl (LoginRefused 409 "Workspace setup is incomplete" None)
                      | InTenant who t role => inr (who, t, role)
                      end, L2, s')
                 end
        end
  | _ => (inl (LoginRefused 400 "Invalid JSON" None), L, s)
  end.

(** Without another request in between. *)
Definition login (q : account_request) (v : login_draw) (L : limits) (s_read s : account_db)
    : login_reply * limits * account_db :=
  match check_password q v L s_read s with
  | (inl r, L', s') => (r, L', s')
  | (inr (who, t, role), L', s') => let '(r, s'') := enter_workspace who t role v s' in (r, L', s'')
  end.

(** ** [select-tenant] *)

(** The session a request came with, read again under its locks. *)
Definition source_row_live (ck : clock) (claims : ManagerClaims) (userId : string) (rt : refresh_token) : bool :=
  (Some (rt_familyId rt) == mc_familyId claims) && (rt_userId rt == Some userId) &&
  (rt_tenantId rt == Some (mc_tenantId claims)) && (rt_kind rt == coalesce (mc_kind claims) "manager") &&
  is_none (rt_revokedAt rt) && (clock_timestamp ck <? rt_expiresAt rt).

Definition source_legacy_live (ck : clock) (claims : ManagerClaims) (userId : string) (s : manager_session) : bool :=
  (ms_userId s == Some userId) && (ms_tenantId s == mc_tenantId claims) && is_none (ms_revokedAt s) &&
  (clock_timestamp ck <? ms_expiresAt s).

Definition source_live (ck : clock) (claims : ManagerClaims) (userId : string) (a : auth_db) : bool :=
  if truthy (mc_familyId claims)
  then bool_decide (map_Exists (λ _ rt, source_row_live ck claims userId rt = true) (refresh_tokens a))
  else match manager_sessions a !! mc_jti claims with
       | Some s => source_legacy_live ck claims userId s
       | None => false
       end.

Inductive select_error : Type :=
| SelectTenant (e : tenant_error)
| SelectSession (e : session_error)
| SelectionTokenUsed
| WorkspaceNotAvailable
| WorkspaceSuspended.

Inductive select_reply : Type :=
| Selected (issued : SessionPair) (tenantId : string) (role : ManagerRole)
| SelectRefused (status : Z) (error : string).

Definition selection_key (jti : string) : string := "tsel_used_" +:+ jti.

(** Who asks: the holder of a selection token, or of a live session. *)
Inductive selector : Type :=
| BySelection (claims : TenantSelectionClaims)
| BySession (userId : string).

Definition selector_user (w : selector) : string :=
  match w with BySelection c => tc_userId c | BySession u => u end.

(** The marker of a used token; [onConflictDoNothing]. *)
Definition consume_selection (w : selector) (ck : clock) (L : limits) : result limits select_error :=
  match w with
  | BySelection c =>
      if tc_jti c == "" then Ok L
      else match L !! selection_key (tc_jti c) with
           | Some _ => Err SelectionTokenUsed
           | None => Ok (<[selection_key (tc_jti c) := fresh_bucket (now ck)]> L)
           end
  | BySession _ => Ok L
  end.

(** The session the request came with is closed. *)
Definition close_source (claims : option ManagerClaims) (ck : clock) (a : auth_db) : result auth_db select_error :=
  match claims with
  | None => Ok a
  | Some c =>
      if truthy (mc_familyId c)
      then match revokeSessionFamilyInTransaction (coalesce (mc_familyId c) "") "tenant_selection"
                   (clock_timestamp ck) a with
           | Ok a' => Ok a'
           | Err e => Err (SelectSession e)
           end
      else if mc_jti c == "" then Ok a
      else Ok (revokeManagerSession (mc_jti c) (clock_timestamp ck) a)
  end.

Definition select_transaction (tenantId : string) (w : selector) (claims : option ManagerClaims)
    (v : fresh_values) (nowMs : Z) (ck : clock) (L : limits) (s : account_db)
    : result (SessionPair * ManagerRole * limits * account_db) select_error :=
  let d := gateway_of s in
  let userId := selector_user w in
  do* (match requireActiveTenantInTransaction d tenantId with
       | Ok _ => Ok tt | Err e => Err (SelectTenant e) end) in
  do* (match w, claims with
       | BySession _, Some c =>
           throw_if (negb (source_live ck c userId (auth_of s))) (SelectSession AuthenticationChangedError)
       | _, _ => Ok tt
       end) in
  let* L' := consume_selection w ck L in
  match tenant_users (auth_of s) !! (userId, tenantId) with
  | None => Err WorkspaceNotAvailable
  | Some role =>
      do* throw_if (tenant_lifecycle d tenantId != Some "active") WorkspaceSuspended in
      let* a' := close_source claims ck (auth_of s) in
      let version := match w with BySelection c => Some (tc_credentialVersion c) | BySession _ => None end in
      match insertInitialPair hmac encode sha256 d (customer_principal userId tenantId role None version)
              v nowMs a' with
      | Ok (issued, a'') => Ok (issued, role, L', on_auth a'' s)
      | Err e => Err (SelectSession e)
      end
  end.

Definition select_answer (e : select_error) : select_reply :=
  match e with
  | SelectTenant _ | SelectSession (TenantRefused _) => SelectRefused 403 "Workspace is suspended or unavailable"
  | SelectSession AuthenticationChangedError => SelectRefused 401 "Invalid or expired workspace selection token"
  | SelectionTokenUsed => SelectRefused 409 "Workspace selection token has already been used"
  | WorkspaceNotAvailable => SelectRefused 403 "Workspace not available"
  | WorkspaceSuspended => SelectRefused 403 "Workspace is suspended or unavailable"
  | SelectSession _ => SelectRefused 500 "Workspace selection failed"
  end.

(** [claims] is what [validateWorkspaceManager] found in the request; [readMs]
    is the clock of the token's verification. *)
Definition select_tenant (q : account_request) (claims : option ManagerClaims) (v : fresh_values)
    (readMs nowMs : Z) (ck : clock) (L : limits) (s : account_db) : select_reply * limits * account_db :=
  if hasBodyOverLimit (aq_contentLength q) (16 * 1024) then (SelectRefused 413 "Request body too large", L, s)
  else match aq_body q with
  | Some (JObject l) =>
      let tenantId := trim (body_text (JObject l) "tenantId") in
      if tenantId == "" then (SelectRefused 400 "tenantId is required", L, s)
      else
        let selectionToken := trim (body_text (JObject l) "selectionToken") in
        let who :=
          if selectionToken != "" then
            match verifyTenantSelectionToken hmac decode JSON_parse sha256 selectionToken readMs with
            | Some c => Ok (BySelection c)
            | None => Err (SelectRefused 401 "Invalid or expired workspace selection token")
            end
          else match claims with
               | Some c => if truthy (mc_userId c) then Ok (BySession (coalesce (mc_userId c) ""))
                           else Err (SelectRefused 401 "Unauthorized")
               | None => Err (SelectRefused 401 "Unauthorized")
               end in
        match who with
        | Err r => (r, L, s)
        | Ok w =>
            match select_transaction tenantId w claims v nowMs ck L s with
            | Ok (issued, role, L', s') => (Selected issued tenantId role, L', s')
            | Err e => (select_answer e, L, s)
            end
        end
  | _ => (SelectRefused 400 "Invalid JSON", L, s)
  end.
End login.

(** ** A selection token is used once *)

(** What else happens to the limiter's table, up to time [T]. *)
Inductive table_step (isIP : string → bool) (T : Z) : limits → limits → Prop :=
| ts_event nowMs e L : 0 ≤ nowMs ≤ T → table_step isIP T L (apply_event isIP nowMs e L)
| ts_select w ck L L' : consume_selection w ck L = Ok L' → table_step isIP T L L'.

(** No reservation has the key of a marker. *)
Lemma selection_key_apart isIP nowMs e L jti :
  clears isIP e (selection_key jti) = false ∧ granted isIP nowMs e L (selection_key jti) = false.
Proof.
  assert (∀ ip u, selection_key jti ∉ auth_keys isIP ip u) as Ha.
  { intros ip u. unfold auth_keys. intros [H|H]%elem_of_cons; [done|].
    destruct (isIP ip); [by apply list_elem_of_singleton in H|by apply not_elem_of_nil in H]. }
  destruct e; simpl; split; try done; rewrite ?(bool_decide_false (selection_key jti ∈ _)) by apply Ha;
    rewrite ?andb_false_r; try done; by rewrite bool_decide_false, ?andb_false_r.
Qed.

Lemma marker_stays isIP T L L' jti b :
  T - AUTH_RATE_RETENTION_MS ≤ bk_updatedAt b → rtc (table_step isIP T) L L' →
  L !! selection_key jti = Some b → L' !! selection_key jti = Some b.
Proof.
  intros HT. induction 1 as [|L1 L2 L3 Hstep _ IH]; intros Hb; [done|]. apply IH.
  destruct Hstep as [nowMs e L [H0 H1]|w ck L L' Hs].
  - destruct (selection_key_apart isIP nowMs e L jti) as [Hc Hg].
    pose proof (event_row isIP nowMs e L _ H0 Hc) as Hrow. rewrite Hg, Hb in Hrow.
    inversion Hrow; [done|lia].
  - destruct w as [c|u]; simpl in Hs; [|by simplify_eq]. destruct (_ == ""); [by simplify_eq|].
    destruct (L !! selection_key (tc_jti c)) eqn:E; [done|]. injection Hs as <-.
    rewrite lookup_insert_ne; [done|]. intros Heq. rewrite Heq in E. congruence.
Qed.

Section single_use.
Context (isIP : string → bool) (sha256 hmac encode decode : string → string) (JSON_parse : string → option json).
Abbreviation select_tx := (select_transaction sha256 hmac encode).
Abbreviation select := (select_tenant sha256 hmac encode decode JSON_parse).
Abbreviation verify := (verifyTenantSelectionToken hmac decode JSON_parse sha256).

(** Everything but the clock is decided by the token. *)
Lemma verify_selection_inv token readMs c :
  verify token readMs = Some c →
  token ≠ "" ∧ tc_jti c ≠ "" ∧ readMs / 1000 < tc_exp c ∧ tc_iat c ≤ readMs / 1000 + 60 ∧
  ∀ readMs' c', verify token readMs' = Some c' → c' = c.
Proof.
  unfold verifyTenantSelectionToken. destruct (_ || _) eqn:Hlen; [done|]. apply orb_false_iff in Hlen as [Hlen _].
  destruct (split_on _ _) as [|h [|p [|sg []]]]; try done.
  destruct (JSON_parse (decode h)) as [hd|]; [|done]. simpl. destruct (negb (header_ok hd)); [done|].
  destruct (negb _); [done|]. destruct (JSON_parse (decode p)) as [v|]; [|done]. simpl.
  destruct (parse_selection v) as [x|] eqn:Hp; [|done]. simpl.
  destruct (_ || (_ <? tc_iat x)) eqn:Ht; [done|]. intros [= <-]. bools. split_and!; [by intros ->| |done|lia|].
  - unfold parse_selection in Hp. destruct (_ != _); [done|]. repeat (apply bind_Some in Hp as (? & _ & Hp)).
    destruct (_ || _) eqn:Hx; [done|]. injection Hp as <-. simpl. bools. by intros ->.
  - intros r' c'. destruct (_ || _); [done|]. by intros [= <-].
Qed.

Lemma select_consumes t w claims v nowMs ck L s r role L' s' :
  select_tx t w claims v nowMs ck L s = Ok (r, role, L', s') → consume_selection w ck L = Ok L'.
Proof.
  unfold select_transaction. intros H. apply rbind_Ok in H as ([] & _ & H). apply rbind_Ok in H as ([] & _ & H).
  apply rbind_Ok in H as (L1 & HL & H). destruct (tenant_users _ !! _); [|done].
  apply rbind_Ok in H as ([] & _ & H). apply rbind_Ok in H as (a1 & _ & H). by repeat case_match; simplify_eq.
Qed.

Lemma select_answer_refuses e : ∃ status error, select_answer e = SelectRefused status error ∧ 400 ≤ status.
Proof. destruct e as [| [] | | |]; simpl; eexists _, _; (split; [reflexivity|lia]). Qed.

(** A workspace selection token opens one session. After a sign-in has
    spent it, and while the limiter's table is used, cleaned up and written by
    other selections, the same token opens no other: either it has expired, or
    the marker of its first use is still there, because the retention of the
    table outlasts the token's five minutes. The refused request changes
    nothing. *)
Theorem selection_token_single_use t c token readMs1 readMs2 claims v nowMs ck L L1 L2 s issued role s1
    q2 claims2 v2 nowMs2 ck2 s2
  (Hfirst : select_tx t (BySelection c) claims v nowMs ck L s = Ok (issued, role, L1, s1))
  (Hverified : verify token readMs1 = Some c) (Hlife : tc_exp c ≤ tc_iat c + 5 * 60)
  (Hclock : readMs1 ≤ now ck) (Hsteps : rtc (table_step isIP readMs2) L1 L2)
  (Hagain : ∀ body, aq_body q2 = Some body → trim (body_text body "selectionToken") = token) :
  let '(reply, L', s') := select q2 claims2 v2 readMs2 nowMs2 ck2 L2 s2 in
  L' = L2 ∧ s' = s2 ∧ ∃ status error, reply = SelectRefused status error ∧ 400 ≤ status.
Proof.
  destruct (verify_selection_inv _ _ _ Hverified) as (Htok & Hjti & _ & Hiat & Hsame).
  assert (∀ status error, 400 ≤ status → ∃ status' error', SelectRefused status error = SelectRefused status' error' ∧
    400 ≤ status') as Hr by eauto.
  unfold select_tenant. destruct (hasBodyOverLimit _ _); [by split_and!; [..|apply Hr; lia]|].
  destruct (aq_body q2) as [[]|] eqn:Hb; try (by split_and!; [..|apply Hr; lia]).
  destruct (_ == ""); [by split_and!; [..|apply Hr; lia]|]. rewrite (Hagain _ eq_refl), (bool_decide_false (token = "")) by done.
  simpl. destruct (verify token readMs2) as [c2|] eqn:Hv2; [|by split_and!; [..|apply Hr; lia]].
  assert (c2 = c) as -> by eauto.
  destruct (verify_selection_inv _ _ _ Hv2) as (_ & _ & Hexp & _ & _).
  destruct (select_tx _ _ _ _ _ _ L2 s2) as [[[[r2 role2] L'] s']|err] eqn:Hsel;
    [exfalso|split_and!; [done..|apply select_answer_refuses]].
  apply select_consumes in Hsel, Hfirst. simpl in Hsel, Hfirst.
  rewrite bool_decide_false in Hsel, Hfirst by done.
  destruct (L !! _) eqn:E1; [done|]. injection Hfirst as <-.
  assert (readMs2 - AUTH_RATE_RETENTION_MS ≤ bk_updatedAt (fresh_bucket (now ck))) as Hkept.
  { simpl. unfold AUTH_RATE_RETENTION_MS. pose proof (Z.div_mod readMs2 1000 ltac:(done)).
    pose proof (Z.mod_pos_bound readMs2 1000 ltac:(done)). pose proof (Z.div_mod readMs1 1000 ltac:(done)).
    pose proof (Z.mod_pos_bound readMs1 1000 ltac:(done)). lia. }
  by rewrite (marker_stays _ _ _ _ _ _ Hkept Hsteps (lookup_insert_eq _ _ _)) in Hsel.
Qed.
End single_use.

(** ** An instance *)

Definition sample_version : string := "0123456789abcdef0123456789abcdef0123456789abcdef0123456789abcdef".
Definition sample_selection : TenantSelectionClaims :=
  selection_claims "0123456789abcdefghij" "u1" "a@x.io" sample_version 1.

Definition selection_parse (s : string) : option json :=
  if s == stringify header_json then Some header_json
  else if s == stringify (selection_json sample_selection) then Some (selection_json sample_selection)
  else None.

(** The credential digest of the example's only account. *)
Definition version_hmac (s : string) : string :=
  if startsWith s "session-credential-v1" then sample_version else "signature".

Definition selection_token : string := sign_selection version_hmac letter_encode sample_selection.

Definition selection_store : account_db := {|
  gateway_of := lifecycle_db;
  auth_of := {| users := {["u1" := {| us_email := "a@x.io"; us_passwordHash := "argon2id$"; us_emailVerifiedAt := Some 0;
      us_isPlatformOwner := false |}]}; tenant_users := {[("u1", "t1") := operator]}; refresh_tokens := ∅;
    manager_sessions := ∅ |};
  email_verification_tokens := ∅; password_reset_tokens := ∅; platform_sessions := ∅; tenant_invitations := ∅ |}.

Definition selection_body (length : option string) : account_request := {|
  aq_contentLength := length;
  aq_body := Some (JObject [("tenantId", JString "t1"); ("selectionToken", JString selection_token)]);
  aq_trustProxy := false; aq_forwardedFor := None; aq_realIp := None; aq_nowMs := 2000 |}.

Definition first_selection :=
  select_transaction hashed version_hmac letter_encode "t1" (BySelection sample_selection) None (drawn_values "1") 2000
    (at_time 2000) ∅ selection_store.

Definition after_selection : limits := match first_selection with Ok (_, _, L, _) => L | Err _ => ∅ end.

Lemma selection_token_single_use_witness :
  ∃ status error, (select_tenant hashed version_hmac letter_encode letter_decode selection_parse (selection_body None)
    None (drawn_values "2") 4000 4000 (at_time 4000)
    (apply_event (λ _, true) 3000 ev_cleanup after_selection) selection_store).1.1 = SelectRefused status error ∧
    400 ≤ status.
Proof.
  assert (∃ r role s1, first_selection = Ok (r, role, after_selection, s1)) as (r & role & s1 & H1).
  { do 3 eexists. vm_compute. reflexivity. }
  pose proof (selection_token_single_use (λ _, true) hashed version_hmac letter_encode letter_decode selection_parse
    "t1" sample_selection selection_token 2000 4000 None (drawn_values "1") 2000 (at_time 2000) ∅ after_selection
    (apply_event (λ _, true) 3000 ev_cleanup after_selection) selection_store r role s1
    (selection_body None) None (drawn_values "2") 4000 (at_time 4000) selection_store H1
    ltac:(vm_compute; reflexivity) ltac:(simpl; lia) ltac:(simpl; lia)
    (rtc_once _ _ (ts_event (λ _, true) 4000 3000 ev_cleanup after_selection ltac:(lia)))
    ltac:(intros body Hb; cbn [selection_body aq_body] in Hb; injection Hb as <-; vm_compute; reflexivity)) as H.
  destruct (select_tenant _ _ _ _ _ _ _ _ _ _ _ _ _) as [[reply L'] s']. exact (proj2 (proj2 H)).
Defined.
