(* ===== verification/Team.v ===== *)
(** * The team of a workspace

    [src/lib/team-authorization.ts] and the routes [src/app/api/team/members]
    ([PATCH], [DELETE]), [ownership], [invitations] ([POST], [DELETE]) and
    [invitations/accept]. [claims] is what the door ([Workspace]) made of the
    request; every mutation asks again inside its transaction. The invitation is
    looked up before the transaction that accepts it, so [accept] takes the
    store it read as well. The two listings, the mails' wording and the audit
    rows are left out. *)

From S2P Require Import Prelude DatabaseTime JobStatus Json Schema PrinterModel Authority Availability Payload.
From S2P Require Import PrinterVirtual Capability Entitlements Samples JobProtocol JobDelivery JobMaintenance.
From S2P Require Import AgentJobs JobService Lifecycle Sessions Cookies RateLimit Passwords Accounts Workspace Login.

Inductive team_error : Type :=
| TeamAuthorizationChangedError
| TeamMemberConflict (message : string) (status : Z)
| OwnershipConflict (message : string)
| INVITATION_ALREADY_EXISTS
| INVITATION_NOT_FOUND
| TENANT_NOT_ACTIVE
| TENANT_NOT_FOUND
| USER_ALREADY_MEMBER
| InvitationConsumed
| TeamConstraint.

(** A versioned session must not have run out either. *)
Definition actor_session_live (ck : clock) (claims : ManagerClaims) (userId : string) (a : auth_db) : bool :=
  source_live ck claims userId a && (negb (truthy (mc_familyId claims)) || unexpired_claims ck claims).

Definition requireTeamActorInTransaction (d : db) (a : auth_db) (ck : clock) (claims : ManagerClaims)
    : result unit team_error :=
  match mc_userId claims with
  | None => Err TeamAuthorizationChangedError
  | Some userId =>
      do* throw_if (userId == "") TeamAuthorizationChangedError in
      do* (match requireActiveTenantInTransaction d (mc_tenantId claims) with
           | Ok _ => Ok tt | Err _ => Err TeamAuthorizationChangedError end) in
      do* throw_if ((tenant_users a !! (userId, mc_tenantId claims) != Some (mc_role claims))
                    || negb (hasManagerPermission claims users_manage)) TeamAuthorizationChangedError in
      throw_if (negb (actor_session_live ck claims userId a)) TeamAuthorizationChangedError
  end.

Inductive team_reply : Type :=
| TeamOk
| Invited (id : string)
| Accepted (tenantId : string)
| TeamRefused (status : Z) (error : string)
| TeamLimited (retryAfter : option Z)
| TeamUnhandled.

Definition ACCESS_CHANGED : team_reply := TeamRefused 403 "Your workspace access changed. Sign in again.".

Definition ASSIGNABLE_ROLES : list string := ["admin"; "operator"; "viewer"; "integration_admin"; "billing_admin"].

Definition assignable_role (s : string) : option ManagerRole :=
  if one_of ASSIGNABLE_ROLES s then role_of_text s else None.

(** The door: a user who may manage the team, or the refusal. *)
Definition team_manager (claims : option ManagerClaims) : result (ManagerClaims * string) team_reply :=
  match claims with
  | None => Err (TeamRefused 401 "Unauthorized")
  | Some c =>
      if negb (truthy (mc_userId c)) || negb (hasManagerPermission c users_manage)
      then Err (TeamRefused 403 "Forbidden")
      else Ok (c, coalesce (mc_userId c) "")
  end.

(** [UPDATE ... WHERE tenant, user AND role = expected RETURNING]. *)
Definition update_member (userId tenantId : string) (expected role : ManagerRole) (a : auth_db)
    : option auth_db :=
  if tenant_users a !! (userId, tenantId) == Some expected
  then Some (with_members (<[(userId, tenantId) := role]> (tenant_users a)) a) else None.

Definition delete_member (userId tenantId : string) (expected : ManagerRole) (a : auth_db) : option auth_db :=
  if tenant_users a !! (userId, tenantId) == Some expected
  then Some (with_members (delete (userId, tenantId) (tenant_users a)) a) else None.

Definition CHANGED_CONCURRENTLY : team_error :=
  TeamMemberConflict "Member changed concurrently; refresh and try again" 409.

Definition change_role_transaction (claims : ManagerClaims) (userId : string) (role : ManagerRole) (ck : clock)
    (s : account_db) : result account_db team_error :=
  let a := auth_of s in
  let t := mc_tenantId claims in
  do* requireTeamActorInTransaction (gateway_of s) a ck claims in
  match tenant_users a !! (userId, t) with
  | None => Err (TeamMemberConflict "Member not found" 404)
  | Some target =>
      do* throw_if (target == owner) (TeamMemberConflict "Owner role must be transferred explicitly" 409) in
      match update_member userId t target role a with
      | None => Err CHANGED_CONCURRENTLY
      | Some a' =>
          Ok (on_auth (revokeUserTenantRefreshFamilies userId t "role_changed" (clock_timestamp ck) a') s)
      end
  end.

Definition remove_member_transaction (claims : ManagerClaims) (userId : string) (ck : clock) (s : account_db)
    : result account_db team_error :=
  let a := auth_of s in
  let t := mc_tenantId claims in
  do* requireTeamActorInTransaction (gateway_of s) a ck claims in
  match tenant_users a !! (userId, t) with
  | None => Err (TeamMemberConflict "Member not found" 404)
  | Some target =>
      do* throw_if (target == owner) (TeamMemberConflict "Transfer ownership before removing the owner" 409) in
      match delete_member userId t target a with
      | None => Err CHANGED_CONCURRENTLY
      | Some a' =>
          Ok (on_auth (revokeUserTenantRefreshFamilies userId t "member_removed" (clock_timestamp ck) a') s)
      end
  end.

Definition team_answer (m : result account_db team_error) (s : account_db) : team_reply * account_db :=
  match m with
  | Ok s' => (TeamOk, s')
  | Err TeamAuthorizationChangedError => (ACCESS_CHANGED, s)
  | Err (TeamMemberConflict message status) => (TeamRefused status message, s)
  | Err (OwnershipConflict message) => (TeamRefused 409 message, s)
  | Err _ => (TeamUnhandled, s)
  end.

Definition members_PATCH (claims : option ManagerClaims) (body : option json) (ck : clock) (s : account_db)
    : team_reply * account_db :=
  match team_manager claims with
  | Err r => (r, s)
  | Ok (c, _) =>
      match body with
      | Some (JObject l) =>
          let userId := body_text (JObject l) "userId" in
          match assignable_role (body_text (JObject l) "role") with
          | Some role =>
              if userId == "" then (TeamRefused 400 "Invalid member update", s)
              else team_answer (change_role_transaction c userId role ck s) s
          | None => (TeamRefused 400 "Invalid member update", s)
          end
      | _ => (TeamRefused 400 "Invalid JSON", s)
      end
  end.

(** [userId] is the query parameter. *)
Definition members_DELETE (claims : option ManagerClaims) (userId : option string) (ck : clock) (s : account_db)
    : team_reply * account_db :=
  match team_manager claims with
  | Err r => (r, s)
  | Ok (c, actor) =>
      let userId := coalesce userId "" in
      if userId == "" then (TeamRefused 400 "userId is required", s)
      else if userId == actor
      then (TeamRefused 409 "Use ownership transfer or leave-workspace flow before removing yourself", s)
      else team_answer (remove_member_transaction c userId ck s) s
  end.

(** ** Ownership *)

Definition transfer_transaction (claims : ManagerClaims) (currentUserId newOwnerId : string) (ck : clock)
    (s : account_db) : result account_db team_error :=
  let a := auth_of s in
  let t := mc_tenantId claims in
  let at_ := clock_timestamp ck in
  do* requireTeamActorInTransaction (gateway_of s) a ck claims in
  match tenant_users a !! (newOwnerId, t) with
  | None => Err (OwnershipConflict "Target member is not in this workspace")
  | Some target =>
      do* throw_if (tenant_users a !! (currentUserId, t) != Some owner)
            (OwnershipConflict "Ownership has already changed. Refresh and try again.") in
      do* throw_if (target == owner)
            (OwnershipConflict "Target member is already an owner; refresh and try again.") in
      match update_member currentUserId t owner admin a with
      | None => Err (OwnershipConflict "Ownership has already changed. Refresh and try again.")
      | Some a1 =>
          match update_member newOwnerId t target owner a1 with
          | None => Err (OwnershipConflict
                           "Target membership changed concurrently; no ownership change was committed.")
          | Some a2 =>
              Ok (on_auth
                    (revokeLegacyManagerSessionsForUser currentUserId (Some t) at_ a2
                     |> revokeUserTenantRefreshFamilies currentUserId t "ownership_transferred" at_
                     |> revokeUserTenantRefreshFamilies newOwnerId t "ownership_promoted" at_) s)
          end
      end
  end.

Definition ownership_POST (claims : option ManagerClaims) (body : option json) (ck : clock) (s : account_db)
    : team_reply * account_db :=
  match claims with
  | None => (TeamRefused 401 "Unauthorized", s)
  | Some c =>
      if negb (truthy (mc_userId c)) then (TeamRefused 401 "Unauthorized", s)
      else if (mc_role c != owner) || negb (hasManagerPermission c users_manage)
      then (TeamRefused 403 "Only the workspace owner can transfer ownership", s)
      else
        let currentUserId := coalesce (mc_userId c) "" in
        match body with
        | Some (JObject l) =>
            let newOwnerId := body_text (JObject l) "userId" in
            if (newOwnerId == "") || (newOwnerId == currentUserId)
            then (TeamRefused 400 "A different member is required", s)
            else team_answer (transfer_transaction c currentUserId newOwnerId ck s) s
        | _ => (TeamRefused 400 "Invalid JSON", s)
        end
  end.

(** ** Invitations *)

Definition invitation_pending (i : tenant_invitation) : bool := is_none (ti_acceptedAt i) && is_none (ti_revokedAt i).

(** Not accepted, not revoked, not expired. *)
Definition invitation_live (ck : clock) (i : tenant_invitation) : bool :=
  invitation_pending i && (clock_timestamp ck <? ti_expiresAt i).

(** Primary key, unique hash and the two references. *)
Definition insert_invitation (id : string) (i : tenant_invitation) (s : account_db) : result account_db team_error :=
  do* throw_if (is_some (tenant_invitations s !! id)
                || is_some (find_row (λ x, ti_tokenHash x == ti_tokenHash i) (tenant_invitations s))
                || is_none (tenants (gateway_of s) !! ti_tenantId i)
                || is_none (users (auth_of s) !! ti_inviterUserId i)) TeamConstraint in
  Ok (on_invitations (<[id := i]> (tenant_invitations s)) s).

Definition revoked_invitation (at_ : Z) (i : tenant_invitation) : tenant_invitation := {|
  ti_tenantId := ti_tenantId i; ti_inviterUserId := ti_inviterUserId i; ti_email := ti_email i;
  ti_role := ti_role i; ti_tokenHash := ti_tokenHash i; ti_expiresAt := ti_expiresAt i;
  ti_acceptedAt := ti_acceptedAt i; ti_revokedAt := Some at_ |}.

Definition accepted_invitation (at_ : Z) (i : tenant_invitation) : tenant_invitation := {|
  ti_tenantId := ti_tenantId i; ti_inviterUserId := ti_inviterUserId i; ti_email := ti_email i;
  ti_role := ti_role i; ti_tokenHash := ti_tokenHash i; ti_expiresAt := ti_expiresAt i;
  ti_acceptedAt := Some at_; ti_revokedAt := ti_revokedAt i |}.

(** [SELECT id, lifecycle FROM tenants ... FOR UPDATE], and its two refusals. *)
Definition lock_active_tenant (d : db) (tenantId : string) : result unit team_error :=
  match tenant_lifecycle d tenantId with
  | None => Err TENANT_NOT_FOUND
  | Some l =>
      do* throw_if (tenantId == "") TENANT_NOT_FOUND in
      throw_if (l != "active") TENANT_NOT_ACTIVE
  end.

Section invitations.
Context (isIP : string → bool) (sha256 : string → string).

Definition invite_transaction (claims : ManagerClaims) (inviterUserId email : string) (role : ManagerRole)
    (id raw : string) (ck : clock) (s : account_db) : result account_db team_error :=
  let t := mc_tenantId claims in
  do* lock_active_tenant (gateway_of s) t in
  do* requireTeamActorInTransaction (gateway_of s) (auth_of s) ck claims in
  do* throw_if (is_some (find_row (λ i, (ti_tenantId i == t) && (ti_email i == email) && invitation_live ck i)
                           (tenant_invitations s))) INVITATION_ALREADY_EXISTS in
  insert_invitation id
    {| ti_tenantId := t; ti_inviterUserId := inviterUserId; ti_email := email; ti_role := role;
       ti_tokenHash := hashToken sha256 raw; ti_expiresAt := clock_timestamp ck + days 7;
       ti_acceptedAt := None; ti_revokedAt := None |} s.

(** [delivered] is whether the mail provider took the mail; the invitation
    stands either way. *)
Definition invitations_POST (claims : option ManagerClaims) (content_length : option string) (body : option json)
    (id raw : string) (delivered : bool) (ck : clock) (s : account_db) : team_reply * option mail * account_db :=
  if hasBodyOverLimit content_length (32 * 1024) then (TeamRefused 413 "Request body too large", None, s)
  else match team_manager claims with
  | Err r => (r, None, s)
  | Ok (c, inviter) =>
      match body with
      | Some (JObject l) =>
          let email := normalizeEmail (body_text (JObject l) "email") in
          let roleText := coalesce (as_string (json_field (JObject l) "role")) "viewer" in
          match assignable_role roleText with
          | Some role =>
              if negb (validEmail email) then (TeamRefused 400 "Invalid invitation", None, s)
              else match invite_transaction c inviter email role id raw ck s with
                   | Ok s' =>
                       (if delivered then Invited id
                        else TeamRefused 503 "Invitation delivery is temporarily unavailable",
                        Some {| ml_to := email; ml_token := raw |}, s')
                   | Err TeamAuthorizationChangedError => (ACCESS_CHANGED, None, s)
                   | Err INVITATION_ALREADY_EXISTS =>
                       (TeamRefused 409 "An active invitation already exists for this email", None, s)
                   | Err TENANT_NOT_ACTIVE => (TeamRefused 409 "Workspace is suspended or unavailable", None, s)
                   | Err TENANT_NOT_FOUND => (TeamRefused 404 "Workspace not found", None, s)
                   | Err _ => (TeamUnhandled, None, s)
                   end
          | None => (TeamRefused 400 "Invalid invitation", None, s)
          end
      | _ => (TeamRefused 400 "Invalid JSON", None, s)
      end
  end.

Definition revoke_invitation_transaction (claims : ManagerClaims) (id : string) (ck : clock) (s : account_db)
    : result account_db team_error :=
  do* requireTeamActorInTransaction (gateway_of s) (auth_of s) ck claims in
  match tenant_invitations s !! id with
  | Some i =>
      do* throw_if ((ti_tenantId i != mc_tenantId claims) || negb (invitation_pending i)) INVITATION_NOT_FOUND in
      Ok (on_invitations (<[id := revoked_invitation (now ck) i]> (tenant_invitations s)) s)
  | None => Err INVITATION_NOT_FOUND
  end.

Definition invitations_DELETE (claims : option ManagerClaims) (id : option string) (ck : clock) (s : account_db)
    : team_reply * account_db :=
  match team_manager claims with
  | Err r => (r, s)
  | Ok (c, _) =>
      let id := coalesce id "" in
      if id == "" then (TeamRefused 400 "id is required", s)
      else match revoke_invitation_transaction c id ck s with
           | Ok s' => (TeamOk, s')
           | Err TeamAuthorizationChangedError => (ACCESS_CHANGED, s)
           | Err INVITATION_NOT_FOUND => (TeamRefused 404 "Invitation not found", s)
           | Err _ => (TeamUnhandled, s)
           end
  end.

Definition accept_transaction (id : string) (row : tenant_invitation) (userId : string) (ck : clock)
    (s : account_db) : result account_db team_error :=
  let t := ti_tenantId row in
  do* lock_active_tenant (gateway_of s) t in
  do* throw_if (is_some (tenant_users (auth_of s) !! (userId, t))) USER_ALREADY_MEMBER in
  match tenant_invitations s !! id with
  | Some i =>
      do* throw_if (negb (invitation_live ck i)) InvitationConsumed in
      match insert_member userId t (ti_role row) (gateway_of s) (auth_of s) with
      | Ok a' => Ok (s |> on_auth a' |> on_invitations (<[id := accepted_invitation (now ck) i]> (tenant_invitations s)))
      | Err _ => Err TeamConstraint
      end
  | None => Err InvitationConsumed
  end.

Definition INVALID_INVITATION : team_reply := TeamRefused 400 "Invitation is invalid or expired".

Definition accept_POST (q : account_request) (ck_read ck : clock) (L : limits) (s_read s : account_db)
    : team_reply * limits * account_db :=
  if hasBodyOverLimit (aq_contentLength q) (16 * 1024) then (TeamRefused 413 "Request body too large", L, s)
  else match aq_body q with
  | Some (JObject l) =>
      let token := body_text (JObject l) "token" in
      let email := normalizeEmail (body_text (JObject l) "email") in
      if (token == "") || (256 <? strlen token) || (email == "") then (INVALID_INVITATION, L, s)
      else
        let tokenHash := hashToken sha256 token in
        let identity := token_identity isIP "invitation-token:" q tokenHash in
        let '(decision, L1) := reserveAuthAttempt isIP (request_ip isIP q) identity (aq_nowMs q) L in
        match decision with
        | None => (TeamRefused 503 "Service temporarily unavailable", L1, s)
        | Some rate =>
            if negb (rd_allowed rate) then (TeamLimited (rd_retryAfterSec rate), L1, s)
            else match find_row (λ i, (ti_tokenHash i == tokenHash) && invitation_live ck_read i)
                         (tenant_invitations s_read) with
                 | None => (INVALID_INVITATION, L1, s)
                 | Some (id, row) =>
                     if ti_email row != email then (INVALID_INVITATION, L1, s)
                     else match find_row (λ u, us_email u == email) (users (auth_of s_read)) with
                          | None => (TeamRefused 409 "Create an account with the invited email before accepting the invitation", L1, s)
                          | Some (userId, _) =>
                              match accept_transaction id row userId ck s with
                              | Ok s' => (Accepted (ti_tenantId row), L1, s')
                              | Err TENANT_NOT_ACTIVE => (TeamRefused 409 "Workspace is suspended or unavailable", L1, s)
                              | Err TENANT_NOT_FOUND => (TeamRefused 404 "Workspace not found", L1, s)
                              | Err USER_ALREADY_MEMBER =>
                                  (TeamRefused 409 "User is already a member of this workspace", L1, s)
                              | Err _ => (TeamRefused 409 "Invitation could not be accepted", L1, s)
                              end
                          end
                 end
        end
  | _ => (TeamRefused 400 "Invalid JSON", L, s)
  end.
End invitations.
