(* ===== verification/AccountRuns.v ===== *)
(** * Runs of the account and team routes

    Any interleaving of the requests of [Accounts], [Login] and [Team] with
    session rotation, logout and tenant lifecycle changes. A request that reads
    before its transaction may have read any earlier store of the run. Limiter
    states are arbitrary: what is shown holds even for a caller who is never
    slowed down, and claims are arbitrary too, as the door's verdict is not
    trusted inside a transaction. *)

From S2P Require Import Prelude DatabaseTime JobStatus Json Schema PrinterModel Authority Availability Payload.
From S2P Require Import PrinterVirtual Capability Entitlements Samples JobProtocol JobDelivery JobMaintenance.
From S2P Require Import AgentJobs JobService Lifecycle Sessions Cookies RateLimit Passwords Accounts Workspace Login.
From S2P Require Import Team.

(** ** Rows that only move forward *)

Section rows.
Context {A : Type} (R : relation A).

(** No row disappears, and each moves by [R]. *)
Definition rows_evolve (m m' : gmap string A) : Prop :=
  ∀ id x, m !! id = Some x → ∃ y, m' !! id = Some y ∧ R x y.

#[export] Instance rows_evolve_preorder `{!PreOrder R} : PreOrder rows_evolve.
Proof.
  split.
  - intros m id x Hx. by exists x.
  - intros m1 m2 m3 H1 H2 id x Hx. destruct (H1 _ _ Hx) as (y & Hy & Hxy).
    destruct (H2 _ _ Hy) as (z & Hz & Hyz). exists z. split; [done|]. by etrans.
Qed.

Lemma rows_new `{!PreOrder R} m id x : m !! id = None → rows_evolve m (<[id := x]> m).
Proof.
  intros Hn k y Hy. exists y. split; [|done]. rewrite lookup_insert_ne; [done|]. by intros ->; congruence.
Qed.

Lemma rows_update `{!PreOrder R} m id x y : m !! id = Some x → R x y → rows_evolve m (<[id := y]> m).
Proof.
  intros Hx Hxy k z Hz. destruct (decide (k = id)) as [->|Hk].
  - exists y. rewrite lookup_insert_eq. by simplify_eq.
  - exists z. by rewrite lookup_insert_ne.
Qed.

Lemma rows_map m f : (∀ x, R x (f x)) → rows_evolve m (f <$> m).
Proof. intros Hf k x Hx. exists (f x). by rewrite lookup_fmap, Hx. Qed.
End rows.

(** Two rows of a table never share the value of a unique column. *)
Definition unique_by {A} (key : A → string) (m : gmap string A) : Prop :=
  ∀ i j x y, m !! i = Some x → m !! j = Some y → key x = key y → i = j.

Lemma unique_insert {A} (key : A → string) m id x :
  unique_by key m → find_row (λ y, key y == key x) m = None → unique_by key (<[id := x]> m).
Proof.
  intros Hu Hn i j y z.
  assert (∀ k w, m !! k = Some w → key w ≠ key x) as Hfree.
  { intros k w Hw He. pose proof (find_row_None _ _ _ _ Hn Hw) as Hf. cbv beta in Hf. by bools. }
  rewrite !lookup_insert_Some. intros [[-> <-]|[Hi Hy]] [[-> <-]|[Hj Hz]] He; [done|..|by eauto].
  - by destruct (Hfree _ _ Hz).
  - by destruct (Hfree _ _ Hy).
Qed.

Lemma unique_map {A} (key : A → string) m f : unique_by key m → (∀ x, key (f x) = key x) → unique_by key (f <$> m).
Proof.
  intros Hu Hf i j x y (x0 & <- & Hx)%lookup_fmap_Some (y0 & <- & Hy)%lookup_fmap_Some He.
  rewrite !Hf in He. eauto.
Qed.

Lemma unique_update {A} (key : A → string) m id x y :
  unique_by key m → m !! id = Some x → key y = key x → unique_by key (<[id := y]> m).
Proof.
  intros Hu Hx Hk i j z w. rewrite !lookup_insert_Some.
  intros [[-> <-]|[Hi Hz]] [[-> <-]|[Hj Hw]] He; [done|..|by eauto].
  - eapply (Hu _ _ x w); [done..|congruence].
  - eapply (Hu _ _ z x); [done..|congruence].
Qed.

(** ** Events *)

Inductive account_event : Type :=
| Register (q : account_request) (v : register_draw) (L : limits)
| VerifyEmail (q : account_request) (v : verify_draw) (ck_read : clock) (L : limits)
| Resend (q : account_request) (v : token_draw) (L : limits)
| Forgot (q : account_request) (v : token_draw) (L : limits)
| Reset (q : account_request) (salt : string) (ck_read : clock) (L : limits)
| CheckPassword (q : account_request) (v : login_draw) (L : limits)
| Enter (who : identity) (tenantId : string) (role : ManagerRole) (v : login_draw)
| Select (q : account_request) (claims : option ManagerClaims) (v : fresh_values) (readMs nowMs : Z) (L : limits)
| ChangeRole (claims : option ManagerClaims) (body : option json)
| Remove (claims : option ManagerClaims) (userId : option string)
| Transfer (claims : option ManagerClaims) (body : option json)
| Invite (claims : option ManagerClaims) (content_length : option string) (body : option json)
    (id raw : string) (delivered : bool)
| Uninvite (claims : option ManagerClaims) (id : option string)
| Accept (q : account_request) (ck_read : clock) (L : limits)
| Rotate (kind : SessionKind) (token : string) (v : fresh_values) (nowMs : Z)
| Logout (family reason : string)
| TenantLifecycle (platformTenantId : option string) (tenantId next reason : string) (actor : option bool)
    (rawNow : option Z).

Section runs.
Context (isIP : string → bool) (derive scrypt_hex : string → string → option string).
Context (b64 unb64 sha256 hmac encode decode : string → string) (JSON_parse : string → option json).
Context (unique_violation : string).

Definition perform (e : account_event) (ck : clock) (s_read s : account_db) : account_db :=
  match e with
  | Register q v L => oc_store (register isIP derive b64 sha256 unique_violation q v ck L s_read s)
  | VerifyEmail q v ck_read L => oc_store (verify_email isIP derive b64 sha256 q v ck_read ck L s_read s)
  | Resend q v L => oc_store (resend_verification isIP sha256 q v ck L s_read s)
  | Forgot q v L => oc_store (forgot_password isIP sha256 q v ck L s_read s)
  | Reset q salt ck_read L => oc_store (reset_password isIP derive b64 sha256 q salt ck_read ck L s_read s)
  | CheckPassword q v L =>
      (check_password isIP derive scrypt_hex b64 unb64 sha256 hmac encode q v L s_read s).2
  | Enter who t role v => (enter_workspace sha256 hmac encode who t role v s).2
  | Select q claims v readMs nowMs L =>
      (select_tenant sha256 hmac encode decode JSON_parse q claims v readMs nowMs ck L s).2
  | ChangeRole claims body => (members_PATCH claims body ck s).2
  | Remove claims userId => (members_DELETE claims userId ck s).2
  | Transfer claims body => (ownership_POST claims body ck s).2
  | Invite claims len body id raw delivered => (invitations_POST sha256 claims len body id raw delivered ck s).2
  | Uninvite claims id => (invitations_DELETE claims id ck s).2
  | Accept q ck_read L => (accept_POST isIP sha256 q ck_read ck L s_read s).2
  | Rotate kind token v nowMs =>
      match rotateRefreshToken hmac encode sha256 kind token v nowMs (clock_timestamp ck) (gateway_of s)
              (auth_of s_read) (auth_of s) with
      | Ok (_, a') => on_auth a' s
      | Err _ => s
      end
  | Logout family reason => on_auth (revoke_family family (clock_timestamp ck) reason (auth_of s)) s
  | TenantLifecycle ptid t next reason actor rawNow =>
      match transitionTenantLifecycle ptid t next reason actor rawNow (gateway_of s) (auth_of s) with
      | Ok (_, d', a') => on_auth a' (on_gateway d' s)
      | Err _ => s
      end
  end.

(** ** What an event may write *)

(** A text of the request's body. *)
Definition request_text (q : account_request) (key : string) : string :=
  match aq_body q with Some body => body_text body key | None => "" end.

Inductive effect (ck : clock) (s_read s : account_db) : account_event → account_db → Prop :=
| ef_none e : effect ck s_read s e s
| ef_register q v L email hash s' :
    open_account sha256 v email hash ck s = Ok s' →
    effect ck s_read s (Register q v L) s'
| ef_verify q v ckr L id row pending b s' :
    email_verification_tokens s_read !! id = Some row → ot_tokenHash row = sha256 (request_text q "token") →
    hashPassword derive b64 (vd_salt v) (vd_randomPassword v) = Ok pending →
    verify_transaction sha256 id (ot_userId row) pending v ck s = Ok (b, s') →
    effect ck s_read s (VerifyEmail q v ckr L) s'
| ef_resend q v L u s' :
    resend_transaction sha256 u v ck s = Ok (Some s') → effect ck s_read s (Resend q v L) s'
| ef_forgot q v L u s' :
    forgot_transaction sha256 u v ck s = Ok s' → effect ck s_read s (Forgot q v L) s'
| ef_reset q salt ckr L id row hash s' :
    password_reset_tokens s_read !! id = Some row → ot_tokenHash row = sha256 (request_text q "token") →
    hashPassword derive b64 salt (request_text q "password") = Ok hash →
    reset_transaction id (ot_userId row) hash ck s = Ok s' →
    effect ck s_read s (Reset q salt ckr L) s'
| ef_upgrade q v L u row password hash a' :
    users (auth_of s_read) !! u = Some row →
    password_matches derive scrypt_hex unb64 sha256 password (us_passwordHash row) = Ok true →
    startsWith (us_passwordHash row) "argon2id$" = false →
    upgrade_legacy derive b64 u (us_passwordHash row) (ld_salt v) password (auth_of s) = Ok (Some (hash, a')) →
    effect ck s_read s (CheckPassword q v L) (on_auth a' s)
| ef_enter who t role v issued a' :
    insertInitialPair hmac encode sha256 (gateway_of s)
      (customer_principal (id_userId who) t role (Some (id_email who)) (Some (id_credentialVersion who)))
      (ld_session v) (ld_nowMs v) (auth_of s) = Ok (issued, a') →
    effect ck s_read s (Enter who t role v) (on_auth a' s)
| ef_select q claims v readMs nowMs L t w issued role L' s' :
    (∀ c, w = BySelection c → hex_string 64 (tc_credentialVersion c) = true) →
    (∀ u, w = BySession u → ∃ c, claims = Some c) →
    select_transaction sha256 hmac encode t w claims v nowMs ck L s = Ok (issued, role, L', s') →
    effect ck s_read s (Select q claims v readMs nowMs L) s'
| ef_role c body u role s' :
    role ≠ owner → change_role_transaction c u role ck s = Ok s' →
    effect ck s_read s (ChangeRole (Some c) body) s'
| ef_remove c uid u s' :
    Some u ≠ mc_userId c → remove_member_transaction c u ck s = Ok s' →
    effect ck s_read s (Remove (Some c) uid) s'
| ef_transfer c body u new s' :
    mc_userId c = Some u → mc_role c = owner → new ≠ u →
    transfer_transaction c u new ck s = Ok s' →
    effect ck s_read s (Transfer (Some c) body) s'
| ef_invite c len body id raw delivered inviter email role s' :
    mc_userId c = Some inviter → role ≠ owner →
    invite_transaction sha256 c inviter email role id raw ck s = Ok s' →
    effect ck s_read s (Invite (Some c) len body id raw delivered) s'
| ef_uninvite c ido id s' :
    revoke_invitation_transaction c id ck s = Ok s' →
    effect ck s_read s (Uninvite (Some c) ido) s'
| ef_accept q ckr L id row u user s' :
    tenant_invitations s_read !! id = Some row → ti_tokenHash row = sha256 (request_text q "token") →
    users (auth_of s_read) !! u = Some user → us_email user = ti_email row →
    accept_transaction id row u ck s = Ok s' →
    effect ck s_read s (Accept q ckr L) s'
| ef_rotate kind token v nowMs r a' :
    rotateRefreshToken hmac encode sha256 kind token v nowMs (clock_timestamp ck) (gateway_of s)
      (auth_of s_read) (auth_of s) = Ok (r, a') →
    effect ck s_read s (Rotate kind token v nowMs) (on_auth a' s)
| ef_logout family reason :
    effect ck s_read s (Logout family reason)
      (on_auth (revoke_family family (clock_timestamp ck) reason (auth_of s)) s)
| ef_lifecycle ptid t next reason actor rawNow r d' a' :
    transitionTenantLifecycle ptid t next reason actor rawNow (gateway_of s) (auth_of s) = Ok (r, d', a') →
    effect ck s_read s (TenantLifecycle ptid t next reason actor rawNow) (on_auth a' (on_gateway d' s)).

Lemma attempt_store q identity un lim L s (go : limits → answered) (P : account_db → Prop) :
  P s → (∀ L1, P (oc_store (go L1))) → P (oc_store (with_attempt isIP q identity un lim L s go)).
Proof.
  intros Hs Hgo. unfold with_attempt. destruct (reserveAuthAttempt _ _ _ _ _) as [[d|] L1]; [|done].
  by destruct (rd_allowed d).
Qed.

Lemma read_body_inv q n body : read_body q n = Ok body → aq_body q = Some body.
Proof.
  unfold read_body. destruct (hasBodyOverLimit _ _); [done|]. by destruct (aq_body q) as [[]|]; intros [= <-].
Qed.

Lemma role_of_text_sound x r : role_of_text x = Some r → role_text r = x.
Proof. intros [_ H]%find_some. by apply bool_decide_eq_true in H. Qed.

Lemma assignable_not_owner x r : assignable_role x = Some r → r ≠ owner.
Proof.
  unfold assignable_role. destruct (one_of _ _) eqn:Hin; [|done]. intros H%role_of_text_sound ->.
  subst x. by vm_compute in Hin.
Qed.

Lemma team_manager_inv claims c u : team_manager claims = Ok (c, u) → claims = Some c ∧ mc_userId c = Some u.
Proof.
  unfold team_manager. destruct claims as [c'|]; [|done]. destruct (_ || _) eqn:E; [done|].
  intros [= -> <-]. apply orb_false_iff in E as [E%negb_false_iff _]. split; [done|].
  by destruct (mc_userId c).
Qed.

Lemma team_answer_inv m s : (team_answer m s).2 = s ∨ m = Ok (team_answer m s).2.
Proof. destruct m as [s'|[]]; simpl; eauto. Qed.

Section effects.
Context (ck : clock) (s_read s : account_db).
Abbreviation eff := (effect ck s_read s).

Lemma register_effect q v L : eff (Register q v L) (perform (Register q v L) ck s_read s).
Proof.
  simpl. unfold register. destruct (read_body _ _) as [body|r]; [|constructor].
  destruct (_ || _); [constructor|]. apply attempt_store; [constructor|]. intros L1.
  destruct (is_some _); [constructor|]. destruct (hashPassword _ _ _ _) as [hash|]; [|constructor].
  destruct (open_account _ _ _ _ _ _) as [s'|] eqn:E; [by eapply ef_register|].
  destruct (says_duplicate _); constructor.
Qed.

Lemma verify_effect q v ckr L : eff (VerifyEmail q v ckr L) (perform (VerifyEmail q v ckr L) ck s_read s).
Proof.
  simpl. unfold verify_email. destruct (read_body _ _) as [body|r] eqn:Hb; [|constructor]. apply read_body_inv in Hb.
  destruct (_ || _); [constructor|]. apply attempt_store; [constructor|]. intros L1.
  destruct (find_row _ _) as [[id row]|] eqn:Hrow; [|constructor].
  apply find_row_Some in Hrow as [Hrow Hlive]. bools.
  destruct (is_none _); [constructor|]. destruct (hashPassword _ _ _ _) as [hash|] eqn:Hh; [|constructor].
  destruct (verify_transaction _ _ _ _ _ _ _) as [[b s']|[]] eqn:E; try constructor.
  eapply ef_verify; [done|unfold request_text; by rewrite Hb|done..].
Qed.

Lemma resend_effect q v L : eff (Resend q v L) (perform (Resend q v L) ck s_read s).
Proof.
  simpl. unfold resend_verification. destruct (read_body _ _) as [body|r]; [|constructor].
  destruct (negb _); [constructor|]. apply attempt_store; [constructor|]. intros L1.
  destruct (find_row _ _) as [[u row]|]; [|constructor]. destruct (is_some _); [constructor|].
  destruct (resend_transaction _ _ _ _ _) as [[s'|]|] eqn:E; try constructor. by eapply ef_resend.
Qed.

Lemma forgot_effect q v L : eff (Forgot q v L) (perform (Forgot q v L) ck s_read s).
Proof.
  simpl. unfold forgot_password. destruct (hasBodyOverLimit _ _); [constructor|].
  destruct (aq_body q) as [[]|]; try constructor. apply attempt_store; [constructor|]. intros L1.
  destruct (find_row _ _) as [[u row]|]; [|constructor].
  destruct (forgot_transaction _ _ _ _ _) as [s'|] eqn:E; [by eapply ef_forgot|constructor].
Qed.

Lemma reset_effect q salt ckr L : eff (Reset q salt ckr L) (perform (Reset q salt ckr L) ck s_read s).
Proof.
  simpl. unfold reset_password. destruct (read_body _ _) as [body|r] eqn:Hb; [|constructor]. apply read_body_inv in Hb.
  destruct (_ || _); [constructor|]. apply attempt_store; [constructor|]. intros L1.
  destruct (find_row _ _) as [[id row]|] eqn:Hrow; [|constructor].
  apply find_row_Some in Hrow as [Hrow Hlive]. bools.
  destruct (hashPassword _ _ _ _) as [hash|] eqn:Hh; [|constructor].
  destruct (reset_transaction _ _ _ _ _) as [s'|[]] eqn:E; try constructor.
  eapply ef_reset; [done|unfold request_text; by rewrite Hb..|done].
Qed.

(** What a password check writes: nothing, or a legacy hash's replacement. *)
Lemma authenticate_user_inv email password salt a_read a found a' :
  authenticate_user derive scrypt_hex b64 unb64 sha256 email password salt a_read a = Ok (found, a') →
  a' = a ∨ ∃ u row hash, users a_read !! u = Some row ∧
    password_matches derive scrypt_hex unb64 sha256 password (us_passwordHash row) = Ok true ∧
    startsWith (us_passwordHash row) "argon2id$" = false ∧
    upgrade_legacy derive b64 u (us_passwordHash row) salt password a = Ok (Some (hash, a')).
Proof.
  unfold authenticate_user. destruct (find_row _ _) as [[u row]|] eqn:Hrow; [|intros [= <- <-]; auto].
  apply find_row_Some in Hrow as [Hrow _].
  destruct (is_none _); [intros [= <- <-]; auto|]. intros (valid & Hm & H)%rbind_Ok.
  destruct valid; simpl in H; [|injection H as <- <-; auto].
  destruct (startsWith _ _) eqn:Hpre; [injection H as <- <-; auto|].
  apply rbind_Ok in H as ([[hash a1]|] & Hup & H); injection H as <- <-; [|auto].
  right. by exists u, row, hash.
Qed.

Lemma check_effect q v L : eff (CheckPassword q v L) (perform (CheckPassword q v L) ck s_read s).
Proof.
  simpl. unfold check_password. destruct (hasBodyOverLimit _ _); [constructor|].
  destruct (aq_body q) as [[]|]; try constructor. destruct (_ || _); [constructor|].
  destruct (reserveAuthAttempt _ _ _ _ _) as [[pre|] L1]; [|constructor].
  destruct (negb _); [constructor|].
  destruct (authenticateForTenant _ _ _ _ _ _ _ _ _ _ _ _ _) as [[found s']|] eqn:E; [|constructor].
  assert (eff (CheckPassword q v L) s') as Hs'; [|by destruct found].
  unfold authenticateForTenant in E. apply rbind_Ok in E as ([who a'] & Ha & [= _ <-]).
  unfold authenticateCustomer in Ha. apply rbind_Ok in Ha as ([f a1] & Ha & [= _ <-]).
  apply authenticate_user_inv in Ha as [->|(u & row & hash & Hu & Hm & Hp & Hup)].
  - destruct s. constructor.
  - by eapply ef_upgrade.
Qed.

Lemma enter_effect who t role v : eff (Enter who t role v) (perform (Enter who t role v) ck s_read s).
Proof.
  simpl. unfold enter_workspace, issueCustomerSession. destruct (_ == _); [constructor|].
  destruct (requireActiveTenantOrNull _ _); [|constructor].
  destruct (insertInitialPair _ _ _ _ _ _ _ _) as [[issued a']|[]] eqn:E; try constructor. by eapply ef_enter.
Qed.

Lemma select_effect q claims v readMs nowMs L :
  eff (Select q claims v readMs nowMs L) (perform (Select q claims v readMs nowMs L) ck s_read s).
Proof.
  simpl. unfold select_tenant. destruct (hasBodyOverLimit _ _); [constructor|].
  destruct (aq_body q) as [[]|]; try constructor. destruct (_ == ""); [constructor|].
  match goal with |- context [match ?who with Ok _ => _ | Err _ => _ end] => destruct who as [w|] eqn:Hw end; [|constructor].
  destruct (select_transaction _ _ _ _ _ _ _ _ _ _ _) as [[[[issued role] L'] s']|] eqn:E; [|constructor].
  eapply ef_select; [..|exact E].
  - intros c ->. destruct (_ != ""); [|by repeat case_match]. 
    destruct (verifyTenantSelectionToken _ _ _ _ _ _) as [c'|] eqn:Hv; [|done]. injection Hw as ->.
    unfold verifyTenantSelectionToken in Hv. destruct (_ || _); [done|].
    destruct (split_on _ _) as [|? [|? [|? []]]]; try done.
    apply bind_Some in Hv as (? & _ & Hv). destruct (negb _); [done|]. destruct (negb _); [done|].
    apply bind_Some in Hv as (? & _ & Hv). apply bind_Some in Hv as (c' & Hc & Hv).
    destruct (_ || _); [done|]. injection Hv as ->. unfold parse_selection in Hc. destruct (_ != _); [done|].
    repeat (apply bind_Some in Hc as (? & _ & Hc)). destruct (_ || _) eqn:Hx; [done|]. injection Hc as <-.
    by bools.
  - intros u ->. destruct (_ != ""); [by case_match|]. destruct claims as [c|]; [by exists c|done].
Qed.

Lemma team_effect e m :
  (∀ s', m = Ok s' → eff e s') → eff e (team_answer m s).2.
Proof. intros H. destruct (team_answer_inv m s) as [->|E]; [constructor|by apply H]. Qed.

Lemma change_role_effect claims body :
  eff (ChangeRole claims body) (perform (ChangeRole claims body) ck s_read s).
Proof.
  simpl. unfold members_PATCH. destruct (team_manager claims) as [[c u]|] eqn:Hc; [|constructor].
  apply team_manager_inv in Hc as [-> _]. destruct body as [[]|]; try constructor.
  destruct (assignable_role _) as [role|] eqn:Hr; [|constructor]. apply assignable_not_owner in Hr.
  destruct (_ == ""); [constructor|]. apply team_effect. intros s' Hs'. by eapply ef_role.
Qed.

Lemma remove_effect claims uid : eff (Remove claims uid) (perform (Remove claims uid) ck s_read s).
Proof.
  simpl. unfold members_DELETE. destruct (team_manager claims) as [[c u]|] eqn:Hc; [|constructor].
  apply team_manager_inv in Hc as [-> Hu]. destruct (_ == ""); [constructor|].
  destruct (_ == u) eqn:Hne; [constructor|]. bools. apply team_effect. intros s' Hs'.
  eapply ef_remove; [|exact Hs']. congruence.
Qed.

Lemma transfer_effect claims body : eff (Transfer claims body) (perform (Transfer claims body) ck s_read s).
Proof.
  simpl. unfold ownership_POST. destruct claims as [c|]; [|constructor].
  destruct (negb (truthy _)) eqn:Hu; [constructor|].
  destruct (_ || negb (hasManagerPermission _ _)) eqn:Hr; [constructor|]. bools.
  destruct body as [[]|]; try constructor. destruct (_ || _) eqn:Hn; [constructor|]. bools.
  apply team_effect. intros s' Hs'. destruct (mc_userId c) as [u|] eqn:Ec; [|done].
  by eapply ef_transfer.
Qed.

Lemma invite_effect claims len body id raw dl :
  eff (Invite claims len body id raw dl) (perform (Invite claims len body id raw dl) ck s_read s).
Proof.
  simpl. unfold invitations_POST. destruct (hasBodyOverLimit _ _); [constructor|].
  destruct (team_manager claims) as [[c u]|] eqn:Hc; [|constructor].
  apply team_manager_inv in Hc as [-> Hu]. destruct body as [[]|]; try constructor.
  destruct (assignable_role _) as [role|] eqn:Hr; [|constructor]. apply assignable_not_owner in Hr.
  destruct (negb _); [constructor|].
  destruct (invite_transaction _ _ _ _ _ _ _ _ _) as [s'|[]] eqn:E; try constructor. by eapply ef_invite.
Qed.

Lemma uninvite_effect claims id : eff (Uninvite claims id) (perform (Uninvite claims id) ck s_read s).
Proof.
  simpl. unfold invitations_DELETE. destruct (team_manager claims) as [[c u]|] eqn:Hc; [|constructor].
  apply team_manager_inv in Hc as [-> _]. destruct (_ == ""); [constructor|].
  destruct (revoke_invitation_transaction _ _ _ _) as [s'|[]] eqn:E; try constructor. by eapply ef_uninvite.
Qed.

Lemma accept_effect q ckr L : eff (Accept q ckr L) (perform (Accept q ckr L) ck s_read s).
Proof.
  simpl. unfold accept_POST. destruct (hasBodyOverLimit _ _); [constructor|].
  destruct (aq_body q) as [[]|] eqn:Hb; try constructor. destruct (_ || _); [constructor|].
  destruct (reserveAuthAttempt _ _ _ _ _) as [[rate|] L1]; [|constructor].
  destruct (negb _); [constructor|].
  destruct (find_row _ _) as [[id row]|] eqn:Hrow; [|constructor]. apply find_row_Some in Hrow as [Hrow Hlive].
  destruct (_ != _) eqn:He; [constructor|].
  destruct (find_row _ (users _)) as [[u user]|] eqn:Hu; [|constructor]. apply find_row_Some in Hu as [Hu Hm].
  bools. destruct (accept_transaction _ _ _ _ _) as [s'|[]] eqn:E; try constructor.
  eapply ef_accept; [done|unfold request_text; by rewrite Hb|done|congruence|done].
Qed.

Lemma perform_effect e : eff e (perform e ck s_read s).
Proof.
  destruct e; [apply register_effect|apply verify_effect|apply resend_effect|apply forgot_effect|apply reset_effect
    |apply check_effect|apply enter_effect|apply select_effect|apply change_role_effect|apply remove_effect
    |apply transfer_effect|apply invite_effect|apply uninvite_effect|apply accept_effect|..]; simpl.
  - destruct (rotateRefreshToken _ _ _ _ _ _ _ _ _ _ _) as [[r a']|] eqn:E; [by eapply ef_rotate|constructor].
  - constructor.
  - destruct (transitionTenantLifecycle _ _ _ _ _ _ _ _) as [[[r d'] a']|] eqn:E;
      [by eapply ef_lifecycle|constructor].
Qed.
End effects.

(** ** The transactions, field by field *)

Lemma consume_token_inv id ck at_ m m' :
  consume_token id ck at_ m = Some m' →
  ∃ t, m !! id = Some t ∧ token_live ck t = true ∧ m' = <[id := spent_at at_ t]> m.
Proof.
  unfold consume_token. destruct (m !! id) as [t|]; [|done]. destruct (token_live ck t) eqn:E; [|done].
  intros [= <-]. by exists t.
Qed.

Lemma insert_one_time_inv id t a m m' :
  insert_one_time id t a m = Ok m' →
  m !! id = None ∧ find_row (λ x, ot_tokenHash x == ot_tokenHash t) m = None ∧
  is_Some (users a !! ot_userId t) ∧ m' = <[id := t]> m.
Proof.
  unfold insert_one_time. intros H. rinv. bools. split_and!; [..|done].
  - by destruct (m !! id).
  - by destruct (find_row _ _).
  - by destruct (users a !! _).
Qed.

Lemma insert_member_inv u t role d a a' :
  insert_member u t role d a = Ok a' →
  tenant_users a !! (u, t) = None ∧ is_Some (tenants d !! t) ∧ is_Some (users a !! u) ∧
  (role = owner → owned t (tenant_users a) = false) ∧
  a' = with_members (<[(u, t) := role]> (tenant_users a)) a.
Proof.
  unfold insert_member. intros H. rinv. bools. split_and!; [..|done].
  - by destruct (tenant_users a !! _).
  - by destruct (tenants d !! t).
  - by destruct (users a !! u).
  - intros ->. by destruct (owned t _).
Qed.

(** The workspace a verified account ends up with. *)
Definition workspace_step (u t : string) (s s' : account_db) : Prop :=
  (first_membership u (auth_of s) ≠ None ∧ tenant_users (auth_of s') = tenant_users (auth_of s) ∧
   tenants (gateway_of s') = tenants (gateway_of s)) ∨
  (first_membership u (auth_of s) = None ∧ tenants (gateway_of s) !! t = None ∧
   owned t (tenant_users (auth_of s)) = false ∧
   tenant_users (auth_of s') = <[(u, t) := owner]> (tenant_users (auth_of s)) ∧
   ∃ row, tenants (gateway_of s') = <[t := row]> (tenants (gateway_of s))).

Lemma first_workspace_inv u t ck s s' :
  first_workspace u t ck s = Ok s' →
  users (auth_of s') = users (auth_of s) ∧ refresh_tokens (auth_of s') = refresh_tokens (auth_of s) ∧
  manager_sessions (auth_of s') = manager_sessions (auth_of s) ∧ platform_sessions s' = platform_sessions s ∧
  email_verification_tokens s' = email_verification_tokens s ∧
  password_reset_tokens s' = password_reset_tokens s ∧ tenant_invitations s' = tenant_invitations s ∧
  workspace_step u t s s'.
Proof.
  unfold first_workspace, workspace_step. destruct (first_membership _ _) eqn:Hm; intros H.
  - injection H as <-. split_and!; try done. left. split_and!; done.
  - rinv. unfold insert_tenant in Hr. rinv. apply insert_member_inv in Hr0 as (_ & _ & _ & Ho & ->). subst.
    simpl. split_and!; try done. right. split_and!; [done|by destruct (tenants _ !! t)|by apply Ho|done|eauto].
Qed.

(** The first proof of an address. *)
Record first_proof (id u pending : string) (v : verify_draw) (at_ : Z) (row : user) (t : one_time_token)
    (s s' : account_db) : Prop := {
  fp_unverified : us_emailVerifiedAt row = None;
  fp_evt : email_verification_tokens s' = <[id := spent_at at_ t]> (email_verification_tokens s);
  fp_users : users (auth_of s') = <[u := with_proof at_ (with_password pending row)]> (users (auth_of s));
  fp_refresh : refresh_tokens (auth_of s')
    = refresh_tokens (revokeUserRefreshFamilies u "email_verified_password_setup" at_ (auth_of s));
  fp_legacy : manager_sessions (auth_of s')
    = manager_sessions (revokeLegacyManagerSessionsForUser u None at_ (auth_of s));
  fp_platform : platform_sessions s' = revokeLegacyPlatformSessionsForUser u at_ (platform_sessions s);
  fp_fresh : consume_user_tokens u at_ (password_reset_tokens s) !! vd_resetTokenId v = None;
  fp_unique : find_row (λ x, ot_tokenHash x == sha256 (vd_resetToken v))
                (consume_user_tokens u at_ (password_reset_tokens s)) = None;
  fp_prt : password_reset_tokens s' = <[vd_resetTokenId v := {|
      ot_userId := u; ot_tokenHash := sha256 (vd_resetToken v); ot_expiresAt := at_ + mins 20;
      ot_consumedAt := None |}]> (consume_user_tokens u at_ (password_reset_tokens s));
  fp_inv : tenant_invitations s' = tenant_invitations s;
  fp_work : workspace_step u (vd_tenantId v) s s';
}.

Lemma verify_inv id u pending v ck s b s' :
  verify_transaction sha256 id u pending v ck s = Ok (b, s') →
  ∃ row t, users (auth_of s) !! u = Some row ∧ email_verification_tokens s !! id = Some t ∧
    token_live ck t = true ∧
    (b = true ∧ is_Some (us_emailVerifiedAt row) ∧
       s' = on_verifications (<[id := spent_at (clock_timestamp ck) t]> (email_verification_tokens s)) s ∨
     b = false ∧ first_proof id u pending v (clock_timestamp ck) row t s s').
Proof.
  unfold verify_transaction. destruct (users _ !! u) as [row|] eqn:Hu; [|done]. intros H.
  apply rbind_Ok in H as ([] & _ & H).
  destruct (consume_token _ _ _ _) as [m|] eqn:Hc; [|done]. apply consume_token_inv in Hc as (t & Ht & Hl & ->).
  exists row, t. split_and!; [done..|]. destruct (is_some _) eqn:Hv.
  - injection H as <- <-. left. split_and!; [done|by apply is_some_true|done].
  - right. rinv. simplify_eq. apply insert_one_time_inv in Hr as (Hn & Hh & _ & ->).
    apply first_workspace_inv in Hr0 as (E1 & E2 & E3 & E4 & E5 & E6 & E7 & Hw).
    split; [done|]. split; [by destruct (us_emailVerifiedAt row)|done..].
Qed.

(** A new password, and every session of the account closed. *)
Record password_replaced (id u hash : string) (ck : clock) (row : user) (t : one_time_token) (s s' : account_db)
    : Prop := {
  pw_prt : password_reset_tokens s' = <[id := spent_at (now ck) t]> (password_reset_tokens s);
  pw_users : users (auth_of s') = <[u := with_password hash row]> (users (auth_of s));
  pw_refresh : refresh_tokens (auth_of s')
    = refresh_tokens (revokeUserRefreshFamilies u "password_reset" (clock_timestamp ck) (auth_of s));
  pw_legacy : manager_sessions (auth_of s')
    = manager_sessions (revokeLegacyManagerSessionsForUser u None (clock_timestamp ck) (auth_of s));
  pw_platform : platform_sessions s'
    = revokeLegacyPlatformSessionsForUser u (clock_timestamp ck) (platform_sessions s);
  pw_members : tenant_users (auth_of s') = tenant_users (auth_of s);
  pw_gateway : gateway_of s' = gateway_of s;
  pw_evt : email_verification_tokens s' = email_verification_tokens s;
  pw_inv : tenant_invitations s' = tenant_invitations s;
}.

Lemma reset_inv id u hash ck s s' :
  reset_transaction id u hash ck s = Ok s' →
  ∃ row t, users (auth_of s) !! u = Some row ∧ password_reset_tokens s !! id = Some t ∧
    token_live ck t = true ∧ password_replaced id u hash ck row t s s'.
Proof.
  unfold reset_transaction. destruct (consume_token _ _ _ _) as [m|] eqn:Hc; [|done].
  apply consume_token_inv in Hc as (t & Ht & Hl & ->).
  destruct (users _ !! u) as [row|] eqn:Hu; [|done]. intros [= <-].
  exists row, t. by split_and!.
Qed.

(** The live authority a team mutation commits under. *)
Record team_actor (ck : clock) (c : ManagerClaims) (u : string) (s : account_db) : Prop := {
  ta_user : mc_userId c = Some u;
  ta_tenant : tenant_active (gateway_of s) (mc_tenantId c) = true;
  ta_member : tenant_users (auth_of s) !! (u, mc_tenantId c) = Some (mc_role c);
  ta_may : users_manage ∈ permissionsByRole (mc_role c);
  ta_live : actor_session_live ck c u (auth_of s) = true;
}.

Lemma team_actor_inv ck c s :
  requireTeamActorInTransaction (gateway_of s) (auth_of s) ck c = Ok tt → ∃ u, team_actor ck c u s.
Proof.
  unfold requireTeamActorInTransaction. destruct (mc_userId c) as [u|] eqn:Hu; [|done]. intros H. rinv. bools.
  exists u. split; [done..| |done| |done].
  - destruct (requireActiveTenantInTransaction _ _) as [[]|] eqn:E; [|done]. by apply guard_active.
  - unfold hasManagerPermission in *. by bools.
Qed.

Lemma change_role_inv c u role ck s s' :
  change_role_transaction c u role ck s = Ok s' →
  ∃ actor target, team_actor ck c actor s ∧ tenant_users (auth_of s) !! (u, mc_tenantId c) = Some target ∧
    target ≠ owner ∧
    s' = on_auth (revokeUserTenantRefreshFamilies u (mc_tenantId c) "role_changed" (clock_timestamp ck)
           (with_members (<[(u, mc_tenantId c) := role]> (tenant_users (auth_of s))) (auth_of s))) s.
Proof.
  unfold change_role_transaction. intros H. apply rbind_Ok in H as ([] & [actor Ha]%team_actor_inv & H).
  destruct (tenant_users _ !! _) as [target|] eqn:Ht; [|done]. rinv. bools.
  unfold update_member in H. rewrite Ht, bool_decide_true in H by done. injection H as <-. eauto 10.
Qed.

Lemma remove_inv c u ck s s' :
  remove_member_transaction c u ck s = Ok s' →
  ∃ actor target, team_actor ck c actor s ∧ tenant_users (auth_of s) !! (u, mc_tenantId c) = Some target ∧
    target ≠ owner ∧
    s' = on_auth (revokeUserTenantRefreshFamilies u (mc_tenantId c) "member_removed" (clock_timestamp ck)
           (with_members (delete (u, mc_tenantId c) (tenant_users (auth_of s))) (auth_of s))) s.
Proof.
  unfold remove_member_transaction. intros H. apply rbind_Ok in H as ([] & [actor Ha]%team_actor_inv & H).
  destruct (tenant_users _ !! _) as [target|] eqn:Ht; [|done]. rinv. bools.
  unfold delete_member in H. rewrite Ht, bool_decide_true in H by done. injection H as <-. eauto 10.
Qed.

Lemma transfer_inv c u new ck s s' :
  new ≠ u → transfer_transaction c u new ck s = Ok s' →
  ∃ actor target, team_actor ck c actor s ∧ tenant_users (auth_of s) !! (u, mc_tenantId c) = Some owner ∧
    tenant_users (auth_of s) !! (new, mc_tenantId c) = Some target ∧ target ≠ owner ∧
    s' = on_auth (revokeLegacyManagerSessionsForUser u (Some (mc_tenantId c)) (clock_timestamp ck)
           (with_members (<[(new, mc_tenantId c) := owner]> (<[(u, mc_tenantId c) := admin]>
              (tenant_users (auth_of s)))) (auth_of s))
         |> revokeUserTenantRefreshFamilies u (mc_tenantId c) "ownership_transferred" (clock_timestamp ck)
         |> revokeUserTenantRefreshFamilies new (mc_tenantId c) "ownership_promoted" (clock_timestamp ck)) s.
Proof.
  intros Hne. unfold transfer_transaction. intros H. apply rbind_Ok in H as ([] & [actor Ha]%team_actor_inv & H).
  destruct (tenant_users _ !! (new, _)) as [target|] eqn:Ht; [|done]. rinv. bools.
  unfold update_member in H. rewrite Hr, bool_decide_true in H by done. simpl in H.
  rewrite lookup_insert_ne, Ht, bool_decide_true in H by congruence. injection H as <-. eauto 10.
Qed.

Lemma invite_inv c inviter email role id raw ck s s' :
  invite_transaction sha256 c inviter email role id raw ck s = Ok s' →
  ∃ actor, team_actor ck c actor s ∧ tenant_invitations s !! id = None ∧
    find_row (λ x, ti_tokenHash x == sha256 raw) (tenant_invitations s) = None ∧
    find_row (λ i, (ti_tenantId i == mc_tenantId c) && (ti_email i == email) && invitation_live ck i)
      (tenant_invitations s) = None ∧
    s' = on_invitations (<[id := {| ti_tenantId := mc_tenantId c; ti_inviterUserId := inviter; ti_email := email;
           ti_role := role; ti_tokenHash := sha256 raw; ti_expiresAt := clock_timestamp ck + days 7;
           ti_acceptedAt := None; ti_revokedAt := None |}]> (tenant_invitations s)) s.
Proof.
  unfold invite_transaction. intros H. apply rbind_Ok in H as ([] & _ & H).
  apply rbind_Ok in H as ([] & [actor Ha]%team_actor_inv & H). rinv. unfold insert_invitation in H. rinv. bools.
  exists actor. split_and!; [done|..|done].
  - by destruct (tenant_invitations s !! id).
  - by destruct (find_row (λ x, ti_tokenHash x == _) _).
  - by destruct (find_row _ _).
Qed.

Lemma uninvite_inv c id ck s s' :
  revoke_invitation_transaction c id ck s = Ok s' →
  ∃ actor i, team_actor ck c actor s ∧ tenant_invitations s !! id = Some i ∧ ti_tenantId i = mc_tenantId c ∧
    invitation_pending i = true ∧
    s' = on_invitations (<[id := revoked_invitation (now ck) i]> (tenant_invitations s)) s.
Proof.
  unfold revoke_invitation_transaction. intros H. apply rbind_Ok in H as ([] & [actor Ha]%team_actor_inv & H).
  destruct (tenant_invitations s !! id) as [i|] eqn:Hi; [|done]. rinv. bools. eauto 10.
Qed.

Lemma accept_inv id row u ck s s' :
  accept_transaction id row u ck s = Ok s' →
  ∃ i, tenant_invitations s !! id = Some i ∧ invitation_live ck i = true ∧
    tenant_lifecycle (gateway_of s) (ti_tenantId row) = Some "active" ∧
    tenant_users (auth_of s) !! (u, ti_tenantId row) = None ∧ is_Some (users (auth_of s) !! u) ∧
    (ti_role row = owner → owned (ti_tenantId row) (tenant_users (auth_of s)) = false) ∧
    s' = s |> on_auth (with_members (<[(u, ti_tenantId row) := ti_role row]> (tenant_users (auth_of s))) (auth_of s))
           |> on_invitations (<[id := accepted_invitation (now ck) i]> (tenant_invitations s)).
Proof.
  unfold accept_transaction. intros H. apply rbind_Ok in H as ([] & Hlock & H).
  destruct (tenant_invitations s !! id) as [i|] eqn:Hi; [|rinv]. rinv. bools.
  destruct (insert_member _ _ _ _ _) as [a'|] eqn:Hm; [|done]. injection H as <-.
  apply insert_member_inv in Hm as (Hn & Ht & Hu & Ho & ->). exists i. split_and!; try done.
  unfold lock_active_tenant in Hlock. destruct (tenant_lifecycle _ _) as [l|]; [|done]. rinv. bools. by subst.
Qed.

(** ** Evolution of the store *)

Record token_moves (t t' : one_time_token) : Prop := {
  tm_user : ot_userId t' = ot_userId t;
  tm_hash : ot_tokenHash t' = ot_tokenHash t;
  tm_expiry : ot_expiresAt t' = ot_expiresAt t;
  tm_spent : is_Some (ot_consumedAt t) → t' = t;
}.

Record invitation_moves (i i' : tenant_invitation) : Prop := {
  im_tenant : ti_tenantId i' = ti_tenantId i;
  im_email : ti_email i' = ti_email i;
  im_role : ti_role i' = ti_role i;
  im_hash : ti_tokenHash i' = ti_tokenHash i;
  im_expiry : ti_expiresAt i' = ti_expiresAt i;
  im_settled : invitation_pending i = false → i' = i;
}.

Record user_moves (u u' : user) : Prop := {
  um_email : us_email u' = us_email u;
  um_verified : is_Some (us_emailVerifiedAt u) → us_emailVerifiedAt u' = us_emailVerifiedAt u;
}.

#[export] Instance token_moves_preorder : PreOrder token_moves.
Proof.
  split; [by intros t|]. intros t1 t2 t3 [U1 H1 E1 S1] [U2 H2 E2 S2]. split; [congruence..|].
  intros Hs. rewrite <-(S1 Hs). apply S2. by rewrite (S1 Hs).
Qed.
#[export] Instance invitation_moves_preorder : PreOrder invitation_moves.
Proof.
  split; [by intros i|]. intros i1 i2 i3 [T1 M1 R1 H1 E1 S1] [T2 M2 R2 H2 E2 S2]. split; [congruence..|].
  intros Hs. rewrite <-(S1 Hs). apply S2. by rewrite (S1 Hs).
Qed.
#[export] Instance user_moves_preorder : PreOrder user_moves.
Proof.
  split; [by intros u|]. intros u1 u2 u3 [E1 V1] [E2 V2]. split; [congruence|].
  intros Hv. rewrite <-(V1 Hv). apply V2. by rewrite (V1 Hv).
Qed.

(** No account, token, invitation or tenant disappears; a used token, a
    settled invitation and a proof of address are final. *)
Record store_moves (s s' : account_db) : Prop := {
  sm_evt : rows_evolve token_moves (email_verification_tokens s) (email_verification_tokens s');
  sm_prt : rows_evolve token_moves (password_reset_tokens s) (password_reset_tokens s');
  sm_inv : rows_evolve invitation_moves (tenant_invitations s) (tenant_invitations s');
  sm_users : rows_evolve user_moves (users (auth_of s)) (users (auth_of s'));
  sm_tenants : rows_evolve (λ _ _, True) (tenants (gateway_of s)) (tenants (gateway_of s'));
}.

#[export] Instance true_preorder {A} : PreOrder (λ _ _ : A, True).
Proof. by split. Qed.

#[export] Instance store_moves_preorder : PreOrder store_moves.
Proof.
  split; [intros s; split; reflexivity|].
  intros s1 s2 s3 [V1 P1 I1 U1 T1] [V2 P2 I2 U2 T2]. split; by etrans.
Qed.

Lemma spend_moves ck at_ t : token_live ck t = true → token_moves t (spent_at at_ t).
Proof.
  unfold token_live. intros H. bools. split; [done..|]. intros Hs. by apply is_none_true in H; rewrite H in Hs; destruct Hs.
Qed.

Lemma consume_user_moves u at_ t :
  token_moves t (if (ot_userId t == u) && is_none (ot_consumedAt t) then spent_at at_ t else t).
Proof.
  destruct (_ && _) eqn:E; [|reflexivity]. bools. split; [done..|]. intros Hs.
  apply is_none_true in H0. by rewrite H0 in Hs; destruct Hs.
Qed.

Lemma consume_user_rows u at_ m : rows_evolve token_moves m (consume_user_tokens u at_ m).
Proof. apply rows_map. intros t. apply consume_user_moves. Qed.

Lemma insert_one_time_moves id t a u at_ m m' :
  insert_one_time id t a (consume_user_tokens u at_ m) = Ok m' → rows_evolve token_moves m m'.
Proof.
  intros (Hn & _ & _ & ->)%insert_one_time_inv. etrans; [apply consume_user_rows|by apply rows_new; [apply _|]].
Qed.

Lemma proof_moves at_ hash u : user_moves u (with_proof at_ (with_password hash u)).
Proof. split; [done|]. simpl. by intros [t ->]. Qed.

Lemma password_moves hash u : user_moves u (with_password hash u).
Proof. by split. Qed.

Lemma insert_user_inv id u a a' :
  insert_user id u a = Ok a' →
  users a !! id = None ∧ find_row (λ x, us_email x == us_email u) (users a) = None ∧
  a' = with_users (<[id := u]> (users a)) a.
Proof.
  unfold insert_user. intros H. rinv. bools. split_and!; [by destruct (users a !! id)|by destruct (find_row _ _)|done].
Qed.

Lemma upgrade_inv u legacy salt password a hash a' :
  upgrade_legacy derive b64 u legacy salt password a = Ok (Some (hash, a')) →
  ∃ row, users a !! u = Some row ∧ us_passwordHash row = legacy ∧
    hashPassword derive b64 salt password = Ok hash ∧
    a' = with_users (<[u := with_password hash row]> (users a)) a.
Proof.
  unfold upgrade_legacy. intros H. apply rbind_Ok in H as (h & Hh & H).
  destruct (users a !! u) as [row|]; [|done]. destruct (_ != _) eqn:E; [done|]. bools. simplify_eq. by exists row.
Qed.

(** A new session row leaves the other tables alone. *)
Lemma issue_frame d p v nowMs a issued a' :
  insertInitialPair hmac encode sha256 d p v nowMs a = Ok (issued, a') →
  users a' = users a ∧ tenant_users a' = tenant_users a ∧ manager_sessions a' = manager_sessions a.
Proof. intros H%issue_inv. apply insert_token_inv in H as (_ & _ & ->). done. Qed.

Lemma close_source_frame claims ck a a' :
  close_source claims ck a = Ok a' →
  users a' = users a ∧ tenant_users a' = tenant_users a ∧
  (∀ id rt, refresh_tokens a' !! id = Some rt → ∃ rt0, refresh_tokens a !! id = Some rt0 ∧ rt_userId rt0 = rt_userId rt) ∧
  (∀ j ms, manager_sessions a' !! j = Some ms → ∃ ms0, manager_sessions a !! j = Some ms0 ∧ ms_userId ms0 = ms_userId ms).
Proof.
  unfold close_source. destruct claims as [c|]; [|intros [= <-]; eauto 10].
  destruct (truthy _).
  - unfold revokeSessionFamilyInTransaction. destruct (throw_if _ _) eqn:E; simpl; [|done]. intros [= <-].
    split_and!; [done..| |eauto]. intros id rt (rt0 & H0 & [[-> _]|[-> _]])%lookup_revoke_where; eauto.
  - destruct (_ == ""); intros [= <-]; [eauto 10|]. split_and!; [done..|eauto|]. simpl. intros j ms Hj.
    destruct (decide (j = mc_jti c)) as [->|Hne].
    + rewrite lookup_alter_eq in Hj. apply fmap_Some in Hj as (ms0 & H0 & ->). eauto.
    + rewrite lookup_alter_ne in Hj by done. eauto.
Qed.

Lemma select_inv t w claims v nowMs ck L s issued role L' s' :
  select_transaction sha256 hmac encode t w claims v nowMs ck L s = Ok (issued, role, L', s') →
  ∃ a1 a2, close_source claims ck (auth_of s) = Ok a1 ∧ s' = on_auth a2 s ∧
    consume_selection w ck L = Ok L' ∧ tenant_users (auth_of s) !! (selector_user w, t) = Some role ∧
    tenant_lifecycle (gateway_of s) t = Some "active" ∧
    insertInitialPair hmac encode sha256 (gateway_of s)
      (customer_principal (selector_user w) t role None
         (match w with BySelection c => Some (tc_credentialVersion c) | BySession _ => None end)) v nowMs a1
    = Ok (issued, a2) ∧
    (∀ u c, w = BySession u → claims = Some c → source_live ck c u (auth_of s) = true).
Proof.
  unfold select_transaction. intros H. apply rbind_Ok in H as ([] & _ & H). apply rbind_Ok in H as ([] & Hsrc & H).
  apply rbind_Ok in H as (L1 & HL & H). destruct (tenant_users _ !! _) as [r|] eqn:Hm; [|done].
  apply rbind_Ok in H as ([] & Hact%throw_if_Ok & H). apply rbind_Ok in H as (a1 & Ha1 & H). bools.
  destruct (insertInitialPair _ _ _ _ _ _ _ _) as [[i a2]|] eqn:Hi; [|done]. injection H as <- <- <- <-.
  exists a1, a2. split_and!; try done. intros u c -> ->. rinv. by bools.
Qed.

Lemma rotate_frame kind token v nowMs at_ d a_read a r a' :
  rotateRefreshToken hmac encode sha256 kind token v nowMs at_ d a_read a = Ok (r, a') →
  users a' = users a ∧ tenant_users a' = tenant_users a ∧ manager_sessions a' = manager_sessions a ∧
  (∀ id rt, refresh_tokens a' !! id = Some rt →
     ∃ id0 rt0, refresh_tokens a !! id0 = Some rt0 ∧ rt_userId rt0 = rt_userId rt).
Proof.
  intros [[_ ->]|[(id & row & _ & _ & reason & _ & ->)|
    (id & row & pr & b & Hrow & _ & _ & _ & _ & _ & _ & Hins & Hcase)]]%rotate_inv; [eauto 10|..].
  - split_and!; [done..|]. intros k rt (rt0 & H0 & [[-> _]|[-> _]])%lookup_revoke_where; eauto.
  - apply insert_token_inv in Hins as (Hn & _ & ->).
    assert (∀ k x, <[fv_refreshTokenId v := new_token sha256 (principal_of kind row) v (rt_familyId row) nowMs
        (rt_familyCreatedAt row)]> (refresh_tokens a) !! k = Some x →
      ∃ id0 rt0, refresh_tokens a !! id0 = Some rt0 ∧ rt_userId rt0 = rt_userId x) as Hb.
    { intros k x [[_ <-]|[_ Hx]]%lookup_insert_Some; eauto. }
    destruct Hcase as [(_ & _ & ->)|[_ ->]]; split_and!; try done. simpl. intros k rt Hk.
    destruct (decide (k = id)) as [->|Hne].
    + rewrite lookup_alter_eq in Hk. apply fmap_Some in Hk as (x & Hx & ->). simpl. by apply (Hb id).
    + rewrite lookup_alter_ne in Hk by done. eauto.
Qed.

Lemma workspace_tenants u t s s' :
  workspace_step u t s s' → rows_evolve (λ _ _, True) (tenants (gateway_of s)) (tenants (gateway_of s')).
Proof.
  intros [(_ & _ & ->)|(_ & Hn & _ & _ & row & ->)]; [reflexivity|]. by apply rows_new; [apply _|].
Qed.

(** Writes to the session tables alone. *)
Lemma session_moves a s : users a = users (auth_of s) → store_moves s (on_auth a s).
Proof. intros E. split; simpl; try reflexivity. by rewrite E. Qed.


Lemma effect_moves ck s_read s e s' : effect ck s_read s e s' → store_moves s s'.
Proof.
  destruct 1 as [| | | | | |q v L u row pw hash a' _ _ _ Hup|who t role v issued a' Hi| |c body u role s' _ H
    |c uid u s' _ H|c body u new s' _ _ Hne H|c len body id raw dl inviter email role s' _ _ H|c ido id s' H
    |q ckr L id row u user s' _ _ _ _ H|kind token v nowMs r a' H|
    |ptid t next reason actor rawNow r d' a' H].
  - reflexivity.
  - unfold open_account in H. rinv. subst. apply insert_user_inv in Hr as (Hn & _ & ->).
    apply insert_one_time_inv in Hr0 as (Hn' & _ & _ & ->). split; simpl; try reflexivity; by apply rows_new; [apply _|].
  - apply verify_inv in H2 as (r & t & Hu & Ht & Hl & [(_ & _ & ->)|[_ [? E1 E2 _ _ _ Hn _ E3 E4 Hw]]]).
    + split; simpl; try reflexivity. eapply rows_update; [apply _|done|by eapply spend_moves].
    + split.
      * rewrite E1. eapply rows_update; [apply _|done|by eapply spend_moves].
      * rewrite E3. etrans; [apply consume_user_rows|by apply rows_new; [apply _|]].
      * by rewrite E4.
      * rewrite E2. eapply rows_update; [apply _|done|apply proof_moves].
      * by eapply workspace_tenants.
  - unfold resend_transaction in H. destruct (users _ !! u) as [r|]; [|done]. destruct (_ || _); [done|]. rinv.
    subst. apply insert_one_time_moves in Hr. split; simpl; try reflexivity. done.
  - unfold forgot_transaction in H. rinv. subst. apply insert_one_time_moves in Hr.
    split; simpl; try reflexivity. done.
  - apply reset_inv in H2 as (r & t & Hu & Ht & Hl & [E1 E2 _ _ _ _ E3 E4 E5]). split.
    + by rewrite E4.
    + rewrite E1. eapply rows_update; [apply _|done|by eapply spend_moves].
    + by rewrite E5.
    + rewrite E2. eapply rows_update; [apply _|done|apply password_moves].
    + by rewrite E3.
  - apply upgrade_inv in Hup as (r & Hr & _ & _ & ->). split; simpl; try reflexivity.
    eapply rows_update; [apply _|done|apply password_moves].
  - apply issue_frame in Hi as (E & _). by apply session_moves.
  - apply select_inv in H1 as (a1 & a2 & Hc & -> & _ & _ & _ & Hi & _).
    apply issue_frame in Hi as (E & _). apply close_source_frame in Hc as (E' & _). apply session_moves. congruence.
  - apply change_role_inv in H as (? & ? & _ & _ & _ & ->). by apply session_moves.
  - apply remove_inv in H as (? & ? & _ & _ & _ & ->). by apply session_moves.
  - apply transfer_inv in H as (? & ? & _ & _ & _ & _ & ->); [|done]. by apply session_moves.
  - apply invite_inv in H as (? & _ & Hn & _ & _ & ->). split; simpl; try reflexivity. by apply rows_new; [apply _|].
  - apply uninvite_inv in H as (? & i & _ & Hi & _ & Hp & ->). split; simpl; try reflexivity.
    eapply rows_update; [apply _|done|]. split; try done. congruence.
  - apply accept_inv in H as (i & Hi & Hl & _ & _ & _ & _ & ->). split; simpl; try reflexivity.
    eapply rows_update; [apply _|done|]. unfold invitation_live in Hl. bools. split; try done. congruence.
  - apply rotate_frame in H as (E & _). by apply session_moves.
  - by apply session_moves.
  - apply transition_inv in H as (row & Ht & _ & _ & _ & [(_ & _ & -> & ->)|(_ & _ & _ & now & _ & -> & ->)]).
    + destruct s; reflexivity.
    + split; simpl; try reflexivity; [by destruct (_ || _)|]. by eapply rows_update; [apply _|done|].
Qed.

(** ** The invariant *)

Definition verified (u : string) (s : account_db) : Prop :=
  ∃ row, users (auth_of s) !! u = Some row ∧ is_Some (us_emailVerifiedAt row).

Definition owner_of (u t : string) (s : account_db) : Prop := tenant_users (auth_of s) !! (u, t) = Some owner.

Record store_ok (s : account_db) : Prop := {
  so_evt : unique_by ot_tokenHash (email_verification_tokens s);
  so_prt : unique_by ot_tokenHash (password_reset_tokens s);
  so_inv : unique_by ti_tokenHash (tenant_invitations s);
  so_email : unique_by us_email (users (auth_of s));
  so_tenant : ∀ u t r, tenant_users (auth_of s) !! (u, t) = Some r → is_Some (tenants (gateway_of s) !! t);
  so_owner : ∀ u u' t, owner_of u t s → owner_of u' t s → u = u';
  so_grant : ∀ id i, tenant_invitations s !! id = Some i → ti_role i ≠ owner;
  so_session : ∀ id rt u, refresh_tokens (auth_of s) !! id = Some rt → rt_userId rt = Some u → verified u s;
  so_legacy : ∀ j ms u, manager_sessions (auth_of s) !! j = Some ms → ms_userId ms = Some u → verified u s;
}.

Lemma verified_moves u s s' : store_moves s s' → verified u s → verified u s'.
Proof.
  intros Hm (row & Hr & Hv). destruct (sm_users _ _ Hm _ _ Hr) as (row' & Hr' & [_ Hv']).
  exists row'. split; [done|]. by rewrite Hv'.
Qed.

Lemma owned_false t m u : owned t m = false → m !! (u, t) ≠ Some owner.
Proof.
  intros Hf Hu. apply not_true_iff_false in Hf. apply Hf. apply existsb_exists. exists ((u, t), owner).
  split; [by apply list_elem_of_In, elem_of_map_to_list|]. simpl. by rewrite !bool_decide_true.
Qed.

(** Tables whose rows speak for the same users as before. *)
Definition manager_rows_from (a a' : auth_db) : Prop :=
  (∀ id rt u, refresh_tokens a' !! id = Some rt → rt_userId rt = Some u →
     ∃ id0 rt0, refresh_tokens a !! id0 = Some rt0 ∧ rt_userId rt0 = Some u) ∧
  (∀ j ms u, manager_sessions a' !! j = Some ms → ms_userId ms = Some u →
     ∃ j0 ms0, manager_sessions a !! j0 = Some ms0 ∧ ms_userId ms0 = Some u).

Lemma revoke_from p at_ reason a a0 : manager_rows_from a0 a → manager_rows_from a0 (revoke_where p at_ reason a).
Proof.
  intros [H1 H2]. split; [|done]. intros id rt u Hrt Hu.
  destruct (lookup_revoke_where _ _ _ _ _ _ Hrt) as (rt0 & H0 & [[-> _]|[-> _]]); by eapply H1.
Qed.

Lemma manager_rows_same a a' :
  refresh_tokens a' = refresh_tokens a → manager_sessions a' = manager_sessions a → manager_rows_from a a'.
Proof. intros E1 E2. split; [rewrite E1|rewrite E2]; eauto. Qed.

Lemma legacy_from u t at_ a a0 :
  manager_rows_from a0 a → manager_rows_from a0 (revokeLegacyManagerSessionsForUser u t at_ a).
Proof.
  intros [H1 H2]. split; [done|]. intros j ms v (ms0 & <- & H0)%lookup_fmap_Some Hu.
  destruct (_ && _) in Hu; by eapply H2.
Qed.

(** The session half of the invariant, when the users only move forward. *)
Lemma sessions_ok s s' :
  store_ok s → store_moves s s' → manager_rows_from (auth_of s) (auth_of s') →
  (∀ id rt u, refresh_tokens (auth_of s') !! id = Some rt → rt_userId rt = Some u → verified u s') ∧
  (∀ j ms u, manager_sessions (auth_of s') !! j = Some ms → ms_userId ms = Some u → verified u s').
Proof.
  intros Hok Hm [H1 H2]. split.
  - intros id rt u Hrt Hu. destruct (H1 _ _ _ Hrt Hu) as (? & ? & ? & ?). eapply verified_moves, so_session; eauto.
  - intros j ms u Hms Hu. destruct (H2 _ _ _ Hms Hu) as (? & ? & ? & ?). eapply verified_moves, so_legacy; eauto.
Qed.

(** A session is issued for a verified account. *)
Lemma issue_verified s u t role email cv v nowMs a issued a' :
  users a = users (auth_of s) →
  insertInitialPair hmac encode sha256 (gateway_of s) (customer_principal u t role email cv) v nowMs a
    = Ok (issued, a') →
  (∃ x, cv = Some x ∧ x ≠ "") ∨ verified u s → verified u s.
Proof.
  intros Ha H [(x & -> & Hx)|Hv]; [|done]. unfold insertInitialPair in H.
  apply rbind_Ok in H as ([] & _ & H). apply rbind_Ok in H as ([] & _ & H). apply rbind_Ok in H as ([] & Hc & _).
  simpl in Hc. rewrite bool_decide_false in Hc by done. destruct (negb _); [done|].
  unfold assertSessionCredential in Hc. rewrite Ha in Hc. destruct (users (auth_of s) !! u) as [row|] eqn:Hr; [|done].
  rinv. bools. exists row. split; [done|]. by destruct (us_emailVerifiedAt row).
Qed.

Lemma issue_rows d u t role email cv v nowMs a issued a' id rt w :
  insertInitialPair hmac encode sha256 d (customer_principal u t role email cv) v nowMs a = Ok (issued, a') →
  refresh_tokens a' !! id = Some rt → rt_userId rt = Some w → refresh_tokens a !! id = Some rt ∨ w = u.
Proof.
  intros H%issue_inv. apply insert_token_inv in H as (_ & _ & ->). simpl.
  intros [[_ <-]|[_ Hrt]]%lookup_insert_Some Hw; [right; by injection Hw|by left].
Qed.

Lemma source_live_user ck c u s : source_live ck c u (auth_of s) = true → store_ok s → verified u s.
Proof.
  intros H Hok. unfold source_live in H. destruct (truthy _).
  - apply bool_decide_eq_true in H as (id & rt & Hrt & Hl). unfold source_row_live in Hl. bools.
    by eapply so_session.
  - destruct (manager_sessions _ !! _) as [ms|] eqn:Hms; [|done]. unfold source_legacy_live in H. bools.
    by eapply so_legacy.
Qed.

(** The parts of the invariant that tell of members. *)
Record members_ok (s : account_db) : Prop := {
  mo_tenant : ∀ u t r, tenant_users (auth_of s) !! (u, t) = Some r → is_Some (tenants (gateway_of s) !! t);
  mo_owner : ∀ u u' t, owner_of u t s → owner_of u' t s → u = u';
}.

Lemma members_same s s' :
  store_ok s → store_moves s s' → tenant_users (auth_of s') = tenant_users (auth_of s) → members_ok s'.
Proof.
  intros Hok Hm E. split; unfold owner_of; rewrite E.
  - intros u t r Hr. destruct (so_tenant _ Hok _ _ _ Hr) as [row Hrow].
    destruct (sm_tenants _ _ Hm _ _ Hrow) as (row' & ? & _). by exists row'.
  - apply (so_owner _ Hok).
Qed.

Lemma ok_keeps_invitations s s' :
  store_ok s → store_moves s s' → members_ok s' → tenant_invitations s' = tenant_invitations s →
  unique_by ot_tokenHash (email_verification_tokens s') → unique_by ot_tokenHash (password_reset_tokens s') →
  unique_by us_email (users (auth_of s')) → manager_rows_from (auth_of s) (auth_of s') → store_ok s'.
Proof.
  intros Hok Hm [Ht Ho] Ei Hv Hp He Hs. destruct (sessions_ok _ _ Hok Hm Hs).
  split; try done; rewrite Ei; by apply Hok.
Qed.

(** A step on the users, members and sessions alone. *)
Lemma ok_auth a s :
  store_ok s → store_moves s (on_auth a s) → members_ok (on_auth a s) → unique_by us_email (users a) →
  manager_rows_from (auth_of s) a → store_ok (on_auth a s).
Proof. intros Hok Hm Hmo He Hs. apply (ok_keeps_invitations s); try done; apply Hok. Qed.

Lemma unique_tokens_after u at_ m id t :
  unique_by ot_tokenHash m → find_row (λ x, ot_tokenHash x == ot_tokenHash t) (consume_user_tokens u at_ m) = None →
  unique_by ot_tokenHash (<[id := t]> (consume_user_tokens u at_ m)).
Proof.
  intros Hu Hn. apply unique_insert; [|done]. apply unique_map; [done|]. intros x. by destruct (_ && _).
Qed.

(** One membership row written: [role] is no second owner. *)
Lemma members_write s s' u t role :
  store_ok s → store_moves s s' → is_Some (tenants (gateway_of s') !! t) →
  tenant_users (auth_of s') = <[(u, t) := role]> (tenant_users (auth_of s)) →
  (role = owner → ∀ w, ¬ owner_of w t s) → members_ok s'.
Proof.
  intros Hok Hm Ht E Hr. split; unfold owner_of; rewrite E.
  - intros w t' r [[[= <- <-] _]|[_ Hw]]%lookup_insert_Some; [done|].
    destruct (so_tenant _ Hok _ _ _ Hw) as [row Hrow].
    destruct (sm_tenants _ _ Hm _ _ Hrow) as (row' & ? & _). by exists row'.
  - intros w w' t' H1 H2. apply lookup_insert_Some in H1, H2.
    destruct H1 as [[[= <- <-] ->]|[N1 H1]], H2 as [[E2 ?]|[N2 H2]]; [by injection E2|..].
    + by destruct (Hr eq_refl w').
    + simplify_eq. by destruct (Hr eq_refl w).
    + by eapply (so_owner _ Hok).
Qed.

Lemma workspace_members u t s s' : store_ok s → store_moves s s' → workspace_step u t s s' → members_ok s'.
Proof.
  intros Hok Hm [(_ & E & _)|(_ & Hn & Ho & E & row & Et)]; [by eapply members_same|].
  eapply (members_write s s' u t owner); [done..| |done|].
  - rewrite Et, lookup_insert_eq. eauto.
  - intros _ w. by apply owned_false.
Qed.

Lemma team_auth_ok a u t reason at_ s :
  store_ok s → users a = users (auth_of s) → manager_rows_from (auth_of s) a →
  members_ok (on_auth (revokeUserTenantRefreshFamilies u t reason at_ a) s) →
  store_ok (on_auth (revokeUserTenantRefreshFamilies u t reason at_ a) s).
Proof.
  intros Hok E Hs Hmo. apply ok_auth; [done|by apply session_moves|done|simpl; rewrite E; apply Hok|].
  by apply revoke_from.
Qed.

(** What the second half of a sign-in is given: a digest is never empty. *)
Definition event_ok (e : account_event) : Prop :=
  match e with Enter who _ _ _ => id_credentialVersion who ≠ "" | _ => True end.

(** A new session row of a verified account. *)
Lemma issue_ok s u t role email cv v nowMs a1 issued a2 :
  store_ok s → users a1 = users (auth_of s) → tenant_users a1 = tenant_users (auth_of s) →
  manager_rows_from (auth_of s) a1 →
  insertInitialPair hmac encode sha256 (gateway_of s) (customer_principal u t role email cv) v nowMs a1
    = Ok (issued, a2) →
  (∃ x, cv = Some x ∧ x ≠ "") ∨ verified u s → store_ok (on_auth a2 s).
Proof.
  intros Hok Eu Em Hs Hi Hv. destruct (issue_frame _ _ _ _ _ _ _ Hi) as (E1 & E2 & E3).
  assert (store_moves s (on_auth a2 s)) as Hm by (apply session_moves; congruence).
  destruct (members_same s (on_auth a2 s) Hok Hm ltac:(simpl; congruence)) as [Ht Ho].
  destruct (sessions_ok s (on_auth a1 s) Hok ltac:(by apply session_moves) Hs) as [S1 S2].
  assert (∀ w, verified w (on_auth a1 s) → verified w (on_auth a2 s)) as Hw.
  { unfold verified. simpl. by rewrite E1. }
  pose proof (issue_verified _ _ _ _ _ _ _ _ _ _ _ Eu Hi Hv) as Hver.
  split; try done; simpl; try apply Hok.
  - rewrite E1, Eu. apply Hok.
  - intros id rt w Hrt Hu. destruct (issue_rows _ _ _ _ _ _ _ _ _ _ _ _ _ _ Hi Hrt Hu) as [H| ->]; [eauto|].
    by eapply verified_moves.
  - rewrite E3. intros j ms w Hj Hu. eauto.
Qed.

Lemma effect_ok ck s_read s e s' :
  store_ok s → store_moves s_read s → event_ok e → effect ck s_read s e s' → store_ok s'.
Proof.
  intros Hok Hread Hev Heff. pose proof (effect_moves _ _ _ _ _ Heff) as Hm. revert Hev Hm.
  destruct Heff as [| | | | | |q v L u row pw hash a' _ _ _ Hup|who t role v issued a' Hi| |c body u role s' Hno H
    |c uid u s' _ H|c body u new s' _ _ Hne H|c len body id raw dl inviter email role s' _ Hno H|c ido id s' H
    |q ckr L id row u user s' Hrow _ _ _ H|kind token v nowMs r a' H|
    |ptid t next reason actor rawNow r d' a' H]; intros Hev Hm.
  - done.
  - unfold open_account in H. rinv. subst. apply insert_user_inv in Hr as (Hn & Hf & ->).
    apply insert_one_time_inv in Hr0 as (Hn' & Hf' & _ & ->).
    apply (ok_keeps_invitations s); try done; simpl; [by eapply members_same|by apply unique_insert; [apply Hok|]
      |apply Hok|by apply unique_insert; [apply Hok|]|by apply manager_rows_same].
  - apply verify_inv in H2 as (r & t & Hu & Ht & Hl & [(_ & _ & ->)|[_ [? E1 E2 Er El _ Hn Hf E3 E4 Hw]]]).
    + apply (ok_keeps_invitations s); try done; simpl; [by eapply members_same| |apply Hok|apply Hok|by apply manager_rows_same].
      by eapply unique_update; [apply Hok|done|].
    + apply (ok_keeps_invitations s); try done; [by eapply workspace_members|..].
      * rewrite E1. by eapply unique_update; [apply Hok|done|].
      * rewrite E3. by apply unique_tokens_after; [apply Hok|].
      * rewrite E2. by eapply unique_update; [apply Hok|done|].
      * unfold manager_rows_from. rewrite Er, El. split; [apply (revoke_from _ _ _ _ _ (manager_rows_same _ _ eq_refl eq_refl))|].
        apply (legacy_from _ None _ _ _ (manager_rows_same _ _ eq_refl eq_refl)).
  - unfold resend_transaction in H. destruct (users _ !! u) as [r|]; [|done]. destruct (_ || _); [done|]. rinv.
    subst. apply insert_one_time_inv in Hr as (Hn & Hf & _ & ->).
    apply (ok_keeps_invitations s); try done; simpl; [by eapply members_same| |apply Hok|apply Hok|by apply manager_rows_same].
    by apply unique_tokens_after; [apply Hok|].
  - unfold forgot_transaction in H. rinv. subst. apply insert_one_time_inv in Hr as (Hn & Hf & _ & ->).
    apply (ok_keeps_invitations s); try done; simpl; [by eapply members_same|apply Hok| |apply Hok|by apply manager_rows_same].
    by apply unique_tokens_after; [apply Hok|].
  - apply reset_inv in H2 as (r & t & Hu & Ht & Hl & [E1 E2 Er El _ Em _ E4 E5]).
    apply (ok_keeps_invitations s); try done; [by eapply members_same|rewrite E4; apply Hok|..].
    + rewrite E1. by eapply unique_update; [apply Hok|done|].
    + rewrite E2. by eapply unique_update; [apply Hok|done|].
    + unfold manager_rows_from. rewrite Er, El. split; [apply (revoke_from _ _ _ _ _ (manager_rows_same _ _ eq_refl eq_refl))|].
      apply (legacy_from _ None _ _ _ (manager_rows_same _ _ eq_refl eq_refl)).
  - apply upgrade_inv in Hup as (r & Hr & _ & _ & ->).
    apply ok_auth; [done..|by eapply members_same| |by apply manager_rows_same].
    by eapply unique_update; [apply Hok|done|].
  - eapply issue_ok; [done..|by apply manager_rows_same|exact Hi|]. left. eauto.
  - apply select_inv in H1 as (a1 & a2 & Hc & -> & _ & _ & _ & Hi & Hsrc).
    apply close_source_frame in Hc as (E1 & E2 & C1 & C2).
    eapply issue_ok; [done|exact E1|exact E2| |exact Hi|].
    + split; [intros k rt u Hk Hu|intros k ms u Hk Hu].
      * destruct (C1 _ _ Hk) as (? & ? & ?). eexists _, _. split; [done|]. congruence.
      * destruct (C2 _ _ Hk) as (? & ? & ?). eexists _, _. split; [done|]. congruence.
    + destruct w as [c|u]; [left|right].
      * eexists. split; [done|]. intros E. specialize (H _ eq_refl). rewrite E in H. by vm_compute in H.
      * destruct (H0 u eq_refl) as [c ->]. by eapply source_live_user; [apply (Hsrc _ _ eq_refl eq_refl)|].
  - apply change_role_inv in H as (actor & target & Ha & Ht & Hto & ->).
    apply team_auth_ok; [done|done|by apply manager_rows_same|]. eapply (members_write s _ u _ role); try done.
    exact (so_tenant _ Hok _ _ _ Ht).
  - apply remove_inv in H as (actor & target & Ha & Ht & Hto & ->).
    apply team_auth_ok; [done|done|by apply manager_rows_same|]. split; unfold owner_of; simpl.
    + intros w t r [_ Hw]%lookup_delete_Some. exact (so_tenant _ Hok _ _ _ Hw).
    + intros w w' t [_ H1]%lookup_delete_Some [_ H2]%lookup_delete_Some. exact (so_owner _ Hok _ _ _ H1 H2).
  - apply transfer_inv in H as (actor & target & Ha & Hu & Ht & Hto & ->); [|done].
    apply team_auth_ok; [done|done|by apply revoke_from, legacy_from, manager_rows_same|]. split; unfold owner_of; simpl.
    + intros w t r [[[= <- <-] _]|[_ [[[= <- <-] _]|[_ Hw]]%lookup_insert_Some]]%lookup_insert_Some;
        eapply (so_tenant _ Hok); eassumption.
    + assert (∀ w t, <[(new, mc_tenantId c) := owner]> (<[(u, mc_tenantId c) := admin]>
          (tenant_users (auth_of s))) !! (w, t) = Some owner →
          w = new ∧ t = mc_tenantId c ∨ t ≠ mc_tenantId c ∧ owner_of w t s) as Hx.
      { intros w t [[[= <- <-] _]|[N1 [[_ ?]|[N2 Hw]]%lookup_insert_Some]]%lookup_insert_Some; [by left|done|].
        right. split; [|done]. intros ->. apply N2. by rewrite (so_owner _ Hok _ _ _ Hu Hw). }
      intros w w' t [[-> ->]|[? ?]]%Hx [[-> ?]|[? ?]]%Hx; try done. by eapply (so_owner _ Hok).
  - apply invite_inv in H as (? & _ & Hn & Hf & _ & ->). destruct Hok. split; try done; simpl.
    + by apply unique_insert.
    + intros k i [[<- <-]|[_ Hk]]%lookup_insert_Some; eauto.
  - apply uninvite_inv in H as (? & i & _ & Hi & _ & Hp & ->). destruct Hok. split; try done; simpl.
    + by eapply unique_update.
    + intros k j [[<- <-]|[_ Hk]]%lookup_insert_Some; simpl; eauto.
  - apply accept_inv in H as (i & Hi & Hl & Hact & Hnone & Hus & Ho & ->).
    destruct (sm_inv _ _ Hread _ _ Hrow) as (i' & Hi' & [_ _ Er _ _ _]).
    assert (ti_role row ≠ owner) as Hno by (rewrite <-Er; by eapply so_grant).
    assert (members_ok (on_auth (with_members (<[(u, ti_tenantId row) := ti_role row]>
      (tenant_users (auth_of s))) (auth_of s)) s)) as [M1 M2].
    { eapply (members_write s _ u (ti_tenantId row) (ti_role row)); [done|by apply session_moves| |done|done].
      simpl. unfold tenant_lifecycle in Hact. by destruct (tenants _ !! _). }
    destruct Hok. split; try done; simpl.
    + by eapply unique_update; [done|exact Hi|].
    + intros k j [[<- <-]|[_ Hk]]%lookup_insert_Some; simpl; eauto.
  - apply rotate_frame in H as (E1 & E2 & E3 & Hfrom).
    apply ok_auth; [done..|by eapply members_same|rewrite E1; apply Hok|]. split.
    + intros k rt u Hk Hu. destruct (Hfrom _ _ Hk) as (? & ? & ? & ?). eexists _, _. split; [done|]. congruence.
    + rewrite E3. eauto.
  - apply ok_auth; [done..|by eapply members_same|apply Hok|]. by apply revoke_from, manager_rows_same.
  - assert (members_ok (on_auth a' (on_gateway d' s)) ∧ users a' = users (auth_of s) ∧
      manager_rows_from (auth_of s) a') as (Hmo & E & Hs).
    { apply transition_inv in H as (row & Ht & _ & _ & _ & [(_ & _ & -> & ->)|(_ & _ & _ & now & _ & -> & ->)]).
      { split_and!; [by eapply members_same|done|by apply manager_rows_same]. }
      split_and!; [by eapply members_same; [done|done|destruct (_ || _)]|by destruct (_ || _)|].
      destruct (_ || _); [|by apply manager_rows_same]. apply revoke_from. split; [eauto|].
      intros j ms u (ms0 & <- & H0)%lookup_fmap_Some Hu. destruct (_ == t) in Hu; eauto. }
    apply (ok_keeps_invitations s); try done; simpl; try apply Hok. rewrite E. apply Hok.
Qed.

(** ** Runs *)

(** At most one invitation of an address to a workspace is still open after
    [time]. *)
Definition one_live (time : Z) (s : account_db) : Prop :=
  ∀ i j x y, tenant_invitations s !! i = Some x → tenant_invitations s !! j = Some y →
    ti_tenantId x = ti_tenantId y → ti_email x = ti_email y →
    invitation_pending x = true → invitation_pending y = true →
    time < ti_expiresAt x → time < ti_expiresAt y → i = j.

(** The stores of a run, the latest first, and the time of its last commit. *)
Inductive run : Z → list account_db → Prop :=
| run_start time s : store_ok s → one_live time s → run time [s]
| run_next time s h e ck s_read :
    run time (s :: h) → s_read ∈ s :: h → event_ok e → time ≤ clock_timestamp ck →
    run (clock_timestamp ck) (perform e ck s_read s :: s :: h).

(** An update of open invitations that adds none. *)
Lemma one_live_weaken time time' s s' :
  one_live time s → time ≤ time' →
  (∀ id x', tenant_invitations s' !! id = Some x' → invitation_pending x' = true →
     ∃ x, tenant_invitations s !! id = Some x ∧ invitation_moves x x' ∧ invitation_pending x = true) →
  one_live time' s'.
Proof.
  intros H Hle Hfrom i j x y Hx Hy Ht He Px Py Lx Ly.
  destruct (Hfrom _ _ Hx Px) as (x0 & Hx0 & [T1 E1 _ _ X1 _] & P1).
  destruct (Hfrom _ _ Hy Py) as (y0 & Hy0 & [T2 E2 _ _ X2 _] & P2).
  eapply H; [done..|congruence|congruence|done|done|lia|lia].
Qed.

Lemma effect_one_live ck s_read s e s' time :
  one_live time s → time ≤ clock_timestamp ck → effect ck s_read s e s' → one_live (clock_timestamp ck) s'.
Proof.
  intros H Hle Heff.
  assert (tenant_invitations s' = tenant_invitations s → one_live (clock_timestamp ck) s') as Hsame.
  { intros E. eapply one_live_weaken; [done..|]. rewrite E. intros id x Hx Hp. by exists x. }
  destruct Heff as [| | | | | | | | |c body u role s' _ H1
    |c uid u s' _ H1|c body u new s' _ _ Hne H1|c len body id raw dl inviter email role s' _ _ H1|c ido id s' H1
    |q ckr L id row u user s' _ _ _ _ H1| | |ptid t next reason actor rawNow r d' a' H1];
    try (apply Hsame; reflexivity).
  - apply Hsame. unfold open_account in H0. by rinv; subst.
  - apply Hsame. apply verify_inv in H3 as (r & t & _ & _ & _ & [(_ & _ & ->)|[_ []]]); done.
  - apply Hsame. unfold resend_transaction in H0. destruct (users _ !! u) as [r|]; [|done].
    destruct (_ || _); [done|]. by rinv; subst.
  - apply Hsame. unfold forgot_transaction in H0. by rinv; subst.
  - apply Hsame. by apply reset_inv in H3 as (r & t & _ & _ & _ & []).
  - apply Hsame. by apply select_inv in H2 as (a1 & a2 & _ & -> & _).
  - apply Hsame. by apply change_role_inv in H1 as (? & ? & _ & _ & _ & ->).
  - apply Hsame. by apply remove_inv in H1 as (? & ? & _ & _ & _ & ->).
  - apply Hsame. by apply transfer_inv in H1 as (? & ? & _ & _ & _ & _ & ->).
  - apply invite_inv in H1 as (actor & _ & Hn & _ & Hfree & ->).
    assert (∀ k w, tenant_invitations s !! k = Some w → ti_tenantId w = mc_tenantId c → ti_email w = email →
      invitation_pending w = true → clock_timestamp ck < ti_expiresAt w → False) as Hf.
    { intros k w Hw Ht He Hp Hx. pose proof (find_row_None _ _ _ _ Hfree Hw) as Hb. cbv beta in Hb.
      unfold invitation_live in Hb. rewrite Hp, !bool_decide_true, (proj2 (Z.ltb_lt _ _)) in Hb; done. }
    intros i j x y. simpl. intros [[<- <-]|[_ Hx]]%lookup_insert_Some [[<- <-]|[_ Hy]]%lookup_insert_Some Ht He Px Py Lx Ly;
      simpl in *; [done|by destruct (Hf _ _ Hy)|by destruct (Hf _ _ Hx)|].
    eapply H; [exact Hx|exact Hy|done|done|done|done|lia|lia].
  - apply uninvite_inv in H1 as (actor & i & _ & Hi & _ & Hp & ->). eapply one_live_weaken; [done..|].
    intros k x. simpl. intros [[<- <-]|[_ Hk]]%lookup_insert_Some Hx; [|by exists x].
    exfalso. unfold invitation_pending in Hx. simpl in Hx. by rewrite andb_false_r in Hx.
  - apply accept_inv in H1 as (i & Hi & Hl & _ & _ & _ & _ & ->). eapply one_live_weaken; [done..|].
    intros k x. simpl. intros [[<- <-]|[_ Hk]]%lookup_insert_Some Hx; [done|by exists x].
Qed.

(** What holds at every point of a run. *)
Lemma run_facts time s h :
  run time (s :: h) → store_ok s ∧ one_live time s ∧ ∀ s0, s0 ∈ s :: h → store_moves s0 s.
Proof.
  intros H. remember (s :: h) as l eqn:El. revert s h El.
  induction H as [time s Hok Hl|time s h e ck s_read _ IH Hread Hev Hle]; intros s' h' [= <- <-].
  - split_and!; [done..|]. intros s0 ->%list_elem_of_singleton. reflexivity.
  - destruct (IH _ _ eq_refl) as (Hok & Hl & Hm). pose proof (perform_effect ck s_read s e) as Heff.
    pose proof (effect_moves _ _ _ _ _ Heff) as Hstep. split_and!.
    + by eapply effect_ok; [done|apply Hm|done|].
    + by eapply effect_one_live.
    + intros s0 [->|Hin]%elem_of_cons; [reflexivity|]. etrans; [by apply Hm|done].
Qed.
End runs.
