(* ===== verification/AccountSafety.v ===== *)
(** * What the account and team routes guarantee

    Theorems over the runs of [AccountRuns]: who owns a workspace and how that
    changes, where memberships come from, where a password comes from and what
    it closes, and that a link works once. *)

From S2P Require Import Prelude DatabaseTime JobStatus Json Schema PrinterModel Authority Availability Payload.
From S2P Require Import PrinterVirtual Capability Entitlements Samples JobProtocol JobDelivery JobMaintenance.
From S2P Require Import AgentJobs JobService Lifecycle Sessions Cookies RateLimit Passwords Accounts Workspace Login.
From S2P Require Import Team AccountRuns.

(** ** Sessions that are closed *)

(** No open session of user [u] in tenant [t]. *)
Definition closed_in_tenant (u t : string) (s : account_db) : Prop :=
  ∀ id rt, refresh_tokens (auth_of s) !! id = Some rt → rt_userId rt = Some u → rt_tenantId rt = Some t →
    is_Some (rt_revokedAt rt).

(** No open session of user [u] at all, of any of the three kinds. *)
Definition closed_everywhere (u : string) (s : account_db) : Prop :=
  (∀ id rt, refresh_tokens (auth_of s) !! id = Some rt → rt_userId rt = Some u → is_Some (rt_revokedAt rt)) ∧
  (∀ j ms, manager_sessions (auth_of s) !! j = Some ms → ms_userId ms = Some u → is_Some (ms_revokedAt ms)) ∧
  (∀ j ps, platform_sessions s !! j = Some ps → ps_userId ps = u → is_Some (ps_revokedAt ps)).

Lemma revoke_closes (p : refresh_token → bool) at_ reason a id rt :
  refresh_tokens (revoke_where p at_ reason a) !! id = Some rt → p rt = true → is_Some (rt_revokedAt rt).
Proof.
  intros (rt0 & _ & [[-> _]|[-> [Hf|Hs]]])%lookup_revoke_where Hp; [by eexists|congruence|done].
Qed.

Lemma legacy_closes u at_ a j ms :
  manager_sessions (revokeLegacyManagerSessionsForUser u None at_ a) !! j = Some ms → ms_userId ms = Some u →
  is_Some (ms_revokedAt ms).
Proof.
  intros (ms0 & <- & _)%lookup_fmap_Some Hu. simpl in *. destruct (ms_userId ms0 == Some u) eqn:E; simpl in *; [by eexists|].
  by bools.
Qed.

Lemma platform_closes u at_ m j ps :
  revokeLegacyPlatformSessionsForUser u at_ m !! j = Some ps → ps_userId ps = u → is_Some (ps_revokedAt ps).
Proof.
  intros (ps0 & <- & _)%lookup_fmap_Some Hu. destruct (_ && _) eqn:E; [by eexists|].
  rewrite bool_decide_true in E by done. simpl in E. unfold is_none in E. apply negb_false_iff in E. by apply is_some_true.
Qed.

Lemma account_closed u reason at_ s s' :
  refresh_tokens (auth_of s') = refresh_tokens (revokeUserRefreshFamilies u reason at_ (auth_of s)) →
  manager_sessions (auth_of s') = manager_sessions (revokeLegacyManagerSessionsForUser u None at_ (auth_of s)) →
  platform_sessions s' = revokeLegacyPlatformSessionsForUser u at_ (platform_sessions s) →
  closed_everywhere u s'.
Proof.
  intros E1 E2 E3. split_and!.
  - intros id rt. rewrite E1. intros Hrt Hu. eapply revoke_closes; [exact Hrt|]. by apply bool_decide_eq_true.
  - intros j ms. rewrite E2. apply legacy_closes.
  - intros j ps. rewrite E3. apply platform_closes.
Qed.

Section safety.
Context (isIP : string → bool) (derive scrypt_hex : string → string → option string).
Context (b64 unb64 sha256 hmac encode decode : string → string) (JSON_parse : string → option json).
Context (unique_violation : string).
Abbreviation perf := (perform isIP derive scrypt_hex b64 unb64 sha256 hmac encode decode JSON_parse unique_violation).
Abbreviation eff := (effect derive scrypt_hex b64 unb64 sha256 hmac encode).
Abbreviation runs := (run isIP derive scrypt_hex b64 unb64 sha256 hmac encode decode JSON_parse unique_violation).

(** ** Memberships *)

(** What one event can do to the memberships. *)
Inductive member_change (ck : clock) (s : account_db) (e : account_event) (s' : account_db) : Prop :=
| mb_same : tenant_users (auth_of s') = tenant_users (auth_of s) → member_change ck s e s'
| mb_created q v ckr L u :
    e = VerifyEmail q v ckr L → ¬ verified u s → verified u s' → (∀ t, tenant_users (auth_of s) !! (u, t) = None) →
    tenants (gateway_of s) !! vd_tenantId v = None →
    tenant_users (auth_of s') = <[(u, vd_tenantId v) := owner]> (tenant_users (auth_of s)) →
    member_change ck s e s'
| mb_role c body actor u target role :
    e = ChangeRole (Some c) body → team_actor ck c actor s →
    tenant_users (auth_of s) !! (u, mc_tenantId c) = Some target → target ≠ owner → role ≠ owner →
    tenant_users (auth_of s') = <[(u, mc_tenantId c) := role]> (tenant_users (auth_of s)) →
    closed_in_tenant u (mc_tenantId c) s' → member_change ck s e s'
| mb_removed c uid actor u target :
    e = Remove (Some c) uid → team_actor ck c actor s →
    tenant_users (auth_of s) !! (u, mc_tenantId c) = Some target → target ≠ owner →
    tenant_users (auth_of s') = delete (u, mc_tenantId c) (tenant_users (auth_of s)) →
    closed_in_tenant u (mc_tenantId c) s' → member_change ck s e s'
| mb_transferred c body u new target :
    e = Transfer (Some c) body → team_actor ck c u s → mc_role c = owner → new ≠ u →
    owner_of u (mc_tenantId c) s → tenant_users (auth_of s) !! (new, mc_tenantId c) = Some target →
    tenant_users (auth_of s') = <[(new, mc_tenantId c) := owner]> (<[(u, mc_tenantId c) := admin]>
      (tenant_users (auth_of s))) →
    closed_in_tenant u (mc_tenantId c) s' → closed_in_tenant new (mc_tenantId c) s' → member_change ck s e s'
| mb_accepted q ckr L id i u user :
    e = Accept q ckr L → tenant_invitations s !! id = Some i → invitation_live ck i = true → ti_role i ≠ owner →
    users (auth_of s) !! u = Some user → us_email user = ti_email i →
    tenant_lifecycle (gateway_of s) (ti_tenantId i) = Some "active" →
    tenant_users (auth_of s) !! (u, ti_tenantId i) = None →
    tenant_users (auth_of s') = <[(u, ti_tenantId i) := ti_role i]> (tenant_users (auth_of s)) →
    tenant_invitations s' = <[id := accepted_invitation (now ck) i]> (tenant_invitations s) →
    member_change ck s e s'.

Lemma first_membership_none u a t : first_membership u a = None → tenant_users a !! (u, t) = None.
Proof.
  unfold first_membership. destruct (List.find _ _) as [[[? ?] ?]|] eqn:E; [done|]. intros _.
  destruct (tenant_users a !! (u, t)) as [r|] eqn:H; [|done]. exfalso.
  pose proof (find_none _ _ E ((u, t), r) ltac:(by apply list_elem_of_In, elem_of_map_to_list)) as Hf. simpl in Hf. by bools.
Qed.

Lemma effect_members ck s_read s e s' :
  store_ok s → store_moves s_read s → eff ck s_read s e s' → member_change ck s e s'.
Proof.
  intros Hok Hread Heff.
  destruct Heff as [| | | | | |q v L u row pw hash a' _ _ _ Hup|who t role v issued a' Hi| |c body u role s' Hno H
    |c uid u s' _ H|c body u new s' Hcu Hco Hne H|c len body id raw dl inviter email role s' _ Hno H|c ido id s' H
    |q ckr L id row u user s' Hrow _ Huser Hmail H|kind token v nowMs r a' H|
    |ptid t next reason actor rawNow r d' a' H].
  - by apply mb_same.
  - apply mb_same. unfold open_account in H. rinv. subst. by apply insert_user_inv in Hr as (_ & _ & ->).
  - apply verify_inv in H2 as (r & t & Hu & _ & _ & [(_ & _ & ->)|[_ Hp]]); [by apply mb_same|].
    destruct (fp_work _ _ _ _ _ _ _ _ _ _ Hp) as [(_ & E & _)|(Hm & Hn & _ & E & _)]; [by apply mb_same|].
    eapply (mb_created _ _ _ _ q v ckr L (ot_userId row)); [done|..|done|done].
    + intros (r' & Hr' & Hv). rewrite Hu in Hr'. simplify_eq. rewrite (fp_unverified _ _ _ _ _ _ _ _ _ _ Hp) in Hv.
      by destruct Hv.
    + eexists. rewrite (fp_users _ _ _ _ _ _ _ _ _ _ Hp), lookup_insert_eq. split; [done|]. by eexists.
    + intros t'. by apply first_membership_none.
  - apply mb_same. unfold resend_transaction in H. destruct (users _ !! u) as [r|]; [|done].
    destruct (_ || _); [done|]. by rinv; subst.
  - apply mb_same. unfold forgot_transaction in H. by rinv; subst.
  - apply mb_same. by apply reset_inv in H2 as (r & t & _ & _ & _ & []).
  - apply mb_same. by apply upgrade_inv in Hup as (r & _ & _ & _ & ->).
  - apply mb_same. by apply issue_frame in Hi as (_ & E & _).
  - apply mb_same. apply select_inv in H1 as (a1 & a2 & Hc & -> & _ & _ & _ & Hi & _).
    apply issue_frame in Hi as (_ & E & _). apply close_source_frame in Hc as (_ & E' & _). simpl. congruence.
  - apply change_role_inv in H as (actor & target & Ha & Ht & Hto & ->).
    eapply (mb_role _ _ _ _ c body actor u target role); try done. intros k rt Hk Hu Hrt. eapply revoke_closes; [exact Hk|]. cbv beta. by rewrite Hu, Hrt, !bool_decide_true.
  - apply remove_inv in H as (actor & target & Ha & Ht & Hto & ->).
    eapply (mb_removed _ _ _ _ c uid actor u target); try done. intros k rt Hk Hu Hrt. eapply revoke_closes; [exact Hk|]. cbv beta. by rewrite Hu, Hrt, !bool_decide_true.
  - apply transfer_inv in H as (actor & target & Ha & Hu & Ht & Hto & ->); [|done].
    assert (actor = u) as -> by (pose proof (ta_user _ _ _ _ Ha); congruence).
    eapply (mb_transferred _ _ _ _ c body u new target); try done.
    + intros k rt Hk Hku Hrt.
      destruct (lookup_revoke_where _ _ _ _ _ _ Hk) as (rt0 & H0 & [[-> _]|[-> _]]); [by eexists|].
      eapply revoke_closes; [exact H0|]. cbv beta. by rewrite Hku, Hrt, !bool_decide_true.
    + intros k rt Hk Hku Hrt. eapply revoke_closes; [exact Hk|]. cbv beta. by rewrite Hku, Hrt, !bool_decide_true.
  - apply mb_same. by apply invite_inv in H as (? & _ & _ & _ & _ & ->).
  - apply mb_same. by apply uninvite_inv in H as (? & ? & _ & _ & _ & _ & ->).
  - apply accept_inv in H as (i & Hi & Hl & Hact & Hnone & Hus & Ho & ->).
    destruct (sm_inv _ _ Hread _ _ Hrow) as (i' & Hi' & [Et Ee Er _ _ _]). rewrite Hi in Hi'. injection Hi' as <-.
    destruct (sm_users _ _ Hread _ _ Huser) as (user' & Hu' & [Eu _]).
    eapply (mb_accepted _ _ _ _ q ckr L id i u user'); rewrite ?Et, ?Er; try done; [|congruence].
    rewrite <-Er. by eapply so_grant.
  - apply mb_same. by apply rotate_frame in H as (_ & E & _).
  - by apply mb_same.
  - apply mb_same. apply transition_inv in H as (row & _ & _ & _ & _ & [(_ & _ & _ & ->)|(_ & _ & _ & now & _ & _ & ->)]); [done|].
    simpl. by destruct (_ || _).
Qed.

(** ** Passwords *)

(** How the password of an account changed. *)
Inductive password_change (u : string) (ck : clock) (s : account_db) (e : account_event) (s' : account_db)
    (row row' : user) : Prop :=
| pc_first_proof q v ckr L id t :
    e = VerifyEmail q v ckr L → us_emailVerifiedAt row = None → is_Some (us_emailVerifiedAt row') →
    email_verification_tokens s !! id = Some t → ot_userId t = u → token_live ck t = true →
    ot_tokenHash t = sha256 (request_text q "token") →
    hashPassword derive b64 (vd_salt v) (vd_randomPassword v) = Ok (us_passwordHash row') →
    closed_everywhere u s' → password_change u ck s e s' row row'
| pc_reset q salt ckr L id t :
    e = Reset q salt ckr L → password_reset_tokens s !! id = Some t → ot_userId t = u → token_live ck t = true →
    ot_tokenHash t = sha256 (request_text q "token") →
    password_reset_tokens s' !! id = Some (spent_at (now ck) t) →
    hashPassword derive b64 salt (request_text q "password") = Ok (us_passwordHash row') →
    us_emailVerifiedAt row' = us_emailVerifiedAt row →
    closed_everywhere u s' → password_change u ck s e s' row row'
| pc_upgrade q v L password :
    e = CheckPassword q v L → startsWith (us_passwordHash row) "argon2id$" = false →
    password_matches derive scrypt_hex unb64 sha256 password (us_passwordHash row) = Ok true →
    hashPassword derive b64 (ld_salt v) password = Ok (us_passwordHash row') →
    us_emailVerifiedAt row' = us_emailVerifiedAt row → password_change u ck s e s' row row'.

Lemma effect_users ck s_read s e s' u row row' :
  store_moves s_read s → eff ck s_read s e s' →
  users (auth_of s) !! u = Some row → users (auth_of s') !! u = Some row' →
  row' = row ∨ password_change u ck s e s' row row'.
Proof.
  intros Hread Heff Hu Hu'.
  assert (users (auth_of s') = users (auth_of s) → row' = row) as Hsame by (intros E; rewrite E in Hu'; congruence).
  destruct Heff as [|q v L email hash s' H|q v ckr L id r0 pending b s' Hid Hhash Hpw H|q v L w s' H|q v L w s' H
    |q salt ckr L id r0 hash s' Hid Hhash Hpw H|q v L w r0 pw hash a' _ Hpm Hpre Hup|who t role v issued a' Hi
    |q claims v readMs nowMs L t w issued role L' s' _ _ H|c body w role s' Hno H
    |c uid w s' _ H|c body w new s' Hcu Hco Hne H|c len body id raw dl inviter email role s' _ Hno H|c ido id s' H
    |q ckr L id r0 w user s' Hrow _ Huser Hmail H|kind token v nowMs r a' H|
    |ptid t next reason actor rawNow r d' a' H]; try (left; by apply Hsame).
  - left. unfold open_account in H. rinv. subst. apply insert_user_inv in Hr as (Hn & _ & ->). simpl in Hu'.
    apply lookup_insert_Some in Hu' as [[<- _]|[_ Hu']]; congruence.
  - destruct (sm_evt _ _ Hread _ _ Hid) as (t1 & Ht1 & [U1 H1 _ _]).
    apply verify_inv in H as (r & t & Hr & Ht & Hl & [(_ & _ & ->)|[_ Hp]]); [left; by apply Hsame|].
    rewrite Ht1 in Ht. injection Ht as <-. destruct (decide (u = ot_userId r0)) as [->|Hne].
    + right. rewrite (fp_users _ _ _ _ _ _ _ _ _ _ Hp), lookup_insert_eq in Hu'. simplify_eq.
      assert (closed_everywhere (ot_userId r0) s').
      { eapply account_closed; [exact (fp_refresh _ _ _ _ _ _ _ _ _ _ Hp)|exact (fp_legacy _ _ _ _ _ _ _ _ _ _ Hp)
          |exact (fp_platform _ _ _ _ _ _ _ _ _ _ Hp)]. }
      eapply (pc_first_proof _ _ _ _ _ _ _ q v ckr L id t1);
        first [done|congruence|exact (fp_unverified _ _ _ _ _ _ _ _ _ _ Hp)|by eexists].
    + left. rewrite (fp_users _ _ _ _ _ _ _ _ _ _ Hp), lookup_insert_ne in Hu' by done. congruence.
  - left. apply Hsame. unfold resend_transaction in H. destruct (users _ !! w) as [r|]; [|done].
    destruct (_ || _); [done|]. by rinv; subst.
  - left. apply Hsame. unfold forgot_transaction in H. by rinv; subst.
  - destruct (sm_prt _ _ Hread _ _ Hid) as (t1 & Ht1 & [U1 H1 _ _]).
    apply reset_inv in H as (r & t & Hr & Ht & Hl & Hp). rewrite Ht1 in Ht. injection Ht as <-.
    destruct (decide (u = ot_userId r0)) as [->|Hne].
    + right. rewrite (pw_users _ _ _ _ _ _ _ _ Hp), lookup_insert_eq in Hu'. simplify_eq.
      assert (closed_everywhere (ot_userId r0) s').
      { eapply account_closed; [exact (pw_refresh _ _ _ _ _ _ _ _ Hp)|exact (pw_legacy _ _ _ _ _ _ _ _ Hp)
          |exact (pw_platform _ _ _ _ _ _ _ _ Hp)]. }
      eapply (pc_reset _ _ _ _ _ _ _ q salt ckr L id t1); try done; [congruence|].
      by rewrite (pw_prt _ _ _ _ _ _ _ _ Hp), lookup_insert_eq.
    + left. rewrite (pw_users _ _ _ _ _ _ _ _ Hp), lookup_insert_ne in Hu' by done. congruence.
  - apply upgrade_inv in Hup as (r & Hr & E & Hh & ->). simpl in Hu'.
    apply lookup_insert_Some in Hu' as [[-> <-]|[_ Hu']]; [|left; congruence]. simplify_eq.
    right. eapply (pc_upgrade _ _ _ _ _ _ _ q v L pw); first [done|congruence].
  - left. apply Hsame. by apply issue_frame in Hi as (E & _).
  - left. apply Hsame. apply select_inv in H as (a1 & a2 & Hc & -> & _ & _ & _ & Hi & _).
    apply issue_frame in Hi as (E & _). apply close_source_frame in Hc as (E' & _). simpl. congruence.
  - left. apply Hsame. by apply change_role_inv in H as (? & ? & _ & _ & _ & ->).
  - left. apply Hsame. by apply remove_inv in H as (? & ? & _ & _ & _ & ->).
  - left. apply Hsame. by apply transfer_inv in H as (? & ? & _ & _ & _ & _ & ->).
  - left. apply Hsame. by apply invite_inv in H as (? & _ & _ & _ & _ & ->).
  - left. apply Hsame. by apply uninvite_inv in H as (? & ? & _ & _ & _ & _ & ->).
  - left. apply Hsame. by apply accept_inv in H as (? & _ & _ & _ & _ & _ & _ & ->).
  - left. apply Hsame. by apply rotate_frame in H as (E & _).
  - left. apply Hsame.
    apply transition_inv in H as (row0 & _ & _ & _ & _ & [(_ & _ & _ & ->)|(_ & _ & _ & now & _ & _ & ->)]); [done|].
    simpl. by destruct (_ || _).
Qed.

Section step.
Context (time : Z) (s : account_db) (h : list account_db) (e : account_event) (ck : clock) (s_read : account_db).
Context (Hrun : runs time (s :: h)) (Hread : s_read ∈ s :: h) (Hev : event_ok e) (Hclock : time ≤ clock_timestamp ck).
Abbreviation next := (perf e ck s_read s).

Lemma step_facts :
  store_ok s ∧ store_ok next ∧ one_live (clock_timestamp ck) next ∧ eff ck s_read s e next ∧
  store_moves s_read s ∧ ∀ s0, s0 ∈ s :: h → store_moves s0 next.
Proof.
  destruct (run_facts _ _ _ _ _ _ _ _ _ _ _ _ _ _ Hrun) as (Hok & _ & Hm).
  destruct (run_facts _ _ _ _ _ _ _ _ _ _ _ _ _ _ (run_next _ _ _ _ _ _ _ _ _ _ _ _ _ _ _ _ _ Hrun Hread Hev Hclock))
    as (Hok' & Hl & Hm').
  split_and!; [done..|by apply perform_effect|by apply Hm|]. intros s0 Hs0. apply Hm'. by right.
Qed.

Lemma step_members : member_change ck s e next.
Proof. destruct step_facts as (Hok & _ & _ & Heff & Hm & _). by eapply effect_members. Qed.

(** C19. A workspace has one owner, for ever: over any run of the account,
    team, session and lifecycle requests no two users own the same workspace,
    and a workspace that has an owner keeps one. The owner changes only in a
    transfer made under the owner's own live session and membership, to a user
    who is a member already; the old owner stays as an administrator and both
    have no open session in that workspace afterwards. A workspace gets its
    first owner only when it is created, for an account whose address is proved
    by that very request. *)
Theorem one_owner_for_ever t :
  (∀ u u', owner_of u t next → owner_of u' t next → u = u') ∧
  (∀ u, owner_of u t s → ∃ u', owner_of u' t next ∧
     (u' ≠ u → ∃ c body, e = Transfer (Some c) body ∧ mc_tenantId c = t ∧ mc_role c = owner ∧
        team_actor ck c u s ∧ is_Some (tenant_users (auth_of s) !! (u', t)) ∧
        tenant_users (auth_of next) !! (u, t) = Some admin ∧
        closed_in_tenant u t next ∧ closed_in_tenant u' t next)) ∧
  (∀ u, owner_of u t next → (∀ w, ¬ owner_of w t s) →
     tenants (gateway_of s) !! t = None ∧ ¬ verified u s ∧ verified u next).
Proof.
  destruct step_facts as (Hok & Hok' & _). split; [intros u u'; apply (so_owner _ Hok')|].
  unfold owner_of. destruct step_members as [E|q v ckr L u0 -> Hnv Hv Hno Hn E|c body actor u0 target role -> Ha Ht Hto Hro E _
    |c uid actor u0 target -> Ha Ht Hto E _|c body u0 new target -> Ha Hr Hne Hown Ht E H1 H2
    |q ckr L id i u0 user -> Hi Hl Hro Hu He Hact Hn E Ei]; rewrite E.
  - split; [intros u Hu; by exists u|]. intros u Hu Hf. by destruct (Hf u).
  - split.
    + intros u Hu. exists u. split; [|done]. rewrite lookup_insert_ne; [done|]. intros [= -> <-].
      destruct (so_tenant _ Hok _ _ _ Hu) as [row Hrow]. congruence.
    + intros u [[[= -> <-] _]|[_ Hu]]%lookup_insert_Some Hf; [done|]. by destruct (Hf u).
  - split.
    + intros u Hu. exists u. split; [|done]. rewrite lookup_insert_ne; [done|]. intros [= -> <-]. congruence.
    + intros u [[_ ?]|[_ Hu]]%lookup_insert_Some Hf; [done|]. by destruct (Hf u).
  - split.
    + intros u Hu. exists u. split; [|done]. rewrite lookup_delete_ne; [done|]. intros [= -> <-]. congruence.
    + intros u [_ Hu]%lookup_delete_Some Hf. by destruct (Hf u).
  - split.
    + intros u Hu. destruct (decide (t = mc_tenantId c)) as [->|Hne'].
      * assert (u = u0) as -> by (by eapply (so_owner _ Hok)).
        exists new. rewrite lookup_insert_eq. split; [done|]. intros _. exists c, body.
        rewrite lookup_insert_ne, lookup_insert_eq by congruence. split_and!; done.
      * exists u. rewrite !lookup_insert_ne by congruence. done.
    + intros u [[[= -> <-] _]|[_ [[_ ?]|[_ Hu]]%lookup_insert_Some]]%lookup_insert_Some Hf; [|done|by destruct (Hf u)].
      by destruct (Hf u0).
  - split.
    + intros u Hw. exists u. split; [|done]. rewrite lookup_insert_ne; [done|]. intros [= -> <-]. congruence.
    + intros u [[_ ?]|[_ Hw]]%lookup_insert_Some Hf; [done|]. by destruct (Hf u).
Qed.

(** C21. A membership is granted in two ways only: with the workspace an
    account gets when its address is first proved, or by accepting an
    invitation that is open at that moment, addressed to that account and to
    that workspace, in the invited role, which is never owner. An invitation
    that was accepted or revoked stays as it is, and at any time at most one
    invitation of an address to a workspace is open. *)
Theorem invitations_grant_once :
  (∀ u t role, tenant_users (auth_of s) !! (u, t) = None → tenant_users (auth_of next) !! (u, t) = Some role →
     (role = owner ∧ tenants (gateway_of s) !! t = None ∧ ¬ verified u s ∧ verified u next) ∨
     (∃ id i user, tenant_invitations s !! id = Some i ∧ invitation_live ck i = true ∧ ti_tenantId i = t ∧
        ti_role i = role ∧ role ≠ owner ∧ users (auth_of s) !! u = Some user ∧ us_email user = ti_email i ∧
        tenant_lifecycle (gateway_of s) t = Some "active" ∧
        tenant_invitations next !! id = Some (accepted_invitation (now ck) i))) ∧
  (∀ s0 id i, s0 ∈ s :: h → tenant_invitations s0 !! id = Some i → invitation_pending i = false →
     tenant_invitations next !! id = Some i) ∧
  one_live (clock_timestamp ck) next.
Proof.
  destruct step_facts as (Hok & Hok' & Hl & _ & _ & Hm). split_and!; [|..|done].
  - intros u t r Hnone Hr.
    destruct step_members as [E|q v ckr L u0 -> Hnv Hv Hno Hn E|c body actor u0 target role -> Ha Ht Hto Hro E _
    |c uid actor u0 target -> Ha Ht Hto E _|c body u0 new target -> Ha Hr' Hne Hown Ht E H1 H2
    |q ckr L id i u0 user -> Hi Hlive Hro Hu He Hact Hn E Ei]; rewrite E in Hr.
    + congruence.
    + apply lookup_insert_Some in Hr as [[[= -> <-] <-]|[_ Hr]]; [by left|congruence].
    + apply lookup_insert_Some in Hr as [[[= -> <-] <-]|[_ Hr]]; congruence.
    + apply lookup_delete_Some in Hr as [_ Hr]. congruence.
    + unfold owner_of in Hown. apply lookup_insert_Some in Hr as [[[= -> <-] <-]|[_ Hr]]; [congruence|].
      apply lookup_insert_Some in Hr as [[[= -> <-] <-]|[_ Hr]]; congruence.
    + apply lookup_insert_Some in Hr as [[[= -> <-] <-]|[_ Hr]]; [|congruence].
      right. exists id, i, user. rewrite Ei, lookup_insert_eq. done.
  - intros s0 id i Hs0 Hi Hp. destruct (sm_inv _ _ (Hm _ Hs0) _ _ Hi) as (i' & Hi' & Hmv).
    by rewrite Hi', (im_settled _ _ Hmv Hp).
Qed.
(** C20. A password is what its mailbox made it. Over any run, the stored
    hash of an account changes in three ways only: the first proof of its
    address replaces it by the hash of a random secret, so a password chosen
    before the proof never signs in; a reset spends a live reset token of that
    account, presented in that request; or a legacy hash is replaced by a new
    one of the very password it verifies. The first two leave the account
    without an open session of any kind. An account becomes verified only in the
    first way, and every session row in the store belongs to a verified
    account. *)
Theorem password_provenance u row row'
  (Hbefore : users (auth_of s) !! u = Some row) (Hafter : users (auth_of next) !! u = Some row') :
  (us_passwordHash row' ≠ us_passwordHash row → password_change u ck s e next row row') ∧
  (¬ verified u s → verified u next →
     ∃ q v ckr L, e = VerifyEmail q v ckr L ∧ password_change u ck s e next row row' ∧ closed_everywhere u next) ∧
  (∀ id rt w, refresh_tokens (auth_of next) !! id = Some rt → rt_userId rt = Some w → verified w next).
Proof.
  destruct step_facts as (Hok & Hok' & _ & Heff & Hm & _). split_and!; [..|apply (so_session _ Hok')].
  - intros Hne. by destruct (effect_users _ _ _ _ _ _ _ _ Hm Heff Hbefore Hafter) as [->|].
  - intros Hnv (r & Hr & Hv). rewrite Hafter in Hr. injection Hr as <-.
    destruct (effect_users _ _ _ _ _ _ _ _ Hm Heff Hbefore Hafter) as [->|Hc]; [by destruct Hnv; exists row|].
    destruct Hc as [q v ckr L id t -> ? ? ? ? ? ? ? ?|q salt ckr L id t -> ? ? ? ? ? ? Ev ?|q v L pw -> ? ? ? Ev].
    + exists q, v, ckr, L. split_and!; try done. by eapply pc_first_proof.
    + destruct Hnv. exists row. by rewrite <-Ev.
    + destruct Hnv. exists row. by rewrite <-Ev.
Qed.
End step.

(** ** Links *)

Lemma attempt_outcome q identity un lim L s0 (go : limits → answered) (P : answered → Prop) :
  (∀ L1, P (answer_with un L1 s0)) → (∀ r L1, P (answer_with (lim r) L1 s0)) → (∀ L1, P (go L1)) →
  P (with_attempt isIP q identity un lim L s0 go).
Proof.
  intros H1 H2 H3. unfold with_attempt. destruct (reserveAuthAttempt _ _ _ _ _) as [[d|] L1]; [|done].
  by destruct (rd_allowed d).
Qed.

(** A row read at any time and the same hash later are the same row. *)
Lemma same_token (m0 m1 m : gmap string one_time_token) i j t0 t1 :
  rows_evolve token_moves m0 m → rows_evolve token_moves m1 m → unique_by ot_tokenHash m →
  m0 !! i = Some t0 → m1 !! j = Some t1 → ot_tokenHash t1 = ot_tokenHash t0 → is_Some (ot_consumedAt t0) →
  j = i ∧ m !! i = Some t0.
Proof.
  intros H0 H1 Hu Hi Hj He Hs. destruct (H0 _ _ Hi) as (t0' & Hi' & M0). destruct (H1 _ _ Hj) as (t1' & Hj' & M1).
  rewrite (tm_spent _ _ M0 Hs) in Hi'. split; [|done].
  eapply Hu; [done..|]. by rewrite (tm_hash _ _ M1).
Qed.

Lemma spent_refused id ck at_ m t : m !! id = Some t → is_Some (ot_consumedAt t) → consume_token id ck at_ m = None.
Proof. intros Ht [x Hx]. unfold consume_token, token_live. by rewrite Ht, Hx. Qed.

(** C22. A link of a mail works once. When a reset token or a verification
    token has been consumed at any point of a run (used, or superseded by a
    newer one), a later request that presents it changes nothing and does not
    succeed, whichever earlier store of the run that request took its reads
    from and whatever its limiter says. *)
Theorem link_works_once time s h s0 id t q salt v ckr ck L s_read
  (Hrun : runs time (s :: h)) (Hs0 : s0 ∈ s :: h) (Hread : s_read ∈ s :: h)
  (Hspent : is_Some (ot_consumedAt t)) (Hpresented : sha256 (request_text q "token") = ot_tokenHash t) :
  (password_reset_tokens s0 !! id = Some t →
     let o := reset_password isIP derive b64 sha256 q salt ckr ck L s_read s in
     oc_store o = s ∧ oc_reply o ≠ PasswordReset) ∧
  (email_verification_tokens s0 !! id = Some t →
     let o := verify_email isIP derive b64 sha256 q v ckr ck L s_read s in
     oc_store o = s ∧ ∀ b r, oc_reply o ≠ Verified b r).
Proof.
  destruct (run_facts _ _ _ _ _ _ _ _ _ _ _ _ _ _ Hrun) as (Hok & _ & Hm).
  split; intros Ht; cbv zeta.
  - unfold reset_password. destruct (read_body _ _) as [body|r] eqn:Hb; [|unfold read_body in Hb; by repeat case_match; simplify_eq].
    apply read_body_inv in Hb. destruct (_ || _); [done|].
    apply (attempt_outcome _ _ _ _ _ _ _ (λ o, oc_store o = s ∧ oc_reply o ≠ PasswordReset)); [done..|]. intros L1.
    destruct (find_row _ _) as [[j t1]|] eqn:Hrow; [|done]. apply find_row_Some in Hrow as [Hj Hl]. bools.
    destruct (hashPassword _ _ _ _) as [hash|]; [|done].
    destruct (same_token _ _ _ _ _ _ _ (sm_prt _ _ (Hm _ Hs0)) (sm_prt _ _ (Hm _ Hread)) (so_prt _ Hok) Ht Hj) as [-> Hnow];
      [|done|].
    { rewrite <-Hpresented. unfold request_text. by rewrite Hb. }
    unfold reset_transaction. by rewrite (spent_refused _ _ _ _ _ Hnow Hspent).
  - unfold verify_email. destruct (read_body _ _) as [body|r] eqn:Hb; [|unfold read_body in Hb; by repeat case_match; simplify_eq].
    apply read_body_inv in Hb. destruct (_ || _); [done|].
    apply (attempt_outcome _ _ _ _ _ _ _ (λ o, oc_store o = s ∧ ∀ b r, oc_reply o ≠ Verified b r)); [done..|]. intros L1.
    destruct (find_row _ _) as [[j t1]|] eqn:Hrow; [|done]. apply find_row_Some in Hrow as [Hj Hl]. bools.
    destruct (is_none _); [done|]. destruct (hashPassword _ _ _ _) as [hash|]; [|done].
    destruct (same_token _ _ _ _ _ _ _ (sm_evt _ _ (Hm _ Hs0)) (sm_evt _ _ (Hm _ Hread)) (so_evt _ Hok) Ht Hj) as [-> Hnow];
      [|done|].
    { rewrite <-Hpresented. unfold request_text. by rewrite Hb. }
    unfold verify_transaction. destruct (users _ !! _) as [u|]; [|done].
    destruct (throw_if _ _) as [[]|er] eqn:Hthrow; simpl; [by rewrite (spent_refused _ _ _ _ _ Hnow Hspent)|].
    apply throw_if_Err in Hthrow as [_ <-]. done.
Qed.

(** ** Sign-ins in flight *)

Ltac sign_in_refused :=
  split; [intros _; split; [reflexivity|do 2 eexists; split; [reflexivity|lia]]|intros ? [=]].

(** A new password fences the sign-ins under way. When the stored hash of
    an account is no longer the one a sign-in was checked against, and digests of
    different hashes differ, the second half of that sign-in is refused and
    inserts no session; a sign-in that does insert one does so for a verified
    account whose hash is still the one that was checked, in an active
    workspace. *)
Theorem stale_sign_in_refused who t role v s row hash0
  (Hwho : id_credentialVersion who = credentialVersionFor hmac (id_userId who) hash0)
  (Hdigest : credentialVersionFor hmac (id_userId who) hash0 ≠ "")
  (Hrow : users (auth_of s) !! id_userId who = Some row)
  (Hfree : ∀ h1 h2, sha256 (credentialVersionFor hmac (id_userId who) h1)
                    = sha256 (credentialVersionFor hmac (id_userId who) h2) → h1 = h2) :
  let '(reply, s') := enter_workspace sha256 hmac encode who t role v s in
  (us_passwordHash row ≠ hash0 → s' = s ∧ ∃ status error, reply = LoginRefused status error None ∧ 400 ≤ status) ∧
  (∀ issued, reply = LoggedIn issued t role →
     us_passwordHash row = hash0 ∧ is_Some (us_emailVerifiedAt row) ∧
     tenant_active (gateway_of s) t = true ∧ s' ≠ s).
Proof.
  unfold enter_workspace, issueCustomerSession. destruct (t == "") eqn:Ht; [sign_in_refused|]. bools.
  unfold requireActiveTenantOrNull. destruct (requireActiveTenant _ _) as [[]|err] eqn:Hact; [|sign_in_refused].
  destruct (tenant_guards_agree (gateway_of s) t) as [Hg Hiff]. rewrite Hact in Hg.
  unfold insertInitialPair. simpl validatePrincipal. unfold validatePrincipal. simpl.
  rewrite (bool_decide_false (t = "")) by done. simpl. rewrite <-Hg. simpl.
  rewrite (bool_decide_false (id_credentialVersion who = "")) by (by rewrite Hwho).
  destruct (id_userId who == "") eqn:Hu; simpl; [sign_in_refused|].
  unfold assertSessionCredential, throw_if. rewrite Hrow.
  destruct (_ || _) eqn:Hbad; simpl.
  { sign_in_refused. }
  apply orb_false_iff in Hbad as [[_ Hver]%orb_false_iff Hsame]. unfold compareStringsSafe in Hsame. rewrite Hwho in Hsame. bools.
  apply Hfree in Hsame.
  destruct (insert_token _ _ _) as [a'|err] eqn:Hins; simpl.
  2: { unfold insert_token, throw_if in Hins. destruct (_ || _); [|done]. injection Hins as <-. simpl.
       split; [by intros Hne; destruct Hne|done]. }
  apply insert_token_inv in Hins as (Hnone & _ & ->). split; [by intros Hne; destruct Hne|].
  intros issued _. split_and!; [done|by destruct (us_emailVerifiedAt row)|by apply Hiff|].
  intros Heq. apply (f_equal (λ x, refresh_tokens (auth_of x) !! fv_refreshTokenId (ld_session v))) in Heq.
  simpl in Heq. by rewrite lookup_insert_eq, Hnone in Heq.
Qed.
End safety.

(** ** Instances *)

Definition account (email hash : string) : user := {|
  us_email := email; us_passwordHash := hash; us_emailVerifiedAt := Some 0; us_isPlatformOwner := false |}.

(** A workspace of an owner and an operator, a third account with an open
    invitation and an open reset link, and the owner's session. *)
Definition team_auth : auth_db := {|
  users := <["u1" := account "a@x.io" "argon2id$1"]> (<["u2" := account "b@x.io" "argon2id$2"]>
    {["u3" := account "c@x.io" "argon2id$3"]});
  tenant_users := <[("u1", "t1") := owner]> {[("u2", "t1") := operator]};
  refresh_tokens := {["r1" := new_token hashed {| sp_kind := customer_kind; sp_tenantId := Some "t1";
    sp_userId := Some "u1"; sp_role := Some owner; sp_email := None; sp_credentialVersion := None |}
    (drawn_values "1") sample_family 0 0]};
  manager_sessions := ∅ |}.

Definition team_store : account_db := {|
  gateway_of := lifecycle_db; auth_of := team_auth; email_verification_tokens := ∅;
  password_reset_tokens := {["p1" := {| ot_userId := "u3"; ot_tokenHash := hashed "reset"; ot_expiresAt := 100000;
    ot_consumedAt := None |}]};
  platform_sessions := ∅;
  tenant_invitations := {["i1" := {| ti_tenantId := "t1"; ti_inviterUserId := "u1"; ti_email := "c@x.io";
    ti_role := viewer; ti_tokenHash := hashed "invite"; ti_expiresAt := 100000; ti_acceptedAt := None;
    ti_revokedAt := None |}]} |}.

Definition owner_claims : ManagerClaims := {|
  mc_jti := "jti"; mc_exp := 900; mc_tenantId := "t1"; mc_userId := Some "u1"; mc_role := owner;
  mc_kind := Some "customer"; mc_familyId := Some sample_family |}.

Lemma unique_singleton {A} (key : A → string) id x : unique_by key {[id := x]}.
Proof. intros i j y z [<- _]%lookup_singleton_Some [<- _]%lookup_singleton_Some. done. Qed.

Lemma team_store_ok : store_ok team_store.
Proof.
  split; simpl; try apply unique_singleton; try (by intros ? ? ? ?).
  - intros i j x y [[<- <-]|[_ [[<- <-]|[_ [<- <-]%lookup_singleton_Some]]%lookup_insert_Some]]%lookup_insert_Some
      [[<- <-]|[_ [[<- <-]|[_ [<- <-]%lookup_singleton_Some]]%lookup_insert_Some]]%lookup_insert_Some; done.
  - intros u t r [[[= <- <-] _]|[_ [[= <- <-] _]%lookup_singleton_Some]]%lookup_insert_Some; by eexists.
  - unfold owner_of. simpl. intros u u' t [[[= <- <-] _]|[_ [_ ?]%lookup_singleton_Some]]%lookup_insert_Some
      [[[= <-] _]|[_ [_ ?]%lookup_singleton_Some]]%lookup_insert_Some; done.
  - intros id i [_ <-]%lookup_singleton_Some. done.
  - intros id rt u [_ <-]%lookup_singleton_Some [= <-]. eexists. split; [reflexivity|]. by eexists.
Qed.

Definition post (fields : list (string * json)) : account_request := {|
  aq_contentLength := None; aq_body := Some (JObject fields); aq_trustProxy := false; aq_forwardedFor := None;
  aq_realIp := None; aq_nowMs := 1000 |}.

Definition no_json (_ : string) : option json := None.
Definition no_kdf (_ _ : string) : option string := None.

Abbreviation sample_run := (run (λ _, true) sample_derive no_kdf letter_encode letter_decode hashed plain plain plain
  no_json EmptyString).
Abbreviation sample_perform := (perform (λ _, true) sample_derive no_kdf letter_encode letter_decode hashed plain plain plain
  no_json EmptyString).

Lemma team_starts : sample_run 0 [team_store].
Proof.
  apply run_start; [apply team_store_ok|].
  intros i j x y. simpl. intros [<- _]%lookup_singleton_Some [<- _]%lookup_singleton_Some. done.
Qed.

Definition transfer_event : account_event :=
  Transfer (Some owner_claims) (Some (JObject [("userId", JString "u2")])).

Lemma one_owner_for_ever_witness :
  closed_in_tenant "u1" "t1" (sample_perform transfer_event (at_time 5) team_store team_store).
Proof.
  destruct (one_owner_for_ever (λ _, true) sample_derive no_kdf letter_encode letter_decode hashed plain plain plain
    no_json EmptyString 0 team_store [] transfer_event (at_time 5) team_store team_starts ltac:(by left) I
    ltac:(by vm_compute) "t1") as (_ & H & _).
  destruct (H "u1" ltac:(vm_compute; reflexivity)) as (u' & Hu' & Hmoved).
  assert (u' ≠ "u1") as Hne.
  { intros ->. vm_compute in Hu'. discriminate. }
  destruct (Hmoved Hne) as (c & body & _ & _ & _ & _ & _ & _ & Hclosed & _). exact Hclosed.
Defined.

Definition accept_event : account_event :=
  Accept (post [("token", JString "invite"); ("email", JString " C@x.io")]) (at_time 4) ∅.

Lemma invitations_grant_once_witness :
  ∃ i, tenant_invitations (sample_perform accept_event (at_time 5) team_store team_store) !! "i1" = Some i ∧
       ti_acceptedAt i = Some 5.
Proof.
  destruct (invitations_grant_once (λ _, true) sample_derive no_kdf letter_encode letter_decode hashed plain plain plain
    no_json EmptyString 0 team_store [] accept_event (at_time 5) team_store team_starts ltac:(by left) I
    ltac:(by vm_compute)) as (H & _ & _).
  destruct (H "u3" "t1" viewer ltac:(vm_compute; reflexivity) ltac:(vm_compute; reflexivity))
    as [[? _]|(id & i & user & Hi & _ & _ & _ & _ & _ & _ & _ & Hafter)]; [discriminate|].
  assert (id = "i1") as ->.
  { simpl in Hi. apply lookup_singleton_Some in Hi as [<- _]. reflexivity. }
  eexists. split; [exact Hafter|]. reflexivity.
Defined.

Definition reset_request : account_request := post [("token", JString "reset"); ("password", JString "correct horse")].
Definition reset_event : account_event := Reset reset_request "0123456789abcdef" (at_time 4) ∅.
Definition after_reset : account_db := sample_perform reset_event (at_time 5) team_store team_store.

Lemma password_provenance_witness :
  ∃ row', users (auth_of after_reset) !! "u3" = Some row' ∧
    password_change sample_derive no_kdf letter_encode letter_decode hashed "u3" (at_time 5) team_store reset_event
      after_reset (account "c@x.io" "argon2id$3") row'.
Proof.
  eexists. split; [vm_compute; reflexivity|].
  apply (password_provenance (λ _, true) sample_derive no_kdf letter_encode letter_decode hashed plain plain plain
    no_json EmptyString 0 team_store [] reset_event (at_time 5) team_store team_starts ltac:(by left) I
    ltac:(by vm_compute) "u3" (account "c@x.io" "argon2id$3")).
  - vm_compute. reflexivity.
  - vm_compute. reflexivity.
  - vm_compute. discriminate.
Defined.

Lemma link_works_once_witness :
  oc_store (reset_password (λ _, true) sample_derive letter_encode hashed reset_request "0123456789abcdef" (at_time 4)
    (at_time 6) ∅ team_store after_reset) = after_reset.
Proof.
  assert (∃ t, password_reset_tokens after_reset !! "p1" = Some t ∧ is_Some (ot_consumedAt t) ∧
    hashed (request_text reset_request "token") = ot_tokenHash t) as (t & Ht & Hspent & Hh).
  { eexists. split; [vm_compute; reflexivity|]. split; [by eexists|reflexivity]. }
  refine (proj1 (proj1 (link_works_once (λ _, true) sample_derive no_kdf letter_encode letter_decode hashed plain plain plain
    no_json EmptyString 5 after_reset [team_store] after_reset "p1" t reset_request "0123456789abcdef"
    {| vd_resetToken := ""; vd_resetTokenId := ""; vd_randomPassword := ""; vd_salt := ""; vd_tenantId := "" |}
    (at_time 4) (at_time 6) ∅ team_store _ _ _ Hspent Hh) Ht)).
  - apply (run_next _ _ _ _ _ _ _ _ _ _ _ 0 team_store [] reset_event (at_time 5) team_store);
      [apply team_starts|by left|exact I|by vm_compute].
  - by left.
  - right. by left.
Defined.

Definition sample_login : identity := {|
  id_userId := "u3"; id_email := "c@x.io"; id_credentialVersion := credentialVersionFor plain "u3" "argon2id$3" |}.

Definition sample_sign_in : login_draw := {|
  ld_salt := ""; ld_nanoid := ""; ld_session := drawn_values "9"; ld_nowMs := 6 |}.

Lemma string_app_inj (p x y : string) : p +:+ x = p +:+ y → x = y.
Proof. induction p as [|c p IH]; [done|]. intros H. injection H as H. by apply IH. Qed.

Lemma stale_sign_in_refused_witness :
  (enter_workspace hashed plain plain sample_login "t1" viewer sample_sign_in after_reset).2 = after_reset.
Proof.
  assert (∃ row, users (auth_of after_reset) !! "u3" = Some row ∧ us_passwordHash row ≠ "argon2id$3") as (row & Hrow & Hne).
  { eexists. split; [vm_compute; reflexivity|]. vm_compute. discriminate. }
  pose proof (stale_sign_in_refused hashed plain plain sample_login "t1" viewer sample_sign_in after_reset row
    "argon2id$3" eq_refl ltac:(done) Hrow) as H.
  destruct (enter_workspace _ _ _ _ _ _ _ _) as [reply s']. apply H; [|exact Hne].
  intros h1 h2 Heq. unfold hashed, credentialVersionFor, plain in Heq. do 5 apply string_app_inj in Heq. exact Heq.
Defined.
