(* ===== verification/Discovery.v ===== *)
(** * Discovery: scans and what they found

    [src/lib/discovery.ts], [src/lib/discovery-observation.ts],
    [src/lib/discovery-session-expiry.ts], the agent's route
    [src/app/api/agent/discovery/route.ts], and the manager's routes that start
    and cancel a scan and approve a device, under [src/app/api/agents/[id]].
    A scan is a session row; its report comes in one request or in numbered
    pages; what it found is kept per agent under an identity that is stable
    across scans, and a manager approves a device by the fingerprint of the
    observation he looked at. Locks make each transaction one step. The bodies
    of the two listings are not modelled (their clean-up of stale scans is), nor
    are the texts of schema errors. *)

From Stdlib Require Import Ascii.
From S2P Require Import Prelude DatabaseTime JobStatus Json NetworkAddress Schema PrinterModel Authority Availability Payload.
From S2P Require Import PrinterVirtual Capability Entitlements Inventory JobProtocol JobDelivery JobMaintenance AgentJobs.
From S2P Require Import JobService Lifecycle Heartbeat Printers Passwords.

(** ** Equality of documents *)

#[global] Instance json_eq_dec : EqDecision json.
Proof.
  unshelve refine (fix go (v w : json) {struct v} : Decision (v = w) :=
    let fix go_list (l l' : list json) {struct l} : Decision (l = l') :=
      match l, l' with
      | [], [] => left eq_refl
      | x :: l, x' :: l' =>
          match go x x' with
          | left H => match go_list l l' with left H' => left _ | right H' => right _ end
          | right H => right _
          end
      | _, _ => right _
      end in
    let fix go_fields (l l' : list (string * json)) {struct l} : Decision (l = l') :=
      match l, l' with
      | [], [] => left eq_refl
      | (k, x) :: l, (k', x') :: l' =>
          match decide (k = k'), go x x' with
          | left H, left H0 => match go_fields l l' with left H' => left _ | right H' => right _ end
          | right H, _ => right _
          | _, right H => right _
          end
      | _, _ => right _
      end in
    match v, w with
    | JNull, JNull => left eq_refl
    | JBool b, JBool b' => cast_if (decide (b = b'))
    | JNumber n, JNumber n' => cast_if (decide (n = n'))
    | JString s, JString s' => cast_if (decide (s = s'))
    | JArray l, JArray l' => cast_if (go_list l l')
    | JObject l, JObject l' => cast_if (go_fields l l')
    | _, _ => right _
    end); congruence.
Defined.

(** ** [discovery.ts] *)

Definition DISCOVERY_PROTOCOLS : list string :=
  ["ipp"; "ipps"; "raw"; "lpr"; "mdns"; "snmp"; "wsd"; "windows_spooler"; "usb"; "unknown"; "escpos"; "spooler"].
Definition DISCOVERY_SESSION_STATUS : list string := ["running"; "completed"; "partial"; "failed"; "cancelled"].

(** [z.<type>().optional()]: the key is absent, or its value has the type. *)
Definition absent_or {A} (p : json → option A) (v : option json) : option (option A) :=
  match v with None => Some None | Some v => Some <$> p v end.

Definition text_between (lo hi : Z) (v : json) : option string :=
  match v with JString s => if (lo <=? strlen s) && (strlen s <=? hi) then Some s else None | _ => None end.

Definition any_text (v : json) : option string := match v with JString s => Some s | _ => None end.

Definition enum_text (l : list string) (v : json) : option string :=
  match v with JString s => if one_of l s then Some s else None | _ => None end.

Definition int_between (lo hi : Z) (v : json) : option Z :=
  match v with JNumber n => if (lo <=? n) && (n <=? hi) then Some n else None | _ => None end.

Definition list_up_to {A} (hi : option Z) (p : json → option A) (v : json) : option (list A) :=
  match v with
  | JArray l => if match hi with Some hi => Z.of_nat (length l) <=? hi | None => true end then mapM p l else None
  | _ => None
  end.

Definition record_value (v : json) : option json := match v with JObject l => Some (JObject l) | _ => None end.

Record discovery_config := {
  dc_cidr : option string;
  dc_protocols : option (list string);
  dc_concurrency : option Z;
  dc_timeoutMs : option Z;
}.

Definition discoveryStartSchema (body : list (string * json)) : option discovery_config :=
  let f := json_field (JObject body) in
  if negb (forallb (λ kv : string * json, one_of ["cidr"; "protocols"; "concurrency"; "timeoutMs"] kv.1) body) then None
  else
    cidr ← absent_or any_text (f "cidr");
    protocols ← absent_or (list_up_to None (enum_text DISCOVERY_PROTOCOLS)) (f "protocols");
    concurrency ← absent_or (int_between 1 64) (f "concurrency");
    timeoutMs ← absent_or (int_between 500 30000) (f "timeoutMs");
    Some {| dc_cidr := cidr; dc_protocols := protocols; dc_concurrency := concurrency; dc_timeoutMs := timeoutMs |}.

(** The range test on four octets. *)
Definition private_octets (a b : Z) : bool :=
  (a =? 10) || ((a =? 172) && (16 <=? b) && (b <=? 31)) || ((a =? 192) && (b =? 168)).

(** The two patterns and the range test of the octets are those of [octet]. *)
Definition isPrivateCIDR (cidr : string) : bool :=
  match split_on "/"%char cidr with
  | [ip; bits] =>
      if negb ((1 <=? strlen bits) && (strlen bits <=? 2)) then false
      else match decimal_value 0 bits, mapM octet (split_on "."%char ip) with
           | Some prefix, Some [a; b; _; _] => (16 <=? prefix) && (prefix <=? 30) && private_octets a b
           | _, _ => false
           end
  | _ => false
  end.

Definition validateDiscoveryRequest (body : list (string * json)) : option discovery_config :=
  data ← discoveryStartSchema body;
  if truthy (dc_cidr data) && negb (isPrivateCIDR (coalesce (dc_cidr data) "")) then None else Some data.

Definition confidenceFor (source : list string) (verification : string) (hasModel : bool) : string :=
  let verified := verification == "verified" in
  let count := Z.of_nat (length source) in
  let hasHigh := verified && existsb (λ s, one_of source s) ["ipp"; "ipps"; "windows_spooler"] in
  if hasHigh || ((2 <=? count) && hasModel) then "high"
  else if verified || (2 <=? count) || hasModel then "medium" else "low".

(** ** Tables *)

Record discovery_session := {
  ds_tenantId : string;
  ds_agentId : string;
  ds_status : string;
  ds_config : discovery_config;
  ds_stats : json;
  ds_startedAt : Z;
  ds_completedAt : option Z;
  ds_updatedAt : Z;
}.

(** The columns a print target is chosen from. *)
Record observation := {
  ob_protocol : string;
  ob_ipAddress : option string;
  ob_port : option Z;
  ob_uri : option string;
  ob_spoolerName : option string;
  ob_transport : option string;
  ob_deviceClass : string;
  ob_capabilities : option json;
  ob_deviceName : option string;
  ob_model : option string;
  ob_hostname : option string;
  ob_manufacturer : option string;
  ob_serialNumber : option string;
}.

Record discovered_device := {
  dd_discoveryId : string;
  dd_agentId : string;
  dd_source : list string;
  dd_observed : observation;
  dd_macAddress : option string;
  dd_confidence : string;
  dd_verification : string;
  dd_rawMetadata : option json;
  dd_provisionedPrinterId : option string;
  dd_identityKey : option string;
  dd_candidateStatus : string;
  dd_lastSeenAt : Z;
  dd_updatedAt : Z;
}.

(** Devices are keyed by tenant and id. *)
Record discovery_db := {
  scan_gateway : db;
  discovery_sessions : gmap string discovery_session;
  discovered_devices : gmap (string * string) discovered_device;
}.

Definition on_scan_gateway (d : db) (s : discovery_db) : discovery_db := {|
  scan_gateway := d; discovery_sessions := discovery_sessions s; discovered_devices := discovered_devices s |}.

Definition on_scans (m : gmap string discovery_session) (s : discovery_db) : discovery_db := {|
  scan_gateway := scan_gateway s; discovery_sessions := m; discovered_devices := discovered_devices s |}.

Definition on_devices (m : gmap (string * string) discovered_device) (s : discovery_db) : discovery_db := {|
  scan_gateway := scan_gateway s; discovery_sessions := discovery_sessions s; discovered_devices := m |}.

(** A session of this agent, as every route looks it up. *)
Definition scan_of (tenantId agentId id : string) (s : discovery_db) : option discovery_session :=
  match discovery_sessions s !! id with
  | Some ds => if (ds_agentId ds == agentId) && (ds_tenantId ds == tenantId) then Some ds else None
  | None => None
  end.

Definition device_of (tenantId agentId id : string) (s : discovery_db) : option discovered_device :=
  match discovered_devices s !! (tenantId, id) with
  | Some dd => if dd_agentId dd == agentId then Some dd else None
  | None => None
  end.

Definition active_agent (tenantId agentId : string) (d : db) : option string :=
  match agents d !! agentId with
  | Some ag => if ag_tenantId ag == tenantId then Some (ag_lifecycle ag) else None
  | None => None
  end.

(** ** Stale scans *)

Definition DISCOVERY_STALE_AFTER_MINUTES : Z := 10.

Definition ABANDONED : string := "Discovery report abandoned: no progress for 10 minutes".

Definition json_list (v : option json) : list json := match v with Some (JArray l) => l | _ => [] end.

(** [jsonb_set(stats, '{errors}', errors || [...], true)]; [stats] is an object. *)
Definition add_abandoned (stats : json) : json :=
  match stats with
  | JObject l => JObject (set_key "errors" (JArray (json_list (json_field stats "errors") ++ [JString ABANDONED])) l)
  | v => v
  end.

Definition ended_scan (status : string) (stats : json) (now : Z) (ds : discovery_session) : discovery_session := {|
  ds_tenantId := ds_tenantId ds; ds_agentId := ds_agentId ds; ds_status := status; ds_config := ds_config ds;
  ds_stats := stats; ds_startedAt := ds_startedAt ds; ds_completedAt := Some now; ds_updatedAt := now |}.

Definition scan_has_devices (id : string) (ds : discovery_session) (m : gmap (string * string) discovered_device) : bool :=
  bool_decide (map_Exists (λ k dd, k.1 = ds_tenantId ds ∧ dd_agentId dd = ds_agentId ds ∧ dd_discoveryId dd = id) m).

Definition stale_scan (tenantId agentId : string) (now : Z) (ds : discovery_session) : bool :=
  (ds_tenantId ds == tenantId) && (ds_agentId ds == agentId) && (ds_status ds == "running") &&
  (ds_updatedAt ds <? now - mins DISCOVERY_STALE_AFTER_MINUTES).

Definition expire_scan (tenantId agentId : string) (now : Z) (m : gmap (string * string) discovered_device)
    (id : string) (ds : discovery_session) : discovery_session :=
  if stale_scan tenantId agentId now ds
  then ended_scan (if scan_has_devices id ds m then "partial" else "failed") (add_abandoned (ds_stats ds)) now ds
  else ds.

Definition expireStaleAgentDiscovery (tenantId agentId : string) (now : Z) (s : discovery_db) : discovery_db :=
  on_scans (map_imap (λ id ds, Some (expire_scan tenantId agentId now (discovered_devices s) id ds)) (discovery_sessions s)) s.

(** ** Starting and cancelling *)

(** The answers of the manager's routes, by their status. *)
Definition fence {A} (m : result unit authority_error) (k : result A Z) : result A Z :=
  match m with Ok _ => k | Err _ => Err 403 end.

Definition active_tenant {A} (d : db) (tenantId : string) (k : result A Z) : result A Z :=
  match requireActiveTenantInTransaction d tenantId with Ok _ => k | Err _ => Err 403 end.

Definition started_scan (tenantId agentId : string) (config : discovery_config) (now : Z) : discovery_session := {|
  ds_tenantId := tenantId; ds_agentId := agentId; ds_status := "running"; ds_config := config;
  ds_stats := JObject []; ds_startedAt := now; ds_completedAt := None; ds_updatedAt := now |}.

Definition running_scan (tenantId agentId : string) (ds : discovery_session) : bool :=
  (ds_agentId ds == agentId) && (ds_tenantId ds == tenantId) && (ds_status ds == "running").

(** The insert also answers to the primary key and to the partial unique index
    on running sessions; both are [23505], which the route answers with 409. *)
Definition start_transaction (claims : ManagerClaims) (agentId id : string) (config : discovery_config) (ck : clock)
    (a : auth_db) (s : discovery_db) : result discovery_db Z :=
  let t := mc_tenantId claims in
  active_tenant (scan_gateway s) t
    match active_agent t agentId (scan_gateway s) with
    | None => Err 404
    | Some lifecycle =>
        do* throw_if (lifecycle != "active") 409 in
        fence (requireManagerActorInTransaction a ck claims agents_pair)
          (let s1 := expireStaleAgentDiscovery t agentId (now ck) s in
           do* throw_if (is_some (find_row (running_scan t agentId) (discovery_sessions s1))) 409 in
           do* throw_if (is_some (discovery_sessions s1 !! id)) 409 in
           Ok (on_scans (<[id := started_scan t agentId config (now ck)]> (discovery_sessions s1)) s1))
    end.

(** [claims] is what the door answered, [s_read] what the route reads before its
    transaction; a body that is not an object is [None]. *)
Definition discovery_POST (claims : option ManagerClaims) (agentId nanoid : string) (body : option json) (ck : clock)
    (a : auth_db) (s_read s : discovery_db) : result (string * discovery_db) Z :=
  match claims with
  | None => Err 401
  | Some claims =>
      do* throw_if (negb (hasManagerPermission claims agents_pair)) 403 in
      match active_agent (mc_tenantId claims) agentId (scan_gateway s_read) with
      | None => Err 404
      | Some lifecycle =>
          do* throw_if (lifecycle != "active") 409 in
          let* body := match body with Some (JObject l) => Ok l | _ => Err 400 end in
          let* config := match validateDiscoveryRequest body with Some c => Ok c | None => Err 400 end in
          let id := "dsc_" +:+ nanoid in
          let* s' := start_transaction claims agentId id config ck a s in
          Ok (id, s')
      end
  end.

Definition cancel_transaction (claims : ManagerClaims) (agentId id : string) (ck : clock) (a : auth_db) (s : discovery_db)
    : result discovery_db Z :=
  let t := mc_tenantId claims in
  active_tenant (scan_gateway s) t
    match active_agent t agentId (scan_gateway s) with
    | None => Err 404
    | Some _ =>
        fence (requireManagerActorInTransaction a ck claims agents_pair)
          match scan_of t agentId id s with
          | None => Err 404
          | Some ds =>
              do* throw_if (ds_status ds != "running") 409 in
              Ok (on_scans (<[id := ended_scan "cancelled" (ds_stats ds) (now ck) ds]> (discovery_sessions s)) s)
          end
    end.

Definition cancel_scan_POST (claims : option ManagerClaims) (agentId id : string) (ck : clock) (a : auth_db) (s : discovery_db)
    : result discovery_db Z :=
  match claims with
  | None => Err 401
  | Some claims =>
      do* throw_if (negb (hasManagerPermission claims agents_pair)) 403 in
      cancel_transaction claims agentId id ck a s
  end.

(** ** The report of an agent *)

Definition MAX_DISCOVERY_BODY_BYTES : Z := 2 * 1024 * 1024.
Definition MAX_DISCOVERY_DEVICES : Z := 1000.
Definition DISCOVERY_INSERT_BATCH : nat := 250.

Record device_report := {
  dr_id : option string;
  dr_stableId : option string;
  dr_source : option (list string);
  dr_protocol : option string;
  dr_ipAddress : option string;
  dr_hostname : option string;
  dr_port : option Z;
  dr_uri : option string;
  dr_deviceName : option string;
  dr_spoolerName : option string;
  dr_deviceClass : option string;
  dr_transport : option string;
  dr_manufacturer : option string;
  dr_model : option string;
  dr_serialNumber : option string;
  dr_capabilities : option json;
  dr_rawMetadata : option json;
}.

(** [confidence] and [verification] are checked and never used. *)
Definition deviceSchema (raw : json) : option device_report :=
  match raw with
  | JObject _ =>
      let f := json_field raw in
      id ← absent_or (text_between 1 120) (f "id");
      stableId ← absent_or (text_between 1 120) (f "stableId");
      source ← absent_or (list_up_to (Some 32) (text_between 0 64)) (f "source");
      protocol ← absent_or (text_between 1 32) (f "protocol");
      ipAddress ← absent_or (text_between 0 45) (f "ipAddress");
      hostname ← absent_or (text_between 0 255) (f "hostname");
      port ← absent_or (int_between 1 65535) (f "port");
      uri ← absent_or (text_between 0 1024) (f "uri");
      deviceName ← absent_or (text_between 0 255) (f "deviceName");
      spoolerName ← absent_or (text_between 0 255) (f "spoolerName");
      deviceClass ← absent_or (enum_text ["thermal"; "laser"; "inkjet"; "label"; "other"; "unknown"]) (f "deviceClass");
      transport ← absent_or (text_between 0 32) (f "transport");
      manufacturer ← absent_or (text_between 0 120) (f "manufacturer");
      model ← absent_or (text_between 0 255) (f "model");
      serialNumber ← absent_or (text_between 0 120) (f "serialNumber");
      _ ← absent_or (enum_text ["low"; "medium"; "high"]) (f "confidence");
      _ ← absent_or (enum_text ["candidate"; "verified"]) (f "verification");
      capabilities ← absent_or record_value (f "capabilities");
      rawMetadata ← absent_or record_value (f "rawMetadata");
      Some {| dr_id := id; dr_stableId := stableId; dr_source := source; dr_protocol := protocol; dr_ipAddress := ipAddress;
              dr_hostname := hostname; dr_port := port; dr_uri := uri; dr_deviceName := deviceName;
              dr_spoolerName := spoolerName; dr_deviceClass := deviceClass; dr_transport := transport;
              dr_manufacturer := manufacturer; dr_model := model; dr_serialNumber := serialNumber;
              dr_capabilities := capabilities; dr_rawMetadata := rawMetadata |}
  | _ => None
  end.

Definition device_identity (deviceName spoolerName transport protocol : option string) (capabilities rawMetadata : option json)
    : PrinterLike := {|
  pv_name := deviceName; pv_displayName := None; pv_display_name := None; pv_spoolerName := spoolerName;
  pv_spooler_name := None; pv_endpoint := None; pv_printerType := None; pv_connectionType := transport;
  pv_protocol := protocol; pv_port := None; pv_driverName := None;
  pv_capabilities := nullish capabilities rawMetadata; pv_config := rawMetadata |}.

Inductive skip_reason : Type := InvalidDevice | VirtualDevice | PublicAddress.

Definition raw_id (raw : json) : string := coalesce (as_string (json_field raw "id")) "(unknown)".

Definition read_device (raw : json) : result device_report (string * skip_reason) :=
  match deviceSchema raw with
  | None => Err (raw_id raw, InvalidDevice)
  | Some d =>
      let id := coalesce (dr_id d) (raw_id raw) in
      do* throw_if (isVirtualPrinterRecord (Some (device_identity (dr_deviceName d) (dr_spoolerName d) (dr_transport d)
                      (dr_protocol d) (dr_capabilities d) (dr_rawMetadata d)))) (id, VirtualDevice) in
      do* throw_if (truthy (dr_ipAddress d) && negb (isPrivateNetworkAddress (coalesce (dr_ipAddress d) "")))
        (id, PublicAddress) in
      Ok d
  end.

Definition accepted_devices (l : list json) : list device_report :=
  omap (λ raw, match read_device raw with Ok d => Some d | Err _ => None end) l.

Definition skipped_devices (l : list json) : list (string * skip_reason) :=
  omap (λ raw, match read_device raw with Ok _ => None | Err e => Some e end) l.

(** What a report says, when it is not refused with 400 or 413. *)
Record discovery_report := {
  rp_discoveryId : string;
  rp_status : string;
  rp_chunk : option (Z * Z);  (** index and count *)
  rp_totalCandidates : option Z;
  rp_errors : list string;
  rp_candidates : Z;
  rp_devices : list device_report;
  rp_skipped : list (string * skip_reason);
}.

Definition chunk_of (index count : option json) : option (option (Z * Z)) :=
  match index, count with
  | None, None => Some None
  | Some (JNumber i), Some (JNumber n) =>
      if (n <? 1) || (128 <? n) || (i <? 0) || (n <=? i) then None else Some (Some (i, n))
  | _, _ => None
  end.

(** Only the last page ends the scan, and it does. *)
Definition chunk_status_ok (chunk : option (Z * Z)) (status : string) : bool :=
  match chunk with
  | Some (i, n) => if i <? n - 1 then status == "running" else status != "running"
  | None => true
  end.

Definition or_status {A} (o : option A) (status : Z) : result A Z := match o with Some x => Ok x | None => Err status end.

Definition parse_report (body : json) : result discovery_report Z :=
  let f := json_field body in
  let* status := match f "status" with
                 | Some (JString s) => if one_of DISCOVERY_SESSION_STATUS s then Ok s else Err 400
                 | _ => Err 400
                 end in
  let* chunk := or_status (chunk_of (f "chunkIndex") (f "chunkCount")) 400 in
  do* throw_if (negb (chunk_status_ok chunk status)) 400 in
  let* total := or_status (absent_or (int_between 0 32000) (f "totalCandidates")) 400 in
  let devices := elements (f "devices") in
  let* errors := or_status (match f "errors" with
                            | None | Some JNull => Some []
                            | Some v => list_up_to (Some 64) (text_between 0 2048) v
                            end) 400 in
  let discoveryId := coalesce (as_string (f "discoveryId")) "" in
  do* throw_if (discoveryId == "") 400 in
  do* throw_if (MAX_DISCOVERY_DEVICES <? Z.of_nat (length devices)) 413 in
  let accepted := accepted_devices devices in
  do* throw_if ((0 <? Z.of_nat (length devices)) && (Z.of_nat (length accepted) =? 0)) 400 in
  Ok {| rp_discoveryId := discoveryId; rp_status := status; rp_chunk := chunk; rp_totalCandidates := total;
        rp_errors := errors; rp_candidates := Z.of_nat (length devices); rp_devices := accepted;
        rp_skipped := skipped_devices devices |}.

(** *** What is stored of a device *)

Definition unit_separator : ascii := "031"%char.

Definition strip_separators (s : string) : string :=
  String.concat "" (split_on unit_separator s).

Definition identity_text (d : device_report) : string :=
  trim (String.concat (String unit_separator "")
    [coalesce (dr_protocol d) ""; coalesce (dr_ipAddress d) ""; coalesce (number_text <$> dr_port d) ""; coalesce (dr_uri d) "";
     coalesce (dr_spoolerName d) ""; coalesce (dr_serialNumber d) ""; coalesce (dr_hostname d) "";
     coalesce (dr_manufacturer d) ""; coalesce (dr_model d) ""]).

Section reports.
Context (sha256 : string → string).

Definition identityKeyForDevice (d : device_report) : option string :=
  if trim (coalesce (dr_stableId d) "") != "" then Some (trim (coalesce (dr_stableId d) ""))
  else if trim (coalesce (dr_id d) "") != "" then Some (trim (coalesce (dr_id d) ""))
  else if trim (strip_separators (identity_text d)) != "" then Some (sha256 (identity_text d)) else None.

Definition observation_of (d : device_report) : observation := {|
  ob_protocol := coalesce (dr_protocol d) "unknown"; ob_ipAddress := dr_ipAddress d; ob_port := dr_port d; ob_uri := dr_uri d;
  ob_spoolerName := dr_spoolerName d; ob_transport := dr_transport d; ob_deviceClass := coalesce (dr_deviceClass d) "unknown";
  ob_capabilities := dr_capabilities d; ob_deviceName := dr_deviceName d; ob_model := dr_model d; ob_hostname := dr_hostname d;
  ob_manufacturer := dr_manufacturer d; ob_serialNumber := dr_serialNumber d |}.

(** The row a report inserts, with the defaults of the table. *)
Definition device_row (agentId discoveryId : string) (now : Z) (d : device_report) : discovered_device := {|
  dd_discoveryId := discoveryId; dd_agentId := agentId; dd_source := coalesce (dr_source d) [];
  dd_observed := observation_of d; dd_macAddress := None; dd_confidence := "low"; dd_verification := "candidate";
  dd_rawMetadata := dr_rawMetadata d; dd_provisionedPrinterId := None; dd_identityKey := identityKeyForDevice d;
  dd_candidateStatus := "discovered"; dd_lastSeenAt := now; dd_updatedAt := now |}.

(** [draw i] is the random id of the [i]th row, used when the agent gave none. *)
Definition device_rows (agentId discoveryId : string) (now : Z) (draw : nat → string) (l : list device_report)
    : list (string * discovered_device) :=
  imap (λ i d, (if truthy (dr_id d) then coalesce (dr_id d) "" else "dev_" +:+ draw i, device_row agentId discoveryId now d)) l.

(** [=] of two [jsonb] values looks at objects without their order. *)
Definition jsonb_same (v w : option json) : bool := (canonicalize <$> v) == (canonicalize <$> w).

(** [ROW(...) IS NOT DISTINCT FROM ROW(excluded...)]. *)
Definition observed_same (o o' : observation) : bool :=
  (ob_protocol o == ob_protocol o') && (ob_ipAddress o == ob_ipAddress o') && (ob_port o == ob_port o') &&
  (ob_uri o == ob_uri o') && (ob_spoolerName o == ob_spoolerName o') && (ob_transport o == ob_transport o') &&
  (ob_deviceClass o == ob_deviceClass o') && jsonb_same (ob_capabilities o) (ob_capabilities o') &&
  (ob_deviceName o == ob_deviceName o') && (ob_model o == ob_model o') && (ob_hostname o == ob_hostname o') &&
  (ob_manufacturer o == ob_manufacturer o') && (ob_serialNumber o == ob_serialNumber o').

(** The conflict arm: a changed observation loses its approval. *)
Definition observed_again (now : Z) (excluded dd : discovered_device) : discovered_device :=
  let same := observed_same (dd_observed dd) (dd_observed excluded) in {|
  dd_discoveryId := dd_discoveryId excluded; dd_agentId := dd_agentId dd; dd_source := dd_source excluded;
  dd_observed := dd_observed excluded; dd_macAddress := dd_macAddress dd; dd_confidence := dd_confidence dd;
  dd_verification := if same then dd_verification dd else "candidate";
  dd_rawMetadata := dd_rawMetadata excluded; dd_provisionedPrinterId := dd_provisionedPrinterId dd;
  dd_identityKey := dd_identityKey dd;
  dd_candidateStatus := if same then dd_candidateStatus dd else "discovered";
  dd_lastSeenAt := now; dd_updatedAt := now |}.

Abbreviation devices := (gmap (string * string) discovered_device).

(** The row under the unique index on tenant, agent and identity. *)
Definition same_device_identity (tenantId : string) (row : discovered_device) (e : (string * string) * discovered_device) : bool :=
  (e.1.1 == tenantId) && (dd_agentId e.2 == dd_agentId row) && is_some (dd_identityKey row) &&
  (dd_identityKey e.2 == dd_identityKey row).

Definition by_identity (tenantId : string) (row : discovered_device) (m : devices) : option ((string * string) * discovered_device) :=
  List.find (same_device_identity tenantId row) (map_to_list m).

(** [onConflictDoNothing] on tenant and id, for rows without an identity. *)
Definition insert_anonymous (tenantId : string) (st : Z * devices) (row : string * discovered_device) : Z * devices :=
  if is_some (st.2 !! (tenantId, row.1)) then st else (st.1 + 1, <[(tenantId, row.1) := row.2]> st.2).

(** [onConflictDoUpdate] on the identity; the unique index on tenant and id is
    not the one the statement arbitrates on, so a taken id aborts it ([None]). *)
Definition upsert_device (tenantId : string) (now : Z) (st : Z * Z * devices) (row : string * discovered_device)
    : option (Z * Z * devices) :=
  let '(inserted, updated, m) := st in
  match by_identity tenantId row.2 m with
  | Some (k, dd) => Some (inserted, updated + 1, <[k := observed_again now row.2 dd]> m)
  | None =>
      if is_some (m !! (tenantId, row.1)) then None
      else Some (inserted + 1, updated, <[(tenantId, row.1) := row.2]> m)
  end.

(** [new Map(rows.map(row => [key, row])).values()]: the first position of a
    key, its last row. *)
Definition last_per_identity (rows : list (string * discovered_device)) : list (string * discovered_device) :=
  let keys := remove_dups (reverse (omap (λ r : string * discovered_device, dd_identityKey r.2) rows)) in
  omap (λ k, List.find (λ r : string * discovered_device, dd_identityKey r.2 == Some k) (reverse rows)) (reverse keys).

Fixpoint upsert_all (tenantId : string) (now : Z) (rows : list (string * discovered_device)) (st : Z * Z * devices)
    : option (Z * Z * devices) :=
  match rows with
  | [] => Some st
  | row :: rows => st' ← upsert_device tenantId now st row; upsert_all tenantId now rows st'
  end.

Definition named (row : string * discovered_device) : bool := truthy (dd_identityKey row.2).

(** One batch; [row.identityKey] is tested for truth. *)
Definition write_batch (tenantId : string) (now : Z) (st : Z * Z * devices) (batch : list (string * discovered_device))
    : option (Z * Z * devices) :=
  let '(inserted, updated, m) := st in
  let '(n, m1) := foldl (insert_anonymous tenantId) (0, m) (List.filter (λ r, negb (named r)) batch) in
  upsert_all tenantId now (last_per_identity (List.filter named batch)) (inserted + n, updated, m1).

(** [rows.slice(i, i + DISCOVERY_INSERT_BATCH)] for every start; the fuel is the
    number of rows. *)
Fixpoint write_batches (fuel : nat) (tenantId : string) (now : Z) (rows : list (string * discovered_device))
    (st : Z * Z * devices) : option (Z * Z * devices) :=
  match fuel, rows with
  | S fuel, _ :: _ =>
      st' ← write_batch tenantId now st (take DISCOVERY_INSERT_BATCH rows);
      write_batches fuel tenantId now (drop DISCOVERY_INSERT_BATCH rows) st'
  | _, _ => Some st
  end.

Definition write_devices (tenantId : string) (now : Z) (rows : list (string * discovered_device)) (m : devices)
    : option (Z * Z * devices) :=
  write_batches (length rows) tenantId now rows (0, 0, m).
End reports.

(** *** Pages and counters *)

(** [stats] when it is an object, [{}] otherwise. *)
Definition stats_record (stats : json) : json := match stats with JObject l => JObject l | _ => JObject [] end.

Definition accepted_chunks (stats : json) : list Z :=
  omap (λ v, match v with JNumber n => if (0 <=? n) && (n <? 128) then Some n else None | _ => None end)
    (json_list (json_field stats "acceptedChunks")).

Definition chunk_digests (stats : json) : list string :=
  map (λ v, match v with JString s => if hex_string 64 s then s else "" | _ => "" end)
    (json_list (json_field stats "chunkDigests")).

Definition count_stat (stats : json) (name : string) : Z :=
  match json_field stats name with Some (JNumber n) => if (0 <=? n) && (n <=? 9007199254740991) then n else 0 | _ => 0 end.

Definition merged_errors (stats : json) (errors : list string) : list string :=
  take 64 (omap (λ v, as_string (Some v)) (json_list (json_field stats "errors")) ++ errors).

(** [while (length <= i) push(""); digests[i] = digest]. *)
Definition set_digest (i : nat) (digest : string) (l : list string) : list string :=
  <[i := digest]> (l ++ replicate (S i - length l) "").

Definition next_stats (stats : json) (r : discovery_report) (digest : string) (inserted updated : Z) : json :=
  JObject ([
    ("candidates", JNumber (coalesce (rp_totalCandidates r) (count_stat stats "candidates" + rp_candidates r)));
    ("inserted", JNumber (count_stat stats "inserted" + inserted));
    ("updated", JNumber (count_stat stats "updated" + updated));
    ("skipped", JNumber (count_stat stats "skipped" + Z.of_nat (length (rp_skipped r))));
    ("errors", JArray (map JString (merged_errors stats (rp_errors r))))] ++
    match rp_chunk r with
    | Some (i, n) => [
        ("chunkCount", JNumber n);
        ("acceptedChunks", JArray (map JNumber (accepted_chunks stats ++ [i])));
        ("chunkDigests", JArray (map JString (set_digest (Z.to_nat i) digest (chunk_digests stats))))]
    | None => []
    end).

(** A complete scan with something skipped or failed is partial. *)
Definition effective_status (stats : json) (r : discovery_report) : string :=
  if ((0 <? count_stat stats "skipped" + Z.of_nat (length (rp_skipped r)))
      || (0 <? Z.of_nat (length (merged_errors stats (rp_errors r))))) && (rp_status r == "completed")
  then "partial" else rp_status r.

Definition reported_scan (status : string) (stats : json) (now : Z) (ds : discovery_session) : discovery_session :=
  if one_of ["completed"; "partial"; "failed"; "cancelled"] status then ended_scan status stats now ds
  else {| ds_tenantId := ds_tenantId ds; ds_agentId := ds_agentId ds; ds_status := ds_status ds; ds_config := ds_config ds;
          ds_stats := stats; ds_startedAt := ds_startedAt ds; ds_completedAt := ds_completedAt ds; ds_updatedAt := now |}.

Inductive report_error : Type :=
| ReportUnauthorized
| ReportInvalid (status : Z)  (** 400 or 413 *)
| AgentNotActive
| DiscoveryNotFound
| ChunkReplayChanged
| ChunkConflict
| DiscoveryNotRunning (status : string)
| ReportFailed.  (** an error the route does not catch *)

Definition report_status (e : report_error) : Z :=
  match e with
  | ReportUnauthorized => 401
  | ReportInvalid status => status
  | DiscoveryNotFound => 404
  | AgentNotActive | ChunkReplayChanged | ChunkConflict | DiscoveryNotRunning _ => 409
  | ReportFailed => 500
  end.

Definition chunk_mismatch (stats : json) (chunk : option (Z * Z)) : bool :=
  match chunk, json_field stats "chunkCount" with
  | Some (_, n), Some v => v != JNumber n
  | _, _ => false
  end.

Section routes.
Context (sha256 : string → string).

(** The page was accepted before: [Some] tells whether its content is the same. *)
Definition chunk_replay (stats : json) (r : discovery_report) (digest : string) : option bool :=
  match rp_chunk r with
  | Some (i, _) =>
      if bool_decide (i ∈ accepted_chunks stats)
      then let original := coalesce (chunk_digests stats !! Z.to_nat i) "" in
           Some ((original == "") || (original == digest))
      else None
  | None => None
  end.

Definition chunk_in_turn (stats : json) (r : discovery_report) : bool :=
  match rp_chunk r with Some (i, _) => Z.of_nat (length (accepted_chunks stats)) =? i | None => true end.

(** The part of the transaction that writes. *)
Definition write_report (agent : agent_identity) (r : discovery_report) (digest : string) (draw : nat → string) (ck : clock)
    (ds : discovery_session) (s : discovery_db) : result (Z * Z * discovery_db) report_error :=
  let stats := stats_record (ds_stats ds) in
  match write_devices (ai_tenantId agent) (now ck)
          (device_rows sha256 (ai_id agent) (rp_discoveryId r) (now ck) draw (rp_devices r)) (discovered_devices s) with
  | None => Err ReportFailed
  | Some (inserted, updated, m) =>
      let row := reported_scan (effective_status stats r) (next_stats stats r digest inserted updated) (now ck) ds in
      Ok (inserted, updated, on_devices m (on_scans (<[rp_discoveryId r := row]> (discovery_sessions s)) s))
  end.

Definition report_transaction (agent : agent_identity) (r : discovery_report) (digest : string) (draw : nat → string)
    (ck : clock) (s : discovery_db) : result (Z * Z * discovery_db) report_error :=
  let t := ai_tenantId agent in
  match requireActiveTenantInTransaction (scan_gateway s) t with
  | Err _ => Err ReportFailed
  | Ok _ =>
      do* throw_if (active_agent t (ai_id agent) (scan_gateway s) != Some "active") AgentNotActive in
      match scan_of t (ai_id agent) (rp_discoveryId r) s with
      | None => Err DiscoveryNotFound
      | Some ds =>
          let stats := stats_record (ds_stats ds) in
          do* throw_if (chunk_mismatch stats (rp_chunk r)) ChunkConflict in
          match chunk_replay stats r digest with
          | Some same => do* throw_if (negb same) ChunkReplayChanged in Ok (0, 0, s)
          | None =>
              do* throw_if (ds_status ds != "running") (DiscoveryNotRunning (ds_status ds)) in
              do* throw_if (negb (chunk_in_turn stats r)) ChunkConflict in
              write_report agent r digest draw ck ds s
          end
      end
  end.

(** [agent] is what the Bearer check answered, with the lifecycle it read. *)
Definition report_POST (agent : option (agent_identity * string)) (content_length : option string) (body : option json)
    (draw : nat → string) (ck : clock) (s : discovery_db)
    : result (Z * Z * list (string * skip_reason) * discovery_db) report_error :=
  match agent with
  | None => Err ReportUnauthorized
  | Some (agent, lifecycle) =>
      do* throw_if (lifecycle != "active") AgentNotActive in
      do* throw_if (hasBodyOverLimit content_length MAX_DISCOVERY_BODY_BYTES) (ReportInvalid 413) in
      match body with
      | Some (JObject l) =>
          match parse_report (JObject l) with
          | Err status => Err (ReportInvalid status)
          | Ok r =>
              let* out := report_transaction agent r (sha256 (stringify (JObject l))) draw ck s in
              let '(inserted, updated, s') := out in
              Ok (inserted, updated, rp_skipped r, s')
          end
      | _ => Err (ReportInvalid 400)
      end
  end.

(** ** [discovery-observation.ts] *)

Definition text_or_null (o : option string) : json := match o with Some s => JString s | None => JNull end.

(** [stableJson] sorts the keys of every object, as [canonicalize] does. *)
Definition stableJson (value : option json) : json := match value with Some v => canonicalize v | None => JNull end.

Definition observation_snapshot (tenantId id : string) (dd : discovered_device) : json :=
  let o := dd_observed dd in
  JArray [
    JString "YASEIR_DISCOVERY_OBSERVATION_V1"; JString tenantId; JString (dd_agentId dd); JString id;
    JString (dd_discoveryId dd); text_or_null (dd_identityKey dd); JString (ob_protocol o); text_or_null (ob_ipAddress o);
    text_or_null (ob_hostname o); match ob_port o with Some p => JNumber p | None => JNull end; text_or_null (ob_uri o);
    text_or_null (ob_spoolerName o); text_or_null (ob_deviceName o); text_or_null (ob_manufacturer o);
    text_or_null (ob_model o); text_or_null (ob_serialNumber o); text_or_null (dd_macAddress dd);
    text_or_null (ob_transport o); JString (ob_deviceClass o); stableJson (ob_capabilities o)].

Definition discoveryObservationFingerprint (tenantId id : string) (dd : discovered_device) : string :=
  sha256 (stringify (observation_snapshot tenantId id dd)).

(** ** Approving a device *)

(** [/^"([a-f0-9]{64})"$/]. *)
Definition quoted_fingerprint (header : string) : option string :=
  match header with
  | String q rest =>
      let inner := slice0 64 rest in
      if (String q "" == dquote) && (rest == inner +:+ dquote) && hex_string 64 inner then Some inner else None
  | EmptyString => None
  end.

Definition virtual_device (dd : discovered_device) : bool :=
  let o := dd_observed dd in
  isVirtualPrinterRecord (Some (device_identity (ob_deviceName o) (ob_spoolerName o) (ob_transport o) (Some (ob_protocol o))
    (ob_capabilities o) (dd_rawMetadata dd))).

Definition set_candidate (verification candidateStatus : string) (printerId : option string) (now : Z) (dd : discovered_device)
    : discovered_device := {|
  dd_discoveryId := dd_discoveryId dd; dd_agentId := dd_agentId dd; dd_source := dd_source dd; dd_observed := dd_observed dd;
  dd_macAddress := dd_macAddress dd; dd_confidence := dd_confidence dd; dd_verification := verification;
  dd_rawMetadata := dd_rawMetadata dd; dd_provisionedPrinterId := printerId; dd_identityKey := dd_identityKey dd;
  dd_candidateStatus := candidateStatus; dd_lastSeenAt := dd_lastSeenAt dd; dd_updatedAt := now |}.

(** [Ok (already, _)]: the device is approved, or was before. *)
Definition verify_device_transaction (claims : ManagerClaims) (agentId deviceId fingerprint : string) (ck : clock) (a : auth_db)
    (s : discovery_db) : result (bool * discovery_db) Z :=
  let t := mc_tenantId claims in
  active_tenant (scan_gateway s) t
    match active_agent t agentId (scan_gateway s) with
    | None => Err 404
    | Some lifecycle =>
        do* throw_if (lifecycle != "active") 409 in
        match device_of t agentId deviceId s with
        | None => Err 404
        | Some dd =>
            fence (requireManagerActorInTransaction a ck claims printers_manage)
              (do* throw_if (virtual_device dd) 404 in
               do* throw_if (discoveryObservationFingerprint t deviceId dd != fingerprint) 409 in
               do* throw_if (dd_candidateStatus dd == "provisioned") 409 in
               if (dd_verification dd == "verified") && (dd_candidateStatus dd == "verified") then Ok (true, s)
               else
                 do* throw_if ((dd_candidateStatus dd != "discovered") || (dd_verification dd != "candidate")) 409 in
                 let row := set_candidate "verified" "verified" (dd_provisionedPrinterId dd) (now ck) dd in
                 Ok (false, on_devices (<[(t, deviceId) := row]> (discovered_devices s)) s))
        end
    end.

Definition verify_device_POST (claims : option ManagerClaims) (agentId deviceId : string) (ifMatch : option string) (ck : clock)
    (a : auth_db) (s : discovery_db) : result (bool * discovery_db) Z :=
  match claims with
  | None => Err 401
  | Some claims =>
      do* throw_if (negb (hasManagerPermission claims printers_manage)) 403 in
      do* throw_if (negb (truthy ifMatch)) 428 in
      match quoted_fingerprint (coalesce ifMatch "") with
      | None => Err 400
      | Some fingerprint => verify_device_transaction claims agentId deviceId fingerprint ck a s
      end
  end.
(** ** Listings *)

(** The agent's poll; there is at most one running session, so the order and
    the limit of five do not show. *)
Definition agent_discovery_GET (agent : option (agent_identity * string)) (ck : clock) (s : discovery_db)
    : result (list (string * discovery_session)) Z * discovery_db :=
  match agent with
  | None => (Err 401, s)
  | Some (agent, lifecycle) =>
      if lifecycle != "active" then (Err 409, s)
      else
        let s' := expireStaleAgentDiscovery (ai_tenantId agent) (ai_id agent) (now ck) s in
        (Ok (take 5 (List.filter (λ e : string * discovery_session, running_scan (ai_tenantId agent) (ai_id agent) e.2)
               (map_to_list (discovery_sessions s')))), s')
  end.

(** The manager's view of one scan: its devices with their fingerprints. *)
Definition scan_GET (claims : option ManagerClaims) (agentId id : string) (ck : clock) (s : discovery_db)
    : result (discovery_session * list (string * discovered_device * string)) Z * discovery_db :=
  match claims with
  | None => (Err 401, s)
  | Some claims =>
      let t := mc_tenantId claims in
      if negb (hasManagerPermission claims agents_read) then (Err 403, s)
      else
        let s' := expireStaleAgentDiscovery t agentId (now ck) s in
        (match scan_of t agentId id s' with
         | None => Err 404
         | Some ds =>
             Ok (ds, omap (λ e : (string * string) * discovered_device,
                             if (e.1.1 == t) && (dd_agentId e.2 == agentId) && (dd_discoveryId e.2 == id)
                             then Some (e.1.2, e.2, discoveryObservationFingerprint t e.1.2 e.2) else None)
                       (map_to_list (discovered_devices s')))
         end, s')
  end.
End routes.

(** ** Deleting an agent *)

(** What [deleteAgent] of [src/app/actions.ts] removes of its scans. *)
Definition delete_discovery (tenantId agentId : string) (s : discovery_db) : discovery_db :=
  on_devices (filter (λ e, ¬ (e.1.1 = tenantId ∧ dd_agentId e.2 = agentId)) (discovered_devices s))
    (on_scans (filter (λ e, ¬ (ds_tenantId e.2 = tenantId ∧ ds_agentId e.2 = agentId)) (discovery_sessions s)) s).

(** ** The range of a scan *)

(** The 32-bit value of four octets. *)
Definition v4_value (a b c d : Z) : Z := ((a * 256 + b) * 256 + c) * 256 + d.

(** Two addresses of one block of [2 ^ (32 - prefix)]. *)
Definition same_block (prefix x y : Z) : Prop := x / 2 ^ (32 - prefix) = y / 2 ^ (32 - prefix).

Lemma block_octets prefix a b c d a' b' c' d' : 16 ≤ prefix ≤ 32 →
  Forall (λ n, 0 ≤ n ≤ 255) [a; b; c; d] → Forall (λ n, 0 ≤ n ≤ 255) [a'; b'; c'; d'] →
  same_block prefix (v4_value a b c d) (v4_value a' b' c' d') → a = a' ∧ b = b'.
Proof.
  rewrite !Forall_cons. intros Hp (? & ? & ? & ? & _) (? & ? & ? & ? & _) Hb. unfold same_block in Hb.
  assert (∀ x, x / 2 ^ (32 - prefix) / 2 ^ (prefix - 16) = x / 65536) as Hdiv.
  { intros x. rewrite Z.div_div by lia. rewrite <-Z.pow_add_r by lia. by replace (32 - prefix + (prefix - 16)) with 16 by lia. }
  apply (f_equal (λ x, x / 2 ^ (prefix - 16))) in Hb. rewrite !Hdiv in Hb. unfold v4_value in Hb.
  rewrite <-(Z.div_unique _ 65536 (a * 256 + b) (c * 256 + d)), <-(Z.div_unique _ 65536 (a' * 256 + b') (c' * 256 + d')) in Hb by lia.
  lia.
Qed.

(** A range that is accepted never leaves the private networks: every address of
    its block is one a printer may have. *)
Theorem scan_stays_private cidr (Hcidr : isPrivateCIDR cidr = true) :
  ∃ ip bits a b c d prefix, split_on "/"%char cidr = [ip; bits] ∧ ip = dotted [a; b; c; d] ∧ decimal_value 0 bits = Some prefix ∧
    16 ≤ prefix ≤ 30 ∧
    ∀ a' b' c' d', Forall (λ n, 0 ≤ n ≤ 255) [a'; b'; c'; d'] →
      same_block prefix (v4_value a b c d) (v4_value a' b' c' d') → isPrivateIPv4 (dotted [a'; b'; c'; d']) = true.
Proof.
  unfold isPrivateCIDR in Hcidr. destruct (split_on "/"%char cidr) as [|ip [|bits [|]]]; try done.
  destruct (negb _); [done|]. destruct (decimal_value 0 bits) as [prefix|] eqn:Hp; [|done].
  destruct (mapM octet (split_on "."%char ip)) as [[|a [|b [|c [|d [|]]]]]|] eqn:Ho; try done.
  apply andb_true_iff in Hcidr as [Hr Hpriv]. bools.
  assert (Forall (λ n, 0 ≤ n ≤ 255) [a; b; c; d] ∧ ip = dotted [a; b; c; d]) as [Hall ->].
  { destruct (split_on_concat "."%char ip) as [Hip _]. apply mapM_Some in Ho. rewrite <-Hip. clear Hip.
    remember (split_on "."%char ip) as ps eqn:Eps. clear Eps.
    inversion Ho as [|p1 ? ps1 ? H1 Ho1]; subst. inversion Ho1 as [|p2 ? ps2 ? H2 Ho2]; subst.
    inversion Ho2 as [|p3 ? ps3 ? H3 Ho3]; subst. inversion Ho3 as [|p4 ? ps4 ? H4 Ho4]; subst. inversion Ho4; subst.
    apply octet_is_text in H1 as [? ->], H2 as [? ->], H3 as [? ->], H4 as [? ->]. by rewrite !Forall_cons. }
  exists (dotted [a; b; c; d]), bits, a, b, c, d, prefix. split_and!; try done. intros a' b' c' d' Hall' Hblock.
  destruct (block_octets prefix a b c d a' b' c' d' ltac:(lia) Hall Hall' Hblock) as [-> ->].
  apply dotted_private; [done|]. unfold private_octets in Hpriv. rewrite !orb_true_iff, !andb_true_iff in Hpriv. lia.
Qed.

Lemma scan_stays_private_witness :
  isPrivateCIDR "10.1.0.0/16" = true ∧
  ∃ ip bits a b c d prefix, split_on "/"%char "10.1.0.0/16" = [ip; bits] ∧ ip = dotted [a; b; c; d] ∧
    decimal_value 0 bits = Some prefix ∧ 16 ≤ prefix ≤ 30.
Proof.
  split; [reflexivity|]. destruct (scan_stays_private "10.1.0.0/16" eq_refl) as (ip & bits & a & b & c & d & prefix & H1 & H2 & H3 & H4 & _).
  exists ip, bits, a, b, c, d, prefix. split_and!; first [assumption|lia].
Defined.

Example scan_ranges :
  map isPrivateCIDR ["10.0.0.0/24"; "172.31.255.0/30"; "192.168.0.0/16"; "10.0.0.0/8"; "172.32.0.0/24"; "169.254.0.0/24"; "010.0.0.0/24"; "10.0.0/24"]
  = [true; true; true; false; false; false; false; false].
Proof. reflexivity. Qed.
