(* ===== verification/Provision.v ===== *)
(** * Provision: a printer from an approved device

    [src/app/api/agents/[id]/discovered-printers/[deviceId]/provision/route.ts].
    An approved device becomes a printer row, or is bound to one that exists for
    the same target. The advisory lock of the tenant's printers and the row locks
    make the transaction one step. [findMany] has no order: the printers are
    taken in the order of the table. The patterns of [printers_type_check] are
    those of the classifier and are not stated again. *)

From S2P Require Import Prelude DatabaseTime JobStatus Json NetworkAddress Schema PrinterModel Authority Availability Payload.
From S2P Require Import PrinterVirtual Capability Entitlements Inventory Samples JobProtocol JobDelivery JobMaintenance AgentJobs.
From S2P Require Import JobService Lifecycle Heartbeat Printers Passwords Discovery.

(** An entry of [protocolMap]; an absent property is [None]. *)
Record transport := {
  tp_protocol : option string;
  tp_connectionType : option string;
}.

Definition transport_to (protocol connectionType : string) : transport :=
  {| tp_protocol := Some protocol; tp_connectionType := Some connectionType |}.

(** [protocolMap[key]]. The table is an object literal, so the two names in
    lower case that every object inherits are found in it too, without either
    property. *)
Definition protocolMap (key : string) : option transport :=
  if key == "ipp" then Some (transport_to "ipp" "ipp")
  else if key == "ipps" then Some (transport_to "ipps" "ipps")
  else if one_of ["raw"; "zpl"; "tspl"; "escpos"] key then Some (transport_to key "network")
  else if one_of ["spooler"; "windows_spooler"] key then Some (transport_to "spooler" "spooler")
  else if one_of ["constructor"; "__proto__"] key then Some {| tp_protocol := None; tp_connectionType := None |}
  else None.

(** [transport.connectionType === "..."]. *)
Definition over (tp : transport) (connectionType : string) : bool := tp_connectionType tp == Some connectionType.
Definition over_ipp (tp : transport) : bool := over tp "ipp" || over tp "ipps".

Inductive provision_error : Type :=
| ProvisionRefused (status : Z)  (** before the transaction, or a caught error *)
| AgentMissing | AgentInactive | DeviceNotFound | DeviceNotApproved
| UnsupportedTransport (protocol : string) | MissingEndpoint | InvalidEndpoint (error : string)
| ProvisionFailed.

Definition provision_status (e : provision_error) : Z :=
  match e with
  | ProvisionRefused status => status
  | AgentMissing | DeviceNotFound => 404
  | AgentInactive | DeviceNotApproved => 409
  | UnsupportedTransport _ | MissingEndpoint | InvalidEndpoint _ => 422
  | ProvisionFailed => 500
  end.

Inductive provisioned : Type := AlreadyPrinter (printerId : string) | CreatedPrinter (printerId : string).

(** [ip] in brackets when it is an IPv6 address. *)
Definition url_host (ip : string) : string := if includes ip ":" then "[" +:+ ip +:+ "]" else ip.

Definition ipp_url (tp : transport) (ip : string) (port : Z) : string :=
  coalesce (tp_protocol tp) "undefined" +:+ "://" +:+ url_host ip +:+ ":" +:+ number_text port +:+ "/ipp/print".

(** [device.ipAddress && device.port]. *)
Definition endpoint_of (o : observation) : option (string * Z) :=
  match ob_ipAddress o, ob_port o with
  | Some ip, Some port => if (ip == "") || (port =? 0) then None else Some (ip, port)
  | _, _ => None
  end.

(** An observed connection that cannot stand for a Windows queue. *)
Definition spooler_mismatch (tp : transport) (o : observation) : bool :=
  let observed := toLowerCase (trim (coalesce (ob_transport o) "")) in
  over tp "spooler" && (observed != "") && (observed != "spooler") &&
  negb ((observed == "usb") && (trim (coalesce (ob_spoolerName o) "") != "")).

Definition field_of (v : option json) (key : string) : option json :=
  match v with Some c => json_field c key | None => None end.

Definition same_transport (tp : transport) (p : printer) : bool :=
  (Some (pr_connectionType p) == tp_connectionType tp) && (Some (pr_protocol p) == tp_protocol tp).

(** The printer the loop stops at: the same address and port, or the same URL. *)
Definition same_target (tp : transport) (o : observation) (ip : string) (port : Z) (p : printer) : bool :=
  let cfg := pr_config p in
  let address := match field_of cfg "address" with Some (JString s) => Some s | _ => None end in
  let expected := coalesce (ob_uri o) (ipp_url tp ip port) in
  same_transport tp p &&
  (((nullish (field_of cfg "ip") (field_of cfg "address") == Some (JString ip)) && (field_of cfg "port" == Some (JNumber port)))
   || (over_ipp tp && ((address == Some expected) || (is_some (ob_uri o) && is_some address && (address == ob_uri o))))).

Definition opt_entry (key : string) (v : option json) : list (string * json) :=
  match v with Some v => [(key, v)] | None => [] end.

(** Properties that are [undefined] are not stored. *)
Definition provisioned_config (tp : transport) (o : observation) : list (string * json) :=
  let queue := match ob_spoolerName o with Some s => Some s | None => ob_deviceName o end in
  let url := match ob_uri o with
             | Some u => Some u
             | None => match endpoint_of o with Some (ip, port) => Some (ipp_url tp ip port) | None => None end
             end in
  if over tp "spooler" then opt_entry "spooler_name" (JString <$> queue) ++ opt_entry "address" (JString <$> queue)
  else if over_ipp tp then opt_entry "address" (JString <$> url)
  else opt_entry "ip" (JString <$> ob_ipAddress o) ++ opt_entry "port" (JNumber <$> ob_port o).

(** A queue of the same name, or the same id with the same configuration. *)
Definition same_queue (tp : transport) (config : list (string * json)) (deviceId : string) (dd : discovered_device) (id : string)
    (p : printer) : bool :=
  same_transport tp p &&
  ((over tp "spooler" && (field_of (pr_config p) "spooler_name" == json_field (JObject config) "spooler_name"))
   || (((Some id == dd_identityKey dd) || (id == deviceId)) &&
       (stringify (canonicalize (coalesce (pr_config p) JNull)) == stringify (canonicalize (JObject config))))).

Definition agent_printer (tenantId agentId : string) (f : string → printer → bool) (P : gmap (string * string) printer)
    : option string :=
  (λ e : (string * string) * printer, e.1.2) <$>
  List.find (λ e : (string * string) * printer, (e.1.1 == tenantId) && (pr_agentId e.2 == agentId) && f e.1.2 e.2)
    (map_to_list P).

(** [undefined] columns take the defaults of the table. *)
Definition provisioned_printer (tp : transport) (agentId deviceId : string) (o : observation) (config : list (string * json))
    (now : Z) : printer := {|
  pr_agentId := agentId;
  pr_name := coalesce (ob_deviceName o) (coalesce (ob_model o) ("Printer " +:+ coalesce (ob_ipAddress o) deviceId));
  pr_printerType := "physical"; pr_deviceClass := ob_deviceClass o;
  pr_connectionType := coalesce (tp_connectionType tp) "network"; pr_protocol := coalesce (tp_protocol tp) "unknown";
  pr_status := "unknown"; pr_lifecycle := "active"; pr_managementSource := "manager";
  pr_sharedWithGateway := true; pr_sharedWithGatewayVersion := None;
  pr_desiredRevision := 1; pr_appliedDesiredRevision := 0; pr_observedDesiredRevision := 0;
  pr_observedDeviceClass := None; pr_config := Some (JObject config);
  pr_capabilities := Some (match ob_capabilities o with Some (JObject l) => JObject l | _ => JObject [] end);
  pr_inventoryPresent := true; pr_inventorySnapshotId := None; pr_lastSeenAt := None; pr_updatedAt := now |}.

Section provision.
Context (URL : string → option url).

(** What the transaction checks of an approved device; the transport to use. *)
Definition target_transport (o : observation) : result transport provision_error :=
  let rawProtocol := toLowerCase (ob_protocol o) in
  match protocolMap rawProtocol with
  | None => Err (UnsupportedTransport (ob_protocol o))
  | Some tp =>
      do* throw_if (spooler_mismatch tp o)
        (UnsupportedTransport (rawProtocol +:+ "/" +:+ toLowerCase (trim (coalesce (ob_transport o) "")))) in
      do* throw_if (match tp_protocol tp with
                    | Some p => one_of ["ipp"; "ipps"; "raw"; "escpos"; "zpl"; "tspl"] p
                    | None => false
                    end && is_none (endpoint_of o)) MissingEndpoint in
      do* throw_if (match tp_protocol tp, endpoint_of o with
                    | Some p, Some (ip, port) =>
                        one_of ["ipp"; "ipps"] p && truthy (ob_uri o) &&
                        negb (discoveryIppUriMatchesEndpoint URL (coalesce (ob_uri o) "") ip port p)
                    | _, _ => false
                    end) (InvalidEndpoint "Discovery IPP URI does not match observed printer IP, port, or transport security") in
      Ok tp
  end.

(** Without a connection type no branch of the check applies. *)
Definition config_error (tp : transport) (config : list (string * json)) : option string :=
  match tp_connectionType tp with
  | Some c => validateConnectionConfig URL c (JObject config) (coalesce (tp_protocol tp) "")
  | None => None
  end.

Definition bind_device (tenantId deviceId printerId : string) (now : Z) (dd : discovered_device) (s : discovery_db) : discovery_db :=
  on_devices (<[(tenantId, deviceId) := set_candidate (dd_verification dd) "provisioned" (Some printerId) now dd]>
                (discovered_devices s)) s.

(** [limit_status]: 429 with the limit, 403 for a billing error, else thrown. *)
Definition by_limit (m : result unit tenant_error) : result unit provision_error :=
  match m with
  | Ok u => Ok u
  | Err e => Err (let st := tenant_status e in if st =? 500 then ProvisionFailed else ProvisionRefused st)
  end.

Definition create_printer (claims : ManagerClaims) (agentId deviceId printerId : string) (tp : transport)
    (config : list (string * json)) (dd : discovered_device) (ck : clock) (s : discovery_db)
    : result (provisioned * discovery_db) provision_error :=
  let t := mc_tenantId claims in
  let d := scan_gateway s in
  do* by_limit (enforceTenantResourceEntitlement d ck t "max_printers" (printer_count t (printers d))) in
  do* throw_if (is_some (printers d !! (t, printerId))) ProvisionFailed in
  let row := provisioned_printer tp agentId deviceId (dd_observed dd) config (now ck) in
  Ok (CreatedPrinter printerId,
      bind_device t deviceId printerId (now ck) dd (on_scan_gateway (put_printer t printerId row d) s)).

Definition provision_approved (claims : ManagerClaims) (agentId deviceId printerId : string) (dd : discovered_device)
    (ck : clock) (s : discovery_db) : result (provisioned * discovery_db) provision_error :=
  let t := mc_tenantId claims in
  let o := dd_observed dd in
  let P := printers (scan_gateway s) in
  let* tp := target_transport o in
  match match endpoint_of o with
        | Some (ip, port) => agent_printer t agentId (λ _, same_target tp o ip port) P
        | None => None
        end with
  | Some id => Ok (AlreadyPrinter id, bind_device t deviceId id (now ck) dd s)
  | None =>
      let config := provisioned_config tp o in
      match config_error tp config with
      | Some e => Err (InvalidEndpoint e)
      | None =>
          match agent_printer t agentId (same_queue tp config deviceId dd) P with
          | Some id => Ok (AlreadyPrinter id, bind_device t deviceId id (now ck) dd s)
          | None => create_printer claims agentId deviceId printerId tp config dd ck s
          end
      end
  end.

Definition provision_transaction (claims : ManagerClaims) (agentId deviceId printerId : string) (ck : clock) (a : auth_db)
    (s : discovery_db) : result (provisioned * discovery_db) provision_error :=
  let t := mc_tenantId claims in
  match requireActiveTenantInTransaction (scan_gateway s) t with
  | Err _ => Err (ProvisionRefused 403)
  | Ok _ =>
      match active_agent t agentId (scan_gateway s) with
      | None => Err AgentMissing
      | Some lifecycle =>
          do* throw_if (lifecycle != "active") AgentInactive in
          match device_of t agentId deviceId s with
          | None => Err DeviceNotFound
          | Some dd =>
              match requireManagerActorInTransaction a ck claims printers_manage with
              | Err _ => Err (ProvisionRefused 403)
              | Ok _ =>
                  if (dd_candidateStatus dd == "provisioned") && truthy (dd_provisionedPrinterId dd)
                  then Ok (AlreadyPrinter (coalesce (dd_provisionedPrinterId dd) ""), s)
                  else
                    do* throw_if ((dd_verification dd != "verified") || (dd_candidateStatus dd != "verified")) DeviceNotApproved in
                    do* throw_if (virtual_device dd) DeviceNotFound in
                    provision_approved claims agentId deviceId printerId dd ck s
              end
          end
      end
  end.

Definition provision_POST (claims : option ManagerClaims) (agentId deviceId nanoid : string) (ck : clock) (a : auth_db)
    (s_read s : discovery_db) : result (provisioned * discovery_db) provision_error :=
  match claims with
  | None => Err (ProvisionRefused 401)
  | Some claims =>
      do* throw_if (negb (hasManagerPermission claims printers_manage)) (ProvisionRefused 403) in
      match active_agent (mc_tenantId claims) agentId (scan_gateway s_read) with
      | None => Err (ProvisionRefused 404)
      | Some lifecycle =>
          do* throw_if (lifecycle != "active") (ProvisionRefused 409) in
          provision_transaction claims agentId deviceId ("printer_" +:+ nanoid) ck a s
      end
  end.
End provision.
