(* ===== verification/DiscoveryRuns.v ===== *)
(** * DiscoveryRuns: scans, pages and approvals over time

    Every request of [Discovery] and [Provision] as an event, the runs they make
    in any order, and what holds of them: an agent has one scan at a time and
    an ended scan stays as it ended; the pages of a report are taken in order,
    once; and a printer is made only from an observation a manager approved by
    its fingerprint. Two results record what the code does not intend. *)

From Stdlib Require Import Ascii.
From S2P Require Import Prelude DatabaseTime JobStatus Json NetworkAddress Schema PrinterModel Authority Availability Payload.
From S2P Require Import PrinterVirtual Capability Entitlements Inventory Samples JobProtocol JobDelivery JobMaintenance AgentJobs.
From S2P Require Import JobService Lifecycle Heartbeat Printers Passwords Discovery Provision.

(** ** The device table *)

(** What a report does to the table: new rows under free ids, and rows of the
    same identity seen again. *)
Section writing.
Context (t : string) (now : Z) (Q : gmap (string * string) discovered_device → Prop).
Context (rows : list (string * discovered_device)).
Hypothesis Hinsert : ∀ row m, row ∈ rows → m !! (t, row.1) = None →
  (dd_identityKey row.2 = None ∨ dd_identityKey row.2 = Some "" ∨ by_identity t row.2 m = None) → Q m → Q (<[(t, row.1) := row.2]> m).
Hypothesis Hupdate : ∀ row m k dd, row ∈ rows → m !! k = Some dd → same_device_identity t row.2 (k, dd) = true → Q m →
  Q (<[k := observed_again now row.2 dd]> m).

Lemma by_identity_Some row m k dd : by_identity t row m = Some (k, dd) → m !! k = Some dd ∧ same_device_identity t row (k, dd) = true.
Proof.
  unfold by_identity. intros H. destruct (List.find_some _ _ H) as [Hin Hs]. split; [|done].
  by apply elem_of_map_to_list, list_elem_of_In.
Qed.

Lemma not_named row : named row = false → dd_identityKey row.2 = None ∨ dd_identityKey row.2 = Some "".
Proof.
  unfold named, truthy. destruct (dd_identityKey row.2) as [k|]; [|by left]. intros H. right. f_equal. by bools.
Qed.

Lemma anonymous_Q l st : l ⊆ rows → Forall (λ r, named r = false) l → Q st.2 → Q (foldl (insert_anonymous t) st l).2.
Proof.
  revert st. induction l as [|row l IH]; intros st Hsub Hn HQ; [done|]. inversion Hn as [|? ? Hrow Hl]; subst.
  simpl. apply IH; [set_solver|done|]. unfold insert_anonymous. destruct (st.2 !! (t, row.1)) eqn:E; [done|]. simpl.
  apply Hinsert; [set_solver|done| |done]. destruct (not_named row Hrow); eauto.
Qed.

Lemma upserts_Q l st st' : l ⊆ rows → upsert_all t now l st = Some st' → Q st.2 → Q st'.2.
Proof.
  revert st. induction l as [|row l IH]; intros st Hsub; simpl; [by intros [= <-]|].
  destruct (upsert_device t now st row) as [st1|] eqn:E; [|done]. simpl. intros H HQ. apply (IH st1); [set_solver|done|].
  unfold upsert_device in E. destruct st as [[i u] m]. simpl in *. destruct (by_identity t row.2 m) as [[k dd]|] eqn:Eb.
  - injection E as <-. apply by_identity_Some in Eb as [Hk Hs]. simpl. apply Hupdate; [set_solver|done..].
  - destruct (m !! (t, row.1)) eqn:Ek; [done|]. simpl in E. injection E as <-. simpl. apply Hinsert; [set_solver|done|by eauto|done].
Qed.

Lemma last_per_identity_sub l : last_per_identity l ⊆ l.
Proof.
  intros r. unfold last_per_identity. rewrite list_elem_of_omap. intros (k & _ & H).
  destruct (List.find_some _ _ H) as [Hin _]. apply list_elem_of_In in Hin. by rewrite elem_of_reverse in Hin.
Qed.

Lemma filter_sub {A} (f : A → bool) (l : list A) : List.filter f l ⊆ l.
Proof. intros x Hx. apply list_elem_of_In, filter_In in Hx as [Hx _]. by apply list_elem_of_In. Qed.

Lemma batch_Q st batch st' : batch ⊆ rows → write_batch t now st batch = Some st' → Q st.2 → Q st'.2.
Proof.
  intros Hsub. unfold write_batch. destruct st as [[i u] m]. simpl.
  destruct (foldl _ _ _) as [n m1] eqn:E. intros H HQ. eapply upserts_Q; [|exact H|].
  - intros r Hr%last_per_identity_sub%filter_sub. by apply Hsub.
  - change (Q (n, m1).2). rewrite <-E. apply anonymous_Q; [|apply Forall_forall|done].
    + intros r Hr%filter_sub. by apply Hsub.
    + intros r Hr. apply list_elem_of_In, filter_In in Hr as [_ Hr]. by apply negb_true_iff.
Qed.

Lemma write_devices_Q m out : write_devices t now rows m = Some out → Q m → Q out.2.
Proof.
  unfold write_devices. enough (∀ fuel l st, l ⊆ rows → write_batches fuel t now l st = Some out → Q st.2 → Q out.2) as H
    by (intros Hw; by apply (H _ _ _ (reflexivity _) Hw)).
  induction fuel as [|fuel IH]; intros l st Hsub; simpl; [by intros [= <-]|].
  destruct l as [|row l]; [by intros [= <-]|]. destruct (write_batch t now st _) as [st1|] eqn:E; [|done]. intros H HQ.
  apply (IH (drop DISCOVERY_INSERT_BATCH (row :: l)) st1); [|done|].
  - intros r Hr. apply Hsub. rewrite <-(take_drop DISCOVERY_INSERT_BATCH (row :: l)). by apply elem_of_app; right.
  - eapply batch_Q; [|exact E|done]. intros r Hr. apply Hsub.
    rewrite <-(take_drop DISCOVERY_INSERT_BATCH (row :: l)). by apply elem_of_app; left.
Qed.
End writing.

(** As many rounds as there are rows are enough. *)
Lemma write_batches_fuel t now fuel fuel' rows st : (length rows ≤ fuel)%nat → (length rows ≤ fuel')%nat →
  write_batches fuel t now rows st = write_batches fuel' t now rows st.
Proof.
  revert fuel' rows st. induction fuel as [|fuel IH]; intros fuel' rows st H H'.
  - by destruct rows; [destruct fuel'|simpl in H; lia].
  - destruct rows as [|row rows]; [by destruct fuel'|]. destruct fuel' as [|fuel']; [simpl in H'; lia|]. cbn -[DISCOVERY_INSERT_BATCH].
    destruct (write_batch t now st _); [|done]. simpl. apply IH; rewrite length_drop; simpl in *; unfold DISCOVERY_INSERT_BATCH; lia.
Qed.

(** ** Pages *)

Lemma json_field_set_key key v l key' : key ≠ key' → json_field (JObject (set_key key v l)) key' = json_field (JObject l) key'.
Proof.
  intros Hne. unfold json_field. f_equal. unfold set_key.
  destruct (existsb _ l) eqn:E.
  - clear E. induction l as [|[k w] l IH]; [done|]. simpl. destruct (k == key) eqn:Ek; simpl.
    + bools. subst. by rewrite (bool_decide_false (key = key')).
    + destruct (k == key'); [done|]. apply IH.
  - clear E. induction l as [|[k w] l IH]; simpl; [by rewrite (bool_decide_false (key = key'))|]. by destruct (k == key').
Qed.

(** What the protocol reads of [stats]. *)
Definition pages (stats : json) : list Z * list string * option json :=
  (accepted_chunks stats, chunk_digests stats, json_field stats "chunkCount").

Lemma pages_abandoned stats : pages (stats_record (add_abandoned stats)) = pages (stats_record stats).
Proof.
  destruct stats; try done. unfold pages, accepted_chunks, chunk_digests. simpl stats_record.
  by rewrite !json_field_set_key by done.
Qed.

Definition page_index (n : Z) : bool := (0 <=? n) && (n <? 128).

Lemma accepted_map l : Forall (λ n, page_index n = true) l →
  omap (λ v, match v with JNumber n => if (0 <=? n) && (n <? 128) then Some n else None | _ => None end) (map JNumber l) = l.
Proof. induction 1 as [|n l Hn _ IH]; [done|]. simpl. unfold page_index in Hn. rewrite Hn. f_equal. exact IH. Qed.

Lemma accepted_range stats : Forall (λ n, page_index n = true) (accepted_chunks stats).
Proof.
  unfold accepted_chunks. apply Forall_forall. intros n. rewrite list_elem_of_omap. intros (v & _ & H).
  destruct v; try done. unfold page_index. by destruct ((0 <=? n0) && (n0 <? 128)) eqn:E; simplify_eq.
Qed.

Definition clean_digest (s : string) : string := if hex_string 64 s then s else "".

Lemma pages_next stats r digest i u : pages (next_stats stats r digest i u) =
  match rp_chunk r with
  | Some (c, n) =>
      (if page_index c then accepted_chunks stats ++ [c] else accepted_chunks stats,
       map clean_digest (set_digest (Z.to_nat c) digest (chunk_digests stats)), Some (JNumber n))
  | None => ([], [], None)
  end.
Proof.
  unfold pages, next_stats. destruct (rp_chunk r) as [[c n]|]; [|done]. f_equal. f_equal.
  - unfold accepted_chunks at 1. cbn -[accepted_chunks merged_errors count_stat].
    change (json_list _) with (map JNumber (accepted_chunks stats ++ [c])).
    rewrite map_app, omap_app, accepted_map by apply accepted_range. simpl. unfold page_index.
    destruct (_ && _); [done|]. by rewrite app_nil_r.
  - unfold chunk_digests at 1. change (json_list _) with (map JString (set_digest (Z.to_nat c) digest (chunk_digests stats))).
    by rewrite map_map.
Qed.

(** The pages of a scan: an initial segment, with a digest for each; a scan in
    pages that is still running misses some, and one that completed none. *)
Definition pages_ok (ds : discovery_session) : Prop :=
  ∃ n : nat, let '(taken, digests, count) := pages (stats_record (ds_stats ds)) in
  taken = seqZ 0 (Z.of_nat n) ∧ length digests = n ∧
  (n = O ∨ ∃ c, count = Some (JNumber c) ∧ Z.of_nat n ≤ c ≤ 128 ∧
     (ds_status ds = "running" → Z.of_nat n < c) ∧ (ds_status ds = "completed" → Z.of_nat n = c)).

Lemma length_set_digest i digest l : length l = i → length (set_digest i digest l) = S i.
Proof. intros H. unfold set_digest. rewrite length_insert, length_app, length_replicate. lia. Qed.

Record report_wf (r : discovery_report) : Prop := {
  rw_status : rp_status r ∈ DISCOVERY_SESSION_STATUS;
  rw_chunk : ∀ i n, rp_chunk r = Some (i, n) → 0 ≤ i < n ∧ n ≤ 128 ∧ (rp_status r = "running" ↔ i < n - 1);
}.

Lemma or_status_Ok {A} (o : option A) st x : or_status o st = Ok x → o = Some x.
Proof. by destruct o; intros; simplify_eq/=. Qed.

Lemma parse_report_wf body r : parse_report body = Ok r → report_wf r.
Proof.
  unfold parse_report. intros (status & Hs & H)%rbind_Ok. apply rbind_Ok in H as (chunk & Hc%or_status_Ok & H).
  apply rbind_Ok in H as ([] & Hcs%throw_if_Ok%negb_false_iff & H).
  repeat (apply rbind_Ok in H as (? & _ & H)). injection H as <-. split; simpl.
  - destruct (json_field body "status") as [[]|]; try done. destruct (one_of _ _) eqn:E; [|done].
    injection Hs as <-. by apply one_of_true.
  - intros i n ->. unfold chunk_of in Hc. destruct (json_field body "chunkIndex") as [[| |i'| | |]|], (json_field body "chunkCount") as [[| |n'| | |]|]; try done.
    destruct (_ || _) eqn:E; [done|]. injection Hc as -> ->. bools. split; [lia|]. split; [lia|].
    unfold chunk_status_ok in Hcs. destruct (i <? n - 1) eqn:El; bools; split; intros; first [done|lia].
Qed.

Lemma effective_cases stats r : effective_status stats r = rp_status r ∨
  effective_status stats r = "partial" ∧ rp_status r = "completed".
Proof.
  unfold effective_status. destruct (_ && _) eqn:E; [|by left]. apply andb_true_iff in E as [_ E]. bools. by right.
Qed.

(** How a report leaves its scan. *)
Lemma reported_status stats r st now ds : report_wf r → ds_status ds = "running" →
  (rp_status r = "running" → ds_status (reported_scan (effective_status stats r) st now ds) = "running") ∧
  (rp_status r ≠ "running" → ds_status (reported_scan (effective_status stats r) st now ds) = effective_status stats r ∧
     effective_status stats r ≠ "running").
Proof.
  intros [Hs _] Hrun. unfold DISCOVERY_SESSION_STATUS in Hs.
  assert (effective_status stats r ∈ ["completed"; "partial"; "failed"; "cancelled"] ∨
          effective_status stats r = "running" ∧ rp_status r = "running") as Hcase.
  { destruct (effective_cases stats r) as [->|[-> _]]; set_solver. }
  unfold reported_scan. destruct Hcase as [H|[H1 H2]].
  - rewrite (proj2 (one_of_true _ _) H). simpl. split; intros Hr.
    + destruct (effective_cases stats r) as [E|[_ E]]; [|congruence]. rewrite E, Hr in H. set_solver.
    + split; [done|]. intros E. rewrite E in H. set_solver.
  - rewrite H1. split; [by intros|done].
Qed.

Lemma seqZ_snoc (n : nat) : seqZ 0 (Z.of_nat n) ++ [Z.of_nat n] = seqZ 0 (Z.of_nat (S n)).
Proof. replace (Z.of_nat (S n)) with (Z.of_nat n + 1) by lia. by rewrite seqZ_app by lia. Qed.

Lemma reported_pages status st now ds : ds_stats (reported_scan status st now ds) = st.
Proof. unfold reported_scan. by destruct (one_of _ _). Qed.

Lemma reported_pages_ok r digest i u now ds : report_wf r → pages_ok ds → ds_status ds = "running" →
  let stats := stats_record (ds_stats ds) in
  chunk_mismatch stats (rp_chunk r) = false → chunk_in_turn stats r = true →
  pages_ok (reported_scan (effective_status stats r) (next_stats stats r digest i u) now ds).
Proof.
  intros Hr [n Hn] Hrun stats Hmis Hturn. unfold pages_ok. rewrite reported_pages.
  change (stats_record (next_stats _ _ _ _ _)) with (next_stats stats r digest i u). rewrite pages_next.
  unfold pages in Hn. fold stats in Hn. destruct Hn as (Ha & Hd & Hc).
  destruct (rp_chunk r) as [[c k]|] eqn:Ek; [|by exists O; split_and!; [..|left]].
  destruct (rw_chunk _ Hr _ _ Ek) as (Hck & Hk & Hst).
  unfold chunk_in_turn in Hturn. rewrite Ek in Hturn. bools. rewrite Ha, length_seqZ in Hturn. rewrite Nat2Z.id in Hturn.
  assert (c = Z.of_nat n) as -> by (apply Z.eqb_eq in Hturn; lia).
  exists (S n). rewrite Ha, seqZ_snoc, Nat2Z.id, length_map, length_set_digest by done.
  assert (page_index (Z.of_nat n) = true) as -> by (unfold page_index; bsplit; lia).
  split_and!; [done..|]. right. exists k. split_and!; [done|lia|lia|..].
  - intros H. destruct (reported_status stats r (next_stats stats r digest i u) now ds Hr Hrun) as [_ H2].
    destruct (decide (rp_status r = "running")) as [E|E]; [|destruct (H2 E) as [H3 H4]; congruence].
    apply Hst in E. lia.
  - intros H. destruct (reported_status stats r (next_stats stats r digest i u) now ds Hr Hrun) as [H1 H2].
    destruct (decide (rp_status r = "running")) as [E|E]; [rewrite (H1 E) in H; done|].
    assert (¬ Z.of_nat n < k - 1) by (intros ?; apply E; by apply Hst). lia.
Qed.

Lemma ended_pages_ok status stats now ds : pages_ok ds → pages (stats_record stats) = pages (stats_record (ds_stats ds)) →
  status ≠ "running" → status ≠ "completed" → pages_ok (ended_scan status stats now ds).
Proof.
  intros [n Hn] E H1 H2. exists n. change (ds_stats (ended_scan _ _ _ _)) with stats. rewrite E.
  change (ds_status (ended_scan _ _ _ _)) with status. destruct (pages _) as [[taken digests] count].
  destruct Hn as (? & ? & [->|(c & ? & ? & _)]); split_and!; try done; [by left|]. right. by exists c.
Qed.

(** ** Events and runs *)

Inductive scan_event : Type :=
| StartScan (claims : option ManagerClaims) (agentId nanoid : string) (body : option json) (s_read : discovery_db)
| CancelScan (claims : option ManagerClaims) (agentId id : string)
| AgentPolls (agent : option (agent_identity * string))
| ManagerLists (tenantId agentId : string)
| ManagerViews (claims : option ManagerClaims) (agentId id : string)
| AgentReports (agent : option (agent_identity * string)) (content_length : option string) (body : option json) (draw : nat → string)
| ApproveDevice (claims : option ManagerClaims) (agentId deviceId : string) (ifMatch : option string)
| ProvisionDevice (claims : option ManagerClaims) (agentId deviceId nanoid : string) (s_read : discovery_db)
| AgentDeleted (tenantId agentId : string)
| GatewayMoves (d : db).

Definition after_commit {A E} (m : result (A * discovery_db) E) (s : discovery_db) : discovery_db :=
  match m with Ok (_, s') => s' | Err _ => s end.

Section runs.
Context (sha256 : string → string) (URL : string → option url).

(** The store after an event; [a] are the session tables at that moment. *)
Definition perform_scan (ev : scan_event) (ck : clock) (a : auth_db) (s : discovery_db) : discovery_db :=
  match ev with
  | StartScan claims agentId nanoid body s_read => after_commit (discovery_POST claims agentId nanoid body ck a s_read s) s
  | CancelScan claims agentId id => match cancel_scan_POST claims agentId id ck a s with Ok s' => s' | Err _ => s end
  | AgentPolls agent => (agent_discovery_GET agent ck s).2
  | ManagerLists tenantId agentId => expireStaleAgentDiscovery tenantId agentId (now ck) s
  | ManagerViews claims agentId id => (scan_GET sha256 claims agentId id ck s).2
  | AgentReports agent cl body draw => after_commit (report_POST sha256 agent cl body draw ck s) s
  | ApproveDevice claims agentId deviceId ifMatch => after_commit (verify_device_POST sha256 claims agentId deviceId ifMatch ck a s) s
  | ProvisionDevice claims agentId deviceId nanoid s_read =>
      after_commit (provision_POST URL claims agentId deviceId nanoid ck a s_read s) s
  | AgentDeleted tenantId agentId => delete_discovery tenantId agentId s
  | GatewayMoves d => on_scan_gateway d s
  end.

Record scan_entry := {
  se_event : scan_event;
  se_clock : clock;
  se_auth : auth_db;
  se_before : discovery_db;
}.

Definition no_scans (d : db) : discovery_db := {| scan_gateway := d; discovery_sessions := ∅; discovered_devices := ∅ |}.

(** The last event comes first. *)
Inductive scan_run : list scan_entry → discovery_db → Prop :=
| sr_start d : scan_run [] (no_scans d)
| sr_step h s ev ck a : scan_run h s →
    scan_run ({| se_event := ev; se_clock := ck; se_auth := a; se_before := s |} :: h) (perform_scan ev ck a s).

Definition scan_step (P : scan_event → Prop) (s s' : discovery_db) : Prop :=
  ∃ ev ck a, P ev ∧ s' = perform_scan ev ck a s.

(** *** What one request does *)

Lemma scan_start_inv claims agentId id config ck a s s' : start_transaction claims agentId id config ck a s = Ok s' →
  let s1 := expireStaleAgentDiscovery (mc_tenantId claims) agentId (now ck) s in
  find_row (running_scan (mc_tenantId claims) agentId) (discovery_sessions s1) = None ∧ discovery_sessions s1 !! id = None ∧
  s' = on_scans (<[id := started_scan (mc_tenantId claims) agentId config (now ck)]> (discovery_sessions s1)) s1.
Proof.
  unfold start_transaction, active_tenant. destruct (requireActiveTenantInTransaction _ _); [|done].
  destruct (active_agent _ _ _); [|done]. intros ([] & _ & H)%rbind_Ok. unfold fence in H.
  destruct (requireManagerActorInTransaction _ _ _ _); [|done]. apply rbind_Ok in H as ([] & H1%throw_if_Ok & H).
  apply rbind_Ok in H as ([] & H2%throw_if_Ok & [= <-]). split_and!; [by destruct (find_row _ _)|by destruct (_ !! id)|done].
Qed.

Lemma cancel_inv claims agentId id ck a s s' : cancel_transaction claims agentId id ck a s = Ok s' →
  ∃ ds, scan_of (mc_tenantId claims) agentId id s = Some ds ∧ ds_status ds = "running" ∧
    s' = on_scans (<[id := ended_scan "cancelled" (ds_stats ds) (now ck) ds]> (discovery_sessions s)) s.
Proof.
  unfold cancel_transaction, active_tenant. destruct (requireActiveTenantInTransaction _ _); [|done].
  destruct (active_agent _ _ _); [|done]. unfold fence. destruct (requireManagerActorInTransaction _ _ _ _); [|done].
  destruct (scan_of _ _ _ _) as [ds|]; [|done]. intros ([] & H%throw_if_Ok & [= <-])%rbind_Ok. exists ds. split_and!; try done.
  by bools.
Qed.

Lemma scan_of_Some t ag id s ds : scan_of t ag id s = Some ds →
  discovery_sessions s !! id = Some ds ∧ ds_tenantId ds = t ∧ ds_agentId ds = ag.
Proof.
  unfold scan_of. destruct (_ !! id) as [ds'|]; [|done]. destruct (_ && _) eqn:E; [|done]. intros [= ->]. by bools.
Qed.

(** A report that writes: its page is the next one of a running scan. *)
Record report_written (agent : agent_identity) (r : discovery_report) (digest : string) (draw : nat → string) (ck : clock)
    (s : discovery_db) (inserted updated : Z) (s' : discovery_db) (ds : discovery_session)
    (m : gmap (string * string) discovered_device) : Prop := {
  wr_scan : scan_of (ai_tenantId agent) (ai_id agent) (rp_discoveryId r) s = Some ds;
  wr_running : ds_status ds = "running";
  wr_count : chunk_mismatch (stats_record (ds_stats ds)) (rp_chunk r) = false;
  wr_new : chunk_replay (stats_record (ds_stats ds)) r digest = None;
  wr_turn : chunk_in_turn (stats_record (ds_stats ds)) r = true;
  wr_devices : write_devices (ai_tenantId agent) (now ck)
    (device_rows sha256 (ai_id agent) (rp_discoveryId r) (now ck) draw (rp_devices r)) (discovered_devices s)
    = Some (inserted, updated, m);
  wr_store : s' = on_devices m (on_scans (<[rp_discoveryId r :=
    reported_scan (effective_status (stats_record (ds_stats ds)) r)
      (next_stats (stats_record (ds_stats ds)) r digest inserted updated) (now ck) ds]> (discovery_sessions s)) s);
}.

Lemma report_inv agent r digest draw ck s i u s' : report_transaction sha256 agent r digest draw ck s = Ok (i, u, s') →
  (i = 0 ∧ u = 0 ∧ s' = s ∧ ∃ ds, scan_of (ai_tenantId agent) (ai_id agent) (rp_discoveryId r) s = Some ds ∧
     chunk_mismatch (stats_record (ds_stats ds)) (rp_chunk r) = false ∧
     chunk_replay (stats_record (ds_stats ds)) r digest = Some true) ∨
  ∃ ds m, report_written agent r digest draw ck s i u s' ds m.
Proof.
  unfold report_transaction. destruct (requireActiveTenantInTransaction _ _); [|done]. intros ([] & _ & H)%rbind_Ok.
  destruct (scan_of _ _ _ _) as [ds|] eqn:Es; [|done]. apply rbind_Ok in H as ([] & Hm%throw_if_Ok & H).
  destruct (chunk_replay _ _ _) as [same|] eqn:Er.
  - left. apply rbind_Ok in H as ([] & Hs%throw_if_Ok%negb_false_iff & [= <- <- <-]). subst. split_and!; try done. eauto.
  - right. apply rbind_Ok in H as ([] & Hr%throw_if_Ok & H). apply rbind_Ok in H as ([] & Ht%throw_if_Ok%negb_false_iff & H).
    unfold write_report in H. destruct (write_devices _ _ _ _) as [[[i' u'] m]|] eqn:Ew; [|done]. injection H as <- <- <-.
    exists ds, m. split; try done. by bools.
Qed.

Lemma report_POST_inv agent cl body draw ck s i u sk s' : report_POST sha256 agent cl body draw ck s = Ok (i, u, sk, s') →
  ∃ ag l r, agent = Some (ag, "active") ∧ body = Some (JObject l) ∧ parse_report (JObject l) = Ok r ∧ sk = rp_skipped r ∧
    report_transaction sha256 ag r (sha256 (stringify (JObject l))) draw ck s = Ok (i, u, s').
Proof.
  unfold report_POST. destruct agent as [[ag life]|]; [|done]. intros ([] & Hl%throw_if_Ok & H)%rbind_Ok.
  apply rbind_Ok in H as ([] & _ & H). destruct body as [[]|]; try done. destruct (parse_report _) as [r|] eqn:Ep; [|done].
  apply rbind_Ok in H as ([[i' u'] s''] & Ht & [= <- <- <- <-]). bools. subst. eexists _, _, _. by split_and!.
Qed.

Lemma device_of_Some t ag id s dd : device_of t ag id s = Some dd → discovered_devices s !! (t, id) = Some dd ∧ dd_agentId dd = ag.
Proof. unfold device_of. destruct (_ !! (t, id)) as [dd'|]; [|done]. destruct (_ == _) eqn:E; [|done]. intros [= ->]. by bools. Qed.

(** An approval that writes. *)
Record approval (claims : ManagerClaims) (agentId id fingerprint : string) (ck : clock) (a : auth_db) (s : discovery_db)
    (dd : discovered_device) : Prop := {
  ap_device : discovered_devices s !! (mc_tenantId claims, id) = Some dd;
  ap_agent : dd_agentId dd = agentId;
  ap_manager : requireManagerActorInTransaction a ck claims printers_manage = Ok tt;
  ap_tenant : requireActiveTenantInTransaction (scan_gateway s) (mc_tenantId claims) = Ok tt;
  ap_seen : discoveryObservationFingerprint sha256 (mc_tenantId claims) id dd = fingerprint;
  ap_physical : virtual_device dd = false;
}.

Lemma approve_inv claims ag id fp ck a s b s' : verify_device_transaction sha256 claims ag id fp ck a s = Ok (b, s') →
  ∃ dd, approval claims ag id fp ck a s dd ∧
    (s' = s ∨ dd_candidateStatus dd = "discovered" ∧
     s' = on_devices (<[(mc_tenantId claims, id) := set_candidate "verified" "verified" (dd_provisionedPrinterId dd) (now ck) dd]>
            (discovered_devices s)) s).
Proof.
  unfold verify_device_transaction, active_tenant. destruct (requireActiveTenantInTransaction _ _) as [[]|] eqn:Et; [|done].
  destruct (active_agent _ _ _); [|done]. intros ([] & _ & H)%rbind_Ok. destruct (device_of _ _ _ _) as [dd|] eqn:Ed; [|done].
  apply device_of_Some in Ed as [Hd Ha]. unfold fence in H. destruct (requireManagerActorInTransaction _ _ _ _) as [[]|] eqn:Em; [|done].
  apply rbind_Ok in H as ([] & Hv%throw_if_Ok & H). apply rbind_Ok in H as ([] & Hf%throw_if_Ok%negb_false_iff & H).
  apply rbind_Ok in H as ([] & _ & H). bools. exists dd. split; [by split|].
  destruct (_ && _); [injection H as <- <-; by left|]. apply rbind_Ok in H as ([] & Hs%throw_if_Ok & [= <- <-]).
  apply orb_false_iff in Hs as [Hs _]. right. by bools.
Qed.

Lemma verify_POST_inv claims ag id ifMatch ck a s b s' : verify_device_POST sha256 claims ag id ifMatch ck a s = Ok (b, s') →
  ∃ c header fp, claims = Some c ∧ ifMatch = Some header ∧ quoted_fingerprint header = Some fp ∧
    verify_device_transaction sha256 c ag id fp ck a s = Ok (b, s').
Proof.
  unfold verify_device_POST. destruct claims as [c|]; [|done]. intros ([] & _ & H)%rbind_Ok.
  apply rbind_Ok in H as ([] & Hi%throw_if_Ok%negb_false_iff & H). destruct ifMatch as [header|]; [|done]. simpl in H.
  destruct (quoted_fingerprint header) as [fp|] eqn:Eq; [|done]. by exists c, header, fp.
Qed.

(** Binding a device keeps everything else of the tables of discovery. *)
Lemma approved_inv claims ag id pid dd ck s out s' : provision_approved URL claims ag id pid dd ck s = Ok (out, s') →
  ∃ printerId, discovery_sessions s' = discovery_sessions s ∧
    discovered_devices s' = <[(mc_tenantId claims, id) := set_candidate (dd_verification dd) "provisioned" (Some printerId) (now ck) dd]>
      (discovered_devices s).
Proof.
  unfold provision_approved. intros (tp & _ & H)%rbind_Ok.
  destruct (match endpoint_of _ with Some _ => _ | None => _ end) as [id'|]; [injection H as <- <-; by eexists|].
  destruct (config_error _ _ _); [done|]. destruct (agent_printer _ _ _ _); [injection H as <- <-; by eexists|].
  unfold create_printer in H. apply rbind_Ok in H as ([] & _ & H). apply rbind_Ok in H as ([] & _ & [= <- <-]). by eexists.
Qed.

Lemma provision_inv claims ag id pid ck a s out s' : provision_transaction URL claims ag id pid ck a s = Ok (out, s') →
  ∃ dd, discovered_devices s !! (mc_tenantId claims, id) = Some dd ∧ dd_agentId dd = ag ∧
    requireManagerActorInTransaction a ck claims printers_manage = Ok tt ∧
    ((s' = s ∧ dd_candidateStatus dd = "provisioned" ∧ ∃ p, dd_provisionedPrinterId dd = Some p ∧ out = AlreadyPrinter p) ∨
     (dd_verification dd = "verified" ∧ dd_candidateStatus dd = "verified" ∧ virtual_device dd = false ∧
      provision_approved URL claims ag id pid dd ck s = Ok (out, s'))).
Proof.
  unfold provision_transaction. destruct (requireActiveTenantInTransaction _ _); [|done]. destruct (active_agent _ _ _); [|done].
  intros ([] & _ & H)%rbind_Ok. destruct (device_of _ _ _ _) as [dd|] eqn:Ed; [|done]. apply device_of_Some in Ed as [Hd Ha].
  destruct (requireManagerActorInTransaction _ _ _ _) as [[]|] eqn:Em; [|done]. exists dd. split_and!; [done..|].
  destruct (_ && _) eqn:E.
  - left. injection H as <- <-. bools. split_and!; try done. destruct (dd_provisionedPrinterId dd) as [p|]; [|done]. by exists p.
  - right. apply rbind_Ok in H as ([] & Hv%throw_if_Ok & H). apply rbind_Ok in H as ([] & Hp%throw_if_Ok & H).
    apply orb_false_iff in Hv as [H1 H2]. bools. by split_and!.
Qed.

Lemma provision_POST_inv claims ag id nanoid ck a s_read s out s' :
  provision_POST URL claims ag id nanoid ck a s_read s = Ok (out, s') →
  ∃ c, claims = Some c ∧ provision_transaction URL c ag id ("printer_" +:+ nanoid) ck a s = Ok (out, s').
Proof.
  unfold provision_POST. destruct claims as [c|]; [|done]. intros ([] & _ & H)%rbind_Ok. destruct (active_agent _ _ _); [|done].
  apply rbind_Ok in H as ([] & _ & H). by exists c.
Qed.

(** *** The scans after one event *)

Inductive scans_step (ev : scan_event) (ck : clock) (s s' : discovery_db) : Prop :=
| ss_same : discovery_sessions s' = discovery_sessions s → scans_step ev ck s s'
| ss_expire t ag :
    discovery_sessions s' = discovery_sessions (expireStaleAgentDiscovery t ag (now ck) s) → scans_step ev ck s s'
| ss_start t ag id config :
    let m1 := discovery_sessions (expireStaleAgentDiscovery t ag (now ck) s) in
    find_row (running_scan t ag) m1 = None → m1 !! id = None →
    discovery_sessions s' = <[id := started_scan t ag config (now ck)]> m1 → scans_step ev ck s s'
| ss_cancel id ds : discovery_sessions s !! id = Some ds → ds_status ds = "running" →
    discovery_sessions s' = <[id := ended_scan "cancelled" (ds_stats ds) (now ck) ds]> (discovery_sessions s) → scans_step ev ck s s'
| ss_report ag cl l draw r i u ds m : ev = AgentReports (Some (ag, "active")) cl (Some (JObject l)) draw →
    parse_report (JObject l) = Ok r →
    report_written ag r (sha256 (stringify (JObject l))) draw ck s i u s' ds m → scans_step ev ck s s'
| ss_delete t ag : ev = AgentDeleted t ag →
    discovery_sessions s' = filter (λ e, ¬ (ds_tenantId e.2 = t ∧ ds_agentId e.2 = ag)) (discovery_sessions s) →
    scans_step ev ck s s'.

Lemma step_scans ev ck a s : scans_step ev ck s (perform_scan ev ck a s).
Proof.
  destruct ev as [claims ag nanoid body s_read|claims ag id|agent|t ag|claims ag id|agent cl body draw|claims ag id im|
    claims ag id nanoid s_read|t ag|d]; simpl.
  - destruct (discovery_POST _ _ _ _ _ _ _ _) as [[x s']|] eqn:E; [|by apply ss_same]. simpl. unfold discovery_POST in E.
    destruct claims as [c|]; [|done]. apply rbind_Ok in E as ([] & _ & E). destruct (active_agent _ _ _); [|done].
    apply rbind_Ok in E as ([] & _ & E). apply rbind_Ok in E as (b & _ & E). apply rbind_Ok in E as (config & _ & E).
    apply rbind_Ok in E as (s1 & (H1 & H2 & ->)%scan_start_inv & [= <- <-]). by eapply ss_start.
  - destruct (cancel_scan_POST _ _ _ _ _ _) as [s'|] eqn:E; [|by apply ss_same]. unfold cancel_scan_POST in E. destruct claims as [c|]; [|done].
    apply rbind_Ok in E as ([] & _ & (ds & (Hds & _ & _)%scan_of_Some & Hr & ->)%cancel_inv). by eapply ss_cancel.
  - unfold agent_discovery_GET. destruct agent as [[ag life]|]; [|by apply ss_same]. destruct (_ != _); [by apply ss_same|].
    by eapply ss_expire.
  - by eapply ss_expire.
  - unfold scan_GET. destruct claims as [c|]; [|by apply ss_same]. destruct (negb _); [by apply ss_same|]. by eapply ss_expire.
  - destruct (report_POST _ _ _ _ _ _ _) as [[[[i u] sk] s']|] eqn:E; [|by apply ss_same]. simpl.
    apply report_POST_inv in E as (ag & l & r & -> & -> & Hp & -> & [(_ & _ & -> & _)|(ds & m & Hw)]%report_inv); [by apply ss_same|].
    by eapply ss_report.
  - destruct (verify_device_POST _ _ _ _ _ _ _ _) as [[b s']|] eqn:E; [|by apply ss_same]. simpl.
    apply verify_POST_inv in E as (c & header & fp & -> & -> & _ & (dd & _ & [->|[_ ->]])%approve_inv); by apply ss_same.
  - destruct (provision_POST _ _ _ _ _ _ _ _ _) as [[out s']|] eqn:E; [|by apply ss_same]. simpl.
    apply provision_POST_inv in E as (c & -> & (dd & _ & _ & _ & [(-> & _)|(_ & _ & _ & (p & H & _)%approved_inv)])%provision_inv);
      by apply ss_same.
  - by eapply ss_delete.
  - by apply ss_same.
Qed.

(** *** One scan *)

Record scan_closed (ds ds' : discovery_session) : Prop := {
  sc_was : ds_status ds = "running";
  sc_is : ds_status ds' ∈ ["partial"; "failed"; "cancelled"];
  sc_pages : pages (stats_record (ds_stats ds')) = pages (stats_record (ds_stats ds));
  sc_tenant : ds_tenantId ds' = ds_tenantId ds;
  sc_agent : ds_agentId ds' = ds_agentId ds;
}.

Lemma lookup_expire t ag now s id :
  discovery_sessions (expireStaleAgentDiscovery t ag now s) !! id
  = expire_scan t ag now (discovered_devices s) id <$> discovery_sessions s !! id.
Proof. unfold expireStaleAgentDiscovery. simpl. rewrite map_lookup_imap. by destruct (_ !! id). Qed.

Lemma expire_scan_cases t ag now m id ds : expire_scan t ag now m id ds = ds ∨ scan_closed ds (expire_scan t ag now m id ds).
Proof.
  unfold expire_scan. destruct (stale_scan t ag now ds) eqn:E; [right|by left]. unfold stale_scan in E. bools.
  split; simpl; try done; [destruct (scan_has_devices id ds m); set_solver|apply pages_abandoned].
Qed.

Lemma expired_lookup t ag now s id ds' :
  discovery_sessions (expireStaleAgentDiscovery t ag now s) !! id = Some ds' →
  ∃ ds, discovery_sessions s !! id = Some ds ∧ (ds' = ds ∨ scan_closed ds ds').
Proof.
  rewrite lookup_expire. intros (ds & Hds & ->)%fmap_Some. exists ds. split; [done|]. apply expire_scan_cases.
Qed.

Lemma closed_not_running t ag ds ds' : scan_closed ds ds' → running_scan t ag ds' = false.
Proof.
  intros [_ H _ _ _]. unfold running_scan. rewrite (bool_decide_false (ds_status ds' = "running")); [by rewrite andb_false_r|].
  intros E. rewrite E in H. set_solver.
Qed.

(** A report that wrote, as an event. *)
Definition report_event (ev : scan_event) (ck : clock) (s s' : discovery_db) (id : string) (ds : discovery_session)
    (r : discovery_report) (digest : string) : Prop :=
  ∃ ag cl l draw i u m, ev = AgentReports (Some (ag, "active")) cl (Some (JObject l)) draw ∧ parse_report (JObject l) = Ok r ∧
    digest = sha256 (stringify (JObject l)) ∧ rp_discoveryId r = id ∧ report_written ag r digest draw ck s i u s' ds m.

Lemma report_event_scan ev ck s s' id ds r digest : report_event ev ck s s' id ds r digest →
  ∃ i u, discovery_sessions s' !! id = Some (reported_scan (effective_status (stats_record (ds_stats ds)) r)
    (next_stats (stats_record (ds_stats ds)) r digest i u) (now ck) ds).
Proof.
  intros (ag & cl & l & draw & i & u & m & _ & _ & _ & <- & [_ _ _ _ _ _ ->]). exists i, u. simpl. by rewrite lookup_insert_eq.
Qed.

Lemma step_one ev ck a s id ds ds' : discovery_sessions s !! id = Some ds →
  discovery_sessions (perform_scan ev ck a s) !! id = Some ds' →
  ds' = ds ∨ scan_closed ds ds' ∨ ∃ r digest, report_event ev ck s (perform_scan ev ck a s) id ds r digest.
Proof.
  intros Hds. destruct (step_scans ev ck a s) as [E|t ag E|t ag id0 config m1 _ Hn E|id0 ds0 Hds0 Hr E|
    ag cl l draw r i u ds0 m Hev Hp Hw|t ag _ E]; [rewrite E..| |rewrite E].
  - rewrite Hds. intros [= ->]. by left.
  - intros (ds1 & Hds1 & H)%expired_lookup. rewrite Hds in Hds1. injection Hds1 as <-. tauto.
  - intros [[<- <-]|[_ H]]%lookup_insert_Some.
    + unfold m1 in Hn. by rewrite lookup_expire, Hds in Hn.
    + apply expired_lookup in H as (ds1 & Hds1 & H). rewrite Hds in Hds1. injection Hds1 as <-. tauto.
  - intros [[<- <-]|[_ H]]%lookup_insert_Some; [|left; congruence]. rewrite Hds in Hds0. injection Hds0 as <-. right. left.
    split; simpl; try done. set_solver.
  - intros H. destruct (decide (rp_discoveryId r = id)) as [Heq|Hne].
    + right. right. exists r, (sha256 (stringify (JObject l))), ag, cl, l, draw, i, u, m. split_and!; try done.
      enough (ds0 = ds) as <- by done. pose proof (wr_scan _ _ _ _ _ _ _ _ _ _ _ Hw) as (Hs & _)%scan_of_Some. congruence.
    + left. rewrite (wr_store _ _ _ _ _ _ _ _ _ _ _ Hw) in H. simpl in H. rewrite lookup_insert_ne in H by done. congruence.
  - intros [H _]%map_lookup_filter_Some. left. congruence.
Qed.

Lemma step_new ev ck a s id ds' : discovery_sessions s !! id = None →
  discovery_sessions (perform_scan ev ck a s) !! id = Some ds' → ∃ t ag config, ds' = started_scan t ag config (now ck).
Proof.
  intros Hn. destruct (step_scans ev ck a s) as [E|t ag E|t ag id0 config m1 _ _ E|id0 ds0 Hds0 Hr E|
    ag cl l draw r i u ds0 m Hev Hp Hw|t ag _ E]; [rewrite E..| |rewrite E].
  - congruence.
  - intros (ds1 & Hds1 & H)%expired_lookup. congruence.
  - intros [[<- <-]|[_ H]]%lookup_insert_Some; [by exists t, ag, config|]. apply expired_lookup in H as (ds1 & Hds1 & H). congruence.
  - intros [[<- <-]|[_ H]]%lookup_insert_Some; congruence.
  - pose proof (wr_scan _ _ _ _ _ _ _ _ _ _ _ Hw) as (Hs & _)%scan_of_Some.
    rewrite (wr_store _ _ _ _ _ _ _ _ _ _ _ Hw). simpl. intros [[<- <-]|[_ H]]%lookup_insert_Some; congruence.
  - intros [H _]%map_lookup_filter_Some. congruence.
Qed.

(** *** At most one runs *)

Definition running_at (m : gmap string discovery_session) (t ag id : string) : Prop :=
  ∃ ds, m !! id = Some ds ∧ running_scan t ag ds = true.

Definition one_running (m : gmap string discovery_session) : Prop :=
  ∀ t ag x y, running_at m t ag x → running_at m t ag y → x = y.

Lemma expired_running t0 ag0 now s t ag id :
  running_at (discovery_sessions (expireStaleAgentDiscovery t0 ag0 now s)) t ag id → running_at (discovery_sessions s) t ag id.
Proof.
  intros (ds & (ds0 & H0 & [->|Hc])%expired_lookup & Hr); [by exists ds0|]. by rewrite (closed_not_running _ _ _ _ Hc) in Hr.
Qed.

Lemma one_running_sub (m m' : gmap string discovery_session) :
  (∀ t ag id, running_at m' t ag id → running_at m t ag id) → one_running m → one_running m'.
Proof. intros Hsub H t ag x y ? ?. eapply H; eauto. Qed.

Lemma one_running_step ev ck a s : one_running (discovery_sessions s) → one_running (discovery_sessions (perform_scan ev ck a s)).
Proof.
  intros H1. destruct (step_scans ev ck a s) as [E|t ag E|t ag id0 config m1 Hnone _ E|id0 ds0 Hds0 Hr E|
    ag cl l draw r i u ds0 m Hev Hp Hw|t ag _ E]; [rewrite E..| |rewrite E].
  - done.
  - eapply one_running_sub; [|exact H1]. apply expired_running.
  - assert (one_running m1) as Hm1 by (eapply one_running_sub; [apply expired_running|exact H1]).
    assert (∀ x t' ag', running_at (<[id0 := started_scan t ag config (now ck)]> m1) t' ag' x →
      x = id0 ∧ t' = t ∧ ag' = ag ∨ running_at m1 t' ag' x) as Hx.
    { intros x t' ag' (ds & [[<- <-]|[_ H]]%lookup_insert_Some & Hr); [|right; by exists ds].
      left. unfold running_scan in Hr. simpl in Hr. by bools. }
    intros t' ag' x y Hrx Hry. apply Hx in Hrx as [(-> & -> & ->)|Hrx], Hry as [(-> & ? & ?)|Hry]; subst; try done.
    + destruct Hry as (ds & Hds & Hr). pose proof (find_row_None _ _ _ _ Hnone Hds). congruence.
    + destruct Hrx as (ds & Hds & Hr). pose proof (find_row_None _ _ _ _ Hnone Hds). congruence.
    + by eapply Hm1.
  - eapply one_running_sub; [|exact H1]. intros t ag id (ds & [[<- <-]|[_ Hl]]%lookup_insert_Some & Hrun); [|by exists ds].
    unfold running_scan in Hrun. simpl in Hrun. by rewrite andb_false_r in Hrun.
  - eapply one_running_sub; [|exact H1]. rewrite (wr_store _ _ _ _ _ _ _ _ _ _ _ Hw). simpl.
    pose proof (wr_scan _ _ _ _ _ _ _ _ _ _ _ Hw) as (Hs & _)%scan_of_Some.
    intros t' ag' id (ds & [[<- <-]|[_ Hl]]%lookup_insert_Some & Hrun); [|by exists ds].
    exists ds0. split; [done|]. pose proof (wr_running _ _ _ _ _ _ _ _ _ _ _ Hw) as Hst.
    unfold running_scan, reported_scan in *. rewrite Hst. by destruct (one_of _ _); simpl in Hrun; bools; bsplit.
  - eapply one_running_sub; [|exact H1]. intros t' ag' id (ds & [Hl _]%map_lookup_filter_Some & Hrun). by exists ds.
Qed.

Lemma closed_pages_ok ds ds' : scan_closed ds ds' → pages_ok ds → pages_ok ds'.
Proof.
  intros [_ H E _ _] [n Hn]. exists n. rewrite E. destruct (pages _) as [[taken digests] count].
  destruct Hn as (? & ? & [->|(c & ? & ? & _)]); split_and!; try done; [by left|]. right. exists c.
  split_and!; try done; try lia; intros Es; rewrite Es in H; set_solver.
Qed.

Lemma run_scans h s : scan_run h s →
  one_running (discovery_sessions s) ∧ ∀ id ds, discovery_sessions s !! id = Some ds → pages_ok ds.
Proof.
  induction 1 as [d|h s ev ck a Hrun [IH1 IH2]]; [split; [by intros ? ? ? ? (? & [=] & _)|done]|].
  split; [by apply one_running_step|]. intros id ds' Hds'. destruct (discovery_sessions s !! id) as [ds|] eqn:Hds.
  - destruct (step_one _ _ _ _ _ _ _ Hds Hds') as [->|[Hc|(r & digest & He)]]; [by eapply IH2|by eapply closed_pages_ok, IH2|].
    destruct (report_event_scan _ _ _ _ _ _ _ _ He) as (i & u & Hl). rewrite Hds' in Hl. injection Hl as ->.
    destruct He as (ag & cl & l & draw & i' & u' & m & _ & Hp%parse_report_wf & _ & <- & [Hs Hr Hm _ Ht _ _]).
    apply reported_pages_ok; try done. by eapply IH2.
  - destruct (step_new _ _ _ _ _ _ Hds Hds') as (t & ag & config & ->). exists O. split_and!; [done..|by left].
Qed.

Definition no_deletion (ev : scan_event) : Prop := ∀ t ag, ev ≠ AgentDeleted t ag.

Lemma step_keeps ev ck a s id ds : no_deletion ev → discovery_sessions s !! id = Some ds →
  is_Some (discovery_sessions (perform_scan ev ck a s) !! id).
Proof.
  intros Hev Hds. destruct (step_scans ev ck a s) as [E|t ag E|t ag id0 config m1 _ _ E|id0 ds0 _ _ E|
    ag cl l draw r i u ds0 m _ _ Hw|t ag Hd E]; [rewrite E..| |by destruct (Hev _ _ Hd)].
  - by rewrite Hds.
  - rewrite lookup_expire, Hds. by eexists.
  - apply lookup_insert_is_Some'. right. unfold m1. rewrite lookup_expire, Hds. by eexists.
  - apply lookup_insert_is_Some'. right. by eexists.
  - rewrite (wr_store _ _ _ _ _ _ _ _ _ _ _ Hw). simpl. apply lookup_insert_is_Some'. right. by eexists.
Qed.

Lemma ended_stays s s' id ds : rtc (scan_step no_deletion) s s' → discovery_sessions s !! id = Some ds →
  ds_status ds ≠ "running" → discovery_sessions s' !! id = Some ds.
Proof.
  induction 1 as [|s s1 s' (ev & ck & a & Hev & ->) _ IH]; [done|]. intros Hds Hne. apply IH; [|done].
  destruct (step_keeps ev ck a s id ds Hev Hds) as [ds' Hds'].
  destruct (step_one _ _ _ _ _ _ _ Hds Hds') as [->|[[? _ _ _ _]|(r & digest & He)]]; [done|congruence|].
  destruct He as (? & ? & ? & ? & ? & ? & ? & _ & _ & _ & _ & [_ ? _ _ _ _ _]). congruence.
Qed.


(** ** Pages are taken once *)

(** Neither an unnumbered report to this scan, which forgets its pages, nor the
    deletion of an agent. *)
Definition keeps_pages (id : string) (ev : scan_event) : Prop :=
  no_deletion ev ∧
  match ev with
  | AgentReports _ _ (Some body) _ => ∀ r, parse_report body = Ok r → rp_discoveryId r = id → is_Some (rp_chunk r)
  | _ => True
  end.

Definition page_recorded (id t ag : string) (i n : Z) (digest : string) (s : discovery_db) : Prop :=
  ∃ ds, discovery_sessions s !! id = Some ds ∧ ds_tenantId ds = t ∧ ds_agentId ds = ag ∧
    let stats := stats_record (ds_stats ds) in
    i ∈ accepted_chunks stats ∧ chunk_digests stats !! Z.to_nat i = Some digest ∧ json_field stats "chunkCount" = Some (JNumber n).

Lemma clean_hex s : hex_string 64 s = true → clean_digest s = s.
Proof. unfold clean_digest. by intros ->. Qed.

Lemma set_digest_same i digest l : set_digest i digest l !! i = Some digest.
Proof. unfold set_digest. apply list_lookup_insert_eq. rewrite length_app, length_replicate. lia. Qed.

Lemma set_digest_other i j digest l x : l !! j = Some x → i ≠ j → set_digest i digest l !! j = Some x.
Proof. intros H Hne. unfold set_digest. rewrite list_lookup_insert_ne by done. by apply lookup_app_l_Some. Qed.

(** What a written page leaves. *)
Lemma pages_reported r digest ins upd now ds c n : rp_chunk r = Some (c, n) → 0 ≤ c < 128 →
  let stats := stats_record (ds_stats ds) in
  let stats' := stats_record (ds_stats (reported_scan (effective_status stats r) (next_stats stats r digest ins upd) now ds)) in
  accepted_chunks stats' = accepted_chunks stats ++ [c] ∧
  chunk_digests stats' = map clean_digest (set_digest (Z.to_nat c) digest (chunk_digests stats)) ∧
  json_field stats' "chunkCount" = Some (JNumber n).
Proof.
  intros Hc Hr stats. rewrite reported_pages. intros stats'.
  pose proof (pages_next stats r digest ins upd) as H. rewrite Hc in H. unfold pages in H.
  assert (page_index c = true) as Hp by (unfold page_index; bsplit; lia). rewrite Hp in H. by injection H.
Qed.

Section digests.
Context (Hhex : ∀ x, hex_string 64 (sha256 x) = true).

Lemma written_recorded ag r x draw ck s i u s' ds m c n : report_wf r → rp_chunk r = Some (c, n) →
  report_written ag r (sha256 x) draw ck s i u s' ds m →
  page_recorded (rp_discoveryId r) (ai_tenantId ag) (ai_id ag) c n (sha256 x) s'.
Proof.
  intros Hwf Hc Hw. destruct (rw_chunk _ Hwf _ _ Hc) as (Hr & Hn & _).
  pose proof (wr_scan _ _ _ _ _ _ _ _ _ _ _ Hw) as (_ & Ht & Ha)%scan_of_Some.
  rewrite (wr_store _ _ _ _ _ _ _ _ _ _ _ Hw). eexists. split; [apply lookup_insert_eq|].
  destruct (pages_reported r (sha256 x) i u (now ck) ds c n Hc ltac:(lia)) as (E1 & E2 & E3).
  cbv zeta. split_and!; [unfold reported_scan; by destruct (one_of _ _)|unfold reported_scan; by destruct (one_of _ _)| | |exact E3].
  - rewrite E1. set_solver.
  - rewrite E2, list_lookup_fmap, set_digest_same. simpl. by rewrite clean_hex.
Qed.

Lemma recorded_step ev ck a s id t ag i n x : keeps_pages id ev → page_recorded id t ag i n (sha256 x) s →
  page_recorded id t ag i n (sha256 x) (perform_scan ev ck a s).
Proof.
  intros [Hd Hk] (ds & Hds & Ht & Ha & Hi & Hg & Hn). destruct (step_keeps ev ck a s id ds Hd Hds) as [ds' Hds']. exists ds'.
  destruct (step_one _ _ _ _ _ _ _ Hds Hds') as [->|[[_ _ E Et Ea]|(r & digest & He)]]; [done|..].
  - unfold pages in E. injection E as E1 E2 E3. cbv zeta. split_and!; [done|congruence|congruence|by rewrite E1|by rewrite E2|by rewrite E3].
  - destruct (report_event_scan _ _ _ _ _ _ _ _ He) as (i' & u & Hl). rewrite Hds' in Hl. injection Hl as ->.
    destruct He as (ag' & cl & l & draw & i0 & u0 & m & -> & Hp & Hdg & Hid & Hw).
    destruct (Hk r Hp Hid) as [[c k] Hc]. pose proof (parse_report_wf _ _ Hp) as Hwf.
    destruct (rw_chunk _ Hwf _ _ Hc) as (Hr & Hkk & _).
    destruct (pages_reported r digest i' u (now ck) ds c k Hc ltac:(lia)) as (E1 & E2 & E3).
    pose proof (wr_new _ _ _ _ _ _ _ _ _ _ _ Hw) as Hnew. unfold chunk_replay in Hnew. rewrite Hc in Hnew.
    destruct (bool_decide _) eqn:Hin in Hnew; [done|]. apply bool_decide_eq_false in Hin.
    pose proof (wr_count _ _ _ _ _ _ _ _ _ _ _ Hw) as Hcount. unfold chunk_mismatch in Hcount. rewrite Hc, Hn in Hcount. bools.
    injection Hcount as ->.
    assert (0 ≤ i < 128) as Hi0.
    { pose proof (accepted_range (stats_record (ds_stats ds))) as Hrng. rewrite Forall_forall in Hrng.
      specialize (Hrng _ Hi). unfold page_index in Hrng. bools. lia. }
    cbv zeta. split_and!; [done|unfold reported_scan; by destruct (one_of _ _)|unfold reported_scan; by destruct (one_of _ _)| | |exact E3].
    + rewrite E1. set_solver.
    + rewrite E2, list_lookup_fmap, (set_digest_other _ _ _ _ _ Hg); [simpl; by rewrite clean_hex|].
      intros E. apply Hin. assert (c = i) as -> by lia. done.
Qed.

Lemma recorded_steps id t ag i n x s s' : rtc (scan_step (keeps_pages id)) s s' →
  page_recorded id t ag i n (sha256 x) s → page_recorded id t ag i n (sha256 x) s'.
Proof.
  induction 1 as [|s s1 s' (ev & ck & a & Hev & ->) _ IH]; [done|]. intros H. apply IH. by apply recorded_step.
Qed.

(** How a numbered report is answered when its page was taken. *)
Lemma recorded_answer ag r digest draw ck s id i n n' x : page_recorded id (ai_tenantId ag) (ai_id ag) i n (sha256 x) s →
  rp_discoveryId r = id → rp_chunk r = Some (i, n') →
  requireActiveTenantInTransaction (scan_gateway s) (ai_tenantId ag) = Ok tt →
  active_agent (ai_tenantId ag) (ai_id ag) (scan_gateway s) = Some "active" →
  report_transaction sha256 ag r digest draw ck s =
  if n' == n then (if digest == sha256 x then Ok (0, 0, s) else Err ChunkReplayChanged) else Err ChunkConflict.
Proof.
  intros (ds & Hds & Ht & Ha & Hi & Hg & Hn) Hid Hc Htn Hag. unfold report_transaction. rewrite Htn, Hag, Hid. simpl.
  unfold scan_of. rewrite Hds, Ht, Ha, !bool_decide_true by done. simpl.
  unfold chunk_mismatch. rewrite Hc, Hn.
  destruct (decide (n' = n)) as [->|Hne].
  - rewrite !bool_decide_true by done. simpl. unfold chunk_replay. rewrite Hc, (bool_decide_true _ Hi), Hg. simpl.
    rewrite (bool_decide_false (sha256 x = "")) by (intros E; pose proof (Hhex x) as Hx; by rewrite E in Hx). simpl.
    rewrite (bool_decide_ext (digest = sha256 x) (sha256 x = digest)) by done.
    rewrite (bool_decide_true (n = n)) by done. by destruct (bool_decide _).
  - rewrite (bool_decide_false (n' = n)), (bool_decide_false (JNumber n = JNumber n')) by congruence. done.
Qed.

Lemma report_POST_ok ag cl l draw ck s r : hasBodyOverLimit cl MAX_DISCOVERY_BODY_BYTES = false → parse_report (JObject l) = Ok r →
  report_POST sha256 (Some (ag, "active")) cl (Some (JObject l)) draw ck s =
  rbind (report_transaction sha256 ag r (sha256 (stringify (JObject l))) draw ck s)
    (λ out, let '(i, u, s') := out in Ok (i, u, rp_skipped r, s')).
Proof. intros Hl Hp. unfold report_POST. rewrite Hl, Hp. done. Qed.

(** A page of a scan's report is taken once. When a numbered page was taken
    and the scan has since only had requests that keep its pages, then whatever
    happened, also after the scan ended, the same body sent again (its answer
    was lost) is acknowledged and changes nothing, another body with the number
    of that page is refused, and so is one that announces another count. *)
Theorem page_taken_once s ag cl l draw ck inserted updated skipped s1 r i n s2 cl2 draw2 ck2
  (Htaken : report_POST sha256 (Some (ag, "active")) cl (Some (JObject l)) draw ck s = Ok (inserted, updated, skipped, s1))
  (Hwrote : s1 ≠ s) (Hparsed : parse_report (JObject l) = Ok r) (Hpage : rp_chunk r = Some (i, n))
  (Hsince : rtc (scan_step (keeps_pages (rp_discoveryId r))) s1 s2)
  (Htenant : requireActiveTenantInTransaction (scan_gateway s2) (ai_tenantId ag) = Ok tt)
  (Hagent : active_agent (ai_tenantId ag) (ai_id ag) (scan_gateway s2) = Some "active")
  (Hsize : hasBodyOverLimit cl2 MAX_DISCOVERY_BODY_BYTES = false) :
  report_POST sha256 (Some (ag, "active")) cl2 (Some (JObject l)) draw2 ck2 s2 = Ok (0, 0, skipped, s2) ∧
  (∀ l' r' n', parse_report (JObject l') = Ok r' → rp_discoveryId r' = rp_discoveryId r → rp_chunk r' = Some (i, n') →
     sha256 (stringify (JObject l')) ≠ sha256 (stringify (JObject l)) →
     report_POST sha256 (Some (ag, "active")) cl2 (Some (JObject l')) draw2 ck2 s2
     = Err (if n' == n then ChunkReplayChanged else ChunkConflict)).
Proof.
  apply report_POST_inv in Htaken as (ag' & l0 & r0 & [= <-] & [= <-] & Hp & -> & Ht). rewrite Hparsed in Hp. injection Hp as <-.
  apply report_inv in Ht as [(_ & _ & -> & _)|(ds & m & Hw)]; [done|].
  apply (written_recorded _ _ _ _ _ _ _ _ _ _ _ _ _ (parse_report_wf _ _ Hparsed) Hpage) in Hw.
  apply (recorded_steps _ _ _ _ _ _ _ _ Hsince) in Hw. split.
  - rewrite (report_POST_ok _ _ _ _ _ _ r) by done. rewrite (recorded_answer _ _ _ _ _ _ _ _ _ _ _ Hw) by done.
    by rewrite !bool_decide_true.
  - intros l' r' n' Hp' Hid Hc' Hne. rewrite (report_POST_ok _ _ _ _ _ _ r') by done.
    rewrite (recorded_answer _ _ _ _ _ _ _ _ _ _ _ Hw Hid Hc') by done.
    rewrite (bool_decide_false (_ = sha256 (stringify (JObject l)))) by done. by destruct (n' == n).
Qed.
End digests.

(** ** Approvals *)

Lemma observed_same_refl o : observed_same o o = true.
Proof. unfold observed_same, jsonb_same. by rewrite !bool_decide_true. Qed.

Lemma observed_same_trans o o' o'' : observed_same o o' = true → observed_same o' o'' = true → observed_same o o'' = true.
Proof. unfold observed_same, jsonb_same. intros. bools. bsplit; congruence. Qed.

(** A manager approved the device when it was observed like this: under a live
    session, by the fingerprint of that observation. *)
Definition approved (h : list scan_entry) (t id : string) (o : observation) : Prop :=
  ∃ e claims ag header fp dd, e ∈ h ∧ se_event e = ApproveDevice (Some claims) ag id (Some header) ∧ mc_tenantId claims = t ∧
    quoted_fingerprint header = Some fp ∧ approval claims ag id fp (se_clock e) (se_auth e) (se_before e) dd ∧
    observed_same (dd_observed dd) o = true.

Lemma approved_later h e t id o o' : approved h t id o → observed_same o o' = true → approved (e :: h) t id o'.
Proof.
  intros (e0 & c & ag & header & fp & dd & Hin & ? & ? & ? & ? & ?) Hs. exists e0, c, ag, header, fp, dd.
  split_and!; try done; [set_solver|by eapply observed_same_trans].
Qed.

Definition device_ok (h : list scan_entry) (k : string * string) (dd : discovered_device) : Prop :=
  dd_candidateStatus dd = "discovered" ∧ dd_verification dd = "candidate" ∨
  dd_verification dd = "verified" ∧ approved h k.1 k.2 (dd_observed dd).

Lemma device_ok_later h e k dd : device_ok h k dd → device_ok (e :: h) k dd.
Proof. intros [?|[? H]]; [by left|right]. split; [done|]. eapply approved_later; [done|apply observed_same_refl]. Qed.

Inductive devices_step (ev : scan_event) (ck : clock) (a : auth_db) (s s' : discovery_db) : Prop :=
| dv_less : discovered_devices s' ⊆ discovered_devices s → devices_step ev ck a s s'
| dv_report ag r digest draw i u ds m : report_written ag r digest draw ck s i u s' ds m → devices_step ev ck a s s'
| dv_approve claims ag id header fp dd : ev = ApproveDevice (Some claims) ag id (Some header) → quoted_fingerprint header = Some fp →
    approval claims ag id fp ck a s dd →
    discovered_devices s' = <[(mc_tenantId claims, id) := set_candidate "verified" "verified" (dd_provisionedPrinterId dd) (now ck) dd]>
      (discovered_devices s) → devices_step ev ck a s s'
| dv_bind t id dd p : discovered_devices s !! (t, id) = Some dd → dd_verification dd = "verified" →
    discovered_devices s' = <[(t, id) := set_candidate (dd_verification dd) "provisioned" (Some p) (now ck) dd]>
      (discovered_devices s) → devices_step ev ck a s s'.

Lemma step_devices ev ck a s : devices_step ev ck a s (perform_scan ev ck a s).
Proof.
  destruct ev as [claims ag nanoid body s_read|claims ag id|agent|t ag|claims ag id|agent cl body draw|claims ag id im|
    claims ag id nanoid s_read|t ag|d]; simpl.
  - destruct (discovery_POST _ _ _ _ _ _ _ _) as [[x s']|] eqn:E; [|by apply dv_less]. simpl. unfold discovery_POST in E.
    destruct claims as [c|]; [|done]. apply rbind_Ok in E as ([] & _ & E). destruct (active_agent _ _ _); [|done].
    apply rbind_Ok in E as ([] & _ & E). apply rbind_Ok in E as (b & _ & E). apply rbind_Ok in E as (config & _ & E).
    apply rbind_Ok in E as (s1 & (H1 & H2 & ->)%scan_start_inv & [= <- <-]). by apply dv_less.
  - destruct (cancel_scan_POST _ _ _ _ _ _) as [s'|] eqn:E; [|by apply dv_less]. unfold cancel_scan_POST in E. destruct claims as [c|]; [|done].
    apply rbind_Ok in E as ([] & _ & (ds & _ & Hr & ->)%cancel_inv). by apply dv_less.
  - unfold agent_discovery_GET. destruct agent as [[ag life]|]; [|by apply dv_less]. destruct (_ != _); by apply dv_less.
  - by apply dv_less.
  - unfold scan_GET. destruct claims as [c|]; [|by apply dv_less]. destruct (negb _); by apply dv_less.
  - destruct (report_POST _ _ _ _ _ _ _) as [[[[i u] sk] s']|] eqn:E; [|by apply dv_less]. simpl.
    apply report_POST_inv in E as (ag & l & r & -> & -> & Hp & -> & [(_ & _ & -> & _)|(ds & m & Hw)]%report_inv); [by apply dv_less|].
    by eapply dv_report.
  - destruct (verify_device_POST _ _ _ _ _ _ _ _) as [[b s']|] eqn:E; [|by apply dv_less]. simpl.
    apply verify_POST_inv in E as (c & header & fp & -> & -> & Hq & (dd & Ha & [->|[_ ->]])%approve_inv); [by apply dv_less|].
    by eapply dv_approve.
  - destruct (provision_POST _ _ _ _ _ _ _ _ _) as [[out s']|] eqn:E; [|by apply dv_less]. simpl.
    apply provision_POST_inv in E as (c & -> & (dd & Hd & _ & _ & [(-> & _)|(Hv & _ & _ & (p & _ & H)%approved_inv)])%provision_inv);
      [by apply dv_less|by eapply dv_bind].
  - apply dv_less. simpl. apply map_filter_subseteq.
  - by apply dv_less.
Qed.

(** A report never approves, and a row seen again keeps its approval only when
    it is observed as before. *)
Lemma report_devices_ok h e ag r digest draw ck s i u s' ds m : report_written ag r digest draw ck s i u s' ds m →
  (∀ k dd, discovered_devices s !! k = Some dd → device_ok h k dd) →
  ∀ k dd, discovered_devices s' !! k = Some dd → device_ok (e :: h) k dd.
Proof.
  intros Hw Hok. rewrite (wr_store _ _ _ _ _ _ _ _ _ _ _ Hw). simpl. pose proof (wr_devices _ _ _ _ _ _ _ _ _ _ _ Hw) as Hd.
  change m with (i, u, m).2. eapply (write_devices_Q _ _ (λ m', ∀ k dd, m' !! k = Some dd → device_ok (e :: h) k dd)); [..|exact Hd|].
  - intros row m' Hin _ _ HQ k dd [[<- <-]|[_ H]]%lookup_insert_Some; [left|by apply HQ].
    unfold device_rows in Hin. apply elem_of_lookup_imap in Hin as (j & d & -> & _). done.
  - intros row m' k0 dd0 Hin Hk0 _ HQ k dd [[<- <-]|[_ H]]%lookup_insert_Some; [|by apply HQ].
    unfold observed_again. destruct (observed_same _ _) eqn:E; [|by left].
    destruct (HQ _ _ Hk0) as [[? ?]|[? Ha]]; [by left|right]. split; [done|]. simpl.
    destruct Ha as (e0 & c & ag' & header & fp & dd' & ? & ? & ? & ? & ? & Hs). exists e0, c, ag', header, fp, dd'.
    split_and!; try done. by eapply observed_same_trans.
  - intros k dd H. by apply device_ok_later, Hok.
Qed.

Lemma run_devices h s : scan_run h s → ∀ k dd, discovered_devices s !! k = Some dd → device_ok h k dd.
Proof.
  induction 1 as [d|h s ev ck a Hrun IH]; [done|].
  destruct (step_devices ev ck a s) as [Hsub|ag r digest draw i u ds m Hw|claims ag id header fp dd0 -> Hq Ha E|t id dd0 p Hd Hv E].
  - intros k dd Hk. apply device_ok_later, IH. by eapply lookup_weaken.
  - by eapply report_devices_ok.
  - intros k dd. rewrite E. intros [[<- <-]|[_ H]]%lookup_insert_Some; [|by apply device_ok_later, IH].
    right. split; [done|]. eexists _, claims, ag, header, fp, dd0.
    split_and!; [by left|done|done|done|done|apply observed_same_refl].
  - intros k dd. rewrite E. intros [[<- <-]|[_ H]]%lookup_insert_Some; [|by apply device_ok_later, IH].
    right. split; [done|]. destruct (IH _ _ Hd) as [[_ ?]|[_ Ha]]; [congruence|].
    eapply approved_later; [done|apply observed_same_refl].
Qed.

Lemma bind_device_gateway t id p now dd s : scan_gateway (bind_device t id p now dd s) = scan_gateway s.
Proof. done. Qed.

Lemma approved_created claims ag id pid dd ck s out s' : provision_approved URL claims ag id pid dd ck s = Ok (out, s') →
  let o := dd_observed dd in
  let t := mc_tenantId claims in
  (∃ p, out = AlreadyPrinter p ∧ scan_gateway s' = scan_gateway s) ∨
  ∃ tp, out = CreatedPrinter pid ∧ target_transport URL o = Ok tp ∧ config_error URL tp (provisioned_config tp o) = None ∧
    enforceTenantResourceEntitlement (scan_gateway s) ck t "max_printers" (printer_count t (printers (scan_gateway s))) = Ok tt ∧
    printers (scan_gateway s) !! (t, pid) = None ∧
    scan_gateway s' = put_printer t pid (provisioned_printer tp ag id o (provisioned_config tp o) (now ck)) (scan_gateway s).
Proof.
  unfold provision_approved. intros (tp & Htp & H)%rbind_Ok.
  destruct (match endpoint_of _ with Some _ => _ | None => _ end) as [id'|];
    [injection H as <- <-; left; by eexists|].
  destruct (config_error _ _ _) eqn:Ec; [done|]. destruct (agent_printer _ _ _ _); [injection H as <- <-; left; by eexists|].
  right. exists tp. unfold create_printer in H. apply rbind_Ok in H as ([] & Hl & H). apply rbind_Ok in H as ([] & Hf%throw_if_Ok & [= <- <-]).
  split_and!; try done.
  - unfold by_limit in Hl. by destruct (enforceTenantResourceEntitlement _ _ _ _ _) as [[]|].
  - by destruct (_ !! _).
Qed.

Lemma config_error_endpoint tp config : config_error URL tp config = None →
  ∀ c, tp_connectionType tp = Some c → endpoint_spec URL c (JObject config) (coalesce (tp_protocol tp) "").
Proof. unfold config_error. intros H c Hc. rewrite Hc in H. by apply (config_sound _ strlen). Qed.

Lemma transport_known o tp : target_transport URL o = Ok tp →
  protocolMap (toLowerCase (ob_protocol o)) = Some tp ∧
  (toLowerCase (ob_protocol o) ∉ ["constructor"; "__proto__"] →
   ∃ p c, tp = transport_to p c ∧ c ∈ CONNECTION_TYPES ∧ p ∈ transport_languages c).
Proof.
  unfold target_transport. destruct (protocolMap _) as [tp'|] eqn:E; [|done]. intros H.
  repeat (apply rbind_Ok in H as ([] & _ & H)). injection H as ->. split; [done|]. intros Hn. unfold protocolMap in E.
  repeat match type of E with (if ?b then _ else _) = _ => destruct b eqn:?; [injection E as <-|] end; try done.
  - exists "ipp", "ipp". split_and!; [done|by apply (bool_decide_unpack _)..].
  - exists "ipps", "ipps". split_and!; [done|by apply (bool_decide_unpack _)..].
  - match goal with H : one_of _ _ = true |- _ => apply one_of_true in H; rename H into Hin end.
    eexists _, "network". split; [done|]. split; [by apply (bool_decide_unpack _)|]. unfold transport_languages. simpl. set_solver.
  - exists "spooler", "spooler". split_and!; [done|by apply (bool_decide_unpack _)..].
  - match goal with H : one_of _ _ = true |- _ => apply one_of_true in H end. set_solver.
Qed.

(** C24. A printer is made as it was approved. Over any run of scans, reports,
    approvals and provisionings, in any order, when provisioning answers with a
    printer, a manager had approved that device before, under a live session, by
    the fingerprint of an observation that has the same target as the one the
    printer is made from; a report that observed something else in between has
    taken the approval back. A new printer is exactly that observation, within
    the plan's limit and under a free id, with a language its transport carries
    and a private or local endpoint, unless its protocol is one of the two names
    every object inherits; nothing else of the printers changes. *)
Theorem provisioned_as_approved h s claims ag id nanoid ck a s_read out s'
  (Hrun : scan_run h s) (Hanswer : provision_POST URL (Some claims) ag id nanoid ck a s_read s = Ok (out, s')) :
  let t := mc_tenantId claims in
  let pid := "printer_" +:+ nanoid in
  requireManagerActorInTransaction a ck claims printers_manage = Ok tt ∧
  ∃ dd, discovered_devices s !! (t, id) = Some dd ∧ dd_agentId dd = ag ∧
    let o := dd_observed dd in
    approved h t id o ∧
    ((∃ p, out = AlreadyPrinter p ∧ scan_gateway s' = scan_gateway s) ∨
     ∃ tp, out = CreatedPrinter pid ∧ target_transport URL o = Ok tp ∧
       enforceTenantResourceEntitlement (scan_gateway s) ck t "max_printers" (printer_count t (printers (scan_gateway s))) = Ok tt ∧
       printers (scan_gateway s) !! (t, pid) = None ∧
       scan_gateway s' = put_printer t pid (provisioned_printer tp ag id o (provisioned_config tp o) (now ck)) (scan_gateway s) ∧
       (toLowerCase (ob_protocol o) ∉ ["constructor"; "__proto__"] →
        ∃ p c, tp = transport_to p c ∧ c ∈ CONNECTION_TYPES ∧ p ∈ transport_languages c ∧
          endpoint_spec URL c (JObject (provisioned_config tp o)) p)).
Proof.
  intros t pid. apply provision_POST_inv in Hanswer as (c & [= <-] & (dd & Hd & Ha & Hm & Hcase)%provision_inv).
  split; [done|]. exists dd. split; [done|]. split; [done|]. intros o.
  assert (dd_candidateStatus dd ≠ "discovered" ∧
    ((∃ p, out = AlreadyPrinter p ∧ scan_gateway s' = scan_gateway s) ∨
     provision_approved URL claims ag id pid dd ck s = Ok (out, s'))) as [Hnd Hout].
  { destruct Hcase as [(-> & Es & p & _ & ->)|(_ & Es & _ & H)]; rewrite Es; (split; [done|]); [left; by exists p|by right]. }
  split.
  - destruct (run_devices _ _ Hrun _ _ Hd) as [[? _]|[_ Happ]]; [done|exact Happ].
  - destruct Hout as [?|Hout]; [by left|]. apply approved_created in Hout as [?|(tp & ? & Htp & Hc & ? & ? & ?)]; [by left|right].
    exists tp. split_and!; try done. intros Hn. destruct (transport_known _ _ Htp) as [_ Hk].
    destruct (Hk Hn) as (p & conn & -> & ? & ?). exists p, conn. split_and!; try done.
    by apply (config_error_endpoint _ _ Hc).
Qed.
End runs.

(** ** Two devices of one name *)

Section collision.
Context (sha256 : string → string).

Lemma identity_given d id : dr_id d = Some id → trim id ≠ "" → ∃ k, identityKeyForDevice sha256 d = Some k ∧ k ≠ "".
Proof.
  intros Hid Hb. unfold identityKeyForDevice. destruct (bool_decide (trim (coalesce (dr_stableId d) "") = "")) eqn:E; simpl.
  - rewrite Hid. simpl. rewrite bool_decide_false by done. by eexists.
  - bools. by eexists.
Qed.

Lemma last_of_one row k : dd_identityKey row.2 = Some k → last_per_identity [row] = [row].
Proof. intros H. unfold last_per_identity. simpl. rewrite H. simpl. rewrite ?H. by rewrite bool_decide_true. Qed.

(** One device, with an identity of its own and an id that is taken. *)
Lemma taken_id_aborts t now id row m k : dd_identityKey row = Some k → k ≠ "" → is_Some (m !! (t, id)) →
  by_identity t row m = None → write_devices t now [(id, row)] m = None.
Proof.
  intros Hk Hne [dd Hdd] Hby. unfold write_devices. simpl. unfold write_batch.
  assert (named (id, row) = true) as Hn by (unfold named, truthy; simpl; rewrite Hk; by rewrite bool_decide_false).
  simpl List.filter. rewrite Hn. simpl. rewrite (last_of_one _ k) by done. simpl. rewrite Hby, Hdd. done.
Qed.

(** The id an agent gives a device belongs to the whole tenant. When
    another agent of the tenant has recorded a device under the id, the report
    of an agent that sees it for the first time fails as a whole with an
    unhandled error, each time it is sent: nothing of it is stored and its scan
    does not end, although the comment in the route says that two agents can
    observe the same hardware without colliding. *)
Theorem other_agents_id_aborts ag cl l draw ck s r d id dd ds
  (Hsize : hasBodyOverLimit cl MAX_DISCOVERY_BODY_BYTES = false) (Hparsed : parse_report (JObject l) = Ok r)
  (Hone : rp_devices r = [d]) (Hid : dr_id d = Some id) (Hblank : trim id ≠ "")
  (Htaken : discovered_devices s !! (ai_tenantId ag, id) = Some dd) (Hother : dd_agentId dd ≠ ai_id ag)
  (Hfirst : ∀ k dd', discovered_devices s !! k = Some dd' → dd_agentId dd' = ai_id ag →
     dd_identityKey dd' ≠ identityKeyForDevice sha256 d)
  (Htenant : requireActiveTenantInTransaction (scan_gateway s) (ai_tenantId ag) = Ok tt)
  (Hagent : active_agent (ai_tenantId ag) (ai_id ag) (scan_gateway s) = Some "active")
  (Hscan : scan_of (ai_tenantId ag) (ai_id ag) (rp_discoveryId r) s = Some ds) (Hrunning : ds_status ds = "running")
  (Hwhole : rp_chunk r = None) :
  report_POST sha256 (Some (ag, "active")) cl (Some (JObject l)) draw ck s = Err ReportFailed ∧
  ∀ URL a, perform_scan sha256 URL (AgentReports (Some (ag, "active")) cl (Some (JObject l)) draw) ck a s = s.
Proof.
  assert (report_POST sha256 (Some (ag, "active")) cl (Some (JObject l)) draw ck s = Err ReportFailed) as H;
    [|split; [done|intros; unfold perform_scan; by rewrite H]].
  destruct (identity_given _ _ Hid Hblank) as (k & Hk & Hne).
  rewrite (report_POST_ok _ _ _ _ _ _ _ r) by done. unfold report_transaction. rewrite Htenant, Hagent, Hscan. simpl.
  unfold chunk_mismatch, chunk_replay, chunk_in_turn. rewrite Hwhole, Hrunning. simpl. unfold write_report, device_rows. rewrite Hone. simpl.
  rewrite Hid. simpl. rewrite (bool_decide_false (id = "")) by (intros ->; done). simpl.
  rewrite (taken_id_aborts _ _ _ _ _ k); [done|exact Hk|done|by eexists|].
  unfold by_identity. destruct (List.find _ _) as [[k' dd']|] eqn:E; [exfalso|done].
  apply find_some in E as [Hin%list_elem_of_In%elem_of_map_to_list Hs]. unfold same_device_identity in Hs. bools. simpl in *.
  by apply (Hfirst _ _ Hin).
Qed.
End collision.

(** ** Instances *)

(** A digest of the right shape that tells two printers apart. *)
Definition sample_digest (x : string) : string :=
  (if includes x "Bar" then "b" else "a") +:+ "000000000000000000000000000000000000000000000000000000000000000".

Lemma sample_digest_hex x : hex_string 64 (sample_digest x) = true.
Proof. unfold sample_digest. by destruct (includes x "Bar"). Qed.

Definition agent_one : agent_identity := {| ai_id := "a1"; ai_tenantId := "t1" |}.
Definition agent_two : agent_identity := {| ai_id := "a2"; ai_tenantId := "t1" |}.

Definition two_agents : db := with_agents (<["a2" := sample_agent]> (agents private_db)) private_db.

Abbreviation sample_scan := (perform_scan sample_digest sample_URL).

Definition scan_ready : discovery_db :=
  sample_scan (StartScan (Some admin_claims) "a1" "1" (Some (JObject [("cidr", JString "10.0.0.0/24")])) (no_scans two_agents))
    (at_time 1000) admin_auth (no_scans two_agents).

Definition seen_device (name protocol : string) (port : Z) : json := JObject [
  ("id", JString "d9"); ("protocol", JString protocol); ("ipAddress", JString "10.0.0.9"); ("port", JNumber port);
  ("deviceName", JString name)].

Definition report_body (id status : string) (page : list (string * json)) (devices : list json) : list (string * json) :=
  [("discoveryId", JString id); ("status", JString status); ("devices", JArray devices)] ++ page.

Definition report_of (agent : agent_identity) (body : list (string * json)) : scan_event :=
  AgentReports (Some (agent, "active")) None (Some (JObject body)) (λ _, "x").

(** The bar printer is found, approved and made a printer; the first page of two. *)
Definition bar_page : list (string * json) :=
  report_body "dsc_1" "running" [("chunkIndex", JNumber 0); ("chunkCount", JNumber 2)] [seen_device "Bar" "raw" 9100].

Definition bar_found : discovery_db := sample_scan (report_of agent_one bar_page) (at_time 2000) admin_auth scan_ready.

Definition bar_approval : scan_event :=
  ApproveDevice (Some admin_claims) "a1" "d9" (Some (dquote +:+ sample_digest "Bar" +:+ dquote)).

Definition bar_approved : discovery_db := sample_scan bar_approval (at_time 3000) admin_auth bar_found.

Definition entry_of (ev : scan_event) (t : Z) (s : discovery_db) : scan_entry :=
  {| se_event := ev; se_clock := at_time t; se_auth := admin_auth; se_before := s |}.

Definition bar_history : list scan_entry := [
  entry_of bar_approval 3000 bar_found; entry_of (report_of agent_one bar_page) 2000 scan_ready;
  entry_of (StartScan (Some admin_claims) "a1" "1" (Some (JObject [("cidr", JString "10.0.0.0/24")])) (no_scans two_agents)) 1000
    (no_scans two_agents)].

Lemma bar_run : scan_run sample_digest sample_URL bar_history bar_approved.
Proof. repeat apply sr_step. apply sr_start. Qed.

Definition bar_printer : discovery_db :=
  sample_scan (ProvisionDevice (Some admin_claims) "a1" "d9" "9" bar_approved) (at_time 4000) admin_auth bar_approved.

Lemma provisioned_as_approved_witness :
  provision_POST sample_URL (Some admin_claims) "a1" "d9" "9" (at_time 4000) admin_auth bar_approved bar_approved
    = Ok (CreatedPrinter "printer_9", bar_printer) ∧
  ∃ dd, discovered_devices bar_approved !! ("t1", "d9") = Some dd ∧
    approved sample_digest bar_history "t1" "d9" (dd_observed dd).
Proof.
  assert (provision_POST sample_URL (Some admin_claims) "a1" "d9" "9" (at_time 4000) admin_auth bar_approved bar_approved
    = Ok (CreatedPrinter "printer_9", bar_printer)) as H by (vm_compute; reflexivity).
  split; [exact H|].
  destruct (provisioned_as_approved sample_digest sample_URL bar_history bar_approved admin_claims "a1" "d9" "9" (at_time 4000)
    admin_auth bar_approved _ _ bar_run H) as (_ & dd & Hd & _ & Ha & _).
  exists dd. split; [exact Hd|exact Ha].
Defined.


(** The scan is cancelled, and the agent sends its first page again. *)
Definition bar_cancelled : discovery_db := sample_scan (CancelScan (Some admin_claims) "a1" "dsc_1") (at_time 5000) admin_auth bar_found.

Lemma page_taken_once_witness :
  (∃ ds, discovery_sessions bar_cancelled !! "dsc_1" = Some ds ∧ ds_status ds = "cancelled") ∧
  report_POST sample_digest (Some (agent_one, "active")) None (Some (JObject bar_page)) (λ _, "x") (at_time 6000) bar_cancelled
    = Ok (0, 0, [], bar_cancelled).
Proof.
  split; [eexists; split; vm_compute; reflexivity|].
  destruct (parse_report (JObject bar_page)) as [r|] eqn:Hp; [|vm_compute in Hp; discriminate].
  apply (page_taken_once sample_digest sample_URL sample_digest_hex scan_ready agent_one None bar_page (λ _, "x") (at_time 2000)
    1 0 [] bar_found r 0 2 bar_cancelled None (λ _, "x") (at_time 6000)).
  - vm_compute. reflexivity.
  - intros E. apply (f_equal (λ s, discovered_devices s !! ("t1", "d9"))) in E. vm_compute in E. discriminate.
  - exact Hp.
  - assert (rp_chunk <$> (match parse_report (JObject bar_page) with Ok r => Some r | Err _ => None end) = Some (Some (0, 2))) as E
      by (vm_compute; reflexivity). rewrite Hp in E. simpl in E. injection E as ->. reflexivity.
  - apply rtc_once. exists (CancelScan (Some admin_claims) "a1" "dsc_1"), (at_time 5000), admin_auth.
    split; [split; [by intros ? ? [=]|exact I]|reflexivity].
  - vm_compute. reflexivity.
  - vm_compute. reflexivity.
  - vm_compute. reflexivity.
Defined.

(** The second agent sees the bar printer too. *)
Definition second_scan : discovery_db :=
  sample_scan (StartScan (Some admin_claims) "a2" "2" (Some (JObject [])) bar_found) (at_time 3000) admin_auth bar_found.

Definition second_report : list (string * json) := report_body "dsc_2" "completed" [] [seen_device "Bar" "raw" 9100].

Definition second_device : device_report :=
  match parse_report (JObject second_report) with
  | Ok {| rp_devices := d :: _ |} => d
  | _ => {| dr_id := None; dr_stableId := None; dr_source := None; dr_protocol := None; dr_ipAddress := None; dr_hostname := None;
            dr_port := None; dr_uri := None; dr_deviceName := None; dr_spoolerName := None; dr_deviceClass := None;
            dr_transport := None; dr_manufacturer := None; dr_model := None; dr_serialNumber := None; dr_capabilities := None;
            dr_rawMetadata := None |}
  end.

Lemma other_agents_id_aborts_witness :
  report_POST sample_digest (Some (agent_two, "active")) None (Some (JObject second_report)) (λ _, "x") (at_time 4000) second_scan
    = Err ReportFailed.
Proof.
  destruct (parse_report (JObject second_report)) as [r|] eqn:Hp; [|vm_compute in Hp; discriminate].
  destruct (discovered_devices second_scan !! ("t1", "d9")) as [dd|] eqn:Hd; [|vm_compute in Hd; discriminate].
  destruct (scan_of "t1" "a2" "dsc_2" second_scan) as [ds|] eqn:Hs; [|vm_compute in Hs; discriminate].
  apply (other_agents_id_aborts sample_digest agent_two None second_report (λ _, "x") (at_time 4000) second_scan r second_device "d9" dd ds).
  - vm_compute. reflexivity.
  - exact Hp.
  - vm_compute in Hp. injection Hp as <-. vm_compute. reflexivity.
  - vm_compute. reflexivity.
  - vm_compute. discriminate.
  - exact Hd.
  - vm_compute in Hd. injection Hd as <-. vm_compute. discriminate.
  - intros k dd' Hk. assert (map_to_list (discovered_devices second_scan) = [(("t1", "d9"), dd)]) as E
      by (vm_compute in Hd; injection Hd as <-; vm_compute; reflexivity).
    apply elem_of_map_to_list in Hk. rewrite E in Hk. apply list_elem_of_singleton in Hk. injection Hk as -> ->.
    vm_compute in Hd. injection Hd as <-. vm_compute. discriminate.
  - vm_compute. reflexivity.
  - vm_compute. reflexivity.
  - vm_compute in Hp. injection Hp as <-. exact Hs.
  - vm_compute in Hs. injection Hs as <-. reflexivity.
  - vm_compute in Hp. injection Hp as <-. reflexivity.
Defined.

(** ** A name every object inherits *)

Definition odd_found : discovery_db :=
  sample_scan (report_of agent_one (report_body "dsc_1" "completed" [] [seen_device "Bar" "constructor" 22])) (at_time 2000) admin_auth scan_ready.

Definition odd_approved : discovery_db := sample_scan bar_approval (at_time 3000) admin_auth odd_found.

Definition odd_config : list (string * json) := [("ip", JString "10.0.0.9"); ("port", JNumber 22)].

