(* ===== verification/RequestGuard.v ===== *)
(** * RequestGuard: what is admitted before a request is routed

    [src/server/request-guard.ts]: the limit on declared bodies, the same-origin
    proof of mutations that carry a session cookie, the two pools of bytes that
    requests in flight may hold, and the bounded drain of a rejected request.

    A request is its method, its target and its headers as Node gives them. The
    module variables are [pools]; the closure [releaseOnce] of an admitted
    request is its row of [gs_open]. [runtimeSecret] and [Date.now()] are read
    once a request into a [guard_env]. The [URL] parser, base64, [JSON.parse],
    HMAC and SHA-256 are arguments. *)

From Stdlib Require Import Ascii.
From S2P Require Import Prelude DatabaseTime JobStatus Json Schema Authority Entitlements Sessions Cookies Passwords.

(** ** Requests *)

Inductive header_value : Type :=
| Single (s : string)
| Several (l : list string).

Record incoming := {
  im_method : option string;
  im_url : option string;
  im_headers : gmap string header_value;
}.

(** The value as it came, the first of several. *)
Definition first_value (v : option header_value) : string :=
  match v with
  | Some (Single s) => s
  | Some (Several l) => coalesce (head l) ""
  | None => ""
  end.

Definition headerValue (req : incoming) (name : string) : string :=
  trim (first_value (im_headers req !! toLowerCase name)).

Definition under (req : incoming) (p : string) : bool :=
  match im_url req with Some u => startsWith u p | None => false end.

Definition MUTATING_METHODS : list string := ["POST"; "PUT"; "PATCH"; "DELETE"].

(** ** Body limits *)

Definition MAX_API_BODY_BYTES : Z := 8 * 1024 * 1024.
Definition MAX_AUTHENTICATED_CONCURRENT_BYTES : Z := 32 * 1024 * 1024.
Definition MAX_UNAUTHENTICATED_CONCURRENT_BYTES : Z := 8 * 1024 * 1024.

Definition AGENT_ROUTE_BODY_LIMITS : list (string * Z) :=
  [("/api/agent/register", 64 * 1024); ("/api/agent/heartbeat", 512 * 1024);
   ("/api/agent/discovery", 2 * 1024 * 1024); ("/api/agent/jobs", 64 * 1024)].

Fixpoint table_entry (path : string) (l : list (string * Z)) : option Z :=
  match l with
  | [] => None
  | (k, n) :: l => if k == path then Some n else table_entry path l
  end.

(** [s.replace(/c$/, "")]. *)
Fixpoint drop_last_char (d : ascii) (s : string) : string :=
  match s with
  | EmptyString => EmptyString
  | String c s' =>
      match s' with
      | EmptyString => if bool_decide (c = d) then EmptyString else s
      | _ => String c (drop_last_char d s')
      end
  end.

(** The limit of the path; what is inherited by the table's object is not a
    path, which starts with a slash. *)
Definition maxApiBodyBytesForRequest (url : option string) (method : string) (ceiling : Z) : Z :=
  if negb (truthy url) || ((method != "POST") && (method != "PATCH")) then ceiling
  else
    let path := drop_last_char "/"%char (coalesce (head (split_on "?"%char (coalesce url ""))) "") in
    Z.min ceiling (coalesce (table_entry path AGENT_ROUTE_BODY_LIMITS) ceiling).

Definition isPayloadBearingEndpoint (req : incoming) : bool :=
  under req "/api/agent/" || under req "/api/print/".

(** ** Session cookies *)

Definition ACCESS_COOKIES : list string := ["mgr_session"; "cust_session"; "plt_session"].
Definition REFRESH_COOKIES : list string := ["mgr_refresh"; "cust_refresh"; "plt_refresh"].

Definition cookie_named (names : list string) (s : string) : bool :=
  existsb (λ n, startsWith s (n +:+ "=")) names.

(** [SESSION_COOKIE_RE.test(line)]: a name at the start of the line, or after a
    semicolon and spaces. *)
Definition session_cookie_in (line : string) : bool :=
  let names := ACCESS_COOKIES ++ REFRESH_COOKIES in
  match split_on ";"%char line with
  | [] => false
  | part :: parts => cookie_named names part || existsb (λ p, cookie_named names (trim_start p)) parts
  end.

Definition isCookieAuthenticatedMutation (req : incoming) : bool :=
  session_cookie_in (headerValue req "cookie").

(** The match of [name=([^;]+)] at the start of the text. *)
Fixpoint value_here (names : list string) (s : string) : option string :=
  match names with
  | [] => None
  | n :: names =>
      let k := (String.length n + 1)%nat in
      if startsWith s (n +:+ "=")
      then null_if_empty (coalesce (head (split_on ";"%char (String.substring k (String.length s - k) s))) "")
      else value_here names s
  end.

(** [exec]: the leftmost match, anywhere in the line. *)
Fixpoint first_session_value (s : string) : option string :=
  match value_here ACCESS_COOKIES s with
  | Some v => Some v
  | None => match s with EmptyString => None | String _ s' => first_session_value s' end
  end.

(** ** Authentication and origin *)

Record web_url := { wu_protocol : string; wu_host : string; wu_origin : string }.

Definition is_web (u : web_url) : bool := one_of ["https:"; "http:"] (wu_protocol u).

Record guard_env := {
  ge_production : bool;                (* NODE_ENV === "production" *)
  ge_secret : option string;           (* runtimeSecret("GATEWAY_JWT_SECRET") *)
  ge_base_url : option string;         (* runtimeSecret("APP_BASE_URL") *)
  ge_now : Z;                          (* Date.now() *)
}.

Section guard.
Context (hmac : string → string → string) (decode : string → string) (JSON_parse : string → option json)
  (sha256 : string → string) (parse_url : string → option web_url).

(** The payload says that the session ended more than a minute ago. *)
Definition long_expired (now : Z) (payload : string) : bool :=
  match (v ← JSON_parse (decode payload); as_number (json_field v "exp")) with
  | Some exp => exp * 1000 <=? now - 60 * 1000
  | None => false
  end.

Definition verifyJwtQuick (env : guard_env) (token : string) : bool :=
  if (strlen token <? 40) || (4096 <? strlen token) then false
  else match split_on "."%char token with
       | [h; p; s] =>
           if long_expired (ge_now env) p then false
           else match ge_secret env with
                | Some secret =>
                    if strlen secret <? 32 then false
                    else sha256 s == sha256 (hmac secret (h +:+ "." +:+ p))
                | None => false
                end
       | _ => false
       end.

Definition isLikelyAuthenticated (env : guard_env) (req : incoming) : bool :=
  let authHeader := first_value (im_headers req !! "authorization") in
  let cookieHeader := first_value (im_headers req !! "cookie") in
  (startsWith authHeader "Bearer " &&
   verifyJwtQuick env (trim (String.substring 7 (String.length authHeader - 7) authHeader))) ||
  match first_session_value cookieHeader with
  | Some v => verifyJwtQuick env (trim v)
  | None => false
  end.

Definition matchesSourceOrigin (publicOrigin : option string) (host source : string) : bool :=
  match parse_url source with
  | Some parsed =>
      is_web parsed &&
      (if truthy publicOrigin then wu_origin parsed == coalesce publicOrigin ""
       else toLowerCase (wu_host parsed) == host)
  | None => false
  end.

(** The origin a source has to match, [Some None] when the host is all there is
    to compare, [None] when the request is refused. *)
Definition public_origin (env : guard_env) (host : string) : option (option string) :=
  if truthy (ge_base_url env) then
    parsed ← parse_url (coalesce (ge_base_url env) "");
    if negb (is_web parsed) || (host != toLowerCase (wu_host parsed)) then None
    else Some (Some (wu_origin parsed))
  else if ge_production env then None else Some None.

Definition isCookieMutationSameOrigin (env : guard_env) (req : incoming) : bool :=
  if negb (one_of MUTATING_METHODS (toUpperCase (coalesce (im_method req) "GET"))) then true
  else if negb (isCookieAuthenticatedMutation req) then true
  else
    let fetchSite := toLowerCase (headerValue req "sec-fetch-site") in
    let host := drop_last_char "."%char (toLowerCase (headerValue req "host")) in
    if fetchSite == "cross-site" then false
    else if (host == "") || (255 <? strlen host) || includes host "/" || includes host "@" then false
    else match public_origin env host with
         | None => false
         | Some publicOrigin =>
             let origin := headerValue req "origin" in
             let referer := headerValue req "referer" in
             if origin != "" then matchesSourceOrigin publicOrigin host origin
             else if referer != "" then matchesSourceOrigin publicOrigin host referer
             else fetchSite == "same-origin"
         end.

(** ** Bytes in flight *)

Record pools := { pl_auth : Z; pl_unauth : Z }.

Definition reserve (bytes : Z) (authenticated : bool) (p : pools) : option pools :=
  if (bytes <? 0) || negb (isSafeInteger bytes) then None
  else if authenticated then
    if MAX_AUTHENTICATED_CONCURRENT_BYTES <? pl_auth p + bytes then None
    else Some {| pl_auth := pl_auth p + bytes; pl_unauth := pl_unauth p |}
  else
    if MAX_UNAUTHENTICATED_CONCURRENT_BYTES <? pl_unauth p + bytes then None
    else Some {| pl_auth := pl_auth p; pl_unauth := pl_unauth p + bytes |}.

Definition release (bytes : Z) (authenticated : bool) (p : pools) : pools :=
  if authenticated then {| pl_auth := Z.max 0 (pl_auth p - bytes); pl_unauth := pl_unauth p |}
  else {| pl_auth := pl_auth p; pl_unauth := Z.max 0 (pl_unauth p - bytes) |}.

Definition getReservedRequestBytes (p : pools) : Z := pl_auth p + pl_unauth p.

(** The closure of an admitted request. *)
Record reservation := { rv_length : Z; rv_authenticated : bool; rv_released : bool }.

(** A server process: its pools and the responses that hold from them. *)
Record guard_state := { gs_pools : pools; gs_open : gmap positive reservation }.

(** [finish] or [close] of a response, in any order and number. *)
Definition releaseOnce (id : positive) (s : guard_state) : guard_state :=
  match gs_open s !! id with
  | Some r =>
      if rv_released r then s
      else {| gs_pools := release (rv_length r) (rv_authenticated r) (gs_pools s);
              gs_open := <[id := {| rv_length := rv_length r; rv_authenticated := rv_authenticated r;
                                    rv_released := true |}]> (gs_open s) |}
  | None => s
  end.

(** ** The guard *)

Inductive admission : Type :=
| LetThrough
| GuardRejects (status : Z) (code : string).

Definition declared_length (raw : header_value) : option Z :=
  match raw with Single s => parseStrictContentLength s | Several _ => None end.

Definition guardApiRequest (env : guard_env) (req : incoming) (id : positive) (maxBytes : option Z)
    (s : guard_state) : admission * guard_state :=
  let method := toUpperCase (coalesce (im_method req) "") in
  let limit := maxApiBodyBytesForRequest (im_url req) method (coalesce maxBytes MAX_API_BODY_BYTES) in
  if negb (under req "/api/") then (LetThrough, s)
  else if negb (one_of MUTATING_METHODS method) then (LetThrough, s)
  else
    let payloadBearing := isPayloadBearingEndpoint req in
    let authenticated := isLikelyAuthenticated env req in
    if negb (isCookieMutationSameOrigin env req) then (GuardRejects 403 "CSRF_VALIDATION_FAILED", s)
    else match im_headers req !! "content-length" with
         | None =>
             match im_headers req !! "transfer-encoding" with
             | None => (LetThrough, s)
             | Some _ => (GuardRejects 411 "CONTENT_LENGTH_REQUIRED", s)
             end
         | Some rawLength =>
             match declared_length rawLength with
             | None => (GuardRejects 413 "REQUEST_BODY_TOO_LARGE", s)
             | Some length =>
                 if limit <? length then (GuardRejects 413 "REQUEST_BODY_TOO_LARGE", s)
                 else if negb payloadBearing then (LetThrough, s)
                 else match reserve length authenticated (gs_pools s) with
                      | None => (GuardRejects 503 "REQUEST_BODY_CAPACITY_EXCEEDED", s)
                      | Some p =>
                          (LetThrough,
                           {| gs_pools := p;
                              gs_open := <[id := {| rv_length := length; rv_authenticated := authenticated;
                                                    rv_released := false |}]> (gs_open s) |})
                      end
             end
         end.
End guard.

(** ** The drain of a rejected request

    [rejectRequest]: the response head and body are written at once, the
    response is ended when the abandoned body was read, failed, is too long or
    takes too long; in the last two cases the request is destroyed once the
    response is out. *)

Definition REJECT_DRAIN_MAX_BYTES : Z := 16 * 1024 * 1024.
Definition REJECT_DRAIN_TIMEOUT_MS : Z := 5000.

Record drain := {
  dn_drained : Z;
  dn_finalized : bool;
  dn_timer : bool;           (* armed *)
  dn_ends : nat;             (* calls of res.end() *)
  dn_teardown : bool;        (* waits for the response's finish *)
  dn_destroyed : bool;
}.

Inductive drain_event : Type :=
| Data (n : Z)
| RequestEnd
| RequestError
| DrainTimeout
| ResponseFinish.

Definition drain_start : drain := {|
  dn_drained := 0; dn_finalized := false; dn_timer := true; dn_ends := 0; dn_teardown := false;
  dn_destroyed := false |}.

Definition finishResponse (d : drain) : drain :=
  if dn_finalized d then d
  else {| dn_drained := dn_drained d; dn_finalized := true; dn_timer := false; dn_ends := S (dn_ends d);
          dn_teardown := dn_teardown d; dn_destroyed := dn_destroyed d |}.

Definition arm_teardown (d : drain) : drain := {|
  dn_drained := dn_drained d; dn_finalized := dn_finalized d; dn_timer := dn_timer d; dn_ends := dn_ends d;
  dn_teardown := true; dn_destroyed := dn_destroyed d |}.

Definition drain_step (e : drain_event) (d : drain) : drain :=
  match e with
  | Data n =>
      let d := {| dn_drained := dn_drained d + n; dn_finalized := dn_finalized d; dn_timer := dn_timer d;
                  dn_ends := dn_ends d; dn_teardown := dn_teardown d; dn_destroyed := dn_destroyed d |} in
      if REJECT_DRAIN_MAX_BYTES <=? dn_drained d then finishResponse (arm_teardown d) else d
  | RequestEnd | RequestError => finishResponse d
  | DrainTimeout => if dn_timer d then finishResponse (arm_teardown d) else d
  | ResponseFinish =>
      {| dn_drained := dn_drained d; dn_finalized := dn_finalized d; dn_timer := dn_timer d; dn_ends := dn_ends d;
         dn_teardown := false; dn_destroyed := dn_destroyed d || dn_teardown d |}
  end.

Definition drain_run (es : list drain_event) : drain := foldl (λ d e, drain_step e d) drain_start es.

(** ** Which cookies carry a session *)

Lemma trim_start_end s : trim_start (trim_end s) = trim_end (trim_start s).
Proof.
  induction s as [|c s IH]; [done|]. simpl. destruct (is_js_space c) eqn:Hc.
  - rewrite <-IH. destruct (trim_end s); simpl; by rewrite ?Hc.
  - simpl. rewrite Hc. destruct (trim_end s); simpl; by rewrite Hc.
Qed.

Lemma trim_end_prefix s : ∃ t, s = trim_end s +:+ t.
Proof.
  induction s as [|c s [t Ht]]; [by exists ""|]. simpl. destruct (trim_end s) as [|d u].
  - destruct (is_js_space c); [by eexists|]. exists s. done.
  - exists t. by rewrite string_app_cons, <-Ht.
Qed.

Lemma split_trim_start sep s : is_js_space sep = false →
  split_on sep (trim_start s) =
  match split_on sep s with w :: ws => trim_start w :: ws | [] => [] end.
Proof.
  intros Hsep. induction s as [|c s IH]; [done|]. simpl. destruct (is_js_space c) eqn:Hc.
  - rewrite IH, bool_decide_false by congruence. destruct (split_on_concat sep s) as [_ Hne].
    destruct (split_on sep s); [done|]. simpl. by rewrite Hc.
  - cbn [split_on]. destruct (bool_decide (c = sep)); [done|].
    destruct (split_on sep s); simpl; by rewrite Hc.
Qed.

Lemma split_other sep c s : (c == sep) = false →
  split_on sep (String c s) = match split_on sep s with w :: ws => String c w :: ws | [] => [String c EmptyString] end.
Proof. intros H. cbn [split_on]. rewrite H. by destruct (split_on sep s). Qed.

Lemma split_trim_end sep s : is_js_space sep = false →
  ∃ ws w, split_on sep s = ws ++ [w] ∧ split_on sep (trim_end s) = ws ++ [trim_end w].
Proof.
  intros Hsep. induction s as [|c s (ws & w & H1 & H2)]; [by exists [], ""|].
  assert (is_js_space c = false → trim_end (String c s) = String c (trim_end s)) as Hblack.
  { intros Hc. simpl. destruct (trim_end s); by rewrite ?Hc. }
  destruct (bool_decide (c = sep)) eqn:Hs.
  { apply bool_decide_eq_true in Hs as ->. rewrite Hblack by done. cbn [split_on]. rewrite bool_decide_true by done.
    exists ("" :: ws), w. by rewrite H1, H2. }
  rewrite split_other, H1 by done. destruct (is_js_space c) eqn:Hc.
  - cbn [trim_end]. destruct (trim_end s) as [|d u] eqn:Hu.
    + cbn [split_on] in H2. destruct ws as [|? [|]]; try done. injection H2 as Hw. exists [], (String c w). split; [done|].
      rewrite Hc. cbn [trim_end app split_on]. by rewrite Hc, <-Hw.
    + rewrite split_other, H2 by done. destruct ws as [|v ws]; [|by exists (String c v :: ws), w].
      exists [], (String c w). split; [done|]. simpl. destruct (trim_end w) eqn:Hw; [|done].
      exfalso. destruct (split_on_concat sep (String d u)) as [Hjoin _]. by rewrite H2 in Hjoin.
  - rewrite Hblack, split_other, H2 by done.
    destruct ws as [|v ws]; [|by exists (String c v :: ws), w].
    exists [], (String c w). split; [done|]. simpl. by destruct (trim_end w); rewrite ?Hc.
Qed.

Lemma startsWith_trim_end s p : startsWith (trim_end s) p = true → startsWith s p = true.
Proof.
  unfold startsWith. rewrite !prefix_spec. intros [t Ht]. destruct (trim_end_prefix s) as [u Hu].
  exists (t +:+ u). by rewrite Hu, Ht, string_app_assoc.
Qed.

(** What [readCookie] finds stands in a part that starts with its name. *)
Lemma find_cookie_part (decodeURIComponent : string → option string) name parts token :
  decodeURIComponent "" = Some "" → find_cookie decodeURIComponent name parts = Some token →
  ∃ part, part ∈ parts ∧ startsWith (trim part) (name +:+ "=") = true.
Proof.
  intros Hempty. induction parts as [|part parts IH]; [done|]. cbn [find_cookie].
  destruct (split_on_concat "="%char (trim part)) as [Hjoin Hne].
  destruct (split_on "="%char (trim part)) as [|key rest]; [done|].
  case_bool_decide as Hk.
  - subst key. intros H. exists part. split; [left|]. destruct rest as [|v rest].
    + cbn [String.concat] in H. unfold trim, unquote in H. simpl in H. rewrite Hempty in H. done.
    + unfold startsWith. apply prefix_spec. exists (String.concat "=" (v :: rest)).
      rewrite string_app_assoc. symmetry. exact Hjoin.
  - intros H. destruct (IH H) as (p & Hp & Hs). exists p. split; [by right|done].
Qed.

Lemma startsWith_trim part p : startsWith (trim part) p = true → startsWith (trim_start part) p = true.
Proof. apply startsWith_trim_end. Qed.

(** The name of a cookie that the test looks for. *)
Lemma session_cookie_covers line part name :
  part ∈ split_on ";"%char line → startsWith (trim part) (name +:+ "=") = true →
  name ∈ ACCESS_COOKIES ++ REFRESH_COOKIES → session_cookie_in (trim line) = true.
Proof.
  intros Hpart Hname Hin. unfold session_cookie_in, trim.
  assert (∀ s, startsWith s (name +:+ "=") = true → cookie_named (ACCESS_COOKIES ++ REFRESH_COOKIES) s = true) as Hnamed.
  { intros s Hs. apply existsb_exists. exists name. split; [by apply list_elem_of_In|done]. }
  destruct (split_trim_end ";"%char (trim_start line)) as (ws & w & H1 & ->); [done|].
  rewrite split_trim_start in H1 by done. destruct (split_on ";"%char line) as [|w0 parts]; [by apply elem_of_nil in Hpart|].
  apply elem_of_cons in Hpart as [->|Hpart].
  - destruct ws as [|v ws]; injection H1 as Hw Hrest; cbn [app]; apply orb_true_iff; left; apply Hnamed.
    + by rewrite <-Hw.
    + rewrite <-Hw. by apply startsWith_trim.
  - destruct ws as [|v ws]; injection H1 as Hw Hrest; subst parts; [by apply elem_of_nil in Hpart|]. cbn [app]. apply orb_true_iff. right. apply existsb_exists.
    apply elem_of_app in Hpart as [Hpart|Hpart].
    + exists part. split; [apply list_elem_of_In, elem_of_app; by left|by apply Hnamed, startsWith_trim].
    + apply list_elem_of_singleton in Hpart as ->. exists (trim_end w). split.
      * apply list_elem_of_In, elem_of_app. right. by apply list_elem_of_singleton.
      * apply Hnamed. by rewrite trim_start_end.
Qed.

(** ** The same-origin proof *)

Section fence.
Context (hmac : string → string → string) (decode : string → string) (JSON_parse : string → option json)
  (sha256 : string → string) (parse_url : string → option web_url).
Abbreviation guard := (guardApiRequest hmac decode JSON_parse sha256 parse_url).

(** The page the request was made from, by the first of the two headers. *)
Definition request_source (req : incoming) : option string :=
  if headerValue req "origin" != "" then Some (headerValue req "origin")
  else null_if_empty (headerValue req "referer").

(** The request was made by a page of the gateway: of its configured public
    origin, addressed under that origin's host; without a configuration, outside
    production, of the host it is addressed to. *)
Definition made_by_own_page (env : guard_env) (req : incoming) : Prop :=
  let host := drop_last_char "."%char (toLowerCase (headerValue req "host")) in
  let site := toLowerCase (headerValue req "sec-fetch-site") in
  site ≠ "cross-site" ∧ host ≠ "" ∧
  ((∃ base own, ge_base_url env = Some base ∧ parse_url base = Some own ∧ is_web own = true ∧
      host = toLowerCase (wu_host own) ∧
      match request_source req with
      | Some source => ∃ page, parse_url source = Some page ∧ is_web page = true ∧ wu_origin page = wu_origin own
      | None => site = "same-origin"
      end) ∨
   (truthy (ge_base_url env) = false ∧ ge_production env = false ∧
      match request_source req with
      | Some source => ∃ page, parse_url source = Some page ∧ is_web page = true ∧ toLowerCase (wu_host page) = host
      | None => site = "same-origin"
      end)).

Definition mutating (req : incoming) : bool :=
  one_of MUTATING_METHODS (toUpperCase (coalesce (im_method req) "")).

Lemma matches_source po host source : matchesSourceOrigin parse_url po host source = true →
  ∃ page, parse_url source = Some page ∧ is_web page = true ∧
    (if truthy po then Some (wu_origin page) = po else toLowerCase (wu_host page) = host).
Proof.
  unfold matchesSourceOrigin. destruct (parse_url source) as [page|]; [|done]. intros H. bools. exists page.
  split_and!; [done..|]. destruct po as [o|]; cbn [truthy coalesce] in *; [|by bools].
  destruct (o != "") eqn:E; rewrite ?E in *; bools; cbn in *; congruence.
Qed.

Lemma same_origin_sound env req : (∀ s u, parse_url s = Some u → is_web u = true → wu_origin u ≠ "") →
  mutating req = true → isCookieAuthenticatedMutation req = true →
  isCookieMutationSameOrigin parse_url env req = true → made_by_own_page env req.
Proof.
  intros Horigin Hm Hc. unfold isCookieMutationSameOrigin, mutating in *.
  replace (one_of MUTATING_METHODS (toUpperCase (coalesce (im_method req) "GET"))) with true
    by (symmetry; destruct (im_method req); [exact Hm|by vm_compute in Hm]).
  rewrite Hc. cbn [negb]. destruct (bool_decide (toLowerCase (headerValue req "sec-fetch-site") = _)) eqn:Hs; [done|].
  set (host := drop_last_char _ _). destruct (_ || _ || _ || _) eqn:Hh; [done|]. bools.
  destruct (public_origin parse_url env host) as [po|] eqn:Hpo; [|done]. intros Hsrc.
  assert (∀ P : string → Prop, (∀ s, matchesSourceOrigin parse_url po host s = true → P s) →
    match request_source req with
    | Some s => P s | None => toLowerCase (headerValue req "sec-fetch-site") = "same-origin" end) as Hsource.
  { intros P HP. unfold request_source, null_if_empty. destruct (headerValue req "origin" != "") eqn:E; [by apply HP|].
    destruct (headerValue req "referer" == "") eqn:E2; [|by apply HP]. cbn [negb] in Hsrc. by bools. }
  clear Hsrc. unfold made_by_own_page. cbv zeta. fold host. split_and!; [done..|].
  unfold public_origin in Hpo. destruct (truthy (ge_base_url env)) eqn:Hb.
  - left. destruct (ge_base_url env) as [base|]; [|done]. unfold coalesce in Hpo. cbn [default from_option id] in Hpo.
    apply bind_Some in Hpo as (own & Hown & Hpo).
    destruct (_ || _) eqn:Hweb in Hpo; [done|]. bools. injection Hpo as <-. exists base, own. split_and!; [done..|].
    apply Hsource. intros s (page & Hp & Hw & He)%matches_source. exists page. split_and!; [done..|].
    cbn [truthy] in He. rewrite bool_decide_false in He by (by apply (Horigin base)). cbn in He. congruence.
  - right. destruct (ge_production env); [done|]. injection Hpo as <-. split_and!; [done..|].
    apply Hsource. intros s (page & Hp & Hw & He)%matches_source. by exists page.
Qed.

Lemma guard_same_origin env req id max s : under req "/api/" = true → mutating req = true →
  (guard env req id max s).1 = LetThrough → isCookieMutationSameOrigin parse_url env req = true.
Proof.
  intros Hu Hm. unfold guardApiRequest, mutating in *. rewrite Hu, Hm. cbn [negb].
  by destruct (isCookieMutationSameOrigin _ env req).
Qed.

(** C29. Whenever the routes can read a session out of a cookie of a request, be
    it an access or a refresh token of any kind and however the header is spaced
    and ordered, the guard recognises the request as one that authenticates by
    cookie: a mutation under [/api/] is then admitted only if it was made by a
    page of the gateway's own origin, which in production is the configured
    public one, scheme and port included. *)
Theorem cookie_mutation_fence (decodeURIComponent : string → option string) env req line r kind refresh token id max s :
  decodeURIComponent "" = Some "" →
  (∀ s u, parse_url s = Some u → is_web u = true → wu_origin u ≠ "") →
  im_headers req !! "cookie" = Some (Single line) → rq_cookie r = Some line →
  readCookie decodeURIComponent r (if refresh : bool then refreshCookieName kind else accessCookieName kind) = Some token →
  under req "/api/" = true → mutating req = true →
  (guard env req id max s).1 = LetThrough →
  made_by_own_page env req ∧
  (ge_production env = true → ∃ base, ge_base_url env = Some base ∧ is_Some (parse_url base)).
Proof.
  intros Hempty Horigin Hline Hr Hread Hu Hm Hg. unfold readCookie in Hread. rewrite Hr in Hread.
  destruct (find_cookie_part _ _ _ _ Hempty Hread) as (part & Hpart & Hname).
  assert (isCookieAuthenticatedMutation req = true) as Hc.
  { unfold isCookieAuthenticatedMutation, headerValue.
    change (toLowerCase "cookie") with "cookie". rewrite Hline.
    eapply session_cookie_covers; [exact Hpart|exact Hname|].
    destruct refresh, kind; apply list_elem_of_In; vm_compute; tauto. }
  pose proof (same_origin_sound env req Horigin Hm Hc (guard_same_origin _ _ _ _ _ Hu Hm Hg)) as Hown.
  split; [done|]. intros Hp. destruct Hown as (_ & _ & [(base & own & Hb & Ho & _)|(_ & Hnp & _)]); [eauto|congruence].
Qed.

(** ** The pools *)

(** What the reservations of a pool that were not given back amount to. *)
Definition holds (authenticated : bool) (r : reservation) : Z :=
  if eqb (rv_authenticated r) authenticated && negb (rv_released r) then rv_length r else 0.

Definition held (authenticated : bool) (m : gmap positive reservation) : Z :=
  map_fold (λ _ r acc, holds authenticated r + acc) 0 m.

Lemma held_insert a id r m : m !! id = None → held a (<[id := r]> m) = holds a r + held a m.
Proof. intros H. unfold held. apply (map_fold_insert_L (λ _ r acc, holds a r + acc)); [|done]. intros. lia. Qed.

Lemma held_change a id r r' m : m !! id = Some r → held a (<[id := r']> m) = held a m - holds a r + holds a r'.
Proof.
  intros H. rewrite <-(insert_delete_id m id r) at 2 by done. rewrite <-insert_delete_eq, !held_insert by apply lookup_delete_eq.
  lia.
Qed.

Lemma held_nonneg a m : map_Forall (λ _ r, 0 ≤ rv_length r) m → 0 ≤ held a m.
Proof.
  induction m as [|id r m Hid IH] using map_ind; intros Hm.
  - unfold held. by rewrite map_fold_empty.
  - rewrite held_insert by done. apply map_Forall_insert in Hm as [Hr Hm]; [|done]. specialize (IH Hm).
    unfold holds. destruct (_ && _); lia.
Qed.

Lemma held_delete_le a id r m : map_Forall (λ _ r, 0 ≤ rv_length r) m → m !! id = Some r →
  rv_released r = false → rv_authenticated r = a → rv_length r ≤ held a m.
Proof.
  intros Hm Hr Hrel <-. rewrite <-(insert_delete_id m id r) by done.
  rewrite held_insert by apply lookup_delete_eq.
  pose proof (held_nonneg (rv_authenticated r) (delete id m) (map_Forall_delete _ _ _ Hm)).
  unfold holds. rewrite Hrel, eqb_reflx. cbn. lia.
Qed.

Lemma held_all_released a m : map_Forall (λ _ r, rv_released r = true) m → held a m = 0.
Proof.
  induction m as [|id r m Hid IH] using map_ind; intros Hm; [done|].
  rewrite held_insert by done. apply map_Forall_insert in Hm as [Hr Hm]; [|done]. rewrite IH by done.
  unfold holds. by rewrite Hr, andb_false_r.
Qed.

(** A process serving requests: each response is a new object, its end is
    reported any number of times. *)
Inductive guard_step : guard_state → guard_state → Prop :=
| request_arrives env req id max s : gs_open s !! id = None → guard_step s (guard env req id max s).2
| response_over id s : guard_step s (releaseOnce id s).

Definition guard_start : guard_state := {| gs_pools := {| pl_auth := 0; pl_unauth := 0 |}; gs_open := ∅ |}.

Record pools_exact (s : guard_state) : Prop := {
  px_auth : pl_auth (gs_pools s) = held true (gs_open s);
  px_unauth : pl_unauth (gs_pools s) = held false (gs_open s);
  px_auth_max : pl_auth (gs_pools s) ≤ MAX_AUTHENTICATED_CONCURRENT_BYTES;
  px_unauth_max : pl_unauth (gs_pools s) ≤ MAX_UNAUTHENTICATED_CONCURRENT_BYTES;
  px_lengths : map_Forall (λ _ r, 0 ≤ rv_length r) (gs_open s);
}.

(** What admitting a request does to the process. *)
Lemma guard_effect env req id max s : let '(a, s') := guard env req id max s in
  s' = s ∨ ∃ length p, a = LetThrough ∧ isPayloadBearingEndpoint req = true ∧
    (raw ← im_headers req !! "content-length"; declared_length raw) = Some length ∧
    length ≤ maxApiBodyBytesForRequest (im_url req) (toUpperCase (coalesce (im_method req) "")) (coalesce max MAX_API_BODY_BYTES) ∧
    reserve length (isLikelyAuthenticated hmac decode JSON_parse sha256 env req) (gs_pools s) = Some p ∧
    s' = {| gs_pools := p;
            gs_open := <[id := {| rv_length := length;
              rv_authenticated := isLikelyAuthenticated hmac decode JSON_parse sha256 env req; rv_released := false |}]> (gs_open s) |}.
Proof.
  unfold guardApiRequest. repeat (case_if; [by left|]). bools.
  destruct (im_headers req !! "content-length") as [raw|]; [|destruct (_ !! _); by left].
  destruct (declared_length raw) as [length|] eqn:Hl; [|by left]. repeat (case_if; [by left|]). bools.
  destruct (reserve _ _ _) as [p|] eqn:Hp; [|by left]. right. exists length, p. split_and!; auto.
Qed.

Lemma reserve_exact n a p p' : reserve n a p = Some p' → 0 ≤ n ∧
  pl_auth p' = pl_auth p + (if a then n else 0) ∧ pl_unauth p' = pl_unauth p + (if a then 0 else n) ∧
  (if a then pl_auth p' ≤ MAX_AUTHENTICATED_CONCURRENT_BYTES else pl_unauth p' ≤ MAX_UNAUTHENTICATED_CONCURRENT_BYTES).
Proof.
  unfold reserve. destruct (_ || _) eqn:E; [done|]. bools.
  destruct a; destruct (_ <? _) eqn:E2; intros [= <-]; bools; cbn in *; lia.
Qed.

Lemma guard_step_exact s s' : guard_step s s' → pools_exact s → pools_exact s'.
Proof.
  intros Hstep [Ha Hu Hma Hmu Hl]. destruct Hstep as [env req id max s Hid|id s].
  - pose proof (guard_effect env req id max s) as Heff. destruct (guard env req id max s) as [a s'].
    destruct Heff as [->|(n & p & _ & _ & _ & _ & Hres & ->)]; [done|].
    apply reserve_exact in Hres as (Hn & H1 & H2 & H3).
    destruct (isLikelyAuthenticated _ _ _ _ env req); constructor; cbn in *;
      rewrite ?held_insert by done; unfold holds; cbn; try lia; by apply map_Forall_insert_2.
  - unfold releaseOnce. destruct (gs_open s !! id) as [r|] eqn:Hr; [|done]. destruct (rv_released r) eqn:Hrel; [done|].
    pose proof (Hl id r Hr) as Hpos. cbn in Hpos.
    pose proof (held_change true id r {| rv_length := rv_length r; rv_authenticated := rv_authenticated r; rv_released := true |} _ Hr) as Ct.
    pose proof (held_change false id r {| rv_length := rv_length r; rv_authenticated := rv_authenticated r; rv_released := true |} _ Hr) as Cf.
    assert (∀ a, 0 ≤ held a (<[id := {| rv_length := rv_length r; rv_authenticated := rv_authenticated r; rv_released := true |}]> (gs_open s))) as Hnn.
    { intros a. apply held_nonneg. by apply map_Forall_insert_2. }
    pose proof (Hnn true). pose proof (Hnn false). unfold holds in Ct, Cf. rewrite Hrel in Ct, Cf. unfold release.
    destruct (rv_authenticated r); cbn in Ct, Cf; constructor; cbn; try lia; by apply map_Forall_insert_2.
Qed.

Lemma guard_runs_exact s : rtc guard_step guard_start s → pools_exact s.
Proof.
  assert (pools_exact guard_start) as H0 by (by constructor; cbn).
  intros Hrun. induction Hrun; eauto using guard_step_exact.
Qed.

(** C30. Whatever requests arrive and however responses end (several times, or
    never), each pool is exactly the sum of the declared lengths of the
    responses in flight that were admitted from it; the pools never exceed 32
    and 8 MiB; a response that ends gives back exactly what it held, once, so
    the clamp at zero never hides a loss, and when all are over everything was
    given back. A request takes from the pools only when it is admitted to a
    route that carries payloads, from the pool of its class, and at most the
    limit of its route. *)
Theorem body_budget s : rtc guard_step guard_start s →
  pl_auth (gs_pools s) = held true (gs_open s) ∧ pl_unauth (gs_pools s) = held false (gs_open s) ∧
  0 ≤ pl_auth (gs_pools s) ≤ MAX_AUTHENTICATED_CONCURRENT_BYTES ∧
  0 ≤ pl_unauth (gs_pools s) ≤ MAX_UNAUTHENTICATED_CONCURRENT_BYTES ∧
  (map_Forall (λ _ r, rv_released r = true) (gs_open s) → getReservedRequestBytes (gs_pools s) = 0) ∧
  (∀ id r, gs_open s !! id = Some r → rv_released r = false →
     let s' := releaseOnce id s in
     getReservedRequestBytes (gs_pools s') = getReservedRequestBytes (gs_pools s) - rv_length r ∧ releaseOnce id s' = s') ∧
  (∀ env req id max, gs_open s !! id = None → let '(a, s') := guard env req id max s in s' ≠ s →
     ∃ r, a = LetThrough ∧ gs_open s' = <[id := r]> (gs_open s) ∧ isPayloadBearingEndpoint req = true ∧
       rv_authenticated r = isLikelyAuthenticated hmac decode JSON_parse sha256 env req ∧
       rv_length r ≤ maxApiBodyBytesForRequest (im_url req) (toUpperCase (coalesce (im_method req) ""))
                       (coalesce max MAX_API_BODY_BYTES)).
Proof.
  intros Hrun%guard_runs_exact. destruct Hrun as [Ha Hu Hma Hmu Hl].
  pose proof (held_nonneg true _ Hl). pose proof (held_nonneg false _ Hl).
  split_and!; [done|done|lia|done|lia|done|..].
  - intros Hall. unfold getReservedRequestBytes. rewrite Ha, Hu, !held_all_released by done. done.
  - intros id r Hr Hrel. cbv zeta. unfold releaseOnce. rewrite Hr, Hrel. split.
    + unfold getReservedRequestBytes, release. cbn. pose proof (Hl id r Hr) as Hpos. cbn in Hpos.
      pose proof (held_delete_le _ id r _ Hl Hr Hrel eq_refl).
      destruct (rv_authenticated r); cbn in *; lia.
    + cbn. by rewrite lookup_insert_eq.
  - intros env req id max Hid. pose proof (guard_effect env req id max s) as Heff.
    destruct (guard env req id max s) as [a s']. intros Hne.
    destruct Heff as [|(n & p & Had & Hp & _ & Hlim & _ & ->)]; [done|]. eexists. by split_and!.
Qed.

(** ** Who draws from the larger pool *)

(** The token the guard looks at in one of the two places. *)
Definition presented (req : incoming) (token : string) : Prop :=
  let authHeader := first_value (im_headers req !! "authorization") in
  (startsWith authHeader "Bearer " = true ∧ token = trim (String.substring 7 (String.length authHeader - 7) authHeader)) ∨
  (∃ v, first_session_value (first_value (im_headers req !! "cookie")) = Some v ∧ token = trim v).

(** What has to be true of a token for the larger pool: three parts, the last of
    which is the signature of the others under a configured secret of at least
    32 characters, and no expiry more than a minute ago. *)
Lemma quick_sound env token : verifyJwtQuick hmac decode JSON_parse sha256 env token = true →
  ∃ h p s secret, token = h +:+ "." +:+ p +:+ "." +:+ s ∧ ge_secret env = Some secret ∧ 32 ≤ strlen secret ∧
    sha256 s = sha256 (hmac secret (h +:+ "." +:+ p)) ∧ long_expired decode JSON_parse (ge_now env) p = false.
Proof.
  unfold verifyJwtQuick. destruct (_ || _); [done|]. destruct (split_on_concat "."%char token) as [Hjoin _].
  destruct (split_on "."%char token) as [|h [|p [|s [|]]]]; try done.
  destruct (long_expired _ _ _ p) eqn:He; [done|]. destruct (ge_secret env) as [k|]; [|done].
  destruct (strlen k <? 32) eqn:Hk; [done|]. intros H. bools. exists h, p, s, k. by rewrite <-Hjoin.
Qed.

(** A request draws from the larger pool only on a presented token with a
    signature of the gateway, and a session token it signed is recognised until
    a minute after it expired. *)
Theorem larger_pool_needs_signature env req (encode : string → string) secret c :
  (∀ s, decode (encode s) = s) → (∀ s, dotless (encode s) = true) → (∀ s, dotless (hmac secret s) = true) →
  ge_secret env = Some secret → 32 ≤ strlen secret →
  JSON_parse (stringify (claims_json c)) = Some (claims_json c) →
  40 ≤ strlen (signAccessToken (hmac secret) encode c) ≤ 4096 →
  verifyJwtQuick hmac decode JSON_parse sha256 env (signAccessToken (hmac secret) encode c)
    = (ge_now env <? (sc_exp c + 60) * 1000) ∧
  (isLikelyAuthenticated hmac decode JSON_parse sha256 env req = true →
   ∃ token h p s, presented req token ∧ token = h +:+ "." +:+ p +:+ "." +:+ s ∧
     sha256 s = sha256 (hmac secret (h +:+ "." +:+ p)) ∧ long_expired decode JSON_parse (ge_now env) p = false).
Proof.
  intros Hde Hed Hhd Hk Hlen Hc Hsize. split.
  - unfold verifyJwtQuick. rewrite !(proj2 (Z.ltb_ge _ _)) by lia. cbn [orb].
    rewrite (split_signed _ _ Hed Hhd), Hk, (proj2 (Z.ltb_ge _ _)) by lia. unfold long_expired. rewrite Hde, Hc.
    cbn [mbind option_bind]. destruct (claims_fields c) as (_ & _ & _ & _ & _ & _ & Hexp & _). rewrite Hexp. cbn [as_number].
    rewrite (bool_decide_true (sha256 _ = _)) by done.
    destruct (_ <=? _) eqn:E1, (_ <? _) eqn:E2; bools; try done; lia.
  - intros Ha. assert (∃ token, presented req token ∧ verifyJwtQuick hmac decode JSON_parse sha256 env token = true)
      as (token & Hp & (h & p & s & k & -> & Hk' & _ & Hs & He)%quick_sound).
    { unfold isLikelyAuthenticated in Ha. apply orb_true_iff in Ha as [Ha|Ha].
      - bools. eexists. split; [by left|done].
      - destruct (first_session_value _) as [v|] eqn:Hv; [|done]. exists (trim v). split; [right; by exists v|done]. }
    rewrite Hk in Hk'. injection Hk' as <-. by exists (h +:+ "." +:+ p +:+ "." +:+ s), h, p, s.
Qed.
End fence.

(** ** The drain ends *)

(** What holds of a drain after any events. *)
Record drain_ok (d : drain) : Prop := {
  dk_ends : dn_ends d = if dn_finalized d then 1%nat else 0%nat;
  dk_timer : dn_timer d = negb (dn_finalized d);
  dk_bound : dn_finalized d = false → dn_drained d < REJECT_DRAIN_MAX_BYTES;
  dk_quiet : dn_finalized d = false → dn_teardown d = false ∧ dn_destroyed d = false;
}.

Lemma drain_step_ok e d : drain_ok d → drain_ok (drain_step e d).
Proof.
  intros [He Ht Hb Hq]. destruct d as [dr fin ti en te de]; cbn in *.
  destruct e; cbn; unfold finishResponse, arm_teardown; cbn; repeat (case_if; cbn in *); subst; bools;
    constructor; cbn; try done; intros; try lia; destruct Hq; subst; auto.
Qed.

(** The connection was told to close by one of the two bounds. *)
Definition bounded_out (es : list drain_event) : Prop :=
  DrainTimeout ∈ es ∨ ∃ es1 n es2, es = es1 ++ Data n :: es2 ∧ REJECT_DRAIN_MAX_BYTES <= dn_drained (drain_run (es1 ++ [Data n])).

Lemma drain_run_snoc es e : drain_run (es ++ [e]) = drain_step e (drain_run es).
Proof. unfold drain_run. by rewrite foldl_app. Qed.

Lemma bounded_out_app es e : bounded_out es → bounded_out (es ++ [e]).
Proof.
  intros [H|(es1 & n & es2 & -> & H)]; [left; apply elem_of_app; by left|right].
  exists es1, n, (es2 ++ [e]). split; [by rewrite <-app_assoc|done].
Qed.

Lemma drain_teardown_bounded es : dn_teardown (drain_run es) = true ∨ dn_destroyed (drain_run es) = true → bounded_out es.
Proof.
  induction es as [|e es IH] using rev_ind; [by intros [|]|]. rewrite drain_run_snoc.
  destruct e as [n| | | |].
  - destruct (REJECT_DRAIN_MAX_BYTES <=? dn_drained (drain_run es) + n) eqn:E.
    + intros _. right. exists es, n, []. split; [done|]. rewrite drain_run_snoc. cbn. rewrite E. bools.
      unfold finishResponse, arm_teardown. cbn. by destruct (dn_finalized _).
    + cbn. rewrite E. cbn. auto using bounded_out_app.
  - cbn. unfold finishResponse. destruct (dn_finalized _); cbn; auto using bounded_out_app.
  - cbn. unfold finishResponse. destruct (dn_finalized _); cbn; auto using bounded_out_app.
  - intros _. left. apply elem_of_app. right. by left.
  - cbn. intros H. apply bounded_out_app, IH. destruct (dn_destroyed _), (dn_teardown _); auto; by destruct H.
Qed.

Lemma drain_run_ok es : drain_ok (drain_run es).
Proof. induction es as [|e l IH] using rev_ind; [by constructor|]. rewrite drain_run_snoc. by apply drain_step_ok. Qed.

Lemma drain_finalized_mono es es' : dn_finalized (drain_run es) = true → dn_finalized (drain_run (es ++ es')) = true.
Proof.
  intros H. induction es' as [|e es' IH] using rev_ind; [by rewrite app_nil_r|].
  rewrite app_assoc, drain_run_snoc. destruct e; cbn; unfold finishResponse, arm_teardown; cbn; repeat (case_if; cbn); done.
Qed.

Lemma drain_finalized_by e es : e ∈ es → e = RequestEnd ∨ e = RequestError ∨ e = DrainTimeout →
  dn_finalized (drain_run es) = true.
Proof.
  intros (es1 & es2 & ->)%list_elem_of_split He. change (e :: es2) with ([e] ++ es2). rewrite app_assoc. apply drain_finalized_mono.
  rewrite drain_run_snoc. pose proof (dk_timer _ (drain_run_ok es1)) as Ht.
  destruct He as [->|[->| ->]]; cbn; unfold finishResponse, arm_teardown; cbn; rewrite ?Ht;
    destruct (dn_finalized (drain_run es1)) eqn:E; cbn; by rewrite ?E.
Qed.

Lemma drain_finalized_only es : dn_finalized (drain_run es) = true → bounded_out es ∨ RequestEnd ∈ es ∨ RequestError ∈ es.
Proof.
  induction es as [|e es IH] using rev_ind; [done|]. rewrite drain_run_snoc. intros H.
  assert (dn_finalized (drain_run es) = true → bounded_out (es ++ [e]) ∨ RequestEnd ∈ es ++ [e] ∨ RequestError ∈ es ++ [e]) as Hold.
  { intros [Hb|[Hb|Hb]]%IH; [left; by apply bounded_out_app|..]; rewrite !elem_of_app; auto. }
  destruct e as [n| | | |]; [|rewrite !elem_of_app, !list_elem_of_singleton; auto..| |].
  - destruct (REJECT_DRAIN_MAX_BYTES <=? dn_drained (drain_run es) + n) eqn:E.
    + left. right. exists es, n, []. split; [done|]. apply Z.leb_le. rewrite drain_run_snoc. cbn. rewrite E.
      unfold finishResponse, arm_teardown. cbn. by destruct (dn_finalized _).
    + apply Hold. cbn in H. by rewrite E in H.
  - left. left. apply elem_of_app. right. by left.
  - by apply Hold.
Qed.

Lemma drain_destroyed_after es : dn_destroyed (drain_run es) = true → ResponseFinish ∈ es.
Proof.
  induction es as [|e es IH] using rev_ind; [done|]. rewrite drain_run_snoc, elem_of_app, list_elem_of_singleton.
  destruct e; [..|by auto]; cbn; unfold finishResponse, arm_teardown; cbn; repeat (case_if; cbn); auto.
Qed.

(** A rejected request gets its response: whatever the client sends and in
    whatever order the events come, the response is ended exactly once as soon as
    the body ended, failed, reached 16 MiB or took five seconds, and never
    before; less than 16 MiB are read until then; and the request is destroyed
    only by one of the two bounds, after the response is out. *)
Theorem drain_ends_once es : let d := drain_run es in
  dn_ends d = (if dn_finalized d then 1 else 0)%nat ∧
  (dn_finalized d = false → dn_drained d < REJECT_DRAIN_MAX_BYTES ∧ dn_destroyed d = false) ∧
  (dn_finalized d = true ↔ bounded_out es ∨ RequestEnd ∈ es ∨ RequestError ∈ es) ∧
  (dn_destroyed d = true → bounded_out es ∧ ResponseFinish ∈ es).
Proof.
  cbv zeta. pose proof (drain_run_ok es) as [He _ Hb Hq]. split_and!; [done|intros H; split; [by apply Hb|by apply Hq]|..].
  - split; [apply drain_finalized_only|]. intros [[H|(es1 & n & es2 & -> & H)]|[H|H]]; [by eapply drain_finalized_by; eauto| |by eapply drain_finalized_by; eauto..].
    change (Data n :: es2) with ([Data n] ++ es2). rewrite app_assoc. apply drain_finalized_mono.
    apply not_false_is_true. intros E%(dk_bound _ (drain_run_ok _)). lia.
  - intros H. split; [apply drain_teardown_bounded; by right|by apply drain_destroyed_after].
Qed.

(** ** Instances *)

(** A parser that knows the gateway's origin and one other. *)
Definition sample_parse_url (s : string) : option web_url :=
  if startsWith s "https://print.example.com"
  then Some {| wu_protocol := "https:"; wu_host := "print.example.com"; wu_origin := "https://print.example.com" |}
  else if startsWith s "https://evil.example.com"
  then Some {| wu_protocol := "https:"; wu_host := "evil.example.com"; wu_origin := "https://evil.example.com" |}
  else None.

Definition sample_env : guard_env := {|
  ge_production := true; ge_secret := Some "0123456789abcdef0123456789abcdef";
  ge_base_url := Some "https://print.example.com"; ge_now := 5000 |}.

Definition posted (url : string) (headers : list (string * string)) : incoming := {|
  im_method := Some "post"; im_url := Some url; im_headers := Single <$> list_to_map headers |}.

Definition sample_mac (secret data : string) : string := "m".

Abbreviation sample_guard := (guardApiRequest sample_mac plain sample_parse hashed sample_parse_url).

(** A refresh cookie after another cookie, and a page of another site. *)
Definition refreshing (origin : string) : incoming :=
  posted "/api/auth/refresh" [("cookie", " lang=ar;  cust_refresh=r1"); ("host", "Print.Example.com."); ("origin", origin)].

Definition refreshing_cookies : request := {|
  rq_cookie := Some " lang=ar;  cust_refresh=r1"; rq_authorization := None; rq_origin := None; rq_desktop := None;
  rq_refreshToken := None |}.

Lemma sample_origins s u : sample_parse_url s = Some u → is_web u = true → wu_origin u ≠ "".
Proof. unfold sample_parse_url. repeat case_if; by intros [= <-]. Qed.

Lemma cookie_mutation_fence_witness :
  made_by_own_page sample_parse_url sample_env (refreshing "https://print.example.com") ∧
  (sample_guard sample_env (refreshing "https://evil.example.com") 1%positive None guard_start).1
    = GuardRejects 403 "CSRF_VALIDATION_FAILED".
Proof.
  split; [|vm_compute; reflexivity].
  apply (cookie_mutation_fence sample_mac plain sample_parse hashed sample_parse_url Some sample_env
    (refreshing "https://print.example.com") " lang=ar;  cust_refresh=r1" refreshing_cookies customer_kind true "r1"
    1%positive None guard_start); try (vm_compute; reflexivity). exact sample_origins.
Defined.

(** Two uploads of an agent, one of which is over. *)
Definition upload (length : string) : incoming := posted "/api/agent/heartbeat?page=1" [("content-length", length)].

Definition two_uploads : guard_state :=
  releaseOnce 1 (sample_guard sample_env (upload "500000") 2%positive None
    (sample_guard sample_env (upload "400000") 1%positive None guard_start).2).2.

Lemma two_uploads_run : rtc (guard_step sample_mac plain sample_parse hashed sample_parse_url) guard_start two_uploads.
Proof.
  eapply rtc_l; [apply (request_arrives _ _ _ _ _ sample_env (upload "400000") 1 None); vm_compute; reflexivity|].
  eapply rtc_l; [apply (request_arrives _ _ _ _ _ sample_env (upload "500000") 2 None); vm_compute; reflexivity|].
  eapply rtc_l; [apply (response_over _ _ _ _ _ 1)|]. apply rtc_refl.
Qed.

Lemma body_budget_witness :
  gs_pools two_uploads = {| pl_auth := 0; pl_unauth := 500000 |} ∧ pl_unauth (gs_pools two_uploads) = held false (gs_open two_uploads) ∧
  (sample_guard sample_env (upload "600000") 3%positive None two_uploads).1 = GuardRejects 413 "REQUEST_BODY_TOO_LARGE".
Proof.
  split; [vm_compute; reflexivity|]. split; [|vm_compute; reflexivity].
  destruct (body_budget sample_mac plain sample_parse hashed sample_parse_url two_uploads two_uploads_run) as (_ & H & _).
  exact H.
Defined.

(** The first of two session cookies is the only one looked at: a stale one
    hides a live one from the classification. *)
Example stale_cookie_hides_live_one :
  first_session_value "mgr_session=stale; cust_session=live" = Some "stale" ∧
  first_session_value "cust_session=live; mgr_session=stale" = Some "live" ∧
  first_session_value "old_mgr_session=junk; cust_session=live" = Some "junk".
Proof. split_and!; vm_compute; reflexivity. Qed.
