(* ===== verification/FrontDoor.v ===== *)
(** * FrontDoor: from the process settings to the request handler

    [src/lib/runtime-secret.ts] with its cache, [src/lib/trust-proxy-config.ts],
    [src/server/trusted-proxy.ts], [src/server/cors.ts] and [server.ts]: the
    checks of a production start, the handler of every request up to the call of
    Next, and the guard that keeps a maintenance task from overlapping itself.

    [process.env] and the secrets of one request are functions from names; the
    secrets are what [runtimeSecret] answers, which is modelled by itself. Node's
    [URL] parser and SHA-256 are arguments. *)

From Stdlib Require Import Ascii.
From S2P Require Import Prelude DatabaseTime JobStatus Json Schema Authority Entitlements Sessions Cookies Passwords RequestGuard.

(** ** [runtime-secret.ts] *)

Definition SECRET_CACHE_TTL_MS : Z := 30 * 1000.

Record SecretCacheEntry := { se_file : string; se_value : option string; se_expiresAt : Z }.

Abbreviation secret_cache := (gmap string SecretCacheEntry).

(** One call: the variables, what [readFileSync] returns of a path (it throws on
    [None]), and the time. *)
Record secret_call := {
  sl_env : string → option string;
  sl_read : string → option string;
  sl_now : Z;
  sl_name : string;
}.

Definition secret_file (c : secret_call) : string := trim (coalesce (sl_env c (sl_name c +:+ "_FILE")) "").

(** The file is read; the entry of an unreadable one is left alone. *)
Definition read_secret (c : secret_call) (cache : secret_cache) : option string * secret_cache :=
  match sl_read c (secret_file c) with
  | Some text =>
      let value := null_if_empty (trim text) in
      (value, <[sl_name c := {| se_file := secret_file c; se_value := value;
                                se_expiresAt := sl_now c + SECRET_CACHE_TTL_MS |}]> cache)
  | None => (None, cache)
  end.

Definition runtimeSecret (c : secret_call) (cache : secret_cache) : option string * secret_cache :=
  if secret_file c != "" then
    match cache !! sl_name c with
    | Some cached =>
        if (se_file cached == secret_file c) && (sl_now c <? se_expiresAt cached)
        then (se_value cached, cache) else read_secret c cache
    | None => read_secret c cache
    end
  else
    (sl_env c (sl_name c) ≫= (λ raw, null_if_empty (trim raw)), delete (sl_name c) cache).

Inductive secret_error := SecretMissing (name : string).

Definition requiredRuntimeSecret (c : secret_call) (cache : secret_cache) : result string secret_error * secret_cache :=
  let '(value, cache) := runtimeSecret c cache in
  (match value with Some v => Ok v | None => Err (SecretMissing (sl_name c)) end, cache).

(** The cache after calls, the latest first. *)
Fixpoint cache_after (calls : list secret_call) : secret_cache :=
  match calls with [] => ∅ | c :: calls => (runtimeSecret c (cache_after calls)).2 end.

(** ** [trust-proxy-config.ts] and [trusted-proxy.ts] *)

(** A parsed URL with what a start looks at besides. *)
Record full_url := {
  fu_web : web_url;
  fu_username : string;
  fu_password : string;
  fu_pathname : string;
  fu_search : string;
  fu_hash : string;
}.

Section settings.
Context (hmac : string → string → string) (decode : string → string) (JSON_parse : string → option json)
  (sha256 : string → string) (URL : string → option full_url).
Context (env secret : string → option string).

Definition parsed_url (s : string) : option web_url := fu_web <$> URL s.

Definition trustProxyEnabled : bool := (env "TRUST_PROXY" == Some "1") || (env "TRUST_PROXY" == Some "true").

Definition configuredProxySecret : option string :=
  value ← secret "TRUST_PROXY_SECRET";
  if 32 <=? strlen (trim value) then Some (trim value) else None.

Definition safeEqual (left right : string) : bool := sha256 left == sha256 right.

Definition normalizedOrigin (value : string) : option string :=
  u ← parsed_url value;
  if wu_origin u == "null" then None else Some (wu_origin u).

(** The origins a browser may open a socket from. *)
Definition websocket_origins : list string :=
  let own := coalesce (secret "APP_BASE_URL") "" in
  (if trim own == "" then [] else option_list (normalizedOrigin (trim own))) ++
  (match env "WS_ALLOWED_ORIGINS" with Some raw => split_on ","%char raw | None => [] end
     ≫= λ item, option_list (normalizedOrigin (trim item))).

Definition isAllowedWebSocketOrigin (originHeader : option string) : bool :=
  if negb (truthy originHeader) then true
  else match normalizedOrigin (trim (coalesce originHeader "")) with
       | Some supplied => one_of websocket_origins supplied
       | None => false
       end.

(** The header of a [Request] made of Node's: several values are joined. *)
Definition joined (v : option header_value) : string :=
  match v with Some (Single s) => s | Some (Several l) => String.concat ", " l | None => "" end.

Definition isTrustedProxyRequest (req : incoming) : bool :=
  if negb trustProxyEnabled then true
  else match configuredProxySecret with
       | Some s =>
           let supplied := trim (joined (im_headers req !! "x-gateway-proxy-token")) in
           (supplied != "") && safeEqual supplied s
       | None => false
       end.

Definition isTrustedProxyUpgrade (headers : gmap string header_value) : bool :=
  if negb trustProxyEnabled then true
  else match configuredProxySecret with
       | Some s =>
           let supplied := trim (first_value (headers !! "x-gateway-proxy-token")) in
           (supplied != "") && safeEqual supplied s
       | None => false
       end.

(** ** [cors.ts] *)

Definition DEFAULT_DESKTOP_ORIGINS : list string := ["tauri://localhost"; "http://tauri.localhost"].

Definition configuredOrigins : list string :=
  match env "DESKTOP_CORS_ORIGINS" with
  | Some raw => if raw == "" then DEFAULT_DESKTOP_ORIGINS else filter (λ v, v ≠ "") (trim <$> split_on ","%char raw)
  | None => DEFAULT_DESKTOP_ORIGINS
  end.

(** The origin that [Access-Control-Allow-Origin] names; no headers otherwise. *)
Definition applyApiCors (req : incoming) : option string :=
  if negb (under req "/api/") then None
  else match im_headers req !! "origin" with
       | Some (Single origin) => if (origin != "") && one_of configuredOrigins origin then Some origin else None
       | _ => None
       end.

Definition handleApiCorsPreflight (req : incoming) : option Z :=
  if (im_method req != Some "OPTIONS") || negb (under req "/api/") then None
  else Some (if is_some (applyApiCors req) then 204 else 403).

(** ** The start of [server.ts] *)

Inductive startup_error : Type :=
| BadPort | PlaintextPassword | InsecureCookies | NoPlatformTenant
| NoSecret (name : string) | PlaceholderSecret (name : string)
| ProxyNotTrusted | NoBaseUrl | BaseUrlNotAbsolute | BaseUrlNotClean.

Definition KNOWN_PLACEHOLDER_SECRETS : list string :=
  ["changeme-to-at-least-32-chars-random-string"; "changeme-proxy-secret-at-least-32-chars-long";
   "replace-with-at-least-32-random-characters"; "replace-with-another-at-least-32-random-secret"].

Definition isLoopbackBinding (host : string) : bool :=
  one_of ["127.0.0.1"; "::1"; "localhost"] (toLowerCase (trim host)).

Definition assertRealSecret (name : string) (value : option string) (minLength : Z) : result string startup_error :=
  match value with
  | Some v =>
      if (v == "") || (strlen v <? minLength) then Err (NoSecret name)
      else if one_of KNOWN_PLACEHOLDER_SECRETS (trim v) then Err (PlaceholderSecret name)
      else Ok v
  | None => Err (NoSecret name)
  end.

Definition listen_port : result Z startup_error :=
  let raw := trim (coalesce (env "PORT") "3000") in
  match (if raw == "" then None else decimal_value 0 raw) with
  | Some port => if 65535 <? port then Err BadPort else Ok port
  | None => Err BadPort
  end.

Definition hostname : string := coalesce (env "HOSTNAME") "0.0.0.0".

Definition production : bool := env "NODE_ENV" == Some "production".

Definition check_base_url : result unit startup_error :=
  let appBaseUrl := trim (coalesce (secret "APP_BASE_URL") "") in
  if appBaseUrl == "" then Err NoBaseUrl
  else match URL appBaseUrl with
       | None => Err BaseUrlNotAbsolute
       | Some u =>
           throw_if ((wu_protocol (fu_web u) != "https:") || (fu_username u != "") || (fu_password u != "") ||
                     (fu_pathname u != "/") || (fu_search u != "") || (fu_hash u != "")) BaseUrlNotClean
       end.

Definition check_production : result unit startup_error :=
  let platformTenantId := trim (coalesce (secret "PLATFORM_TENANT_ID") "") in
  do* throw_if ((platformTenantId == "") || (platformTenantId == "<required-platform-tenant-id>")) NoPlatformTenant in
  let* _ := assertRealSecret "GATEWAY_JWT_SECRET" (secret "GATEWAY_JWT_SECRET") 32 in
  do* throw_if (negb trustProxyEnabled && negb (isLoopbackBinding hostname)) ProxyNotTrusted in
  let* _ := if trustProxyEnabled then assertRealSecret "TRUST_PROXY_SECRET" (secret "TRUST_PROXY_SECRET") 32 else Ok "" in
  check_base_url.

Definition startup : result Z startup_error :=
  let* port := listen_port in
  do* throw_if (negb (one_of ["development"; "test"] (coalesce (env "NODE_ENV") "")) &&
                (env "ALLOW_PLAINTEXT_MANAGER_PASSWORD" == Some "1")) PlaintextPassword in
  do* throw_if (production && one_of ["0"; "false"; "no"; "off"] (toLowerCase (trim (coalesce (env "COOKIE_SECURE") ""))))
        InsecureCookies in
  do* if production then check_production else Ok tt in
  Ok port.

(** ** The request handler *)

Inductive door_answer : Type :=
| ListenerThrows
| TrustedProxyRequired
| Preflight (status : Z)
| GuardAnswers (status : Z) (code : string)
| HandedToNext.

Definition request_env (now : Z) : guard_env := {|
  ge_production := production; ge_secret := secret "GATEWAY_JWT_SECRET"; ge_base_url := secret "APP_BASE_URL"; ge_now := now |}.

Definition probePath (req : incoming) : string :=
  coalesce (head (split_on "#"%char (coalesce (head (split_on "?"%char (coalesce (im_url req) ""))) ""))) "".

(** The methods for which the constructor of a [Request] throws (Fetch standard,
    section "Methods"). *)
Definition request_forbids (method : option string) : bool :=
  one_of ["CONNECT"; "TRACE"; "TRACK"] (toUpperCase (coalesce method "GET")).

(** The proxy's proof, [None] when the [Request] it is read from cannot be made. *)
Definition proxy_proof (req : incoming) : option bool :=
  if trustProxyEnabled && negb (one_of ["/api/health"; "/api/live"] (probePath req)) then
    if request_forbids (im_method req) then None else Some (isTrustedProxyRequest req)
  else Some true.

(** What is sent or handed on; the policy, cache and CORS headers that are set on
    the way change neither. *)
Definition serve (req : incoming) (now : Z) (id : positive) (s : guard_state) : door_answer * guard_state :=
  match proxy_proof req with
  | None => (ListenerThrows, s)
  | Some false => (TrustedProxyRequired, s)
  | Some true =>
      match handleApiCorsPreflight req with
      | Some status => (Preflight status, s)
      | None =>
          let '(a, s) := guardApiRequest hmac decode JSON_parse sha256 parsed_url (request_env now) req id None s in
          (match a with LetThrough => HandedToNext | GuardRejects status code => GuardAnswers status code end, s)
      end
  end.
End settings.

(** ** [maintenanceTask] *)

Record task_state := { tk_running : bool; tk_shuttingDown : bool; tk_active : nat (* operations not settled *) }.

Inductive task_event : Type := Tick | Settled | Shutdown.

(** [Settled] is the [finally] of one of the operations in progress. *)
Definition task_step (e : task_event) (t : task_state) : task_state :=
  match e with
  | Tick =>
      if tk_running t || tk_shuttingDown t then t
      else {| tk_running := true; tk_shuttingDown := tk_shuttingDown t; tk_active := S (tk_active t) |}
  | Settled =>
      match tk_active t with
      | O => t
      | S n => {| tk_running := false; tk_shuttingDown := tk_shuttingDown t; tk_active := n |}
      end
  | Shutdown => {| tk_running := tk_running t; tk_shuttingDown := true; tk_active := tk_active t |}
  end.

Definition task_start : task_state := {| tk_running := false; tk_shuttingDown := false; tk_active := 0 |}.
Definition task_run (es : list task_event) : task_state := foldl (λ t e, task_step e t) task_start es.

(** ** Secrets are fresh *)

(** The call read the secret from its file. *)
Definition read_by (c : secret_call) (value : option string) : Prop :=
  secret_file c ≠ "" ∧ ∃ text, sl_read c (secret_file c) = Some text ∧ value = null_if_empty (trim text).

Lemma cache_entry_read calls name e : cache_after calls !! name = Some e →
  ∃ c, c ∈ calls ∧ sl_name c = name ∧ secret_file c = se_file e ∧ se_expiresAt e = sl_now c + SECRET_CACHE_TTL_MS ∧
    read_by c (se_value e).
Proof.
  induction calls as [|c calls IH]; [done|]. cbn [cache_after].
  assert (cache_after calls !! name = Some e → ∃ c0, c0 ∈ c :: calls ∧ sl_name c0 = name ∧ secret_file c0 = se_file e ∧
    se_expiresAt e = sl_now c0 + SECRET_CACHE_TTL_MS ∧ read_by c0 (se_value e)) as Hold.
  { intros (c0 & Hin & H)%IH. exists c0. split; [by right|done]. }
  unfold runtimeSecret. destruct (secret_file c != "") eqn:Hf.
  - bools. assert ((read_secret c (cache_after calls)).2 !! name = Some e →
      ∃ c0, c0 ∈ c :: calls ∧ sl_name c0 = name ∧ secret_file c0 = se_file e ∧
        se_expiresAt e = sl_now c0 + SECRET_CACHE_TTL_MS ∧ read_by c0 (se_value e)) as Hfresh.
    { unfold read_secret. destruct (sl_read c (secret_file c)) as [text|] eqn:Hr; cbn; [|done].
      rewrite lookup_insert_Some. intros [[<- <-]|[_ H]]; [|by apply Hold].
      exists c. cbn. split_and!; [by left|done..|]. split; [done|]. by exists text. }
    destruct (cache_after calls !! sl_name c) as [cached|]; [destruct (_ && _)|]; [done|exact Hfresh..].
  - cbn. rewrite lookup_delete_Some. intros [_ H]. by apply Hold.
Qed.

(** A secret that is mounted as a file is served at most 30 seconds past
    the read it comes from: whatever calls came before, with variables and files
    changing in between, the value returned for a file is the trimmed, non-empty
    content of that file at a call of the same name less than the cache's life
    ago, which is this very call when none is; and a secret without a file is
    the variable, with nothing remembered. *)
Theorem secret_is_fresh calls c v : (runtimeSecret c (cache_after calls)).1 = Some v →
  v ≠ "" ∧ trim v = v ∧
  (if secret_file c == "" then ∃ raw, sl_env c (sl_name c) = Some raw ∧ v = trim raw
   else ∃ c', c' ∈ c :: calls ∧ sl_name c' = sl_name c ∧ secret_file c' = secret_file c ∧
     sl_now c < sl_now c' + SECRET_CACHE_TTL_MS ∧ ∃ text, sl_read c' (secret_file c) = Some text ∧ v = trim text).
Proof.
  assert (∀ s v, null_if_empty (trim s) = Some v → v ≠ "" ∧ trim v = v ∧ v = trim s) as Htrim.
  { intros s w. unfold null_if_empty. case_bool_decide; [done|]. intros [= <-]. split_and!; [done|apply trim_idem|done]. }
  unfold runtimeSecret. destruct (secret_file c == "") eqn:Hf; bools; cbn [negb].
  - cbn. rewrite bind_Some. intros (raw & Hraw & (H1 & H2 & H3)%Htrim). split_and!; [done..|]. by exists raw.
  - assert ((read_secret c (cache_after calls)).1 = Some v →
      v ≠ "" ∧ trim v = v ∧ ∃ c', c' ∈ c :: calls ∧ sl_name c' = sl_name c ∧ secret_file c' = secret_file c ∧
        sl_now c < sl_now c' + SECRET_CACHE_TTL_MS ∧ ∃ text, sl_read c' (secret_file c) = Some text ∧ v = trim text) as Hfresh.
    { unfold read_secret. destruct (sl_read c (secret_file c)) as [text|] eqn:Hr; [|done]. cbn. intros (H1 & H2 & H3)%Htrim.
      split_and!; [done..|]. exists c. split_and!; [by left|done|done|unfold SECRET_CACHE_TTL_MS; lia|by exists text]. }
    destruct (cache_after calls !! sl_name c) as [e|] eqn:He; [|done]. destruct (_ && _) eqn:Hlive; [|done].
    cbn. intros Hv. bools. apply cache_entry_read in He as (c' & Hin & Hn & Hfile & Hexp & _ & text & Hr & Hval).
    rewrite Hv in Hval. symmetry in Hval. apply Htrim in Hval as (H1 & H2 & H3). split_and!; [done..|].
    exists c'. split_and!; [by right|done|congruence|lia|]. exists text. split; [congruence|done].
Qed.

(** ** The door of a started gateway *)

Section door.
Context (hmac : string → string → string) (decode : string → string) (JSON_parse : string → option json)
  (sha256 : string → string) (URL : string → option full_url).
Context (env secret : string → option string).
(** What [runtimeSecret] answers is trimmed ([secret_is_fresh]). *)
Context (secret_trimmed : ∀ n v, secret n = Some v → trim v = v).
Abbreviation serves := (serve hmac decode JSON_parse sha256 URL env secret).

Lemma started_base_url : check_base_url URL secret = Ok tt →
  ∃ base u, secret "APP_BASE_URL" = Some base ∧ URL base = Some u ∧ wu_protocol (fu_web u) = "https:".
Proof.
  unfold check_base_url. destruct (secret "APP_BASE_URL") as [base|] eqn:Hb; [|done].
  unfold coalesce. cbn [default from_option id]. rewrite (secret_trimmed _ _ Hb). destruct (base == ""); [done|].
  destruct (URL base) as [u|] eqn:Hu; [|done]. intros H%throw_if_Ok. bools. by exists base, u.
Qed.

Lemma started_production port : startup URL env secret = Ok port → production env = true →
  check_base_url URL secret = Ok tt ∧ (trustProxyEnabled env = false → isLoopbackBinding (hostname env) = true).
Proof.
  unfold startup. intros H Hp. rewrite Hp in H. rinv. unfold check_production in *. rinv. destruct r2. split; [done|].
  intros Ht. rewrite Ht in *. cbn [negb andb] in *. by bools.
Qed.

Lemma trusted_proxy req : trustProxyEnabled env = true → isTrustedProxyRequest sha256 env secret req = true →
  ∃ key, secret "TRUST_PROXY_SECRET" = Some key ∧ 32 ≤ strlen key ∧
    sha256 (trim (joined (im_headers req !! "x-gateway-proxy-token"))) = sha256 key.
Proof.
  intros Ht. unfold isTrustedProxyRequest, configuredProxySecret. rewrite Ht. cbn [negb].
  destruct (secret "TRUST_PROXY_SECRET") as [key|] eqn:Hk; [|done]. cbn [mbind option_bind].
  rewrite (secret_trimmed _ _ Hk). destruct (32 <=? strlen key) eqn:Hl; [|done]. unfold safeEqual. intros H. bools.
  by exists key.
Qed.

(** C31. Of a gateway that passed the checks of a production start, a request
    reaches the routes only through an authenticated proxy (the probes apart) or
    on a loopback interface; a preflight never does; and a mutation that
    carries a session cookie only from a page of the configured HTTPS origin,
    addressed to its host. *)
Theorem production_door req now id s port :
  (∀ t u, URL t = Some u → wu_origin (fu_web u) ≠ "") →
  startup URL env secret = Ok port → production env = true →
  (serves req now id s).1 = HandedToNext →
  (if trustProxyEnabled env
   then probePath req ∈ ["/api/health"; "/api/live"] ∨
        ∃ key, secret "TRUST_PROXY_SECRET" = Some key ∧ 32 ≤ strlen key ∧
          sha256 (trim (joined (im_headers req !! "x-gateway-proxy-token"))) = sha256 key
   else isLoopbackBinding (hostname env) = true) ∧
  (under req "/api/" = true → im_method req ≠ Some "OPTIONS") ∧
  (under req "/api/" = true → mutating req = true → isCookieAuthenticatedMutation req = true →
   ∃ base own, secret "APP_BASE_URL" = Some base ∧ URL base = Some own ∧ wu_protocol (fu_web own) = "https:" ∧
     drop_last_char "."%char (toLowerCase (headerValue req "host")) = toLowerCase (wu_host (fu_web own)) ∧
     match request_source req with
     | Some source => ∃ page, URL source = Some page ∧ wu_origin (fu_web page) = wu_origin (fu_web own)
     | None => toLowerCase (headerValue req "sec-fetch-site") = "same-origin"
     end).
Proof.
  intros Horigin Hstart Hprod Hserve. destruct (started_production _ Hstart Hprod) as [Hbase Hloop].
  unfold serve in Hserve. destruct (proxy_proof sha256 env secret req) as [[]|] eqn:Hproxy; [|done..].
  destruct (handleApiCorsPreflight env req) as [st|] eqn:Hpre; [done|]. split_and!.
  - destruct (trustProxyEnabled env) eqn:Ht; [|by apply Hloop]. unfold proxy_proof in Hproxy. rewrite Ht in Hproxy.
    cbn [andb] in Hproxy. destruct (one_of _ (probePath req)) eqn:Hprobe; [left; by apply one_of_true|right].
    cbn [negb] in Hproxy. destruct (request_forbids (im_method req)); [done|]. apply trusted_proxy; congruence.
  - intros Hu Hm. unfold handleApiCorsPreflight in Hpre. rewrite Hu, Hm, bool_decide_true in Hpre by done. done.
  - intros Hu Hm Hc. destruct (guardApiRequest _ _ _ _ _ _ _ _ _ _) as [a s'] eqn:Hg. destruct a; [|done].
    pose proof (guard_same_origin hmac decode JSON_parse sha256 (parsed_url URL) (request_env env secret now) req id None s Hu Hm) as Hso.
    rewrite Hg in Hso. specialize (Hso eq_refl).
    apply same_origin_sound in Hso; [|intros t u (fu & Ht & ->)%fmap_Some _; eauto|done..].
    destruct (started_base_url Hbase) as (base & own & Hb & Ho & Hhttps).
    destruct Hso as (_ & _ & [(base' & own' & Hb' & Ho' & _ & Hhost & Hsrc)|(_ & Hnp & _)]); [|cbn in Hnp; congruence].
    cbn in Hb'. rewrite Hb in Hb'. injection Hb' as <-. unfold parsed_url in Ho'. rewrite Ho in Ho'. injection Ho' as <-.
    exists base, own. split_and!; [done..|]. destruct (request_source req) as [source|]; [|done].
    destruct Hsrc as (page & (fu & Hp & ->)%fmap_Some & _ & Heq). by exists fu.
Qed.

(** Behind a trusted proxy the listener throws on every TRACE request that
    is not a probe, whatever token it carries: the request is neither refused nor
    handed on, because the [Request] that the proxy's proof is read from cannot be
    made with that method. *)
Theorem trace_request_throws req now id s : trustProxyEnabled env = true →
  im_method req = Some "TRACE" → probePath req ∉ ["/api/health"; "/api/live"] →
  serves req now id s = (ListenerThrows, s).
Proof.
  intros Ht Hm Hp. unfold serve, proxy_proof. rewrite Ht, Hm.
  assert (one_of ["/api/health"; "/api/live"] (probePath req) = false) as -> by (by apply bool_decide_eq_false). done.
Qed.

Lemma in_option_list {A} (o : option A) x : x ∈ option_list o → o = Some x.
Proof. destruct o; cbn; [by intros ->%list_elem_of_singleton|by intros ?%elem_of_nil]. Qed.

(** A browser's handshake is accepted only from the gateway's own origin or one
    that is listed; an opaque origin never is. *)
Theorem websocket_origin_known origin : origin ≠ "" → isAllowedWebSocketOrigin URL env secret (Some origin) = true →
  ∃ page, URL (trim origin) = Some page ∧ wu_origin (fu_web page) ≠ "null" ∧
    ∃ listed u, URL listed = Some u ∧ wu_origin (fu_web u) = wu_origin (fu_web page) ∧
      (secret "APP_BASE_URL" = Some listed ∨
       ∃ raw item, env "WS_ALLOWED_ORIGINS" = Some raw ∧ item ∈ split_on ","%char raw ∧ listed = trim item).
Proof.
  assert (∀ s o, normalizedOrigin URL s = Some o → ∃ u, URL s = Some u ∧ wu_origin (fu_web u) = o ∧ o ≠ "null") as Hnorm.
  { intros s o. unfold normalizedOrigin, parsed_url. rewrite bind_Some. intros (w & (u & Hu & ->)%fmap_Some & H).
    case_bool_decide; [done|]. injection H as <-. by exists u. }
  intros Hne. unfold isAllowedWebSocketOrigin. cbn [truthy]. rewrite bool_decide_false by done. cbn [negb coalesce default].
  destruct (normalizedOrigin URL (trim _)) as [o|] eqn:Ho; [|done]. apply Hnorm in Ho as (page & Hp & <- & Hnull).
  intros Hin%one_of_true. exists page. split_and!; [done..|]. unfold websocket_origins in Hin.
  apply elem_of_app in Hin as [Hin|Hin].
  - destruct (secret "APP_BASE_URL") as [base|] eqn:Hb; unfold coalesce in Hin; cbn [default from_option id] in Hin; [|by apply elem_of_nil in Hin].
    rewrite (secret_trimmed _ _ Hb) in Hin. case_bool_decide; [by apply elem_of_nil in Hin|].
    apply in_option_list, Hnorm in Hin as (u & Hu & Heq & _). exists base, u. eauto.
  - apply list_elem_of_bind in Hin as (item & Hin & Hitem). apply in_option_list, Hnorm in Hin as (u & Hu & Heq & _).
    destruct (env "WS_ALLOWED_ORIGINS") as [raw|]; [|by apply elem_of_nil in Hitem].
    exists (trim item), u. split_and!; [done..|]. right. by exists raw, item.
Qed.
End door.

(** ** Maintenance never overlaps itself *)

(** However often the timer fires and however long a run takes, at most one run
    of a task is in progress, and none is started after the shutdown began. *)
Theorem maintenance_exclusive es : let t := task_run es in
  tk_active t = (if tk_running t then 1 else 0)%nat ∧
  (tk_shuttingDown t = true → ∀ es', (tk_active (task_run (es ++ es')) ≤ tk_active t)%nat).
Proof.
  assert (∀ t e, tk_active t = (if tk_running t then 1 else 0)%nat →
    tk_active (task_step e t) = (if tk_running (task_step e t) then 1 else 0)%nat) as Hstep.
  { intros [r sd n] [] H; cbn in *; subst; by destruct r, sd. }
  assert (∀ es' t, tk_shuttingDown t = true → (tk_active (foldl (λ t e, task_step e t) t es') ≤ tk_active t)%nat) as Hdown.
  { induction es' as [|e es' IH]; [done|]. intros t Ht. cbn [foldl]. etrans; [apply IH|].
    - destruct e; cbn; rewrite ?Ht, ?orb_true_r; try done. by destruct (tk_active t).
    - destruct e; cbn; rewrite ?Ht, ?orb_true_r; try done. destruct (tk_active t) eqn:E; cbn; lia. }
  cbv zeta. split.
  - induction es as [|e es IH] using rev_ind; [done|]. unfold task_run in *. rewrite foldl_app. by apply Hstep.
  - intros Ht es'. unfold task_run in *. rewrite foldl_app. by apply Hdown.
Qed.

(** ** Instances *)

Definition sample_full_url (s : string) : option full_url :=
  w ← sample_parse_url s;
  Some {| fu_web := w; fu_username := ""; fu_password := ""; fu_pathname := "/"; fu_search := ""; fu_hash := "" |}.

Definition sample_variables (name : string) : option string :=
  if name == "NODE_ENV" then Some "production" else if name == "TRUST_PROXY" then Some "1" else None.

Definition proxy_key : string := "fedcba9876543210fedcba9876543210".

Definition sample_secrets (name : string) : option string :=
  if name == "APP_BASE_URL" then Some "https://print.example.com"
  else if name == "GATEWAY_JWT_SECRET" then Some "0123456789abcdef0123456789abcdef"
  else if name == "TRUST_PROXY_SECRET" then Some proxy_key
  else if name == "PLATFORM_TENANT_ID" then Some "t0" else None.

(** The refresh of [RequestGuard], behind the proxy. *)
Definition proxied (req : incoming) : incoming := {|
  im_method := im_method req; im_url := im_url req;
  im_headers := <["x-gateway-proxy-token" := Single proxy_key]> (im_headers req) |}.

Abbreviation sample_serve := (serve sample_mac plain sample_parse hashed sample_full_url sample_variables sample_secrets).

Lemma sample_full_origins s u : sample_full_url s = Some u → wu_origin (fu_web u) ≠ "".
Proof.
  unfold sample_full_url, sample_parse_url. rewrite bind_Some. intros (w & Hw & [= <-]). cbn.
  repeat case_if; simplify_eq; done.
Qed.

Lemma sample_secrets_trimmed n v : sample_secrets n = Some v → trim v = v.
Proof. unfold sample_secrets. repeat case_if; intros [= <-]; vm_compute; reflexivity. Qed.

Lemma production_door_witness :
  (∃ key, sample_secrets "TRUST_PROXY_SECRET" = Some key ∧
     hashed (trim (joined (im_headers (proxied (refreshing "https://print.example.com")) !! "x-gateway-proxy-token"))) = hashed key) ∧
  (sample_serve (refreshing "https://print.example.com") 5000 1%positive guard_start).1 = TrustedProxyRequired ∧
  (sample_serve (proxied (refreshing "https://evil.example.com")) 5000 1%positive guard_start).1
    = GuardAnswers 403 "CSRF_VALIDATION_FAILED".
Proof.
  split; [|split; vm_compute; reflexivity].
  destruct (production_door sample_mac plain sample_parse hashed sample_full_url sample_variables sample_secrets
    sample_secrets_trimmed (proxied (refreshing "https://print.example.com")) 5000 1 guard_start 3000 sample_full_origins)
    as [H _]; [vm_compute; reflexivity..|].
  assert (trustProxyEnabled sample_variables = true) as Ht by (vm_compute; reflexivity). rewrite Ht in H.
  destruct H as [H|(key & Hk & _ & H)]; [exfalso; apply one_of_true in H; vm_compute in H; discriminate|by exists key].
Defined.

Lemma trace_request_throws_witness :
  sample_serve (proxied {| im_method := Some "TRACE"; im_url := Some "/"; im_headers := ∅ |}) 5000 1%positive guard_start
    = (ListenerThrows, guard_start).
Proof.
  apply (trace_request_throws sample_mac plain sample_parse hashed sample_full_url sample_variables sample_secrets);
    [vm_compute; reflexivity..|]. intros H%one_of_true. vm_compute in H. discriminate.
Defined.

(** The file is rotated between two calls and gone before the third. *)
Definition rotating (now : Z) (content : option string) : secret_call := {|
  sl_env := λ n, if n == "GATEWAY_JWT_SECRET_FILE" then Some "/run/secrets/jwt" else None;
  sl_read := λ f, if f == "/run/secrets/jwt" then content else None;
  sl_now := now; sl_name := "GATEWAY_JWT_SECRET" |}.

Lemma secret_is_fresh_witness :
  let calls := [rotating 0 (Some " old ")] in
  (runtimeSecret (rotating 29999 (Some "new")) (cache_after calls)).1 = Some "old" ∧
  (runtimeSecret (rotating 30000 None) (cache_after calls)).1 = None ∧
  ∃ c', c' ∈ rotating 30000 (Some "new") :: calls ∧ 30000 < sl_now c' + SECRET_CACHE_TTL_MS.
Proof.
  cbv zeta. split; [vm_compute; reflexivity|]. split; [vm_compute; reflexivity|].
  destruct (secret_is_fresh [rotating 0 (Some " old ")] (rotating 30000 (Some "new")) "new") as (_ & _ & H);
    [vm_compute; reflexivity|].
  assert ((secret_file (rotating 30000 (Some "new")) == "") = false) as E by (vm_compute; reflexivity). rewrite E in H.
  destruct H as (c' & Hin & _ & _ & Ht & _). by exists c'.
Defined.
