(* ===== verification/OdooKeys.v ===== *)
(** * OdooKeys: the credentials of Odoo integrations

    [src/lib/odoo-auth.ts], [src/app/api/odoo/keys/route.ts] (create, revoke,
    remove), [src/app/api/odoo/keys/[id]/rotate/route.ts] and [PATCH] of
    [src/app/api/odoo/configuration/route.ts].

    The store is the whole [api_keys] table beside the rest of the gateway's
    database; what the print pipeline sees of a key is [credential]. A route
    answers [Err status] without effect. [raw] and the id of a new key are drawn
    at random and are arguments, as is SHA-256. *)

From S2P Require Import Prelude DatabaseTime JobStatus Json Schema Authority Availability Payload.
From S2P Require Import PrinterVirtual Capability Entitlements Samples JobProtocol JobDelivery JobMaintenance.
From S2P Require Import JobService Lifecycle Sessions Discovery.

(** ** The table *)

Record odoo_key := {
  ok_tenantId : string;
  ok_name : string;
  ok_description : option string;
  ok_hashedKey : string;
  ok_odooEnabled : bool;
  ok_odooEnabledRevision : Z;
  ok_odooEnabledUpdatedAt : option Z;
  ok_createdAt : Z;
  ok_lastUsedAt : option Z;
  ok_revokedAt : option Z;
  ok_readOnlyUntil : option Z;
}.

Definition credential (k : odoo_key) : api_key := {|
  ak_tenantId := ok_tenantId k; ak_odooEnabled := ok_odooEnabled k; ak_revokedAt := ok_revokedAt k;
  ak_readOnlyUntil := ok_readOnlyUntil k |}.

Record odoo_db := { og_keys : gmap string odoo_key; og_rest : db }.

(** The database of the pipeline. *)
Definition odoo_gateway (s : odoo_db) : db := {|
  tenants := tenants (og_rest s); agents := agents (og_rest s); printers := printers (og_rest s);
  api_keys := credential <$> og_keys s; print_jobs := print_jobs (og_rest s); receipts := receipts (og_rest s);
  plans := plans (og_rest s); subscriptions := subscriptions (og_rest s); usage_periods := usage_periods (og_rest s);
  job_notices := job_notices (og_rest s) |}.

Definition on_keys (m : gmap string odoo_key) (s : odoo_db) : odoo_db := {| og_keys := m; og_rest := og_rest s |}.

(** [hashed_key NOT LIKE 'deleted:%']. *)
Definition key_present (k : odoo_key) : bool := negb (startsWith (ok_hashedKey k) "deleted:").

(** [INSERT]: the id and the hash are unique; a violation is an unhandled 500. *)
Definition insert_key (id : string) (k : odoo_key) (s : odoo_db) : result odoo_db Z :=
  if is_some (og_keys s !! id) || is_some (find_row (λ k', ok_hashedKey k' == ok_hashedKey k) (og_keys s))
  then Err 500 else Ok (on_keys (<[id := k]> (og_keys s)) s).

(** The row of a tenant. *)
Definition key_of (tenantId id : string) (s : odoo_db) : option odoo_key :=
  k ← og_keys s !! id; if ok_tenantId k == tenantId then Some k else None.

Definition MAX_INT4 : Z := 2147483647.

(** [LEAST(odoo_enabled_revision, 2147483646) + 1]. *)
Definition next_revision (n : Z) : Z := Z.min n 2147483646 + 1.

(** [revokedAt, readOnlyUntil: null, odooEnabled: false, ...]. *)
Definition revoked_key (at_ : Z) (hashedKey : string) (k : odoo_key) : odoo_key := {|
  ok_tenantId := ok_tenantId k; ok_name := ok_name k; ok_description := ok_description k; ok_hashedKey := hashedKey;
  ok_odooEnabled := false; ok_odooEnabledRevision := next_revision (ok_odooEnabledRevision k);
  ok_odooEnabledUpdatedAt := Some at_; ok_createdAt := ok_createdAt k; ok_lastUsedAt := ok_lastUsedAt k;
  ok_revokedAt := Some at_; ok_readOnlyUntil := None |}.

Definition retiring_key (at_ until : Z) (k : odoo_key) : odoo_key := {|
  ok_tenantId := ok_tenantId k; ok_name := ok_name k; ok_description := ok_description k; ok_hashedKey := ok_hashedKey k;
  ok_odooEnabled := ok_odooEnabled k; ok_odooEnabledRevision := ok_odooEnabledRevision k;
  ok_odooEnabledUpdatedAt := ok_odooEnabledUpdatedAt k; ok_createdAt := ok_createdAt k; ok_lastUsedAt := ok_lastUsedAt k;
  ok_revokedAt := Some at_; ok_readOnlyUntil := Some until |}.

Definition configured_key (enabled : bool) (revision at_ : Z) (k : odoo_key) : odoo_key := {|
  ok_tenantId := ok_tenantId k; ok_name := ok_name k; ok_description := ok_description k; ok_hashedKey := ok_hashedKey k;
  ok_odooEnabled := enabled; ok_odooEnabledRevision := revision; ok_odooEnabledUpdatedAt := Some at_;
  ok_createdAt := ok_createdAt k; ok_lastUsedAt := ok_lastUsedAt k; ok_revokedAt := ok_revokedAt k;
  ok_readOnlyUntil := ok_readOnlyUntil k |}.

Definition used_key (at_ : Z) (k : odoo_key) : odoo_key := {|
  ok_tenantId := ok_tenantId k; ok_name := ok_name k; ok_description := ok_description k; ok_hashedKey := ok_hashedKey k;
  ok_odooEnabled := ok_odooEnabled k; ok_odooEnabledRevision := ok_odooEnabledRevision k;
  ok_odooEnabledUpdatedAt := ok_odooEnabledUpdatedAt k; ok_createdAt := ok_createdAt k; ok_lastUsedAt := Some at_;
  ok_revokedAt := ok_revokedAt k; ok_readOnlyUntil := ok_readOnlyUntil k |}.

Section keys.
Context (sha256 : string → string).

(** ** [odoo-auth.ts] *)

Definition hashKey (raw : string) : string := sha256 raw.

(** [generateOdooApiKey]: the id and the raw key of a draw of random bytes. *)
Definition generateOdooApiKey (bytes32 bytes8 : string) : string * string := ("odoo_" +:+ bytes32, "key_" +:+ bytes8).

(** The headers of a request. *)
Record odoo_request := { or_authorization : option string; or_apiKey : option string }.

Definition presented_key (req : odoo_request) : string :=
  let authorization := coalesce (or_authorization req) "" in
  if startsWith authorization "Bearer "
  then trim (String.substring 7 (String.length authorization - 7) authorization)
  else trim (coalesce (or_apiKey req) "").

(** The condition of the query: active, or retiring within its grace. *)
Definition usable_key (ck : clock) (hashed : string) (k : odoo_key) : bool :=
  (ok_hashedKey k == hashed) &&
  ((is_none (ok_revokedAt k) && is_none (ok_readOnlyUntil k)) ||
   match ok_revokedAt k, ok_readOnlyUntil k with
   | Some revoked, Some until => (revoked <=? clock_timestamp ck) && (clock_timestamp ck <? until)
   | _, _ => false
   end).

Record odoo_principal := { op_id : string; op_key : odoo_key; op_readOnly : bool }.

(** [UPDATE api_keys SET last_used_at = now() WHERE id AND tenant_id]. *)
Definition touch_key (id tenantId : string) (at_ : Z) (s : odoo_db) : odoo_db :=
  match key_of tenantId id s with
  | Some k => on_keys (<[id := used_key at_ k]> (og_keys s)) s
  | None => s
  end.

(** The row is read from [s_read], the use is recorded in [s]; [touched] is
    whether that update succeeded, whose failure is only logged; [d_lifecycle] is
    what the read of the tenant sees. *)
Definition validateOdooKey (requireIntegrationEnabled requireActiveTenant : bool) (req : odoo_request) (ck : clock)
    (touched : bool) (d_lifecycle : db) (s_read s : odoo_db) : option odoo_principal * odoo_db :=
  let raw := presented_key req in
  if negb (startsWith raw "odoo_") then (None, s)
  else
    let hashed := hashKey raw in
    match find_row (usable_key ck hashed) (og_keys s_read) with
    | None => (None, s)
    | Some (id, row) =>
        let rotationGraceActive := is_some (ok_revokedAt row) && is_some (ok_readOnlyUntil row) in
        if (sha256 (ok_hashedKey row) != sha256 hashed) || (is_some (ok_revokedAt row) && negb rotationGraceActive)
           || (is_none (ok_revokedAt row) && is_some (ok_readOnlyUntil row)) then (None, s)
        else
          let s := if touched then touch_key id (ok_tenantId row) (now ck) s else s in
          if requireActiveTenant && is_none (requireActiveTenantOrNull d_lifecycle (ok_tenantId row)) then (None, s)
          else if requireIntegrationEnabled && negb (ok_odooEnabled row) then (None, s)
          else (Some {| op_id := id; op_key := row; op_readOnly := rotationGraceActive |}, s)
    end.

(** ** Creating a key *)

(** [z.string().trim().min(lo).max(hi).optional()]. *)
Definition trimmed_between (lo hi : Z) (v : json) : option string :=
  match v with JString s => text_between lo hi (JString (trim s)) | _ => None end.

Definition only_keys (keys : list string) (body : list (string * json)) : bool :=
  forallb (λ kv, one_of keys kv.1) body.

Definition keyInputSchema (body : list (string * json)) : option (option string * option string) :=
  name ← absent_or (trimmed_between 1 120) (json_field (JObject body) "name");
  description ← absent_or (trimmed_between 0 500) (json_field (JObject body) "description");
  if only_keys ["name"; "description"] body then Some (name, description) else None.

Definition new_key (tenantId name : string) (description : option string) (hashed : string) (at_ : Z) : odoo_key := {|
  ok_tenantId := tenantId; ok_name := name; ok_description := description; ok_hashedKey := hashed;
  ok_odooEnabled := false; ok_odooEnabledRevision := -1; ok_odooEnabledUpdatedAt := None; ok_createdAt := at_;
  ok_lastUsedAt := None; ok_revokedAt := None; ok_readOnlyUntil := None |}.

Definition billed {A} (s : odoo_db) (ck : clock) (tenantId : string) (k : result A Z) : result A Z :=
  match requireTenantBillingAccess (odoo_gateway s) ck tenantId with Ok _ => k | Err _ => Err 403 end.

(** [claims] is what the door answered; [body] is the object that was sent. *)
Definition keys_POST (claims : option ManagerClaims) (body : option json) (bytes32 bytes8 : string) (ck : clock)
    (a : auth_db) (s : odoo_db) : result (string * string * odoo_db) Z :=
  match claims with
  | None => Err 401
  | Some m =>
      do* throw_if (negb (hasManagerPermission m integrations_manage)) 403 in
      let* body := match body with Some (JObject l) => Ok l | _ => Err 400 end in
      match keyInputSchema body with
      | None => Err 400
      | Some (name, description) =>
          let '(raw, id) := generateOdooApiKey bytes32 bytes8 in
          active_tenant (odoo_gateway s) (mc_tenantId m)
            (fence (requireManagerActorInTransaction a ck m integrations_manage)
              (billed s ck (mc_tenantId m)
                (let* s' := insert_key id (new_key (mc_tenantId m) (coalesce name "Odoo")
                              (spread_truthy description) (hashKey raw) (now ck)) s in
                 Ok (id, raw, s'))))
      end
  end.

(** ** Revoking and removing *)

Definition deleted_hash (id : string) : string := "deleted:" +:+ id.

(** Both branches lock the row, check the manager and rewrite it; the branches
    differ in the hash that is left. *)
Definition revoke_transaction (m : ManagerClaims) (id : string) (remove : bool) (ck : clock) (a : auth_db) (s : odoo_db)
    : result odoo_db Z :=
  active_tenant (odoo_gateway s) (mc_tenantId m)
    match key_of (mc_tenantId m) id s with
    | Some k =>
        if key_present k then
          fence (requireManagerActorInTransaction a ck m integrations_manage)
            (Ok (on_keys (<[id := revoked_key (clock_timestamp ck)
                              (if remove then deleted_hash id else ok_hashedKey k) k]> (og_keys s)) s))
        else Err 404
    | None => Err 404
    end.

Definition keys_DELETE (claims : option ManagerClaims) (body : option json) (ck : clock) (a : auth_db) (s : odoo_db)
    : result odoo_db Z :=
  match claims with
  | None => Err 401
  | Some m =>
      do* throw_if (negb (hasManagerPermission m integrations_manage)) 403 in
      let record := match body with Some (JObject l) => JObject l | _ => JObject [] end in
      let id := match json_field record "id" with Some (JString s) => trim s | _ => "" end in
      do* throw_if (id == "") 400 in
      revoke_transaction m id (bool_decide (json_field record "remove" = Some (JBool true))) ck a s
  end.

(** ** Rotating *)

Definition ODOO_KEY_ROTATION_GRACE_MS : Z := 60 * 60 * 1000.

(** The new key continues the old one. *)
Definition successor_key (old : odoo_key) (hashed : string) (at_ : Z) : odoo_key := {|
  ok_tenantId := ok_tenantId old; ok_name := ok_name old; ok_description := ok_description old; ok_hashedKey := hashed;
  ok_odooEnabled := ok_odooEnabled old; ok_odooEnabledRevision := ok_odooEnabledRevision old;
  ok_odooEnabledUpdatedAt := ok_odooEnabledUpdatedAt old; ok_createdAt := at_; ok_lastUsedAt := None;
  ok_revokedAt := None; ok_readOnlyUntil := None |}.

Definition rotate_transaction (m : ManagerClaims) (id bytes32 bytes8 : string) (ck : clock) (a : auth_db) (s : odoo_db)
    : result (string * string * odoo_db) Z :=
  active_tenant (odoo_gateway s) (mc_tenantId m)
    match key_of (mc_tenantId m) id s with
    | None => Err 404
    | Some old =>
        do* throw_if (is_some (ok_revokedAt old)) 409 in
        fence (requireManagerActorInTransaction a ck m integrations_manage)
          (let '(raw, newId) := generateOdooApiKey bytes32 bytes8 in
           let* s1 := insert_key newId (successor_key old (hashKey raw) (now ck)) s in
           let rotatedAt := clock_timestamp ck in
           Ok (newId, raw,
               on_keys (<[id := retiring_key rotatedAt (rotatedAt + ODOO_KEY_ROTATION_GRACE_MS) old]> (og_keys s1)) s1))
    end.

Definition rotate_POST (claims : option ManagerClaims) (id bytes32 bytes8 : string) (ck : clock) (a : auth_db) (s : odoo_db)
    : result (string * string * odoo_db) Z :=
  match claims with
  | None => Err 401
  | Some m =>
      do* throw_if (negb (hasManagerPermission m integrations_manage)) 403 in
      do* throw_if (trim id == "") 400 in
      rotate_transaction m id bytes32 bytes8 ck a s
  end.

(** ** The activation switch *)

Inductive configuration_answer : Type :=
| ConfigurationRefused (status : Z)
| Applied (enabled : bool) (revision : Z)
| StaleRevision (enabled : bool) (revision : Z)
| AlreadyCurrent (enabled : bool) (revision : Z)
| RevisionConflict (enabled : bool) (revision : Z).

(** The row as long as it is the key that was presented and live. *)
Definition live_row (id : string) (presented : odoo_key) (s : odoo_db) : option odoo_key :=
  k ← key_of (ok_tenantId presented) id s;
  if (ok_hashedKey k == ok_hashedKey presented) && is_none (ok_revokedAt k) && is_none (ok_readOnlyUntil k)
  then Some k else None.

(** [None] is an update that matched no row. *)
Definition configure_transaction (keyId : string) (presented : odoo_key) (enabled : bool) (revision : Z) (ck : clock)
    (s : odoo_db) : result (option odoo_db) Z :=
  active_tenant (odoo_gateway s) (ok_tenantId presented)
    match live_row keyId presented s with
    | None => Ok None
    | Some k =>
        (if enabled then billed s ck (ok_tenantId presented) else λ m, m)
          (if ok_odooEnabledRevision k <? revision
           then Ok (Some (on_keys (<[keyId := configured_key enabled revision (clock_timestamp ck) k]> (og_keys s)) s))
           else Ok None)
    end.

(** [principal] is what [validateOdooKey] answered with the integration switched
    on or off, [later] the store as the final read sees it. *)
Definition configuration_PATCH (principal : option odoo_principal) (body : option json) (ck : clock) (s later : odoo_db)
    : configuration_answer * odoo_db :=
  match principal with
  | None => (ConfigurationRefused 401, s)
  | Some p =>
      if op_readOnly p then (ConfigurationRefused 409, s)
      else
        match body with
        | Some (JObject l) =>
            match json_field (JObject l) "enabled", json_field (JObject l) "revision" with
            | Some (JBool enabled), Some (JNumber revision) =>
                if (revision <? 0) || (MAX_INT4 <? revision) then (ConfigurationRefused 400, s)
                else
                  match configure_transaction (op_id p) (op_key p) enabled revision ck s with
                  | Err status => (ConfigurationRefused status, s)
                  | Ok (Some s') => (Applied enabled revision, s')
                  | Ok None =>
                      (match live_row (op_id p) (op_key p) later with
                       | None => ConfigurationRefused 401
                       | Some current =>
                           let now_on := ok_odooEnabled current in
                           let at_ := ok_odooEnabledRevision current in
                           if revision <? at_ then StaleRevision now_on at_
                           else if eqb now_on enabled then AlreadyCurrent now_on at_
                           else RevisionConflict now_on at_
                       end, s)
                  end
            | _, _ => (ConfigurationRefused 400, s)
            end
        | _ => (ConfigurationRefused 400, s)
        end
  end.
End keys.

(** ** Runs *)

Section runs.
Context (sha256 : string → string).
(** A digest is hexadecimal. *)
Context (sha256_hex : ∀ raw, startsWith (sha256 raw) "deleted:" = false).

Inductive odoo_step : odoo_db → odoo_db → Prop :=
| os_create claims body bytes32 bytes8 ck a s id raw s' :
    keys_POST sha256 claims body bytes32 bytes8 ck a s = Ok (id, raw, s') → odoo_step s s'
| os_delete claims body ck a s s' : keys_DELETE claims body ck a s = Ok s' → odoo_step s s'
| os_rotate claims id bytes32 bytes8 ck a s newId raw s' :
    rotate_POST sha256 claims id bytes32 bytes8 ck a s = Ok (newId, raw, s') → odoo_step s s'
| os_configure principal body ck later s : odoo_step s (configuration_PATCH principal body ck s later).2
| os_use enabled active req ck touched d s_read s :
    odoo_step s (validateOdooKey sha256 enabled active req ck touched d s_read s).2
| os_other rest s : odoo_step s {| og_keys := og_keys s; og_rest := rest |}.

(** What may become of a row. *)
Record key_evolves (k k' : odoo_key) : Prop := {
  ke_tenant : ok_tenantId k' = ok_tenantId k;
  ke_revoked : is_Some (ok_revokedAt k) →
    is_Some (ok_revokedAt k') ∧ (ok_readOnlyUntil k' = ok_readOnlyUntil k ∨ ok_readOnlyUntil k' = None);
  ke_revision : ok_odooEnabledRevision k ≤ ok_odooEnabledRevision k';
  ke_enabled : ok_odooEnabled k' = ok_odooEnabled k ∨ ok_odooEnabledRevision k < ok_odooEnabledRevision k' ∨
    is_Some (ok_revokedAt k');
}.

Record key_row_ok (id : string) (k : odoo_key) : Prop := {
  kr_revision : -1 ≤ ok_odooEnabledRevision k ≤ MAX_INT4;
  kr_grace : ∀ until, ok_readOnlyUntil k = Some until →
    ∃ t, ok_revokedAt k = Some t ∧ until = t + ODOO_KEY_ROTATION_GRACE_MS;
  kr_hash : ok_hashedKey k = deleted_hash id ∨ key_present k = true;
}.

Definition keys_table_ok (m : gmap string odoo_key) : Prop :=
  map_Forall key_row_ok m ∧
  ∀ id1 id2 k1 k2, m !! id1 = Some k1 → m !! id2 = Some k2 → ok_hashedKey k1 = ok_hashedKey k2 → id1 = id2.

Definition keys_evolve (m m' : gmap string odoo_key) : Prop :=
  ∀ id k, m !! id = Some k → ∃ k', m' !! id = Some k' ∧ key_evolves k k'.

#[local] Instance key_evolves_preorder : PreOrder key_evolves.
Proof.
  split.
  - intros k. constructor; auto; lia.
  - intros k1 k2 k3 [T1 R1 V1 E1] [T2 R2 V2 E2]. constructor; [congruence| |lia|].
    + intros H. destruct (R1 H) as [H' H1]. destruct (R2 H') as [H'' H2]. split; [done|].
      destruct H1, H2; (left; congruence) || (right; congruence).
    + destruct E2 as [E2|[E2|E2]]; [|right; left; lia|by right; right].
      destruct E1 as [E1|[E1|E1]]; [left; congruence|right; left; lia|right; right; by apply R2].
Qed.

#[local] Instance keys_evolve_preorder : PreOrder keys_evolve.
Proof.
  split; [by intros m id k H; exists k|]. intros m1 m2 m3 H1 H2 id k Hk.
  destruct (H1 _ _ Hk) as (k2 & Hk2 & E2). destruct (H2 _ _ Hk2) as (k3 & Hk3 & E3). exists k3. split; [done|by etrans].
Qed.

(** Rewriting one row. *)
Lemma rewrite_key m id k k' : keys_table_ok m → m !! id = Some k → key_evolves k k' → key_row_ok id k' →
  (ok_hashedKey k' = ok_hashedKey k ∨ ok_hashedKey k' = deleted_hash id) →
  keys_table_ok (<[id := k']> m) ∧ keys_evolve m (<[id := k']> m).
Proof.
  intros [Hrows Huniq] Hk He Hok Hhash. split; [split|].
  - by apply map_Forall_insert_2.
  - assert (∀ i k1, i ≠ id → m !! i = Some k1 → ok_hashedKey k1 ≠ ok_hashedKey k') as Hother.
    { intros i k1 Hne Hi. destruct Hhash as [->| ->]; [intros Heq; apply Hne; by eapply Huniq|].
      destruct (kr_hash _ _ (Hrows _ _ Hi)) as [->|Hp]; [unfold deleted_hash; cbn; intros H; by injection H|].
      intros Heq. unfold key_present in Hp. rewrite Heq in Hp. unfold startsWith, deleted_hash in Hp.
      by rewrite prefix_app_self in Hp. }
    intros i1 i2 k1 k2. rewrite !lookup_insert_Some.
    intros [[<- <-]|[Hn1 H1]] [[<- <-]|[Hn2 H2]] Heq; [done|..].
    + by destruct (Hother i2 k2 (not_eq_sym Hn2) H2).
    + by destruct (Hother i1 k1 (not_eq_sym Hn1) H1).
    + by eapply Huniq.
  - intros i k0 Hi. destruct (decide (i = id)) as [->|Hne].
    + rewrite lookup_insert_eq. simplify_eq. by exists k'.
    + rewrite lookup_insert_ne by done. by exists k0.
Qed.

Lemma insert_key_ok id k s s' : keys_table_ok (og_keys s) → insert_key id k s = Ok s' → key_row_ok id k →
  keys_table_ok (og_keys s') ∧ keys_evolve (og_keys s) (og_keys s') ∧ og_keys s !! id = None ∧ og_keys s' = <[id := k]> (og_keys s).
Proof.
  intros [Hrows Huniq] Hins Hok. unfold insert_key in Hins. destruct (_ || _) eqn:E; [done|]. injection Hins as <-.
  apply orb_false_iff in E as [E1 E2]. destruct (og_keys s !! id) eqn:Hid; [done|].
  destruct (find_row _ _) eqn:Hf; [done|]. cbn. split_and!; [split|..|done|done].
  - by apply map_Forall_insert_2.
  - intros i1 i2 k1 k2. rewrite !lookup_insert_Some.
    intros [[<- <-]|[Hn1 H1]] [[<- <-]|[Hn2 H2]] Heq; [done|..|by eapply Huniq].
    + pose proof (find_row_None _ _ _ _ Hf H2) as Hn. cbn in Hn. bools. congruence.
    + pose proof (find_row_None _ _ _ _ Hf H1) as Hn. cbn in Hn. bools. congruence.
  - intros i k0 Hi. exists k0. split; [|reflexivity]. by rewrite lookup_insert_ne by congruence.
Qed.

Lemma active_tenant_Ok {A} d t (k : result A Z) r : active_tenant d t k = Ok r → k = Ok r.
Proof. unfold active_tenant. by destruct (requireActiveTenantInTransaction d t). Qed.

Lemma fence_Ok {A} m (k : result A Z) r : fence m k = Ok r → k = Ok r.
Proof. unfold fence. by destruct m. Qed.

Lemma billed_Ok {A} s ck t (k : result A Z) r : billed s ck t k = Ok r → k = Ok r.
Proof. unfold billed. by destruct (requireTenantBillingAccess _ _ _). Qed.

Lemma key_of_Some t id s k : key_of t id s = Some k → og_keys s !! id = Some k ∧ ok_tenantId k = t.
Proof. unfold key_of. rewrite bind_Some. intros (k' & Hk & H). case_bool_decide; [|done]. by simplify_eq. Qed.

Lemma live_row_Some id p s k : live_row id p s = Some k →
  og_keys s !! id = Some k ∧ ok_revokedAt k = None ∧ ok_readOnlyUntil k = None ∧ ok_hashedKey k = ok_hashedKey p.
Proof.
  unfold live_row. rewrite bind_Some. intros (k' & [Hk _]%key_of_Some & H). destruct (_ && _) eqn:E; [|done]. simplify_eq. bools.
  destruct (ok_revokedAt k); [done|]. by destruct (ok_readOnlyUntil k).
Qed.

Lemma new_key_present raw k : ok_hashedKey k = sha256 raw → key_present k = true.
Proof. intros H. unfold key_present. by rewrite H, sha256_hex. Qed.

Definition keys_move (s s' : odoo_db) : Prop := keys_table_ok (og_keys s') ∧ keys_evolve (og_keys s) (og_keys s').

Lemma keys_still s s' : keys_table_ok (og_keys s) → og_keys s' = og_keys s → keys_move s s'.
Proof. intros H Heq. unfold keys_move. rewrite Heq. by split. Qed.

Lemma create_moves claims body b32 b8 ck a s id raw s' : keys_table_ok (og_keys s) →
  keys_POST sha256 claims body b32 b8 ck a s = Ok (id, raw, s') → keys_move s s'.
Proof.
  intros Hok H. unfold keys_POST in H. destruct claims as [m|]; [|done]. rinv.
  destruct (keyInputSchema _) as [[name desc]|]; [|done]. cbn in H. apply active_tenant_Ok, fence_Ok, billed_Ok in H.
  rinv. simplify_eq. edestruct insert_key_ok as (H1 & H2 & _); [exact Hok|eassumption| |by split].
  constructor; cbn; [unfold MAX_INT4; lia|done|right; by eapply new_key_present].
Qed.

Lemma revoke_moves m id remove ck a s s' : keys_table_ok (og_keys s) →
  revoke_transaction m id remove ck a s = Ok s' → keys_move s s'.
Proof.
  intros Hok H%active_tenant_Ok. destruct (key_of _ _ s) as [k|] eqn:Hk; [|done].
  destruct (key_present k) eqn:Hp; [|done]. apply fence_Ok in H. simplify_eq. apply key_of_Some in Hk as [Hk _].
  destruct (proj1 Hok _ _ Hk) as [Hrev Hgr Hh]. unfold MAX_INT4 in *. eapply rewrite_key; [done|exact Hk|..].
  - constructor; cbn; [done|split; [by eexists|by right]|unfold next_revision; lia|right; right; by eexists].
  - constructor; cbn; [unfold next_revision, MAX_INT4; lia|done|]. destruct remove; [by left|by right].
  - cbn. destruct remove; [by right|by left].
Qed.

Lemma rotate_moves m id b32 b8 ck a s newId raw s' : keys_table_ok (og_keys s) →
  rotate_transaction sha256 m id b32 b8 ck a s = Ok (newId, raw, s') → keys_move s s'.
Proof.
  intros Hok H%active_tenant_Ok. destruct (key_of _ _ s) as [k|] eqn:Hk; [|done]. apply key_of_Some in Hk as [Hk _].
  apply rbind_Ok in H as ([] & Hr%throw_if_Ok & H%fence_Ok). cbn in H. apply rbind_Ok in H as (s1 & Hins & H). simplify_eq.
  destruct (proj1 Hok _ _ Hk) as [Hrev Hgr Hh].
  edestruct insert_key_ok as (H1 & H2 & H3 & H4); [exact Hok|exact Hins|constructor; cbn; [done|done|right; by eapply new_key_present]|].
  assert (og_keys s1 !! id = Some k) as Hk1.
  { rewrite H4, lookup_insert_ne; [done|]. intros <-. congruence. }
  destruct (ok_revokedAt k) eqn:Hrk; [done|]. unfold keys_move. cbn [og_keys on_keys].
  edestruct (rewrite_key (og_keys s1) id k (retiring_key (clock_timestamp ck) (clock_timestamp ck + ODOO_KEY_ROTATION_GRACE_MS) k)) as [H5 H6];
    [done|exact Hk1|..]; [| |by left|].
  - constructor; cbn; [done|rewrite Hrk; by intros [? ?]|lia|by left].
  - constructor; cbn; [done|intros u Hu; injection Hu as <-; by eexists|exact Hh].
  - split; [exact H5|]. etrans; [exact H2|exact H6].
Qed.

(** What an accepted configuration does. *)
Lemma configure_inv id p enabled revision ck s s' : configure_transaction id p enabled revision ck s = Ok (Some s') →
  ∃ k, live_row id p s = Some k ∧ ok_odooEnabledRevision k < revision ∧
    s' = on_keys (<[id := configured_key enabled revision (clock_timestamp ck) k]> (og_keys s)) s.
Proof.
  intros H%active_tenant_Ok. destruct (live_row id p s) as [k|]; [|done]. exists k. split; [done|].
  assert ((if ok_odooEnabledRevision k <? revision
           then Ok (Some (on_keys (<[id := configured_key enabled revision (clock_timestamp ck) k]> (og_keys s)) s))
           else Ok None) = (Ok (Some s') : result _ Z)) as Hc by (destruct enabled; [by apply billed_Ok in H|done]).
  destruct (ok_odooEnabledRevision k <? revision) eqn:Hlt; [|done]. injection Hc as <-. bools. done.
Qed.

Lemma configuration_inv principal body ck s later :
  (configuration_PATCH principal body ck s later).2 = s ∨
  ∃ p enabled revision, principal = Some p ∧ op_readOnly p = false ∧ revision ≤ MAX_INT4 ∧
    configure_transaction (op_id p) (op_key p) enabled revision ck s = Ok (Some (configuration_PATCH principal body ck s later).2).
Proof.
  unfold configuration_PATCH. destruct principal as [p|]; [|by left]. destruct (op_readOnly p) eqn:Hro; [by left|].
  destruct body as [[| | | | |l]|]; try (by left). destruct (json_field (JObject l) "enabled") as [[|b| | | |]|]; try (by left).
  destruct (json_field (JObject l) "revision") as [[| |n| | |]|]; try (by left).
  destruct (_ || _) eqn:Hb; [by left|]. bools.
  destruct (configure_transaction _ _ _ _ _ _) as [[s'|]|] eqn:Hc; [right|by left|by left]. exists p, b, n. by split_and!.
Qed.

Lemma configure_moves principal body ck s later : keys_table_ok (og_keys s) →
  keys_move s (configuration_PATCH principal body ck s later).2.
Proof.
  intros Hok. destruct (configuration_inv principal body ck s later) as [->|(p & b & n & _ & _ & Hn & Hc)]; [by apply keys_still|].
  apply configure_inv in Hc as (k & (Hk & Hr & Hu & _)%live_row_Some & Hlt & ->).
  destruct (proj1 Hok _ _ Hk) as [Hrev Hgr Hh]. unfold MAX_INT4 in *. eapply rewrite_key; [done|exact Hk|..|by left].
  - constructor; cbn; [done|by rewrite Hr; intros [? ?]|lia|right; left; lia].
  - constructor; cbn; [unfold MAX_INT4; lia|exact Hgr|exact Hh].
Qed.

Lemma touch_moves id t at_ s : keys_table_ok (og_keys s) → keys_move s (touch_key id t at_ s).
Proof.
  intros Hok. unfold touch_key. destruct (key_of t id s) as [k|] eqn:Hk; [|by apply keys_still].
  apply key_of_Some in Hk as [Hk _]. destruct (proj1 Hok _ _ Hk) as [Hrev Hgr Hh]. eapply rewrite_key; [done|exact Hk|..|by left].
  - constructor; cbn; auto; lia.
  - by constructor.
Qed.

(** Every step of the routes keeps the table in order. *)
Lemma keys_step s s' : odoo_step s s' → keys_table_ok (og_keys s) → keys_move s s'.
Proof.
  intros Hstep Hok. destruct Hstep as [claims body b32 b8 ck a s id raw s' H|claims body ck a s s' H
    |claims id b32 b8 ck a s newId raw s' H|principal body ck later s|enabled active req ck touched d s_read s|rest s].
  - by eapply create_moves.
  - unfold keys_DELETE in H. destruct claims as [m|]; [|done]. rinv. by eapply revoke_moves.
  - unfold rotate_POST in H. destruct claims as [m|]; [|done]. rinv. by eapply rotate_moves.
  - by apply configure_moves.
  - unfold validateOdooKey. pose proof (keys_still s s Hok eq_refl). repeat (case_match; try done); cbn; auto using touch_moves.
  - by apply keys_still.
Qed.

Lemma keys_run s s' : rtc odoo_step s s' → keys_table_ok (og_keys s) → keys_move s s'.
Proof.
  induction 1 as [s|s s1 s2 Hstep _ IH]; intros Hok; [by apply keys_still|].
  destruct (keys_step _ _ Hstep Hok) as [H1 H2]. destruct (IH H1) as [H3 H4]. split; [done|by etrans].
Qed.

(** The stores of a gateway that started without keys. *)
Definition keys_reachable (s : odoo_db) : Prop := ∃ s0, og_keys s0 = ∅ ∧ rtc odoo_step s0 s.

Lemma keys_reachable_ok s : keys_reachable s → keys_table_ok (og_keys s).
Proof.
  intros (s0 & H0 & Hrun). apply (keys_run s0 s Hrun). rewrite H0. split; [apply map_Forall_empty|done].
Qed.

(** ** What authenticates *)

(** The state of a key that a request may use, and whether only to read. *)
Definition in_use (ck : clock) (k : odoo_key) (readOnly : bool) : Prop :=
  if readOnly then ∃ t, ok_revokedAt k = Some t ∧ ok_readOnlyUntil k = Some (t + ODOO_KEY_ROTATION_GRACE_MS) ∧
    t ≤ clock_timestamp ck < t + ODOO_KEY_ROTATION_GRACE_MS
  else ok_revokedAt k = None ∧ ok_readOnlyUntil k = None.

Lemma usable_in_use ck hashed id k : key_row_ok id k → usable_key ck hashed k = true ↔
  ok_hashedKey k = hashed ∧ in_use ck k (is_some (ok_revokedAt k) && is_some (ok_readOnlyUntil k)).
Proof.
  intros [_ Hg _]. unfold usable_key, in_use. rewrite andb_true_iff, bool_decide_eq_true.
  destruct (ok_revokedAt k) as [t|], (ok_readOnlyUntil k) as [u|]; cbn; try destruct (Hg _ eq_refl) as (t' & Ht & ->); simplify_eq.
  - rewrite andb_true_iff, Z.leb_le, Z.ltb_lt. split; [intros [? ?]; split; [done|by eexists]|].
    intros [? (t1 & ? & ? & ?)]. by simplify_eq.
  - split; [by intros [_ ?]|by intros [_ [? _]]].
  - naive_solver.
Qed.

(** A request is authenticated as exactly the key whose digest it presents, as
    long as that key is live or within its grace, switched on, and of an active
    tenant; the grace makes it read-only. *)
Theorem odoo_authentication_exact s req ck touched d s2 p : keys_reachable s →
  (validateOdooKey sha256 true true req ck touched d s s2).1 = Some p ↔
  og_keys s !! op_id p = Some (op_key p) ∧ startsWith (presented_key req) "odoo_" = true ∧
  ok_hashedKey (op_key p) = sha256 (presented_key req) ∧ in_use ck (op_key p) (op_readOnly p) ∧
  requireActiveTenant d (ok_tenantId (op_key p)) = Ok tt ∧ ok_odooEnabled (op_key p) = true.
Proof.
  intros [Hrows Huniq]%keys_reachable_ok. unfold validateOdooKey, hashKey.
  assert (∀ t, is_none (requireActiveTenantOrNull d t) = false ↔ requireActiveTenant d t = Ok tt) as Hact.
  { intros t. unfold requireActiveTenantOrNull. by destruct (requireActiveTenant d t) as [[]|]. }
  destruct (startsWith (presented_key req) "odoo_"); [|naive_solver]. cbn [negb]. split.
  - destruct (find_row _ _) as [[id k]|] eqn:Hf; [|done]. apply find_row_Some in Hf as [Hk Hu].
    apply (usable_in_use _ _ id) in Hu as [Hh Hu]; [|by apply Hrows]. destruct (_ || _ || _); [done|]. cbn [andb].
    destruct (is_none _) eqn:Ha; [done|]. destruct (ok_odooEnabled k) eqn:He; [|done]. cbn. intros [= <-]. cbn.
    by rewrite <-Hact.
  - intros (Hk & _ & Hh & Hu & Ha & He).
    assert (op_readOnly p = is_some (ok_revokedAt (op_key p)) && is_some (ok_readOnlyUntil (op_key p))) as Hro.
    { unfold in_use in Hu. destruct (op_readOnly p); [destruct Hu as (t & -> & -> & _)|destruct Hu as [-> ->]]; done. }
    rewrite (find_row_unique _ _ (op_id p) (op_key p)); [|done|apply (usable_in_use _ _ (op_id p)); [by apply Hrows|by rewrite <-Hro]|].
    + rewrite Hh, bool_decide_true by done. cbn [negb orb].
      replace (is_some (ok_revokedAt (op_key p)) && negb _) with false
        by (unfold in_use in Hu; destruct (op_readOnly p); [destruct Hu as (t & -> & -> & _)|destruct Hu as [-> ->]]; done).
      replace (is_none (ok_revokedAt (op_key p)) && _) with false
        by (unfold in_use in Hu; destruct (op_readOnly p); [destruct Hu as (t & -> & -> & _)|destruct Hu as [-> ->]]; done).
      cbn [orb andb]. rewrite (proj2 (Hact _)) by done. rewrite He, <-Hro. cbn. by destruct p.
    + intros id k Hk' Hu'. apply (usable_in_use _ _ id) in Hu' as [Hh' _]; [|by apply Hrows]. eapply Huniq; [done|done|congruence].
Qed.

(** C28. A key that was revoked or rotated never comes back, whatever happens to
    the keys afterwards: it authenticates nothing but reads, and those only
    within the hour after its rotation (never after a revocation); no job is
    admitted under it, no configuration of it is accepted and it cannot be
    rotated again. *)
Theorem retired_key_never_returns s s' id k t
  (Hs : keys_reachable s) (Hrun : rtc odoo_step s s') (Hk : og_keys s !! id = Some k) (Ht : ok_revokedAt k = Some t) :
  (∀ enabled active req ck touched d s2 p, (validateOdooKey sha256 enabled active req ck touched d s' s2).1 = Some p →
     op_id p = id → op_readOnly p = true ∧ ok_readOnlyUntil k = Some (t + ODOO_KEY_ROTATION_GRACE_MS) ∧
       clock_timestamp ck < t + ODOO_KEY_ROTATION_GRACE_MS) ∧
  (∀ tenantId, credential_live (odoo_gateway s') tenantId id = false) ∧
  (∀ p body ck later, op_id p = id → (configuration_PATCH (Some p) body ck s' later).2 = s') ∧
  (∀ m b32 b8 ck a r, rotate_transaction sha256 m id b32 b8 ck a s' ≠ Ok r).
Proof.
  pose proof (keys_reachable_ok _ Hs) as Hok. destruct (keys_run _ _ Hrun Hok) as [Hok' Hev].
  destruct (Hev _ _ Hk) as (k' & Hk' & [_ Hrev _ _]). destruct (Hrev (mk_is_Some _ _ Ht)) as [[t' Ht'] Hun]. split_and!.
  - intros enabled active req ck touched d s2 p Hv <-. unfold validateOdooKey in Hv. destruct (negb _); [done|].
    destruct (find_row _ _) as [[id2 k2]|] eqn:Hf; [|done]. apply find_row_Some in Hf as [Hk2 Hu].
    assert (op_id p = id2 ∧ op_readOnly p = is_some (ok_revokedAt k2) && is_some (ok_readOnlyUntil k2)) as [<- ->]
      by (repeat (case_match; try done); cbn in Hv; by injection Hv as <-).
    simplify_eq. apply (usable_in_use _ _ (op_id p)) in Hu as [_ Hu]; [|by apply Hok'].
    unfold in_use in Hu. rewrite Ht' in Hu |- *. cbn in Hu |- *. destruct (ok_readOnlyUntil k') as [u|]; [|by destruct Hu].
    destruct Hun as [Hun|]; [|done]. symmetry in Hun. destruct (kr_grace _ _ (proj1 Hok _ _ Hk) _ Hun) as (t0 & Ht0 & ->).
    simplify_eq. destruct Hu as (t1 & [= ->] & [= Heq] & Hlt). split_and!; [done|done|lia].
  - intros tenantId. unfold credential_live. cbn. rewrite lookup_fmap, Hk'. cbn. rewrite Ht'. cbn. by rewrite andb_false_r.
  - intros p body ck later <-. destruct (configuration_inv (Some p) body ck s' later) as [|(p0 & b & n & [= <-] & _ & _ & Hc)]; [done|].
    apply configure_inv in Hc as (k2 & (Hk2 & Hr2 & _)%live_row_Some & _). congruence.
  - intros m b32 b8 ck a r H%active_tenant_Ok. destruct (key_of _ _ s') as [k2|] eqn:Hk2; [|done].
    apply key_of_Some in Hk2 as [Hk2 _]. simplify_eq. by rewrite Ht' in H.
Qed.

(** The activation switch follows the revisions of Odoo: over any run the
    revision of a key never goes back and stays a 32-bit number, the switch of a
    key that was not retired changes only together with a larger revision, and a
    request whose revision is not larger than one the key ever had (a delayed or
    repeated one) changes nothing, in whatever order it arrives. *)
Theorem activation_follows_revisions s s' id k
  (Hs : keys_reachable s) (Hrun : rtc odoo_step s s') (Hk : og_keys s !! id = Some k) :
  ∃ k', og_keys s' !! id = Some k' ∧ ok_tenantId k' = ok_tenantId k ∧
    ok_odooEnabledRevision k ≤ ok_odooEnabledRevision k' ≤ MAX_INT4 ∧
    (ok_revokedAt k' = None → ok_odooEnabled k' ≠ ok_odooEnabled k →
       ok_odooEnabledRevision k < ok_odooEnabledRevision k') ∧
    ∀ p enabled revision ck, revision ≤ ok_odooEnabledRevision k →
      ∀ r, configure_transaction id p enabled revision ck s' = Ok r → r = None.
Proof.
  pose proof (keys_reachable_ok _ Hs) as Hok. destruct (keys_run _ _ Hrun Hok) as [Hok' Hev].
  destruct (Hev _ _ Hk) as (k' & Hk' & [Hten Hrev Hle Hen]). exists k'. pose proof (kr_revision _ _ (proj1 Hok' _ _ Hk')).
  split_and!; [done|done|lia|lia|..].
  - intros Hr Hne. destruct Hen as [|[|[? ?]]]; [done|done|congruence].
  - intros p enabled revision ck Hold [s2|] Hc; [|done]. exfalso.
    apply configure_inv in Hc as (k2 & (Hk2 & _)%live_row_Some & Hlt & _). simplify_eq. lia.
Qed.
End runs.

(** ** Instances *)

Definition no_keys : odoo_db := {| og_keys := ∅; og_rest := service_db |}.

Definition unwrap_key (m : result (string * string * odoo_db) Z) : odoo_db :=
  match m with Ok (_, _, s) => s | Err _ => no_keys end.

(** A key is created, switched on with revision 5, and rotated at 2,000. *)
Definition one_key : odoo_db :=
  unwrap_key (keys_POST hashed (Some admin_claims) (Some (JObject [])) "b" "1" (at_time 1000) admin_auth no_keys).

Definition asked (raw : string) : odoo_request := {| or_authorization := Some ("Bearer " +:+ raw); or_apiKey := None |}.

Definition door (raw : string) (t : Z) (s : odoo_db) : option odoo_principal :=
  (validateOdooKey hashed false true (asked raw) (at_time t) false service_db s s).1.

Definition switch (enabled : bool) (revision : Z) : option json :=
  Some (JObject [("enabled", JBool enabled); ("revision", JNumber revision)]).

Definition key_on : odoo_db := (configuration_PATCH (door "odoo_b" 1500 one_key) (switch true 5) (at_time 1500) one_key one_key).2.

Definition key_rotated : odoo_db :=
  unwrap_key (rotate_POST hashed (Some admin_claims) "key_1" "c" "2" (at_time 2000) admin_auth key_on).

Definition row_one (s : odoo_db) : odoo_key := default (new_key "" "" None "" 0) (og_keys s !! "key_1").

Lemma hashed_hex raw : startsWith (hashed raw) "deleted:" = false.
Proof. reflexivity. Qed.

Lemma key_on_reachable : keys_reachable hashed key_on.
Proof.
  exists no_keys. split; [reflexivity|].
  eapply rtc_l; [eapply (os_create _ (Some admin_claims) (Some (JObject [])) "b" "1" (at_time 1000) admin_auth); vm_compute; reflexivity|].
  eapply rtc_l; [apply (os_configure _ (door "odoo_b" 1500 one_key) (switch true 5) (at_time 1500) one_key)|]. apply rtc_refl.
Qed.

Lemma key_rotates : odoo_step hashed key_on key_rotated.
Proof. eapply (os_rotate _ (Some admin_claims) "key_1" "c" "2" (at_time 2000) admin_auth). vm_compute. reflexivity. Qed.

Lemma key_rotated_reachable : keys_reachable hashed key_rotated.
Proof.
  destruct key_on_reachable as (s0 & H0 & Hrun). exists s0. split; [done|]. etrans; [exact Hrun|]. apply rtc_once, key_rotates.
Qed.

Lemma retired_key_never_returns_witness :
  (op_readOnly <$> door "odoo_b" 3000 key_rotated) = Some true ∧ (op_readOnly <$> door "odoo_c" 3000 key_rotated) = Some false ∧
  door "odoo_b" 3602000 key_rotated = None ∧ credential_live (odoo_gateway key_rotated) "t1" "key_1" = false.
Proof.
  split; [vm_compute; reflexivity|]. split; [vm_compute; reflexivity|]. split; [vm_compute; reflexivity|].
  destruct (retired_key_never_returns hashed hashed_hex key_rotated key_rotated "key_1" (row_one key_rotated) 2000) as (_ & H & _);
    [exact key_rotated_reachable|apply rtc_refl|vm_compute; reflexivity..|]. apply H.
Defined.

Lemma activation_follows_revisions_witness :
  ok_odooEnabled (row_one key_on) = true ∧
  (configuration_PATCH (door "odoo_b" 1600 key_on) (switch false 4) (at_time 1600) key_on key_on).1 = StaleRevision true 5 ∧
  ∃ k', og_keys key_rotated !! "key_1" = Some k' ∧ 5 ≤ ok_odooEnabledRevision k'.
Proof.
  split; [vm_compute; reflexivity|]. split; [vm_compute; reflexivity|].
  destruct (activation_follows_revisions hashed hashed_hex key_on key_rotated "key_1" (row_one key_on)) as (k' & Hk' & _ & [Hle _] & _);
    [exact key_on_reachable|apply rtc_once, key_rotates|vm_compute; reflexivity|]. exists k'. split; [exact Hk'|exact Hle].
Defined.
