(* ===== verification/OdooJobs.v ===== *)
(** * OdooJobs: submitting and looking up jobs from Odoo

    [src/app/api/print/jobs/route.ts] ([POST] and [GET]) and
    [src/app/api/print/jobs/batch-status/route.ts], on top of the enqueue
    transaction ([JobService]) and the credentials ([OdooKeys]).

    The principal is what [validateOdooKey] answered before; the transaction
    runs on a later database, and the lookup of a reused job on a later one
    still. [Date.parse] of the expiry is an argument. *)

From S2P Require Import Prelude DatabaseTime JobStatus Json Schema Authority Availability Payload.
From S2P Require Import PrinterVirtual Capability Entitlements Samples JobProtocol JobDelivery JobMaintenance AgentJobs.
From S2P Require Import JobService Lifecycle Operator Sessions Passwords Pipeline Discovery OdooKeys.

(** ** Requests *)

Definition MAX_PRINT_BODY : Z := 8 * 1024 * 1024.
Definition MAX_BATCH_BODY : Z := 64 * 1024.

Record print_body := {
  pb_printerId : string;
  pb_documentType : string;
  pb_destination : option string;
  pb_payload : option json;
  pb_expiresAt : option string;
  pb_idempotencyKey : option string;
}.

Definition bodySchema (body : json) : option print_body :=
  match body with
  | JObject l =>
      let field := json_field (JObject l) in
      printerId ← field "printerId" ≫= trimmed_between 1 120;
      documentType ← field "documentType" ≫= trimmed_between 1 120;
      destination ← absent_or (trimmed_between 1 255) (field "destination");
      expiresAt ← absent_or any_text (field "expiresAt");
      idempotencyKey ← absent_or (trimmed_between 1 200) (field "idempotencyKey");
      if only_keys ["printerId"; "documentType"; "destination"; "payload"; "expiresAt"; "idempotencyKey"] l
      then Some {| pb_printerId := printerId; pb_documentType := documentType; pb_destination := destination;
                   pb_payload := field "payload"; pb_expiresAt := expiresAt; pb_idempotencyKey := idempotencyKey |}
      else None
  | _ => None
  end.

(** ** Answers *)

(** [responseForRow]. *)
Record job_view := {
  jv_jobId : string;
  jv_status : JobStatus;
  jv_printerId : string;
  jv_agentId : string;
  jv_destination : option string;
  jv_documentType : option string;
  jv_error : option string;
}.

Definition view_of_job (id : string) (j : print_job) : job_view := {|
  jv_jobId := id; jv_status := pj_status j; jv_printerId := pj_printerId j; jv_agentId := pj_agentId j;
  jv_destination := pj_destination j; jv_documentType := pj_documentType j; jv_error := pj_error j |}.

Definition view_of_receipt (id : string) (r : receipt) : job_view := {|
  jv_jobId := id; jv_status := rc_status r; jv_printerId := rc_printerId r; jv_agentId := rc_agentId r;
  jv_destination := rc_destination r; jv_documentType := rc_documentType r; jv_error := rc_error r |}.

Inductive print_answer : Type :=
| PrintRefused (status : Z) (code : string)
| JobShown (status : Z) (view : job_view).

(** A job or receipt of the tenant that came from Odoo. *)
Definition odoo_job (tenantId : string) (j : print_job) : bool := (pj_tenantId j == tenantId) && is_some (pj_apiKeyId j).
Definition odoo_receipt (tenantId : string) (r : receipt) : bool := (rc_tenantId r == tenantId) && is_some (rc_apiKeyId r).

(** What an error of the service is answered with. *)
Definition refusal (keyed : bool) (e : enqueue_error) : Z * string :=
  match e with
  | BillingError (TenantPrintQuotaExceededError _ _ _ _) => (429, "PRINT_QUOTA_EXCEEDED")
  | BillingError (TenantEntitlementError _ _ _) => (429, "TENANT_ENTITLEMENT_EXCEEDED")
  | BillingError TenantSubscriptionRequiredError => (403, "TENANT_SUBSCRIPTION_REQUIRED")
  | BillingError (TenantEntitlementConfigError _) => (403, "TENANT_ENTITLEMENT_UNAVAILABLE")
  | BillingError TenantSuspendedError => (403, "TENANT_SUSPENDED")
  | BillingError TenantDeletedError => (403, "TENANT_DELETED")
  | AgentQueueFullError _ _ => (503, "AGENT_QUEUE_FULL")
  | AgentQueuedJobsFullError _ _ => (503, "AGENT_QUEUED_QUEUE_FULL")
  | PrintJobCapabilityError _ => (422, "CAPABILITY_MISMATCH")
  | PrintJobInputError _ code status => (status, code)
  | PayloadError _ => (400, "INVALID_PAYLOAD")
  | IdempotencyConflict => if keyed then (409, "IDEMPOTENCY_CONFLICT") else (500, "INTERNAL_ERROR")
  | UniqueViolation => (500, "INTERNAL_ERROR")
  end.

(** The [Retry-After] of an exhausted quota, in seconds: [Math.ceil] of the time
    to the end of the period, at least one, or a minute without a clock. *)
Definition quota_retry_after (periodEnd : option Z) (databaseNow : option Z) : option Z :=
  periodEnd ← periodEnd;
  match databaseNow with
  | Some nowMs => Some (Z.max 1 (- ((nowMs - periodEnd) / 1000)))
  | None => Some 60
  end.

Section odoo_jobs.
Context (sha256 : string → string) (decode : string → bytes) (Date_parse : string → option Z).
Context (utf8_length : string → Z) (jsonb_text_length octets : json → Z) (toISOString : Z → string).
Context (env : option jsnum).
Abbreviation create := (createPrintJobForPrinter sha256 decode Date_parse utf8_length jsonb_text_length).
Abbreviation sys := (system_step sha256 decode Date_parse utf8_length jsonb_text_length octets toISOString env).

(** [undefined] without a value; [None] is not a date. *)
Definition parseExpiresAt (value : option string) : option (option jsdate) :=
  if truthy value then ms ← Date_parse (coalesce value ""); Some (Some (Some ms)) else Some None.

Definition odoo_options (p : odoo_principal) (b : print_body) (expiresAt : option jsdate) (requestId : string)
    : CreatePrintJobOptions := {|
  co_managerAuthority := None; co_agentDiagnosticAuthority := None; co_requestedBy := "odoo";
  co_idempotencyKey := pb_idempotencyKey b; co_tenantId := ok_tenantId (op_key p); co_destination := pb_destination b;
  co_documentType := Some (pb_documentType b); co_expiresAt := expiresAt; co_rateLimitKeyId := Some (op_id p);
  co_requestId := Some requestId; co_reprintOfJobId := None |}.

(** The record of a reused job, from the queue or from the archive. *)
Definition reused_answer (tenantId id : string) (d : db) : print_answer :=
  match print_jobs d !! id with
  | Some j => if odoo_job tenantId j then JobShown 200 (view_of_job id j)
              else match receipts d !! id with
                   | Some r => if odoo_receipt tenantId r then JobShown 200 (view_of_receipt id r)
                               else PrintRefused 409 "IDEMPOTENCY_CONFLICT"
                   | None => PrintRefused 409 "IDEMPOTENCY_CONFLICT"
                   end
  | None => match receipts d !! id with
            | Some r => if odoo_receipt tenantId r then JobShown 200 (view_of_receipt id r)
                        else PrintRefused 409 "IDEMPOTENCY_CONFLICT"
            | None => PrintRefused 409 "IDEMPOTENCY_CONFLICT"
            end
  end.

(** [body] is [None] when it is not JSON; [d_read], [d] and [later] are what the
    service reads before, its transaction sees, and the route reads after. *)
Definition print_POST (content_length : option string) (principal : option odoo_principal) (body : option json)
    (requestId : string) (a : auth_db) (ck : clock) (rawNow : dbtime) (nanoid : string) (d_read d later : db)
    : print_answer * db :=
  if hasBodyOverLimit content_length MAX_PRINT_BODY then (PrintRefused 413 "", d)
  else match principal with
  | None => (PrintRefused 401 "", d)
  | Some p =>
      if op_readOnly p then (PrintRefused 409 "API_KEY_READ_ONLY", d)
      else match body ≫= bodySchema with
      | None => (PrintRefused 400 "", d)
      | Some b =>
          match pb_payload b with
          | None => (PrintRefused 400 "", d)
          | Some payload =>
              match validatePrintJobPayload decode payload, parseExpiresAt (pb_expiresAt b) with
              | Ok validated, Some expiresAt =>
                  match create a ck rawNow nanoid (pb_printerId b) (payload_json validated)
                          (odoo_options p b expiresAt requestId) d_read d with
                  | Ok (r, d') =>
                      if cr_isReused r then (reused_answer (ok_tenantId (op_key p)) (cr_id r) later, d')
                      else (JobShown 201 {| jv_jobId := cr_id r; jv_status := cr_status r; jv_printerId := cr_printerId r;
                              jv_agentId := cr_agentId r; jv_destination := pb_destination b;
                              jv_documentType := Some (pb_documentType b); jv_error := None |}, d')
                  | Err e =>
                      let '(status, code) := refusal (truthy (pb_idempotencyKey b)) e in (PrintRefused status code, d)
                  end
              | _, _ => (PrintRefused 400 "", d)
              end
          end
      end
  end.

(** ** Lookups *)

(** The row or, without one, the receipt that a condition selects. *)
Definition find_shown (job : string → print_job → bool) (filed : string → receipt → bool) (tenantId : string) (d : db)
    : option job_view :=
  match head (filter (λ kv : string * print_job, job kv.1 kv.2 && odoo_job tenantId kv.2 = true) (map_to_list (print_jobs d))) with
  | Some (id, j) => Some (view_of_job id j)
  | None =>
      match head (filter (λ kv : string * receipt, filed kv.1 kv.2 && odoo_receipt tenantId kv.2 = true) (map_to_list (receipts d))) with
      | Some (id, r) => Some (view_of_receipt id r)
      | None => None
      end
  end.

Definition print_GET (principal : option odoo_principal) (rawId rawKey : option string) (d : db) : print_answer :=
  match principal with
  | None => PrintRefused 401 ""
  | Some p =>
      let id := trim (coalesce rawId "") in
      let key := trim (coalesce rawKey "") in
      if (key != "") && (200 <? strlen key) then PrintRefused 400 ""
      else if (id != "") && (key != "") then PrintRefused 400 ""
      else if (id == "") && (key == "") then PrintRefused 400 ""
      else
        match find_shown (λ i j, if id != "" then i == id else pj_idempotencyKey j == Some key)
                (λ i r, if id != "" then i == id else rc_idempotencyKey r == Some key) (ok_tenantId (op_key p)) d with
        | Some v => JobShown 200 v
        | None => PrintRefused 404 ""
        end
  end.

Definition batchQuerySchema (body : json) : option (list string) :=
  match body with
  | JObject l =>
      ids ← json_field (JObject l) "jobIds" ≫= list_up_to (Some 100) (trimmed_between 1 120);
      if (ids == []) || negb (only_keys ["jobIds"] l) then None else Some ids
  | _ => None
  end.

(** The jobs of the batch in the order of the two queries. *)
Definition batch_POST (content_length : option string) (principal : option odoo_principal) (body : option json) (d : db)
    : result (list job_view) Z :=
  if hasBodyOverLimit content_length MAX_BATCH_BODY then Err 413
  else match principal with
  | None => Err 401
  | Some p =>
      match body ≫= batchQuerySchema with
      | None => Err 400
      | Some ids =>
          let t := ok_tenantId (op_key p) in
          let rows := filter (λ kv : string * print_job, kv.1 ∈ ids ∧ odoo_job t kv.2 = true) (map_to_list (print_jobs d)) in
          let missing := filter (λ id, id ∉ rows.*1) ids in
          let filed := filter (λ kv : string * receipt, kv.1 ∈ missing ∧ odoo_receipt t kv.2 = true) (map_to_list (receipts d)) in
          Ok (map (λ kv : string * print_job, view_of_job kv.1 kv.2) rows ++
              map (λ kv : string * receipt, view_of_receipt kv.1 kv.2) filed)
      end
  end.

(** ** No job without a live key *)

Lemma create_needs_key a ck rawNow nanoid printerId payload o d_read d r d' keyId :
  create a ck rawNow nanoid printerId payload o d_read d = Ok (r, d') →
  co_rateLimitKeyId o = Some keyId → keyId ≠ "" → credential_live d (co_tenantId o) keyId = true.
Proof.
  intros H Hk Hne. apply not_false_is_true. intros Hdead.
  destruct (create_inv _ _ _ _ _ _ _ _ _ _ _ _ _ _ _ _ H) as (rb & p & _ & [(pr & ag & _ & _ & Hi)|(_ & _ & _ & Hrec)]).
  - unfold insertQueuedJobAtomically in Hi. rinv. unfold authority_fences in *. rinv.
    unfold require_credential, eq_tenantId in *. cbn in *. rewrite Hk in *. rewrite Hdead in *.
    rewrite bool_decide_false in * by done. done.
  - unfold recoverReceiptForMissingOwner in Hrec. rewrite Hk in Hrec.
    destruct (co_idempotencyKey o) as [key|]; [|done]. destruct (_ || _); [done|]. rinv. by rewrite Hdead in *.
Qed.

(** What an accepted submission went through. *)
Lemma print_POST_inv cl principal body requestId a ck rawNow nanoid d_read d later v d' :
  print_POST cl principal body requestId a ck rawNow nanoid d_read d later = (JobShown 201 v, d') →
  ∃ p b payload expiresAt r, principal = Some p ∧ op_readOnly p = false ∧ body ≫= bodySchema = Some b ∧
    create a ck rawNow nanoid (pb_printerId b) payload (odoo_options p b expiresAt requestId) d_read d = Ok (r, d') ∧
    cr_isReused r = false ∧ jv_jobId v = cr_id r ∧ jv_status v = queued.
Proof.
  unfold print_POST. destruct (hasBodyOverLimit _ _); [done|]. destruct principal as [p|]; [|done].
  destruct (op_readOnly p) eqn:Hro; [done|]. destruct (body ≫= bodySchema) as [b|] eqn:Hb; [|done].
  destruct (pb_payload b) as [payload|]; [|done]. destruct (validatePrintJobPayload decode payload) as [validated|]; [|done].
  destruct (parseExpiresAt _) as [e|]; [|done]. destruct (create _ _ _ _ _ _ _ _ _) as [[r d1]|err] eqn:Hc;
    [|by destruct (refusal _ _)].
  destruct (cr_isReused r) eqn:Hre.
  - intros H. injection H as H <-. unfold reused_answer in H. repeat case_match; try done; congruence.
  - intros [= <- <-]. exists p, b, (payload_json validated), e, r. split_and!; try done. cbn.
    destruct (create_new_inv _ _ _ _ _ _ _ _ _ _ _ _ _ _ _ _ Hc Hre) as (? & ? & ? & ? & ? & ? & ? & ? & ? & ? & ? & _ & _ & _ & _ & _ & _ & _ & -> & _).
    done.
Qed.

(** Revoking, rotating or switching off a key fences submissions that are
    under way: whatever the check at the door answered, a request whose key is
    not live when the transaction runs is refused, also when it repeats an
    accepted one, and nothing is written. *)
Theorem submission_needs_live_key cl p body requestId a ck rawNow nanoid d_read d later :
  op_id p ≠ "" → credential_live d (ok_tenantId (op_key p)) (op_id p) = false →
  ∃ status code, print_POST cl (Some p) body requestId a ck rawNow nanoid d_read d later = (PrintRefused status code, d).
Proof.
  intros Hne Hdead. unfold print_POST. destruct (hasBodyOverLimit _ _); [eauto|]. destruct (op_readOnly p); [eauto|].
  destruct (body ≫= bodySchema) as [b|]; [|eauto]. destruct (pb_payload b) as [payload|]; [|eauto].
  destruct (validatePrintJobPayload decode payload) as [validated|]; [|eauto]. destruct (parseExpiresAt _) as [e|]; [|eauto].
  destruct (create _ _ _ _ _ _ _ _ _) as [[r d1]|err] eqn:Hc; [|destruct (refusal _ _); eauto].
  exfalso. eapply create_needs_key in Hc; [|done|done]. cbn in Hc. congruence.
Qed.

(** ** An accepted job is found again *)

(** The first row of a condition that only one id can meet. *)
Lemma head_only {A} (m : gmap string A) (f : string → A → bool) id :
  (∀ i x, m !! i = Some x → f i x = true → i = id) →
  head (filter (λ kv : string * A, f kv.1 kv.2 = true) (map_to_list m)) = (x ← m !! id; if f id x then Some (id, x) else None).
Proof.
  intros Honly. assert (∀ i x, (i, x) ∈ filter (λ kv : string * A, f kv.1 kv.2 = true) (map_to_list m) ↔ m !! i = Some x ∧ f i x = true) as Hin.
  { intros i x. rewrite list_elem_of_filter, elem_of_map_to_list. cbn. tauto. }
  destruct (filter _ _) as [|[i y] l] eqn:E.
  - destruct (m !! id) as [x|] eqn:Hx; [|done]. cbn. destruct (f id x) eqn:Hf; [|done]. exfalso.
    by apply (elem_of_nil (id, x)), Hin.
  - destruct (proj1 (Hin i y)) as [Hi Hf]; [by left|]. pose proof (Honly _ _ Hi Hf) as ->. rewrite Hi. cbn. by rewrite Hf.
Qed.

Lemma find_shown_only jc rcc t d id :
  (∀ i x, print_jobs d !! i = Some x → jc i x && odoo_job t x = true → i = id) →
  (∀ i x, receipts d !! i = Some x → rcc i x && odoo_receipt t x = true → i = id) →
  find_shown jc rcc t d =
  match (x ← print_jobs d !! id; if jc id x && odoo_job t x then Some (view_of_job id x) else None) with
  | Some v => Some v
  | None => x ← receipts d !! id; if rcc id x && odoo_receipt t x then Some (view_of_receipt id x) else None
  end.
Proof.
  intros Hj Hr. unfold find_shown.
  rewrite (head_only (print_jobs d) (λ i x, jc i x && odoo_job t x) id Hj), (head_only (receipts d) (λ i x, rcc i x && odoo_receipt t x) id Hr).
  destruct (print_jobs d !! id) as [x|]; cbn; [destruct (_ && _); [done|]|]; destruct (receipts d !! id) as [r|]; cbn; try done;
    by destruct (_ && _).
Qed.

(** What a lookup shows of a job that was once [j], if only it can be meant. *)
Lemma shown_again jc rcc d id j t : keys_ok (print_jobs d) (receipts d) → fate sha256 d id j → odoo_job t j = true →
  (∀ i x, print_jobs d !! i = Some x → jc i x && odoo_job t x = true → i = id) →
  (∀ i x, receipts d !! i = Some x → rcc i x && odoo_receipt t x = true → i = id) →
  (∀ x, print_jobs d !! id = Some x → pj_idempotencyKey x = pj_idempotencyKey j → jc id x = true) →
  (∀ x, receipts d !! id = Some x → rc_idempotencyKey x = pj_idempotencyKey j → rcc id x = true) →
  ∃ v, find_shown jc rcc t d = Some v ∧ jv_jobId v = id ∧ outcome d id = Some (jv_status v) ∧
    v = match print_jobs d !! id with
        | Some x => view_of_job id x
        | None => from_option (view_of_receipt id) (view_of_job id j) (receipts d !! id)
        end.
Proof.
  intros (K1 & _ & _) Hf Hodoo Hj Hr Hjc Hrc. rewrite (find_shown_only _ _ _ _ id Hj Hr). unfold odoo_job in Hodoo. bools.
  unfold outcome. destruct Hf as [j' Hj' [(Ht & _ & _ & _ & _ & _ & Hk & Ha & _) _]|j' rc Hr' [(Ht & _ & _ & _ & _ & _ & Hk & Ha & _) _] (Rt & Rk & Ra & _) _ _].
  - rewrite Hj'. cbn. rewrite (Hjc j') by done. unfold odoo_job. rewrite Ht, Ha, bool_decide_true by done.
    match goal with H : is_some _ = true |- _ => rewrite H end. cbn. by eexists.
  - destruct (print_jobs d !! id) as [x|] eqn:Hx; [destruct (K1 _ _ Hx) as [Hn _]; congruence|]. cbn. rewrite Hr'. cbn.
    rewrite (Hrc rc) by congruence. unfold odoo_receipt. rewrite Rt, Ra, Ht, Ha, bool_decide_true by done.
    match goal with H : is_some _ = true |- _ => rewrite H end. cbn. by eexists.
Qed.

Lemma schema_key body b k : body ≫= bodySchema = Some b → pb_idempotencyKey b = Some k →
  trim k = k ∧ k ≠ "" ∧ strlen k ≤ 200.
Proof.
  rewrite bind_Some. intros (v & _ & Hv) Hk. unfold bodySchema in Hv. destruct v as [| | | | |l]; try done.
  repeat (apply bind_Some in Hv as (? & ?Hv1 & Hv)). destruct (only_keys _ _); [|done]. injection Hv as <-. cbn in Hk. subst.
  unfold absent_or in *. destruct (json_field _ "idempotencyKey") as [w|]; [|done].
  match goal with H : Some <$> trimmed_between 1 200 w = _ |- _ => rename H into Hw end.
  apply fmap_Some in Hw as (k' & Hk' & [= <-]). unfold trimmed_between in Hk'. destruct w as [| | |s| |]; try done.
  unfold text_between in Hk'. destruct (_ && _) eqn:E; [|done]. injection Hk' as <-. bools.
  split_and!; [apply trim_idem| |done]. intros E0. by rewrite E0 in *.
Qed.

(** The row of an accepted submission, and what becomes of it. *)
Lemma accepted_fate cl p body requestId a ck rawNow nanoid d_read d later v d' d2 :
  reachable sha256 decode Date_parse utf8_length jsonb_text_length octets toISOString env d →
  print_POST cl (Some p) body requestId a ck rawNow nanoid d_read d later = (JobShown 201 v, d') →
  receipts d !! ("job_" +:+ nanoid) = None → rtc sys d' d2 →
  jv_jobId v = "job_" +:+ nanoid ∧ keys_ok (print_jobs d2) (receipts d2) ∧
  ∃ b j, body ≫= bodySchema = Some b ∧ pj_idempotencyKey j = pb_idempotencyKey b ∧
    odoo_job (ok_tenantId (op_key p)) j = true ∧ fate sha256 d2 (jv_jobId v) j.
Proof.
  intros Hd Hpost Hfresh Hsteps.
  destruct (print_POST_inv _ _ _ _ _ _ _ _ _ _ _ _ _ Hpost) as (p0 & b & payload & e & r & [= <-] & _ & Hb & Hc & Hnew & -> & _).
  assert (co_idempotencyKey (odoo_options p b e requestId) ≠ Some "") as Hne.
  { cbn. intros Hk. by destruct (schema_key _ _ _ Hb Hk) as (_ & ? & _). }
  destruct (reachable_inv _ _ _ _ _ _ _ _ _ Hd) as [Hkd _].
  destruct (create_keeps_keys _ _ _ _ _ _ _ _ _ _ _ _ _ _ _ _ Hkd Hne Hfresh Hc) as (Hk' & _ & _).
  destruct (steps_advance _ _ _ _ _ _ _ _ _ _ Hsteps Hk') as (Hk2 & Hf & _).
  destruct (create_new_inv _ _ _ _ _ _ _ _ _ _ _ _ _ _ _ _ Hc Hnew)
    as (rb & pl & pr & ag & dbNow & key & aa & pp & te & usage & ex & _ & _ & _ & _ & Hrs & _ & _ & -> & Had).
  destruct (admitted_frame _ _ _ _ _ _ _ _ _ _ _ _ _ _ Had) as (Hjobs & _). cbn in Hrs. injection Hrs as <-.
  split; [done|]. split; [done|]. eexists b, _. split; [done|]. split; [|split; [|apply Hf; eapply fate_live; [cbn; by rewrite Hjobs, lookup_insert_eq|reflexivity]]].
  - done.
  - unfold odoo_job. cbn. by rewrite bool_decide_true.
Qed.

(** No other job and no other receipt has the tenant's key. *)
Lemma key_alone d id j t k : keys_ok (print_jobs d) (receipts d) → fate sha256 d id j → pj_tenantId j = t →
  pj_idempotencyKey j = Some k →
  (∀ i x, print_jobs d !! i = Some x → pj_tenantId x = t → pj_idempotencyKey x = Some k → i = id) ∧
  (∀ i x, receipts d !! i = Some x → rc_tenantId x = t → rc_idempotencyKey x = Some k → i = id).
Proof.
  intros (K1 & K2 & K3) Hf Ht Hk.
  assert (∀ i x ir r, print_jobs d !! i = Some x → receipts d !! ir = Some r → pj_tenantId x = t → rc_tenantId r = t →
    pj_idempotencyKey x = Some k → rc_idempotencyKey r = Some k → False) as Hcross.
  { intros i x ir r Hx Hr Hxt Hrt Hxk Hrk. destruct (K1 _ _ Hx) as [_ Hn]. rewrite key_taken_false in Hn.
    specialize (Hn _ _ Hr). unfold same_key in Hn. rewrite Hxt, Hxk, Hrt, Hrk in Hn. by rewrite !bool_decide_true in Hn. }
  destruct Hf as [j' Hj' [(Ht' & _ & _ & _ & _ & _ & Hk' & _) _]|j' rc Hrc [(Ht' & _ & _ & _ & _ & _ & Hk' & _) _] (Rt & Rk & _) _ _].
  - split; intros i x Hx Hxt Hxk; [|exfalso; eapply (Hcross id j' i x); eauto; congruence].
    symmetry. eapply K2; [exact Hj'|exact Hx|]. split_and!; [exists k; congruence|congruence..].
  - split; intros i x Hx Hxt Hxk; [exfalso; eapply (Hcross i x id rc); eauto; congruence|].
    symmetry. eapply K3; [exact Hrc|exact Hx|]. unfold same_key. rewrite Rt, Rk, Ht', Hk', Ht, Hk, Hxt, Hxk. by rewrite !bool_decide_true.
Qed.

(** C9. An answer that got lost costs nothing: once a submission was accepted,
    any key of the tenant (a rotated one, or one in its grace) finds the job
    under its id and under its idempotency key, with the same answer and with
    the outcome the gateway has recorded, after any activity of the pipeline,
    whether the job is still queued, was printed or has been archived. *)
Theorem accepted_job_recoverable cl p body requestId a ck rawNow nanoid d_read d later v d' d2 p2 :
  reachable sha256 decode Date_parse utf8_length jsonb_text_length octets toISOString env d →
  print_POST cl (Some p) body requestId a ck rawNow nanoid d_read d later = (JobShown 201 v, d') →
  receipts d !! ("job_" +:+ nanoid) = None → trim ("job_" +:+ nanoid) = "job_" +:+ nanoid →
  rtc sys d' d2 → ok_tenantId (op_key p2) = ok_tenantId (op_key p) →
  ∃ v2, jv_jobId v2 = jv_jobId v ∧ outcome d2 (jv_jobId v) = Some (jv_status v2) ∧
    print_GET (Some p2) (Some (jv_jobId v)) None d2 = JobShown 200 v2 ∧
    ∀ b k, body ≫= bodySchema = Some b → pb_idempotencyKey b = Some k →
      print_GET (Some p2) None (Some k) d2 = JobShown 200 v2.
Proof.
  intros Hd Hpost Hfresh Htrim Hsteps Htenant.
  destruct (accepted_fate _ _ _ _ _ _ _ _ _ _ _ _ _ _ Hd Hpost Hfresh Hsteps) as (Hid & Hk2 & b & j & Hb & Hkey & Hodoo & Hf).
  rewrite Hid in *. set (jid := "job_" +:+ nanoid) in *.
  destruct (shown_again (λ i _, i == jid) (λ i _, i == jid) d2 jid j (ok_tenantId (op_key p)) Hk2 Hf Hodoo)
    as (v2 & Hv2 & Hv2id & Hout & Heq); [intros i x _ H; by bools|intros i x _ H; by bools|intros; by bsplit|intros; by bsplit|].
  exists v2. split_and!; [done|done|..].
  - unfold print_GET, coalesce. cbn [default from_option id]. rewrite Htrim, Htenant.
    assert (jid ≠ "") as Hne by done. rewrite (bool_decide_false (jid = "")) by done. cbn. by rewrite Hv2.
  - intros b' k Hb' Hk. assert (b' = b) as -> by congruence. destruct (schema_key _ _ _ Hb Hk) as (Htk & Hnk & Hlk).
    unfold print_GET, coalesce. cbn [default from_option id]. rewrite Htk, Htenant, (bool_decide_false (k = "")) by done. cbn.
    rewrite (proj2 (Z.ltb_ge _ _)) by lia. cbn. rewrite Hk in Hkey. pose proof Hodoo as Hod. unfold odoo_job in Hod. bools.
    destruct (key_alone _ _ _ (ok_tenantId (op_key p)) k Hk2 Hf ltac:(done) Hkey) as [A1 A2].
    destruct (shown_again (λ _ x, pj_idempotencyKey x == Some k) (λ _ x, rc_idempotencyKey x == Some k) d2 jid j
      (ok_tenantId (op_key p)) Hk2 Hf Hodoo) as (v3 & Hv3 & _ & _ & Heq3).
    + intros i x Hx Hi. unfold odoo_job in Hi. bools. eauto.
    + intros i x Hx Hi. unfold odoo_receipt in Hi. bools. eauto.
    + intros x Hx Hxk. bsplit. congruence.
    + intros x Hx Hxk. bsplit. congruence.
    + rewrite (bool_decide_true ("" = "")) by done. cbn. rewrite Hv3. congruence.
Qed.
End odoo_jobs.

(** ** Instances *)

Definition sample_principal_key (id : string) : odoo_principal := {|
  op_id := id; op_key := new_key "t1" "Odoo" None (hashed id) 0; op_readOnly := false |}.

Definition invoice_body : option json := Some (JObject [
  ("printerId", JString " p1 "); ("documentType", JString "invoice"); ("idempotencyKey", JString "order-1");
  ("payload", pdf_payload)]).

Abbreviation sample_post := (print_POST id pdf_decode (λ _, None) strlen (λ v, strlen (stringify v))).

Definition posted_job (d : db) : print_answer * db :=
  sample_post None (Some (sample_principal_key "key1")) invoice_body "r1" sample_auth (at_time 2000) (DDate 2000) "x" d d d.

Definition submitted_db : db := (posted_job service_db).2.
Definition submitted_view : job_view :=
  match (posted_job service_db).1 with JobShown _ v => v | _ => view_of_job "" order_job end.

(** The job expires and is archived, and a rotated key asks for it. *)
Definition submitted_expired : db := (sweepPrintJobs None None 10 (idle_run overdue_time) submitted_db).2.

Definition submitted_filed : db :=
  (cleanupTerminalPrintJobs id None (at_time (overdue_time + hours 60)) None ∅ submitted_expired).2.

Lemma submitted_expires : sample_step submitted_db submitted_expired.
Proof. unfold submitted_expired. apply st_sweep. Qed.

Lemma submitted_files : sample_step submitted_expired submitted_filed.
Proof. unfold submitted_filed. apply st_retention. Qed.

Lemma accepted_job_recoverable_witness :
  print_jobs submitted_filed = ∅ ∧
  ∃ v2, print_GET (Some (sample_principal_key "key2")) None (Some "order-1") submitted_filed = JobShown 200 v2 ∧
    jv_jobId v2 = "job_x" ∧ outcome submitted_filed "job_x" = Some (jv_status v2).
Proof.
  split; [vm_compute; reflexivity|].
  destruct (accepted_job_recoverable id pdf_decode (λ _, None) strlen (λ v, strlen (stringify v)) (λ v, strlen (stringify v))
    (λ _, "") None None (sample_principal_key "key1") invoice_body "r1" sample_auth (at_time 2000) (DDate 2000) "x"
    service_db service_db service_db submitted_view submitted_db submitted_filed (sample_principal_key "key2"))
    as (v2 & H1 & H2 & _ & H3).
  - exists service_db. split; [reflexivity|]. split; [reflexivity|apply rtc_refl].
  - vm_compute. reflexivity.
  - apply lookup_empty.
  - reflexivity.
  - eapply rtc_l; [exact submitted_expires|]. apply rtc_once, submitted_files.
  - reflexivity.
  - exists v2. split; [eapply H3; vm_compute; reflexivity|]. split; [exact H1|exact H2].
Defined.

(** The key was rotated between the check and the transaction. *)
Lemma submission_needs_live_key_witness :
  ∃ status code, sample_post None (Some (sample_principal_key "key_1")) invoice_body "r1" sample_auth (at_time 2500) (DDate 2500)
    "y" service_db (odoo_gateway key_rotated) service_db = (PrintRefused status code, odoo_gateway key_rotated).
Proof.
  apply (submission_needs_live_key id pdf_decode (λ _, None) strlen (λ v, strlen (stringify v))); [done|].
  vm_compute. reflexivity.
Defined.
